(* ===== verification/_CoqProject ===== *)
-Q . S2P
Prelude.v
Bytes.v
Text.v
Paths.v
Messages.v
Hash.v
Keys.v
Store.v
Bolt.v
Bdb.v
BdbTx.v
Ds.v
Service.v
Instances.v
BoltFacts.v
DsFacts.v
Writer.v
Reader.v
Importer.v
Exporter.v
Model.v
Sessions.v
Headers.v
Adl.v
Access.v
DataSync.v
Migrations.v
MigrationFacts.v
Directory.v
Json.v
Pgdb.v
PgdbFacts.v
MapPg.v
Backends.v
Policies.v
Identity.v
Authorizer.v
AuthzFacts.v
CacheFacts.v
Authn.v
EndToEnd.v
Entra.v
Edge.v
Git.v
Config.v
Xdg.v
LocalPolicy.v
Daemon.v
DaemonFacts.v
Startup.v
Transfer.v
ToPostgres.v
Archive.v
TestRunner.v
Builtins.v
Oidc.v
Urls.v
JsonFiles.v
Cli.v
Templates.v
