(* ===== verification/Prelude.v ===== *)
(** * Eamerald: a directory and an authorizer

    Eamerald keeps a directory of objects and relations (its embedded directory service, under
    [src/internal/eds/pkg]) and answers access requests, either from the graph of relations or from
    a Rego policy (the authorizer, under [src/daemon/authorizer]).  A daemon ([src/daemon/app]) serves
    both; a command line ([src/mrld]) copies, backs up and tests directories.  This library models
    them and what surrounds them, and proves what the rest of the program relies on.

    ** The program and the files

    The directory, from the disk up:

    - [Bytes], [Text], [Paths], [Messages], [Hash]: Go strings, bytes and file paths, the protobuf
      messages as records, the hashes and integer encodings of [ds/hash.go].  [Json] has UTF-8, JSON arrays of strings and
      the page tokens of [pgdb/token.go].
    - [Keys]: the keys and the prefix and value filters of [ds] and [bdb] (Modules [ds] and [bdb]).
    - [Store]: the interface between the services and the storage ([store/store.go],
      [store/iterator.go]): the class [TxOps] is the Go interface, [TxLaws] its contract over an
      abstract directory (finite maps of objects and relations, a manifest, a model).  The services
      are proved against the contract only.
    - [Bolt], [Bdb], [BdbTx], [BoltFacts]: the first implementation ([bdb/*.go]) over bbolt.  The
      invariant is [repr]: the object-ordered and the subject-ordered bucket hold the same relations.
    - [Pgdb], [PgdbFacts], [MapPg]: the second implementation ([pgdb/*.go]) over Postgres, with the
      statements it sends.  [Backends]: the two answer the services alike.
    - [Ds], [DsFacts]: the domain helpers of [ds/*.go] over any store: metadata, manifest, statistics,
      checks, graph queries.
    - [Service], [Writer], [Reader], [Importer], [Exporter], [Model], [Access]: the gRPC services of
      [directory/v3], a definition per handler.  [Sessions]: their calls in any order on one store.
    - [Migrations], [MigrationFacts]: the schema migrations of [bdb/migrations].
    - [Directory]: opening a backend and loading the model ([directory/directory.go]).
    - [DataSync]: the client that copies another directory ([datasync/*.go]).

    The authorizer and what guards it:

    - [Policies]: the policies that OPA has loaded ([internal/runtime/bundles.go]).
    - [LocalPolicy]: the bundles that the runtime loads from the disk, and the search of a policy image
      ([internal/runtime/local.go]).
    - [Headers]: trace parents and request identifiers ([internal/header], the request middleware).
    - [Adl]: the decision log ([internal/adl]).
    - [Identity]: from an identity to a user of the directory ([daemon/directory/identity.go]).
    - [Authorizer], [AuthzFacts], [CacheFacts]: the Access API ([daemon/authorizer/impl]) with the
      cache of prepared queries as explicit state; [CacheFacts] interleaves requests and reloads.
    - [Authn]: API keys ([daemon/authentication], [pkg/config/topaz_config.go]) and bearer tokens
      ([daemon/authorizer/impl/jwt-resolver.go]).
    - [Oidc]: the client that fetches an issuer's configuration
      ([daemon/authorizer/impl/oidc-client.go]), with the connections that it makes.
    - [Builtins]: the functions that policies call, [ds.*] and [az.*]
      ([daemon/authorizer/builtins]), over the directory's reader.
    - [EndToEnd]: the authorizer with the token resolver and the directory's reader over BoltDB.
    - [Entra], [Edge], [Git]: the plugins that fill the directory from Microsoft Entra ID, synchronise
      an edge directory and load policies from Git ([daemon/authorizer/plugins]).

    The daemon and the client:

    - [Config]: loading and validating the configuration, development certificates ([pkg/config],
      [internal/certs]); the disk is explicit state.
    - [Daemon], [DaemonFacts]: from the configuration to the servers, gateways and routes
      ([daemon/app], [daemon/service/builder/service_factory.go]).  A call that panics is an outcome.
    - [Startup]: the goroutines of [StartServers] as a step relation, and [StopServers]
      ([daemon/service/builder/service_manager.go]).
    - [Transfer]: the client's export, import and manifest calls and the migration to another store
      ([mrld/clients/directory], [db/cmd/migrate_to_postgres.go]), with the services of [Exporter],
      [Importer] and [Model] on the two ends, each over any store that can be imported into (the class
      [Destination] of [Importer]).  [ToPostgres]: Postgres is one, and the migration from BoltDB to it.
    - [Archive]: backups and restores ([backup.go], [restore.go]).
    - [JsonFiles]: files of one JSON array, written text by text and read with a modelled
      [json.Decoder] ([mrld/js]), and the client's export, import and older backups made of them
      ([export.go], [import.go], [backup.go], [restore.go]).
    - [TestRunner]: the assertion runner ([mrld/cmd/common]).
    - [Cli]: the command line's context and defaults ([mrld/cc]), the container ([mrld/dockerx]), the
      commands that start, stop, install and configure the daemon ([mrld/cmd/eamerald],
      [mrld/cmd/configure]) and the generator of configurations ([pkg/config/generator.go]).  The
      state is a [world]: the disk, the engine and the configuration of the process.
    - [Xdg]: the directories of the user ([internal/xdg]), where files are created and searched.
    - [Urls], [Templates]: URLs ([net/url]), and the catalogs of templates: download, verification, and
      installation from the catalog to the running directory ([mrld/cmd/templates], with the commands
      of [mrld/cmd/directory] on manifests and data), which composes [Cli], [Model], [JsonFiles] and
      [TestRunner]; the prompt of [mrld/cmd/common] as a step relation.

    [Instances] has executable instances of everything that is a parameter, on which each theorem
    with a hypothesis is evaluated (the [*Examples] modules).

    ** How code becomes definitions

    Fallible calls return [res]: a value or an error with its code and texts.  Stateful code runs in
    [M S], explicit state passing with errors, where a failed call may have changed the state; a
    transaction that fails is rolled back by [Update].  An iterator is a record of a state and its
    next-step function; a scan that the code consumes to its end is [collect], and a loop that may
    stop early has as fuel the rows that are left ([rows]), one more than it can take, so that it
    never runs out: the paging theorems prove that it returns.  Following the pages to their end
    ([paginate]) and the upgrade loop of [Migrate] return an option, [None] out of fuel, and the
    theorems give a result: for any allowance above the number of rows, and for the upgrade (twelve
    rounds in the model) from eight on; the substitution of
    variables has the length of the text plus one ([replace_vars_fuel] proves that more changes
    nothing); a reader of blocks has the length of its text, a byte or more per round, and the
    loader of a JSON file that length plus one ([load_ends]: it never stops for lack of it).  Integers whose width
    matters are [Z] with the wrap-around written out ([Hash]).  Map iteration order is a parameter
    ([range], the class [MapRange], [orders]), or the result is proved independent of it.

    ** What the theorems show

    - Access: a positive answer for the holder of a token comes from a verified token, a user linked
      by one stored relation, and a rule of the policy that the request may reach
      ([grant_to_linked_user], [decision_from_policy], [policy_contained]); it is on the record, and
      the token is not ([token_not_logged]; [no_unlogged_decision]: while the log is enabled with an
      output); batches answer like their requests one by one ([evaluations_exact]); an API key is required where one is configured
      ([api_key_required]); the cache of prepared queries changes no answer between reloads
      ([cache_transparent], [cache_quiet]); the policy root does not depend on the order of the
      loaded policies ([policy_root_stable]); what is loaded from the disk is the configured paths and
      at most one blob of the policy store ([local_bundles_exact]).  What a policy asks of the directory is answered
      completely ([relations_builtin_exact], [check_builtin_exact]); issuers are fetched over TLS from
      public addresses only ([oidc_tls_public], [unsafe_exact]).  The plugins: users of Entra ID resolve
      ([entra_user_resolves]), a requested mode of synchronisation is queued until a task
      has attempted it ([edge_requests_kept]) and the scheduler goes on while ticks and requests arrive between
      runs ([edge_progress]; otherwise it can stall, [edge_stalls]), what is served was loaded ([git_serving_loaded]).
    - Storage: any sequence of operations on either backend keeps the abstract directory
      ([store_refines], [pg_refines]) and they agree ([backends_agree]; on the model not between the first manifest and
      its model).  On BoltDB this is for names without the separators of the keys, on Postgres for texts that the
      database accepts, and what is built on them says so.  Keys are injective; after any calls of the
      services what is read back is well typed, and the two indexes and the reads by name list the same
      entries ([session_typed]).
    - Services: writes are transitions of the abstract directory ([writer_refines],
      [import_refines]); pages cover every row once and end ([get_objects_pages],
      [get_relations_pages], [pg_scan_pages]); exports are complete; a granted check rests on stored
      relations ([check_granted], [getRelations_exact]); manifests survive their chunks.
    - Life cycle: a file opens at the schema version and not otherwise, upgrades end, and moving the
      manifest keeps the directory; synchronisation deletes what the source lacks and nothing that
      it sent ([diff_exact], [diff_keeps_exported], [chan_delivers]).
    - Copies: a migration and a restored backup have the manifest and only entries of the original,
      and all of them unless the import counted an error ([migrate_copies], [backup_restores]);
      extraction writes three files in one folder, within their limits, and accepts exactly the
      archives it should ([extract_confined], [extract_exact]).  What [export] writes as JSON files is
      what [import] sends ([data_export_imports], [archive_restores]).
    - The command line: waiting succeeds exactly when every port was seen in the expected state before
      its timeout ([wait_ports_exact]); a stop that succeeds leaves no container of that name running,
      where one matched ([stop_stops]); after any commands on configurations that succeed, the active
      configuration of the context on the disk, if any, is a file ([config_session_ok]).  A
      template that is installed replaces the directory by its manifest and the data of its files
      ([install_replaces]); a download has a file for every asset ([download_complete]); a prompt whose
      default is no says yes only if that was typed ([yes_was_typed]).  The user's directories are
      absolute, and a file is found where it was to be created ([base_dirs_absolute],
      [create_then_search]).
    - The daemon: what is served where follows from the configuration in every map order
      ([config_services_exact], [config_services_panics]); a server serves after those it needs and
      all of them come up where the needs are a forest ([start_order], [servers_start]);
      certificates that exist are kept ([setup_certs_keeps_files]).  A run of assertions succeeds
      exactly when each has the outcome it expects ([run_exact], [search_set_exact]).
    - Round trips: page tokens, manifests, policy identifiers.
    - What the code does against its own intent is proved as well: [pg_rejected_sinks],
      [import_retry_drops], [reload_overtakes], [manifest_etag_depends_on_chunks],
      [get_relation_prefix], [sync_timestamp_is_local], [migrate_recovers_panic],
      [new_after_failure], [delete_manifest_wipes], [search_logs_properties],
      [bracketed_doelbinding_served],
      [empty_key_admits_all], [reflection_v1_not_exempt], [adl_silent_without_output],
      [edge_stalls], [authorizers_hand_out_key], [second_dependent_stalls], [gateway_required],
      [access_alone_serves_nothing], [gateway_certs_skipped], [missing_config_panics],
      [import_errors_unreported], [short_read_truncates], [old_check_panics], [skipped_fails],
      [check_of_nothing_holds], [empty_graph_fails], [redirect_leaves_filter], [cut_file_accepted],
      [failed_write_corrupts], [counters_not_recognised], [stop_misses_several],
      [container_name_is_image], [stdout_is_remote], [rename_failure_dangles], [env_mislabelled],
      [mounts_collide], [failed_download_wipes], [local_asset_escaped], [unhealthy_install_succeeds],
      [status_ignored], [absolute_url_panics], [assertions_not_trimmed], [query_hides_data],
      [container_misnamed], [prompt_eof_panics], [wrong_image_taken], [missing_image_ignored].

    ** What is a parameter

    Third-party code is a class of operations, with a class of laws where a theorem needs them:
    bbolt ([Bolt], [BoltLaws]), Postgres and its driver ([Postgres], [PostgresLaws]), the protobuf
    codecs ([Codecs], [CodecsLaws]: decoding inverts encoding), the model library azm with its graph
    walks ([Azm], [AzmLaws]), the request validators ([Validator]), OPA's store and Rego ([Opa],
    [Rego]), the token library ([Jwt]), [protojson] ([ProtoJson], [ProtoJsonLaws]), the disk's errors
    and the cryptography of certificates ([Disk], [TLS]), the clients of the assertion runner
    ([Clients]), the network of the OIDC client ([Network]), OPA's term conversions ([Values]), one message's JSON
    ([PbJson], [PbJsonLaws]), the environment of a process ([Env]) and the container engine ([Docker],
    [DockerLaws]), the web and its JSON documents ([Web]), the
    store of policy images ([Oci]).  Clocks, random bytes, host names and network replies are
    arguments.

    ** What is not modelled

    Process start-up and signals, network listeners and TLS, the dependency injection of [src/daemon];
    the parts of [src/internal/runtime] that drive OPA; the plugins' network
    clients and factories; error-translation and tracing middlewares; the typed
    wrappers of [internal/tsync]; configuration templates; the
    rest of the command line (flags, printing, completion, the editor) and the maintenance
    tools: they are I/O, network clients, printing or glue around libraries.  The locks of the code that
    only order operations (transaction mutexes, single flight) appear as the order of steps. *)
From stdpp Require Export base tactics option list gmap strings sorting.
From Stdlib Require Export ZArith Lia.

Declare Scope dir_scope.
Delimit Scope dir_scope with dir.
Open Scope dir_scope.

(** ** Errors and the state-and-error monad *)

(** The gRPC status codes the source distinguishes ([google.golang.org/grpc/codes]). *)
Inductive code :=
| OKCode | InvalidArgument | NotFound | AlreadyExists | FailedPrecondition
| Unimplemented | Internal | UnknownCode.

#[export] Instance code_eq_dec : EqDecision code.
Proof. solve_decision. Defined.

(** An error value.  [AErr] is an [AsertoError] declared in this repository (identifier, gRPC
    code, text) with the messages added by [Msg]/[Msgf]/[Wrapf]; [DErr] is an error declared in
    [go-directory/pkg/derr], known here by its name only; [XErr] is any other error value raised
    by a library (bbolt, protobuf, a validator, a stream). *)
Inductive err :=
| AErr (id : string) (c : code) (text : string) (data : list string)
| DErr (name : string) (data : list string)
| XErr (c : code) (what : string).

#[export] Instance err_eq_dec : EqDecision err.
Proof. solve_decision. Defined.

(** [err.Msg(s)], [err.Msgf(..)] and [errors.Wrapf(err, ..)] keep the error's identity and code. *)
Definition with_msg (e : err) (s : string) : err :=
  match e with
  | AErr i c t d => AErr i c t (d ++ [s])
  | DErr n d => DErr n (d ++ [s])
  | XErr c w => XErr c w
  end.

(** [fmt.Errorf("context: %w", err)] keeps the identity and the code of what it wraps. *)
Definition Errorf (context : string) (e : err) : err :=
  match e with
  | XErr c w => XErr c (context ++ ": " ++ w)
  | _ => with_msg e context
  end.

(** [status.Code(err)]; the code of a [derr] error is not visible in this repository. *)
Definition status_code (e : err) : option code :=
  match e with
  | AErr _ c _ _ => Some c
  | DErr _ _ => None
  | XErr c _ => Some c
  end.

Definition is_not_found (e : err) : bool := bool_decide (status_code e = Some NotFound).

Inductive res (A : Type) :=
| Ok (a : A)
| Fail (e : err).
Arguments Ok {A} a.
Arguments Fail {A} e.

Definition is_ok {A} (r : res A) : bool := match r with Ok _ => true | Fail _ => false end.

Definition rmap {A B} (f : A -> B) (r : res A) : res B :=
  match r with Ok a => Ok (f a) | Fail e => Fail e end.

Definition rbind {A B} (r : res A) (f : A -> res B) : res B :=
  match r with Ok a => f a | Fail e => Fail e end.

Definition rwrap {A} (context : string) (r : res A) : res A :=
  match r with Ok a => Ok a | Fail e => Fail (Errorf context e) end.

(** Code that mutates a transaction and may fail.  The state is returned on the error path too:
    a handler whose error is swallowed keeps the writes it made before failing. *)
Definition M (S A : Type) : Type := S -> res A * S.

Definition ret {S A} (a : A) : M S A := fun s => (Ok a, s).
Definition fail {S A} (e : err) : M S A := fun s => (Fail e, s).
Definition get {S} : M S S := fun s => (Ok s, s).
Definition put {S} (s : S) : M S unit := fun _ => (Ok tt, s).
Definition lift {S A} (r : res A) : M S A := fun s => (r, s).
Definition bind {S A B} (m : M S A) (f : A -> M S B) : M S B :=
  fun s => match m s with
           | (Ok a, s') => f a s'
           | (Fail e, s') => (Fail e, s')
           end.
(** Run [m] and hand its outcome, error or not, to [f]: [x, err := m()]. *)
Definition attempt {S A B} (m : M S A) (f : res A -> M S B) : M S B :=
  fun s => let '(r, s') := m s in f r s'.

Notation "'let!' x ':=' m 'in' k" := (bind m (fun x => k))
  (at level 10, x binder, m at level 100, k at level 200) : dir_scope.
Notation "'do!' m ';' k" := (bind m (fun _ => k))
  (at level 10, m at level 100, k at level 200) : dir_scope.
Notation "'try!' x ':=' m 'in' k" := (attempt m (fun x => k))
  (at level 10, x binder, m at level 100, k at level 200) : dir_scope.

(** A computation that only reads the state. *)
Definition reads {S A} (f : S -> res A) : M S A := fun s => (f s, s).

(** [for _, x := range l { if err := f(x); err != nil { return err } }]. *)
Fixpoint for_each {S A} (f : A -> M S unit) (l : list A) : M S unit :=
  match l with
  | [] => ret tt
  | x :: l' => do! f x; for_each f l'
  end.

(** [if err := check; err != nil { return err }] on a check that reads nothing. *)
Definition guard {S} (o : option err) : M S unit :=
  match o with None => ret tt | Some e => fail e end.

(** Wrap the error of a computation. *)
Definition wrapped {S A} (context : string) (m : M S A) : M S A := fun s =>
  let '(r, s') := m s in (rwrap context r, s').

(** Replace the error of a computation. *)
Definition or_error {S B} (m : M S B) (e : err) : M S unit :=
  try! r := m in match r with Ok _ => ret tt | Fail _ => fail e end.

Section Monad.
Context {S A B : Type}.

Lemma bind_ok (m : M S A) (f : A -> M S B) s a s' :
  m s = (Ok a, s') -> bind m f s = f a s'.
Proof. intros H. unfold bind. by rewrite H. Qed.

Lemma bind_fail (m : M S A) (f : A -> M S B) s e s' :
  m s = (Fail e, s') -> bind m f s = (Fail e, s').
Proof. intros H. unfold bind. by rewrite H. Qed.

Lemma bind_inv (m : M S A) (f : A -> M S B) s r s' :
  bind m f s = (r, s') ->
  (exists a s1, m s = (Ok a, s1) /\ f a s1 = (r, s')) \/
  (exists e, m s = (Fail e, s') /\ r = Fail e).
Proof.
  unfold bind. destruct (m s) as [[a|e] s1] eqn:E; intros H; [left | right]; naive_solver.
Qed.

Lemma attempt_eq (m : M S A) (f : res A -> M S B) s r s' :
  m s = (r, s') -> attempt m f s = f r s'.
Proof. intros H. unfold attempt. by rewrite H. Qed.
End Monad.

Lemma guard_inv {S A} o (m : M S A) s r s' :
  bind (guard o) (fun _ => m) s = (r, s') ->
  (o = None /\ m s = (r, s')) \/ (exists e, o = Some e /\ r = Fail e /\ s' = s).
Proof. destruct o; unfold bind; simpl; naive_solver. Qed.

Lemma guard_none {S A} o (m : M S A) s : o = None -> bind (guard o) (fun _ => m) s = m s.
Proof. by intros ->. Qed.

Lemma or_error_inv {S B} (m : M S B) e t r t' :
  or_error m e t = (r, t') ->
  (exists b, m t = (Ok b, t') /\ r = Ok tt) \/ (exists e', m t = (Fail e', t') /\ r = Fail e).
Proof.
  unfold or_error, attempt. destruct (m t) as [[b|e'] t1]; intros [= <- <-]; [left|right]; eauto.
Qed.

(** A property of states kept by a computation on every outcome, and the rules that propagate it
    through the monad. *)
Definition preserves {S A} (I : S -> Prop) (m : M S A) : Prop :=
  forall s, I s -> I (m s).2.

Section Preserves.
Context {S : Type} (I : S -> Prop).

Lemma preserves_ret {A} (a : A) : preserves I (ret a).
Proof. by intros s. Qed.
Lemma preserves_fail {A} e : preserves I (@fail S A e).
Proof. by intros s. Qed.
Lemma preserves_lift {A} (r : res A) : preserves I (lift r).
Proof. by intros s. Qed.
Lemma preserves_reads {A} (f : S -> res A) : preserves I (reads f).
Proof. by intros s. Qed.
Lemma preserves_get : preserves I get.
Proof. by intros s. Qed.
Lemma preserves_guard o : preserves I (guard o).
Proof. destruct o; by intros s. Qed.
Lemma preserves_bind {A B} (m : M S A) (f : A -> M S B) :
  preserves I m -> (forall a, preserves I (f a)) -> preserves I (bind m f).
Proof.
  intros Hm Hf s Hs. unfold bind. specialize (Hm s Hs).
  destruct (m s) as [[a|e] s1]; simpl in *; [by apply Hf | done].
Qed.
Lemma preserves_attempt {A B} (m : M S A) (f : res A -> M S B) :
  preserves I m -> (forall r, preserves I (f r)) -> preserves I (attempt m f).
Proof.
  intros Hm Hf s Hs. unfold attempt. specialize (Hm s Hs).
  destruct (m s) as [r s1]; simpl in *. by apply Hf.
Qed.
Lemma preserves_for_each {A} (f : A -> M S unit) l :
  (forall a, a ∈ l -> preserves I (f a)) -> preserves I (for_each f l).
Proof.
  induction l as [|x l IH]; intros Hf; [apply preserves_ret|].
  simpl. apply preserves_bind; [apply Hf; left|].
  intros _. apply IH. intros a Ha. apply Hf. by right.
Qed.
End Preserves.

(** [errors.Wrap] around a computation. *)
Lemma wrapped_ok {S A} msg (m : M S A) s a s' : wrapped msg m s = (Ok a, s') <-> m s = (Ok a, s').
Proof. unfold wrapped. destruct (m s) as [[x|e] s1]; cbn; split; congruence. Qed.
Lemma preserves_wrapped {S A} (I : S -> Prop) msg (m : M S A) : preserves I m -> preserves I (wrapped msg m).
Proof. intros H s Hs. unfold wrapped. specialize (H s Hs). by destruct (m s). Qed.

(** ** Lists *)

Lemma filter_none {A} (P : A -> Prop) `{forall x, Decision (P x)} (l : list A) :
  (forall x, x ∈ l -> ~ P x) -> filter P l = [].
Proof.
  induction l as [|x l IH]; intros Hn; [done|].
  rewrite filter_cons, decide_False by (apply Hn; left). apply IH. intros y Hy. apply Hn. by right.
Qed.

Lemma filter_all {A} (P : A -> Prop) `{forall x, Decision (P x)} (l : list A) :
  (forall x, x ∈ l -> P x) -> filter P l = l.
Proof.
  induction l as [|x l IH]; intros Hn; [done|].
  rewrite filter_cons, decide_True by (apply Hn; left). f_equal. apply IH.
  intros y Hy. apply Hn. by right.
Qed.

Lemma filter_fmap_comm {A B} (f : A -> B) (P : B -> Prop) `{forall x, Decision (P x)} (l : list A) :
  filter P (f <$> l) = f <$> filter (fun x => P (f x)) l.
Proof.
  induction l as [|x l IH]; [done|]. rewrite fmap_cons, !filter_cons.
  destruct (decide (P (f x))); [|done]. rewrite fmap_cons. by f_equal.
Qed.

Lemma forallb_Forall {A} (f : A -> bool) (l : list A) :
  forallb f l = true <-> Forall (fun x => f x = true) l.
Proof. induction l; simpl; [done|]. by rewrite andb_true_iff, Forall_cons, IHl. Qed.

Lemma Forall2_fmap_self {A B} (R : A -> B -> Prop) (f : A -> B) (l : list A) :
  (forall x, x ∈ l -> R x (f x)) -> Forall2 R l (f <$> l).
Proof.
  induction l as [|x l IH]; intros H; [constructor|]. constructor; [apply H; left|].
  apply IH. intros y Hy. apply H. by right.
Qed.

Lemma list_somes {A} (l : list (option A)) :
  (forall v, v ∈ l -> is_Some v) -> exists xs, l = Some <$> xs.
Proof.
  induction l as [|v l IH]; intros H; [by exists []|].
  destruct (H v) as [x ->]; [left|]. destruct IH as [xs ->]; [intros; apply H; by right|].
  by exists (x :: xs).
Qed.

Create HintDb dirdb discriminated.
#[export] Hint Resolve preserves_ret preserves_fail preserves_lift preserves_get preserves_reads
  preserves_guard : dirdb.

(** Walk through a monadic term whose leaves are known to preserve the invariant. *)
Ltac preserve :=
  repeat (lazymatch goal with
          | |- preserves _ (bind _ _) => apply preserves_bind; [|intros ?]
          | |- preserves _ (attempt _ _) => apply preserves_attempt; [|intros ?]
          | |- preserves _ (match ?x with _ => _ end) => destruct x eqn:?
          | |- preserves _ (if ?x then _ else _) => destruct x eqn:?
          | |- preserves _ _ => solve [eauto with dirdb]
          end).

(** Case split on the scrutinee of the first match of the goal. *)
Ltac case_head :=
  match goal with
  | |- context [match ?x with _ => _ end] => destruct x eqn:?; simplify_eq/=
  end.
