(* ===== verification/Bytes.v ===== *)
(** * Go strings and byte slices, and key-ordered lists

    A Go [string] or [[]byte] is a byte sequence, modelled as [string] (a list of 8-bit
    characters); [bytes.Compare] is [String.compare].  This file holds the byte order, prefixes,
    [strings.TrimSpace] as the source uses it, and lists of key/value pairs sorted by key: the
    shape of a bbolt bucket. *)
From S2P Require Import Prelude.

(** ** Byte order *)

Definition str_lt (a b : string) : Prop := String.compare a b = Lt.

#[export] Instance str_lt_dec : RelDecision str_lt.
Proof. intros a b. unfold str_lt. apply _. Defined.

Lemma str_lt_irrefl a : ~ str_lt a a.
Proof.
  unfold str_lt. induction a as [|c a IH]; simpl; [done|].
  unfold Ascii.compare. by rewrite N.compare_refl.
Qed.

Lemma str_compare_refl a : String.compare a a = Eq.
Proof.
  induction a as [|c a IH]; simpl; [done|]. unfold Ascii.compare. by rewrite N.compare_refl.
Qed.

Lemma str_le_lt a b : String.le a b <-> a = b \/ str_lt a b.
Proof.
  unfold String.le, String.leb, str_lt. split.
  - destruct (String.compare a b) eqn:E; [left; by apply String.compare_eq_iff | by right | done].
  - intros [->|H]; [by rewrite str_compare_refl | by rewrite H].
Qed.

Lemma str_lt_trans a b c : str_lt a b -> str_lt b c -> str_lt a c.
Proof.
  intros H1 H2.
  assert (String.le a c) as Hac.
  { trans b; apply str_le_lt; auto. }
  apply str_le_lt in Hac as [->|]; [|done]. exfalso.
  unfold str_lt in H1, H2. rewrite String.compare_antisym, H2 in H1. done.
Qed.

#[export] Instance str_lt_strict : StrictOrder str_lt.
Proof. split; [exact str_lt_irrefl | exact str_lt_trans]. Qed.

Lemma str_lt_total a b : str_lt a b \/ a = b \/ str_lt b a.
Proof.
  unfold str_lt. destruct (String.compare a b) eqn:E.
  - right; left. by apply String.compare_eq_iff.
  - by left.
  - right; right. rewrite String.compare_antisym, E. done.
Qed.

Lemma str_lt_asym a b : str_lt a b -> ~ str_lt b a.
Proof. intros H1 H2. apply (str_lt_irrefl a). by trans b. Qed.

Lemma str_lt_ne a b : str_lt a b -> a <> b.
Proof. intros H ->. by apply (str_lt_irrefl b). Qed.

#[export] Hint Resolve str_lt_irrefl str_lt_asym str_lt_ne : dirdb.

Lemma str_lt_cons c a b : str_lt (String c a) (String c b) <-> str_lt a b.
Proof.
  unfold str_lt. simpl. unfold Ascii.compare. by rewrite N.compare_refl.
Qed.

(** ** Concatenation and prefixes *)

Lemma app_nil_r_str s : s +:+ "" = s.
Proof. induction s as [|c s IH]; [done|]. change (String c (s +:+ "") = String c s). by rewrite IH. Qed.

Lemma app_assoc_str a b c : (a +:+ b) +:+ c = a +:+ (b +:+ c).
Proof.
  induction a as [|x a IH]; [done|].
  change (String x ((a +:+ b) +:+ c) = String x (a +:+ (b +:+ c))). by rewrite IH.
Qed.

Lemma app_cons_str x a b : String x a +:+ b = String x (a +:+ b).
Proof. done. Qed.

Lemma length_app_str a b : String.length (a +:+ b) = String.length a + String.length b.
Proof.
  induction a as [|x a IH]; [done|].
  change (S (String.length (a +:+ b)) = S (String.length a) + String.length b). lia.
Qed.

(** [bytes.HasPrefix(k, p)]. *)
Definition HasPrefix (k p : string) : bool := String.prefix p k.

Lemma prefix_iff p k : String.prefix p k = true <-> exists s, k = p +:+ s.
Proof.
  revert k. induction p as [|c p IH]; intros k.
  - split; [by exists k | by destruct k].
  - destruct k as [|d k]; simpl.
    + split; [done|]. intros [s Hs]. by rewrite app_cons_str in Hs.
    + destruct (Ascii.ascii_dec c d) as [->|Hne].
      * rewrite IH. split; intros [s Hs]; exists s; rewrite app_cons_str in *; congruence.
      * split; [done|]. intros [s Hs]. rewrite app_cons_str in Hs. congruence.
Qed.

Lemma HasPrefix_iff k p : HasPrefix k p = true <-> exists s, k = p +:+ s.
Proof. apply prefix_iff. Qed.

Lemma HasPrefix_app p s : HasPrefix (p +:+ s) p = true.
Proof. apply HasPrefix_iff. eauto. Qed.

Lemma HasPrefix_empty k : HasPrefix k "" = true.
Proof. by destruct k. Qed.

(** A key with prefix [p] is not below [p]. *)
Lemma prefix_not_lt p k : HasPrefix k p = true -> ~ str_lt k p.
Proof.
  intros [s ->]%HasPrefix_iff. induction p as [|c p IH]; [by destruct s|].
  rewrite app_cons_str, str_lt_cons. done.
Qed.

(** The keys with prefix [p] are contiguous: between a key with the prefix and a larger key
    without it, no key has the prefix. *)
Lemma prefix_convex p a b :
  HasPrefix a p = false -> ~ str_lt a p -> str_lt a b -> HasPrefix b p = false.
Proof.
  unfold HasPrefix. revert a b. induction p as [|c p IH]; intros a b.
  - by destruct a.
  - destruct a as [|d a]; [by intros _ H; exfalso; apply H|].
    destruct b as [|e b]; [done|]. simpl.
    unfold str_lt. simpl. unfold Ascii.compare.
    destruct (Ascii.ascii_dec c d) as [->|Hcd].
    + destruct (Ascii.ascii_dec d e) as [->|Hde]; [|done].
      rewrite !N.compare_refl. apply IH.
    + intros _. destruct (Ascii.ascii_dec c e) as [->|]; [|done].
      destruct (N.compare (Ascii.N_of_ascii d) (Ascii.N_of_ascii e)) eqn:E; [|done|done].
      intros _ _. apply N.compare_eq_iff in E.
      exfalso. apply Hcd. rewrite <-(Ascii.ascii_N_embedding e), <-(Ascii.ascii_N_embedding d).
      by f_equal.
Qed.

(** ** Separators *)

(** [strings.IndexByte(s, c) >= 0]. *)
Fixpoint contains (c : Ascii.ascii) (s : string) : bool :=
  match s with
  | "" => false
  | String d s' => if Ascii.ascii_dec c d then true else contains c s'
  end.

Lemma contains_app c a b : contains c (a +:+ b) = contains c a || contains c b.
Proof.
  induction a as [|d a IH]; [done|]. rewrite app_cons_str. simpl. by destruct (Ascii.ascii_dec c d).
Qed.

(** Splitting at the first separator is unambiguous when the left part has none. *)
Lemma sep_inj c a a' b b' :
  contains c a = false -> contains c a' = false ->
  a +:+ String c b = a' +:+ String c b' -> a = a' /\ b = b'.
Proof.
  revert a'. induction a as [|d a IH]; intros [|d' a']; simpl.
  - intros _ _ H. by injection H.
  - intros _ H E. rewrite app_cons_str in E. injection E as -> _.
    by destruct (Ascii.ascii_dec d' d').
  - intros H _ E. rewrite app_cons_str in E. injection E as <- _.
    by destruct (Ascii.ascii_dec d d).
  - rewrite !app_cons_str. destruct (Ascii.ascii_dec c d), (Ascii.ascii_dec c d'); try done.
    intros H1 H2 E. injection E as -> E. destruct (IH a' H1 H2 E) as [-> ->]. done.
Qed.

(** A prefix that stops at a separator fixes everything before it. *)
Lemma sep_prefix c a a' b' :
  contains c a = false -> contains c a' = false ->
  HasPrefix (a' +:+ String c b') (a +:+ String c "") = true <-> a = a'.
Proof.
  intros Ha Ha'. rewrite HasPrefix_iff. split.
  - intros [s Hs]. rewrite app_assoc_str in Hs. by apply sep_inj in Hs as [-> _].
  - intros ->. exists b'. by rewrite app_assoc_str.
Qed.

Lemma HasPrefix_app_l a p k : HasPrefix (a +:+ k) (a +:+ p) = HasPrefix k p.
Proof.
  apply eq_true_iff_eq. rewrite !HasPrefix_iff. split; intros [s Hs]; exists s.
  - rewrite app_assoc_str in Hs. by apply (inj (String.app a)) in Hs.
  - by rewrite Hs, app_assoc_str.
Qed.

(** ** [strings.TrimSpace] *)

(** One-, two- and three-byte UTF-8 encodings of the Unicode white-space runes. *)
Definition space1 (a : Ascii.ascii) : bool :=
  let n := Ascii.nat_of_ascii a in (9 <=? n) && (n <=? 13) || (n =? 32).
Definition space2 (a b : Ascii.ascii) : bool :=
  (Ascii.nat_of_ascii a =? 194) && ((Ascii.nat_of_ascii b =? 133) || (Ascii.nat_of_ascii b =? 160)).
Definition space3 (a b c : Ascii.ascii) : bool :=
  let x := Ascii.nat_of_ascii a in let y := Ascii.nat_of_ascii b in
  let z := Ascii.nat_of_ascii c in
  (x =? 225) && (y =? 154) && (z =? 128)
  || (x =? 226) && (y =? 128)
     && ((128 <=? z) && (z <=? 138) || (z =? 168) || (z =? 169) || (z =? 175))
  || (x =? 226) && (y =? 129) && (z =? 159)
  || (x =? 227) && (y =? 128) && (z =? 128).

(** The leading trim.  A string that is not empty after it starts with a rune that is not white
    space, so the trailing trim leaves that rune: [TrimSpace s <> ""] exactly when
    [trim_left s <> ""]. *)
Fixpoint trim_left (s : string) : string :=
  match s with
  | "" => ""
  | String a s1 =>
      if space1 a then trim_left s1 else
      match s1 with
      | "" => s
      | String b s2 =>
          if space2 a b then trim_left s2 else
          match s2 with
          | "" => s
          | String c s3 => if space3 a b c then trim_left s3 else s
          end
      end
  end.

Lemma trim_left_nonempty s : trim_left s <> "" -> s <> "".
Proof. by intros H ->. Qed.

(** ** Key-ordered lists *)

Section KV.
Context {A : Type}.
Implicit Types (l : list (string * A)) (k : string) (v : A).

(** Keys strictly increasing. *)
Definition kv_sorted l : Prop := StronglySorted str_lt l.*1.

Fixpoint kv_get k l : option A :=
  match l with
  | [] => None
  | (k', v) :: l' => if decide (k = k') then Some v else kv_get k l'
  end.

Fixpoint kv_put k v l : list (string * A) :=
  match l with
  | [] => [(k, v)]
  | (k', v') :: l' =>
      match String.compare k k' with
      | Eq => (k, v) :: l'
      | Lt => (k, v) :: (k', v') :: l'
      | Gt => (k', v') :: kv_put k v l'
      end
  end.

Fixpoint kv_del k l : list (string * A) :=
  match l with
  | [] => []
  | (k', v) :: l' => if decide (k = k') then kv_del k l' else (k', v) :: kv_del k l'
  end.

(** The suffix that starts at the first key not below [k]. *)
Fixpoint kv_seek k l : list (string * A) :=
  match l with
  | [] => []
  | (k', v) :: l' => if decide (str_lt k' k) then kv_seek k l' else l
  end.

(** The suffix after the first key above [k]. *)
Fixpoint kv_after k l : list (string * A) :=
  match l with
  | [] => []
  | (k', v) :: l' => if decide (str_lt k k') then l else kv_after k l'
  end.

(** The pairs whose key has the prefix, in key order. *)
Definition kv_prefix p l : list (string * A) := filter (fun e => HasPrefix e.1 p = true) l.

Fixpoint take_prefix p l : list (string * A) :=
  match l with
  | [] => []
  | (k, v) :: l' => if HasPrefix k p then (k, v) :: take_prefix p l' else []
  end.

Lemma kv_sorted_cons k v l :
  kv_sorted ((k, v) :: l) <-> (forall k' v', (k', v') ∈ l -> str_lt k k') /\ kv_sorted l.
Proof.
  unfold kv_sorted. rewrite fmap_cons. simpl. split.
  - intros H. inversion H as [|? ? Hs Hf]; subst. split; [|done].
    intros k' v' Hin. rewrite Forall_forall in Hf. apply Hf.
    apply list_elem_of_fmap. by exists (k', v').
  - intros [H1 H2]. constructor; [done|]. apply Forall_forall. intros x Hx.
    apply list_elem_of_fmap in Hx as ([k' v'] & -> & Hin). by eapply H1.
Qed.

Lemma kv_sorted_NoDup l : kv_sorted l -> NoDup l.*1.
Proof.
  induction l as [|[k v] l IH]; [constructor|]. intros [H1 H2]%kv_sorted_cons.
  rewrite fmap_cons. constructor; [|auto]. simpl. intros Hin.
  apply list_elem_of_fmap in Hin as ([k' v'] & -> & Hin). by apply H1, str_lt_irrefl in Hin.
Qed.

Lemma kv_get_elem k v l : kv_sorted l -> kv_get k l = Some v <-> (k, v) ∈ l.
Proof.
  induction l as [|[k' v'] l IH]; simpl.
  - intros _. split; [done|]. by intros ?%not_elem_of_nil.
  - intros [H1 H2]%kv_sorted_cons. rewrite elem_of_cons.
    destruct (decide (k = k')) as [->|Hne].
    + split; [naive_solver|]. intros [?|Hin]; [naive_solver|].
      by apply H1, str_lt_irrefl in Hin.
    + rewrite IH by done. naive_solver.
Qed.

Lemma kv_get_None k l : kv_get k l = None <-> k ∉ l.*1.
Proof.
  induction l as [|[k' v'] l IH]; simpl.
  - split; [|done]. intros _ H. by apply not_elem_of_nil in H.
  - destruct (decide (k = k')) as [->|Hne].
    + split; [done|]. intros H. exfalso. apply H. left.
    + rewrite IH, not_elem_of_cons. naive_solver.
Qed.

Lemma kv_put_elem k v l k' v' :
  kv_sorted l -> (k', v') ∈ kv_put k v l <-> (k' = k /\ v' = v) \/ (k' <> k /\ (k', v') ∈ l).
Proof.
  induction l as [|[k1 v1] l IH]; simpl.
  - intros _. rewrite list_elem_of_singleton. split; [naive_solver|].
    intros [[-> ->]|[_ H]]; [done|]. by apply not_elem_of_nil in H.
  - intros [H1 H2]%kv_sorted_cons. destruct (String.compare k k1) eqn:E.
    + apply String.compare_eq_iff in E as <-. rewrite !elem_of_cons. split.
      * intros [?|Hin]; [naive_solver|]. right. split; [|by right]. intros ->.
        by apply H1, str_lt_irrefl in Hin.
      * naive_solver.
    + rewrite !elem_of_cons. split; [|naive_solver].
      intros [?|[?|Hin]]; [naive_solver| |].
      * simplify_eq. right. split; [by apply not_eq_sym, str_lt_ne | by left].
      * right. split; [|by right]. intros ->. apply H1 in Hin.
        apply (str_lt_irrefl k). by trans k1.
    + rewrite !elem_of_cons, IH by done.
      assert (k1 <> k) by (intros ->; rewrite str_compare_refl in E; done). naive_solver.
Qed.

Lemma kv_put_sorted k v l : kv_sorted l -> kv_sorted (kv_put k v l).
Proof.
  induction l as [|[k1 v1] l IH]; simpl.
  - intros _. apply kv_sorted_cons. split; [|constructor]. by intros ?? ?%not_elem_of_nil.
  - intros Hs. pose proof Hs as [H1 H2]%kv_sorted_cons. destruct (String.compare k k1) eqn:E.
    + apply String.compare_eq_iff in E as <-. by apply kv_sorted_cons.
    + apply kv_sorted_cons. split; [|done]. intros k' v'.
      rewrite elem_of_cons. intros [?|Hin]; [by simplify_eq|].
      trans k1; [done|]. by eapply H1.
    + apply kv_sorted_cons. split; [|auto]. intros k' v' Hin%kv_put_elem; [|done].
      destruct Hin as [[-> ->]|[_ Hin]]; [|by eapply H1].
      unfold str_lt. rewrite String.compare_antisym, E. done.
Qed.

Lemma kv_del_elem k l k' v' : (k', v') ∈ kv_del k l <-> k' <> k /\ (k', v') ∈ l.
Proof.
  induction l as [|[k1 v1] l IH]; simpl.
  - split; [by intros ?%not_elem_of_nil | by intros [_ ?%not_elem_of_nil]].
  - destruct (decide (k = k1)); rewrite ?elem_of_cons, IH; naive_solver.
Qed.

Lemma kv_del_sorted k l : kv_sorted l -> kv_sorted (kv_del k l).
Proof.
  induction l as [|[k1 v1] l IH]; simpl; [done|]. intros [H1 H2]%kv_sorted_cons.
  destruct (decide (k = k1)); [auto|]. apply kv_sorted_cons. split; [|auto].
  intros k' v' [_ Hin]%kv_del_elem. by eapply H1.
Qed.

Lemma kv_get_put k k' v l :
  kv_sorted l -> kv_get k' (kv_put k v l) = if decide (k = k') then Some v else kv_get k' l.
Proof.
  intros Hs. apply option_eq. intros x. rewrite kv_get_elem by by apply kv_put_sorted.
  rewrite kv_put_elem by done. destruct (decide (k = k')) as [->|Hne].
  - naive_solver.
  - rewrite kv_get_elem by done. naive_solver.
Qed.

Lemma kv_get_del k k' l :
  kv_sorted l -> kv_get k' (kv_del k l) = if decide (k = k') then None else kv_get k' l.
Proof.
  intros Hs. apply option_eq. intros x. rewrite kv_get_elem by by apply kv_del_sorted.
  rewrite kv_del_elem. destruct (decide (k = k')) as [->|Hne].
  - naive_solver.
  - rewrite kv_get_elem by done. naive_solver.
Qed.

Lemma kv_prefix_elem p k v l : (k, v) ∈ kv_prefix p l <-> HasPrefix k p = true /\ (k, v) ∈ l.
Proof. unfold kv_prefix. by rewrite list_elem_of_filter. Qed.

(** Once no key is below the prefix, advancing while the key has it finds all of them. *)
Lemma take_prefix_ge p l :
  kv_sorted l -> (forall k v, (k, v) ∈ l -> ~ str_lt k p) -> take_prefix p l = kv_prefix p l.
Proof.
  induction l as [|[k v] l IH]; [done|]. intros [H1 H2]%kv_sorted_cons Hge.
  unfold kv_prefix in *. rewrite filter_cons. simpl. destruct (HasPrefix k p) eqn:E.
  - rewrite decide_True by done. f_equal. apply IH; [done|]. intros. apply (Hge k0 v0). by right.
  - rewrite decide_False by done. symmetry. apply filter_none.
    intros [k' v'] Hin Hp. simpl in Hp.
    rewrite (prefix_convex p k k' E) in Hp; [done| |by eapply H1].
    apply (Hge k v). left.
Qed.

(** On a sorted list, "seek to the prefix, then advance while the key has it" visits exactly the
    pairs whose key has the prefix, in order. *)
Lemma take_prefix_seek p l : kv_sorted l -> take_prefix p (kv_seek p l) = kv_prefix p l.
Proof.
  induction l as [|[k v] l IH]; [done|]. intros Hs. pose proof Hs as [H1 H2]%kv_sorted_cons.
  simpl. destruct (decide (str_lt k p)) as [Hlt|Hge].
  - rewrite IH by done. unfold kv_prefix. rewrite filter_cons, decide_False; [done|].
    simpl. intros Hp. by apply prefix_not_lt in Hp.
  - apply take_prefix_ge; [done|]. intros k' v'. rewrite elem_of_cons.
    intros [?|Hin]; [by simplify_eq|]. intros Hlt. apply Hge. trans k'; [by eapply H1 | done].
Qed.

Lemma kv_sorted_app_inv l1 l2 :
  kv_sorted (l1 ++ l2) ->
  kv_sorted l1 /\ kv_sorted l2 /\
  forall k v k' v', (k, v) ∈ l1 -> (k', v') ∈ l2 -> str_lt k k'.
Proof.
  induction l1 as [|[k v] l1 IH]; simpl.
  - intros H. split_and!; [constructor | done |]. by intros ???? ?%not_elem_of_nil.
  - intros [H1 H2]%kv_sorted_cons. destruct (IH H2) as (I1 & I2 & I3). split_and!.
    + apply kv_sorted_cons. split; [|done]. intros k' v' Hin. apply (H1 k' v').
      apply elem_of_app. by left.
    + done.
    + intros k1 v1 k2 v2. rewrite elem_of_cons. intros [[= -> ->]|Hin] Hin2; [|by eapply I3].
      apply (H1 k2 v2). apply elem_of_app. by right.
Qed.

Lemma kv_seek_split k v l1 l2 :
  kv_sorted (l1 ++ (k, v) :: l2) -> kv_seek k (l1 ++ (k, v) :: l2) = (k, v) :: l2.
Proof.
  intros (_ & _ & H)%kv_sorted_app_inv. induction l1 as [|[k1 v1] l1 IH]; simpl.
  - by rewrite decide_False by apply str_lt_irrefl.
  - rewrite decide_True by (eapply H; left). apply IH. intros. eapply H; [by right | done].
Qed.

Lemma kv_after_split k v l1 l2 :
  kv_sorted (l1 ++ (k, v) :: l2) -> kv_after k (l1 ++ (k, v) :: l2) = l2.
Proof.
  intros (_ & Hs & H)%kv_sorted_app_inv. induction l1 as [|[k1 v1] l1 IH]; simpl.
  - rewrite decide_False by apply str_lt_irrefl. apply kv_sorted_cons in Hs as [Hs _].
    destruct l2 as [|[k2 v2] l2]; simpl; [done|]. rewrite decide_True; [done|].
    eapply Hs. left.
  - rewrite decide_False.
    + apply IH. intros. eapply H; [by right | done].
    + apply str_lt_asym. eapply H; left.
Qed.

Lemma kv_seek_suffix k l : exists l1, l = l1 ++ kv_seek k l.
Proof.
  induction l as [|[k' v'] l [l1 IH]]; simpl; [by exists []|].
  destruct (decide (str_lt k' k)); [|by exists []].
  exists ((k', v') :: l1). simpl. by f_equal.
Qed.

Lemma kv_prefix_app p l1 l2 : kv_prefix p (l1 ++ l2) = kv_prefix p l1 ++ kv_prefix p l2.
Proof. apply filter_app. Qed.

(** Seeking to the key of one of the rows of a prefix scan resumes the scan at that row. *)
Lemma take_prefix_resume p l i k v :
  kv_sorted l -> kv_prefix p l !! i = Some (k, v) ->
  take_prefix p (kv_seek k l) = drop i (kv_prefix p l).
Proof.
  intros Hs Hi.
  assert ((k, v) ∈ kv_prefix p l) as Hin by (apply list_elem_of_lookup; eauto).
  apply kv_prefix_elem in Hin as [Hp Hin].
  apply list_elem_of_split in Hin as (l1 & l2 & ->).
  rewrite kv_seek_split by done. pose proof Hs as (H1 & H2 & H3)%kv_sorted_app_inv.
  rewrite take_prefix_ge; [|done|].
  - rewrite kv_prefix_app. assert (i = length (kv_prefix p l1)) as ->; [|by rewrite drop_app_length].
    assert (NoDup (kv_prefix p (l1 ++ (k, v) :: l2))) as Hnd.
    { apply NoDup_filter, (NoDup_fmap_1 fst), kv_sorted_NoDup, Hs. }
    eapply NoDup_lookup; [exact Hnd | exact Hi |].
    rewrite kv_prefix_app, lookup_app_r, Nat.sub_diag by done.
    unfold kv_prefix. by rewrite filter_cons, decide_True.
  - intros k' v'. rewrite elem_of_cons. intros [[= -> ->]|Hin]; [by apply prefix_not_lt|].
    intros Hlt. apply (prefix_not_lt p k Hp). trans k'; [|done].
    apply kv_sorted_cons in H2 as [H2 _]. by eapply H2.
Qed.

Lemma kv_prefix_empty l : kv_prefix "" l = l.
Proof. apply filter_all. intros [k v] _. apply HasPrefix_empty. Qed.

Lemma take_prefix_empty l : take_prefix "" l = l.
Proof.
  induction l as [|[k v] l IH]; [done|]. cbn [take_prefix]. rewrite HasPrefix_empty. by f_equal.
Qed.

Lemma take_prefix_length p l : length (take_prefix p l) <= length l.
Proof. induction l as [|[k v] l IH]; simpl; [lia|]. destruct (HasPrefix k p); simpl; lia. Qed.
End KV.

(** ** Slices *)

Lemma substring_empty a b : String.substring a b "" = "".
Proof. by destruct a, b. Qed.

(** [s[a : a+b]] followed by [s[a+b : a+b+c]]. *)
Lemma substring_split s : forall a b c,
  String.substring a (b + c) s = String.substring a b s +:+ String.substring (a + b) c s.
Proof.
  induction s as [|x s IH]; intros a b c; [by rewrite !substring_empty|].
  destruct a as [|a]; [destruct b as [|b]; [done|]|].
  - simpl. rewrite app_cons_str. f_equal. by rewrite (IH 0 b c).
  - simpl. apply IH.
Qed.

Lemma substring_full s : String.substring 0 (String.length s) s = s.
Proof. induction s; simpl; by f_equal. Qed.

Lemma length_substring s : forall a b,
  a + b <= String.length s -> String.length (String.substring a b s) = b.
Proof.
  induction s as [|x s IH]; intros [|a] [|b] H; simpl in *; try done; try lia.
  - by rewrite IH by lia.
  - apply IH. lia.
  - rewrite IH by lia. done.
Qed.

Definition concat_str (l : list string) : string := foldr String.append "" l.

Lemma concat_str_app l k : concat_str (l ++ k) = concat_str l +:+ concat_str k.
Proof.
  induction l as [|x l IH]; [done|]. unfold concat_str in *. simpl. by rewrite IH, app_assoc_str.
Qed.
