(* ===== verification/Text.v ===== *)
(** * Text: cutting, folding, hexadecimal and base64

    What the authorizer, the runtime and the middlewares use of Go's [strings], [encoding/hex],
    [encoding/base64] and [hash/adler32]. *)
From Stdlib Require Import Ascii.
From S2P Require Import Prelude Bytes.

(** ** [strings] *)

(** [strings.Cut(s, sep)] for a separator of one byte. *)
Fixpoint Cut (sep : ascii) (s : string) : string * string * bool :=
  match s with
  | EmptyString => ("", "", false)
  | String c s' =>
      if ascii_dec sep c then ("", s', true)
      else let '(before, after, found) := Cut sep s' in (String c before, after, found)
  end.

(** [strings.Split(s, sep)] for a separator of one byte. *)
Fixpoint Split (sep : ascii) (s : string) : list string :=
  match s with
  | EmptyString => [""]
  | String c s' =>
      if ascii_dec sep c then "" :: Split sep s'
      else match Split sep s' with
           | part :: parts => String c part :: parts
           | [] => [String c ""]
           end
  end.

Fixpoint Join (l : list string) (sep : string) : string :=
  match l with
  | [] => ""
  | [x] => x
  | x :: l => x +:+ sep +:+ Join l sep
  end.

Fixpoint TrimPrefix (s p : string) : string :=
  match p, s with
  | EmptyString, _ => s
  | String a p', String b s' =>
      if ascii_dec a b then
        if HasPrefix s' p' then TrimPrefix s' p' else s
      else s
  | _, EmptyString => s
  end.

(** [strings.Contains] *)
Fixpoint contains_str (s sub : string) : bool :=
  HasPrefix s sub || match s with EmptyString => false | String _ s => contains_str s sub end.

(** The ASCII letters of [strings.ToLower]. *)
Definition lower (c : ascii) : ascii :=
  let n := nat_of_ascii c in
  if ((65 <=? n) && (n <=? 90))%nat then ascii_of_nat (n + 32) else c.
Fixpoint ToLower (s : string) : string :=
  match s with
  | EmptyString => ""
  | String c s' => String (lower c) (ToLower s')
  end.

(** [strings.EqualFold(s, t)] for an ASCII [t]: two runes outside ASCII fold to a letter of it, the
    long s (U+017F) and the Kelvin sign (U+212A). *)
Fixpoint EqualFold (s t : string) {struct s} : bool :=
  match s, t with
  | EmptyString, EmptyString => true
  | String "197" (String "191" s'), String d t' => Ascii.eqb (lower d) "s" && EqualFold s' t'
  | String "226" (String "132" (String "170" s')), String d t' => Ascii.eqb (lower d) "k" && EqualFold s' t'
  | String c s', String d t' => Ascii.eqb (lower c) (lower d) && EqualFold s' t'
  | _, _ => false
  end.

(** ** Hexadecimal *)

Definition hex_digits : string := "0123456789abcdef".
Definition hex_digit (n : nat) : ascii := default zero (String.get n hex_digits).

(** [hex.EncodeToString] *)
Fixpoint EncodeToString (b : string) : string :=
  match b with
  | EmptyString => ""
  | String c b' =>
      String (hex_digit (nat_of_ascii c / 16)) (String (hex_digit (nat_of_ascii c mod 16)) (EncodeToString b'))
  end.

Definition is_hex (c : ascii) : bool :=
  let n := nat_of_ascii c in
  ((48 <=? n) && (n <=? 57)) || ((97 <=? n) && (n <=? 102)) || ((65 <=? n) && (n <=? 70)).
(** [hex.DecodeString] succeeds. *)
Fixpoint hex_valid (s : string) : bool :=
  match s with
  | EmptyString => true
  | String a (String b s') => is_hex a && is_hex b && hex_valid s'
  | _ => false
  end.

(** ** [base64.URLEncoding] *)

Definition base64url : string := "ABCDEFGHIJKLMNOPQRSTUVWXYZabcdefghijklmnopqrstuvwxyz0123456789-_".
Definition six : Type := bool * bool * bool * bool * bool * bool.

Definition six_index (x : six) : nat :=
  let '(a, b, c, d, e, f) := x in
  32 * Nat.b2n a + 16 * Nat.b2n b + 8 * Nat.b2n c + 4 * Nat.b2n d + 2 * Nat.b2n e + Nat.b2n f.
Definition enc6 (x : six) : ascii := default zero (String.get (six_index x) base64url).

Fixpoint index_of (c : ascii) (s : string) : option nat :=
  match s with
  | EmptyString => None
  | String d s' => if ascii_dec c d then Some 0 else S <$> index_of c s'
  end.
Definition dec6 (c : ascii) : option six :=
  (fun n => (Nat.testbit n 5, Nat.testbit n 4, Nat.testbit n 3, Nat.testbit n 2, Nat.testbit n 1,
             Nat.testbit n 0)) <$> index_of c base64url.

Definition pad : ascii := "=".

Fixpoint base64_encode (s : string) : string :=
  match s with
  | EmptyString => ""
  | String (Ascii a0 a1 a2 a3 a4 a5 a6 a7) EmptyString =>
      String (enc6 (a7, a6, a5, a4, a3, a2))
     (String (enc6 (a1, a0, false, false, false, false)) (String pad (String pad "")))
  | String (Ascii a0 a1 a2 a3 a4 a5 a6 a7) (String (Ascii b0 b1 b2 b3 b4 b5 b6 b7) EmptyString) =>
      String (enc6 (a7, a6, a5, a4, a3, a2))
     (String (enc6 (a1, a0, b7, b6, b5, b4))
     (String (enc6 (b3, b2, b1, b0, false, false)) (String pad "")))
  | String (Ascii a0 a1 a2 a3 a4 a5 a6 a7) (String (Ascii b0 b1 b2 b3 b4 b5 b6 b7)
      (String (Ascii c0 c1 c2 c3 c4 c5 c6 c7) s')) =>
      String (enc6 (a7, a6, a5, a4, a3, a2))
     (String (enc6 (a1, a0, b7, b6, b5, b4))
     (String (enc6 (b3, b2, b1, b0, c7, c6))
     (String (enc6 (c5, c4, c3, c2, c1, c0)) (base64_encode s'))))
  end.

(** The decoder skips line breaks, wherever they are. *)
Fixpoint drop_breaks (s : string) : string :=
  match s with
  | EmptyString => ""
  | String c s' => if Ascii.eqb c "010" || Ascii.eqb c "013" then drop_breaks s' else String c (drop_breaks s')
  end.

(** Groups of four; the last one may be padded. *)
Fixpoint decode_groups (s : string) : option string :=
  match s with
  | EmptyString => Some ""
  | String w (String x (String y (String z s'))) =>
      match dec6 w, dec6 x with
      | Some (a7, a6, a5, a4, a3, a2), Some (a1, a0, b7, b6, b5, b4) =>
          let a := Ascii a0 a1 a2 a3 a4 a5 a6 a7 in
          match dec6 y, dec6 z with
          | Some (b3, b2, b1, b0, c7, c6), Some (c5, c4, c3, c2, c1, c0) =>
              (fun t => String a (String (Ascii b0 b1 b2 b3 b4 b5 b6 b7)
                          (String (Ascii c0 c1 c2 c3 c4 c5 c6 c7) t))) <$> decode_groups s'
          | Some (b3, b2, b1, b0, _, _), None =>
              if Ascii.eqb z pad && String.eqb s' "" then
                Some (String a (String (Ascii b0 b1 b2 b3 b4 b5 b6 b7) ""))
              else None
          | None, _ =>
              if Ascii.eqb y pad && Ascii.eqb z pad && String.eqb s' "" then Some (String a "") else None
          end
      | _, _ => None
      end
  | _ => None
  end.
Definition base64_decode (s : string) : option string := decode_groups (drop_breaks s).

(** ** [adler32.Checksum] *)

Definition adler_mod : N := 65521%N.
Fixpoint adler_loop (s : string) (a b : N) : N * N :=
  match s with
  | EmptyString => (a, b)
  | String c s' =>
      let a := ((a + N_of_ascii c) mod adler_mod)%N in adler_loop s' a ((b + a) mod adler_mod)%N
  end.
Definition adler32 (s : string) : N :=
  let '(a, b) := adler_loop s 1 0 in N.lor (N.shiftl b 16) a.

(** ** Properties *)

Lemma Cut_spec sep s :
  let '(before, after, found) := Cut sep s in
  contains sep before = false /\
  (if found then s = before +:+ String sep after else s = before /\ after = "" /\ contains sep s = false).
Proof.
  induction s as [|c s IH]; simpl; [done|].
  destruct (ascii_dec sep c) as [->|Hne]; [done|].
  destruct (Cut sep s) as [[before after] found]. destruct IH as [H1 H2]. split.
  - simpl. by destruct (ascii_dec sep c).
  - destruct found; [by rewrite H2|]. destruct H2 as (-> & -> & H3). split_and!; try done.
Qed.

Lemma Cut_nodelim sep s : contains sep s = false -> Cut sep s = (s, "", false).
Proof.
  induction s as [|c s IH]; simpl; [done|]. destruct (ascii_dec sep c); [done|].
  intros H. by rewrite IH.
Qed.

Lemma Cut_app sep a b : contains sep a = false -> Cut sep (a +:+ String sep b) = (a, b, true).
Proof.
  induction a as [|c a IH]; intros H.
  - change ("" +:+ String sep b) with (String sep b). simpl. by destruct (ascii_dec sep sep).
  - rewrite app_cons_str. simpl in *. destruct (ascii_dec sep c); [done|]. by rewrite IH.
Qed.

Lemma Split_cons sep s : exists p l, Split sep s = p :: l.
Proof.
  induction s as [|c s (p & l & IH)]; simpl; [eauto|].
  destruct (ascii_dec sep c); [eauto|]. rewrite IH. eauto.
Qed.

Lemma Split_nodelim sep s : contains sep s = false -> Split sep s = [s].
Proof.
  induction s as [|c s IH]; simpl; [done|]. destruct (ascii_dec sep c); [done|].
  intros H. by rewrite IH.
Qed.

Lemma Split_app sep a b : contains sep a = false -> Split sep (a +:+ String sep b) = a :: Split sep b.
Proof.
  induction a as [|c a IH]; intros H.
  - change ("" +:+ String sep b) with (String sep b). simpl. by destruct (ascii_dec sep sep).
  - rewrite app_cons_str. simpl in *. destruct (ascii_dec sep c); [done|]. by rewrite IH.
Qed.

Lemma Split_parts sep s : Forall (fun p => contains sep p = false) (Split sep s).
Proof.
  induction s as [|c s IH]; simpl; [by repeat constructor|].
  destruct (ascii_dec sep c) as [->|Hne]; [by constructor|].
  destruct (Split sep s) as [|p l]; [constructor; [|done]|apply Forall_cons in IH as [H1 H2]; constructor; [|done]];
    simpl; by destruct (ascii_dec sep c).
Qed.

(** Joining what was split gives back the text. *)
Lemma Join_Split sep s : Join (Split sep s) (String sep "") = s.
Proof.
  induction s as [|c s IH]; simpl; [done|].
  destruct (Split_cons sep s) as (p & l & E).
  destruct (ascii_dec sep c) as [<-|Hne].
  - rewrite E in *. change (String sep "" +:+ Join (p :: l) (String sep "") = String sep s). by rewrite IH.
  - rewrite E in *. destruct l as [|q l]; simpl in *; [by rewrite IH|]. rewrite app_cons_str. by rewrite IH.
Qed.

Lemma TrimPrefix_app p s : TrimPrefix (p +:+ s) p = s.
Proof.
  induction p as [|c p IH]; [by destruct s|]. rewrite app_cons_str. simpl.
  destruct (ascii_dec c c); [|done]. by rewrite HasPrefix_app.
Qed.

Lemma TrimPrefix_none p s : HasPrefix s p = false -> TrimPrefix s p = s.
Proof.
  revert s. induction p as [|c p IH]; intros [|d s]; try done.
  unfold HasPrefix in *. simpl. destruct (ascii_dec c d); [|done]. unfold HasPrefix. by intros ->.
Qed.

Lemma dec6_enc6 x : dec6 (enc6 x) = Some x.
Proof. destruct x as [[[[[[] []] []] []] []] []]; vm_compute; reflexivity. Qed.

Lemma dec6_pad : dec6 pad = None.
Proof. reflexivity. Qed.

Definition not_break (c : ascii) : bool := negb (Ascii.eqb c "010" || Ascii.eqb c "013").
Lemma enc6_not_break x : not_break (enc6 x) = true.
Proof. destruct x as [[[[[[] []] []] []] []] []]; vm_compute; reflexivity. Qed.

Lemma drop_breaks_cons c s : not_break c = true -> drop_breaks (String c s) = String c (drop_breaks s).
Proof. unfold not_break. simpl. by destruct (Ascii.eqb c "010" || Ascii.eqb c "013"). Qed.

(** Induction on the groups of three bytes that the encoder takes. *)
Lemma string_ind3 (P : string -> Prop) :
  P "" -> (forall a, P (String a "")) -> (forall a b, P (String a (String b ""))) ->
  (forall a b c s, P s -> P (String a (String b (String c s)))) -> forall s, P s.
Proof.
  intros H0 H1 H2 H3 s.
  assert (P s /\ (forall a, P (String a s)) /\ (forall a b, P (String a (String b s)))) as (H & _); [|done].
  induction s as [|c s (IH1 & IH2 & IH3)]; [by split_and!|]. split_and!; [apply IH2|..].
  - intros a. apply IH3.
  - intros a b. by apply H3.
Qed.

Lemma base64_roundtrip s : base64_decode (base64_encode s) = Some s.
Proof.
  unfold base64_decode. induction s as [|a|a b|a b c s IH] using string_ind3; [done|..];
    destruct a as [a0 a1 a2 a3 a4 a5 a6 a7]; try destruct b as [b0 b1 b2 b3 b4 b5 b6 b7];
    try destruct c as [c0 c1 c2 c3 c4 c5 c6 c7]; cbn [base64_encode];
    rewrite !drop_breaks_cons by (apply enc6_not_break || reflexivity); cbn [decode_groups];
    rewrite !dec6_enc6, ?dec6_pad; [done..|]. by rewrite IH.
Qed.

Lemma adler_loop_bound s : forall a b a' b',
  (a < adler_mod)%N -> (b < adler_mod)%N -> adler_loop s a b = (a', b') ->
  (a' < adler_mod)%N /\ (b' < adler_mod)%N.
Proof.
  induction s as [|c s IH]; simpl; intros a b a' b' Ha Hb; [by intros [= <- <-]|].
  apply IH; by apply N.mod_lt.
Qed.

Lemma adler32_bound s : (adler32 s < 2 ^ 32)%N.
Proof.
  unfold adler32. destruct (adler_loop s 1 0) as [a b] eqn:E.
  apply adler_loop_bound in E as [Ha Hb]; [|done..]. unfold adler_mod in *.
  destruct (decide (N.lor (N.shiftl b 16) a = 0%N)) as [->|Hn]; [lia|].
  apply N.log2_lt_pow2; [lia|]. rewrite N.log2_lor.
  assert (N.log2 a < 32)%N.
  { destruct (decide (a = 0%N)) as [->|]; [done|]. apply N.log2_lt_pow2; lia. }
  assert (N.log2 (N.shiftl b 16) < 32)%N; [|lia].
  destruct (decide (b = 0%N)) as [->|]; [done|].
  rewrite N.log2_shiftl by done. assert (N.log2 b < 16)%N; [|lia]. apply N.log2_lt_pow2; lia.
Qed.
