(* ===== verification/Paths.v ===== *)
(** * Paths and addresses

    What the components use of Go's [path/filepath] and of [net.SplitHostPort]. *)
From Stdlib Require Import Ascii.
From S2P Require Import Prelude Bytes Text.

(** ** [path/filepath] *)

(** [Clean]: the elements of a path, without [.], and without what [..] takes back. *)
Definition clean_element (rooted : bool) (stack : list string) (e : string) : list string :=
  if String.eqb e "" || String.eqb e "." then stack
  else if String.eqb e ".." then
    match stack with
    | [] => if rooted then [] else [".."]
    | top :: rest => if String.eqb top ".." then ".." :: stack else rest
    end
  else e :: stack.
Definition filepath_Clean (path : string) : string :=
  let rooted := HasPrefix path "/" in
  let out := Join (rev (fold_left (clean_element rooted) (Split "/"%char path) [])) "/" in
  if rooted then "/" +:+ out else if String.eqb out "" then "." else out.
Definition filepath_Join (elems : list string) : string :=
  match filter (fun e => e <> "") elems with
  | [] => ""
  | l => filepath_Clean (Join l "/")
  end.

(** ** Addresses: [net.SplitHostPort] *)

(** [strings.LastIndexByte], as the text before and after the last occurrence. *)
Fixpoint cut_last (c : ascii) (s : string) : option (string * string) :=
  match s with
  | EmptyString => None
  | String a s' =>
      match cut_last c s' with
      | Some (before, after) => Some (String a before, after)
      | None => if ascii_dec c a then Some ("", s') else None
      end
  end.

Definition addr_error (what address : string) : err := XErr UnknownCode ("address " +:+ address +:+ ": " +:+ what).

(** The text between the brackets is up to the first closing one; a colon must follow it, and be the
    last colon of the address. *)
Definition SplitHostPort (hostport : string) : res (string * string) :=
  match cut_last ":" hostport with
  | None => Fail (addr_error "missing port in address" hostport)
  | Some (before, port) =>
      match hostport with
      | String "[" inner =>
          let '(host, rest, found) := Cut "]" inner in
          if negb found then Fail (addr_error "missing ']' in address" hostport)
          else match rest with
               | EmptyString => Fail (addr_error "missing port in address" hostport)
               | String ":" rest' =>
                   if contains ":" rest' then Fail (addr_error "too many colons in address" hostport)
                   else if contains "[" inner then Fail (addr_error "unexpected '[' in address" hostport)
                   else if contains "]" rest then Fail (addr_error "unexpected ']' in address" hostport)
                   else Ok (host, port)
               | _ => Fail (addr_error "missing port in address" hostport)
               end
      | _ =>
          if contains ":" before then Fail (addr_error "too many colons in address" hostport)
          else if contains "[" hostport then Fail (addr_error "unexpected '[' in address" hostport)
          else if contains "]" hostport then Fail (addr_error "unexpected ']' in address" hostport)
          else Ok (before, port)
      end
  end.


(** [filepath.Dir]: what precedes the last separator, cleaned. *)
Definition filepath_Dir (path : string) : string :=
  match cut_last "/" path with
  | Some (before, _) => filepath_Clean (before +:+ "/")
  | None => "."
  end.
(** [filepath.Base]: the last element; trailing separators do not count. *)
Definition filepath_Base (path : string) : string :=
  if String.eqb path "" then "."
  else match filter (fun e => e <> "") (rev (Split "/"%char path)) with
       | [] => "/"
       | e :: _ => e
       end.

(** ** A name in a folder *)

(** A single element of a path. *)
Definition plain (name : string) : bool :=
  negb (contains "/" name) && negb (String.eqb name "") && negb (String.eqb name ".") && negb (String.eqb name "..").

Lemma Split_snoc sep d name :
  contains sep name = false -> Split sep (d +:+ String sep name) = Split sep d ++ [name].
Proof.
  intros Hn. induction d as [|c d IH].
  - change ("" +:+ ?x) with x. simpl. destruct (ascii_dec sep sep); [|done]. by rewrite Split_nodelim.
  - rewrite app_cons_str. cbn [Split]. rewrite IH. destruct (ascii_dec sep c); [done|].
    by destruct (Split_cons sep d) as (p & l & ->).
Qed.

Lemma Join_snoc l name : l <> [] -> exists pre, Join (l ++ [name]) "/" = pre +:+ String "/" name.
Proof.
  induction l as [|x l IH]; [done|]. intros _. destruct l as [|y l]; [by exists x|].
  destruct IH as [pre Hpre]; [done|]. exists (x +:+ "/" +:+ pre).
  change (Join ((x :: y :: l) ++ [name]) "/") with (x +:+ "/" +:+ Join ((y :: l) ++ [name]) "/").
  by rewrite Hpre, !app_assoc_str.
Qed.

(** What the path ends in. *)
Lemma Base_snoc pre name : plain name = true -> filepath_Base (pre +:+ String "/" name) = name.
Proof.
  unfold plain. rewrite !andb_true_iff, !negb_true_iff. intros [[[Hs He] _] _]. unfold filepath_Base.
  destruct (String.eqb_spec (pre +:+ String "/" name) ""); [by destruct pre|].
  rewrite Split_snoc, rev_app_distr by done. simpl. rewrite filter_cons_True; [done|]. by apply String.eqb_neq.
Qed.

Lemma Base_plain name : plain name = true -> filepath_Base name = name.
Proof.
  unfold plain. rewrite !andb_true_iff, !negb_true_iff. intros [[[Hs He] _] _]. unfold filepath_Base. rewrite He.
  rewrite Split_nodelim by done. simpl. rewrite filter_cons_True; [done|]. by apply String.eqb_neq.
Qed.

Lemma clean_plain rooted stack name : plain name = true -> clean_element rooted stack name = name :: stack.
Proof.
  unfold plain, clean_element. rewrite !andb_true_iff, !negb_true_iff. intros [[[_ ->] ->] ->]. done.
Qed.

Lemma Clean_nonempty p : filepath_Clean p <> "".
Proof. unfold filepath_Clean. destruct (HasPrefix p "/"); [done|]. case_match eqn:E; [done|]. by apply String.eqb_neq in E. Qed.

Lemma Clean_plain name : plain name = true -> filepath_Clean name = name.
Proof.
  intros H. assert (HasPrefix name "/" = false) as Hp.
  { unfold plain in H. destruct name as [|c name]; [done|]. cbn [contains] in H. revert H.
    change (HasPrefix (String c name) "/") with (if ascii_dec "/" c then String.prefix "" name else false).
    destruct (ascii_dec "/" c); [intros [=]|done]. }
  unfold filepath_Clean. rewrite Hp, Split_nodelim.
  - cbn [fold_left]. rewrite clean_plain by done. simpl.
    unfold plain in H. rewrite !andb_true_iff, !negb_true_iff in H. by destruct H as [[[_ ->] _] _].
  - unfold plain in H. rewrite !andb_true_iff, !negb_true_iff in H. by destruct H as [[[-> _] _] _].
Qed.

Lemma Base_Clean_snoc d name :
  plain name = true -> filepath_Base (filepath_Clean (d +:+ String "/" name)) = name.
Proof.
  intros Hp. unfold filepath_Clean. set (rooted := HasPrefix _ _). rewrite Split_snoc.
  2:{ unfold plain in Hp. rewrite !andb_true_iff, !negb_true_iff in Hp. by destruct Hp as [[[? _] _] _]. }
  rewrite fold_left_app. cbn [fold_left]. rewrite clean_plain by done. simpl rev.
  set (l := rev _). destruct (decide (l = [])) as [->|Hl].
  - simpl. destruct rooted; [apply (Base_snoc "" name Hp)|].
    destruct (String.eqb_spec name ""); [by subst|]. by apply Base_plain.
  - destruct (Join_snoc l name Hl) as [pre ->].
    destruct rooted; [rewrite <-app_assoc_str; by apply Base_snoc|].
    destruct (String.eqb_spec (pre +:+ String "/" name) ""); [by destruct pre|]. by apply Base_snoc.
Qed.

(** The last element of a join is the name, so different names are different paths. *)
Lemma Base_Join d name : plain name = true -> filepath_Base (filepath_Join [d; name]) = name.
Proof.
  intros Hp. assert (name <> "") as Hn by (by intros ->). unfold filepath_Join.
  destruct (decide (d = "")) as [->|Hd].
  - rewrite filter_cons_False, filter_cons_True, filter_nil by (done || tauto).
    cbn [Join]. rewrite Clean_plain by done. by apply Base_plain.
  - rewrite !filter_cons_True, filter_nil by done. cbn [Join]. by apply Base_Clean_snoc.
Qed.

(** Different names are different paths, in whatever folders. *)
Lemma Join_base d e n m : plain n = true -> plain m = true -> filepath_Join [d; n] = filepath_Join [e; m] -> n = m.
Proof. intros Hn Hm He. rewrite <-(Base_Join d n Hn), <-(Base_Join e m Hm). by rewrite He. Qed.
Lemma Join_ne d e n m : plain n = true -> plain m = true -> n <> m -> filepath_Join [d; n] <> filepath_Join [e; m].
Proof. intros Hn Hm Hne He. by apply Hne, (Join_base d e). Qed.
