(* ===== verification/Messages.v ===== *)
(** * The messages of the directory service

    The protobuf messages of [go-directory] (packages [dsc], [dsm]) as records of the fields that
    the repository reads or writes; a message pointer that may be nil is an [option].  The types of
    [internal/eds/pkg/store] that every component shares ([Direction], [RelationFilter]) are here
    too. *)
From S2P Require Import Prelude Bytes.

(** [timestamppb.Timestamp]. *)
Record Timestamp := MkTS { Seconds : Z; Nanos : Z }.

(** [structpb.Value]: a string, or any other kind kept as its encoding. *)
Inductive Value :=
| StringValue (s : string)
| OtherValue (enc : string).

(** [Value.GetStringValue] is empty on the other kinds. *)
Definition GetStringValue (v : Value) : string :=
  match v with StringValue s => s | OtherValue _ => "" end.

(** [dsc.Object]; [Properties = None] is a nil [*structpb.Struct]. *)
Record Object := MkObject {
  o_type : string;
  o_id : string;
  o_display_name : string;
  o_properties : option (gmap string Value);
  o_created_at : option Timestamp;
  o_updated_at : option Timestamp;
  o_etag : string }.

(** [dsc.RelationIdentifier]. *)
Record RelationIdentifier := MkIdent {
  object_type : string;
  object_id : string;
  relation : string;
  subject_type : string;
  subject_id : string;
  subject_relation : string }.

(** [dsc.Relation]: an identifier with its metadata. *)
Record Relation := MkRelation {
  r_ident : RelationIdentifier;
  r_created_at : option Timestamp;
  r_updated_at : option Timestamp;
  r_etag : string }.

(** [dsm.Metadata] and [dsm.Body]. *)
Record Metadata := MkMetadata { md_updated_at : option Timestamp; md_etag : string }.
Record Body := MkBody { body_data : string }.

#[export] Instance Timestamp_eq_dec : EqDecision Timestamp.
Proof. solve_decision. Defined.
#[export] Instance Value_eq_dec : EqDecision Value.
Proof. solve_decision. Defined.
#[export] Instance Object_eq_dec : EqDecision Object.
Proof. solve_decision. Defined.
#[export] Instance RelationIdentifier_eq_dec : EqDecision RelationIdentifier.
Proof. solve_decision. Defined.
#[export] Instance Relation_eq_dec : EqDecision Relation.
Proof. solve_decision. Defined.

#[export] Instance RelationIdentifier_countable : Countable RelationIdentifier.
Proof.
  refine (inj_countable'
    (fun r => (object_type r, object_id r, relation r, subject_type r, subject_id r,
               subject_relation r))
    (fun '(a, b, c, d, e, f) => MkIdent a b c d e f) _).
  by intros [].
Defined.

(** The zero messages ([&dsc.Object{}], ...), which are also what the getters read off nil. *)
Definition zero_Object : Object := MkObject "" "" "" None None None "".
Definition zero_ident : RelationIdentifier := MkIdent "" "" "" "" "" "".
Definition zero_Relation : Relation := MkRelation zero_ident None None "".

(** Field updates, as the source assigns them. *)
Definition set_o_etag (o : Object) (e : string) : Object :=
  MkObject (o_type o) (o_id o) (o_display_name o) (o_properties o) (o_created_at o)
    (o_updated_at o) e.
Definition set_o_times (o : Object) (c u : option Timestamp) : Object :=
  MkObject (o_type o) (o_id o) (o_display_name o) (o_properties o) c u (o_etag o).
Definition set_o_display (o : Object) (n : string) (p : option (gmap string Value)) : Object :=
  MkObject (o_type o) (o_id o) n p (o_created_at o) (o_updated_at o) (o_etag o).
Definition set_r_etag (r : Relation) (e : string) : Relation :=
  MkRelation (r_ident r) (r_created_at r) (r_updated_at r) e.
Definition set_r_times (r : Relation) (c u : option Timestamp) : Relation :=
  MkRelation (r_ident r) c u (r_etag r).

(** The getter shape shared by [*dsc.Relation] and [*dsc.RelationIdentifier]: the interfaces
    [relLike] of package [ds] and [relationIdent] of package [bdb]. *)
Class RelLike (T : Type) := ident_of : T -> RelationIdentifier.
#[export] Instance RelLike_ident : RelLike RelationIdentifier := fun r => r.
#[export] Instance RelLike_Relation : RelLike Relation := r_ident.
#[export] Instance RelLike_nilable {T} `{RelLike T} : RelLike (option T) :=
  fun o => match o with Some r => ident_of r | None => zero_ident end.

(** ** [internal/eds/pkg/store/store.go] *)

(** Which side of a relation a scan is anchored on. *)
Inductive Direction := ByObject | BySubject.

#[export] Instance Direction_eq_dec : EqDecision Direction.
Proof. solve_decision. Defined.

(** A partial relation identifier; empty fields are unset. *)
Record RelationFilter := MkFilter {
  f_ident : RelationIdentifier;
  HasSubjectRelation : bool }.

Definition no_filter : RelationFilter := MkFilter zero_ident false.

Definition ObjectOnlyFilter (dir : Direction) (objectType objectID : string) : RelationFilter :=
  match dir with
  | BySubject => MkFilter (MkIdent "" "" "" objectType objectID "") false
  | ByObject => MkFilter (MkIdent objectType objectID "" "" "" "") false
  end.

(** The type and id that a direction anchors on. *)
Definition anchor (dir : Direction) (r : RelationIdentifier) : string * string :=
  match dir with
  | ByObject => (object_type r, object_id r)
  | BySubject => (subject_type r, subject_id r)
  end.
