(* ===== verification/Hash.v ===== *)
(** * Hashes and integer encodings

    [internal/eds/pkg/ds/hash.go] and the etag of a manifest ([manifest.Hash] of [ds/manifest.go]):
    fixed-width integers to and from little-endian bytes and decimal strings, and FNV-1a. *)
From stdpp Require Import pretty.
From Stdlib Require Import Ascii.
From S2P Require Import Prelude Bytes Messages.

(** ** Fixed-width integers *)

Definition uint (w : Z) (z : Z) : Z := (z mod 2 ^ w)%Z.
Definition sint (w : Z) (z : Z) : Z :=
  let u := uint w z in (if u <? 2 ^ (w - 1) then u else u - 2 ^ w)%Z.
Definition is_int32 (z : Z) : Prop := (- 2 ^ 31 <= z < 2 ^ 31)%Z.
Definition is_int64 (z : Z) : Prop := (- 2 ^ 63 <= z < 2 ^ 63)%Z.

(** [binary.LittleEndian]: [n] bytes, lowest first. *)
Fixpoint put_le (n : nat) (v : Z) : list Z :=
  match n with
  | O => []
  | S n => Z.land v 255 :: put_le n (Z.shiftr v 8)
  end.
Fixpoint get_le (b : list Z) : Z :=
  match b with
  | [] => 0%Z
  | x :: b => Z.lor x (Z.shiftl (get_le b) 8)
  end.

Definition DefaultHash : string := "0".
Definition IsDefaultHash (h : string) : bool := String.eqb h DefaultHash.

Definition Int32ToByte (i : Z) : list Z := put_le 4 (uint 32 i).
(** [None] is the panic on a buffer of another size. *)
Definition ByteToInt32 (b : list Z) : option Z :=
  if negb (length b =? 4)%nat then None else Some (sint 32 (get_le b)).
Definition Int64ToByte (i : Z) : list Z := put_le 8 (uint 64 i).
Definition Uint32ToByte (i : Z) : list Z := put_le 4 i.
Definition Uint64ToByte (i : Z) : list Z := put_le 8 i.
Definition BoolToByte (b : bool) : list Z := if b then [1%Z] else [0%Z].

(** [strconv.FormatInt(i, 10)], [strconv.FormatUint(u, 10)] *)
Definition FormatInt (i : Z) : string := pretty i.
Definition FormatUint (u : Z) : string := pretty (Z.to_N u).

Definition Int32ToStr (i : Z) : string := FormatInt i.

Definition digit (c : ascii) : option N :=
  let n := N_of_ascii c in
  if (48 <=? n)%N && (n <=? 57)%N then Some (n - 48)%N else None.
Fixpoint digits (acc : N) (s : string) : option N :=
  match s with
  | EmptyString => Some acc
  | String c s =>
      match digit c with
      | Some d => digits (acc * 10 + d)%N s
      | None => None
      end
  end.
(** [strconv.ParseInt(s, 10, 32)]; [None] is a syntax or range error. *)
Definition ParseInt32 (s : string) : option Z :=
  let '(neg, s) :=
    match s with
    | String c s' =>
        if Ascii.eqb c "-"%char then (true, s') else if Ascii.eqb c "+"%char then (false, s')
        else (false, s)
    | EmptyString => (false, s)
    end in
  if String.eqb s "" then None else
  match digits 0 s with
  | None => None
  | Some n =>
      let z := if (neg : bool) then (- Z.of_N n)%Z else Z.of_N n in
      if decide (is_int32 z) then Some z else None
  end.
Definition StrToInt32 (s : string) : Z := default (-1)%Z (ParseInt32 s).

(** ** FNV-1a, 64 bits ([hash/fnv]) *)

Definition fnv_offset : Z := 14695981039346656037.
Definition fnv_prime : Z := 1099511628211.
Definition fnv_byte (h : Z) (c : ascii) : Z :=
  uint 64 (Z.lxor h (Z.of_N (N_of_ascii c)) * fnv_prime).
(** [h.Write(b)] *)
Fixpoint fnv_write (h : Z) (b : string) : Z :=
  match b with
  | EmptyString => h
  | String c b => fnv_write (fnv_byte h c) b
  end.
Definition fnv64a (b : string) : Z := fnv_write fnv_offset b.

(** [manifest.Hash]; [Write] never fails. *)
Definition manifest_Hash (body : Body) : string := FormatUint (fnv64a (body_data body)).

(** ** Properties *)

Lemma land_255 v : Z.land v 255 = (v mod 2 ^ 8)%Z.
Proof. rewrite <-Z.land_ones by lia. done. Qed.

Lemma lor_shift_add a b : (0 <= a < 2 ^ 8)%Z -> Z.lor a (Z.shiftl b 8) = (a + b * 2 ^ 8)%Z.
Proof.
  intros Ha. rewrite <-Z.shiftl_mul_pow2 by lia. symmetry.
  rewrite Z.add_nocarry_lxor, Z.lxor_lor; try done.
  all: apply Z.bits_inj'; intros n Hn; rewrite Z.land_spec, Z.bits_0, Z.shiftl_spec by done;
    destruct (Z.lt_decidable n 8) as [H|H];
    [rewrite (Z.testbit_neg_r b) by lia; apply andb_false_r
    |rewrite <-(Z.mod_small a (2 ^ 8)) by lia; by rewrite Z.mod_pow2_bits_high by lia].
Qed.

Lemma get_put_le n v : (0 <= v)%Z -> get_le (put_le n v) = (v mod 2 ^ (8 * Z.of_nat n))%Z.
Proof.
  revert v. induction n as [|n IH]; intros v Hv; simpl; [by rewrite Z.mod_1_r|].
  rewrite IH by (by apply Z.shiftr_nonneg). rewrite land_255, Z.shiftr_div_pow2 by lia.
  rewrite lor_shift_add by (apply Z.mod_pos_bound; lia).
  replace (8 * Z.of_nat (S n))%Z with (8 + 8 * Z.of_nat n)%Z by lia.
  rewrite Z.pow_add_r by lia. rewrite Z.rem_mul_r by lia. lia.
Qed.

Lemma length_put_le n v : length (put_le n v) = n.
Proof. revert v. induction n; intros v; simpl; auto. Qed.

Lemma sint_uint32 z : is_int32 z -> sint 32 (uint 32 z) = z.
Proof.
  unfold is_int32, sint, uint. intros H. rewrite Z.mod_mod by lia.
  destruct (Z.ltb_spec (z mod 2 ^ 32) (2 ^ (32 - 1))).
  - destruct (Z.le_gt_cases 0 z); [by apply Z.mod_small; lia|].
    rewrite <-(Z.mod_add z 1), Z.mul_1_l, Z.mod_small in * by lia. lia.
  - destruct (Z.le_gt_cases 0 z); [rewrite Z.mod_small in * by lia; lia|].
    rewrite <-(Z.mod_add z 1), Z.mul_1_l, Z.mod_small in * by lia. lia.
Qed.

(** a 32-bit integer survives the trip through its four little-endian bytes. *)
Theorem int32_bytes_roundtrip i : is_int32 i -> ByteToInt32 (Int32ToByte i) = Some i.
Proof.
  intros Hi. unfold ByteToInt32, Int32ToByte. rewrite length_put_le. cbn [Nat.eqb negb].
  f_equal. rewrite get_put_le by (unfold uint; apply Z.mod_pos_bound; lia).
  change (8 * Z.of_nat 4)%Z with 32%Z. unfold uint at 1. rewrite Z.mod_mod by lia.
  by apply sint_uint32.
Qed.

Lemma digit_pretty n : (n < 10)%N -> digit (pretty_N_char n) = Some n.
Proof.
  intros Hn. assert (n ∈ [0; 1; 2; 3; 4; 5; 6; 7; 8; 9]%N) as Hin.
  { rewrite !elem_of_cons. lia. }
  revert Hin. rewrite !elem_of_cons. intros Hin.
  repeat (destruct Hin as [->|Hin]; [done|]). by apply elem_of_nil in Hin.
Qed.

Lemma digits_pretty x s : digits 0 (pretty_N_go x s) = digits x s.
Proof.
  revert s. induction (N.lt_wf_0 x) as [x _ IH]. intros s.
  assert (x = 0 \/ 0 < x)%N as [->|Hx] by lia; [by rewrite pretty_N_go_0|].
  rewrite pretty_N_go_step by done. rewrite IH by (apply N.div_lt; lia). simpl.
  rewrite digit_pretty by (apply N.mod_lt; lia).
  rewrite (N.mul_comm (x / 10)), <-N.div_mod by lia. done.
Qed.

Lemma digits_pretty_N x : digits 0 (pretty x) = Some x.
Proof.
  unfold pretty, pretty_N. destruct (decide (x = 0%N)) as [->|]; [done|]. by rewrite digits_pretty.
Qed.

(** The first character of a decimal is a digit. *)
Lemma pretty_N_head (x : N) : exists c s, pretty x = String c s /\ c <> "-"%char /\ c <> "+"%char.
Proof.
  pose proof (digits_pretty_N x) as H. destruct (pretty x) as [|c s] eqn:E.
  - exfalso. assert (forall s y, pretty_N_go y s = "" -> s = "") as Hgo.
    { intros s y. revert s. induction (N.lt_wf_0 y) as [y _ IH]. intros s.
      assert (y = 0 \/ 0 < y)%N as [->|Hy] by lia; [by rewrite pretty_N_go_0|].
      rewrite pretty_N_go_step by done. intros Hs. apply IH in Hs; [done|]. apply N.div_lt; lia. }
    unfold pretty, pretty_N in E. destruct (decide (x = 0%N)); [done|].
    assert (0 < x)%N as Hx by lia. rewrite pretty_N_go_step in E by done. by apply Hgo in E.
  - exists c, s. split; [done|]. split; intros ->; done.
Qed.

(** a 32-bit integer survives the trip through its decimal representation. *)
Theorem int32_string_roundtrip i : is_int32 i -> StrToInt32 (Int32ToStr i) = i.
Proof.
  intros Hi. unfold StrToInt32, Int32ToStr, FormatInt, ParseInt32.
  assert (forall x : N, digits 0 (pretty x) = Some x) as Hd by apply digits_pretty_N.
  destruct i as [|p|p]; [done|..].
  - change (pretty (Z.pos p)) with (pretty (N.pos p)).
    destruct (pretty_N_head (N.pos p)) as (c & s & E & Hm & Hp).
    specialize (Hd (N.pos p)). rewrite E in *. apply Ascii.eqb_neq in Hm, Hp. rewrite Hm, Hp.
    simpl String.eqb. rewrite Hd. simpl. by rewrite decide_True.
  - change (pretty (Z.neg p)) with ("-" +:+ pretty (N.pos p)). rewrite app_cons_str.
    rewrite Ascii.eqb_refl. destruct (pretty_N_head (N.pos p)) as (c & s & E & _).
    specialize (Hd (N.pos p)). change ("" +:+ pretty (N.pos p)) with (pretty (N.pos p)).
    rewrite E in *. simpl String.eqb. rewrite Hd. simpl. by rewrite decide_True.
Qed.

Lemma fnv_write_app h a b : fnv_write h (a +:+ b) = fnv_write (fnv_write h a) b.
Proof. revert h. induction a as [|c a IH]; intros h; [done|]. rewrite app_cons_str. apply IH. Qed.

Lemma fnv_range h b : (0 <= h < 2 ^ 64)%Z -> (0 <= fnv_write h b < 2 ^ 64)%Z.
Proof.
  revert h. induction b as [|c b IH]; intros h Hh; simpl; [done|].
  apply IH. unfold fnv_byte, uint. apply Z.mod_pos_bound. lia.
Qed.

(** Decimal etags are equal exactly when the hashes are. *)
Lemma FormatUint_inj a b : (0 <= a)%Z -> (0 <= b)%Z -> FormatUint a = FormatUint b -> a = b.
Proof. unfold FormatUint. intros Ha Hb E. apply (inj pretty) in E. lia. Qed.

Module HashExamples.
Lemma int32_bytes_roundtrip_witness : ByteToInt32 (Int32ToByte (-2)) = Some (-2)%Z.
Proof. apply int32_bytes_roundtrip. unfold is_int32. lia. Defined.
Lemma int32_string_roundtrip_witness : StrToInt32 (Int32ToStr (-2147483648)) = (-2147483648)%Z.
Proof. apply int32_string_roundtrip. unfold is_int32. lia. Defined.
Example fnv_of_a : manifest_Hash (MkBody "a") = "12638187200555641996".
Proof. vm_compute. reflexivity. Qed.
End HashExamples.
