(* ===== verification/Keys.v ===== *)
(** * Keys and filters

    The on-disk keys of objects and relations and the prefix and value filters built from partial
    identifiers: [internal/eds/pkg/ds/{const,object,relation,validate}.go] (Module [ds]) and
    [internal/eds/pkg/bdb/{keys,relation_store}.go] (Module [bdb]).  Keys are injective on
    well-formed identifiers, the two packages build the same keys, and the filters admit every
    relation that matches their populated fields. *)
From Stdlib Require Import Ascii.
From S2P Require Import Prelude Bytes Messages.

Definition sepT : Ascii.ascii := ":"%char.
Definition sepI : Ascii.ascii := "|"%char.

(** [buf.WriteByte(c)]. *)
Definition byte (c : Ascii.ascii) : string := String c "".

Module ds.

(** [const.go] *)
Definition TypeIDSeparator : Ascii.ascii := sepT.
Definition InstanceSeparator : Ascii.ascii := sepI.
Definition RelationSeparator : Ascii.ascii := "#"%char.

(** [validate.go] *)
Definition IsSet (s : string) : bool := negb (String.eqb (trim_left s) "").
Definition IsNotSet (s : string) : bool := String.eqb (trim_left s) "".

(** [object.go] *)
Definition object_StrKey (o : Object) : string :=
  o_type o +:+ byte TypeIDSeparator +:+ o_id o.

Definition object_Key (o : Object) : string :=
  let buf := "" in
  let buf := buf +:+ o_type o in
  let buf := buf +:+ byte TypeIDSeparator in
  let buf := buf +:+ o_id o in
  buf.

Definition objectIdentifier_StrKey (ty id : string) : string :=
  ty +:+ byte TypeIDSeparator +:+ id.

Definition objectIdentifier_Key (ty id : string) : string :=
  let buf := "" in
  let buf := buf +:+ ty in
  let buf := buf +:+ byte TypeIDSeparator in
  let buf := if negb (String.eqb id "") then buf +:+ id else buf in
  buf.

Definition propDisplayName : string := "display_name".

(** [PatchObjectRead]: a missing property bag reads as an empty one. *)
Definition PatchObjectRead (o : Object) : Object :=
  match default ∅ (o_properties o) !! propDisplayName with
  | Some v => set_o_display o (GetStringValue v) (o_properties o)
  | None => o
  end.

(** [PatchObjectWrite]; [None] is the nil-pointer dereference of [i.GetProperties().Fields] when
    the object has a display name and no property bag. *)
Definition PatchObjectWrite (o : Object) : option Object :=
  if (0 <? String.length (o_display_name o))%nat then
    match o_properties o with
    | None => None
    | Some fields =>
        Some (set_o_display o "" (Some (<[propDisplayName := StringValue (o_display_name o)]> fields)))
    end
  else Some o.

(** [relation.go].  A [ds.relation] wraps [safe.SafeRelation]: an identifier and whether the
    subject relation takes part in matching. *)
Definition srelation : Type := RelationFilter.

Definition RelationIdentifier_ (i : RelationIdentifier) : srelation :=
  MkFilter i (negb (String.eqb (subject_relation i) "")).

Definition relation_ObjKey (i : RelationIdentifier) : string :=
  let buf := "" in
  let buf := buf +:+ object_type i in
  let buf := buf +:+ byte TypeIDSeparator in
  let buf := buf +:+ object_id i in
  let buf := buf +:+ byte InstanceSeparator in
  let buf := buf +:+ relation i in
  let buf := buf +:+ byte InstanceSeparator in
  let buf := buf +:+ subject_type i in
  let buf := buf +:+ byte TypeIDSeparator in
  let buf := buf +:+ subject_id i in
  if negb (String.eqb (subject_relation i) "") then
    let buf := buf +:+ byte InstanceSeparator in
    let buf := buf +:+ subject_relation i in
    buf
  else buf.

Definition relation_Key (i : RelationIdentifier) : string := relation_ObjKey i.

Definition relation_SubKey (i : RelationIdentifier) : string :=
  let buf := "" in
  let buf := buf +:+ subject_type i in
  let buf := buf +:+ byte TypeIDSeparator in
  let buf := buf +:+ subject_id i in
  let buf := buf +:+ byte InstanceSeparator in
  let buf := buf +:+ relation i in
  let buf := buf +:+ byte InstanceSeparator in
  let buf := buf +:+ object_type i in
  let buf := buf +:+ byte TypeIDSeparator in
  let buf := buf +:+ object_id i in
  if negb (String.eqb (subject_relation i) "") then
    let buf := buf +:+ byte InstanceSeparator in
    let buf := buf +:+ subject_relation i in
    buf
  else buf.

Definition asFilter (i : srelation) : RelationFilter :=
  MkFilter
    (MkIdent (object_type (f_ident i)) (object_id (f_ident i)) (relation (f_ident i))
       (subject_type (f_ident i)) (subject_id (f_ident i)) (subject_relation (f_ident i)))
    (HasSubjectRelation i).

(** [fv != "" && strings.Compare(item, fv) != 0]. *)
Definition rejects (fv item : string) : bool :=
  negb (String.eqb fv "") && negb (String.eqb item fv).

Definition valueFilter {T} `{RelLike T} (i : srelation) (item : T) : bool :=
  let f := f_ident i in
  let r := ident_of item in
  if rejects (object_type f) (object_type r) then false else
  if rejects (object_id f) (object_id r) then false else
  if rejects (relation f) (relation r) then false else
  if rejects (subject_type f) (subject_type r) then false else
  if rejects (subject_id f) (subject_id r) then false else
  if HasSubjectRelation i && negb (String.eqb (subject_relation r) (subject_relation f))
  then false else
  true.

Definition identifierValueFilter (i : srelation) : RelationIdentifier -> bool := valueFilter i.

(** Rows come out of a scan as possibly nil pointers. *)
Definition relationValueFilter (i : srelation) : option Relation -> bool := valueFilter i.

(** [ErrNoCompleteObjectIdentifier] of [error.go]. *)
Definition ErrNoCompleteObjectIdentifier : err :=
  AErr "E20050" FailedPrecondition "relation identifier no complete object identifier" [].

Section Direction_.
(** [SafeObjectIdentifier.IsComplete] of package [azm/safe]. *)
Context (IsComplete : string -> string -> bool).

Definition direction (i : srelation) : Direction * bool :=
  if IsComplete (object_type (f_ident i)) (object_id (f_ident i)) then (ByObject, true)
  else if IsComplete (subject_type (f_ident i)) (subject_id (f_ident i)) then (BySubject, true)
  else (ByObject, false).

Definition PathAndFilter (i : srelation) : res (Direction * RelationFilter) :=
  let '(dir, ok) := direction i in
  if negb ok then Fail ErrNoCompleteObjectIdentifier else Ok (dir, asFilter i).

Definition Filter (i : srelation) : Direction * RelationFilter * (RelationIdentifier -> bool) :=
  let '(dir, _) := direction i in (dir, asFilter i, identifierValueFilter i).

Definition RelationValueFilter (i : srelation)
  : Direction * RelationFilter * (option Relation -> bool) :=
  let '(dir, _) := direction i in (dir, asFilter i, relationValueFilter i).
End Direction_.
End ds.

Module bdb.

(** [keys.go] *)
Definition typeIDSeparator : Ascii.ascii := sepT.
Definition instanceSeparator : Ascii.ascii := sepI.

Definition objectKey (objectType objectID : string) : string :=
  let key := "" in
  let key := key +:+ objectType in
  let key := key +:+ byte typeIDSeparator in
  let key := key +:+ objectID in
  key.

(** [relation_store.go] *)
Definition isSet (s : string) : bool := negb (String.eqb (trim_left s) "").

Definition writeObjKey (buf : string) (r : RelationIdentifier) : string :=
  let buf := buf +:+ object_type r in
  let buf := buf +:+ byte typeIDSeparator in
  let buf := buf +:+ object_id r in
  let buf := buf +:+ byte instanceSeparator in
  let buf := buf +:+ relation r in
  let buf := buf +:+ byte instanceSeparator in
  let buf := buf +:+ subject_type r in
  let buf := buf +:+ byte typeIDSeparator in
  let buf := buf +:+ subject_id r in
  let sr := subject_relation r in
  if negb (String.eqb sr "") then
    let buf := buf +:+ byte instanceSeparator in
    let buf := buf +:+ sr in
    buf
  else buf.

Definition writeSubKey (buf : string) (r : RelationIdentifier) : string :=
  let buf := buf +:+ subject_type r in
  let buf := buf +:+ byte typeIDSeparator in
  let buf := buf +:+ subject_id r in
  let buf := buf +:+ byte instanceSeparator in
  let buf := buf +:+ relation r in
  let buf := buf +:+ byte instanceSeparator in
  let buf := buf +:+ object_type r in
  let buf := buf +:+ byte typeIDSeparator in
  let buf := buf +:+ object_id r in
  let sr := subject_relation r in
  if negb (String.eqb sr "") then
    let buf := buf +:+ byte instanceSeparator in
    let buf := buf +:+ sr in
    buf
  else buf.

Definition objKeyOf {T} `{RelLike T} (r : T) : string := writeObjKey "" (ident_of r).
Definition subKeyOf {T} `{RelLike T} (r : T) : string := writeSubKey "" (ident_of r).

Definition writeObjFilter (buf : string) (f : RelationFilter) : string :=
  let f := f_ident f in
  if negb (isSet (object_type f)) || negb (isSet (object_id f)) then buf else
  let buf := buf +:+ object_type f in
  let buf := buf +:+ byte typeIDSeparator in
  let buf := buf +:+ object_id f in
  let buf := buf +:+ byte instanceSeparator in
  if negb (isSet (relation f)) then buf else
  let buf := buf +:+ relation f in
  let buf := buf +:+ byte instanceSeparator in
  if negb (isSet (subject_type f)) then buf else
  let buf := buf +:+ subject_type f in
  let buf := buf +:+ byte typeIDSeparator in
  if negb (isSet (subject_id f)) then buf else
  buf +:+ subject_id f.

Definition writeSubFilter (buf : string) (f : RelationFilter) : string :=
  let f := f_ident f in
  if negb (isSet (subject_type f)) || negb (isSet (subject_id f)) then buf else
  let buf := buf +:+ subject_type f in
  let buf := buf +:+ byte typeIDSeparator in
  let buf := buf +:+ subject_id f in
  let buf := buf +:+ byte instanceSeparator in
  if negb (isSet (relation f)) then buf else
  let buf := buf +:+ relation f in
  let buf := buf +:+ byte instanceSeparator in
  if negb (isSet (object_type f)) then buf else
  let buf := buf +:+ object_type f in
  let buf := buf +:+ byte typeIDSeparator in
  if negb (isSet (object_id f)) then buf else
  buf +:+ object_id f.

(** The key of a relation in the index of a direction, and the prefix of a filter there. *)
Definition key_of {T} `{RelLike T} (dir : Direction) (r : T) : string :=
  match dir with ByObject => objKeyOf r | BySubject => subKeyOf r end.
Definition filter_of (dir : Direction) (f : RelationFilter) : string :=
  match dir with BySubject => writeSubFilter "" f | ByObject => writeObjFilter "" f end.
End bdb.

(** ** Key structure *)

(** Both indexes write the same shape, [t:i|rel|t':i'(|sr)], with the two ends swapped. *)
Definition sub_tail (sr : string) : string := if String.eqb sr "" then "" else String sepI sr.
Definition relkey (t i rel t' i' sr : string) : string :=
  t +:+ String sepT (i +:+ String sepI (rel +:+ String sepI (t' +:+ String sepT (i' +:+ sub_tail sr)))).

Ltac flatten_key := repeat rewrite ?app_assoc_str, ?app_cons_str; cbn [String.app String.append].

Lemma app_byte (s : string) c t : (s +:+ byte c) +:+ t = s +:+ String c t.
Proof. by rewrite app_assoc_str. Qed.

Lemma app_if (b : bool) (s t u : string) :
  (if b then s +:+ t else s +:+ u) = s +:+ (if b then t else u).
Proof. by destruct b. Qed.

Lemma objKeyOf_relkey (r : RelationIdentifier) :
  bdb.objKeyOf r =
  relkey (object_type r) (object_id r) (relation r) (subject_type r) (subject_id r)
    (subject_relation r).
Proof.
  unfold bdb.objKeyOf, bdb.writeObjKey, relkey, sub_tail, ident_of, RelLike_ident, byte,
    bdb.typeIDSeparator, bdb.instanceSeparator. cbn zeta.
  change ("" +:+ object_type r) with (object_type r).
  rewrite !app_assoc_str. destruct (String.eqb_spec (subject_relation r) ""); simpl;
    [|done]. by rewrite app_nil_r_str.
Qed.

Lemma subKeyOf_relkey (r : RelationIdentifier) :
  bdb.subKeyOf r =
  relkey (subject_type r) (subject_id r) (relation r) (object_type r) (object_id r)
    (subject_relation r).
Proof.
  exact (objKeyOf_relkey (MkIdent (subject_type r) (subject_id r) (relation r) (object_type r)
    (object_id r) (subject_relation r))).
Qed.

(** An identifier whose parts do not contain the separators that delimit them. *)
Definition wf_type (s : string) : Prop := contains sepT s = false.
Definition wf_part (s : string) : Prop := contains sepI s = false.
Definition wf_ident (r : RelationIdentifier) : Prop :=
  wf_type (object_type r) /\ wf_part (object_id r) /\ wf_part (relation r) /\
  wf_type (subject_type r) /\ wf_part (subject_id r).

#[export] Instance wf_ident_dec r : Decision (wf_ident r).
Proof. unfold wf_ident, wf_type, wf_part. apply _. Defined.

Lemma tail_inj i i' sr sr' :
  wf_part i -> wf_part i' -> i +:+ sub_tail sr = i' +:+ sub_tail sr' -> i = i' /\ sr = sr'.
Proof.
  unfold wf_part, sub_tail. intros Hi Hi'.
  destruct (String.eqb_spec sr "") as [->|Hs], (String.eqb_spec sr' "") as [->|Hs'].
  - by rewrite !app_nil_r_str.
  - rewrite app_nil_r_str. intros ->. rewrite contains_app in Hi. simpl in Hi.
    destruct (contains sepI i'); done.
  - rewrite app_nil_r_str. intros <-. rewrite contains_app in Hi'. simpl in Hi'.
    destruct (contains sepI i); done.
  - intros [-> ->]%sep_inj; done.
Qed.

Lemma relkey_inj t i rel t' i' sr u j rel' u' j' sr' :
  wf_type t -> wf_part i -> wf_part rel -> wf_type t' -> wf_part i' ->
  wf_type u -> wf_part j -> wf_part rel' -> wf_type u' -> wf_part j' ->
  relkey t i rel t' i' sr = relkey u j rel' u' j' sr' ->
  t = u /\ i = j /\ rel = rel' /\ t' = u' /\ i' = j' /\ sr = sr'.
Proof.
  intros ?????????? E. unfold relkey in E.
  apply sep_inj in E as [-> E]; [|done..]. apply sep_inj in E as [-> E]; [|done..].
  apply sep_inj in E as [-> E]; [|done..]. apply sep_inj in E as [-> E]; [|done..].
  by apply tail_inj in E as [-> ->].
Qed.

Lemma key_of_inj dir (r r' : RelationIdentifier) :
  wf_ident r -> wf_ident r' -> bdb.key_of dir r = bdb.key_of dir r' -> r = r'.
Proof.
  destruct r, r'. unfold wf_ident. simpl. intros (?&?&?&?&?) (?&?&?&?&?).
  destruct dir; simpl; rewrite ?objKeyOf_relkey, ?subKeyOf_relkey; simpl;
    intros E; apply relkey_inj in E as (->&->&->&->&->&->); done.
Qed.

Lemma obj_key_inj (r r' : RelationIdentifier) :
  wf_ident r -> wf_ident r' -> bdb.objKeyOf r = bdb.objKeyOf r' -> r = r'.
Proof. exact (key_of_inj ByObject r r'). Qed.

Lemma sub_key_inj (r r' : RelationIdentifier) :
  wf_ident r -> wf_ident r' -> bdb.subKeyOf r = bdb.subKeyOf r' -> r = r'.
Proof. exact (key_of_inj BySubject r r'). Qed.

Lemma length_sub_obj_key (r : RelationIdentifier) :
  String.length (bdb.subKeyOf r) = String.length (bdb.objKeyOf r).
Proof.
  rewrite objKeyOf_relkey, subKeyOf_relkey. unfold relkey.
  repeat (rewrite ?length_app_str; cbn [String.length]). lia.
Qed.

Lemma objectKey_eq t i : bdb.objectKey t i = t +:+ String sepT i.
Proof. unfold bdb.objectKey, byte, bdb.typeIDSeparator. cbn zeta. by rewrite !app_assoc_str. Qed.

(** Objects need no condition on the id: the type ends at the first [':']. *)
Lemma objectKey_inj t i t' i' :
  wf_type t -> wf_type t' -> bdb.objectKey t i = bdb.objectKey t' i' -> t = t' /\ i = i'.
Proof. rewrite !objectKey_eq. apply sep_inj. Qed.

(** ** Filters *)

Lemma isSet_nonempty s : bdb.isSet s = true -> s <> "".
Proof. unfold bdb.isSet. intros H ->. done. Qed.

(** The relations a filter stands for: every populated field matches. *)
Definition field_matches (fv v : string) : Prop := fv = "" \/ v = fv.
Definition matches (f : RelationFilter) (r : RelationIdentifier) : Prop :=
  field_matches (object_type (f_ident f)) (object_type r) /\
  field_matches (object_id (f_ident f)) (object_id r) /\
  field_matches (relation (f_ident f)) (relation r) /\
  field_matches (subject_type (f_ident f)) (subject_type r) /\
  field_matches (subject_id (f_ident f)) (subject_id r) /\
  (HasSubjectRelation f = true -> subject_relation r = subject_relation (f_ident f)).

Lemma rejects_spec fv v : ds.rejects fv v = false <-> field_matches fv v.
Proof.
  unfold ds.rejects, field_matches.
  destruct (String.eqb_spec fv ""), (String.eqb_spec v fv); simpl; naive_solver.
Qed.

Lemma valueFilter_matches {T} `{RelLike T} (i : ds.srelation) (item : T) :
  ds.valueFilter i item = true <-> matches i (ident_of item).
Proof.
  unfold ds.valueFilter, matches. rewrite <-!rejects_spec.
  repeat match goal with |- context [ds.rejects ?a ?b] => destruct (ds.rejects a b) end;
    try naive_solver.
  destruct (HasSubjectRelation i); simpl; [|naive_solver].
  destruct (String.eqb_spec (subject_relation (ident_of item)) (subject_relation (f_ident i)));
    naive_solver.
Qed.

Lemma field_matches_set fv v : bdb.isSet fv = true -> field_matches fv v -> v = fv.
Proof. intros Hs%isSet_nonempty [?|?]; congruence. Qed.

(** The prefix written for a filter, on the common key shape. *)
Definition relprefix (t i rel t' i' : string) : string :=
  if negb (bdb.isSet t) || negb (bdb.isSet i) then "" else
  t +:+ String sepT (i +:+ String sepI
    (if negb (bdb.isSet rel) then "" else
     rel +:+ String sepI
       (if negb (bdb.isSet t') then "" else
        t' +:+ String sepT (if negb (bdb.isSet i') then "" else i')))).

Lemma writeObjFilter_relprefix f :
  bdb.writeObjFilter "" f =
  relprefix (object_type (f_ident f)) (object_id (f_ident f)) (relation (f_ident f))
    (subject_type (f_ident f)) (subject_id (f_ident f)).
Proof.
  unfold bdb.writeObjFilter, relprefix, byte, bdb.typeIDSeparator, bdb.instanceSeparator.
  cbn zeta. destruct (negb _ || negb _); [done|].
  change ("" +:+ object_type (f_ident f)) with (object_type (f_ident f)).
  repeat match goal with |- context [bdb.isSet ?x] => destruct (bdb.isSet x) end; simpl;
    rewrite !app_assoc_str; try done; by rewrite ?app_nil_r_str.
Qed.

Lemma writeSubFilter_relprefix f :
  bdb.writeSubFilter "" f =
  relprefix (subject_type (f_ident f)) (subject_id (f_ident f)) (relation (f_ident f))
    (object_type (f_ident f)) (object_id (f_ident f)).
Proof.
  exact (writeObjFilter_relprefix
    (MkFilter (MkIdent (subject_type (f_ident f)) (subject_id (f_ident f)) (relation (f_ident f))
       (object_type (f_ident f)) (object_id (f_ident f)) "") false)).
Qed.

Lemma cons_HasPrefix c k p : HasPrefix (String c k) (String c p) = HasPrefix k p.
Proof. exact (HasPrefix_app_l (String c "") p k). Qed.

Lemma relprefix_complete t i rel t' i' u j rel2 u' j' sr :
  field_matches t u -> field_matches i j -> field_matches rel rel2 ->
  field_matches t' u' -> field_matches i' j' ->
  HasPrefix (relkey u j rel2 u' j' sr) (relprefix t i rel t' i') = true.
Proof.
  intros H1 H2 H3 H4 H5. unfold relprefix.
  destruct (bdb.isSet t) eqn:E1; [|apply HasPrefix_empty].
  destruct (bdb.isSet i) eqn:E2; [|apply HasPrefix_empty]. simpl.
  rewrite (field_matches_set t u), (field_matches_set i j) by done. unfold relkey.
  rewrite HasPrefix_app_l, cons_HasPrefix, HasPrefix_app_l, cons_HasPrefix.
  destruct (bdb.isSet rel) eqn:E3; [|apply HasPrefix_empty]. simpl.
  rewrite (field_matches_set rel rel2), HasPrefix_app_l, cons_HasPrefix by done.
  destruct (bdb.isSet t') eqn:E4; [|apply HasPrefix_empty]. simpl.
  rewrite (field_matches_set t' u'), HasPrefix_app_l, cons_HasPrefix by done.
  destruct (bdb.isSet i') eqn:E5; [|apply HasPrefix_empty]. simpl.
  rewrite (field_matches_set i' j') by done. apply HasPrefix_app.
Qed.

(** No relation that matches a filter is missed by the prefix scan, in either index. *)
Lemma filter_of_complete dir f (r : RelationIdentifier) :
  matches f r -> HasPrefix (bdb.key_of dir r) (bdb.filter_of dir f) = true.
Proof.
  intros (?&?&?&?&?&_). destruct dir; simpl;
    rewrite ?objKeyOf_relkey, ?subKeyOf_relkey, ?writeObjFilter_relprefix,
      ?writeSubFilter_relprefix; by apply relprefix_complete.
Qed.

(** A prefix that stops after the anchor's separator selects exactly the anchor. *)
Lemma relprefix_anchor t i u j rel2 u' j' sr :
  bdb.isSet t = true -> bdb.isSet i = true -> wf_type t -> wf_part i -> wf_type u -> wf_part j ->
  HasPrefix (relkey u j rel2 u' j' sr) (relprefix t i "" "" "") = true <-> (u, j) = (t, i).
Proof.
  intros E1 E2 Ht Hi Hu Hj. unfold relprefix. rewrite E1, E2. simpl. split.
  - intros [s Hs]%HasPrefix_iff. unfold relkey in Hs.
    rewrite app_assoc_str, app_cons_str, app_assoc_str in Hs.
    apply sep_inj in Hs as [-> Hs]; [|done..]. by apply sep_inj in Hs as [-> _].
  - intros [= -> ->]. unfold relkey.
    by rewrite HasPrefix_app_l, cons_HasPrefix, HasPrefix_app_l, cons_HasPrefix, HasPrefix_empty.
Qed.

Lemma object_only_exact dir t i (r : RelationIdentifier) :
  bdb.isSet t = true -> bdb.isSet i = true -> wf_type t -> wf_part i -> wf_ident r ->
  HasPrefix (bdb.key_of dir r) (bdb.filter_of dir (ObjectOnlyFilter dir t i)) = true <->
  anchor dir r = (t, i).
Proof.
  intros ???? (?&?&?&?&?). destruct dir; simpl;
    rewrite ?objKeyOf_relkey, ?subKeyOf_relkey, ?writeObjFilter_relprefix,
      ?writeSubFilter_relprefix; by apply relprefix_anchor.
Qed.
