(* ===== verification/Store.v ===== *)
(** * The storage interface

    [internal/eds/pkg/store]: forward iterators and [Page] ([iterator.go]) and the transaction
    interface [Tx] ([store.go]) that the directory service is written against.  [TxOps] is the Go
    interface; [TxLaws] is its contract: a transaction represents an abstract directory
    ([directory]: objects by type and id, relations by identifier, a manifest and a model), and every
    operation acts on it as documented.  The services are verified against [TxLaws]. *)
From S2P Require Import Prelude Bytes Messages Keys.

(** ** Iterators *)

(** [store.Iterator]; [rows] bounds the rows still to come and is the fuel of the loops below. *)
Class Iterator (St T : Type) := {
  Next : St -> bool * St;
  Value : St -> T;
  Token : St -> string;
  rows : St -> nat }.

(** The token of the row after a page, empty when there is none. *)
Definition next_token {T} (l : list (string * T)) : string := default "" (fst <$> head l).

Section Iter.
Context {St T : Type} `{Iterator St T}.

(** The iterator will return these rows (token and value), then stop. *)
Fixpoint yields (it : St) (l : list (string * T)) : Prop :=
  match l with
  | [] => (Next it).1 = false
  | (t, v) :: l' =>
      (Next it).1 = true /\ Value (Next it).2 = v /\ Token (Next it).2 = t /\
      yields (Next it).2 l'
  end.

(** [for it.Next() { items = append(items, it.Value()) }]. *)
Fixpoint collect_loop (fuel : nat) (it : St) (items : list T) : option (list T) :=
  match fuel with
  | O => None
  | S fuel =>
      let '(ok, it) := Next it in
      if ok then collect_loop fuel it (items ++ [Value it]) else Some items
  end.
Definition collect (it : St) : list T := default [] (collect_loop (S (rows it)) it []).

(** [store.Page]. *)
Fixpoint Page_loop (fuel : nat) (it : St) (pageSize : Z) (items : list T)
  : option (list T * string) :=
  match fuel with
  | O => None
  | S fuel =>
      let '(ok, it) := Next it in
      if ok then
        let items := items ++ [Value it] in
        if (Z.of_nat (length items) =? pageSize)%Z then
          let '(ok2, it) := Next it in
          let token := if ok2 then Token it else "" in
          Some (items, token)
        else Page_loop fuel it pageSize items
      else Some (items, "")
  end.
Definition Page (it : St) (pageSize : Z) : list T * string :=
  default ([], "") (Page_loop (S (rows it)) it pageSize []).

Lemma collect_loop_yields l : forall fuel it items,
  yields it l -> length l < fuel -> collect_loop fuel it items = Some (items ++ l.*2).
Proof.
  induction l as [|[t v] l IH]; intros [|fuel] it items Hy Hf; simpl in *; try lia;
    destruct (Next it) as [ok it'] eqn:E; simpl in *.
  - subst ok. by rewrite app_nil_r.
  - destruct Hy as (-> & <- & _ & Hy). rewrite IH by (done || lia).
    by rewrite <-app_assoc.
Qed.

Lemma collect_yields it l : yields it l -> length l <= rows it -> collect it = l.*2.
Proof. intros Hy Hr. unfold collect. rewrite (collect_loop_yields l) by (done || lia). done. Qed.

Lemma Page_loop_yields l n : forall fuel it items,
  yields it l -> length l < fuel -> length items < n ->
  Page_loop fuel it (Z.of_nat n) items =
  Some (items ++ (take (n - length items) l).*2, next_token (drop (n - length items) l)).
Proof.
  induction l as [|[t v] l IH]; intros [|fuel] it items Hy Hf Hn; simpl in *; try lia;
    destruct (Next it) as [ok it1] eqn:E; simpl in *.
  - subst ok. by rewrite take_nil, drop_nil, app_nil_r.
  - destruct Hy as (-> & <- & _ & Hy).
    replace (n - length items) with (S (n - S (length items))) by lia. simpl.
    rewrite length_app. simpl. destruct (Z.eqb_spec (Z.of_nat (length items + 1)) (Z.of_nat n)).
    + replace (n - S (length items)) with 0 by lia. rewrite take_0, drop_0. simpl.
      destruct l as [|[t2 v2] l]; simpl in *; destruct (Next it1) as [ok2 it2]; simpl in *.
      * by subst.
      * by destruct Hy as (-> & _ & -> & _).
    + rewrite IH; [|done|lia|rewrite length_app; simpl; lia].
      rewrite length_app. simpl. replace (length items + 1) with (S (length items)) by lia.
      by rewrite <-app_assoc.
Qed.

(** A page of positive size is a prefix of the rows, with the token of the first row left out. *)
Lemma Page_yields it l n :
  yields it l -> length l <= rows it -> 0 < n ->
  Page it (Z.of_nat n) = ((take n l).*2, next_token (drop n l)).
Proof.
  intros Hy Hr Hn. unfold Page. rewrite (Page_loop_yields l n) by (done || simpl; lia).
  simpl. by rewrite Nat.sub_0_r.
Qed.

(** Without a positive size the whole scan is one page. *)
Lemma Page_loop_unbounded l sz : forall fuel it items,
  (sz <= 0)%Z -> yields it l -> length l < fuel ->
  Page_loop fuel it sz items = Some (items ++ l.*2, "").
Proof.
  induction l as [|[t v] l IH]; intros [|fuel] it items Hs Hy Hf; simpl in *; try lia;
    destruct (Next it) as [ok it1] eqn:E; simpl in *.
  - subst ok. by rewrite app_nil_r.
  - destruct Hy as (-> & <- & _ & Hy). rewrite length_app. simpl.
    destruct (Z.eqb_spec (Z.of_nat (length items + 1)) sz); [lia|].
    rewrite IH by (done || lia). by rewrite <-app_assoc.
Qed.

Lemma Page_unbounded it l sz :
  (sz <= 0)%Z -> yields it l -> length l <= rows it -> Page it sz = (l.*2, "").
Proof.
  intros Hs Hy Hr. unfold Page. rewrite (Page_loop_unbounded l) by (done || simpl; lia). done.
Qed.

(** A client that asks for page after page, resuming each time at the returned token, until the token is empty;
    [None] when it has asked for [fuel] pages and was not told to stop. *)
Fixpoint paginate (scan : string -> St) (size : Z) (fuel : nat) (token : string) : option (list (list T)) :=
  match fuel with
  | O => None
  | S fuel =>
      let '(items, next) := Page (scan token) size in
      if String.eqb next "" then Some [items] else cons items <$> paginate scan size fuel next
  end.

(** A scan with these rows can be resumed at the token of any of them, inclusively. *)
Definition resumes (scan : string -> St) (l : list (string * T)) : Prop :=
  yields (scan "") l /\ length l <= rows (scan "") /\
  forall i t v, l !! i = Some (t, v) ->
    t <> "" /\ yields (scan t) (drop i l) /\ length (drop i l) <= rows (scan t).

Lemma paginate_drop scan l n : resumes scan l -> 0 < n -> forall fuel i tok,
  yields (scan tok) (drop i l) -> length (drop i l) <= rows (scan tok) ->
  length (drop i l) < fuel ->
  exists pages, paginate scan (Z.of_nat n) fuel tok = Some pages /\ concat pages = (drop i l).*2.
Proof.
  intros (_ & _ & Hres) Hn. induction fuel as [|fuel IH]; intros i tok Hy Hr Hf; [lia|].
  cbn [paginate]. rewrite (Page_yields _ (drop i l) n) by done.
  rewrite drop_drop. unfold next_token. rewrite length_drop in Hf.
  destruct (drop (i + n) l) as [|[t v] l'] eqn:E; simpl.
  - apply (f_equal length) in E. rewrite length_drop in E. simpl in E. eexists. split; [done|]. simpl.
    rewrite take_ge, app_nil_r by (rewrite length_drop; lia). done.
  - assert (l !! (i + n) = Some (t, v)) as Hl.
    { rewrite <-(Nat.add_0_r (i + n)), <-lookup_drop, E. done. }
    destruct (Hres _ _ _ Hl) as (Ht & Hy' & Hr').
    destruct (String.eqb_spec t ""); [done|].
    apply lookup_lt_Some in Hl.
    destruct (IH (i + n) t) as (pages & -> & Hp); [done..|rewrite length_drop; lia|].
    eexists. split; [done|]. simpl. by rewrite Hp, <-fmap_app, <-drop_drop, take_drop.
Qed.

(** However many pages the client is prepared to ask for beyond one per row, it is told to stop. *)
Lemma paginate_all scan l n fuel :
  resumes scan l -> 0 < n -> length l < fuel ->
  exists pages, paginate scan (Z.of_nat n) fuel "" = Some pages /\ concat pages = l.*2.
Proof.
  intros Hres Hn Hf. pose proof Hres as (Hy & Hr & _).
  destruct (paginate_drop scan l n Hres Hn fuel 0 "") as (pages & ? & Hp); rewrite ?drop_0 in *; eauto.
Qed.
End Iter.

(** ** Clients that fetch page after page *)

Definition out_of_fuel : err := XErr Internal "out of fuel".

(** Ask for the next page until the token comes back empty. *)
Section FetchAll.
Context {X : Type} (fetch : string -> res (list X * string)).

Fixpoint fetch_all (fuel : nat) (token : string) : res (list X) :=
  match fuel with
  | O => Fail out_of_fuel
  | S fuel =>
      match fetch token with
      | Fail e => Fail e
      | Ok (items, next) =>
          if String.eqb next "" then Ok items else rmap (app items) (fetch_all fuel next)
      end
  end.
End FetchAll.

Section Pages.
Context {X Y : Type} (f : X -> Y) (keep : X -> bool).

(** The page served at row [i] of [l]: the kept rows up to row [i + k], with the token of that row. *)
Definition serves (fetch : string -> res (list Y * string)) (l : list (string * X)) (i : nat)
    (token : string) : Prop :=
  exists k, fetch token = Ok (f <$> filter (fun x => keep x = true) (take k (drop i l)).*2,
                              next_token (drop (i + k) l)) /\
    (0 < k \/ length l <= i).

(** When every row's token resumes at that row, the pages together hold every kept row once, in
    order, whatever the page size. *)
Lemma fetch_all_from fetch l :
  (forall i t v, l !! i = Some (t, v) -> t <> "" /\ serves fetch l i t) ->
  forall fuel i token, serves fetch l i token -> length l - i < fuel ->
  fetch_all fetch fuel token = Ok (f <$> filter (fun x => keep x = true) (drop i l).*2).
Proof.
  intros Hl. induction fuel as [|fuel IH]; intros i token (k & Hk & Hpos) Hf; [lia|].
  cbn [fetch_all]. rewrite Hk. unfold next_token.
  assert ((drop i l).*2 = (take k (drop i l)).*2 ++ (drop (i + k) l).*2) as Hsplit.
  { by rewrite <-drop_drop, <-fmap_app, take_drop. }
  rewrite Hsplit, filter_app, fmap_app.
  destruct (drop (i + k) l) as [|[t v] l'] eqn:E; simpl.
  - by rewrite app_nil_r.
  - assert (l !! (i + k) = Some (t, v)) as Hi
      by (by rewrite <-(Nat.add_0_r (i + k)), <-lookup_drop, E).
    destruct (Hl _ _ _ Hi) as [Ht Hs]. destruct (String.eqb_spec t ""); [done|].
    apply lookup_lt_Some in Hi. rewrite (IH (i + k) t Hs) by lia. by rewrite E.
Qed.

Lemma fetch_all_complete fetch l :
  serves fetch l 0 "" ->
  (forall i t v, l !! i = Some (t, v) -> t <> "" /\ serves fetch l i t) ->
  fetch_all fetch (S (length l)) "" = Ok (f <$> filter (fun x => keep x = true) l.*2).
Proof. intros H0 Hl. rewrite (fetch_all_from fetch l Hl _ 0) by (done || lia). by rewrite drop_0. Qed.
End Pages.

(** ** The abstract directory *)

Record directory (model : Type) := MkDir {
  d_objs : gmap (string * string) Object;
  d_rels : gmap RelationIdentifier Relation;
  d_metadata : option Metadata;
  d_body : option Body;
  d_model : option model }.
Arguments MkDir {model} _ _ _ _ _.
Arguments d_objs {model} _.
Arguments d_rels {model} _.
Arguments d_metadata {model} _.
Arguments d_body {model} _.
Arguments d_model {model} _.

Section Directory.
Context {model : Type}.
Implicit Types d : directory model.

Definition empty_dir : directory model := MkDir ∅ ∅ None None None.
Definition set_objs d m : directory model := MkDir m (d_rels d) (d_metadata d) (d_body d) (d_model d).
Definition set_rels d m : directory model := MkDir (d_objs d) m (d_metadata d) (d_body d) (d_model d).
Definition set_manifest d md b : directory model := MkDir (d_objs d) (d_rels d) md b (d_model d).
Definition set_model d m : directory model :=
  MkDir (d_objs d) (d_rels d) (d_metadata d) (d_body d) m.

(** Entries sit under their own key, and keys are well formed. *)
Definition wf_dir d : Prop :=
  (forall t i o, d_objs d !! (t, i) = Some o -> wf_type t /\ o_type o = t /\ o_id o = i) /\
  (forall r v, d_rels d !! r = Some v -> wf_ident r /\ r_ident v = r).

(** The relations that have [ty:id] on the side of [dir]. *)
Definition anchored (dir : Direction) (ty id : string) d : gmap RelationIdentifier Relation :=
  filter (fun e => anchor dir e.1 = (ty, id)) (d_rels d).
End Directory.

(** ** [store.Tx] *)

Class TxOps (model : Type) := {
  tx : Type;
  (* ObjectStore *)
  GetObject : string -> string -> tx -> res Object;
  SetObject : Object -> M tx Object;
  DeleteObject : string -> string -> M tx unit;
  obj_iter : Type;
  obj_iterator :: Iterator obj_iter (option Object);
  ScanObjects : string -> string -> tx -> res obj_iter;
  (* RelationStore *)
  GetRelationExact : RelationIdentifier -> tx -> res Relation;
  SetRelation : Relation -> M tx Relation;
  DeleteRelation : RelationIdentifier -> M tx unit;
  rel_iter : Type;
  rel_iterator :: Iterator rel_iter (option Relation);
  ScanRelations : Direction -> RelationFilter -> string -> tx -> res rel_iter;
  ScanRelationsFiltered : Direction -> RelationFilter -> (RelationIdentifier -> bool) ->
    list RelationIdentifier -> tx -> res (list RelationIdentifier);
  RelationsExistForObject : Direction -> string -> string -> tx -> res bool;
  (* ManifestStore *)
  ManifestExists : tx -> res bool;
  GetManifestMetadata : tx -> res Metadata;
  GetManifestBody : tx -> res Body;
  GetManifestModel : tx -> res model;
  SetManifest : Metadata -> Body -> M tx unit;
  SetManifestModel : model -> M tx unit;
  DeleteManifest : M tx unit }.

(** The rows of an object scan: the objects of the type, each once. *)
Definition object_rows {model} (d : directory model) (ty : string)
    (l : list (string * option Object)) : Prop :=
  NoDup l.*2 /\
  forall v, v ∈ l.*2 <->
    exists o, v = Some o /\ d_objs d !! (o_type o, o_id o) = Some o /\ (ty = "" \/ o_type o = ty).

(** The rows of a relation scan: relations of the directory, each once, no match of the filter
    missing.  (A backend may return more than the matches; see [ScanRelations_anchor].) *)
Definition relation_rows {model} (d : directory model) (f : RelationFilter)
    (l : list (string * option Relation)) : Prop :=
  NoDup l.*2 /\
  (forall v, v ∈ l.*2 -> exists r, v = Some r /\ d_rels d !! r_ident r = Some r) /\
  (forall i r, d_rels d !! i = Some r -> matches f i -> Some r ∈ l.*2).

(** What a write to the manifest leaves as it is. *)
Definition same_data {model} (d d' : directory model) : Prop :=
  d_objs d' = d_objs d /\ d_rels d' = d_rels d.

Class TxLaws (model : Type) `(T : TxOps model) := {
  repr : tx -> directory model -> Prop;
  repr_wf t d : repr t d -> wf_dir d;
  GetObject_found t d ty id o :
    repr t d -> wf_type ty -> d_objs d !! (ty, id) = Some o -> GetObject ty id t = Ok o;
  GetObject_missing t d ty id :
    repr t d -> wf_type ty -> d_objs d !! (ty, id) = None ->
    exists e, GetObject ty id t = Fail e /\ is_not_found e = true;
  SetObject_ok t d o o' t' :
    repr t d -> wf_type (o_type o) -> SetObject o t = (Ok o', t') ->
    o' = o /\ repr t' (set_objs d (<[(o_type o, o_id o) := o]> (d_objs d)));
  SetObject_err t d o e t' :
    repr t d -> wf_type (o_type o) -> SetObject o t = (Fail e, t') -> repr t' d;
  DeleteObject_ok t d ty id :
    repr t d -> wf_type ty ->
    (DeleteObject ty id t).1 = Ok tt /\
    repr (DeleteObject ty id t).2 (set_objs d (delete (ty, id) (d_objs d)));
  ScanObjects_ok t d ty :
    repr t d -> wf_type ty ->
    exists (scan : string -> obj_iter) (l : list (string * option Object)),
      (forall tok, tok = "" \/ tok ∈ l.*1 -> ScanObjects ty tok t = Ok (scan tok)) /\ resumes scan l /\ object_rows d ty l;
  GetRelationExact_found t d i r :
    repr t d -> wf_ident i -> d_rels d !! i = Some r -> GetRelationExact i t = Ok r;
  GetRelationExact_missing t d i :
    repr t d -> wf_ident i -> d_rels d !! i = None ->
    exists e, GetRelationExact i t = Fail e /\ is_not_found e = true;
  SetRelation_ok t d r r' t' :
    repr t d -> wf_ident (r_ident r) -> SetRelation r t = (Ok r', t') ->
    r' = r /\ repr t' (set_rels d (<[r_ident r := r]> (d_rels d)));
  SetRelation_err t d r e t' :
    repr t d -> wf_ident (r_ident r) -> SetRelation r t = (Fail e, t') -> repr t' d;
  DeleteRelation_ok t d i :
    repr t d -> wf_ident i ->
    (DeleteRelation i t).1 = Ok tt /\
    repr (DeleteRelation i t).2 (set_rels d (delete i (d_rels d)));
  ScanRelations_ok t d dir f :
    repr t d ->
    exists (scan : string -> rel_iter) (l : list (string * option Relation)),
      (forall tok, tok = "" \/ tok ∈ l.*1 -> ScanRelations dir f tok t = Ok (scan tok)) /\ resumes scan l /\
      relation_rows d f l;
  ScanRelations_anchor t d dir ty id :
    repr t d -> bdb.isSet ty = true -> bdb.isSet id = true -> wf_type ty -> wf_part id ->
    exists it l, ScanRelations dir (ObjectOnlyFilter dir ty id) "" t = Ok it /\
      yields it l /\ length l <= rows it /\ NoDup l.*2 /\
      forall v, v ∈ l.*2 <->
        exists r, v = Some r /\ d_rels d !! r_ident r = Some r /\ anchor dir (r_ident r) = (ty, id);
  ScanRelationsFiltered_ok t d dir f vf out :
    repr t d ->
    exists l, ScanRelationsFiltered dir f vf out t = Ok (out ++ l) /\ NoDup l /\
      (forall i, i ∈ l -> is_Some (d_rels d !! i) /\ vf i = true) /\
      (forall i, is_Some (d_rels d !! i) -> matches f i -> vf i = true -> i ∈ l);
  RelationsExist_ok t d dir ty id :
    repr t d -> bdb.isSet ty = true -> bdb.isSet id = true -> wf_type ty -> wf_part id ->
    RelationsExistForObject dir ty id t = Ok (bool_decide (anchored dir ty id d <> ∅));
  ManifestExists_ok t d :
    repr t d -> is_Some (d_metadata d) \/ is_Some (d_body d) \/ is_Some (d_model d) ->
    ManifestExists t = Ok true;
  GetManifestMetadata_ok t d :
    repr t d ->
    match d_metadata d with
    | Some md => GetManifestMetadata t = Ok md
    | None => exists e, GetManifestMetadata t = Fail e /\ is_not_found e = true
    end;
  GetManifestBody_ok t d :
    repr t d ->
    match d_body d with
    | Some b => GetManifestBody t = Ok b
    | None => exists e, GetManifestBody t = Fail e /\ is_not_found e = true
    end;
  GetManifestModel_ok t d :
    repr t d ->
    match d_model d with
    | Some m => GetManifestModel t = Ok m
    | None => exists e, GetManifestModel t = Fail e /\ is_not_found e = true
    end;
  SetManifest_ok t d md b t' :
    repr t d -> SetManifest md b t = (Ok tt, t') -> repr t' (set_manifest d (Some md) (Some b));
  SetManifest_err t d md b e t' :
    repr t d -> SetManifest md b t = (Fail e, t') -> repr t' d \/ repr t' (set_manifest d (Some md) (d_body d));
  SetManifestModel_ok t d m t' :
    repr t d -> SetManifestModel m t = (Ok tt, t') -> repr t' (set_model d (Some m));
  SetManifestModel_err t d m e t' :
    repr t d -> SetManifestModel m t = (Fail e, t') -> repr t' d;
  DeleteManifest_ok t d :
    repr t d ->
    (DeleteManifest t).1 = Ok tt /\ repr (DeleteManifest t).2 empty_dir }.

Section Reads.
Context {model : Type} `{T : TxOps model} `{L : !TxLaws model T}.

(** Reads by well-formed names are exact. *)
Lemma GetObject_exact t d : repr t d -> forall ty id o, wf_type ty -> GetObject ty id t = Ok o <-> d_objs d !! (ty, id) = Some o.
Proof.
  intros Hr ty id o Hty. destruct (d_objs d !! (ty, id)) as [o'|] eqn:E.
  - rewrite (GetObject_found t d ty id o') by done. naive_solver.
  - destruct (GetObject_missing t d ty id) as (e & -> & _); done.
Qed.
Lemma GetRelationExact_exact t d : repr t d -> forall i r, wf_ident i -> GetRelationExact i t = Ok r <-> d_rels d !! i = Some r.
Proof.
  intros Hr i r Hi. destruct (d_rels d !! i) as [r'|] eqn:E.
  - rewrite (GetRelationExact_found t d i r') by done. naive_solver.
  - destruct (GetRelationExact_missing t d i) as (e & -> & _); done.
Qed.
End Reads.
