(* ===== verification/Bolt.v ===== *)
(** * bbolt, as an interface

    [go.etcd.io/bbolt] is third-party code: a transaction is a parameter of the model ([Bolt]) and
    what the repository relies on is a set of laws ([BoltLaws]) stating its documented behaviour:
    nested buckets found by name, unique byte-ordered keys, cursors that move in key order, [Put]
    that fails only on an empty or oversized key or an oversized value.  [MapBolt] is an executable
    instance, so that every theorem about the store can be evaluated on a concrete database. *)
From S2P Require Import Prelude Bytes.

(** A bucket handle is the path of names that leads to it. *)
Abbreviation bpath := (list string).

Class Bolt := {
  (** the contents a read-write transaction works on *)
  btx : Type;
  (** [b.Bucket(name) != nil] ([tx.Bucket] for the empty handle) *)
  b_Bucket : btx -> bpath -> string -> bool;
  b_CreateBucketIfNotExists : bpath -> string -> M btx unit;
  b_DeleteBucket : bpath -> string -> M btx unit;
  b_Get : btx -> bpath -> string -> option string;
  b_Put : bpath -> string -> string -> M btx unit;
  b_Delete : bpath -> string -> M btx unit;
  (** cursors: the pair at the new position; [c_Next] is given the current key *)
  c_First : btx -> bpath -> option (string * string);
  c_Seek : btx -> bpath -> string -> option (string * string);
  c_Next : btx -> bpath -> string -> option (string * string);
  (** [Bucket.Stats().KeyN] *)
  b_KeyN : btx -> bpath -> nat;
  ErrBucketNotFound : err;
  (** the error of [Put] for this key and value, if any *)
  put_err : string -> string -> option err;
  (** the logical contents: every bucket's key/value pairs *)
  view : btx -> gmap bpath (list (string * string)) }.

(** A bucket that holds no nested bucket. *)
Definition leaf `{Bolt} (tx : btx) (p : bpath) : Prop := forall n, view tx !! (p ++ [n]) = None.

(** The paths strictly or equally below [p]. *)
Definition below (p q : bpath) : bool := bool_decide (take (length p) q = p).

Class BoltLaws `(B : Bolt) : Prop := {
  view_sorted tx p l : view tx !! p = Some l -> kv_sorted l;
  Bucket_view tx p n : b_Bucket tx p n = bool_decide (is_Some (view tx !! (p ++ [n])));
  Create_new tx p n :
    p = [] \/ (exists l, view tx !! p = Some l /\ kv_get n l = None) ->
    put_err n "" = None -> view tx !! (p ++ [n]) = None ->
    (b_CreateBucketIfNotExists p n tx).1 = Ok tt /\
    view (b_CreateBucketIfNotExists p n tx).2 = <[p ++ [n] := []]> (view tx);
  Create_existing tx p n :
    is_Some (view tx !! (p ++ [n])) -> b_CreateBucketIfNotExists p n tx = (Ok tt, tx);
  DeleteBucket_found tx p n :
    is_Some (view tx !! (p ++ [n])) ->
    (b_DeleteBucket p n tx).1 = Ok tt /\
    view (b_DeleteBucket p n tx).2 = filter (fun e => below (p ++ [n]) e.1 = false) (view tx);
  DeleteBucket_missing tx p n :
    view tx !! (p ++ [n]) = None -> b_DeleteBucket p n tx = (Fail ErrBucketNotFound, tx);
  Get_view tx p l k : view tx !! p = Some l -> b_Get tx p k = kv_get k l;
  Put_ok tx p l k v :
    view tx !! p = Some l -> view tx !! (p ++ [k]) = None -> put_err k v = None ->
    (b_Put p k v tx).1 = Ok tt /\ view (b_Put p k v tx).2 = <[p := kv_put k v l]> (view tx);
  Put_fail tx p l k v e :
    view tx !! p = Some l -> view tx !! (p ++ [k]) = None -> put_err k v = Some e ->
    b_Put p k v tx = (Fail e, tx);
  (** what a success alone tells *)
  Create_success tx p n tx' :
    b_CreateBucketIfNotExists p n tx = (Ok tt, tx') ->
    is_Some (view tx' !! (p ++ [n])) /\
    forall q, is_Some (view tx !! q) -> is_Some (view tx' !! q);
  Put_success tx p k v tx' :
    b_Put p k v tx = (Ok tt, tx') ->
    b_Get tx' p k = Some v /\ forall q, is_Some (view tx !! q) -> is_Some (view tx' !! q);
  put_err_fits k v :
    k <> "" -> (N.of_nat (String.length k) <= 32768)%N ->
    (N.of_nat (String.length v) <= 2147483646)%N -> put_err k v = None;
  put_err_length k k' v : String.length k = String.length k' -> put_err k v = put_err k' v;
  Delete_view tx p l k :
    view tx !! p = Some l -> view tx !! (p ++ [k]) = None ->
    (b_Delete p k tx).1 = Ok tt /\ view (b_Delete p k tx).2 = <[p := kv_del k l]> (view tx);
  First_view tx p l : view tx !! p = Some l -> leaf tx p -> c_First tx p = head l;
  Seek_view tx p l k : view tx !! p = Some l -> leaf tx p -> c_Seek tx p k = head (kv_seek k l);
  Next_view tx p l k : view tx !! p = Some l -> leaf tx p -> c_Next tx p k = head (kv_after k l);
  KeyN_view tx p l : view tx !! p = Some l -> leaf tx p -> b_KeyN tx p = length l }.

(** A bucket name is a key with an empty value. *)
Lemma put_err_name `{BL : BoltLaws} n :
  n <> "" -> (N.of_nat (String.length n) <= 32768)%N -> put_err n "" = None.
Proof. intros Hn Hl. by apply put_err_fits. Qed.

(** ** An executable instance *)

Module MapBolt.

(** Buckets as association lists, read in key order. *)
Definition norm (l : list (string * string)) : list (string * string) :=
  foldr (fun e => kv_put e.1 e.2) [] l.

Lemma norm_is_sorted l : kv_sorted (norm l).
Proof. induction l; simpl; [constructor | by apply kv_put_sorted]. Qed.

Lemma kv_put_head {A} k (v : A) l :
  (forall k' v', (k', v') ∈ l -> str_lt k k') -> kv_put k v l = (k, v) :: l.
Proof.
  destruct l as [|[k' v'] l]; [done|]. intros H. simpl.
  assert (str_lt k k') as -> by (apply (H k' v'); left). done.
Qed.

Lemma norm_sorted_id l : kv_sorted l -> norm l = l.
Proof.
  induction l as [|[k v] l IH]; [done|]. intros [H1 H2]%kv_sorted_cons. simpl.
  rewrite IH by done. by apply kv_put_head.
Qed.

Abbreviation state := (gmap bpath (list (string * string))).

Definition bucket (tx : state) (p : bpath) : list (string * string) :=
  norm (default [] (tx !! p)).

Definition err_key_required : err := XErr UnknownCode "key required".
Definition err_key_too_large : err := XErr UnknownCode "key too large".
Definition err_incompatible : err := XErr UnknownCode "incompatible value".
Definition err_bucket_not_found : err := XErr UnknownCode "bucket not found".

(** bbolt's [MaxKeySize]; values of [MaxValueSize] bytes are out of reach of a test database. *)
Definition put_error (k v : string) : option err :=
  if (String.length k =? 0)%nat then Some err_key_required
  else if (N.of_nat (String.length k) <=? 32768)%N then None
  else Some err_key_too_large.

#[export] Instance MapBolt : Bolt := {|
  btx := state;
  b_Bucket := fun tx p n => bool_decide (is_Some (tx !! (p ++ [n])));
  b_CreateBucketIfNotExists := fun p n tx =>
    match tx !! (p ++ [n]) with
    | Some _ => (Ok tt, tx)
    | None =>
        match put_error n "" with
        | Some e => (Fail e, tx)
        | None =>
            if bool_decide (p <> []) && bool_decide (is_Some (kv_get n (bucket tx p)))
            then (Fail err_incompatible, tx)
            else (Ok tt, <[p ++ [n] := []]> tx)
        end
    end;
  b_DeleteBucket := fun p n tx =>
    match tx !! (p ++ [n]) with
    | Some _ => (Ok tt, filter (fun e => below (p ++ [n]) e.1 = false) tx)
    | None => (Fail err_bucket_not_found, tx)
    end;
  b_Get := fun tx p k => kv_get k (bucket tx p);
  b_Put := fun p k v tx =>
    match put_error k v with
    | Some e => (Fail e, tx)
    | None =>
        match tx !! (p ++ [k]) with
        | Some _ => (Fail err_incompatible, tx)
        | None => (Ok tt, <[p := kv_put k v (bucket tx p)]> tx)
        end
    end;
  b_Delete := fun p k tx =>
    match tx !! (p ++ [k]) with
    | Some _ => (Fail err_incompatible, tx)
    | None => (Ok tt, <[p := kv_del k (bucket tx p)]> tx)
    end;
  c_First := fun tx p => head (bucket tx p);
  c_Seek := fun tx p k => head (kv_seek k (bucket tx p));
  c_Next := fun tx p k => head (kv_after k (bucket tx p));
  b_KeyN := fun tx p => length (bucket tx p);
  ErrBucketNotFound := err_bucket_not_found;
  put_err := put_error;
  view := fun tx => norm <$> tx |}.

Lemma view_bucket (tx : state) p l : (norm <$> tx) !! p = Some l -> bucket tx p = l.
Proof.
  unfold bucket. rewrite lookup_fmap. destruct (tx !! p); simpl; [|done]. by intros [= <-].
Qed.

Lemma view_none (tx : state) p : (norm <$> tx) !! p = None -> tx !! p = None.
Proof. rewrite lookup_fmap. by destruct (tx !! p). Qed.

Lemma view_some (tx : state) p : is_Some ((norm <$> tx) !! p) -> exists l, tx !! p = Some l.
Proof. rewrite lookup_fmap. destruct (tx !! p); [eauto|]. by intros []. Qed.

#[export] Instance MapBoltLaws : BoltLaws MapBolt.
Proof.
  split; simpl.
  - intros tx p l H. apply view_bucket in H as <-. apply norm_is_sorted.
  - intros tx p n. apply bool_decide_ext. rewrite lookup_fmap. by rewrite fmap_is_Some.
  - intros tx p n Hk Hn Hv. rewrite (view_none _ _ Hv), Hn.
    assert (bool_decide (p <> []) && bool_decide (is_Some (kv_get n (bucket tx p))) = false) as ->.
    { destruct Hk as [->|(l & Hl & Hk)]; [done|]. rewrite (view_bucket _ _ _ Hl), Hk.
      by rewrite andb_comm. }
    split; [done|]. simpl. by rewrite fmap_insert.
  - intros tx p n [l ->]%view_some. done.
  - intros tx p n [l ->]%view_some. split; [done|]. simpl.
    apply map_eq. intros q. rewrite lookup_fmap, !map_lookup_filter, lookup_fmap.
    destruct (tx !! q); simpl; [|done]. by repeat case_guard.
  - intros tx p n Hv. by rewrite (view_none _ _ Hv).
  - intros tx p l k H. by apply view_bucket in H as ->.
  - intros tx p l k v Hl Hn ->. rewrite (view_none _ _ Hn). apply view_bucket in Hl as <-.
    split; [done|]. simpl. rewrite fmap_insert.
    by rewrite norm_sorted_id by apply kv_put_sorted, norm_is_sorted.
  - intros tx p l k v e _ _ ->. done.
  - intros tx p n tx'. destruct (tx !! (p ++ [n])) as [l|] eqn:E.
    + intros [= <-]. rewrite lookup_fmap, E. split; [by eexists|done].
    + destruct (put_error n ""); [done|]. case_match; [done|]. intros [= <-]. rewrite fmap_insert.
      split; [rewrite lookup_insert_eq; by eexists|]. intros q Hq.
      rewrite lookup_insert. case_decide; [by eexists|done].
  - intros tx p k v tx'. destruct (put_error k v); [done|].
    destruct (tx !! (p ++ [k])); [done|]. intros [= <-]. split.
    + unfold bucket. rewrite lookup_insert_eq. simpl.
      rewrite norm_sorted_id by apply kv_put_sorted, norm_is_sorted.
      rewrite kv_get_put by apply norm_is_sorted. by destruct (decide (k = k)).
    + intros q Hq. rewrite fmap_insert, lookup_insert. case_decide; [by eexists|done].
  - intros k v Hn Hl _. unfold put_error. rewrite (proj2 (N.leb_le _ _) Hl). by destruct k.
  - intros k k' v Hk. unfold put_error. by rewrite Hk.
  - intros tx p l k Hl Hn. rewrite (view_none _ _ Hn). apply view_bucket in Hl as <-.
    split; [done|]. simpl. rewrite fmap_insert.
    by rewrite norm_sorted_id by apply kv_del_sorted, norm_is_sorted.
  - intros tx p l H _. by apply view_bucket in H as ->.
  - intros tx p l k H _. by apply view_bucket in H as ->.
  - intros tx p l k H _. by apply view_bucket in H as ->.
  - intros tx p l H _. by apply view_bucket in H as ->.
Qed.
End MapBolt.
