(* ===== verification/Bdb.v ===== *)
(** * The BoltDB layer

    [internal/eds/pkg/bdb/{path,boltdb,generic,scanner}.go] over the [Bolt] interface: bucket paths,
    key access, typed access through a codec, cursor scans and the scan iterator.  Every operation is
    characterised by its effect on the bucket's key-ordered contents. *)
From S2P Require Import Prelude Bytes Messages Keys Store Bolt.

(** ** [path.go] *)

Definition Path : Type := list string.
Definition manifestName : string := "default".
Definition manifestVersionV1 : string := "0.0.1".
Definition SystemPath : bpath := ["_system"].
Definition ManifestPathV1 : bpath := ["_manifest"; manifestName; manifestVersionV1].
Definition ManifestPathV2 : bpath := ["_manifest"; manifestName].
Definition ManifestPath : bpath := ManifestPathV2.
Definition ObjectsPath : bpath := ["objects"].
Definition RelationsSubPath : bpath := ["relations_sub"].
Definition RelationsObjPath : bpath := ["relations_obj"].
Definition MetadataKey : string := "metadata".
Definition BodyKey : string := "body".
Definition ModelKey : string := "model".

(** ** [boltdb.go] *)

Definition ErrPathNotFound : err := AErr "E20050" NotFound "path not found" [].
Definition ErrKeyNotFound : err := AErr "E20051" NotFound "key not found" [].
Definition ErrKeyExists : err := AErr "E20052" AlreadyExists "key already exists" [].
Definition ErrMultipleResults : err :=
  AErr "E20053" FailedPrecondition "multiple results for singleton request" [].

(** The only value the loops return when their fuel is too small; see [scan_loop_fold]. *)
Definition out_of_fuel : err := XErr Internal "out of fuel".

(** Protobuf encodings ([marshal]/[unmarshal]) and JSON encodings ([marshalAny]/[unmarshalAny]),
    with the round trip the store relies on. *)
Class Codec (T : Type) := {
  marshal : T -> res string;
  unmarshal : string -> res T }.
Class CodecLaws (T : Type) `{Codec T} : Prop :=
  unmarshal_marshal (t : T) b : marshal t = Ok b -> unmarshal b = Ok t.

Class AnyCodec (T : Type) := {
  marshalAny : T -> res string;
  unmarshalAny : string -> res T }.
Class AnyCodecLaws (T : Type) `{AnyCodec T} : Prop :=
  unmarshalAny_marshalAny (t : T) b : marshalAny t = Ok b -> unmarshalAny b = Ok t.

Section Bdb.
Context `{B : Bolt}.

(** The handle [b] after the components walked so far ([[]] is the transaction itself). *)
Fixpoint SetBucket_loop (tx : btx) (b path : bpath) : res bpath :=
  match path with
  | [] => Ok b
  | p :: path => if b_Bucket tx b p then SetBucket_loop tx (b ++ [p]) path else Fail ErrPathNotFound
  end.
Definition SetBucket (tx : btx) (path : bpath) : res bpath :=
  match path with
  | [] => Fail ErrPathNotFound
  | _ => SetBucket_loop tx [] path
  end.

Fixpoint CreateBucket_loop (b path : bpath) : M btx bpath :=
  match path with
  | [] => ret b
  | p :: path => do! b_CreateBucketIfNotExists b p; CreateBucket_loop (b ++ [p]) path
  end.
Definition CreateBucket (path : bpath) : M btx bpath := CreateBucket_loop [] path.

(** [DeleteBucket]: a missing bucket, or a missing parent, is not an error. *)
Definition DeleteBucket (path : bpath) : M btx unit :=
  let ignore_missing (r : res unit) : M btx unit :=
    match r with
    | Fail e => if bool_decide (e = ErrBucketNotFound) then ret tt else fail e
    | Ok _ => ret tt
    end in
  match path with
  | [] => fail (XErr Internal "index out of range")
  | [p] => try! r := b_DeleteBucket [] p in ignore_missing r
  | _ =>
      let! tx := get in
      match SetBucket tx (removelast path) with
      | Fail _ => ret tt
      | Ok b => try! r := b_DeleteBucket b (List.last path "") in ignore_missing r
      end
  end.

Definition BucketExists (tx : btx) (path : bpath) : res bool :=
  match SetBucket tx path with
  | Fail e => if bool_decide (e = ErrPathNotFound) then Ok false else Fail e
  | Ok _ => Ok true
  end.

Definition SetKey (path : bpath) (key value : string) : M btx unit :=
  let! tx := get in
  let! b := lift (SetBucket tx path) in
  b_Put b key value.

Definition DeleteKey (path : bpath) (key : string) : M btx unit :=
  let! tx := get in
  let! b := lift (SetBucket tx path) in
  b_Delete b key.

Definition GetKey (tx : btx) (path : bpath) (key : string) : res string :=
  match SetBucket tx path with
  | Fail e => Fail e
  | Ok b =>
      match b_Get tx b key with
      | None => Fail ErrKeyNotFound
      | Some v => Ok v
      end
  end.

Definition KeyExists (tx : btx) (path : bpath) (key : string) : res bool :=
  match SetBucket tx path with
  | Fail e => Fail e
  | Ok b => match b_Get tx b key with None => Ok false | Some _ => Ok true end
  end.

(** ** [generic.go] *)

Definition Get {T} `{Codec T} (path : bpath) (key : string) (tx : btx) : res T :=
  match GetKey tx path key with
  | Fail e => Fail e
  | Ok buf => unmarshal buf
  end.

Definition Set_ {T} `{Codec T} (path : bpath) (key : string) (t : T) : M btx T :=
  let! buf := lift (marshal t) in
  do! SetKey path key buf;
  ret t.

Definition Delete (path : bpath) (key : string) : M btx unit := DeleteKey path key.

Definition GetAny {T} `{AnyCodec T} (path : bpath) (key : string) (tx : btx) : res T :=
  match GetKey tx path key with
  | Fail e => Fail e
  | Ok buf => unmarshalAny buf
  end.

Definition SetAny {T} `{AnyCodec T} (path : bpath) (key : string) (t : T) : M btx T :=
  let! buf := lift (marshalAny t) in
  do! SetKey path key buf;
  ret t.

(** A cursor loop [for k, v := start; k != nil && HasPrefix(k, p); k, v = c.Next() { body }] that
    threads an accumulator and may fail. *)
Fixpoint scan_loop {A} (tx : btx) (b : bpath) (p : string) (body : A -> string -> string -> res A)
    (fuel : nat) (cur : option (string * string)) (acc : A) : res A :=
  match fuel with
  | O => Fail out_of_fuel
  | S fuel =>
      match cur with
      | None => Ok acc
      | Some (k, v) =>
          if HasPrefix k p then
            rbind (body acc k v) (fun acc => scan_loop tx b p body fuel (c_Next tx b k) acc)
          else Ok acc
      end
  end.

Definition List_ {T} `{Codec T} (path : bpath) (tx : btx) : res (list T) :=
  match SetBucket tx path with
  | Fail e => Fail e
  | Ok b =>
      scan_loop tx b "" (fun acc _ value => rmap (fun i => acc ++ [i]) (unmarshal value))
        (S (b_KeyN tx b)) (c_First tx b) []
  end.

(** ** [scanner.go] *)

Definition Scan {T} `{Codec T} (path : bpath) (keyFilter : string) (tx : btx) : res (list T) :=
  match SetBucket tx path with
  | Fail _ => Fail (with_msg ErrPathNotFound "path")
  | Ok b =>
      scan_loop tx b keyFilter (fun acc _ value => rmap (fun m => acc ++ [m]) (unmarshal value))
        (S (b_KeyN tx b)) (c_Seek tx b keyFilter) []
  end.

Definition KeyPrefixExists (path : bpath) (keyFilter : string) (tx : btx) : res bool :=
  match SetBucket tx path with
  | Fail _ => Fail (with_msg ErrPathNotFound "path")
  | Ok b =>
      match c_Seek tx b keyFilter with
      | None => Ok false
      | Some (k, _) => Ok (HasPrefix k keyFilter)
      end
  end.

(** [UnmarshalVT] into a pooled instance: the wire fields are merged into what it holds. *)
Class IdentCodec := UnmarshalVT : string -> RelationIdentifier -> res RelationIdentifier.

(** [ScanWithFilter]; [pool i] is the i-th instance [pool.Get()] hands out during the scan. *)
Definition ScanWithFilter `{IdentCodec} (path : bpath) (keyFilter : string)
    (valueFilter : RelationIdentifier -> bool) (pool : nat -> RelationIdentifier)
    (out : list RelationIdentifier) (tx : btx) : res (list RelationIdentifier) :=
  match SetBucket tx path with
  | Fail _ => Fail (with_msg ErrPathNotFound "path")
  | Ok b =>
      rmap snd
        (scan_loop tx b keyFilter
           (fun '(n, results) _ v =>
              match UnmarshalVT v (pool n) with
              | Fail e => Fail e
              | Ok m => Ok (S n, if valueFilter m then results ++ [m] else results)
              end)
           (S (b_KeyN tx b)) (c_Seek tx b keyFilter) (0, out))
  end.

(** [ScanIterator]: the cursor's state is its current pair. *)
Record ScanIterator := MkScan {
  si_tx : btx;
  si_bucket : bpath;
  startToken : option string;
  keyFilter : string;
  init : bool;
  cur : option (string * string) }.

(** [NewScanIterator] with the options [WithKeyFilter kf] and [WithPageToken tok]; an absent option
    is [""] and leaves a nil slice. *)
Definition NewScanIterator (path : bpath) (kf tok : string) (tx : btx) : res ScanIterator :=
  let start := if String.eqb tok "" then None else Some tok in
  let start :=
    if bool_decide (start = None) && negb (String.eqb kf "") then Some kf else start in
  match SetBucket tx path with
  | Fail _ => Fail (with_msg ErrPathNotFound "path")
  | Ok b => Ok (MkScan tx b start kf false None)
  end.

Definition set_cur (s : ScanIterator) (c : option (string * string)) : ScanIterator :=
  MkScan (si_tx s) (si_bucket s) (startToken s) (keyFilter s) true c.

Definition ScanIterator_Next (s : ScanIterator) : bool * ScanIterator :=
  let s :=
    if init s then
      set_cur s (match cur s with None => None | Some (k, _) => c_Next (si_tx s) (si_bucket s) k end)
    else
      set_cur s (match startToken s with
                 | None => c_First (si_tx s) (si_bucket s)
                 | Some t => c_Seek (si_tx s) (si_bucket s) t
                 end) in
  (match cur s with None => false | Some (k, _) => HasPrefix k (keyFilter s) end, s).

Definition ScanIterator_RawKey (s : ScanIterator) : string := from_option fst "" (cur s).

(** [Value] is nil when the stored bytes do not decode. *)
Definition ScanIterator_Value {T} `{Codec T} (s : ScanIterator) : option T :=
  match unmarshal (from_option snd "" (cur s)) with
  | Ok t => Some t
  | Fail _ => None
  end.

(** [objectIterator] and [relationIterator] of [object_store.go] and [relation_store.go]. *)
#[export] Instance ScanIterator_iterator {T} `{Codec T} : Iterator ScanIterator (option T) := {|
  Next := ScanIterator_Next;
  Value := ScanIterator_Value;
  Token := ScanIterator_RawKey;
  rows := fun s => b_KeyN (si_tx s) (si_bucket s) |}.
End Bdb.

(** ** Effect on the bucket contents *)

Section BdbLaws.
Context `{B : Bolt} {L : BoltLaws B}.
Implicit Types (t : btx) (p : bpath) (l : list (string * string)).

(** A fold whose steps may fail. *)
Fixpoint rfold {A E} (f : A -> E -> res A) (acc : A) (es : list E) : res A :=
  match es with
  | [] => Ok acc
  | e :: es => rbind (f acc e) (fun acc => rfold f acc es)
  end.

(** The bucket at [p], every ancestor of which exists. *)
Fixpoint present t (b p : bpath) : Prop :=
  match p with
  | [] => True
  | n :: p => is_Some (view t !! (b ++ [n])) /\ present t (b ++ [n]) p
  end.

Lemma SetBucket_loop_ok t p : forall b, present t b p -> SetBucket_loop t b p = Ok (b ++ p).
Proof.
  induction p as [|n p IH]; intros b; simpl; [by rewrite app_nil_r|].
  intros [Hn Hp]. rewrite Bucket_view, bool_decide_true by done.
  rewrite IH by done. by rewrite <-app_assoc.
Qed.

Lemma SetBucket_ok t p : p <> [] -> present t [] p -> SetBucket t p = Ok p.
Proof. intros Hne Hp. unfold SetBucket. destruct p; [done|]. by rewrite SetBucket_loop_ok. Qed.

Lemma SetBucket_top t n l : view t !! [n] = Some l -> SetBucket t [n] = Ok [n].
Proof. intros H. apply SetBucket_ok; [done|]. split; [simpl; by rewrite H | done]. Qed.

Lemma SetBucket_missing t n p : view t !! [n] = None -> SetBucket t (n :: p) = Fail ErrPathNotFound.
Proof. intros H. simpl. rewrite Bucket_view, bool_decide_false; [done|]. simpl. rewrite H. by intros []. Qed.

(** A bucket of key/value pairs only, reachable from the root, with these contents. *)
Definition bucket_is t p l : Prop :=
  p <> [] /\ present t [] p /\ view t !! p = Some l /\ leaf t p.

Lemma SetBucket_bucket t p l : bucket_is t p l -> SetBucket t p = Ok p.
Proof. intros (? & ? & _). by apply SetBucket_ok. Qed.

Lemma bucket_sorted t p l : bucket_is t p l -> kv_sorted l.
Proof. intros (_ & _ & H & _). by eapply view_sorted. Qed.

Lemma GetKey_bucket t p l k :
  bucket_is t p l ->
  GetKey t p k = match kv_get k l with Some v => Ok v | None => Fail ErrKeyNotFound end.
Proof.
  intros H. unfold GetKey. rewrite (SetBucket_bucket t p l H). destruct H as (_ & _ & H & _).
  by rewrite (Get_view t p l k H).
Qed.

Lemma KeyExists_bucket t p l k :
  bucket_is t p l -> KeyExists t p k = Ok (bool_decide (is_Some (kv_get k l))).
Proof.
  intros H. unfold KeyExists. rewrite (SetBucket_bucket t p l H). destruct H as (_ & _ & H & _).
  rewrite (Get_view t p l k H). by destruct (kv_get k l).
Qed.

Lemma SetKey_bucket t p l k v :
  bucket_is t p l ->
  match put_err k v with
  | Some e => SetKey p k v t = (Fail e, t)
  | None => (SetKey p k v t).1 = Ok tt /\
            view (SetKey p k v t).2 = <[p := kv_put k v l]> (view t)
  end.
Proof.
  intros H. unfold SetKey, bind, get, lift. rewrite (SetBucket_bucket t p l H).
  destruct H as (_ & _ & H & Hl). destruct (put_err k v) eqn:E.
  - by rewrite (Put_fail t p l k v e).
  - by apply Put_ok.
Qed.

Lemma DeleteKey_bucket t p l k :
  bucket_is t p l ->
  (DeleteKey p k t).1 = Ok tt /\ view (DeleteKey p k t).2 = <[p := kv_del k l]> (view t).
Proof.
  intros H. unfold DeleteKey, bind, get, lift. rewrite (SetBucket_bucket t p l H).
  destruct H as (_ & _ & H & Hl). by apply Delete_view.
Qed.

(** Replacing the contents of an existing bucket keeps every other bucket as it was. *)
Lemma present_insert t t' p l q b :
  view t' = <[p := l]> (view t) -> present t b q -> present t' b q.
Proof.
  intros Hv. revert b. induction q as [|n q IH]; intros b; simpl; [done|].
  intros [H1 H2]. split; [|auto]. rewrite Hv.
  destruct (decide (p = b ++ [n])) as [->|]; [by rewrite lookup_insert_eq | by rewrite lookup_insert_ne].
Qed.

Lemma leaf_insert t t' p l q :
  is_Some (view t !! p) -> view t' = <[p := l]> (view t) -> leaf t q -> leaf t' q.
Proof.
  intros [x Hp] Hv Hl n. rewrite Hv, lookup_insert_ne; [apply Hl|].
  intros ->. by rewrite Hl in Hp.
Qed.

Lemma bucket_update t t' p l l' :
  bucket_is t p l -> view t' = <[p := l']> (view t) -> bucket_is t' p l'.
Proof.
  intros (H1 & H2 & H3 & H4) Hv. split_and!; [done| | |].
  - by eapply present_insert.
  - rewrite Hv. apply lookup_insert_eq.
  - by eapply leaf_insert.
Qed.

Lemma bucket_other t t' p q l l' :
  is_Some (view t !! p) -> view t' = <[p := l']> (view t) -> p <> q ->
  bucket_is t q l -> bucket_is t' q l.
Proof.
  intros Hp Hv Hne (H1 & H2 & H3 & H4). split_and!; [done| | |].
  - by eapply present_insert.
  - by rewrite Hv, lookup_insert_ne.
  - by eapply leaf_insert.
Qed.

(** ** Cursor scans *)

Lemma scan_loop_suffix {A} t p l kf (body : A -> string -> string -> res A) :
  bucket_is t p l -> forall l2 l1 fuel acc,
  l = l1 ++ l2 -> length l2 < fuel ->
  scan_loop t p kf body fuel (head l2) acc =
  rfold (fun acc e => body acc e.1 e.2) acc (take_prefix kf l2).
Proof.
  intros Hb. induction l2 as [|[k v] l2 IH]; intros l1 [|fuel] acc Hl Hf; simpl in *; try lia; [done|].
  destruct (HasPrefix k kf); [|done]. simpl. destruct (body acc k v) as [acc'|e]; simpl; [|done].
  pose proof (bucket_sorted t p l Hb) as Hs. destruct Hb as (_ & _ & Hv & Hl').
  rewrite (Next_view t p l k Hv Hl'). subst l. rewrite kv_after_split by done.
  rewrite (IH (l1 ++ [(k, v)])); [done | by rewrite <-app_assoc | lia].
Qed.

(** The loop with the fuel the source's loops are given visits exactly the pairs with the prefix. *)
Lemma scan_loop_fold {A} t p l kf (body : A -> string -> string -> res A) acc :
  bucket_is t p l ->
  scan_loop t p kf body (S (b_KeyN t p)) (c_Seek t p kf) acc =
  rfold (fun acc e => body acc e.1 e.2) acc (kv_prefix kf l).
Proof.
  intros Hb. pose proof (bucket_sorted t p l Hb) as Hs. pose proof Hb as (_ & _ & Hv & Hl).
  rewrite (Seek_view t p l kf Hv Hl), (KeyN_view t p l Hv Hl).
  destruct (kv_seek_suffix kf l) as [l1 E].
  rewrite (scan_loop_suffix t p l kf body Hb _ l1 _ acc E).
  - by rewrite take_prefix_seek.
  - rewrite E at 2. rewrite length_app. lia.
Qed.

Lemma rfold_append {E T} (f : E -> res T) (es : list E) (ts acc : list T) :
  Forall2 (fun e x => f e = Ok x) es ts ->
  rfold (fun acc e => rmap (fun x => acc ++ [x]) (f e)) acc es = Ok (acc ++ ts).
Proof.
  intros H. revert acc. induction H as [|e x es ts He _ IH]; intros acc; simpl.
  - by rewrite app_nil_r.
  - rewrite He. simpl. rewrite IH. by rewrite <-app_assoc.
Qed.

Lemma KeyPrefixExists_bucket t p l kf :
  bucket_is t p l ->
  KeyPrefixExists p kf t = Ok (bool_decide (kv_prefix kf l <> [])).
Proof.
  intros Hb. unfold KeyPrefixExists. rewrite (SetBucket_bucket t p l Hb).
  pose proof (bucket_sorted t p l Hb) as Hs. destruct Hb as (_ & _ & Hv & Hl).
  rewrite (Seek_view t p l kf Hv Hl), <-take_prefix_seek by done.
  destruct (kv_seek kf l) as [|[k v] l']; simpl; [done|]. by destruct (HasPrefix k kf).
Qed.

(** ** Scan iterators *)

#[local] Arguments ScanIterator_Next : simpl never.

Section ScanIter.
Context {T : Type} `{Codec T}.

(** The row a stored pair becomes: its key as token, its decoded value (nil if undecodable). *)
Definition row_of (e : string * string) : string * option T :=
  (e.1, match unmarshal e.2 with Ok x => Some x | Fail _ => None end).

(** An iterator standing before the suffix [l2] of the bucket. *)
Definition before (s : ScanIterator) l l1 l2 : Prop :=
  bucket_is (si_tx s) (si_bucket s) l /\ l = l1 ++ l2 /\
  (ScanIterator_Next s).2 = set_cur s (head l2).

Lemma before_step s l l1 k v l2 :
  before s l l1 ((k, v) :: l2) -> before (ScanIterator_Next s).2 l (l1 ++ [(k, v)]) l2.
Proof.
  intros (Hb & Hl & Hn). rewrite Hn. split_and!; [done | by rewrite <-app_assoc |].
  unfold ScanIterator_Next. simpl. f_equal.
  pose proof (bucket_sorted _ _ _ Hb) as Hs. destruct Hb as (_ & _ & Hv & Hlf).
  rewrite (Next_view _ _ _ k Hv Hlf). subst l. by rewrite kv_after_split.
Qed.

Lemma before_yields s l l1 l2 :
  before s l l1 l2 -> yields s (row_of <$> take_prefix (keyFilter s) l2).
Proof.
  revert s l1. induction l2 as [|[k v] l2 IH]; intros s l1 Hb; simpl.
  - destruct Hb as (_ & _ & Hn). unfold ScanIterator_Next in *. simpl in *.
    destruct (init s); simpl in *; injection Hn as ->; done.
  - assert ((ScanIterator_Next s).1 = HasPrefix k (keyFilter s)) as Hn1.
    { destruct Hb as (_ & _ & Hn). unfold ScanIterator_Next in *. simpl in *.
      destruct (init s); simpl in *; injection Hn as ->; done. }
    destruct (HasPrefix k (keyFilter s)) eqn:E; simpl; [|done].
    pose proof (before_step s l l1 k v l2 Hb) as Hb'.
    destruct Hb as (_ & _ & Hn). specialize (IH _ _ Hb').
    rewrite Hn in IH. split_and!; [done | change (Value (ScanIterator_Next s).2 = (row_of (k, v)).2)
      | change (Token (ScanIterator_Next s).2 = k) | change (yields (ScanIterator_Next s).2
          (row_of <$> take_prefix (keyFilter s) l2))]; by rewrite Hn.
Qed.

(** An iterator over a bucket returns the pairs with the key filter as prefix, from the start
    token on. *)
Lemma NewScanIterator_yields t p l kf tok :
  bucket_is t p l ->
  exists s, NewScanIterator p kf tok t = Ok s /\ rows s = length l /\
    yields s (row_of <$> take_prefix kf (kv_seek (if String.eqb tok "" then kf else tok) l)).
Proof.
  intros Hb. unfold NewScanIterator. rewrite (SetBucket_bucket t p l Hb).
  eexists. split; [done|]. pose proof Hb as (_ & _ & Hv & Hl).
  split; [simpl; by rewrite (KeyN_view t p l Hv Hl)|].
  destruct (kv_seek_suffix (if String.eqb tok "" then kf else tok) l) as [l1 E].
  eapply (before_yields (MkScan t p _ kf false None) l l1).
  split_and!; [done | exact E |]. unfold ScanIterator_Next. simpl. f_equal.
  destruct (String.eqb_spec tok "") as [->|Htok]; simpl.
  - destruct (String.eqb_spec kf "") as [->|Hkf]; simpl.
    + rewrite (First_view t p l Hv Hl). destruct l as [|[k v] l']; [done|]. simpl.
      rewrite decide_False; [done|]. unfold str_lt. by destruct k.
    + by rewrite (Seek_view t p l kf Hv Hl).
  - by rewrite (Seek_view t p l tok Hv Hl).
Qed.

(** The iterator as a function of the page token, resumable at any of its rows. *)
Lemma scan_resumes t p l kf :
  bucket_is t p l -> (forall k v, (k, v) ∈ l -> k <> "") ->
  exists scan, (forall tok, NewScanIterator p kf tok t = Ok (scan tok)) /\
    resumes scan (row_of <$> kv_prefix kf l).
Proof.
  intros Hb Hne. pose proof (bucket_sorted t p l Hb) as Hs.
  exists (fun tok => match NewScanIterator p kf tok t with Ok s => s
             | Fail _ => MkScan t p None kf false None end).
  split.
  { intros tok. by destruct (NewScanIterator_yields t p l kf tok Hb) as (s & -> & _). }
  assert (length (kv_prefix kf l) <= length l) as Hlen.
  { rewrite <-take_prefix_seek by done. etrans; [apply take_prefix_length|].
    destruct (kv_seek_suffix kf l) as [l1 E]. rewrite E at 2. rewrite length_app. lia. }
  split_and!.
  - destruct (NewScanIterator_yields t p l kf "" Hb) as (s & -> & _ & Hy). simpl in Hy.
    by rewrite take_prefix_seek in Hy.
  - destruct (NewScanIterator_yields t p l kf "" Hb) as (s & -> & -> & _).
    by rewrite length_fmap.
  - intros i k v Hi. rewrite list_lookup_fmap in Hi.
    destruct (kv_prefix kf l !! i) as [[k' b]|] eqn:Ei; [|done]. simpl in Hi.
    injection Hi as -> _.
    assert ((k, b) ∈ l) as Hin.
    { apply (kv_prefix_elem kf). apply list_elem_of_lookup. eauto. }
    split; [by eapply Hne|].
    destruct (NewScanIterator_yields t p l kf k Hb) as (s & -> & -> & Hy).
    destruct (String.eqb_spec k ""); [by eapply Hne in Hin|].
    rewrite (take_prefix_resume kf l i k b Hs Ei), fmap_drop in Hy. split; [done|].
    rewrite length_drop, length_fmap. lia.
Qed.
End ScanIter.
End BdbLaws.
