(* ===== verification/BdbTx.v ===== *)
(** * The BoltDB transaction implements the storage interface

    [internal/eds/pkg/bdb/{tx,object_store,relation_store,manifest_store}.go]: the [store.Tx]
    operations over a bolt transaction, and the proof that they satisfy [TxLaws].  The representation
    relation [bolt_repr] holds the central invariant of the store: the object-indexed and the
    subject-indexed relation buckets hold the same relations under the two key orders. *)
From S2P Require Import Prelude Bytes Messages Keys Store Bolt Bdb.

(** The encodings of the stored messages (protobuf, JSON for the model), the pool that
    [ScanRelationsFiltered] draws from, and what is assumed of them. *)
Class Codecs (model : Type) := {
  codec_Object :: Codec Object;
  codec_Relation :: Codec Relation;
  codec_Metadata :: Codec Metadata;
  codec_Body :: Codec Body;
  codec_model :: AnyCodec model;
  codec_ident :: IdentCodec;
  pool_Get : nat -> RelationIdentifier }.

Class CodecsLaws (model : Type) `(C : Codecs model) : Prop := {
  laws_Object :: CodecLaws Object;
  laws_Relation :: CodecLaws Relation;
  laws_Metadata :: CodecLaws Metadata;
  laws_Body :: CodecLaws Body;
  laws_model :: AnyCodecLaws model;
  (** the identifier's fields have the same wire numbers in both messages *)
  UnmarshalVT_relation (r : Relation) b :
    marshal r = Ok b -> UnmarshalVT b zero_ident = Ok (r_ident r);
  pool_fresh n : pool_Get n = zero_ident }.

Section Ops.
Context {model : Type} `{B : Bolt} `{C : Codecs model}.

(** ** [object_store.go] *)

Definition tx_GetObject (objectType objectID : string) (t : btx) : res Object :=
  Get ObjectsPath (bdb.objectKey objectType objectID) t.

Definition tx_SetObject (obj : Object) : M btx Object :=
  Set_ ObjectsPath (bdb.objectKey (o_type obj) (o_id obj)) obj.

Definition tx_DeleteObject (objectType objectID : string) : M btx unit :=
  Delete ObjectsPath (bdb.objectKey objectType objectID).

Definition tx_ScanObjects (objectType pageToken : string) (t : btx) : res ScanIterator :=
  NewScanIterator ObjectsPath
    (if negb (String.eqb objectType "") then bdb.objectKey objectType "" else "") pageToken t.

(** ** [relation_store.go] *)

Definition directionPath (dir : Direction) : bpath :=
  match dir with BySubject => RelationsSubPath | ByObject => RelationsObjPath end.

Definition tx_GetRelationExact (ident : RelationIdentifier) (t : btx) : res Relation :=
  Get RelationsObjPath (bdb.objKeyOf ident) t.

Definition tx_SetRelation (rel : Relation) : M btx Relation :=
  let! objRel := Set_ RelationsObjPath (bdb.objKeyOf rel) rel in
  do! Set_ RelationsSubPath (bdb.subKeyOf rel) rel;
  ret objRel.

Definition tx_DeleteRelation (ident : RelationIdentifier) : M btx unit :=
  do! Delete RelationsObjPath (bdb.objKeyOf ident);
  Delete RelationsSubPath (bdb.subKeyOf ident).

Definition tx_ScanRelations (dir : Direction) (filter : RelationFilter) (pageToken : string) (t : btx)
  : res ScanIterator :=
  let buf :=
    match dir with
    | BySubject => bdb.writeSubFilter "" filter
    | ByObject => bdb.writeObjFilter "" filter
    end in
  NewScanIterator (directionPath dir) buf pageToken t.

Definition tx_ScanRelationsFiltered (dir : Direction) (filter : RelationFilter)
    (valueFilter : RelationIdentifier -> bool) (out : list RelationIdentifier) (t : btx)
  : res (list RelationIdentifier) :=
  let buf :=
    match dir with
    | BySubject => bdb.writeSubFilter "" filter
    | ByObject => bdb.writeObjFilter "" filter
    end in
  ScanWithFilter (directionPath dir) buf valueFilter pool_Get out t.

Definition tx_RelationsExistForObject (dir : Direction) (objectType objectID : string) (t : btx)
  : res bool :=
  let filter := ObjectOnlyFilter dir objectType objectID in
  let buf :=
    match dir with
    | BySubject => bdb.writeSubFilter "" filter
    | ByObject => bdb.writeObjFilter "" filter
    end in
  KeyPrefixExists (directionPath dir) buf t.

(** ** [manifest_store.go] *)

Definition tx_ManifestExists (t : btx) : res bool := BucketExists t ManifestPath.
Definition tx_GetManifestMetadata (t : btx) : res Metadata := Get ManifestPath MetadataKey t.
Definition tx_GetManifestBody (t : btx) : res Body := Get ManifestPath BodyKey t.
Definition tx_GetManifestModel (t : btx) : res model := GetAny ManifestPath ModelKey t.

Definition tx_SetManifest (metadata : Metadata) (body : Body) : M btx unit :=
  do! CreateBucket ManifestPath;
  do! Set_ ManifestPath MetadataKey metadata;
  do! Set_ ManifestPath BodyKey body;
  ret tt.

Definition tx_SetManifestModel (mod_ : model) : M btx unit :=
  do! SetAny ManifestPath ModelKey mod_;
  ret tt.

Definition tx_DeleteManifest : M btx unit :=
  for_each (fun path => do! DeleteBucket path; do! CreateBucket path; ret tt)
    [ManifestPath; ObjectsPath; RelationsObjPath; RelationsSubPath].

(** [var _ store.Tx = ( *tx)(nil)]. *)
#[export] Instance bolt_tx : TxOps model := {|
  tx := btx;
  GetObject := tx_GetObject;
  SetObject := tx_SetObject;
  DeleteObject := tx_DeleteObject;
  obj_iter := ScanIterator;
  obj_iterator := ScanIterator_iterator;
  ScanObjects := tx_ScanObjects;
  GetRelationExact := tx_GetRelationExact;
  SetRelation := tx_SetRelation;
  DeleteRelation := tx_DeleteRelation;
  rel_iter := ScanIterator;
  rel_iterator := ScanIterator_iterator;
  ScanRelations := tx_ScanRelations;
  ScanRelationsFiltered := tx_ScanRelationsFiltered;
  RelationsExistForObject := tx_RelationsExistForObject;
  ManifestExists := tx_ManifestExists;
  GetManifestMetadata := tx_GetManifestMetadata;
  GetManifestBody := tx_GetManifestBody;
  GetManifestModel := tx_GetManifestModel;
  SetManifest := tx_SetManifest;
  SetManifestModel := tx_SetManifestModel;
  DeleteManifest := tx_DeleteManifest |}.
End Ops.

(** ** Buckets that represent finite maps *)

Section Rep.
Context {K V : Type} `{Countable K}.
Context (keyf : K -> string) (P : K -> Prop) (dec : K -> string -> V -> Prop).

Definition rep (l : list (string * string)) (m : gmap K V) : Prop :=
  (forall k b, (k, b) ∈ l -> exists x v, m !! x = Some v /\ k = keyf x /\ dec x b v) /\
  (forall x v, m !! x = Some v -> P x /\ exists b, (keyf x, b) ∈ l /\ dec x b v).

Context (keyf_inj : forall x y, P x -> P y -> keyf x = keyf y -> x = y).

Lemma rep_nil : rep [] ∅.
Proof. split; [by intros ?? ?%not_elem_of_nil|]. intros x v. by rewrite lookup_empty. Qed.

Lemma rep_some l m x v :
  kv_sorted l -> rep l m -> m !! x = Some v -> exists b, kv_get (keyf x) l = Some b /\ dec x b v.
Proof.
  intros Hs [_ H2] Hx. destruct (H2 x v Hx) as (_ & b & Hb & Hd). exists b.
  by rewrite kv_get_elem.
Qed.

Lemma rep_none l m x :
  kv_sorted l -> rep l m -> P x -> m !! x = None -> kv_get (keyf x) l = None.
Proof.
  intros Hs [H1 H2] HP Hx. destruct (kv_get (keyf x) l) as [b|] eqn:E; [|done].
  apply kv_get_elem in E; [|done]. destruct (H1 _ _ E) as (y & v & Hy & Hk & _).
  destruct (H2 y v Hy) as [HPy _]. apply keyf_inj in Hk; [|done..]. congruence.
Qed.

Lemma rep_put l m x b v :
  kv_sorted l -> rep l m -> P x -> dec x b v -> rep (kv_put (keyf x) b l) (<[x := v]> m).
Proof.
  intros Hs [H1 H2] HP Hd. split.
  - intros k b' Hin%kv_put_elem; [|done]. destruct Hin as [[-> ->]|[Hne Hin]].
    + exists x, v. by rewrite lookup_insert_eq.
    + destruct (H1 _ _ Hin) as (y & w & Hy & -> & Hdy). exists y, w.
      rewrite lookup_insert_ne; [done|]. by intros ->.
  - intros y w Hy. destruct (decide (x = y)) as [->|Hne].
    + rewrite lookup_insert_eq in Hy. injection Hy as <-. split; [done|]. exists b.
      rewrite kv_put_elem by done. auto.
    + rewrite lookup_insert_ne in Hy by done. destruct (H2 y w Hy) as (HPy & b' & Hb' & Hd').
      split; [done|]. exists b'. rewrite kv_put_elem by done. split; [|done]. right.
      split; [|done]. intros E. apply keyf_inj in E; [|done..]. congruence.
Qed.

(** A bucket has as many rows as the map has entries. *)
Lemma rep_size l m : kv_sorted l -> rep l m -> length l = size m.
Proof.
  intros Hs [H1 H2]. rewrite <-(length_fmap fst l), <-length_map_to_list.
  rewrite <-(length_fmap (fun e => keyf e.1) (map_to_list m)). apply Permutation_length.
  apply NoDup_Permutation; [by apply kv_sorted_NoDup| |].
  - apply NoDup_fmap_2_strong; [|apply NoDup_map_to_list].
    intros [x v] [x' v'] Hx%elem_of_map_to_list Hx'%elem_of_map_to_list Hk. simpl in Hk.
    destruct (H2 _ _ Hx) as [HP _], (H2 _ _ Hx') as [HP' _].
    apply keyf_inj in Hk as ->; [|done..]. congruence.
  - intros k. rewrite !list_elem_of_fmap. split.
    + intros ([k' b] & -> & Hin). destruct (H1 _ _ Hin) as (x & v & Hx & Hk & _).
      exists (x, v). simpl. split; [done|]. by apply elem_of_map_to_list.
    + intros ([x v] & -> & Hx%elem_of_map_to_list). destruct (H2 _ _ Hx) as (_ & b & Hb & _).
      by exists (keyf x, b).
Qed.

Lemma rep_del l m x :
  kv_sorted l -> rep l m -> P x -> rep (kv_del (keyf x) l) (delete x m).
Proof.
  intros Hs [H1 H2] HP. split.
  - intros k b' [Hne Hin]%kv_del_elem. destruct (H1 _ _ Hin) as (y & w & Hy & -> & Hdy).
    exists y, w. rewrite lookup_delete_ne; [done|]. by intros ->.
  - intros y w Hy. apply lookup_delete_Some in Hy as [Hne Hy].
    destruct (H2 y w Hy) as (HPy & b' & Hb' & Hd'). split; [done|]. exists b'. split; [|done].
    apply kv_del_elem. split; [|done]. intros E. apply keyf_inj in E; [|done..]. congruence.
Qed.

(** The rows of a prefix scan over a bucket that represents [m]: every entry whose key has the
    prefix, once. *)
Context (val : string -> option V) (own : V -> K).
Context (dec_val : forall x b v, dec x b v -> val b = Some v).
Context (dec_own : forall x b v, dec x b v -> own v = x).

Lemma rep_rows l m p :
  kv_sorted l -> rep l m ->
  NoDup ((fun e => val e.2) <$> kv_prefix p l) /\
  forall w, w ∈ ((fun e => val e.2) <$> kv_prefix p l) <->
    exists x v, w = Some v /\ m !! x = Some v /\ HasPrefix (keyf x) p = true.
Proof.
  intros Hs [H1 H2]. split.
  - apply NoDup_fmap_2_strong.
    + intros [k b] [k' b'] [_ Hin]%kv_prefix_elem [_ Hin']%kv_prefix_elem. simpl.
      destruct (H1 _ _ Hin) as (x & v & _ & -> & Hd), (H1 _ _ Hin') as (x' & v' & _ & -> & Hd').
      rewrite (dec_val _ _ _ Hd), (dec_val _ _ _ Hd'). intros [= ->].
      assert (x = x') as -> by by rewrite <-(dec_own _ _ _ Hd), <-(dec_own _ _ _ Hd').
      apply kv_get_elem in Hin, Hin'; [|done..]. congruence.
    + apply NoDup_filter, (NoDup_fmap_1 fst), kv_sorted_NoDup, Hs.
  - intros w. rewrite list_elem_of_fmap. split.
    + intros ([k b] & -> & [Hp Hin]%kv_prefix_elem). simpl.
      destruct (H1 _ _ Hin) as (x & v & Hx & -> & Hd). exists x, v.
      by rewrite (dec_val _ _ _ Hd).
    + intros (x & v & -> & Hx & Hp). destruct (H2 _ _ Hx) as (_ & b & Hb & Hd).
      exists (keyf x, b). simpl. rewrite (dec_val _ _ _ Hd). split; [done|].
      by apply kv_prefix_elem.
Qed.
End Rep.

(** ** The representation relation *)

Section Repr.
Context {model : Type} `{B : Bolt} `{L : !BoltLaws B} `{C : Codecs model} `{CL : !CodecsLaws model C}.
Implicit Types (t : btx) (d : directory model).

Definition okey (k : string * string) : string := bdb.objectKey k.1 k.2.
Definition wf_okey (k : string * string) : Prop := wf_type k.1.
Definition dec_obj (k : string * string) (b : string) (o : Object) : Prop :=
  unmarshal b = Ok o /\ o_type o = k.1 /\ o_id o = k.2.
Definition dec_rel (i : RelationIdentifier) (b : string) (r : Relation) : Prop :=
  unmarshal b = Ok r /\ UnmarshalVT b zero_ident = Ok i /\ r_ident r = i.

Lemma okey_inj x y : wf_okey x -> wf_okey y -> okey x = okey y -> x = y.
Proof.
  destruct x, y. unfold wf_okey, okey. simpl. intros ?? E.
  by apply objectKey_inj in E as [-> ->].
Qed.

(** The data buckets: objects under their key, relations under both keys. *)
Definition data_repr t objs rels : Prop :=
  exists lo ro rs,
    bucket_is t ObjectsPath lo /\ bucket_is t RelationsObjPath ro /\
    bucket_is t RelationsSubPath rs /\
    rep okey wf_okey dec_obj lo objs /\
    rep bdb.objKeyOf wf_ident dec_rel ro rels /\
    rep bdb.subKeyOf wf_ident dec_rel rs rels.

Definition decoded {T} (dec : string -> res T) (o : option string) (x : option T) : Prop :=
  match x with
  | Some v => exists b, o = Some b /\ dec b = Ok v
  | None => o = None
  end.

Definition manifest_repr t d : Prop :=
  kv_get manifestName (default [] (view t !! ["_manifest"])) = None /\
  match view t !! ManifestPath with
  | Some lm =>
      bucket_is t ManifestPath lm /\
      decoded unmarshal (kv_get MetadataKey lm) (d_metadata d) /\
      decoded unmarshal (kv_get BodyKey lm) (d_body d) /\
      decoded unmarshalAny (kv_get ModelKey lm) (d_model d)
  | None =>
      d_metadata d = None /\ d_body d = None /\ d_model d = None /\ leaf t ManifestPath
  end.

Definition bolt_repr t d : Prop := data_repr t (d_objs d) (d_rels d) /\ manifest_repr t d.

Lemma is_some_bucket t p l : bucket_is t p l -> is_Some (view t !! p).
Proof. intros (_ & _ & -> & _). done. Qed.
#[local] Hint Resolve is_some_bucket bucket_sorted : dirdb.

(** Writes to a data bucket leave the manifest alone, and conversely. *)
Lemma manifest_frame t t' p l d :
  p ∈ [ObjectsPath; RelationsObjPath; RelationsSubPath] ->
  is_Some (view t !! p) -> view t' = <[p := l]> (view t) ->
  manifest_repr t d -> manifest_repr t' d.
Proof.
  intros Hp Hs Hv. unfold manifest_repr.
  assert (p <> ManifestPath /\ p <> ["_manifest"]) as [H1 H2] by set_solver.
  rewrite Hv, !lookup_insert_ne by done. intros [Hn Hm]. split; [done|].
  destruct (view t !! ManifestPath) as [lm|].
  - destruct Hm as [H3 H4]. split; [|done]. by eapply bucket_other.
  - destruct Hm as (?&?&?&?). split_and!; [done..|]. by eapply leaf_insert.
Qed.

Lemma data_frame t t' l objs rels :
  is_Some (view t !! ManifestPath) -> view t' = <[ManifestPath := l]> (view t) ->
  data_repr t objs rels -> data_repr t' objs rels.
Proof.
  intros Hs Hv (lo & ro & rs & H1 & H2 & H3 & H). exists lo, ro, rs.
  split_and!; [by eapply bucket_other.. | apply H | apply H | apply H].
Qed.

(** A bucket other than the one just written. *)
Ltac other_bucket :=
  eapply bucket_other; [|eassumption|discriminate|eassumption]; by eapply is_some_bucket.

(** ** Typed writes *)

Lemma Set_bucket {T} `{Codec T} t p l k (x : T) :
  bucket_is t p l ->
  match Set_ p k x t with
  | (Ok y, t') => y = x /\ exists b, marshal x = Ok b /\ put_err k b = None /\
                  view t' = <[p := kv_put k b l]> (view t)
  | (Fail _, t') => t' = t /\ forall b, marshal x = Ok b -> put_err k b <> None
  end.
Proof.
  intros Hb. unfold Set_, bind at 1, lift. destruct (marshal x) as [b|e] eqn:E; [|done].
  pose proof (SetKey_bucket t p l k b Hb) as Hk. unfold bind. destruct (put_err k b) eqn:Ep.
  - rewrite Hk. naive_solver.
  - destruct (SetKey p k b t) as [r t']. simpl in Hk. destruct Hk as [-> Hv]. simpl. eauto.
Qed.

Lemma SetAny_bucket {T} `{AnyCodec T} t p l k (x : T) :
  bucket_is t p l ->
  match SetAny p k x t with
  | (Ok y, t') => y = x /\ exists b, marshalAny x = Ok b /\ view t' = <[p := kv_put k b l]> (view t)
  | (Fail _, t') => t' = t
  end.
Proof.
  intros Hb. unfold SetAny, bind at 1, lift. destruct (marshalAny x) as [b|e] eqn:E; [|done].
  pose proof (SetKey_bucket t p l k b Hb) as Hk. unfold bind. destruct (put_err k b) eqn:Ep.
  - by rewrite Hk.
  - destruct (SetKey p k b t) as [r t']. simpl in Hk. destruct Hk as [-> Hv]. simpl. eauto.
Qed.


(** ** Objects *)

Lemma bolt_GetObject_found t d ty id o :
  bolt_repr t d -> d_objs d !! (ty, id) = Some o -> tx_GetObject ty id t = Ok o.
Proof.
  intros [(lo & ro & rs & Ho & _ & _ & Rep & _) _] Hd. unfold tx_GetObject, Get.
  rewrite (GetKey_bucket t _ lo _ Ho).
  destruct (rep_some okey wf_okey dec_obj lo (d_objs d) (ty, id) o) as (b & Hb & Hdec & _);
    eauto with dirdb.
  unfold okey in Hb. simpl in Hb. by rewrite Hb.
Qed.

Lemma bolt_GetObject_missing t d ty id :
  bolt_repr t d -> wf_type ty -> d_objs d !! (ty, id) = None ->
  tx_GetObject ty id t = Fail ErrKeyNotFound.
Proof.
  intros [(lo & ro & rs & Ho & _ & _ & Rep & _) _] Hw Hd. unfold tx_GetObject, Get.
  rewrite (GetKey_bucket t _ lo _ Ho).
  pose proof (rep_none okey wf_okey dec_obj okey_inj lo (d_objs d) (ty, id)
                (bucket_sorted _ _ _ Ho) Rep Hw Hd) as Hb.
  unfold okey in Hb. simpl in Hb. by rewrite Hb.
Qed.

Lemma bolt_SetObject t d o :
  bolt_repr t d -> wf_type (o_type o) ->
  match tx_SetObject o t with
  | (Ok o', t') => o' = o /\ bolt_repr t' (set_objs d (<[(o_type o, o_id o) := o]> (d_objs d)))
  | (Fail _, t') => t' = t
  end.
Proof.
  intros [(lo & ro & rs & Ho & Hro & Hrs & R1 & R2 & R3) Hm] Hw. unfold tx_SetObject.
  pose proof (Set_bucket t _ lo (bdb.objectKey (o_type o) (o_id o)) o Ho) as Hset.
  destruct (Set_ _ _ o t) as [[o'|e] t']; [|by destruct Hset].
  destruct Hset as (-> & b & Hb & _ & Hv). split; [done|]. split.
  - exists (kv_put (okey (o_type o, o_id o)) b lo), ro, rs. split_and!.
    + by eapply bucket_update.
    + other_bucket.
    + other_bucket.
    + apply rep_put; eauto using okey_inj with dirdb.
      split; [|done]. by apply unmarshal_marshal.
    + done.
    + done.
  - eapply manifest_frame; [| |exact Hv|exact Hm]; [set_solver | eauto with dirdb].
Qed.

Lemma bolt_DeleteObject t d ty id :
  bolt_repr t d -> wf_type ty ->
  (tx_DeleteObject ty id t).1 = Ok tt /\
  bolt_repr (tx_DeleteObject ty id t).2 (set_objs d (delete (ty, id) (d_objs d))).
Proof.
  intros [(lo & ro & rs & Ho & Hro & Hrs & R1 & R2 & R3) Hm] Hw. unfold tx_DeleteObject, Delete.
  destruct (DeleteKey_bucket t _ lo (bdb.objectKey ty id) Ho) as [H1 Hv]. split; [done|]. split.
  - exists (kv_del (okey (ty, id)) lo), ro, rs. split_and!.
    + by eapply bucket_update.
    + other_bucket.
    + other_bucket.
    + apply rep_del; eauto using okey_inj with dirdb.
    + done.
    + done.
  - eapply manifest_frame; [| |exact Hv|exact Hm]; [set_solver | eauto with dirdb].
Qed.

(** ** Relations *)

Definition val_of {T} `{Codec T} (b : string) : option T :=
  match unmarshal b with Ok x => Some x | Fail _ => None end.

Lemma row_of_snd {T} `{Codec T} (l : list (string * string)) :
  (row_of (T := T) <$> l).*2 = (fun e => val_of e.2) <$> l.
Proof. rewrite <-list_fmap_compose. done. Qed.

Lemma dec_obj_val k b o : dec_obj k b o -> val_of b = Some o.
Proof. intros (H & _). unfold val_of. by rewrite H. Qed.
Lemma dec_obj_own k b o : dec_obj k b o -> (o_type o, o_id o) = k.
Proof. destruct k. intros (_ & H1 & H2). simpl in *. by subst. Qed.
Lemma dec_rel_val i b r : dec_rel i b r -> val_of b = Some r.
Proof. intros (H & _). unfold val_of. by rewrite H. Qed.
Lemma dec_rel_own i b r : dec_rel i b r -> r_ident r = i.
Proof. by intros (_ & _ & <-). Qed.

(** Either index, picked by direction. *)
Lemma data_index t objs rels dir :
  data_repr t objs rels ->
  exists l, bucket_is t (directionPath dir) l /\ rep (bdb.key_of dir) wf_ident dec_rel l rels.
Proof. intros (lo & ro & rs & H). destruct dir; naive_solver. Qed.

Lemma bolt_GetRelationExact_found t d i r :
  bolt_repr t d -> d_rels d !! i = Some r -> tx_GetRelationExact i t = Ok r.
Proof.
  intros [(l & Hl & Rep)%(data_index _ _ _ ByObject) _] Hd. unfold tx_GetRelationExact, Get.
  rewrite (GetKey_bucket t _ l _ Hl).
  destruct (rep_some (bdb.key_of ByObject) wf_ident dec_rel l (d_rels d) i r)
    as (b & Hb & Hdec & _); eauto with dirdb. simpl in Hb. by rewrite Hb.
Qed.

Lemma bolt_GetRelationExact_missing t d i :
  bolt_repr t d -> wf_ident i -> d_rels d !! i = None ->
  tx_GetRelationExact i t = Fail ErrKeyNotFound.
Proof.
  intros [(l & Hl & Rep)%(data_index _ _ _ ByObject) _] Hw Hd. unfold tx_GetRelationExact, Get.
  rewrite (GetKey_bucket t _ l _ Hl).
  pose proof (rep_none (bdb.key_of ByObject) wf_ident dec_rel (key_of_inj ByObject) l (d_rels d) i
                (bucket_sorted _ _ _ Hl) Rep Hw Hd) as Hb.
  simpl in Hb. by rewrite Hb.
Qed.

(** Writing a relation writes both indexes or neither: the two keys have the same length, so the
    second [Put] cannot fail once the first succeeded. *)
Lemma bolt_SetRelation t d r :
  bolt_repr t d -> wf_ident (r_ident r) ->
  match tx_SetRelation r t with
  | (Ok r', t') => r' = r /\ bolt_repr t' (set_rels d (<[r_ident r := r]> (d_rels d)))
  | (Fail _, t') => t' = t
  end.
Proof.
  intros [(lo & ro & rs & Ho & Hro & Hrs & R1 & R2 & R3) Hm] Hw. unfold tx_SetRelation, bind at 1.
  pose proof (Set_bucket t _ ro (bdb.objKeyOf r) r Hro) as H1.
  destruct (Set_ _ _ r t) as [[r1|e] t1]; [|by destruct H1].
  destruct H1 as (-> & b & Hb & Hpe & Hv1).
  assert (bucket_is t1 RelationsSubPath rs) as Hrs1 by other_bucket.
  assert (bucket_is t1 ObjectsPath lo) as Ho1 by other_bucket.
  assert (bucket_is t1 RelationsObjPath (kv_put (bdb.objKeyOf r) b ro)) as Hro1
    by by eapply bucket_update.
  pose proof (Set_bucket t1 _ rs (bdb.subKeyOf r) r Hrs1) as H2. unfold bind.
  destruct (Set_ RelationsSubPath _ r t1) as [[r2|e] t2].
  - destruct H2 as (-> & b' & Hb' & _ & Hv2). rewrite Hb in Hb'. injection Hb' as <-. simpl.
    assert (dec_rel (r_ident r) b r) as Hd.
    { split_and!; [by apply unmarshal_marshal | by apply UnmarshalVT_relation | done]. }
    split; [done|]. split.
    + exists lo, (kv_put (bdb.objKeyOf (r_ident r)) b ro), (kv_put (bdb.subKeyOf (r_ident r)) b rs).
      split_and!; [other_bucket | other_bucket | by eapply bucket_update | done | |];
        apply rep_put; eauto using obj_key_inj, sub_key_inj with dirdb.
    + eapply (manifest_frame t1); [| |exact Hv2|]; [set_solver | eauto with dirdb |].
      eapply (manifest_frame t); [| |exact Hv1|exact Hm]; [set_solver | eauto with dirdb].
  - destruct H2 as [_ H2]. exfalso. apply (H2 b Hb).
    rewrite (put_err_length _ (bdb.objKeyOf r)); [done|].
    exact (length_sub_obj_key (r_ident r)).
Qed.

Lemma bolt_DeleteRelation t d i :
  bolt_repr t d -> wf_ident i ->
  (tx_DeleteRelation i t).1 = Ok tt /\
  bolt_repr (tx_DeleteRelation i t).2 (set_rels d (delete i (d_rels d))).
Proof.
  intros [(lo & ro & rs & Ho & Hro & Hrs & R1 & R2 & R3) Hm] Hw.
  unfold tx_DeleteRelation, Delete, bind.
  destruct (DeleteKey_bucket t _ ro (bdb.objKeyOf i) Hro) as [H1 Hv1].
  destruct (DeleteKey RelationsObjPath _ t) as [r1 t1]. simpl in H1, Hv1. subst r1.
  assert (bucket_is t1 RelationsSubPath rs) as Hrs1 by other_bucket.
  assert (bucket_is t1 ObjectsPath lo) as Ho1 by other_bucket.
  assert (bucket_is t1 RelationsObjPath (kv_del (bdb.objKeyOf i) ro)) as Hro1
    by by eapply bucket_update.
  destruct (DeleteKey_bucket t1 _ rs (bdb.subKeyOf i) Hrs1) as [H2 Hv2].
  destruct (DeleteKey RelationsSubPath _ t1) as [r2 t2]. simpl in *. subst r2.
  split; [done|]. split.
  - exists lo, (kv_del (bdb.objKeyOf i) ro), (kv_del (bdb.subKeyOf i) rs).
    split_and!; [other_bucket | other_bucket | by eapply bucket_update | done | |];
      apply rep_del; eauto using obj_key_inj, sub_key_inj with dirdb.
  - eapply (manifest_frame t1); [| |exact Hv2|]; [set_solver | eauto with dirdb |].
    eapply (manifest_frame t); [| |exact Hv1|exact Hm]; [set_solver | eauto with dirdb].
Qed.

(** ** Scans *)

Lemma key_of_nonempty dir (i : RelationIdentifier) : bdb.key_of dir i <> "".
Proof.
  destruct dir; simpl; rewrite ?objKeyOf_relkey, ?subKeyOf_relkey; unfold relkey;
    intros H; apply (f_equal String.length) in H; rewrite length_app_str in H; simpl in H; lia.
Qed.

Lemma okey_nonempty k : okey k <> "".
Proof.
  unfold okey. rewrite objectKey_eq. intros H. apply (f_equal String.length) in H.
  rewrite length_app_str in H. simpl in H. lia.
Qed.

Lemma rep_nonempty {K V} `{Countable K} (keyf : K -> string) P (dec : K -> string -> V -> Prop) l m :
  rep keyf P dec l m -> (forall x, keyf x <> "") -> forall k v, (k, v) ∈ l -> k <> "".
Proof. intros [H1 _] Hne k v Hin. destruct (H1 _ _ Hin) as (x & w & _ & -> & _). apply Hne. Qed.

Lemma objectKey_prefix ty k :
  wf_type ty -> wf_okey k -> ty <> "" -> HasPrefix (okey k) (bdb.objectKey ty "") = true <-> k.1 = ty.
Proof.
  intros Ht Hk _. unfold okey. rewrite !objectKey_eq, sep_prefix by done. naive_solver.
Qed.

Lemma bolt_ScanObjects t d ty :
  bolt_repr t d -> wf_type ty ->
  exists (scan : string -> ScanIterator) (l : list (string * option Object)),
    (forall tok, tx_ScanObjects ty tok t = Ok (scan tok)) /\ resumes scan l /\ object_rows d ty l.
Proof.
  intros [(lo & ro & rs & Ho & _ & _ & Rep & _) _] Hw. unfold tx_ScanObjects.
  set (kf := if negb (String.eqb ty "") then bdb.objectKey ty "" else "").
  destruct (scan_resumes (T := Object) t _ lo kf Ho) as (scan & Hscan & Hres).
  { eapply rep_nonempty; [exact Rep | apply okey_nonempty]. }
  exists scan, (row_of <$> kv_prefix kf lo). split_and!; [done..|].
  unfold object_rows. rewrite row_of_snd.
  destruct (rep_rows okey wf_okey dec_obj val_of (fun o => (o_type o, o_id o)) dec_obj_val
    dec_obj_own lo (d_objs d) kf (bucket_sorted _ _ _ Ho) Rep) as [Hnd Hin].
  split; [done|]. intros v. rewrite Hin. destruct Rep as [_ Rep].
  assert (forall k o, d_objs d !! k = Some o ->
            HasPrefix (okey k) kf = true <-> ty = "" \/ k.1 = ty) as Hkf.
  { intros k o Hk. destruct (Rep _ _ Hk) as [HP _]. unfold kf.
    destruct (String.eqb_spec ty "") as [->|Hne]; simpl.
    - rewrite HasPrefix_empty. naive_solver.
    - rewrite objectKey_prefix by done. naive_solver. }
  split.
  - intros (k & o & -> & Hk & Hp). exists o. destruct (Rep _ _ Hk) as (_ & b & _ & Hd).
    apply dec_obj_own in Hd as <-. split_and!; [done..|]. by eapply Hkf in Hp.
  - intros (o & -> & Hk & Hty). eexists _, o. split_and!; [done.. |]. by eapply Hkf.
Qed.

Lemma bolt_scan_rows t d dir kf :
  bolt_repr t d ->
  exists (scan : string -> ScanIterator) (l : list (string * option Relation)),
    (forall tok, NewScanIterator (directionPath dir) kf tok t = Ok (scan tok)) /\ resumes scan l /\
    NoDup l.*2 /\
    forall v, v ∈ l.*2 <-> exists r, v = Some r /\ d_rels d !! r_ident r = Some r /\
                             HasPrefix (bdb.key_of dir (r_ident r)) kf = true.
Proof.
  intros [(l & Hl & Rep)%(data_index _ _ _ dir) _].
  destruct (scan_resumes (T := Relation) t _ l kf Hl) as (scan & Hscan & Hres).
  { eapply rep_nonempty; [exact Rep | apply key_of_nonempty]. }
  exists scan, (row_of <$> kv_prefix kf l). split_and!; [done..| |]; rewrite row_of_snd;
    destruct (rep_rows (bdb.key_of dir) wf_ident dec_rel val_of r_ident dec_rel_val
    dec_rel_own l (d_rels d) kf (bucket_sorted _ _ _ Hl) Rep) as [Hnd Hin]; [done|].
  intros v. rewrite Hin. split.
  - intros (i & r & -> & Hi & Hp). exists r. destruct Rep as [_ Rep].
    destruct (Rep _ _ Hi) as (_ & b & _ & Hd). by apply dec_rel_own in Hd as ->.
  - intros (r & -> & Hi & Hp). eauto.
Qed.

Lemma tx_ScanRelations_eq dir f tok t :
  tx_ScanRelations dir f tok t = NewScanIterator (directionPath dir) (bdb.filter_of dir f) tok t.
Proof. by destruct dir. Qed.

Lemma bolt_ScanRelations t d dir f :
  bolt_repr t d ->
  exists (scan : string -> ScanIterator) (l : list (string * option Relation)),
    (forall tok, tx_ScanRelations dir f tok t = Ok (scan tok)) /\ resumes scan l /\
    relation_rows d f l.
Proof.
  intros Hr. destruct (bolt_scan_rows t d dir (bdb.filter_of dir f) Hr)
    as (scan & l & Hs & Hres & Hnd & Hin).
  exists scan, l. split_and!; [intros; by rewrite tx_ScanRelations_eq | done |].
  split_and!; [done | |].
  - intros v (r & -> & Hd & _)%Hin. eauto.
  - intros i r Hi Hm. apply Hin. exists r. destruct Hr as [(l' & _ & [_ Rep])%(data_index _ _ _ dir) _].
    destruct (Rep _ _ Hi) as (_ & b & _ & Hd). apply dec_rel_own in Hd as <-.
    split_and!; [done..|]. by apply filter_of_complete.
Qed.

Lemma bolt_repr_wf_rel t d i r : bolt_repr t d -> d_rels d !! i = Some r -> wf_ident i /\ r_ident r = i.
Proof.
  intros [(l & _ & [_ Rep])%(data_index _ _ _ ByObject) _] Hi.
  destruct (Rep _ _ Hi) as (? & b & _ & Hd). by apply dec_rel_own in Hd.
Qed.

Lemma bolt_ScanRelations_anchor t d dir ty id :
  bolt_repr t d -> bdb.isSet ty = true -> bdb.isSet id = true -> wf_type ty -> wf_part id ->
  exists it l, tx_ScanRelations dir (ObjectOnlyFilter dir ty id) "" t = Ok it /\
    yields it l /\ length l <= rows it /\ NoDup l.*2 /\
    forall v, v ∈ l.*2 <->
      exists r, v = Some r /\ d_rels d !! r_ident r = Some r /\ anchor dir (r_ident r) = (ty, id).
Proof.
  intros Hr ????.
  destruct (bolt_scan_rows t d dir (bdb.filter_of dir (ObjectOnlyFilter dir ty id)) Hr)
    as (scan & l & Hs & (Hy & Hlen & _) & Hnd & Hin).
  exists (scan ""), l. rewrite tx_ScanRelations_eq. split_and!; [done..|].
  intros v. rewrite Hin. apply exist_proper. intros r. split; intros (-> & Hd & Hp);
    split_and!; try done; eapply object_only_exact; eauto;
    by destruct (bolt_repr_wf_rel t d _ _ Hr Hd).
Qed.

Lemma rfold_ident (vf : RelationIdentifier -> bool) es ids n out :
  Forall2 (fun (e : string * string) i => UnmarshalVT e.2 zero_ident = Ok i) es ids ->
  rfold (fun acc e => (fun '(n, results) (_ v : string) =>
           match UnmarshalVT v (pool_Get n) with
           | Fail e => Fail e
           | Ok m => Ok (S n, if vf m then results ++ [m] else results)
           end) acc e.1 e.2) (n, out) es =
  Ok (n + length es, out ++ filter (fun i => vf i = true) ids).
Proof.
  intros H. revert n out. induction H as [|e i es ids He _ IH]; intros n out; simpl.
  - by rewrite app_nil_r, Nat.add_0_r.
  - rewrite pool_fresh, He. simpl. rewrite IH, filter_cons. f_equal. f_equal; [lia|].
    destruct (vf i); [rewrite decide_True by done | rewrite decide_False by done];
      [by rewrite <-app_assoc | done].
Qed.

Lemma bolt_ScanRelationsFiltered t d dir f vf out :
  bolt_repr t d ->
  exists l, tx_ScanRelationsFiltered dir f vf out t = Ok (out ++ l) /\ NoDup l /\
    (forall i, i ∈ l -> is_Some (d_rels d !! i) /\ vf i = true) /\
    (forall i, is_Some (d_rels d !! i) -> matches f i -> vf i = true -> i ∈ l).
Proof.
  intros [(l & Hl & Rep)%(data_index _ _ _ dir) _].
  pose proof (bucket_sorted _ _ _ Hl) as Hs.
  set (idof := fun e : string * string => match UnmarshalVT e.2 zero_ident with Ok i => i | Fail _ => zero_ident end).
  assert (forall k b, (k, b) ∈ l -> exists i, UnmarshalVT b zero_ident = Ok i /\ k = bdb.key_of dir i
            /\ is_Some (d_rels d !! i) ) as Hdec.
  { intros k b Hin. destruct Rep as [Rep _]. destruct (Rep _ _ Hin) as (i & r & Hi & -> & _ & Hd & _).
    exists i. by rewrite Hi. }
  exists (filter (fun i => vf i = true) (idof <$> kv_prefix (bdb.filter_of dir f) l)).
  assert (Forall2 (fun (e : string * string) i => UnmarshalVT e.2 zero_ident = Ok i)
    (kv_prefix (bdb.filter_of dir f) l) (idof <$> kv_prefix (bdb.filter_of dir f) l)) as HF.
  { apply Forall2_fmap_self. intros [k b] [_ Hin]%kv_prefix_elem.
    destruct (Hdec _ _ Hin) as (i & Hi & _). unfold idof. simpl. by rewrite Hi. }
  split_and!.
  - unfold tx_ScanRelationsFiltered, ScanWithFilter.
    replace (match dir with BySubject => bdb.writeSubFilter "" f | ByObject => bdb.writeObjFilter "" f end)
      with (bdb.filter_of dir f) by by destruct dir.
    rewrite (SetBucket_bucket _ _ _ Hl), (scan_loop_fold _ _ _ _ _ _ Hl).
    exact (f_equal (rmap snd) (rfold_ident vf _ _ 0 out HF)).
  - apply NoDup_filter, NoDup_fmap_2_strong.
    + intros [k b] [k' b'] [_ Hin]%kv_prefix_elem [_ Hin']%kv_prefix_elem.
      destruct (Hdec _ _ Hin) as (i & Hi & -> & _), (Hdec _ _ Hin') as (i' & Hi' & -> & _).
      unfold idof. simpl. rewrite Hi, Hi'. intros ->.
      apply kv_get_elem in Hin, Hin'; [|done..]. congruence.
    + apply NoDup_filter, (NoDup_fmap_1 fst), kv_sorted_NoDup, Hs.
  - intros i [Hvf Hin]%list_elem_of_filter. split; [|done].
    apply list_elem_of_fmap in Hin as ([k b] & -> & [_ Hin]%kv_prefix_elem).
    destruct (Hdec _ _ Hin) as (i & Hi & _ & Hsome). unfold idof. simpl. by rewrite Hi.
  - intros i [r Hi] Hm Hvf. apply list_elem_of_filter. split; [done|]. apply list_elem_of_fmap.
    destruct Rep as [_ Rep]. destruct (Rep _ _ Hi) as (_ & b & Hb & _ & Hd & _).
    exists (bdb.key_of dir i, b). unfold idof. simpl. rewrite Hd. split; [done|].
    apply kv_prefix_elem. split; [by apply filter_of_complete | done].
Qed.

Lemma bolt_RelationsExist t d dir ty id :
  bolt_repr t d -> bdb.isSet ty = true -> bdb.isSet id = true -> wf_type ty -> wf_part id ->
  tx_RelationsExistForObject dir ty id t = Ok (bool_decide (anchored dir ty id d <> ∅)).
Proof.
  intros Hr ????. pose proof Hr as [(l & Hl & Rep1 & Rep2)%(data_index _ _ _ dir) _].
  unfold tx_RelationsExistForObject.
  replace (match dir with BySubject => _ | ByObject => _ end)
    with (bdb.filter_of dir (ObjectOnlyFilter dir ty id)) by by destruct dir.
  rewrite (KeyPrefixExists_bucket _ _ _ _ Hl). f_equal. apply bool_decide_ext. split.
  - intros Hne E. apply Hne, filter_none. intros [k b] Hin Hp.
    destruct (Rep1 _ _ Hin) as (i & r & Hi & -> & _).
    apply object_only_exact in Hp; [|done..|by eapply bolt_repr_wf_rel].
    assert (anchored dir ty id d !! i = Some r) as Ha by by apply map_lookup_filter_Some.
    by rewrite E, lookup_empty in Ha.
  - intros Hne E. apply Hne, map_empty. intros i. apply map_lookup_filter_None. right.
    intros r Hi Ha. simpl in Ha. destruct (Rep2 _ _ Hi) as (Hw & b & Hb & _).
    assert ((bdb.key_of dir i, b) ∈ kv_prefix (bdb.filter_of dir (ObjectOnlyFilter dir ty id)) l) as Hk.
    { apply kv_prefix_elem. split; [|done]. by apply object_only_exact. }
    rewrite E in Hk. by apply not_elem_of_nil in Hk.
Qed.

(** ** The manifest *)

Lemma SetBucket_manifest_none t : view t !! ManifestPath = None -> SetBucket t ManifestPath = Fail ErrPathNotFound.
Proof.
  intros H. unfold ManifestPath, ManifestPathV2 in *. simpl. destruct (b_Bucket t [] "_manifest"); [|done].
  rewrite Bucket_view, bool_decide_false; [done|]. simpl. rewrite H. by intros [].
Qed.

Lemma manifest_read {T} (dec : string -> res T) t lm k (x : option T) :
  bucket_is t ManifestPath lm -> decoded dec (kv_get k lm) x ->
  rbind (GetKey t ManifestPath k) dec = match x with Some v => Ok v | None => Fail ErrKeyNotFound end.
Proof.
  intros Hb Hd. rewrite (GetKey_bucket t _ lm k Hb). destruct x as [v|]; simpl in Hd.
  - destruct Hd as (b & -> & Hdec). done.
  - by rewrite Hd.
Qed.

Lemma manifest_get {T} (dec : string -> res T) t d k (x : option T) :
  manifest_repr t d ->
  match view t !! ManifestPath with Some lm => decoded dec (kv_get k lm) x | None => x = None end ->
  match x with
  | Some v => rbind (GetKey t ManifestPath k) dec = Ok v
  | None => exists e, rbind (GetKey t ManifestPath k) dec = Fail e /\ is_not_found e = true
  end.
Proof.
  intros [_ Hm] Hd. destruct (view t !! ManifestPath) as [lm|] eqn:E.
  - destruct Hm as (Hb & _). rewrite (manifest_read dec t lm k x Hb Hd). destruct x; eauto.
  - subst x. unfold GetKey. rewrite SetBucket_manifest_none by done. eauto.
Qed.

Lemma bolt_GetManifestMetadata t d :
  bolt_repr t d ->
  match d_metadata d with
  | Some md => tx_GetManifestMetadata t = Ok md
  | None => exists e, tx_GetManifestMetadata t = Fail e /\ is_not_found e = true
  end.
Proof.
  intros [_ Hm]. apply (manifest_get unmarshal t d MetadataKey _ Hm). destruct Hm as [_ Hm].
  by destruct (view t !! ManifestPath); naive_solver.
Qed.

Lemma bolt_GetManifestBody t d :
  bolt_repr t d ->
  match d_body d with
  | Some b => tx_GetManifestBody t = Ok b
  | None => exists e, tx_GetManifestBody t = Fail e /\ is_not_found e = true
  end.
Proof.
  intros [_ Hm]. apply (manifest_get unmarshal t d BodyKey _ Hm). destruct Hm as [_ Hm].
  by destruct (view t !! ManifestPath); naive_solver.
Qed.

Lemma bolt_GetManifestModel t d :
  bolt_repr t d ->
  match d_model d with
  | Some m => tx_GetManifestModel t = Ok m
  | None => exists e, tx_GetManifestModel t = Fail e /\ is_not_found e = true
  end.
Proof.
  intros [_ Hm]. apply (manifest_get unmarshalAny t d ModelKey _ Hm). destruct Hm as [_ Hm].
  by destruct (view t !! ManifestPath); naive_solver.
Qed.

Lemma bolt_ManifestExists t d :
  bolt_repr t d -> is_Some (d_metadata d) \/ is_Some (d_body d) \/ is_Some (d_model d) ->
  tx_ManifestExists t = Ok true.
Proof.
  intros [_ [_ Hm]] Hs. unfold tx_ManifestExists, BucketExists.
  destruct (view t !! ManifestPath) as [lm|] eqn:E.
  - destruct Hm as (Hb & _). by rewrite (SetBucket_bucket _ _ _ Hb).
  - destruct Hm as (H1 & H2 & H3 & _). rewrite H1, H2, H3 in Hs.
    by destruct Hs as [[? ?]|[[? ?]|[? ?]]].
Qed.

(** A new bucket that is not a child of [q] leaves [q] as it was. *)
Lemma bucket_new t t' p q l l' :
  view t' = <[p := l']> (view t) -> p <> q -> (forall n, p <> q ++ [n]) ->
  bucket_is t q l -> bucket_is t' q l.
Proof.
  intros Hv Hne Hch (H1 & H2 & H3 & H4). split_and!; [done| | |].
  - by eapply present_insert.
  - by rewrite Hv, lookup_insert_ne.
  - intros n. rewrite Hv, lookup_insert_ne; auto.
Qed.

Lemma data_new t t' p l' objs rels :
  view t' = <[p := l']> (view t) -> p ∈ [["_manifest"]; ManifestPath] ->
  data_repr t objs rels -> data_repr t' objs rels.
Proof.
  intros Hv Hp (lo & ro & rs & H1 & H2 & H3 & H). exists lo, ro, rs.
  assert (forall q, q ∈ [ObjectsPath; RelationsObjPath; RelationsSubPath] ->
            p <> q /\ forall n, p <> q ++ [n]) as Hq.
  { intros q Hq. split; [set_solver|]. intros n. set_solver. }
  split_and!; [eapply bucket_new; eauto; eapply Hq; set_solver.. | apply H | apply H | apply H].
Qed.

(** [CreateBucket(ManifestPath)] makes the manifest bucket exist and changes nothing else. *)
Lemma CreateBucket_manifest t d :
  bolt_repr t d ->
  exists t' lm, CreateBucket ManifestPath t = (Ok ManifestPath, t') /\ bolt_repr t' d /\
    view t' !! ManifestPath = Some lm.
Proof.
  intros Hr. pose proof Hr as [Hd [Hn Hm]]. unfold CreateBucket, ManifestPath, ManifestPathV2.
  cbn [CreateBucket_loop app]. unfold bind.
  assert (put_err "_manifest" "" = None) as Hp1 by by apply put_err_name.
  assert (put_err manifestName "" = None) as Hp2 by by apply put_err_name.
  destruct (view t !! ManifestPath) as [lm|] eqn:E.
  { destruct Hm as ((_ & (Ha & Hb & _) & _) & _).
    rewrite (Create_existing t [] "_manifest" Ha), (Create_existing t ["_manifest"] _ Hb).
    exists t, lm. done. }
  destruct Hm as (M1 & M2 & M3 & Hleaf).
  assert (exists t1, b_CreateBucketIfNotExists [] "_manifest" t = (Ok tt, t1) /\
    data_repr t1 (d_objs d) (d_rels d) /\
    (exists lp, view t1 !! ["_manifest"] = Some lp /\ kv_get manifestName lp = None) /\
    view t1 !! ManifestPath = None /\ leaf t1 ManifestPath) as (t1 & -> & Hd1 & Hp & E1 & Hl1).
  { destruct (view t !! ["_manifest"]) as [lp|] eqn:Ep; simpl in Hn.
    - rewrite (Create_existing t [] "_manifest") by (simpl; by rewrite Ep). eauto 10.
    - destruct (Create_new t [] "_manifest") as [H1 H2]; [by left | done..|].
      destruct (b_CreateBucketIfNotExists [] "_manifest" t) as [r t1]. simpl in H1, H2. subst r.
      exists t1. split_and!; [done| | | |].
      + eapply data_new; [exact H2 | set_solver | done].
      + exists []. rewrite H2, lookup_insert_eq. done.
      + rewrite H2, lookup_insert_ne; done.
      + intros n. rewrite H2, lookup_insert_ne; [apply Hleaf | done]. }
  destruct (Create_new t1 ["_manifest"] manifestName) as [H1 H2]; [by right | done..|].
  destruct (b_CreateBucketIfNotExists ["_manifest"] manifestName t1) as [r t2].
  simpl in H1, H2. subst r. exists t2, []. split; [done|].
  assert (view t2 !! ManifestPath = Some []) as E2 by (rewrite H2; apply lookup_insert_eq).
  split; [|done]. split; [by eapply data_new; [exact H2 | set_solver |]|].
  destruct Hp as (lp & Hlp & Hk). split.
  - rewrite H2, lookup_insert_ne, Hlp; done.
  - rewrite E2, M1, M2, M3. split_and!; [|done..]. split_and!; [done | | done |].
    + split; [|split; [|done]]; cbn [app].
      * rewrite H2, lookup_insert_ne, Hlp; done.
      * change (is_Some (view t2 !! ManifestPath)). by rewrite E2.
    + intros n. rewrite H2, lookup_insert_ne; [apply Hl1 | done].
Qed.

(** Replacing the manifest bucket's contents. *)
Lemma manifest_update t t' d d' lm lm' :
  bolt_repr t d -> view t !! ManifestPath = Some lm -> view t' = <[ManifestPath := lm']> (view t) ->
  same_data d d' ->
  decoded unmarshal (kv_get MetadataKey lm') (d_metadata d') ->
  decoded unmarshal (kv_get BodyKey lm') (d_body d') ->
  decoded unmarshalAny (kv_get ModelKey lm') (d_model d') ->
  bolt_repr t' d'.
Proof.
  intros [Hd [Hn Hm]] E Hv [S1 S2] D1 D2 D3. rewrite E in Hm. destruct Hm as (Hb & _). split.
  - rewrite S1, S2. eapply data_frame; [|exact Hv|done]. by rewrite E.
  - split.
    + rewrite Hv, lookup_insert_ne; done.
    + assert (view t' !! ManifestPath = Some lm') as -> by (rewrite Hv; apply lookup_insert_eq).
      split_and!; [|done..]. by eapply bucket_update.
Qed.

Lemma bolt_manifest_bucket t d lm :
  bolt_repr t d -> view t !! ManifestPath = Some lm ->
  bucket_is t ManifestPath lm /\
  decoded unmarshal (kv_get MetadataKey lm) (d_metadata d) /\
  decoded unmarshal (kv_get BodyKey lm) (d_body d) /\
  decoded unmarshalAny (kv_get ModelKey lm) (d_model d).
Proof. intros [_ [_ Hm]] E. by rewrite E in Hm. Qed.

Lemma bolt_SetManifest t d md b :
  bolt_repr t d ->
  match tx_SetManifest md b t with
  | (Ok _, t') => bolt_repr t' (set_manifest d (Some md) (Some b))
  | (Fail _, t') => bolt_repr t' d \/ bolt_repr t' (set_manifest d (Some md) (d_body d))
  end.
Proof.
  intros Hr. destruct (CreateBucket_manifest t d Hr) as (t1 & lm & Hc & Hr1 & E1).
  unfold tx_SetManifest, bind at 1. rewrite Hc.
  destruct (bolt_manifest_bucket t1 d lm Hr1 E1) as (Hb1 & D1 & D2 & D3).
  pose proof (bucket_sorted _ _ _ Hb1) as Hs1.
  pose proof (Set_bucket t1 _ lm MetadataKey md Hb1) as H1. unfold bind at 1.
  destruct (Set_ ManifestPath MetadataKey md t1) as [[x|e] t2];
    [|destruct H1 as [-> _]; by left].
  destruct H1 as (-> & bm & Hbm & _ & Hv2).
  assert (bolt_repr t2 (set_manifest d (Some md) (d_body d))) as Hr2.
  { eapply (manifest_update t1 t2 d); [exact Hr1 | exact E1 | exact Hv2 | done | | |];
      rewrite kv_get_put by done; simpl; [|done..].
    exists bm. split; [done|]. by apply unmarshal_marshal. }
  assert (view t2 !! ManifestPath = Some (kv_put MetadataKey bm lm)) as E2
    by (rewrite Hv2; apply lookup_insert_eq).
  destruct (bolt_manifest_bucket t2 _ _ Hr2 E2) as (Hb2 & D1' & D2' & D3').
  pose proof (bucket_sorted _ _ _ Hb2) as Hs2.
  pose proof (Set_bucket t2 _ _ BodyKey b Hb2) as H2. unfold bind.
  destruct (Set_ ManifestPath BodyKey b t2) as [[x|e] t3];
    [|destruct H2 as [-> _]; by right].
  destruct H2 as (-> & bb & Hbb & _ & Hv3). simpl.
  eapply (manifest_update t2 t3); [exact Hr2 | exact E2 | exact Hv3 | done | | |];
    rewrite kv_get_put by done; simpl; [done | | done].
  exists bb. split; [done|]. by apply unmarshal_marshal.
Qed.

Lemma bolt_SetManifestModel t d m :
  bolt_repr t d ->
  match tx_SetManifestModel m t with
  | (Ok _, t') => bolt_repr t' (set_model d (Some m))
  | (Fail _, t') => t' = t
  end.
Proof.
  intros Hr. unfold tx_SetManifestModel, bind. destruct (view t !! ManifestPath) as [lm|] eqn:E.
  - destruct (bolt_manifest_bucket t d lm Hr E) as (Hb & D1 & D2 & D3).
    pose proof (SetAny_bucket t _ lm ModelKey m Hb) as H1.
    destruct (SetAny ManifestPath ModelKey m t) as [[x|e] t1]; [|done].
    destruct H1 as (-> & b & Hm & Hv). simpl. pose proof (bucket_sorted _ _ _ Hb) as Hs.
    eapply (manifest_update t t1 d); [exact Hr | exact E | exact Hv | done | | |];
      rewrite kv_get_put by done; simpl; [done..|].
    exists b. split; [done|]. by apply unmarshalAny_marshalAny.
  - assert (forall v, SetKey ManifestPath ModelKey v t = (Fail ErrPathNotFound, t)) as Hk.
    { intros v. unfold SetKey, bind, get, lift. by rewrite SetBucket_manifest_none. }
    unfold SetAny, bind, lift. destruct (marshalAny m); [|done]. by rewrite Hk.
Qed.

(** ** Wiping the directory *)

(** A bucket deleted with everything below it, and created again. *)
Definition cleared (p : bpath) (v : gmap bpath (list (string * string))) : gmap bpath (list (string * string)) :=
  <[p := []]> (filter (fun e => below p e.1 = false) v).

Lemma below_refl p : below p p = true.
Proof. unfold below. apply bool_decide_true. by rewrite take_ge. Qed.

Lemma below_app p q : below p (p ++ q) = true.
Proof. unfold below. apply bool_decide_true. by rewrite take_app_length. Qed.

Lemma cleared_other p v q : below p q = false -> cleared p v !! q = v !! q.
Proof.
  intros Hb. unfold cleared. rewrite lookup_insert_ne by (intros ->; by rewrite below_refl in Hb).
  rewrite map_lookup_filter. destruct (v !! q); simpl; [|done]. by case_guard.
Qed.

Lemma cleared_leaf t p v : view t = cleared p v -> leaf t p.
Proof.
  intros Hv n. rewrite Hv. unfold cleared. rewrite lookup_insert_ne.
  - apply map_lookup_filter_None. right. intros x _. simpl. by rewrite below_app.
  - intros E. apply (f_equal length) in E. rewrite length_app in E. simpl in E. lia.
Qed.

Definition recreate (path : bpath) : M btx unit := do! DeleteBucket path; do! CreateBucket path; ret tt.

Lemma recreate_top t n :
  is_Some (view t !! [n]) -> put_err n "" = None ->
  exists t', recreate [n] t = (Ok tt, t') /\ view t' = cleared [n] (view t).
Proof.
  intros Hs Hp. unfold recreate, DeleteBucket, attempt, bind at 1.
  destruct (DeleteBucket_found t [] n Hs) as [H1 H2].
  destruct (b_DeleteBucket [] n t) as [r t1]. simpl in H1, H2. subst r. cbn [ret].
  unfold CreateBucket. cbn [CreateBucket_loop app]. unfold bind.
  destruct (Create_new t1 [] n) as [H3 H4]; [by left | done | |].
  { rewrite H2. apply map_lookup_filter_None. right. intros x _. simpl. by rewrite below_refl. }
  destruct (b_CreateBucketIfNotExists [] n t1) as [r t2]. simpl in H3, H4. subst r. simpl.
  exists t2. by rewrite H4, H2.
Qed.

Lemma below_head p q : p <> [] -> head q <> head p -> below p q = false.
Proof.
  intros Hne Hh. unfold below. apply bool_decide_false. intros E. apply Hh.
  destruct p as [|x p]; [done|]. destruct q; simpl in *; congruence.
Qed.

Lemma present_cleared t t' p : p <> [] -> view t' = cleared p (view t) -> forall q b,
  head (b ++ q) <> head p -> present t b q -> present t' b q.
Proof.
  intros Hne Hv. induction q as [|x q IH]; intros b Hh; simpl; [done|]. intros [Hx Hq].
  assert (head (b ++ [x]) <> head p) as Hh' by (destruct b; simpl in *; congruence).
  split; [|apply IH; [by rewrite <-app_assoc | done]].
  rewrite Hv, cleared_other; [done|]. by apply below_head.
Qed.

Lemma bucket_cleared_other t t' p q l :
  p <> [] -> view t' = cleared p (view t) -> head q <> head p -> bucket_is t q l -> bucket_is t' q l.
Proof.
  intros Hne Hv Hh (H1 & H2 & H3 & H4). split_and!; [done| | |].
  - exact (present_cleared t t' p Hne Hv q [] Hh H2).
  - rewrite Hv, cleared_other; [done|]. by apply below_head.
  - intros m. rewrite Hv, cleared_other; [apply H4|]. apply below_head; [done|]. by destruct q.
Qed.

Lemma bucket_cleared t t' n : view t' = cleared [n] (view t) -> bucket_is t' [n] [].
Proof.
  intros Hv. assert (view t' !! [n] = Some []) as E by (rewrite Hv; apply lookup_insert_eq).
  split_and!; [done | | done | by eapply cleared_leaf]. split; [simpl; by rewrite E | done].
Qed.

Lemma manifest_cleared_other t t' n d :
  view t' = cleared [n] (view t) -> n <> "_manifest" -> manifest_repr t d -> manifest_repr t' d.
Proof.
  intros Hv Hne [Hk Hm].
  assert (forall q, head q = Some "_manifest" -> view t' !! q = view t !! q) as Hq.
  { intros q Hq. rewrite Hv. apply cleared_other, below_head; [done|]. rewrite Hq. simpl. congruence. }
  split; [by rewrite Hq|]. rewrite Hq by done. destruct (view t !! ManifestPath) as [lm|].
  - destruct Hm as [Hb Hm]. split; [|done]. eapply bucket_cleared_other; [|exact Hv| |done]; [done|].
    simpl. congruence.
  - destruct Hm as (?&?&?&Hl). split_and!; [done..|]. intros m. rewrite Hq; [apply Hl | done].
Qed.

Lemma recreate_manifest t d :
  bolt_repr t d ->
  exists t', recreate ManifestPath t = (Ok tt, t') /\
    bolt_repr t' (MkDir (d_objs d) (d_rels d) None None None).
Proof.
  intros Hr. pose proof Hr as [Hd [Hn Hm]]. destruct (view t !! ManifestPath) as [lm|] eqn:E.
  - destruct Hm as ((_ & (Ha & Hb & _) & _) & _). cbn [app] in Ha, Hb.
    unfold recreate, bind at 1, DeleteBucket, ManifestPath, ManifestPathV2.
    unfold bind at 1, get at 1. cbn [removelast List.last].
    destruct Ha as [lp Ha]. rewrite (SetBucket_top t "_manifest" lp Ha). unfold attempt.
    destruct (DeleteBucket_found t ["_manifest"] manifestName Hb) as [H1 H2].
    destruct (b_DeleteBucket ["_manifest"] manifestName t) as [r t1]. simpl in H1, H2. subst r.
    cbn [ret]. unfold CreateBucket. cbn [CreateBucket_loop app].
    assert (view t1 !! ["_manifest"] = Some lp) as Ha1.
    { rewrite H2. apply map_lookup_filter_Some. done. }
    unfold bind. rewrite (Create_existing t1 [] "_manifest") by (cbn [app]; by rewrite Ha1).
    rewrite Ha in Hn. simpl in Hn.
    destruct (Create_new t1 ["_manifest"] manifestName) as [H3 H4];
      [right; eauto | by apply put_err_name | |].
    { rewrite H2. apply map_lookup_filter_None. right. intros x _. done. }
    destruct (b_CreateBucketIfNotExists ["_manifest"] manifestName t1) as [r t2].
    simpl in H3, H4. subst r. exists t2. split; [done|].
    assert (view t2 = cleared ManifestPath (view t)) as Hv by by rewrite H4, H2.
    assert (view t2 !! ManifestPath = Some []) as E2 by (rewrite Hv; apply lookup_insert_eq).
    assert (view t2 !! ["_manifest"] = Some lp) as Ha2 by (rewrite H4, lookup_insert_ne; done).
    split.
    + destruct Hd as (lo & ro & rs & H5 & H6 & H7 & H). exists lo, ro, rs.
      split_and!; [eapply bucket_cleared_other; [|exact Hv| |eassumption]; done..| | |]; apply H.
    + split; [by rewrite Ha2|]. rewrite E2. split_and!; [|done..].
      split_and!; [done | | done | by eapply cleared_leaf].
      split; [cbn [app]; by rewrite Ha2|]. split; [|done]. cbn [app].
      change (is_Some (view t2 !! ManifestPath)). by rewrite E2.
  - assert (DeleteBucket ManifestPath t = (Ok tt, t)) as Hdel.
    { unfold DeleteBucket, ManifestPath, ManifestPathV2, bind, get. cbn [removelast List.last].
      destruct (view t !! ["_manifest"]) as [lp|] eqn:Ep.
      - rewrite (SetBucket_top t "_manifest" lp Ep). unfold attempt.
        rewrite (DeleteBucket_missing t ["_manifest"] manifestName E).
        by rewrite bool_decide_true.
      - by rewrite (SetBucket_missing t "_manifest" [] Ep). }
    destruct (CreateBucket_manifest t d Hr) as (t1 & lm & Hc & Hr1 & E1).
    unfold recreate, bind. rewrite Hdel, Hc. exists t1. split; [done|].
    destruct Hm as (M1 & M2 & M3 & _). destruct d. simpl in *. by subst.
Qed.

Lemma recreate_data t objs rels md b m n :
  bolt_repr t (MkDir objs rels md b m) -> [n] ∈ [ObjectsPath; RelationsObjPath; RelationsSubPath] ->
  exists t', recreate [n] t = (Ok tt, t') /\ view t' = cleared [n] (view t) /\
    manifest_repr t' (MkDir objs rels md b m).
Proof.
  intros [(lo & ro & rs & H5 & H6 & H7 & _) Hm] Hn.
  assert (n <> "_manifest" /\ is_Some (view t !! [n]) /\ put_err n "" = None) as (Hne & Hs & Hp).
  { rewrite !elem_of_cons in Hn. destruct Hn as [[= ->]|[[= ->]|[[= ->]|[]%not_elem_of_nil]]];
      (split_and!; [done | by eapply is_some_bucket | by apply put_err_name]). }
  destruct (recreate_top t n Hs Hp) as (t' & H1 & H2).
  exists t'. split_and!; [done..|]. by eapply manifest_cleared_other.
Qed.

(** [DeleteManifest] leaves an empty directory, whatever was stored. *)
Lemma bolt_DeleteManifest t d :
  bolt_repr t d -> exists t', tx_DeleteManifest t = (Ok tt, t') /\ bolt_repr t' empty_dir.
Proof.
  intros Hr. unfold tx_DeleteManifest. fold recreate. cbn [for_each].
  destruct (recreate_manifest t d Hr) as (t1 & E1 & Hr1). unfold bind at 1. rewrite E1.
  pose proof Hr1 as [(lo & ro & rs & Ho1 & Hro1 & Hrs1 & R1 & R2 & R3) _].
  destruct (recreate_data t1 _ _ _ _ _ "objects" Hr1) as (t2 & E2 & V2 & M2); [set_solver|].
  unfold bind at 1. unfold ObjectsPath at 1. rewrite E2.
  assert (bucket_is t2 ObjectsPath []) as Ho2 by by eapply bucket_cleared.
  assert (bucket_is t2 RelationsObjPath ro) as Hro2 by by eapply (bucket_cleared_other t1 t2 ["objects"]).
  assert (bucket_is t2 RelationsSubPath rs) as Hrs2 by by eapply (bucket_cleared_other t1 t2 ["objects"]).
  assert (bolt_repr t2 (MkDir ∅ (d_rels d) None None None)) as Hr2.
  { split; [|exact M2]. exists [], ro, rs. split_and!; try done. apply rep_nil. }
  destruct (recreate_data t2 _ _ _ _ _ "relations_obj" Hr2) as (t3 & E3 & V3 & M3); [set_solver|].
  unfold bind at 1. unfold RelationsObjPath at 1. rewrite E3.
  destruct (recreate_top t3 "relations_sub") as (t4 & E4 & V4).
  { assert (bucket_is t3 RelationsSubPath rs) as Hrs3
      by by eapply (bucket_cleared_other t2 t3 ["relations_obj"]).
    by eapply is_some_bucket. }
  { by apply put_err_name. }
  unfold bind at 1. unfold RelationsSubPath at 1. rewrite E4.
  exists t4. split; [done|]. split.
  - exists [], [], []. split_and!; try apply rep_nil; [| |by eapply bucket_cleared];
      (eapply (bucket_cleared_other t3 t4 ["relations_sub"]); [done | done | done |]).
    + by eapply (bucket_cleared_other t2 t3 ["relations_obj"]).
    + by eapply bucket_cleared.
  - by eapply (manifest_cleared_other t3).
Qed.

Lemma bolt_repr_wf t d : bolt_repr t d -> wf_dir d.
Proof.
  intros Hr. split.
  - intros ty id o Ho. destruct Hr as [(lo & ro & rs & _ & _ & _ & [_ Rep] & _) _].
    destruct (Rep _ _ Ho) as (Hw & b & _ & _ & -> & ->). done.
  - intros i r Hi. by eapply bolt_repr_wf_rel.
Qed.

(** The BoltDB transaction honours the contract of [store.Tx]. *)
#[export] Instance bolt_tx_laws : TxLaws model bolt_tx.
Proof.
  refine {| repr := bolt_repr |}.
  - apply bolt_repr_wf.
  - intros. by eapply bolt_GetObject_found.
  - intros. exists ErrKeyNotFound. split; [by eapply bolt_GetObject_missing | done].
  - intros t d o o' t' Hr Hw E. pose proof (bolt_SetObject t d o Hr Hw) as H.
    simpl in E. by rewrite E in H.
  - intros t d o e t' Hr Hw E. pose proof (bolt_SetObject t d o Hr Hw) as H.
    simpl in E. rewrite E in H. by subst.
  - apply bolt_DeleteObject.
  - intros t d ty Hr Hw. destruct (bolt_ScanObjects t d ty Hr Hw) as (scan & l & H1 & H2).
    exists scan, l. split; [intros tok _; apply H1 | exact H2].
  - intros. by eapply bolt_GetRelationExact_found.
  - intros. exists ErrKeyNotFound. split; [by eapply bolt_GetRelationExact_missing | done].
  - intros t d r r' t' Hr Hw E. pose proof (bolt_SetRelation t d r Hr Hw) as H.
    simpl in E. by rewrite E in H.
  - intros t d r e t' Hr Hw E. pose proof (bolt_SetRelation t d r Hr Hw) as H.
    simpl in E. rewrite E in H. by subst.
  - apply bolt_DeleteRelation.
  - intros t d dir f Hr. destruct (bolt_ScanRelations t d dir f Hr) as (scan & l & H1 & H2).
    exists scan, l. split; [intros tok _; apply H1 | exact H2].
  - apply bolt_ScanRelations_anchor.
  - apply bolt_ScanRelationsFiltered.
  - apply bolt_RelationsExist.
  - apply bolt_ManifestExists.
  - apply bolt_GetManifestMetadata.
  - apply bolt_GetManifestBody.
  - apply bolt_GetManifestModel.
  - intros t d md b t' Hr E. pose proof (bolt_SetManifest t d md b Hr) as H.
    simpl in E. by rewrite E in H.
  - intros t d md b e t' Hr E. pose proof (bolt_SetManifest t d md b Hr) as H.
    simpl in E. by rewrite E in H.
  - intros t d m t' Hr E. pose proof (bolt_SetManifestModel t d m Hr) as H.
    simpl in E. by rewrite E in H.
  - intros t d m e t' Hr E. pose proof (bolt_SetManifestModel t d m Hr) as H.
    simpl in E. rewrite E in H. by subst.
  - intros t d Hr. destruct (bolt_DeleteManifest t d Hr) as (t' & E & Hr').
    simpl. rewrite E. done.
Defined.
End Repr.
