(* ===== verification/Ds.v ===== *)
(** * Domain operations over a transaction

    [internal/eds/pkg/ds/{metadata,manifest,stats,check,checks,graph}.go] against the storage
    interface.  The model library ([azm]) and the request validators are third-party code and are
    parameters here ([Azm]). *)
From S2P Require Import Prelude Bytes Messages Keys Store.

(** ** Requests and responses of the reader service *)

Record CheckRequest := MkCheck {
  c_object_type : string; c_object_id : string; c_relation : string;
  c_subject_type : string; c_subject_id : string; c_trace : bool }.
Definition zero_CheckRequest : CheckRequest := MkCheck "" "" "" "" "" false.

(** A response context: the reason of a refusal ([SetContextWithReason]) or the encoding of a
    struct built by the model library. *)
Inductive Context := ReasonContext (e : err) | OtherContext (enc : string).
Record CheckResponse := MkCheckResp { check_ : bool; check_context : option Context }.
Definition zero_CheckResponse : CheckResponse := MkCheckResp false None.

Record ChecksRequest := MkChecks { default_check : option CheckRequest; checks_ : list CheckRequest }.
Record GetGraphRequest := MkGraph {
  g_object_type : string; g_object_id : string; g_relation : string;
  g_subject_type : string; g_subject_id : string; g_subject_relation : string }.

(** ** Counters of [azm/stats] *)

Record SubjectTypeStats := MkSTStats { st_count : Z; SubjectRelations : gmap string Z }.
Record RelationStats := MkRStats { re_count : Z; SubjectTypes : gmap string SubjectTypeStats }.
Record ObjectTypeStats := MkOTStats {
  ot_obj_count : Z; ot_count : Z; Relations : gmap string RelationStats }.
Abbreviation Stats := (gmap string ObjectTypeStats).

Definition zero_OTStats : ObjectTypeStats := MkOTStats 0 0 ∅.
Definition zero_RStats : RelationStats := MkRStats 0 ∅.
Definition zero_STStats : SubjectTypeStats := MkSTStats 0 ∅.

(** [atomic.AddInt32]: signed 32-bit addition wraps around. *)
Definition wrap32 (z : Z) : Z := ((z + 2 ^ 31) mod 2 ^ 32 - 2 ^ 31)%Z.
Definition AddInt32 (z n : Z) : Z := wrap32 (z + n).

(** ** Third-party code *)

(** The reader handed to the graph walk: relations for a partial identifier, appended to [out]. *)
Definition RelationReader : Type :=
  RelationIdentifier -> list RelationIdentifier -> res (list RelationIdentifier).

Class Azm (model : Type) := {
  cache : Type;
  (** [azm/safe] *)
  IsComplete : string -> string -> bool;
  object_Validate : cache -> Object -> option err;
  objectIdentifier_Validate : cache -> string -> string -> option err;
  objectSelector_Validate : cache -> string -> option err;
  relation_Validate : cache -> RelationIdentifier -> option err;
  relations_Validate : cache -> RelationFilter -> option err;
  check_Validate : cache -> CheckRequest -> option err;
  getGraph_Validate : cache -> GetGraphRequest -> option err;
  object_Hash : Object -> string;
  relation_Hash : RelationIdentifier -> string;
  (** [safe.GetRelation(i)] and [safe.GetRelations(i)]: the request's identifier, and whether its
      subject relation takes part in matching ([with_empty_subject_relation] in the second) *)
  safe_GetRelation : RelationIdentifier -> RelationFilter;
  safe_GetRelations : RelationIdentifier -> bool -> RelationFilter;
  (** [safe.Checks(i).CheckRequests()]: the requests completed with the defaults *)
  CheckRequests : CheckRequest -> list CheckRequest -> list CheckRequest;
  (** [azm/cache] *)
  mc_Check : cache -> CheckRequest -> RelationReader -> CheckResponse * option err;
  mc_GetGraph : cache -> GetGraphRequest -> RelationReader -> res (list (string * string));
  mc_CanUpdate : cache -> model -> Stats -> option err;
  mc_UpdateModel : model -> cache -> res cache;
  mc_ETag : cache -> string;
  mc_AvailablePermissions : cache -> string -> string -> res (list string);
  (** [azm/v3.Load], the model's metadata fields, [azm/jobpool] *)
  manifest_Load : string -> res model;
  set_model_metadata : model -> string -> option Timestamp -> model;
  jobpool_run : (CheckRequest -> CheckResponse) -> list CheckRequest -> res (list CheckResponse) }.

(** [safe]'s [IsComplete] is [IsSet] of both parts, as [relation_store.go] states. *)
Class AzmLaws (model : Type) `(A : Azm model) : Prop := {
  IsComplete_isSet ty id : IsComplete ty id = bdb.isSet ty && bdb.isSet id;
  safe_GetRelation_ident i : f_ident (safe_GetRelation i) = i;
  safe_GetRelations_ident i b : f_ident (safe_GetRelations i b) = i;
  (** one request per check, and the pool returns the results in the order of the jobs *)
  CheckRequests_length def l : length (CheckRequests def l) = length l;
  jobpool_in_order f l : jobpool_run f l = Ok (map f l);
  (** hashes are decimal numerals, so never empty *)
  object_Hash_set o : object_Hash o <> "";
  relation_Hash_set i : relation_Hash i <> "" }.

Section Ds.
Context {model : Type} `{T : TxOps model} `{A : Azm model}.

(** ** [metadata.go] *)

(** [ts] is the clock read at the start of the call. *)
Definition UpdateMetadataObject (ts : Timestamp) (msg : Object) (t : tx) : res Object :=
  match GetObject (o_type msg) (o_id msg) t with
  | Fail e =>
      if is_not_found e then
        let msg := set_o_etag (set_o_times msg (Some ts) (o_updated_at msg)) "" in
        Ok (set_o_times msg (o_created_at msg) (Some ts))
      else Fail e
  | Ok cur =>
      let msg := set_o_times msg (o_created_at cur) (o_updated_at msg) in
      let msg := set_o_times msg (o_created_at msg) (Some ts) in
      Ok (if negb (String.eqb (o_etag cur) "") then set_o_etag msg (o_etag cur) else msg)
  end.

Definition UpdateMetadataRelation (ts : Timestamp) (msg : Relation) (t : tx) : res Relation :=
  match GetRelationExact
          (MkIdent (object_type (r_ident msg)) (object_id (r_ident msg)) (relation (r_ident msg))
             (subject_type (r_ident msg)) (subject_id (r_ident msg))
             (subject_relation (r_ident msg))) t with
  | Fail e =>
      if is_not_found e then
        let msg := set_r_etag (set_r_times msg (Some ts) (r_updated_at msg)) "" in
        Ok (set_r_times msg (r_created_at msg) (Some ts))
      else Fail e
  | Ok cur =>
      let msg := set_r_times msg (r_created_at cur) (r_updated_at msg) in
      let msg := set_r_times msg (r_created_at msg) (Some ts) in
      Ok (if negb (String.eqb (r_etag cur) "") then set_r_etag msg (r_etag cur) else msg)
  end.

(** ** [manifest.go] *)

(** [bdb.ErrPathNotFound], returned when there is no manifest. *)
Definition ErrPathNotFound : err := AErr "E20050" NotFound "path not found" [].

Definition manifest_Get (t : tx) : res (Metadata * Body) :=
  match ManifestExists t with
  | Ok true =>
      rbind (GetManifestMetadata t) (fun md =>
      rbind (GetManifestBody t) (fun body => Ok (md, body)))
  | _ => Fail ErrPathNotFound
  end.

Definition manifest_GetModel (t : tx) : res model :=
  match ManifestExists t with
  | Ok true => GetManifestModel t
  | _ => Fail ErrPathNotFound
  end.

Definition manifest_Set (md : Metadata) (buf : string) : M tx unit := SetManifest md (MkBody buf).

Definition manifest_SetModel (md : Metadata) (mod_ : model) : M tx unit :=
  SetManifestModel (set_model_metadata mod_ (md_etag md) (md_updated_at md)).

Definition manifest_Delete : M tx unit := DeleteManifest.

(** ** [stats.go] *)

Definition incObject (s : Stats) (obj : option Object) : Stats :=
  let ty := o_type (default zero_Object obj) in
  let ot := default zero_OTStats (s !! ty) in
  <[ty := MkOTStats (AddInt32 (ot_obj_count ot) 1) (ot_count ot) (Relations ot)]> s.

Definition incRelation (s : Stats) (rel : option Relation) : Stats :=
  let r := ident_of rel in
  let subType :=
    if String.eqb (subject_id r) "*" then subject_type r +:+ ":*" else subject_type r in
  let ot := default zero_OTStats (s !! object_type r) in
  let re := default zero_RStats (Relations ot !! relation r) in
  let st := default zero_STStats (SubjectTypes re !! subType) in
  let st' :=
    MkSTStats (AddInt32 (st_count st) 1)
      (if negb (String.eqb (subject_relation r) "") then
         <[subject_relation r :=
             AddInt32 (default 0%Z (SubjectRelations st !! subject_relation r)) 1]>
           (SubjectRelations st)
       else SubjectRelations st) in
  let re' := MkRStats (AddInt32 (re_count re) 1) (<[subType := st']> (SubjectTypes re)) in
  let ot' :=
    MkOTStats (ot_obj_count ot) (AddInt32 (ot_count ot) 1) (<[relation r := re']> (Relations ot)) in
  <[object_type r := ot']> s.

Definition CountObjects (s : Stats) (t : tx) : res Stats :=
  match ScanObjects "" "" t with
  | Fail e => Fail e
  | Ok iter => Ok (fold_left incObject (collect iter) s)
  end.

Definition CountRelations (s : Stats) (t : tx) : res Stats :=
  match ScanRelations ByObject no_filter "" t with
  | Fail e => Fail e
  | Ok iter => Ok (fold_left incRelation (collect iter) s)
  end.

Definition CalculateStats (t : tx) : res Stats :=
  rbind (CountObjects ∅ t) (fun s => CountRelations s t).

(** ** [check.go], [checks.go], [graph.go] *)

Definition ErrObjectNotFound (what ty id : string) : err :=
  DErr "ErrObjectNotFound" [what; ty; id].

Definition relationIdentifierExist (dir : Direction) (objectType objectID : string) (t : tx) : bool :=
  match RelationsExistForObject dir objectType objectID t with
  | Fail _ => false
  | Ok exists_ => exists_
  end.

Definition RelationIdentifiersExist (i : CheckRequest) (t : tx) : option err :=
  if negb (relationIdentifierExist BySubject (c_subject_type i) (c_subject_id i) t) then
    Some (ErrObjectNotFound "subject" (c_subject_type i) (c_subject_id i))
  else if negb (relationIdentifierExist ByObject (c_object_type i) (c_object_id i) t) then
    Some (ErrObjectNotFound "object" (c_object_type i) (c_object_id i))
  else None.

Definition getRelations (t : tx) : RelationReader := fun r out =>
  let '(dir, filter, valueFilter) := ds.Filter IsComplete (ds.RelationIdentifier_ r) in
  ScanRelationsFiltered dir filter valueFilter out t.

Definition SetContextWithReason (e : err) : option Context := Some (ReasonContext e).

(** The response that goes with the error, and the error. *)
Definition check_Exec (i : CheckRequest) (mc : cache) (t : tx) : CheckResponse * option err :=
  match RelationIdentifiersExist i t with
  | Some e => (MkCheckResp false (SetContextWithReason e), Some e)
  | None => mc_Check mc i (getRelations t)
  end.

Definition checkError (e : err) : CheckResponse := MkCheckResp false (SetContextWithReason e).

Definition checks_consumer (mc : cache) (t : tx) (i : CheckRequest) : CheckResponse :=
  match check_Validate mc i with
  | Some e => checkError e
  | None =>
      match check_Exec i mc t with
      | (_, Some e) => checkError e
      | (resp, None) => resp
      end
  end.

Definition checks_Exec (i : ChecksRequest) (mc : cache) (t : tx) : res (list CheckResponse) :=
  let def := default zero_CheckRequest (default_check i) in
  jobpool_run (checks_consumer mc t) (CheckRequests def (checks_ i)).

Definition getGraph_Exec (i : GetGraphRequest) (mc : cache) (t : tx) : res (list (string * string)) :=
  mc_GetGraph mc i (getRelations t).
End Ds.
