(* ===== verification/Service.v ===== *)
(** * What the services share

    Transactions of [store.Store] ([bdb/tx.go], [store/store.go]), the request validators and the
    incoming headers (third-party), and [directory/v3/relations.go]. *)
From S2P Require Import Prelude Bytes Messages Keys Store Ds.

(** ** Transactions *)

(** The outcome of committing what a transaction wrote: an I/O error of the backend, or none. *)
Class StoreOps (model : Type) `{T : TxOps model} := commit_err : tx -> option err.

Section Transactions.
Context {model : Type} `{T : TxOps model} `{!StoreOps model}.

(** [View]: the transaction is discarded. *)
Definition View {A} (fn : tx -> res A) : M tx A := reads fn.

(** [Update]: committed when [fn] returns nil, rolled back otherwise. *)
Definition Update {A} (fn : M tx A) : M tx A := fun t =>
  match fn t with
  | (Ok a, t') => match commit_err t' with None => (Ok a, t') | Some e => (Fail e, t) end
  | (Fail e, _) => (Fail e, t)
  end.

(** An [Update] whose function also works on state outside of the database (a stream, counters),
    which a rollback does not restore. *)
Definition UpdateE {E A} (fn : M (E * tx) A) : M (E * tx) A := fun '(w, t) =>
  match fn (w, t) with
  | (Ok a, (w', t')) =>
      match commit_err t' with None => (Ok a, (w', t')) | Some e => (Fail e, (w', t)) end
  | (Fail e, (w', _)) => (Fail e, (w', t))
  end.

(** [Batch]: bbolt runs a function that failed in a batch again on its own. *)
Definition Batch {E A} (fn : M (E * tx) A) : M (E * tx) A := fun '(w, t) =>
  match fn (w, t) with
  | (Ok a, (w', t')) =>
      match commit_err t' with None => (Ok a, (w', t')) | Some e => (Fail e, (w', t)) end
  | (Fail _, (w', _)) => UpdateE fn (w', t)
  end.

Lemma Update_ok {A} (fn : M tx A) t a t' :
  Update fn t = (Ok a, t') -> fn t = (Ok a, t').
Proof. unfold Update. repeat case_match; naive_solver. Qed.

Lemma Update_err {A} (fn : M tx A) t e t' : Update fn t = (Fail e, t') -> t' = t.
Proof. unfold Update. repeat case_match; naive_solver. Qed.

Lemma Update_fail {A} (fn : M tx A) t e t' : fn t = (Fail e, t') -> Update fn t = (Fail e, t).
Proof. intros H. unfold Update. by rewrite H. Qed.
End Transactions.

(** ** Requests *)

(** [go-directory/pkg/validator], one function per request. *)
Class Validator := {
  validator_GetObjectRequest : string -> string -> option err;
  validator_GetObjectManyRequest : list (string * string) -> option err;
  validator_GetObjectsRequest : string -> option (Z * string) -> option err;
  validator_GetRelationRequest : RelationIdentifier -> option err;
  validator_GetRelationsRequest : RelationIdentifier -> bool -> option (Z * string) -> option err;
  validator_CheckRequest : CheckRequest -> option err;
  validator_GetGraphRequest : GetGraphRequest -> option err;
  validator_SetObjectRequest : option Object -> option err;
  validator_DeleteObjectRequest : string -> string -> option err;
  validator_SetRelationRequest : option Relation -> option err;
  validator_DeleteRelationRequest : RelationIdentifier -> option err;
  validator_Object : Object -> option err;
  validator_Relation : Relation -> option err;
  validator_GetManifestRequest : option err;
  validator_DeleteManifestRequest : option err;
  validator_Body : Body -> option err;
  validator_Metadata : Metadata -> option err;
  (** [errors.Unwrap]: the error that a validation error wraps, if any *)
  errors_Unwrap : err -> option err;
  (** the message field of an [AsertoError], [fmt]'s [%q], and [status.FromError]: the code and
      message of an error that carries a gRPC status *)
  aerr_message : err -> option string;
  fmt_q : string -> string;
  status_FromError : err -> option (Z * string) }.

(** The headers of a call: [If-Match] (empty when absent) and the [If-None-Match] values. *)
Record headers := MkHeaders { IfMatch : string; IfNoneMatch : list string }.

(** A nil message that is dereferenced: the handler panics. *)
Definition nil_pointer : err := XErr Internal "nil pointer dereference".

Definition ErrHashMismatch (data : list string) : err := DErr "ErrHashMismatch" data.

(** ** [relations.go] *)

Section Relations.
Context {model : Type} `{T : TxOps model}.

Definition relationsByObject (dir : Direction) (objectType objectID : string) (t : tx)
  : res (list (option Relation)) :=
  match ScanRelations dir (ObjectOnlyFilter dir objectType objectID) "" t with
  | Fail e => Fail e
  | Ok iter => Ok (collect iter)
  end.

Definition deleteRelationsWithPrefix (dir : Direction) (objectType objectID : string) : M tx unit :=
  let! relations := reads (relationsByObject dir objectType objectID) in
  for_each (fun rel : option Relation =>
    DeleteRelation
      (MkIdent (object_type (ident_of rel)) (object_id (ident_of rel)) (relation (ident_of rel))
         (subject_type (ident_of rel)) (subject_id (ident_of rel))
         (subject_relation (ident_of rel)))) relations.

Context `{L : !TxLaws model T}.

Lemma ident_eta i :
  MkIdent (object_type i) (object_id i) (relation i) (subject_type i) (subject_id i)
    (subject_relation i) = i.
Proof. by destruct i. Qed.

(** Exactly the relations that name [ty:id] on the side of [dir], each once. *)
Lemma relationsByObject_exact t d dir ty id :
  repr t d -> bdb.isSet ty = true -> bdb.isSet id = true -> wf_type ty -> wf_part id ->
  exists l, relationsByObject dir ty id t = Ok l /\ NoDup l /\
    forall v, v ∈ l <-> exists r, v = Some r /\ d_rels d !! r_ident r = Some r /\
                            anchor dir (r_ident r) = (ty, id).
Proof.
  intros Hr Ht Hi Hwt Hwi.
  destruct (ScanRelations_anchor t d dir ty id Hr Ht Hi Hwt Hwi) as (it & l & Hs & Hy & Hl & Hn & Hm).
  exists l.*2. unfold relationsByObject. rewrite Hs, (collect_yields it l) by done. done.
Qed.

Lemma delete_each t d (l : list (option Relation)) :
  repr t d -> (forall v, v ∈ l -> wf_ident (ident_of v)) ->
  exists t',
    for_each (fun rel : option Relation => DeleteRelation (ident_of rel)) l t = (Ok tt, t') /\
    repr t' (set_rels d (filter (fun e => e.1 ∉ (ident_of <$> l)) (d_rels d))).
Proof.
  revert t d. induction l as [|v l IH]; intros t d Hr Hw.
  - exists t. split; [done|]. replace (set_rels d _) with d; [done|].
    destruct d; unfold set_rels; simpl. f_equal. symmetry. apply map_filter_id.
    intros; simpl. apply not_elem_of_nil.
  - destruct (DeleteRelation_ok t d (ident_of v) Hr) as [Hok Hrep]; [apply Hw; left|].
    destruct (DeleteRelation (ident_of v) t) as [r t1] eqn:E. simpl in *. subst r.
    destruct (IH t1 _ Hrep) as (t' & Hrun & Hrep'); [intros; apply Hw; by right|].
    exists t'. simpl. rewrite (bind_ok _ _ _ _ _ E). split; [done|].
    unfold set_rels in *. simpl in *.
    refine (eq_ind _ (repr t') Hrep' _ _). f_equal.
    apply map_eq. intros i. apply option_eq. intros x.
    rewrite !map_lookup_filter_Some, lookup_delete_Some. simpl.
    rewrite not_elem_of_cons. naive_solver.
Qed.

(** [deleteRelationsWithPrefix] removes exactly the relations anchored at [ty:id]. *)
Lemma deleteRelationsWithPrefix_exact t d dir ty id :
  repr t d -> bdb.isSet ty = true -> bdb.isSet id = true -> wf_type ty -> wf_part id ->
  exists t', deleteRelationsWithPrefix dir ty id t = (Ok tt, t') /\
    repr t' (set_rels d (filter (fun e => anchor dir e.1 <> (ty, id)) (d_rels d))).
Proof.
  intros Hr Ht Hi Hwt Hwi.
  destruct (relationsByObject_exact t d dir ty id Hr Ht Hi Hwt Hwi) as (l & Hl & _ & Hm).
  destruct (repr_wf _ _ Hr) as [_ Hwf].
  destruct (delete_each t d l Hr) as (t' & Hrun & Hrep).
  { intros v (r & -> & Hr' & _)%Hm. by apply (Hwf _ r). }
  exists t'. unfold deleteRelationsWithPrefix, bind, reads. rewrite Hl. split.
  - rewrite <-Hrun. clear. induction l as [|v l IH] in t |- *; [done|]. simpl. unfold bind.
    rewrite ident_eta. destruct (DeleteRelation _ t) as [[[]|e] t1]; [apply IH|done].
  - refine (eq_ind _ (repr t') Hrep _ _). f_equal.
    apply map_filter_ext. intros i r Hi'. destruct (Hwf _ _ Hi') as [_ Hid]. simpl.
    rewrite list_elem_of_fmap. split.
    + intros Hn Ha. apply Hn. exists (Some r). split; [done|]. apply Hm. exists r. by rewrite Hid.
    + intros Ha (v & Heq & (r' & -> & Hr' & Ha')%Hm). apply Ha. rewrite Heq. exact Ha'.
Qed.
End Relations.
