(* ===== verification/Instances.v ===== *)
(** * A concrete directory

    Executable instances of everything the development takes as a parameter: the map-backed bolt
    database of [Bolt.v], a bit-string encoding of the messages, a model library whose models are
    lists of permitted types and whose check looks for a direct relation, validators that reject
    malformed identifiers.  They show that the assumed laws can hold together, and the theorems are
    evaluated on them. *)
From S2P Require Import Prelude Bytes Messages Keys Store Bolt Bdb BdbTx Ds Service.

Module Concrete.
#[export] Existing Instances MapBolt.MapBolt MapBolt.MapBoltLaws.

(** ** Encodings *)

Fixpoint bits (p : positive) : string :=
  match p with
  | xH => ""
  | xO p => String (Ascii.Ascii false false false false true true false false) (bits p)
  | xI p => String (Ascii.Ascii true false false false true true false false) (bits p)
  end.
Fixpoint unbits (s : string) : positive :=
  match s with
  | EmptyString => xH
  | String (Ascii.Ascii b _ _ _ _ _ _ _) s => if b then xI (unbits s) else xO (unbits s)
  end.

Lemma unbits_bits p : unbits (bits p) = p.
Proof. induction p; simpl; by f_equal. Qed.

Definition bad_message : err := XErr InvalidArgument "proto: cannot parse".
Definition enc {A} `{Countable A} (a : A) : res string := Ok (bits (encode a)).
Definition dec {A} `{Countable A} (s : string) : res A :=
  match decode (unbits s) with Some a => Ok a | None => Fail bad_message end.

Lemma dec_enc {A} `{Countable A} (a : A) b : enc a = Ok b -> dec b = Ok a.
Proof. intros [= <-]. unfold dec. by rewrite unbits_bits, decode_encode. Qed.

#[export] Instance Timestamp_countable : Countable Timestamp.
Proof.
  refine (inj_countable' (fun t => (Seconds t, Nanos t)) (fun '(s, n) => MkTS s n) _). by intros [].
Defined.
#[export] Instance Value_countable : Countable Messages.Value.
Proof.
  refine (inj_countable'
    (fun v => match v with StringValue s => (true, s) | OtherValue s => (false, s) end)
    (fun '(b, s) => if (b : bool) then StringValue s else OtherValue s) _). by intros [].
Defined.
#[export] Instance Object_countable : Countable Object.
Proof.
  refine (inj_countable'
    (fun o => (o_type o, o_id o, o_display_name o, o_properties o, o_created_at o, o_updated_at o,
               o_etag o))
    (fun '(a, b, c, d, e, f, g) => MkObject a b c d e f g) _). by intros [].
Defined.
#[export] Instance Relation_countable : Countable Relation.
Proof.
  refine (inj_countable' (fun r => (r_ident r, r_created_at r, r_updated_at r, r_etag r))
    (fun '(a, b, c, d) => MkRelation a b c d) _). by intros [].
Defined.
#[export] Instance Metadata_eq_dec : EqDecision Metadata.
Proof. solve_decision. Defined.
#[export] Instance Metadata_countable : Countable Metadata.
Proof.
  refine (inj_countable' (fun m => (md_updated_at m, md_etag m)) (fun '(a, b) => MkMetadata a b) _).
  by intros [].
Defined.
#[export] Instance Body_eq_dec : EqDecision Body.
Proof. solve_decision. Defined.
#[export] Instance Body_countable : Countable Body.
Proof. refine (inj_countable' body_data MkBody _). by intros []. Defined.

(** A model: its text, its etag and its update time. *)
Record model := MkModel { m_text : string; m_etag : string; m_updated : option Timestamp }.
#[export] Instance model_eq_dec : EqDecision model.
Proof. solve_decision. Defined.
#[export] Instance model_countable : Countable model.
Proof.
  refine (inj_countable' (fun m => (m_text m, m_etag m, m_updated m))
    (fun '(a, b, c) => MkModel a b c) _). by intros [].
Defined.

(** Non-empty wire fields overwrite what the instance holds. *)
Definition merge (cur new : string) : string := if String.eqb new "" then cur else new.
Definition merge_ident (cur new : RelationIdentifier) : RelationIdentifier :=
  MkIdent (merge (object_type cur) (object_type new)) (merge (object_id cur) (object_id new))
    (merge (relation cur) (relation new)) (merge (subject_type cur) (subject_type new))
    (merge (subject_id cur) (subject_id new)) (merge (subject_relation cur) (subject_relation new)).

Lemma merge_empty s : merge "" s = s.
Proof. unfold merge. by destruct (String.eqb_spec s ""). Qed.

#[export] Instance codecs : Codecs model := {|
  codec_Object := {| marshal := enc; unmarshal := dec |};
  codec_Relation := {| marshal := enc; unmarshal := dec |};
  codec_Metadata := {| marshal := enc; unmarshal := dec |};
  codec_Body := {| marshal := enc; unmarshal := dec |};
  codec_model := {| marshalAny := enc; unmarshalAny := dec |};
  codec_ident := fun b cur => rmap (fun r => merge_ident cur (r_ident r)) (dec b);
  pool_Get := fun _ => zero_ident |}.

#[export] Instance codecs_laws : CodecsLaws model codecs.
Proof.
  split; try (intros ??; apply dec_enc); [|done].
  intros r b Hb. unfold UnmarshalVT. simpl. rewrite (dec_enc r b Hb). simpl. unfold merge_ident.
  simpl. rewrite !merge_empty. by destruct (r_ident r).
Qed.

(** ** The model library, the validators, the commit *)

Definition bad_request : err := XErr InvalidArgument "invalid request".
Definition reject_unless (P : Prop) `{Decision P} : option err :=
  if decide P then None else Some bad_request.

#[export] Instance wf_type_dec s : Decision (wf_type s).
Proof. unfold wf_type. apply _. Defined.
#[export] Instance wf_part_dec s : Decision (wf_part s).
Proof. unfold wf_part. apply _. Defined.

(** A check holds when the relation is there directly. *)
Definition direct_check (i : CheckRequest) (read : RelationReader) : CheckResponse * option err :=
  match read (MkIdent (c_object_type i) (c_object_id i) (c_relation i) (c_subject_type i)
                (c_subject_id i) "") [] with
  | Ok l => (MkCheckResp (bool_decide (l <> [])) None, None)
  | Fail e => (zero_CheckResponse, Some e)
  end.

Definition with_defaults (def i : CheckRequest) : CheckRequest :=
  MkCheck (merge (c_object_type def) (c_object_type i)) (merge (c_object_id def) (c_object_id i))
    (merge (c_relation def) (c_relation i)) (merge (c_subject_type def) (c_subject_type i))
    (merge (c_subject_id def) (c_subject_id i)) (c_trace i).

Definition error_model : err := XErr InvalidArgument "invalid manifest".

#[export] Instance azm : Azm model := {|
  cache := model;
  IsComplete := fun ty id => bdb.isSet ty && bdb.isSet id;
  object_Validate := fun _ o => reject_unless (wf_type (o_type o));
  objectIdentifier_Validate := fun _ ty _ => reject_unless (wf_type ty);
  objectSelector_Validate := fun _ ty => reject_unless (wf_type ty);
  relation_Validate := fun _ i => reject_unless (wf_ident i);
  relations_Validate := fun _ _ => None;
  check_Validate := fun _ _ => None;
  getGraph_Validate := fun _ _ => None;
  object_Hash := fun o => "1" +:+ bits (encode (o_type o, o_id o, o_display_name o, o_properties o));
  relation_Hash := fun i => "1" +:+ bits (encode i);
  safe_GetRelation := ds.RelationIdentifier_;
  safe_GetRelations := fun i b => MkFilter i (b || negb (String.eqb (subject_relation i) ""));
  CheckRequests := fun def => map (with_defaults def);
  mc_Check := fun _ i read => direct_check i read;
  mc_GetGraph := fun _ i read =>
    rmap (map (fun r => (subject_type r, subject_id r)))
      (read (MkIdent (g_object_type i) (g_object_id i) (g_relation i) (g_subject_type i)
               (g_subject_id i) "") []);
  mc_CanUpdate := fun _ _ _ => None;
  mc_UpdateModel := fun m _ => Ok m;
  mc_ETag := m_etag;
  mc_AvailablePermissions := fun _ _ _ => Ok ["can_read"];
  manifest_Load := fun s =>
    if String.eqb s "bad" then Fail error_model else Ok (MkModel s "" None);
  set_model_metadata := fun m e t => MkModel (m_text m) e t;
  jobpool_run := fun f l => Ok (map f l) |}.

#[export] Instance azm_laws : AzmLaws model azm.
Proof. split; try done. intros def l. apply length_map. Qed.

#[export] Instance validator : Validator := {|
  validator_GetObjectRequest := fun ty _ => reject_unless (wf_type ty);
  validator_GetObjectManyRequest := fun l => reject_unless (Forall (fun e => wf_type e.1) l);
  validator_GetObjectsRequest := fun ty _ => reject_unless (wf_type ty);
  validator_GetRelationRequest := fun _ => None;
  validator_GetRelationsRequest := fun _ _ _ => None;
  validator_CheckRequest := fun _ => None;
  validator_GetGraphRequest := fun _ => None;
  validator_SetObjectRequest := fun o => if o is Some _ then None else Some bad_request;
  validator_DeleteObjectRequest := fun ty _ => reject_unless (wf_type ty);
  validator_SetRelationRequest := fun r => if r is Some _ then None else Some bad_request;
  validator_DeleteRelationRequest := fun i => reject_unless (wf_ident i);
  validator_Object := fun o => reject_unless (wf_type (o_type o));
  validator_Relation := fun r => reject_unless (wf_ident (r_ident r));
  validator_GetManifestRequest := None;
  validator_DeleteManifestRequest := None;
  validator_Body := fun b => reject_unless ((Z.of_nat (String.length (body_data b)) <= 65536)%Z);
  validator_Metadata := fun m => reject_unless (md_etag m <> "");
  errors_Unwrap := fun _ => None;
  aerr_message := fun e => match e with AErr _ _ _ d | DErr _ d => head d | XErr _ _ => None end;
  fmt_q := fun s => s;
  status_FromError := fun e => match e with XErr _ w => Some (2%Z, w) | _ => None end |}.

#[export] Instance store_ops : StoreOps model := fun _ => None.

(** ** Databases *)

(** The buckets that [Directory.newDirectory] leaves in a fresh file. *)
Definition db0 : MapBolt.state :=
  <[ObjectsPath := []]> (<[RelationsObjPath := []]> (<[RelationsSubPath := []]>
  (<[["_manifest"] := []]> ∅))).

Lemma db0_leaf p : p ∈ [ObjectsPath; RelationsObjPath; RelationsSubPath; ManifestPath] -> leaf db0 p.
Proof.
  intros Hp n. unfold view, db0. simpl. rewrite lookup_fmap.
  rewrite !elem_of_cons in Hp. destruct Hp as [->|[->|[->|[->|[]%elem_of_nil]]]];
    by rewrite !lookup_insert_ne by discriminate.
Qed.

Lemma db0_bucket p :
  p ∈ [ObjectsPath; RelationsObjPath; RelationsSubPath] -> bucket_is db0 p [].
Proof.
  intros Hp. split; [|split; [|split]]; [..|apply db0_leaf; set_solver];
    rewrite !elem_of_cons in Hp;
    destruct Hp as [->|[->|[->|[]%elem_of_nil]]]; vm_compute; eauto; done.
Qed.

Definition db : @tx model bolt_tx := db0.

Lemma db_repr : repr db empty_dir.
Proof.
  unfold db. split.
  - exists [], [], []. split_and!; try (apply db0_bucket; set_solver); apply rep_nil.
  - split; [by vm_compute|].
    assert (@view MapBolt.MapBolt db0 !! ManifestPath = None) as -> by (by vm_compute).
    split_and!; try done. apply db0_leaf. set_solver.
Qed.

Definition ts1 : Timestamp := MkTS 1000 0.
Definition ts2 : Timestamp := MkTS 2000 0.
Definition no_headers : headers := MkHeaders "" [].
Definition mc0 : @cache model azm := MkModel "types" "7" None.
Definition bob : Object := MkObject "user" "bob" "Bob" None None None "".
Definition doc : Object := MkObject "doc" "1" "" None None None "".
Definition rel1 : Relation := MkRelation (MkIdent "doc" "1" "viewer" "user" "bob" "") None None "".
Definition rel2 : Relation := MkRelation (MkIdent "doc" "2" "viewer" "user" "bobby" "") None None "".

(** A database with one object and two relations; [bob] is a prefix of [bobby]. *)
Definition bob1 : Object := MkObject "user" "bob" "Bob" None (Some ts1) (Some ts1) "42".
Definition dir1 : directory model :=
  MkDir (<[(o_type bob1, o_id bob1) := bob1]> ∅)
    (<[r_ident rel2 := rel2]> (<[r_ident rel1 := rel1]> ∅)) None None None.
Definition fill : M (@tx model bolt_tx) unit :=
  do! SetObject bob1; do! SetRelation rel1; do! SetRelation rel2; ret tt.
Definition db1 : @tx model bolt_tx := (fill db).2.

Lemma db1_repr : repr db1 dir1.
Proof.
  assert (is_ok (fill db).1 = true) as Hok by (by vm_compute).
  unfold db1. destruct (fill db) as [r t] eqn:E. unfold fill in E. simpl in *.
  repeat match goal with
  | H : bind ?m ?f _ = _ |- _ =>
      apply bind_inv in H as [(? & ? & ? & H)|(? & ? & ->)]; [|done]
  end.
  pose proof db_repr as Hr.
  eapply SetObject_ok in Hr as [_ Hr]; [| |eassumption]; [|by vm_compute].
  eapply SetRelation_ok in Hr as [_ Hr]; [| |eassumption]; [|by vm_compute].
  eapply SetRelation_ok in Hr as [_ Hr]; [| |eassumption]; [|by vm_compute].
  injection E as _ <-. exact Hr.
Qed.
End Concrete.
