(* ===== verification/BoltFacts.v ===== *)
(** * What the BoltDB store guarantees

    The refinement of the abstract directory by the store's operations over any sequence of calls,
    the injectivity of the keys that it rests on, the exactness of the filters, and the display-name
    patch that bridges two schema versions. *)
From S2P Require Import Prelude Bytes Messages Keys Store Bolt Bdb BdbTx Ds Service Instances.

(** ** Sequences of store operations *)

Inductive store_op (model : Type) :=
| OpSetObject (o : Object)
| OpDeleteObject (ty id : string)
| OpSetRelation (r : Relation)
| OpDeleteRelation (i : RelationIdentifier)
| OpSetManifest (md : Metadata) (b : Body)
| OpSetManifestModel (m : model)
| OpDeleteManifest.
Arguments OpSetObject {model} o.
Arguments OpDeleteObject {model} ty id.
Arguments OpSetRelation {model} r.
Arguments OpDeleteRelation {model} i.
Arguments OpSetManifest {model} md b.
Arguments OpSetManifestModel {model} m.
Arguments OpDeleteManifest {model}.

Section Ops.
Context {model : Type} `{T : TxOps model}.

Definition run_op (op : store_op model) : M tx unit :=
  match op with
  | OpSetObject o => do! SetObject o; ret tt
  | OpDeleteObject ty id => DeleteObject ty id
  | OpSetRelation r => do! SetRelation r; ret tt
  | OpDeleteRelation i => DeleteRelation i
  | OpSetManifest md b => SetManifest md b
  | OpSetManifestModel m => SetManifestModel m
  | OpDeleteManifest => DeleteManifest
  end.

(** What an operation does to the abstract directory; [init] is the model that comes with a first manifest, if
    any. *)
Definition apply_op (init : option model) (op : store_op model) (d : directory model) : directory model :=
  match op with
  | OpSetObject o => set_objs d (<[(o_type o, o_id o) := o]> (d_objs d))
  | OpDeleteObject ty id => set_objs d (delete (ty, id) (d_objs d))
  | OpSetRelation r => set_rels d (<[r_ident r := r]> (d_rels d))
  | OpDeleteRelation i => set_rels d (delete i (d_rels d))
  | OpSetManifest md b => MkDir (d_objs d) (d_rels d) (Some md) (Some b) (union (d_model d) init)
  | OpSetManifestModel m => set_model d (Some m)
  | OpDeleteManifest => empty_dir
  end.

(** An operation that fails changes nothing, but for the metadata of a manifest whose body is refused. *)
Definition failed_op (op : store_op model) (d d' : directory model) : Prop :=
  d' = d \/ match op with OpSetManifest md _ => d' = set_manifest d (Some md) (d_body d) | _ => False end.

Definition wf_op (op : store_op model) : Prop :=
  match op with
  | OpSetObject o => wf_type (o_type o)
  | OpDeleteObject ty _ => wf_type ty
  | OpSetRelation r => wf_ident (r_ident r)
  | OpDeleteRelation i => wf_ident i
  | OpSetManifest _ _ | OpSetManifestModel _ | OpDeleteManifest => True
  end.

(** A client that carries on after a failed operation. *)
Fixpoint run_ops (ops : list (store_op model)) (t : tx) : list bool * tx :=
  match ops with
  | [] => ([], t)
  | op :: ops =>
      let '(r, t1) := run_op op t in
      let '(rs, t2) := run_ops ops t1 in (is_ok r :: rs, t2)
  end.
Inductive ops_trace (init : option model) : list (store_op model) -> list bool -> directory model -> directory model -> Prop :=
| trace_end d : ops_trace init [] [] d d
| trace_ok op ops oks d d' : ops_trace init ops oks (apply_op init op d) d' -> ops_trace init (op :: ops) (true :: oks) d d'
| trace_failed op ops oks d d1 d' :
    failed_op op d d1 -> ops_trace init ops oks d1 d' -> ops_trace init (op :: ops) (false :: oks) d d'.

(** The same as a function, where no manifest was refused. *)
Fixpoint apply_ops (init : option model) (ops : list (store_op model)) (oks : list bool) (d : directory model)
  : directory model :=
  match ops, oks with
  | op :: ops, ok :: oks => apply_ops init ops oks (if ok then apply_op init op d else d)
  | _, _ => d
  end.
Definition manifest_stored (op : store_op model) (ok : bool) : bool :=
  match op with OpSetManifest _ _ => ok | _ => true end.
Definition manifests_stored (ops : list (store_op model)) (oks : list bool) : bool :=
  forallb (fun e => manifest_stored e.1 e.2) (zip ops oks).

Lemma trace_apply init ops : forall oks d d',
  ops_trace init ops oks d d' -> manifests_stored ops oks = true -> d' = apply_ops init ops oks d.
Proof.
  induction ops as [|op ops IH]; intros oks d d'; inversion 1; subst; [done|..]; cbn [apply_ops].
  - intros [_ Hm]%andb_prop. by apply IH.
  - intros [Ho Hm]%andb_prop. match goal with H : failed_op _ _ _ |- _ => destruct H as [->|H] end; [by apply IH|].
    by destruct op.
Qed.

Context `{L : !TxLaws model T}.

Lemma union_None (m : option model) : union m None = m.
Proof. by destruct m. Qed.

Lemma run_op_repr op t d r t' : repr t d -> wf_op op -> run_op op t = (r, t') ->
  if is_ok r then repr t' (apply_op None op d) else exists d', failed_op op d d' /\ repr t' d'.
Proof.
  intros Hr Hw. assert (Hsame : forall t, repr t d -> exists d', failed_op op d d' /\ repr t d') by (intros t1 H1; exists d; split; [by left|done]).
  destruct op as [o|ty id|rel|i|md b|m|]; simpl in *.
  - intros [(a & s1 & H & [= <- <-])|(e & H & ->)]%bind_inv.
    + by apply (SetObject_ok t d) in H as [_ H].
    + apply (SetObject_err t d) in H; [by apply Hsame|done..].
  - destruct (DeleteObject_ok t d ty id Hr Hw) as [H1 H2].
    destruct (DeleteObject ty id t) as [r1 t1]. simpl in *. by intros [= <- <-]; subst.
  - intros [(a & s1 & H & [= <- <-])|(e & H & ->)]%bind_inv.
    + by apply (SetRelation_ok t d) in H as [_ H].
    + apply (SetRelation_err t d) in H; [by apply Hsame|done..].
  - destruct (DeleteRelation_ok t d i Hr Hw) as [H1 H2].
    destruct (DeleteRelation i t) as [r1 t1]. simpl in *. by intros [= <- <-]; subst.
  - intros H. rewrite union_None. destruct r as [[]|e]; simpl.
    + by apply (SetManifest_ok t d) in H.
    + apply (SetManifest_err t d) in H as [H|H]; [by apply Hsame| |done]. eexists. split; [by right|done].
  - intros H. destruct r as [[]|e]; simpl.
    + by apply (SetManifestModel_ok t d) in H.
    + apply (SetManifestModel_err t d) in H; [by apply Hsame|done..].
  - destruct (DeleteManifest_ok t d Hr) as [H1 H2].
    destruct (DeleteManifest t) as [r1 t1]. simpl in *. by intros [= <- <-]; subst.
Qed.

Lemma run_ops_trace ops : forall t d oks t',
  repr t d -> Forall wf_op ops -> run_ops ops t = (oks, t') -> exists d', ops_trace None ops oks d d' /\ repr t' d'.
Proof.
  induction ops as [|op ops IH]; simpl; intros t d oks t' Hr Hw Hrun.
  - injection Hrun as <- <-. exists d. by split; [constructor|].
  - apply Forall_cons in Hw as [Hop Hw]. destruct (run_op op t) as [r t1] eqn:E1.
    destruct (run_ops ops t1) as [rs t2] eqn:E2. injection Hrun as <- <-.
    apply (run_op_repr op t d) in E1; [|done..]. destruct (is_ok r).
    + destruct (IH _ _ _ _ E1 Hw E2) as (d' & Ht & Hr'). exists d'. by split; [constructor|].
    + destruct E1 as (d1 & Hf & Hr1). destruct (IH _ _ _ _ Hr1 Hw E2) as (d' & Ht & Hr'). exists d'.
      by split; [econstructor|].
Qed.
Lemma run_ops_repr ops t d oks t' :
  repr t d -> Forall wf_op ops -> manifests_stored ops oks = true -> run_ops ops t = (oks, t') ->
  repr t' (apply_ops None ops oks d).
Proof.
  intros Hr Hw Hm Hrun. destruct (run_ops_trace _ _ _ _ _ Hr Hw Hrun) as (d' & Ht & Hr').
  by rewrite <-(trace_apply _ _ _ _ _ Ht Hm).
Qed.
End Ops.

(** A read that returns what is there and fails otherwise. *)
Lemma read_exact {X} (r : res X) (v : option X) (P : err -> Prop) x :
  match v with Some y => r = Ok y | None => exists e, r = Fail e /\ P e end -> r = Ok x <-> v = Some x.
Proof. destruct v as [y|]; [intros ->|intros (e & -> & _)]; naive_solver. Qed.

Section Bolted.
Context {model : Type} `{B : Bolt} `{BL : !BoltLaws B} `{CO : Codecs model} `{CL : !CodecsLaws model CO}.

(** C2: After any sequence of store operations (objects, relations, manifest, model, and the deletion of all),
    some of which may have failed, on names without the separators of the keys, the BoltDB store holds exactly the
    directory that the successful ones leave, each in its turn (a manifest whose body is refused may leave its
    metadata, which the failed transaction rolls back): such an object or relation is found by its names exactly
    when that directory has it, the object-ordered and the subject-ordered index both list exactly its relations,
    and the metadata, the body and the model of the manifest are the ones it has. *)
Theorem store_refines ops (t : @tx model bolt_tx) d oks t' :
  repr t d -> Forall wf_op ops -> run_ops ops t = (oks, t') ->
  exists d', ops_trace None ops oks d d' /\ repr t' d' /\
  (forall ty id o, wf_type ty -> GetObject ty id t' = Ok o <-> d_objs d' !! (ty, id) = Some o) /\
  (forall i r, wf_ident i -> GetRelationExact i t' = Ok r <-> d_rels d' !! i = Some r) /\
  (forall dir, exists it, ScanRelations dir no_filter "" t' = Ok it /\
     forall v, v ∈ collect it <-> exists r, v = Some r /\ d_rels d' !! r_ident r = Some r) /\
  (forall md, GetManifestMetadata t' = Ok md <-> d_metadata d' = Some md) /\
  (forall b, GetManifestBody t' = Ok b <-> d_body d' = Some b) /\
  (forall m, GetManifestModel t' = Ok m <-> d_model d' = Some m).
Proof.
  intros Hr Hw Hrun. destruct (run_ops_trace _ _ _ _ _ Hr Hw Hrun) as (d' & Ht' & Hr'). exists d'. split; [done|].
  split; [done|]. split_and!.
  - by apply GetObject_exact.
  - by apply GetRelationExact_exact.
  - intros dir. destruct (ScanRelations_ok t' d' dir no_filter Hr')
      as (scan & l & Hs & (Hy & Hl & _) & _ & Hsub & Hsup).
    exists (scan ""). rewrite (collect_yields _ l) by done. split; [apply Hs; by left|].
    intros v. split; [apply Hsub|]. intros (r & -> & Hr2). apply (Hsup _ _ Hr2).
    unfold matches, field_matches. simpl. naive_solver.
  - intros md. eapply read_exact, GetManifestMetadata_ok, Hr'.
  - intros b. eapply read_exact, GetManifestBody_ok, Hr'.
  - intros m. eapply read_exact, GetManifestModel_ok, Hr'.
Qed.
End Bolted.

(** ** Keys *)

(** the two packages build the same keys, and on well-formed identifiers (no [':'] in a type,
    no ['|'] in an id or a relation name) a key determines the identifier, in either index. *)
Theorem keys_injective (r r' : RelationIdentifier) (dir : Direction) :
  wf_ident r -> wf_ident r' ->
  ds.relation_ObjKey r = bdb.objKeyOf r /\ ds.relation_SubKey r = bdb.subKeyOf r /\
  (bdb.key_of dir r = bdb.key_of dir r' <-> r = r').
Proof.
  intros Hr Hr'. split; [done|]. split; [done|]. split; [by apply key_of_inj|by intros ->].
Qed.

(** the scan prefix built from a filter lets every matching relation through, in either index,
    and a filter that names only one side lets through exactly the relations anchored there (so
    deleting the relations of [user:bob] never touches those of [user:bobby]). *)
Theorem filters_exact dir f (r : RelationIdentifier) ty id :
  wf_ident r -> bdb.isSet ty = true -> bdb.isSet id = true -> wf_type ty -> wf_part id ->
  (matches f r -> HasPrefix (bdb.key_of dir r) (bdb.filter_of dir f) = true) /\
  (HasPrefix (bdb.key_of dir r) (bdb.filter_of dir (ObjectOnlyFilter dir ty id)) = true <->
   anchor dir r = (ty, id)).
Proof.
  intros. split; [by apply filter_of_complete|by apply object_only_exact].
Qed.

(** The write patch followed by the read patch gives back the display name. *)
Theorem display_name_roundtrip o o' :
  ds.PatchObjectWrite o = Some o' -> o_display_name o <> "" ->
  o_display_name (ds.PatchObjectRead o') = o_display_name o.
Proof.
  unfold ds.PatchObjectWrite. intros H Hn.
  destruct (Nat.ltb_spec 0 (String.length (o_display_name o))).
  - destruct (o_properties o); [|done]. injection H as <-. unfold ds.PatchObjectRead. simpl.
    by rewrite lookup_insert_eq.
  - destruct (o_display_name o); [done|]. simpl in *. lia.
Qed.

Module BoltExamples.
Import Concrete.

Definition ops1 : list (store_op model) :=
  [OpSetManifest (MkMetadata None "1") (MkBody "model"); OpSetManifestModel (MkModel "" "" None); OpSetObject bob; OpSetRelation rel1;
   OpSetRelation rel2; OpDeleteRelation (r_ident rel2); OpDeleteObject "user" "nobody"].
Lemma store_refines_witness :
  exists d', ops_trace None ops1 (run_ops ops1 db).1 empty_dir d' /\ repr (run_ops ops1 db).2 d' /\
  GetRelationExact (r_ident rel1) (run_ops ops1 db).2 = Ok rel1 /\ d_rels d' !! r_ident rel1 = Some rel1.
Proof.
  destruct (store_refines ops1 db empty_dir (run_ops ops1 db).1 (run_ops ops1 db).2)
    as (d' & Ht & H & _ & Hg & _).
  - exact db_repr.
  - unfold ops1. rewrite !Forall_cons, Forall_nil. split_and!; try exact I; by vm_compute.
  - destruct (run_ops ops1 db). reflexivity.
  - assert (GetRelationExact (r_ident rel1) (run_ops ops1 db).2 = Ok rel1) as E by (vm_compute; reflexivity).
    assert (wf_ident (r_ident rel1)) as Hw by (clear; by vm_compute).
    exists d'. split; [exact Ht|]. split; [exact H|]. split; [exact E|]. exact (proj1 (Hg (r_ident rel1) rel1 Hw) E).
Defined.

Lemma keys_injective_witness :
  bdb.key_of BySubject (r_ident rel1) = bdb.key_of BySubject (r_ident rel2) <->
  r_ident rel1 = r_ident rel2.
Proof. apply (keys_injective (r_ident rel1) (r_ident rel2) BySubject); by vm_compute. Defined.

Lemma filters_exact_witness :
  HasPrefix (bdb.key_of BySubject (r_ident rel2))
    (bdb.filter_of BySubject (ObjectOnlyFilter BySubject "user" "bob")) = true <->
  ("user", "bobby") = ("user", "bob").
Proof.
  refine (proj2 (filters_exact BySubject no_filter (r_ident rel2) "user" "bob" _ _ _ _ _));
    by vm_compute.
Defined.
End BoltExamples.
