(* ===== verification/DsFacts.v ===== *)
(** * What the domain operations compute

    Theorems about [Ds.v] over any lawful store: the relation reader given to the graph walk returns
    exactly the matching relations, the existence test of a check decides whether both ends take part
    in a relation, and the statistics count what the store holds. *)
From S2P Require Import Prelude Bytes Messages Keys Store Bolt Bdb BdbTx Ds Service Instances.

(** ** Counting rows *)

Lemma wrap32_add z n : wrap32 (wrap32 z + n) = wrap32 (z + n).
Proof.
  unfold wrap32. f_equal.
  replace ((z + 2 ^ 31) mod 2 ^ 32 - 2 ^ 31 + n + 2 ^ 31)%Z
    with ((z + 2 ^ 31) mod 2 ^ 32 + n)%Z by lia.
  rewrite Zplus_mod_idemp_l. f_equal. lia.
Qed.

(** A counter bumped on the rows that satisfy [P] ends at their number, modulo 32 bits. *)
Lemma fold_count {S X : Type} (inc : S -> X -> S) (cnt : S -> Z) (P : X -> Prop)
    `{forall x, Decision (P x)} :
  (forall s x, cnt (inc s x) = if decide (P x) then AddInt32 (cnt s) 1 else cnt s) ->
  forall l s z, cnt s = wrap32 z ->
    cnt (fold_left inc l s) = wrap32 (z + Z.of_nat (length (filter P l))).
Proof.
  intros Hinc. induction l as [|x l IH]; intros s z Hz; simpl.
  - by rewrite Z.add_0_r.
  - rewrite filter_cons. specialize (Hinc s x). case_decide; simpl.
    + rewrite (IH _ (z + 1)%Z); [f_equal; lia|]. rewrite Hinc, Hz. apply wrap32_add.
    + apply IH. congruence.
Qed.

(** Rows that list the values of a map once are as many as the map's entries. *)
Lemma rows_size {K V} `{Countable K} (m : gmap K V) (key : V -> K) (l : list (option V))
    (P : K * V -> Prop) `{forall e, Decision (P e)} (Q : option V -> Prop)
    `{forall v, Decision (Q v)} :
  NoDup l -> (forall k v, m !! k = Some v -> key v = k) ->
  (forall v, v ∈ l <-> exists x, v = Some x /\ m !! key x = Some x) ->
  (forall k v, Q (Some v) <-> P (k, v)) ->
  length (filter Q l) = size (filter P m).
Proof.
  intros Hn Hk Hl HQ.
  assert (filter Q l ≡ₚ (fun e => Some e.2) <$> map_to_list (filter P m)) as ->.
  - apply NoDup_Permutation; [by apply NoDup_filter| |].
    + apply NoDup_fmap_2_strong; [|apply NoDup_map_to_list].
      intros [k v] [k' v'] E1%elem_of_map_to_list E2%elem_of_map_to_list [= ->].
      apply map_lookup_filter_Some in E1 as [E1 _], E2 as [E2 _].
      by rewrite <-(Hk _ _ E1), <-(Hk _ _ E2).
    + intros v. rewrite list_elem_of_filter, Hl, list_elem_of_fmap. split.
      * intros (HP & x & -> & Hx). exists (key x, x). split; [done|].
        apply elem_of_map_to_list, map_lookup_filter_Some. split; [done|]. by apply (HQ (key x)).
      * intros ([k x] & -> & [Hx HP]%elem_of_map_to_list%map_lookup_filter_Some). simpl in *.
        split; [by apply (HQ k)|]. exists x. split; [done|]. by rewrite (Hk _ _ Hx).
  - by rewrite length_fmap, length_map_to_list.
Qed.

Section Counters.

(** The counter of objects of a type, and of relations of a type and name. *)
Definition obj_count (ty : string) (s : Stats) : Z := ot_obj_count (default zero_OTStats (s !! ty)).
Definition rel_count (ty rel : string) (s : Stats) : Z :=
  re_count (default zero_RStats (Relations (default zero_OTStats (s !! ty)) !! rel)).

Lemma obj_count_incObject ty s x :
  obj_count ty (incObject s x) =
  if decide (o_type (default zero_Object x) = ty) then AddInt32 (obj_count ty s) 1
  else obj_count ty s.
Proof.
  unfold obj_count, incObject. case_decide as E.
  - subst. by rewrite lookup_insert_eq.
  - by rewrite lookup_insert_ne.
Qed.

Lemma rel_count_incObject ty rel s x : rel_count ty rel (incObject s x) = rel_count ty rel s.
Proof.
  unfold rel_count, incObject.
  destruct (decide (o_type (default zero_Object x) = ty)) as [->|E].
  - rewrite lookup_insert_eq. done.
  - by rewrite lookup_insert_ne.
Qed.

Lemma obj_count_incRelation ty s x : obj_count ty (incRelation s x) = obj_count ty s.
Proof.
  unfold obj_count, incRelation. destruct (decide (object_type (ident_of x) = ty)) as [->|E].
  - by rewrite lookup_insert_eq.
  - by rewrite lookup_insert_ne.
Qed.

Lemma rel_count_incRelation ty rel s x :
  rel_count ty rel (incRelation s x) =
  if decide (object_type (ident_of x) = ty /\ relation (ident_of x) = rel)
  then AddInt32 (rel_count ty rel s) 1 else rel_count ty rel s.
Proof.
  unfold rel_count, incRelation.
  destruct (decide (object_type (ident_of x) = ty)) as [<-|E].
  - rewrite lookup_insert_eq. simpl. destruct (decide (relation (ident_of x) = rel)) as [<-|E].
    + rewrite lookup_insert_eq. by rewrite decide_True by done.
    + rewrite lookup_insert_ne by done. by rewrite decide_False by naive_solver.
  - rewrite lookup_insert_ne by done. by rewrite decide_False by naive_solver.
Qed.

Lemma fold_keeps {S X : Type} (inc : S -> X -> S) (cnt : S -> Z) :
  (forall s x, cnt (inc s x) = cnt s) -> forall l s, cnt (fold_left inc l s) = cnt s.
Proof. intros H. induction l as [|x l IH]; intros s; simpl; [done|]. by rewrite IH, H. Qed.
End Counters.

Section Facts.
Context {model : Type} `{T : TxOps model} `{L : !TxLaws model T} `{A : Azm model}.

(** Every object, once. *)
Lemma scan_all_objects t d :
  repr t d -> exists it, ScanObjects "" "" t = Ok it /\ NoDup (collect it) /\
    forall v, v ∈ collect it <-> exists o, v = Some o /\ d_objs d !! (o_type o, o_id o) = Some o.
Proof.
  intros Hr. destruct (ScanObjects_ok t d "" Hr) as (scan & l & Hs & (Hy & Hl & _) & Hn & Hm); [done|].
  exists (scan ""). rewrite (collect_yields _ l) by done. split; [apply Hs; by left|].
  split; [done|]. intros v. rewrite Hm. naive_solver.
Qed.

(** Every relation, once. *)
Lemma scan_all_relations t d :
  repr t d -> exists it, ScanRelations ByObject no_filter "" t = Ok it /\ NoDup (collect it) /\
    forall v, v ∈ collect it <-> exists r, v = Some r /\ d_rels d !! r_ident r = Some r.
Proof.
  intros Hr. destruct (ScanRelations_ok t d ByObject no_filter Hr)
    as (scan & l & Hs & (Hy & Hl & _) & Hn & Hsub & Hsup).
  exists (scan ""). rewrite (collect_yields _ l) by done. split; [apply Hs; by left|].
  split; [done|]. intros v. split; [apply Hsub|]. intros (r & -> & Hr'). apply (Hsup _ _ Hr').
  unfold matches, field_matches. simpl. naive_solver.
Qed.

(** the statistics that guard a manifest change are exact: for every object type the counter of
    its objects, and for every type and relation name the counter of its relations, is the number
    of such entries in the store (as a signed 32-bit counter). *)
Theorem stats_exact t d :
  repr t d ->
  exists s, CalculateStats t = Ok s /\
    (forall ty, obj_count ty s =
       wrap32 (Z.of_nat (size (filter (fun e => o_type e.2 = ty) (d_objs d))))) /\
    (forall ty rel, rel_count ty rel s =
       wrap32 (Z.of_nat (size (filter (fun e => object_type (r_ident e.2) = ty /\
                                                relation (r_ident e.2) = rel) (d_rels d))))).
Proof.
  intros Hr. destruct (repr_wf t d Hr) as [Hwo Hwr].
  destruct (scan_all_objects t d Hr) as (io & Ho & Hno & Hmo).
  destruct (scan_all_relations t d Hr) as (ir & Hi & Hnr & Hmr).
  exists (fold_left incRelation (collect ir) (fold_left incObject (collect io) ∅)).
  unfold CalculateStats, CountObjects. rewrite Ho. simpl. unfold CountRelations. rewrite Hi.
  split; [done|]. split.
  - intros ty. rewrite (fold_keeps incRelation) by (intros; apply obj_count_incRelation).
    rewrite (fold_count incObject (obj_count ty) (fun x => o_type (default zero_Object x) = ty))
      with (z := 0%Z) by (done || apply obj_count_incObject).
    rewrite Z.add_0_l. do 2 f_equal. apply (rows_size (d_objs d) (fun o => (o_type o, o_id o)));
      [done| |done|done].
    intros [ty' id'] o Ho'. by destruct (Hwo _ _ _ Ho') as (_ & -> & ->).
  - intros ty rel.
    rewrite (fold_count incRelation (rel_count ty rel)
      (fun x => object_type (ident_of x) = ty /\ relation (ident_of x) = rel))
      with (z := 0%Z); [|apply rel_count_incRelation|].
    + rewrite Z.add_0_l. do 2 f_equal.
      apply (rows_size (d_rels d) r_ident); [done| |done|done].
      intros i r Hir. by destruct (Hwr _ _ Hir) as [_ ->].
    + by rewrite (fold_keeps incObject) by (intros; apply rel_count_incObject).
Qed.

Lemma getRelations_lists t d r out :
  repr t d ->
  exists l, getRelations t r out = Ok (out ++ l) /\ NoDup l /\
    forall i, i ∈ l <-> is_Some (d_rels d !! i) /\ matches (ds.RelationIdentifier_ r) i.
Proof.
  intros Hr. unfold getRelations, ds.Filter. destruct (ds.direction _ _) as [dir ok].
  destruct (ScanRelationsFiltered_ok t d dir (ds.asFilter (ds.RelationIdentifier_ r))
    (ds.identifierValueFilter (ds.RelationIdentifier_ r)) out Hr) as (l & Hl & Hn & Hsub & Hsup).
  exists l. split; [done|]. split; [done|]. intros i. unfold ds.identifierValueFilter in *. split.
  - intros [? Hv]%Hsub. split; [done|]. by apply valueFilter_matches in Hv.
  - intros [? Hm]. apply Hsup; [done|by destruct r|by apply valueFilter_matches].
Qed.

(** C4: the reader that the check and the graph walk use appends, in some order and once each,
    exactly the identifiers of the stored relations that match the populated fields of its partial
    identifier; what was collected before stays in front. *)
Theorem getRelations_exact t d r out :
  repr t d ->
  exists l, getRelations t r out = Ok (out ++ l) /\ NoDup l /\
    forall i, i ∈ l <-> is_Some (d_rels d !! i) /\ matches (ds.RelationIdentifier_ r) i.
Proof. apply getRelations_lists. Qed.

(** a check runs the graph walk exactly when its subject is the subject of some stored relation
    and its object is the object of some stored relation; otherwise it names the missing end. *)
Theorem check_ends_exist t d (i : CheckRequest) :
  repr t d ->
  bdb.isSet (c_object_type i) = true -> bdb.isSet (c_object_id i) = true ->
  bdb.isSet (c_subject_type i) = true -> bdb.isSet (c_subject_id i) = true ->
  wf_type (c_object_type i) -> wf_part (c_object_id i) ->
  wf_type (c_subject_type i) -> wf_part (c_subject_id i) ->
  RelationIdentifiersExist i t =
    if decide (anchored BySubject (c_subject_type i) (c_subject_id i) d = ∅) then
      Some (ErrObjectNotFound "subject" (c_subject_type i) (c_subject_id i))
    else if decide (anchored ByObject (c_object_type i) (c_object_id i) d = ∅) then
      Some (ErrObjectNotFound "object" (c_object_type i) (c_object_id i))
    else None.
Proof.
  intros Hr ????????. unfold RelationIdentifiersExist, relationIdentifierExist.
  rewrite !(RelationsExist_ok t d) by done.
  repeat case_decide; repeat case_bool_decide; done.
Qed.
End Facts.

Module DsExamples.
Import Concrete.

Lemma stats_exact_witness :
  (exists s, CalculateStats db1 = Ok s /\
    obj_count "user" s =
      wrap32 (Z.of_nat (size (filter (fun e => o_type e.2 = "user") (d_objs dir1))))) /\
  rmap (fun s => (obj_count "user" s, rel_count "doc" "viewer" s)) (CalculateStats db1) =
    Ok (1, 2)%Z.
Proof.
  split; [|by vm_compute].
  destruct (stats_exact db1 dir1 db1_repr) as (s & H & Ho & _).
  exists s. split; [exact H | exact (Ho "user")].
Defined.

Lemma getRelations_exact_witness :
  exists l, getRelations db1 (MkIdent "doc" "1" "" "user" "" "") [] = Ok l /\ r_ident rel1 ∈ l /\
    r_ident rel2 ∉ l.
Proof.
  destruct (getRelations_exact db1 dir1 (MkIdent "doc" "1" "" "user" "" "") [] db1_repr)
    as (l & H & _ & Hl).
  exists l. split; [exact H|]. rewrite !Hl. split.
  - split; [exists rel1; vm_compute; reflexivity|].
    refine (proj1 (valueFilter_matches (T := RelationIdentifier) _ _) _). reflexivity.
  - intros [_ (_ & [E|E] & _)]; discriminate.
Defined.

Definition check_bob : CheckRequest := MkCheck "doc" "1" "viewer" "user" "bo" false.
Lemma check_ends_exist_witness :
  RelationIdentifiersExist check_bob db1 = Some (ErrObjectNotFound "subject" "user" "bo").
Proof.
  rewrite (check_ends_exist db1 dir1 check_bob db1_repr) by (by vm_compute). by vm_compute.
Defined.
End DsExamples.
