(* ===== verification/Writer.v ===== *)
(** * The writer service

    [internal/eds/pkg/directory/v3/writer.go] against the storage interface, and its contract as a
    transition relation on abstract directories ([writer_step]). *)
From S2P Require Import Prelude Bytes Messages Keys Store Bolt Bdb BdbTx Ds Service Instances.

Inductive writer_call :=
| CallSetObject (req : option Object)
| CallDeleteObject (ty id : string) (with_relations : bool)
| CallSetRelation (req : option Relation)
| CallDeleteRelation (req : RelationIdentifier).

Inductive writer_reply := ReplyObject (o : Object) | ReplyRelation (r : Relation) | ReplyEmpty.

(** A call with its headers and the time it is served. *)
Abbreviation logged_call := (headers * Timestamp * writer_call)%type.

Section Writer.
Context {model : Type} `{T : TxOps model} `{A : Azm model} `{!StoreOps model} `{V : Validator}.

Definition ident_list (r : RelationIdentifier) : list string :=
  [object_type r; object_id r; relation r; subject_type r; subject_id r].

(** [mc] is the model cache, [h] the headers of the call, [ts] the clock. *)
Definition Writer_SetObject (mc : cache) (h : headers) (ts : Timestamp) (req : option Object)
  : M tx Object :=
  do! guard (validator_SetObjectRequest req);
  match req with
  | None => fail nil_pointer
  | Some obj =>
      do! guard (object_Validate mc obj);
      let etag := object_Hash obj in
      Update (
        let! updObj := reads (UpdateMetadataObject ts obj) in
        let ifMatchHeader := IfMatch h in
        if negb (String.eqb ifMatchHeader "") && negb (String.eqb (o_etag updObj) "")
           && negb (String.eqb ifMatchHeader (o_etag updObj)) then
          fail (ErrHashMismatch [o_type updObj; o_id updObj])
        else if String.eqb etag (o_etag updObj) then ret updObj
        else
          let updObj := set_o_etag updObj etag in
          SetObject updObj)
  end.

(** The optimistic concurrency check of the deletes, which compare even with a missing entry. *)
Definition ifMatch_object (h : headers) (ts : Timestamp) (objectType objectID : string) : M tx unit :=
  let ifMatchHeader := IfMatch h in
  if negb (String.eqb ifMatchHeader "") then
    let obj := MkObject objectType objectID "" None None None "" in
    let! updObj := reads (UpdateMetadataObject ts obj) in
    if negb (String.eqb ifMatchHeader (o_etag updObj)) then
      fail (ErrHashMismatch [o_type updObj; o_id updObj])
    else ret tt
  else ret tt.

Definition ifMatch_relation (h : headers) (ts : Timestamp) (rel : Relation) : M tx unit :=
  let ifMatchHeader := IfMatch h in
  if negb (String.eqb ifMatchHeader "") then
    let! updRel := reads (UpdateMetadataRelation ts rel) in
    if negb (String.eqb ifMatchHeader (r_etag updRel)) then
      fail (ErrHashMismatch (ident_list (r_ident rel)))
    else ret tt
  else ret tt.

Definition Writer_DeleteObject (mc : cache) (h : headers) (ts : Timestamp)
    (objectType objectID : string) (withRelations : bool) : M tx unit :=
  do! guard (validator_DeleteObjectRequest objectType objectID);
  do! guard (objectIdentifier_Validate mc objectType objectID);
  Update (
    do! ifMatch_object h ts objectType objectID;
    do! DeleteObject objectType objectID;
    if withRelations then
      do! deleteRelationsWithPrefix BySubject objectType objectID;
      do! deleteRelationsWithPrefix ByObject objectType objectID;
      ret tt
    else ret tt).

Definition Writer_SetRelation (mc : cache) (h : headers) (ts : Timestamp) (req : option Relation)
  : M tx Relation :=
  do! guard (validator_SetRelationRequest req);
  match req with
  | None => fail nil_pointer
  | Some rel =>
      do! guard (relation_Validate mc (r_ident rel));
      let etag := relation_Hash (r_ident rel) in
      Update (
        let! updRel := reads (UpdateMetadataRelation ts rel) in
        let ifMatchHeader := IfMatch h in
        if negb (String.eqb ifMatchHeader "") && negb (String.eqb (r_etag updRel) "")
           && negb (String.eqb ifMatchHeader (r_etag updRel)) then
          fail (ErrHashMismatch (ident_list (r_ident updRel)))
        else if String.eqb etag (r_etag updRel) then ret updRel
        else
          let updRel := set_r_etag updRel etag in
          SetRelation updRel)
  end.

Definition Writer_DeleteRelation (mc : cache) (h : headers) (ts : Timestamp)
    (req : RelationIdentifier) : M tx unit :=
  do! guard (validator_DeleteRelationRequest req);
  let rel := MkRelation req None None "" in
  do! guard (relation_Validate mc (r_ident rel));
  Update (
    do! ifMatch_relation h ts rel;
    do! DeleteRelation req;
    ret tt).

(** The service's dispatch. *)
Definition Writer_handle (mc : cache) (h : headers) (ts : Timestamp) (c : writer_call)
  : M tx writer_reply :=
  match c with
  | CallSetObject req => let! o := Writer_SetObject mc h ts req in ret (ReplyObject o)
  | CallDeleteObject ty id w => do! Writer_DeleteObject mc h ts ty id w; ret ReplyEmpty
  | CallSetRelation req => let! r := Writer_SetRelation mc h ts req in ret (ReplyRelation r)
  | CallDeleteRelation req => do! Writer_DeleteRelation mc h ts req; ret ReplyEmpty
  end.

(** ** The contract *)

(** The etag a write is compared with: the stored one (the caller's when none is recorded),
    empty for a new entry. *)
Definition object_etag (d : directory model) (o : Object) : string :=
  match d_objs d !! (o_type o, o_id o) with
  | None => ""
  | Some c => if String.eqb (o_etag c) "" then o_etag o else o_etag c
  end.
Definition relation_etag (d : directory model) (r : Relation) : string :=
  match d_rels d !! r_ident r with
  | None => ""
  | Some c => if String.eqb (r_etag c) "" then r_etag r else r_etag c
  end.

(** The entry as written: first creation time kept, update time now, etag of the contents. *)
Definition object_stamped (d : directory model) (ts : Timestamp) (o : Object) : Object :=
  set_o_etag
    (set_o_times o
       (match d_objs d !! (o_type o, o_id o) with Some c => o_created_at c | None => Some ts end)
       (Some ts)) (object_Hash o).
Definition relation_stamped (d : directory model) (ts : Timestamp) (r : Relation) : Relation :=
  set_r_etag
    (set_r_times r
       (match d_rels d !! r_ident r with Some c => r_created_at c | None => Some ts end)
       (Some ts)) (relation_Hash (r_ident r)).

(** An upsert may go ahead: no precondition, a new entry, or the etag the caller expects. *)
Definition if_match_ok (h : headers) (etag : string) : Prop :=
  IfMatch h = "" \/ etag = "" \/ IfMatch h = etag.

(** [d] without the relations anchored at [ty:id] on either side. *)
Definition drop_relations (ty id : string) (d : directory model) : directory model :=
  set_rels d (filter (fun e => anchor ByObject e.1 <> (ty, id) /\ anchor BySubject e.1 <> (ty, id))
                (d_rels d)).

Inductive writer_step (h : headers) (ts : Timestamp)
  : writer_call -> directory model -> writer_reply -> directory model -> Prop :=
| step_object_same d o :
    if_match_ok h (object_etag d o) -> object_etag d o = object_Hash o ->
    writer_step h ts (CallSetObject (Some o)) d (ReplyObject (object_stamped d ts o)) d
| step_object_write d o :
    if_match_ok h (object_etag d o) -> object_etag d o <> object_Hash o ->
    writer_step h ts (CallSetObject (Some o)) d (ReplyObject (object_stamped d ts o))
      (set_objs d (<[(o_type o, o_id o) := object_stamped d ts o]> (d_objs d)))
| step_relation_same d r :
    if_match_ok h (relation_etag d r) -> relation_etag d r = relation_Hash (r_ident r) ->
    writer_step h ts (CallSetRelation (Some r)) d (ReplyRelation (relation_stamped d ts r)) d
| step_relation_write d r :
    if_match_ok h (relation_etag d r) -> relation_etag d r <> relation_Hash (r_ident r) ->
    writer_step h ts (CallSetRelation (Some r)) d (ReplyRelation (relation_stamped d ts r))
      (set_rels d (<[r_ident r := relation_stamped d ts r]> (d_rels d)))
| step_delete_object d ty id (w : bool) :
    (IfMatch h <> "" -> exists o, d_objs d !! (ty, id) = Some o /\ o_etag o = IfMatch h) ->
    writer_step h ts (CallDeleteObject ty id w) d ReplyEmpty
      (let d' := set_objs d (delete (ty, id) (d_objs d)) in
       if w then drop_relations ty id d' else d')
| step_delete_relation d i :
    (IfMatch h <> "" -> exists r, d_rels d !! i = Some r /\ r_etag r = IfMatch h) ->
    writer_step h ts (CallDeleteRelation i) d ReplyEmpty (set_rels d (delete i (d_rels d))).

(** Requests whose identifiers keep the key separators apart; deleting with relations names a
    complete object. *)
Definition wf_call (c : writer_call) : Prop :=
  match c with
  | CallSetObject req => forall o, req = Some o -> wf_type (o_type o)
  | CallDeleteObject ty id w =>
      wf_type ty /\
      (w = true -> bdb.isSet ty = true /\ bdb.isSet id = true /\ wf_part id)
  | CallSetRelation req => forall r, req = Some r -> wf_ident (r_ident r)
  | CallDeleteRelation i => wf_ident i
  end.

(** ** [metadata.go] against the contract *)

(** A read of one entry gives what the directory has there. *)
Definition reads_as {X} (r : res X) (v : option X) : Prop :=
  match v with Some x => r = Ok x | None => exists e, r = Fail e /\ is_not_found e = true end.

Lemma UpdateMetadataObject_at t d ts o :
  reads_as (GetObject (o_type o) (o_id o) t) (d_objs d !! (o_type o, o_id o)) ->
  exists o', UpdateMetadataObject ts o t = Ok o' /\ o_etag o' = object_etag d o /\
    set_o_etag o' (object_Hash o) = object_stamped d ts o /\
    o_type o' = o_type o /\ o_id o' = o_id o.
Proof.
  intros Hr. unfold UpdateMetadataObject, object_etag, object_stamped, reads_as in *.
  destruct (d_objs d !! (o_type o, o_id o)) as [c|].
  - rewrite Hr. destruct (String.eqb_spec (o_etag c) ""); simpl; eexists; (split; [done|]); done.
  - destruct Hr as (e & -> & ->). eexists; (split; [done|]); done.
Qed.

Lemma UpdateMetadataRelation_at t d ts r :
  reads_as (GetRelationExact (r_ident r) t) (d_rels d !! r_ident r) ->
  exists r', UpdateMetadataRelation ts r t = Ok r' /\ r_etag r' = relation_etag d r /\
    set_r_etag r' (relation_Hash (r_ident r)) = relation_stamped d ts r /\
    r_ident r' = r_ident r.
Proof.
  intros Hr. unfold UpdateMetadataRelation, relation_etag, relation_stamped, reads_as in *.
  rewrite ident_eta. destruct (d_rels d !! r_ident r) as [c|].
  - rewrite Hr. destruct (String.eqb_spec (r_etag c) ""); simpl; eexists; (split; [done|]); done.
  - destruct Hr as (e & -> & ->). eexists; (split; [done|]); done.
Qed.

Context `{L : !TxLaws model T} `{AL : !AzmLaws model A}.

Lemma object_reads t d ty id : repr t d -> wf_type ty -> reads_as (GetObject ty id t) (d_objs d !! (ty, id)).
Proof.
  intros Hr Hw. unfold reads_as. destruct (d_objs d !! (ty, id)) as [c|] eqn:E.
  - by apply (GetObject_found t d).
  - by apply (GetObject_missing t d).
Qed.
Lemma relation_reads t d i : repr t d -> wf_ident i -> reads_as (GetRelationExact i t) (d_rels d !! i).
Proof.
  intros Hr Hw. unfold reads_as. destruct (d_rels d !! i) as [c|] eqn:E.
  - by apply (GetRelationExact_found t d).
  - by apply (GetRelationExact_missing t d).
Qed.

Lemma UpdateMetadataObject_repr t d ts o :
  repr t d -> wf_type (o_type o) ->
  exists o', UpdateMetadataObject ts o t = Ok o' /\ o_etag o' = object_etag d o /\
    set_o_etag o' (object_Hash o) = object_stamped d ts o /\
    o_type o' = o_type o /\ o_id o' = o_id o.
Proof. intros Hr Hw. by apply UpdateMetadataObject_at, object_reads. Qed.

Lemma UpdateMetadataRelation_repr t d ts r :
  repr t d -> wf_ident (r_ident r) ->
  exists r', UpdateMetadataRelation ts r t = Ok r' /\ r_etag r' = relation_etag d r /\
    set_r_etag r' (relation_Hash (r_ident r)) = relation_stamped d ts r /\
    r_ident r' = r_ident r.
Proof. intros Hr Hw. by apply UpdateMetadataRelation_at, relation_reads. Qed.

(** ** Each operation against the contract

    [refined r t t' step]: the call failed and changed nothing, or it made a step. *)
Definition refined {R} (r : res R) (t t' : tx) (step : R -> directory model -> Prop) : Prop :=
  match r with
  | Fail _ => t' = t
  | Ok a => exists d', repr t' d' /\ step a d'
  end.

Lemma if_match_false h etag :
  negb (String.eqb (IfMatch h) "") && negb (String.eqb etag "")
    && negb (String.eqb (IfMatch h) etag) = false <-> if_match_ok h etag.
Proof.
  unfold if_match_ok.
  destruct (String.eqb_spec (IfMatch h) ""), (String.eqb_spec etag ""),
    (String.eqb_spec (IfMatch h) etag); simpl; naive_solver.
Qed.

Lemma set_o_etag_id o : set_o_etag o (o_etag o) = o.
Proof. by destruct o. Qed.
Lemma set_r_etag_id r : set_r_etag r (r_etag r) = r.
Proof. by destruct r. Qed.

Lemma SetObject_refines mc h ts req t d r t' :
  repr t d -> wf_call (CallSetObject req) -> Writer_SetObject mc h ts req t = (r, t') ->
  refined r t t' (fun o d' => writer_step h ts (CallSetObject req) d (ReplyObject o) d').
Proof.
  intros Hr Hw. unfold Writer_SetObject.
  intros [[_ H]|(e & _ & -> & ->)]%guard_inv; [|done].
  destruct req as [o|]; [|by injection H as <- <-]. specialize (Hw o eq_refl).
  apply guard_inv in H as [[_ H]|(e & _ & -> & ->)]; [|done].
  destruct r as [o'|e]; [|by apply Update_err in H].
  apply Update_ok in H. unfold bind, reads in H.
  destruct (UpdateMetadataObject_repr t d ts o Hr Hw) as (u & Hu & He & Hs & Ht & Hi).
  rewrite Hu in H. revert H. case_match eqn:Hm; [done|].
  rewrite He in Hm. apply if_match_false in Hm.
  destruct (String.eqb_spec (object_Hash o) (o_etag u)) as [Heq|Hne]; intros H.
  - injection H as <- <-. exists d. split; [done|].
    rewrite <-(set_o_etag_id u), <-Heq, Hs. constructor; congruence.
  - apply (SetObject_ok t d) in H as [-> Hrep]; [|done|by simpl; rewrite Ht].
    eexists. split; [exact Hrep|]. simpl. rewrite Ht, Hi, Hs. constructor; congruence.
Qed.

Lemma SetRelation_refines mc h ts req t d r t' :
  repr t d -> wf_call (CallSetRelation req) -> Writer_SetRelation mc h ts req t = (r, t') ->
  refined r t t' (fun o d' => writer_step h ts (CallSetRelation req) d (ReplyRelation o) d').
Proof.
  intros Hr Hw. unfold Writer_SetRelation.
  intros [[_ H]|(e & _ & -> & ->)]%guard_inv; [|done].
  destruct req as [o|]; [|by injection H as <- <-]. specialize (Hw o eq_refl).
  apply guard_inv in H as [[_ H]|(e & _ & -> & ->)]; [|done].
  destruct r as [o'|e]; [|by apply Update_err in H].
  apply Update_ok in H. unfold bind, reads in H.
  destruct (UpdateMetadataRelation_repr t d ts o Hr Hw) as (u & Hu & He & Hs & Hi).
  rewrite Hu in H. revert H. case_match eqn:Hm; [done|].
  rewrite He in Hm. apply if_match_false in Hm.
  destruct (String.eqb_spec (relation_Hash (r_ident o)) (r_etag u)) as [Heq|Hne]; intros H.
  - injection H as <- <-. exists d. split; [done|].
    rewrite <-(set_r_etag_id u), <-Heq, Hs. constructor; congruence.
  - apply (SetRelation_ok t d) in H as [-> Hrep]; [|done|by simpl; rewrite Hi].
    eexists. split; [exact Hrep|]. simpl. rewrite Hi, Hs. constructor; congruence.
Qed.

(** Both directions of [delete with relations], one after the other. *)
Lemma delete_both_directions t d ty id :
  repr t d -> bdb.isSet ty = true -> bdb.isSet id = true -> wf_type ty -> wf_part id ->
  exists t1 t2, deleteRelationsWithPrefix BySubject ty id t = (Ok tt, t1) /\
    deleteRelationsWithPrefix ByObject ty id t1 = (Ok tt, t2) /\
    repr t2 (drop_relations ty id d).
Proof.
  intros Hr Ht Hi Hwt Hwi.
  destruct (deleteRelationsWithPrefix_exact t d BySubject ty id) as (t1 & H1 & Hr1); [done..|].
  destruct (deleteRelationsWithPrefix_exact t1 _ ByObject ty id Hr1) as (t2 & H2 & Hr2); [done..|].
  exists t1, t2. split; [done|]. split; [done|].
  refine (eq_ind _ (repr t2) Hr2 _ _). unfold drop_relations, set_rels. simpl. f_equal.
  rewrite map_filter_filter. apply map_filter_ext. simpl. naive_solver.
Qed.

(** The precondition of a delete: when there is an [If-Match], the entry has that etag. *)
Definition object_has_etag (h : headers) (ty id : string) (d : directory model) : Prop :=
  IfMatch h <> "" -> exists o, d_objs d !! (ty, id) = Some o /\ o_etag o = IfMatch h.
Definition relation_has_etag (h : headers) (i : RelationIdentifier) (d : directory model) : Prop :=
  IfMatch h <> "" -> exists r, d_rels d !! i = Some r /\ r_etag r = IfMatch h.

Lemma ifMatch_object_repr h ts ty id t d :
  repr t d -> wf_type ty ->
  (ifMatch_object h ts ty id t = (Ok tt, t) /\ object_has_etag h ty id d) \/
  (ifMatch_object h ts ty id t = (Fail (ErrHashMismatch [ty; id]), t) /\
   ~ object_has_etag h ty id d).
Proof.
  intros Hr Hw. unfold ifMatch_object, object_has_etag.
  destruct (String.eqb_spec (IfMatch h) "") as [Hz|Hz]; [left; done|].
  set (o := MkObject ty id "" None None None "").
  destruct (UpdateMetadataObject_repr t d ts o Hr Hw) as (u & Hu & He & _ & Ht & Hi).
  simpl. unfold bind, reads. rewrite Hu, Ht, Hi, He. unfold object_etag. simpl.
  destruct (d_objs d !! (ty, id)) as [c|] eqn:Hc; simpl.
  - assert ((if String.eqb (o_etag c) "" then "" else o_etag c) = o_etag c) as ->
      by (by destruct (String.eqb_spec (o_etag c) "")).
    destruct (String.eqb_spec (IfMatch h) (o_etag c)); [left|right]; naive_solver.
  - destruct (String.eqb_spec (IfMatch h) ""); [done|]. right. naive_solver.
Qed.

Lemma ifMatch_relation_repr h ts i t d :
  repr t d -> wf_ident i ->
  (ifMatch_relation h ts (MkRelation i None None "") t = (Ok tt, t) /\ relation_has_etag h i d) \/
  (ifMatch_relation h ts (MkRelation i None None "") t =
     (Fail (ErrHashMismatch (ident_list i)), t) /\ ~ relation_has_etag h i d).
Proof.
  intros Hr Hw. unfold ifMatch_relation, relation_has_etag.
  destruct (String.eqb_spec (IfMatch h) "") as [Hz|Hz]; [left; done|].
  set (o := MkRelation i None None "").
  destruct (UpdateMetadataRelation_repr t d ts o Hr Hw) as (u & Hu & He & _ & Hi).
  simpl. unfold bind, reads. rewrite Hu, He. unfold relation_etag. simpl.
  destruct (d_rels d !! i) as [c|] eqn:Hc; simpl.
  - assert ((if String.eqb (r_etag c) "" then "" else r_etag c) = r_etag c) as ->
      by (by destruct (String.eqb_spec (r_etag c) "")).
    destruct (String.eqb_spec (IfMatch h) (r_etag c)); [left|right]; naive_solver.
  - destruct (String.eqb_spec (IfMatch h) ""); [done|]. right. naive_solver.
Qed.

(** What runs inside the transaction of [DeleteObject] succeeds whenever the etag check does. *)
Lemma DeleteObject_body h ts ty id w t d :
  repr t d -> wf_call (CallDeleteObject ty id w) -> object_has_etag h ty id d ->
  exists t',
    (do! ifMatch_object h ts ty id;
     do! DeleteObject ty id;
     if w then
       do! deleteRelationsWithPrefix BySubject ty id;
       do! deleteRelationsWithPrefix ByObject ty id;
       ret tt
     else ret tt) t = (Ok tt, t') /\
    repr t' (let d' := set_objs d (delete (ty, id) (d_objs d)) in
             if w then drop_relations ty id d' else d').
Proof.
  intros Hr [Hwt Hwr] He.
  destruct (ifMatch_object_repr h ts ty id t d Hr Hwt) as [[Hm _]|[_ Hn]]; [|done].
  destruct (DeleteObject_ok t d ty id Hr Hwt) as [Hok Hrep].
  destruct (DeleteObject ty id t) as [r1 t1] eqn:Hd. simpl in Hok, Hrep. subst r1.
  rewrite (bind_ok _ _ _ _ _ Hm), (bind_ok _ _ _ _ _ Hd). destruct w; [|by eexists].
  destruct (Hwr eq_refl) as (Ht & Hi & Hwi).
  destruct (delete_both_directions t1 _ ty id Hrep) as (t2 & t3 & H2 & H3 & Hr3); [done..|].
  exists t3. by rewrite (bind_ok _ _ _ _ _ H2), (bind_ok _ _ _ _ _ H3).
Qed.

Lemma DeleteObject_refines mc h ts ty id w t d r t' :
  repr t d -> wf_call (CallDeleteObject ty id w) ->
  Writer_DeleteObject mc h ts ty id w t = (r, t') ->
  refined r t t' (fun _ d' => writer_step h ts (CallDeleteObject ty id w) d ReplyEmpty d').
Proof.
  intros Hr Hw. unfold Writer_DeleteObject.
  intros [[_ H]|(e & _ & -> & ->)]%guard_inv; [|done].
  apply guard_inv in H as [[_ H]|(e & _ & -> & ->)]; [|done].
  destruct r as [[]|e]; [|by apply Update_err in H]. apply Update_ok in H.
  destruct (ifMatch_object_repr h ts ty id t d Hr) as [[_ He]|[Hm _]]; [by destruct Hw|..].
  - destruct (DeleteObject_body h ts ty id w t d) as (t1 & H1 & Hr1); [done..|].
    rewrite H1 in H. injection H as <-. eexists. split; [exact Hr1|]. by constructor.
  - by rewrite (bind_fail _ _ _ _ _ Hm) in H.
Qed.

Lemma DeleteRelation_body h ts i t d :
  repr t d -> wf_ident i -> relation_has_etag h i d ->
  exists t',
    (do! ifMatch_relation h ts (MkRelation i None None ""); do! DeleteRelation i; ret tt) t
      = (Ok tt, t') /\
    repr t' (set_rels d (delete i (d_rels d))).
Proof.
  intros Hr Hw He.
  destruct (ifMatch_relation_repr h ts i t d Hr Hw) as [[Hm _]|[_ Hn]]; [|done].
  destruct (DeleteRelation_ok t d i Hr Hw) as [Hok Hrep].
  destruct (DeleteRelation i t) as [r1 t1] eqn:Hd. simpl in Hok, Hrep. subst r1.
  exists t1. by rewrite (bind_ok _ _ _ _ _ Hm), (bind_ok _ _ _ _ _ Hd).
Qed.

Lemma DeleteRelation_refines mc h ts i t d r t' :
  repr t d -> wf_ident i -> Writer_DeleteRelation mc h ts i t = (r, t') ->
  refined r t t' (fun _ d' => writer_step h ts (CallDeleteRelation i) d ReplyEmpty d').
Proof.
  intros Hr Hw. unfold Writer_DeleteRelation.
  intros [[_ H]|(e & _ & -> & ->)]%guard_inv; [|done].
  apply guard_inv in H as [[_ H]|(e & _ & -> & ->)]; [|done].
  destruct r as [[]|e]; [|by apply Update_err in H]. apply Update_ok in H.
  destruct (ifMatch_relation_repr h ts i t d Hr Hw) as [[_ He]|[Hm _]].
  - destruct (DeleteRelation_body h ts i t d) as (t1 & H1 & Hr1); [done..|].
    rewrite H1 in H. injection H as <-. eexists. split; [exact Hr1|]. by constructor.
  - by rewrite (bind_fail _ _ _ _ _ Hm) in H.
Qed.

Lemma handle_refines mc h ts c t d r t' :
  repr t d -> wf_call c -> Writer_handle mc h ts c t = (r, t') ->
  refined r t t' (fun a d' => writer_step h ts c d a d').
Proof.
  intros Hr Hw. destruct c as [req|ty id w|req|i]; simpl;
    intros [(a & s1 & Hm & Hk)|(e & Hm & ->)]%bind_inv; try injection Hk as <- <-.
  - exact (SetObject_refines _ _ _ _ _ _ _ _ Hr Hw Hm).
  - exact (SetObject_refines _ _ _ _ _ _ _ _ Hr Hw Hm).
  - exact (DeleteObject_refines _ _ _ _ _ _ _ _ _ _ Hr Hw Hm).
  - exact (DeleteObject_refines _ _ _ _ _ _ _ _ _ _ Hr Hw Hm).
  - exact (SetRelation_refines _ _ _ _ _ _ _ _ Hr Hw Hm).
  - exact (SetRelation_refines _ _ _ _ _ _ _ _ Hr Hw Hm).
  - exact (DeleteRelation_refines _ _ _ _ _ _ _ _ Hr Hw Hm).
  - exact (DeleteRelation_refines _ _ _ _ _ _ _ _ Hr Hw Hm).
Qed.

(** ** Sequences of calls *)

Fixpoint run_writer (mc : cache) (l : list logged_call) (t : tx) : list (res writer_reply) * tx :=
  match l with
  | [] => ([], t)
  | (h, ts, c) :: l =>
      let '(r, t1) := Writer_handle mc h ts c t in
      let '(rs, t2) := run_writer mc l t1 in (r :: rs, t2)
  end.

(** The calls one after the other on the abstract directory; a failed call changes nothing. *)
Inductive writer_trace
  : directory model -> list logged_call -> list (res writer_reply) -> directory model -> Prop :=
| trace_nil d : writer_trace d [] [] d
| trace_fail d h ts c e l rs d' :
    writer_trace d l rs d' -> writer_trace d ((h, ts, c) :: l) (Fail e :: rs) d'
| trace_step d h ts c a d1 l rs d' :
    writer_step h ts c d a d1 -> writer_trace d1 l rs d' ->
    writer_trace d ((h, ts, c) :: l) (Ok a :: rs) d'.

(** C3: Any sequence of writer calls, on names without the separators of the store's keys (and with both the type
    and the id set where an object is deleted with its relations), on a transaction that represents a directory
    behaves as the same sequence of abstract steps: each call either fails and leaves the directory as it was, or
    makes the step of its contract, and the store represents the resulting directory. *)
Theorem writer_refines mc l : forall t d rs t',
  repr t d -> Forall (fun c => wf_call c.2) l -> run_writer mc l t = (rs, t') ->
  exists d', repr t' d' /\ writer_trace d l rs d'.
Proof.
  induction l as [|[[h ts] c] l IH]; simpl; intros t d rs t' Hr Hw Hrun.
  - simplify_eq. exists d. by split; [|constructor].
  - apply Forall_cons in Hw as [Hc Hl].
    destruct (Writer_handle mc h ts c t) as [r t1] eqn:Hh.
    destruct (run_writer mc l t1) as [rs1 t2] eqn:Hl1. simplify_eq.
    pose proof (handle_refines _ _ _ _ _ _ _ _ Hr Hc Hh) as Href.
    destruct r as [a|e]; simpl in Href.
    + destruct Href as (d1 & Hr1 & Hstep).
      destruct (IH t1 d1 rs1 t' Hr1 Hl Hl1) as (d' & Hr' & Htr). exists d'. split; [done|].
      by econstructor.
    + subst t1. destruct (IH t d rs1 t' Hr Hl Hl1) as (d' & Hr' & Htr). exists d'. split; [done|].
      by constructor.
Qed.

(** optimistic concurrency: an upsert whose [If-Match] differs from the stored object's etag is
    refused with a hash mismatch, and the store is untouched. *)
Theorem set_object_conflict mc h ts o c t d :
  repr t d -> wf_type (o_type o) ->
  validator_SetObjectRequest (Some o) = None -> object_Validate mc o = None ->
  d_objs d !! (o_type o, o_id o) = Some c -> o_etag c <> "" ->
  IfMatch h <> "" -> IfMatch h <> o_etag c ->
  Writer_SetObject mc h ts (Some o) t = (Fail (ErrHashMismatch [o_type o; o_id o]), t).
Proof.
  intros Hr Hw Hv Hm Hc Hce Hh Hne. unfold Writer_SetObject.
  rewrite !guard_none by done. eapply Update_fail.
  destruct (UpdateMetadataObject_repr t d ts o Hr Hw) as (u & Hu & He & _ & Ht & Hi).
  unfold bind, reads. rewrite Hu, He, Ht, Hi. unfold object_etag. rewrite Hc.
  apply String.eqb_neq in Hce, Hh, Hne. by rewrite Hce, Hh, Hne, Hce.
Qed.

(** writing an object that is stored with the same contents is a no-op: the second of two
    identical upserts succeeds and leaves the transaction exactly as it found it. *)
Theorem set_object_idempotent mc h ts ts2 o t d r t1 :
  repr t d -> wf_type (o_type o) -> commit_err t1 = None ->
  Writer_SetObject mc h ts (Some o) t = (Ok r, t1) ->
  exists r2, Writer_SetObject mc (MkHeaders "" []) ts2 (Some o) t1 = (Ok r2, t1) /\
    o_etag r2 = object_Hash o /\ o_etag r = object_Hash o.
Proof.
  intros Hr Hw Hcommit Hrun.
  assert (validator_SetObjectRequest (Some o) = None /\ object_Validate mc o = None) as [Hv Hm].
  { revert Hrun. unfold Writer_SetObject. intros [[Hv H]|(e & ? & ? & ?)]%guard_inv; [|done].
    apply guard_inv in H as [[Hm _]|(e & ? & ? & ?)]; done. }
  pose proof (SetObject_refines mc h ts (Some o) t d (Ok r) t1 Hr) as Href. simpl in Href.
  destruct Href as (d1 & Hr1 & Hstep); [by intros ? [= <-]|done|].
  assert (object_etag d1 o = object_Hash o /\ o_etag r = object_Hash o) as [He Hre].
  { inversion Hstep; subst; (split; [|done]); [done|].
    unfold object_etag. simpl. rewrite lookup_insert. case_decide; [|done]. simpl.
    destruct (String.eqb_spec (object_Hash o) "") as [E|]; [by apply object_Hash_set in E|done]. }
  destruct (UpdateMetadataObject_repr t1 d1 ts2 o Hr1 Hw) as (u & Hu & Hue & _ & Ht & Hi).
  exists u. split; [|split; congruence]. unfold Writer_SetObject. rewrite !guard_none by done.
  unfold Update, bind, reads. rewrite Hu, Hue, He. simpl. rewrite String.eqb_refl. simpl.
  by rewrite Hcommit.
Qed.

(** deleting an object with its relations succeeds whenever the request is valid, the [If-Match]
    precondition holds and the commit does, and removes exactly the object and the relations that
    name it on either side: every other object and relation is kept. *)
Theorem delete_object_exact mc h ts ty id t d :
  repr t d -> wf_call (CallDeleteObject ty id true) ->
  validator_DeleteObjectRequest ty id = None -> objectIdentifier_Validate mc ty id = None ->
  object_has_etag h ty id d -> (forall t', commit_err t' = None) ->
  exists t' d', Writer_DeleteObject mc h ts ty id true t = (Ok tt, t') /\ repr t' d' /\
    d_objs d' = delete (ty, id) (d_objs d) /\
    forall i, d_rels d' !! i =
      if decide (anchor ByObject i = (ty, id) \/ anchor BySubject i = (ty, id)) then None
      else d_rels d !! i.
Proof.
  intros Hr Hw Hv Hm He Hcommit.
  destruct (DeleteObject_body h ts ty id true t d Hr Hw He) as (t' & Hrun & Hr').
  exists t', (drop_relations ty id (set_objs d (delete (ty, id) (d_objs d)))).
  split; [|split; [done|split; [done|]]].
  - unfold Writer_DeleteObject. rewrite !guard_none by done. unfold Update.
    rewrite Hrun. by rewrite Hcommit.
  - intros i. unfold drop_relations. simpl. rewrite map_lookup_filter. simpl.
    destruct (d_rels d !! i) as [r|] eqn:Hi; simpl; [|by case_decide].
    destruct (decide (anchor ByObject i = (ty, id))), (decide (anchor BySubject i = (ty, id)));
      case_decide; case_guard; naive_solver.
Qed.
End Writer.

(** ** On a concrete database *)

Module WriterExamples.
Import Concrete.

Definition calls : list logged_call :=
  [(no_headers, ts1, CallSetObject (Some bob)); (no_headers, ts1, CallSetObject (Some doc));
   (no_headers, ts1, CallSetRelation (Some rel1)); (no_headers, ts1, CallSetRelation (Some rel2));
   (MkHeaders "bogus" [], ts2, CallSetObject (Some bob));
   (no_headers, ts2, CallDeleteObject "user" "bob" true)].

Lemma writer_refines_witness :
  exists d', repr (run_writer mc0 calls db).2 d' /\
    writer_trace empty_dir calls (run_writer mc0 calls db).1 d'.
Proof.
  apply (writer_refines mc0 calls db empty_dir).
  - apply db_repr.
  - repeat constructor; vm_compute; naive_solver.
  - by destruct (run_writer mc0 calls db).
Defined.

Lemma set_object_conflict_witness :
  Writer_SetObject mc0 (MkHeaders "other" []) ts2 (Some bob) db1 =
  (Fail (ErrHashMismatch ["user"; "bob"]), db1).
Proof.
  exact (set_object_conflict mc0 (MkHeaders "other" []) ts2 bob bob1 db1 dir1 db1_repr
    ltac:(by vm_compute) ltac:(by vm_compute) ltac:(by vm_compute) ltac:(by vm_compute)
    ltac:(by vm_compute) ltac:(done) ltac:(done)).
Defined.

Lemma set_object_idempotent_witness :
  exists r2, Writer_SetObject mc0 no_headers ts2 (Some doc) (Writer_SetObject mc0 no_headers ts1 (Some doc) db1).2
    = (Ok r2, (Writer_SetObject mc0 no_headers ts1 (Some doc) db1).2) /\
    o_etag r2 = object_Hash doc.
Proof.
  destruct (Writer_SetObject mc0 no_headers ts1 (Some doc) db1) as [[r|e] t1] eqn:E.
  - destruct (set_object_idempotent mc0 no_headers ts1 ts2 doc db1 dir1 r t1 db1_repr) as (r2 & H & He & _);
      [by vm_compute | reflexivity | exact E | exists r2; split; [exact H | exact He]].
  - exfalso. apply (f_equal (fun x => is_ok x.1)) in E. vm_compute in E. discriminate.
Defined.

Lemma delete_object_exact_witness :
  exists t' d', Writer_DeleteObject mc0 no_headers ts2 "user" "bob" true db1 = (Ok tt, t') /\
    repr t' d' /\ d_objs d' = delete ("user", "bob") (d_objs dir1) /\
    d_rels d' !! r_ident rel1 = None /\ d_rels d' !! r_ident rel2 = Some rel2.
Proof.
  destruct (delete_object_exact mc0 no_headers ts2 "user" "bob" db1 dir1) as (t' & d' & H1 & H2 & H3 & H4);
    [apply db1_repr | by vm_compute | by vm_compute | by vm_compute | by intros [] | done |].
  exists t', d'. rewrite !H4. split_and!; first [done | by vm_compute].
Defined.
End WriterExamples.
