(* ===== verification/Reader.v ===== *)
(** * The reader service

    [internal/eds/pkg/directory/v3/reader.go] against the storage interface.  Every call runs in a
    [View]; a response header [x-http-code: 304] is the [not_modified] field. *)
From S2P Require Import Prelude Bytes Messages Keys Store Bolt Bdb BdbTx Ds Service Instances.

(** [x.MaxPageSize] *)
Definition MaxPageSize : Z := 100.

(** [bdb.ErrKeyNotFound], [bdb.ErrMultipleResults] *)
Definition ErrKeyNotFound : err := AErr "E20051" NotFound "key not found" [].
Definition ErrMultipleResults : err :=
  AErr "E20053" FailedPrecondition "multiple results for singleton request" [].

Record GetObjectResponse := MkGetObject {
  go_result : option Object; go_relations : list (option Relation); go_not_modified : bool }.
Record GetObjectsResponse := MkGetObjects {
  gos_results : list (option Object); gos_next_token : string }.
Record GetRelationResponse := MkGetRelation {
  gr_result : option Relation; gr_objects : gmap string Object; gr_not_modified : bool }.
Record GetRelationsResponse := MkGetRelations {
  grs_results : list (option Relation); grs_objects : gmap string Object; grs_next_token : string }.

Section Reader.
Context {model : Type} `{T : TxOps model} `{A : Azm model} `{V : Validator}.

Definition Reader_GetObject (mc : cache) (h : headers) (objectType objectID : string)
    (withRelations : bool) (t : tx) : res GetObjectResponse :=
  match validator_GetObjectRequest objectType objectID with
  | Some e => Fail e
  | None =>
  match objectIdentifier_Validate mc objectType objectID with
  | Some e => Fail e
  | None =>
      rbind (GetObject objectType objectID t) (fun obj =>
      if bool_decide (o_etag obj ∈ IfNoneMatch h) then Ok (MkGetObject None [] true)
      else if withRelations then
        rbind (relationsByObject BySubject (o_type obj) (o_id obj) t) (fun incoming =>
        rbind (relationsByObject ByObject (o_type obj) (o_id obj) t) (fun outgoing =>
        Ok (MkGetObject (Some (ds.PatchObjectRead obj)) (incoming ++ outgoing) false)))
      else Ok (MkGetObject (Some (ds.PatchObjectRead obj)) [] false))
  end end.

Fixpoint validate_all (mc : cache) (l : list (string * string)) : option err :=
  match l with
  | [] => None
  | (ty, id) :: l =>
      match objectIdentifier_Validate mc ty id with
      | Some e => Some e
      | None => validate_all mc l
      end
  end.

Fixpoint get_all (l : list (string * string)) (results : list Object) (t : tx)
  : res (list Object) :=
  match l with
  | [] => Ok results
  | (ty, id) :: l =>
      match GetObject ty id t with
      | Fail e => Fail e
      | Ok obj => get_all l (results ++ [ds.PatchObjectRead obj]) t
      end
  end.

Definition Reader_GetObjectMany (mc : cache) (param : list (string * string)) (t : tx)
  : res (list Object) :=
  match validator_GetObjectManyRequest param with
  | Some e => Fail e
  | None =>
  match validate_all mc param with
  | Some e => Fail e
  | None => get_all param [] t
  end end.

(** The page of a request: its size and token, [MaxPageSize] from the start when there is none. *)
Definition page_of (page : option (Z * string)) : Z * string := default (MaxPageSize, "") page.

Definition Reader_GetObjects (mc : cache) (reqType : string) (page : option (Z * string)) (t : tx)
  : res GetObjectsResponse :=
  match validator_GetObjectsRequest reqType page with
  | Some e => Fail e
  | None =>
      let '(size, token) := page_of page in
      match (if negb (String.eqb reqType "") then objectSelector_Validate mc reqType else None) with
      | Some e => Fail e
      | None =>
          let objectType := if negb (String.eqb reqType "") then reqType else "" in
          match ScanObjects objectType token t with
          | Fail e => Fail e
          | Ok iter =>
              let '(values, nextToken) := Page iter size in
              Ok (MkGetObjects (map (fmap ds.PatchObjectRead) values) nextToken)
          end
      end
  end.

(** [getWithObjects]: both ends of every relation, a stub standing in for an object that is not
    stored. *)
Definition object_or_stub (ty id : string) (t : tx) : Object :=
  match GetObject ty id t with
  | Ok o => o
  | Fail _ => MkObject ty id "" None None None ""
  end.
Definition getWithObjects (relations : list (option Relation)) (t : tx) : gmap string Object :=
  fold_left (fun objects r =>
    let rel := ident_of r in
    let sub := object_or_stub (subject_type rel) (subject_id rel) t in
    let objects := <[ds.object_StrKey sub := sub]> objects in
    let obj := object_or_stub (object_type rel) (object_id rel) t in
    <[ds.object_StrKey obj := obj]> objects) relations ∅.

Definition Reader_GetRelation (mc : cache) (h : headers) (req : RelationIdentifier)
    (withObjects : bool) (t : tx) : res GetRelationResponse :=
  match validator_GetRelationRequest req with
  | Some e => Fail e
  | None =>
  let getRelation := safe_GetRelation req in
  match relations_Validate mc getRelation with
  | Some e => Fail e
  | None =>
      rbind (ds.PathAndFilter IsComplete getRelation) (fun '(dir, filter) =>
      rbind (ScanRelations dir filter "" t) (fun iter =>
      match collect iter with
      | [] => Fail ErrKeyNotFound
      | [dbRel] =>
          let etag := match dbRel with Some r => r_etag r | None => "" end in
          if bool_decide (etag ∈ IfNoneMatch h) then Ok (MkGetRelation dbRel ∅ true)
          else
            Ok (MkGetRelation dbRel (if withObjects then getWithObjects [dbRel] t else ∅) false)
      | _ => Fail ErrMultipleResults
      end))
  end end.

(** The scan loop of [GetRelations]: collect the rows that pass the value filter, up to a page. *)
Fixpoint GetRelations_loop {St X} `{Iterator St X} (fuel : nat) (it : St) (valueFilter : X -> bool)
    (size : Z) (results : list X) : option (list X * string) :=
  match fuel with
  | O => None
  | S fuel =>
      let '(ok, it) := Next it in
      if ok then
        if negb (valueFilter (Value it)) then GetRelations_loop fuel it valueFilter size results
        else
          let results := results ++ [Value it] in
          if (size =? Z.of_nat (length results))%Z then
            let '(ok2, it) := Next it in
            Some (results, if ok2 then Token it else "")
          else GetRelations_loop fuel it valueFilter size results
      else Some (results, "")
  end.

Definition Reader_GetRelations (mc : cache) (req : RelationIdentifier) (withEmpty withObjects : bool)
    (page : option (Z * string)) (t : tx) : res GetRelationsResponse :=
  match validator_GetRelationsRequest req withEmpty page with
  | Some e => Fail e
  | None =>
  let '(size, token) := page_of page in
  let getRelations := safe_GetRelations req withEmpty in
  match relations_Validate mc getRelations with
  | Some e => Fail e
  | None =>
      let '(dir, filter, valueFilter) := ds.RelationValueFilter IsComplete getRelations in
      match ScanRelations dir filter token t with
      | Fail e => Fail e
      | Ok iter =>
          let '(results, next) :=
            default ([], "") (GetRelations_loop (S (rows iter)) iter valueFilter size []) in
          Ok (MkGetRelations results (if withObjects then getWithObjects results t else ∅) next)
      end
  end end.

(** [Check] never returns an error: a refusal carries its reason. *)
Definition Reader_Check (mc : cache) (req : CheckRequest) (t : tx) : CheckResponse :=
  match validator_CheckRequest req with
  | Some e => MkCheckResp false (SetContextWithReason e)
  | None =>
  match check_Validate mc req with
  | Some e =>
      match errors_Unwrap e with
      | Some e' => MkCheckResp false (SetContextWithReason e')
      | None => MkCheckResp false (SetContextWithReason e)
      end
  | None =>
      match check_Exec req mc t with
      | (resp, Some e) => MkCheckResp (check_ resp) (SetContextWithReason e)
      | (resp, None) => resp
      end
  end end.

Definition Reader_Checks (mc : cache) (req : ChecksRequest) (t : tx) : res (list CheckResponse) :=
  checks_Exec req mc t.

Definition CheckPermission : res unit :=
  Fail (XErr Unimplemented "check permission is obsolete, use check instead").
Definition CheckRelation : res unit :=
  Fail (XErr Unimplemented "check relation is obsolete, use check instead").

Definition Reader_GetGraph (mc : cache) (req : GetGraphRequest) (t : tx)
  : res (list (string * string)) :=
  match validator_GetGraphRequest req with
  | Some e => Fail e
  | None =>
  match getGraph_Validate mc req with
  | Some e => Fail e
  | None => getGraph_Exec req mc t
  end end.

(** ** The pages of a filtered scan *)

Section Loop.
Context {St X : Type} `{Iterator St X} (vf : X -> bool).
Let kept (l : list (string * X)) : list X := filter (fun x => vf x = true) l.*2.

Lemma GetRelations_loop_yields n l : forall fuel it results,
  yields it l -> length l < fuel -> length results < n ->
  exists k, GetRelations_loop fuel it vf (Z.of_nat n) results =
      Some (results ++ kept (take k l), next_token (drop k l)) /\ (0 < k \/ l = []).
Proof.
  induction l as [|[t v] l IH]; intros [|fuel] it results Hy Hf Hn; simpl in *; try lia;
    destruct (Next it) as [ok it1] eqn:E; simpl in *.
  - subst ok. exists 0. split; [by rewrite app_nil_r | by right].
  - destruct Hy as (-> & Hv & _ & Hy). rewrite Hv. destruct (vf v) eqn:Ev; simpl.
    + rewrite length_app. simpl.
      destruct (Z.eqb_spec (Z.of_nat n) (Z.of_nat (length results + 1))).
      * exists 1. split; [|left; lia]. simpl. unfold kept. simpl.
        rewrite filter_cons, decide_True by done. rewrite ?drop_0, ?take_0.
        destruct l as [|[t2 v2] l]; simpl in *; destruct (Next it1) as [ok2 it2]; simpl in *.
        -- by subst.
        -- by destruct Hy as (-> & _ & -> & _).
      * destruct (IH fuel it1 (results ++ [v])) as (k & Hk & _);
          [done|lia|rewrite length_app; simpl; lia|].
        exists (S k). rewrite Hk. split; [|left; lia]. simpl. unfold kept. simpl.
        rewrite filter_cons, decide_True by done. by rewrite <-app_assoc.
    + destruct (IH fuel it1 results) as (k & Hk & _); [done|lia|done|].
      exists (S k). rewrite Hk. split; [|left; lia]. simpl. unfold kept. simpl.
      rewrite filter_cons, decide_False by congruence. done.
Qed.

(** Without a positive size everything is one page. *)
Lemma GetRelations_loop_unbounded sz l : forall fuel it results,
  (sz <= 0)%Z -> yields it l -> length l < fuel ->
  GetRelations_loop fuel it vf sz results = Some (results ++ kept l, "").
Proof.
  induction l as [|[t v] l IH]; intros [|fuel] it results Hs Hy Hf; simpl in *; try lia;
    destruct (Next it) as [ok it1] eqn:E; simpl in *.
  - subst ok. unfold kept. by rewrite app_nil_r.
  - destruct Hy as (-> & Hv & _ & Hy). rewrite Hv. unfold kept. simpl. rewrite filter_cons.
    destruct (vf v) eqn:Ev; simpl.
    + rewrite length_app. simpl.
      destruct (Z.eqb_spec sz (Z.of_nat (length results + 1))); [lia|].
      rewrite IH by (done || lia). by rewrite <-app_assoc.
    + apply IH; (done || lia).
Qed.
End Loop.
End Reader.

Section ReaderFacts.
Context {model : Type} `{T : TxOps model} `{A : Azm model} `{V : Validator}.
Context `{L : !TxLaws model T} `{AL : !AzmLaws model A}.

(** ** Objects *)

(** [GetObject] returns the stored object, its display name taken from the properties, and with
    [with_relations] exactly the relations that name it on either side (those that name it on both
    sides twice); an object that is not stored is a not-found error; a matching [If-None-Match]
    suppresses the contents. *)
Theorem get_object_exact mc h ty id (w : bool) t d :
  repr t d -> wf_type ty -> bdb.isSet ty = true -> bdb.isSet id = true -> wf_part id ->
  validator_GetObjectRequest ty id = None -> objectIdentifier_Validate mc ty id = None ->
  match d_objs d !! (ty, id) with
  | None => exists e, Reader_GetObject mc h ty id w t = Fail e /\ is_not_found e = true
  | Some o =>
      exists resp, Reader_GetObject mc h ty id w t = Ok resp /\
      if bool_decide (o_etag o ∈ IfNoneMatch h) then resp = MkGetObject None [] true
      else go_result resp = Some (ds.PatchObjectRead o) /\ go_not_modified resp = false /\
        exists lin lout, go_relations resp = lin ++ lout /\ NoDup lin /\ NoDup lout /\
        (forall v, v ∈ lin <-> w = true /\ exists r, v = Some r /\ d_rels d !! r_ident r = Some r /\
                               anchor BySubject (r_ident r) = (ty, id)) /\
        (forall v, v ∈ lout <-> w = true /\ exists r, v = Some r /\ d_rels d !! r_ident r = Some r /\
                               anchor ByObject (r_ident r) = (ty, id))
  end.
Proof.
  intros Hr Hwt Hst Hsi Hwi Hv Hm. unfold Reader_GetObject. rewrite Hv, Hm.
  destruct (d_objs d !! (ty, id)) as [o|] eqn:Ho.
  - rewrite (GetObject_found t d ty id o) by done. simpl.
    destruct (repr_wf t d Hr) as [Hwo _]. destruct (Hwo _ _ _ Ho) as (_ & -> & ->).
    case_bool_decide; [by eexists|]. destruct w.
    + destruct (relationsByObject_exact t d BySubject ty id) as (l1 & -> & Hn1 & H1); [done..|].
      destruct (relationsByObject_exact t d ByObject ty id) as (l2 & -> & Hn2 & H2); [done..|].
      eexists. split; [done|]. split; [done|]. split; [done|]. exists l1, l2. naive_solver.
    + eexists. split; [done|]. split; [done|]. split; [done|]. exists [], [].
      split_and!; [done|by apply NoDup_nil|by apply NoDup_nil|..];
        intros v; rewrite elem_of_nil; naive_solver.
  - destruct (GetObject_missing t d ty id) as (e & -> & He); [done..|]. by exists e.
Qed.

(** A client that fetches all pages of [GetObjects] or [GetRelations]. *)
Definition objects_page (mc : cache) (ty : string) (n : Z) (t : tx) (token : string)
  : res (list (option Object) * string) :=
  rmap (fun r => (gos_results r, gos_next_token r)) (Reader_GetObjects mc ty (Some (n, token)) t).
Definition relations_page (mc : cache) (req : RelationIdentifier) (e : bool) (n : Z) (t : tx)
    (token : string) : res (list (option Relation) * string) :=
  rmap (fun r => (grs_results r, grs_next_token r))
    (Reader_GetRelations mc req e false (Some (n, token)) t).

Lemma objects_page_serves mc ty n t (scan : string -> obj_iter) l i token :
  0 < n -> (forall token, validator_GetObjectsRequest ty (Some (Z.of_nat n, token)) = None) ->
  (ty <> "" -> objectSelector_Validate mc ty = None) ->
  ScanObjects ty token t = Ok (scan token) ->
  yields (scan token) (drop i l) -> length (drop i l) <= rows (scan token) ->
  serves (fmap ds.PatchObjectRead) (fun _ => true) (objects_page mc ty (Z.of_nat n) t) l i token.
Proof.
  intros Hn Hv Hm Hs Hy Hl. exists n. split; [|by left].
  unfold objects_page, Reader_GetObjects. rewrite Hv. simpl.
  assert ((if negb (String.eqb ty "") then objectSelector_Validate mc ty else None) = None) as ->
    by (destruct (String.eqb_spec ty ""); naive_solver).
  assert ((if negb (String.eqb ty "") then ty else "") = ty) as ->
    by (by destruct (String.eqb_spec ty "")).
  rewrite Hs, (Page_yields _ (drop i l) n) by done. simpl. rewrite drop_drop.
  by rewrite filter_all.
Qed.

(** paging through [GetObjects] with any positive page size terminates and returns every stored
    object of the requested type (of every type when none is given) exactly once. *)
Theorem get_objects_pages mc ty n t d :
  repr t d -> wf_type ty -> 0 < n -> (forall token, validator_GetObjectsRequest ty (Some (Z.of_nat n, token)) = None) ->
  (ty <> "" -> objectSelector_Validate mc ty = None) ->
  exists fuel os, fetch_all (objects_page mc ty (Z.of_nat n) t) fuel "" =
      Ok ((fun o => Some (ds.PatchObjectRead o)) <$> os) /\ NoDup os /\
    forall o, o ∈ os <-> d_objs d !! (o_type o, o_id o) = Some o /\ (ty = "" \/ o_type o = ty).
Proof.
  intros Hr Hwt Hn Hv Hm.
  destruct (ScanObjects_ok t d ty Hr Hwt) as (scan & l & Hs & (Hy & Hl & Hres) & Hnd & Hrows).
  assert (forall i tok v, l !! i = Some (tok, v) -> tok ∈ l.*1) as Htok.
  { intros i tok v Hi. apply list_elem_of_fmap. exists (tok, v). split; [done|].
    by eapply list_elem_of_lookup_2. }
  destruct (list_somes l.*2) as [os Hos]; [intros v (o & -> & _)%Hrows; by eexists|].
  exists (S (length l)), os. split; [|split].
  - rewrite (fetch_all_complete (fmap ds.PatchObjectRead) (fun _ => true) _ l).
    + rewrite filter_all by done. rewrite Hos, <-list_fmap_compose. done.
    + eapply objects_page_serves; rewrite ?drop_0; eauto.
    + intros i tok v Hi. destruct (Hres i tok v Hi) as (Hne & Hy' & Hl'). split; [done|].
      eapply objects_page_serves; eauto.
  - rewrite Hos in Hnd. by apply NoDup_fmap_1 in Hnd.
  - intros o. specialize (Hrows (Some o)). rewrite Hos, list_elem_of_fmap in Hrows. naive_solver.
Qed.

(** ** Relations *)

Lemma relations_page_serves mc req e n t dir f vf (scan : string -> rel_iter) l i token :
  0 < n -> (forall token, validator_GetRelationsRequest req e (Some (Z.of_nat n, token)) = None) ->
  relations_Validate mc (safe_GetRelations req e) = None ->
  ds.RelationValueFilter IsComplete (safe_GetRelations req e) = (dir, f, vf) ->
  ScanRelations dir f token t = Ok (scan token) ->
  yields (scan token) (drop i l) -> length (drop i l) <= rows (scan token) ->
  serves id vf (relations_page mc req e (Z.of_nat n) t) l i token.
Proof.
  intros Hn Hv Hm Hf Hs Hy Hl.
  destruct (GetRelations_loop_yields vf n (drop i l) (S (rows (scan token))) (scan token) [])
    as (k & Hk & Hpos); [done|lia|done|].
  exists k. unfold relations_page, Reader_GetRelations. rewrite Hv, Hm.
  unfold page_of. cbn [default from_option id]. rewrite Hf, Hs, Hk. simpl. rewrite drop_drop, list_fmap_id. split; [done|].
  destruct Hpos as [?|Hnil]; [by left|]. right. apply (f_equal length) in Hnil.
  rewrite length_drop in Hnil. simpl in Hnil. lia.
Qed.

Lemma relations_pages mc req e n t d :
  repr t d -> 0 < n -> (forall token, validator_GetRelationsRequest req e (Some (Z.of_nat n, token)) = None) ->
  relations_Validate mc (safe_GetRelations req e) = None ->
  exists fuel rs, fetch_all (relations_page mc req e (Z.of_nat n) t) fuel "" = Ok (Some <$> rs) /\
    NoDup rs /\
    forall r, r ∈ rs <->
      d_rels d !! r_ident r = Some r /\ matches (safe_GetRelations req e) (r_ident r).
Proof.
  intros Hr Hn Hv Hm.
  destruct (ds.RelationValueFilter IsComplete (safe_GetRelations req e)) as [[dir f] vf] eqn:Hf.
  assert (f = ds.asFilter (safe_GetRelations req e) /\
          vf = ds.relationValueFilter (safe_GetRelations req e)) as [-> ->].
  { revert Hf. unfold ds.RelationValueFilter. destruct (ds.direction _ _). naive_solver. }
  set (s := safe_GetRelations req e) in *.
  destruct (ScanRelations_ok t d dir (ds.asFilter s) Hr)
    as (scan & l & Hs & (Hy & Hl & Hres) & Hnd & Hsub & Hsup).
  assert (forall i tok v, l !! i = Some (tok, v) -> tok ∈ l.*1) as Htok.
  { intros i tok v Hi. apply list_elem_of_fmap. exists (tok, v). split; [done|].
    by eapply list_elem_of_lookup_2. }
  destruct (list_somes (filter (fun x => ds.relationValueFilter s x = true) l.*2)) as [rs Hrs].
  { intros v [_ (r & -> & _)%Hsub]%list_elem_of_filter. by eexists. }
  exists (S (length l)), rs. split; [|split].
  - rewrite (fetch_all_complete id (ds.relationValueFilter s) _ l).
    + by rewrite list_fmap_id, Hrs.
    + eapply relations_page_serves; rewrite ?drop_0; eauto.
    + intros i tok v Hi. destruct (Hres i tok v Hi) as (Hne & Hy' & Hl'). split; [done|].
      eapply relations_page_serves; eauto.
  - apply (NoDup_filter (fun x => ds.relationValueFilter s x = true)) in Hnd.
    rewrite Hrs in Hnd. by apply NoDup_fmap_1 in Hnd.
  - intros r. assert (r ∈ rs <-> Some r ∈ Some <$> rs) as -> by (rewrite list_elem_of_fmap; naive_solver).
    rewrite <-Hrs, list_elem_of_filter. unfold ds.relationValueFilter at 1.
    rewrite (valueFilter_matches s (Some r)). simpl. split.
    + intros [Hma (r' & [= <-] & Hr')%Hsub]. done.
    + intros [Hr' Hma]. split; [done|]. eapply Hsup; [done|].
      unfold matches, ds.asFilter in *. simpl. done.
Qed.

(** C6: For a request that the model accepts and a positive page size with which the request's validator accepts it
    (at any page token), paging through [GetRelations] ends and returns exactly the stored relations that match the
    populated fields of the request, each once. *)
Theorem get_relations_pages mc req e n t d :
  repr t d -> 0 < n -> (forall token, validator_GetRelationsRequest req e (Some (Z.of_nat n, token)) = None) ->
  relations_Validate mc (safe_GetRelations req e) = None ->
  exists fuel rs, fetch_all (relations_page mc req e (Z.of_nat n) t) fuel "" = Ok (Some <$> rs) /\
    NoDup rs /\
    forall r, r ∈ rs <->
      d_rels d !! r_ident r = Some r /\ matches (safe_GetRelations req e) (r_ident r).
Proof. exact (relations_pages mc req e n t d). Qed.

(** [GetRelation] for a stored relation that matches the request (with one side given in full)
    never reports it missing: the reply is that relation, or the error that several rows share the
    request's key prefix. *)
Theorem get_relation_found mc h req (w : bool) t d r :
  repr t d -> validator_GetRelationRequest req = None ->
  relations_Validate mc (safe_GetRelation req) = None ->
  IsComplete (object_type req) (object_id req) || IsComplete (subject_type req) (subject_id req) = true ->
  d_rels d !! r_ident r = Some r -> matches (safe_GetRelation req) (r_ident r) ->
  (exists resp, Reader_GetRelation mc h req w t = Ok resp /\ gr_result resp = Some r) \/
  Reader_GetRelation mc h req w t = Fail ErrMultipleResults.
Proof.
  intros Hr Hv Hm Hc Hin Hma. unfold Reader_GetRelation. rewrite Hv, Hm.
  unfold ds.PathAndFilter, ds.direction. rewrite safe_GetRelation_ident.
  assert (exists dir, (if IsComplete (object_type req) (object_id req) then (ByObject, true)
    else if IsComplete (subject_type req) (subject_id req) then (BySubject, true)
    else (ByObject, false)) = (dir, true)) as [dir ->].
  { destruct (IsComplete (object_type req) (object_id req)); [by eexists|].
    simpl in Hc. rewrite Hc. by eexists. }
  destruct (ScanRelations_ok t d dir (ds.asFilter (safe_GetRelation req)) Hr)
    as (scan & l & Hs & (Hy & Hl & _) & _ & _ & Hsup).
  specialize (Hsup _ _ Hin). cbn [negb rbind]. rewrite (Hs "") by (by left). cbn [rbind].
  rewrite (collect_yields _ l) by done.
  assert (Some r ∈ l.*2) as Hrow by (by apply Hsup).
  destruct (l.*2) as [|v [|v' l']]; [by apply elem_of_nil in Hrow| |by right].
  apply list_elem_of_singleton in Hrow as <-. left.
  case_bool_decide; by eexists.
Qed.

(** ** Checks *)

(** C5: A check whose object and subject are given in full, by names that are set and without the separators of the
    store's keys, is never granted out of thin air: the request is valid, its subject is the subject and its object
    the object of some stored relation, and the model's own evaluation over the stored relations answered yes. *)
Theorem check_granted mc req t d :
  repr t d ->
  bdb.isSet (c_object_type req) = true -> bdb.isSet (c_object_id req) = true ->
  bdb.isSet (c_subject_type req) = true -> bdb.isSet (c_subject_id req) = true ->
  wf_type (c_object_type req) -> wf_part (c_object_id req) ->
  wf_type (c_subject_type req) -> wf_part (c_subject_id req) ->
  check_ (Reader_Check mc req t) = true ->
  validator_CheckRequest req = None /\ check_Validate mc req = None /\
  anchored BySubject (c_subject_type req) (c_subject_id req) d <> ∅ /\
  anchored ByObject (c_object_type req) (c_object_id req) d <> ∅ /\
  check_ (mc_Check mc req (getRelations t)).1 = true.
Proof.
  intros Hr ????????. unfold Reader_Check, check_Exec, RelationIdentifiersExist,
    relationIdentifierExist. rewrite !(RelationsExist_ok t d) by done.
  destruct (validator_CheckRequest req) eqn:?; [done|].
  destruct (check_Validate mc req) eqn:?; [by case_match|].
  repeat case_bool_decide; simpl; try done.
  destruct (mc_Check mc req (getRelations t)) as [resp [e|]]; simpl; done.
Qed.

(** ** [with_objects] *)

Lemma object_or_stub_repr t d ty id :
  repr t d -> wf_type ty ->
  object_or_stub ty id t = default (MkObject ty id "" None None None "") (d_objs d !! (ty, id)) /\
  ds.object_StrKey (object_or_stub ty id t) = bdb.objectKey ty id.
Proof.
  intros Hr Hw. unfold object_or_stub. destruct (repr_wf t d Hr) as [Hwo _].
  destruct (d_objs d !! (ty, id)) as [o|] eqn:E.
  - rewrite (GetObject_found t d ty id o) by done. split; [done|].
    destruct (Hwo _ _ _ E) as (_ & Ht & Hi). unfold ds.object_StrKey.
    by rewrite Ht, Hi, objectKey_eq.
  - destruct (GetObject_missing t d ty id) as (e & -> & _); [done..|]. split; [done|].
    by rewrite objectKey_eq.
Qed.

(** The object that a reply shows for [ty:id]: the stored one, or a stub with its identifier. *)
Definition shown (d : directory model) (k : string * string) : Object :=
  default (MkObject k.1 k.2 "" None None None "") (d_objs d !! k).

Definition ends (r : RelationIdentifier) : list (string * string) :=
  [(subject_type r, subject_id r); (object_type r, object_id r)].

(** Objects under their own key, for every end of the relations seen so far. *)
Definition shows (d : directory model) (seen : list (string * string)) (m : gmap string Object) : Prop :=
  (forall k, k ∈ seen -> wf_type k.1 -> m !! bdb.objectKey k.1 k.2 = Some (shown d k)) /\
  (forall s o, m !! s = Some o ->
     exists k, k ∈ seen /\ wf_type k.1 /\ s = bdb.objectKey k.1 k.2 /\ o = shown d k).

Lemma shows_insert t d seen m ty id :
  repr t d -> wf_type ty -> shows d seen m ->
  shows d (seen ++ [(ty, id)])
    (<[ds.object_StrKey (object_or_stub ty id t) := object_or_stub ty id t]> m).
Proof.
  intros Hr Hw [H1 H2]. destruct (object_or_stub_repr t d ty id Hr Hw) as [Ho ->]. rewrite Ho.
  change (default _ _) with (shown d (ty, id)). split.
  - intros [ty' id'] Hin Hw'. simpl in *.
    destruct (decide (bdb.objectKey ty id = bdb.objectKey ty' id')) as [E|E].
    + rewrite E, lookup_insert_eq. by apply objectKey_inj in E as [-> ->].
    + rewrite lookup_insert_ne by done. apply (H1 (ty', id')); [|done].
      apply elem_of_app in Hin as [?|[= -> ->]%list_elem_of_singleton]; done.
  - intros s o [[<- <-]|[Hne Hs]]%lookup_insert_Some.
    + exists (ty, id). split; [apply elem_of_app; right; by apply list_elem_of_singleton|done].
    + destruct (H2 s o Hs) as (k & Hk & ?). exists k. split; [apply elem_of_app; by left|done].
Qed.

Lemma getWithObjects_shows t d (l : list (option Relation)) :
  repr t d -> (forall r, r ∈ l -> wf_ident (ident_of r)) ->
  forall m seen, shows d seen m ->
  shows d (seen ++ (l ≫= fun r : option Relation => ends (ident_of r)))
    (fold_left (fun objects r =>
       let rel := ident_of r in
       let sub := object_or_stub (subject_type rel) (subject_id rel) t in
       let objects := <[ds.object_StrKey sub := sub]> objects in
       let obj := object_or_stub (object_type rel) (object_id rel) t in
       <[ds.object_StrKey obj := obj]> objects) l m).
Proof.
  intros Hr. induction l as [|r l IH]; intros Hw m seen Hm; [by rewrite app_nil_r|].
  destruct (Hw r) as (Hwo & _ & _ & Hws & _); [left|].
  cbn [fold_left]. pose proof (shows_insert t d _ _ (subject_type (ident_of r))
    (subject_id (ident_of r)) Hr Hws Hm) as H1.
  pose proof (shows_insert t d _ _ (object_type (ident_of r)) (object_id (ident_of r)) Hr Hwo H1) as H2.
  specialize (IH (fun x Hx => Hw x (list_elem_of_further _ _ _ Hx)) _ _ H2).
  refine (eq_ind _ (fun seen => shows d seen _) IH _ _). simpl. by rewrite <-!app_assoc.
Qed.

(** the object map of a reply holds, for both ends of every relation of the reply, the stored
    object (a stub when it is not stored) under the key [type:id], and nothing else. *)
Theorem with_objects_exact t d (rs : list (option Relation)) :
  repr t d -> (forall r, r ∈ rs -> wf_ident (ident_of r)) ->
  (forall r k, r ∈ rs -> k ∈ ends (ident_of r) ->
     getWithObjects rs t !! bdb.objectKey k.1 k.2 = Some (shown d k)) /\
  (forall s o, getWithObjects rs t !! s = Some o ->
     exists r k, r ∈ rs /\ k ∈ ends (ident_of r) /\ s = bdb.objectKey k.1 k.2 /\ o = shown d k).
Proof.
  intros Hr Hw. destruct (getWithObjects_shows t d rs Hr Hw ∅ []) as [H1 H2].
  { split; [by intros k ?%elem_of_nil|]. intros s o. by rewrite lookup_empty. }
  assert (forall k, k ∈ (rs ≫= fun r : option Relation => ends (ident_of r)) <->
            exists r, r ∈ rs /\ k ∈ ends (ident_of r)) as Hc.
  { intros k. rewrite list_elem_of_bind. naive_solver. }
  split.
  - intros r k Hin Hk. apply H1; [apply Hc; by exists r|].
    destruct (Hw r Hin) as (? & _ & _ & ? & _). unfold ends in Hk.
    rewrite !elem_of_cons in Hk. destruct Hk as [->|[->|?%elem_of_nil]]; done.
  - intros s o Hs. destruct (H2 s o Hs) as (k & Hk & _ & ? & ?).
    apply Hc in Hk as (r & ? & ?). by exists r, k.
Qed.
End ReaderFacts.

Module ReaderExamples.
Import Concrete.

Lemma get_object_exact_witness :
  exists resp, Reader_GetObject mc0 no_headers "user" "bob" true db1 = Ok resp /\
    go_result resp = Some bob1 /\ go_relations resp = [Some rel1].
Proof.
  pose proof (get_object_exact mc0 no_headers "user" "bob" true db1 dir1 db1_repr
    ltac:(reflexivity) ltac:(reflexivity) ltac:(reflexivity) ltac:(reflexivity) ltac:(reflexivity)
    ltac:(reflexivity)) as H.
  assert (d_objs dir1 !! ("user", "bob") = Some bob1) as E by (vm_compute; reflexivity).
  rewrite E in H. destruct H as (resp & Hrun & Hres & _). exists resp.
  split; [exact Hrun|]. split; [exact Hres|].
  assert (rmap go_relations (Reader_GetObject mc0 no_headers "user" "bob" true db1) =
    Ok [Some rel1]) as Hrel by (vm_compute; reflexivity).
  rewrite Hrun in Hrel. injection Hrel as ->. reflexivity.
Defined.

Lemma get_objects_pages_witness :
  exists fuel os, fetch_all (objects_page mc0 "" 1 db1) fuel "" =
      Ok ((fun o => Some (ds.PatchObjectRead o)) <$> os) /\ NoDup os /\
    forall o, o ∈ os <-> d_objs dir1 !! (o_type o, o_id o) = Some o /\ (True \/ o_type o = "").
Proof.
  destruct (get_objects_pages mc0 "" 1 db1 dir1 db1_repr) as (fuel & os & H1 & H2 & H3);
    [reflexivity | lia | reflexivity | done |].
  exists fuel, os. split; [exact H1|]. split; [exact H2|]. intros o. rewrite H3. naive_solver.
Defined.

Definition viewers : RelationIdentifier := MkIdent "" "" "viewer" "user" "bobby" "".
Lemma get_relations_pages_witness :
  exists fuel rs, fetch_all (relations_page mc0 viewers false 1 db1) fuel "" = Ok (Some <$> rs) /\
    NoDup rs /\ rel2 ∈ rs /\ rel1 ∉ rs.
Proof.
  destruct (get_relations_pages mc0 viewers false 1 db1 dir1 db1_repr) as (fuel & rs & H1 & H2 & H3);
    [lia | reflexivity | reflexivity |].
  exists fuel, rs. split; [exact H1|]. split; [exact H2|]. rewrite !H3. split.
  - split; [vm_compute; reflexivity|].
    refine (proj1 (valueFilter_matches (T := RelationIdentifier) _ _) _). reflexivity.
  - intros [_ (_ & _ & _ & _ & [E|E] & _)]; discriminate.
Defined.

Lemma get_relation_found_witness :
  exists resp, Reader_GetRelation mc0 no_headers (r_ident rel1) true db1 = Ok resp /\
    gr_result resp = Some rel1.
Proof.
  destruct (get_relation_found mc0 no_headers (r_ident rel1) true db1 dir1 rel1 db1_repr)
    as [H|H]; [reflexivity | reflexivity | reflexivity | vm_compute; reflexivity | | exact H |].
  - refine (proj1 (valueFilter_matches (T := RelationIdentifier) _ _) _). reflexivity.
  - apply (f_equal is_ok) in H. vm_compute in H. discriminate.
Defined.

Definition ask_bob : CheckRequest := MkCheck "doc" "1" "viewer" "user" "bob" false.
Lemma check_granted_witness :
  check_ (Reader_Check mc0 ask_bob db1) = true /\ anchored ByObject "doc" "1" dir1 <> ∅.
Proof.
  split; [vm_compute; reflexivity|].
  refine (proj1 (proj2 (proj2 (proj2 (check_granted mc0 ask_bob db1 dir1 db1_repr
    _ _ _ _ _ _ _ _ _))))); vm_compute; reflexivity.
Defined.

Lemma with_objects_exact_witness :
  getWithObjects [Some rel1] db1 !! "user:bob" = Some bob1 /\
  getWithObjects [Some rel1] db1 !! "doc:1" = Some doc.
Proof.
  destruct (with_objects_exact db1 dir1 [Some rel1] db1_repr) as [H _].
  { intros r ->%list_elem_of_singleton. vm_compute. auto. }
  split.
  - etransitivity; [apply (H (Some rel1) ("user", "bob")); vm_compute; set_solver|].
    vm_compute; reflexivity.
  - etransitivity; [apply (H (Some rel1) ("doc", "1")); vm_compute; set_solver|].
    vm_compute; reflexivity.
Defined.

(** [GetRelation] matches its last key component as a byte prefix, because the key of a relation
    has no terminator after the subject id and the rows are not filtered by value: asked for the
    relation of [user:bob] on [doc:2], a directory that only has one for [user:bobby] replies with
    that one. *)
Theorem get_relation_prefix :
  let asked := MkIdent "doc" "2" "viewer" "user" "bob" "" in
  d_rels dir1 !! asked = None /\
  rmap gr_result (Reader_GetRelation mc0 no_headers asked false db1) = Ok (Some rel2) /\
  subject_id (r_ident rel2) = "bobby".
Proof. vm_compute. auto. Qed.
End ReaderExamples.
