(* ===== verification/Importer.v ===== *)
(** * The importer service

    [internal/eds/pkg/directory/v3/importer.go]: a stream of set and delete requests applied in one
    batch transaction.  An error of a request is reported on the stream and the import goes on; the
    counters classify what was received. *)
From S2P Require Import Prelude Bytes Messages Keys Store Bolt Bdb BdbTx Ds Service Instances Writer.

Inductive Opcode := OPCODE_SET | OPCODE_DELETE | OPCODE_DELETE_WITH_RELATIONS | OPCODE_OTHER (n : Z).

Inductive ImportMsg :=
| ImportRequest_Object (o : option Object)
| ImportRequest_Relation (r : option Relation)
| ImportRequest_None.
Record ImportRequest := MkImport { OpCode : Opcode; Msg : ImportMsg }.

(** [dsi.ImportCounter]; the fields are 64-bit unsigned. *)
Record ImportCounter := MkCounter { Recv : Z; Set_ : Z; Delete_ : Z; Error_ : Z }.
Definition zero_counter : ImportCounter := MkCounter 0 0 0 0.
Definition inc64 (z : Z) : Z := ((z + 1) mod 2 ^ 64)%Z.

(** [counters]: the two entries of the map. *)
Record counters := MkCounters { ctr_object : ImportCounter; ctr_relation : ImportCounter }.

(** The responses; the request that a status echoes is left out. *)
Inductive ImportResponse :=
| RespCounter (is_object : bool) (c : ImportCounter)
| RespStatus (code : Z) (msg : string)
| RespFinal (object relation : ImportCounter).

(** What the loop meets next: the context is done, a request (with the clock at that moment), an
    error of [Recv] other than EOF.  The end of the list is EOF. *)
Inductive stream_event :=
| ContextDone
| Received (ts : Timestamp) (req : ImportRequest)
| RecvError (e : err).

(** What the call holds besides the transaction. *)
Record import_state := MkImportState {
  pending : list stream_event; sent : list ImportResponse; ctr : counters }.

Definition updateCounter (c : ImportCounter) (opCode : Opcode) (e : option err) : ImportCounter :=
  let c := MkCounter (inc64 (Recv c)) (Set_ c) (Delete_ c) (Error_ c) in
  match e, opCode with
  | Some _, _ => MkCounter (Recv c) (Set_ c) (Delete_ c) (inc64 (Error_ c))
  | None, OPCODE_SET => MkCounter (Recv c) (inc64 (Set_ c)) (Delete_ c) (Error_ c)
  | None, OPCODE_DELETE => MkCounter (Recv c) (Set_ c) (inc64 (Delete_ c)) (Error_ c)
  | None, OPCODE_DELETE_WITH_RELATIONS => MkCounter (Recv c) (Set_ c) (inc64 (Delete_ c)) (Error_ c)
  | None, OPCODE_OTHER _ => c
  end.

Definition err_of {A} (r : res A) : option err := match r with Ok _ => None | Fail e => Some e end.

Section Importer.
Context {model : Type} `{T : TxOps model} `{A : Azm model} `{!StoreOps model} `{V : Validator}.

(** [modelValidateError] puts the message field of the error into its text. *)
Definition modelValidateError (e : err) : err :=
  match e with
  | AErr i c text d =>
      match aerr_message e with
      | Some dataMsg =>
          if negb (String.eqb text "") then AErr i c (fmt_q dataMsg +:+ ": " +:+ text) d
          else AErr i c dataMsg d
      | None => e
      end
  | _ => e
  end.

Definition ErrInvalidObject (what : string) : err := DErr "ErrInvalidObject" [what].
Definition ErrInvalidRelation (what : string) : err := DErr "ErrInvalidRelation" [what].

(** The checks the four handlers open with. *)
Definition checkObject (mc : cache) (req : Object) : option err :=
  match validator_Object req with
  | Some e => Some e
  | None => modelValidateError <$> object_Validate mc req
  end.
Definition checkRelation (mc : cache) (req : Relation) : option err :=
  match validator_Relation req with
  | Some e => Some e
  | None => modelValidateError <$> relation_Validate mc (r_ident req)
  end.

Definition objectSetHandler (mc : cache) (ts : Timestamp) (req : option Object) : M tx unit :=
  match req with
  | None => fail (ErrInvalidObject "nil")
  | Some req =>
      do! guard (checkObject mc req);
      let etag := object_Hash req in
      let! updReq := reads (UpdateMetadataObject ts req) in
      if String.eqb etag (o_etag updReq) then ret tt
      else
        let updReq := set_o_etag updReq etag in
        or_error (SetObject updReq) (ErrInvalidObject "set")
  end.

Definition objectDeleteHandler (mc : cache) (req : option Object) : M tx unit :=
  match req with
  | None => fail (ErrInvalidObject "nil")
  | Some req =>
      do! guard (checkObject mc req);
      or_error (DeleteObject (o_type req) (o_id req)) (ErrInvalidObject "delete")
  end.

Definition objectDeleteWithRelationsHandler (mc : cache) (req : option Object) : M tx unit :=
  match req with
  | None => fail (ErrInvalidObject "nil")
  | Some req =>
      do! guard (checkObject mc req);
      do! or_error (DeleteObject (o_type req) (o_id req)) (ErrInvalidObject "delete");
      do! deleteRelationsWithPrefix BySubject (o_type req) (o_id req);
      do! deleteRelationsWithPrefix ByObject (o_type req) (o_id req);
      ret tt
  end.

Definition relationSetHandler (mc : cache) (ts : Timestamp) (req : option Relation) : M tx unit :=
  match req with
  | None => fail (ErrInvalidRelation "nil")
  | Some req =>
      do! guard (checkRelation mc req);
      let etag := relation_Hash (r_ident req) in
      let! updReq := reads (UpdateMetadataRelation ts req) in
      if String.eqb etag (r_etag updReq) then ret tt
      else
        let updReq := set_r_etag updReq etag in
        or_error (SetRelation updReq) (ErrInvalidRelation "set")
  end.

Definition relationDeleteHandler (mc : cache) (req : option Relation) : M tx unit :=
  match req with
  | None => fail (ErrInvalidRelation "nil")
  | Some req =>
      do! guard (checkRelation mc req);
      or_error (DeleteRelation (r_ident req)) (ErrInvalidRelation "delete")
  end.

(** The handler that a request selects; [None] when the request is refused before any handler. *)
Definition object_handler (mc : cache) (ts : Timestamp) (op : Opcode) (o : option Object)
  : option (M tx unit) :=
  match op with
  | OPCODE_SET => Some (objectSetHandler mc ts o)
  | OPCODE_DELETE => Some (objectDeleteHandler mc o)
  | OPCODE_DELETE_WITH_RELATIONS => Some (objectDeleteWithRelationsHandler mc o)
  | OPCODE_OTHER _ => None
  end.
Definition relation_handler (mc : cache) (ts : Timestamp) (op : Opcode) (r : option Relation)
  : option (M tx unit) :=
  match op with
  | OPCODE_SET => Some (relationSetHandler mc ts r)
  | OPCODE_DELETE => Some (relationDeleteHandler mc r)
  | OPCODE_DELETE_WITH_RELATIONS | OPCODE_OTHER _ => None
  end.

Definition ErrUnknownOpCode : err := DErr "ErrUnknownOpCode" [].
Definition ErrInvalidOpCode : err := DErr "ErrInvalidOpCode" [].
Definition ErrUnknownRequest : err := DErr "ErrUnknown" ["import request"].

Definition handleImportRequest (mc : cache) (ts : Timestamp) (req : ImportRequest)
  : M (counters * tx) unit := fun '(c, t) =>
  match Msg req with
  | ImportRequest_Object o =>
      match object_handler mc ts (OpCode req) o with
      | Some h =>
          let '(r, t') := h t in
          (r, (MkCounters (updateCounter (ctr_object c) (OpCode req) (err_of r)) (ctr_relation c), t'))
      | None => (Fail ErrUnknownOpCode, (c, t))
      end
  | ImportRequest_Relation r =>
      match relation_handler mc ts (OpCode req) r with
      | Some h =>
          let '(r, t') := h t in
          (r, (MkCounters (ctr_object c) (updateCounter (ctr_relation c) (OpCode req) (err_of r)), t'))
      | None =>
          (Fail (match OpCode req with
                 | OPCODE_DELETE_WITH_RELATIONS => ErrInvalidOpCode
                 | _ => ErrUnknownOpCode
                 end), (c, t))
      end
  | ImportRequest_None => (Fail ErrUnknownRequest, (c, t))
  end.

(** [send_err n]: the outcome of the [n]-th [stream.Send] of the call. *)
Context (send_err : nat -> option err).

Definition Send (m : ImportResponse) (w : import_state) : option err * import_state :=
  (send_err (length (sent w)), MkImportState (pending w) (sent w ++ [m]) (ctr w)).

(** At EOF: the counters (in the order of the map iteration), then the final response. *)
Definition import_eof (object_first : bool) (w : import_state) : res unit * import_state :=
  let co := RespCounter true (ctr_object (ctr w)) in
  let cr := RespCounter false (ctr_relation (ctr w)) in
  let '(_, w) := Send (if object_first then co else cr) w in
  let '(_, w) := Send (if object_first then cr else co) w in
  let '(e, w) := Send (RespFinal (ctr_object (ctr w)) (ctr_relation (ctr w))) w in
  (match e with None => Ok tt | Some e => Fail e end, w).

Fixpoint import_loop (mc : cache) (object_first : bool) (evs : list stream_event)
  : M (import_state * tx) unit := fun '(w, t) =>
  match evs with
  | [] =>
      let '(r, w) := import_eof object_first (MkImportState [] (sent w) (ctr w)) in (r, (w, t))
  | ContextDone :: _ => (Ok tt, (MkImportState evs (sent w) (ctr w), t))
  | RecvError _ :: evs => import_loop mc object_first evs (w, t)
  | Received ts req :: evs =>
      let '(r, (c, t)) := handleImportRequest mc ts req (ctr w, t) in
      let w := MkImportState evs (sent w) c in
      match r with
      | Ok _ => import_loop mc object_first evs (w, t)
      | Fail e =>
          match status_FromError e with
          | Some (code, msg) =>
              let '(_, w) := Send (RespStatus code msg) w in
              import_loop mc object_first evs (w, t)
          | None => import_loop mc object_first evs (w, t)
          end
      end
  end.

Definition Import (mc : cache) (object_first : bool) (stream : list stream_event)
  : M tx import_state := fun t =>
  let w0 := MkImportState stream [] (MkCounters zero_counter zero_counter) in
  let '(r, (w, t')) :=
    Batch (fun '(w, t) => import_loop mc object_first (pending w) (w, t)) (w0, t) in
  (match r with Ok _ => Ok w | Fail e => Fail e end, t').

(** ** The contract *)

(** The writer call that a request stands for. *)
Definition call_of (req : ImportRequest) : option writer_call :=
  match Msg req, OpCode req with
  | ImportRequest_Object o, OPCODE_SET => Some (CallSetObject o)
  | ImportRequest_Object o, OPCODE_DELETE =>
      let o := default zero_Object o in Some (CallDeleteObject (o_type o) (o_id o) false)
  | ImportRequest_Object o, OPCODE_DELETE_WITH_RELATIONS =>
      let o := default zero_Object o in Some (CallDeleteObject (o_type o) (o_id o) true)
  | ImportRequest_Relation r, OPCODE_SET => Some (CallSetRelation r)
  | ImportRequest_Relation r, OPCODE_DELETE => Some (CallDeleteRelation (ident_of r))
  | _, _ => None
  end.

(** A request that carries a message. *)
Definition wf_request (req : ImportRequest) : Prop := forall c, call_of req = Some c -> wf_call c.
Definition wf_event (ev : stream_event) : Prop :=
  match ev with Received _ req => wf_request req | _ => True end.

Definition unconditional : headers := MkHeaders "" [].

(** The counters after a request with this outcome. *)
Definition counted (c : counters) (req : ImportRequest) (e : option err) : counters :=
  match Msg req with
  | ImportRequest_Object _ => MkCounters (updateCounter (ctr_object c) (OpCode req) e) (ctr_relation c)
  | ImportRequest_Relation _ => MkCounters (ctr_object c) (updateCounter (ctr_relation c) (OpCode req) e)
  | ImportRequest_None => c
  end.

(** An import on abstract directories: the requests up to EOF or cancellation, in order; one that
    is counted as a success makes the step of the writer call it stands for, one that is counted as
    an error and one that is not counted leave the directory as it was. *)
Inductive import_trace
  : counters -> directory model -> list stream_event -> counters -> directory model -> Prop :=
| import_end c d : import_trace c d [] c d
| import_done c d evs : import_trace c d (ContextDone :: evs) c d
| import_recv c d e evs c' d' :
    import_trace c d evs c' d' -> import_trace c d (RecvError e :: evs) c' d'
| import_unknown c d ts req evs c' d' :
    call_of req = None -> import_trace c d evs c' d' ->
    import_trace c d (Received ts req :: evs) c' d'
| import_error c d ts req e evs c' d' :
    is_Some (call_of req) -> import_trace (counted c req (Some e)) d evs c' d' ->
    import_trace c d (Received ts req :: evs) c' d'
| import_applied c d ts req call reply d1 evs c' d' :
    call_of req = Some call -> writer_step unconditional ts call d reply d1 ->
    import_trace (counted c req None) d1 evs c' d' ->
    import_trace c d (Received ts req :: evs) c' d'.

(** ** What an import needs of a store

    [R t d]: the transaction [t] stands for the directory [d]. *)
Section Destination.
Context (R : tx -> directory model -> Prop).

(** The outcome of a handler: a step, or an error and the same directory. *)
Definition applied (ts : Timestamp) (call : writer_call) (d : directory model) (r : res unit) (t' : tx)
  : Prop :=
  match r with
  | Ok _ => exists reply d', R t' d' /\ writer_step unconditional ts call d reply d'
  | Fail _ => R t' d
  end.

Lemma no_if_match etag : if_match_ok unconditional etag.
Proof. by left. Qed.

(** The two handlers that set an entry, from what the store does with its key. *)
Lemma objectSetHandler_applied mc ts o t d r t' :
  R t d ->
  (forall req, o = Some req ->
     reads_as (GetObject (o_type req) (o_id req) t) (d_objs d !! (o_type req, o_id req)) /\
     forall u r t', o_type u = o_type req -> o_id u = o_id req -> o_etag u = object_Hash req ->
       SetObject u t = (r, t') ->
       if is_ok r then R t' (set_objs d (<[(o_type u, o_id u) := u]> (d_objs d))) else R t' d) ->
  objectSetHandler mc ts o t = (r, t') -> applied ts (CallSetObject o) d r t'.
Proof.
  intros Hr Ho. unfold objectSetHandler. destruct o as [o|]; [|by intros [= <- <-]].
  destruct (Ho o eq_refl) as [Hread Hset]. intros [[_ H]|(e & _ & -> & ->)]%guard_inv; [|done].
  destruct (UpdateMetadataObject_at t d ts o Hread) as (u & Hu & He & Hs & Ht & Hi).
  unfold bind, reads in H. rewrite Hu in H. revert H.
  destruct (String.eqb_spec (object_Hash o) (o_etag u)) as [Heq|Hne].
  - intros [= <- <-]. eexists _, d. split; [done|]. constructor; [apply no_if_match|congruence].
  - intros [(b & H & ->)|(e & H & ->)]%or_error_inv; apply Hset in H; try done.
    eexists _, _. split; [exact H|]. simpl. rewrite Ht, Hi, Hs.
    constructor; [apply no_if_match|congruence].
Qed.

Lemma relationSetHandler_applied mc ts o t d r t' :
  R t d ->
  (forall req, o = Some req ->
     reads_as (GetRelationExact (r_ident req) t) (d_rels d !! r_ident req) /\
     forall u r t', r_ident u = r_ident req -> r_etag u = relation_Hash (r_ident req) ->
       SetRelation u t = (r, t') ->
       if is_ok r then R t' (set_rels d (<[r_ident u := u]> (d_rels d))) else R t' d) ->
  relationSetHandler mc ts o t = (r, t') -> applied ts (CallSetRelation o) d r t'.
Proof.
  intros Hr Ho. unfold relationSetHandler. destruct o as [o|]; [|by intros [= <- <-]].
  destruct (Ho o eq_refl) as [Hread Hset]. intros [[_ H]|(e & _ & -> & ->)]%guard_inv; [|done].
  destruct (UpdateMetadataRelation_at t d ts o Hread) as (u & Hu & He & Hs & Hi).
  unfold bind, reads in H. rewrite Hu in H. revert H.
  destruct (String.eqb_spec (relation_Hash (r_ident o)) (r_etag u)) as [Heq|Hne].
  - intros [= <- <-]. eexists _, d. split; [done|]. constructor; [apply no_if_match|congruence].
  - intros [(b & H & ->)|(e & H & ->)]%or_error_inv; apply Hset in H; try done.
    eexists _, _. split; [exact H|]. simpl. rewrite Hi, Hs.
    constructor; [apply no_if_match|congruence].
Qed.

(** A store that requests of the kind [W] can be imported into: one is refused before a handler, or handled and
    counted; and its manifest and model can be set. *)
Class Destination (W : ImportRequest -> Prop) : Prop := {
  dest_handles mc ts req c t d r c' t' :
    R t d -> W req -> handleImportRequest mc ts req (c, t) = (r, (c', t')) ->
    match call_of req with
    | None => (exists e, r = Fail e) /\ c' = c /\ t' = t
    | Some call => applied ts call d r t' /\ c' = counted c req (err_of r)
    end;
  dest_SetManifest t d md b t' :
    R t d -> SetManifest md b t = (Ok tt, t') ->
    exists m, R t' (MkDir (d_objs d) (d_rels d) (Some md) (Some b) m);
  dest_SetManifestModel t d m t' :
    R t d -> SetManifestModel m t = (Ok tt, t') -> R t' (set_model d (Some m)) }.

Context (W : ImportRequest -> Prop) {D : Destination W}.
Definition event_of_kind (ev : stream_event) : Prop := match ev with Received _ req => W req | _ => True end.

Lemma import_loop_into mc b evs : forall w t d r w' t',
  R t d -> Forall event_of_kind evs -> import_loop mc b evs (w, t) = (r, (w', t')) ->
  exists d', R t' d' /\ import_trace (ctr w) d evs (ctr w') d'.
Proof.
  induction evs as [|ev evs IH]; intros w t d r w' t' Hr Hw.
  - simpl. destruct w. simpl. intros [= <- <- <-]. exists d. split; [done|]. simpl. constructor.
  - apply Forall_cons in Hw as [He Hw]. destruct ev as [|ts req|e]; cbn [import_loop].
    + intros [= <- <- <-]. exists d. split; [done|constructor].
    + destruct (handleImportRequest mc ts req (ctr w, t)) as [r1 [c1 t1]] eqn:Hh.
      pose proof (dest_handles _ _ _ _ _ _ _ _ _ Hr He Hh) as Ha. intros Hrun.
      assert (forall d1, R t1 d1 -> exists d', R t' d' /\ import_trace c1 d1 evs (ctr w') d')
        as Hrest.
      { intros d1 Hr1. destruct r1; [by apply (IH _ _ _ _ _ _ Hr1 Hw) in Hrun|].
        destruct (status_FromError e) as [[code msg]|]; by apply (IH _ _ _ _ _ _ Hr1 Hw) in Hrun. }
      destruct (call_of req) as [call|] eqn:Hc.
      * destruct Ha as [Ha ->]. destruct r1 as [[]|e]; simpl in Ha.
        -- destruct Ha as (reply & d1 & Hr1 & Hs). destruct (Hrest d1 Hr1) as (d' & ? & ?).
           exists d'. split; [done|]. by eapply import_applied.
        -- destruct (Hrest d Ha) as (d' & ? & ?). exists d'. split; [done|].
           by eapply import_error.
      * destruct Ha as (_ & -> & ->). destruct (Hrest d Hr) as (d' & ? & ?). exists d'.
        split; [done|]. by eapply import_unknown.
    + intros Hrun. apply (IH _ _ _ _ _ _ Hr Hw) in Hrun as (d' & ? & ?). exists d'.
      split; [done|]. by constructor.
Qed.
End Destination.

Context `{L : !TxLaws model T} `{AL : !AzmLaws model A}.

Lemma DeleteObject_run t d ty id :
  repr t d -> wf_type ty -> exists t', DeleteObject ty id t = (Ok tt, t') /\
    repr t' (set_objs d (delete (ty, id) (d_objs d))).
Proof.
  intros Hr Hw. destruct (DeleteObject_ok t d ty id Hr Hw) as [H1 H2].
  destruct (DeleteObject ty id t) as [r t']. simpl in *. subst. by exists t'.
Qed.

Lemma objectDeleteHandler_applied mc ts (o : option Object) t d r t' :
  repr t d -> wf_type (o_type (default zero_Object o)) ->
  objectDeleteHandler mc o t = (r, t') ->
  applied repr ts (CallDeleteObject (o_type (default zero_Object o)) (o_id (default zero_Object o)) false)
    d r t'.
Proof.
  intros Hr Hw. unfold objectDeleteHandler. destruct o as [o|]; [|by intros [= <- <-]].
  intros [[_ H]|(e & _ & -> & ->)]%guard_inv; [|done]. simpl in *.
  destruct (DeleteObject_run t d (o_type o) (o_id o) Hr Hw) as (t1 & Hd & Hr1).
  apply or_error_inv in H as [(b & H & ->)|(e & H & ->)]; rewrite Hd in H; simplify_eq.
  eexists _, _. split; [exact Hr1|]. by apply (step_delete_object _ _ d (o_type o) (o_id o) false).
Qed.

Lemma objectDeleteWithRelations_applied mc ts (o : option Object) t d r t' :
  repr t d ->
  wf_call (CallDeleteObject (o_type (default zero_Object o)) (o_id (default zero_Object o)) true) ->
  objectDeleteWithRelationsHandler mc o t = (r, t') ->
  applied repr ts (CallDeleteObject (o_type (default zero_Object o)) (o_id (default zero_Object o)) true)
    d r t'.
Proof.
  intros Hr [Hw Hwr]. unfold objectDeleteWithRelationsHandler.
  destruct o as [o|]; [|by intros [= <- <-]].
  intros [[_ H]|(e & _ & -> & ->)]%guard_inv; [|done]. simpl in *.
  destruct (Hwr eq_refl) as (Ht & Hi & Hwi).
  destruct (DeleteObject_run t d (o_type o) (o_id o) Hr Hw) as (t1 & Hd & Hr1).
  destruct (delete_both_directions t1 _ (o_type o) (o_id o) Hr1) as (t2 & t3 & H2 & H3 & Hr3); [done..|].
  unfold bind, or_error, attempt in H. rewrite Hd in H. simpl in H. rewrite H2, H3 in H.
  injection H as <- <-. eexists _, _. split; [exact Hr3|].
  by apply (step_delete_object _ _ d (o_type o) (o_id o) true).
Qed.

Lemma relationDeleteHandler_applied mc ts (o : option Relation) t d r t' :
  repr t d -> wf_ident (ident_of o) -> relationDeleteHandler mc o t = (r, t') ->
  applied repr ts (CallDeleteRelation (ident_of o)) d r t'.
Proof.
  intros Hr Hw. unfold relationDeleteHandler. destruct o as [o|]; [|by intros [= <- <-]].
  intros [[_ H]|(e & _ & -> & ->)]%guard_inv; [|done].
  change (ident_of (Some o)) with (r_ident o) in *.
  destruct (DeleteRelation_ok t d (r_ident o) Hr Hw) as [Hok Hrep].
  destruct (DeleteRelation (r_ident o) t) as [r1 t1] eqn:Hd. simpl in *. subst r1.
  apply or_error_inv in H as [(b & H & ->)|(e & H & ->)]; rewrite Hd in H; simplify_eq.
  eexists _, _. split; [exact Hrep|]. by constructor.
Qed.

(** One request: refused before a handler, or handled and counted. *)
Lemma handleImportRequest_applied mc ts req c t d r c' t' :
  repr t d -> wf_request req -> handleImportRequest mc ts req (c, t) = (r, (c', t')) ->
  match call_of req with
  | None => (exists e, r = Fail e) /\ c' = c /\ t' = t
  | Some call => applied repr ts call d r t' /\ c' = counted c req (err_of r)
  end.
Proof.
  intros Hr Hw. unfold handleImportRequest, call_of, counted, wf_request, call_of in *.
  destruct req as [op [o|o|]]; simpl in *; [..|intros [= <- <- <-]; by eauto];
    destruct op; simpl in *; try (intros [= <- <- <-]; by eauto);
    match goal with |- context [?h t] => destruct (h t) as [r1 t1] eqn:Hh end;
    intros [= <- <- <-]; (split; [|done]).
  - eapply objectSetHandler_applied; [done| |done]. intros req ->. specialize (Hw _ eq_refl req eq_refl).
    split; [by apply object_reads|]. intros u ru tu Ht Hi He Hs. rewrite Ht in *.
    destruct ru as [a|e]; [apply (SetObject_ok t d) in Hs as [-> ?]|apply (SetObject_err t d) in Hs]; simpl; congruence.
  - eapply objectDeleteHandler_applied; eauto. by destruct (Hw _ eq_refl).
  - by eapply objectDeleteWithRelations_applied; eauto.
  - eapply relationSetHandler_applied; [done| |done]. intros req ->. specialize (Hw _ eq_refl req eq_refl).
    split; [by apply relation_reads|]. intros u ru tu Hi He Hs.
    destruct ru as [a|e]; [apply (SetRelation_ok t d) in Hs as [-> ?]|apply (SetRelation_err t d) in Hs]; simpl; congruence.
  - by eapply relationDeleteHandler_applied; eauto; apply (Hw _ eq_refl).
Qed.

#[export] Instance contract_destination : Destination repr wf_request.
Proof.
  split.
  - exact handleImportRequest_applied.
  - intros t d md b t' Hr H. exists (d_model d). by apply (SetManifest_ok t d) in H.
  - intros t d m t' Hr H. by apply (SetManifestModel_ok t d) in H.
Qed.

Lemma import_loop_trace mc b evs : forall w t d r w' t',
  repr t d -> Forall wf_event evs -> import_loop mc b evs (w, t) = (r, (w', t')) ->
  exists d', repr t' d' /\ import_trace (ctr w) d evs (ctr w') d'.
Proof. exact (import_loop_into repr wf_request mc b evs). Qed.

(** ** Whole imports *)

Lemma import_loop_sends_ok mc b evs : forall w t,
  (forall n, send_err n = None) -> (import_loop mc b evs (w, t)).1 = Ok tt.
Proof.
  induction evs as [|ev evs IH]; intros w t Hs.
  - simpl. unfold import_eof, Send. simpl. by rewrite Hs.
  - destruct ev as [|ts req|e]; cbn [import_loop]; [done| |by apply IH].
    destruct (handleImportRequest mc ts req (ctr w, t)) as [[[]|e] [c1 t1]]; [by apply IH|].
    destruct (status_FromError e) as [[code msg]|]; by apply IH.
Qed.

Lemma Import_into (R : tx -> directory model -> Prop) (W : ImportRequest -> Prop) `{!Destination R W} mc b evs t d :
  R t d -> Forall (event_of_kind W) evs ->
  (forall n, send_err n = None) -> (forall t d, R t d -> commit_err t = None) ->
  exists w t' d', Import mc b evs t = (Ok w, t') /\ R t' d' /\
    import_trace (MkCounters zero_counter zero_counter) d evs (ctr w) d'.
Proof.
  intros Hr Hw Hs Hc. unfold Import, Batch. simpl.
  set (w0 := MkImportState evs [] (MkCounters zero_counter zero_counter)).
  pose proof (import_loop_sends_ok mc b evs w0 t Hs) as Hok.
  destruct (import_loop mc b evs (w0, t)) as [r [w t']] eqn:E. simpl in Hok. subst r.
  destruct (import_loop_into R W mc b evs w0 t d _ w t' Hr Hw E) as (d' & Hr' & Htr).
  exists w, t', d'. by rewrite (Hc t' d').
Qed.

(** C7: On a store that keeps the contract of transactions, as BoltDB does (Postgres does not: a rejected statement
    sinks its transaction), and whose commit succeeds, an import over a working stream of requests whose names have
    no separator of the store's keys (and are set where an object is deleted with its relations) succeeds, whatever
    errors its requests meet, and what is committed is the directory obtained by applying, in order, the writer step
    of exactly the requests that the returned counters count as successes. *)
Theorem import_refines mc b evs t d :
  repr t d -> Forall wf_event evs ->
  (forall n, send_err n = None) -> (forall t, commit_err t = None) ->
  exists w t' d', Import mc b evs t = (Ok w, t') /\ repr t' d' /\
    import_trace (MkCounters zero_counter zero_counter) d evs (ctr w) d'.
Proof. intros Hr Hw Hs Hc. by apply (Import_into repr wf_request); [| | |intros; apply Hc]. Qed.

(** The counters balance: everything received was a set, a delete or an error. *)
Definition balanced (c : ImportCounter) : Prop :=
  Recv c = ((Set_ c + Delete_ c + Error_ c) mod 2 ^ 64)%Z.

Lemma inc64_sum a b c : inc64 ((a + b + c) mod 2 ^ 64) = ((inc64 a + b + c) mod 2 ^ 64)%Z.
Proof.
  unfold inc64. rewrite Zplus_mod_idemp_l.
  rewrite <-!Z.add_assoc, (Zplus_mod_idemp_l (a + 1)). f_equal. lia.
Qed.

Lemma updateCounter_balanced c op e :
  balanced c -> (forall n, op <> OPCODE_OTHER n) -> balanced (updateCounter c op e).
Proof.
  unfold balanced, updateCounter. intros Hb Ho.
  destruct e as [e|]; [|destruct op; [..|by destruct (Ho n)]]; simpl; rewrite Hb, inc64_sum.
  - replace (inc64 (Set_ c) + Delete_ c + Error_ c)%Z with (inc64 (Set_ c) + (Delete_ c + Error_ c))%Z by lia.
    unfold inc64. rewrite Zplus_mod_idemp_l.
    rewrite (Zplus_mod_idemp_r (Error_ c + 1)). f_equal. lia.
  - done.
  - unfold inc64. rewrite <-!Z.add_assoc, Zplus_mod_idemp_l.
    replace (Set_ c + ((Delete_ c + 1) mod 2 ^ 64 + Error_ c))%Z
      with (Set_ c + Error_ c + (Delete_ c + 1) mod 2 ^ 64)%Z by lia.
    rewrite Zplus_mod_idemp_r. f_equal. lia.
  - unfold inc64. rewrite <-!Z.add_assoc, Zplus_mod_idemp_l.
    replace (Set_ c + ((Delete_ c + 1) mod 2 ^ 64 + Error_ c))%Z
      with (Set_ c + Error_ c + (Delete_ c + 1) mod 2 ^ 64)%Z by lia.
    rewrite Zplus_mod_idemp_r. f_equal. lia.
Qed.

Definition all_balanced (w : import_state) : Prop :=
  balanced (ctr_object (ctr w)) /\ balanced (ctr_relation (ctr w)).

Lemma handle_balanced mc ts req c t r c' t' :
  balanced (ctr_object c) /\ balanced (ctr_relation c) ->
  handleImportRequest mc ts req (c, t) = (r, (c', t')) ->
  balanced (ctr_object c') /\ balanced (ctr_relation c').
Proof.
  intros [Ho Hr]. unfold handleImportRequest.
  destruct req as [op [o|o|]]; simpl; [..|by intros [= <- <- <-]];
    destruct op; simpl; try (by intros [= <- <- <-]);
    match goal with |- context [?h t] => destruct (h t) as [r1 t1] end;
    intros [= <- <- <-]; simpl; (split; [|]); first [done | by apply updateCounter_balanced].
Qed.

Lemma import_loop_balanced mc b evs : forall w t,
  all_balanced w -> all_balanced (import_loop mc b evs (w, t)).2.1.
Proof.
  induction evs as [|ev evs IH]; intros w t Hw; [done|].
  destruct ev as [|ts req|e]; cbn [import_loop]; [done| |by apply IH].
  destruct (handleImportRequest mc ts req (ctr w, t)) as [r1 [c1 t1]] eqn:E.
  apply handle_balanced in E; [|done].
  destruct r1; [by apply IH|]. destruct (status_FromError e) as [[code msg]|]; by apply IH.
Qed.

(** in every import that returns, whatever the stream, the store and the requests did, the
    counters of each kind balance: received = set + deleted + errors (64-bit). *)
Theorem import_counters_balance mc b evs t w t' :
  Import mc b evs t = (Ok w, t') ->
  balanced (ctr_object (ctr w)) /\ balanced (ctr_relation (ctr w)).
Proof.
  unfold Import, Batch, UpdateE. simpl.
  set (w0 := MkImportState evs [] (MkCounters zero_counter zero_counter)).
  pose proof (import_loop_balanced mc b evs w0 t) as H1.
  destruct (import_loop mc b evs (w0, t)) as [[[]|e] [w1 t1]]; simpl in H1.
  - destruct (commit_err t1); intros [= <- <-]. by apply H1.
  - pose proof (import_loop_balanced mc b (pending w1) w1 t) as H2.
    destruct (import_loop mc b (pending w1) (w1, t)) as [[[]|e'] [w2 t2]]; simpl in H2.
    + destruct (commit_err t2); intros [= <- <-]. apply H2, H1. done.
    + done.
Qed.

(** the batch function is not idempotent: when the response at the end of the stream cannot be
    sent, the transaction is rolled back and the function runs again on the drained stream, so an
    import can report success although nothing of it was stored. *)
Theorem import_retry_drops mc b evs t e w1 t1 :
  import_loop mc b evs (MkImportState evs [] (MkCounters zero_counter zero_counter), t) =
    (Fail e, (w1, t1)) ->
  send_err (length (sent w1) + 2) = None -> commit_err t = None ->
  exists w, Import mc b evs t = (Ok w, t) /\ ctr w = ctr w1.
Proof.
  intros Hrun Hs Hc. unfold Import, Batch, UpdateE. cbn [pending]. rewrite Hrun.
  assert (pending w1 = []) as Hp.
  { clear Hs Hc. revert Hrun. generalize (MkImportState evs [] (MkCounters zero_counter zero_counter)).
    revert t. induction evs as [|ev evs IH]; intros t w.
    - simpl. by intros [= _ <- _].
    - destruct ev as [|ts req|e']; cbn [import_loop]; [done| |by apply IH].
      destruct (handleImportRequest mc ts req (ctr w, t)) as [[[]|e'] [c2 t2]]; [by apply IH|].
      destruct (status_FromError e') as [[code msg]|]; by apply IH. }
  rewrite Hp. simpl. rewrite !length_app. simpl.
  replace (length (sent w1) + 1 + 1) with (length (sent w1) + 2) by lia. rewrite Hs, Hc.
  by eexists.
Qed.
End Importer.

Module ImporterExamples.
Import Concrete.

Definition stream1 : list stream_event :=
  [Received ts1 (MkImport OPCODE_SET (ImportRequest_Object (Some doc)));
   RecvError (XErr UnknownCode "transport");
   Received ts1 (MkImport OPCODE_SET (ImportRequest_Relation (Some rel1)));
   Received ts2 (MkImport (OPCODE_OTHER 9) (ImportRequest_Object (Some doc)));
   Received ts2 (MkImport OPCODE_DELETE (ImportRequest_Object None));
   Received ts2 (MkImport OPCODE_DELETE_WITH_RELATIONS (ImportRequest_Object (Some bob)))].

Lemma import_refines_witness :
  exists w t' d', Import (fun _ => None) mc0 true stream1 db1 = (Ok w, t') /\ repr t' d' /\
    import_trace (MkCounters zero_counter zero_counter) dir1 stream1 (ctr w) d'.
Proof.
  apply (import_refines (fun _ => None) mc0 true stream1 db1 dir1 db1_repr); [|done|done].
  unfold stream1. rewrite !Forall_cons, Forall_nil. split_and!; try exact I; intros c [= <-].
  - intros o [= <-]. reflexivity.
  - intros r [= <-]. repeat split.
  - split; [reflexivity|]. intros E; discriminate E.
  - split; [reflexivity|]. intros _. repeat split.
Defined.

Lemma import_counters_balance_witness :
  exists w t', Import (fun _ => None) mc0 true stream1 db1 = (Ok w, t') /\
    balanced (ctr_object (ctr w)) /\ ctr_object (ctr w) = MkCounter 3 1 1 1.
Proof.
  assert (rmap (fun w => ctr_object (ctr w)) (Import (fun _ => None) mc0 true stream1 db1).1 =
    Ok (MkCounter 3 1 1 1)) as H by (vm_compute; reflexivity).
  destruct (Import (fun _ => None) mc0 true stream1 db1) as [[w|e] t'] eqn:E; [|discriminate H].
  exists w, t'. split; [reflexivity|]. injection H as H.
  split; [exact (proj1 (import_counters_balance _ _ _ _ _ _ _ E)) | exact H].
Defined.

(** The third message of the call, the final response, fails; later ones get through. *)
Definition flaky (n : nat) : option err :=
  if (n =? 2)%nat then Some (XErr UnknownCode "send") else None.
Definition stream2 : list stream_event :=
  [Received ts1 (MkImport OPCODE_SET (ImportRequest_Object (Some doc)))].

Lemma import_retry_drops_witness :
  exists w, Import flaky mc0 true stream2 db1 = (Ok w, db1) /\ Set_ (ctr_object (ctr w)) = 1%Z.
Proof.
  set (w0 := MkImportState stream2 [] (MkCounters zero_counter zero_counter)).
  assert ((fun x => (is_ok x.1, length (sent x.2.1), Set_ (ctr_object (ctr x.2.1))))
    (import_loop flaky mc0 true stream2 (w0, db1)) = (false, 3, 1%Z)) as H by (vm_compute; reflexivity).
  destruct (import_loop flaky mc0 true stream2 (w0, db1)) as [[[]|e] [w1 t1]] eqn:E;
    [discriminate H|].
  injection H as Hl Hc.
  destruct (import_retry_drops flaky mc0 true stream2 db1 e w1 t1 E) as (w & Hw & Hctr);
    [rewrite Hl; reflexivity | reflexivity |].
  exists w. split; [exact Hw|]. rewrite Hctr. exact Hc.
Defined.
End ImporterExamples.
