(* ===== verification/Exporter.v ===== *)
(** * The exporter service

    [internal/eds/pkg/directory/v3/exporter.go]: the objects, the relations or the statistics of one
    read transaction, written to a stream. *)
From S2P Require Import Prelude Bytes Messages Keys Store Bolt Bdb BdbTx Ds Service Instances DsFacts.

(** [dse.Option], a set of bits. *)
Class ExportOptions := {
  OPTION_STATS : Z; OPTION_DATA_OBJECTS : Z; OPTION_DATA_RELATIONS : Z;
  (** [json.Marshal(stats)] read back as a protobuf struct *)
  stats_struct : Stats -> res string }.

Inductive ExportResponse :=
| ExportResponse_Object (o : option Object)
| ExportResponse_Relation (r : option Relation)
| ExportResponse_Stats (s : string).

Section Exporter.
Context {model : Type} `{T : TxOps model} `{E : ExportOptions}.
(** [send_err n]: the outcome of the [n]-th [stream.Send]. *)
Context (send_err : nat -> option err).

Definition stream_out : Type := list ExportResponse.

Definition export_Send (m : ExportResponse) : M stream_out unit := fun sent =>
  match send_err (length sent) with
  | Some e => (Fail e, sent)
  | None => (Ok tt, sent ++ [m])
  end.

Definition exportObjects (t : tx) : M stream_out unit :=
  let! iter := lift (ScanObjects "" "" t) in
  for_each (fun v : option Object =>
    let obj := ds.PatchObjectRead <$> v in export_Send (ExportResponse_Object obj)) (collect iter).

Definition exportRelations (t : tx) : M stream_out unit :=
  let! iter := lift (ScanRelations ByObject no_filter "" t) in
  for_each (fun v => export_Send (ExportResponse_Relation v)) (collect iter).

Definition has_option (opts flag : Z) : bool := negb (Z.land opts flag =? 0)%Z.

Definition exportStats (opts : Z) (t : tx) : M stream_out unit :=
  let stats : Stats := ∅ in
  let! stats := lift (if has_option opts OPTION_DATA_OBJECTS then CountObjects stats t else Ok stats) in
  let! stats := lift (if has_option opts OPTION_DATA_RELATIONS then CountRelations stats t else Ok stats) in
  let! resp := lift (stats_struct stats) in
  export_Send (ExportResponse_Stats resp).

Definition Export (opts : Z) (t : tx) : M stream_out unit :=
  if has_option opts OPTION_STATS then exportStats opts t
  else
    do! (if has_option opts OPTION_DATA_OBJECTS then exportObjects t else ret tt);
    do! (if has_option opts OPTION_DATA_RELATIONS then exportRelations t else ret tt);
    ret tt.

Context `{L : !TxLaws model T}.

Lemma send_each {X} (f : X -> ExportResponse) l sent :
  (forall n, send_err n = None) ->
  for_each (fun v => export_Send (f v)) l sent = (Ok tt, sent ++ (f <$> l)).
Proof.
  intros Hs. revert sent. induction l as [|x l IH]; intros sent; simpl.
  - by rewrite app_nil_r.
  - unfold bind, export_Send at 1. rewrite Hs. rewrite IH. by rewrite <-app_assoc.
Qed.

(** Both kinds are scanned whole; the options choose what is sent. *)
Lemma Export_chosen t d :
  repr t d -> (forall n, send_err n = None) ->
  exists os rs, (forall opts, has_option opts OPTION_STATS = false -> Export opts t [] =
      (Ok tt, (if has_option opts OPTION_DATA_OBJECTS
               then (fun o => ExportResponse_Object (Some (ds.PatchObjectRead o))) <$> os else []) ++
              (if has_option opts OPTION_DATA_RELATIONS
               then (fun r => ExportResponse_Relation (Some r)) <$> rs else []))) /\
    NoDup os /\ (forall o, o ∈ os <-> d_objs d !! (o_type o, o_id o) = Some o) /\
    NoDup rs /\ (forall r, r ∈ rs <-> d_rels d !! r_ident r = Some r).
Proof.
  intros Hr Hs.
  destruct (scan_all_objects t d Hr) as (io & Ho & Hno & Hmo).
  destruct (scan_all_relations t d Hr) as (ir & Hi & Hnr & Hmr).
  destruct (list_somes (collect io)) as [os Hos]; [intros v (o & -> & _)%Hmo; by eexists|].
  destruct (list_somes (collect ir)) as [rs Hrs]; [intros v (o & -> & _)%Hmr; by eexists|].
  exists os, rs. split.
  { intros opts H1. unfold Export, exportObjects, exportRelations, bind, lift, ret. rewrite H1, Ho, Hi.
    rewrite Hos, Hrs. destruct (has_option opts OPTION_DATA_OBJECTS), (has_option opts OPTION_DATA_RELATIONS);
      rewrite ?(send_each (fun v => ExportResponse_Object (ds.PatchObjectRead <$> v)) _ _ Hs);
      rewrite ?(send_each ExportResponse_Relation _ _ Hs);
      rewrite ?app_nil_r, ?app_nil_l, <-?list_fmap_compose; done. }
  rewrite Hos, Hrs in *. split_and!.
  - by apply NoDup_fmap_1 in Hno.
  - intros o. specialize (Hmo (Some o)). rewrite list_elem_of_fmap in Hmo. naive_solver.
  - by apply NoDup_fmap_1 in Hnr.
  - intros r. specialize (Hmr (Some r)). rewrite list_elem_of_fmap in Hmr. naive_solver.
Qed.

Lemma Export_data opts t d :
  repr t d -> (forall n, send_err n = None) -> has_option opts OPTION_STATS = false ->
  has_option opts OPTION_DATA_OBJECTS = true -> has_option opts OPTION_DATA_RELATIONS = true ->
  exists os rs, Export opts t [] =
      (Ok tt, ((fun o => ExportResponse_Object (Some (ds.PatchObjectRead o))) <$> os) ++
              ((fun r => ExportResponse_Relation (Some r)) <$> rs)) /\
    NoDup os /\ (forall o, o ∈ os <-> d_objs d !! (o_type o, o_id o) = Some o) /\
    NoDup rs /\ (forall r, r ∈ rs <-> d_rels d !! r_ident r = Some r).
Proof.
  intros Hr Hs H1 H2 H3. destruct (Export_chosen t d Hr Hs) as (os & rs & He & H).
  exists os, rs. split; [|done]. specialize (He opts H1). by rewrite H2, H3 in He.
Qed.

(** C8: a data export over a working stream succeeds and sends every stored object once (display
    name restored from the properties), then every stored relation once, and nothing else. *)
Theorem export_complete opts t d :
  repr t d -> (forall n, send_err n = None) -> has_option opts OPTION_STATS = false ->
  has_option opts OPTION_DATA_OBJECTS = true -> has_option opts OPTION_DATA_RELATIONS = true ->
  exists os rs, Export opts t [] =
      (Ok tt, ((fun o => ExportResponse_Object (Some (ds.PatchObjectRead o))) <$> os) ++
              ((fun r => ExportResponse_Relation (Some r)) <$> rs)) /\
    NoDup os /\ (forall o, o ∈ os <-> d_objs d !! (o_type o, o_id o) = Some o) /\
    NoDup rs /\ (forall r, r ∈ rs <-> d_rels d !! r_ident r = Some r).
Proof. exact (Export_data opts t d). Qed.

(** Computations that only append messages of a kind. *)
Definition sends_only {B} (P : ExportResponse -> Prop) (m : M stream_out B) : Prop :=
  forall sent, exists added, (m sent).2 = sent ++ added /\ Forall P added.

Lemma sends_only_send P m : P m -> sends_only P (export_Send m).
Proof.
  intros Hm sent. unfold export_Send. destruct (send_err _); simpl.
  - exists []. by rewrite app_nil_r.
  - exists [m]. by repeat constructor.
Qed.
Lemma sends_only_lift {B} P (r : res B) : sends_only P (lift r).
Proof. intros sent. exists []. by rewrite app_nil_r. Qed.
Lemma sends_only_bind {B C} P (m : M stream_out B) (f : B -> M stream_out C) :
  sends_only P m -> (forall b, sends_only P (f b)) -> sends_only P (bind m f).
Proof.
  intros Hm Hf sent. destruct (Hm sent) as (a1 & H1 & HP1). unfold bind.
  destruct (m sent) as [[b|e] s1]; simpl in *; subst; [|by exists a1].
  destruct (Hf b (sent ++ a1)) as (a2 & H2 & HP2). exists (a1 ++ a2).
  rewrite H2, app_assoc. split; [done|]. by apply Forall_app.
Qed.
Lemma sends_only_each {X} P (f : X -> M stream_out unit) l :
  (forall x, sends_only P (f x)) -> sends_only P (for_each f l).
Proof.
  intros Hf. induction l as [|x l IH]; [apply (sends_only_lift P (Ok tt))|].
  by apply sends_only_bind.
Qed.

(** What a request may be answered with. *)
Definition allowed (opts : Z) (m : ExportResponse) : Prop :=
  match m with
  | ExportResponse_Stats _ => has_option opts OPTION_STATS = true
  | ExportResponse_Object _ =>
      has_option opts OPTION_STATS = false /\ has_option opts OPTION_DATA_OBJECTS = true
  | ExportResponse_Relation _ =>
      has_option opts OPTION_STATS = false /\ has_option opts OPTION_DATA_RELATIONS = true
  end.

(** whatever the outcome, an export sends only what its options ask for: statistics when the
    stats bit is set and no data then, objects and relations only when their bit is set. *)
Theorem export_kinds opts t sent :
  exists added, (Export opts t sent).2 = sent ++ added /\ Forall (allowed opts) added.
Proof.
  revert sent. change (sends_only (allowed opts) (Export opts t)). unfold Export.
  destruct (has_option opts OPTION_STATS) eqn:Hst.
  - unfold exportStats. repeat (apply sends_only_bind; [apply sends_only_lift|intros ?]).
    by apply sends_only_send.
  - apply sends_only_bind; [|intros _; apply sends_only_bind; [|intros _; apply (sends_only_lift _ (Ok tt))]].
    + destruct (has_option opts OPTION_DATA_OBJECTS) eqn:Ho; [|apply (sends_only_lift _ (Ok tt))].
      apply sends_only_bind; [apply sends_only_lift|]. intros it. apply sends_only_each.
      intros v. by apply sends_only_send.
    + destruct (has_option opts OPTION_DATA_RELATIONS) eqn:Ho; [|apply (sends_only_lift _ (Ok tt))].
      apply sends_only_bind; [apply sends_only_lift|]. intros it. apply sends_only_each.
      intros v. by apply sends_only_send.
Qed.
End Exporter.

Module ExporterExamples.
Import Concrete.
#[local] Instance export_options : ExportOptions := {|
  OPTION_STATS := 64; OPTION_DATA_OBJECTS := 8; OPTION_DATA_RELATIONS := 16;
  stats_struct := fun _ => Ok "{}" |}.

Lemma export_complete_witness :
  exists os rs, Export (fun _ => None) 24 db1 [] =
      (Ok tt, ((fun o => ExportResponse_Object (Some (ds.PatchObjectRead o))) <$> os) ++
              ((fun r => ExportResponse_Relation (Some r)) <$> rs)) /\
    bob1 ∈ os /\ rel1 ∈ rs /\ rel2 ∈ rs.
Proof.
  destruct (export_complete (fun _ => None) 24 db1 dir1 db1_repr)
    as (os & rs & H & _ & Ho & _ & Hr); [reflexivity..|].
  exists os, rs. split; [exact H|]. rewrite Ho, !Hr. split_and!; vm_compute; reflexivity.
Defined.
End ExporterExamples.
