(* ===== verification/Model.v ===== *)
(** * The model service

    [internal/eds/pkg/directory/v3/model.go]: the manifest sent in chunks, received in chunks, and
    deleted.  The service's state is the store and the model cache. *)
From S2P Require Import Prelude Bytes Messages Hash Keys Store Bolt Bdb BdbTx Ds Service Instances.

Inductive GetManifestResponse :=
| GetManifestResponse_Metadata (md : Metadata)
| GetManifestResponse_Body (data : string)
| GetManifestResponse_Model (m : string).

(** What [SetManifest] receives; the end of the list is EOF. *)
Inductive SetManifestEvent :=
| SetManifestRequest_Body (b : Body)
| SetManifestRequest_Other
| SetManifestError (e : err).

(** Third-party: [model.MaxChunkSizeBytes] and the struct form of a stored model. *)
Class ModelParams (model : Type) := {
  MaxChunkSizeBytes : nat;
  model_struct : model -> res string }.

Definition zero_Metadata : Metadata := MkMetadata None "".

Section Model.
Context {model : Type} `{T : TxOps model} `{A : Azm model} `{!StoreOps model} `{V : Validator}.
Context `{P : ModelParams model}.

(** The store and the model cache that the services share. *)
Record server := MkServer { srv_tx : tx; srv_mc : cache }.

(** ** [GetManifest] *)

Section Stream.
Context (send_err : nat -> option err).

Definition manifest_Send (m : GetManifestResponse) : M (list GetManifestResponse) unit := fun sent =>
  match send_err (length sent) with
  | Some e => (Fail e, sent)
  | None => (Ok tt, sent ++ [m])
  end.

(** The chunk that starts at [curByte]. *)
Definition chunk_at (data : string) (curByte : nat) : string :=
  if (String.length data <? curByte + MaxChunkSizeBytes)%nat
  then String.substring curByte (String.length data - curByte) data
  else String.substring curByte MaxChunkSizeBytes data.

(** The chunk loop; each round advances by a positive size, so [length data] rounds are enough. *)
Fixpoint send_chunks (fuel : nat) (data : string) (curByte : nat)
  : M (list GetManifestResponse) unit :=
  match fuel with
  | O => fail out_of_fuel
  | S fuel =>
      if (curByte <? String.length data)%nat then
        do! manifest_Send (GetManifestResponse_Body (chunk_at data curByte));
        send_chunks fuel data (curByte + MaxChunkSizeBytes)
      else ret tt
  end.

Definition getModel (t : tx) : M (list GetManifestResponse) unit :=
  match manifest_GetModel t with
  | Fail e =>
      if is_not_found e then fail (DErr "ErrNotFound" ["model"])
      else fail (XErr UnknownCode "failed to get model")
  | Ok m =>
      let! s := lift (model_struct m) in
      manifest_Send (GetManifestResponse_Model s)
  end.

Definition Model_GetManifest (h : headers) (withBody withModel : bool) (t : tx)
  : M (list GetManifestResponse) unit :=
  let send_manifest (md : Metadata) (body : Body) :=
    do! manifest_Send (GetManifestResponse_Metadata md);
    if bool_decide (md_etag md ∈ IfNoneMatch h) then ret tt
    else
      do! (if withBody
           then send_chunks (S (String.length (body_data body))) (body_data body) 0 else ret tt);
      if withModel then getModel t else ret tt in
  do! guard validator_GetManifestRequest;
  match manifest_Get t with
  | Ok (md, body) => send_manifest md body
  | Fail e =>
      if is_not_found e then send_manifest zero_Metadata (MkBody "")
      else fail (XErr UnknownCode "failed to get manifest")
  end.
End Stream.

(** ** [SetManifest] *)

(** The receive loop: the buffer, and the hash that is fed the whole buffer after every chunk. *)
Fixpoint recv_manifest (msgs : list SetManifestEvent) (data : string) (h : Z) : res (string * Z) :=
  match msgs with
  | [] => Ok (data, h)
  | SetManifestError e :: _ => Fail (with_msg e "failed to receive manifest")
  | SetManifestRequest_Other :: msgs => recv_manifest msgs data h
  | SetManifestRequest_Body body :: msgs =>
      match validator_Body body with
      | Some e => Fail e
      | None =>
          let data := data +:+ body_data body in
          recv_manifest msgs data (fnv_write h data)
      end
  end.

Definition ErrUnknown (what : string) : err := DErr "ErrUnknown" [what].

Definition setManifest (mc : cache) (m : model) (md : Metadata) (data : string) : M tx unit :=
  let! stats := reads (fun t =>
    match CalculateStats t with
    | Ok s => Ok s
    | Fail _ => Fail (ErrUnknown "failed to calculate stats")
    end) in
  do! guard (mc_CanUpdate mc m stats);
  do! or_error (manifest_Set md data) (ErrUnknown "failed to set manifest");
  do! or_error (manifest_SetModel md m) (ErrUnknown "failed to set model");
  ret tt.

(** [close_err]: the outcome of [SendAndClose].  [SetModel] stamps the model in place, so the cache
    receives the stamped model. *)
Definition Model_SetManifest (h : headers) (ts : Timestamp) (close_err : option err)
    (msgs : list SetManifestEvent) : M server unit := fun s =>
  let etag := IfMatch h in
  if negb (String.eqb etag "") && negb (String.eqb etag (mc_ETag (srv_mc s))) then
    (Fail (ErrHashMismatch []), s)
  else
  match recv_manifest msgs "" fnv_offset with
  | Fail e => (Fail e, s)
  | Ok (data, sum) =>
  match close_err with
  | Some e => (Fail e, s)
  | None =>
  let md := MkMetadata (Some ts) (FormatUint sum) in
  match validator_Metadata md with
  | Some e => (Fail e, s)
  | None =>
  match manifest_Load data with
  | Fail _ => (Fail (DErr "ErrInvalidArgument" []), s)
  | Ok m =>
  match Update (setManifest (srv_mc s) m md data) (srv_tx s) with
  | (Fail e, t) => (Fail e, MkServer t (srv_mc s))
  | (Ok _, t) =>
      match mc_UpdateModel (set_model_metadata m (md_etag md) (md_updated_at md)) (srv_mc s) with
      | Ok mc => (Ok tt, MkServer t mc)
      | Fail e => (Fail e, MkServer t (srv_mc s))
      end
  end end end end end.

(** ** [DeleteManifest] *)

Definition deleteManifest (h : headers) (md : Metadata) (m : model) : M tx unit := fun t =>
  let delete_and_reset :=
    do! or_error manifest_Delete (ErrUnknown "failed to delete manifest");
    do! or_error (manifest_Set md "") (ErrUnknown "failed to set manifest");
    do! or_error (manifest_SetModel md m) (ErrUnknown "failed to set model");
    ret tt in
  if negb (String.eqb (IfMatch h) "") then
    match manifest_Get t with
    | Fail _ => (Ok tt, t)
    | Ok (dbMd, _) =>
        if negb (String.eqb (IfMatch h) (md_etag dbMd)) then (Fail (ErrHashMismatch []), t)
        else delete_and_reset t
    end
  else delete_and_reset t.

Definition Model_DeleteManifest (h : headers) (ts : Timestamp) : M server unit := fun s =>
  match validator_DeleteManifestRequest with
  | Some e => (Fail e, s)
  | None =>
  let md := MkMetadata (Some ts) (FormatUint (fnv_write fnv_offset "")) in
  match manifest_Load "" with
  | Fail _ => (Fail (DErr "ErrInvalidArgument" []), s)
  | Ok m =>
      let '(r, t) := Update (deleteManifest h md m) (srv_tx s) in (r, MkServer t (srv_mc s))
  end end.

(** ** Chunks *)

(** The chunks from [curByte] on. *)
Definition chunks_from (data : string) (curByte : nat) (l : list string) : Prop :=
  concat_str l = String.substring curByte (String.length data - curByte) data /\
  Forall (fun c => 0 < String.length c <= MaxChunkSizeBytes) l.

Lemma chunk_at_spec data cur :
  0 < MaxChunkSizeBytes -> cur < String.length data ->
  0 < String.length (chunk_at data cur) <= MaxChunkSizeBytes /\
  String.substring cur (String.length data - cur) data =
    chunk_at data cur +:+
    String.substring (cur + MaxChunkSizeBytes) (String.length data - (cur + MaxChunkSizeBytes)) data.
Proof.
  intros HM Hc. unfold chunk_at. destruct (Nat.ltb_spec (String.length data) (cur + MaxChunkSizeBytes)).
  - rewrite length_substring by lia. split; [lia|].
    replace (String.length data - (cur + MaxChunkSizeBytes)) with 0 by lia.
    assert (forall n, String.substring n 0 data = "") as ->.
    { clear. induction data as [|x data IH]; intros [|n]; simpl; done. }
    by rewrite <-(app_nil_r_str (String.substring _ _ _)) at 1.
  - rewrite length_substring by lia. split; [lia|].
    replace (String.length data - cur)
      with (MaxChunkSizeBytes + (String.length data - (cur + MaxChunkSizeBytes))) by lia.
    apply substring_split.
Qed.

Lemma send_chunks_spec send_err data :
  0 < MaxChunkSizeBytes -> (forall n, send_err n = None) ->
  forall fuel cur sent, String.length data - cur < fuel ->
  exists l, send_chunks send_err fuel data cur sent =
      (Ok tt, sent ++ (GetManifestResponse_Body <$> l)) /\ chunks_from data cur l.
Proof.
  intros HM Hs. induction fuel as [|fuel IH]; intros cur sent Hf; [lia|]. cbn [send_chunks].
  destruct (Nat.ltb_spec cur (String.length data)) as [Hlt|Hge].
  - destruct (chunk_at_spec data cur HM Hlt) as [Hlen Hsplit].
    unfold bind, manifest_Send. rewrite Hs.
    destruct (IH (cur + MaxChunkSizeBytes)
      (sent ++ [GetManifestResponse_Body (chunk_at data cur)])) as (l & -> & Hcat & Hall); [lia|].
    exists (chunk_at data cur :: l). rewrite <-app_assoc. split; [done|]. split; [|by constructor].
    unfold concat_str in *. simpl. by rewrite Hcat, Hsplit.
  - exists []. rewrite app_nil_r. split; [done|]. split; [|constructor].
    replace (String.length data - cur) with 0 by lia. simpl. clear.
    revert cur. induction data as [|x data IH]; intros [|n]; simpl; done.
Qed.

(** ** Receiving *)

Definition bodies (msgs : list SetManifestEvent) : list string :=
  omap (fun m => match m with SetManifestRequest_Body b => Some (body_data b) | _ => None end) msgs.

Lemma recv_manifest_data msgs : forall data h data' h',
  recv_manifest msgs data h = Ok (data', h') -> data' = data +:+ concat_str (bodies msgs).
Proof.
  induction msgs as [|m msgs IH]; intros data h data' h'; simpl.
  - intros [= <- <-]. unfold concat_str. simpl. by rewrite app_nil_r_str.
  - destruct m as [b| |e]; [|apply IH|done].
    destruct (validator_Body b); [done|]. intros ->%IH. unfold bodies. simpl.
    unfold concat_str. simpl. by rewrite app_assoc_str.
Qed.

Context `{L : !TxLaws model T}.

(** ** The transaction of [SetManifest] *)

Lemma setManifest_ok mc m md data t d t' :
  repr t d -> setManifest mc m md data t = (Ok tt, t') ->
  repr t' (set_model (set_manifest d (Some md) (Some (MkBody data)))
             (Some (set_model_metadata m (md_etag md) (md_updated_at md)))).
Proof.
  intros Hr. unfold setManifest.
  intros [(s & t1 & H1 & H)|(e & _ & ?)]%bind_inv; [|done]. injection H1 as _ <-.
  apply guard_inv in H as [[_ H]|(e & _ & ? & _)]; [|done].
  apply bind_inv in H as [([] & t2 & H2 & H)|(e & _ & ?)]; [|done].
  apply or_error_inv in H2 as [([] & H2 & _)|(e & _ & ?)]; [|done].
  apply (SetManifest_ok t d) in H2; [|done].
  apply bind_inv in H as [([] & t3 & H3 & H)|(e & _ & ?)]; [|done].
  apply or_error_inv in H3 as [([] & H3 & _)|(e & _ & ?)]; [|done].
  injection H as <-. by apply (SetManifestModel_ok t2 _ _ _ H2) in H3.
Qed.

Lemma manifest_Get_repr t d md b :
  repr t d -> d_metadata d = Some md -> d_body d = Some b -> manifest_Get t = Ok (md, b).
Proof.
  intros Hr Hm Hb. unfold manifest_Get. rewrite (ManifestExists_ok t d Hr) by (left; by eexists).
  pose proof (GetManifestMetadata_ok t d Hr) as H1. rewrite Hm in H1. rewrite H1. simpl.
  pose proof (GetManifestBody_ok t d Hr) as H2. rewrite Hb in H2. by rewrite H2.
Qed.

(** a manifest that was set is stored whole: the store then holds the concatenation of the
    received chunks with an etag, the model loaded from that text stamped with the same etag, and
    the same objects and relations as before; the cache holds that model. *)
Theorem set_manifest_stores h ts close_err msgs s d s' :
  repr (srv_tx s) d -> Model_SetManifest h ts close_err msgs s = (Ok tt, s') ->
  exists sum m mc',
    recv_manifest msgs "" fnv_offset = Ok (concat_str (bodies msgs), sum) /\
    manifest_Load (concat_str (bodies msgs)) = Ok m /\
    let md := MkMetadata (Some ts) (FormatUint sum) in
    let m' := set_model_metadata m (FormatUint sum) (Some ts) in
    repr (srv_tx s') (MkDir (d_objs d) (d_rels d) (Some md)
                        (Some (MkBody (concat_str (bodies msgs)))) (Some m')) /\
    mc_UpdateModel m' (srv_mc s) = Ok mc' /\ srv_mc s' = mc'.
Proof.
  intros Hr. unfold Model_SetManifest.
  case_match; [done|]. destruct (recv_manifest msgs "" fnv_offset) as [[data sum]|e] eqn:Hrecv; [|done].
  pose proof (recv_manifest_data _ _ _ _ _ Hrecv) as ->.
  destruct close_err; [done|]. destruct (validator_Metadata _); [done|].
  change ("" +:+ concat_str (bodies msgs)) with (concat_str (bodies msgs)) in *.
  destruct (manifest_Load (concat_str (bodies msgs))) as [m|e] eqn:Hload; [|done].
  destruct (Update _ (srv_tx s)) as [[[]|e] t'] eqn:Hupd; [|done].
  apply Update_ok, (setManifest_ok _ _ _ _ _ d) in Hupd; [|done]. simpl.
  destruct (mc_UpdateModel _ _) as [mc'|e] eqn:Hmc; [|done]. intros [= <-].
  exists sum, m, mc'. split_and!; done.
Qed.

(** a manifest change that fails leaves the store and the cache as they were, unless it failed
    in the cache itself after the commit. *)
Theorem set_manifest_fails h ts close_err msgs s e s' :
  Model_SetManifest h ts close_err msgs s = (Fail e, s') ->
  srv_mc s' = srv_mc s /\
  (srv_tx s' = srv_tx s \/ exists m, mc_UpdateModel m (srv_mc s) = Fail e).
Proof.
  unfold Model_SetManifest. case_match; [by intros [= <- <-]; eauto|].
  destruct (recv_manifest _ _ _) as [[data sum]|]; [|by intros [= <- <-]; eauto].
  destruct close_err; [by intros [= <- <-]; eauto|].
  destruct (validator_Metadata _); [by intros [= <- <-]; eauto|].
  destruct (manifest_Load data) as [m|]; [|by intros [= <- <-]; eauto].
  destruct (Update _ (srv_tx s)) as [[[]|e'] t'] eqn:Hupd.
  - destruct (mc_UpdateModel _ _) eqn:Hmc; [done|]. intros [= <- <-]. simpl. eauto.
  - apply Update_err in Hupd as ->. intros [= <- <-]. simpl. eauto.
Qed.

(** The chunks of a stored manifest. *)
Lemma Model_GetManifest_chunks send_err h t d md b :
  0 < MaxChunkSizeBytes -> (forall n, send_err n = None) -> validator_GetManifestRequest = None ->
  repr t d -> d_metadata d = Some md -> d_body d = Some b -> md_etag md ∉ IfNoneMatch h ->
  exists chunks,
    Model_GetManifest send_err h true false t [] =
      (Ok tt, GetManifestResponse_Metadata md :: (GetManifestResponse_Body <$> chunks)) /\
    concat_str chunks = body_data b /\ Forall (fun c => 0 < String.length c <= MaxChunkSizeBytes) chunks.
Proof.
  intros HM Hs Hv Hr Hm Hb Hh. unfold Model_GetManifest. rewrite guard_none by done.
  rewrite (manifest_Get_repr _ d _ _ Hr Hm Hb).
  unfold bind at 1, manifest_Send at 1. rewrite Hs, bool_decide_false by done.
  destruct (send_chunks_spec send_err (body_data b) HM Hs
    (S (String.length (body_data b))) 0 ([] ++ [GetManifestResponse_Metadata md]))
    as (l & Hl & Hcat & Hall); [lia|].
  exists l. unfold bind. rewrite Hl. split; [done|]. by rewrite Nat.sub_0_r, substring_full in Hcat.
Qed.

(** C35: a manifest that is set and then read back arrives unchanged: the reply is its metadata
    followed by non-empty chunks, none longer than the limit, that concatenate to exactly the bytes
    that were received. *)
Theorem manifest_roundtrip h ts close_err msgs s d s' send_err :
  0 < MaxChunkSizeBytes -> (forall n, send_err n = None) -> validator_GetManifestRequest = None ->
  repr (srv_tx s) d -> Model_SetManifest h ts close_err msgs s = (Ok tt, s') ->
  exists etag chunks,
    Model_GetManifest send_err (MkHeaders "" []) true false (srv_tx s') [] =
      (Ok tt, GetManifestResponse_Metadata (MkMetadata (Some ts) etag) ::
              (GetManifestResponse_Body <$> chunks)) /\
    concat_str chunks = concat_str (bodies msgs) /\
    Forall (fun c => 0 < String.length c <= MaxChunkSizeBytes) chunks.
Proof.
  intros HM Hs Hv Hr (sum & m & mc' & _ & _ & Hr' & _)%(set_manifest_stores _ _ _ _ _ d); [|done].
  exists (FormatUint sum). eapply (Model_GetManifest_chunks _ _ _ _ _ (MkBody _)); [done..|exact Hr'|done|done|apply not_elem_of_nil].
Qed.

(** an unconditional manifest delete that succeeds leaves a directory with no objects and no
    relations and an empty manifest with its model; the model cache is not touched. *)
Theorem delete_manifest_wipes ts ifnone s d s' :
  repr (srv_tx s) d -> Model_DeleteManifest (MkHeaders "" ifnone) ts s = (Ok tt, s') ->
  exists m, manifest_Load "" = Ok m /\
    let etag := FormatUint (fnv64a "") in
    repr (srv_tx s') (MkDir ∅ ∅ (Some (MkMetadata (Some ts) etag)) (Some (MkBody ""))
                        (Some (set_model_metadata m etag (Some ts)))) /\
    srv_mc s' = srv_mc s.
Proof.
  intros Hr. unfold Model_DeleteManifest.
  destruct validator_DeleteManifestRequest; [done|].
  destruct (manifest_Load "") as [m|]; [|done].
  destruct (Update _ (srv_tx s)) as [r t'] eqn:Hupd. intros [= -> <-]. exists m. split; [done|].
  simpl. split; [|done]. apply Update_ok in Hupd. revert Hupd. unfold deleteManifest. simpl.
  intros [([] & t1 & H1 & H)|(e & _ & ?)]%bind_inv; [|done].
  apply or_error_inv in H1 as [([] & H1 & _)|(e & _ & ?)]; [|done].
  destruct (DeleteManifest_ok (srv_tx s) d Hr) as [_ Hd]. unfold manifest_Delete in H1.
  rewrite H1 in Hd. simpl in Hd.
  apply bind_inv in H as [([] & t2 & H2 & H)|(e & _ & ?)]; [|done].
  apply or_error_inv in H2 as [([] & H2 & _)|(e & _ & ?)]; [|done].
  apply (SetManifest_ok t1 _ _ _ _ Hd) in H2.
  apply bind_inv in H as [([] & t3 & H3 & H)|(e & _ & ?)]; [|done].
  apply or_error_inv in H3 as [([] & H3 & _)|(e & _ & ?)]; [|done].
  injection H as <-. by apply (SetManifestModel_ok t2 _ _ _ H2) in H3.
Qed.
End Model.

Module ModelExamples.
Import Concrete.
#[local] Instance params : ModelParams model := {|
  MaxChunkSizeBytes := 4; model_struct := fun m => Ok (m_text m) |}.

Definition srv1 : server := MkServer db1 mc0.
Definition upload : list SetManifestEvent :=
  [SetManifestRequest_Body (MkBody "model: "); SetManifestRequest_Other;
   SetManifestRequest_Body (MkBody "v3")].
Definition uploaded : server := (Model_SetManifest no_headers ts1 None upload srv1).2.

Lemma upload_ok : Model_SetManifest no_headers ts1 None upload srv1 = (Ok tt, uploaded).
Proof.
  assert (is_ok (Model_SetManifest no_headers ts1 None upload srv1).1 = true) as H
    by (vm_compute; reflexivity).
  unfold uploaded. destruct (Model_SetManifest no_headers ts1 None upload srv1) as [[[]|e] s'];
    [reflexivity | discriminate H].
Qed.

Lemma set_manifest_stores_witness :
  exists d', repr (srv_tx uploaded) d' /\ d_body d' = Some (MkBody "model: v3") /\
    d_objs d' = d_objs dir1.
Proof.
  destruct (set_manifest_stores no_headers ts1 None upload srv1 dir1 uploaded db1_repr upload_ok)
    as (sum & m & mc' & _ & _ & Hr & _).
  eexists. split; [exact Hr|]. split; reflexivity.
Defined.

Lemma set_manifest_fails_witness :
  Model_SetManifest (MkHeaders "stale" []) ts1 None upload srv1 = (Fail (ErrHashMismatch []), srv1) /\
  srv_mc srv1 = mc0.
Proof.
  assert (Model_SetManifest (MkHeaders "stale" []) ts1 None upload srv1 =
    (Fail (ErrHashMismatch []), srv1)) as H by reflexivity.
  split; [exact H|].
  exact (proj1 (set_manifest_fails (MkHeaders "stale" []) ts1 None upload srv1 _ srv1 H)).
Defined.

Lemma manifest_roundtrip_witness :
  exists etag chunks,
    Model_GetManifest (fun _ => None) (MkHeaders "" []) true false (srv_tx uploaded) [] =
      (Ok tt, GetManifestResponse_Metadata (MkMetadata (Some ts1) etag) ::
              (GetManifestResponse_Body <$> chunks)) /\
    concat_str chunks = "model: v3".
Proof.
  destruct (manifest_roundtrip no_headers ts1 None upload srv1 dir1 uploaded (fun _ => None))
    as (etag & chunks & H & Hc & _);
    [simpl; lia | reflexivity | reflexivity | exact db1_repr | exact upload_ok |].
  exists etag, chunks. split; [exact H | exact Hc].
Defined.

Lemma delete_manifest_wipes_witness :
  exists d', repr (srv_tx (Model_DeleteManifest no_headers ts2 srv1).2) d' /\ d_objs d' = ∅ /\
    d_rels d' = ∅.
Proof.
  assert (is_ok (Model_DeleteManifest no_headers ts2 srv1).1 = true) as H by (vm_compute; reflexivity).
  destruct (Model_DeleteManifest no_headers ts2 srv1) as [[[]|e] s'] eqn:E; [|discriminate H].
  destruct (delete_manifest_wipes ts2 [] srv1 dir1 s' db1_repr E) as (m & _ & Hr & _).
  eexists. split; [exact Hr|]. split; reflexivity.
Defined.

(** the etag of an uploaded manifest depends on how the upload was cut: the same bytes sent as
    one chunk and as two get different etags, because the hash is fed the whole buffer again after
    every chunk; only a single-chunk upload gets the etag that hashing the manifest gives. *)
Theorem manifest_etag_depends_on_chunks :
  let one := recv_manifest [SetManifestRequest_Body (MkBody "abcd")] "" fnv_offset in
  let two := recv_manifest [SetManifestRequest_Body (MkBody "ab");
                            SetManifestRequest_Body (MkBody "cd")] "" fnv_offset in
  rmap fst one = rmap fst two /\
  rmap (fun x => FormatUint (snd x)) one = Ok (manifest_Hash (MkBody "abcd")) /\
  rmap (fun x => FormatUint (snd x)) two <> Ok (manifest_Hash (MkBody "abcd")).
Proof. vm_compute. split; [reflexivity|]. split; [reflexivity|]. discriminate. Qed.
End ModelExamples.
