(* ===== verification/Sessions.v ===== *)
(** * Sessions: the services one after the other

    The calls that change a directory - the writer's, the importer's and the model's - served in any order
    on one store, each of which may fail: the store stays consistent. *)
From S2P Require Import Prelude Bytes Messages Hash Keys Store Bolt Bdb BdbTx Ds Service Instances Writer Importer Model.

Section Sessions.
Context {model : Type} `{T : TxOps model} `{A : Azm model} `{!StoreOps model} `{V : Validator} `{P : ModelParams model}.

Inductive request :=
| ReqWrite (h : headers) (ts : Timestamp) (c : writer_call)
| ReqImport (send_err : nat -> option err) (object_first : bool) (evs : list stream_event)
| ReqSetManifest (h : headers) (ts : Timestamp) (close_err : option err) (msgs : list SetManifestEvent)
| ReqDeleteManifest (h : headers) (ts : Timestamp).

(** What a call leaves of the server, whether it succeeds or not. *)
Definition serve (s : server) (req : request) : server :=
  match req with
  | ReqWrite h ts c => MkServer (Writer_handle (srv_mc s) h ts c (srv_tx s)).2 (srv_mc s)
  | ReqImport send_err b evs => MkServer (Import send_err (srv_mc s) b evs (srv_tx s)).2 (srv_mc s)
  | ReqSetManifest h ts close_err msgs => (Model_SetManifest h ts close_err msgs s).2
  | ReqDeleteManifest h ts => (Model_DeleteManifest h ts s).2
  end.

Definition wf_req (req : request) : Prop :=
  match req with
  | ReqWrite _ _ c => wf_call c
  | ReqImport _ _ evs => Forall wf_event evs
  | _ => True
  end.

Context `{L : !TxLaws model T} `{AL : !AzmLaws model A}.

Definition typed (t : tx) : Prop := exists d, repr t d.

Lemma Writer_typed mc h ts c t : wf_call c -> typed t -> typed (Writer_handle mc h ts c t).2.
Proof.
  intros Hc [d Hr]. destruct (Writer_handle mc h ts c t) as [r t'] eqn:E.
  apply (handle_refines _ _ _ _ _ _ _ _ Hr Hc) in E. destruct r; simpl in *; [destruct E as (d' & ? & _)|subst]; by eexists.
Qed.

(** A function that keeps the store well typed, and what it needs of the state outside of it. *)
Definition keeps {W} (Q : W -> Prop) (fn : M (W * tx) unit) : Prop :=
  forall w t r w' t', Q w -> typed t -> fn (w, t) = (r, (w', t')) -> Q w' /\ typed t'.

Lemma UpdateE_typed {W} (Q : W -> Prop) (fn : M (W * tx) unit) w t :
  keeps Q fn -> Q w -> typed t -> typed (UpdateE fn (w, t)).2.2.
Proof.
  intros Hfn Hq Ht. unfold UpdateE. destruct (fn (w, t)) as [[[]|e] [w' t']] eqn:Hrun; [|done].
  destruct (commit_err t'); [done|]. by apply (Hfn _ _ _ _ _ Hq Ht) in Hrun as [_ ?].
Qed.
Lemma Batch_typed {W} (Q : W -> Prop) (fn : M (W * tx) unit) w t :
  keeps Q fn -> Q w -> typed t -> typed (Batch fn (w, t)).2.2.
Proof.
  intros Hfn Hq Ht. unfold Batch. destruct (fn (w, t)) as [[[]|e] [w' t']] eqn:Hrun;
    apply (Hfn _ _ _ _ _ Hq Ht) in Hrun as [? ?]; [|by apply (UpdateE_typed Q)].
  by destruct (commit_err t').
Qed.

Definition wf_pending (w : import_state) : Prop := Forall wf_event (pending w).
Lemma import_loop_pending send_err mc b evs : forall w t r w' t',
  Forall wf_event evs -> import_loop send_err mc b evs (w, t) = (r, (w', t')) -> wf_pending w'.
Proof.
  induction evs as [|ev evs IH]; intros w t r w' t' Hw; cbn [import_loop].
  - destruct w. simpl. intros [= <- <- <-]. unfold wf_pending. simpl. constructor.
  - pose proof Hw as [_ Hws]%Forall_cons. destruct ev as [|ts req|e].
    + intros [= <- <- <-]. exact Hw.
    + destruct (handleImportRequest mc ts req (ctr w, t)) as [[[]|e] [c1 t1]]; [by apply IH|].
      destruct (status_FromError e) as [[]|]; by apply IH.
    + by apply IH.
Qed.

Lemma Import_typed send_err mc b evs t : Forall wf_event evs -> typed t -> typed (Import send_err mc b evs t).2.
Proof.
  intros Hw Ht. unfold Import. set (fn := fun '(w, t) => _).
  assert (Hk : keeps wf_pending fn).
  { intros w t0 r w' t' Hq [d Hr] Hrun. split; [by eapply import_loop_pending|].
    apply (import_loop_trace send_err mc b (pending w) w t0 d r w' t' Hr Hq) in Hrun as (d' & ? & _). by exists d'. }
  pose proof (Batch_typed wf_pending fn (MkImportState evs [] (MkCounters zero_counter zero_counter)) t Hk Hw Ht) as H.
  by destruct (Batch fn _) as [[] [w t']].
Qed.

Lemma Model_SetManifest_typed h ts close_err msgs s :
  typed (srv_tx s) -> typed (srv_tx (Model_SetManifest h ts close_err msgs s).2).
Proof.
  intros [d Hr]. unfold Model_SetManifest. repeat (case_match; [by exists d|]).
  destruct (recv_manifest _ _ _) as [[data sum]|]; [|by exists d]. destruct close_err; [by exists d|].
  destruct (validator_Metadata _); [by exists d|]. destruct (manifest_Load data) as [m|]; [|by exists d].
  destruct (Update _ (srv_tx s)) as [[[]|e] t'] eqn:Hupd.
  - apply Update_ok, (setManifest_ok _ _ _ _ _ d) in Hupd; [|done].
    destruct (mc_UpdateModel _ _); simpl; by eexists.
  - apply Update_err in Hupd as ->. by exists d.
Qed.

Lemma deleteManifest_typed h md m t r t' : typed t -> deleteManifest h md m t = (r, t') -> is_ok r = true -> typed t'.
Proof.
  intros [d Hr] Hrun Hok. destruct r as [[]|]; [|done]. revert Hrun. unfold deleteManifest.
  assert (Hdel : forall t', (do! or_error manifest_Delete (ErrUnknown "failed to delete manifest");
    do! or_error (manifest_Set md "") (ErrUnknown "failed to set manifest");
    do! or_error (manifest_SetModel md m) (ErrUnknown "failed to set model"); ret tt) t = (Ok tt, t') -> typed t').
  { clear t' Hok. intros t' [([] & t1 & H1 & H)|(e & _ & ?)]%bind_inv; [|done].
    apply or_error_inv in H1 as [([] & H1 & _)|(e & _ & ?)]; [|done].
    destruct (DeleteManifest_ok t d Hr) as [_ Hd]. unfold manifest_Delete in H1. rewrite H1 in Hd. simpl in Hd.
    apply bind_inv in H as [([] & t2 & H2 & H)|(e & _ & ?)]; [|done].
    apply or_error_inv in H2 as [([] & H2 & _)|(e & _ & ?)]; [|done].
    apply (SetManifest_ok t1 _ _ _ _ Hd) in H2.
    apply bind_inv in H as [([] & t3 & H3 & H)|(e & _ & ?)]; [|done].
    apply or_error_inv in H3 as [([] & H3 & _)|(e & _ & ?)]; [|done].
    injection H as <-. apply (SetManifestModel_ok t2 _ _ _ H2) in H3. by eexists. }
  case_match; [|by apply Hdel]. destruct (manifest_Get t) as [[md' b]|]; [|intros [= <-]; by exists d].
  case_match; [done|by apply Hdel].
Qed.

Lemma serve_typed s req : wf_req req -> typed (srv_tx s) -> typed (srv_tx (serve s req)).
Proof.
  destruct req as [h ts c|se b evs|h ts ce msgs|h ts]; simpl; intros Hw Ht.
  - by apply Writer_typed.
  - by apply Import_typed.
  - by apply Model_SetManifest_typed.
  - unfold Model_DeleteManifest. destruct validator_DeleteManifestRequest; [done|].
    destruct (manifest_Load "") as [m|]; [|done].
    destruct (Update _ (srv_tx s)) as [[[]|e] t'] eqn:Hupd; simpl.
    + apply Update_ok in Hupd. by eapply deleteManifest_typed.
    + by apply Update_err in Hupd as ->.
Qed.

(** C14: The store stays consistent: after any calls of the writer, the importer and the model service, in any
    order and whatever fails in them (on a store that keeps the contract of transactions, as BoltDB does, and with
    requests whose names have no separator of the store's keys, and are set where an object is deleted with its
    relations), an object that is read by such names has the type and the id it was asked for and a relation the
    identifier, the object-ordered and the subject-ordered index list the same relations, the ones that a read by the
    identifier finds, and a scan lists the objects that a read by type and id finds. *)
Theorem session_typed reqs s :
  Forall wf_req reqs -> typed (srv_tx s) ->
  let t := srv_tx (fold_left serve reqs s) in
  (forall ty id o, wf_type ty -> GetObject ty id t = Ok o -> o_type o = ty /\ o_id o = id) /\
  (forall i r, wf_ident i -> GetRelationExact i t = Ok r -> r_ident r = i) /\
  (forall dir, exists it, ScanRelations dir no_filter "" t = Ok it /\ None ∉ collect it /\
     forall r, wf_ident (r_ident r) -> Some r ∈ collect it <-> GetRelationExact (r_ident r) t = Ok r) /\
  (exists it, ScanObjects "" "" t = Ok it /\ None ∉ collect it /\
     forall o, wf_type (o_type o) -> Some o ∈ collect it <-> GetObject (o_type o) (o_id o) t = Ok o).
Proof.
  intros Hw Ht. assert (typed (srv_tx (fold_left serve reqs s))) as [d Hr].
  { revert s Ht. induction Hw as [|req reqs Hreq Hw IH]; intros s Ht; simpl; [done|]. by apply IH, serve_typed. }
  cbn zeta. destruct (repr_wf _ _ Hr) as [Hwo Hwr].
  pose proof (GetObject_exact _ d Hr) as Ho. pose proof (GetRelationExact_exact _ d Hr) as Hg. split_and!.
  - intros ty id o Hty Hl%Ho; [|done]. by destruct (Hwo _ _ _ Hl) as (_ & ? & ?).
  - intros i r Hi Hl%Hg; [|done]. by destruct (Hwr _ _ Hl).
  - intros dir. destruct (ScanRelations_ok _ d dir no_filter Hr) as (scan & l & Hscan & (Hy & Hl & _) & _ & Hsub & Hsup).
    exists (scan ""). rewrite (collect_yields _ l) by done. split; [apply Hscan; by left|].
    split; [by intros (r & ? & _)%Hsub|]. intros r Hi. rewrite (Hg _ _ Hi). split.
    + by intros (r' & [= <-] & ?)%Hsub.
    + intros Hlr. apply (Hsup _ _ Hlr). unfold matches, field_matches. simpl. naive_solver.
  - destruct (ScanObjects_ok _ d "" Hr) as (scan & l & Hscan & (Hy & Hl & _) & _ & Hrows); [done|].
    exists (scan ""). rewrite (collect_yields _ l) by done. split; [apply Hscan; by left|].
    split; [by intros (o & ? & _)%Hrows|]. intros o Hty. rewrite (Ho _ _ _ Hty), (Hrows (Some o)). naive_solver.
Qed.
End Sessions.

Module SessionExamples.
Import Concrete ModelExamples ImporterExamples.
#[local] Existing Instance params.

Definition session1 : list request :=
  [ReqSetManifest no_headers ts1 None upload; ReqWrite no_headers ts1 (CallSetObject (Some doc));
   ReqImport (fun _ => None) true stream1; ReqWrite no_headers ts2 (CallDeleteRelation (r_ident rel2));
   ReqDeleteManifest (MkHeaders "other" []) ts2].

Lemma session1_wf : Forall wf_req session1.
Proof.
  unfold session1. rewrite !Forall_cons, Forall_nil. split_and!; try exact I; simpl.
  - intros o' [= <-]. vm_compute. reflexivity.
  - unfold stream1. rewrite !Forall_cons, Forall_nil.
    split_and!; try exact I; intros c Hc; vm_compute in Hc; first [discriminate Hc | injection Hc as <-; vm_compute; naive_solver].
  - vm_compute. repeat split.
Qed.
Lemma ok_exists {B} (r : res B) : is_ok r = true -> exists b, r = Ok b.
Proof. destruct r; [by eexists|done]. Qed.
Lemma server1_has : exists o, GetObject "doc" "1" (srv_tx (fold_left serve session1 srv1)) = Ok o.
Proof. apply ok_exists. vm_compute. reflexivity. Qed.

Lemma session_typed_witness :
  exists o, GetObject "doc" "1" (srv_tx (fold_left serve session1 srv1)) = Ok o /\ o_type o = "doc" /\ o_id o = "1".
Proof.
  destruct server1_has as [o Ho]. exists o. split; [exact Ho|].
  pose proof (session_typed session1 srv1 session1_wf (ex_intro _ dir1 db1_repr)) as H.
  cbv zeta in H. destruct H as [H _].
  exact (H "doc" "1" o eq_refl Ho).
Defined.
End SessionExamples.
