(* ===== verification/Headers.v ===== *)
(** * Request headers

    [internal/header]: W3C trace parents and request identifiers; and the request-id middleware of
    [internal/grpc/middlewares/request], which extends an incoming identifier by a fresh one.  UUIDs
    are [google/uuid]'s; random bytes are arguments. *)
From Stdlib Require Import Ascii.
From S2P Require Import Prelude Bytes Text.

(** gRPC metadata: values by (lower-case) key. *)
Definition MD : Type := gmap string (list string).

(** A context: incoming and outgoing metadata, and the value under the request-id key. *)
Record context := MkContext {
  ctx_incoming : option MD; ctx_outgoing : option MD; ctx_request_id : option string }.

(** ** [traceparent.go] *)

Definition HeaderTraceParent : string := "Traceparent".
Record TraceContext := MkTrace { TraceID : string; SpanID : string; ParentSpanID : string }.

Definition traceIDBytes : nat := 16.
Definition spanIDBytes : nat := 8.
Definition traceFlagsBytes : nat := 1.
Definition traceParentPartsCount : nat := 4.

Fixpoint zeros (n : nat) : string := match n with O => "" | S n => String "0" (zeros n) end.
Definition EncodedLen (n : nat) : nat := 2 * n.

(** The trace id and the parent id, or [ok = false]. *)
Definition parseTraceParent (v : string) : option (string * string) :=
  match Split "-" v with
  | [version; traceID; parentID; flags] =>
      if negb (String.eqb version "00")
         || negb (String.length traceID =? EncodedLen traceIDBytes)%nat
         || negb (String.length parentID =? EncodedLen spanIDBytes)%nat
         || negb (String.length flags =? EncodedLen traceFlagsBytes)%nat then None
      else if negb (forallb hex_valid [traceID; parentID; flags]) then None
      else if String.eqb traceID (zeros (EncodedLen traceIDBytes))
              || String.eqb parentID (zeros (EncodedLen spanIDBytes)) then None
      else Some (traceID, parentID)
  | _ => None
  end.

(** [rand1], [rand2]: the bytes that [rand.Read] returns for the two identifiers. *)
Definition ExtractTraceContext (rand1 rand2 : string) (ctx : context) : TraceContext :=
  let '(traceID, parentSpanID) :=
    match ctx_incoming ctx with
    | Some md =>
        match default [] (md !! ToLower HeaderTraceParent) with
        | v :: _ => match parseTraceParent v with Some ids => ids | None => ("", "") end
        | [] => ("", "")
        end
    | None => ("", "")
    end in
  let traceID := if String.eqb traceID "" then EncodeToString rand1 else traceID in
  MkTrace traceID (EncodeToString rand2) parentSpanID.

(** ** [header.go], [context.go] *)

Definition HeaderAsertoRequestID : string := "Aserto-Request-Id".
Definition HeaderAsertoRequestIDLowercase : string := ToLower HeaderAsertoRequestID.
Definition ContextWithRequestID (ctx : context) (requestID : string) : context :=
  MkContext (ctx_incoming ctx) (ctx_outgoing ctx) (Some requestID).
Definition ExtractRequestID (ctx : context) : string := default "" (ctx_request_id ctx).
Definition KnownContextValueStrings (ctx : context) : gmap string string :=
  let v := ExtractRequestID ctx in
  if String.eqb v "" then ∅ else {[HeaderAsertoRequestID := v]}.

(** ** The request-id middleware *)

Definition requestIDFromMetadata (md : MD) : string :=
  match md !! HeaderAsertoRequestID with
  | Some (id :: _) => id
  | _ =>
      match md !! ToLower HeaderAsertoRequestID with
      | Some (id :: _) => id
      | _ => ""
      end
  end.
Definition IncomingRequestID (ctx : context) : string :=
  match ctx_incoming ctx with None => "" | Some md => requestIDFromMetadata md end.
Definition OutgoingRequestID (ctx : context) : string :=
  match ctx_outgoing ctx with None => "" | Some md => requestIDFromMetadata md end.

Section RequestID.
(** [uuid.Parse] succeeds; the outcome of [uuid.NewUUID]. *)
Context (IsValidUUID : string -> bool) (NewUUID : res string).

Definition requestID (ctx : context) : res string :=
  match NewUUID with
  | Fail e => Fail (Errorf "failed to generate new request id" e)
  | Ok reqid =>
      let incomingID := IncomingRequestID ctx in
      if negb (String.eqb incomingID "") then
        let incomingID := default "" (head (Split "." incomingID)) in
        if IsValidUUID incomingID then Ok (incomingID +:+ "." +:+ reqid) else Ok reqid
      else Ok reqid
  end.

(** The server interceptors; [SetHeader] is the outcome of sending the header back. *)
Definition request_Unary {R} (SetHeader : string -> option err) (handler : context -> res R) (ctx : context)
  : res R :=
  match requestID ctx with
  | Fail e => Fail e
  | Ok id =>
      let newCtx := ContextWithRequestID ctx id in
      if negb (String.eqb id "") then
        match SetHeader id with Some e => Fail e | None => handler newCtx end
      else handler newCtx
  end.

(** The client interceptors pass the identifier on. *)
Definition request_UnaryClient {R} (invoker : context -> R) (ctx : context) : R :=
  let id := ExtractRequestID ctx in
  if negb (String.eqb id "") then
    let md := default ∅ (ctx_outgoing ctx) in
    let key := HeaderAsertoRequestIDLowercase in
    invoker (MkContext (ctx_incoming ctx) (Some (<[key := default [] (md !! key) ++ [id]]> md))
               (ctx_request_id ctx))
  else invoker ctx.
End RequestID.

(** ** Properties *)

Lemma hex_valid_nodash s : hex_valid s = true -> contains "-" s = false.
Proof.
  cut ((hex_valid s = true -> contains "-" s = false) /\
       forall a, hex_valid (String a s) = true -> contains "-" (String a s) = false); [tauto|].
  assert (forall a, is_hex a = true -> a <> "-"%char) as Hd by (by intros a Ha ->).
  induction s as [|c s [IH1 IH2]]; [done|]. split; [apply IH2|]. intros a. cbn [hex_valid].
  rewrite !andb_true_iff. intros [[Ha Hc] Hs]. cbn [contains].
  destruct (ascii_dec "-" a); [by destruct (Hd a)|]. destruct (ascii_dec "-" c); [by destruct (Hd c)|].
  by apply IH1.
Qed.

(** The form of a trace parent: version 00, the ids in hexadecimal and not all zero. *)
Definition trace_parent (traceID parentID flags : string) : string :=
  "00-" +:+ traceID +:+ "-" +:+ parentID +:+ "-" +:+ flags.
Definition hex_of_length (n : nat) (s : string) : Prop := String.length s = 2 * n /\ hex_valid s = true.

Lemma split_trace_parent t p f :
  hex_valid t = true -> hex_valid p = true -> hex_valid f = true ->
  Split "-" (trace_parent t p f) = ["00"; t; p; f].
Proof.
  intros Ht Hp Hf. unfold trace_parent.
  change ("00-" +:+ t +:+ "-" +:+ p +:+ "-" +:+ f) with ("00" +:+ String "-" (t +:+ String "-" (p +:+ String "-" f))).
  rewrite !Split_app by (apply hex_valid_nodash; done || done). by rewrite Split_nodelim by by apply hex_valid_nodash.
Qed.

Lemma parseTraceParent_iff v t p :
  parseTraceParent v = Some (t, p) <->
  exists f, v = trace_parent t p f /\
    hex_of_length traceIDBytes t /\ hex_of_length spanIDBytes p /\ hex_of_length traceFlagsBytes f /\
    t <> zeros 32 /\ p <> zeros 16.
Proof.
  unfold parseTraceParent, hex_of_length. split.
  - pose proof (Join_Split "-" v) as HJ.
    destruct (Split "-" v) as [|ver [|t' [|p' [|f [|]]]]]; try done. simpl in HJ.
    destruct (String.eqb_spec ver "00") as [->|]; [|done]. cbn [negb orb].
    destruct (Nat.eqb_spec (String.length t') (EncodedLen traceIDBytes)) as [H1|]; [|done].
    destruct (Nat.eqb_spec (String.length p') (EncodedLen spanIDBytes)) as [H2|]; [|done].
    destruct (Nat.eqb_spec (String.length f) (EncodedLen traceFlagsBytes)) as [H3|]; [|done]. cbn [negb orb].
    destruct (forallb hex_valid [t'; p'; f]) eqn:Hx; [|done]. cbn [negb].
    destruct (String.eqb_spec t' (zeros (EncodedLen traceIDBytes))) as [|N1]; [done|].
    destruct (String.eqb_spec p' (zeros (EncodedLen spanIDBytes))) as [|N2]; [done|].
    intros [= -> ->]. cbn in Hx. rewrite !andb_true_iff in Hx. destruct Hx as (? & ? & ? & _).
    exists f. split; [by rewrite <-HJ|done].
  - intros (f & -> & [Lt Ht] & [Lp Hp] & [Lf Hf] & Nt & Np). rewrite split_trace_parent by done.
    unfold EncodedLen. rewrite Lt, Lp, Lf, !Nat.eqb_refl. cbn [negb orb String.eqb Ascii.eqb Bool.eqb forallb].
    rewrite Ht, Hp, Hf. cbn [negb andb].
    destruct (String.eqb_spec t (zeros (2 * traceIDBytes))); [done|].
    by destruct (String.eqb_spec p (zeros (2 * spanIDBytes))).
Qed.

(** a trace parent header is accepted exactly when it has the W3C form, and then yields its
    trace id and its parent id; nothing else is taken from a header. *)
Theorem traceparent_exact v t p :
  parseTraceParent v = Some (t, p) <->
  exists f, v = trace_parent t p f /\
    hex_of_length traceIDBytes t /\ hex_of_length spanIDBytes p /\ hex_of_length traceFlagsBytes f /\
    t <> zeros 32 /\ p <> zeros 16.
Proof. apply parseTraceParent_iff. Qed.

Lemma hex_encode b : hex_of_length (String.length b) (EncodeToString b).
Proof.
  induction b as [|c b [IH1 IH2]]; [done|]. split; cbn [EncodeToString String.length].
  - rewrite IH1. lia.
  - cbn [hex_valid]. rewrite IH2, !andb_true_r, andb_true_iff.
    assert (forall n, n < 16 -> is_hex (hex_digit n) = true) as Hd.
    { intros n Hn. do 16 (destruct n; [reflexivity|]). lia. }
    split; apply Hd; [|by apply Nat.mod_upper_bound].
    apply Nat.Div0.div_lt_upper_bound. pose proof (nat_ascii_bounded c). lia.
Qed.

(** Whatever the headers, the trace context names a trace and a span in hexadecimal, and a parent
    only when a valid header gave one. *)
Theorem trace_context_valid rand1 rand2 ctx :
  String.length rand1 = traceIDBytes -> String.length rand2 = spanIDBytes ->
  let tc := ExtractTraceContext rand1 rand2 ctx in
  hex_of_length traceIDBytes (TraceID tc) /\ hex_of_length spanIDBytes (SpanID tc) /\
  (ParentSpanID tc = "" \/ hex_of_length spanIDBytes (ParentSpanID tc)).
Proof.
  intros L1 L2 tc. pose proof (hex_encode rand1) as H1. pose proof (hex_encode rand2) as H2.
  rewrite L1 in H1. rewrite L2 in H2.
  assert (exists t p, tc = MkTrace (if String.eqb t "" then EncodeToString rand1 else t) (EncodeToString rand2) p
    /\ ((t = "" /\ p = "") \/ exists v, parseTraceParent v = Some (t, p))) as (t & p & -> & Htp).
  { unfold tc, ExtractTraceContext. destruct (ctx_incoming ctx) as [md|]; [|by exists "", ""; auto].
    destruct (default [] (md !! ToLower HeaderTraceParent)) as [|v l]; [by exists "", ""; auto|].
    destruct (parseTraceParent v) as [[t p]|] eqn:E; [|by exists "", ""; auto]. exists t, p. eauto. }
  cbn [TraceID SpanID ParentSpanID]. destruct Htp as [[-> ->]|[v Hv]]; [by split_and!; auto|].
  apply parseTraceParent_iff in Hv as (f & _ & Ht & Hp & _). split_and!; [|done|by right].
  destruct (String.eqb_spec t "") as [->|]; done.
Qed.

(** a request identifier is a fresh UUID, behind at most one more: the first identifier of the
    chain that came in, when it is a valid UUID.  However long a chain a caller sends, the
    identifier handed on has at most two parts, so chains do not grow from hop to hop. *)
Theorem request_id_bounded IsValidUUID reqid ctx id :
  contains "." reqid = false -> requestID IsValidUUID (Ok reqid) ctx = Ok id ->
  id = reqid \/
  exists first, IsValidUUID first = true /\ contains "." first = false /\ id = first +:+ "." +:+ reqid /\
    Split "." id = [first; reqid] /\ HasPrefix (IncomingRequestID ctx) first = true.
Proof.
  intros Hr. unfold requestID. destruct (String.eqb_spec (IncomingRequestID ctx) "") as [|Hne]; cbn [negb];
    [intros [= ->]; by left|].
  destruct (IsValidUUID _) eqn:Hv; [|intros [= ->]; by left]. intros [= <-]. right.
  eexists. split; [exact Hv|].
  pose proof (Split_parts "." (IncomingRequestID ctx)) as Hp.
  pose proof (Join_Split "." (IncomingRequestID ctx)) as HJ.
  destruct (Split_cons "." (IncomingRequestID ctx)) as (first & l & E). rewrite E in *. cbn [head default] in *.
  apply Forall_cons in Hp as [Hfirst _]. split_and!; [done|done|..].
  - trans (Split "." (first +:+ String "." reqid)); [done|]. by rewrite Split_app, Split_nodelim.
  - rewrite <-HJ. apply HasPrefix_iff. destruct l as [|q l]; cbn [Join].
    + exists "". by rewrite app_nil_r_str.
    + eexists. reflexivity.
Qed.

Module HeaderExamples.
Definition caller : context :=
  MkContext (Some {["aserto-request-id" := ["u1.u2.u3"]]}) None None.
Definition short (s : string) : bool := (String.length s =? 2)%nat.

Lemma request_id_bounded_witness : Split "." "u1.u9" = ["u1"; "u9"].
Proof.
  destruct (request_id_bounded short "u9" caller "u1.u9") as [H|(first & _ & _ & _ & H & _)].
  - reflexivity.
  - vm_compute. reflexivity.
  - discriminate H.
  - assert (first = "u1") as E by (vm_compute in H; by injection H as <-). rewrite E in H. exact H.
Defined.

Lemma trace_example :
  parseTraceParent "00-4bf92f3577b34da6a3ce929d0e0e4736-00f067aa0ba902b7-01" =
  Some ("4bf92f3577b34da6a3ce929d0e0e4736", "00f067aa0ba902b7").
Proof. vm_compute. reflexivity. Qed.
End HeaderExamples.
