(* ===== verification/Adl.v ===== *)
(** * The decision log

    [internal/adl]: the record of a decision, the configured outputs, and [emit], which writes one
    record to every output.  Encoding a record, writing to standard output and bringing up the OTLP
    exporter are outcomes given from outside; the outputs are lists of records. *)
From Stdlib Require Import Ascii.
From S2P Require Import Prelude Bytes Text Messages Headers.

(** [structpb.Struct]; a nil one is [None]. *)
Definition Struct : Type := gmap string Value.

(** ** [config.go] *)

Definition OutputStdout : string := "stdout".
Definition OutputOTLP : string := "otlp".
Definition defaultOutput : string := OutputStdout +:+ "," +:+ OutputOTLP.
Definition resourceKeyInstanceID : string := "instance_id".
Definition defaultResourceTypeKey : string := "object_type".
Definition defaultResourceIDKey : string := "object_id".

Record adl_Config := MkAdlConfig {
  Enabled : bool; Output : string; OTLP_Endpoint : string; cfg_Resource : gmap string string;
  TypeKey : string; IDKey : string }.

(** [os.Hostname] with its outcome, and a fresh UUID for a host without a name. *)
Definition instanceID (hostname : res string) (uuid : string) : string :=
  match hostname with
  | Ok h => if String.eqb h "" then uuid else h
  | Fail _ => uuid
  end.
Definition effectiveResource (hostname : res string) (uuid : string) (c : adl_Config) : gmap string string :=
  match cfg_Resource c !! resourceKeyInstanceID with
  | Some _ => cfg_Resource c
  | None => <[resourceKeyInstanceID := instanceID hostname uuid]> (cfg_Resource c)
  end.
Definition typeKey (c : adl_Config) : string :=
  if String.eqb (TypeKey c) "" then defaultResourceTypeKey else TypeKey c.
Definition idKey (c : adl_Config) : string :=
  if String.eqb (IDKey c) "" then defaultResourceIDKey else IDKey c.

(** The trailing half of [strings.TrimSpace]. *)
Fixpoint trim_right (s : string) : string :=
  if String.eqb (trim_left s) "" then ""
  else match s with EmptyString => "" | String c s' => String c (trim_right s') end.
Definition TrimSpace (s : string) : string := trim_right (trim_left s).

Definition outputs (c : adl_Config) : gset string :=
  let raw := if String.eqb (TrimSpace (Output c)) "" then defaultOutput else Output c in
  list_to_set (filter (fun o => o <> "") (map TrimSpace (Split "," raw))).

(** ** [record.go] *)

Inductive Status := StatusOk | StatusError.

Definition EventAccessEvaluation : string := "adl.access_evaluation".
Definition EventAccessEvaluations : string := "adl.access_evaluations".
Definition EventSearchSubject : string := "adl.search_subject".
Definition EventSearchAction : string := "adl.search_action".
Definition EventSearchResource : string := "adl.search_resource".

(** [stringField]; [AuthZENResource] lifts the type and the id out of the configured keys. *)
Definition stringField (props : option Struct) (key : string) : string :=
  match props with
  | None => ""
  | Some fields => match fields !! key with Some v => GetStringValue v | None => "" end
  end.
Record Resource := MkResource { res_type : string; res_id : string; res_properties : option Struct }.
Definition AuthZENResource (c : adl_Config) (props : option Struct) : Resource :=
  MkResource (stringField props (typeKey c)) (stringField props (idKey c)) props.

Section Log.
(** The requests, the responses and the recorded form of a response. *)
Context {Q A J : Type} (responseForJSON : A -> J).

Record adl_Record := MkAdlRecord {
  ar_trace : TraceContext; ar_EventName : string; ar_Timestamp : Z; ar_Status : Status;
  ar_Resource : gmap string string; ar_Request : Q; ar_Response : option J }.

(** A logger: its configuration, whether [out] is standard output (and not discarded), and whether
    the OTLP exporter is up.  A nil logger is [None]. *)
Record Logger := MkLogger { l_cfg : adl_Config; l_stdout : bool; l_otel : bool }.

(** [startOTel]: [exporter] is the outcome of setting it up. *)
Definition startOTel (exporter : option err) (c : adl_Config) : bool :=
  if String.eqb (OTLP_Endpoint c) "" then false else match exporter with None => true | Some _ => false end.

Definition adl_New (hostname : res string) (uuid : string) (exporter : option err) (c : adl_Config) : Logger :=
  let c := MkAdlConfig (Enabled c) (Output c) (OTLP_Endpoint c) (effectiveResource hostname uuid c)
             (TypeKey c) (IDKey c) in
  if negb (Enabled c) then MkLogger c false false
  else MkLogger c (bool_decide (OutputStdout ∈ outputs c))
         (if bool_decide (OutputOTLP ∈ outputs c) then startOTel exporter c else false).

Definition adl_Close (l : option Logger) : option Logger :=
  (fun l => MkLogger (l_cfg l) false false) <$> l.

Definition active (l : option Logger) : bool :=
  match l with None => false | Some l => Enabled (l_cfg l) end.

Definition record (l : Logger) (tc : TraceContext) (now : Z) (eventName : string) (request : Q) (response : A)
    (evalErr : option err) : adl_Record :=
  match evalErr with
  | Some _ => MkAdlRecord tc eventName now StatusError (cfg_Resource (l_cfg l)) request None
  | None => MkAdlRecord tc eventName now StatusOk (cfg_Resource (l_cfg l)) request (Some (responseForJSON response))
  end.

(** What was written to standard output and handed to the exporter. *)
Record trail := MkTrail { on_stdout : list adl_Record; on_otlp : list adl_Record }.

(** The outcomes of encoding a record and of writing it to standard output. *)
Context (marshal_err write_err : adl_Record -> option err).

Definition writeRecordStdout (l : Logger) (r : adl_Record) (w : trail) : option err * trail :=
  match marshal_err r with
  | Some e => (Some (Errorf "error marshaling adl decision record" e), w)
  | None =>
      if l_stdout l then
        match write_err r with
        | Some e => (Some (Errorf "error writing adl decision record" e), w)
        | None => (None, MkTrail (on_stdout w ++ [r]) (on_otlp w))
        end
      else (None, w)
  end.
Definition otel_emit (r : adl_Record) (w : trail) : option err * trail :=
  match marshal_err r with
  | Some e => (Some (Errorf "error marshaling adl decision record for otlp" e), w)
  | None => (None, MkTrail (on_stdout w) (on_otlp w ++ [r]))
  end.

(** [errors.Join]: no error when there is none; the first stands for the joined ones. *)
Definition errors_Join (errs : list err) : option err := head errs.

Definition emit (l : option Logger) (tc : TraceContext) (now : Z) (eventName : string) (request : Q)
    (response : A) (evalErr : option err) (w : trail) : option err * trail :=
  match l with
  | None => (None, w)
  | Some lg =>
      if negb (active l) then (None, w)
      else
        let rec := record lg tc now eventName request response evalErr in
        let '(e1, w) := writeRecordStdout lg rec w in
        let '(e2, w) := if l_otel lg then otel_emit rec w else (None, w) in
        (errors_Join (option_list e1 ++ option_list e2), w)
  end.

(** ** Properties *)

Lemma emit_inactive l tc now ev q a e w : active l = false -> emit l tc now ev q a e w = (None, w).
Proof. destruct l as [lg|]; [|done]. cbn. by intros ->. Qed.

Lemma emit_ok lg tc now ev q a e w w' :
  Enabled (l_cfg lg) = true -> emit (Some lg) tc now ev q a e w = (None, w') ->
  let r := record lg tc now ev q a e in
  on_stdout w' = on_stdout w ++ (if l_stdout lg then [r] else []) /\
  on_otlp w' = on_otlp w ++ (if l_otel lg then [r] else []).
Proof.
  intros Hen. unfold emit, active. rewrite Hen. cbn [negb]. unfold writeRecordStdout, otel_emit.
  destruct (marshal_err _) as [e0|]; [by destruct (l_otel lg)|].
  destruct (l_stdout lg), (l_otel lg); try (destruct (write_err _); [done|]);
    intros [= <-]; cbn; by rewrite ?app_nil_r.
Qed.

(** when logging a decision reports no error on an enabled logger, exactly one record was
    added to each output that is up, and none elsewhere; it carries the request and, with status Ok,
    the response, or status Error and no response when the decision failed.  A failing output does
    not keep the record from the other one. *)
Theorem adl_emit_exact lg tc now ev q a e w err w' :
  Enabled (l_cfg lg) = true -> emit (Some lg) tc now ev q a e w = (err, w') ->
  let r := record lg tc now ev q a e in
  ar_Request r = q /\ (ar_Status r = StatusError <-> is_Some e) /\
  (ar_Response r = match e with None => Some (responseForJSON a) | Some _ => None end) /\
  (err = None -> on_stdout w' = on_stdout w ++ (if l_stdout lg then [r] else []) /\
                 on_otlp w' = on_otlp w ++ (if l_otel lg then [r] else [])) /\
  (marshal_err r = None -> l_otel lg = true -> on_otlp w' = on_otlp w ++ [r]).
Proof.
  intros Hen H r. split_and!.
  - unfold r, record. by destruct e.
  - unfold r, record. by destruct e; split.
  - unfold r, record. by destruct e.
  - intros ->. by apply emit_ok.
  - intros Hm Ho. unfold emit, active in H. rewrite Hen in H. cbn [negb] in H. fold r in H.
    unfold writeRecordStdout, otel_emit in H. rewrite Hm, Ho in H.
    destruct (l_stdout lg); [destruct (write_err r)|]; by injection H as <- <-.
Qed.

(** an enabled logger may have no output at all: with OTLP as the only configured output and an
    exporter that could not be set up, every decision is answered without an error and without a
    record. *)
Theorem adl_silent_without_output hostname uuid exporter c tc now ev q a e w :
  outputs c = {[OutputOTLP]} -> (OTLP_Endpoint c = "" \/ is_Some exporter) ->
  (forall r, marshal_err r = None) ->
  emit (Some (adl_New hostname uuid exporter c)) tc now ev q a e w = (None, w).
Proof.
  intros Ho Hx Hm. unfold adl_New.
  set (c' := MkAdlConfig (Enabled c) (Output c) (OTLP_Endpoint c) (effectiveResource hostname uuid c)
               (TypeKey c) (IDKey c)).
  destruct (negb (Enabled c')) eqn:En; [by apply emit_inactive, negb_true_iff|].
  assert (startOTel exporter c' = false) as Hs.
  { unfold startOTel. cbn [OTLP_Endpoint c']. destruct (String.eqb_spec (OTLP_Endpoint c) ""); [done|].
    destruct Hx as [?|[e0 ->]]; done. }
  assert (outputs c' = {[OutputOTLP]}) as Ho' by exact Ho.
  rewrite (bool_decide_eq_false_2 (OutputStdout ∈ outputs c')) by (rewrite Ho'; by vm_compute).
  rewrite Hs. unfold emit, active. cbn [l_cfg]. rewrite En. unfold writeRecordStdout.
  rewrite Hm. cbn [l_stdout l_otel]. by destruct (bool_decide _).
Qed.
End Log.
Arguments adl_Record : clear implicits.
Arguments trail : clear implicits.

Module AdlExamples.
Definition no_err : adl_Record string string -> option err := fun _ => None.
Definition pipe_closed : adl_Record string string -> option err := fun _ => Some (XErr UnknownCode "broken pipe").
Definition both : adl_Config := MkAdlConfig true " stdout , otlp" "localhost:4317" ∅ "" "".
Definition otlp_only : adl_Config := MkAdlConfig true "otlp" "" ∅ "" "".
Definition tc0 : TraceContext := MkTrace "" "" "".
Definition start : trail string string := MkTrail [] [].

(** Standard output is broken; the exporter still gets the record. *)
Lemma adl_emit_exact_witness :
  on_otlp (emit id no_err pipe_closed (Some (adl_New (Ok "pod-1") "" None both)) tc0 0 EventAccessEvaluation
             "request" "response" None start).2 =
  [record id (adl_New (Ok "pod-1") "" None both) tc0 0 EventAccessEvaluation "request" "response" None].
Proof.
  refine (proj2 (proj2 (proj2 (proj2 (adl_emit_exact id no_err pipe_closed
    (adl_New (Ok "pod-1") "" None both) tc0 0 EventAccessEvaluation "request" "response" None start _ _ _ _)))) _ _).
  - vm_compute. reflexivity.
  - apply surjective_pairing.
  - reflexivity.
  - vm_compute. reflexivity.
Defined.

Lemma adl_silent_without_output_witness :
  emit id no_err no_err (Some (adl_New (Ok "pod-1") "" None otlp_only)) tc0 0 EventAccessEvaluation
    "request" "response" None start = (None, start).
Proof.
  apply (adl_silent_without_output id no_err no_err (Ok "pod-1") "" None otlp_only).
  - vm_compute. reflexivity.
  - left. reflexivity.
  - intros r. reflexivity.
Defined.
End AdlExamples.
