(* ===== verification/Access.v ===== *)
(** * The AuthZEN access service

    [internal/eds/pkg/directory/v3/access.go]: evaluations and searches translated to checks and
    graph queries of the reader, each answered only after its decision record is written. *)
From S2P Require Import Prelude Bytes Messages Keys Store Bolt Bdb BdbTx Ds Service Instances Reader Headers Adl.

(** A subject or a resource; a nil one is [None]. *)
Record Entity := MkEntity { en_type : string; en_id : string }.
Record EvaluationRequest := MkEval {
  ev_subject : option Entity; ev_action : option string; ev_resource : option Entity }.
Record EvaluationsRequest := MkEvals {
  evs_subject : option Entity; evs_action : option string; evs_resource : option Entity;
  evs_evaluations : list EvaluationRequest }.
Record EvaluationResponse := MkEvalResp { Decision_ : bool; ev_context : option Context }.
Definition zero_EvaluationResponse : EvaluationResponse := MkEvalResp false None.

(** What the decision log is told: the request, and the response.  A response is recorded as it is: its decision is
    written also when it is false ([responseForJSON]). *)
Inductive AccessRequest :=
| AskEvaluation (req : EvaluationRequest)
| AskEvaluations (req : EvaluationsRequest)
| AskSubjects (req : EvaluationRequest)
| AskResources (req : EvaluationRequest)
| AskActions (req : EvaluationRequest).
Inductive AccessResponse :=
| RespEvaluation (r : EvaluationResponse)
| RespEvaluations (l : list EvaluationResponse)
| RespSubjects (l : list Entity)
| RespResources (l : list Entity)
| RespActions (l : list string).
Definition access_recorded (r : AccessResponse) : AccessResponse := r.

(** ** Extraction of the queries *)

Definition extractCheck (req : EvaluationRequest) : CheckRequest :=
  let checkReq := zero_CheckRequest in
  let checkReq :=
    match ev_resource req with
    | Some res => MkCheck (en_type res) (en_id res) (c_relation checkReq) (c_subject_type checkReq)
                    (c_subject_id checkReq) (c_trace checkReq)
    | None => checkReq
    end in
  let checkReq :=
    match ev_action req with
    | Some act => MkCheck (c_object_type checkReq) (c_object_id checkReq) act
                    (c_subject_type checkReq) (c_subject_id checkReq) (c_trace checkReq)
    | None => checkReq
    end in
  match ev_subject req with
  | Some sub => MkCheck (c_object_type checkReq) (c_object_id checkReq) (c_relation checkReq)
                  (en_type sub) (en_id sub) (c_trace checkReq)
  | None => checkReq
  end.

Definition extractChecks (req : EvaluationsRequest) : CheckRequest * list CheckRequest :=
  let check := extractCheck (MkEval (evs_subject req) (evs_action req) (evs_resource req)) in
  (check, map extractCheck (evs_evaluations req)).

Definition extractDecisions (resp : list CheckResponse) : list EvaluationResponse :=
  map (fun v => MkEvalResp (check_ v) (check_context v)) resp.

Definition opt_type (e : option Entity) : string := match e with Some e => en_type e | None => "" end.
Definition opt_id (e : option Entity) : string := match e with Some e => en_id e | None => "" end.

Definition extractSubjectSearch (req : EvaluationRequest) : GetGraphRequest :=
  MkGraph (opt_type (ev_resource req)) (opt_id (ev_resource req)) (default "" (ev_action req))
    (opt_type (ev_subject req)) "" "".
Definition extractResourceSearch (req : EvaluationRequest) : GetGraphRequest :=
  MkGraph (opt_type (ev_resource req)) "" (default "" (ev_action req))
    (opt_type (ev_subject req)) (opt_id (ev_subject req)) "".
Definition extractActionSearch (req : EvaluationRequest) : GetGraphRequest :=
  MkGraph (opt_type (ev_resource req)) (opt_id (ev_resource req)) ""
    (opt_type (ev_subject req)) (opt_id (ev_subject req)) "".

(** [adlError]: a genuine error wins, otherwise a failure of the log is the error. *)
Definition adlError (evalErr logErr : option err) : option err :=
  match logErr with
  | None => evalErr
  | Some _ => match evalErr with Some _ => evalErr | None => logErr end
  end.

Section Access.
Context {model : Type} `{T : TxOps model} `{A : Azm model} `{V : Validator}.

(** ** The evaluations *)

Definition evaluation (mc : cache) (req : EvaluationRequest) (t : tx)
  : EvaluationResponse * option err :=
  let resp := Reader_Check mc (extractCheck req) t in
  (MkEvalResp (check_ resp) (check_context resp), None).

Definition evaluations (mc : cache) (req : EvaluationsRequest) (t : tx)
  : list EvaluationResponse * option err :=
  let '(defCheck, checks) := extractChecks req in
  match Reader_Checks mc (MkChecks (Some defCheck) checks) t with
  | Fail e => ([], Some e)
  | Ok checksResp => (extractDecisions checksResp, None)
  end.

Definition search (mc : cache) (graphReq : GetGraphRequest) (t : tx) : list Entity * option err :=
  match Reader_GetGraph mc graphReq t with
  | Fail e => ([], Some e)
  | Ok results => (map (fun oid => MkEntity oid.1 oid.2) results, None)
  end.

Definition subjectSearch (mc : cache) (req : EvaluationRequest) (t : tx) : list Entity * option err :=
  search mc (extractSubjectSearch req) t.
Definition resourceSearch (mc : cache) (req : EvaluationRequest) (t : tx) : list Entity * option err :=
  search mc (extractResourceSearch req) t.

(** The names of the granted checks; [None] is an index out of range. *)
Fixpoint granted (i : nat) (checks : list CheckResponse) (assignable results : list string)
  : option (list string) :=
  match checks with
  | [] => Some results
  | chk :: checks =>
      if check_ chk then
        match assignable !! i with
        | Some name => granted (S i) checks assignable (results ++ [name])
        | None => None
        end
      else granted (S i) checks assignable results
  end.

Definition actionSearch (mc : cache) (req : EvaluationRequest) (t : tx) : list string * option err :=
  let graphReq := extractActionSearch req in
  match mc_AvailablePermissions mc (g_object_type graphReq) (g_subject_type graphReq) with
  | Fail e => ([], Some e)
  | Ok availablePermissions =>
      let assignable := [] ++ availablePermissions in
      let checks := map (fun rel => MkCheck "" "" rel "" "" false) assignable in
      match Reader_Checks mc
              (MkChecks (Some (MkCheck (g_object_type graphReq) (g_object_id graphReq) ""
                                 (g_subject_type graphReq) (g_subject_id graphReq) false)) checks) t with
      | Fail e => ([], Some e)
      | Ok checksResp =>
          match granted 0 checksResp assignable [] with
          | Some results => (results, None)
          | None => ([], Some nil_pointer)
          end
      end
  end.

(** ** The endpoints

    The logger, the trace and the time of the call, and the outcomes of encoding and of writing a record. *)
Context (marshal_err write_err : adl_Record AccessRequest AccessResponse -> option err).
Context (adl : option Logger) (tc : TraceContext) (now : Z).
Abbreviation adl_trail := (trail AccessRequest AccessResponse).

Definition logged {R} (event : string) (q : AccessRequest) (wrap : R -> AccessResponse) (out : R * option err)
    (w : adl_trail) : R * option err * adl_trail :=
  let '(resp, e) := out in
  let '(logErr, w) := emit access_recorded marshal_err write_err adl tc now event q (wrap resp) e w in
  (resp, adlError e logErr, w).

Definition Evaluation mc req t w :=
  logged EventAccessEvaluation (AskEvaluation req) RespEvaluation (evaluation mc req t) w.
Definition Evaluations mc req t w :=
  logged EventAccessEvaluations (AskEvaluations req) RespEvaluations (evaluations mc req t) w.
Definition SubjectSearch mc req t w :=
  logged EventSearchSubject (AskSubjects req) RespSubjects (subjectSearch mc req t) w.
Definition ResourceSearch mc req t w :=
  logged EventSearchResource (AskResources req) RespResources (resourceSearch mc req t) w.
Definition ActionSearch mc req t w :=
  logged EventSearchAction (AskActions req) RespActions (actionSearch mc req t) w.

(** ** Properties *)

Definition wrapped_out {R} (wrap : R -> AccessResponse) (out : R * option err) : AccessResponse * option err :=
  (wrap out.1, out.2).
(** A call of any of the five endpoints; what the evaluation gives; and the event of its record. *)
Definition access_call mc (q : AccessRequest) t (w : adl_trail) : AccessResponse * option err * adl_trail :=
  match q with
  | AskEvaluation req => let '(r, e, w) := Evaluation mc req t w in (RespEvaluation r, e, w)
  | AskEvaluations req => let '(r, e, w) := Evaluations mc req t w in (RespEvaluations r, e, w)
  | AskSubjects req => let '(r, e, w) := SubjectSearch mc req t w in (RespSubjects r, e, w)
  | AskResources req => let '(r, e, w) := ResourceSearch mc req t w in (RespResources r, e, w)
  | AskActions req => let '(r, e, w) := ActionSearch mc req t w in (RespActions r, e, w)
  end.
Definition access_answer mc (q : AccessRequest) t : AccessResponse * option err :=
  match q with
  | AskEvaluation req => wrapped_out RespEvaluation (evaluation mc req t)
  | AskEvaluations req => wrapped_out RespEvaluations (evaluations mc req t)
  | AskSubjects req => wrapped_out RespSubjects (subjectSearch mc req t)
  | AskResources req => wrapped_out RespResources (resourceSearch mc req t)
  | AskActions req => wrapped_out RespActions (actionSearch mc req t)
  end.
Definition event_of (q : AccessRequest) : string :=
  match q with
  | AskEvaluation _ => "adl.access_evaluation"
  | AskEvaluations _ => "adl.access_evaluations"
  | AskSubjects _ => "adl.search_subject"
  | AskResources _ => "adl.search_resource"
  | AskActions _ => "adl.search_action"
  end.

Lemma logged_exact {R} event q (wrap : R -> AccessResponse) out w lg :
  adl = Some lg -> Enabled (l_cfg lg) = true ->
  let rec := MkAdlRecord tc event now StatusOk (cfg_Resource (l_cfg lg)) q (Some (wrapped_out wrap out).1) in
  exists e w', (let '(r, e, w) := logged event q wrap out w in (wrap r, e, w)) = ((wrapped_out wrap out).1, e, w') /\
    (forall ev, (wrapped_out wrap out).2 = Some ev -> e = Some ev) /\
    (e = None <-> (wrapped_out wrap out).2 = None /\ marshal_err rec = None /\ (l_stdout lg = true -> write_err rec = None)) /\
    (e = None -> on_stdout w' = on_stdout w ++ (if l_stdout lg then [rec] else []) /\
                 on_otlp w' = on_otlp w ++ (if l_otel lg then [rec] else [])).
Proof.
  intros Ha Hen rec. destruct out as [resp e]. cbn [wrapped_out fst snd]. unfold logged, emit, active. rewrite Ha, Hen.
  cbn [negb]. destruct e as [e|].
  { destruct (writeRecordStdout _ _ _ _ _) as [e1 w1]. destruct (if l_otel lg then _ else _) as [e2 w2].
    exists (Some e), w2. unfold adlError. split_and!; [by destruct (errors_Join _)|done|naive_solver|done]. }
  change (record _ _ _ _ _ _ _ None) with rec. unfold writeRecordStdout, otel_emit, adlError.
  destruct (marshal_err rec) as [em|]; [destruct (l_otel lg); eexists _, _; split_and!; try done; naive_solver|].
  destruct (l_stdout lg), (l_otel lg); try (destruct (write_err rec) as [ew|]);
    eexists _, _; (split; [reflexivity|]; split; [done|]; split; [naive_solver|]; intros ?; cbn; by rewrite ?app_nil_r).
Qed.

Lemma access_call_exact mc q t lg w :
  adl = Some lg -> Enabled (l_cfg lg) = true ->
  let resp := (access_answer mc q t).1 in
  let rec := MkAdlRecord tc (event_of q) now StatusOk (cfg_Resource (l_cfg lg)) q (Some resp) in
  exists e w', access_call mc q t w = (resp, e, w') /\
    (forall ev, (access_answer mc q t).2 = Some ev -> e = Some ev) /\
    (e = None <-> (access_answer mc q t).2 = None /\ marshal_err rec = None /\ (l_stdout lg = true -> write_err rec = None)) /\
    (e = None -> on_stdout w' = on_stdout w ++ (if l_stdout lg then [rec] else []) /\
                 on_otlp w' = on_otlp w ++ (if l_otel lg then [rec] else [])).
Proof.
  intros Ha Hen. destruct q as [req|req|req|req|req].
  - exact (logged_exact _ _ RespEvaluation (evaluation mc req t) w lg Ha Hen).
  - exact (logged_exact _ _ RespEvaluations (evaluations mc req t) w lg Ha Hen).
  - exact (logged_exact _ _ RespSubjects (subjectSearch mc req t) w lg Ha Hen).
  - exact (logged_exact _ _ RespResources (resourceSearch mc req t) w lg Ha Hen).
  - exact (logged_exact _ _ RespActions (actionSearch mc req t) w lg Ha Hen).
Qed.

(** C19: No decision reaches a client without a log record, as long as the decision log is enabled and has an output:
    on such a log, each of the five access calls answers what the evaluation gives, with the evaluation's own error when
    it failed, whatever becomes of the log; and it returns without an error exactly when the evaluation succeeded and
    its record could be encoded and, where standard output is on, written.  Then every output that is on (there
    is one) has exactly one new record, under the event of the call, with the request and the response that is
    returned.  (A nil or disabled logger, and an enabled one without an output, let decisions through unrecorded:
    [adl_silent_without_output].) *)
Theorem no_unlogged_decision mc q t lg w :
  adl = Some lg -> Enabled (l_cfg lg) = true -> l_stdout lg || l_otel lg = true ->
  let resp := (access_answer mc q t).1 in
  let rec := MkAdlRecord tc (event_of q) now StatusOk (cfg_Resource (l_cfg lg)) q (Some resp) in
  exists e w', access_call mc q t w = (resp, e, w') /\
    (forall ev, (access_answer mc q t).2 = Some ev -> e = Some ev) /\
    (e = None <-> (access_answer mc q t).2 = None /\ marshal_err rec = None /\ (l_stdout lg = true -> write_err rec = None)) /\
    (e = None ->
       on_stdout w' = on_stdout w ++ (if l_stdout lg then [rec] else []) /\
       on_otlp w' = on_otlp w ++ (if l_otel lg then [rec] else []) /\
       (rec ∈ on_stdout w' \/ rec ∈ on_otlp w')).
Proof.
  intros Ha Hen Hout resp rec.
  destruct (access_call_exact mc q t lg w Ha Hen) as (e & w' & H1 & H2 & H3 & H4).
  exists e, w'. split; [done|]. split; [done|]. split; [done|]. intros He. destruct (H4 He) as [E1 E2]. split_and!; [done..|].
  rewrite E1, E2. destruct (l_stdout lg); [left; set_solver|]. cbn in Hout. rewrite Hout. right. set_solver.
Qed.

(** The default check of a request with the relation of a permission. *)
Definition action_checks (req : EvaluationRequest) (perms : list string) : list CheckRequest :=
  CheckRequests (MkCheck (opt_type (ev_resource req)) (opt_id (ev_resource req)) ""
                   (opt_type (ev_subject req)) (opt_id (ev_subject req)) false)
    (map (fun rel => MkCheck "" "" rel "" "" false) perms).

Lemma granted_filter (f : CheckRequest -> CheckResponse) perms : forall done todo cs results,
  perms = done ++ todo -> length cs = length todo ->
  granted (length done) (map f cs) perms results =
  Some (results ++ (filter (fun pc => check_ (f pc.2) = true) (zip todo cs)).*1).
Proof.
  intros done todo. revert done. induction todo as [|p todo IH]; intros done [|c cs] results Hp Hl;
    simpl in *; try lia; [by rewrite app_nil_r|].
  rewrite filter_cons. simpl.
  assert (perms !! length done = Some p) as Hlk by (by rewrite Hp, list_lookup_middle).
  assert (granted (S (length done)) (map f cs) perms =
    granted (length (done ++ [p])) (map f cs) perms) as Hg
    by (by rewrite length_app, Nat.add_comm).
  destruct (check_ (f c)) eqn:Hc.
  - rewrite Hlk, decide_True by done. rewrite Hg, (IH (done ++ [p])).
    + simpl. by rewrite <-app_assoc.
    + by rewrite Hp, <-app_assoc.
    + lia.
  - rewrite decide_False by congruence. rewrite Hg, (IH (done ++ [p])); [done| |lia].
    by rewrite Hp, <-app_assoc.
Qed.

(** an action search lists, in the model's order, exactly the available permissions whose check
    for the request's subject and resource is granted. *)
Theorem action_search_exact `{AL : !AzmLaws model A} mc req t perms :
  mc_AvailablePermissions mc (opt_type (ev_resource req)) (opt_type (ev_subject req)) = Ok perms ->
  actionSearch mc req t =
  ((filter (fun pc => check_ (checks_consumer mc t pc.2) = true)
      (zip perms (action_checks req perms))).*1, None).
Proof.
  intros Hp. unfold actionSearch. simpl. rewrite Hp. unfold Reader_Checks, checks_Exec. simpl.
  rewrite jobpool_in_order.
  rewrite (granted_filter (checks_consumer mc t) perms [] perms _ []); [done|done|].
  by rewrite CheckRequests_length, length_map.
Qed.

(** boxcarred evaluations are answered one for one and in order, each as the completed check. *)
Theorem evaluations_in_order `{AL : !AzmLaws model A} mc req t :
  exists cs, cs = CheckRequests (extractChecks req).1 (extractChecks req).2 /\
    length cs = length (evs_evaluations req) /\
    evaluations mc req t =
      (map (fun c => let v := checks_consumer mc t c in MkEvalResp (check_ v) (check_context v)) cs,
       None).
Proof.
  eexists. split; [done|]. split; [by rewrite CheckRequests_length; simpl; rewrite length_map|].
  unfold evaluations, Reader_Checks, checks_Exec, extractDecisions. simpl.
  rewrite jobpool_in_order, map_map. done.
Qed.
End Access.

Module AccessExamples.
Import Concrete.
Definition ask : EvaluationRequest :=
  MkEval (Some (MkEntity "user" "bob")) (Some "viewer") (Some (MkEntity "doc" "1")).

Definition stdout_logger : Logger := MkLogger (MkAdlConfig true "stdout" "" ∅ "" "") true false.
Definition tc0 : TraceContext := MkTrace "" "" "".
Definition ask_record : adl_Record AccessRequest AccessResponse :=
  MkAdlRecord tc0 "adl.access_evaluation" 7 StatusOk ∅ (AskEvaluation ask) (Some (RespEvaluation (MkEvalResp true None))).
Lemma no_unlogged_decision_witness :
  exists w', access_call (fun _ => None) (fun _ => None) (Some stdout_logger) tc0 7 mc0 (AskEvaluation ask) db1 (MkTrail [] []) =
    (RespEvaluation (MkEvalResp true None), None, w') /\ on_stdout w' = [ask_record].
Proof.
  assert (access_answer mc0 (AskEvaluation ask) db1 = (RespEvaluation (MkEvalResp true None), None)) as Ea
    by (vm_compute; reflexivity).
  destruct (no_unlogged_decision (fun _ => None) (fun _ => None) (Some stdout_logger) tc0 7 mc0 (AskEvaluation ask) db1
    stdout_logger (MkTrail [] [])) as (e & w' & H1 & _ & [_ H2] & H3); [reflexivity..|].
  rewrite Ea in H1, H2, H3. cbn [fst snd] in *.
  assert (e = None) as -> by (apply H2; split_and!; reflexivity).
  exists w'. split; [exact H1|]. destruct (H3 eq_refl) as (E & _). exact E.
Defined.

Lemma action_search_exact_witness :
  exists l, actionSearch mc0 ask db1 = (l, None) /\ l = [].
Proof.
  eexists. split; [apply (action_search_exact mc0 ask db1 ["can_read"]); reflexivity|].
  vm_compute. reflexivity.
Defined.

Lemma evaluations_in_order_witness :
  (evaluations mc0 (MkEvals None None None [ask]) db1).1 = [MkEvalResp true None].
Proof.
  destruct (evaluations_in_order mc0 (MkEvals None None None [ask]) db1) as (cs & -> & _ & ->).
  vm_compute. reflexivity.
Defined.
End AccessExamples.
