(* ===== verification/DataSync.v ===== *)
(** * The directory sync client

    [internal/eds/pkg/datasync]: mode flags ([datasync.go]), the producer, subscriber and diff stages
    ([directory.go], [handlers.go]), the manifest sync ([manifest.go]) and the watermark file
    ([watermark.go]), over the BoltDB store. *)
From S2P Require Import Prelude Bytes Messages Hash Keys Store Bolt Bdb BdbTx Ds Service Instances.
From S2P Require Import DsFacts Writer Importer Exporter Model.

(** ** Modes *)

Definition Mode : Type := Z.
Definition Unknown : Mode := 0%Z.
Definition Manifest : Mode := Z.shiftl 1%Z 1%Z.
Definition Full : Mode := Z.shiftl 1%Z 2%Z.
Definition Diff : Mode := Z.shiftl 1%Z 3%Z.
Definition Watermark : Mode := Z.shiftl 1%Z 4%Z.

Definition mode_Set (b flag : Mode) : Mode := Z.lor b flag.
Definition mode_Clear (b flag : Mode) : Mode := Z.ldiff b flag.
Definition mode_Toggle (b flag : Mode) : Mode := Z.lxor b flag.
Definition Has (b flag : Mode) : bool := negb (Z.land b flag =? 0)%Z.

(** The map [modes], in one of its iteration orders. *)
Definition modes : list (Mode * string) :=
  [(Manifest, "MANIFEST"); (Full, "FULL"); (Diff, "DIFF"); (Watermark, "WATERMARK")].

Fixpoint join (sep : string) (l : list string) : string :=
  match l with
  | [] => ""
  | [x] => x
  | x :: l => x +:+ sep +:+ join sep l
  end.
Definition mode_String (m : Mode) : string :=
  join "|" (omap (fun kv => if Has m kv.1 then Some kv.2 else None) modes).
Definition RunMode (m : Mode) : string :=
  let mode := mode_Clear m Manifest in
  join "|" (omap (fun kv => if Has mode kv.1 then Some kv.2 else None) modes).
Fixpoint StrToMode_loop (s : string) (l : list (Mode * string)) : Mode :=
  match l with
  | [] => Unknown
  | (k, v) :: l => if String.eqb v s then k else StrToMode_loop s l
  end.
Definition StrToMode (s : string) : Mode := StrToMode_loop s modes.
Definition WithMode (mode cur : Mode) : Mode := mode_Set cur mode.

(** ** The watermark *)

(** [timestamppb]: the getters read zero off nil. *)
Definition ts_seconds (t : option Timestamp) : Z := match t with Some t => Seconds t | None => 0%Z end.
Definition ts_nanos (t : option Timestamp) : Z := match t with Some t => Nanos t | None => 0%Z end.

Definition maxTS (lhs rhs : option Timestamp) : option Timestamp :=
  if (ts_seconds rhs <? ts_seconds lhs)%Z then lhs
  else if (ts_seconds lhs =? ts_seconds rhs)%Z && (ts_nanos rhs <? ts_nanos lhs)%Z then lhs
  else rhs.

Record watermark := MkWatermark {
  LastUpdated : string; wm_Timestamp : option Timestamp;
  TotalCount : Z; ObjectCount : Z; RelationCount : Z }.
Definition newWatermark : watermark := MkWatermark "" (Some (MkTS 0 0)) 0 0 0.

(** [uint] is 64 bits wide. *)
Definition getFilterSize (wm : watermark) : Z :=
  let initFilterSize := 100000%Z in
  let growthFactor := 2%Z in
  let rounding := 1000%Z in
  if (TotalCount wm =? 0)%Z then initFilterSize
  else
    let growthSize := uint 64 (TotalCount wm * growthFactor) in
    if (growthSize <? initFilterSize)%Z then initFilterSize
    else
      let remainder := (growthSize mod rounding)%Z in
      uint 64 (growthSize + (rounding - remainder)).

(** Third-party: the cuckoo filter, and the RFC 3339 form of a timestamp. *)
Class Cuckoo := {
  cfilter : Type;
  cuckoo_NewFilter : Z -> cfilter;
  cuckoo_Insert : string -> cfilter -> bool * cfilter;
  cuckoo_Lookup : string -> cfilter -> bool;
  RFC3339Nano : option Timestamp -> string }.

(** No false negatives: a key inserted successfully is found, also after later successful inserts. *)
Class CuckooLaws `(C : Cuckoo) : Prop := {
  Lookup_inserted k f f' : cuckoo_Insert k f = (true, f') -> cuckoo_Lookup k f' = true;
  Lookup_kept k k' f f' :
    cuckoo_Insert k f = (true, f') -> cuckoo_Lookup k' f = true -> cuckoo_Lookup k' f' = true }.

(** ** Keys of the filter *)

Definition getObjectKey (o : option Object) : string :=
  let o := default zero_Object o in o_type o +:+ ":" +:+ o_id o.
Definition getRelationKey (r : option Relation) : string :=
  let r := ident_of r in
  object_type r +:+ ":" +:+ object_id r +:+ "#" +:+ relation r +:+ "@" +:+ subject_type r +:+ ":" +:+
  subject_id r +:+ (if String.eqb (subject_relation r) "" then "" else "#" +:+ subject_relation r).

(** What the remote export stream delivers; the end of the list is EOF. *)
Inductive export_event :=
| ExportMsg (m : ExportResponse)
| ExportError (e : err).

(** Keep only the outcome. *)
Definition rmap_unit {S X} (x : res X * S) : res unit * S := (rmap (fun _ => tt) x.1, x.2).

Section Sync.
Context {model : Type} `{B : Bolt} `{CO : Codecs model} `{A : Azm model}.
Context `{!StoreOps model} `{V : Validator} `{K : Cuckoo}.
Implicit Types mode : Mode.

(** ** [handlers.go]

    The set handlers stamp the message in place; they return it so that a caller that still holds it
    sees the stamped fields. *)

Definition sync_objectSetHandler (mc : cache) (ts : Timestamp) (req : option Object) : M tx Object :=
  match req with
  | None => fail (ErrInvalidObject "nil")
  | Some req =>
      do! guard (validator_Object req);
      do! guard (object_Validate mc req);
      let etag := object_Hash req in
      let! updReq := reads (UpdateMetadataObject ts req) in
      if String.eqb etag (o_etag updReq) then ret updReq
      else
        let updReq := set_o_etag updReq etag in
        do! or_error (SetObject updReq) (ErrInvalidObject "set");
        ret updReq
  end.

Definition sync_objectDeleteHandler (mc : cache) (req : option Object) : M tx unit :=
  match req with
  | None => fail (ErrInvalidObject "nil")
  | Some req =>
      do! guard (validator_Object req);
      do! guard (object_Validate mc req);
      or_error (DeleteObject (o_type req) (o_id req)) (ErrInvalidObject "delete")
  end.

Definition sync_relationSetHandler (mc : cache) (ts : Timestamp) (req : option Relation)
  : M tx Relation :=
  match req with
  | None => fail (ErrInvalidRelation "nil")
  | Some req =>
      do! guard (validator_Relation req);
      do! guard (relation_Validate mc (r_ident req));
      let etag := relation_Hash (r_ident req) in
      let! updReq := reads (UpdateMetadataRelation ts req) in
      if String.eqb etag (r_etag updReq) then ret updReq
      else
        let updReq := set_r_etag updReq etag in
        do! or_error (SetRelation updReq) (ErrInvalidRelation "set");
        ret updReq
  end.

Definition sync_relationDeleteHandler (mc : cache) (req : option Relation) : M tx unit :=
  match req with
  | None => fail (ErrInvalidRelation "nil")
  | Some req =>
      do! guard (validator_Relation req);
      do! guard (relation_Validate mc (r_ident req));
      or_error
        (DeleteRelation
           (MkIdent (object_type (r_ident req)) (object_id (r_ident req)) (relation (r_ident req))
              (subject_type (r_ident req)) (subject_id (r_ident req))
              (subject_relation (r_ident req)))) (ErrInvalidRelation "delete")
  end.

(** ** The producer *)

(** The receive loop: the filter (in diff mode), the messages put on the channel, the error. *)
Fixpoint producer_loop mode (evs : list export_event) (filter : option cfilter)
    (chan : list ExportResponse) : option cfilter * list ExportResponse * option err :=
  match evs with
  | [] => (filter, chan, None)
  | ExportError e :: _ => (filter, chan, Some e)
  | ExportMsg m :: evs =>
      match m with
      | ExportResponse_Object o =>
          let filter := if Has mode Diff
            then (fun f => (cuckoo_Insert (getObjectKey o) f).2) <$> filter else filter in
          producer_loop mode evs filter (chan ++ [m])
      | ExportResponse_Relation r =>
          let filter := if Has mode Diff
            then (fun f => (cuckoo_Insert (getRelationKey r) f).2) <$> filter else filter in
          producer_loop mode evs filter (chan ++ [m])
      | ExportResponse_Stats _ => producer_loop mode evs filter chan
      end
  end.

(** [source]: the exporter's answer to an export from a timestamp. *)
Definition producer mode (wm : watermark) (source : option Timestamp -> res (list export_event))
  : option cfilter * list ExportResponse * option err :=
  let ts := if Has mode Watermark then wm_Timestamp wm else Some (MkTS 0 0) in
  let filter := if Has mode Diff then Some (cuckoo_NewFilter (getFilterSize wm)) else None in
  match source ts with
  | Fail e => (filter, [], Some e)
  | Ok evs => producer_loop mode evs filter []
  end.

(** ** The subscriber *)

Record sub_counters := MkSub { sub_recv : Z; sub_obj : Z; sub_rel : Z; sub_err : Z }.
Definition zero_sub : sub_counters := MkSub 0 0 0 0.

(** The messages of the channel, each with the clock when it is handled. *)
Fixpoint subscriber_loop (mc : cache) (msgs : list (Timestamp * ExportResponse))
    (ts : option Timestamp) (c : sub_counters) : tx -> (option Timestamp * sub_counters) * tx := fun t =>
  match msgs with
  | [] => ((ts, c), t)
  | (now, m) :: msgs =>
      let c := MkSub (AddInt32 (sub_recv c) 1) (sub_obj c) (sub_rel c) (sub_err c) in
      match m with
      | ExportResponse_Object o =>
          match sync_objectSetHandler mc now o t with
          | (Ok o', t) =>
              subscriber_loop mc msgs (maxTS ts (o_updated_at o'))
                (MkSub (sub_recv c) (AddInt32 (sub_obj c) 1) (sub_rel c) (sub_err c)) t
          | (Fail _, t) =>
              subscriber_loop mc msgs ts
                (MkSub (sub_recv c) (sub_obj c) (sub_rel c) (AddInt32 (sub_err c) 1)) t
          end
      | ExportResponse_Relation r =>
          match sync_relationSetHandler mc now r t with
          | (Ok r', t) =>
              subscriber_loop mc msgs (maxTS ts (r_updated_at r'))
                (MkSub (sub_recv c) (sub_obj c) (AddInt32 (sub_rel c) 1) (sub_err c)) t
          | (Fail _, t) =>
              subscriber_loop mc msgs ts
                (MkSub (sub_recv c) (sub_obj c) (sub_rel c) (AddInt32 (sub_err c) 1)) t
          end
      | ExportResponse_Stats _ => subscriber_loop mc msgs ts c t
      end
  end.

(** The function given to [Batch] never fails, so it runs once. *)
Definition subscriber (mc : cache) (msgs : list (Timestamp * ExportResponse))
  : M tx (option Timestamp * sub_counters) :=
  Update (fun t => let '(r, t') := subscriber_loop mc msgs (Some (MkTS 0 0)) zero_sub t in (Ok r, t')).

(** ** The diff *)

(** Delete the stale rows one by one; errors are counted and reported. *)
Fixpoint delete_stale {X} (del : X -> M tx unit) (stale : list X) (n errs : Z) (t : tx)
  : Z * Z * tx :=
  match stale with
  | [] => (n, errs, t)
  | x :: stale =>
      match del x t with
      | (Ok _, t) => delete_stale del stale (AddInt32 n 1) errs t
      | (Fail _, t) => delete_stale del stale n (AddInt32 errs 1) t
      end
  end.

Definition diffObjects (mc : cache) (filter : cfilter) (errs : Z) : M tx (Z * Z) := fun t =>
  match ScanObjects "" "" t with
  | Fail e => (Fail e, t)
  | Ok iter =>
      let stale := List.filter (fun obj => negb (cuckoo_Lookup (getObjectKey obj) filter)) (collect iter) in
      let '(n, errs, t) := delete_stale (sync_objectDeleteHandler mc) stale 0 errs t in
      (Ok (n, errs), t)
  end.

Definition diffRelations (mc : cache) (filter : cfilter) (errs : Z) : M tx (Z * Z) := fun t =>
  match ScanRelations ByObject no_filter "" t with
  | Fail e => (Fail e, t)
  | Ok iter =>
      let stale := List.filter (fun rel => negb (cuckoo_Lookup (getRelationKey rel) filter)) (collect iter) in
      let '(n, errs, t) := delete_stale (sync_relationDeleteHandler mc) stale 0 errs t in
      (Ok (n, errs), t)
  end.

(** The two stages in one batch: a failed stage rolls both back, and they run once more. *)
Definition diff (mc : cache) (filter : option cfilter) : M tx (Z * Z * Z) := fun t =>
  match filter with
  | None => (Fail (XErr UnknownCode "filter not initialized"), t)
  | Some filter =>
      let '(r, (_, t')) := Batch (fun '(_, t) =>
        match diffObjects mc filter 0 t with
        | (Fail e, t) => (Fail e, (tt, t))
        | (Ok (objs, errs), t) =>
            match diffRelations mc filter errs t with
            | (Fail e, t) => (Fail e, (tt, t))
            | (Ok (rels, errs), t) => (Ok (objs, rels, errs), (tt, t))
            end
        end) (tt, t) in
      (r, t')
  end.

(** ** The watermark file *)

(** The store, the model cache and the watermark file ([None] when it cannot be opened or decoded). *)
Record world := MkWorld { w_tx : tx; w_mc : cache; w_file : option watermark }.

Definition getWatermark (w : world) : watermark := default newWatermark (w_file w).

(** [Stats().KeyN] of a bucket, zero when the path is missing. *)
Definition bucketStats (path : bpath) (t : btx) : Z :=
  match SetBucket t path with
  | Fail _ => 0%Z
  | Ok b => Z.of_nat (b_KeyN t b)
  end.
Definition dbStats (path : bpath) (w : world) : Z := bucketStats path (w_tx w).

(** [file_err]: the outcome of creating and writing the file. *)
Definition setWatermark (file_err : option err) (ts : option Timestamp) : M world unit := fun w =>
  match ts with
  | None => (Fail (XErr Internal "ts is nil"), w)
  | Some _ =>
      let newTS := maxTS (wm_Timestamp (getWatermark w)) ts in
      let obj := uint 64 (dbStats ObjectsPath w) in
      let rel := uint 64 (dbStats RelationsObjPath w) in
      let wm := MkWatermark (RFC3339Nano newTS) newTS (uint 64 (obj + rel)) obj rel in
      match file_err with
      | Some e => (Fail e, w)
      | None => (Ok tt, MkWorld (w_tx w) (w_mc w) (Some wm))
      end
  end.

(** ** [syncDirectory] *)

(** The channel hands the producer's messages to the subscriber in order ([chan_delivers] below); the
    subscriber commits what it received even when the producer failed.  [clock i] is the time at
    which message [i] is handled. *)
Definition syncDirectory mode (clock : nat -> Timestamp)
    (source : option Timestamp -> res (list export_event)) (file_err : option err) : M world unit :=
  fun w =>
  let '(filter, chan, perr) := producer mode (getWatermark w) source in
  let '(r, t) := subscriber (w_mc w) (imap (fun i m => (clock i, m)) chan) (w_tx w) in
  let w1 := MkWorld t (w_mc w) (w_file w) in
  match perr, r with
  | Some e, _ => (Fail e, w1)
  | None, Fail e => (Fail e, w1)
  | None, Ok (ts, _) =>
      let '(d, t) := if Has mode Diff then rmap_unit (diff (w_mc w) filter t) else (Ok tt, t) in
      let w2 := MkWorld t (w_mc w) (w_file w) in
      match d with
      | Fail e => (Fail e, w2)
      | Ok _ => setWatermark file_err ts w2
      end
  end.

(** ** [manifest.go] *)

Inductive manifest_event :=
| ManifestMsg (m : GetManifestResponse)
| ManifestError (e : err).

Fixpoint sync_getManifest (evs : list manifest_event) (metadata : Metadata) (data : string)
  : res (Metadata * string) :=
  match evs with
  | [] => Ok (metadata, data)
  | ManifestError e :: _ => Fail e
  | ManifestMsg m :: evs =>
      match m with
      | GetManifestResponse_Metadata md => sync_getManifest evs md data
      | GetManifestResponse_Body b => sync_getManifest evs metadata (data +:+ b)
      | GetManifestResponse_Model _ => sync_getManifest evs metadata data
      end
  end.

(** The metadata of the local manifest, empty when there is none. *)
Definition local_metadata (t : tx) : res Metadata :=
  match manifest_Get t with
  | Ok (md, _) => Ok md
  | Fail e => if is_not_found e then Ok zero_Metadata else Fail (XErr UnknownCode "failed to get manifest")
  end.

(** The transaction is the one of the model service ([Model.setManifest]). *)
Definition sync_setManifest (mc : cache) (ts : Timestamp) (remoteBuf : string) : M tx model :=
  let md := MkMetadata (Some ts) (FormatUint (fnv64a remoteBuf)) in
  do! guard (validator_Metadata md);
  match manifest_Load remoteBuf with
  | Fail _ => fail (DErr "ErrInvalidArgument" [])
  | Ok m =>
      do! Update (setManifest mc m md remoteBuf);
      ret (set_model_metadata m (md_etag md) (md_updated_at md))
  end.

(** [remote]: the messages of the remote's [GetManifest]. *)
Definition syncManifest (ts : Timestamp) (remote : res (list manifest_event)) : M world unit := fun w =>
  match rbind remote (fun evs => sync_getManifest evs zero_Metadata "") with
  | Fail e => (Fail e, w)
  | Ok (remoteMD, remoteBuf) =>
  match local_metadata (w_tx w) with
  | Fail e => (Fail e, w)
  | Ok localMD =>
      if String.eqb (md_etag localMD) (md_etag remoteMD) then (Ok tt, w)
      else
        match sync_setManifest (w_mc w) ts remoteBuf (w_tx w) with
        | (Fail e, t) => (Fail e, MkWorld t (w_mc w) (w_file w))
        | (Ok m, t) =>
            match mc_UpdateModel m (w_mc w) with
            | Ok mc => (Ok tt, MkWorld t mc (w_file w))
            | Fail e => (Fail e, MkWorld t (w_mc w) (w_file w))
            end
        end
  end end.

(** ** [Run] *)

Definition Run mode (ts : Timestamp) (clock : nat -> Timestamp) (remote : res (list manifest_event))
    (source : option Timestamp -> res (list export_event)) (file_err : option err) : M world unit :=
  do! (if Has mode Manifest then syncManifest ts remote else ret tt);
  do! (if Has mode (Z.lor (Z.lor Full Diff) Watermark)
       then syncDirectory mode clock source file_err else ret tt);
  ret tt.
End Sync.

(** ** The filter size and timestamps *)

(** the filter is sized for growth: at least the default, at least twice the known entries, a
    multiple of the rounding unit, and less than one unit and a step above what was asked for. *)
Theorem filter_size_bounds wm :
  (0 <= TotalCount wm < 2 ^ 62)%Z ->
  let s := getFilterSize wm in
  (100000 <= s /\ 2 * TotalCount wm <= s /\ s mod 1000 = 0 /\
   s <= Z.max 100000 (2 * TotalCount wm + 1000))%Z.
Proof.
  intros Hc. unfold getFilterSize, uint. cbv zeta.
  destruct (Z.eqb_spec (TotalCount wm) 0) as [->|Hz]; [split_and!; [lia|lia|reflexivity|lia]|].
  rewrite (Z.mod_small (TotalCount wm * 2)) by lia.
  destruct (Z.ltb_spec (TotalCount wm * 2) 100000); [split_and!; [lia|lia|done|lia]|].
  pose proof (Z.mod_pos_bound (TotalCount wm * 2) 1000 ltac:(lia)).
  rewrite Z.mod_small by lia. split_and!; [lia|lia| |lia].
  pose proof (Z.div_mod (TotalCount wm * 2) 1000 ltac:(lia)) as Hdm.
  replace (TotalCount wm * 2 + (1000 - (TotalCount wm * 2) mod 1000))%Z
    with ((TotalCount wm * 2 / 1000 + 1) * 1000)%Z by lia.
  apply Z.mod_mul. lia.
Qed.

(** The order of timestamps. *)
Definition ts_le (a b : option Timestamp) : Prop :=
  (ts_seconds a < ts_seconds b \/ (ts_seconds a = ts_seconds b /\ ts_nanos a <= ts_nanos b))%Z.

Lemma maxTS_upper a b : ts_le a (maxTS a b) /\ ts_le b (maxTS a b) /\ (maxTS a b = a \/ maxTS a b = b).
Proof.
  unfold maxTS, ts_le.
  destruct (Z.ltb_spec (ts_seconds b) (ts_seconds a)),
    (Z.eqb_spec (ts_seconds a) (ts_seconds b)), (Z.ltb_spec (ts_nanos b) (ts_nanos a)); simpl;
    split_and!; first [lia | by left | by right].
Qed.

(** ** The channel between producer and subscriber

    The two goroutines as a transition system over a buffered channel of capacity [cap]. *)

Section Chan.
Context {X : Type} (cap : nat) (msgs : list X).

Record chan_state := MkChan { to_send : list X; buffer : list X; received : list X; closed : bool }.
Definition chan_init : chan_state := MkChan msgs [] [] false.

Inductive chan_step : chan_state -> chan_state -> Prop :=
| chan_send m out buf rcv :
    length buf < cap ->
    chan_step (MkChan (m :: out) buf rcv false) (MkChan out (buf ++ [m]) rcv false)
| chan_close buf rcv : chan_step (MkChan [] buf rcv false) (MkChan [] buf rcv true)
| chan_recv m out buf rcv c :
    chan_step (MkChan out (m :: buf) rcv c) (MkChan out buf (rcv ++ [m]) c).

(** The subscriber leaves its loop when the channel is closed and drained. *)
Definition chan_final (s : chan_state) : Prop := closed s = true /\ buffer s = [].

Definition chan_measure (s : chan_state) : nat :=
  2 * length (to_send s) + length (buffer s) + (if closed s then 0 else 1).

Lemma chan_invariant s :
  rtc chan_step chan_init s ->
  received s ++ buffer s ++ to_send s = msgs /\ length (buffer s) <= cap /\
  (closed s = true -> to_send s = []).
Proof.
  revert s. apply (rtc_ind_r (R := chan_step)); [simpl; split_and!; (done || lia)|].
  intros s s' _ Hs (Hi & Hb & Hc). destruct Hs; simpl in *.
  - rewrite <-Hi. split_and!; [by rewrite <-!app_assoc|rewrite length_app; simpl; lia|done].
  - done.
  - split_and!; [by rewrite <-app_assoc|lia|done].
Qed.

Lemma chan_step_measure s s' : chan_step s s' -> chan_measure s' < chan_measure s.
Proof.
  intros Hs. inversion Hs; subst; unfold chan_measure; simpl; rewrite ?length_app; simpl; lia.
Qed.

(** the hand-over between the two goroutines loses, duplicates and reorders nothing, and cannot
    deadlock: every reachable state is final with exactly the produced messages received in order,
    or can take a step, and every step makes progress. *)
Theorem chan_delivers s :
  0 < cap -> rtc chan_step chan_init s ->
  (chan_final s /\ received s = msgs) \/
  (exists s', chan_step s s' /\ chan_measure s' < chan_measure s).
Proof.
  intros Hcap Hr. destruct (chan_invariant s Hr) as (Hi & Hb & Hc).
  assert (forall s', chan_step s s' -> exists s', chan_step s s' /\ chan_measure s' < chan_measure s)
    as Hgo by (intros s' Hs; exists s'; split; [done|by apply chan_step_measure]).
  destruct s as [out [|m buf] rcv c]; simpl in *.
  - destruct c.
    + left. rewrite (Hc eq_refl), app_nil_r in Hi. done.
    + right. destruct out as [|m out]; eapply Hgo; [by constructor|by constructor].
  - right. eapply Hgo. by constructor.
Qed.
End Chan.

Section SyncFacts.
Context {model : Type} `{B : Bolt} `{BL : !BoltLaws B} `{CO : Codecs model} `{CL : !CodecsLaws model CO}.
Context `{A : Azm model} `{AL : !AzmLaws model A} `{!StoreOps model} `{V : Validator} `{K : Cuckoo}.

(** ** The watermark file *)

Lemma KeyN_bucket t p l : bucket_is t p l -> bucketStats p t = Z.of_nat (length l).
Proof.
  intros Hb. unfold bucketStats. rewrite (SetBucket_bucket t p l) by done.
  destruct Hb as (_ & _ & Hv & Hl). by rewrite (KeyN_view t p l).
Qed.

Lemma bucketStats_repr t d :
  bolt_repr t d ->
  bucketStats ObjectsPath t = Z.of_nat (size (d_objs d)) /\
  bucketStats RelationsObjPath t = Z.of_nat (size (d_rels d)).
Proof.
  intros [(lo & ro & rs & Ho & Hro & _ & Rep & Repo & _) _].
  rewrite (KeyN_bucket _ _ _ Ho), (KeyN_bucket _ _ _ Hro).
  rewrite (rep_size okey wf_okey dec_obj okey_inj lo (d_objs d)) by (done || by eapply bucket_sorted).
  rewrite (rep_size bdb.objKeyOf wf_ident dec_rel obj_key_inj ro (d_rels d))
    by (done || by eapply bucket_sorted).
  done.
Qed.

(** writing the watermark never moves it back, and records the number of objects and of
    relations that the store holds (64-bit). *)
Theorem watermark_advances ts w d w' :
  bolt_repr (w_tx w) d -> setWatermark None (Some ts) w = (Ok tt, w') ->
  exists wm, w_file w' = Some wm /\ w_tx w' = w_tx w /\ w_mc w' = w_mc w /\
    ts_le (wm_Timestamp (getWatermark w)) (wm_Timestamp wm) /\ ts_le (Some ts) (wm_Timestamp wm) /\
    ObjectCount wm = uint 64 (Z.of_nat (size (d_objs d))) /\
    RelationCount wm = uint 64 (Z.of_nat (size (d_rels d))).
Proof.
  intros Hr. unfold setWatermark. intros [= <-]. eexists. split; [done|]. cbn.
  destruct (bucketStats_repr (w_tx w) d Hr) as [Ho Hrel]. unfold dbStats. rewrite Ho, Hrel.
  destruct (maxTS_upper (wm_Timestamp (getWatermark w)) (Some ts)) as (H1 & H2 & _). done.
Qed.

(** ** The subscriber *)

Lemma set_object_updated_at mc now o t o' t' :
  sync_objectSetHandler mc now o t = (Ok o', t') -> o_updated_at o' = Some now.
Proof.
  unfold sync_objectSetHandler. destruct o as [o|]; [|done].
  intros [[_ H]|(e & _ & ? & _)]%guard_inv; [|done].
  apply guard_inv in H as [[_ H]|(e & _ & ? & _)]; [|done].
  apply bind_inv in H as [(u & t1 & Hu & H)|(e & _ & ?)]; [|done].
  assert (o_updated_at u = Some now) as Hup.
  { clear H. revert Hu. unfold reads, UpdateMetadataObject.
    destruct (GetObject _ _ t); [|case_match; [|done]]; intros [= <- _]; [by case_match|done]. }
  revert H. case_match eqn:Heq; [by intros [= <- _]|].
  intros [(u' & t2 & _ & H)|(e & _ & ?)]%bind_inv; [|done]. by injection H as <- _.
Qed.

Lemma set_relation_updated_at mc now o t o' t' :
  sync_relationSetHandler mc now o t = (Ok o', t') -> r_updated_at o' = Some now.
Proof.
  unfold sync_relationSetHandler. destruct o as [o|]; [|done].
  intros [[_ H]|(e & _ & ? & _)]%guard_inv; [|done].
  apply guard_inv in H as [[_ H]|(e & _ & ? & _)]; [|done].
  apply bind_inv in H as [(u & t1 & Hu & H)|(e & _ & ?)]; [|done].
  assert (r_updated_at u = Some now) as Hup.
  { clear H. revert Hu. unfold reads, UpdateMetadataRelation.
    destruct (GetRelationExact _ t); [|case_match; [|done]]; intros [= <- _]; [by case_match|done]. }
  revert H. case_match eqn:Heq; [by intros [= <- _]|].
  intros [(u' & t2 & _ & H)|(e & _ & ?)]%bind_inv; [|done]. by injection H as <- _.
Qed.

(** the timestamp that a sync run hands to the watermark is the greatest local clock reading
    among the messages it stored, and does not depend on the update times that the source sent: the
    handlers overwrite the message's update time before the subscriber reads it. *)
Theorem sync_timestamp_is_local mc msgs : forall ts c t,
  exists nows, nows `sublist_of` msgs.*1 /\
    (subscriber_loop mc msgs ts c t).1.1 = fold_left maxTS (Some <$> nows) ts.
Proof.
  induction msgs as [|[now m] msgs IH]; intros ts c t; cbn [subscriber_loop].
  { by exists []. }
  assert (forall ts c t, exists nows, nows `sublist_of` (now :: msgs.*1) /\
    (subscriber_loop mc msgs ts c t).1.1 = fold_left maxTS (Some <$> nows) ts) as Hskip.
  { intros ts1 c1 t1. destruct (IH ts1 c1 t1) as (nows & Hs & ->). exists nows. split; [|done].
    by apply sublist_cons. }
  assert (forall ts c t, exists nows, nows `sublist_of` (now :: msgs.*1) /\
    (subscriber_loop mc msgs (maxTS ts (Some now)) c t).1.1 = fold_left maxTS (Some <$> nows) ts) as Htake.
  { intros ts1 c1 t1. destruct (IH (maxTS ts1 (Some now)) c1 t1) as (nows & Hs & ->).
    exists (now :: nows). split; [by apply sublist_skip|done]. }
  destruct m as [o|r|s]; [| |apply Hskip].
  - destruct (sync_objectSetHandler mc now o t) as [[o'|e] t1] eqn:Hh; [|apply Hskip].
    rewrite (set_object_updated_at _ _ _ _ _ _ Hh). apply Htake.
  - destruct (sync_relationSetHandler mc now r t) as [[o'|e] t1] eqn:Hh; [|apply Hskip].
    rewrite (set_relation_updated_at _ _ _ _ _ _ Hh). apply Htake.
Qed.

(** ** The diff *)

(** Entries that the delete handlers accept. *)
Definition deletable_object (mc : cache) (o : Object) : bool :=
  match validator_Object o, object_Validate mc o with None, None => true | _, _ => false end.
Definition deletable_relation (mc : cache) (r : Relation) : bool :=
  match validator_Relation r, relation_Validate mc (r_ident r) with None, None => true | _, _ => false end.

Lemma sync_objectDelete_run mc (o : Object) t d :
  repr t d -> wf_type (o_type o) ->
  exists r t', sync_objectDeleteHandler mc (Some o) t = (r, t') /\
    repr t' (if deletable_object mc o
                  then set_objs d (delete (o_type o, o_id o) (d_objs d)) else d).
Proof.
  intros Hr Hw. unfold sync_objectDeleteHandler, deletable_object.
  destruct (validator_Object o); [by eexists _, _|].
  destruct (object_Validate mc o); [by eexists _, _|].
  destruct (DeleteObject_run t d (o_type o) (o_id o) Hr Hw) as (t1 & Hd & Hr1).
  eexists _, t1. split; [|exact Hr1].
  unfold bind, guard, ret, or_error, attempt. by rewrite Hd.
Qed.

Lemma sync_relationDelete_run mc (r : Relation) t d :
  repr t d -> wf_ident (r_ident r) ->
  exists x t', sync_relationDeleteHandler mc (Some r) t = (x, t') /\
    repr t' (if deletable_relation mc r
                  then set_rels d (delete (r_ident r) (d_rels d)) else d).
Proof.
  intros Hr Hw. unfold sync_relationDeleteHandler, deletable_relation.
  destruct (validator_Relation r); [by eexists _, _|].
  destruct (relation_Validate mc (r_ident r)); [by eexists _, _|]. rewrite ident_eta.
  destruct (DeleteRelation_ok t d (r_ident r) Hr Hw) as [Hok Hrep].
  destruct (DeleteRelation (r_ident r) t) as [x t1] eqn:Hd. simpl in Hok, Hrep. subst x.
  eexists _, t1. split; [|exact Hrep].
  unfold bind, guard, ret, or_error, attempt. by rewrite Hd.
Qed.

(** The keys that deleting the stale rows removes. *)
Definition dead_objects (mc : cache) (stale : list Object) : list (string * string) :=
  (fun o => (o_type o, o_id o)) <$> filter (fun o => deletable_object mc o = true) stale.
Definition dead_relations (mc : cache) (stale : list Relation) : list RelationIdentifier :=
  r_ident <$> filter (fun r => deletable_relation mc r = true) stale.

Lemma filter_delete {Ky Vl} `{Countable Ky} (m : gmap Ky Vl) k (P Q : Ky * Vl -> Prop)
    `{forall e, Decision (P e)} `{forall e, Decision (Q e)} :
  (forall i x, Q (i, x) <-> i <> k /\ P (i, x)) -> filter P (delete k m) = filter Q m.
Proof.
  intros HQ. apply map_eq. intros i. apply option_eq. intros x.
  rewrite !map_lookup_filter_Some, lookup_delete_Some, HQ. naive_solver.
Qed.

Lemma filter_notin_nil {Ky Vl} `{Countable Ky} (m : gmap Ky Vl) :
  filter (fun e => e.1 ∉ []) m = m.
Proof. apply map_filter_id. intros. apply not_elem_of_nil. Qed.

Lemma delete_stale_objects mc stale : forall n errs t d,
  repr t d -> (forall o, o ∈ stale -> wf_type (o_type o)) ->
  exists n' errs' t',
    delete_stale (sync_objectDeleteHandler mc) (Some <$> stale) n errs t = (n', errs', t') /\
    repr t' (set_objs d (filter (fun e => e.1 ∉ dead_objects mc stale) (d_objs d))).
Proof.
  induction stale as [|o stale IH]; intros n errs t d Hr Hw.
  - exists n, errs, t. split; [done|]. change (dead_objects mc []) with (@nil (string * string)).
    rewrite filter_notin_nil.
    by destruct d.
  - cbn [fmap list_fmap delete_stale].
    destruct (sync_objectDelete_run mc o t d Hr) as (r & t1 & Hd & Hr1); [apply Hw; left|].
    rewrite Hd.
    assert (forall n errs, exists n' errs' t',
      delete_stale (sync_objectDeleteHandler mc) (Some <$> stale) n errs t1 = (n', errs', t') /\
      repr t' (set_objs d (filter (fun e => e.1 ∉ dead_objects mc (o :: stale)) (d_objs d)))) as Hrest.
    { intros n1 e1. destruct (IH n1 e1 t1 _ Hr1) as (n' & e' & t' & Hrun & Hr');
        [intros; apply Hw; by right|].
      exists n', e', t'. split; [done|]. refine (eq_ind _ (repr t') Hr' _ _).
      unfold dead_objects. rewrite filter_cons. destruct (deletable_object mc o); simpl; [|done].
      unfold set_objs. simpl. f_equal. apply filter_delete. intros i x. simpl.
      by rewrite not_elem_of_cons. }
    destruct r; apply Hrest.
Qed.

Lemma delete_stale_relations mc stale : forall n errs t d,
  repr t d -> (forall r, r ∈ stale -> wf_ident (r_ident r)) ->
  exists n' errs' t',
    delete_stale (sync_relationDeleteHandler mc) (Some <$> stale) n errs t = (n', errs', t') /\
    repr t' (set_rels d (filter (fun e => e.1 ∉ dead_relations mc stale) (d_rels d))).
Proof.
  induction stale as [|o stale IH]; intros n errs t d Hr Hw.
  - exists n, errs, t. split; [done|]. change (dead_relations mc []) with (@nil RelationIdentifier).
    rewrite filter_notin_nil.
    by destruct d.
  - cbn [fmap list_fmap delete_stale].
    destruct (sync_relationDelete_run mc o t d Hr) as (r & t1 & Hd & Hr1); [apply Hw; left|].
    rewrite Hd.
    assert (forall n errs, exists n' errs' t',
      delete_stale (sync_relationDeleteHandler mc) (Some <$> stale) n errs t1 = (n', errs', t') /\
      repr t' (set_rels d (filter (fun e => e.1 ∉ dead_relations mc (o :: stale)) (d_rels d)))) as Hrest.
    { intros n1 e1. destruct (IH n1 e1 t1 _ Hr1) as (n' & e' & t' & Hrun & Hr');
        [intros; apply Hw; by right|].
      exists n', e', t'. split; [done|]. refine (eq_ind _ (repr t') Hr' _ _).
      unfold dead_relations. rewrite filter_cons. destruct (deletable_relation mc o); simpl; [|done].
      unfold set_rels. simpl. f_equal. apply filter_delete. intros i x. simpl.
      by rewrite not_elem_of_cons. }
    destruct r; apply Hrest.
Qed.

Lemma list_filter_some {X} (g : option X -> bool) (xs : list X) :
  List.filter g (Some <$> xs) = Some <$> List.filter (fun x => g (Some x)) xs.
Proof.
  induction xs as [|x xs IH]; [done|]. rewrite fmap_cons. cbn [List.filter]. rewrite IH.
  by destruct (g (Some x)).
Qed.

Lemma elem_of_List_filter {X} (g : X -> bool) (xs : list X) x :
  x ∈ List.filter g xs <-> x ∈ xs /\ g x = true.
Proof. rewrite !list_elem_of_In. apply filter_In. Qed.

Lemma diffObjects_spec mc f errs t d :
  repr t d ->
  exists n errs' t' objs, diffObjects mc f errs t = (Ok (n, errs'), t') /\
    repr t' (set_objs d objs) /\
    forall k o, objs !! k = Some o <-> d_objs d !! k = Some o /\
      (cuckoo_Lookup (getObjectKey (Some o)) f = true \/ deletable_object mc o = false).
Proof.
  intros Hr. destruct (repr_wf t d Hr) as [Hwf _].
  destruct (scan_all_objects t d Hr) as (io & Ho & _ & Hmo). unfold diffObjects. rewrite Ho.
  destruct (list_somes (collect io)) as [os Hos]; [intros v (o & -> & _)%Hmo; by eexists|].
  assert (forall o, o ∈ os <-> d_objs d !! (o_type o, o_id o) = Some o) as Hin.
  { intros o. specialize (Hmo (Some o)). rewrite Hos, list_elem_of_fmap in Hmo. naive_solver. }
  rewrite Hos, list_filter_some.
  set (stale := List.filter _ os).
  destruct (delete_stale_objects mc stale 0 errs t d Hr) as (n & e' & t' & -> & Hr').
  { intros o [Hos' _]%elem_of_List_filter. by destruct (Hwf _ _ _ (proj1 (Hin o) Hos')). }
  exists n, e', t', (filter (fun e => e.1 ∉ dead_objects mc stale) (d_objs d)).
  split; [done|]. split; [done|]. intros k o. rewrite map_lookup_filter_Some. simpl.
  split; intros [Hk H]; (split; [done|]); destruct k as [ty id];
    destruct (Hwf _ _ _ Hk) as (_ & <- & <-); revert H;
    unfold dead_objects; rewrite list_elem_of_fmap; setoid_rewrite list_elem_of_filter;
    unfold stale; setoid_rewrite elem_of_List_filter.
  - intros Hn. destruct (cuckoo_Lookup (getObjectKey (Some o)) f) eqn:El; [by left|right].
    destruct (deletable_object mc o) eqn:Ed; [|done]. exfalso. apply Hn. exists o.
    split_and!; [done|done|by apply Hin|by rewrite El].
  - intros Hor (o' & [= Ht Hi] & Hd & Hos' & El). apply Hin in Hos'. rewrite <-Ht, <-Hi, Hk in Hos'.
    injection Hos' as <-. destruct Hor as [Hor|Hor]; [by rewrite Hor in El|congruence].
Qed.

Lemma diffRelations_spec mc f errs t d :
  repr t d ->
  exists n errs' t' rels, diffRelations mc f errs t = (Ok (n, errs'), t') /\
    repr t' (set_rels d rels) /\
    forall k r, rels !! k = Some r <-> d_rels d !! k = Some r /\
      (cuckoo_Lookup (getRelationKey (Some r)) f = true \/ deletable_relation mc r = false).
Proof.
  intros Hr. destruct (repr_wf t d Hr) as [_ Hwf].
  destruct (scan_all_relations t d Hr) as (io & Ho & _ & Hmo). unfold diffRelations. rewrite Ho.
  destruct (list_somes (collect io)) as [rs Hrs]; [intros v (o & -> & _)%Hmo; by eexists|].
  assert (forall r, r ∈ rs <-> d_rels d !! r_ident r = Some r) as Hin.
  { intros o. specialize (Hmo (Some o)). rewrite Hrs, list_elem_of_fmap in Hmo. naive_solver. }
  rewrite Hrs, list_filter_some.
  set (stale := List.filter _ rs).
  destruct (delete_stale_relations mc stale 0 errs t d Hr) as (n & e' & t' & -> & Hr').
  { intros o [Hos' _]%elem_of_List_filter. by destruct (Hwf _ _ (proj1 (Hin o) Hos')). }
  exists n, e', t', (filter (fun e => e.1 ∉ dead_relations mc stale) (d_rels d)).
  split; [done|]. split; [done|]. intros k r. rewrite map_lookup_filter_Some. simpl.
  split; intros [Hk H]; (split; [done|]); destruct (Hwf _ _ Hk) as (_ & <-); revert H;
    unfold dead_relations; rewrite list_elem_of_fmap; setoid_rewrite list_elem_of_filter;
    unfold stale; setoid_rewrite elem_of_List_filter.
  - intros Hn. destruct (cuckoo_Lookup (getRelationKey (Some r)) f) eqn:El; [by left|right].
    destruct (deletable_relation mc r) eqn:Ed; [|done]. exfalso. apply Hn. exists r.
    split_and!; [done|done|by apply Hin|by rewrite El].
  - intros Hor (o' & Ht & Hd & Hos' & El). apply Hin in Hos'. rewrite <-Ht, Hk in Hos'.
    injection Hos' as <-. destruct Hor as [Hor|Hor]; [by rewrite Hor in El|congruence].
Qed.

(** The diff, without the commit. *)
Lemma diff_run mc f t d :
  repr t d -> (forall t, commit_err t = None) ->
  exists r t' d', diff mc (Some f) t = (Ok r, t') /\ repr t' d' /\
    (forall k o, d_objs d' !! k = Some o <-> d_objs d !! k = Some o /\
       (cuckoo_Lookup (getObjectKey (Some o)) f = true \/ deletable_object mc o = false)) /\
    (forall k r, d_rels d' !! k = Some r <-> d_rels d !! k = Some r /\
       (cuckoo_Lookup (getRelationKey (Some r)) f = true \/ deletable_relation mc r = false)).
Proof.
  intros Hr Hc. destruct (diffObjects_spec mc f 0 t d Hr) as (n & e1 & t1 & objs & H1 & Hr1 & Ho).
  destruct (diffRelations_spec mc f e1 t1 _ Hr1) as (n2 & e2 & t2 & rels & H2 & Hr2 & Hrel).
  exists (n, n2, e2), t2, (set_rels (set_objs d objs) rels). split; [|done].
  unfold diff, Batch. rewrite H1, H2. by rewrite Hc.
Qed.

(** C37: the difference stage deletes exactly the entries that the filter does not know (of those
    that pass validation): every object and relation it finds in the filter is kept. *)
Theorem diff_exact mc f t d :
  repr t d -> (forall t, commit_err t = None) ->
  exists r t' d', diff mc (Some f) t = (Ok r, t') /\ repr t' d' /\
    (forall k o, d_objs d' !! k = Some o <-> d_objs d !! k = Some o /\
       (cuckoo_Lookup (getObjectKey (Some o)) f = true \/ deletable_object mc o = false)) /\
    (forall k r, d_rels d' !! k = Some r <-> d_rels d !! k = Some r /\
       (cuckoo_Lookup (getRelationKey (Some r)) f = true \/ deletable_relation mc r = false)).
Proof. apply diff_run. Qed.

(** ** The filter that the producer builds *)

(** Every insert made while receiving these messages succeeded. *)
Fixpoint inserts_ok (evs : list export_event) (f : cfilter) : bool :=
  match evs with
  | [] => true
  | ExportError _ :: _ => true
  | ExportMsg m :: evs =>
      match m with
      | ExportResponse_Object o =>
          let '(ok, f) := cuckoo_Insert (getObjectKey o) f in ok && inserts_ok evs f
      | ExportResponse_Relation r =>
          let '(ok, f) := cuckoo_Insert (getRelationKey r) f in ok && inserts_ok evs f
      | ExportResponse_Stats _ => inserts_ok evs f
      end
  end.

(** The key under which a message is entered. *)
Definition msg_key (m : ExportResponse) : option string :=
  match m with
  | ExportResponse_Object o => Some (getObjectKey o)
  | ExportResponse_Relation r => Some (getRelationKey r)
  | ExportResponse_Stats _ => None
  end.

Lemma producer_filter `{KL : !CuckooLaws K} mode evs : forall f0 chan0 f chan e,
  Has mode Diff = true -> inserts_ok evs f0 = true ->
  producer_loop mode evs (Some f0) chan0 = (Some f, chan, e) ->
  (forall m k, m ∈ chan0 -> msg_key m = Some k -> cuckoo_Lookup k f0 = true) ->
  forall m k, m ∈ chan -> msg_key m = Some k -> cuckoo_Lookup k f = true.
Proof.
  induction evs as [|[m|e'] evs IH]; intros f0 chan0 f chan e Hd Hi Hrun Hc; simpl in *.
  - injection Hrun as <- <- _. done.
  - destruct m as [o|r|s]; [| |by eapply IH]; rewrite Hd in Hrun; simpl in Hrun;
      match type of Hi with context [cuckoo_Insert ?k f0] =>
        destruct (cuckoo_Insert k f0) as [ok f1] eqn:Ef end; simpl in Hrun;
      apply andb_true_iff in Hi as [-> Hi];
      (eapply IH; [done|done|exact Hrun|]);
      intros m k Hm Hk;
      (apply elem_of_app in Hm as [Hm|Hm%list_elem_of_singleton]; [|subst m]).
    + eapply Lookup_kept; [done|]. by eapply Hc.
    + injection Hk as <-. by eapply Lookup_inserted.
    + eapply Lookup_kept; [done|]. by eapply Hc.
    + injection Hk as <-. by eapply Lookup_inserted.
  - injection Hrun as <- <- _. done.
Qed.

(** a diff sync never deletes what the source exported, provided the filter took every key:
    an object or relation of the store that the source sent is still there after the difference. *)
Theorem diff_keeps_exported `{KL : !CuckooLaws K} mode mc evs f0 f chan t d :
  Has mode Diff = true -> inserts_ok evs f0 = true ->
  producer_loop mode evs (Some f0) [] = (Some f, chan, None) ->
  repr t d -> (forall t, commit_err t = None) ->
  exists r t' d', diff mc (Some f) t = (Ok r, t') /\ repr t' d' /\
    (forall o o', ExportResponse_Object (Some o') ∈ chan -> o_type o' = o_type o -> o_id o' = o_id o ->
       d_objs d !! (o_type o, o_id o) = Some o -> d_objs d' !! (o_type o, o_id o) = Some o) /\
    (forall r r', ExportResponse_Relation (Some r') ∈ chan -> r_ident r' = r_ident r ->
       d_rels d !! r_ident r = Some r -> d_rels d' !! r_ident r = Some r).
Proof.
  intros Hd Hi Hrun Hr Hc.
  destruct (diff_run mc f t d Hr Hc) as (r & t' & d' & Hdiff & Hr' & Ho & Hrel).
  assert (forall m k, m ∈ chan -> msg_key m = Some k -> cuckoo_Lookup k f = true) as Hseen.
  { eapply producer_filter; [done..|]. by intros m k ?%elem_of_nil. }
  exists r, t', d'. split; [done|]. split; [done|]. split.
  - intros o o' Hin Ht Hid Hk. apply Ho. split; [done|]. left.
    apply (Hseen _ _ Hin). simpl. unfold getObjectKey. simpl. by rewrite Ht, Hid.
  - intros q q' Hin Hid Hk. apply Hrel. split; [done|]. left.
    apply (Hseen _ _ Hin). simpl. unfold getRelationKey.
    change (ident_of (Some q')) with (r_ident q'). change (ident_of (Some q)) with (r_ident q).
    by rewrite Hid.
Qed.

(** ** The manifest sync *)

(** after a manifest sync that had to copy, the local manifest is the remote's text under the
    hash of that text; when the remote published that hash, running the sync again against the same
    remote changes nothing. *)
Theorem sync_manifest_converges ts ts' evs rmd buf w d w' :
  repr (w_tx w) d -> sync_getManifest evs zero_Metadata "" = Ok (rmd, buf) ->
  md_etag rmd = manifest_Hash (MkBody buf) ->
  (forall md, local_metadata (w_tx w) = Ok md -> md_etag md <> md_etag rmd) ->
  syncManifest ts (Ok evs) w = (Ok tt, w') ->
  (exists d', repr (w_tx w') d' /\ d_body d' = Some (MkBody buf) /\
     d_metadata d' = Some (MkMetadata (Some ts) (manifest_Hash (MkBody buf))) /\
     d_objs d' = d_objs d /\ d_rels d' = d_rels d) /\
  syncManifest ts' (Ok evs) w' = (Ok tt, w').
Proof.
  intros Hr Hget Hetag Hne. unfold syncManifest at 1. cbn [rbind]. rewrite Hget.
  destruct (local_metadata (w_tx w)) as [lmd|] eqn:Hl; [|done].
  destruct (String.eqb_spec (md_etag lmd) (md_etag rmd)) as [E|_]; [by destruct (Hne lmd)|].
  unfold sync_setManifest.
  destruct (bind _ _ (w_tx w)) as [[m|e] t1] eqn:Hrun; [|done].
  apply guard_inv in Hrun as [[_ Hrun]|(e & _ & ? & _)]; [|done].
  destruct (manifest_Load buf) as [m0|]; [|done].
  apply bind_inv in Hrun as [([] & t2 & Hu & Hrun)|(e & _ & ?)]; [|done].
  injection Hrun as <- <-. apply Update_ok, (setManifest_ok _ _ _ _ _ d) in Hu; [|done].
  destruct (mc_UpdateModel _ _) as [mc'|]; [|done]. intros [= <-]. split.
  - eexists. split; [exact Hu|]. done.
  - unfold syncManifest. cbn [rbind]. rewrite Hget. unfold local_metadata. simpl.
    rewrite (manifest_Get_repr t2 _ _ _ Hu eq_refl eq_refl).
    cbn [md_etag]. by rewrite Hetag, String.eqb_refl.
Qed.
End SyncFacts.

Module DataSyncExamples.
Import Concrete.

(** A filter of bounded capacity that remembers its keys. *)
#[local] Instance list_filter_ : Cuckoo := {|
  cfilter := list string;
  cuckoo_NewFilter := fun _ => [];
  cuckoo_Insert := fun k f => if (length f <? 8)%nat then (true, k :: f) else (false, f);
  cuckoo_Lookup := fun k f => bool_decide (k ∈ f);
  RFC3339Nano := fun _ => "" |}.
#[local] Instance list_filter_laws : CuckooLaws list_filter_.
Proof.
  split; simpl.
  - intros k f f'. case_match; [|done]. intros [= <-]. apply bool_decide_eq_true_2. left.
  - intros k k' f f'. case_match; [|done]. intros [= <-] Hk. apply bool_decide_eq_true in Hk.
    apply bool_decide_eq_true_2. by right.
Qed.

Definition world1 : world := MkWorld db1 mc0 None.

Lemma filter_size_bounds_witness :
  getFilterSize (MkWatermark "" None 60000 0 0) = 121000%Z /\
  (getFilterSize (MkWatermark "" None 60000 0 0) mod 1000 = 0)%Z.
Proof.
  split; [reflexivity|].
  refine (proj1 (proj2 (proj2 (filter_size_bounds (MkWatermark "" None 60000 0 0) _)))).
  simpl. lia.
Defined.

Lemma chan_delivers_witness :
  chan_final (MkChan (X := nat) [] [] [1; 2] true) /\
  received (MkChan (X := nat) [] [] [1; 2] true) = [1; 2].
Proof.
  destruct (chan_delivers 1 [1; 2] (MkChan [] [] [1; 2] true)) as [H|(s' & Hs & _)].
  - lia.
  - eapply rtc_l; [apply (chan_send 1 1 [2] [] []); simpl; lia|].
    eapply rtc_l; [apply (chan_recv 1 1 [2] [] [] false)|].
    eapply rtc_l; [apply (chan_send 1 2 [] [] [1]); simpl; lia|].
    eapply rtc_l; [apply (chan_close 1 [2] [1])|].
    eapply rtc_l; [apply (chan_recv 1 2 [] [] [1] true)|]. apply rtc_refl.
  - exact H.
  - exfalso. inversion Hs.
Defined.

Lemma watermark_advances_witness :
  exists wm, w_file (setWatermark None (Some ts2) world1).2 = Some wm /\
    ts_le (Some ts2) (wm_Timestamp wm) /\ RelationCount wm = 2%Z.
Proof.
  destruct (watermark_advances ts2 world1 dir1 (setWatermark None (Some ts2) world1).2 db1_repr)
    as (wm & Hf & _ & _ & _ & Hts & _ & _); [reflexivity|].
  exists wm. split; [exact Hf|]. split; [exact Hts|].
  assert (RelationCount <$> w_file (setWatermark None (Some ts2) world1).2 = Some 2%Z) as H
    by (vm_compute; reflexivity).
  rewrite Hf in H. injection H as ->. reflexivity.
Defined.

Definition known : list string := ["doc:1#viewer@user:bob"; "user:bob"].
Lemma diff_exact_witness :
  exists r t' d', diff mc0 (Some (known : @cfilter list_filter_)) db1 = (Ok r, t') /\ repr t' d' /\
    d_rels d' !! r_ident rel1 = Some rel1 /\ d_objs d' !! ("user", "bob") = Some bob1.
Proof.
  destruct (diff_exact mc0 (known : @cfilter list_filter_) db1 dir1 db1_repr)
    as (r & t' & d' & H & Hr & Ho & Hrel); [reflexivity|].
  exists r, t', d'. split; [exact H|]. split; [exact Hr|]. split.
  - apply Hrel. split; [vm_compute; reflexivity|]. left. vm_compute. reflexivity.
  - apply Ho. split; [vm_compute; reflexivity|]. left. vm_compute. reflexivity.
Defined.

Definition exported : list export_event :=
  [ExportMsg (ExportResponse_Object (Some bob)); ExportMsg (ExportResponse_Relation (Some rel1))].
Lemma diff_keeps_exported_witness :
  exists r t' d',
    diff mc0 (producer_loop Diff exported (Some ([] : @cfilter list_filter_)) []).1.1 db1 = (Ok r, t') /\
    repr t' d' /\ d_objs d' !! ("user", "bob") = Some bob1 /\ d_rels d' !! r_ident rel1 = Some rel1.
Proof.
  destruct (diff_keeps_exported Diff mc0 exported ([] : @cfilter list_filter_)
    ["doc:1#viewer@user:bob"; "user:bob"]
    [ExportResponse_Object (Some bob); ExportResponse_Relation (Some rel1)] db1 dir1)
    as (r & t' & d' & H & Hr & Ho & Hrel);
    [reflexivity | vm_compute; reflexivity | vm_compute; reflexivity | exact db1_repr | reflexivity |].
  exists r, t', d'. split; [exact H|]. split; [exact Hr|]. split.
  - apply (Ho bob1 bob); [left | reflexivity | reflexivity | vm_compute; reflexivity].
  - apply (Hrel rel1 rel1); [right; left | reflexivity | vm_compute; reflexivity].
Defined.

Definition remote : list manifest_event :=
  [ManifestMsg (GetManifestResponse_Metadata (MkMetadata (Some ts1) (manifest_Hash (MkBody "types: v3"))));
   ManifestMsg (GetManifestResponse_Body "types: "); ManifestMsg (GetManifestResponse_Body "v3")].
Lemma sync_manifest_converges_witness :
  (syncManifest ts1 (Ok remote) world1).1 = Ok tt /\
  syncManifest ts2 (Ok remote) (syncManifest ts1 (Ok remote) world1).2 =
    (Ok tt, (syncManifest ts1 (Ok remote) world1).2).
Proof.
  assert (is_ok (syncManifest ts1 (Ok remote) world1).1 = true) as H by (vm_compute; reflexivity).
  assert (local_metadata (w_tx world1) = Ok zero_Metadata) as Hl by (vm_compute; reflexivity).
  destruct (syncManifest ts1 (Ok remote) world1) as [[[]|e] w'] eqn:E; [|discriminate H].
  split; [reflexivity|].
  refine (proj2 (sync_manifest_converges ts1 ts2 remote
    (MkMetadata (Some ts1) (manifest_Hash (MkBody "types: v3"))) "types: v3" world1 dir1 w'
    db1_repr _ _ _ E)); [reflexivity | reflexivity |].
  intros md. rewrite Hl. intros [= <-]. vm_compute. discriminate.
Defined.
End DataSyncExamples.
