(* ===== verification/Migrations.v ===== *)
(** * Schema migrations of the BoltDB file

    [internal/eds/pkg/bdb/migrations]: the shared steps ([common]), the migrations [mig004] to
    [mig010], and the driver ([migrate]).  A database file is the state of its last committed
    transaction; every step commits on its own, so a migration that fails half-way leaves the steps
    before it done.  A backup is the state it was taken from. *)
From stdpp Require Import pretty.
From S2P Require Import Prelude Bytes Messages Keys Store Bolt Bdb BdbTx Ds Service Instances.

(** ** Versions *)

(** A version of [Masterminds/semver] without a prerelease and without metadata: the program writes no other (an entry
    that was edited by hand could have them). *)
Record Version := MkVersion { Major : N; Minor : N; Patch : N }.
#[export] Instance Version_eq_dec : EqDecision Version.
Proof. solve_decision. Defined.
Definition ver_String (v : Version) : string :=
  pretty (Major v) +:+ "." +:+ pretty (Minor v) +:+ "." +:+ pretty (Patch v).
Definition IncPatch (v : Version) : Version := MkVersion (Major v) (Minor v) (Patch v + 1).
Definition LessThan (v w : Version) : bool :=
  (Major v <? Major w)%N || (Major v =? Major w)%N &&
  ((Minor v <? Minor w)%N || (Minor v =? Minor w)%N && (Patch v <? Patch w)%N).

(** The parser, and the JSON encoding that [mig007] replaces. *)
Class MigrationParams := {
  NewVersion : string -> option Version;
  json_Body : string -> res Body;
  json_Metadata : string -> res Metadata;
  json_Object : string -> res Object;
  json_Relation : string -> res Relation }.
Class MigrationLaws `(MP : MigrationParams) : Prop :=
  NewVersion_String v : NewVersion (ver_String v) = Some v.

Definition ErrNotExist : err := XErr NotFound "file does not exist".
Definition ErrDirectorySchemaVersionHigher (v : string) : err :=
  AErr "E20054" FailedPrecondition "directory schema version is higher than supported by engine" [v].
Definition ErrDirectorySchemaUpdateRequired : err :=
  AErr "E20055" FailedPrecondition "directory schema update required" [].
Definition ErrUnknownVersion : err := AErr "E99999" UnknownCode "unexpected error occurred" [].
(** A run-time panic, which unwinds to the next [recover]. *)
Definition panic (what : string) : err := XErr Internal ("panic: " +:+ what).
Definition is_panic (e : err) : bool :=
  match e with XErr Internal w => HasPrefix w "panic: " | _ => false end.

Section Migrations.
Context {model : Type} `{B : Bolt} `{CO : Codecs model} `{A : Azm model} `{MP : MigrationParams}.
(** The outcome of a commit. *)
Context (db_commit_err : btx -> option err).

(** [db.Update], and [Begin(true)] with a deferred [Rollback]. *)
Definition db_Update {X} (fn : M btx X) : M btx X := fun t =>
  match fn t with
  | (Ok a, t') => match db_commit_err t' with None => (Ok a, t') | Some e => (Fail e, t) end
  | (Fail e, _) => (Fail e, t)
  end.

(** A step is given the read-only backup, absent when a new file is created. *)
Definition step : Type := option btx -> M btx unit.

(** ** [common.go] *)

(** The same walk as [bdb.SetBucket], with another error. *)
Definition common_SetBucket (t : btx) (path : bpath) : res bpath :=
  match SetBucket t path with Ok b => Ok b | Fail _ => Fail ErrNotExist end.

Definition common_SetKey (path : bpath) (key value : string) : M btx unit := fun t =>
  match common_SetBucket t path with
  | Fail e => (Fail e, t)
  | Ok b => b_Put b key value t
  end.

Definition common_CreateBucket (path : bpath) : step := fun _ =>
  db_Update (do! CreateBucket path; ret tt).

Definition common_DeleteBucket (path : bpath) : step := fun _ => db_Update (DeleteBucket path).

Definition versionKey : string := "version".
Definition baseVersion : Version := MkVersion 0 0 4.

(** [None] is the nil version that an unparsable entry gives. *)
Definition GetVersion (t : btx) : option Version :=
  match common_SetBucket t SystemPath with
  | Fail _ => Some baseVersion
  | Ok b =>
      match b_Get t b versionKey with
      | None => Some baseVersion
      | Some v => NewVersion v
      end
  end.

Definition put_version (s : string) : M btx unit := fun t =>
  match common_SetBucket t SystemPath with
  | Fail _ => (Ok tt, t)
  | Ok b => b_Put b versionKey s t
  end.
Definition SetVersion (v : Version) : M btx unit := db_Update (put_version (ver_String v)).
Definition EnsureBaseVersion : step := fun _ => db_Update (put_version (ver_String baseVersion)).

Definition loadModel (path : bpath) (roDB : btx) : res model :=
  rbind (Get path BodyKey roDB) (fun manifestBody => manifest_Load (body_data manifestBody)).

Definition MigrateModel (path : bpath) : step := fun roDB =>
  match roDB with
  | None => ret tt
  | Some roDB =>
      let! m := lift (loadModel path roDB) in
      db_Update (do! SetAny path ModelKey m; ret tt)
  end.
Definition MigrateModelV1 : step := MigrateModel ManifestPathV1.
Definition MigrateModelV2 : step := MigrateModel ManifestPathV2.

(** [for key, value := c.First(); key != nil; key, value = c.Next() { body }] over the backup. *)
Fixpoint each_row (roDB : btx) (b : bpath) (body : string -> string -> M btx unit) (fuel : nat)
    (cur : option (string * string)) : M btx unit :=
  match fuel with
  | O => fail out_of_fuel
  | S fuel =>
      match cur with
      | None => ret tt
      | Some (k, v) => do! body k v; each_row roDB b body fuel (c_Next roDB b k)
      end
  end.

(** The read-transaction of a data migration: every row of a bucket of the backup. *)
Definition copy_rows (path : bpath) (body : string -> string -> M btx unit) : step := fun roDB =>
  match roDB with
  | None => ret tt
  | Some roDB =>
      db_Update (
        let! b := lift (common_SetBucket roDB path) in
        each_row roDB b body (S (b_KeyN roDB b)) (c_First roDB b))
  end.

Fixpoint run_steps (steps : list step) (roDB : option btx) : M btx unit :=
  match steps with
  | [] => ret tt
  | fn :: steps => do! fn roDB; run_steps steps roDB
  end.

(** ** [mig004], [mig005], [mig006], [mig008] *)

Definition reload_model : list step :=
  [common_CreateBucket SystemPath;
   common_CreateBucket ManifestPathV1; MigrateModelV1;
   common_CreateBucket ObjectsPath; common_CreateBucket RelationsObjPath;
   common_CreateBucket RelationsSubPath].
Definition mig004 : list step := reload_model.
Definition mig005 : list step := reload_model.
Definition mig006 : list step := reload_model.
Definition mig008 : list step := reload_model.

(** ** [mig007]: from JSON to binary protobuf *)

(** [b.Get] of a missing key is nil, read as empty. *)
Definition raw (t : btx) (b : bpath) (key : string) : string := default "" (b_Get t b key).

Definition encodeBody (roDB : btx) (b path : bpath) : M btx unit :=
  let! body := lift (json_Body (raw roDB b BodyKey)) in
  let! bodyBuf := lift (marshal body) in
  common_SetKey path BodyKey bodyBuf.
Definition encodeMetaData (roDB : btx) (b path : bpath) : M btx unit :=
  let! metadata := lift (json_Metadata (raw roDB b MetadataKey)) in
  let! metadataBuf := lift (marshal metadata) in
  common_SetKey path MetadataKey metadataBuf.

Definition mig007_updateManifest (path : bpath) : step := fun roDB =>
  match roDB with
  | None => ret tt
  | Some roDB =>
      db_Update (
        let! b := lift (common_SetBucket roDB path) in
        do! encodeBody roDB b path;
        do! encodeMetaData roDB b path;
        common_SetKey path ModelKey (raw roDB b ModelKey))
  end.

Definition updateEncodingObjects : step :=
  copy_rows ObjectsPath (fun key value =>
    let! obj := lift (json_Object value) in
    let! val := lift (marshal obj) in
    common_SetKey ObjectsPath key val).

Definition updateEncodingRelations : step :=
  copy_rows RelationsObjPath (fun _ value =>
    let! rel := lift (json_Relation value) in
    let! val := lift (marshal rel) in
    do! common_SetKey RelationsObjPath (ds.relation_ObjKey (r_ident rel)) val;
    common_SetKey RelationsSubPath (ds.relation_SubKey (r_ident rel)) val).

Definition mig007 : list step :=
  [common_DeleteBucket SystemPath; common_CreateBucket SystemPath;
   common_DeleteBucket ManifestPathV1; common_CreateBucket ManifestPathV1;
   mig007_updateManifest ManifestPathV1;
   common_DeleteBucket ObjectsPath; common_CreateBucket ObjectsPath; updateEncodingObjects;
   common_DeleteBucket RelationsObjPath; common_CreateBucket RelationsObjPath;
   common_DeleteBucket RelationsSubPath; common_CreateBucket RelationsSubPath;
   updateEncodingRelations].

(** ** [mig009]: the manifest without a version in its path *)

Definition not_found (key : string) : err := XErr NotFound (key +:+ " not found").

Definition move_key (roDB : btx) (rb wb : bpath) (key : string) : M btx unit :=
  match b_Get roDB rb key with
  | None => fail (not_found key)
  | Some v => b_Put wb key v
  end.

Definition mig009_updateManifest (oldPath newPath : bpath) : step := fun roDB =>
  match roDB with
  | None => ret tt
  | Some roDB =>
      db_Update (
        let! rb := lift (common_SetBucket roDB oldPath) in
        let! wb := reads (fun wtx => common_SetBucket wtx newPath) in
        do! move_key roDB rb wb BodyKey;
        do! move_key roDB rb wb ModelKey;
        move_key roDB rb wb MetadataKey)
  end.

Definition mig009 : list step :=
  [common_CreateBucket SystemPath;
   common_DeleteBucket ManifestPathV1; common_CreateBucket ManifestPathV2;
   mig009_updateManifest ManifestPathV1 ManifestPathV2;
   common_CreateBucket ObjectsPath; common_CreateBucket RelationsObjPath;
   common_CreateBucket RelationsSubPath].

(** ** [mig010]: the display name into the property bag *)

Definition mig010_updateObjects : step :=
  copy_rows ObjectsPath (fun key value =>
    let! obj := lift (unmarshal value) in
    match ds.PatchObjectWrite obj with
    | None => fail (panic "nil pointer dereference")
    | Some obj =>
        let! val := lift (marshal obj) in
        common_SetKey ObjectsPath key val
    end).

Definition mig010 : list step :=
  [common_CreateBucket SystemPath; common_CreateBucket ManifestPathV2;
   common_CreateBucket ObjectsPath; mig010_updateObjects;
   common_CreateBucket RelationsObjPath; common_CreateBucket RelationsSubPath].

(** ** [migrate.go] *)

Definition migMap : list (string * list step) :=
  [("0.0.4", mig004); ("0.0.5", mig005); ("0.0.6", mig006); ("0.0.7", mig007); ("0.0.8", mig008);
   ("0.0.9", mig009); ("0.0.10", mig010)].

Fixpoint lookup_version {X} (v : string) (l : list (string * X)) : option X :=
  match l with
  | [] => None
  | (k, steps) :: l => if String.eqb k v then Some steps else lookup_version v l
  end.

Definition execute (roDB : option btx) (newVersion : Version) : M btx unit :=
  match lookup_version (ver_String newVersion) migMap with
  | Some steps => run_steps steps roDB
  | None => fail ErrNotExist
  end.

Definition create (version : Version) : M btx unit :=
  do! execute None version;
  do! SetVersion version;
  ret tt.

(** [backup_err]: the outcome of writing and opening the backup file. *)
Context (backup_err : option err).

Definition migrate (nextVersion : Version) : M btx unit := fun t =>
  match backup_err with
  | Some e => (Fail e, t)
  | None =>
      let roDB := t in
      (do! execute (Some roDB) nextVersion;
       do! SetVersion nextVersion;
       ret tt) t
  end.

Definition getCurrent (t : btx) : res Version :=
  match GetVersion t with
  | Some v => Ok v
  | None => Fail (panic "nil pointer dereference")
  end.

(** The upgrade loop; [None] when it has not ended after [fuel] rounds. *)
Fixpoint Migrate_loop (fuel : nat) (reqVersion curVersion : Version) (t : btx) : option (res unit * btx) :=
  match fuel with
  | O => None
  | S fuel =>
      let nextVersion := IncPatch curVersion in
      match migrate nextVersion t with
      | (Fail e, t) => Some (Fail e, t)
      | (Ok _, t) =>
          match getCurrent t with
          | Fail e => Some (Fail e, t)
          | Ok curVersion =>
              if bool_decide (curVersion = reqVersion) then Some (Ok tt, t)
              else Migrate_loop fuel reqVersion curVersion t
          end
      end
  end.

(** The body of [Migrate]; twelve rounds are more than there are versions. *)
Definition Migrate_body (reqVersion : Version) : M btx unit :=
  let! curVersion := reads getCurrent in
  if bool_decide (curVersion = reqVersion) then ret tt
  else fun t => default (Fail out_of_fuel, t) (Migrate_loop 12 reqVersion curVersion t).

(** [Migrate]: the deferred [recover] turns a panic into a nil error. *)
Definition Migrate (reqVersion : Version) : M btx unit :=
  try! r := Migrate_body reqVersion in
  match r with
  | Ok _ => ret tt
  | Fail e => if is_panic e then ret tt else fail e
  end.

(** The database file; [None] when it does not exist.  [fresh] is the state of a new file. *)
Context (fresh : btx).
Definition db_file : Type := option btx.

Definition CheckSchemaVersion (reqVersion : Version) : M db_file bool := fun file =>
  match file with
  | None =>
      match create reqVersion fresh with
      | (Ok _, t) => (Ok true, Some t)
      | (Fail e, t) => (Fail e, Some t)
      end
  | Some t =>
      (match GetVersion t with
       | None => Fail (panic "nil pointer dereference")
       | Some curVersion =>
           if bool_decide (curVersion = reqVersion) then Ok true
           else if LessThan curVersion reqVersion then Fail ErrDirectorySchemaUpdateRequired
           else if LessThan reqVersion curVersion
           then Fail (ErrDirectorySchemaVersionHigher (ver_String curVersion))
           else Fail ErrUnknownVersion
       end, file)
  end.

(** ** [directory.go]: opening the store *)

Definition schemaVersion : Version := MkVersion 0 0 9.

(** [openBoltDB]: check, migrate when an update is required, check again. *)
Definition openBoltDB : M db_file unit := fun file =>
  match CheckSchemaVersion schemaVersion file with
  | (Ok _, file) => (Ok tt, file)
  | (Fail e, file) =>
      match file with
      | Some t =>
          if bool_decide (e = ErrDirectorySchemaUpdateRequired) then
            match Migrate schemaVersion t with
            | (Fail e, t) => (Fail e, Some t)
            | (Ok _, t) =>
                match CheckSchemaVersion schemaVersion (Some t) with
                | (Ok _, file) => (Ok tt, file)
                | (Fail e, file) => (Fail e, file)
                end
            end
          else (Fail e, file)
      | None => (Fail e, file)
      end
  end.
End Migrations.
