(* ===== verification/MigrationFacts.v ===== *)
(** * Migrating a database file

    What [Migrations.v] guarantees: the version a file ends at, the termination of the upgrade loop,
    the contents of a new file, the move of the manifest in [mig009]; and the recovered panic. *)
From stdpp Require Import pretty.
From Stdlib Require Import Ascii.
From S2P Require Import Prelude Bytes Messages Hash Keys Store Bolt Bdb BdbTx Ds Service Instances.
From S2P Require Import Migrations.

(** ** What every step keeps: the system bucket *)

(** A property that a successful run of [m] keeps. *)
Definition on_ok {S X} (I : S -> Prop) (m : M S X) : Prop :=
  forall t a t', m t = (Ok a, t') -> I t -> I t'.

Section OnOk.
Context {S : Type} (I : S -> Prop).

Lemma on_ok_ret {X} (a : X) : on_ok I (ret a).
Proof. by intros t b t' [= _ <-]. Qed.
Lemma on_ok_fail {X} e : on_ok I (@fail S X e).
Proof. by intros t b t' [=]. Qed.
Lemma on_ok_lift {X} (r : res X) : on_ok I (lift r).
Proof. by intros t b t' [= _ <-]. Qed.
Lemma on_ok_reads {X} (f : S -> res X) : on_ok I (reads f).
Proof. by intros t b t' [= _ <-]. Qed.
Lemma on_ok_get : on_ok I get.
Proof. by intros t b t' [= _ <-]. Qed.
Lemma on_ok_bind {X Y} (m : M S X) (f : X -> M S Y) :
  on_ok I m -> (forall a, on_ok I (f a)) -> on_ok I (bind m f).
Proof.
  intros Hm Hf t b t' [(a & t1 & H1 & H2)|(e & _ & ?)]%bind_inv Ht; [|done].
  eapply Hf; [exact H2|]. by eapply Hm.
Qed.
End OnOk.
#[export] Hint Resolve on_ok_ret on_ok_fail on_ok_lift on_ok_reads on_ok_get : dirdb.

Ltac keep :=
  repeat (lazymatch goal with
          | |- on_ok _ (bind _ _) => apply on_ok_bind; [|intros ?]
          | |- on_ok _ (match ?x with _ => _ end) => destruct x eqn:?
          | |- on_ok _ _ => solve [eauto with dirdb]
          end).

Section MigrationFacts.
Context {model : Type} `{B : Bolt} `{CO : Codecs model} `{A : Azm model} `{MP : MigrationParams}.
Context `{BL : !BoltLaws B} `{ML : !MigrationLaws MP}.
Context (db_commit_err : btx -> option err) (backup_err : option err).

(** The database has this bucket. *)
Definition has_bucket (p : bpath) (t : btx) : Prop := is_Some (view t !! p).

Lemma on_ok_Create q b n : on_ok (has_bucket q) (b_CreateBucketIfNotExists b n).
Proof. intros t [] t' H Ht. apply Create_success in H as [_ H]. by apply H. Qed.
Lemma on_ok_Put q b k v : on_ok (has_bucket q) (b_Put b k v).
Proof. intros t [] t' H Ht. apply Put_success in H as [_ H]. by apply H. Qed.
Hint Resolve on_ok_Create on_ok_Put : dirdb.

Lemma on_ok_CreateBucket q p : on_ok (has_bucket q) (CreateBucket p).
Proof.
  unfold CreateBucket. generalize (@nil string).
  induction p as [|n p IH]; intros b; simpl; keep.
Qed.

Lemma on_ok_common_SetKey q p k v : on_ok (has_bucket q) (common_SetKey p k v).
Proof.
  intros t a t' H Ht. unfold common_SetKey in H. destruct (common_SetBucket t p); [|done].
  by eapply on_ok_Put.
Qed.
Hint Resolve on_ok_CreateBucket on_ok_common_SetKey : dirdb.

Lemma on_ok_SetAny {T} `{AnyCodec T} q p k (x : T) : on_ok (has_bucket q) (SetAny p k x).
Proof. unfold SetAny, SetKey. keep. Qed.
Hint Resolve on_ok_SetAny : dirdb.

Lemma on_ok_each_row q roDB b body n : forall cur,
  (forall k v, on_ok (has_bucket q) (body k v)) -> on_ok (has_bucket q) (each_row roDB b body n cur).
Proof.
  induction n as [|n IH]; intros cur Hb; simpl; keep.
Qed.

(** A transaction that does not commit leaves the file as it was. *)
Lemma preserves_db_Update {X} (I : btx -> Prop) (m : M btx X) :
  on_ok I m -> preserves I (db_Update db_commit_err m).
Proof.
  intros Hm t Ht. unfold db_Update. destruct (m t) as [[a|e] t'] eqn:E; [|done].
  destruct (db_commit_err t'); [done|]. simpl. by eapply Hm.
Qed.

Lemma SetBucket_path t p b : SetBucket t p = Ok b -> b = p.
Proof.
  assert (forall l b0, SetBucket_loop t b0 l = Ok b -> b = b0 ++ l) as Hl.
  { intros l. induction l as [|x l IH]; intros b0; simpl; [intros [= ->]; by rewrite app_nil_r|].
    destruct (b_Bucket t b0 x); [|done]. intros Hb%IH. by rewrite <-app_assoc in Hb. }
  unfold SetBucket. destruct p; [done|]. apply (Hl (_ :: _) []).
Qed.

(** Deleting a bucket removes nothing outside it. *)
Lemma on_ok_DeleteBucket q p :
  below p q = false -> on_ok (has_bucket q) (DeleteBucket p).
Proof.
  assert (forall b n t r t', below (b ++ [n]) q = false -> b_DeleteBucket b n t = (r, t') ->
            has_bucket q t -> has_bucket q t') as Hdel.
  { intros b n t r t' Hq E Ht. destruct (view t !! (b ++ [n])) eqn:Ev.
    - destruct (DeleteBucket_found t b n) as [_ H]; [by rewrite Ev|]. rewrite E in H. simpl in H.
      destruct Ht as [lq Hl]. exists lq. rewrite H. by apply map_lookup_filter_Some.
    - rewrite (DeleteBucket_missing t b n Ev) in E. by injection E as _ <-. }
  intros Hp t a t' H Ht. unfold DeleteBucket in H. destruct p as [|n p]; [done|].
  destruct p as [|n' p].
  - unfold attempt in H. destruct (b_DeleteBucket [] n t) as [r t1] eqn:E.
    apply (Hdel [] n) in E; [|done..]. destruct r; [|destruct (bool_decide _)]; by injection H as _ <-.
  - unfold bind, get in H. destruct (SetBucket t _) as [b|e] eqn:Es; [|by injection H as _ <-].
    unfold attempt in H. destruct (b_DeleteBucket b _ t) as [r t1] eqn:E.
    apply Hdel in E; [|clear -Hp Es|done].
    { destruct r; [|destruct (bool_decide _)]; by injection H as _ <-. }
    apply SetBucket_path in Es as ->.
    by rewrite <-app_removelast_last.
Qed.

(** ** Versions *)

Lemma ver_String_inj v w : ver_String v = ver_String w -> v = w.
Proof.
  intros E. pose proof (NewVersion_String v) as H. rewrite E, NewVersion_String in H.
  by injection H as ->.
Qed.

Abbreviation known_versions := (MkVersion 0 0 <$> [4; 5; 6; 7; 8; 9; 10]%N).

Lemma lookup_version_key {X} v (l : list (string * X)) s :
  lookup_version v l = Some s -> v ∈ l.*1.
Proof.
  induction l as [|[k s'] l IH]; simpl; [done|].
  destruct (String.eqb_spec k v) as [->|_]; [left|]. intros H. right. by apply IH.
Qed.

(** Only the seven versions have a migration. *)
Lemma execute_known roDB v t a t' :
  execute db_commit_err roDB v t = (Ok a, t') -> v ∈ known_versions.
Proof.
  unfold execute. destruct (lookup_version _ _) eqn:E; [|done]. intros _.
  apply lookup_version_key in E.
  assert ((migMap db_commit_err).*1 = ver_String <$> known_versions) as Hk by reflexivity.
  rewrite Hk in E. apply list_elem_of_fmap in E as (w & <-%ver_String_inj%symmetry & Hw). done.
Qed.

(** ** The system bucket outlives every migration *)

Definition keeps_system (s : step) : Prop := forall roDB, preserves (has_bucket SystemPath) (s roDB).

Lemma run_steps_cons (fn : step) steps roDB t t' :
  fn roDB t = (Ok tt, t') -> run_steps (fn :: steps) roDB t = run_steps steps roDB t'.
Proof. intros E. cbn [run_steps]. by rewrite (bind_ok _ _ _ _ _ E). Qed.

Lemma run_steps_keep steps roDB :
  Forall keeps_system steps -> preserves (has_bucket SystemPath) (run_steps steps roDB).
Proof. induction 1; simpl; preserve; auto. Qed.

Lemma keeps_Create p : keeps_system (common_CreateBucket db_commit_err p).
Proof. intros roDB. apply preserves_db_Update. keep. Qed.
Lemma keeps_Delete p :
  below p SystemPath = false -> keeps_system (common_DeleteBucket db_commit_err p).
Proof. intros Hp roDB. by apply preserves_db_Update, on_ok_DeleteBucket. Qed.
Lemma keeps_MigrateModel p : keeps_system (MigrateModel db_commit_err p).
Proof.
  intros [roDB|]; simpl; [|apply preserves_ret]. preserve. apply preserves_db_Update. keep.
Qed.
Lemma keeps_MigrateModelV1 : keeps_system (MigrateModelV1 db_commit_err).
Proof. apply keeps_MigrateModel. Qed.
Lemma keeps_copy p body :
  (forall k v, on_ok (has_bucket SystemPath) (body k v)) ->
  keeps_system (copy_rows db_commit_err p body).
Proof.
  intros Hb [roDB|]; simpl; [|apply preserves_ret]. apply preserves_db_Update. keep.
  by apply on_ok_each_row.
Qed.
Lemma keeps_mig007_manifest p : keeps_system (mig007_updateManifest db_commit_err p).
Proof.
  intros [roDB|]; simpl; [|apply preserves_ret]. apply preserves_db_Update.
  unfold encodeBody, encodeMetaData. keep.
Qed.
Lemma keeps_mig009_manifest p q : keeps_system (mig009_updateManifest db_commit_err p q).
Proof.
  intros [roDB|]; simpl; [|apply preserves_ret]. apply preserves_db_Update. unfold move_key. keep.
Qed.
Lemma keeps_objects7 : keeps_system (updateEncodingObjects db_commit_err).
Proof. apply keeps_copy. intros. keep. Qed.
Lemma keeps_relations7 : keeps_system (updateEncodingRelations db_commit_err).
Proof. apply keeps_copy. intros. keep. Qed.
Lemma keeps_objects10 : keeps_system (mig010_updateObjects db_commit_err).
Proof. apply keeps_copy. intros. keep. Qed.
Hint Resolve keeps_Create keeps_Delete keeps_MigrateModelV1 keeps_mig007_manifest
  keeps_mig009_manifest keeps_objects7 keeps_relations7 keeps_objects10 : dirdb.

Lemma run_steps_system steps roDB t t' :
  run_steps (common_CreateBucket db_commit_err SystemPath :: steps) roDB t = (Ok tt, t') ->
  Forall keeps_system steps -> has_bucket SystemPath t'.
Proof.
  intros [([] & t1 & H1 & H2)|(e & _ & ?)]%bind_inv Hs; [|done].
  change (run_steps steps roDB t1 = (Ok tt, t')) in H2.
  pose proof (run_steps_keep steps roDB Hs t1) as Hk. rewrite H2 in Hk. apply Hk. clear Hk H2. clear -H1 BL. unfold common_CreateBucket, db_Update in H1.
  destruct ((do! CreateBucket SystemPath; ret tt) t) as [[a|e] t2] eqn:E; [|done].
  destruct (db_commit_err t2); [done|]. injection H1 as _ <-.
  unfold CreateBucket, SystemPath, CreateBucket_loop, bind in E. cbn [app] in E.
  destruct (b_CreateBucketIfNotExists [] "_system" t) as [[[]|e] t3] eqn:E1; [|done].
  injection E as _ <-. by apply Create_success in E1 as [H _].
Qed.

Lemma execute_system roDB v t t' :
  execute db_commit_err roDB v t = (Ok tt, t') -> has_bucket SystemPath t'.
Proof.
  unfold execute. destruct (lookup_version _ _) as [steps|] eqn:E; [|done]. intros H.
  assert ((exists s l, steps = s :: common_CreateBucket db_commit_err SystemPath :: l /\
             Forall keeps_system l) \/
          (exists l, steps = common_CreateBucket db_commit_err SystemPath :: l /\
             Forall keeps_system l)) as [(s & l & -> & Hl)|(l & -> & Hl)].
  { unfold migMap in E. cbn [lookup_version] in E.
    repeat (destruct (String.eqb _ _); [injection E as <-; clear H|]); [..|done];
      first [ right; eexists; split; [reflexivity|] | left; do 2 eexists; split; [reflexivity|] ];
      repeat (constructor; [by auto with dirdb|]); constructor. }
  - apply bind_inv in H as [(a & t1 & _ & H)|(e & _ & ?)]; [|done]. by eapply run_steps_system.
  - by eapply run_steps_system.
Qed.

Lemma GetVersion_at t : has_bucket SystemPath t ->
  common_SetBucket t SystemPath = Ok SystemPath.
Proof. intros [l Hl]. unfold common_SetBucket, SystemPath. by rewrite (SetBucket_top t "_system" l Hl). Qed.

Lemma SetVersion_ok v t t' :
  has_bucket SystemPath t -> SetVersion db_commit_err v t = (Ok tt, t') ->
  has_bucket SystemPath t' /\ GetVersion t' = Some v.
Proof.
  intros Hs. unfold SetVersion, db_Update, put_version. rewrite GetVersion_at by done.
  destruct (b_Put SystemPath versionKey _ t) as [[[]|e] t1] eqn:E; [|done].
  destruct (db_commit_err t1); [done|]. intros [= <-]. apply Put_success in E as [Hg Hk].
  assert (has_bucket SystemPath t1) as Hs1 by (by apply Hk).
  split; [done|]. unfold GetVersion. rewrite GetVersion_at, Hg by done. apply NewVersion_String.
Qed.

Lemma execute_SetVersion roDB v t a t' :
  (do! execute db_commit_err roDB v; do! SetVersion db_commit_err v; ret tt) t = (Ok a, t') ->
  GetVersion t' = Some v /\ v ∈ known_versions.
Proof.
  intros [([] & t1 & H1 & H2)|(e & _ & ?)]%bind_inv; [|done].
  apply bind_inv in H2 as [([] & t2 & H2 & [= _ <-])|(e & _ & ?)]; [|done].
  split; [|by eapply execute_known]. eapply SetVersion_ok; [|exact H2]. by eapply execute_system.
Qed.

Lemma migrate_version v t a t' :
  migrate db_commit_err backup_err v t = (Ok a, t') -> GetVersion t' = Some v /\ v ∈ known_versions.
Proof. unfold migrate. destruct backup_err; [done|]. apply execute_SetVersion. Qed.

(** ** The upgrade loop *)

Abbreviation loop := (Migrate_loop db_commit_err backup_err).

(** The versions that the rounds of the loop migrate to, and how it ends. *)
Inductive rounds (req : Version) : Version -> btx -> list Version -> res unit -> btx -> Prop :=
| round_failed cur t e t' :
    migrate db_commit_err backup_err (IncPatch cur) t = (Fail e, t') -> rounds req cur t [IncPatch cur] (Fail e) t'
| round_unread cur t t' e :
    migrate db_commit_err backup_err (IncPatch cur) t = (Ok tt, t') -> getCurrent t' = Fail e ->
    rounds req cur t [IncPatch cur] (Fail e) t'
| round_done cur t t' :
    migrate db_commit_err backup_err (IncPatch cur) t = (Ok tt, t') -> getCurrent t' = Ok req ->
    rounds req cur t [IncPatch cur] (Ok tt) t'
| round_on cur t t1 v vs r t' :
    migrate db_commit_err backup_err (IncPatch cur) t = (Ok tt, t1) -> getCurrent t1 = Ok v -> v <> req ->
    rounds req v t1 vs r t' -> rounds req cur t (IncPatch cur :: vs) r t'.

Lemma rounds_loop req cur t vs r t' : rounds req cur t vs r t' ->
  forall n, length vs <= n -> loop n req cur t = Some (r, t').
Proof.
  induction 1 as [cur t e t' Hm|cur t t' e Hm Hg|cur t t' Hm Hg|cur t t1 v vs r t' Hm Hg Hne _ IH]; intros [|n] Hn;
    cbn [length] in Hn; try lia; cbn [Migrate_loop]; rewrite Hm, ?Hg; [done|done|by rewrite bool_decide_true|].
  rewrite bool_decide_false by done. apply IH. lia.
Qed.

Lemma rounds_reach req cur t vs t' : rounds req cur t vs (Ok tt) t' -> GetVersion t' = Some req.
Proof.
  remember (Ok tt : res unit) as r eqn:E. induction 1 as [| |cur t t' Hm Hg|]; try done; [|by auto].
  unfold getCurrent in Hg. by destruct (GetVersion t'); simplify_eq.
Qed.

(** Successive patch versions. *)
Definition patches (cur : Version) (k : nat) : list Version :=
  (fun i => MkVersion (Major cur) (Minor cur) (Patch cur + N.of_nat i)%N) <$> seq 1 k.
Lemma patches_cons cur k : patches cur (S k) = IncPatch cur :: patches (IncPatch cur) k.
Proof.
  unfold patches. cbn [seq fmap list_fmap]. f_equal. rewrite <-(seq_shift k 1), <-list_fmap_compose.
  apply list_fmap_ext. intros i x _. unfold compose, IncPatch. cbn. f_equal. lia.
Qed.
Lemma known_patch v : v ∈ known_versions -> (4 <= Patch v <= 10)%N.
Proof. intros Hv. repeat (apply elem_of_cons in Hv as [->|Hv]; [cbn; lia|]). by apply not_elem_of_nil in Hv. Qed.

(** From a known version there are rounds up to the last one at most, and one that finds no migration. *)
Lemma rounds_end req : forall m cur t, 10 - N.to_nat (Patch cur) <= m ->
  exists k r t', rounds req cur t (patches cur k) r t' /\ k <= S m.
Proof.
  induction m as [|m IH]; intros cur t Hm;
    (destruct (migrate db_commit_err backup_err (IncPatch cur) t) as [[[]|e] t1] eqn:E;
     [|exists 1, (Fail e), t1; split; [by constructor|lia]]);
    pose proof E as [Hv Hk%known_patch]%migrate_version; cbn [Patch IncPatch] in Hk; [lia|].
  assert (getCurrent t1 = Ok (IncPatch cur)) as Hg by (unfold getCurrent; by rewrite Hv).
  destruct (decide (IncPatch cur = req)) as [<-|Hne]; [exists 1, (Ok tt), t1; split; [by constructor|lia]|].
  destruct (IH (IncPatch cur) t1) as (k & r & t' & Hr & Hl); [cbn; lia|].
  exists (S k), r, t'. split; [rewrite patches_cons; by eapply round_on|lia].
Qed.

(** From any version: the first round fails, or leads to a known version. *)
Lemma rounds_bounded req cur t : exists k r t', rounds req cur t (patches cur k) r t' /\ k <= 8.
Proof.
  destruct (migrate db_commit_err backup_err (IncPatch cur) t) as [[[]|e] t1] eqn:E;
    [|exists 1, (Fail e), t1; split; [by constructor|lia]].
  pose proof E as [Hv Hk%known_patch]%migrate_version.
  assert (getCurrent t1 = Ok (IncPatch cur)) as Hg by (unfold getCurrent; by rewrite Hv).
  destruct (decide (IncPatch cur = req)) as [<-|Hne]; [exists 1, (Ok tt), t1; split; [by constructor|lia]|].
  destruct (rounds_end req 6 (IncPatch cur) t1) as (k & r & t' & Hr & Hl); [lia|].
  exists (S k), r, t'. split; [rewrite patches_cons; by eapply round_on|lia].
Qed.

Lemma Migrate_loop_reaches n req cur t t' : 8 <= n -> loop n req cur t = Some (Ok tt, t') -> GetVersion t' = Some req.
Proof.
  intros Hn H. destruct (rounds_bounded req cur t) as (k & r & t1 & Hr & Hk).
  rewrite (rounds_loop _ _ _ _ _ _ Hr) in H by (unfold patches; rewrite length_fmap, length_seq; lia).
  injection H as -> ->. by eapply rounds_reach.
Qed.

(** C36: The upgrade loop ends: from a file at any release version, for any required one, it makes at most eight rounds,
    each to the next patch version, so none twice, and it comes to a result, the same one for eight rounds or any
    larger allowance (the model allows twelve); and when [Migrate]'s body returns without an error the file is at the
    required version. *)
Theorem migrate_terminates req cur t :
  (exists k r t', rounds req cur t (patches cur k) r t' /\ NoDup (patches cur k) /\ k <= 8 /\
     forall n, 8 <= n -> loop n req cur t = Some (r, t')) /\
  (forall a t', Migrate_body db_commit_err backup_err req t = (Ok a, t') -> GetVersion t' = Some req).
Proof.
  split.
  - destruct (rounds_bounded req cur t) as (k & r & t1 & Hr & Hk). exists k, r, t1. split_and!; [done| |done|].
    + unfold patches. apply NoDup_fmap_2, NoDup_seq. intros i j [= H]. lia.
    + intros n Hn. eapply rounds_loop; [exact Hr|]. unfold patches. rewrite length_fmap, length_seq. lia.
  - intros a t'. unfold Migrate_body.
    intros [(v & t1 & [= Hv <-] & H)|(e & _ & ?)]%bind_inv; [|done].
    destruct (bool_decide_reflect (v = req)) as [->|_].
    { injection H as _ <-. unfold getCurrent in Hv. by destruct (GetVersion t); simplify_eq. }
    destruct (Migrate_loop _ _ 12 req v t) as [[[[]|e] t1]|] eqn:El; cbn in H; simplify_eq.
    by apply Migrate_loop_reaches in El; [|lia].
Qed.

Lemma CheckSchemaVersion_ok fresh req file b file' :
  CheckSchemaVersion db_commit_err fresh req file = (Ok b, file') ->
  b = true /\ exists t, file' = Some t /\ GetVersion t = Some req.
Proof.
  destruct file as [t|]; cbn [CheckSchemaVersion].
  - destruct (GetVersion t) as [v|] eqn:E; [|done].
    destruct (bool_decide_reflect (v = req)) as [->|_]; [intros [= <- <-]; eauto|].
    by repeat case_match.
  - unfold create. destruct (bind _ _ fresh) as [[a|e] t] eqn:E; [|done].
    intros [= <- <-]. apply execute_SetVersion in E as [E _]. eauto.
Qed.

Lemma LessThan_asym v w : LessThan v w = true -> LessThan w v = false.
Proof.
  destruct v as [a b c], w as [a' b' c']. unfold LessThan. simpl.
  destruct (N.ltb_spec a a'), (N.eqb_spec a a'), (N.ltb_spec b b'), (N.eqb_spec b b'),
    (N.ltb_spec c c'), (N.ltb_spec a' a), (N.eqb_spec a' a), (N.ltb_spec b' b), (N.eqb_spec b' b),
    (N.ltb_spec c' c); try done; lia.
Qed.

(** the store opens only on a file at the program's schema version: whichever way
    [openBoltDB] succeeds (a new file, a current one, a migrated one, a migration whose panic was
    recovered) the file is at that version; and a file at a higher version is refused and left
    as it was. *)
Theorem open_at_schema_version fresh file file' :
  openBoltDB db_commit_err backup_err fresh file = (Ok tt, file') ->
  exists t, file' = Some t /\ GetVersion t = Some schemaVersion /\
    (forall t0 v, file = Some t0 -> GetVersion t0 = Some v -> LessThan schemaVersion v = false).
Proof.
  unfold openBoltDB.
  destruct (CheckSchemaVersion db_commit_err fresh schemaVersion file) as [[b|e] f] eqn:E.
  - intros [= <-]. pose proof (CheckSchemaVersion_ok _ _ _ _ _ E) as (_ & t & -> & Hv).
    exists t. split_and!; [done..|]. intros t0 v -> Hv0. simpl in E. rewrite Hv0 in E.
    injection E as Hb ->. rewrite Hv in Hv0. by injection Hv0 as <-.
  - destruct f as [t|]; [|done]. case_bool_decide as He; [|done].
    destruct (Migrate db_commit_err backup_err schemaVersion t) as [[[]|e'] t1]; [|done].
    destruct (CheckSchemaVersion _ _ _ (Some t1)) as [[b|e'] f] eqn:E1; [|done]. intros [= <-].
    apply CheckSchemaVersion_ok in E1 as (_ & t2 & -> & Hv). exists t2. split_and!; [done..|].
    intros t0 v -> Hv0. simpl in E. rewrite Hv0 in E. injection E as E <-. subst e.
    case_bool_decide; [done|]. destruct (LessThan v schemaVersion) eqn:Hl; [|by case_match].
    by apply LessThan_asym.
Qed.

(** ** A new file *)

Section Fresh.
Hypothesis commits : forall t, db_commit_err t = None.

Lemma db_Update_ok {X} (m : M btx X) t a t' :
  m t = (Ok a, t') -> db_Update db_commit_err m t = (Ok a, t').
Proof. intros E. unfold db_Update. by rewrite E, commits. Qed.

Lemma Create_top n roDB t :
  n <> "" -> (N.of_nat (String.length n) <= 32768)%N -> view t !! [n] = None ->
  exists t', common_CreateBucket db_commit_err [n] roDB t = (Ok tt, t') /\
    view t' = <[[n] := []]> (view t).
Proof.
  intros Hn Hl Hv. destruct (Create_new t [] n) as [H1 H2];
    [by left | by apply put_err_name | done |].
  destruct (b_CreateBucketIfNotExists [] n t) as [r t'] eqn:E. simpl in *. subst r.
  exists t'. split; [|done]. apply db_Update_ok. unfold CreateBucket, bind. simpl.
  unfold bind. by rewrite E.
Qed.

Lemma Create_manifest roDB t :
  view t !! ["_manifest"] = None -> view t !! ManifestPathV2 = None ->
  exists t', common_CreateBucket db_commit_err ManifestPathV2 roDB t = (Ok tt, t') /\
    view t' = <[ManifestPathV2 := []]> (<[["_manifest"] := []]> (view t)).
Proof.
  intros H1 H2. destruct (Create_new t [] "_manifest") as [E1 E2];
    [by left | by apply put_err_name | done |].
  destruct (b_CreateBucketIfNotExists [] "_manifest" t) as [r t1] eqn:E. simpl in *. subst r.
  destruct (Create_new t1 ["_manifest"] manifestName) as [E3 E4];
    [right | by apply put_err_name | |].
  { exists []. by rewrite E2, lookup_insert_eq. }
  { rewrite E2, lookup_insert_ne by done. exact H2. }
  destruct (b_CreateBucketIfNotExists ["_manifest"] manifestName t1) as [r t2] eqn:E'.
  simpl in *. subst r. exists t2. split; [|by rewrite E4, E2].
  apply db_Update_ok. unfold CreateBucket, bind. simpl. unfold bind. by rewrite E, E'.
Qed.

(** The contents of a file that [create] has just made. *)
Definition new_file : gmap bpath (list (string * string)) :=
  <[["_system"] := [(versionKey, "0.0.9")]]> (<[RelationsSubPath := []]> (<[RelationsObjPath := []]>
  (<[ObjectsPath := []]> (<[ManifestPathV2 := []]> (<[["_manifest"] := []]>
  (<[["_system"] := []]> ∅)))))).

Lemma create_view t :
  view t = ∅ ->
  exists t', create db_commit_err schemaVersion t = (Ok tt, t') /\ view t' = new_file.
Proof.
  intros Hv. unfold create.
  destruct (Create_top "_system" None t) as (t1 & E1 & V1); [done..|by rewrite Hv|].
  assert (common_DeleteBucket db_commit_err ManifestPathV1 None t1 = (Ok tt, t1)) as E2.
  { apply db_Update_ok. unfold DeleteBucket, ManifestPathV1, bind, get. cbn [removelast].
    rewrite SetBucket_missing; [done|]. by rewrite V1, Hv. }
  destruct (Create_manifest None t1) as (t2 & E3 & V2); [by rewrite V1, Hv..|].
  destruct (Create_top "objects" None t2) as (t3 & E4 & V3); [done..|by rewrite V2, V1, Hv|].
  destruct (Create_top "relations_obj" None t3) as (t4 & E5 & V4);
    [done..|by rewrite V3, V2, V1, Hv|].
  destruct (Create_top "relations_sub" None t4) as (t5 & E6 & V5);
    [done..|by rewrite V4, V3, V2, V1, Hv|].
  assert (execute db_commit_err None schemaVersion t = (Ok tt, t5)) as E7.
  { change (run_steps (mig009 db_commit_err) None t = (Ok tt, t5)). unfold mig009, SystemPath, ObjectsPath, RelationsObjPath, RelationsSubPath.
    rewrite (run_steps_cons _ _ _ _ _ E1), (run_steps_cons _ _ _ _ _ E2),
      (run_steps_cons _ _ _ _ _ E3), (run_steps_cons _ _ _ t2 t2) by done.
    by rewrite (run_steps_cons _ _ _ _ _ E4), (run_steps_cons _ _ _ _ _ E5),
      (run_steps_cons _ _ _ _ _ E6). }
  rewrite (bind_ok _ _ _ _ _ E7).
  assert (view t5 !! ["_system"] = Some []) as Hs by (by rewrite V5, V4, V3, V2, V1, Hv).
  destruct (Put_ok t5 ["_system"] [] versionKey "0.0.9") as [P1 P2];
    [done | by rewrite V5, V4, V3, V2, V1, Hv | by apply put_err_fits |].
  destruct (b_Put ["_system"] versionKey "0.0.9" t5) as [r t6] eqn:E8. simpl in P1, P2. subst r.
  exists t6. split.
  - unfold bind, SetVersion. erewrite db_Update_ok; [done|]. unfold put_version.
    rewrite GetVersion_at by (by eexists). exact E8.
  - by rewrite P2, V5, V4, V3, V2, V1, Hv.
Qed.

Lemma new_file_bucket t p :
  view t = new_file ->
  p ∈ [ObjectsPath; RelationsObjPath; RelationsSubPath; ManifestPath] -> bucket_is t p [].
Proof.
  intros Hv Hp. split_and!; [set_solver|..]; rewrite ?Hv; unfold leaf; rewrite ?Hv;
    rewrite !elem_of_cons in Hp;
    destruct Hp as [->|[->|[->|[->|[]%elem_of_nil]]]]; try reflexivity;
    try (intros n; unfold new_file; by rewrite !lookup_insert_ne by discriminate);
    cbn; rewrite ?Hv; eauto.
Qed.

Lemma create_empty t :
  view t = ∅ ->
  exists t', create db_commit_err schemaVersion t = (Ok tt, t') /\ bolt_repr t' empty_dir /\
    GetVersion t' = Some schemaVersion.
Proof.
  intros Hf. destruct (create_view t Hf) as (t' & E & Hv). exists t'. split_and!; [done| |].
  - split.
    + exists [], [], []. split_and!; try (apply new_file_bucket; [done|set_solver]); apply rep_nil.
    + split; [by rewrite Hv|]. rewrite Hv.
      change (new_file !! ManifestPath) with (Some (@nil (string * string))).
      split_and!; try done. by apply new_file_bucket; [|set_solver].
  - unfold create in E. by apply execute_SetVersion in E as [E _].
Qed.

(** opening the store when there is no file creates one: every bucket is there, the file
    represents the empty directory and is at the schema version, so that the next check passes. *)
Theorem open_creates fresh :
  view fresh = ∅ ->
  exists t, openBoltDB db_commit_err backup_err fresh None = (Ok tt, Some t) /\
    bolt_repr t empty_dir /\ GetVersion t = Some schemaVersion /\
    openBoltDB db_commit_err backup_err fresh (Some t) = (Ok tt, Some t).
Proof.
  intros Hf. destruct (create_empty fresh Hf) as (t & E & Hr & Hg). exists t.
  unfold openBoltDB. cbn [CheckSchemaVersion]. by rewrite E, Hg, bool_decide_true.
Qed.
End Fresh.

(** ** [mig009] on a database with the manifest at its old path *)

Lemma Create_present b p t : present t b p -> CreateBucket_loop b p t = (Ok (b ++ p), t).
Proof.
  revert b. induction p as [|n p IH]; intros b; simpl; [by rewrite app_nil_r|].
  intros [Hn Hp]. unfold bind. rewrite Create_existing by done. rewrite IH by done.
  by rewrite <-app_assoc.
Qed.

Lemma data_repr_same t t' objs rels :
  (forall n q, n ∈ ["objects"; "relations_obj"; "relations_sub"] ->
     view t' !! (n :: q) = view t !! (n :: q)) ->
  data_repr t objs rels -> data_repr t' objs rels.
Proof.
  clear db_commit_err backup_err ML. intros Hs (lo & ro & rs & H1 & H2 & H3 & H).
  exists lo, ro, rs. assert (forall n l, n ∈ ["objects"; "relations_obj"; "relations_sub"] ->
            bucket_is t [n] l -> bucket_is t' [n] l) as Hb.
  { intros n l Hn (_ & [Hp _] & Hv & Hl). split_and!; [done | split; [|done] | |].
    - simpl. by rewrite Hs.
    - by rewrite Hs.
    - intros m. cbn [app]. rewrite Hs by done. apply (Hl m). }
  split_and!; [by apply Hb; [set_solver|].. | apply H | apply H | apply H].
Qed.

(** A database as [mig008] leaves it: the data, and a manifest under its version. *)
Record layout_V1 (t : btx) (d : directory model) : Prop := {
  v1_data : data_repr t (d_objs d) (d_rels d);
  v1_system : exists ls, bucket_is t SystemPath ls;
  v1_manifest : exists lm body mod_ meta,
    bucket_is t ManifestPathV1 lm /\ (forall k v, kv_get k lm = Some v -> put_err k v = None) /\
    kv_get BodyKey lm = Some body /\ kv_get ModelKey lm = Some mod_ /\
    kv_get MetadataKey lm = Some meta /\
    decoded unmarshal (Some meta) (d_metadata d) /\ decoded unmarshal (Some body) (d_body d) /\
    decoded unmarshalAny (Some mod_) (d_model d);
  v1_only : forall n, n <> manifestVersionV1 -> view t !! (ManifestPathV2 ++ [n]) = None;
  v1_named : kv_get manifestName (default [] (view t !! ["_manifest"])) = None }.

Section Mig009.
Hypothesis commits : forall t, db_commit_err t = None.

(** Steps 1 to 3: the old manifest bucket is gone, its parent is a leaf, the rest is as it was. *)
Lemma mig009_bucket t :
  present t [] ManifestPathV1 -> has_bucket SystemPath t ->
  exists t1, (forall roDB steps, run_steps (common_CreateBucket db_commit_err SystemPath ::
                common_DeleteBucket db_commit_err ManifestPathV1 ::
                common_CreateBucket db_commit_err ManifestPathV2 :: steps) roDB t =
              run_steps steps roDB t1) /\
    view t1 = filter (fun e => below ManifestPathV1 e.1 = false) (view t) /\
    present t1 [] ManifestPathV2.
Proof.
  intros (H1 & H2 & H3 & _) Hs. cbn [app] in *.
  destruct (DeleteBucket_found t ManifestPathV2 manifestVersionV1) as [D1 D2]; [done|].
  destruct (b_DeleteBucket ManifestPathV2 manifestVersionV1 t) as [r t1] eqn:E.
  simpl in D1, D2. subst r. exists t1.
  assert (present t1 [] ManifestPathV2) as Hp.
  { destruct H1 as [x1 H1], H2 as [x2 H2].
    split; [exists x1 | split; [exists x2 | done]]; cbn [app];
      rewrite D2; by apply map_lookup_filter_Some. }
  split_and!; [|done..]. intros roDB steps.
  assert (common_CreateBucket db_commit_err SystemPath roDB t = (Ok tt, t)) as E1.
  { apply db_Update_ok; [done|]. unfold bind, CreateBucket.
    by rewrite (Create_present [] SystemPath t) by (split; [exact Hs|done]). }
  assert (common_DeleteBucket db_commit_err ManifestPathV1 roDB t = (Ok tt, t1)) as E2.
  { apply db_Update_ok; [done|]. unfold DeleteBucket, ManifestPathV1, bind, get. cbn [removelast].
    rewrite (SetBucket_ok t ["_manifest"; manifestName]) by (done || by split_and!).
    cbn [List.last]. unfold attempt.
    change ["_manifest"; manifestName] with ManifestPathV2. by rewrite E. }
  assert (common_CreateBucket db_commit_err ManifestPathV2 roDB t1 = (Ok tt, t1)) as E3.
  { apply db_Update_ok; [done|]. unfold bind, CreateBucket. by rewrite (Create_present [] _ t1). }
  by rewrite (run_steps_cons _ _ _ _ _ E1), (run_steps_cons _ _ _ _ _ E2),
    (run_steps_cons _ _ _ _ _ E3).
Qed.

Lemma move_key_ok roDB rb lm k v t l :
  view roDB !! rb = Some lm -> kv_get k lm = Some v -> put_err k v = None ->
  view t !! ManifestPathV2 = Some l -> leaf t ManifestPathV2 ->
  exists t', move_key roDB rb ManifestPathV2 k t = (Ok tt, t') /\
    view t' = <[ManifestPathV2 := kv_put k v l]> (view t) /\ leaf t' ManifestPathV2.
Proof.
  intros Hr Hk Hp Hv Hl. unfold move_key. rewrite (Get_view _ _ _ _ Hr), Hk.
  destruct (Put_ok t ManifestPathV2 l k v Hv (Hl k) Hp) as [P1 P2].
  destruct (b_Put ManifestPathV2 k v t) as [r t']. simpl in *. subst r. exists t'.
  split_and!; [done..|]. intros n. rewrite P2, lookup_insert_ne by done. apply Hl.
Qed.

(** The three entries of the manifest, put into another bucket. *)
Definition moved (body mod_ meta : string) (l : list (string * string)) : list (string * string) :=
  kv_put MetadataKey meta (kv_put ModelKey mod_ (kv_put BodyKey body l)).

Lemma moved_get body mod_ meta l :
  kv_sorted l ->
  kv_get MetadataKey (moved body mod_ meta l) = Some meta /\
  kv_get BodyKey (moved body mod_ meta l) = Some body /\
  kv_get ModelKey (moved body mod_ meta l) = Some mod_.
Proof.
  intros Hs. unfold moved. repeat rewrite kv_get_put by auto using kv_put_sorted. done.
Qed.

Lemma mig009_move roDB lm body mod_ meta t l :
  bucket_is roDB ManifestPathV1 lm ->
  (forall k v, kv_get k lm = Some v -> put_err k v = None) ->
  kv_get BodyKey lm = Some body -> kv_get ModelKey lm = Some mod_ ->
  kv_get MetadataKey lm = Some meta ->
  bucket_is t ManifestPathV2 l ->
  exists t',
    mig009_updateManifest db_commit_err ManifestPathV1 ManifestPathV2 (Some roDB) t = (Ok tt, t') /\
    view t' = <[ManifestPathV2 := moved body mod_ meta l]> (view t) /\
    bucket_is t' ManifestPathV2 (moved body mod_ meta l).
Proof.
  intros Hr Hf Hb Hm Hd Ht. pose proof Hr as (_ & _ & Hrv & _). pose proof Ht as (_ & Htp & Htv & Htl).
  destruct (move_key_ok roDB ManifestPathV1 lm BodyKey body t l) as (t1 & E1 & V1 & L1); auto.
  destruct (move_key_ok roDB ManifestPathV1 lm ModelKey mod_ t1 (kv_put BodyKey body l))
    as (t2 & E2 & V2 & L2); auto; [by rewrite V1, lookup_insert_eq|].
  destruct (move_key_ok roDB ManifestPathV1 lm MetadataKey meta t2 (kv_put ModelKey mod_ (kv_put BodyKey body l)))
    as (t3 & E3 & V3 & L3); auto; [by rewrite V2, lookup_insert_eq|].
  assert (view t3 = <[ManifestPathV2 := moved body mod_ meta l]> (view t)) as V
    by (by rewrite V3, V2, V1, !insert_insert_eq).
  exists t3. split_and!; [|done|].
  - simpl. apply db_Update_ok; [done|]. unfold common_SetBucket at 1.
    rewrite (SetBucket_bucket _ _ _ Hr). unfold bind, lift, reads, common_SetBucket.
    by rewrite (SetBucket_bucket _ _ _ Ht), E1, E2.
  - split_and!; [done | by eapply present_insert | by rewrite V, lookup_insert_eq | done].
Qed.

Lemma mig009_data t objs rels :
  data_repr t objs rels ->
  forall roDB, run_steps [common_CreateBucket db_commit_err ObjectsPath;
                          common_CreateBucket db_commit_err RelationsObjPath;
                          common_CreateBucket db_commit_err RelationsSubPath] roDB t = (Ok tt, t).
Proof.
  intros (lo & ro & rs & H1 & H2 & H3 & _) roDB.
  assert (forall p l, bucket_is t p l -> common_CreateBucket db_commit_err p roDB t = (Ok tt, t)) as Hc.
  { intros p l (_ & Hp & _). apply db_Update_ok; [done|]. unfold bind, CreateBucket.
    by rewrite (Create_present [] p t). }
  by rewrite (run_steps_cons _ _ _ _ _ (Hc _ _ H1)), (run_steps_cons _ _ _ _ _ (Hc _ _ H2)),
    (run_steps_cons _ _ _ _ _ (Hc _ _ H3)).
Qed.

Lemma SetVersion_view t v ls :
  bucket_is t SystemPath ls -> put_err versionKey (ver_String v) = None ->
  exists t', SetVersion db_commit_err v t = (Ok tt, t') /\
    view t' = <[SystemPath := kv_put versionKey (ver_String v) ls]> (view t) /\
    GetVersion t' = Some v.
Proof.
  intros Hb Hp. pose proof Hb as (_ & _ & Hv & Hl).
  destruct (Put_ok t SystemPath ls versionKey (ver_String v) Hv (Hl _) Hp) as [P1 P2].
  destruct (b_Put SystemPath versionKey (ver_String v) t) as [r t'] eqn:E. simpl in P1, P2. subst r.
  assert (SetVersion db_commit_err v t = (Ok tt, t')) as Hset.
  { apply db_Update_ok; [done|]. unfold put_version. rewrite GetVersion_at by (by eexists). done. }
  exists t'. split_and!; [done..|]. eapply SetVersion_ok; [|exact Hset]. by eexists.
Qed.

(** the migration to 0.0.9 keeps the directory: a database whose manifest is under its old
    path is migrated without an error to one that represents the same objects and relations with
    the same metadata, body and model, at version 0.0.9. *)
Theorem mig009_keeps_directory t d :
  layout_V1 t d -> backup_err = None ->
  exists t', migrate db_commit_err backup_err (MkVersion 0 0 9) t = (Ok tt, t') /\
    bolt_repr t' d /\ GetVersion t' = Some (MkVersion 0 0 9).
Proof.
  intros [Hdata [ls Hsys] (lm & body & mod_ & meta & Hv1 & Hfit & Hb & Hm & Hd & Dd & Db & Dm)
          Honly Hname] Hbk.
  destruct (mig009_bucket t) as (t1 & Hrun & Vt1 & Pt1);
    [apply Hv1 | by eapply is_some_bucket|].
  assert (forall q, below ManifestPathV1 q = false -> view t1 !! q = view t !! q) as Hq.
  { intros q Hq. rewrite Vt1. apply option_eq. intros x. rewrite map_lookup_filter_Some. naive_solver. }
  assert (exists l, bucket_is t1 ManifestPathV2 l) as [l Hl].
  { pose proof Pt1 as (_ & [l Hl] & _). exists l. split_and!; [done..|]. intros n.
    destruct (decide (n = manifestVersionV1)) as [->|Hn].
    - rewrite Vt1. apply map_lookup_filter_None. right. intros x _. done.
    - rewrite Hq; [by apply Honly|]. apply bool_decide_eq_false_2. intros E. by injection E. }
  destruct (mig009_move t lm body mod_ meta t1 l) as (t2 & E2 & Vt2 & Bt2); auto.
  assert (forall n q, n ∈ ["objects"; "relations_obj"; "relations_sub"; "_system"] ->
            view t2 !! (n :: q) = view t !! (n :: q)) as Hsame.
  { intros n q Hn. rewrite Vt2, lookup_insert_ne by (intros E; injection E as <-; set_solver).
    apply Hq. apply bool_decide_eq_false_2. intros E. injection E as -> _. set_solver. }
  assert (data_repr t2 (d_objs d) (d_rels d)) as Hdata2.
  { eapply data_repr_same; [|done]. intros n q Hn. apply Hsame. set_solver. }
  pose proof (mig009_data t2 _ _ Hdata2) as Hcreate.
  destruct (SetVersion_view t2 (MkVersion 0 0 9) ls) as (t3 & E3 & Vt3 & Hg3).
  { destruct Hsys as (_ & [Hsp _] & Hsv & Hsl). split_and!; [done | split; [|done] | |].
    - cbn in *. rewrite Hsame by set_solver. done.
    - unfold SystemPath in *. by rewrite Hsame by set_solver.
    - intros n. cbn [app SystemPath]. rewrite Hsame by set_solver. apply (Hsl n). }
  { by apply put_err_fits. }
  exists t3. split_and!; [| |done].
  - unfold migrate. rewrite Hbk. unfold bind at 1.
    change (execute db_commit_err (Some t) (MkVersion 0 0 9) t)
      with (run_steps (mig009 db_commit_err) (Some t) t).
    unfold mig009. rewrite Hrun, (run_steps_cons _ _ _ _ _ E2), Hcreate. unfold bind. by rewrite E3.
  - split.
    + eapply data_repr_same; [|exact Hdata2]. intros n q Hn.
      rewrite Vt3, lookup_insert_ne; [done|]. intros E. injection E as <-. set_solver.
    + pose proof (bucket_sorted _ _ _ Hl) as Hsl.
      destruct (moved_get body mod_ meta l Hsl) as (G1 & G2 & G3).
      assert (bucket_is t3 ManifestPath (moved body mod_ meta l)) as Hb3
        by (by eapply bucket_new; [exact Vt3 | ..]).
      split.
      * rewrite Vt3, Vt2, !lookup_insert_ne by done. by rewrite Hq.
      * pose proof Hb3 as (_ & _ & -> & _). split_and!; [done|..]; by rewrite ?G1, ?G2, ?G3.
Qed.
End Mig009.
End MigrationFacts.

(** ** On a concrete database *)

Module MigrationExamples.
Import Concrete.

(** A version parser: decimal fields separated by dots. *)
Fixpoint num (acc : N) (s : string) : option (N * string) :=
  match s with
  | EmptyString => None
  | String c s =>
      if Ascii.eqb c "."%char then Some (acc, s)
      else match digit c with Some d => num (acc * 10 + d)%N s | None => None end
  end.
Definition parse_version (s : string) : option Version :=
  match num 0 s with
  | Some (a, s) =>
      match num 0 s with
      | Some (b, s) => match digits 0 s with Some c => Some (MkVersion a b c) | None => None end
      | None => None
      end
  | None => None
  end.

Lemma num_digits s r n : forall acc,
  digits acc s = Some n -> num acc (s +:+ "." +:+ r) = Some (n, r).
Proof.
  induction s as [|c s IH]; intros acc; [by intros [= ->]|]. rewrite app_cons_str. simpl.
  destruct (Ascii.eqb_spec c ".") as [->|_]; [done|]. destruct (digit c); [|done]. apply IH.
Qed.

#[export] Instance mig_params : MigrationParams := {|
  NewVersion := parse_version;
  json_Body := dec; json_Metadata := dec; json_Object := dec; json_Relation := dec |}.
#[export] Instance mig_laws : MigrationLaws mig_params.
Proof.
  intros [a b c]. unfold NewVersion, mig_params, parse_version, ver_String. cbn [Major Minor Patch].
  rewrite (num_digits _ _ a) by apply digits_pretty_N.
  rewrite (num_digits _ _ b) by apply digits_pretty_N. by rewrite digits_pretty_N.
Qed.

Definition always_commits (t : @btx MapBolt.MapBolt) : option err := None.
Definition empty_file : @btx MapBolt.MapBolt := (∅ : MapBolt.state).

Definition raw_of {X} `{Countable X} (x : X) : string := bits (encode x).
Definition old_metadata : Metadata := MkMetadata (Some ts1) "7".
Definition old_body : Body := MkBody "types".

(** [db1] at version 0.0.8, with the manifest under its old path. *)
Definition db_v8 : @btx MapBolt.MapBolt :=
  <[ManifestPathV1 := [(BodyKey, raw_of old_body); (MetadataKey, raw_of old_metadata);
                       (ModelKey, raw_of mc0)]]>
  (<[ManifestPathV2 := []]> (<[SystemPath := [(versionKey, "0.0.8")]]> (db1 : MapBolt.state))).
Definition dir_v8 : directory model :=
  MkDir (d_objs dir1) (d_rels dir1) (Some old_metadata) (Some old_body) (Some mc0).

(** The buckets of [db_v8]. *)
Definition db_v8_paths : list bpath :=
  [ManifestPathV1; ManifestPathV2; ["_manifest"]; SystemPath; ObjectsPath; RelationsObjPath;
   RelationsSubPath].

Lemma db_v8_missing q : q ∉ db_v8_paths -> view db_v8 !! q = None.
Proof.
  intros Hq. unfold view. cbn [MapBolt.MapBolt]. rewrite lookup_fmap.
  destruct ((db_v8 : MapBolt.state) !! q) as [l|] eqn:E; [|done]. destruct Hq.
  assert (Forall (fun e => e.1 ∈ db_v8_paths) (map_to_list (db_v8 : MapBolt.state))) as Hall.
  { apply (bool_decide_unpack _). vm_compute. exact I. }
  rewrite Forall_forall in Hall. apply (Hall (q, l)). by apply elem_of_map_to_list.
Qed.

Lemma db_v8_layout : layout_V1 (model := model) db_v8 dir_v8.
Proof.
  assert (forall n q, n ∈ ["objects"; "relations_obj"; "relations_sub"] ->
            view db_v8 !! (n :: q) = @view MapBolt.MapBolt db1 !! (n :: q)) as Hs.
  { intros n q Hn. unfold db_v8, view. cbn [MapBolt.MapBolt]. rewrite !lookup_fmap.
    by rewrite !lookup_insert_ne by (intros E; injection E as <-; set_solver). }
  split.
  - pose proof db1_repr as [Hd _]. exact (data_repr_same _ _ _ _ Hs Hd).
  - eexists. split_and!; [done | split; [by vm_compute; eexists|done] | by vm_compute |].
    intros n. apply db_v8_missing. set_solver.
  - exists [(BodyKey, raw_of old_body); (MetadataKey, raw_of old_metadata); (ModelKey, raw_of mc0)].
    exists (raw_of old_body), (raw_of mc0), (raw_of old_metadata). split_and!.
    + split; [done|]. split.
      { split; [|split; [|split; [|exact I]]]; vm_compute; eexists; reflexivity. }
      split; [vm_compute; reflexivity|].
      intros n. apply db_v8_missing. set_solver.
    + intros k v. simpl.
      repeat (destruct (decide (k = _)) as [->|_];
              [intros E; simplify_eq; vm_compute; reflexivity|]). by intros E.
    + reflexivity.
    + reflexivity.
    + reflexivity.
    + exists (raw_of old_metadata). split; [reflexivity|]. apply (dec_enc old_metadata). reflexivity.
    + exists (raw_of old_body). split; [reflexivity|]. apply (dec_enc old_body). reflexivity.
    + exists (raw_of mc0). split; [reflexivity|]. apply (dec_enc mc0). reflexivity.
  - intros n Hn. apply db_v8_missing. intros Hin.
    repeat (apply elem_of_cons in Hin as [E|Hin]; [first [discriminate E | by injection E]|]).
    by apply elem_of_nil in Hin.
  - vm_compute. reflexivity.
Qed.

Lemma mig009_keeps_directory_witness :
  exists t', migrate always_commits None (MkVersion 0 0 9) db_v8 = (Ok tt, t') /\
    bolt_repr (model := model) t' dir_v8 /\ GetVersion t' = Some (MkVersion 0 0 9).
Proof. apply mig009_keeps_directory; [done | exact db_v8_layout | done]. Defined.

Lemma open_creates_witness :
  exists t, openBoltDB always_commits None empty_file None = (Ok tt, Some t) /\
    bolt_repr (model := model) t empty_dir /\ GetVersion t = Some schemaVersion /\
    openBoltDB always_commits None empty_file (Some t) = (Ok tt, Some t).
Proof. apply open_creates; done. Defined.

(** A file at 0.0.8 is migrated and opened. *)
Lemma open_at_schema_version_witness :
  exists t, openBoltDB always_commits None empty_file (Some db_v8) = (Ok tt, Some t) /\
    GetVersion t = Some schemaVersion.
Proof.
  assert (is_ok (openBoltDB always_commits None empty_file (Some db_v8)).1 = true) as Hok
    by (vm_compute; reflexivity).
  destruct (openBoltDB always_commits None empty_file (Some db_v8)) as [[[]|e] f] eqn:E; [|done].
  destruct (open_at_schema_version always_commits None empty_file (Some db_v8) f E)
    as (t & -> & Hv & _).
  exists t. split; [reflexivity | exact Hv].
Defined.

Lemma migrate_terminates_witness :
  exists k r t', k <= 8 /\ Migrate_loop always_commits None 40 schemaVersion (MkVersion 0 0 8) db_v8 = Some (r, t').
Proof.
  destruct (migrate_terminates always_commits None schemaVersion (MkVersion 0 0 8) db_v8) as [(k & r & t' & _ & _ & Hk & Hl) _].
  exists k, r, t'. split; [exact Hk|]. apply Hl. lia.
Defined.

(** [db1] at version 0.0.9: an object with a display name and no property bag. *)
Definition db_v9 : @btx MapBolt.MapBolt :=
  <[SystemPath := [(versionKey, "0.0.9")]]> (db1 : MapBolt.state).

(** a panic inside a migration is reported as success: [PatchObjectWrite] writes into the nil
    property bag of an object with a display name, [Migrate] recovers and returns no error, and
    the file stays at the version it had. *)
Theorem migrate_recovers_panic :
  (Migrate always_commits None (MkVersion 0 0 10) db_v9).1 = Ok tt /\
  GetVersion (Migrate always_commits None (MkVersion 0 0 10) db_v9).2 = Some (MkVersion 0 0 9) /\
  ds.PatchObjectWrite bob1 = None.
Proof. split_and!; vm_compute; reflexivity. Qed.
End MigrationExamples.
