(* ===== verification/Directory.v ===== *)
(** * The directory

    [internal/eds/pkg/directory/directory.go]: choosing and opening the backend, loading the model
    of the stored manifest into the cache that the services share, the process-wide instance and
    the sync client.  The Postgres backend is a parameter: any implementation of the transaction
    interface of [Store.v], with its migration and its connection. *)
From S2P Require Import Prelude Bytes Messages Keys Store Bolt Bdb BdbTx Ds Service Instances.
From S2P Require Import Migrations MigrationFacts.

Definition BackendBoltDB : string := "boltdb".
Definition BackendPostgres : string := "postgres".
Definition ErrUnknownBackend : err :=
  XErr UnknownCode "directory: unknown backend, expected boltdb or postgres".
Definition ErrPostgresDSNUnset : err :=
  XErr UnknownCode "directory: backend is postgres but postgres.dsn is not set".
Definition ErrDataSyncBoltDBOnly : err :=
  XErr UnknownCode "directory: datasync is only supported with the boltdb backend".
Definition ErrNotInitialized : err := XErr Internal "directory not initialized".

(** The fields that [newDirectory] reads. *)
Record Config := MkConfig { DBPath : string; Backend : string; DSN : string }.

Section LoadModel.
Context {model : Type} `{T : TxOps model} `{A : Azm model}.

(** [loadModel]: the body of the [View]; the cache is mutated in place. *)
Definition loadModel (mc : cache) (t : tx) : res cache :=
  match ManifestExists t with
  | Fail e => Fail e
  | Ok false => Ok mc
  | Ok true =>
      match GetManifestModel t with
      | Fail e => if is_not_found e then Ok mc else Fail e
      | Ok m => mc_UpdateModel m mc
      end
  end.
End LoadModel.

Section Directory.
Context {model : Type} `{B : Bolt} `{CO : Codecs model} `{A : Azm model} `{MP : MigrationParams}.
(** The Postgres backend. *)
Context (PG : TxOps model) (pgdb_Migrate : string -> option err) (pgdb_Open : string -> res (@tx model PG)).
(** The commits and the backups of the migrations, a new file, an empty cache. *)
Context (db_commit_err : btx -> option err) (backup_err : option err) (fresh : btx).
Context (cache_New : cache).

Inductive opened :=
| OpenedBolt (t : btx)
| OpenedPostgres (t : @tx model PG).

(** [store] is nil after [Close]; [boltStore] is non-nil only for the BoltDB backend. *)
Record Directory := MkDirectory {
  dir_config : Config; dir_store : option opened; dir_mc : cache; dir_boltStore : option btx }.

Definition openPostgres (config : Config) : res (@tx model PG) :=
  if String.eqb (DSN config) "" then Fail ErrPostgresDSNUnset
  else match pgdb_Migrate (DSN config) with
       | Some e => Fail e
       | None => pgdb_Open (DSN config)
       end.

Definition newDirectory (config : Config) : M db_file Directory := fun file =>
  let backend := if String.eqb (Backend config) "" then BackendBoltDB else Backend config in
  let mc := cache_New in
  if String.eqb backend BackendBoltDB then
    match openBoltDB db_commit_err backup_err fresh file with
    | (Fail e, file) => (Fail e, file)
    | (Ok _, file) =>
        match file with
        | None => (Fail ErrNotExist, file)
        | Some t =>
            match loadModel (T := bolt_tx) mc t with
            | Fail e => (Fail e, file)
            | Ok mc => (Ok (MkDirectory config (Some (OpenedBolt t)) mc (Some t)), file)
            end
        end
    end
  else if String.eqb backend BackendPostgres then
    match openPostgres config with
    | Fail e => (Fail e, file)
    | Ok t =>
        match loadModel (T := PG) mc t with
        | Fail e => (Fail e, file)
        | Ok mc => (Ok (MkDirectory config (Some (OpenedPostgres t)) mc None), file)
        end
    end
  else (Fail ErrUnknownBackend, file).

Definition Open (config : Config) : M db_file Directory := newDirectory config.

Definition Close (s : Directory) : Directory :=
  MkDirectory (dir_config s) None (dir_mc s) None.

(** The client works on the database file. *)
Definition DataSyncClient (s : Directory) : res btx :=
  match dir_boltStore s with
  | None => Fail ErrDataSyncBoltDBOnly
  | Some t => Ok t
  end.

(** ** The process-wide instance *)

(** The package variables [directory] and [once], and the database file. *)
Record process := MkProcess { directory_ : option Directory; once_done : bool; file : db_file }.

Definition Get_ (p : process) : res Directory :=
  match directory_ p with
  | Some d => Ok d
  | None => Fail ErrNotInitialized
  end.

(** [New] returns the package variable and the error of this call. *)
Definition New (config : Config) (p : process) : option Directory * option err * process :=
  if once_done p then (directory_ p, None, p)
  else
    match newDirectory config (file p) with
    | (Ok d, f) => (Some d, None, MkProcess (Some d) true f)
    | (Fail e, f) => (None, Some e, MkProcess None true f)
    end.

(** ** Properties *)

Context `{BL : !BoltLaws B} `{CL : !CodecsLaws model CO}.

Lemma ManifestExists_total t : exists b, tx_ManifestExists t = Ok b.
Proof.
  unfold tx_ManifestExists, BucketExists, ManifestPath, ManifestPathV2. simpl.
  destruct (b_Bucket t [] "_manifest"), (b_Bucket t ["_manifest"] manifestName);
    rewrite ?bool_decide_true by done; eauto.
Qed.

Lemma loadModel_bolt mc t d :
  bolt_repr t d ->
  loadModel (T := bolt_tx) mc t =
    match d_model d with Some m => mc_UpdateModel m mc | None => Ok mc end.
Proof.
  intros Hr. unfold loadModel. cbn [ManifestExists GetManifestModel bolt_tx].
  pose proof (bolt_GetManifestModel t d Hr) as Hm.
  destruct (d_model d) as [m|] eqn:Ed.
  - rewrite (bolt_ManifestExists t d Hr) by (rewrite Ed; eauto). by rewrite Hm.
  - destruct Hm as (e & -> & ->). by destruct (ManifestExists_total t) as [[] ->].
Qed.

(** opening the directory on a BoltDB file at the schema version loads the stored model into
    the cache of the services and changes nothing in the file: with a stored model the cache is the
    empty cache updated by it (an error of the update is returned), without one it stays empty. *)
Theorem directory_loads_model config t d :
  bolt_repr t d -> GetVersion t = Some schemaVersion ->
  Backend config = "" \/ Backend config = BackendBoltDB ->
  newDirectory config (Some t) =
    (rmap (fun mc => MkDirectory config (Some (OpenedBolt t)) mc (Some t))
       match d_model d with Some m => mc_UpdateModel m cache_New | None => Ok cache_New end,
     Some t).
Proof.
  intros Hr Hv Hb. unfold newDirectory, openBoltDB. cbn [CheckSchemaVersion].
  rewrite Hv, bool_decide_true, (loadModel_bolt _ t d Hr) by done.
  assert (String.eqb (if String.eqb (Backend config) "" then BackendBoltDB else Backend config)
            BackendBoltDB = true) as -> by (by destruct Hb as [-> | ->]).
  destruct (d_model d) as [m|]; [|done]. by destruct (mc_UpdateModel m cache_New).
Qed.

(** [New] runs the constructor once: when it fails, every later call returns no directory and
    no error either, and [Get] reports that the directory is not initialized. *)
Theorem new_after_failure config p e p' o :
  New config p = (o, Some e, p') ->
  o = None /\ Get_ p' = Fail ErrNotInitialized /\
  forall config', New config' p' = (None, None, p').
Proof.
  unfold New. destruct (once_done p); [done|].
  destruct (newDirectory config (file p)) as [[d|e'] f]; [done|]. intros [= <- _ <-]. done.
Qed.
End Directory.

(** ** On a concrete directory *)

Module DirectoryExamples.
Import Concrete MigrationExamples.

Definition bolt_config : Config := MkConfig "directory.db" "" "".
Definition bad_config : Config := MkConfig "directory.db" "mysql" "".
(** Postgres stands on the same transactions here. *)
Abbreviation open_with config :=
  (newDirectory (CO := codecs) bolt_tx (fun _ => None) (fun _ => Ok db) always_commits None
     empty_file mc0 config).
Abbreviation new_with config :=
  (New (CO := codecs) bolt_tx (fun _ => None) (fun _ => Ok db) always_commits None
     empty_file mc0 config).

(** The file that a first start creates. *)
Definition started : @btx MapBolt.MapBolt := (create always_commits schemaVersion empty_file).2.

Lemma directory_loads_model_witness :
  open_with bolt_config (Some started) =
    (Ok (MkDirectory bolt_tx bolt_config (Some (OpenedBolt bolt_tx started)) mc0 (Some started)),
     Some started).
Proof.
  destruct (create_empty (model := model) always_commits ltac:(done) empty_file eq_refl)
    as (t & E & Hr & Hv).
  assert (started = t) as -> by (unfold started; by rewrite E).
  exact (directory_loads_model bolt_tx (fun _ => None) (fun _ => Ok db) always_commits None
           empty_file mc0 bolt_config t empty_dir Hr Hv (or_introl eq_refl)).
Defined.

Lemma new_after_failure_witness :
  exists p, new_with bad_config (MkProcess bolt_tx None false None) =
      (None, Some ErrUnknownBackend, p) /\
    new_with bolt_config p = (None, None, p).
Proof.
  eexists. split; [reflexivity|].
  refine (proj2 (proj2 (new_after_failure bolt_tx (fun _ => None) (fun _ => Ok db) always_commits
    None empty_file mc0 bad_config (MkProcess bolt_tx None false None) ErrUnknownBackend _ None _))
    bolt_config).
  reflexivity.
Defined.
End DirectoryExamples.
