(* ===== verification/Json.v ===== *)
(** * Text: UTF-8 and JSON arrays of strings

    What [internal/eds/pkg/pgdb/token.go] uses of Go's standard library: [json.Marshal] of a
    [[]string] (with the escaping of HTML characters and of invalid UTF-8) and [json.Unmarshal] into
    a [[]string]; and the page tokens built on them.  Values of another shape and malformed input
    are both errors of [Unmarshal] and are not told apart. *)
From Stdlib Require Import Ascii.
From stdpp Require Import pretty.
From S2P Require Import Prelude Bytes.

(** ** UTF-8 ([unicode/utf8]) *)

Definition between (lo hi : N) (c : ascii) : bool := (lo <=? N_of_ascii c)%N && (N_of_ascii c <=? hi)%N.
Definition continues (c : ascii) : bool := between 128 191 c.
Definition second3 (a b : ascii) : bool :=
  if between 224 224 a then between 160 191 b
  else if between 237 237 a then between 128 159 b else continues b.
Definition second4 (a b : ascii) : bool :=
  if between 240 240 a then between 144 191 b
  else if between 244 244 a then between 128 143 b else continues b.

(** [utf8.DecodeRune]: the bytes of the first rune and what follows; [None] on an invalid encoding. *)
Definition take_rune (s : string) : option (string * string) :=
  match s with
  | String a s1 =>
      if between 0 127 a then Some (String a "", s1)
      else
        match s1 with
        | String b s2 =>
            if between 194 223 a then
              if continues b then Some (String a (String b ""), s2) else None
            else
              match s2 with
              | String c s3 =>
                  if between 224 239 a then
                    if second3 a b && continues c then Some (String a (String b (String c "")), s3)
                    else None
                  else
                    match s3 with
                    | String d s4 =>
                        if between 240 244 a && second4 a b && continues c && continues d then
                          Some (String a (String b (String c (String d ""))), s4)
                        else None
                    | EmptyString => None
                    end
              | EmptyString => None
              end
        | EmptyString => None
        end
  | EmptyString => None
  end.

Fixpoint utf8_loop (fuel : nat) (s : string) : bool :=
  match s with
  | EmptyString => true
  | _ =>
      match fuel with
      | O => false
      | S fuel => match take_rune s with Some (_, s) => utf8_loop fuel s | None => false end
      end
  end.
(** [utf8.ValidString] *)
Definition utf8 (s : string) : bool := utf8_loop (String.length s) s.

Definition byte_of (n : N) : ascii := ascii_of_N n.
(** [utf8.EncodeRune] of a scalar value. *)
Definition EncodeRune (r : N) : string :=
  if (r <? 128)%N then String (byte_of r) ""
  else if (r <? 2048)%N then
    String (byte_of (192 + r / 64)) (String (byte_of (128 + r mod 64)) "")
  else if (r <? 65536)%N then
    String (byte_of (224 + r / 4096))
      (String (byte_of (128 + (r / 64) mod 64)) (String (byte_of (128 + r mod 64)) ""))
  else
    String (byte_of (240 + r / 262144))
      (String (byte_of (128 + (r / 4096) mod 64))
        (String (byte_of (128 + (r / 64) mod 64)) (String (byte_of (128 + r mod 64)) ""))).
Definition RuneError : N := 65533.

(** ** Strings ([encoding/json]) *)

Definition dquote : ascii := ascii_of_N 34.
Definition backslash : ascii := ascii_of_N 92.
Definition hex (n : N) : ascii := if (n <? 10)%N then ascii_of_N (48 + n) else ascii_of_N (87 + n).
Definition escape (c : ascii) : string := String backslash (String c "").

(** A byte below [utf8.RuneSelf]; [htmlSafeSet] is the printable bytes but [dquote], [backslash],
    [<], [>] and [&]. *)
Definition quote_byte (c : ascii) : string :=
  let n := N_of_ascii c in
  if (n =? 34)%N || (n =? 92)%N then escape c
  else if (32 <=? n)%N && negb ((n =? 38)%N || (n =? 60)%N || (n =? 62)%N) then String c ""
  else if (n =? 8)%N then escape "b"%char
  else if (n =? 12)%N then escape "f"%char
  else if (n =? 10)%N then escape "n"%char
  else if (n =? 13)%N then escape "r"%char
  else if (n =? 9)%N then escape "t"%char
  else escape "u"%char +:+ "00" +:+ String (hex (n / 16)) (String (hex (n mod 16)) "").

Definition line_separator : string := EncodeRune 8232.
Definition paragraph_separator : string := EncodeRune 8233.

Definition quote_rune (r : string) : string :=
  match r with
  | String c EmptyString => quote_byte c
  | _ =>
      if String.eqb r line_separator then escape "u"%char +:+ "2028"
      else if String.eqb r paragraph_separator then escape "u"%char +:+ "2029"
      else r
  end.

(** [appendString], without the quotes. *)
Fixpoint quote_loop (fuel : nat) (s : string) : string :=
  match s with
  | EmptyString => ""
  | String _ s1 =>
      match fuel with
      | O => ""
      | S fuel =>
          match take_rune s with
          | Some (r, s) => quote_rune r +:+ quote_loop fuel s
          | None => escape "u"%char +:+ "fffd" +:+ quote_loop fuel s1
          end
      end
  end.
Definition quote (s : string) : string :=
  String dquote (quote_loop (String.length s) s) +:+ String dquote "".

(** ** Parsing *)

Definition unhex (c : ascii) : option N :=
  let n := N_of_ascii c in
  if between 48 57 c then Some (n - 48)%N
  else if between 97 102 c then Some (n - 87)%N
  else if between 65 70 c then Some (n - 55)%N
  else None.

(** [getu4], past the [\u]. *)
Definition getu4 (s : string) : option (N * string) :=
  match s with
  | String a (String b (String c (String d s))) =>
      match unhex a, unhex b, unhex c, unhex d with
      | Some a, Some b, Some c, Some d => Some ((((a * 16 + b) * 16 + c) * 16 + d)%N, s)
      | _, _, _, _ => None
      end
  | _ => None
  end.

Definition surrogate (r : N) : bool := (55296 <=? r)%N && (r <? 57344)%N.
Definition low_surrogate (r : N) : bool := (56320 <=? r)%N && (r <? 57344)%N.

(** The rune of an escape, which may take a second one with it. *)
Definition unescape_u (s : string) : option (string * string) :=
  match getu4 s with
  | None => None
  | Some (r, s) =>
      if surrogate r then
        match s with
        | String b (String u s2) =>
            if Ascii.eqb b backslash && Ascii.eqb u "u"%char then
              match getu4 s2 with
              | Some (r2, s3) =>
                  if (r <? 56320)%N && low_surrogate r2 then
                    Some (EncodeRune ((r - 55296) * 1024 + (r2 - 56320) + 65536), s3)
                  else Some (EncodeRune RuneError, s)
              | None => Some (EncodeRune RuneError, s)
              end
            else Some (EncodeRune RuneError, s)
        | _ => Some (EncodeRune RuneError, s)
        end
      else Some (EncodeRune r, s)
  end.

(** The character of a one-letter escape. *)
Definition unescape (c : ascii) : option ascii :=
  let n := N_of_ascii c in
  if (n =? 34)%N || (n =? 92)%N || (n =? 47)%N then Some c
  else if Ascii.eqb c "b"%char then Some (byte_of 8)
  else if Ascii.eqb c "f"%char then Some (byte_of 12)
  else if Ascii.eqb c "n"%char then Some (byte_of 10)
  else if Ascii.eqb c "r"%char then Some (byte_of 13)
  else if Ascii.eqb c "t"%char then Some (byte_of 9)
  else None.

(** One step inside of a string literal: the text it stands for and what follows. *)
Definition unquote_step (s : string) : option (string * string) :=
  match s with
  | EmptyString => None
  | String c s1 =>
      if Ascii.eqb c backslash then
        match s1 with
        | String e s2 =>
            if Ascii.eqb e "u"%char then unescape_u s2
            else match unescape e with Some x => Some (String x "", s2) | None => None end
        | EmptyString => None
        end
      else if (N_of_ascii c <? 32)%N then None
      else match take_rune s with
           | Some r => Some r
           | None => Some (EncodeRune RuneError, s1)
           end
  end.

(** The literal up to its closing quote, and what follows it. *)
Fixpoint unquote_loop (fuel : nat) (s : string) : option (string * string) :=
  match fuel with
  | O => None
  | S fuel =>
      match s with
      | EmptyString => None
      | String c s1 =>
          if Ascii.eqb c dquote then Some ("", s1)
          else
            match unquote_step s with
            | None => None
            | Some (x, s) =>
                match unquote_loop fuel s with
                | Some (y, s) => Some (x +:+ y, s)
                | None => None
                end
            end
      end
  end.

Definition is_space (c : ascii) : bool :=
  let n := N_of_ascii c in (n =? 32)%N || (n =? 9)%N || (n =? 10)%N || (n =? 13)%N.
Fixpoint skip_space (s : string) : string :=
  match s with
  | EmptyString => ""
  | String c s1 => if is_space c then skip_space s1 else s
  end.

Definition cut_prefix (p s : string) : option string :=
  if HasPrefix s p then Some (String.substring (String.length p) (String.length s - String.length p) s)
  else None.

(** An element: a string, or [null], which leaves the empty string. *)
Definition parse_elem (s : string) : option (string * string) :=
  match s with
  | String c s1 =>
      if Ascii.eqb c dquote then unquote_loop (S (String.length s1)) s1
      else match cut_prefix "null" s with Some s => Some ("", s) | None => None end
  | EmptyString => None
  end.

(** The elements after the first one, up to the closing bracket. *)
Fixpoint parse_rest (fuel : nat) (s : string) : option (list string * string) :=
  match fuel with
  | O => None
  | S fuel =>
      match skip_space s with
      | String c s1 =>
          if Ascii.eqb c "]"%char then Some ([], s1)
          else if Ascii.eqb c ","%char then
            match parse_elem (skip_space s1) with
            | None => None
            | Some (x, s) =>
                match parse_rest fuel s with
                | Some (xs, s) => Some (x :: xs, s)
                | None => None
                end
            end
          else None
      | EmptyString => None
      end
  end.

Definition parse_array (s : string) : option (list string * string) :=
  match skip_space s with
  | String c s1 =>
      if Ascii.eqb c "]"%char then Some ([], s1)
      else
        match parse_elem (skip_space s) with
        | None => None
        | Some (x, s) =>
            match parse_rest (S (String.length s)) s with
            | Some (xs, s) => Some (x :: xs, s)
            | None => None
            end
        end
  | EmptyString => None
  end.

Definition err_json : err := XErr UnknownCode "decode page token: invalid JSON".

(** [json.Unmarshal] into a [[]string]; [null] is the nil slice. *)
Definition Unmarshal (s : string) : res (list string) :=
  let value :=
    match skip_space s with
    | String c s1 =>
        if Ascii.eqb c "["%char then parse_array s1
        else match cut_prefix "null" (skip_space s) with Some s => Some ([], s) | None => None end
    | EmptyString => None
    end in
  match value with
  | Some (l, s) => if String.eqb (skip_space s) "" then Ok l else Fail err_json
  | None => Fail err_json
  end.

Fixpoint join_with (sep : string) (l : list string) : string :=
  match l with
  | [] => ""
  | [x] => x
  | x :: l => x +:+ sep +:+ join_with sep l
  end.

(** [json.Marshal] of a [[]string]; the nil slice is [null]. *)
Definition Marshal (l : list string) : string :=
  match l with
  | [] => "null"
  | _ => "[" +:+ join_with "," (quote <$> l) +:+ "]"
  end.

(** ** Page tokens ([token.go]) *)

Definition errTokenSize : err := XErr UnknownCode "decode page token: unexpected value count".

(** [fmt.Errorf("%w: expected %d, got %d", errTokenSize, n, len(vals))] *)
Definition errTokenSizef (n got : nat) : err :=
  match errTokenSize with
  | XErr c w => XErr c (w +:+ ": expected " +:+ pretty n +:+ ", got " +:+ pretty got)
  | e => e
  end.

Definition encodeToken (vals : list string) : string := Marshal vals.

Definition decodeToken (token : string) (n : nat) : res (list string) :=
  match Unmarshal token with
  | Fail e => Fail (Errorf "decode page token" e)
  | Ok vals => if (length vals =? n)%nat then Ok vals else Fail (errTokenSizef n (length vals))
  end.

(** ** Properties *)

Lemma take_rune_split s r s' :
  take_rune s = Some (r, s') ->
  s = r +:+ s' /\ (forall t, take_rune (r +:+ t) = Some (r, t)) /\
  ((exists c, r = String c "" /\ between 0 127 c = true) \/
   (exists c c2 r', r = String c (String c2 r') /\ between 0 127 c = false)).
Proof.
  destruct s as [|a s]; [done|]. cbn [take_rune].
  destruct (between 0 127 a) eqn:Ea.
  { intros [= <- <-]. split_and!; [done| |left; eauto]. intros t. rewrite !app_cons_str. change ("" +:+ t) with t. cbn [take_rune]. by rewrite Ea. }
  destruct s as [|b s]; [done|]. destruct (between 194 223 a) eqn:E2.
  { destruct (continues b) eqn:Hb; [|done]. intros [= <- <-].
    split_and!; [done| |right; eauto 10]. intros t. rewrite !app_cons_str. change ("" +:+ t) with t. cbn [take_rune]. by rewrite Ea, E2, Hb. }
  destruct s as [|c s]; [done|]. destruct (between 224 239 a) eqn:E3.
  { destruct (second3 a b && continues c) eqn:Hb; [|done]. intros [= <- <-].
    split_and!; [done| |right; eauto 10]. intros t. rewrite !app_cons_str. change ("" +:+ t) with t. cbn [take_rune]. by rewrite Ea, E2, E3, Hb. }
  destruct s as [|d s]; [done|].
  destruct (between 240 244 a && second4 a b && continues c && continues d) eqn:E4; [|done].
  intros [= <- <-]. split_and!; [done| |right; eauto 10]. intros t. rewrite !app_cons_str. change ("" +:+ t) with t. cbn [take_rune]. by rewrite Ea, E2, E3, E4.
Qed.

(** Every byte below 128 is read back from what is written for it. *)
Lemma unquote_byte c t :
  between 0 127 c = true -> unquote_step (quote_byte c +:+ t) = Some (String c "", t).
Proof.
  destruct c as [[] [] [] [] [] [] [] []]; intros H; first [vm_compute in H; discriminate H | clear H];
    vm_compute; reflexivity.
Qed.

Lemma quote_byte_head c :
  between 0 127 c = true -> exists x s, quote_byte c = String x s /\ Ascii.eqb x dquote = false.
Proof.
  destruct c as [[] [] [] [] [] [] [] []]; intros H; first [vm_compute in H; discriminate H | clear H];
    vm_compute; eauto.
Qed.

Lemma high_byte c : between 0 127 c = false ->
  Ascii.eqb c dquote = false /\ Ascii.eqb c backslash = false /\ (N_of_ascii c <? 32)%N = false.
Proof.
  destruct c as [[] [] [] [] [] [] [] []]; intros H; first [vm_compute in H; discriminate H | clear H];
    vm_compute; auto.
Qed.

(** A rune is read back from what is written for it, and is not taken for the closing quote. *)
Lemma unquote_rune s r s' t :
  take_rune s = Some (r, s') ->
  unquote_step (quote_rune r +:+ t) = Some (r, t) /\
  exists x q, quote_rune r = String x q /\ Ascii.eqb x dquote = false.
Proof.
  intros (_ & Ht & [(c & -> & Hc)|(c & c2 & r' & -> & Hc)])%take_rune_split.
  - split; [by apply unquote_byte | by apply quote_byte_head].
  - cbn [quote_rune].
    destruct (String.eqb_spec (String c (String c2 r')) line_separator) as [->|_].
    { split; [vm_compute; reflexivity|]. vm_compute. eauto. }
    destruct (String.eqb_spec (String c (String c2 r')) paragraph_separator) as [->|_].
    { split; [vm_compute; reflexivity|]. vm_compute. eauto. }
    destruct (high_byte c Hc) as (H1 & H2 & H3). split; [|eauto].
    rewrite app_cons_str. cbn [unquote_step]. rewrite H2, H3, <-app_cons_str, Ht. done.
Qed.

Lemma unquote_quote fuel : forall s rest f2,
  utf8_loop fuel s = true ->
  String.length (quote_loop fuel s) < f2 ->
  unquote_loop f2 (quote_loop fuel s +:+ String dquote rest) = Some (s, rest).
Proof.
  induction fuel as [|fuel IH]; intros s rest f2 Hs Hf.
  - destruct s; [|done]. destruct f2; [simpl in Hf; lia|]. done.
  - destruct s as [|a s]; [destruct f2; [simpl in Hf; lia|done]|].
    cbn [utf8_loop quote_loop] in *.
    destruct (take_rune (String a s)) as [[r s']|] eqn:Er; [|done].
    destruct (unquote_rune _ r s' (quote_loop fuel s' +:+ String dquote rest) Er)
      as (Hu & x & q & Hq & Hx).
    destruct f2 as [|f2]; [lia|]. rewrite app_assoc_str. cbn [unquote_loop].
    rewrite length_app_str in Hf. rewrite Hq in *. rewrite app_cons_str, Hx, <-app_cons_str, Hu.
    rewrite IH; [|done|simpl in Hf; lia]. f_equal. f_equal. symmetry. by apply take_rune_split in Er as [-> _].
Qed.

Lemma parse_quote s rest : utf8 s = true -> parse_elem (quote s +:+ rest) = Some (s, rest).
Proof.
  intros Hs. unfold quote. rewrite app_assoc_str, app_cons_str. cbn [parse_elem].
  rewrite Ascii.eqb_refl, app_cons_str. apply unquote_quote; [done|].
  rewrite length_app_str. lia.
Qed.

(** The elements after the first one, each with its comma. *)
Definition more (l : list string) : string := foldr (fun x s => "," +:+ quote x +:+ s) "" l.

Lemma join_quotes x l : join_with "," (quote <$> (x :: l)) = quote x +:+ more l.
Proof.
  revert x. induction l as [|y l IH]; intros x; [by rewrite app_nil_r_str|].
  change (join_with "," (quote <$> x :: y :: l)) with
    (quote x +:+ "," +:+ join_with "," (quote <$> (y :: l))). by rewrite IH.
Qed.

Lemma length_more l : length l <= String.length (more l).
Proof. induction l; simpl; [lia|]. rewrite !length_app_str. simpl. lia. Qed.

Lemma skip_quote x s : skip_space (quote x +:+ s) = quote x +:+ s.
Proof. done. Qed.

Lemma parse_more l : forall fuel rest,
  Forall (fun s => utf8 s = true) l -> length l < fuel ->
  parse_rest fuel (more l +:+ "]" +:+ rest) = Some (l, rest).
Proof.
  induction l as [|x l IH]; intros [|fuel] rest Hl Hf; simpl in Hf; try lia; [done|].
  apply Forall_cons in Hl as [Hx Hl]. cbn [more foldr]. fold (more l).
  rewrite !app_assoc_str. cbn [parse_rest].
  change (skip_space ("," +:+ quote x +:+ more l +:+ "]" +:+ rest)) with
    (String ","%char (quote x +:+ more l +:+ "]" +:+ rest)).
  cbn [Ascii.eqb Bool.eqb]. rewrite skip_quote, parse_quote by done.
  by rewrite IH by (done || lia).
Qed.

Lemma parse_array_more x l rest :
  Forall (fun s => utf8 s = true) (x :: l) ->
  parse_array (quote x +:+ more l +:+ "]" +:+ rest) = Some (x :: l, rest).
Proof.
  intros [Hx Hl]%Forall_cons. unfold parse_array. rewrite !skip_quote.
  pose proof (parse_quote x (more l +:+ "]" +:+ rest) Hx) as Hp.
  destruct (quote x +:+ more l +:+ "]" +:+ rest) as [|c q] eqn:E; [done|].
  assert (c = dquote) as -> by (by injection E).
  change (Ascii.eqb dquote "]"%char) with false. cbv iota. rewrite Hp.
  rewrite parse_more; [done..|]. rewrite length_app_str. pose proof (length_more l). lia.
Qed.

Lemma Unmarshal_Marshal l :
  Forall (fun s => utf8 s = true) l -> Unmarshal (Marshal l) = Ok l.
Proof.
  destruct l as [|x l]; [done|]. intros Hl. unfold Marshal. rewrite join_quotes.
  unfold Unmarshal. rewrite app_assoc_str.
  change (skip_space ("[" +:+ quote x +:+ more l +:+ "]")) with
    (String "["%char (quote x +:+ more l +:+ "]" +:+ "")).
  cbn [Ascii.eqb Bool.eqb]. by rewrite parse_array_more.
Qed.

(** A page token is never empty, so it is not mistaken for the first page. *)
Lemma encodeToken_nonempty l : encodeToken l <> "".
Proof. by destruct l. Qed.

Lemma decode_encode_token vals :
  Forall (fun s => utf8 s = true) vals -> decodeToken (encodeToken vals) (length vals) = Ok vals.
Proof.
  intros Hv. unfold decodeToken, encodeToken. by rewrite (Unmarshal_Marshal vals Hv), Nat.eqb_refl.
Qed.

(** A page token gives back the column values it was made of, whatever characters they hold, as
    long as they are valid UTF-8; a token with another number of values is refused. *)
Theorem token_roundtrip vals n :
  Forall (fun s => utf8 s = true) vals ->
  decodeToken (encodeToken vals) n =
    if decide (length vals = n) then Ok vals else Fail (errTokenSizef n (length vals)).
Proof.
  intros Hv. unfold decodeToken, encodeToken. rewrite (Unmarshal_Marshal vals Hv).
  destruct (Nat.eqb_spec (length vals) n), (decide (length vals = n)); done.
Qed.

(** A key that is not valid UTF-8 does not survive: the byte 0xFF comes back as U+FFFD. *)
Lemma token_lossy :
  decodeToken (encodeToken [String (ascii_of_N 255) ""]) 1 = Ok [EncodeRune RuneError].
Proof. vm_compute. reflexivity. Qed.

Module JsonExamples.
Definition awkward : list string :=
  ["a|b:c"; String dquote "]"; "<&>"; line_separator; ""; String backslash (String (byte_of 7) "")].
Lemma token_roundtrip_witness : decodeToken (encodeToken awkward) 6 = Ok awkward.
Proof.
  assert (Forall (fun s => utf8 s = true) awkward) as H
    by (unfold awkward; repeat constructor).
  rewrite (token_roundtrip awkward 6 H). reflexivity.
Defined.
End JsonExamples.
