(* ===== verification/Pgdb.v ===== *)
(** * The Postgres store

    [internal/eds/pkg/pgdb]: the transaction interface of [store.go] on a Postgres transaction.
    Postgres (with the pgx driver) is third-party code: a transaction is a parameter ([Postgres]),
    its statements are the ones the package sends, with their placeholders and arguments, and what
    the package relies on is a set of laws ([PostgresLaws]): upserts, deletes, row-value comparison
    and ordering by a deterministic collation, rejection of text that is not valid, and the aborted
    state that a failed statement leaves the transaction in.  The tables are those of
    [migrations/000001].  [MapPg] is an executable instance.

    The mutex of a transaction only orders its statements and is not modelled; a failed read
    returns its error, and no operation follows it in the services. *)
From Stdlib Require Import Ascii.
From S2P Require Import Prelude Bytes Messages Keys Store Json Bolt Bdb BdbTx.

(** ** Tables *)

Record data_row := MkRow { row_data : string; row_etag : string; row_created : Timestamp; row_updated : Timestamp }.
Record manifest_row := MkManifestRow { man_metadata : string; man_body : string; man_model : string }.

Record tables := MkTables {
  tbl_objects : gmap (string * string) data_row;
  tbl_relations : gmap RelationIdentifier data_row;
  tbl_manifest : gmap string manifest_row }.

(** ** Statements *)

(** Statements without a result, with their arguments by position. *)
Inductive statement :=
| UpsertObject (ty id data etag : string) (created updated : Timestamp)
| DeleteObjectRow (ty id : string)
| UpsertRelation (i : RelationIdentifier) (data etag : string) (created updated : Timestamp)
| DeleteRelationRow (i : RelationIdentifier)
| UpsertManifest (name metadata body : string)
| UpdateModel (model name : string)
| DeleteManifestRow (name : string)
| DeleteAllRelations
| DeleteAllObjects.

Definition texts (i : RelationIdentifier) : list string :=
  [object_type i; object_id i; relation i; subject_type i; subject_id i; subject_relation i].

(** The text arguments of a statement ([bytea] arguments hold any bytes). *)
Definition text_args (s : statement) : list string :=
  match s with
  | UpsertObject ty id _ etag _ _ => [ty; id; etag]
  | DeleteObjectRow ty id => [ty; id]
  | UpsertRelation i _ etag _ _ => texts i ++ [etag]
  | DeleteRelationRow i => texts i
  | UpsertManifest name _ _ => [name]
  | UpdateModel _ name => [name]
  | DeleteManifestRow name => [name]
  | DeleteAllRelations | DeleteAllObjects => []
  end.

(** [ON CONFLICT .. DO UPDATE SET data, etag, updated_at]: the creation time is kept. *)
Definition upsert {K} `{Countable K} (k : K) (row : data_row) (m : gmap K data_row) : gmap K data_row :=
  <[k := match m !! k with
         | Some old => MkRow (row_data row) (row_etag row) (row_created old) (row_updated row)
         | None => row
         end]> m.

(** [normal]: the text that a [jsonb] column gives back. *)
Definition effect (normal : string -> string) (s : statement) (tb : tables) : tables * nat :=
  let objs := tbl_objects tb in let rels := tbl_relations tb in let man := tbl_manifest tb in
  match s with
  | UpsertObject ty id data etag c u =>
      (MkTables (upsert (ty, id) (MkRow data etag c u) objs) rels man, 1)
  | DeleteObjectRow ty id =>
      (MkTables (delete (ty, id) objs) rels man, if objs !! (ty, id) is Some _ then 1 else 0)
  | UpsertRelation i data etag c u =>
      (MkTables objs (upsert i (MkRow data etag c u) rels) man, 1)
  | DeleteRelationRow i =>
      (MkTables objs (delete i rels) man, if rels !! i is Some _ then 1 else 0)
  | UpsertManifest name md b =>
      (MkTables objs rels
         (<[name := MkManifestRow md b
                      (match man !! name with Some r => man_model r | None => normal "{}" end)]> man), 1)
  | UpdateModel m name =>
      match man !! name with
      | Some r => (MkTables objs rels (<[name := MkManifestRow (man_metadata r) (man_body r) (normal m)]> man), 1)
      | None => (tb, 0)
      end
  | DeleteManifestRow name =>
      (MkTables objs rels (delete name man), if man !! name is Some _ then 1 else 0)
  | DeleteAllRelations => (MkTables objs ∅ man, size rels)
  | DeleteAllObjects => (MkTables ∅ rels man, size objs)
  end.

(** ** Queries *)

(** [column = $n] and [(columns) >= ($n, ..)]. *)
Inductive condition :=
| CondEq (column : string) (placeholder : nat)
| CondRowGe (columns : list string) (placeholders : list nat).

Record select := MkSelect { sel_where : list condition; sel_order : list string }.

Definition column (names : list string) (row : list string) (c : string) : string :=
  default "" (snd <$> List.find (fun e => String.eqb e.1 c) (combine names row)).

(** The argument of a placeholder; they count from 1. *)
Definition arg (args : list string) (n : nat) : string := nth (pred n) args "".

Fixpoint row_le (le : string -> string -> bool) (xs ys : list string) : bool :=
  match xs, ys with
  | x :: xs, y :: ys => if String.eqb x y then row_le le xs ys else le x y
  | _, _ => true
  end.

Definition holds (le : string -> string -> bool) (args : list string) (col : string -> string)
    (c : condition) : bool :=
  match c with
  | CondEq c n => String.eqb (col c) (arg args n)
  | CondRowGe cs ns => row_le le (arg args <$> ns) (col <$> cs)
  end.

Definition colObjectType : string := "object_type".
Definition colObjectID : string := "object_id".
Definition colRelation : string := "relation".
Definition colSubjectType : string := "subject_type".
Definition colSubjectID : string := "subject_id".
Definition colSubjectRelation : string := "subject_relation".

(** The text columns of the two tables, in the order of the [SELECT]s. *)
Definition object_cols : list string := [colObjectType; colObjectID].
Definition relation_cols : list string :=
  [colObjectType; colObjectID; colRelation; colSubjectType; colSubjectID; colSubjectRelation].
Definition object_col (k : string * string) : string -> string := column object_cols [k.1; k.2].
Definition relation_col (i : RelationIdentifier) : string -> string := column relation_cols (texts i).

(** ** Postgres *)

Class Postgres := {
  pgtx : Type;
  (** the tables as the transaction sees them; [None] when it is aborted *)
  contents : pgtx -> option tables;
  (** the number of affected rows *)
  Exec : statement -> M pgtx nat;
  QueryObjects : select -> list string -> pgtx -> res (list (string * string * string));
  QueryRelations : select -> list string -> pgtx -> res (list (RelationIdentifier * string));
  QueryManifest : string -> pgtx -> res (option manifest_row);
  (** the collation, and the valid texts *)
  text_le : string -> string -> bool;
  accepts : string -> bool;
  jsonb : string -> string;
  (** the error of committing *)
  Commit : pgtx -> option err }.

(** The rows that a query may return. *)
Definition answers {K} `{Countable K} (le : string -> string -> bool) (col : K -> string -> string)
    (q : select) (args : list string) (m : gmap K data_row) (rows : list (K * string)) : Prop :=
  rows ≡ₚ (fun e => (e.1, row_data e.2)) <$>
    filter (fun e => forallb (holds le args (col e.1)) (sel_where q) = true) (map_to_list m) /\
  StronglySorted (fun a b => row_le le (col a.1 <$> sel_order q) (col b.1 <$> sel_order q) = true) rows.

Class PostgresLaws `(G : Postgres) : Prop := {
  text_le_refl a : text_le a a = true;
  text_le_trans a b c : text_le a b = true -> text_le b c = true -> text_le a c = true;
  text_le_antisym a b : text_le a b = true -> text_le b a = true -> a = b;
  accepts_utf8 s : accepts s = true -> utf8 s = true;
  accepts_empty : accepts "" = true;
  accepts_default : accepts "default" = true;
  (** what is stored was accepted *)
  contents_accepted t tb : contents t = Some tb ->
    (forall k, is_Some (tbl_objects tb !! k) -> accepts k.1 = true /\ accepts k.2 = true) /\
    (forall i, is_Some (tbl_relations tb !! i) -> Forall (fun s => accepts s = true) (texts i));
  Exec_accepted t tb s : contents t = Some tb -> forallb accepts (text_args s) = true ->
    exists t', Exec s t = (Ok (effect jsonb s tb).2, t') /\ contents t' = Some (effect jsonb s tb).1;
  (** a rejected statement aborts the transaction, and nothing runs in an aborted one *)
  Exec_rejected t s : forallb accepts (text_args s) = false \/ contents t = None ->
    exists e t', Exec s t = (Fail e, t') /\ contents t' = None;
  QueryObjects_ok t tb q args : contents t = Some tb -> forallb accepts args = true ->
    exists rows, QueryObjects q args t = Ok rows /\ answers text_le object_col q args (tbl_objects tb) rows;
  QueryRelations_ok t tb q args : contents t = Some tb -> forallb accepts args = true ->
    exists rows, QueryRelations q args t = Ok rows /\
      answers text_le relation_col q args (tbl_relations tb) rows;
  Query_aborted t : contents t = None ->
    (forall q args, is_ok (QueryObjects q args t) = false) /\
    (forall q args, is_ok (QueryRelations q args t) = false) /\
    (forall name, is_ok (QueryManifest name t) = false);
  QueryManifest_ok t tb name : contents t = Some tb -> accepts name = true ->
    QueryManifest name t = Ok (tbl_manifest tb !! name);
  (** committing an aborted transaction rolls it back and says so *)
  Commit_aborted t : contents t = None -> is_Some (Commit t) }.

(** ** The package *)

Definition pg_ErrNotFound : err := AErr "E20150" NotFound "key not found" [].
Definition pg_manifestName : string := "default".
Definition objectTokenSize : nat := 2.

(** [AsTime]; a nil timestamp is the epoch. *)
Definition AsTime (t : option Timestamp) : Timestamp := default (MkTS 0 0) t.

Definition objectOrderCols : list string :=
  [colObjectType; colObjectID; colRelation; colSubjectType; colSubjectID; colSubjectRelation].
Definition subjectOrderCols : list string :=
  [colSubjectType; colSubjectID; colRelation; colObjectType; colObjectID; colSubjectRelation].
Definition orderCols (dir : Direction) : list string :=
  match dir with BySubject => subjectOrderCols | ByObject => objectOrderCols end.

(** [relationConditions]: a populated field is a condition on its column. *)
Definition relationConditions (f : RelationFilter) : list (string * string) :=
  let i := f_ident f in
  let add (ok : bool) column value := if ok then [(column, value)] else [] in
  add (negb (String.eqb (object_type i) "")) colObjectType (object_type i) ++
  add (negb (String.eqb (object_id i) "")) colObjectID (object_id i) ++
  add (negb (String.eqb (relation i) "")) colRelation (relation i) ++
  add (negb (String.eqb (subject_type i) "")) colSubjectType (subject_type i) ++
  add (negb (String.eqb (subject_id i) "")) colSubjectID (subject_id i) ++
  add (HasSubjectRelation f) colSubjectRelation (subject_relation i).

(** [args = append(args, c.value); where = append(where, c.column + " = $" + len(args))] *)
Fixpoint add_conditions (conds : list (string * string)) (where_ : list condition)
    (args : list string) : list condition * list string :=
  match conds with
  | [] => (where_, args)
  | (column, value) :: conds =>
      let args := args ++ [value] in
      add_conditions conds (where_ ++ [CondEq column (length args)]) args
  end.

(** [for i, v := range vals { args = append(args, v); placeholders[i] = len(args) }] *)
Fixpoint add_values (vals : list string) (placeholders : list nat) (args : list string)
  : list nat * list string :=
  match vals with
  | [] => (placeholders, args)
  | v :: vals =>
      let args := args ++ [v] in add_values vals (placeholders ++ [length args]) args
  end.

(** The rows of an open query, and the row read last. *)
Record row_iterator (K V : Type) := MkRows {
  it_rows : list (K * string); it_key : K; it_value : option V }.
Arguments MkRows {K V} _ _ _.
Arguments it_rows {K V} _.
Arguments it_key {K V} _.
Arguments it_value {K V} _.

Section Ops.
Context {model : Type} `{G : Postgres} `{CO : Codecs model}.

(** ** [object_store.go] *)

Definition pg_GetObject (objectType objectID : string) (t : pgtx) : res Object :=
  match QueryObjects (MkSelect [CondEq colObjectType 1; CondEq colObjectID 2] [])
          [objectType; objectID] t with
  | Fail e => Fail (Errorf "get object" e)
  | Ok [] => Fail pg_ErrNotFound
  | Ok ((_, data) :: _) => rwrap "unmarshal object" (unmarshal data)
  end.

Definition pg_SetObject (obj : Object) : M pgtx Object :=
  let! data := wrapped "marshal object" (lift (marshal obj)) in
  do! wrapped "set object"
        (Exec (UpsertObject (o_type obj) (o_id obj) data (o_etag obj) (AsTime (o_created_at obj))
                 (AsTime (o_updated_at obj))));
  ret obj.

Definition pg_DeleteObject (objectType objectID : string) : M pgtx unit :=
  do! wrapped "delete object" (Exec (DeleteObjectRow objectType objectID)); ret tt.

(** [Next] of either iterator: a row that cannot be decoded is an empty message. *)
Definition rows_Next {K V} (dec : string -> res V) (zero : V) (it : row_iterator K V)
  : bool * row_iterator K V :=
  match it_rows it with
  | [] => (false, it)
  | (k, data) :: l => (true, MkRows l k (Some match dec data with Ok v => v | Fail _ => zero end))
  end.

Definition objectIterator : Type := row_iterator (string * string) Object.
Definition objectIterator_Next : objectIterator -> bool * objectIterator :=
  rows_Next unmarshal zero_Object.
Definition objectIterator_Token (o : objectIterator) : string :=
  encodeToken [(it_key o).1; (it_key o).2].
#[export] Instance objectIterator_iterator : Iterator objectIterator (option Object) := {|
  Next := objectIterator_Next; Value := it_value; Token := objectIterator_Token;
  rows := fun it => length (it_rows it) |}.

Definition pg_ScanObjects (objectType pageToken : string) (t : pgtx) : res objectIterator :=
  let '(where_, args) :=
    if String.eqb objectType "" then ([], [])
    else ([CondEq colObjectType 1], [objectType]) in
  let query where_ args :=
    rmap (fun l => MkRows l ("", "") None)
      (rwrap "scan objects" (QueryObjects (MkSelect where_ [colObjectType; colObjectID]) args t)) in
  if String.eqb pageToken "" then query where_ args
  else
    match decodeToken pageToken objectTokenSize with
    | Fail e => Fail e
    | Ok vals =>
        let args := args ++ [nth 0 vals ""; nth 1 vals ""] in
        query (where_ ++ [CondRowGe [colObjectType; colObjectID]
                            [length args - 1; length args]]) args
    end.

(** ** [relation_store.go] *)

Definition ident_conditions : list condition :=
  [CondEq colObjectType 1; CondEq colObjectID 2; CondEq colRelation 3; CondEq colSubjectType 4;
   CondEq colSubjectID 5; CondEq colSubjectRelation 6].

Definition pg_GetRelationExact (ident : RelationIdentifier) (t : pgtx) : res Relation :=
  match QueryRelations (MkSelect ident_conditions []) (texts ident) t with
  | Fail e => Fail (Errorf "get relation" e)
  | Ok [] => Fail pg_ErrNotFound
  | Ok ((_, data) :: _) => rwrap "unmarshal relation" (unmarshal data)
  end.

Definition pg_SetRelation (rel : Relation) : M pgtx Relation :=
  let! data := wrapped "marshal relation" (lift (marshal rel)) in
  do! wrapped "set relation"
        (Exec (UpsertRelation (r_ident rel) data (r_etag rel) (AsTime (r_created_at rel))
                 (AsTime (r_updated_at rel))));
  ret rel.

Definition pg_DeleteRelation (ident : RelationIdentifier) : M pgtx unit :=
  do! wrapped "delete relation" (Exec (DeleteRelationRow ident)); ret tt.

(** The iterator carries the columns of its order, for the token. *)
Record relationIterator := MkRelIter { ri_cols : list string; ri_rows : row_iterator RelationIdentifier Relation }.
Definition relationIterator_Next (r : relationIterator) : bool * relationIterator :=
  let '(ok, l) := rows_Next unmarshal zero_Relation (ri_rows r) in (ok, MkRelIter (ri_cols r) l).
Definition relationIterator_Token (r : relationIterator) : string :=
  encodeToken (relation_col (it_key (ri_rows r)) <$> ri_cols r).
#[export] Instance relationIterator_iterator : Iterator relationIterator (option Relation) := {|
  Next := relationIterator_Next; Value := fun r => it_value (ri_rows r);
  Token := relationIterator_Token; rows := fun r => length (it_rows (ri_rows r)) |}.

Definition pg_ScanRelations (dir : Direction) (filter : RelationFilter) (pageToken : string) (t : pgtx)
  : res relationIterator :=
  let cols := orderCols dir in
  let '(where_, args) := add_conditions (relationConditions filter) [] [] in
  let query where_ args :=
    rmap (fun l => MkRelIter cols (MkRows l zero_ident None))
      (rwrap "scan relations" (QueryRelations (MkSelect where_ cols) args t)) in
  if String.eqb pageToken "" then query where_ args
  else
    match decodeToken pageToken (length cols) with
    | Fail e => Fail e
    | Ok vals =>
        let '(placeholders, args) := add_values vals [] args in
        query (where_ ++ [CondRowGe cols placeholders]) args
    end.

(** The six columns overwrite whatever the pooled instance held. *)
Definition pg_ScanRelationsFiltered (dir : Direction) (filter : RelationFilter)
    (valueFilter : RelationIdentifier -> bool) (out : list RelationIdentifier) (t : pgtx)
  : res (list RelationIdentifier) :=
  let '(where_, args) := add_conditions (relationConditions filter) [] [] in
  match QueryRelations (MkSelect where_ []) args t with
  | Fail e => Fail (Errorf "scan relations filtered" e)
  | Ok l => Ok (out ++ List.filter valueFilter l.*1)
  end.

Definition pg_RelationsExistForObject (dir : Direction) (objectType objectID : string) (t : pgtx)
  : res bool :=
  let '(typeCol, idCol) :=
    match dir with
    | BySubject => (colSubjectType, colSubjectID)
    | ByObject => (colObjectType, colObjectID)
    end in
  match QueryRelations (MkSelect [CondEq typeCol 1; CondEq idCol 2] []) [objectType; objectID] t with
  | Fail e => Fail (Errorf "relations exist for object" e)
  | Ok l => Ok (match l with [] => false | _ => true end)
  end.

(** ** [manifest_store.go] *)

Definition pg_ManifestExists (t : pgtx) : res bool :=
  rmap (fun r => match r with Some _ => true | None => false end)
    (rwrap "manifest exists" (QueryManifest pg_manifestName t)).

(** A column of the manifest's row, decoded. *)
Definition manifest_column {X} (what : string) (col : manifest_row -> string) (dec : string -> res X)
    (t : pgtx) : res X :=
  match QueryManifest pg_manifestName t with
  | Fail e => Fail (Errorf ("get manifest " ++ what) e)
  | Ok None => Fail pg_ErrNotFound
  | Ok (Some r) => rwrap ("unmarshal manifest " ++ what) (dec (col r))
  end.
Definition pg_GetManifestMetadata (t : pgtx) : res Metadata := manifest_column "metadata" man_metadata unmarshal t.
Definition pg_GetManifestBody (t : pgtx) : res Body := manifest_column "body" man_body unmarshal t.
Definition pg_GetManifestModel (t : pgtx) : res model := manifest_column "model" man_model unmarshalAny t.

Definition pg_SetManifest (metadata : Metadata) (body : Body) : M pgtx unit :=
  let! metaBytes := wrapped "marshal manifest metadata" (lift (marshal metadata)) in
  let! bodyBytes := wrapped "marshal manifest body" (lift (marshal body)) in
  do! wrapped "set manifest" (Exec (UpsertManifest pg_manifestName metaBytes bodyBytes));
  ret tt.

Definition pg_SetManifestModel (mod_ : model) : M pgtx unit :=
  let! data := wrapped "marshal manifest model" (lift (marshalAny mod_)) in
  let! affected := wrapped "set manifest model" (Exec (UpdateModel data pg_manifestName)) in
  if (affected =? 0)%nat then fail (Errorf "set manifest model" pg_ErrNotFound) else ret tt.

Definition pg_DeleteManifest : M pgtx unit :=
  do! wrapped "delete manifest" (Exec (DeleteManifestRow pg_manifestName));
  do! wrapped "delete relations" (Exec DeleteAllRelations);
  do! wrapped "delete objects" (Exec DeleteAllObjects);
  ret tt.

#[export] Instance pg_tx : TxOps model := {|
  tx := pgtx;
  GetObject := pg_GetObject;
  SetObject := pg_SetObject;
  DeleteObject := pg_DeleteObject;
  obj_iter := objectIterator;
  ScanObjects := pg_ScanObjects;
  GetRelationExact := pg_GetRelationExact;
  SetRelation := pg_SetRelation;
  DeleteRelation := pg_DeleteRelation;
  rel_iter := relationIterator;
  ScanRelations := pg_ScanRelations;
  ScanRelationsFiltered := pg_ScanRelationsFiltered;
  RelationsExistForObject := pg_RelationsExistForObject;
  ManifestExists := pg_ManifestExists;
  GetManifestMetadata := pg_GetManifestMetadata;
  GetManifestBody := pg_GetManifestBody;
  GetManifestModel := pg_GetManifestModel;
  SetManifest := pg_SetManifest;
  SetManifestModel := pg_SetManifestModel;
  DeleteManifest := pg_DeleteManifest |}.

(** ** [store.go] *)

(** [withTx]; [begin_err] is the outcome of [BeginTx]. *)
Definition withTx {X} (begin_err : option err) (fn : M pgtx X) : M pgtx X := fun t =>
  match begin_err with
  | Some e => (Fail (Errorf "begin postgres transaction" e), t)
  | None =>
      match fn t with
      | (Fail e, _) => (Fail e, t)
      | (Ok x, t') => match Commit t' with Some e => (Fail (Errorf "commit postgres transaction" e), t) | None => (Ok x, t') end
      end
  end.
End Ops.
