(* ===== verification/PgdbFacts.v ===== *)
(** * What the Postgres store guarantees

    The abstract directory refined by the operations of [Pgdb.v], scans that page tokens resume at
    the right row, transactions that a rejected statement leaves without effect, and the agreement
    of the two backends. *)
From Stdlib Require Import Ascii.
From S2P Require Import Prelude Bytes Messages Keys Store Json Bolt Bdb BdbTx Instances BoltFacts Pgdb.

(** ** Row-value comparison *)

Section Rows.
Context `{G : Postgres} `{GL : !PostgresLaws G}.

Lemma row_le_refl xs : row_le text_le xs xs = true.
Proof. induction xs as [|x xs IH]; simpl; [done|]. by rewrite String.eqb_refl. Qed.

Lemma row_le_antisym xs : forall ys,
  length xs = length ys -> row_le text_le xs ys = true -> row_le text_le ys xs = true -> xs = ys.
Proof.
  induction xs as [|x xs IH]; intros [|y ys]; simpl; try done. intros [= Hl].
  destruct (String.eqb_spec x y) as [->|Hne].
  - rewrite String.eqb_refl. intros H1 H2. f_equal. by apply IH.
  - destruct (String.eqb_spec y x); [done|]. intros H1 H2. destruct Hne. by apply text_le_antisym.
Qed.

(** ** The rows of a query *)

Section Answers.
Context {K : Type} `{Countable K} (col : K -> string -> string).

Lemma answers_elem q args m rows k data :
  answers text_le col q args m rows ->
  (k, data) ∈ rows <->
  exists row, m !! k = Some row /\ data = row_data row /\
    forallb (holds text_le args (col k)) (sel_where q) = true.
Proof.
  intros [Hp _]. rewrite Hp, list_elem_of_fmap. split.
  - intros ([k' row] & [= -> ->] & [Hc Hm%elem_of_map_to_list]%list_elem_of_filter). eauto.
  - intros (row & Hm & -> & Hc). exists (k, row). split; [done|].
    apply list_elem_of_filter. split; [done|]. by apply elem_of_map_to_list.
Qed.

Lemma answers_NoDup q args m rows : answers text_le col q args m rows -> NoDup rows.*1.
Proof.
  intros [Hp _]. rewrite Hp, <-list_fmap_compose. unfold compose. simpl.
  pose proof (NoDup_fst_map_to_list m) as Hn.
  eapply sublist_NoDup; [exact Hn|]. apply fmap_sublist, sublist_filter.
Qed.

Context (cols : list string).
Hypothesis key_inj : forall k k', col k <$> cols = col k' <$> cols -> k = k'.

Lemma sorted_from (rows : list (K * string)) i k data :
  StronglySorted (fun a b => row_le text_le (col a.1 <$> cols) (col b.1 <$> cols) = true) rows ->
  NoDup rows.*1 -> rows !! i = Some (k, data) ->
  filter (fun e => row_le text_le (col k <$> cols) (col e.1 <$> cols) = true) rows = drop i rows.
Proof.
  intros Hs Hn Hi. apply list_elem_of_split_length in Hi as (l1 & l2 & -> & ->).
  rewrite drop_app_length, filter_app. apply StronglySorted_app in Hs as (Hlt & _ & Hs).
  apply StronglySorted_inv in Hs as [_ Hge]. rewrite Forall_forall in Hge.
  rewrite filter_none, filter_all; [done|..].
  - intros e [->|He]%elem_of_cons; [apply row_le_refl|]. by apply (Hge e).
  - intros [k' data'] He Hle. assert (k' = k) as ->.
    { apply key_inj, row_le_antisym; [by rewrite !length_fmap| |done].
      apply (Hlt (k', data') (k, data)); [done|left]. }
    rewrite fmap_app in Hn. apply NoDup_app in Hn as (_ & Hd & _).
    apply (Hd k); [|left]. by apply (list_elem_of_fmap_2 fst l1 (k, data')).
Qed.

(** A query that asks in addition for the rows from [k] on returns what follows [k], inclusively. *)
Lemma answers_from q q' args args' m rows rows' i k data :
  sel_order q = cols -> sel_order q' = cols ->
  answers text_le col q args m rows -> answers text_le col q' args' m rows' ->
  (forall k', forallb (holds text_le args' (col k')) (sel_where q') =
     forallb (holds text_le args (col k')) (sel_where q) &&
     row_le text_le (col k <$> cols) (col k' <$> cols)) ->
  rows !! i = Some (k, data) -> rows' = drop i rows.
Proof.
  intros Hc Hc' Ha Ha' Hw Hi. pose proof (answers_NoDup _ _ _ _ Ha) as Hn.
  pose proof Ha as [Hp Hs]. pose proof Ha' as [Hp' Hs']. rewrite Hc in Hs. rewrite Hc' in Hs'.
  pose proof (sorted_from rows i k data Hs Hn Hi) as Hf.
  eapply StronglySorted_unique_strong; [|exact Hs'| |].
  - intros [k1 d1] [k2 d2] H1 H2 L1 L2.
    assert (k1 = k2) as <- by (apply key_inj, row_le_antisym; [by rewrite !length_fmap|done..]).
    apply (answers_elem _ _ _ _ _ _ Ha') in H1 as (row & H1 & -> & _).
    rewrite <-Hf in H2. apply list_elem_of_filter in H2 as [_ H2].
    apply (answers_elem _ _ _ _ _ _ Ha) in H2 as (row2 & H2 & -> & _). congruence.
  - rewrite <-(take_drop i rows) in Hs. by apply StronglySorted_app_1_r in Hs.
  - rewrite <-Hf, Hp', Hp, filter_fmap_comm, list_filter_filter.
    erewrite list_filter_iff; [reflexivity|]. intros [k' row]. simpl. rewrite Hw, andb_true_iff. tauto.
Qed.
End Answers.

(** ** Conditions and placeholders *)

Lemma add_conditions_args conds : forall w args,
  (add_conditions conds w args).2 = args ++ conds.*2.
Proof.
  induction conds as [|[c v] conds IH]; intros w args; simpl; [by rewrite app_nil_r|].
  rewrite IH. by rewrite <-app_assoc.
Qed.

Lemma arg_at (a b : list string) v : arg (a ++ v :: b) (length (a ++ [v])) = v.
Proof. unfold arg. rewrite length_app, Nat.add_1_r. simpl. by rewrite app_nth2, Nat.sub_diag by lia. Qed.

(** Every placeholder stands for the value of its own field, whatever is appended to the arguments. *)
Lemma conditions_hold col conds : forall w args extra,
  let '(w', args') := add_conditions conds w args in
  forallb (holds text_le (args' ++ extra) col) w' =
  forallb (holds text_le (args' ++ extra) col) w && forallb (fun c => String.eqb (col c.1) c.2) conds.
Proof.
  induction conds as [|[c v] conds IH]; intros w args extra; simpl; [by rewrite andb_true_r|].
  specialize (IH (w ++ [CondEq c (length (args ++ [v]))]) (args ++ [v]) extra).
  pose proof (add_conditions_args conds (w ++ [CondEq c (length (args ++ [v]))]) (args ++ [v])) as Ha.
  destruct (add_conditions conds _ _) as [w' args']. simpl in Ha. rewrite IH, forallb_app. simpl.
  rewrite Ha, <-!app_assoc. simpl. rewrite arg_at, andb_true_r. by rewrite <-andb_assoc.
Qed.

Lemma add_values_args vals : forall ph args,
  (add_values vals ph args).2 = args ++ vals.
Proof.
  induction vals as [|v vals IH]; intros ph args; simpl; [by rewrite app_nil_r|].
  rewrite IH. by rewrite <-app_assoc.
Qed.

Lemma add_values_hold vals : forall ph args extra,
  let '(ph', args') := add_values vals ph args in
  arg (args' ++ extra) <$> ph' = (arg (args' ++ extra) <$> ph) ++ vals.
Proof.
  induction vals as [|v vals IH]; intros ph args extra; simpl; [by rewrite app_nil_r|].
  specialize (IH (ph ++ [length (args ++ [v])]) (args ++ [v]) extra).
  pose proof (add_values_args vals (ph ++ [length (args ++ [v])]) (args ++ [v])) as Ha.
  destruct (add_values vals _ _) as [ph' args']. simpl in Ha. rewrite IH, fmap_app. simpl.
  rewrite Ha, <-!app_assoc. simpl. by rewrite arg_at.
Qed.

Lemma cond_field i c (b : bool) fv :
  forallb (fun e => String.eqb (relation_col i e.1) e.2) (if b then [(c, fv)] else []) = true <->
  (b = true -> relation_col i c = fv).
Proof. destruct b; simpl; [rewrite andb_true_r, String.eqb_eq|]; naive_solver. Qed.

Lemma field_populated fv v : (negb (String.eqb fv "") = true -> v = fv) <-> field_matches fv v.
Proof. unfold field_matches. destruct (String.eqb_spec fv ""); simpl; naive_solver. Qed.

(** The conditions of a filter hold of exactly the relations that match it. *)
Lemma relationConditions_matches f i :
  forallb (fun c => String.eqb (relation_col i c.1) c.2) (relationConditions f) = true <-> matches f i.
Proof.
  unfold relationConditions. rewrite !forallb_app, !andb_true_iff, !cond_field, !field_populated.
  done.
Qed.

Lemma relationConditions_accepted f :
  Forall (fun s => accepts s = true) (texts (f_ident f)) ->
  forallb accepts (relationConditions f).*2 = true.
Proof.
  unfold texts. rewrite !Forall_cons. intros (H1 & H2 & H3 & H4 & H5 & H6 & _).
  assert (forall (b : bool) (c v : string), accepts v = true ->
            forallb accepts (if b then [(c, v)] else []).*2 = true) as H.
  { intros [] c v Hv; simpl; [by rewrite Hv|done]. }
  unfold relationConditions. rewrite !fmap_app, !forallb_app, !H by done. done.
Qed.

Lemma object_key_inj k k' : object_col k <$> object_cols = object_col k' <$> object_cols -> k = k'.
Proof. destruct k, k'. cbn. by intros [= -> ->]. Qed.
Lemma relation_key_inj dir i i' :
  relation_col i <$> orderCols dir = relation_col i' <$> orderCols dir -> i = i'.
Proof. destruct i, i', dir; cbn; by intros [= -> -> -> -> -> ->]. Qed.
End Rows.

(** ** The directory that the tables represent *)

(** [jsonb] gives back an equivalent document, and the empty one is a model. *)
Class PgModelLaws (model : Type) `{G : Postgres} `{CO : Codecs model} := {
  jsonb_model (m : model) b : marshalAny m = Ok b -> unmarshalAny (jsonb b) = Ok m;
  empty_model : model;
  jsonb_empty : unmarshalAny (jsonb "{}") = Ok empty_model }.

Section Repr.
Context {model : Type} `{G : Postgres} `{GL : !PostgresLaws G} `{CO : Codecs model}.
Context `{CL : !CodecsLaws model CO} `{PM : !PgModelLaws model}.

Definition object_row (k : string * string) (row : data_row) (o : Object) : Prop :=
  unmarshal (row_data row) = Ok o /\ k = (o_type o, o_id o).
Definition relation_row (i : RelationIdentifier) (row : data_row) (r : Relation) : Prop :=
  unmarshal (row_data row) = Ok r /\ i = r_ident r.
Definition manifest_is (row : option manifest_row) (d : directory model) : Prop :=
  match row with
  | None => d_metadata d = None /\ d_body d = None /\ d_model d = None
  | Some r =>
      exists md b m, d_metadata d = Some md /\ d_body d = Some b /\ d_model d = Some m /\
        unmarshal (man_metadata r) = Ok md /\ unmarshal (man_body r) = Ok b /\
        unmarshalAny (man_model r) = Ok m
  end.

Definition tables_repr (tb : tables) (d : directory model) : Prop :=
  map_Forall2 object_row (tbl_objects tb) (d_objs d) /\
  map_Forall2 relation_row (tbl_relations tb) (d_rels d) /\
  manifest_is (tbl_manifest tb !! pg_manifestName) d.
Definition pg_repr (t : pgtx) (d : directory model) : Prop :=
  exists tb, contents t = Some tb /\ tables_repr tb d.

(** Text that the database accepts, in the arguments of an operation. *)
Definition accepted_op (op : store_op model) : Prop :=
  match op with
  | OpSetObject o => Forall (fun s => accepts s = true) [o_type o; o_id o; o_etag o]
  | OpDeleteObject ty id => Forall (fun s => accepts s = true) [ty; id]
  | OpSetRelation r => Forall (fun s => accepts s = true) (texts (r_ident r) ++ [r_etag r])
  | OpDeleteRelation i => Forall (fun s => accepts s = true) (texts i)
  | OpSetManifest _ _ | OpSetManifestModel _ | OpDeleteManifest => True
  end.

Lemma Exec_repr s t d :
  pg_repr t d -> Forall (fun s => accepts s = true) (text_args s) ->
  exists tb t', contents t = Some tb /\ tables_repr tb d /\
    Exec s t = (Ok (effect jsonb s tb).2, t') /\ contents t' = Some (effect jsonb s tb).1.
Proof.
  intros (tb & Ht & Hr) Ha%forallb_Forall.
  destruct (Exec_accepted t tb s Ht Ha) as (t' & E & Hc). eauto 10.
Qed.

Lemma upsert_Forall2 {K V} `{Countable K} (R : K -> data_row -> V -> Prop) k row v m m' :
  R k row v -> (forall c, R k row v -> R k (MkRow (row_data row) (row_etag row) c (row_updated row)) v) ->
  map_Forall2 R m m' -> map_Forall2 R (upsert k row m) (<[k := v]> m').
Proof.
  intros Hr Hc Hm. unfold upsert. apply map_Forall2_insert_2; [|done]. destruct (m !! k); auto.
Qed.

Lemma pg_SetObject_repr o t d r t' :
  pg_repr t d -> Forall (fun s => accepts s = true) [o_type o; o_id o; o_etag o] ->
  pg_SetObject o t = (r, t') ->
  match r with
  | Ok o' => o' = o /\ pg_repr t' (set_objs d (<[(o_type o, o_id o) := o]> (d_objs d)))
  | Fail _ => pg_repr t' d
  end.
Proof.
  intros Hr Ha. unfold pg_SetObject, bind, wrapped, rwrap, lift. destruct (marshal o) as [data|e] eqn:Hm;
    [|by intros [= <- <-]].
  destruct (Exec_repr (UpsertObject (o_type o) (o_id o) data (o_etag o) (AsTime (o_created_at o))
    (AsTime (o_updated_at o))) t d Hr Ha) as (tb & t1 & _ & (H1 & H2 & H3) & -> & Hc).
  intros [= <- <-]. split; [done|]. eexists. split; [exact Hc|]. split_and!; [|done..].
  apply upsert_Forall2; [|done..]. split; [by apply unmarshal_marshal|done].
Qed.

Lemma pg_SetRelation_repr rel t d r t' :
  pg_repr t d -> Forall (fun s => accepts s = true) (texts (r_ident rel) ++ [r_etag rel]) ->
  pg_SetRelation rel t = (r, t') ->
  match r with
  | Ok rel' => rel' = rel /\ pg_repr t' (set_rels d (<[r_ident rel := rel]> (d_rels d)))
  | Fail _ => pg_repr t' d
  end.
Proof.
  intros Hr Ha. unfold pg_SetRelation, bind, wrapped, rwrap, lift. destruct (marshal rel) as [data|e] eqn:Hm;
    [|by intros [= <- <-]].
  destruct (Exec_repr (UpsertRelation (r_ident rel) data (r_etag rel) (AsTime (r_created_at rel))
    (AsTime (r_updated_at rel))) t d Hr Ha) as (tb & t1 & _ & (H1 & H2 & H3) & -> & Hc).
  intros [= <- <-]. split; [done|]. eexists. split; [exact Hc|]. split_and!; [done| |done].
  apply upsert_Forall2; [|done..]. split; [by apply unmarshal_marshal|done].
Qed.

Lemma pg_DeleteObject_repr ty id t d :
  pg_repr t d -> Forall (fun s => accepts s = true) [ty; id] ->
  exists t', pg_DeleteObject ty id t = (Ok tt, t') /\
    pg_repr t' (set_objs d (delete (ty, id) (d_objs d))).
Proof.
  intros Hr Ha. unfold pg_DeleteObject, bind, wrapped, rwrap.
  destruct (Exec_repr (DeleteObjectRow ty id) t d Hr Ha) as (tb & t1 & _ & (H1 & H2 & H3) & -> & Hc).
  exists t1. split; [done|]. eexists. split; [exact Hc|]. split_and!; [|done..].
  by apply map_Forall2_delete.
Qed.

Lemma pg_DeleteRelation_repr i t d :
  pg_repr t d -> Forall (fun s => accepts s = true) (texts i) ->
  exists t', pg_DeleteRelation i t = (Ok tt, t') /\
    pg_repr t' (set_rels d (delete i (d_rels d))).
Proof.
  intros Hr Ha. unfold pg_DeleteRelation, bind, wrapped, rwrap.
  destruct (Exec_repr (DeleteRelationRow i) t d Hr Ha) as (tb & t1 & _ & (H1 & H2 & H3) & -> & Hc).
  exists t1. split; [done|]. eexists. split; [exact Hc|]. split_and!; [done| |done].
  by apply map_Forall2_delete.
Qed.

(** The first [SetManifest] also stores an empty model. *)
Lemma pg_SetManifest_repr md b t d r t' :
  pg_repr t d -> pg_SetManifest md b t = (r, t') ->
  match r with
  | Ok _ => pg_repr t' (MkDir (d_objs d) (d_rels d) (Some md) (Some b)
                          (Some (default empty_model (d_model d))))
  | Fail _ => pg_repr t' d
  end.
Proof.
  intros Hr. unfold pg_SetManifest, bind, wrapped, rwrap, lift.
  destruct (marshal md) as [mb|e] eqn:Hm; [|by intros [= <- <-]].
  destruct (marshal b) as [bb|e] eqn:Hb; [|by intros [= <- <-]].
  destruct (Exec_repr (UpsertManifest pg_manifestName mb bb) t d Hr)
    as (tb & t1 & _ & (H1 & H2 & H3) & -> & Hc); [by repeat constructor; apply accepts_default|].
  intros [= <- <-]. eexists. split; [exact Hc|]. split_and!; [done..|].
  cbn [effect fst tbl_manifest]. rewrite lookup_insert_eq.
  exists md, b, (default empty_model (d_model d)). cbn. split_and!; try done;
    [by apply unmarshal_marshal..|].
  destruct (tbl_manifest tb !! pg_manifestName) as [row|]; cbn in H3.
  - destruct H3 as (? & ? & m & _ & _ & -> & _ & _ & H3). done.
  - destruct H3 as (_ & _ & ->). apply jsonb_empty.
Qed.

(** [SetManifestModel] needs the manifest's row. *)
Lemma pg_SetManifestModel_repr m t d r t' :
  pg_repr t d -> pg_SetManifestModel m t = (r, t') ->
  match r with
  | Ok _ => pg_repr t' (set_model d (Some m))
  | Fail _ => pg_repr t' d
  end.
Proof.
  intros Hr. unfold pg_SetManifestModel, bind, wrapped, rwrap, lift.
  destruct (marshalAny m) as [mb|e] eqn:Hm; [|by intros [= <- <-]].
  destruct (Exec_repr (UpdateModel mb pg_manifestName) t d Hr)
    as (tb & t1 & _ & (H1 & H2 & H3) & -> & Hc); [by repeat constructor; apply accepts_default|].
  cbn [effect] in *. destruct (tbl_manifest tb !! pg_manifestName) as [row|] eqn:E; cbn in *.
  - intros [= <- <-]. eexists. split; [exact Hc|]. split_and!; [done..|]. cbn.
    rewrite lookup_insert_eq. destruct H3 as (md & b & m' & Hmd & Hb & _ & U1 & U2 & _).
    exists md, b, m. cbn. split_and!; try done. by apply jsonb_model.
  - intros [= <- <-]. eexists. split; [exact Hc|]. split_and!; [done..|]. by rewrite E.
Qed.

Lemma pg_DeleteManifest_repr t d :
  pg_repr t d -> exists t', pg_DeleteManifest t = (Ok tt, t') /\ pg_repr t' empty_dir.
Proof.
  intros (tb & Ht & _). unfold pg_DeleteManifest, bind, wrapped, rwrap.
  destruct (Exec_accepted t tb (DeleteManifestRow pg_manifestName) Ht) as (t1 & -> & Hc1);
    [cbn; by rewrite accepts_default|].
  destruct (Exec_accepted t1 _ DeleteAllRelations Hc1) as (t2 & -> & Hc2); [done|].
  destruct (Exec_accepted t2 _ DeleteAllObjects Hc2) as (t3 & -> & Hc3); [done|].
  exists t3. split; [done|]. eexists. split; [exact Hc3|]. cbn.
  split_and!; [apply map_Forall2_empty..|]. cbn. by rewrite lookup_delete_eq.
Qed.

Lemma run_op_pg op t d r t' :
  pg_repr t d -> accepted_op op -> run_op (T := pg_tx) op t = (r, t') ->
  pg_repr t' (if is_ok r then apply_op (Some empty_model) op d else d).
Proof.
  intros Hr Ha. destruct op as [o|ty id|rel|i|md b|m|]; cbn [run_op SetObject DeleteObject SetRelation
    DeleteRelation SetManifest SetManifestModel DeleteManifest pg_tx accepted_op] in *.
  - intros [(a & s1 & H & [= <- <-])|(e & H & ->)]%bind_inv;
      apply (pg_SetObject_repr o t d) in H; [by destruct H|done..].
  - destruct (pg_DeleteObject_repr ty id t d Hr Ha) as (t1 & -> & H). by intros [= <- <-].
  - intros [(a & s1 & H & [= <- <-])|(e & H & ->)]%bind_inv;
      apply (pg_SetRelation_repr rel t d) in H; [by destruct H|done..].
  - destruct (pg_DeleteRelation_repr i t d Hr Ha) as (t1 & -> & H). by intros [= <- <-].
  - intros H. apply (pg_SetManifest_repr md b t d) in H; [|done]. destruct r as [[]|e]; [|done].
    cbn [is_ok apply_op]. by destruct (d_model d).
  - intros H. apply (pg_SetManifestModel_repr m t d) in H; [|done]. by destruct r.
  - destruct (pg_DeleteManifest_repr t d Hr) as (t1 & -> & H). by intros [= <- <-].
Qed.

Lemma run_ops_pg ops : forall t d oks t',
  pg_repr t d -> Forall accepted_op ops -> run_ops (T := pg_tx) ops t = (oks, t') ->
  pg_repr t' (apply_ops (Some empty_model) ops oks d).
Proof.
  induction ops as [|op ops IH]; simpl; intros t d oks t' Hr Hw Hrun.
  - by injection Hrun as <- <-.
  - apply Forall_cons in Hw as [Hop Hw].
    destruct (run_op (T := pg_tx) op t) as [r t1] eqn:E1.
    destruct (run_ops (T := pg_tx) ops t1) as [rs t2] eqn:E2. injection Hrun as <- <-.
    eapply IH; [|done|exact E2]. by eapply run_op_pg.
Qed.

(** ** Reads *)

Lemma single_row {K} `{Countable K} (col : K -> string -> string) q args m rows k0 :
  answers text_le col q args m rows ->
  (forall k, forallb (holds text_le args (col k)) (sel_where q) = true <-> k = k0) ->
  match m !! k0 with
  | Some row => exists rest, rows = (k0, row_data row) :: rest
  | None => rows = []
  end.
Proof.
  intros Ha Hk. destruct (m !! k0) as [row|] eqn:E.
  - assert ((k0, row_data row) ∈ rows) as Hin.
    { apply (answers_elem col _ _ _ _ _ _ Ha). exists row. by rewrite Hk. }
    destruct rows as [|[k data] rest]; [by apply not_elem_of_nil in Hin|]. exists rest. f_equal.
    assert ((k, data) ∈ (k, data) :: rest) as Hk2 by left.
    apply (answers_elem col _ _ _ _ _ _ Ha) in Hk2 as (row2 & H2 & -> & ->%Hk). congruence.
  - destruct rows as [|[k data] rest]; [done|].
    assert ((k, data) ∈ (k, data) :: rest) as Hk2 by left.
    apply (answers_elem col _ _ _ _ _ _ Ha) in Hk2 as (row2 & H2 & _ & ->%Hk). congruence.
Qed.

Lemma pg_GetObject_exact ty id t d :
  pg_repr t d -> accepts ty = true -> accepts id = true ->
  pg_GetObject ty id t = match d_objs d !! (ty, id) with Some o => Ok o | None => Fail pg_ErrNotFound end.
Proof.
  intros (tb & Ht & Hobj & _) H1 H2. unfold pg_GetObject.
  destruct (QueryObjects_ok t tb (MkSelect [CondEq colObjectType 1; CondEq colObjectID 2] []) [ty; id])
    as (rows & -> & Ha); [done|cbn; by rewrite H1, H2|].
  apply (single_row _ _ _ _ _ (ty, id)) in Ha.
  - specialize (Hobj (ty, id)). destruct (tbl_objects tb !! (ty, id)) as [row|].
    + destruct Ha as [rest ->]. inversion Hobj as [? o [Hu _]|]; subst. unfold rwrap. by rewrite Hu.
    + subst rows. by inversion Hobj.
  - intros [a b]. cbn. rewrite !andb_true_iff, !String.eqb_eq. naive_solver.
Qed.

Lemma pg_GetRelationExact_exact i t d :
  pg_repr t d -> Forall (fun s => accepts s = true) (texts i) ->
  pg_GetRelationExact i t = match d_rels d !! i with Some r => Ok r | None => Fail pg_ErrNotFound end.
Proof.
  intros (tb & Ht & _ & Hrel & _) Hi%forallb_Forall. unfold pg_GetRelationExact.
  destruct (QueryRelations_ok t tb (MkSelect ident_conditions []) (texts i)) as (rows & -> & Ha);
    [done..|].
  apply (single_row _ _ _ _ _ i) in Ha.
  - specialize (Hrel i). destruct (tbl_relations tb !! i) as [row|].
    + destruct Ha as [rest ->]. inversion Hrel as [? r [Hu _]|]; subst. unfold rwrap. by rewrite Hu.
    + subst rows. by inversion Hrel.
  - intros [a b c x y z]. destruct i. cbn. rewrite !andb_true_iff, !String.eqb_eq. naive_solver.
Qed.

Lemma relation_stored t d tb i :
  contents t = Some tb -> tables_repr tb d ->
  is_Some (tbl_relations tb !! i) <-> is_Some (d_rels d !! i).
Proof.
  intros Ht (_ & Hrel & _). specialize (Hrel i). inversion Hrel; naive_solver.
Qed.

Lemma pg_RelationsExist_exact dir ty id t d :
  pg_repr t d -> accepts ty = true -> accepts id = true ->
  pg_RelationsExistForObject dir ty id t = Ok (bool_decide (anchored dir ty id d <> ∅)).
Proof.
  intros (tb & Ht & Hr) H1 H2. unfold pg_RelationsExistForObject.
  set (cols := match dir with BySubject => _ | ByObject => _ end). destruct cols as [tc ic] eqn:Ec.
  destruct (QueryRelations_ok t tb (MkSelect [CondEq tc 1; CondEq ic 2] []) [ty; id])
    as (rows & -> & Ha); [done|cbn; by rewrite H1, H2|].
  assert (forall i, is_Some (d_rels d !! i) /\ anchor dir i = (ty, id) <-> i ∈ rows.*1) as Hin.
  { intros i. rewrite <-(relation_stored t d tb i Ht Hr), list_elem_of_fmap. split.
    - intros [[row Hrow] Han]. exists (i, row_data row). split; [done|].
      apply (answers_elem relation_col _ _ _ _ _ _ Ha). exists row. split_and!; [done..|].
      destruct i, dir; simplify_eq/=; cbn; by rewrite !String.eqb_refl.
    - intros ([i' data] & -> & (row & Hrow & _ & Hc)%(answers_elem relation_col _ _ _ _ _ _ Ha)).
      split; [done|]. destruct i', dir; simplify_eq/=; cbn in Hc;
        rewrite !andb_true_iff, !String.eqb_eq in Hc; naive_solver. }
  f_equal. destruct rows as [|[i data] rows]; symmetry.
  - apply bool_decide_eq_false. intros Hne. apply Hne, map_eq. intros i.
    rewrite lookup_empty. apply map_lookup_filter_None. right. intros r Hri Han.
    assert (i ∈ @nil RelationIdentifier) as []%not_elem_of_nil by (apply Hin; eauto).
  - apply bool_decide_eq_true. intros E. destruct (proj2 (Hin i)) as [[r Hri] Han]; [left|].
    assert (anchored dir ty id d !! i = Some r) as Hl by (by apply map_lookup_filter_Some).
    by rewrite E in Hl.
Qed.

Lemma pg_ScanRelationsFiltered_exact dir f vf out t d :
  pg_repr t d -> Forall (fun s => accepts s = true) (texts (f_ident f)) ->
  exists l, pg_ScanRelationsFiltered dir f vf out t = Ok (out ++ l) /\ NoDup l /\
    forall i, i ∈ l <-> is_Some (d_rels d !! i) /\ matches f i /\ vf i = true.
Proof.
  intros (tb & Ht & Hr) Hf. unfold pg_ScanRelationsFiltered.
  destruct (add_conditions (relationConditions f) [] []) as [w args] eqn:E.
  pose proof (add_conditions_args (relationConditions f) [] []) as Hargs.
  rewrite E in Hargs. simpl in Hargs. subst args.
  destruct (QueryRelations_ok t tb (MkSelect w []) (relationConditions f).*2) as (rows & -> & Ha);
    [done | by apply relationConditions_accepted|].
  exists (List.filter vf rows.*1). split; [done|]. split.
  { apply NoDup_ListNoDup, List.NoDup_filter, NoDup_ListNoDup. by eapply answers_NoDup. }
  intros i. rewrite list_elem_of_In, filter_In, <-list_elem_of_In, <-(relation_stored t d tb i Ht Hr).
  rewrite <-(relationConditions_matches f i).
  pose proof (conditions_hold (relation_col i) (relationConditions f) [] [] []) as Hh.
  rewrite E, app_nil_r in Hh. simpl in Hh. rewrite <-Hh, list_elem_of_fmap. split.
  - intros [([i' data] & -> & (row & ? & _ & ?)%(answers_elem relation_col _ _ _ _ _ _ Ha)) Hv].
    eauto.
  - intros ([row Hrow] & Hc & Hv). split; [|done]. exists (i, row_data row). split; [done|].
    apply (answers_elem relation_col _ _ _ _ _ _ Ha). eauto.
Qed.

(** ** Scans *)

(** The rows an iterator returns, with their tokens. *)
Definition decoded_rows {K V} (token : K -> string) (dec : string -> res V) (zero : V)
    (l : list (K * string)) : list (string * option V) :=
  (fun e => (token e.1, Some match dec e.2 with Ok v => v | Fail _ => zero end)) <$> l.

Lemma objects_yield l : forall k v,
  yields (MkRows l k v : objectIterator)
    (decoded_rows (fun k => encodeToken [k.1; k.2]) unmarshal zero_Object l).
Proof. induction l as [|[k' data] l IH]; intros k v; [done|]. split_and!; [done..|]. apply IH. Qed.

Lemma relations_yield cols l : forall i v,
  yields (MkRelIter cols (MkRows l i v))
    (decoded_rows (fun i => encodeToken (relation_col i <$> cols)) unmarshal zero_Relation l).
Proof. induction l as [|[i' data] l IH]; intros i v; [done|]. split_and!; [done..|]. apply IH. Qed.

Lemma decoded_drop {K V} token dec (zero : V) i (l : list (K * string)) :
  decoded_rows token dec zero (drop i l) = drop i (decoded_rows token dec zero l).
Proof. apply fmap_drop. Qed.

Lemma decoded_lookup {K V} token dec (zero : V) i (l : list (K * string)) tok v :
  decoded_rows token dec zero l !! i = Some (tok, v) ->
  exists k data, l !! i = Some (k, data) /\ tok = token k.
Proof.
  unfold decoded_rows. rewrite list_lookup_fmap. destruct (l !! i) as [[k data]|]; [|done].
  intros [= <- <-]. eauto.
Qed.

Lemma decoded_exact {K V} `{Countable K} (col : K -> string -> string) token dec (zero : V)
    (own : V -> K) q args m dm rows :
  map_Forall2 (fun k row v => dec (row_data row) = Ok v /\ k = own v) m dm ->
  answers text_le col q args m rows ->
  NoDup (decoded_rows token dec zero rows).*2 /\
  forall v, v ∈ (decoded_rows token dec zero rows).*2 <->
    exists x, v = Some x /\ dm !! own x = Some x /\
      forallb (holds text_le args (col (own x))) (sel_where q) = true.
Proof.
  intros Hm Ha.
  assert (forall k data, (k, data) ∈ rows -> exists x, dec data = Ok x /\ k = own x /\
            dm !! own x = Some x /\ forallb (holds text_le args (col (own x))) (sel_where q) = true) as Hx.
  { intros k data (row & Hrow & -> & Hc)%(answers_elem col _ _ _ _ _ _ Ha).
    specialize (Hm k). rewrite Hrow in Hm. inversion Hm as [? x [Hd ->] E1 E2|]. subst. eauto. }
  unfold decoded_rows. rewrite <-list_fmap_compose. split.
  - pose proof (answers_NoDup col _ _ _ _ Ha) as Hn. clear Ha.
    induction rows as [|[k data] rows IH]; simpl in *; [constructor|].
    apply NoDup_cons in Hn as [Hk Hn]. constructor; [|apply IH; [intros; apply Hx; by right|done]].
    destruct (Hx k data) as (x & Hd & -> & _); [left|]. rewrite Hd.
    intros ([k' data'] & [= E] & Hin)%list_elem_of_fmap. apply Hk.
    destruct (Hx k' data') as (x' & Hd' & -> & _); [by right|]. simpl in E. rewrite Hd' in E. subst x'.
    by apply (list_elem_of_fmap_2 fst rows (own x, data')).
  - intros v. rewrite list_elem_of_fmap. split.
    + intros ([k data] & -> & (x & Hd & _ & ? & ?)%Hx). exists x. simpl. by rewrite Hd.
    + intros (x & -> & Hdm & Hc). specialize (Hm (own x)). rewrite Hdm in Hm.
      inversion Hm as [row ? [Hd _] E1 E2|]; subst. exists (own x, row_data row). simpl.
      split; [by rewrite Hd|]. apply (answers_elem col _ _ _ _ _ _ Ha). eauto.
Qed.

Lemma order_accepted dir i :
  Forall (fun s => accepts s = true) (texts i) ->
  Forall (fun s => accepts s = true) (relation_col i <$> orderCols dir).
Proof.
  unfold texts. rewrite !Forall_cons. intros (H1 & H2 & H3 & H4 & H5 & H6 & _).
  by destruct dir; cbn; repeat constructor.
Qed.

Lemma accepts_all_utf8 l : Forall (fun s => accepts s = true) l -> Forall (fun s => utf8 s = true) l.
Proof. intros H. eapply Forall_impl; [exact H|]. intros s. apply accepts_utf8. Qed.

(** What the query of a relation scan asks of a row, on the first page and on a resumed one. *)
Lemma scan_conditions f cols vals w args ph args' i :
  add_conditions (relationConditions f) [] [] = (w, args) -> add_values vals [] args = (ph, args') ->
  forallb (holds text_le args (relation_col i)) w =
    forallb (fun c => String.eqb (relation_col i c.1) c.2) (relationConditions f) /\
  forallb (holds text_le args' (relation_col i)) (w ++ [CondRowGe cols ph]) =
    forallb (holds text_le args (relation_col i)) w && row_le text_le vals (relation_col i <$> cols).
Proof.
  intros E E'. pose proof (add_values_args vals [] args) as Ha. rewrite E' in Ha. simpl in Ha. subst args'.
  pose proof (add_values_hold vals [] args []) as Hv. rewrite E', app_nil_r in Hv. simpl in Hv.
  pose proof (conditions_hold (relation_col i) (relationConditions f) [] [] []) as H0.
  pose proof (conditions_hold (relation_col i) (relationConditions f) [] [] vals) as H1.
  rewrite E in H0, H1. rewrite app_nil_r in H0. simpl in H0, H1.
  rewrite forallb_app, H0, H1. cbn [forallb holds]. by rewrite Hv, andb_true_r.
Qed.

Lemma pg_ScanRelations_resume dir f t tb w args rows i k data :
  contents t = Some tb -> add_conditions (relationConditions f) [] [] = (w, args) ->
  forallb accepts args = true ->
  answers text_le relation_col (MkSelect w (orderCols dir)) args (tbl_relations tb) rows ->
  rows !! i = Some (k, data) ->
  pg_ScanRelations dir f (encodeToken (relation_col k <$> orderCols dir)) t =
    Ok (MkRelIter (orderCols dir) (MkRows (drop i rows) zero_ident None)).
Proof.
  intros Ht Ew Hacc Ha Hi. set (vals := relation_col k <$> orderCols dir).
  assert (Forall (fun s => accepts s = true) vals) as Hk.
  { apply order_accepted. apply (contents_accepted t tb Ht).
    apply list_elem_of_lookup_2 in Hi.
    apply (answers_elem relation_col _ _ _ _ _ _ Ha) in Hi as (row & Hrow & _). eauto. }
  destruct (add_values vals [] args) as [ph args'] eqn:Ev.
  pose proof (add_values_args vals [] args) as Hargs. rewrite Ev in Hargs. simpl in Hargs.
  destruct (QueryRelations_ok t tb (MkSelect (w ++ [CondRowGe (orderCols dir) ph]) (orderCols dir)) args' Ht)
    as (rows' & Hq & Ha').
  { subst args'. by rewrite forallb_app, Hacc, (proj2 (forallb_Forall _ _) Hk). }
  assert (rows' = drop i rows) as ->.
  { refine (answers_from relation_col (orderCols dir) (relation_key_inj dir)
      (MkSelect w (orderCols dir)) (MkSelect (w ++ [CondRowGe (orderCols dir) ph]) (orderCols dir))
      args args' _ rows rows' i k data eq_refl eq_refl Ha Ha' _ Hi).
    intros k'. apply (scan_conditions f (orderCols dir) vals w args ph args' k' Ew Ev). }
  unfold pg_ScanRelations. rewrite Ew.
  destruct (String.eqb_spec (encodeToken vals) ""); [by destruct (encodeToken_nonempty vals)|].
  replace (length (orderCols dir)) with (length vals) by apply length_fmap.
  rewrite decode_encode_token by (by apply accepts_all_utf8). by rewrite Ev, Hq.
Qed.

(** An iterator over rows that can be reopened at any of them. *)
Lemma resumes_rows {St K V} `{Iterator St (option V)} (mk : list (K * string) -> St) token dec
    (zero : V) (l : list (K * string)) (scan : string -> St) :
  (forall l, yields (mk l) (decoded_rows token dec zero l)) -> (forall l, rows (mk l) = length l) ->
  (forall k, token k <> "") -> scan "" = mk l ->
  (forall i k data, l !! i = Some (k, data) -> scan (token k) = mk (drop i l)) ->
  resumes scan (decoded_rows token dec zero l).
Proof.
  intros Hy Hn Ht H0 Hi. split_and!.
  - rewrite H0. apply Hy.
  - rewrite H0, Hn. unfold decoded_rows. by rewrite length_fmap.
  - intros i tok v (k & data & Hl & ->)%decoded_lookup. split; [done|].
    rewrite (Hi i k data Hl), <-decoded_drop, Hn. split; [apply Hy|].
    unfold decoded_rows. by rewrite length_fmap.
Qed.

(** A relation scan returns the matching relations, and the token of any of its rows resumes there. *)
Lemma pg_ScanRelations_exact dir f t d :
  pg_repr t d -> Forall (fun s => accepts s = true) (texts (f_ident f)) ->
  exists (scan : string -> relationIterator) (l : list (string * option Relation)),
    (forall tok, tok = "" \/ tok ∈ l.*1 -> pg_ScanRelations dir f tok t = Ok (scan tok)) /\
    resumes scan l /\ NoDup l.*2 /\
    forall v, v ∈ l.*2 <->
      exists r, v = Some r /\ d_rels d !! r_ident r = Some r /\ matches f (r_ident r).
Proof.
  intros (tb & Ht & Hr) Hf. set (cols := orderCols dir).
  set (token := fun i => encodeToken (relation_col i <$> cols)).
  set (mk := fun l => MkRelIter cols (MkRows l zero_ident None)).
  destruct (add_conditions (relationConditions f) [] []) as [w args] eqn:Ew.
  pose proof (add_conditions_args (relationConditions f) [] []) as Hargs.
  rewrite Ew in Hargs. simpl in Hargs.
  pose proof (relationConditions_accepted f Hf) as Hacc. rewrite <-Hargs in Hacc.
  destruct (QueryRelations_ok t tb (MkSelect w cols) args Ht Hacc) as (l & Hq & Ha).
  assert (pg_ScanRelations dir f "" t = Ok (mk l)) as H0.
  { unfold pg_ScanRelations. fold cols. rewrite Ew. cbn [String.eqb]. by rewrite Hq. }
  assert (forall i k data, l !! i = Some (k, data) ->
    pg_ScanRelations dir f (token k) t = Ok (mk (drop i l))) as Hres
    by (intros; by eapply pg_ScanRelations_resume).
  exists (fun tok => match pg_ScanRelations dir f tok t with Ok it => it | Fail _ => mk [] end).
  exists (decoded_rows token unmarshal zero_Relation l). split; [|split].
  - intros tok [->|Htok]; [by rewrite H0|].
    apply list_elem_of_fmap in Htok as ([tok' v] & -> & [i Hi]%list_elem_of_lookup).
    apply decoded_lookup in Hi as (k & data & Hi & ->). cbn [fst]. by rewrite (Hres i k data Hi).
  - apply (resumes_rows mk); [intros; apply relations_yield | done | | by rewrite H0 |].
    + intros k. apply encodeToken_nonempty.
    + intros i k data Hi. by rewrite (Hres i k data Hi).
  - destruct Hr as (_ & Hrel & _).
    destruct (decoded_exact relation_col token unmarshal zero_Relation r_ident _ _ _ _ _ Hrel Ha)
      as [Hn Hv].
    split; [done|]. intros v. rewrite Hv. cbn [sel_where].
    setoid_rewrite <-relationConditions_matches.
    by setoid_rewrite (fun i => proj1 (scan_conditions f cols [] w args [] args i Ew eq_refl)).
Qed.

(** The conditions and the arguments of an object scan's first page. *)
Definition object_query (ty : string) : list condition * list string :=
  if String.eqb ty "" then ([], []) else ([CondEq colObjectType 1], [ty]).

Lemma object_query_holds ty k :
  forallb (holds text_le (object_query ty).2 (object_col k)) (object_query ty).1 = true <->
  ty = "" \/ k.1 = ty.
Proof.
  destruct k as [a b]. unfold object_query. destruct (String.eqb_spec ty "") as [->|Hne]; cbn; [tauto|].
  rewrite andb_true_r, String.eqb_eq. naive_solver.
Qed.

Lemma object_query_resumed ty k k' :
  let args := (object_query ty).2 ++ [k.1; k.2] in
  forallb (holds text_le args (object_col k'))
    ((object_query ty).1 ++ [CondRowGe object_cols [length args - 1; length args]]) =
  forallb (holds text_le (object_query ty).2 (object_col k')) (object_query ty).1 &&
  row_le text_le (object_col k <$> object_cols) (object_col k' <$> object_cols).
Proof.
  destruct k as [a b], k' as [a' b']. unfold object_query.
  destruct (String.eqb ty ""); cbn; by rewrite ?andb_true_r.
Qed.

Abbreviation object_select ty := (MkSelect (object_query ty).1 object_cols).
Abbreviation object_select_from ty args :=
  (MkSelect ((object_query ty).1 ++ [CondRowGe object_cols [length args - 1; length args]]) object_cols).

Lemma pg_ScanObjects_eq ty tok t :
  pg_ScanObjects ty tok t =
    if String.eqb tok "" then
      rmap (fun l => MkRows l ("", "") None)
        (rwrap "scan objects" (QueryObjects (object_select ty) (object_query ty).2 t))
    else match decodeToken tok objectTokenSize with
         | Fail e => Fail e
         | Ok vals =>
             let args := (object_query ty).2 ++ [nth 0 vals ""; nth 1 vals ""] in
             rmap (fun l => MkRows l ("", "") None)
               (rwrap "scan objects" (QueryObjects (object_select_from ty args) args t))
         end.
Proof. unfold pg_ScanObjects, object_query. by destruct (String.eqb ty ""). Qed.

Lemma object_query_accepted ty : accepts ty = true -> forallb accepts (object_query ty).2 = true.
Proof. intros H. unfold object_query. destruct (String.eqb ty ""); cbn; by rewrite ?H. Qed.

Lemma pg_ScanObjects_resume ty t tb l i k data :
  contents t = Some tb -> accepts ty = true ->
  answers text_le object_col (object_select ty) (object_query ty).2 (tbl_objects tb) l ->
  l !! i = Some (k, data) ->
  pg_ScanObjects ty (encodeToken [k.1; k.2]) t = Ok (MkRows (drop i l) ("", "") None).
Proof.
  intros Ht Hty Ha Hi. rewrite pg_ScanObjects_eq.
  destruct (String.eqb_spec (encodeToken [k.1; k.2]) ""); [by destruct (encodeToken_nonempty [k.1; k.2])|].
  assert (accepts k.1 = true /\ accepts k.2 = true) as [K1 K2].
  { apply (contents_accepted t tb Ht). apply list_elem_of_lookup_2 in Hi.
    apply (answers_elem object_col _ _ _ _ _ _ Ha) in Hi as (row & Hrow & _). eauto. }
  change objectTokenSize with (length [k.1; k.2]).
  rewrite decode_encode_token by (apply accepts_all_utf8; by repeat constructor).
  cbn [nth]. cbv zeta. set (args := (object_query ty).2 ++ [k.1; k.2]).
  destruct (QueryObjects_ok t tb (object_select_from ty args) args Ht) as (l' & -> & Ha').
  { unfold args. rewrite forallb_app, object_query_accepted by done. cbn. by rewrite K1, K2. }
  cbn [rmap rwrap]. do 2 f_equal.
  refine (answers_from object_col object_cols object_key_inj (object_select ty)
    (object_select_from ty args) (object_query ty).2 args _ l l' i k data eq_refl eq_refl Ha Ha' _ Hi).
  intros k'. apply object_query_resumed.
Qed.

(** An object scan returns the objects of the type, and the token of any of its rows resumes there. *)
Lemma pg_ScanObjects_exact ty t d :
  pg_repr t d -> accepts ty = true ->
  exists (scan : string -> objectIterator) (l : list (string * option Object)),
    (forall tok, tok = "" \/ tok ∈ l.*1 -> pg_ScanObjects ty tok t = Ok (scan tok)) /\
    resumes scan l /\ NoDup l.*2 /\
    forall v, v ∈ l.*2 <->
      exists o, v = Some o /\ d_objs d !! (o_type o, o_id o) = Some o /\ (ty = "" \/ o_type o = ty).
Proof.
  intros (tb & Ht & Hobj & _) Hty. set (token := fun k : string * string => encodeToken [k.1; k.2]).
  set (mk := fun l => MkRows l ("", "") None : objectIterator).
  destruct (QueryObjects_ok t tb (object_select ty) (object_query ty).2 Ht (object_query_accepted ty Hty))
    as (l & Hq & Ha).
  assert (pg_ScanObjects ty "" t = Ok (mk l)) as H0 by (by rewrite pg_ScanObjects_eq, Hq).
  assert (forall i k data, l !! i = Some (k, data) ->
    pg_ScanObjects ty (token k) t = Ok (mk (drop i l))) as Hres
    by (intros; by eapply pg_ScanObjects_resume).
  exists (fun tok => match pg_ScanObjects ty tok t with Ok it => it | Fail _ => mk [] end).
  exists (decoded_rows token unmarshal zero_Object l). split; [|split].
  - intros tok [->|Htok]; [by rewrite H0|].
    apply list_elem_of_fmap in Htok as ([tok' v] & -> & [i Hi]%list_elem_of_lookup).
    apply decoded_lookup in Hi as (k & data & Hi & ->). cbn [fst]. by rewrite (Hres i k data Hi).
  - apply (resumes_rows mk); [intros; apply objects_yield | done | | by rewrite H0 |].
    + intros k. apply encodeToken_nonempty.
    + intros i k data Hi. by rewrite (Hres i k data Hi).
  - destruct (decoded_exact object_col token unmarshal zero_Object (fun o => (o_type o, o_id o))
      _ _ _ _ _ Hobj Ha) as [Hn Hv].
    split; [done|]. intros v. rewrite Hv. cbn [sel_where]. by setoid_rewrite object_query_holds.
Qed.

(** What is there, or "not found". *)
Definition found {X} (v : option X) : res X := match v with Some x => Ok x | None => Fail pg_ErrNotFound end.

Lemma pg_manifest_exact t d :
  pg_repr t d ->
  pg_GetManifestMetadata t = found (d_metadata d) /\ pg_GetManifestBody t = found (d_body d) /\
  pg_GetManifestModel t = found (d_model d).
Proof.
  intros (tb & Ht & _ & _ & Hm). unfold pg_GetManifestMetadata, pg_GetManifestBody, pg_GetManifestModel,
    manifest_column, rwrap, found.
  rewrite (QueryManifest_ok t tb) by (done || apply accepts_default).
  destruct (tbl_manifest tb !! pg_manifestName) as [row|]; cbn in Hm.
  - by destruct Hm as (? & ? & m & -> & -> & -> & -> & -> & ->).
  - by destruct Hm as (-> & -> & ->).
Qed.

(** ** The theorems *)

(** C9: After any sequence of store operations (objects, relations, manifest, model, and the deletion of all) whose
    texts the database accepts (UTF-8 without NUL), the Postgres store represents exactly the directory that the
    successful ones leave, where the first manifest brings an empty model with it: for names that the database
    accepts, every object and every relation is found under its key when it is there, and not found otherwise,
    whether an object takes part in relations is answered exactly, and the metadata, the body and the model of the
    manifest are the ones that directory has. *)
Theorem pg_refines ops t d oks t' :
  pg_repr t d -> Forall accepted_op ops -> run_ops (T := pg_tx) ops t = (oks, t') ->
  let d' := apply_ops (Some empty_model) ops oks d in
  pg_repr t' d' /\
  (forall ty id, accepts ty = true -> accepts id = true ->
     pg_GetObject ty id t' =
       match d_objs d' !! (ty, id) with Some o => Ok o | None => Fail pg_ErrNotFound end) /\
  (forall i, Forall (fun s => accepts s = true) (texts i) ->
     pg_GetRelationExact i t' =
       match d_rels d' !! i with Some r => Ok r | None => Fail pg_ErrNotFound end) /\
  (forall dir ty id, accepts ty = true -> accepts id = true ->
     pg_RelationsExistForObject dir ty id t' = Ok (bool_decide (anchored dir ty id d' <> ∅))) /\
  pg_GetManifestMetadata t' = found (d_metadata d') /\
  pg_GetManifestBody t' = found (d_body d') /\
  pg_GetManifestModel t' = found (d_model d').
Proof.
  intros Hr Ha Hrun d'. assert (pg_repr t' d') as Hr' by (by eapply run_ops_pg).
  split_and!; [done|..]; intros.
  - by apply pg_GetObject_exact.
  - by apply pg_GetRelationExact_exact.
  - by apply pg_RelationsExist_exact.
  - by apply pg_manifest_exact.
  - by apply pg_manifest_exact.
  - by apply pg_manifest_exact.
Qed.

(** The iterator of a scan from a page token; a refused token gives no rows. *)
Definition relations_from dir f (t : pgtx) (tok : string) : relationIterator :=
  match pg_ScanRelations dir f tok t with
  | Ok it => it
  | Fail _ => MkRelIter (orderCols dir) (MkRows [] zero_ident None)
  end.
Definition objects_from ty (t : pgtx) (tok : string) : objectIterator :=
  match pg_ScanObjects ty tok t with
  | Ok it => it
  | Fail _ => MkRows [] ("", "") None
  end.

Lemma resumes_ext {St T} `{Iterator St T} (scan scan' : string -> St) l :
  (forall tok, tok = "" \/ tok ∈ l.*1 -> scan' tok = scan tok) -> resumes scan l -> resumes scan' l.
Proof.
  intros He (H1 & H2 & H3). split_and!; [rewrite He by (by left); done..|].
  intros i tok v Hi. rewrite He; [by eapply H3|]. right.
  apply list_elem_of_lookup_2 in Hi. by apply (list_elem_of_fmap_2 fst l (tok, v)).
Qed.

(** C18: Paging through a scan with any positive page size, each page resumed at the token that the
    last one returned, ends with an empty token after at most one page per row and one more, and the pages together
    hold every matching row exactly once: the relations that match the populated fields of a filter, in either order,
    and the objects of a type, for a filter and a type whose texts the database accepts (UTF-8 without NUL). *)
Theorem pg_scan_pages dir f ty n t d :
  pg_repr t d -> Forall (fun s => accepts s = true) (texts (f_ident f)) -> accepts ty = true -> 0 < n ->
  (exists l, NoDup l /\
     (forall v, v ∈ l <-> exists r, v = Some r /\ d_rels d !! r_ident r = Some r /\ matches f (r_ident r)) /\
     forall fuel, length l < fuel ->
       exists pages, paginate (relations_from dir f t) (Z.of_nat n) fuel "" = Some pages /\ concat pages = l) /\
  (exists l, NoDup l /\
     (forall v, v ∈ l <->
       exists o, v = Some o /\ d_objs d !! (o_type o, o_id o) = Some o /\ (ty = "" \/ o_type o = ty)) /\
     forall fuel, length l < fuel ->
       exists pages, paginate (objects_from ty t) (Z.of_nat n) fuel "" = Some pages /\ concat pages = l).
Proof.
  intros Hr Hf Hty Hn. split.
  - destruct (pg_ScanRelations_exact dir f t d Hr Hf) as (scan & l & Hs & Hres & Hnd & Hv).
    exists l.*2. rewrite length_fmap. split; [done|]. split; [done|]. intros fuel Hl. apply paginate_all; [|done..].
    eapply resumes_ext; [|exact Hres]. intros tok Htok. unfold relations_from. by rewrite Hs.
  - destruct (pg_ScanObjects_exact ty t d Hr Hty) as (scan & l & Hs & Hres & Hnd & Hv).
    exists l.*2. rewrite length_fmap. split; [done|]. split; [done|]. intros fuel Hl. apply paginate_all; [|done..].
    eapply resumes_ext; [|exact Hres]. intros tok Htok. unfold objects_from. by rewrite Hs.
Qed.

(** ** Aborted transactions *)

Lemma Exec_aborted s t : contents t = None -> exists e t', Exec s t = (Fail e, t') /\ contents t' = None.
Proof. intros Ht. apply Exec_rejected. by right. Qed.

Lemma run_op_aborted op t r t' :
  contents t = None -> run_op (T := pg_tx) op t = (r, t') -> is_ok r = false /\ contents t' = None.
Proof.
  intros Ht. destruct op as [o|ty id|rel|i|md b|m|]; cbn [run_op SetObject DeleteObject SetRelation
    DeleteRelation SetManifest SetManifestModel DeleteManifest pg_tx];
    unfold pg_SetObject, pg_DeleteObject, pg_SetRelation, pg_DeleteRelation, pg_SetManifest, pg_SetManifestModel,
      pg_DeleteManifest, bind, wrapped, rwrap, lift;
    repeat match goal with
    | |- context [marshal ?x] => destruct (marshal x); [|by intros [= <- <-]]
    | |- context [marshalAny ?x] => destruct (marshalAny x); [|by intros [= <- <-]]
    | |- context [Exec ?s t] => destruct (Exec_aborted s t Ht) as (e & t1 & -> & Hc)
    end; by intros [= <- <-].
Qed.

(** A caller that carries on after failed operations and returns no error, as the importer does. *)
Definition carry_on (ops : list (store_op model)) : M pgtx unit := fun t =>
  (Ok tt, (run_ops (T := pg_tx) ops t).2).

Lemma run_ops_app ops1 ops2 : forall (t : pgtx),
  (run_ops (T := pg_tx) (ops1 ++ ops2) t).2 =
  (run_ops (T := pg_tx) ops2 (run_ops (T := pg_tx) ops1 t).2).2.
Proof.
  induction ops1 as [|op ops1 IH]; intros t; cbn [app run_ops]; [done|].
  destruct (run_op (T := pg_tx) op t) as [r t1]. specialize (IH t1).
  destruct (run_ops (T := pg_tx) (ops1 ++ ops2) t1), (run_ops (T := pg_tx) ops1 t1). exact IH.
Qed.

Lemma run_ops_aborted ops : forall t oks t',
  contents t = None -> run_ops (T := pg_tx) ops t = (oks, t') ->
  Forall (fun ok => ok = false) oks /\ contents t' = None.
Proof.
  induction ops as [|op ops IH]; intros t oks t' Ht; cbn [run_ops]; [by intros [= <- <-]|].
  destruct (run_op (T := pg_tx) op t) as [r t1] eqn:E1.
  destruct (run_ops (T := pg_tx) ops t1) as [rs t2] eqn:E2. intros [= <- <-].
  destruct (run_op_aborted op t r t1 Ht E1) as [-> H1].
  destruct (IH t1 rs t2 H1 E2) as [H2 H3]. by split; [constructor|].
Qed.

(** a statement that the database rejects sinks its transaction: every later operation fails
    too, and a caller that carries on and reports no error commits nothing: the transaction returns
    an error and the store is as it was. *)
Theorem pg_rejected_sinks ops1 o ops2 t oks1 t1 data :
  run_ops (T := pg_tx) ops1 t = (oks1, t1) -> marshal o = Ok data ->
  forallb accepts [o_type o; o_id o; o_etag o] = false ->
  exists oks2 t2, run_ops (T := pg_tx) (OpSetObject o :: ops2) t1 = (false :: oks2, t2) /\
    Forall (fun ok => ok = false) oks2 /\
    exists e, withTx None (carry_on (ops1 ++ OpSetObject o :: ops2)) t = (Fail e, t).
Proof.
  intros H1 Hm Hrej. cbn [run_ops].
  assert (exists e t', run_op (T := pg_tx) (OpSetObject o) t1 = (Fail e, t') /\ contents t' = None)
    as (e & t' & E & Hc).
  { cbn [run_op SetObject pg_tx]. unfold pg_SetObject, bind, wrapped, rwrap, lift. rewrite Hm.
    destruct (Exec_rejected t1 (UpsertObject (o_type o) (o_id o) data (o_etag o)
      (AsTime (o_created_at o)) (AsTime (o_updated_at o)))) as (e & t' & -> & Hc); [by left|]. eauto. }
  rewrite E. destruct (run_ops (T := pg_tx) ops2 t') as [oks2 t2] eqn:E2.
  destruct (run_ops_aborted ops2 t' oks2 t2 Hc E2) as [Hall Hc2].
  exists oks2, t2. split; [done|]. split; [done|].
  unfold withTx, carry_on. rewrite run_ops_app, H1. cbn [run_ops snd]. rewrite E, E2. cbn [snd].
  destruct (Commit_aborted t2 Hc2) as [e' ->]. eauto.
Qed.
End Repr.
