(* ===== verification/MapPg.v ===== *)
(** * An executable Postgres

    An instance of the database that [Pgdb.v] takes as a parameter: the tables themselves, sorted
    by bytes, rejecting text that is not UTF-8 or holds a zero byte. *)
From Stdlib Require Import Ascii.
From S2P Require Import Prelude Bytes Messages Keys Store Json Bolt Bdb BdbTx Instances BoltFacts Pgdb PgdbFacts.

Module MapPg.
Import Concrete.

Definition text_ok (s : string) : bool := utf8 s && negb (contains zero s).
Definition byte_le (a b : string) : bool := bool_decide (a = b \/ str_lt a b).

Lemma byte_le_trans a b c : byte_le a b = true -> byte_le b c = true -> byte_le a c = true.
Proof.
  unfold byte_le. intros H1%bool_decide_eq_true H2%bool_decide_eq_true. apply bool_decide_eq_true.
  destruct H1 as [->|H1]; [done|]. destruct H2 as [<-|H2]; [by right|].
  right. by eapply str_lt_trans.
Qed.
Lemma byte_le_antisym a b : byte_le a b = true -> byte_le b a = true -> a = b.
Proof.
  unfold byte_le. intros H1%bool_decide_eq_true H2%bool_decide_eq_true.
  destruct H1 as [->|H1]; [done|]. destruct H2 as [->|H2]; [done|].
  by destruct (str_lt_asym a b).
Qed.
Lemma byte_le_total a b : byte_le a b = true \/ byte_le b a = true.
Proof.
  unfold byte_le. destruct (str_lt_total a b) as [|[|]]; [left|left|right]; apply bool_decide_eq_true; auto.
Qed.

Lemma row_le_trans xs : forall ys zs,
  length xs = length ys -> length ys = length zs ->
  row_le byte_le xs ys = true -> row_le byte_le ys zs = true -> row_le byte_le xs zs = true.
Proof.
  induction xs as [|x xs IH]; intros [|y ys] [|z zs]; simpl; try done. intros [= L1] [= L2].
  destruct (String.eqb_spec x y) as [->|N1].
  - destruct (String.eqb_spec y z) as [->|N2]; [by apply IH|done].
  - destruct (String.eqb_spec y z) as [->|N2].
    + by destruct (String.eqb_spec x z).
    + intros H1 H2. destruct (String.eqb_spec x z) as [->|N3]; [|by eapply byte_le_trans].
      by destruct (byte_le_antisym z y H1 H2).
Qed.
Lemma row_le_total xs : forall ys,
  row_le byte_le xs ys = true \/ row_le byte_le ys xs = true.
Proof.
  induction xs as [|x xs IH]; intros [|y ys]; simpl; auto.
  destruct (String.eqb_spec x y) as [->|N]; [rewrite String.eqb_refl; apply IH|].
  destruct (String.eqb_spec y x); [done|]. apply byte_le_total.
Qed.

(** Rows in the order of the columns. *)
Section Query.
Context {K : Type} `{Countable K} (col : K -> string -> string).

Definition row_ord (order : list string) (a b : K * string) : Prop :=
  row_le byte_le (col a.1 <$> order) (col b.1 <$> order) = true.
#[local] Instance row_ord_dec order : RelDecision (row_ord order).
Proof. intros a b. unfold row_ord. apply _. Defined.
#[local] Instance row_ord_trans order : Transitive (row_ord order).
Proof. intros [a ?] [b ?] [c ?]. apply row_le_trans; by rewrite !length_fmap. Qed.
#[local] Instance row_ord_total order : Total (row_ord order).
Proof. intros [a ?] [b ?]. apply row_le_total. Qed.

Definition run_query (q : select) (args : list string) (m : gmap K data_row) : list (K * string) :=
  merge_sort (row_ord (sel_order q))
    ((fun e => (e.1, row_data e.2)) <$>
     filter (fun e => forallb (holds byte_le args (col e.1)) (sel_where q) = true) (map_to_list m)).

Lemma run_query_answers q args m : answers byte_le col q args m (run_query q args m).
Proof.
  split; [apply merge_sort_Permutation|]. apply (StronglySorted_merge_sort (row_ord (sel_order q))).
Qed.
End Query.

(** The empty document comes back as the empty model of the concrete encoding. *)
Definition no_model : Concrete.model := Concrete.MkModel "" "" None.
Definition normal (s : string) : string :=
  if String.eqb s "{}" then Concrete.bits (encode no_model) else s.

(** The keys of the tables are valid texts. *)
Definition valid (tb : tables) : Prop :=
  map_Forall (fun k _ => text_ok k.1 = true /\ text_ok k.2 = true) (tbl_objects tb) /\
  map_Forall (fun i _ => forallb text_ok (texts i) = true) (tbl_relations tb).
#[export] Instance valid_dec tb : Decision (valid tb).
Proof. unfold valid. apply _. Defined.

Definition state_ : Type := option tables.
Definition seen (t : state_) : option tables :=
  match t with Some tb => if decide (valid tb) then Some tb else None | None => None end.

Definition err_rejected : err := XErr UnknownCode "invalid byte sequence for encoding UTF8".
Definition err_aborted : err := XErr UnknownCode "current transaction is aborted".

Lemma seen_valid t tb : seen t = Some tb -> t = Some tb /\ valid tb.
Proof. unfold seen. destruct t as [tb'|]; [|done]. destruct (decide (valid tb')); [|done]. by intros [= ->]. Qed.

Lemma upsert_Forall {K} `{Countable K} (P : K -> Prop) k row (m : gmap K data_row) :
  P k -> map_Forall (fun k _ => P k) m -> map_Forall (fun k _ => P k) (upsert k row m).
Proof. intros Hk Hm. unfold upsert. by apply map_Forall_insert_2. Qed.

Lemma effect_valid normal' s tb :
  valid tb -> forallb text_ok (text_args s) = true -> valid (effect normal' s tb).1.
Proof.
  intros [H1 H2]. destruct s; cbn [effect text_args fst tbl_objects tbl_relations]; intros Ha;
    try (case_match; cbn [fst]); split; cbn [tbl_objects tbl_relations]; try done.
  - apply (upsert_Forall (fun k => text_ok k.1 = true /\ text_ok k.2 = true)); [|done].
    cbn in Ha. rewrite !andb_true_iff in Ha. naive_solver.
  - by apply map_Forall_delete.
  - apply (upsert_Forall (fun i => forallb text_ok (texts i) = true)); [|done].
    rewrite forallb_app, andb_true_iff in Ha. by destruct Ha.
  - by apply map_Forall_delete.
Qed.

#[export] Instance MapPg : Postgres := {|
  pgtx := state_;
  contents := seen;
  Exec := fun s t =>
    match seen t with
    | None => (Fail err_aborted, None)
    | Some tb =>
        if forallb text_ok (text_args s)
        then (Ok (effect normal s tb).2, Some (effect normal s tb).1)
        else (Fail err_rejected, None)
    end;
  QueryObjects := fun q args t =>
    match seen t with
    | Some tb => Ok (run_query object_col q args (tbl_objects tb))
    | None => Fail err_aborted
    end;
  QueryRelations := fun q args t =>
    match seen t with
    | Some tb => Ok (run_query relation_col q args (tbl_relations tb))
    | None => Fail err_aborted
    end;
  QueryManifest := fun name t =>
    match seen t with
    | Some tb => Ok (tbl_manifest tb !! name)
    | None => Fail err_aborted
    end;
  text_le := byte_le;
  accepts := text_ok;
  jsonb := normal;
  Commit := fun t => match seen t with Some _ => None | None => Some err_aborted end |}.

#[export] Instance MapPgLaws : PostgresLaws MapPg.
Proof.
  split; cbn -[text_ok].
  - intros a. unfold byte_le. apply bool_decide_eq_true. by left.
  - apply byte_le_trans.
  - apply byte_le_antisym.
  - intros s [H _]%andb_true_iff. exact H.
  - reflexivity.
  - reflexivity.
  - intros t tb [-> [H1 H2]]%seen_valid. split.
    + intros k [row Hk]. by apply (H1 k row).
    + intros i [row Hi]. apply forallb_Forall. by apply (H2 i row).
  - intros t tb s Ht Ha. rewrite Ht, Ha. eexists. split; [done|].
    apply seen_valid in Ht as [_ Hv]. unfold seen. by rewrite decide_True by by apply effect_valid.
  - intros t s [Hs|Ht]; [|rewrite Ht; eauto].
    destruct (seen t); [rewrite Hs|]; eauto.
  - intros t tb q args Ht _. rewrite Ht. eexists. split; [done|]. apply run_query_answers.
  - intros t tb q args Ht _. rewrite Ht. eexists. split; [done|]. apply run_query_answers.
  - intros t Ht. by rewrite Ht.
  - intros t tb name Ht _. by rewrite Ht.
  - intros t Ht. rewrite Ht. eauto.
Qed.

#[export] Instance MapPgModel : PgModelLaws Concrete.model.
Proof.
  refine {| empty_model := no_model |}.
  - intros m b Hb. cbn in *. unfold normal. destruct (String.eqb_spec b "{}") as [->|_].
    + unfold Concrete.enc in Hb. by destruct (encode m).
    + by apply Concrete.dec_enc.
  - by vm_compute.
Defined.

(** ** A database of the examples *)

Definition no_tables : @pgtx MapPg := Some (MkTables ∅ ∅ ∅).

Lemma no_tables_repr : pg_repr no_tables (@empty_dir Concrete.model).
Proof.
  exists (MkTables ∅ ∅ ∅). split; [vm_compute; reflexivity|].
  split_and!; [apply map_Forall2_empty..|]. by vm_compute.
Qed.
End MapPg.

Module PgExamples.
Import Concrete MapPg.

Definition pg_ops : list (store_op model) :=
  [OpSetObject bob1; OpSetRelation rel1; OpSetRelation rel2; OpDeleteRelation (r_ident rel2);
   OpSetManifest (MkMetadata None "1") (MkBody "model")].
Definition pg_run : list bool * pgtx := run_ops (T := pg_tx) pg_ops no_tables.

Lemma pg_ops_accepted : Forall (accepted_op (model := model)) pg_ops.
Proof. repeat constructor. Qed.

Lemma pg_refines_witness :
  pg_repr pg_run.2 (apply_ops (Some no_model) pg_ops pg_run.1 empty_dir) /\
  pg_GetRelationExact (r_ident rel1) pg_run.2 = Ok rel1 /\ pg_GetManifestModel pg_run.2 = Ok no_model.
Proof.
  destruct (pg_refines pg_ops no_tables empty_dir pg_run.1 pg_run.2) as (H & _ & Hg & _ & _ & _ & Hm).
  - exact no_tables_repr.
  - exact pg_ops_accepted.
  - unfold pg_run. destruct (run_ops (T := pg_tx) pg_ops no_tables). reflexivity.
  - split; [exact H|]. split; [rewrite Hg; [vm_compute; reflexivity|repeat constructor]|].
    rewrite Hm. vm_compute. reflexivity.
Defined.

(** Two relations, in pages of one row. *)
Definition pg_db1 : pgtx := (run_ops (T := pg_tx) (take 3 pg_ops) no_tables).2.
Lemma pg_db1_repr : pg_repr pg_db1 dir1.
Proof.
  pose proof (run_ops_pg (take 3 pg_ops) no_tables empty_dir
    (run_ops (T := pg_tx) (take 3 pg_ops) no_tables).1
    (run_ops (T := pg_tx) (take 3 pg_ops) no_tables).2) as H.
  assert (apply_ops (Some no_model) (take 3 pg_ops) (run_ops (T := pg_tx) (take 3 pg_ops) no_tables).1 empty_dir = dir1)
    as E by (vm_compute; reflexivity).
  rewrite <-E. apply H.
  - exact no_tables_repr.
  - apply Forall_take, pg_ops_accepted.
  - destruct (run_ops (T := pg_tx) (take 3 pg_ops) no_tables). reflexivity.
Qed.

Lemma pg_scan_pages_witness :
  (exists l, Some rel2 ∈ l /\ exists pages,
     paginate (relations_from BySubject (MkFilter zero_ident false) pg_db1) 1 (S (length l)) "" = Some pages /\
     concat pages = l) /\
  (exists l, Some bob1 ∈ l /\ exists pages,
     paginate (objects_from "user" pg_db1) 1 (S (length l)) "" = Some pages /\ concat pages = l).
Proof.
  destruct (pg_scan_pages BySubject (MkFilter zero_ident false) "user" 1 pg_db1 dir1)
    as [(l & H1 & H2 & H3) (l' & H4 & H5 & H6)].
  - exact pg_db1_repr.
  - repeat constructor.
  - vm_compute. reflexivity.
  - lia.
  - split.
    + exists l. split; [|apply H3; lia]. apply H2. exists rel2.
      split_and!; [reflexivity|vm_compute; reflexivity|].
      unfold matches, field_matches. cbn. split_and!; auto; discriminate.
    + exists l'. split; [|apply H6; lia]. apply H5. exists bob1.
      split_and!; [reflexivity|vm_compute; reflexivity|right; reflexivity].
Defined.

(** An id that is not UTF-8. *)
Definition latin : Object :=
  MkObject "user" (String (Ascii.ascii_of_nat 255) EmptyString) "" None None None "".
Lemma pg_rejected_sinks_witness :
  exists e, withTx None (carry_on [OpSetObject bob1; OpSetObject latin; OpSetRelation rel1]) no_tables
    = (Fail e, no_tables).
Proof.
  destruct (pg_rejected_sinks (model := model) [OpSetObject bob1] latin [OpSetRelation rel1] no_tables
    (run_ops (T := pg_tx) [OpSetObject bob1] no_tables).1
    (run_ops (T := pg_tx) [OpSetObject bob1] no_tables).2
    (bits (encode latin))) as (oks & t2 & _ & _ & H).
  - destruct (run_ops (T := pg_tx) [OpSetObject bob1] no_tables). reflexivity.
  - reflexivity.
  - vm_compute. reflexivity.
  - exact H.
Defined.
End PgExamples.
