(* ===== verification/Backends.v ===== *)
(** * The two backends agree

    The services are written against the transaction interface of [store.go]; [bdb] and [pgdb]
    implement it.  From stores that hold the same directory, operations with the same outcomes lead
    to stores that answer the reads of the services alike. *)
From S2P Require Import Prelude Bytes Messages Keys Store Json Bolt Bdb BdbTx Ds Service Instances.
From S2P Require Import BoltFacts DsFacts Pgdb PgdbFacts MapPg.

Section Agree.
Context {model : Type} `{B : Bolt} `{BL : !BoltLaws B} `{G : Postgres} `{GL : !PostgresLaws G}.
Context `{CO : Codecs model} `{CL : !CodecsLaws model CO} `{PM : !PgModelLaws model} `{Z : Azm model}.

Lemma pg_getRelations_lists (t : pgtx) d r out :
  pg_repr t d -> Forall (fun s => accepts s = true) (texts r) ->
  exists l, getRelations (T := pg_tx) t r out = Ok (out ++ l) /\ NoDup l /\
    forall i, i ∈ l <-> is_Some (d_rels d !! i) /\ matches (ds.RelationIdentifier_ r) i.
Proof.
  intros Hr Ha. unfold getRelations, ds.Filter. destruct (ds.direction _ _) as [dir ok].
  destruct (pg_ScanRelationsFiltered_exact dir (ds.asFilter (ds.RelationIdentifier_ r))
    (ds.identifierValueFilter (ds.RelationIdentifier_ r)) out t d Hr) as (l & Hl & Hn & Hin);
    [by destruct r|].
  exists l. split; [exact Hl|]. split; [done|]. intros i. rewrite Hin. unfold ds.identifierValueFilter.
  split.
  - intros (H1 & _ & H2). split; [done|]. by apply valueFilter_matches in H2.
  - intros [H1 H2]. split_and!; [done|by destruct r|by apply valueFilter_matches].
Qed.

(** Equal results, or errors that both say "not found". *)
Definition alike {X} (a b : res X) : Prop :=
  match a, b with
  | Ok x, Ok y => x = y
  | Fail e, Fail e' => is_not_found e = true /\ is_not_found e' = true
  | _, _ => False
  end.

(** The directories of the two stores: they differ at most in the model, which Postgres stores empty with the first
    manifest and BoltDB does not store until it is set. *)
Definition same_but_model (d dp : directory model) : Prop :=
  d_objs dp = d_objs d /\ d_rels dp = d_rels d /\ d_metadata dp = d_metadata d /\ d_body dp = d_body d /\
  (d_model dp = d_model d \/ d_model d = None /\ d_model dp = Some empty_model).

Lemma apply_op_same op d dp :
  same_but_model d dp -> same_but_model (apply_op None op d) (apply_op (Some empty_model) op dp).
Proof.
  intros (Ho & Hr & Hm & Hb & Hmod). destruct op; unfold same_but_model; cbn; rewrite ?Ho, ?Hr; split_and!; auto.
  rewrite union_None. destruct Hmod as [->|[-> ->]]; [|by right].
  destruct (d_model d) as [m|]; [by left|by right].
Qed.
Lemma apply_ops_same ops : forall oks d dp,
  same_but_model d dp -> same_but_model (apply_ops None ops oks d) (apply_ops (Some empty_model) ops oks dp).
Proof.
  induction ops as [|op ops IH]; intros [|[] oks] d dp Hs; cbn [apply_ops]; try done; apply IH; [|done].
  by apply apply_op_same.
Qed.

Lemma alike_found {X} (r : res X) (v : option X) :
  match v with Some x => r = Ok x | None => exists e, r = Fail e /\ is_not_found e = true end -> alike r (found v).
Proof. destruct v as [x|]; [by intros ->|by intros (e & -> & ?)]. Qed.

(** C10: Run on BoltDB and on Postgres from the same directory, a sequence of store operations with the same outcomes,
    none of them a refused manifest, on names without the separators of the BoltDB keys and in texts that Postgres
    accepts, leaves stores that answer reads of such names alike: the same object or "not found", the same relation
    or "not found", the same metadata and body of the manifest or "not found", the same answer to whether an object
    takes part in a relation, and the same relations, up to their order, to the graph walk of a check.  The model is
    the same too, except between the first manifest and its model, when BoltDB finds none and Postgres an empty
    one. *)
Theorem backends_agree ops (tb : @tx model bolt_tx) (tp : pgtx) d oks tb' tp' :
  repr tb d -> pg_repr tp d -> Forall wf_op ops -> Forall accepted_op ops -> manifests_stored ops oks = true ->
  run_ops ops tb = (oks, tb') -> run_ops (T := pg_tx) ops tp = (oks, tp') ->
  (forall ty id, wf_type ty -> accepts ty = true -> accepts id = true ->
     alike (GetObject ty id tb') (pg_GetObject ty id tp')) /\
  (forall i, wf_ident i -> Forall (fun s => accepts s = true) (texts i) ->
     alike (GetRelationExact i tb') (pg_GetRelationExact i tp')) /\
  alike (GetManifestMetadata tb') (pg_GetManifestMetadata tp') /\
  alike (GetManifestBody tb') (pg_GetManifestBody tp') /\
  (alike (GetManifestModel tb') (pg_GetManifestModel tp') \/
   (exists e, GetManifestModel tb' = Fail e /\ is_not_found e = true) /\ pg_GetManifestModel tp' = Ok empty_model) /\
  (forall dir ty id, bdb.isSet ty = true -> bdb.isSet id = true -> wf_type ty -> wf_part id ->
     accepts ty = true -> accepts id = true ->
     RelationsExistForObject dir ty id tb' = pg_RelationsExistForObject dir ty id tp') /\
  (forall r out, Forall (fun s => accepts s = true) (texts r) ->
     exists l l', getRelations (T := bolt_tx) tb' r out = Ok (out ++ l) /\
       getRelations (T := pg_tx) tp' r out = Ok (out ++ l') /\ l ≡ₚ l').
Proof.
  intros Hb Hp Hw Ha Hm Rb Rp. set (d' := apply_ops None ops oks d). set (dp := apply_ops (Some empty_model) ops oks d).
  assert (repr tb' d') as Hb' by (by eapply run_ops_repr).
  assert (pg_repr tp' dp) as Hp' by (by eapply run_ops_pg).
  assert (same_but_model d' dp) as (Ho & Hrl & Hmd & Hbd & Hmod)
    by (apply apply_ops_same; unfold same_but_model; split_and!; auto).
  destruct (pg_manifest_exact tp' dp Hp') as (-> & -> & ->). rewrite Hmd, Hbd.
  split_and!.
  - intros ty id Ht H1 H2. rewrite (pg_GetObject_exact ty id tp' dp), Ho by done. apply alike_found.
    destruct (d_objs d' !! (ty, id)) as [o|] eqn:E; [by apply (GetObject_found tb' d')|by apply (GetObject_missing tb' d')].
  - intros i Hi H1. rewrite (pg_GetRelationExact_exact i tp' dp), Hrl by done. apply alike_found.
    destruct (d_rels d' !! i) as [r|] eqn:E;
      [by apply (GetRelationExact_found tb' d')|by apply (GetRelationExact_missing tb' d')].
  - apply alike_found. by apply GetManifestMetadata_ok.
  - apply alike_found. by apply GetManifestBody_ok.
  - pose proof (GetManifestModel_ok tb' d' Hb') as H. destruct Hmod as [->|[E ->]].
    + left. by apply alike_found.
    + right. by rewrite E in H.
  - intros dir ty id H1 H2 H3 H4 H5 H6.
    rewrite (RelationsExist_ok tb' d'), (pg_RelationsExist_exact dir ty id tp' dp) by done.
    unfold anchored. by rewrite Hrl.
  - intros r out Hr. destruct (getRelations_lists tb' d' r out Hb') as (l & H1 & N1 & I1).
    destruct (pg_getRelations_lists tp' dp r out Hp' Hr) as (l' & H2 & N2 & I2).
    exists l, l'. split_and!; [done..|]. apply NoDup_Permutation; [done..|].
    intros i. by rewrite I1, I2, Hrl.
Qed.
End Agree.

Module BackendsExamples.
Import Concrete MapPg.

Lemma backends_agree_witness :
  alike (GetObject "user" "bob" (run_ops PgExamples.pg_ops db).2)
        (pg_GetObject "user" "bob" PgExamples.pg_run.2) /\
  alike (GetManifestBody (run_ops PgExamples.pg_ops db).2) (pg_GetManifestBody PgExamples.pg_run.2) /\
  exists l l',
    getRelations (T := bolt_tx) (run_ops PgExamples.pg_ops db).2 (MkIdent "doc" "" "" "" "" "") [] = Ok l /\
    getRelations (T := pg_tx) PgExamples.pg_run.2 (MkIdent "doc" "" "" "" "" "") [] = Ok l' /\ l ≡ₚ l'.
Proof.
  destruct (backends_agree PgExamples.pg_ops db no_tables empty_dir
    (run_ops PgExamples.pg_ops db).1 (run_ops PgExamples.pg_ops db).2 PgExamples.pg_run.2)
    as (H1 & _ & _ & Hbody & _ & _ & H2).
  - exact db_repr.
  - exact no_tables_repr.
  - repeat constructor.
  - exact PgExamples.pg_ops_accepted.
  - vm_compute. reflexivity.
  - destruct (run_ops PgExamples.pg_ops db). reflexivity.
  - vm_compute. reflexivity.
  - split_and!.
    + apply H1; vm_compute; reflexivity.
    + exact Hbody.
    + destruct (H2 (MkIdent "doc" "" "" "" "" "") []) as (l & l' & E1 & E2 & E3); [repeat constructor|].
      exists l, l'. split_and!; [exact E1|exact E2|exact E3].
Defined.
End BackendsExamples.
