(* ===== verification/Policies.v ===== *)
(** * Loaded policies

    [internal/runtime/bundles.go]: the packages, roots, bundles and modules of the policies that OPA
    has loaded, and the choice of the policy root that an instance serves.  OPA's store and Rego's
    parser are third-party code: parameters ([Opa]). *)
From Stdlib Require Import Ascii.
From stdpp Require Import pretty sorting.
From S2P Require Import Prelude Bytes Text.

Record PolicyItem := MkPolicyItem { pi_Name : string; pi_ID : string }.
Record Bundle := MkBundle { b_ID : string; b_Name : string; b_Path : string }.
Record Module_ := MkModule_ { m_ID : string; m_Name : string; m_Content : string; m_Rules : list string }.
Record Policy := MkPolicy { PackageName : string; Location : string }.

(** A parsed module: its package path as text, and the names of its rules. *)
Record parsed_module := MkParsed { Package_Path : string; Rule_Names : list string }.

Class Opa := {
  opa_store : Type;
  (** the errors of starting and of ending a read transaction *)
  NewTransaction : opa_store -> option err;
  EndTransaction : opa_store -> option err;
  ListPolicies : opa_store -> res (list string);
  GetPolicy : opa_store -> string -> res string;
  ast_ParseModule : string -> res parsed_module;
  (** [uuid.Parse] succeeds *)
  uuid_Parse : string -> bool;
  (** [fmt]'s %q verb *)
  quoted : string -> string;
  (** the error is a cancelled evaluation *)
  is_cancelled : err -> bool }.

Definition Contains (l : list string) (x : string) : bool := existsb (String.eqb x) l.

(** [errors.New], [errors.Errorf] *)
Definition new_error (text : string) : err := XErr UnknownCode text.

(** [slices.Sort], and [sort.Slice] on a string field (which leaves the order of equal names open). *)
Definition str_le (a b : string) : Prop := ~ str_lt b a.
#[export] Instance str_le_dec : RelDecision str_le.
Proof. intros a b. unfold str_le. apply _. Defined.
#[export] Instance str_le_total : Total str_le.
Proof. intros a b. unfold str_le. destruct (decide (str_lt a b)) as [H%str_lt_asym|]; auto. Qed.
#[export] Instance str_le_trans : Transitive str_le.
Proof.
  intros a b c H1 H2 H3. destruct (str_lt_total a b) as [H|[->|H]]; [|done..].
  apply H2. by trans a.
Qed.
#[export] Instance str_lt_antisymm : AntiSymm eq str_lt.
Proof. intros a b H1 H2. by destruct (str_lt_asym a b). Qed.
Definition slices_Sort (l : list string) : list string := merge_sort str_le l.

Definition name_le (a b : PolicyItem) : Prop := str_le (pi_Name a) (pi_Name b).
#[export] Instance name_le_dec : RelDecision name_le.
Proof. intros a b. unfold name_le. apply _. Defined.
#[export] Instance name_le_total : Total name_le.
Proof. intros a b. unfold name_le. apply (total str_le). Qed.
#[export] Instance name_le_trans : Transitive name_le.
Proof. intros a b c. unfold name_le. apply str_le_trans. Qed.

Section Bundles.
Context `{O : Opa}.

(** [storage.Txn] around a body that only reads. *)
Definition Txn {A} (st : opa_store) (body : res A) : res A :=
  match NewTransaction st with
  | Some e => Fail e
  | None =>
      match body with
      | Fail e => Fail e
      | Ok a => match EndTransaction st with Some e => Fail e | None => Ok a end
      end
  end.

Definition getPackageFromPolicyID (st : opa_store) (policyID : string) : res string :=
  match GetPolicy st policyID with
  | Fail e => Fail (Errorf "store.GetPolicy" e)
  | Ok buf =>
      match ast_ParseModule buf with
      | Fail e => Fail (Errorf "ast.ParseModule" e)
      | Ok m => Ok (TrimPrefix (Package_Path m) "data.")
      end
  end.

Definition root_of (pkg : string) : string := (Cut "."%char pkg).1.1.

Definition getRootFromPolicyID (st : opa_store) (policyID : string) : res string :=
  rmap root_of (getPackageFromPolicyID st policyID).

(** ** Packages and roots *)

Fixpoint collect_packages (st : opa_store) (ids packages : list string) : list string * option err :=
  match ids with
  | [] => (packages, None)
  | id :: ids =>
      match getPackageFromPolicyID st id with
      | Fail e => (packages, Some e)
      | Ok pkg =>
          collect_packages st ids
            (if negb (String.eqb pkg "") && negb (Contains packages pkg) then packages ++ [pkg] else packages)
      end
  end.

(** What was collected is returned with the error. *)
Definition GetPolicyPackages (st : opa_store) : list string * option err :=
  match NewTransaction st with
  | Some e => ([], Some e)
  | None =>
      match ListPolicies st with
      | Fail e => ([], Some (Errorf "error listing policies from storage" e))
      | Ok policiesList =>
          match collect_packages st policiesList [] with
          | (packages, Some e) => (packages, Some e)
          | (packages, None) => (slices_Sort packages, EndTransaction st)
          end
      end
  end.

Definition PolicyRoots (packages : list string) : list string :=
  fold_left (fun roots pkg =>
    let root := root_of pkg in
    if negb (String.eqb root "") && negb (Contains roots root) then roots ++ [root] else roots)
  packages [].

Definition GetPolicyRoots (st : opa_store) : res (list string) :=
  match GetPolicyPackages st with
  | (_, Some e) => Fail e
  | (packages, None) => Ok (PolicyRoots packages)
  end.

(** [configured]: the setting [opa.policy_root] of the runtime. *)
Definition SelectPolicyRoot (configured : string) (roots : list string) : res string :=
  match roots with
  | [] => Fail (new_error "no policy loaded")
  | _ =>
      if negb (String.eqb configured "") then
        if negb (Contains roots configured) then
          Fail (new_error ("opa.policy_root " ++ quoted configured ++
            " is not loaded; loaded policies are [" ++ Join roots ", " ++ "]"))
        else Ok configured
      else
        match roots with
        | [root] => Ok root
        | _ =>
            Fail (new_error (pretty (length roots) ++ " policies are loaded [" ++ Join roots ", " ++
              "] and the request selected none: set opa.policy_root, or select one per request"))
        end
  end.

Definition PDPPolicyRoot (configured : string) (st : opa_store) : res string :=
  rbind (GetPolicyRoots st) (SelectPolicyRoot configured).

Fixpoint find_root (st : opa_store) (path : string) (ids : list string) : res string :=
  match ids with
  | [] => Ok ""
  | v :: ids =>
      if negb (HasPrefix (TrimPrefix v "/") (TrimPrefix path "/")) then find_root st path ids
      else
        match getRootFromPolicyID st v with
        | Fail e => Fail e
        | Ok policyRoot =>
            if negb (String.eqb policyRoot "") then Ok policyRoot else find_root st path ids
        end
  end.

Definition GetPolicyRootForPath (st : opa_store) (path : string) : res string :=
  Txn st (match ListPolicies st with
          | Fail e => Fail (Errorf "error listing policies from storage" e)
          | Ok policiesList => find_root st path policiesList
          end).

(** ** Policies and modules *)

Definition encID (id : string) : string := base64_encode id.
Definition decID (id : string) : string := default "" (base64_decode id).
Definition calcID (v : string) : string := if uuid_Parse v then v else pretty (adler32 v).

Definition Policy_Name (p : Policy) : string := default "" (head (Split "."%char (PackageName p))).

Fixpoint list_policies (st : opa_store) (fn : string -> bool) (ids : list string) (acc : list Policy)
  : res (list Policy) :=
  match ids with
  | [] => Ok acc
  | v :: ids =>
      match getPackageFromPolicyID st v with
      | Fail e => Fail e
      | Ok packageName =>
          list_policies st fn ids (if fn packageName then acc ++ [MkPolicy packageName v] else acc)
      end
  end.

(** A nil filter is [None]. *)
Definition GetPolicyList (st : opa_store) (fn : option (string -> bool)) : res (list Policy) :=
  match fn with
  | None => Fail (new_error "path filter is nil")
  | Some fn =>
      Txn st (match ListPolicies st with
              | Fail e => Fail (Errorf "error listing policies from storage" e)
              | Ok policiesList => list_policies st fn policiesList []
              end)
  end.

Definition noFilter : string -> bool := fun _ => true.

Definition GetPolicies (st : opa_store) : res (list PolicyItem) :=
  rmap (fun l => merge_sort name_le (map (fun p => MkPolicyItem (PackageName p) (encID (Location p))) l))
    (GetPolicyList st (Some noFilter)).

Definition policyExists (st : opa_store) (id : string) : bool := is_ok (Txn st (GetPolicy st id)).

Definition getModule (st : opa_store) (id : string) : res Module_ :=
  Txn st (match GetPolicy st id with
          | Fail e => Fail (Errorf "failed to get policy" e)
          | Ok policy =>
              match ast_ParseModule policy with
              | Fail e => Fail (Errorf "parse module" e)
              | Ok m => Ok (MkModule_ (encID id) (TrimPrefix (Package_Path m) "data.") policy (Rule_Names m))
              end
          end).

Definition GetModule (st : opa_store) (id : string) : res Module_ :=
  let pid := decID id in
  if negb (policyExists st pid) then Fail (new_error ("policy not found [" ++ pid ++ "]"))
  else getModule st pid.

(** ** Bundles *)

(** [query]: the bindings of [x] in the results of [data.system.bundles[x]]; [None] is not a string. *)
Fixpoint bundles_of (st : opa_store) (xs : list (option string)) (results : list Bundle) : res (list Bundle) :=
  match xs with
  | [] => Ok results
  | None :: xs => bundles_of st xs results
  | Some v :: xs =>
      let path := TrimPrefix v "./" in
      let id := calcID v in
      match GetPolicyRootForPath st path with
      | Fail e => Fail (Errorf "get policy name" e)
      | Ok name => bundles_of st xs (results ++ [MkBundle id name path])
      end
  end.
Definition getBundles (query : res (list (option string))) (st : opa_store) : res (list Bundle) :=
  match query with
  | Fail e => Fail (Errorf "query bundles" e)
  | Ok xs => bundles_of st xs []
  end.

(** [instance], [manager]: the OPA instance and the plugin manager are initialized. *)
Definition GetBundles (instance manager : bool) (query : res (list (option string))) (st : opa_store)
  : res (list PolicyItem) :=
  if negb instance then Fail (new_error "OPA instance not initialized")
  else if negb manager then Fail (new_error "plugin manager not initialized")
  else
    match getBundles query st with
    | Fail e => if is_cancelled e then Ok [] else Fail (Errorf "get bundles" e)
    | Ok bundles => Ok (map (fun b => MkPolicyItem (b_Name b) (b_ID b)) bundles)
    end.

Definition GetBundleByID (query : res (list (option string))) (st : opa_store) (id : string) : res Bundle :=
  match getBundles query st with
  | Fail e => Fail e
  | Ok bundles =>
      match List.find (fun v => String.eqb (b_ID v) id) bundles with
      | Some v => Ok v
      | None => Fail (new_error ("bundle for policy id not found [" ++ id ++ "]"))
      end
  end.

(** ** Properties *)

Lemma Contains_true l x : Contains l x = true <-> x ∈ l.
Proof.
  unfold Contains. rewrite existsb_exists. setoid_rewrite String.eqb_eq.
  split; [intros (y & Hy & ->)|intros H; exists x]; rewrite <-?list_elem_of_In, ?list_elem_of_In in *; auto.
Qed.
Lemma Contains_false l x : Contains l x = false <-> x ∉ l.
Proof. rewrite <-Contains_true. by destruct (Contains l x). Qed.

(** A list of distinct names, extended by a name that is new and not empty. *)
Lemma extend_distinct (l : list string) x :
  NoDup l ->
  let l' := if negb (String.eqb x "") && negb (Contains l x) then l ++ [x] else l in
  NoDup l' /\ (forall y, y ∈ l' <-> y ∈ l \/ (y <> "" /\ y = x)) /\ l `prefix_of` l'.
Proof.
  intros Hn. cbn zeta. destruct (String.eqb_spec x "") as [->|Hne]; cbn [negb andb].
  { split; [done|]. split; [|done]. intros y. naive_solver. }
  destruct (Contains l x) eqn:E; cbn [negb].
  - apply Contains_true in E. split; [done|]. split; [|done]. intros y. naive_solver.
  - apply Contains_false in E. split_and!; [|intros y; rewrite elem_of_app, list_elem_of_singleton|by exists [x]].
    + apply NoDup_app. split_and!; [done| |apply NoDup_singleton].
      intros y Hy ->%list_elem_of_singleton. done.
    + naive_solver.
Qed.

Lemma collect_packages_ok st ids : forall acc ps,
  NoDup acc -> collect_packages st ids acc = (ps, None) ->
  NoDup ps /\
  (forall p, p ∈ ps <-> p ∈ acc \/ (p <> "" /\ exists id, id ∈ ids /\ getPackageFromPolicyID st id = Ok p)) /\
  (forall id, id ∈ ids -> is_ok (getPackageFromPolicyID st id) = true).
Proof.
  induction ids as [|id ids IH]; simpl; intros acc ps Hn.
  - intros [= <-]. split_and!; [done| |by intros ? ?%elem_of_nil].
    intros p. split; [by left|]. intros [|(_ & ? & []%elem_of_nil & _)]; done.
  - destruct (getPackageFromPolicyID st id) as [pkg|e] eqn:E; [|done]. intros H.
    destruct (extend_distinct acc pkg Hn) as (Hn' & Hin & _).
    apply IH in H as (H1 & H2 & H3); [|done]. split_and!; [done|..].
    + intros p. rewrite H2, Hin. clear -E. split.
      * intros [[?|[? ->]]|(? & i & ? & ?)]; [by left|right..].
        -- split; [done|]. exists id. by split; [left|].
        -- split; [done|]. exists i. by split; [right|].
      * intros [?|(? & i & [->|?]%elem_of_cons & Hi)]; [by left; left|left; right|right; eauto].
        split; [done|]. congruence.
    + intros x [->|Hx]%elem_of_cons; [by rewrite E|auto].
Qed.

Lemma collect_packages_total st ids : forall acc,
  (forall id, id ∈ ids -> is_ok (getPackageFromPolicyID st id) = true) ->
  exists ps, collect_packages st ids acc = (ps, None).
Proof.
  induction ids as [|id ids IH]; simpl; intros acc Hok; [eauto|].
  pose proof (Hok id) as H. destruct (getPackageFromPolicyID st id) as [pkg|e].
  - apply IH. intros x Hx. apply Hok. by right.
  - discriminate H. left.
Qed.

Lemma GetPolicyPackages_ok st packages :
  GetPolicyPackages st = (packages, None) ->
  exists ids ps, ListPolicies st = Ok ids /\ collect_packages st ids [] = (ps, None) /\
    packages = slices_Sort ps /\ NewTransaction st = None /\ EndTransaction st = None.
Proof.
  unfold GetPolicyPackages. destruct (NewTransaction st); [done|].
  destruct (ListPolicies st) as [ids|e]; [|done].
  destruct (collect_packages st ids []) as [ps [e|]] eqn:E; [done|]. intros [= <- H]. eauto 10.
Qed.

Lemma slices_Sort_strict ps : NoDup ps -> StronglySorted str_lt (slices_Sort ps).
Proof.
  intros Hn. assert (NoDup (slices_Sort ps)) as Hn' by (unfold slices_Sort; by rewrite (merge_sort_Permutation str_le ps)).
  pose proof (StronglySorted_merge_sort str_le ps) as Hs. fold (slices_Sort ps) in Hs. revert Hn' Hs.
  generalize (slices_Sort ps). clear ps Hn. induction l as [|a l IH]; intros Hn Hs; [constructor|].
  apply NoDup_cons in Hn as [Ha Hn]. apply StronglySorted_inv in Hs as [Hs Hle].
  constructor; [auto|]. rewrite Forall_forall in *. intros b Hb.
  destruct (str_lt_total a b) as [?|[->|Hlt]]; [done..|]. by destruct (Hle b Hb).
Qed.

Lemma packages_exact st packages :
  GetPolicyPackages st = (packages, None) ->
  StronglySorted str_lt packages /\
  forall p, p ∈ packages <->
    p <> "" /\ exists ids id, ListPolicies st = Ok ids /\ id ∈ ids /\ getPackageFromPolicyID st id = Ok p.
Proof.
  intros (ids & ps & Hl & Hc & -> & _)%GetPolicyPackages_ok.
  apply collect_packages_ok in Hc as (Hn & Hin & _); [|constructor].
  split; [by apply slices_Sort_strict|]. intros p. unfold slices_Sort.
  rewrite (merge_sort_Permutation str_le ps), Hin. rewrite Hl. split.
  - intros [?%elem_of_nil|(? & id & ? & ?)]; [done|eauto 6].
  - intros (? & ids' & id & [= <-] & ? & ?). eauto.
Qed.

(** The same policies, listed in another order. *)
Definition same_policies (st st' : opa_store) : Prop :=
  (exists ids ids', ListPolicies st = Ok ids /\ ListPolicies st' = Ok ids' /\ ids ≡ₚ ids') /\
  forall id, GetPolicy st id = GetPolicy st' id.

Lemma same_policies_package st st' id :
  same_policies st st' -> getPackageFromPolicyID st' id = getPackageFromPolicyID st id.
Proof. intros [_ H]. unfold getPackageFromPolicyID. by rewrite H. Qed.

Lemma packages_stable st st' packages :
  same_policies st st' -> NewTransaction st' = None -> EndTransaction st' = None ->
  GetPolicyPackages st = (packages, None) -> GetPolicyPackages st' = (packages, None).
Proof.
  intros Hsame Hn' He' H. pose proof Hsame as [(ids & ids' & Hl & Hl' & Hp) _].
  apply GetPolicyPackages_ok in H as (ids0 & ps & Hl0 & Hc & -> & _). rewrite Hl in Hl0. injection Hl0 as <-.
  apply collect_packages_ok in Hc as (Hn & Hin & Hok); [|constructor].
  unfold GetPolicyPackages. rewrite Hn', Hl', He'.
  destruct (collect_packages_total st' ids' []) as [ps' Hc'].
  { intros id Hid. rewrite (same_policies_package st st') by done. apply Hok. by rewrite Hp. }
  rewrite Hc'. apply collect_packages_ok in Hc' as (Hnd & Hin' & _); [|constructor].
  f_equal. apply (StronglySorted_unique str_lt); [by apply slices_Sort_strict..|].
  unfold slices_Sort. rewrite !merge_sort_Permutation. apply NoDup_Permutation; [done..|].
  intros p. rewrite Hin, Hin'. split; (intros [?%elem_of_nil|(? & id & Hid & Hpkg)]; [done|]); right;
    (split; [done|]); exists id; rewrite (same_policies_package st st') in * by done; by rewrite Hp in *.
Qed.

(** the policy that an instance serves does not depend on the order in which the store lists
    its policies: the loaded packages are the distinct non-empty package paths, strictly sorted, and
    two listings of the same policies give the same packages and select the same root, or refuse
    with the same error. *)
Theorem policy_root_stable configured st st' packages :
  same_policies st st' -> NewTransaction st' = None -> EndTransaction st' = None ->
  GetPolicyPackages st = (packages, None) ->
  StronglySorted str_lt packages /\
  (forall p, p ∈ packages <->
     p <> "" /\ exists ids id, ListPolicies st = Ok ids /\ id ∈ ids /\ getPackageFromPolicyID st id = Ok p) /\
  GetPolicyPackages st' = (packages, None) /\ PDPPolicyRoot configured st' = PDPPolicyRoot configured st.
Proof.
  intros Hsame Hn He H. destruct (packages_exact st packages H) as [H1 H2].
  assert (GetPolicyPackages st' = (packages, None)) as H' by (by eapply packages_stable).
  split_and!; [done..|]. unfold PDPPolicyRoot, GetPolicyRoots. by rewrite H, H'.
Qed.

Lemma PolicyRoots_spec packages :
  NoDup (PolicyRoots packages) /\
  forall r, r ∈ PolicyRoots packages <-> r <> "" /\ exists pkg, pkg ∈ packages /\ root_of pkg = r.
Proof.
  assert (forall acc, NoDup acc ->
    let l := fold_left (fun roots pkg =>
      if negb (String.eqb (root_of pkg) "") && negb (Contains roots (root_of pkg))
      then roots ++ [root_of pkg] else roots) packages acc in
    NoDup l /\ forall r, r ∈ l <-> r ∈ acc \/ (r <> "" /\ exists pkg, pkg ∈ packages /\ root_of pkg = r)) as H.
  { induction packages as [|pkg packages IH]; intros acc Hn; cbn [fold_left].
    - split; [done|]. intros r. split; [by left|]. intros [|(_ & ? & []%elem_of_nil & _)]; done.
    - destruct (extend_distinct acc (root_of pkg) Hn) as (Hn' & Hin & _).
      destruct (IH _ Hn') as [H1 H2]. split; [exact H1|]. intros r. rewrite H2, Hin. clear. split.
      + intros [[?|[? ->]]|(? & q & ? & ?)]; [by left|right..].
        * split; [done|]. exists pkg. by split; [left|].
        * split; [done|]. exists q. by split; [right|].
      + intros [?|(? & q & [->|?]%elem_of_cons & <-)]; [by left; left|by left; right|right; eauto]. }
  destruct (H [] (NoDup_nil_2)) as [H1 H2]. split; [exact H1|]. intros r. rewrite H2.
  rewrite elem_of_nil. tauto.
Qed.

Lemma SelectPolicyRoot_loaded configured roots root :
  SelectPolicyRoot configured roots = Ok root -> root ∈ roots.
Proof.
  unfold SelectPolicyRoot. destruct roots as [|r [|r' roots]]; [done|..];
    destruct (negb (String.eqb configured "")); try done;
    try (destruct (Contains _ configured) eqn:E; [|done]; intros [= <-]; by apply Contains_true).
  intros [= <-]. left.
Qed.
Lemma decID_encID id : decID (encID id) = id.
Proof. unfold decID, encID. by rewrite base64_roundtrip. Qed.

Lemma Txn_ok {A} st (body : res A) a :
  Txn st body = Ok a <-> NewTransaction st = None /\ EndTransaction st = None /\ body = Ok a.
Proof.
  unfold Txn. destruct (NewTransaction st), body, (EndTransaction st); naive_solver.
Qed.

Lemma list_policies_ok st fn ids : forall acc l,
  list_policies st fn ids acc = Ok l ->
  forall p, p ∈ l -> p ∈ acc \/
    (Location p ∈ ids /\ getPackageFromPolicyID st (Location p) = Ok (PackageName p) /\
     fn (PackageName p) = true).
Proof.
  induction ids as [|v ids IH]; simpl; intros acc l; [intros [= <-]; by left|].
  destruct (getPackageFromPolicyID st v) as [pkg|e] eqn:E; [|done]. intros H p Hp.
  destruct (IH _ _ H p Hp) as [Hacc|(? & ? & ?)]; [|right; split_and!; [by right|done..]].
  destruct (fn pkg) eqn:F; [|by left].
  apply elem_of_app in Hacc as [?|Hs%list_elem_of_singleton]; [by left|].
  subst p. right. simpl. split_and!; [left|done..].
Qed.

Lemma getModule_package st id pkg :
  NewTransaction st = None -> EndTransaction st = None -> getPackageFromPolicyID st id = Ok pkg ->
  policyExists st id = true /\
  exists m, getModule st id = Ok m /\ m_ID m = encID id /\ m_Name m = pkg /\ GetPolicy st id = Ok (m_Content m).
Proof.
  intros Hn He. unfold getPackageFromPolicyID, policyExists, getModule, Txn. rewrite Hn, He.
  destruct (GetPolicy st id) as [buf|e]; [|done].
  destruct (ast_ParseModule buf) as [m|e]; [|done]. intros [= <-]. split; [done|]. eauto 10.
Qed.

(** the identifiers that a listing of the policies hands out lead back to them: the list is
    sorted by package name, and every item's identifier opens a module that carries the same
    identifier and package, whatever bytes the policy's location holds. *)
Theorem policy_ids_resolve st items :
  GetPolicies st = Ok items ->
  StronglySorted name_le items /\
  forall item, item ∈ items ->
    exists m, GetModule st (pi_ID item) = Ok m /\ m_ID m = pi_ID item /\ m_Name m = pi_Name item /\
      GetPolicy st (decID (pi_ID item)) = Ok (m_Content m).
Proof.
  unfold GetPolicies. destruct (GetPolicyList st (Some noFilter)) as [l|e] eqn:E; [|done].
  intros [= <-]. split; [apply (StronglySorted_merge_sort name_le)|]. intros item Hi.
  rewrite (merge_sort_Permutation name_le), list_elem_of_In, in_map_iff in Hi.
  destruct Hi as (p & <- & Hp%list_elem_of_In). simpl.
  apply Txn_ok in E as (Hn & He & E). destruct (ListPolicies st) as [ids|e]; [|done].
  destruct (list_policies_ok _ _ _ _ _ E p Hp) as [?%elem_of_nil|(_ & Hpkg & _)]; [done|].
  destruct (getModule_package st (Location p) (PackageName p) Hn He Hpkg) as (Hex & m & Hm & H1 & H2 & H3).
  exists m. unfold GetModule. rewrite decID_encID, Hex. done.
Qed.
End Bundles.

Module PolicyExamples.
(** A store: its policies in listing order; a module's text is its package path. *)
#[export] Instance opa : Opa := {|
  opa_store := list (string * string);
  NewTransaction := fun _ => None;
  EndTransaction := fun _ => None;
  ListPolicies := fun st => Ok st.*1;
  GetPolicy := fun st id =>
    match List.find (fun e => String.eqb e.1 id) st with
    | Some e => Ok e.2 | None => Fail (new_error "policy not found") end;
  ast_ParseModule := fun buf =>
    if String.eqb buf "" then Fail (new_error "empty module") else Ok (MkParsed buf []);
  uuid_Parse := fun s => (String.length s =? 36)%nat;
  quoted := fun s => s;
  is_cancelled := fun _ => false |}.

Definition store1 : opa_store := [("b/x.rego", "data.doelbinding.laadpalen"); ("a/y.rego", "data.authz")].
Definition store2 : opa_store := [("a/y.rego", "data.authz"); ("b/x.rego", "data.doelbinding.laadpalen")].

Lemma stores_same : same_policies store1 store2.
Proof.
  split.
  - exists store1.*1, store2.*1. split_and!; [done..|]. apply Permutation_swap.
  - intros id. cbn [GetPolicy opa store1 store2 List.find fst].
    destruct (String.eqb_spec "b/x.rego" id) as [<-|]; [done|].
    by destruct (String.eqb_spec "a/y.rego" id).
Qed.

Lemma policy_root_stable_witness :
  GetPolicyPackages store2 = (["authz"; "doelbinding.laadpalen"], None) /\
  PDPPolicyRoot "authz" store2 = PDPPolicyRoot "authz" store1.
Proof.
  destruct (policy_root_stable "authz" store1 store2 ["authz"; "doelbinding.laadpalen"])
    as (_ & _ & H1 & H2).
  - exact stores_same.
  - reflexivity.
  - reflexivity.
  - vm_compute. reflexivity.
  - split; [exact H1|exact H2].
Defined.

Lemma policy_ids_resolve_witness :
  exists m, GetModule store1 (encID "a/y.rego") = Ok m /\ m_Name m = "authz".
Proof.
  destruct (policy_ids_resolve store1
    [MkPolicyItem "authz" (encID "a/y.rego"); MkPolicyItem "doelbinding.laadpalen" (encID "b/x.rego")])
    as [_ H].
  - vm_compute. reflexivity.
  - destruct (H (MkPolicyItem "authz" (encID "a/y.rego"))) as (m & H1 & _ & H2 & _); [left|].
    exists m. split; [exact H1|exact H2].
Defined.
End PolicyExamples.
