(* ===== verification/Identity.v ===== *)
(** * Resolving an identity to a user

    [daemon/directory/identity.go]: the authorizer asks the directory's reader which user an identity
    belongs to.  The reader is a client interface ([ReaderClient]); [local_client] is the modelled
    reader over a transaction, and the theorems are about the two together. *)
From S2P Require Import Prelude Bytes Messages Keys Store Bolt Bdb BdbTx Ds Service Instances BoltFacts Reader.

Definition User : string := "user".
Definition DummyUser : string := "topaz-user".
Definition Identifier : string := "identifier".
Definition Identity : string := "identity".
Definition DummyIdentity : string := "topaz-identity".

Inductive identityResolutionDirection := identityToUser | userToIdentity.

(** [aerr.ErrDirectoryObjectNotFound] *)
Definition ErrDirectoryObjectNotFound : err := DErr "ErrDirectoryObjectNotFound" [].

(** The two calls of [dsr.ReaderClient] that are used; a failed check may come without a response. *)
Record ReaderClient := MkClient {
  client_Check : CheckRequest -> option CheckResponse * option err;
  client_GetRelation : RelationIdentifier -> bool -> res GetRelationResponse }.

Section Resolve.
(** The text of the [reason] field of a check's context, the code and message of
    [derr.ErrRelationTypeNotFound], and the order in which a map is ranged over. *)
Context (reason_of : Context -> option string) (ErrRelationTypeNotFound_text : string).
Context (range : gmap string Object -> list (string * Object)).

Definition resolutionDirection (client : ReaderClient) : identityResolutionDirection :=
  let '(resp, _) := client_Check client (MkCheck User DummyUser Identifier Identity DummyIdentity false) in
  match resp with
  | Some r =>
      match check_context r with
      | Some c =>
          match reason_of c with
          | Some reason =>
              if HasPrefix reason ErrRelationTypeNotFound_text then identityToUser else userToIdentity
          | None => userToIdentity
          end
      | None => userToIdentity
      end
  | None => userToIdentity
  end.

Definition resolveIdentityToUser (client : ReaderClient) (relReq : RelationIdentifier) : res Object :=
  match client_GetRelation client relReq true with
  | Fail e => if is_not_found e then Fail ErrDirectoryObjectNotFound else Fail e
  | Ok relResp =>
      match gr_result relResp with
      | None => Fail ErrDirectoryObjectNotFound
      | Some result =>
          if decide (gr_objects relResp = ∅) then
            Ok (MkObject User
                  (if String.eqb (object_type (r_ident result)) User
                   then object_id (r_ident result) else subject_id (r_ident result))
                  "" None None None "")
          else
            match List.find (fun e => HasPrefix e.1 (User +:+ ":")) (range (gr_objects relResp)) with
            | Some (_, v) => Ok v
            | None => Fail ErrDirectoryObjectNotFound
            end
      end
  end.

Definition resolveIdentity (client : ReaderClient) (identity : string) : res Object :=
  resolveIdentityToUser client (MkIdent User "" Identifier Identity identity "").
Definition resolveIdentityLegacy (client : ReaderClient) (identity : string) : res Object :=
  resolveIdentityToUser client (MkIdent Identity identity Identifier User "" "").

(** The fallback of the source's switch is out of reach: a direction is one of the two. *)
Definition ResolveIdentity (client : ReaderClient) (identity : string) : res Object :=
  match resolutionDirection client with
  | identityToUser => resolveIdentityLegacy client identity
  | userToIdentity => resolveIdentity client identity
  end.
End Resolve.

(** The directory's own reader as the client. *)
Definition local_client {model} `{T : TxOps model} `{A : Azm model} `{V : Validator} (mc : cache) (t : tx)
  : ReaderClient :=
  MkClient (fun req => (Some (Reader_Check mc req t), None))
    (fun req w => Reader_GetRelation mc (MkHeaders "" []) req w t).

(** ** Properties *)

(** The other end of a relation. *)
Definition far (dir : Direction) (r : RelationIdentifier) : string * string :=
  anchor (match dir with ByObject => BySubject | BySubject => ByObject end) r.

(** A prefix that stops after the type of the far end selects the anchor, the relation and that type. *)
Lemma relprefix_typed t i rel t' u j rel2 u' j' sr :
  bdb.isSet t = true -> bdb.isSet i = true -> bdb.isSet rel = true -> bdb.isSet t' = true ->
  wf_type t -> wf_part i -> wf_part rel -> wf_type t' ->
  wf_type u -> wf_part j -> wf_part rel2 -> wf_type u' ->
  HasPrefix (relkey u j rel2 u' j' sr) (relprefix t i rel t' "") = true <->
  (u, j) = (t, i) /\ rel2 = rel /\ u' = t'.
Proof.
  intros E1 E2 E3 E4 ????????. unfold relprefix. rewrite E1, E2, E3, E4. cbn [negb orb]. split.
  - intros [s Hs]%HasPrefix_iff. unfold relkey in Hs.
    rewrite !app_assoc_str, !app_cons_str, !app_assoc_str, !app_cons_str, !app_assoc_str, !app_cons_str,
      !app_assoc_str in Hs.
    apply sep_inj in Hs as [-> Hs]; [|done..]. apply sep_inj in Hs as [-> Hs]; [|done..].
    apply sep_inj in Hs as [-> Hs]; [|done..]. by apply sep_inj in Hs as [-> _].
  - intros ([= -> ->] & -> & ->). unfold relkey.
    by rewrite !HasPrefix_app_l, !cons_HasPrefix, !HasPrefix_app_l, !cons_HasPrefix, HasPrefix_app_l,
      cons_HasPrefix, HasPrefix_app_l, cons_HasPrefix, HasPrefix_empty.
Qed.

(** How a direction asks for the user of an identity. *)
Definition near (dirn : identityResolutionDirection) : Direction :=
  match dirn with userToIdentity => BySubject | identityToUser => ByObject end.
Definition identity_request (dirn : identityResolutionDirection) (identity : string) : RelationIdentifier :=
  match dirn with
  | userToIdentity => MkIdent User "" Identifier Identity identity ""
  | identityToUser => MkIdent Identity identity Identifier User "" ""
  end.

(** The relation says that the identity belongs to a user. *)
Definition identifies (dirn : identityResolutionDirection) (identity : string) (i : RelationIdentifier) : Prop :=
  anchor (near dirn) i = (Identity, identity) /\ relation i = Identifier /\ (far (near dirn) i).1 = User.

Lemma identity_prefix dirn identity i :
  bdb.isSet identity = true -> wf_part identity -> wf_ident i ->
  HasPrefix (bdb.key_of (near dirn) i)
    (bdb.filter_of (near dirn) (MkFilter (identity_request dirn identity) false)) = true <->
  identifies dirn identity i.
Proof.
  intros Hs Hi (? & ? & ? & ? & ?). unfold identifies.
  destruct dirn; cbn [near identity_request bdb.key_of bdb.filter_of far anchor fst];
    rewrite ?objKeyOf_relkey, ?subKeyOf_relkey, ?writeObjFilter_relprefix, ?writeSubFilter_relprefix;
    cbn [f_ident object_type object_id relation subject_type subject_id];
    by apply relprefix_typed.
Qed.

Lemma find_unique {K V} (P : K * V -> bool) (l : list (K * V)) x :
  x ∈ l -> P x = true -> (forall y, y ∈ l -> P y = true -> y = x) -> List.find P l = Some x.
Proof.
  intros Hx Px Hu. destruct (List.find P l) as [y|] eqn:E.
  - apply find_some in E as [Hy Py]. f_equal. apply Hu; [by apply list_elem_of_In|done].
  - by rewrite (find_none _ _ E x (proj1 (list_elem_of_In _ _) Hx)) in Px.
Qed.

Section Facts.
Context {model : Type} `{B : Bolt} `{BL : !BoltLaws B} `{CO : Codecs model} `{CL : !CodecsLaws model CO}.
Context `{A : Azm model} `{AL : !AzmLaws model A} `{V : Validator}.
Context (reason_of : Context -> option string) (ErrRelationTypeNotFound_text : string).
Context (range : gmap string Object -> list (string * Object)).
Hypothesis range_all : forall m, range m ≡ₚ map_to_list m.

(** The rows that [GetRelation] finds are the relations that identify the user. *)
Lemma identity_rows mc dirn identity (t : @tx model bolt_tx) d :
  repr t d -> bdb.isSet identity = true -> wf_part identity ->
  validator_GetRelationRequest (identity_request dirn identity) = None ->
  relations_Validate mc (safe_GetRelation (identity_request dirn identity)) = None ->
  exists l : list (option Relation),
    NoDup l /\
    (forall v, v ∈ l <-> exists r, v = Some r /\ d_rels d !! r_ident r = Some r /\ identifies dirn identity (r_ident r)) /\
    Reader_GetRelation mc (MkHeaders "" []) (identity_request dirn identity) true t =
      match l with
      | [] => Fail ErrKeyNotFound
      | [dbRel] => Ok (MkGetRelation dbRel (getWithObjects [dbRel] t) false)
      | _ => Fail ErrMultipleResults
      end.
Proof.
  intros Hr Hs Hi Hv Hm.
  assert (ds.PathAndFilter IsComplete (safe_GetRelation (identity_request dirn identity)) =
          Ok (near dirn, ds.asFilter (safe_GetRelation (identity_request dirn identity)))) as HP.
  { unfold ds.PathAndFilter, ds.direction. rewrite safe_GetRelation_ident, !IsComplete_isSet.
    destruct dirn; cbn [identity_request object_type object_id subject_type subject_id];
      change (bdb.isSet User) with true; change (bdb.isSet Identity) with true;
      change (bdb.isSet "") with false; by rewrite Hs. }
  destruct (bolt_scan_rows t d (near dirn)
    (bdb.filter_of (near dirn) (ds.asFilter (safe_GetRelation (identity_request dirn identity)))) Hr)
    as (scan & l & Hsc & (Hy & Hl & _) & Hnd & Hin).
  exists l.*2. split; [done|]. split.
  - intros v. rewrite Hin. apply exist_proper. intros r.
    assert (d_rels d !! r_ident r = Some r -> wf_ident (r_ident r)) as Hwf
      by (intros Hd; by destruct (bolt_repr_wf_rel t d _ _ Hr Hd)).
    assert (bdb.filter_of (near dirn) (ds.asFilter (safe_GetRelation (identity_request dirn identity))) =
            bdb.filter_of (near dirn) (MkFilter (identity_request dirn identity) false)) as ->.
    { unfold ds.asFilter. rewrite safe_GetRelation_ident. by destruct dirn. }
    split; intros (-> & Hd & H); split_and!; try done; eapply identity_prefix; eauto.
  - unfold Reader_GetRelation. rewrite Hv, Hm, HP. cbn [rbind ScanRelations bolt_tx].
    rewrite tx_ScanRelations_eq, Hsc. cbn [rbind]. rewrite (collect_yields _ l) by done.
    destruct (l.*2) as [|v [|v' l']]; [done| |done].
    by rewrite bool_decide_eq_false_2 by (apply not_elem_of_nil).
Qed.

(** The reply for a single row picks the user's object, in whatever order the map is ranged over. *)
Lemma user_of_reply mc dirn identity (t : @tx model bolt_tx) d r :
  repr t d -> d_rels d !! r_ident r = Some r -> identifies dirn identity (r_ident r) ->
  client_GetRelation (local_client mc t) (identity_request dirn identity) true =
    Ok (MkGetRelation (Some r) (getWithObjects [Some r] t) false) ->
  resolveIdentityToUser range (local_client mc t) (identity_request dirn identity) =
    Ok (shown d (User, (far (near dirn) (r_ident r)).2)).
Proof.
  intros Hr Hd (Ha & _ & Hu) Hrep. unfold resolveIdentityToUser. rewrite Hrep. cbn [gr_result gr_objects].
  destruct (bolt_repr_wf_rel t d _ _ Hr Hd) as [Hwf _].
  destruct (with_objects_exact t d [Some r] Hr) as [H1 H2].
  { by intros v ->%list_elem_of_singleton. }
  set (k := far (near dirn) (r_ident r)) in *.
  assert (k ∈ ends (r_ident r)) as Hk.
  { unfold k, ends, far. destruct dirn; cbn; set_solver. }
  assert (forall k', k' ∈ ends (r_ident r) -> k' = k \/ k' = (Identity, identity)) as Hends.
  { intros k'. unfold ends. rewrite !elem_of_cons, elem_of_nil. unfold k, far. rewrite <-Ha.
    destruct dirn; cbn; tauto. }
  assert (k.1 = User) as Hk1 by exact Hu. destruct k as [kt kid] eqn:Ek. cbn in Hk1. subst kt. cbn [snd].
  specialize (H1 (Some r) (User, kid) ltac:(left) Hk). cbn [fst snd] in H1.
  rewrite decide_False by (intros E; rewrite E, lookup_empty in H1; done).
  rewrite (find_unique _ _ (bdb.objectKey User kid, shown d (User, kid))); [done|..].
  - rewrite range_all. by apply elem_of_map_to_list.
  - rewrite objectKey_eq. apply HasPrefix_iff. exists kid. reflexivity.
  - intros [s o] Hs%(elem_of_Permutation_proper _ _ _ (range_all _))%elem_of_map_to_list Hp.
    destruct (H2 s o Hs) as (v & k' & ->%list_elem_of_singleton & Hk' & -> & ->).
    destruct (Hends k' Hk') as [->| ->]; [done|]. exfalso. revert Hp. cbn [fst snd].
    rewrite objectKey_eq. unfold Identity, User. by intros.
Qed.

(** The three outcomes: one link, none, several. *)
Lemma resolve_identity_cases mc identity (t : @tx model bolt_tx) d :
  let client := local_client mc t in
  let dirn := resolutionDirection reason_of ErrRelationTypeNotFound_text client in
  let resolved := ResolveIdentity reason_of ErrRelationTypeNotFound_text range client identity in
  let links i := is_Some (d_rels d !! i) /\ identifies dirn identity i in
  repr t d -> bdb.isSet identity = true -> wf_part identity ->
  validator_GetRelationRequest (identity_request dirn identity) = None ->
  relations_Validate mc (safe_GetRelation (identity_request dirn identity)) = None ->
  (exists i, links i /\ (forall i', links i' -> i' = i) /\
     resolved = Ok (shown d (User, (far (near dirn) i).2))) \/
  ((forall i, ~ links i) /\ resolved = Fail ErrDirectoryObjectNotFound) \/
  (exists i i', links i /\ links i' /\ i <> i' /\ resolved = Fail ErrMultipleResults).
Proof.
  intros client dirn resolved links Hr Hs Hi Hv Hm.
  assert (resolved = resolveIdentityToUser range client (identity_request dirn identity)) as ->.
  { unfold resolved, ResolveIdentity. fold dirn. by destruct dirn. }
  destruct (identity_rows mc dirn identity t d Hr Hs Hi Hv Hm) as (l & Hnd & Hin & Hrep).
  assert (forall r, Some r ∈ l <-> d_rels d !! r_ident r = Some r /\ identifies dirn identity (r_ident r)) as Hrow.
  { intros r. rewrite Hin. split; [by intros (? & [= <-] & ?)|eauto]. }
  assert (forall i, links i -> exists r, r_ident r = i /\ Some r ∈ l) as Hlinks.
  { intros i [[r Hd] Hid]. destruct (bolt_repr_wf_rel t d _ _ Hr Hd) as [_ <-]. exists r.
    split; [done|]. by apply Hrow. }
  destruct l as [|v [|v' l]].
  - right. left. split; [intros i (r & _ & ?%elem_of_nil)%Hlinks; done|].
    unfold resolveIdentityToUser. cbn [client local_client client_GetRelation]. by rewrite Hrep.
  - left. destruct (proj1 (Hin v)) as (r & -> & Hd & Hid); [left|]. exists (r_ident r).
    split_and!; [by split; [eauto|]| |by apply user_of_reply].
    intros i (r' & <- & [= <-]%list_elem_of_singleton)%Hlinks. done.
  - right. right.
    destruct (proj1 (Hin v)) as (r & -> & Hd & Hid); [left|].
    destruct (proj1 (Hin v')) as (r' & -> & Hd' & Hid'); [right; left|].
    exists (r_ident r), (r_ident r'). split_and!; [by split; [eauto|]..| |].
    + intros E. apply NoDup_cons in Hnd as [Hne _]. apply Hne. rewrite E in Hd.
      assert (r' = r) as -> by congruence. left.
    + unfold resolveIdentityToUser. cbn [client local_client client_GetRelation]. by rewrite Hrep.
Qed.

(** C21: Resolving an identity that is set and has no separator of the store's keys, with a reader over the BoltDB
    store whose validator and model accept the request for its relation, gives the one user that the stored
    relations assign to it (the stored object, or a stub with its id), in either direction of the
    model and in whatever order the reply's map is ranged over; an identity that no relation names is
    "not found", and one that several relations name is refused. *)
Theorem resolve_identity_exact mc identity (t : @tx model bolt_tx) d :
  let client := local_client mc t in
  let dirn := resolutionDirection reason_of ErrRelationTypeNotFound_text client in
  let resolved := ResolveIdentity reason_of ErrRelationTypeNotFound_text range client identity in
  let links i := is_Some (d_rels d !! i) /\ identifies dirn identity i in
  repr t d -> bdb.isSet identity = true -> wf_part identity ->
  validator_GetRelationRequest (identity_request dirn identity) = None ->
  relations_Validate mc (safe_GetRelation (identity_request dirn identity)) = None ->
  (forall i, links i -> (forall i', links i' -> i' = i) ->
     resolved = Ok (shown d (User, (far (near dirn) i).2))) /\
  ((forall i, ~ links i) -> resolved = Fail ErrDirectoryObjectNotFound) /\
  (forall i i', links i -> links i' -> i <> i' -> resolved = Fail ErrMultipleResults).
Proof.
  intros client dirn resolved links Hr Hs Hi Hv Hm.
  destruct (resolve_identity_cases mc identity t d Hr Hs Hi Hv Hm)
    as [(i & Hl & Hu & E)|[[Hno E]|(i & i' & Hl & Hl' & Hne & E)]]; split_and!.
  - intros j Hj _. rewrite (Hu j Hj). exact E.
  - intros Hno. by destruct (Hno i).
  - intros j j' Hj Hj' Hjj. by rewrite (Hu j Hj), (Hu j' Hj') in Hjj.
  - intros j Hj. by destruct (Hno j).
  - intros _. exact E.
  - intros j j' Hj. by destruct (Hno j).
  - intros j Hj Hu. destruct Hne. by rewrite (Hu i), (Hu i').
  - intros Hno. by destruct (Hno i).
  - intros j j' _ _ _. exact E.
Qed.
End Facts.

Module IdentityExamples.
Import Concrete.

Definition reason_of (c : Context) : option string :=
  match c with ReasonContext (XErr _ w) => Some w | _ => None end.
Definition bob_id : Relation := MkRelation (MkIdent "user" "bob" "identifier" "identity" "bob@acme" "") None None "".
Definition ann_id : Relation := MkRelation (MkIdent "user" "ann" "identifier" "identity" "bob@acme.org" "") None None "".
Definition id_dir : directory model :=
  MkDir (<[(o_type bob1, o_id bob1) := bob1]> ∅)
    (<[r_ident ann_id := ann_id]> (<[r_ident bob_id := bob_id]> ∅)) None None None.
Definition id_ops : list (BoltFacts.store_op model) :=
  [BoltFacts.OpSetObject bob1; BoltFacts.OpSetRelation bob_id; BoltFacts.OpSetRelation ann_id].
Definition id_db : @tx model bolt_tx := (BoltFacts.run_ops id_ops db).2.

Lemma id_db_repr : repr id_db id_dir.
Proof.
  pose proof (BoltFacts.run_ops_repr id_ops db empty_dir (BoltFacts.run_ops id_ops db).1
    (BoltFacts.run_ops id_ops db).2 db_repr) as H.
  assert (BoltFacts.apply_ops None id_ops (BoltFacts.run_ops id_ops db).1 empty_dir = id_dir) as E
    by (vm_compute; reflexivity).
  rewrite <-E. apply H; [repeat constructor|vm_compute; reflexivity|]. apply surjective_pairing.
Qed.

(** [bob@acme] is a prefix of the other identity. *)
Lemma resolve_identity_exact_witness :
  ResolveIdentity reason_of "E20025 relation type not found" map_to_list (local_client mc0 id_db) "bob@acme" = Ok bob1.
Proof.
  pose proof (resolve_identity_exact reason_of "E20025 relation type not found" map_to_list
    (fun m => Permutation_refl _) mc0 "bob@acme" id_db id_dir) as H. cbn zeta in H.
  assert (resolutionDirection reason_of "E20025 relation type not found" (local_client mc0 id_db) = userToIdentity)
    as E by (vm_compute; reflexivity).
  rewrite E in H. destruct H as [H _].
  - exact id_db_repr.
  - vm_compute. reflexivity.
  - vm_compute. reflexivity.
  - reflexivity.
  - reflexivity.
  - rewrite (H (r_ident bob_id)); [vm_compute; reflexivity|..].
    + split; [exists bob_id; vm_compute; reflexivity|by repeat split].
    + intros i [[r Hr] (Ha & _)]. unfold id_dir in Hr. cbn [d_rels] in Hr.
      apply lookup_insert_Some in Hr as [[<- _]|[_ Hr]]; [discriminate Ha|].
      apply lookup_insert_Some in Hr as [[<- _]|[_ Hr]]; [reflexivity|]. by apply lookup_empty_Some in Hr.
Defined.
End IdentityExamples.
