(* ===== verification/Authorizer.v ===== *)
(** * The authorizer's Access API

    [daemon/authorizer/impl]: AuthZEN evaluations answered by a Rego rule ([access.go]), the identity
    behind a subject ([identity.go]), the record that goes to the decision log ([adl.go]) and the
    cache of prepared queries ([prepared_query_cache.go]).  Rego is third-party code: a parameter.

    The cache is explicit state.  A handler runs as one step here; [CacheFacts.v] interleaves the
    steps of a preparation with bundle reloads. *)
From stdpp Require Import pretty.
From S2P Require Import Prelude Bytes Text Messages Headers Adl Policies.

(** ** Requests and responses *)

Record AzSubject := MkAzSubject { s_type : string; s_id : string; s_properties : option Struct }.
Record AzAction := MkAzAction { a_name : string; a_properties : option Struct }.
Record AzRequest := MkAzRequest {
  q_subject : option AzSubject; q_action : option AzAction; q_resource : option Resource;
  q_context : option Struct }.
Record AzRequests := MkAzRequests {
  qs_subject : option AzSubject; qs_action : option AzAction; qs_resource : option Resource;
  qs_context : option Struct; qs_evaluations : list AzRequest }.
Record AzResponse := MkAzResponse { r_decision : bool; r_context : option Struct }.
Definition no_decision : AzResponse := MkAzResponse false None.

(** The getters of nil messages return empty fields. *)
Definition GetType (s : option AzSubject) : string := match s with Some s => s_type s | None => "" end.
Definition GetId (s : option AzSubject) : string := match s with Some s => s_id s | None => "" end.
Definition GetProperties (s : option AzSubject) : option Struct :=
  match s with Some s => s_properties s | None => None end.
Definition GetName (a : option AzAction) : string := match a with Some a => a_name a | None => "" end.
Definition GetActionProperties (a : option AzAction) : option Struct :=
  match a with Some a => a_properties a | None => None end.
Definition GetResourceType (r : option Resource) : string := match r with Some r => res_type r | None => "" end.
Definition GetResourceId (r : option Resource) : string := match r with Some r => res_id r | None => "" end.
Definition GetResourceProperties (r : option Resource) : option Struct :=
  match r with Some r => res_properties r | None => None end.

(** [api.IdentityContext] *)
Inductive IdentityType :=
| IDENTITY_TYPE_UNKNOWN | IDENTITY_TYPE_NONE | IDENTITY_TYPE_SUB | IDENTITY_TYPE_JWT | IDENTITY_TYPE_MANUAL.
#[export] Instance IdentityType_eq_dec : EqDecision IdentityType.
Proof. solve_decision. Defined.
Definition IdentityType_String (t : IdentityType) : string :=
  match t with
  | IDENTITY_TYPE_UNKNOWN => "IDENTITY_TYPE_UNKNOWN"
  | IDENTITY_TYPE_NONE => "IDENTITY_TYPE_NONE"
  | IDENTITY_TYPE_SUB => "IDENTITY_TYPE_SUB"
  | IDENTITY_TYPE_JWT => "IDENTITY_TYPE_JWT"
  | IDENTITY_TYPE_MANUAL => "IDENTITY_TYPE_MANUAL"
  end.
Record IdentityContext := MkIdentity { ic_type : IdentityType; ic_identity : string }.

(** Errors of [go-authorizer/pkg/aerr], known by name; [.Err(cause)] only reaches the log. *)
Definition aerr (name : string) (msg : string) : err := DErr name [msg].

(** ** [access.go]: helpers *)

Definition typeField : string := "type".
Definition idField : string := "id".
Definition nameField : string := "name".
Definition decisionField : string := "decision".
Definition contextField : string := "context".
Definition subjectJWTProperty : string := "jwt".
Definition doelbindingKey : string := "doelbinding".
Definition doelbindingPrefix : string := "doelbinding".
Definition policyPathKey : string := "policy_path".

Definition stringProperty (properties : option Struct) (key : string) : string :=
  match properties with
  | Some fields => match fields !! key with Some v => GetStringValue v | None => "" end
  | None => ""
  end.

Definition identityContext (subject : option AzSubject) : IdentityContext :=
  let jwt := stringProperty (GetProperties subject) subjectJWTProperty in
  if negb (String.eqb jwt "") then MkIdentity IDENTITY_TYPE_JWT jwt
  else
    let id := GetId subject in
    if negb (String.eqb id "") then MkIdentity IDENTITY_TYPE_SUB id
    else MkIdentity IDENTITY_TYPE_NONE "".

(** A property that already uses the name of a field wins. *)
Definition flatten (properties : option Struct) (fields : list (string * string)) : Struct :=
  fold_left (fun out '(name, value) =>
    if String.eqb value "" then out
    else match out !! name with Some _ => out | None => <[name := StringValue value]> out end)
  fields (default ∅ properties).

Definition or_else {A} (a b : option A) : option A := match a with Some x => Some x | None => b end.
Definition defaulted (batch : AzRequests) (req : AzRequest) : AzRequest :=
  MkAzRequest (or_else (q_subject req) (qs_subject batch)) (or_else (q_action req) (qs_action batch))
    (or_else (q_resource req) (qs_resource batch)) (or_else (q_context req) (qs_context batch)).

Definition withPolicyPath (base : option Struct) (policyPath : string) : option Struct :=
  if String.eqb policyPath "" then base
  else Some (<[policyPathKey := StringValue policyPath]> (default ∅ base)).

Definition scrubSubject (subject : option AzSubject) : option AzSubject :=
  (fun s => MkAzSubject (s_type s) (s_id s) None) <$> subject.

(** ** [adl.go] and the record of a request *)

Definition adlSubject (identity : IdentityContext) (user : option Object) : AzSubject :=
  match user with
  | Some u => MkAzSubject (o_type u) (o_id u) None
  | None =>
      MkAzSubject (IdentityType_String (ic_type identity))
        (if bool_decide (ic_type identity = IDENTITY_TYPE_JWT) then "" else ic_identity identity) None
  end.

Record evalMeta := MkMeta { em_policyPath : string; em_identity : IdentityContext; em_user : option Object }.

Definition meta_request (m : evalMeta) (req : AzRequest) : AzRequest :=
  MkAzRequest (Some (adlSubject (em_identity m) (em_user m))) (q_action req) (q_resource req)
    (withPolicyPath (q_context req) (em_policyPath m)).
Definition meta_requests (m : evalMeta) (req : AzRequests) : AzRequests :=
  MkAzRequests (Some (adlSubject (em_identity m) (em_user m))) (qs_action req) (qs_resource req)
    (withPolicyPath (qs_context req) (em_policyPath m))
    (map (fun e => MkAzRequest (scrubSubject (q_subject e)) (q_action e) (q_resource e) (q_context e))
       (qs_evaluations req)).

(** [adlError]: a genuine error wins, otherwise a failure of the log is the error. *)
Definition authz_adlError (evalErr logErr : option err) : option err :=
  match logErr with None => evalErr | Some l => match evalErr with Some e => Some e | None => Some l end end.

(** ** Rego *)

(** What a rule's value looks like to the handler; [M]: the Go maps inside it. *)
Inductive bound_field (M : Type) := FBool (b : bool) | FMap (m : M) | FOther.
Arguments FBool {M} b.
Arguments FMap {M} m.
Arguments FOther {M}.
Inductive binding (M : Type) := BBool (b : bool) | BMap (fields : gmap string (bound_field M)) | BOther (ty : string).
Arguments BBool {M} b.
Arguments BMap {M} fields.
Arguments BOther {M} ty.

(** The values of the Rego input. *)
Inductive input_value :=
| InIdentity (ic : IdentityContext) | InUser (u : Object) | InEmpty | InFields (m : Struct).
Definition rego_input : Type := gmap string input_value.

Class Rego `{O : Opa} := {
  compiler : Type;
  ref : Type;
  body : Type;
  prepared : Type;
  go_map : Type;
  ast_ParseRef : string -> res ref;
  GetRules : compiler -> ref -> nat;
  ast_ParseBody : string -> res body;
  PrepareForEval : compiler -> body -> res prepared;
  query_Eval : prepared -> opa_store -> rego_input -> res (list (gmap string (binding go_map)));
  NewStruct : go_map -> res Struct }.

Section Authorizer.
Context `{R : Rego}.

(** A runtime: its plugins manager (by identity), the manager's compiler and store, the setting. *)
Record Runtime := MkRuntime {
  rt_manager : nat; rt_compiler : compiler; rt_store : opa_store; rt_PolicyRoot : string }.

(** [runtime.ValidateRule], [ValidateQuery] *)
Definition ValidateRule (rt : Runtime) (rule : string) : res bool :=
  match ast_ParseRef rule with
  | Fail e => Fail (Errorf "invalid ref" e)
  | Ok ref => Ok (0 <? GetRules (rt_compiler rt) ref)%nat
  end.
Definition ValidateQuery (query : string) : res body := ast_ParseBody query.

(** ** [prepared_query_cache.go] *)

Record preparedQueryCache := MkCache {
  entries : gmap string prepared; packages : option (list string); watcherOnce : gset nat }.
Definition newPreparedQueryCache : preparedQueryCache := MkCache ∅ None ∅.

Definition ensureCompilerWatcher (rt : Runtime) (c : preparedQueryCache) : preparedQueryCache :=
  MkCache (entries c) (packages c) ({[rt_manager rt]} ∪ watcherOnce c).

(** The trigger that a registered manager runs when its compiler is replaced. *)
Definition compiler_trigger (manager : nat) (c : preparedQueryCache) : preparedQueryCache :=
  if decide (manager ∈ watcherOnce c) then MkCache ∅ None (watcherOnce c) else c.

Definition policyPackages (rt : Runtime) : M preparedQueryCache (list string) := fun c =>
  let c := ensureCompilerWatcher rt c in
  match packages c with
  | Some cached => (Ok cached, c)
  | None =>
      match GetPolicyPackages (rt_store rt) with
      | (_, Some e) => (Fail e, c)
      | (pkgs, None) => (Ok pkgs, MkCache (entries c) (Some pkgs) (watcherOnce c))
      end
  end.

Definition bindingName (i : nat) : string := "x" +:+ pretty i.

Definition unit_separator : Ascii.ascii := Ascii.ascii_of_nat 31.
Definition record_separator : Ascii.ascii := Ascii.ascii_of_nat 30.
Definition cacheKey (path : string) (decisions : list string) : string :=
  path +:+ String unit_separator (Join decisions (String record_separator "")).

Definition getOrPrepare (rt : Runtime) (key : string) (factory : res prepared) : M preparedQueryCache prepared :=
  fun c =>
  let c := ensureCompilerWatcher rt c in
  match entries c !! key with
  | Some v => (Ok v, c)
  | None =>
      match factory with
      | Fail e => (Fail e, c)
      | Ok pq => (Ok pq, MkCache (<[key := pq]> (entries c)) (packages c) (watcherOnce c))
      end
  end.

Definition newline : string := String (Ascii.ascii_of_nat 10) "".

(** The statement that binds each decision rule to its variable. *)
Fixpoint query_stmt (rt : Runtime) (path : string) (decisions : list string) (i : nat) (stmt : string) : res string :=
  match decisions with
  | [] => Ok stmt
  | decision :: decisions =>
      let rule := "data." +:+ path +:+ "." +:+ decision +:+ newline in
      match ValidateRule rt rule with
      | Ok true =>
          let q := bindingName i +:+ " = " +:+ rule +:+ newline in
          match ValidateQuery q with
          | Fail _ => Fail (aerr "ErrBadQuery" ("invalid query: " ++ quoted q))
          | Ok _ => query_stmt rt path decisions (S i) (stmt +:+ q)
          end
      | _ => Fail (aerr "ErrBadQuery" ("invalid rule: " ++ quoted rule))
      end
  end.
Definition prepare (rt : Runtime) (path : string) (decisions : list string) : res prepared :=
  match query_stmt rt path decisions 0 "" with
  | Fail e => Fail e
  | Ok stmt =>
      match ValidateQuery stmt with
      | Fail _ => Fail (aerr "ErrBadQuery" ("invalid query batch: " ++ quoted stmt))
      | Ok pq =>
          match PrepareForEval (rt_compiler rt) pq with
          | Fail _ => Fail (aerr "ErrBadQuery" stmt)
          | Ok prepared => Ok prepared
          end
      end
  end.
Definition decisionQuery (rt : Runtime) (path : string) (decisions : list string) : M preparedQueryCache prepared :=
  getOrPrepare rt (cacheKey path decisions) (prepare rt path decisions).

(** ** [identity.go] *)

(** The subject of a bearer token, and the user of a subject. *)
Context (ResolveSubject : string -> res string) (ResolveIdentity : string -> res Object).

Definition InputUser : string := "user".
Definition InputIdentity : string := "identity".
Definition InputResource : string := "resource".
Definition InputSubject : string := "subject".
Definition InputAction : string := "action".
Definition InputContext : string := "context".

Definition resolveSubjectFromIdentityContext (ic : IdentityContext) : res string :=
  if String.eqb (ic_identity ic) "" then
    Fail (aerr "ErrResolvingSubjectFromIdentityContext"
            ("identity value not set (type: " ++ IdentityType_String (ic_type ic) ++ ")"))
  else
    match ic_type ic with
    | IDENTITY_TYPE_SUB => Ok (ic_identity ic)
    | IDENTITY_TYPE_JWT => ResolveSubject (ic_identity ic)
    | IDENTITY_TYPE_MANUAL => Ok (ic_identity ic)
    | _ => Fail (aerr "ErrResolvingSubjectFromIdentityContext"
                   ("invalid identity type " ++ IdentityType_String (ic_type ic)))
    end.

Definition resolveUserFromSubject (subject : string) : res Object :=
  match ResolveIdentity subject with
  | Fail _ => Fail (DErr "ErrResolvingUserFromSubject" [])
  | Ok o => Ok o
  end.

(** The user, and the input with what was resolved. *)
Definition resolveIdentityContext (ic : IdentityContext) (input : rego_input) : res (option Object * rego_input) :=
  if decide (ic_type ic = IDENTITY_TYPE_NONE) then Ok (None, input)
  else
    let input := <[InputIdentity := InIdentity ic]> input in
    match resolveSubjectFromIdentityContext ic with
    | Fail e => Fail e
    | Ok identity =>
        if decide (ic_type ic = IDENTITY_TYPE_MANUAL) then Ok (None, <[InputUser := InEmpty]> input)
        else
          match resolveUserFromSubject identity with
          | Fail e => Fail e
          | Ok user => Ok (Some user, <[InputUser := InUser user]> input)
          end
    end.

(** ** [access.go]: the policy and the evaluation *)

Definition defaultPolicyRoots (packages : list string) : list string :=
  filter (fun root => root <> doelbindingPrefix) (PolicyRoots packages).

Definition doelbindingPolicy (packages : list string) (selected : string) : res string :=
  let path := doelbindingPrefix +:+ "." +:+ selected in
  if negb (Contains packages path) then
    Fail (aerr "ErrInvalidArgument" ("doelbinding " ++ quoted selected ++
      " selects no loaded policy; expected a bundle carrying `package " ++ path ++ "`"))
  else Ok path.

(** The package, out of the loaded ones. *)
Definition select_policy (rt : Runtime) (reqContext : option Struct) (packages : list string) : res string :=
  let selected := stringProperty reqContext doelbindingKey in
  if String.eqb selected "" then
    match SelectPolicyRoot (rt_PolicyRoot rt) (defaultPolicyRoots packages) with
    | Fail _ => Fail (aerr "ErrBadRuntime" "no policy to evaluate")
    | Ok policyRoot => Ok policyRoot
    end
  else doelbindingPolicy packages selected.

Definition policyPath (rt : Runtime) (reqContext : option Struct) : M preparedQueryCache string :=
  try! pkgs := policyPackages rt in
  match pkgs with
  | Fail _ => fail (aerr "ErrBadRuntime" "failed to list the loaded policies")
  | Ok pkgs => lift (select_policy rt reqContext pkgs)
  end.

Definition authz_input (req : AzRequest) (identity : IdentityContext) : res (rego_input * option Object) :=
  match resolveIdentityContext identity ∅ with
  | Fail e => Fail e
  | Ok (user, input) =>
      let input := <[InputSubject := InFields (flatten (GetProperties (q_subject req))
        [(typeField, GetType (q_subject req)); (idField, GetId (q_subject req))])]> input in
      let input := <[InputAction := InFields (flatten (GetActionProperties (q_action req))
        [(nameField, GetName (q_action req))])]> input in
      let input := <[InputResource := InFields (flatten (GetResourceProperties (q_resource req))
        [(typeField, GetResourceType (q_resource req)); (idField, GetResourceId (q_resource req))])]> input in
      let input := <[InputContext := InFields (default ∅ (q_context req))]> input in
      Ok (input, user)
  end.

Definition evaluationResponse (action : string) (b : binding go_map) : AzResponse * option err :=
  match b with
  | BBool result => (MkAzResponse result None, None)
  | BMap result =>
      match result !! decisionField with
      | Some (FBool decision) =>
          match result !! contextField with
          | Some (FMap ctx) =>
              match NewStruct ctx with
              | Fail _ =>
                  (no_decision, Some (aerr "ErrBadQuery" ("rule for action [" ++ action ++ "] returned a " ++
                    quoted contextField ++ " that is not representable as JSON")))
              | Ok properties => (MkAzResponse decision (Some properties), None)
              end
          | _ => (MkAzResponse decision None, None)
          end
      | _ =>
          (no_decision, Some (aerr "ErrBadQuery" ("rule for action [" ++ action ++
            "] returned an object without a boolean " ++ quoted decisionField ++ " field")))
      end
  | BOther ty =>
      (no_decision, Some (aerr "ErrBadQuery" ("rule for action [" ++ action ++ "] returned " ++ ty ++
        ", want a boolean or a decision object")))
  end.

(** Running the prepared query and reading its first binding. *)
Definition eval_query (rt : Runtime) (path action : string) (input : rego_input) (query : prepared)
  : AzResponse * option err :=
  match query_Eval query (rt_store rt) input with
  | Fail _ => (no_decision, Some (aerr "ErrBadQuery"
      ("query evaluation failed: path=" ++ path ++ " action=" ++ action)))
  | Ok [] => (no_decision, Some (aerr "ErrBadQuery" ("undefined results: path=" ++ path ++ " action=" ++ action)))
  | Ok (bindings :: _) =>
      match bindings !! bindingName 0 with
      | None => (no_decision, Some (aerr "ErrBadQuery" ("failed getting binding for action [" ++ action ++ "]")))
      | Some b => evaluationResponse action b
      end
  end.

Definition evaluate (rt : Runtime) (req : AzRequest) (c : preparedQueryCache)
  : AzResponse * evalMeta * option err * preparedQueryCache :=
  let identity := identityContext (q_subject req) in
  let meta := MkMeta "" identity None in
  let action := GetName (q_action req) in
  if String.eqb action "" then (no_decision, meta, Some (aerr "ErrInvalidArgument" "action name not set"), c)
  else
    match policyPath rt (q_context req) c with
    | (Fail e, c) => (no_decision, meta, Some e, c)
    | (Ok path, c) =>
        let meta := MkMeta path identity None in
        match authz_input req identity with
        | Fail e => (no_decision, meta, Some e, c)
        | Ok (input, user) =>
            let meta := MkMeta path identity user in
            match decisionQuery rt path [action] c with
            | (Fail e, c) => (no_decision, meta, Some e, c)
            | (Ok query, c) => let '(resp, e) := eval_query rt path action input query in (resp, meta, e, c)
            end
        end
    end.

(** [getRuntime]: [rt] is what the resolver returns. *)
Definition getRuntime (rt : res Runtime) : res Runtime :=
  match rt with Fail _ => Fail (aerr "ErrInvalidPolicyID" "undefined policy context") | Ok rt => Ok rt end.

Definition evaluation (rt : res Runtime) (req : AzRequest) (c : preparedQueryCache)
  : AzResponse * evalMeta * option err * preparedQueryCache :=
  match getRuntime rt with
  | Fail e => (no_decision, MkMeta "" (identityContext (q_subject req)) None, Some e, c)
  | Ok rt => evaluate rt req c
  end.

Fixpoint evaluations_loop (rt : Runtime) (batch : AzRequests) (l : list AzRequest) (resp : list AzResponse)
    (meta : evalMeta) (c : preparedQueryCache) : list AzResponse * evalMeta * option err * preparedQueryCache :=
  match l with
  | [] => (resp, meta, None, c)
  | e :: l =>
      match evaluate rt (defaulted batch e) c with
      | (_, _, Some err, c) => (resp, meta, Some err, c)
      | (outcome, outcomeMeta, None, c) =>
          let meta :=
            match em_user meta, q_subject e with
            | None, None => MkMeta (em_policyPath meta) (em_identity meta) (em_user outcomeMeta)
            | _, _ => meta
            end in
          evaluations_loop rt batch l (resp ++ [outcome]) meta c
      end
  end.
Definition evaluations (rt : res Runtime) (req : AzRequests) (c : preparedQueryCache)
  : list AzResponse * evalMeta * option err * preparedQueryCache :=
  let meta := MkMeta "" (identityContext (qs_subject req)) None in
  match qs_evaluations req with
  | [] => ([], meta, Some (aerr "ErrInvalidArgument" "evaluations not set"), c)
  | evs =>
      match getRuntime rt with
      | Fail e => ([], meta, Some e, c)
      | Ok rt =>
          let '(path, c) := policyPath rt (qs_context req) c in
          let meta := MkMeta (match path with Ok p => p | Fail _ => "" end) (em_identity meta) None in
          evaluations_loop rt req evs [] meta c
      end
  end.

(** ** The service *)

Inductive logged_request := LEvaluation (q : AzRequest) | LEvaluations (q : AzRequests) | LSearch (q : AzRequest).
Inductive authz_response := REvaluation (r : AzResponse) | REvaluations (l : list AzResponse) | RSearch.

(** [responseForJSON]: the decision is recorded in a form that does not drop a false one. *)
Inductive recorded_response :=
| RecEvaluation (decision : bool) (ctx : option Struct)
| RecEvaluations (l : list (bool * option Struct))
| RecOther.
Definition responseForJSON (r : authz_response) : recorded_response :=
  match r with
  | REvaluation r => RecEvaluation (r_decision r) (r_context r)
  | REvaluations l => RecEvaluations (map (fun r => (r_decision r, r_context r)) l)
  | RSearch => RecOther
  end.

Definition log_record : Type := adl_Record logged_request recorded_response.
Context (marshal_err write_err : log_record -> option err).
Context (adl : option Logger) (tc : TraceContext) (now : Z).

Definition log (event : string) (q : logged_request) (a : authz_response) (e : option err)
  : trail logged_request recorded_response -> option err * trail logged_request recorded_response :=
  emit responseForJSON marshal_err write_err adl tc now event q a e.

Definition AccessServer_Evaluation (rt : res Runtime) (req : AzRequest) (c : preparedQueryCache)
    (w : trail logged_request recorded_response)
  : AzResponse * option err * preparedQueryCache * trail logged_request recorded_response :=
  let '(resp, meta, e, c) := evaluation rt req c in
  let '(logErr, w) := log EventAccessEvaluation (LEvaluation (meta_request meta req)) (REvaluation resp) e w in
  (resp, authz_adlError e logErr, c, w).

Definition AccessServer_Evaluations (rt : res Runtime) (req : AzRequests) (c : preparedQueryCache)
    (w : trail logged_request recorded_response)
  : list AzResponse * option err * preparedQueryCache * trail logged_request recorded_response :=
  let '(resp, meta, e, c) := evaluations rt req c in
  let '(logErr, w) := log EventAccessEvaluations (LEvaluations (meta_requests meta req)) (REvaluations resp) e w in
  (resp, authz_adlError e logErr, c, w).

Definition errSearchUnsupported (api : string) : err :=
  XErr Unimplemented (api ++ " search is not available from the policy engine; use the directory's Access API").

(** The three searches: [event] and [api] tell them apart. *)
Definition search (event api : string) (req : AzRequest) (w : trail logged_request recorded_response)
  : option err * trail logged_request recorded_response :=
  let e := Some (errSearchUnsupported api) in
  let '(logErr, w) := log event (LSearch req) RSearch e w in (authz_adlError e logErr, w).
Definition AccessServer_SubjectSearch := search EventSearchSubject "subject".
Definition AccessServer_ResourceSearch := search EventSearchResource "resource".
Definition AccessServer_ActionSearch := search EventSearchAction "action".
End Authorizer.
