(* ===== verification/AuthzFacts.v ===== *)
(** * What the authorizer guarantees

    The cache of prepared queries is transparent between reloads, and what it keeps when a reload
    overtakes a preparation; the policy a request can reach; the decision a policy made; what the
    decision log shows of a bearer token. *)
From Stdlib Require Import Ascii.
From S2P Require Import Prelude Bytes Text Messages Headers Adl Policies Authorizer.

Section Facts.
Context `{R : Rego} (ResolveSubject : string -> res string) (ResolveIdentity : string -> res Object).

Abbreviation authz_evaluate := (evaluate ResolveSubject ResolveIdentity).
Abbreviation input_of := (authz_input ResolveSubject ResolveIdentity).

(** ** The policy that a request reaches *)

Lemma defaultPolicyRoots_spec packages r :
  r ∈ defaultPolicyRoots packages <->
  r <> doelbindingPrefix /\ r <> "" /\ exists pkg, pkg ∈ packages /\ root_of pkg = r.
Proof.
  unfold defaultPolicyRoots. rewrite list_elem_of_filter.
  by rewrite (proj2 (PolicyRoots_spec packages) r).
Qed.

Lemma select_policy_inv rt ctx packages path :
  select_policy rt ctx packages = Ok path ->
  (exists selected, selected = stringProperty ctx doelbindingKey /\ selected <> "" /\
     path = doelbindingPrefix +:+ "." +:+ selected /\ path ∈ packages) \/
  (stringProperty ctx doelbindingKey = "" /\ path ∈ defaultPolicyRoots packages).
Proof.
  unfold select_policy. destruct (String.eqb_spec (stringProperty ctx doelbindingKey) "") as [E|Hne].
  - destruct (SelectPolicyRoot _ _) as [root|e] eqn:S; [|done]. intros [= <-]. right.
    split; [done|]. by eapply SelectPolicyRoot_loaded.
  - unfold doelbindingPolicy.
    destruct (Contains packages _) eqn:C; cbn [negb]; [|done]. intros [= <-]. left.
    eexists. split_and!; [done..|]. by apply Contains_true.
Qed.

(** A package of the namespace as OPA writes one whose name is a plain identifier. *)
Definition in_namespace (pkg : string) : bool :=
  String.eqb pkg doelbindingPrefix || HasPrefix pkg (doelbindingPrefix +:+ ".").

Lemma namespace_root pkg : in_namespace pkg = true -> root_of pkg = doelbindingPrefix.
Proof. intros [->%String.eqb_eq|[s ->]%HasPrefix_iff]%orb_true_iff; reflexivity. Qed.

(** C17: A request reaches only policies that it may select: a doelbinding selects exactly the
    loaded package of that name under the [doelbinding] namespace, and a request that selects
    nothing is served from the root of a loaded package, the configured one when one is configured,
    and never from one of the namespace, as far as those are written with a dot: a loaded package
    whose root is served is neither [doelbinding] nor [doelbinding.] and a name (a name that is no identifier is
    written in brackets, and [bracketed_doelbinding_served] shows that such a package is served). *)
Theorem policy_contained rt ctx packages path :
  select_policy rt ctx packages = Ok path ->
  (stringProperty ctx doelbindingKey <> "" /\
   path = doelbindingPrefix +:+ "." +:+ stringProperty ctx doelbindingKey /\ path ∈ packages) \/
  (stringProperty ctx doelbindingKey = "" /\ path <> doelbindingPrefix /\ path <> "" /\
   (exists pkg, pkg ∈ packages /\ root_of pkg = path) /\
   (forall pkg, pkg ∈ packages -> root_of pkg = path -> in_namespace pkg = false) /\
   (rt_PolicyRoot rt = "" \/ path = rt_PolicyRoot rt)).
Proof.
  intros H. destruct (select_policy_inv _ _ _ _ H) as [(s & -> & Hne & -> & Hin)|[E Hin]]; [left; by split_and!|].
  right. pose proof Hin as (H1 & H2 & H3)%defaultPolicyRoots_spec. split_and!; [done..| |].
  { intros pkg _ Hp. apply not_true_is_false. intros Hn%namespace_root. congruence. }
  unfold select_policy in H. rewrite E in H. cbn [String.eqb] in H.
  destruct (SelectPolicyRoot _ _) as [root|e] eqn:S; [|done]. injection H as <-. revert S.
  unfold SelectPolicyRoot. destruct (String.eqb_spec (rt_PolicyRoot rt) "") as [->|Hne]; [by left|].
  cbn [negb]. destruct (defaultPolicyRoots packages); [done|].
  destruct (Contains _ (rt_PolicyRoot rt)); cbn [negb]; [|done]. intros [= ->]. by right.
Qed.

(** A package of the namespace as OPA writes one whose name is not a plain identifier, such as [laad-palen]. *)
Definition bracketed (name : string) : string :=
  doelbindingPrefix +:+ "[" +:+ String "034" (name +:+ String "034" "]").

Lemma bracketed_root name : contains "." name = false -> root_of (bracketed name) = bracketed name.
Proof.
  intros Hn. unfold root_of. pose proof (Cut_spec "." (bracketed name)) as H.
  destruct (Cut "." (bracketed name)) as [[before after] found]. destruct H as [_ H]. cbn [fst].
  destruct found; [|by destruct H as (<- & _)].
  assert (contains "." (bracketed name) = false) as Hc.
  { unfold bracketed. change (contains "." (name +:+ String "034" "]") = false). by rewrite contains_app, Hn. }
  rewrite H, contains_app in Hc. cbn in Hc. by destruct (contains "." before).
Qed.

(** A package of the namespace whose name is written in brackets has no dot, so it is its own root and not the
    namespace's: when it is the only one loaded, a request that selects nothing is served from it. *)
Theorem bracketed_doelbinding_served rt ctx name :
  rt_PolicyRoot rt = "" -> stringProperty ctx doelbindingKey = "" -> contains "." name = false ->
  select_policy rt ctx [bracketed name] = Ok (bracketed name).
Proof.
  intros Hr Hs Hn. unfold select_policy. rewrite Hs. unfold defaultPolicyRoots, PolicyRoots. cbn [fold_left].
  rewrite (bracketed_root name Hn), Hr. reflexivity.
Qed.

(** ** The cache between reloads *)

Definition clean (path : string) : Prop := contains unit_separator path = false.

(** No unit separator in the path of a loaded package. *)
Definition clean_runtime (rt : Runtime) : Prop :=
  forall ps, GetPolicyPackages (rt_store rt) = (ps, None) -> Forall clean ps.

Lemma clean_root pkg : clean pkg -> clean (root_of pkg).
Proof.
  unfold clean, root_of. intros H. pose proof (Cut_spec "."%char pkg) as Hc.
  destruct (Cut "."%char pkg) as [[before after] found]. cbn [fst]. destruct Hc as [_ Hc].
  destruct found; [|by destruct Hc as (<- & _)].
  rewrite Hc, contains_app in H. by destruct (contains unit_separator before).
Qed.

Lemma select_policy_clean rt ctx packages path :
  Forall clean packages -> select_policy rt ctx packages = Ok path -> clean path.
Proof.
  rewrite Forall_forall. intros Hc H.
  destruct (select_policy_inv _ _ _ _ H) as [(s & _ & _ & -> & Hin)|[_ Hin]]; [by apply Hc|].
  apply defaultPolicyRoots_spec in Hin as (_ & _ & pkg & Hin & <-). by apply clean_root, Hc.
Qed.

(** On clean paths the key of a single decision determines the path and the decision. *)
Lemma cacheKey_inj path path' action action' :
  clean path -> clean path' -> cacheKey path [action] = cacheKey path' [action'] ->
  path = path' /\ action = action'.
Proof. unfold cacheKey. intros. by apply (sep_inj unit_separator). Qed.

(** Everything cached is what the current runtime would give; an unwatched runtime has nothing. *)
Definition coherent (rt : Runtime) (c : preparedQueryCache) : Prop :=
  (forall key q, entries c !! key = Some q ->
     exists path action, key = cacheKey path [action] /\ clean path /\ prepare rt path [action] = Ok q) /\
  (forall ps, packages c = Some ps -> GetPolicyPackages (rt_store rt) = (ps, None)) /\
  (rt_manager rt ∉ watcherOnce c -> entries c = ∅ /\ packages c = None).

Lemma coherent_new rt : coherent rt newPreparedQueryCache.
Proof. split_and!; [|done..]. intros key q. cbn. by rewrite lookup_empty. Qed.

Lemma coherent_watch rt c : coherent rt c -> coherent rt (ensureCompilerWatcher rt c).
Proof. intros (H1 & H2 & _). split_and!; [done..|]. cbn. set_solver. Qed.

Lemma coherent_reload rt rt' c :
  rt_manager rt' = rt_manager rt -> coherent rt c -> coherent rt' (compiler_trigger (rt_manager rt) c).
Proof.
  intros E (_ & _ & H3). unfold compiler_trigger. case_decide as Hw.
  - split_and!; [|done..]. intros key q. cbn. by rewrite lookup_empty.
  - destruct (H3 Hw) as [H4 H5]. split_and!; rewrite ?H4, ?H5, ?E; [|done..].
    intros key q. by rewrite lookup_empty.
Qed.

Lemma policyPackages_coherent rt c :
  coherent rt c ->
  exists c', policyPackages rt c =
    (match GetPolicyPackages (rt_store rt) with (_, Some e) => Fail e | (ps, None) => Ok ps end, c') /\
    coherent rt c'.
Proof.
  intros Hc%coherent_watch. unfold policyPackages.
  destruct (packages (ensureCompilerWatcher rt c)) as [ps|] eqn:E.
  - pose proof Hc as (_ & H2 & _). rewrite (H2 ps E). eauto.
  - destruct (GetPolicyPackages (rt_store rt)) as [ps [e|]] eqn:G; [eauto|].
    destruct Hc as (H1 & _ & H3). eexists. split; [done|]. split_and!; [done|by intros ps' [= <-]|].
    cbn. set_solver.
Qed.

Lemma decisionQuery_coherent rt path action c :
  coherent rt c -> clean path ->
  exists c', decisionQuery rt path [action] c = (prepare rt path [action], c') /\ coherent rt c'.
Proof.
  intros Hc%coherent_watch Hp. unfold decisionQuery, getOrPrepare.
  destruct (entries (ensureCompilerWatcher rt c) !! cacheKey path [action]) as [q|] eqn:E.
  - eexists. split; [|exact Hc]. destruct Hc as (H1 & _). destruct (H1 _ _ E) as (path' & action' & Hk & Hp' & Hq).
    apply cacheKey_inj in Hk as [-> ->]; [|done..]. by rewrite Hq.
  - destruct (prepare rt path [action]) as [q|e] eqn:Q; [|eauto]. eexists. split; [done|].
    destruct Hc as (H1 & H2 & _). split_and!; [|done|cbn; set_solver].
    intros key q'. cbn. intros [[<- <-]|[_ Hk]]%lookup_insert_Some; [by exists path, action|]. by apply H1.
Qed.

(** The evaluation without a cache. *)
Definition evaluate_ref (rt : Runtime) (req : AzRequest) : AzResponse * evalMeta * option err :=
  let identity := identityContext (q_subject req) in
  let action := GetName (q_action req) in
  if String.eqb action "" then
    (no_decision, MkMeta "" identity None, Some (aerr "ErrInvalidArgument" "action name not set"))
  else
    match (match GetPolicyPackages (rt_store rt) with
           | (_, Some _) => Fail (aerr "ErrBadRuntime" "failed to list the loaded policies")
           | (ps, None) => select_policy rt (q_context req) ps
           end) with
    | Fail e => (no_decision, MkMeta "" identity None, Some e)
    | Ok path =>
        match input_of req identity with
        | Fail e => (no_decision, MkMeta path identity None, Some e)
        | Ok (input, user) =>
            match prepare rt path [action] with
            | Fail e => (no_decision, MkMeta path identity user, Some e)
            | Ok query => let '(resp, e) := eval_query rt path action input query in
                          (resp, MkMeta path identity user, e)
            end
        end
    end.

Lemma policyPath_coherent rt ctx c :
  coherent rt c ->
  exists c', policyPath rt ctx c =
    (match GetPolicyPackages (rt_store rt) with
     | (_, Some _) => Fail (aerr "ErrBadRuntime" "failed to list the loaded policies")
     | (ps, None) => select_policy rt ctx ps
     end, c') /\ coherent rt c'.
Proof.
  intros Hc. destruct (policyPackages_coherent rt c Hc) as (c' & E & Hc').
  exists c'. split; [|done]. unfold policyPath, attempt. rewrite E.
  by destruct (GetPolicyPackages (rt_store rt)) as [ps [e|]].
Qed.

Lemma evaluate_coherent rt req c :
  coherent rt c -> clean_runtime rt ->
  exists c', authz_evaluate rt req c = (evaluate_ref rt req, c') /\ coherent rt c'.
Proof.
  intros Hc Hcl. unfold evaluate, evaluate_ref.
  destruct (String.eqb (GetName (q_action req)) ""); [eauto|].
  destruct (policyPath_coherent rt (q_context req) c Hc) as (c1 & -> & Hc1).
  destruct (GetPolicyPackages (rt_store rt)) as [ps [e|]] eqn:G; [eauto|].
  destruct (select_policy rt (q_context req) ps) as [path|e] eqn:S; [|eauto].
  destruct (input_of req _) as [[input user]|e]; [|eauto].
  assert (clean path) as Hp by (eapply select_policy_clean; [by apply Hcl|done]).
  destruct (decisionQuery_coherent rt path (GetName (q_action req)) c1 Hc1 Hp) as (c2 & -> & Hc2).
  destruct (prepare rt path _) as [q|e]; [|eauto]. destruct (eval_query _ _ _ _ _). eauto.
Qed.

(** Requests and reloads of the bundle, one after the other. *)
Inductive authz_event := EvRequest (req : AzRequest) | EvReload (rt : Runtime).
Fixpoint serve (evs : list authz_event) (rt : Runtime) (c : preparedQueryCache)
  : list (AzResponse * evalMeta * option err) :=
  match evs with
  | [] => []
  | EvRequest req :: evs => let '(out, c) := authz_evaluate rt req c in out :: serve evs rt c
  | EvReload rt' :: evs => serve evs rt' (compiler_trigger (rt_manager rt) c)
  end.
Fixpoint serve_ref (evs : list authz_event) (rt : Runtime) : list (AzResponse * evalMeta * option err) :=
  match evs with
  | [] => []
  | EvRequest req :: evs => evaluate_ref rt req :: serve_ref evs rt
  | EvReload rt' :: evs => serve_ref evs rt'
  end.

(** C16: between requests, reloads of the bundle are seen at once: any sequence of requests and
    reloads, starting with an empty cache, is answered exactly as without a cache, each request by
    the policy that is loaded when it comes. *)
Theorem cache_transparent evs rt :
  clean_runtime rt ->
  (forall rt', EvReload rt' ∈ evs -> clean_runtime rt' /\ rt_manager rt' = rt_manager rt) ->
  serve evs rt newPreparedQueryCache = serve_ref evs rt.
Proof.
  intros Hcl Hevs. assert (coherent rt newPreparedQueryCache) as Hc by apply coherent_new.
  revert rt Hcl Hevs Hc. generalize newPreparedQueryCache.
  induction evs as [|[req|rt'] evs IH]; intros c rt Hcl Hevs Hc; cbn [serve serve_ref]; [done|..].
  - destruct (evaluate_coherent rt req c Hc Hcl) as (c' & -> & Hc'). f_equal.
    apply IH; [done| |done]. intros rt' H. apply Hevs. by right.
  - destruct (Hevs rt') as [Hcl' Hm]; [left|]. apply IH; [done| |by apply coherent_reload].
    intros rt2 H. rewrite Hm. apply Hevs. by right.
Qed.

Lemma evaluations_loop_exact rt req l : clean_runtime rt -> forall acc m c resp meta e c',
  coherent rt c ->
  evaluations_loop ResolveSubject ResolveIdentity rt req l acc m c = (resp, meta, e, c') ->
  let outs := map (fun q => evaluate_ref rt (defaulted req q)) l in
  coherent rt c' /\
  match e with
  | None => Forall (fun out => out.2 = None) outs /\ resp = acc ++ map (fun out => out.1.1) outs
  | Some e => exists done_ failed rest, outs = done_ ++ failed :: rest /\ failed.2 = Some e /\
                Forall (fun out => out.2 = None) done_ /\ resp = acc ++ map (fun out => out.1.1) done_
  end.
Proof.
  intros Hcl. induction l as [|q l IH]; intros acc m c resp meta e c' Hc; cbn [evaluations_loop map].
  - intros [= <- <- <- <-]. split; [done|]. by rewrite app_nil_r.
  - destruct (evaluate_coherent rt (defaulted req q) c Hc Hcl) as (c2 & -> & Hc2).
    destruct (evaluate_ref rt (defaulted req q)) as [[r m'] [er|]] eqn:Er.
    + intros [= <- <- <- <-]. split; [done|]. eexists [], (r, m', Some er), _.
      split_and!; [done..|]. by rewrite app_nil_r.
    + intros H. apply IH in H as [Hc' H]; [|done]. split; [done|]. destruct e as [e|].
      * destruct H as (d & f & rest & -> & Hf & Hd & ->). eexists ((r, m', None) :: d), f, rest.
        split_and!; [done..|by constructor|]. by rewrite <-app_assoc.
      * destruct H as [Hd ->]. split; [by constructor|]. by rewrite <-app_assoc.
Qed.

(** a batch without an error answers every request of it in order, each as it would be
    answered alone with the batch's subject, action, resource and context for what it leaves
    unset; the first request that fails ends the batch with its error, after the answers before it. *)
Theorem evaluations_exact rt req c resp meta e c' :
  coherent rt c -> clean_runtime rt -> qs_evaluations req <> [] ->
  evaluations ResolveSubject ResolveIdentity (Ok rt) req c = (resp, meta, e, c') ->
  let outs := map (fun q => evaluate_ref rt (defaulted req q)) (qs_evaluations req) in
  coherent rt c' /\
  match e with
  | None => Forall (fun out => out.2 = None) outs /\ resp = map (fun out => out.1.1) outs
  | Some e => exists done_ failed rest, outs = done_ ++ failed :: rest /\ failed.2 = Some e /\
                Forall (fun out => out.2 = None) done_ /\ resp = map (fun out => out.1.1) done_
  end.
Proof.
  intros Hc Hcl Hne. unfold evaluations. destruct (qs_evaluations req) as [|q0 l0] eqn:El; [done|].
  cbn [getRuntime]. destruct (policyPath_coherent rt (qs_context req) c Hc) as (c1 & -> & Hc1).
  intros H. by apply evaluations_loop_exact in H.
Qed.

(** ** Decisions and their records *)

Lemma evaluationResponse_granted action b r :
  evaluationResponse action b = (r, None) -> r_decision r = true ->
  b = BBool true \/ exists fields, b = BMap fields /\ fields !! decisionField = Some (FBool true).
Proof.
  unfold evaluationResponse. destruct b as [d|fields|ty]; [intros [= <-] Hd; left; by rewrite <-Hd| |done].
  destruct (fields !! decisionField) as [[d|m|]|] eqn:E; [|done..]. right. exists fields. split; [done|].
  destruct (fields !! contextField) as [[d'|m|]|];
    [| destruct (NewStruct m); [|done] | |]; injection H as <-; cbn in *; by subst.
Qed.

Lemma evaluate_ref_granted rt req resp meta :
  evaluate_ref rt req = (resp, meta, None) -> r_decision resp = true ->
  exists pkgs path input user query bindings rest b,
    GetPolicyPackages (rt_store rt) = (pkgs, None) /\ select_policy rt (q_context req) pkgs = Ok path /\
    input_of req (identityContext (q_subject req)) = Ok (input, user) /\
    prepare rt path [GetName (q_action req)] = Ok query /\
    query_Eval query (rt_store rt) input = Ok (bindings :: rest) /\
    bindings !! bindingName 0 = Some b /\
    (b = BBool true \/ exists fields, b = BMap fields /\ fields !! decisionField = Some (FBool true)) /\
    meta = MkMeta path (identityContext (q_subject req)) user.
Proof.
  unfold evaluate_ref. intros H Hd. destruct (String.eqb (GetName (q_action req)) ""); [done|].
  destruct (GetPolicyPackages (rt_store rt)) as [pkgs [e|]] eqn:G; [done|].
  destruct (select_policy rt (q_context req) pkgs) as [path|e] eqn:S; [|done].
  destruct (input_of req _) as [[input user]|e] eqn:I; [|done].
  destruct (prepare rt path _) as [query|e] eqn:P; [|done].
  destruct (eval_query rt path _ input query) as [r e] eqn:Q. injection H as <- <- ->.
  unfold eval_query in Q. destruct (query_Eval query (rt_store rt) input) as [[|bindings rest]|e] eqn:E; [done| |done].
  destruct (bindings !! bindingName 0) as [b|] eqn:B; [|done].
  exists pkgs, path, input, user, query, bindings, rest, b. split_and!; try done.
  by eapply evaluationResponse_granted.
Qed.

Context (marshal_err write_err : log_record -> option err) (lg : Logger) (tc : TraceContext) (now : Z).
Abbreviation Evaluation_ :=
  (AccessServer_Evaluation ResolveSubject ResolveIdentity marshal_err write_err (Some lg) tc now).

(** C15: While the query cache holds what the loaded policies would give ([coherent]: so it starts, and requests and
    reloads one after the other keep it so; a reload that overtakes a request can break it), no package path has the
    cache's separator and the decision log is enabled, access is granted only by the loaded policy and never off the
    record: a positive answer without an error means that the rule of the action, in the package that the request may
    reach, evaluated on the request's input to true or to an object with a true decision, and that every output of
    the log that is up has a new record with that decision, the policy's path and the subject that the identity
    resolved to. *)
Theorem decision_from_policy rt req c w resp c' w' :
  coherent rt c -> clean_runtime rt -> Enabled (l_cfg lg) = true ->
  Evaluation_ (Ok rt) req c w = (resp, None, c', w') -> r_decision resp = true ->
  exists pkgs path input user query bindings rest b,
    GetPolicyPackages (rt_store rt) = (pkgs, None) /\ select_policy rt (q_context req) pkgs = Ok path /\
    input_of req (identityContext (q_subject req)) = Ok (input, user) /\
    prepare rt path [GetName (q_action req)] = Ok query /\
    query_Eval query (rt_store rt) input = Ok (bindings :: rest) /\
    bindings !! bindingName 0 = Some b /\
    (b = BBool true \/ exists fields, b = BMap fields /\ fields !! decisionField = Some (FBool true)) /\
    let r := MkAdlRecord tc EventAccessEvaluation now StatusOk (cfg_Resource (l_cfg lg))
      (LEvaluation (meta_request (MkMeta path (identityContext (q_subject req)) user) req))
      (Some (RecEvaluation true (r_context resp))) in
    on_stdout w' = on_stdout w ++ (if l_stdout lg then [r] else []) /\
    on_otlp w' = on_otlp w ++ (if l_otel lg then [r] else []).
Proof.
  intros Hc Hcl Hen H Hd. unfold AccessServer_Evaluation, evaluation in H. cbn [getRuntime] in H.
  destruct (evaluate_coherent rt req c Hc Hcl) as (c1 & E & _). rewrite E in H.
  destruct (evaluate_ref rt req) as [[r m] e] eqn:Er.
  destruct (log _ _ _ _ _ _ _ _ _ _) as [logErr w1] eqn:L. injection H as <- He _ <-.
  assert (e = None /\ logErr = None) as [-> ->] by (by destruct e, logErr).
  destruct (evaluate_ref_granted rt req r m Er Hd)
    as (pkgs & path & input & user & query & bs & rest & b & H1 & H2 & H3 & H4 & H5 & H6 & H7 & ->).
  exists pkgs, path, input, user, query, bs, rest, b. split_and!; [done..| |];
    apply emit_ok in L as [L1 L2]; [|done|..|done]; cbn [record responseForJSON] in L1, L2; by rewrite Hd in *.
Qed.

(** ** Bearer tokens *)

(** A request whose subject carries the token. *)
Definition with_jwt (ty id : string) (props : Struct) (req : AzRequest) (token : string) : AzRequest :=
  MkAzRequest (Some (MkAzSubject ty id (Some (<[subjectJWTProperty := StringValue token]> props))))
    (q_action req) (q_resource req) (q_context req).

Lemma with_jwt_identity ty id props req token :
  token <> "" -> identityContext (q_subject (with_jwt ty id props req token)) = MkIdentity IDENTITY_TYPE_JWT token.
Proof.
  intros Hn. unfold identityContext, with_jwt, stringProperty. cbn [q_subject GetProperties s_properties].
  rewrite (lookup_insert_eq (M := gmap string) props subjectJWTProperty). cbn [GetStringValue]. by destruct (String.eqb_spec token "").
Qed.

(** The user that a token leads to does not depend on the token beyond its subject. *)
Lemma input_user req req' token token' :
  token <> "" -> token' <> "" -> ResolveSubject token = ResolveSubject token' ->
  rmap snd (input_of req (MkIdentity IDENTITY_TYPE_JWT token)) =
  rmap snd (input_of req' (MkIdentity IDENTITY_TYPE_JWT token')).
Proof.
  intros H1 H2 E. unfold authz_input, resolveIdentityContext, resolveSubjectFromIdentityContext.
  cbn [ic_type ic_identity]. destruct (String.eqb_spec token ""); [done|]. destruct (String.eqb_spec token' ""); [done|].
  rewrite E. repeat case_decide; try done. destruct (ResolveSubject token'); [|done].
  by destruct (resolveUserFromSubject ResolveIdentity a).
Qed.

(** C20: a bearer token never reaches the log of an evaluation: two requests that differ only in
    the token, both tokens leading to the same subject (or failing alike), are logged as the same
    request, whatever the policy makes of them; and neither the subject of a logged evaluation, nor that of a logged
    batch, nor one in a batch carries properties. *)
Theorem token_not_logged rt ty id props req token token' c :
  token <> "" -> token' <> "" -> ResolveSubject token = ResolveSubject token' ->
  let logged tok :=
    let '(_, meta, _, _) := evaluation ResolveSubject ResolveIdentity rt (with_jwt ty id props req tok) c in
    meta_request meta (with_jwt ty id props req tok) in
  logged token = logged token' /\
  (forall meta q, GetProperties (q_subject (meta_request meta q)) = None) /\
  forall meta batch,
    GetProperties (qs_subject (meta_requests meta batch)) = None /\
    Forall (fun q => GetProperties (q_subject q) = None) (qs_evaluations (meta_requests meta batch)).
Proof.
  intros H1 H2 E logged. split_and!.
  - unfold logged, evaluation. destruct (getRuntime rt) as [rt'|e].
    2: { unfold meta_request. cbn [em_identity em_user]. by rewrite !with_jwt_identity. }
    unfold evaluate. rewrite !with_jwt_identity by done. cbn [with_jwt q_action q_context].
    unfold meta_request.
    destruct (String.eqb (GetName (q_action req)) ""); [done|].
    destruct (policyPath rt' (q_context req) c) as [[path|e] c1]; [|done].
    pose proof (input_user (with_jwt ty id props req token) (with_jwt ty id props req token') token token' H1 H2 E) as Hu.
    destruct (input_of (with_jwt ty id props req token) _) as [[input user]|e],
      (input_of (with_jwt ty id props req token') _) as [[input' user']|e']; try done. injection Hu as <-.
    destruct (decisionQuery rt' path [GetName (q_action req)] c1) as [[q|e] c2]; [|by destruct user].
    destruct (eval_query _ _ _ input q), (eval_query _ _ _ input' q). by destruct user.
  - intros meta q. unfold meta_request, adlSubject. cbn [q_subject]. by destruct (em_user meta).
  - intros meta batch. split; [by destruct (em_user meta) eqn:U; unfold meta_requests, adlSubject; cbn; rewrite U|].
    cbn [meta_requests qs_evaluations]. apply Forall_map, Forall_true. intros q. by destruct (q_subject q).
Qed.

(** the searches, which the policy engine does not serve, are logged with the request as it
    came: a subject's properties, bearer token included, go to the log. *)
Theorem search_logs_properties event api req w :
  Enabled (l_cfg lg) = true -> l_stdout lg = true -> (forall r, marshal_err r = None) -> (forall r, write_err r = None) ->
  exists r, on_stdout (search marshal_err write_err (Some lg) tc now event api req w).2 = on_stdout w ++ [r] /\
    ar_Request r = LSearch req.
Proof.
  intros Hen Hs Hm Hw. unfold search.
  destruct (log _ _ _ _ _ _ _ _ _ _) as [logErr w1] eqn:L. cbn [snd].
  unfold log, emit, active in L. rewrite Hen in L. cbn [negb] in L. unfold writeRecordStdout, otel_emit in L.
  rewrite !Hm, Hs, !Hw in L. eexists. split; [by destruct (l_otel lg); injection L as <- <-|done].
Qed.
End Facts.

Module AuthzExamples.
Import PolicyExamples.

(** A compiler: the value of each rule by its reference.  A query is the text that binds [x0]. *)
#[export] Instance rego : Rego := {|
  compiler := list (string * bool);
  ref := string;
  body := string;
  prepared := list (string * bool) * string;
  go_map := Struct;
  ast_ParseRef := fun s => Ok s;
  GetRules := fun c r => length (List.filter (fun e => String.eqb e.1 r) c);
  ast_ParseBody := fun s => Ok s;
  PrepareForEval := fun c b => Ok (c, b);
  query_Eval := fun '(c, b) _ _ =>
    Ok (map (fun e => {[bindingName 0 := BBool e.2]})
          (List.filter (fun e => String.eqb ("x0 = " +:+ e.1 +:+ newline) b) c));
  NewStruct := fun m => Ok m |}.

Definition rule (name : string) : string := "data." +:+ name +:+ newline.
Definition rt1 : Runtime := MkRuntime 0 [(rule "authz.allow", true); (rule "doelbinding.laadpalen.allow", false)] store1 "".
Definition rt2 : Runtime := MkRuntime 0 [(rule "authz.allow", false)] store1 "".

Definition ResolveSubject (token : string) : res string := Ok "bob@acme".
Definition ResolveIdentity (identity : string) : res Object := Ok (MkObject "user" "bob" "" None None None "").
Definition ask (token : string) : AzRequest :=
  MkAzRequest (Some (MkAzSubject "" "" (Some {[subjectJWTProperty := StringValue token]})))
    (Some (MkAzAction "allow" None)) (Some (MkResource "doc" "1" None)) None.
Definition stdout_logger : Logger := MkLogger (MkAdlConfig true "stdout" "" ∅ "" "") true false.
Definition fine : log_record -> option err := fun _ => None.
Definition tc0 : TraceContext := MkTrace "" "" "".
Definition empty_trail : trail logged_request recorded_response := MkTrail [] [].

Lemma rt_clean rt : rt_store rt = store1 -> clean_runtime rt.
Proof.
  intros E ps H. rewrite E in H. vm_compute in H. injection H as <-. by repeat constructor.
Qed.

Lemma no_error {A B C} (x : A * B * option err * C) : x.1.2 = None -> x = (x.1.1.1, x.1.1.2, None, x.2).
Proof. destruct x as [[[a b] e] c]. cbn. by intros ->. Qed.
Lemma no_error' {A B C} (x : A * option err * B * C) : x.1.1.2 = None -> x = (x.1.1.1, None, x.1.2, x.2).
Proof. destruct x as [[[a e] b] c]. cbn. by intros ->. Qed.

Lemma policy_contained_witness :
  "doelbinding.laadpalen" ∈ (GetPolicyPackages store1).1.
Proof.
  destruct (policy_contained rt1 (Some {[doelbindingKey := StringValue "laadpalen"]}) (GetPolicyPackages store1).1
    "doelbinding.laadpalen") as [(_ & _ & H)|(H & _)].
  - vm_compute. reflexivity.
  - exact H.
  - vm_compute in H. discriminate H.
Defined.

(** The reload turns the answer. *)
Lemma cache_transparent_witness :
  map (fun out => r_decision out.1.1)
    (serve ResolveSubject ResolveIdentity [EvRequest (ask "t"); EvReload rt2; EvRequest (ask "t")] rt1
       newPreparedQueryCache) = [true; false].
Proof.
  rewrite (cache_transparent ResolveSubject ResolveIdentity).
  - vm_compute. reflexivity.
  - by apply rt_clean.
  - intros rt' H. rewrite !elem_of_cons, elem_of_nil in H. destruct H as [H|[H|[H|[]]]]; [done| |done].
    injection H as ->. split; [by apply rt_clean|reflexivity].
Defined.

Definition batch : AzRequests :=
  MkAzRequests (Some (MkAzSubject "" "bob@acme" None)) None None None
    [MkAzRequest None (Some (MkAzAction "allow" None)) None None;
     MkAzRequest None (Some (MkAzAction "allow" None)) None (Some {[doelbindingKey := StringValue "laadpalen"]})].
Lemma evaluations_exact_witness :
  map r_decision (evaluations ResolveSubject ResolveIdentity (Ok rt1) batch newPreparedQueryCache).1.1.1 = [true; false].
Proof.
  pose proof (evaluations_exact ResolveSubject ResolveIdentity rt1 batch newPreparedQueryCache
    (evaluations ResolveSubject ResolveIdentity (Ok rt1) batch newPreparedQueryCache).1.1.1
    (evaluations ResolveSubject ResolveIdentity (Ok rt1) batch newPreparedQueryCache).1.1.2
    None (evaluations ResolveSubject ResolveIdentity (Ok rt1) batch newPreparedQueryCache).2) as H.
  cbn zeta in H. destruct H as [_ [_ ->]].
  - apply coherent_new.
  - by apply rt_clean.
  - done.
  - apply no_error. vm_compute. reflexivity.
  - vm_compute. reflexivity.
Defined.

Definition answer :=
  AccessServer_Evaluation ResolveSubject ResolveIdentity fine fine (Some stdout_logger) tc0 0 (Ok rt1) (ask "t")
    newPreparedQueryCache empty_trail.
Lemma decision_from_policy_witness :
  exists path, select_policy rt1 None (GetPolicyPackages store1).1 = Ok path /\
    length (on_stdout answer.2) = 1.
Proof.
  destruct (decision_from_policy ResolveSubject ResolveIdentity fine fine stdout_logger tc0 0 rt1 (ask "t")
    newPreparedQueryCache empty_trail answer.1.1.1 answer.1.2 answer.2)
    as (pkgs & path & input & user & query & bs & rest & b & H1 & H2 & _ & _ & _ & _ & _ & H3 & _).
  - apply coherent_new.
  - by apply rt_clean.
  - reflexivity.
  - apply no_error'. vm_compute. reflexivity.
  - vm_compute. reflexivity.
  - exists path. split.
    + apply (f_equal fst) in H1. cbn [rt_store rt1 fst] in H1. rewrite H1. exact H2.
    + rewrite H3. reflexivity.
Defined.

Lemma token_not_logged_witness :
  (let '(_, meta, _, _) := evaluation ResolveSubject ResolveIdentity (Ok rt1)
      (with_jwt "" "" ∅ (ask "") "secret1") newPreparedQueryCache in
    meta_request meta (with_jwt "" "" ∅ (ask "") "secret1")) =
  (let '(_, meta, _, _) := evaluation ResolveSubject ResolveIdentity (Ok rt1)
      (with_jwt "" "" ∅ (ask "") "secret2") newPreparedQueryCache in
    meta_request meta (with_jwt "" "" ∅ (ask "") "secret2")).
Proof.
  refine (proj1 (token_not_logged ResolveSubject ResolveIdentity (Ok rt1) "" "" ∅ (ask "") "secret1" "secret2"
    newPreparedQueryCache _ _ _)); [discriminate|discriminate|reflexivity].
Defined.

Lemma search_logs_properties_witness :
  exists r, on_stdout (AccessServer_ResourceSearch fine fine (Some stdout_logger) tc0 0 (ask "secret") empty_trail).2 = [r] /\
    ar_Request r = LSearch (ask "secret").
Proof.
  apply (search_logs_properties fine fine stdout_logger tc0 0 EventSearchResource "resource" (ask "secret") empty_trail);
    reflexivity || intros r; reflexivity.
Defined.
End AuthzExamples.
