(* ===== verification/CacheFacts.v ===== *)
(** * Reloads that overtake a preparation

    [prepared_query_cache.go] under concurrency: looking up, preparing and storing a query are
    separate steps of a request, and a reload of the bundle can come between them.  Single flight
    keeps at most one preparation per key in flight. *)
From S2P Require Import Prelude Bytes Text Messages Headers Adl Policies Authorizer AuthzFacts.

Section Steps.
Context `{R : Rego}.

(** The runtime, the cache, and the queries that are prepared but not stored yet. *)
Record system := MkSystem {
  sys_rt : Runtime; sys_cache : preparedQueryCache; in_flight : list (string * string * prepared) }.

Definition store_entry (path action : string) (q : prepared) (c : preparedQueryCache) : preparedQueryCache :=
  MkCache (<[cacheKey path [action] := q]> (entries c)) (packages c) (watcherOnce c).

(** [quiet]: reloads wait until nothing is in flight, which the code does not enforce. *)
Inductive step (quiet : bool) : system -> system -> Prop :=
| step_hit rt c fl path action q :
    entries c !! cacheKey path [action] = Some q ->
    step quiet (MkSystem rt c fl) (MkSystem rt (ensureCompilerWatcher rt c) fl)
| step_prepare rt c fl path action q :
    clean path -> entries c !! cacheKey path [action] = None ->
    (forall q', (path, action, q') ∉ fl) -> prepare rt path [action] = Ok q ->
    step quiet (MkSystem rt c fl) (MkSystem rt (ensureCompilerWatcher rt c) ((path, action, q) :: fl))
| step_store rt c fl1 path action q fl2 :
    step quiet (MkSystem rt c (fl1 ++ (path, action, q) :: fl2))
      (MkSystem rt (store_entry path action q c) (fl1 ++ fl2))
| step_reload rt rt' c fl :
    rt_manager rt' = rt_manager rt -> (quiet = true -> fl = []) ->
    step quiet (MkSystem rt c fl) (MkSystem rt' (compiler_trigger (rt_manager rt) c) fl).

(** Whatever is cached or in flight was prepared from the current runtime, and the runtime is
    watched as soon as there is anything. *)
Definition fresh_system (s : system) : Prop :=
  (forall key q, entries (sys_cache s) !! key = Some q ->
     exists path action, key = cacheKey path [action] /\ clean path /\ prepare (sys_rt s) path [action] = Ok q) /\
  (forall path action q, (path, action, q) ∈ in_flight s ->
     clean path /\ prepare (sys_rt s) path [action] = Ok q) /\
  (rt_manager (sys_rt s) ∉ watcherOnce (sys_cache s) -> entries (sys_cache s) = ∅ /\ in_flight s = []).

Lemma step_fresh s s' : step true s s' -> fresh_system s -> fresh_system s'.
Proof.
  intros Hs (H1 & H2 & H3). destruct Hs as
    [rt c fl path action q E|rt c fl path action q Hp E Hn Hq|rt c fl1 path action q fl2|rt rt' c fl Hm Hfl];
    cbn in *; split_and!; cbn [sys_rt sys_cache in_flight ensureCompilerWatcher store_entry entries watcherOnce].
  - done.
  - done.
  - set_solver.
  - done.
  - intros p a q' [[= -> -> ->]|?]%elem_of_cons; auto.
  - set_solver.
  - intros key q' [[<- <-]|[_ Hk]]%lookup_insert_Some; [|by apply H1].
    exists path, action. destruct (H2 path action q); [|done]. apply elem_of_app. right. left.
  - intros p a q' Hin. apply H2. apply elem_of_app. apply elem_of_app in Hin as [?|?]; [by left|right; by right].
  - intros Hw. destruct (H3 Hw) as [_ Hf]. by destruct fl1.
  - intros key q. unfold compiler_trigger. case_decide as Hw; cbn; [by rewrite lookup_empty|].
    destruct (H3 Hw) as [-> _]. by rewrite lookup_empty.
  - rewrite Hfl by done. by intros ??? ?%elem_of_nil.
  - intros _. rewrite Hfl by done. split; [|done]. unfold compiler_trigger. case_decide as Hw; [done|].
    by destruct (H3 Hw).
Qed.

Definition init (rt : Runtime) : system := MkSystem rt newPreparedQueryCache [].

Lemma init_fresh rt : fresh_system (init rt).
Proof.
  split_and!; cbn.
  - intros key q. by rewrite lookup_empty.
  - by intros ??? ?%elem_of_nil.
  - done.
Qed.

Lemma reachable_fresh rt s : rtc (step true) (init rt) s -> fresh_system s.
Proof.
  intros H. assert (fresh_system (init rt)) as Hi by apply init_fresh.
  induction H as [|s1 s2 s3 Hs _ IH]; [done|]. apply IH. by eapply step_fresh.
Qed.

(** as long as no reload comes while a preparation is in flight, every interleaving of
    look-ups, preparations, stores and reloads leaves a cache that answers a query exactly as
    preparing it from the current policy would. *)
Theorem cache_quiet rt s path action :
  rtc (step true) (init rt) s -> clean path ->
  (decisionQuery (sys_rt s) path [action] (sys_cache s)).1 = prepare (sys_rt s) path [action].
Proof.
  intros (H1 & _)%reachable_fresh Hp. unfold decisionQuery, getOrPrepare. cbn [ensureCompilerWatcher entries].
  destruct (entries (sys_cache s) !! cacheKey path [action]) as [q|] eqn:E.
  - destruct (H1 _ _ E) as (path' & action' & Hk & Hp' & Hq).
    apply cacheKey_inj in Hk as [-> ->]; [|done..]. by rewrite Hq.
  - by destruct (prepare (sys_rt s) path [action]).
Qed.

(** C38: a reload that overtakes a preparation is lost on that query: a state can be reached in
    which the new policy is loaded, nothing is in flight, and the cache answers with the query that
    was prepared from the old policy. *)
Theorem reload_overtakes rt rt' path action q :
  clean path -> rt_manager rt' = rt_manager rt -> prepare rt path [action] = Ok q ->
  exists s, rtc (step false) (init rt) s /\ sys_rt s = rt' /\ in_flight s = [] /\
    (decisionQuery rt' path [action] (sys_cache s)).1 = Ok q.
Proof.
  intros Hp Hm Hq. eexists. split_and!.
  - eapply rtc_l; [eapply (step_prepare false rt _ [] path action q); try done; by intros ? ?%elem_of_nil|].
    eapply rtc_l; [by eapply (step_reload false rt rt')|].
    eapply rtc_l; [eapply (step_store false rt' _ [] path action q [])|]. reflexivity.
  - done.
  - done.
  - unfold decisionQuery, getOrPrepare. cbn [sys_cache ensureCompilerWatcher store_entry entries].
    by rewrite lookup_insert_eq.
Qed.
End Steps.

Module CacheExamples.
Import PolicyExamples AuthzExamples.

Definition prep : @prepared _ rego := (rt_compiler rt1, "x0 = " +:+ rule "authz.allow" +:+ newline).

(** The query of the old policy, which allows, where the new one denies. *)
Lemma reload_overtakes_witness :
  exists s, rtc (step false) (init rt1) s /\ sys_rt s = rt2 /\ in_flight s = [] /\
    (decisionQuery rt2 "authz" ["allow"] (sys_cache s)).1 = Ok prep.
Proof.
  apply (reload_overtakes rt1 rt2 "authz" "allow" prep); [reflexivity|reflexivity|].
  vm_compute. reflexivity.
Defined.

Lemma cache_quiet_witness :
  (decisionQuery rt2 "authz" ["allow"] (compiler_trigger 0 newPreparedQueryCache)).1 = prepare rt2 "authz" ["allow"].
Proof.
  apply (cache_quiet rt1 (MkSystem rt2 (compiler_trigger 0 newPreparedQueryCache) []) "authz" "allow").
  - apply rtc_once. apply (step_reload true rt1 rt2); reflexivity.
  - reflexivity.
Defined.
End CacheExamples.
