(* ===== verification/Authn.v ===== *)
(** * Who is calling: API keys and bearer tokens

    [daemon/authentication] with the options of [pkg/config/topaz_config.go]: which requests need an
    API key, and which keys are accepted; and [daemon/authorizer/impl/jwt-resolver.go]: the subject
    of a bearer token.  Parsing and verifying a token is [jwx]'s: a parameter ([Jwt]). *)
From Stdlib Require Import Ascii.
From S2P Require Import Prelude Bytes Text Policies.

(** ** Options by path *)

Record Options := MkOptions { EnableAPIKey : bool; EnableAnonymous : bool }.
Record OptionOverrides := MkOverrides { Paths : list string; Override : Options }.
Record CallOptions := MkCallOptions { Default_ : Options; Overrides : list OptionOverrides }.
Record AuthnConfig := MkAuthn { APIKeys : gmap string string; auth_Options : CallOptions; Keys_ : list string }.

Fixpoint ForPath_loop (path : string) (l : list OptionOverrides) : option Options :=
  match l with
  | [] => None
  | o :: l =>
      if existsb (fun prefix => HasPrefix (ToLower path) prefix) (Paths o) then Some (Override o)
      else ForPath_loop path l
  end.
Definition ForPath (co : CallOptions) (path : string) : Options :=
  match ForPath_loop path (Overrides co) with Some o => o | None => Default_ co end.

(** ** The configuration, when it is validated *)

Fixpoint ReplaceAll (s : string) (old new : ascii) : string :=
  match s with
  | EmptyString => ""
  | String c s' => String (if ascii_dec c old then new else c) (ReplaceAll s' old new)
  end.

Definition setDefaultCallsAuthz (co : CallOptions) : CallOptions :=
  let overrides :=
    match Overrides co with
    | [] => [MkOverrides ["/grpc.reflection.v1alpha.ServerReflection/ServerReflectionInfo";
                          "/grpc.reflection.v1.ServerReflection.ServerReflectionInfo"]
               (MkOptions false true)]
    | l => l
    end in
  MkCallOptions (Default_ co)
    (map (fun o => MkOverrides (map (fun p => ToLower (ReplaceAll p "|" ".")) (Paths o)) (Override o)) overrides).

Definition transposeKeys (c : AuthnConfig) : AuthnConfig :=
  MkAuthn (fold_left (fun m k => <[k := ""]> m) (Keys_ c) (APIKeys c)) (auth_Options c) (Keys_ c).

(** What [validation] reads of the rest of the configuration. *)
Record ConfigView := MkConfigView {
  Services : list string; mode_run : bool; InstanceID : string; n_bundles : nat }.

Definition validation (v : ConfigView) (c : AuthnConfig) : res AuthnConfig :=
  if Contains (Services v) "authorizer" && mode_run v && String.eqb (InstanceID v) "" then
    Fail (new_error "opa.instance_id not set")
  else if Contains (Services v) "authorizer" && (1 <? n_bundles v)%nat then
    Fail (new_error "opa.config.bundles - too many bundles")
  else
    match Services v with
    | [] => Fail (new_error "no api services configured")
    | _ =>
        let c := MkAuthn (APIKeys c) (setDefaultCallsAuthz (auth_Options c)) (Keys_ c) in
        let c := transposeKeys c in
        let d := Default_ (auth_Options c) in
        let d := if decide (APIKeys c = ∅) then MkOptions (EnableAPIKey d) true
                 else MkOptions true (EnableAnonymous d) in
        Ok (MkAuthn (APIKeys c) (MkCallOptions d (Overrides (auth_Options c))) (Keys_ c))
    end.

(** ** [middleware.go] *)

Definition ErrAuthenticationFailed : err := DErr "ErrAuthenticationFailed" [].

Definition parseAuthHeader (val expectedScheme : string) : res string :=
  let '(scheme, header, ok) := Cut " " val in
  if negb ok then Fail (with_msg ErrAuthenticationFailed "Bad authorization string")
  else if negb (EqualFold scheme expectedScheme) then
    Fail (with_msg ErrAuthenticationFailed
            ("Request unauthenticated with expected scheme, expected: " ++ expectedScheme))
  else Ok header.

(** The error of [parseAuthHeader] is only logged; the key is then empty. *)
Definition authenticate (cfg : AuthnConfig) (path authHeader : string) : option err :=
  let options := ForPath (auth_Options cfg) path in
  if EnableAnonymous options then None
  else if bool_decide (APIKeys cfg = ∅) || negb (EnableAPIKey options) then None
  else
    let basicAPIKey := match parseAuthHeader authHeader "basic" with Ok k => k | Fail _ => "" end in
    match APIKeys cfg !! basicAPIKey with Some _ => None | None => Some ErrAuthenticationFailed end.

(** The interceptors: the handler runs only for an authenticated request. *)
Definition authn_Unary {R} (cfg : AuthnConfig) (method authHeader : string) (handler : res R) : res R :=
  match authenticate cfg method authHeader with Some e => Fail e | None => handler end.

(** [ConfigAuth] of [authentication.go]: the console is served with two flags, or refused. *)
Inductive console_outcome := Served (authenticated enabled : bool) | Unauthorized (msg : string).
Definition ConfigAuth (cfg : AuthnConfig) (path authHeader : string) : console_outcome :=
  let options := ForPath (auth_Options cfg) path in
  if EnableAnonymous options then Served true false
  else if bool_decide (APIKeys cfg = ∅) || negb (EnableAPIKey options) then Served true false
  else if String.eqb authHeader "" then Served false true
  else
    match parseAuthHeader authHeader "basic" with
    | Fail _ => Unauthorized "Invalid authorization header. expected 'basic' scheme."
    | Ok basicAPIKey =>
        match APIKeys cfg !! basicAPIKey with
        | Some _ => Served true true
        | None => Unauthorized "The API key is invalid."
        end
    end.

(** ** Bearer tokens *)

Record claims := MkClaims { Issuer : option string; Subject_ : option string }.
Record parse_options (keyset : Type) := MkParse {
  po_verify : bool; po_validate : bool; po_skew : option Z; po_keyset : option keyset; po_audience : option string }.
Arguments MkParse {keyset} _ _ _ _ _.

Class Jwt := {
  keyset : Type;
  jwt_ParseString : string -> parse_options keyset -> res claims;
  (** the key set behind a URI, from the cache *)
  cache_Fetch : string -> res keyset;
  (** [fmt]'s %q verb *)
  fmt_quoted : string -> string }.

(** The resolver: the JWKS URI of every allowed issuer, the audience and the accepted clock skew. *)
Record jwtResolver := MkResolver {
  issuerToConfig : gmap string string; ExpectedAudience : string; AcceptableTimeSkew : Z }.

Section Jwt.
Context `{J : Jwt}.

(** [Start]: the configuration of every allowed issuer, then its keys. *)
Fixpoint hydrate (fetch : string -> res string) (issuers : list string) (m : gmap string string)
  : res (gmap string string) :=
  match issuers with
  | [] => Ok m
  | i :: issuers =>
      match fetch i with Fail e => Fail e | Ok uri => hydrate fetch issuers (<[i := uri]> m) end
  end.
Definition first_error {X} (f : X -> option err) (l : list X) : option err := head (omap f l).
Definition jwt_Start (FetchAndValidateConfig : string -> res string) (Register Lookup_ : string -> option err)
    (allowed : list string) (r : jwtResolver) : res jwtResolver :=
  match hydrate FetchAndValidateConfig allowed (issuerToConfig r) with
  | Fail e => Fail e
  | Ok m =>
      match first_error (fun e => Register e.2) (map_to_list m) with
      | Some e => Fail e
      | None =>
          match first_error (fun e => Lookup_ e.2) (map_to_list m) with
          | Some e => Fail e
          | None => Ok (MkResolver m (ExpectedAudience r) (AcceptableTimeSkew r))
          end
      end
  end.

Definition subject_of (c : claims) : res string :=
  match Subject_ c with Some s => Ok s | None => Fail (new_error "no verified subject found") end.

Definition resolveSubjectInsecure (r : jwtResolver) (token : string) : res string :=
  rbind (jwt_ParseString token (MkParse false true (Some (AcceptableTimeSkew r)) None None)) subject_of.

Definition verified_options (r : jwtResolver) (keys : keyset) : parse_options keyset :=
  MkParse true true (Some (AcceptableTimeSkew r)) (Some keys)
    (if String.eqb (ExpectedAudience r) "" then None else Some (ExpectedAudience r)).

Definition jwt_ResolveSubject (r : jwtResolver) (token : string) : res string :=
  match jwt_ParseString token (MkParse false false None None None) with
  | Fail e => Fail e
  | Ok unverifiedToken =>
      match Issuer unverifiedToken with
      | None | Some EmptyString => Fail (new_error "unverified token does not contain an issuer field")
      | Some unverifiedIssuer =>
          if decide (issuerToConfig r = ∅) then resolveSubjectInsecure r token
          else
            match issuerToConfig r !! unverifiedIssuer with
            | None => Fail (new_error ("No mapping found of issuer " ++ fmt_quoted unverifiedIssuer ++ " to JWKS URI"))
            | Some uri =>
                match cache_Fetch uri with
                | Fail e => Fail e
                | Ok keys => rbind (jwt_ParseString token (verified_options r keys)) subject_of
                end
            end
      end
  end.

(** once an issuer is allowed, a bearer token names a subject only after it was verified and
    validated, with the configured audience, against the keys of an allowed issuer, the one that the
    token itself names; tokens of any other issuer are refused. *)
Theorem jwt_subject_verified r token sub :
  issuerToConfig r <> ∅ -> jwt_ResolveSubject r token = Ok sub ->
  exists unverified issuer uri keys c,
    jwt_ParseString token (MkParse false false None None None) = Ok unverified /\
    Issuer unverified = Some issuer /\ issuerToConfig r !! issuer = Some uri /\ cache_Fetch uri = Ok keys /\
    jwt_ParseString token (verified_options r keys) = Ok c /\ Subject_ c = Some sub.
Proof.
  intros Hne. unfold jwt_ResolveSubject.
  destruct (jwt_ParseString token _) as [u|e] eqn:U; [|done].
  destruct (Issuer u) as [[|a i]|] eqn:I; [done| |done]. rewrite decide_False by done.
  destruct (issuerToConfig r !! String a i) as [uri|] eqn:C; [|done].
  destruct (cache_Fetch uri) as [keys|e] eqn:F; [|done].
  destruct (jwt_ParseString token (verified_options r keys)) as [c|e] eqn:P; [|done]. cbn [rbind].
  unfold subject_of. destruct (Subject_ c) as [s|] eqn:S; [|done]. intros [= <-]. eauto 15.
Qed.

Lemma hydrate_dom fetch issuers : forall m m',
  hydrate fetch issuers m = Ok m' -> dom m' = dom m ∪ list_to_set issuers.
Proof.
  induction issuers as [|i issuers IH]; cbn [hydrate list_to_set]; intros m m'.
  - intros [= <-]. set_solver.
  - destruct (fetch i) as [uri|e]; [|done]. intros H. rewrite (IH _ _ H), dom_insert_L. set_solver.
Qed.
End Jwt.

(** ** Properties of the middleware *)

(** The key of a header: what follows a [basic] scheme, and nothing otherwise. *)
Lemma parseAuthHeader_spec h key :
  parseAuthHeader h "basic" = Ok key <->
  exists scheme, h = scheme +:+ String " " key /\ contains " " scheme = false /\ EqualFold scheme "basic" = true.
Proof.
  unfold parseAuthHeader. pose proof (Cut_spec " " h) as Hc. split.
  - destruct (Cut " " h) as [[scheme header] ok]. destruct Hc as [Hs Hc].
    destruct ok; cbn [negb]; [|done]. destruct (EqualFold scheme "basic") eqn:E; cbn [negb]; [|done].
    intros [= ->]. eauto.
  - intros (scheme & -> & Hs & He). rewrite Cut_app by done. cbn [negb]. by rewrite He.
Qed.

(** A valid header: the [basic] scheme and a configured key. *)
Definition valid_header (cfg : AuthnConfig) (h : string) : Prop :=
  exists scheme key, h = scheme +:+ String " " key /\ contains " " scheme = false /\
    EqualFold scheme "basic" = true /\ is_Some (APIKeys cfg !! key).

Lemma authenticate_key cfg path h :
  EnableAnonymous (ForPath (auth_Options cfg) path) = false -> APIKeys cfg <> ∅ ->
  EnableAPIKey (ForPath (auth_Options cfg) path) = true -> APIKeys cfg !! "" = None ->
  authenticate cfg path h = None <-> valid_header cfg h.
Proof.
  intros Ha Hk He Hempty. unfold authenticate. rewrite Ha, He, bool_decide_eq_false_2 by done. cbn [negb orb].
  unfold valid_header. destruct (parseAuthHeader h "basic") as [key|e] eqn:P.
  - apply parseAuthHeader_spec in P as (scheme & -> & Hs & Hf). split.
    + destruct (APIKeys cfg !! key) as [v|] eqn:K; [|done]. intros _. exists scheme, key. rewrite K. eauto.
    + intros (s' & k' & E & Hs' & _ & [v Hv]). apply sep_inj in E as [_ <-]; [|done..]. by rewrite Hv.
  - rewrite Hempty. split; [done|]. intros (scheme & key & E & Hs & Hf & _).
    assert (parseAuthHeader h "basic" = Ok key) as E' by (apply parseAuthHeader_spec; eauto). congruence.
Qed.

Lemma transposeKeys_lookup l : forall (m : gmap string string) k,
  is_Some (fold_left (fun m k => <[k := ""]> m) l m !! k) <-> k ∈ l \/ is_Some (m !! k).
Proof.
  induction l as [|x l IH]; cbn [fold_left]; intros m k.
  - rewrite elem_of_nil. tauto.
  - rewrite IH, lookup_insert_is_Some', elem_of_cons. naive_solver.
Qed.

Lemma validation_keys v c c' :
  validation v c = Ok c' ->
  (forall k, is_Some (APIKeys c' !! k) <-> k ∈ Keys_ c \/ is_Some (APIKeys c !! k)) /\
  (APIKeys c' <> ∅ -> EnableAnonymous (Default_ (auth_Options c')) = EnableAnonymous (Default_ (auth_Options c))) /\
  (APIKeys c' <> ∅ -> EnableAPIKey (Default_ (auth_Options c')) = true).
Proof.
  unfold validation. do 2 (case_match; [done|]). destruct (Services v); [done|]. intros [= <-].
  cbn [transposeKeys APIKeys auth_Options Keys_ setDefaultCallsAuthz Default_ Overrides].
  split; [intros k; apply transposeKeys_lookup|]. case_decide; by split.
Qed.

(** C25: once a key is configured and anonymous access is not, a request to a path that no
    override covers is let through exactly when it carries, under the [basic] scheme, one of the
    configured keys: validating the configuration turns the check on, and the deprecated and the
    current list of keys both count.  The empty string must not be one of the keys. *)
Theorem api_key_required v c c' path h :
  validation v c = Ok c' -> (exists k, k ∈ Keys_ c \/ is_Some (APIKeys c !! k)) ->
  "" ∉ Keys_ c -> APIKeys c !! "" = None -> EnableAnonymous (Default_ (auth_Options c)) = false ->
  ForPath_loop path (Overrides (auth_Options c')) = None ->
  authenticate c' path h = None <->
  exists scheme key, h = scheme +:+ String " " key /\ contains " " scheme = false /\
    EqualFold scheme "basic" = true /\ (key ∈ Keys_ c \/ is_Some (APIKeys c !! key)).
Proof.
  intros (Hk & Hd1 & Hd2)%validation_keys [k0 Hk0] Hn1 Hn2 Han Hpath.
  assert (ForPath (auth_Options c') path = Default_ (auth_Options c')) as HF
    by (unfold ForPath; by rewrite Hpath).
  assert (APIKeys c' <> ∅) as Hne by (intros E; apply Hk in Hk0 as [? Hx]; by rewrite E, lookup_empty in Hx).
  rewrite authenticate_key; rewrite ?HF, ?Hd1, ?Hd2; try done.
  - unfold valid_header. by setoid_rewrite Hk.
  - apply eq_None_not_Some. rewrite Hk, Hn2. intros [?|[? ?]]; done.
Qed.

(** an empty API key in the configuration turns authentication off: a request without any
    credentials is let through on every path. *)
Theorem empty_key_admits_all cfg path :
  is_Some (APIKeys cfg !! "") -> authenticate cfg path "" = None.
Proof.
  intros [v Hv]. unfold authenticate. do 2 (case_match; [done|]). cbn. by rewrite Hv.
Qed.

(** The default override names the v1 reflection service with a dot where its path has a slash, so
    the path of the service is not exempt; the v1alpha one is. *)
Theorem reflection_v1_not_exempt v c :
  (0 < length (Services v))%nat -> Contains (Services v) "authorizer" = false -> Overrides (auth_Options c) = [] ->
  exists c', validation v c = Ok c' /\
    ForPath (auth_Options c') "/grpc.reflection.v1alpha.ServerReflection/ServerReflectionInfo" = MkOptions false true /\
    ForPath (auth_Options c') "/grpc.reflection.v1.ServerReflection/ServerReflectionInfo" = Default_ (auth_Options c').
Proof.
  intros Hs Ha Ho. unfold validation. rewrite Ha. cbn [andb]. destruct (Services v); [by simpl in Hs; lia|].
  eexists. split; [done|]. unfold setDefaultCallsAuthz. cbn [auth_Options transposeKeys]. rewrite Ho.
  by split; vm_compute.
Qed.

Module AuthnExamples.
Definition conf : AuthnConfig := MkAuthn ∅ (MkCallOptions (MkOptions false false) []) ["s3cret"].
Definition view0 : ConfigView := MkConfigView ["reader"] true "" 0.
Definition conf' : AuthnConfig := match validation view0 conf with Ok c => c | Fail _ => conf end.

Lemma api_key_required_witness : authenticate conf' "/aserto.reader/Get" "BASIC s3cret" = None.
Proof.
  apply (api_key_required view0 conf conf' "/aserto.reader/Get" "BASIC s3cret").
  - vm_compute. reflexivity.
  - exists "s3cret". left. left.
  - cbn. rewrite list_elem_of_singleton. discriminate.
  - reflexivity.
  - reflexivity.
  - vm_compute. reflexivity.
  - exists "BASIC", "s3cret". split_and!; [reflexivity|reflexivity|reflexivity|]. left. left.
Defined.

Lemma empty_key_admits_all_witness :
  authenticate (MkAuthn {["" := ""]} (MkCallOptions (MkOptions true false) []) [""]) "/aserto.writer/Set" "" = None.
Proof.
  apply (empty_key_admits_all (MkAuthn {["" := ""]} (MkCallOptions (MkOptions true false) []) [""]) "/aserto.writer/Set").
  exists "". vm_compute. reflexivity.
Defined.

(** A token is its issuer; it verifies with the key of the same name. *)
#[export] Instance jwt : Jwt := {|
  keyset := string;
  jwt_ParseString := fun token o =>
    match po_keyset _ o with
    | Some k => if String.eqb k token then Ok (MkClaims (Some token) (Some "bob"))
                else Fail (new_error "could not verify message")
    | None => if po_verify _ o then Fail (new_error "no key") else Ok (MkClaims (Some token) (Some "eve"))
    end;
  cache_Fetch := fun uri => Ok uri;
  fmt_quoted := fun s => s |}.

Lemma jwt_subject_verified_witness :
  exists uri keys, ({["acme" := "acme"]} : gmap string string) !! "acme" = Some uri /\ cache_Fetch uri = Ok keys.
Proof.
  destruct (jwt_subject_verified (MkResolver {["acme" := "acme"]} "" 0) "acme" "bob")
    as (u & i & uri & keys & c & H1 & H2 & H3 & H4 & _).
  - discriminate.
  - vm_compute. reflexivity.
  - injection H1 as <-. injection H2 as <-. exists uri, keys. split; [exact H3|exact H4].
Defined.
End AuthnExamples.
