(* ===== verification/EndToEnd.v ===== *)
(** * A decision for the holder of a token, through every component

    The access server with the JWT resolver as its [ResolveSubject] and the directory's reader, over
    the BoltDB store, as its [ResolveIdentity]: the way [daemon/authorizer] is wired by the daemon. *)
From S2P Require Import Prelude Bytes Text Messages Keys Store Bolt Bdb BdbTx Ds Service Instances BoltFacts Reader.
From S2P Require Import Policies Headers Adl Identity Authorizer AuthzFacts Authn.

Section EndToEnd.
Context {model : Type} `{B : Bolt} `{BL : !BoltLaws B} `{CO : Codecs model} `{CL : !CodecsLaws model CO}.
Context `{A : Azm model} `{AL : !AzmLaws model A} `{V : Validator} `{R : Rego} `{J : Jwt}.
Context (reason_of : Context -> option string) (ErrRelationTypeNotFound_text : string).
Context (range : gmap string Object -> list (string * Object)).
Hypothesis range_all : forall m, range m ≡ₚ map_to_list m.

Abbreviation direction_of client := (resolutionDirection reason_of ErrRelationTypeNotFound_text client).
Abbreviation resolve_with client := (ResolveIdentity reason_of ErrRelationTypeNotFound_text range client).

(** An identity that resolves is one that the reader accepts. *)
Lemma resolved_valid mc identity (t : @tx model bolt_tx) u :
  let dirn := direction_of (local_client mc t) in
  resolve_with (local_client mc t) identity = Ok u ->
  bdb.isSet identity = true /\ validator_GetRelationRequest (identity_request dirn identity) = None /\
  relations_Validate mc (safe_GetRelation (identity_request dirn identity)) = None.
Proof.
  intros dirn H.
  assert (resolveIdentityToUser range (local_client mc t) (identity_request dirn identity) = Ok u) as H'.
  { rewrite <-H. unfold ResolveIdentity. fold dirn. by destruct dirn. }
  unfold resolveIdentityToUser in H'. cbn [local_client client_GetRelation] in H'.
  destruct (Reader_GetRelation _ _ _ _ _) as [reply|e] eqn:G; [|by destruct (is_not_found e)]. clear H'.
  unfold Reader_GetRelation in G.
  destruct (validator_GetRelationRequest _) eqn:Hv; [done|]. destruct (relations_Validate _ _) eqn:Hm; [done|].
  split_and!; try done. unfold ds.PathAndFilter, ds.direction in G.
  rewrite safe_GetRelation_ident, !IsComplete_isSet in G.
  destruct dirn; cbn [identity_request object_type object_id subject_type subject_id] in G;
    change (bdb.isSet User) with true in G; change (bdb.isSet Identity) with true in G;
    change (bdb.isSet "") with false in G; by destruct (bdb.isSet identity).
Qed.

(** The user that an identity resolves to is the one that a single stored relation links to it. *)
Lemma resolved_linked mc identity (t : @tx model bolt_tx) d u :
  let dirn := direction_of (local_client mc t) in
  repr t d -> wf_part identity -> resolve_with (local_client mc t) identity = Ok u ->
  exists i, (forall i', is_Some (d_rels d !! i') /\ identifies dirn identity i' <-> i' = i) /\
            u = shown d (User, (far (near dirn) i).2).
Proof.
  intros dirn Hr Hwf Hu. destruct (resolved_valid mc identity t u Hu) as (Hs & Hv & Hm).
  destruct (resolve_identity_cases reason_of ErrRelationTypeNotFound_text range range_all mc identity t d Hr Hs
    Hwf Hv Hm) as [(i & Hl & Huniq & Ei)|[[_ Ei]|(? & ? & _ & _ & _ & Ei)]];
    pose proof (eq_trans (eq_sym Hu) Ei) as E; [|done..]. injection E as ->.
  exists i. split; [|done]. intros i'. split; [apply Huniq|by intros ->].
Qed.

(** The user in the input of a request with a token. *)
Lemma input_token ResolveSubject ResolveIdentity req token input user :
  identityContext (q_subject req) = MkIdentity IDENTITY_TYPE_JWT token ->
  authz_input ResolveSubject ResolveIdentity req (identityContext (q_subject req)) = Ok (input, user) ->
  exists sub u, ResolveSubject token = Ok sub /\ ResolveIdentity sub = Ok u /\ user = Some u /\
    input !! InputUser = Some (InUser u).
Proof.
  intros ->. unfold authz_input, resolveIdentityContext, resolveSubjectFromIdentityContext, resolveUserFromSubject.
  cbn [ic_type ic_identity]. repeat case_decide; try done. destruct (String.eqb token ""); [done|].
  destruct (ResolveSubject token) as [sub|e] eqn:E; [|done]. destruct (ResolveIdentity sub) as [u|e] eqn:E'; [|done].
  intros [= <- <-]. exists sub, u. rewrite E'. split_and!; try done.
Qed.

Context (marshal_err write_err : log_record -> option err) (adl : option Logger) (tc : TraceContext) (now : Z).

(** C1: Whoever is granted access with a bearer token is a user that the directory links to the token.  Once an
    issuer is allowed, while the query cache holds what the loaded policies would give ([coherent]: so it starts, and
    requests and reloads one after the other keep it so; a reload that overtakes a request can break it) and no
    package path has the cache's separator, a positive answer to a request with a token means that the token was
    verified against the keys of an allowed issuer, that the rule of the action granted on an input whose user is the
    one that the token's subject resolves to, and that this user is the one that exactly one stored relation links
    to the subject (for a subject without the separator of the store's keys): the user's stored object or, when the
    relation names a user without one, a bare type and id. *)
Theorem grant_to_linked_user resolver mc (t : @tx model bolt_tx) d rt req token c w resp c' w' :
  let client := local_client mc t in
  let dirn := direction_of client in
  repr t d -> issuerToConfig resolver <> ∅ -> coherent rt c -> clean_runtime rt ->
  identityContext (q_subject req) = MkIdentity IDENTITY_TYPE_JWT token ->
  AccessServer_Evaluation (jwt_ResolveSubject resolver) (resolve_with client) marshal_err write_err adl tc now
    (Ok rt) req c w = (resp, None, c', w') ->
  r_decision resp = true ->
  exists issuer uri keys cl sub user,
    (issuerToConfig resolver !! issuer = Some uri /\ cache_Fetch uri = Ok keys /\
     jwt_ParseString token (verified_options resolver keys) = Ok cl /\ Subject_ cl = Some sub) /\
    (wf_part sub ->
     exists i, (forall i', is_Some (d_rels d !! i') /\ identifies dirn sub i' <-> i' = i) /\
               user = shown d (User, (far (near dirn) i).2)) /\
    exists pkgs path query input bindings rest b,
      GetPolicyPackages (rt_store rt) = (pkgs, None) /\ select_policy rt (q_context req) pkgs = Ok path /\
      prepare rt path [GetName (q_action req)] = Ok query /\ input !! InputUser = Some (InUser user) /\
      query_Eval query (rt_store rt) input = Ok (bindings :: rest) /\ bindings !! bindingName 0 = Some b /\
      (b = BBool true \/ exists fields, b = BMap fields /\ fields !! decisionField = Some (FBool true)).
Proof.
  intros client dirn Hr Hne Hc Hcl Hid H Hd.
  unfold AccessServer_Evaluation, evaluation in H. cbn [getRuntime] in H.
  destruct (evaluate_coherent (jwt_ResolveSubject resolver) (resolve_with client) rt req c Hc Hcl) as (c1 & E & _).
  rewrite E in H. destruct (evaluate_ref _ _ rt req) as [[r m] e] eqn:Er.
  destruct (log _ _ _ _ _ _ _ _ _ _) as [logErr w1]. injection H as <- He _ _.
  assert (e = None) as -> by (by destruct e, logErr).
  destruct (evaluate_ref_granted _ _ rt req r m Er Hd)
    as (pkgs & path & input & user & query & bs & rest & b & H1 & H2 & H3 & H4 & H5 & H6 & H7 & _).
  destruct (input_token _ _ _ token input user Hid H3) as (sub & u & Hsub & Hu & _ & Hin).
  destruct (jwt_subject_verified resolver token sub Hne Hsub)
    as (un & issuer & uri & keys & cl & _ & _ & K1 & K2 & K3 & K4).
  exists issuer, uri, keys, cl, sub, u. split; [done|]. split; [|by exists pkgs, path, query, input, bs, rest, b].
  intros Hwf. by eapply resolved_linked.
Qed.
End EndToEnd.

Module EndToEndExamples.
Import Concrete IdentityExamples AuthzExamples.

(** The keys of [acme] verify the token [acme], whose subject is [bob@acme]. *)
Definition acme_jwt : Jwt := {|
  keyset := string;
  jwt_ParseString := fun token o =>
    if po_verify _ o then
      if bool_decide (po_keyset _ o = Some token) then Ok (MkClaims (Some token) (Some "bob@acme"))
      else Fail (new_error "could not verify message")
    else Ok (MkClaims (Some token) (Some "eve"));
  cache_Fetch := fun uri => Ok uri;
  fmt_quoted := fun s => s |}.

Definition not_found_text : string := "E20025 relation type not found".
Definition resolver : jwtResolver := MkResolver {["acme" := "acme"]} "" 0.
Definition granted :=
  AccessServer_Evaluation (jwt_ResolveSubject (J := acme_jwt) resolver)
    (Identity.ResolveIdentity IdentityExamples.reason_of not_found_text map_to_list (local_client mc0 id_db))
    fine fine (Some stdout_logger) tc0 0 (Ok rt1) (ask "acme") newPreparedQueryCache empty_trail.

Lemma grant_to_linked_user_witness :
  r_decision granted.1.1.1 = true /\
  exists user (input : rego_input), input !! InputUser = Some (InUser user) /\
    exists i, is_Some (d_rels id_dir !! i) /\ user = shown id_dir (User, (far (near userToIdentity) i).2).
Proof.
  split; [vm_compute; reflexivity|].
  destruct (grant_to_linked_user (J := acme_jwt) IdentityExamples.reason_of not_found_text map_to_list (fun m => Permutation_refl _)
    fine fine (Some stdout_logger) tc0 0 resolver mc0 id_db id_dir rt1 (ask "acme") "acme" newPreparedQueryCache
    empty_trail granted.1.1.1 granted.1.2 granted.2)
    as (issuer & uri & keys & cl & sub & user & (K1 & K2 & K3 & K4) & Hl & pkgs & path & query & input & bs & rest & b
        & _ & _ & _ & Hin & _).
  - exact id_db_repr.
  - discriminate.
  - apply coherent_new.
  - by apply rt_clean.
  - reflexivity.
  - apply no_error'. vm_compute. reflexivity.
  - vm_compute. reflexivity.
  - exists user, input. split; [exact Hin|].
    assert (resolutionDirection IdentityExamples.reason_of not_found_text (local_client mc0 id_db) = userToIdentity) as E
      by (vm_compute; reflexivity).
    rewrite E in Hl. destruct Hl as (i & Hi & ->).
    + cbn [acme_jwt jwt_ParseString verified_options po_verify po_keyset] in K3.
      case_bool_decide; [|discriminate K3]. injection K3 as <-. injection K4 as <-. reflexivity.
    + exists i. split; [apply (Hi i); reflexivity|reflexivity].
Defined.
End EndToEndExamples.
