(* ===== verification/Entra.v ===== *)
(** * The Entra ID plugin

    [daemon/authorizer/plugins/entra/plugin.go]: users, groups and memberships of an Entra ID tenant
    are written to the directory.  Microsoft Graph is a network service: what a client lists is an
    argument.  The writer is a client interface ([WriterClient]); [local_writer] is the modelled
    writer service over a transaction, and the theorems are about the two together. *)
From S2P Require Import Prelude Bytes Text Messages Keys Store Bolt Bdb BdbTx Ds Service Instances BoltFacts Writer.
From S2P Require Import Reader Identity.

(** ** Configuration *)

Definition defaultPollIntervalSec : Z := 300.
Definition defaultUserObjectType : string := "user".
Definition defaultGroupObjectType : string := "group".
Definition defaultMemberRelation : string := "member".
Definition graphFieldMail : string := "mail".

Record EntraConfig := MkEntra {
  TenantID : string; ClientID : string; ClientSecret : string;
  PollIntervalSeconds : Z;
  UserObjectType : string; GroupObjectType : string; MemberRelation : string }.

Definition pollInterval (cfg : EntraConfig) : Z :=
  if (PollIntervalSeconds cfg <=? 0)%Z then defaultPollIntervalSec else PollIntervalSeconds cfg.
Definition userObjectType (cfg : EntraConfig) : string :=
  if String.eqb (UserObjectType cfg) "" then defaultUserObjectType else UserObjectType cfg.
Definition groupObjectType (cfg : EntraConfig) : string :=
  if String.eqb (GroupObjectType cfg) "" then defaultGroupObjectType else GroupObjectType cfg.
Definition memberRelation (cfg : EntraConfig) : string :=
  if String.eqb (MemberRelation cfg) "" then defaultMemberRelation else MemberRelation cfg.

(** ** What Microsoft Graph lists: every field is a pointer *)

Record GraphGroup := MkGroup { g_id : option string; g_displayName : option string; g_mail : option string }.
(** [memberOf] also has directory roles and other objects. *)
Inductive GraphMember := MemberGroup (g : GraphGroup) | MemberOther.
Record GraphUser := MkUser {
  u_id : option string; u_displayName : option string; u_mail : option string;
  u_userPrincipalName : option string; u_memberOf : list GraphMember }.

Record graphLister := MkLister { listUsers : res (list GraphUser); listGroups : res (list GraphGroup) }.

Definition stringValue (s : option string) : string := default "" s.

(** The two calls of [dsw.WriterClient] that are used. *)
Record WriterClient (S : Type) := MkWriterClient {
  client_SetObject : Object -> M S unit;
  client_SetRelation : RelationIdentifier -> M S unit }.
Arguments client_SetObject {S} _ _.
Arguments client_SetRelation {S} _ _.

Section Sync.
Context {S : Type} (writer : WriterClient S).
(** [structpb.NewStruct] of string values, which it may refuse. *)
Context (NewStruct : gmap string string -> res (gmap string Messages.Value)).

Definition user_props (u : GraphUser) : gmap string string :=
  <["display_name" := stringValue (u_displayName u)]> (<[graphFieldMail := stringValue (u_mail u)]>
  {["user_principal_name" := stringValue (u_userPrincipalName u)]}).
Definition group_props (g : GraphGroup) : gmap string string :=
  <["display_name" := stringValue (g_displayName g)]> {[graphFieldMail := stringValue (g_mail g)]}.

Definition synced_object (ty : string) (id : option string) (props : gmap string Messages.Value) : Object :=
  MkObject ty (stringValue id) "" (Some props) None None "".
Definition identifier_of (cfg : EntraConfig) (u : GraphUser) : RelationIdentifier :=
  MkIdent (userObjectType cfg) (stringValue (u_id u)) Identifier Identity
    (stringValue (u_userPrincipalName u)) "".
Definition membership_of (cfg : EntraConfig) (group : GraphGroup) (u : GraphUser) : RelationIdentifier :=
  MkIdent (groupObjectType cfg) (stringValue (g_id group)) (memberRelation cfg)
    (userObjectType cfg) (stringValue (u_id u)) "".

Definition setUserIdentifier (cfg : EntraConfig) (u : GraphUser) : M S unit :=
  if String.eqb (stringValue (u_userPrincipalName u)) "" then ret tt
  else wrapped "set identifier relation" (client_SetRelation writer (identifier_of cfg u)).

Definition setUser (cfg : EntraConfig) (u : GraphUser) : M S unit :=
  let! props := lift (rwrap "build user properties" (NewStruct (user_props u))) in
  do! wrapped "set object" (client_SetObject writer (synced_object (userObjectType cfg) (u_id u) props));
  setUserIdentifier cfg u.

Definition setGroup (cfg : EntraConfig) (g : GraphGroup) : M S unit :=
  let! props := lift (rwrap "build group properties" (NewStruct (group_props g))) in
  wrapped "set object" (client_SetObject writer (synced_object (groupObjectType cfg) (g_id g) props)).

Definition setMembership (cfg : EntraConfig) (group : GraphGroup) (u : GraphUser) : M S unit :=
  wrapped "set relation" (client_SetRelation writer (membership_of cfg group u)).

Definition syncUserMemberships (cfg : EntraConfig) (u : GraphUser) : M S unit :=
  for_each (fun member =>
    match member with
    | MemberOther => ret tt
    | MemberGroup group =>
        wrapped ("sync membership of user '" ++ stringValue (u_id u) ++ "' in group '" ++
                 stringValue (g_id group) ++ "'")
          (setMembership cfg group u)
    end) (u_memberOf u).

Definition entra_sync (newClient : string -> string -> string -> res graphLister) (cfg : EntraConfig) : M S unit :=
  let! graph := lift (rwrap "create graph client" (newClient (TenantID cfg) (ClientID cfg) (ClientSecret cfg))) in
  let! groupList := lift (rwrap "list entra groups" (listGroups graph)) in
  do! for_each (fun g => wrapped ("sync group '" ++ stringValue (g_id g) ++ "'") (setGroup cfg g)) groupList;
  let! userList := lift (rwrap "list entra users" (listUsers graph)) in
  for_each (fun u =>
    do! wrapped ("sync user '" ++ stringValue (u_id u) ++ "'") (setUser cfg u);
    syncUserMemberships cfg u) userList.

(** The error is logged. *)
Definition runSync (newClient : string -> string -> string -> res graphLister) (cfg : EntraConfig) (s : S) : S :=
  (entra_sync newClient cfg s).2.
End Sync.

(** The writer service as the client: the state is the number of the call, which the clock reads,
    and the store. *)
Definition local_writer {model} `{T : TxOps model} `{A : Azm model} `{SO : !StoreOps model} `{V : Validator}
    (mc : cache) (clock : nat -> Timestamp) : WriterClient (nat * tx) :=
  let call {R} (f : Timestamp -> M tx R) : M (nat * tx) unit := fun '(n, t) =>
    let '(r, t') := f (clock n) t in (rmap (fun _ => tt) r, (S n, t')) in
  MkWriterClient _
    (fun o => call (fun ts => Writer_SetObject mc (MkHeaders "" []) ts (Some o)))
    (fun i => call (fun ts => Writer_SetRelation mc (MkHeaders "" []) ts (Some (MkRelation i None None "")))).

(** ** What a pass writes *)

Section Facts.
Context {model : Type} `{T : TxOps model} `{L : !TxLaws model T} `{A : Azm model} `{AL : !AzmLaws model A}.
Context `{SO : !StoreOps model} `{V : Validator} (mc : @cache model A) (clock : nat -> Timestamp).
Implicit Types d : directory model.

(** [d'] is [d] with the objects [O], given with their etags, and the relations [R] in place. *)
Definition written (O : gmap (string * string) string) (R : gset RelationIdentifier) d d' : Prop :=
  (forall k, O !! k = None -> d_objs d' !! k = d_objs d !! k) /\
  (forall k etag, O !! k = Some etag -> exists o, d_objs d' !! k = Some o /\ o_etag o = etag) /\
  (forall i, i ∉ R -> d_rels d' !! i = d_rels d !! i) /\
  (forall i, i ∈ R -> is_Some (d_rels d' !! i)) /\
  (d_metadata d', d_body d', d_model d') = (d_metadata d, d_body d, d_model d).

Lemma written_refl d : written ∅ ∅ d d.
Proof. split_and!; set_solver. Qed.

Lemma written_trans O1 R1 O2 R2 d d1 d2 :
  written O1 R1 d d1 -> written O2 R2 d1 d2 -> written (O2 ∪ O1) (R1 ∪ R2) d d2.
Proof.
  intros (A1 & A2 & A3 & A4 & A5) (B1 & B2 & B3 & B4 & B5). split_and!.
  - intros k [H2 H1]%lookup_union_None. by rewrite B1, A1.
  - intros k e [H|[Hn H]]%lookup_union_Some_raw; [by apply B2|]. rewrite B1 by done. by apply A2.
  - intros i Hi. rewrite B3, A3; set_solver.
  - intros i Hi. destruct (decide (i ∈ R2)); [by apply B4|]. rewrite B3 by done. apply A4. set_solver.
  - congruence.
Qed.

(** A computation over the store that writes [O] and [R], or stops in the middle. *)
Definition writes {X} (m : M (nat * tx) X) (O : gmap (string * string) string) (R : gset RelationIdentifier) : Prop :=
  forall n t d r n' t', repr t d -> m (n, t) = (r, (n', t')) ->
  exists d' O' R', repr t' d' /\ written O' R' d d' /\ dom O' ⊆ dom O /\ R' ⊆ R /\
    (is_ok r = true -> O' = O /\ R' = R).

Lemma writes_lift {X} (r : res X) O R : (is_ok r = true -> O = ∅ /\ R = ∅) -> writes (lift r) O R.
Proof.
  intros H n t d r' n' t' Hr [= <- <- <-]. exists d, ∅, ∅. split_and!; [done|apply written_refl|set_solver..|].
  intros ?. destruct H; [done|]. by subst.
Qed.
Lemma writes_ret {X} (x : X) : writes (ret x) ∅ ∅.
Proof. by apply (writes_lift (Ok x)). Qed.

Lemma writes_bind {X Y} (m : M (nat * tx) X) (f : X -> M (nat * tx) Y) O1 R1 O2 R2 :
  writes m O1 R1 -> (forall x, writes (f x) O2 R2) -> writes (bind m f) (O2 ∪ O1) (R1 ∪ R2).
Proof.
  intros Hm Hf n t d r n' t' Hr [(x & [n1 t1] & E1 & E2)|(e & E & ->)]%bind_inv.
  - destruct (Hm _ _ _ _ _ _ Hr E1) as (d1 & O1' & R1' & Hr1 & W1 & _ & _ & [-> ->]); [done|].
    destruct (Hf x _ _ _ _ _ _ Hr1 E2) as (d2 & O2' & R2' & Hr2 & W2 & S1 & S2 & H2).
    exists d2, (O2' ∪ O1), (R1 ∪ R2'). split_and!; [done|by eapply written_trans|set_solver|set_solver|].
    intros [-> ->]%H2. done.
  - destruct (Hm _ _ _ _ _ _ Hr E) as (d1 & O1' & R1' & Hr1 & W1 & S1 & S2 & _).
    exists d1, O1', R1'. split_and!; [done|done|set_solver|set_solver|done].
Qed.

Lemma writes_wrapped {X} msg (m : M (nat * tx) X) O R : writes m O R -> writes (wrapped msg m) O R.
Proof.
  intros Hm n t d r n' t' Hr. unfold wrapped. destruct (m (n, t)) as [r0 [n0 t0]] eqn:E. intros [= <- <- <-].
  destruct (Hm _ _ _ _ _ _ Hr E) as (d' & O' & R' & ? & ? & ? & ? & H). exists d', O', R'.
  split_and!; try done. by destruct r0.
Qed.

(** The objects and relations of a list, the last entry of an object being the one that counts. *)
Definition all_objects {X} (O : X -> gmap (string * string) string) (l : list X) : gmap (string * string) string :=
  foldr (fun x acc => acc ∪ O x) ∅ l.
Definition all_relations {X} (R : X -> gset RelationIdentifier) (l : list X) : gset RelationIdentifier :=
  foldr (fun x acc => R x ∪ acc) ∅ l.

Lemma writes_for_each {X} (f : X -> M (nat * tx) unit) O R l :
  (forall x, x ∈ l -> writes (f x) (O x) (R x)) -> writes (for_each f l) (all_objects O l) (all_relations R l).
Proof.
  induction l as [|x l IH]; intros Hf; [apply writes_ret|]. cbn [for_each all_objects all_relations foldr].
  apply writes_bind; [apply Hf; left|]. intros _. apply IH. intros y Hy. apply Hf. by right.
Qed.

Abbreviation writer := (local_writer mc clock).

Lemma writes_SetObject o :
  wf_type (o_type o) -> o_etag o = "" ->
  writes (client_SetObject writer o) {[(o_type o, o_id o) := object_Hash o]} ∅.
Proof.
  intros Hw He n t d r n' t' Hr. cbn [local_writer client_SetObject].
  destruct (Writer_SetObject _ _ _ _ t) as [r0 t0] eqn:E. intros [= <- _ <-].
  assert (wf_call (CallSetObject (Some o))) as Hc by (by intros ? [= <-]).
  pose proof (SetObject_refines mc _ _ _ _ _ _ _ Hr Hc E) as Href. destruct r0 as [o'|e]; cbn in Href.
  2: { subst t0. exists d, ∅, ∅. split_and!; [done|apply written_refl|set_solver..|done]. }
  destruct Href as (d' & Hr' & Hstep). exists d', {[(o_type o, o_id o) := object_Hash o]}, ∅.
  split_and!; [done| |done|done|done].
  inversion Hstep as [d0 o0 _ Hs|d0 o0 _ Hs| | | |]; subst.
  - assert (exists c, d_objs d' !! (o_type o, o_id o) = Some c /\ o_etag c = object_Hash o) as Hst.
    { unfold object_etag in Hs. destruct (d_objs d' !! _) as [c|]; [|by edestruct object_Hash_set].
      exists c. split; [done|]. rewrite He in Hs. revert Hs. case_match; [intros; by edestruct object_Hash_set|done]. }
    split_and!; [done| |done|set_solver|done].
    intros k e [<- <-]%lookup_singleton_Some. done.
  - split_and!; [|by intros k e [<- <-]%lookup_singleton_Some; eexists; cbn; rewrite lookup_insert_eq|done|set_solver|done].
    intros k Hk%lookup_singleton_None. cbn. by rewrite lookup_insert_ne.
Qed.

Lemma writes_SetRelation i :
  wf_ident i -> writes (client_SetRelation writer i) ∅ {[i]}.
Proof.
  intros Hw n t d r n' t' Hr. cbn [local_writer client_SetRelation].
  destruct (Writer_SetRelation _ _ _ _ t) as [r0 t0] eqn:E. intros [= <- _ <-].
  assert (wf_call (CallSetRelation (Some (MkRelation i None None "")))) as Hc by (by intros ? [= <-]).
  pose proof (SetRelation_refines mc _ _ _ _ _ _ _ Hr Hc E) as Href. destruct r0 as [o'|e]; cbn in Href.
  2: { subst t0. exists d, ∅, ∅. split_and!; [done|apply written_refl|set_solver..|done]. }
  destruct Href as (d' & Hr' & Hstep). exists d', ∅, {[i]}. split_and!; [done| |done|done|done].
  inversion Hstep as [| |d0 o0 _ Hs|d0 o0 _ Hs| |]; subst.
  - assert (is_Some (d_rels d' !! i)).
    { unfold relation_etag in Hs. cbn in Hs. destruct (d_rels d' !! i); [done|]. by edestruct relation_Hash_set. }
    split_and!; [done|done|done|set_solver|done].
  - split_and!; [done|done| | |done].
    + intros j Hj. cbn. rewrite lookup_insert_ne; [done|set_solver].
    + intros j ->%elem_of_singleton. cbn. rewrite lookup_insert_eq. eauto.
Qed.

Lemma inj_on_NoDup {X Y} (f : X -> Y) l x y : NoDup (map f l) -> x ∈ l -> y ∈ l -> f x = f y -> x = y.
Proof.
  intros Hnd Hx Hy E. apply list_elem_of_lookup in Hx as [i Hi], Hy as [j Hj].
  assert (i = j) as ->; [|congruence].
  apply (NoDup_lookup (f <$> l) i j (f x)); [done|by rewrite list_lookup_fmap, Hi|by rewrite list_lookup_fmap, Hj, E].
Qed.

(** *** The pass *)

Context (NewStruct : gmap string string -> res (gmap string Messages.Value)).

(** Names that keep the separators of the store's keys apart. *)
Definition wf_tenant (cfg : EntraConfig) (users : list GraphUser) : Prop :=
  wf_type (userObjectType cfg) /\ wf_type (groupObjectType cfg) /\ wf_part (memberRelation cfg) /\
  Forall (fun u =>
    wf_part (stringValue (u_id u)) /\ wf_part (stringValue (u_userPrincipalName u)) /\
    (forall g, MemberGroup g ∈ u_memberOf u -> wf_part (stringValue (g_id g)))) users.

(** The etag that a synced object ends up with; a pass with refused properties does not end well. *)
Definition synced_etag (ty : string) (id : option string) (props : gmap string string) : string :=
  match NewStruct props with Ok p => object_Hash (synced_object ty id p) | Fail _ => "" end.
Definition object_of (ty : string) (id : option string) (props : gmap string string) : gmap (string * string) string :=
  {[(ty, stringValue id) := synced_etag ty id props]}.
Definition user_objects cfg u := object_of (userObjectType cfg) (u_id u) (user_props u).
Definition group_objects cfg g := object_of (groupObjectType cfg) (g_id g) (group_props g).
Definition user_identifiers cfg u : gset RelationIdentifier :=
  if String.eqb (stringValue (u_userPrincipalName u)) "" then ∅ else {[identifier_of cfg u]}.
Definition user_memberships cfg u : gset RelationIdentifier :=
  all_relations (fun m => match m with MemberGroup g => {[membership_of cfg g u]} | MemberOther => ∅ end)
    (u_memberOf u).

Lemma writes_object ty id props (f : gmap string Messages.Value -> M (nat * tx) unit) msg R :
  wf_type ty ->
  (forall p, NewStruct props = Ok p -> writes (f p) {[(ty, stringValue id) := object_Hash (synced_object ty id p)]} R) ->
  writes (let! p := lift (rwrap msg (NewStruct props)) in f p) (object_of ty id props) R.
Proof.
  intros Hw Hf. unfold object_of, synced_etag. destruct (NewStruct props) as [p|e]; [by apply Hf|].
  by apply (writes_lift (Fail (Errorf msg e))).
Qed.

Lemma writes_setGroup cfg g :
  wf_type (groupObjectType cfg) -> writes (setGroup writer NewStruct cfg g) (group_objects cfg g) ∅.
Proof.
  intros Hw. apply writes_object; [done|]. intros p _. apply writes_wrapped. by apply writes_SetObject.
Qed.

Lemma writes_setUser cfg u :
  wf_type (userObjectType cfg) -> wf_part (stringValue (u_id u)) -> wf_part (stringValue (u_userPrincipalName u)) ->
  writes (setUser writer NewStruct cfg u) (user_objects cfg u) (user_identifiers cfg u).
Proof.
  intros Hw Hi Hp. apply writes_object; [done|]. intros p _.
  rewrite <-(left_id_L ∅ (∪) (user_identifiers cfg u)), <-(left_id_L ∅ (∪) ({[_ := _]} : gmap _ _)).
  apply writes_bind; [apply writes_wrapped; by apply writes_SetObject|]. intros _.
  unfold setUserIdentifier, user_identifiers. destruct (String.eqb _ ""); [apply writes_ret|].
  apply writes_wrapped, writes_SetRelation. by split_and!.
Qed.

Lemma all_objects_empty {X} (l : list X) : all_objects (fun _ => ∅) l = ∅.
Proof. induction l as [|x l IH]; [done|]. unfold all_objects in *. cbn. by rewrite IH, (left_id_L ∅ (∪)). Qed.
Lemma all_relations_empty {X} (l : list X) : all_relations (fun _ => ∅) l = ∅.
Proof. induction l as [|x l IH]; [done|]. unfold all_relations in *. cbn. by rewrite IH, (left_id_L ∅ (∪)). Qed.

Lemma writes_memberships cfg u :
  wf_type (userObjectType cfg) -> wf_type (groupObjectType cfg) -> wf_part (memberRelation cfg) ->
  wf_part (stringValue (u_id u)) -> (forall g, MemberGroup g ∈ u_memberOf u -> wf_part (stringValue (g_id g))) ->
  writes (syncUserMemberships writer cfg u) ∅ (user_memberships cfg u).
Proof.
  intros Hu Hg Hm Hi Hall. rewrite <-(all_objects_empty (u_memberOf u)). apply writes_for_each.
  intros [g|] Hin; [|apply writes_ret]. apply writes_wrapped, writes_wrapped, writes_SetRelation.
  split_and!; try done. by apply Hall.
Qed.

Definition tenant_objects (cfg : EntraConfig) (groups : list GraphGroup) (users : list GraphUser) : gmap (string * string) string :=
  all_objects (user_objects cfg) users ∪ all_objects (group_objects cfg) groups.
Definition tenant_relations (cfg : EntraConfig) (users : list GraphUser) : gset RelationIdentifier :=
  all_relations (fun u => user_identifiers cfg u ∪ user_memberships cfg u) users.

Lemma writes_sync newClient cfg graph groups users :
  newClient (TenantID cfg) (ClientID cfg) (ClientSecret cfg) = Ok graph ->
  listGroups graph = Ok groups -> listUsers graph = Ok users -> wf_tenant cfg users ->
  writes (entra_sync writer NewStruct newClient cfg) (tenant_objects cfg groups users) (tenant_relations cfg users).
Proof.
  intros H1 H2 H3 (Wu & Wg & Wm & Wa). unfold entra_sync. rewrite H1. cbn [rwrap]. unfold bind at 1, lift at 1.
  rewrite H2. cbn [rwrap]. unfold bind at 1, lift at 1. unfold tenant_objects.
  rewrite <-(left_id_L ∅ (∪) (tenant_relations cfg users)), <-(all_relations_empty groups).
  apply writes_bind.
  { apply writes_for_each. intros g _. by apply writes_wrapped, writes_setGroup. }
  intros _. rewrite H3. cbn [rwrap]. unfold bind at 1, lift at 1.
  apply writes_for_each. intros u Hin. rewrite Forall_forall in Wa. destruct (Wa u Hin) as (Wi & Wp & Wall).
  rewrite <-(left_id_L ∅ (∪) (user_objects cfg u)).
  apply writes_bind; [by apply writes_wrapped, writes_setUser|]. intros _. by apply writes_memberships.
Qed.

Lemma elem_of_all_relations {X} (R : X -> gset RelationIdentifier) l i :
  i ∈ all_relations R l <-> exists x, x ∈ l /\ i ∈ R x.
Proof.
  induction l as [|x l IH]; unfold all_relations in *; cbn; [set_solver|].
  rewrite elem_of_union, IH. setoid_rewrite elem_of_cons. naive_solver.
Qed.
Lemma all_objects_dom {X} (O : X -> gmap (string * string) string) l k :
  k ∈ dom (all_objects O l) <-> exists x, x ∈ l /\ k ∈ dom (O x).
Proof.
  induction l as [|x l IH]; unfold all_objects in *; cbn; [set_solver|].
  rewrite dom_union, elem_of_union, IH. setoid_rewrite elem_of_cons. naive_solver.
Qed.
Lemma all_objects_unique {X} (O : X -> gmap (string * string) string) l x k e :
  x ∈ l -> O x !! k = Some e -> (forall y, y ∈ l -> k ∈ dom (O y) -> y = x) -> all_objects O l !! k = Some e.
Proof.
  intros Hx Hk Hu. induction l as [|y l IH]; [set_solver|]. change (all_objects O (y :: l)) with (all_objects O l ∪ O y).
  destruct (decide (k ∈ dom (all_objects O l))) as [Hd|Hd].
  - apply lookup_union_Some_l. apply IH; [|set_solver].
    apply all_objects_dom in Hd as (z & Hz & Hkz). by rewrite <-(Hu z) by (done || by right).
  - apply elem_of_cons in Hx as [->|Hx].
    + rewrite lookup_union_r; [done|]. by apply not_elem_of_dom.
    + destruct Hd. apply all_objects_dom. exists x. split; [done|]. by apply elem_of_dom.
Qed.

Definition user_key (cfg : EntraConfig) (u : GraphUser) := (userObjectType cfg, stringValue (u_id u)).
Definition group_key (cfg : EntraConfig) (g : GraphGroup) := (groupObjectType cfg, stringValue (g_id g)).

Lemma tenant_objects_dom cfg groups users k :
  k ∈ dom (tenant_objects cfg groups users) <-> k ∈ map (user_key cfg) users \/ k ∈ map (group_key cfg) groups.
Proof.
  unfold tenant_objects. rewrite dom_union, elem_of_union, !all_objects_dom, !list_elem_of_fmap.
  unfold user_objects, group_objects, object_of. setoid_rewrite dom_singleton. setoid_rewrite elem_of_singleton.
  naive_solver.
Qed.
Lemma elem_of_memberships cfg u i :
  i ∈ user_memberships cfg u <-> exists g, MemberGroup g ∈ u_memberOf u /\ i = membership_of cfg g u.
Proof.
  unfold user_memberships. rewrite elem_of_all_relations. split.
  - intros ([g|] & Hg & Hi); [|set_solver]. exists g. set_solver.
  - intros (g & Hg & ->). exists (MemberGroup g). set_solver.
Qed.
Lemma tenant_relations_elem cfg users i :
  i ∈ tenant_relations cfg users <->
  exists u, u ∈ users /\ ((stringValue (u_userPrincipalName u) <> "" /\ i = identifier_of cfg u) \/
    exists g, MemberGroup g ∈ u_memberOf u /\ i = membership_of cfg g u).
Proof.
  unfold tenant_relations. rewrite elem_of_all_relations. apply exist_proper. intros u.
  rewrite elem_of_union, elem_of_memberships. unfold user_identifiers.
  destruct (String.eqb_spec (stringValue (u_userPrincipalName u)) ""); set_solver.
Qed.
Lemma tenant_object_etag cfg groups users u :
  NoDup (map (user_key cfg) users) -> u ∈ users ->
  tenant_objects cfg groups users !! user_key cfg u = Some (synced_etag (userObjectType cfg) (u_id u) (user_props u)).
Proof.
  intros Hnd Hu. apply lookup_union_Some_l. apply (all_objects_unique _ _ u); [done|by apply lookup_singleton_eq|].
  intros y Hy Hk. unfold user_objects, object_of in Hk. rewrite dom_singleton, elem_of_singleton in Hk.
  apply (inj_on_NoDup (user_key cfg) users); done.
Qed.

(** a pass over an Entra ID tenant is additive and, when it ends well, complete.  Whatever its
    outcome, objects and relations that do not belong to a listed user or group are as they were,
    and the manifest too.  When it succeeds, every listed group and user is in the directory, each
    user with the etag of the listed properties (for ids that are not repeated), with the identifier
    relation of a user principal name and a member relation for each of the user's groups. *)
Theorem entra_sync_exact newClient cfg graph groups users n t d r n' t' :
  newClient (TenantID cfg) (ClientID cfg) (ClientSecret cfg) = Ok graph ->
  listGroups graph = Ok groups -> listUsers graph = Ok users -> wf_tenant cfg users -> repr t d ->
  entra_sync writer NewStruct newClient cfg (n, t) = (r, (n', t')) ->
  exists d', repr t' d' /\
    (d_metadata d', d_body d', d_model d') = (d_metadata d, d_body d, d_model d) /\
    (forall k, k ∉ map (user_key cfg) users -> k ∉ map (group_key cfg) groups -> d_objs d' !! k = d_objs d !! k) /\
    (forall i, (forall u, u ∈ users -> i <> identifier_of cfg u) ->
       (forall u g, u ∈ users -> MemberGroup g ∈ u_memberOf u -> i <> membership_of cfg g u) ->
       d_rels d' !! i = d_rels d !! i) /\
    (r = Ok tt ->
      (forall g, g ∈ groups -> is_Some (d_objs d' !! group_key cfg g)) /\
      (forall u, u ∈ users ->
        is_Some (d_objs d' !! user_key cfg u) /\
        (stringValue (u_userPrincipalName u) <> "" -> is_Some (d_rels d' !! identifier_of cfg u)) /\
        (forall g, MemberGroup g ∈ u_memberOf u -> is_Some (d_rels d' !! membership_of cfg g u))) /\
      (NoDup (map (user_key cfg) users) -> forall u, u ∈ users ->
        o_etag <$> d_objs d' !! user_key cfg u = Some (synced_etag (userObjectType cfg) (u_id u) (user_props u)))).
Proof.
  intros H1 H2 H3 Hwf Hr H.
  destruct (writes_sync newClient cfg graph groups users H1 H2 H3 Hwf n t d r n' t' Hr H)
    as (d' & O & R & Hr' & (W1 & W2 & W3 & W4 & W5) & HO & HR & Hok).
  exists d'. split_and!; [done|done| | |].
  - intros k Hu Hg. apply W1, not_elem_of_dom. intros Hk%HO%tenant_objects_dom. tauto.
  - intros i Hi Hm. apply W3. intros Hk%HR%tenant_relations_elem. naive_solver.
  - intros ->. destruct (Hok eq_refl) as [-> ->].
    assert (forall k, k ∈ dom (tenant_objects cfg groups users) -> is_Some (d_objs d' !! k)) as Hobj.
    { intros k [e Hk]%elem_of_dom. destruct (W2 k e Hk) as (o & -> & _). eauto. }
    split_and!.
    + intros g Hg. apply Hobj, tenant_objects_dom. right. apply list_elem_of_fmap. eauto.
    + intros u Hu. split_and!; [|intros; apply W4, tenant_relations_elem; eauto 8..].
      apply Hobj, tenant_objects_dom. left. apply list_elem_of_fmap. eauto.
    + intros Hnd u Hu. destruct (W2 _ _ (tenant_object_etag cfg groups users u Hnd Hu)) as (o & -> & <-). done.
Qed.
End Facts.

(** ** Synced users and the identities that resolve to them *)

Section Resolve.
Context {model : Type} `{B : Bolt} `{BL : !BoltLaws B} `{CO : Codecs model} `{CL : !CodecsLaws model CO}.
Context `{A : Azm model} `{AL : !AzmLaws model A} `{SO : !StoreOps model} `{V : Validator}.
Context (reason_of : Context -> option string) (ErrRelationTypeNotFound_text : string).
Context (range : gmap string Object -> list (string * Object)).
Hypothesis range_all : forall m, range m ≡ₚ map_to_list m.
Context (mc : @cache model A) (clock : nat -> Timestamp).
Context (NewStruct : gmap string string -> res (gmap string Messages.Value)).

Abbreviation client := (local_client mc).
Abbreviation resolve t := (ResolveIdentity reason_of ErrRelationTypeNotFound_text range (client t)).

(** The relations that identify a name after the pass: those of before and those of the listed
    users, as long as users are written under the type that is asked for. *)
Lemma identifies_after cfg groups users (d d' : directory model) name i :
  Identity <> userObjectType cfg ->
  written (tenant_objects NewStruct cfg groups users) (tenant_relations cfg users) d d' ->
  identifies userToIdentity name i -> is_Some (d_rels d' !! i) ->
  is_Some (d_rels d !! i) \/
  (userObjectType cfg = User /\
   exists u, u ∈ users /\ stringValue (u_userPrincipalName u) = name /\ i = identifier_of cfg u).
Proof.
  intros Hne (_ & _ & W3 & _) Hid Hi.
  destruct (decide (i ∈ tenant_relations cfg users)) as [Hin|Hin]; [|left; by rewrite <-W3].
  right. apply tenant_relations_elem in Hin as (u & Hu & [[_ ->]|(g & _ & ->)]).
  - destruct Hid as (Ha & _ & Hf). cbn in Ha, Hf. injection Ha as Ha. split; [done|]. by exists u.
  - destruct Hid as (Ha & _). cbn in Ha. injection Ha as Ha _. done.
Qed.

(** C24: A user that Entra ID lists can be found by the name it signs in with, where the sync is configured to write
    users under the type [user] (the default; under another type they cannot be found: [entra_custom_type_unresolved])
    and the names of the tenant have no separator of the store's keys.  After a pass that ended well, in a model where
    users have identifiers and which, like the validator, accepts the request for the relation, the user principal
    name of a listed user, when it is set, resolves to the user's object, as the pass left it in the BoltDB store,
    provided that the name belongs to no other user: neither another listed one nor one that an earlier relation
    names. *)
Theorem entra_user_resolves newClient cfg graph groups users n (t : @tx model bolt_tx) (d : directory model) n' t' u :
  let name := stringValue (u_userPrincipalName u) in
  newClient (TenantID cfg) (ClientID cfg) (ClientSecret cfg) = Ok graph ->
  listGroups graph = Ok groups -> listUsers graph = Ok users -> wf_tenant cfg users -> repr t d ->
  entra_sync (local_writer mc clock) NewStruct newClient cfg (n, t) = (Ok tt, (n', t')) ->
  userObjectType cfg = User -> u ∈ users -> bdb.isSet name = true ->
  (forall u', u' ∈ users -> stringValue (u_userPrincipalName u') = name -> stringValue (u_id u') = stringValue (u_id u)) ->
  (forall i, is_Some (d_rels d !! i) -> identifies userToIdentity name i -> i = identifier_of cfg u) ->
  resolutionDirection reason_of ErrRelationTypeNotFound_text (client t') = userToIdentity ->
  validator_GetRelationRequest (identity_request userToIdentity name) = None ->
  relations_Validate mc (safe_GetRelation (identity_request userToIdentity name)) = None ->
  exists d' o, repr t' d' /\ d_objs d' !! (User, stringValue (u_id u)) = Some o /\ resolve t' name = Ok o.
Proof.
  intros name H1 H2 H3 Hwf Hr H Hty Hu Hset Huniq Hbefore Hdir Hv Hm.
  destruct (writes_sync mc clock NewStruct newClient cfg graph groups users H1 H2 H3 Hwf n t d (Ok tt) n' t' Hr H)
    as (d' & O & R & Hr' & W & _ & _ & [-> ->]); [done|].
  assert (exists o, d_objs d' !! (User, stringValue (u_id u)) = Some o) as [o Ho].
  { destruct W as (_ & W2 & _). destruct (elem_of_dom (tenant_objects NewStruct cfg groups users) (user_key cfg u))
      as [[e He] _]; [apply tenant_objects_dom; left; apply list_elem_of_fmap; eauto|].
    destruct (W2 _ _ He) as (o & Ho & _). exists o. by rewrite <-Hty. }
  exists d', o. split_and!; [done|done|].
  assert (name <> "") as Hne by (intros E; rewrite E in Hset; done).
  assert (wf_part name) as Hwn.
  { destruct Hwf as (_ & _ & _ & Hall). rewrite Forall_forall in Hall. by destruct (Hall u Hu) as (_ & ? & _). }
  assert (forall i, is_Some (d_rels d' !! i) /\ identifies userToIdentity name i <-> i = identifier_of cfg u) as Hlinks.
  { intros i. split.
    - intros [Hi Hid]. destruct (identifies_after cfg groups users d d' name i) as [Hi'|(_ & u' & Hu' & En & ->)];
        [by rewrite Hty|done..|by apply Hbefore|]. unfold identifier_of. by rewrite (Huniq u' Hu' En), En.
    - intros ->. split; [apply W, tenant_relations_elem; eauto 6|]. by repeat split. }
  pose proof (resolve_identity_cases reason_of ErrRelationTypeNotFound_text range range_all mc name t' d' Hr' Hset Hwn)
    as Hc. cbn zeta in Hc. rewrite Hdir in Hc.
  destruct (Hc Hv Hm) as [(i & Hi%Hlinks & _ & E)|[[Hno _]|(i & i' & ->%Hlinks & ->%Hlinks & ? & _)]]; [|by destruct (Hno (identifier_of cfg u)); apply Hlinks|done].
  rewrite E, Hi. unfold shown. cbn. by rewrite Ho.
Qed.
(** Users that are written under another type cannot be found: the name of a listed user is reported
    as unknown after a pass that ended well, since identities are looked up as those of a [user]. *)
Theorem entra_custom_type_unresolved newClient cfg graph groups users n (t : @tx model bolt_tx) (d : directory model) n' t' name :
  newClient (TenantID cfg) (ClientID cfg) (ClientSecret cfg) = Ok graph ->
  listGroups graph = Ok groups -> listUsers graph = Ok users -> wf_tenant cfg users -> repr t d ->
  entra_sync (local_writer mc clock) NewStruct newClient cfg (n, t) = (Ok tt, (n', t')) ->
  userObjectType cfg <> User -> Identity <> userObjectType cfg -> bdb.isSet name = true -> wf_part name ->
  (forall i, is_Some (d_rels d !! i) -> ~ identifies userToIdentity name i) ->
  resolutionDirection reason_of ErrRelationTypeNotFound_text (client t') = userToIdentity ->
  validator_GetRelationRequest (identity_request userToIdentity name) = None ->
  relations_Validate mc (safe_GetRelation (identity_request userToIdentity name)) = None ->
  resolve t' name = Fail ErrDirectoryObjectNotFound.
Proof.
  intros H1 H2 H3 Hwf Hr H Hty Hid Hset Hwn Hbefore Hdir Hv Hm.
  destruct (writes_sync mc clock NewStruct newClient cfg graph groups users H1 H2 H3 Hwf n t d (Ok tt) n' t' Hr H)
    as (d' & O & R & Hr' & W & _ & _ & [-> ->]); [done|].
  assert (forall i, ~ (is_Some (d_rels d' !! i) /\ identifies userToIdentity name i)) as Hno.
  { intros i [Hi Hn]. destruct (identifies_after cfg groups users d d' name i) as [Hi'|(? & _)]; try done.
    by apply (Hbefore i). }
  pose proof (resolve_identity_cases reason_of ErrRelationTypeNotFound_text range range_all mc name t' d' Hr' Hset Hwn)
    as Hc. cbn zeta in Hc. rewrite Hdir in Hc.
  destruct (Hc Hv Hm) as [(i & Hi & _)|[[_ E]|(i & i' & Hi & _)]]; [by destruct (Hno i)|exact E|by destruct (Hno i)].
Qed.
End Resolve.

Module EntraExamples.
Import Concrete.

Definition eng : GraphGroup := MkGroup (Some "eng") (Some "Engineering") None.
Definition bob_user : GraphUser :=
  MkUser (Some "b-1") (Some "Bob") None (Some "bob@acme") [MemberOther; MemberGroup eng].
Definition guest : GraphUser := MkUser (Some "g-1") None None None [].
Definition graph : graphLister := MkLister (Ok [bob_user; guest]) (Ok [eng]).
Definition newClient (tenant id secret : string) : res graphLister := Ok graph.
Definition NewStruct (m : gmap string string) : res (gmap string Messages.Value) := Ok (StringValue <$> m).
Definition config (user_type : string) : EntraConfig := MkEntra "tenant" "id" "secret" 0 user_type "" "".
Definition clock (n : nat) : Timestamp := MkTS (Z.of_nat n) 0.
Definition pass (user_type : string) :=
  entra_sync (local_writer mc0 clock) NewStruct newClient (config user_type) (0, db).

Lemma tenant_wf user_type : wf_type (userObjectType (config user_type)) -> wf_tenant (config user_type) [bob_user; guest].
Proof.
  intros Hw. split_and!; [done|reflexivity|reflexivity|]. repeat constructor.
  - intros g Hg. cbn [u_memberOf bob_user] in Hg. rewrite !elem_of_cons, elem_of_nil in Hg. destruct Hg as [|[[= ->]|[]]]; [done|reflexivity].
  - by intros g ?%elem_of_nil.
Qed.

Lemma pass_ok user_type r : (pass user_type).1 = r -> pass user_type = (r, ((pass user_type).2.1, (pass user_type).2.2)).
Proof. destruct (pass user_type) as [r' [n t]]. cbn. by intros ->. Qed.

Lemma ok_user : (pass "").1 = Ok tt.
Proof. vm_compute. reflexivity. Qed.
Lemma ok_account : (pass "account").1 = Ok tt.
Proof. vm_compute. reflexivity. Qed.

Lemma entra_sync_exact_witness :
  exists d', repr (pass "").2.2 d' /\ is_Some (d_rels d' !! membership_of (config "") eng bob_user).
Proof.
  destruct (entra_sync_exact mc0 clock NewStruct newClient (config "") graph [eng] [bob_user; guest] 0 db empty_dir
    (Ok tt) (pass "").2.1 (pass "").2.2) as (d' & Hr & _ & _ & _ & Hok).
  - reflexivity.
  - reflexivity.
  - reflexivity.
  - by apply tenant_wf.
  - exact db_repr.
  - exact (pass_ok "" (Ok tt) ok_user).
  - exists d'. split; [exact Hr|]. destruct (Hok eq_refl) as (_ & H & _).
    destruct (H bob_user ltac:(left)) as (_ & _ & Hm). apply Hm. right. left.
Defined.

Lemma entra_user_resolves_witness :
  exists o, ResolveIdentity IdentityExamples.reason_of "E20025 relation type not found" map_to_list
    (local_client mc0 (pass "").2.2) "bob@acme" = Ok o.
Proof.
  destruct (entra_user_resolves IdentityExamples.reason_of "E20025 relation type not found" map_to_list
    (fun m => Permutation_refl _) mc0 clock NewStruct newClient (config "") graph [eng] [bob_user; guest] 0 db empty_dir
    (pass "").2.1 (pass "").2.2 bob_user) as (d' & o & _ & _ & H).
  - reflexivity.
  - reflexivity.
  - reflexivity.
  - by apply tenant_wf.
  - exact db_repr.
  - exact (pass_ok "" (Ok tt) ok_user).
  - reflexivity.
  - left.
  - vm_compute. reflexivity.
  - intros u Hu. rewrite !elem_of_cons, elem_of_nil in Hu. destruct Hu as [->|[->|[]]]; [reflexivity|discriminate].
  - intros i [r Hi]. discriminate Hi.
  - vm_compute. reflexivity.
  - reflexivity.
  - reflexivity.
  - exists o. exact H.
Defined.

Lemma entra_custom_type_unresolved_witness :
  ResolveIdentity IdentityExamples.reason_of "E20025 relation type not found" map_to_list
    (local_client mc0 (pass "account").2.2) "bob@acme" = Fail ErrDirectoryObjectNotFound.
Proof.
  apply (entra_custom_type_unresolved IdentityExamples.reason_of "E20025 relation type not found" map_to_list
    (fun m => Permutation_refl _) mc0 clock NewStruct newClient (config "account") graph [eng] [bob_user; guest] 0 db
    empty_dir (pass "account").2.1 (pass "account").2.2 "bob@acme").
  - reflexivity.
  - reflexivity.
  - reflexivity.
  - by apply tenant_wf.
  - exact db_repr.
  - exact (pass_ok "account" (Ok tt) ok_account).
  - discriminate.
  - discriminate.
  - vm_compute. reflexivity.
  - reflexivity.
  - intros i [r Hi]. discriminate Hi.
  - vm_compute. reflexivity.
  - reflexivity.
  - reflexivity.
Defined.
End EntraExamples.
