(* ===== verification/Edge.v ===== *)
(** * The edge plugin

    [daemon/authorizer/plugins/edge/plugin.go]: a scheduler that synchronises the directory with a
    remote one, by the clock and on demand.  The scheduler's loop and the goroutine of each run share
    three variables, a ticker and an unbuffered channel: they are a step relation here, one step per
    operation that the other side can see. *)
From S2P Require Import Prelude Bytes Text Messages Keys Store Bolt Bdb BdbTx Ds Service Instances.
From S2P Require Import DsFacts Writer Importer Exporter Model DataSync.

(** ** Modes and intervals *)

Definition SyncMode : Type := Z.
Definition SyncModeUnknown : SyncMode := 0%Z.
Definition SyncModeFull : SyncMode := 1%Z.
Definition SyncModeDiff : SyncMode := 2%Z.
Definition SyncModeWatermark : SyncMode := 4%Z.
Definition SyncModeManifest : SyncMode := 8%Z.

Definition fold (m : list SyncMode) : SyncMode := fold_left Z.lor m SyncModeUnknown.
Definition edge_has (mode instance : SyncMode) : bool := negb (Z.land mode instance =? 0)%Z.

Definition printMode (mode : SyncMode) : string :=
  Join ((if edge_has mode SyncModeManifest then ["MANIFEST"] else []) ++
        (if edge_has mode SyncModeFull then ["FULL"] else []) ++
        (if edge_has mode SyncModeDiff then ["DIFF"] else []) ++
        (if edge_has mode SyncModeWatermark then ["WATERMARK"] else []) ++
        (if (mode =? SyncModeUnknown)%Z then ["UNKNOWN"] else [])) "|".

(** [int64] arithmetic wraps around; Go's division truncates. *)
Definition wrap64 (z : Z) : Z := ((z + 2 ^ 63) mod 2 ^ 64 - 2 ^ 63)%Z.
Definition cycles : Z := 4%Z.
Definition secsInMin : Z := 60%Z.
Definition Second : Z := 1000000000%Z.
Definition calcInterval (SyncInterval : Z) : Z :=
  let waitInSec := Z.quot (wrap64 (SyncInterval * secsInMin)) cycles in
  wrap64 (waitInSec * Second).

(** ** One run

    [conn], [dir] and [client] are the outcomes of connecting, of [directory.Get] and of
    [DataSyncClient]; [sync] that of a synchronisation with the given modes.  The result is the modes
    of the synchronisations that were run, and whether the health service [sync] was set to serving. *)
Section Task.
Context (Enabled : bool) (conn dir client : option err) (sync : list Mode -> option err).

Definition edge_exec (opts : list Mode) (w : list (list Mode) * bool) : list (list Mode) * bool :=
  let '(runs, serving) := w in
  match client with
  | Some _ => (runs, serving)
  | None =>
      let e := sync opts in
      (runs ++ [opts], if Enabled && bool_decide (e = None) then true else serving)
  end.

Definition edge_task (mode : SyncMode) (w : list (list Mode) * bool) : list (list Mode) * bool :=
  match conn, dir with
  | Some _, _ | _, Some _ => w
  | None, None =>
      if (mode =? SyncModeUnknown)%Z then edge_exec [Manifest; Full] w
      else
        let w := if edge_has mode SyncModeWatermark then edge_exec [Manifest; Watermark] w else w in
        if edge_has mode SyncModeDiff then edge_exec [Manifest; Diff] w
        else if edge_has mode SyncModeFull then edge_exec [Manifest; Full] w
        else if edge_has mode SyncModeManifest && negb (edge_has mode SyncModeWatermark) then edge_exec [Manifest] w
        else w
  end.
End Task.

(** ** The scheduler and its runs *)

(** Where the goroutine of a run is: created, in [task], before the test of [onDemandMode], blocked in
    [SyncNow], before [running] is reset. *)
Inductive run_phase := Spawned | InTask | AfterTask | Sending (m : SyncMode) | Ending.
Record run := MkRun { run_mode : SyncMode; run_at : run_phase }.

(** Where the loop is: in [select], before the test of [running], returned; or the process is gone. *)
Inductive loop_phase := Selecting | Dispatching | Stopped | Crashed.

(** [ticker] says whether the ticker is going.  The last three fields are for the statements: the
    modes requested from outside, those of the runs whose task was carried out, and the number of
    ticks so far. *)
Record edge := MkEdge {
  loop : loop_phase; cancelled : bool; ticker : bool; cycle : Z;
  intervalMode : SyncMode; onDemandMode : SyncMode; running : bool; runs : list run;
  requested : SyncMode; attempted : list SyncMode; ticks : Z }.

Definition edge_start : edge :=
  MkEdge Selecting false true cycles SyncModeUnknown SyncModeUnknown false [] SyncModeUnknown [] 0%Z.

Definition set_loop (p : loop_phase) (s : edge) : edge :=
  MkEdge p (cancelled s) (ticker s) (cycle s) (intervalMode s) (onDemandMode s) (running s) (runs s)
    (requested s) (attempted s) (ticks s).
Definition set_runs (rs : list run) (s : edge) : edge :=
  MkEdge (loop s) (cancelled s) (ticker s) (cycle s) (intervalMode s) (onDemandMode s) (running s) rs
    (requested s) (attempted s) (ticks s).
Definition set_running (b : bool) (s : edge) : edge :=
  MkEdge (loop s) (cancelled s) (ticker s) (cycle s) (intervalMode s) (onDemandMode s) b (runs s)
    (requested s) (attempted s) (ticks s).
Definition set_ticker (b : bool) (s : edge) : edge :=
  MkEdge (loop s) (cancelled s) b (cycle s) (intervalMode s) (onDemandMode s) (running s) (runs s)
    (requested s) (attempted s) (ticks s).

(** The three cases of [select]. *)
Definition on_tick (s : edge) : edge :=
  let diff := (cycle s mod cycles =? 0)%Z in
  MkEdge Dispatching (cancelled s) false ((if diff then 0 else cycle s) + 1)%Z
    (if diff then SyncModeDiff else SyncModeWatermark) (onDemandMode s) (running s) (runs s)
    (requested s) (attempted s) (ticks s + 1)%Z.
Definition on_demand (mode : SyncMode) (s : edge) : edge :=
  MkEdge Dispatching (cancelled s) false (cycle s) (intervalMode s) (fold [onDemandMode s; mode]) (running s) (runs s)
    (requested s) (attempted s) (ticks s).
Definition request (mode : SyncMode) (s : edge) : edge :=
  MkEdge (loop s) (cancelled s) (ticker s) (cycle s) (intervalMode s) (onDemandMode s) (running s) (runs s)
    (Z.lor (requested s) mode) (attempted s) (ticks s).

(** After [select]: a new run, unless one is marked as running. *)
Definition dispatch (s : edge) : edge :=
  if running s then set_loop Selecting s
  else
    let runMode := if (onDemandMode s =? SyncModeUnknown)%Z then intervalMode s else onDemandMode s in
    MkEdge Selecting (cancelled s) (ticker s) (cycle s) (intervalMode s) SyncModeUnknown false
      (runs s ++ [MkRun runMode Spawned]) (requested s) (attempted s) (ticks s).

(** The task of a run is over.  Its outcome is not part of this state: a task that cannot connect, or whose
    synchronisation fails, ends as one that succeeds does (see [edge_task]). *)
Definition attempt (m : SyncMode) (s : edge) : edge :=
  MkEdge (loop s) (cancelled s) (ticker s) (cycle s) (intervalMode s) (onDemandMode s) (running s) (runs s)
    (requested s) (attempted s ++ [m]) (ticks s).

Section Steps.
(** [SyncInterval] of the configuration.  [prompt]: ticks and requests only arrive while no run is
    there; the code does not enforce it. *)
Context (SyncInterval : Z) (prompt : bool).

(** Who makes the step: whoever uses the plugin, the clock, or the program. *)
Inductive actor := User_ | Clock | Program.

Inductive edge_step : actor -> edge -> edge -> Prop :=
| step_cancel s : loop s <> Crashed -> edge_step User_ s
    (MkEdge (loop s) true (ticker s) (cycle s) (intervalMode s) (onDemandMode s) (running s) (runs s)
       (requested s) (attempted s) (ticks s))
| step_done s : loop s = Selecting -> cancelled s = true -> edge_step Program s (set_ticker false (set_loop Stopped s))
| step_tick s : loop s = Selecting -> ticker s = true -> (prompt = true -> runs s = []) -> edge_step Clock s (on_tick s)
| step_request s mode :
    loop s = Selecting -> (prompt = true -> runs s = []) -> edge_step User_ s (on_demand mode (request mode s))
| step_receive s l1 m mode l2 :
    loop s = Selecting -> runs s = l1 ++ MkRun m (Sending mode) :: l2 ->
    edge_step Program s (on_demand mode (set_runs (l1 ++ MkRun m Ending :: l2) s))
| step_dispatch s : loop s = Dispatching -> edge_step Program s (dispatch s)
| step_begin s l1 m l2 :
    loop s <> Crashed -> runs s = l1 ++ MkRun m Spawned :: l2 ->
    edge_step Program s (set_running true (set_runs (l1 ++ MkRun m InTask :: l2) s))
| step_task s l1 m l2 :
    loop s <> Crashed -> runs s = l1 ++ MkRun m InTask :: l2 ->
    edge_step Program s (attempt m (set_runs (l1 ++ MkRun m AfterTask :: l2) s))
| step_after_idle s l1 m l2 :
    loop s <> Crashed -> runs s = l1 ++ MkRun m AfterTask :: l2 -> onDemandMode s = SyncModeUnknown ->
    (0 < calcInterval SyncInterval)%Z ->
    edge_step Program s (set_ticker true (set_runs (l1 ++ MkRun m Ending :: l2) s))
(** [Ticker.Reset] panics on an interval that is not positive. *)
| step_after_panic s l1 m l2 :
    loop s <> Crashed -> runs s = l1 ++ MkRun m AfterTask :: l2 -> onDemandMode s = SyncModeUnknown ->
    (calcInterval SyncInterval <= 0)%Z ->
    edge_step Program s (set_loop Crashed s)
| step_after_queued s l1 m l2 :
    loop s <> Crashed -> runs s = l1 ++ MkRun m AfterTask :: l2 -> onDemandMode s <> SyncModeUnknown ->
    edge_step Program s (set_runs (l1 ++ MkRun m (Sending (onDemandMode s)) :: l2) s)
| step_end s l1 m l2 :
    loop s <> Crashed -> runs s = l1 ++ MkRun m Ending :: l2 ->
    edge_step Program s (set_running false (set_runs (l1 ++ l2) s)).

Definition edge_next (s s' : edge) : Prop := exists a, edge_step a s s'.
Definition edge_reachable (s : edge) : Prop := rtc edge_next edge_start s.

(** Rule induction on the steps of an execution. *)
Lemma edge_invariant (I : edge -> Prop) :
  I edge_start -> (forall a s s', edge_step a s s' -> I s -> I s') -> forall s, edge_reachable s -> I s.
Proof.
  intros H0 Hs s H. unfold edge_reachable in H. revert H0.
  induction H as [|s1 s2 s3 [a Ha] _ IH]; [done|]. intros H1. apply IH. by eapply Hs.
Qed.

(** *** Requests *)

(** The bit [k] is in the mode of a run whose task is not over yet, or of one whose task is. *)
Definition waiting (k : Z) (g : run) : Prop :=
  (run_at g = Spawned \/ run_at g = InTask) /\ Z.testbit (run_mode g) k = true.
Definition accounted (s : edge) : Prop :=
  loop s = Crashed \/
  forall k, Z.testbit (requested s) k = true ->
    Z.testbit (onDemandMode s) k = true \/ Exists (waiting k) (runs s) \/
    Exists (fun m => Z.testbit m k = true) (attempted s).

Lemma fold_testbit a b k : Z.testbit (fold [a; b]) k = Z.testbit a k || Z.testbit b k.
Proof. unfold fold. cbn [fold_left]. by rewrite !Z.lor_spec, Z.bits_0. Qed.

(** The steps of one run change only its own phase. *)
Ltac of_run Hb :=
  rewrite ?Exists_app, ?Exists_cons; unfold waiting at 2 in Hb; try unfold waiting at 2; cbn in *; naive_solver.

Lemma accounted_step a s s' : edge_step a s s' -> accounted s -> accounted s'.
Proof.
  intros Hs [Hc|Hb]; [destruct Hs; congruence|]. unfold accounted. right. intros k.
  destruct Hs as [s Hl|s Hl Hc|s Hl Ht Hp|s mode Hl Hp|s l1 m mode l2 Hl Hr|s Hl|s l1 m l2 Hl Hr|s l1 m l2 Hl Hr
    |s l1 m l2 Hl Hr Ho Hi|s l1 m l2 Hl Hr Ho Hi|s l1 m l2 Hl Hr Ho|s l1 m l2 Hl Hr];
    cbn [on_tick on_demand request set_runs set_loop set_ticker set_running attempt requested onDemandMode runs attempted];
    try (by apply Hb); specialize (Hb k); try rewrite Hr, Exists_app, Exists_cons in Hb.
  - rewrite Z.lor_spec, fold_testbit, !orb_true_iff. tauto.
  - rewrite fold_testbit, orb_true_iff. of_run Hb.
  - unfold dispatch. destruct (running s); [done|].
    destruct (Z.eqb_spec (onDemandMode s) SyncModeUnknown) as [E|E]; cbn; rewrite Exists_app.
    + intros [Ho|?]%Hb; [by rewrite E, Z.bits_0 in Ho|tauto].
    + intros [Ho|?]%Hb; [|tauto]. right. left. right. apply Exists_cons. left. unfold waiting. cbn. auto.
  - of_run Hb.
  - of_run Hb.
  - of_run Hb.
  - of_run Hb.
  - of_run Hb.
Qed.

(** While the process lives, a mode that was ever requested on demand is queued, or part of a run whose task is not
    over, or part of one whose task is over (whether it succeeded or not); so when no run is left and nothing is
    queued, every mode was attempted since the start. *)
Theorem edge_requests_kept s k :
  edge_reachable s -> loop s <> Crashed -> Z.testbit (requested s) k = true ->
  (Z.testbit (onDemandMode s) k = true \/ Exists (waiting k) (runs s) \/
   Exists (fun m => Z.testbit m k = true) (attempted s)) /\
  (runs s = [] -> onDemandMode s = SyncModeUnknown -> Exists (fun m => Z.testbit m k = true) (attempted s)).
Proof.
  intros Hr Hc Hk. assert (accounted s) as [?|Hb]; [|done|].
  { apply (edge_invariant accounted); [|apply accounted_step|done]. right. intros j. cbn. by rewrite Z.bits_0. }
  split; [by apply Hb|]. intros E1 E2. destruct (Hb k Hk) as [H|[H|H]]; [|rewrite E1 in H; by apply Exists_nil in H|done].
  by rewrite E2, Z.bits_0 in H.
Qed.

(** *** Ticks *)

Definition in_cycle (s : edge) : Prop :=
  (ticks s = 0 /\ cycle s = 4)%Z \/
  (1 <= ticks s /\ cycle s = (ticks s - 1) mod 4 + 1 /\
   intervalMode s = if (ticks s - 1) mod 4 =? 0 then SyncModeDiff else SyncModeWatermark)%Z.

Lemma in_cycle_step a s s' : edge_step a s s' -> in_cycle s -> in_cycle s'.
Proof.
  intros Hs Hc. unfold in_cycle in *. destruct Hs; cbn; try done.
  2: { unfold dispatch. by destruct (running s). }
  right. assert (ticks s + 1 - 1 = ticks s)%Z as -> by lia. unfold cycles.
  destruct Hc as [[-> ->]|(Ht & -> & _)]; [by cbn|].
  pose proof (Z.mod_pos_bound (ticks s - 1) 4) as Hb.
  assert (ticks s mod 4 = (((ticks s - 1) mod 4 + 1) mod 4))%Z as E.
  { rewrite Zplus_mod_idemp_l. f_equal. lia. }
  rewrite E. set (x := ((ticks s - 1) mod 4)%Z) in *.
  assert (x = 0 \/ x = 1 \/ x = 2 \/ x = 3)%Z as Hx by lia. clearbody x.
  destruct Hx as [-> | [-> | [-> | ->]]]; cbn; split_and!; try done; lia.
Qed.

(** every fourth tick of the clock is a run with deletions, the first one too; the others take what is
    new since the watermark *)
Theorem edge_cycle s :
  edge_reachable s -> (1 <= ticks s)%Z ->
  intervalMode s = (if ((ticks s - 1) mod 4 =? 0)%Z then SyncModeDiff else SyncModeWatermark).
Proof.
  intros Hr Ht. assert (in_cycle s) as [[E _]|(_ & _ & E)]; [|lia|exact E].
  apply (edge_invariant in_cycle); [by left|apply in_cycle_step|done].
Qed.

(** *** Progress *)

(** A state of an execution in which nothing arrives during a run. *)
Definition orderly (s : edge) : Prop :=
  loop s = Crashed \/ loop s = Stopped \/
  (runs s = [] /\ running s = false /\ (loop s = Dispatching \/ ticker s = true)) \/
  (exists m at_, runs s = [MkRun m at_] /\ loop s = Selecting /\ onDemandMode s = SyncModeUnknown /\
     match at_ with
     | Spawned => running s = false
     | InTask | AfterTask => running s = true
     | Sending _ => False
     | Ending => running s = true /\ ticker s = true
     end).

Lemma only_run l1 (g h : run) l2 : [g] = l1 ++ h :: l2 -> l1 = [] /\ l2 = [] /\ h = g.
Proof. destruct l1 as [|? [|]]; [|done..]. cbn. by intros [= -> <-]. Qed.

Lemma no_run l1 (h : run) l2 : [] <> l1 ++ h :: l2.
Proof. by destruct l1. Qed.

Lemma orderly_step a s s' : prompt = true -> edge_step a s s' -> orderly s -> orderly s'.
Proof.
  intros Hprompt Hs Ho. destruct Ho as [Hc|[Hc|[(Hr & Hf & Hl)|(m & p & Hr & Hl & Hd & Hp)]]].
  - destruct Hs; congruence.
  - destruct Hs; unfold orderly; cbn; first [by left|by right; left|congruence].
  - destruct Hs; rewrite ?Hr in *; unfold orderly; cbn in *;
      try (by edestruct no_run; eauto); try (by right; left); try (by right; right; left; auto).
    unfold dispatch. rewrite Hf, Hr. cbn. right. right. right. by eexists _, Spawned.
  - destruct Hs; unfold orderly; cbn in *; try (by right; left); try congruence;
      try (match goal with H : prompt = true -> _ |- _ => by rewrite (H Hprompt) in Hr end);
      try (right; right; right; by exists m, p);
      rewrite Hr in *;
      match goal with H : [_] = _ ++ _ :: _ |- _ => apply only_run in H as (-> & -> & E); injection E as -> <- end;
      cbn; try done; try (by right; right; right; eexists _, _); try (by left).
    right. right. left. naive_solver.
Qed.

(** as long as ticks and requests arrive between runs, the scheduler keeps going: at most one run
    is there at a time, nothing it does waits for a user, and until it is cancelled there is always a
    next step, of the program or of the clock. *)
Theorem edge_progress s :
  prompt = true -> (0 < calcInterval SyncInterval)%Z -> edge_reachable s -> loop s <> Crashed -> loop s <> Stopped ->
  (length (runs s) <= 1)%nat /\ exists a s', a <> User_ /\ edge_step a s s'.
Proof.
  intros Hp Hi Hr Hc Hst.
  assert (orderly s) as [?|[?|[(E & Hf & Hl)|(m & p & E & Hl & Hd & Hph)]]]; [|done..| |].
  { apply (edge_invariant orderly); [by right; right; left; auto|eauto using orderly_step|done]. }
  - rewrite E. split; [cbn; lia|]. destruct (loop s) eqn:L; try done.
    + destruct Hl as [?|Ht]; [done|]. exists Clock, (on_tick s). split; [done|]. by constructor.
    + exists Program, (dispatch s). split; [done|]. by constructor.
  - rewrite E. split; [cbn; lia|]. exists Program. destruct p; try done; eexists; (split; [done|]).
    + by apply (step_begin s [] m []).
    + by apply (step_task s [] m []).
    + by apply (step_after_idle s [] m []).
    + by apply (step_end s [] m []).
Qed.
End Steps.

(** *** Executions *)

Tactic Notation "edge_step_by" uconstr(H) := eapply rtc_l; [eexists; by eapply H|].

(** C31: A request that arrives during a run can be left lying.  The run sends the queued mode to the
    scheduler before it resets [running], so the scheduler, which has stopped the ticker, does not
    start a run for it: for any mode and any interval, a state can be reached in which the mode is queued, no run is
    there, the plugin is not cancelled and the only task so far was that of the first tick, and from which nothing but
    a step of the user leads on: neither the clock nor the program makes another. *)
Theorem edge_stalls SyncInterval mode :
  mode <> SyncModeUnknown ->
  exists s, edge_reachable SyncInterval false s /\ onDemandMode s = mode /\ attempted s = [SyncModeDiff] /\
    runs s = [] /\ cancelled s = false /\
    forall a s', edge_step SyncInterval false a s s' -> a = User_.
Proof.
  intros Hm. eexists. split; [|split_and!].
  - unfold edge_reachable.
    edge_step_by step_tick. edge_step_by step_dispatch.
    edge_step_by (step_begin _ _ _ [] SyncModeDiff []).
    edge_step_by (step_request _ _ _ mode). edge_step_by step_dispatch.
    edge_step_by (step_task _ _ _ [] SyncModeDiff []).
    edge_step_by (step_after_queued _ _ _ [] SyncModeDiff []).
    edge_step_by (step_receive _ _ _ [] SyncModeDiff mode []).
    edge_step_by step_dispatch.
    edge_step_by (step_end _ _ _ [] SyncModeDiff []).
    reflexivity.
  - cbn. apply Z.lor_diag.
  - done.
  - done.
  - done.
  - intros a s' Hs. inversion Hs; subst; cbn in *; try done; by edestruct no_run.
Qed.

(** Two requests in a row can be carried out at the same time: [running] is set by the run, not by
    the scheduler that starts it, so that a second run can be started before the first one is marked. *)
Theorem edge_overlaps SyncInterval :
  exists s, edge_reachable SyncInterval false s /\ runs s = [MkRun SyncModeFull InTask; MkRun SyncModeDiff InTask].
Proof.
  eexists. split.
  - unfold edge_reachable.
    edge_step_by (step_request _ _ _ SyncModeFull). edge_step_by step_dispatch.
    edge_step_by (step_request _ _ _ SyncModeDiff). edge_step_by step_dispatch.
    edge_step_by (step_begin _ _ _ [] SyncModeFull [MkRun SyncModeDiff Spawned]).
    edge_step_by (step_begin _ _ _ [MkRun SyncModeFull InTask] SyncModeDiff []).
    reflexivity.
  - reflexivity.
Qed.

(** ** Intervals *)

(** a quarter of the configured minutes, in nanoseconds, up to the width of a duration; an interval
    that is missing from the configuration gives no duration at all *)
Theorem calc_interval_exact n :
  (0 <= n <= 614891469)%Z -> calcInterval n = (n * 15 * Second)%Z.
Proof.
  intros Hn. unfold calcInterval, wrap64, secsInMin, cycles, Second.
  rewrite (Z.mod_small (n * 60 + 2 ^ 63)) by lia.
  replace (n * 60 + 2 ^ 63 - 2 ^ 63)%Z with (n * 15 * 4)%Z by lia.
  rewrite Z.quot_mul by lia. rewrite Z.mod_small by lia. lia.
Qed.

(** without a sync interval in the configuration the process does not survive the first run: the
    ticker is reset to a duration of zero, which panics outside the recovery of [task]. *)
Theorem edge_zero_interval_crashes :
  exists s, edge_reachable 0 true s /\ loop s = Crashed /\ attempted s = [SyncModeDiff].
Proof.
  eexists. split; [|split].
  - unfold edge_reachable. edge_step_by step_tick. edge_step_by step_dispatch.
    edge_step_by (step_begin _ _ _ [] SyncModeDiff []). edge_step_by (step_task _ _ _ [] SyncModeDiff []).
    edge_step_by (step_after_panic _ _ _ [] SyncModeDiff []). reflexivity.
  - reflexivity.
  - reflexivity.
Qed.

(** ** One run *)

(** every synchronisation of a run brings the manifest along, and every requested mode is served: a
    full one by one with deletions, if both are asked for *)
Theorem edge_task_covers Enabled sync mode :
  let done_ := (edge_task Enabled None None None sync mode ([], false)).1 in
  (forall opts, opts ∈ done_ -> Manifest ∈ opts) /\
  (edge_has mode SyncModeDiff = true -> [Manifest; Diff] ∈ done_) /\
  (edge_has mode SyncModeWatermark = true -> [Manifest; Watermark] ∈ done_) /\
  (edge_has mode SyncModeFull = true -> [Manifest; Full] ∈ done_ \/ [Manifest; Diff] ∈ done_) /\
  (edge_has mode SyncModeManifest = true -> done_ <> []).
Proof.
  unfold edge_task. destruct (Z.eqb_spec mode SyncModeUnknown) as [->|_].
  { cbn. split_and!; try done. intros opts ->%list_elem_of_singleton. left. }
  destruct (edge_has mode SyncModeWatermark), (edge_has mode SyncModeDiff), (edge_has mode SyncModeFull),
    (edge_has mode SyncModeManifest); cbn; rewrite ?elem_of_cons; split_and!; try done; try tauto;
    intros opts; rewrite ?elem_of_cons, ?elem_of_nil; intros Ho; decompose [or] Ho; subst; done || left.
Qed.

Module EdgeExamples.
Definition after_demand : edge :=
  set_running false (set_runs [] (set_ticker true (set_runs [MkRun SyncModeFull Ending]
    (attempt SyncModeFull (set_runs [MkRun SyncModeFull AfterTask] (set_running true
      (set_runs [MkRun SyncModeFull InTask] (dispatch (on_demand SyncModeFull (request SyncModeFull edge_start)))))))))).

Lemma edge_requests_kept_witness : Exists (fun m => Z.testbit m 0 = true) (attempted after_demand).
Proof.
  apply (edge_requests_kept 1 true after_demand 0).
  - unfold edge_reachable.
    edge_step_by (step_request _ _ _ SyncModeFull). edge_step_by step_dispatch.
    edge_step_by (step_begin _ _ _ [] SyncModeFull []). edge_step_by (step_task _ _ _ [] SyncModeFull []).
    edge_step_by (step_after_idle _ _ _ [] SyncModeFull []). edge_step_by (step_end _ _ _ [] SyncModeFull []).
    reflexivity.
  - discriminate.
  - reflexivity.
  - reflexivity.
  - reflexivity.
Defined.

Lemma edge_progress_witness : exists a s', a <> User_ /\ edge_step 1 true a edge_start s'.
Proof.
  apply (edge_progress 1 true edge_start); [reflexivity|reflexivity|apply rtc_refl|discriminate|discriminate].
Defined.

Lemma edge_stalls_witness : exists s, edge_reachable 1 false s /\ onDemandMode s = SyncModeFull.
Proof.
  destruct (edge_stalls 1 SyncModeFull) as (s & H1 & H2 & _); [discriminate|]. by exists s.
Defined.
End EdgeExamples.
