(* ===== verification/Git.v ===== *)
(** * The Git plugin

    [daemon/authorizer/plugins/git/plugin.go]: the policy bundle of a Git repository, followed by
    polling.  The file system, the repository ([go-git]) and OPA's loader and store are third-party
    code or devices: parameters ([GitWorld]), of which the theorems use that only an activation that
    succeeds changes the active bundle ([GitLaws]). *)
From Stdlib Require Import Ascii.
From S2P Require Import Prelude Bytes Text Paths.

(** ** Configuration *)

Definition PluginName : string := "git".
Definition defaultRef : string := "refs/heads/main".
Definition git_defaultPollIntervalSec : Z := 60%Z.

Record GitAuthConfig := MkGitAuth {
  Username : string; Token_ : string; SSHKeyPath : string; SSHKeyPassphrase : string; KnownHostsPath : string }.
Record GitConfig := MkGitConfig {
  Repo : string; Ref : string; git_Path : string; CacheDir : string; git_PollIntervalSeconds : Z;
  git_Auth : GitAuthConfig }.

Definition git_ref (cfg : GitConfig) : string := if String.eqb (Ref cfg) "" then defaultRef else Ref cfg.
Definition git_pollInterval (cfg : GitConfig) : Z :=
  if (git_PollIntervalSeconds cfg <=? 0)%Z then git_defaultPollIntervalSec else git_PollIntervalSeconds cfg.

(** [sha256hex] is the digest in hexadecimal; [home] the outcome of [os.UserHomeDir]. *)
Definition git_cacheDir (sha256hex : string -> string) (home : res string) (tempDir : string) (cfg : GitConfig) : string :=
  if negb (String.eqb (CacheDir cfg) "") then CacheDir cfg
  else
    let sum := sha256hex (Repo cfg +:+ "|" +:+ git_ref cfg) in
    let home := match home with Ok h => h | Fail _ => tempDir end in
    filepath_Join [home; ".policy"; "git"; String.substring 0 16 sum].

(** ** The world *)

Class GitWorld := {
  world : Type;
  repository : Type;
  bundle_ : Type;
  auth_method : Type;
  (** [os.Stat] finds the file *)
  stat : string -> world -> bool;
  MkdirAll : string -> M world unit;
  PlainOpen : string -> world -> res repository;
  PlainClone : string -> string -> option auth_method -> M world repository;
  (** [false]: the repository was up to date already *)
  FetchContext : repository -> option auth_method -> M world bool;
  ResolveRevision : repository -> string -> world -> res string;
  Worktree : repository -> world -> option err;
  Checkout : repository -> string -> M world unit;
  (** the loader, with the configured verification *)
  AsBundle : string -> world -> res bundle_;
  (** [storage.Txn] around [bundle.Activate] *)
  Activate : bundle_ -> M world unit;
  active_bundle : world -> option bundle_;
  NewPublicKeysFromFile : string -> string -> world -> res auth_method;
  NewKnownHostsCallback : string -> world -> res (auth_method -> auth_method);
  BasicAuth : string -> string -> auth_method }.

Class GitLaws (G : GitWorld) := {
  mkdir_keeps d w : active_bundle (MkdirAll d w).2 = active_bundle w;
  clone_keeps d url a w : active_bundle (PlainClone d url a w).2 = active_bundle w;
  fetch_keeps r a w : active_bundle (FetchContext r a w).2 = active_bundle w;
  checkout_keeps r h w : active_bundle (Checkout r h w).2 = active_bundle w;
  activate_ok b w w' : Activate b w = (Ok tt, w') -> active_bundle w' = Some b;
  (** a commit has a hash *)
  resolve_nonempty r c w h : ResolveRevision r c w = Ok h -> h <> "";
  activate_failed b w e w' : Activate b w = (Fail e, w') -> active_bundle w' = active_bundle w }.

(** ** The plugin *)

Inductive plugin_state := StateOK | StateNotReady | StateErr (msg : err).

Record git_plugin := MkGit {
  git_config : GitConfig; cacheDir : string; lastHash : string;
  git_status : plugin_state; git_serving : bool; git_cancelled : bool }.

Section Git.
Context `{G : GitWorld}.

Definition authMethod (cfg : GitConfig) : M world (option auth_method) :=
  let auth := git_Auth cfg in
  if negb (String.eqb (SSHKeyPath auth) "") then
    let! method := wrapped "load ssh private key"
      (reads (NewPublicKeysFromFile (SSHKeyPath auth) (SSHKeyPassphrase auth))) in
    if negb (String.eqb (KnownHostsPath auth) "") then
      let! cb := wrapped "load known_hosts file" (reads (NewKnownHostsCallback (KnownHostsPath auth))) in
      ret (Some (cb method))
    else ret (Some method)
  else if negb (String.eqb (Token_ auth) "") then
    ret (Some (BasicAuth (if String.eqb (Username auth) "" then "git" else Username auth) (Token_ auth)))
  else ret None.

Definition openOrClone (p : git_plugin) : M world repository := fun w =>
  if stat (filepath_Join [cacheDir p; ".git"]) w then reads (PlainOpen (cacheDir p)) w
  else
    (let! auth := authMethod (git_config p) in
     do! wrapped "create cache dir" (MkdirAll (cacheDir p));
     PlainClone (cacheDir p) (Repo (git_config p)) auth) w.

(** The candidates in order; the error is the last one's. *)
Fixpoint resolve_candidates (repo : repository) (candidates : list string) (lastErr : err) : M world string :=
  match candidates with
  | [] => fail lastErr
  | c :: candidates => fun w =>
      match ResolveRevision repo c w with
      | Ok hash => (Ok hash, w)
      | Fail e => resolve_candidates repo candidates e w
      end
  end.
Definition resolveRef (repo : repository) (r : string) : M world string :=
  let name := TrimPrefix (TrimPrefix r "refs/heads/") "refs/tags/" in
  wrapped ("resolve git ref '" ++ r ++ "'")
    (resolve_candidates repo ["refs/remotes/origin/" +:+ name; "refs/tags/" +:+ name; r] (XErr UnknownCode "")).

Definition fetchAndCheckout (p : git_plugin) (repo : repository) : M world string :=
  let! auth := authMethod (git_config p) in
  let! _ := wrapped "git fetch" (FetchContext repo auth) in
  let! hash := resolveRef repo (git_ref (git_config p)) in
  let! _ := reads (fun w => match Worktree repo w with Some e => Fail e | None => Ok tt end) in
  do! wrapped "git checkout" (Checkout repo hash);
  ret hash.

Definition bundlePath (p : git_plugin) : string :=
  if negb (String.eqb (git_Path (git_config p)) "") then filepath_Join [cacheDir p; git_Path (git_config p)]
  else cacheDir p.

(** The new hash, if a bundle was activated. *)
Definition sync_world (p : git_plugin) : M world (option string) :=
  let! repo := wrapped "open or clone git repo" (openOrClone p) in
  let! hash := wrapped "fetch and checkout git ref" (fetchAndCheckout p repo) in
  if String.eqb hash (lastHash p) then ret None
  else
    let! b := wrapped ("build bundle from git checkout at '" ++ bundlePath p ++ "'") (reads (AsBundle (bundlePath p))) in
    do! wrapped "activate bundle" (Activate b);
    ret (Some hash).

Definition set_hash (h : string) (p : git_plugin) : git_plugin :=
  MkGit (git_config p) (cacheDir p) h (git_status p) (git_serving p) (git_cancelled p).
Definition set_state (st : plugin_state) (serving : bool) (p : git_plugin) : git_plugin :=
  MkGit (git_config p) (cacheDir p) (lastHash p) st serving (git_cancelled p).

Definition git_sync (s : world * git_plugin) : option err * (world * git_plugin) :=
  let '(w, p) := s in
  match sync_world p w with
  | (Fail e, w') => (Some e, (w', p))
  | (Ok None, w') => (None, (w', p))
  | (Ok (Some hash), w') => (None, (w', set_hash hash p))
  end.

(** [Start] up to its scheduler, one tick of the scheduler, [Stop] and [Reconfigure]. *)
Definition git_Start (s : world * git_plugin) : world * git_plugin :=
  match git_sync (s.1, set_state StateOK (git_serving s.2) s.2) with
  | (Some _, s') => s'
  | (None, (w', p')) => (w', set_state (git_status p') true p')
  end.
Definition git_tick (s : world * git_plugin) : world * git_plugin :=
  match git_sync s with
  | (Some e, (w', p')) => (w', set_state (StateErr e) false p')
  | (None, (w', p')) => (w', set_state StateOK true p')
  end.
Definition git_Stop (s : world * git_plugin) : world * git_plugin :=
  let '(w, p) := s in
  (w, MkGit (git_config p) (cacheDir p) (lastHash p) StateNotReady (git_serving p) true).
Definition git_Reconfigure (dir_of : GitConfig -> string) (cfg : GitConfig) (s : world * git_plugin)
  : world * git_plugin :=
  let '(w, p) := s in
  (w, MkGit cfg (dir_of cfg) (lastHash p) (git_status p) (git_serving p) (git_cancelled p)).
End Git.

(** ** Properties *)
Section Facts.
Context `{G : GitWorld} `{GL : !GitLaws G}.

(** The bundle is the given one; what does not activate anything keeps it. *)
Definition active_is (x : option bundle_) (w : world) : Prop := active_bundle w = x.

Lemma keeps_mkdir x d : preserves (active_is x) (MkdirAll d).
Proof. intros w <-. apply mkdir_keeps. Qed.
Lemma keeps_clone x d url a : preserves (active_is x) (PlainClone d url a).
Proof. intros w <-. apply clone_keeps. Qed.
Lemma keeps_fetch x r a : preserves (active_is x) (FetchContext r a).
Proof. intros w <-. apply fetch_keeps. Qed.
Lemma keeps_checkout x r h : preserves (active_is x) (Checkout r h).
Proof. intros w <-. apply checkout_keeps. Qed.

Hint Resolve preserves_wrapped keeps_mkdir keeps_clone keeps_fetch keeps_checkout : dirdb.

Lemma keeps_auth x cfg : preserves (active_is x) (authMethod cfg).
Proof. unfold authMethod. preserve. Qed.
Lemma keeps_open x p : preserves (active_is x) (openOrClone p).
Proof.
  intros w Hw. unfold openOrClone. destruct (stat _ w); [done|].
  revert w Hw. change (preserves (active_is x) (let! auth := authMethod (git_config p) in
    do! wrapped "create cache dir" (MkdirAll (cacheDir p)); PlainClone (cacheDir p) (Repo (git_config p)) auth)).
  pose proof (keeps_auth x). preserve.
Qed.
Lemma resolve_pure repo candidates : forall e w, (resolve_candidates repo candidates e w).2 = w.
Proof.
  induction candidates as [|c l IH]; intros e w; [done|]. cbn. by destruct (ResolveRevision repo c w); [|apply IH].
Qed.
Lemma keeps_fetchAndCheckout x p repo : preserves (active_is x) (fetchAndCheckout p repo).
Proof.
  pose proof (keeps_auth x). unfold fetchAndCheckout, resolveRef.
  assert (forall l e, preserves (active_is x) (resolve_candidates repo l e)) by
    (intros l e w Hw; by rewrite resolve_pure).
  preserve.
Qed.

(** The parts of a pass that get as far as a checkout. *)
Lemma fetchAndCheckout_ok p repo w hash w' :
  fetchAndCheckout p repo w = (Ok hash, w') ->
  exists w1, resolveRef repo (git_ref (git_config p)) w1 = (Ok hash, w1) /\ Checkout repo hash w1 = (Ok tt, w').
Proof.
  unfold fetchAndCheckout. intros [(a & w0 & _ & H)|(e & _ & ?)]%bind_inv; [|done].
  apply bind_inv in H as [(b & w1 & _ & H)|(e & _ & ?)]; [|done].
  apply bind_inv in H as [(h & w2 & Hr & H)|(e & _ & ?)]; [|done].
  assert (w2 = w1) as ->.
  { pose proof Hr as Hr'. apply wrapped_ok in Hr'. apply (f_equal snd) in Hr'. cbn [snd] in Hr'.
    by rewrite resolve_pure in Hr'. }
  apply bind_inv in H as [([] & w3 & Hw & H)|(e & _ & ?)]; [|done].
  assert (w3 = w1) as -> by (unfold reads in Hw; congruence).
  apply bind_inv in H as [([] & w4 & Hc & H)|(e & _ & ?)]; [|done]. apply wrapped_ok in Hc.
  injection H as -> ->. eauto.
Qed.

(** what a poll of the repository does to the policy.  If it fails, the active bundle and the
    recorded commit are those of before.  If it succeeds, the recorded commit is the one that the
    configured reference resolves to after the fetch, and the active bundle is the one of before
    (when the commit was recorded already) or the one loaded from the configured path of that
    commit's checkout. *)
Theorem git_sync_exact w p e w' p' :
  git_sync (w, p) = (e, (w', p')) ->
  p' = set_hash (lastHash p') p /\
  match e with
  | Some _ => lastHash p' = lastHash p /\ active_bundle w' = active_bundle w
  | None =>
      exists repo w1 w2,
        resolveRef repo (git_ref (git_config p)) w1 = (Ok (lastHash p'), w1) /\
        Checkout repo (lastHash p') w1 = (Ok tt, w2) /\
        if String.eqb (lastHash p') (lastHash p) then active_bundle w' = active_bundle w
        else exists b, AsBundle (bundlePath p) w2 = Ok b /\ active_bundle w' = Some b
  end.
Proof.
  unfold git_sync. destruct (sync_world p w) as [r w0] eqn:E. unfold sync_world in E.
  assert (forall q : git_plugin, q = set_hash (lastHash q) q) as Hset by (by intros []).
  apply bind_inv in E as [(repo & wo & Ho & E)|(er & Ho & ->)].
  2: { intros [= <- <- <-]. split; [apply Hset|]. split; [done|].
       pose proof (preserves_wrapped _ "open or clone git repo" _ (keeps_open (active_bundle w) p) w eq_refl) as K.
       by rewrite Ho in K. }
  assert (active_bundle wo = active_bundle w) as Ko.
  { pose proof (preserves_wrapped _ "open or clone git repo" _ (keeps_open (active_bundle w) p) w eq_refl) as K.
    by rewrite Ho in K. }
  pose proof (preserves_wrapped _ "fetch and checkout git ref" _ (keeps_fetchAndCheckout (active_bundle w) p repo) wo Ko) as Kf.
  apply bind_inv in E as [(hash & wc & Hf & E)|(er & Hf & ->)]; rewrite Hf in Kf; cbn [snd] in Kf; unfold active_is in Kf.
  2: { intros [= <- <- <-]. split; [apply Hset|]. by split. }
  apply wrapped_ok, fetchAndCheckout_ok in Hf as (w1 & Hr & Hc).
  destruct (String.eqb_spec hash (lastHash p)) as [->|Hne].
  { injection E as <- <-. intros [= <- <- <-]. split; [apply Hset|]. exists repo, w1, wc. by rewrite String.eqb_refl. }
  apply bind_inv in E as [(b & wb & Hb & E)|(er & Hb & ->)].
  2: { intros [= <- <- <-]. split; [apply Hset|]. split; [done|]. unfold wrapped, reads in Hb. congruence. }
  apply wrapped_ok in Hb. injection Hb as Hb <-.
  apply bind_inv in E as [([] & wa & Ha & E)|(er & Ha & ->)].
  - injection E as <- <-. intros [= <- <- <-]. split; [done|]. exists repo, w1, wc. cbn [lastHash set_hash].
    apply wrapped_ok in Ha. apply String.eqb_neq in Hne. rewrite Hne. split_and!; try done.
    exists b. split; [done|]. by eapply activate_ok.
  - intros [= <- <- <-]. split; [apply Hset|]. split; [done|]. rewrite <-Kf.
    unfold wrapped in Ha. destruct (Activate b wc) as [[[]|e'] w3] eqn:A; [done|]. injection Ha as _ <-.
    by eapply activate_failed.
Qed.

Lemma resolveRef_nonempty repo r w h w' : resolveRef repo r w = (Ok h, w') -> h <> "".
Proof.
  intros H%wrapped_ok. revert H. generalize (XErr UnknownCode "").
  generalize ["refs/remotes/origin/" +:+ TrimPrefix (TrimPrefix r "refs/heads/") "refs/tags/";
     "refs/tags/" +:+ TrimPrefix (TrimPrefix r "refs/heads/") "refs/tags/"; r] as l.
  induction l as [|c l IH]; intros e; cbn; [done|].
  destruct (ResolveRevision repo c w) eqn:E; [|apply IH]. intros [= <- _]. by eapply resolve_nonempty.
Qed.

(** The life of a plugin after [Start]: polls, new configurations, a stop, and a world that changes
    (but not the active bundle) around it. *)
Inductive git_step (dir_of : GitConfig -> string) : world * git_plugin -> world * git_plugin -> Prop :=
| git_step_tick s : git_cancelled s.2 = false -> git_step dir_of s (git_tick s)
| git_step_reconfigure s cfg : git_step dir_of s (git_Reconfigure dir_of cfg s)
| git_step_stop s : git_step dir_of s (git_Stop s)
| git_step_world w w' p : active_bundle w' = active_bundle w -> git_step dir_of (w, p) (w', p).

Definition loaded (s : world * git_plugin) : Prop := is_Some (active_bundle s.1).
Definition backed (s : world * git_plugin) : Prop :=
  (lastHash s.2 <> "" -> loaded s) /\ (git_serving s.2 = true -> loaded s).

(** A pass keeps a loaded bundle, and loads one if it ends well. *)
Lemma sync_loads s e s' :
  git_sync s = (e, s') -> backed s ->
  (loaded s -> loaded s') /\ (e = None -> loaded s') /\ (lastHash s'.2 <> "" -> loaded s') /\
  git_serving s'.2 = git_serving s.2.
Proof.
  destruct s as [w p], s' as [w' p']. intros H [Hb _]. unfold loaded in *. cbn [fst snd] in *.
  apply git_sync_exact in H as [Hp H].
  assert (git_serving p' = git_serving p) as -> by (rewrite Hp; done). clear Hp.
  destruct e as [e|].
  - destruct H as [-> ->]. by split_and!.
  - destruct H as (repo & w1 & w2 & Hr & _ & H). apply resolveRef_nonempty in Hr.
    destruct (String.eqb_spec (lastHash p') (lastHash p)) as [E|E].
    + rewrite H. rewrite E in Hr. split_and!; auto.
    + destruct H as (b & _ & ->). split_and!; eauto.
Qed.

Lemma backed_step dir_of s s' : git_step dir_of s s' -> backed s -> backed s' /\ (loaded s -> loaded s').
Proof.
  intros Hs Hb. destruct Hs as [s Hc|s cfg|s|w w' p E].
  - unfold git_tick. destruct (git_sync s) as [e [w' p']] eqn:H.
    destruct (sync_loads s e (w', p') H Hb) as (H1 & H2 & H3 & _). destruct e as [e|]; by (split; [split|]); auto.
  - by destruct s.
  - by destruct s.
  - unfold backed, loaded in *. cbn in *. by rewrite E.
Qed.

(** C30: the health service says that policies are served only when they are, and a policy once loaded
    stays.  From the start of a new plugin on, through polls that succeed or fail, new configurations
    and whatever happens to the repository, the service is marked as serving only with an active
    bundle, and an active bundle is never taken away without a new one. *)
Theorem git_serving_loaded dir_of w p s s' :
  lastHash p = "" -> git_serving p = false ->
  rtc (git_step dir_of) (git_Start (w, p)) s -> rtc (git_step dir_of) s s' ->
  (git_serving s'.2 = true -> is_Some (active_bundle s'.1)) /\
  (is_Some (active_bundle s.1) -> is_Some (active_bundle s'.1)).
Proof.
  intros Hh Hsv H1 H2.
  assert (backed (git_Start (w, p))) as H0.
  { unfold git_Start. destruct (git_sync _) as [e [w' p']] eqn:H.
    assert (backed (w, set_state StateOK (git_serving p) p)) as Hb
      by (split; cbn; [by rewrite Hh|by rewrite Hsv]).
    destruct (sync_loads _ _ _ H Hb) as (_ & L2 & L3 & L4). cbn in L3, L4.
    destruct e as [e|]; split; cbn; auto. by rewrite L4, Hsv. }
  assert (forall x y, rtc (git_step dir_of) x y -> backed x -> backed y /\ (loaded x -> loaded y)) as Hrtc.
  { intros x y H. induction H as [|x y z Hs _ IH]; [done|]. intros Hb.
    destruct (backed_step _ _ _ Hs Hb) as [Hy L]. destruct (IH Hy) as [Hz L']. auto. }
  destruct (Hrtc _ _ H1 H0) as [Hs _]. destruct (Hrtc _ _ H2 Hs) as [[_ Hs'] L]. auto.
Qed.

(** a new path in the configuration is not followed while the commit stays the same: the poll
    after it succeeds, and leaves the bundle of the old path active and the service marked as serving. *)
Theorem git_path_change_ignored dir_of cfg w p repo w1 w2 :
  openOrClone (git_Reconfigure dir_of cfg (w, p)).2 w = (Ok repo, w1) ->
  fetchAndCheckout (git_Reconfigure dir_of cfg (w, p)).2 repo w1 = (Ok (lastHash p), w2) ->
  let s' := git_tick (git_Reconfigure dir_of cfg (w, p)) in
  active_bundle s'.1 = active_bundle w /\ git_serving s'.2 = true /\ git_status s'.2 = StateOK /\
  git_config s'.2 = cfg.
Proof.
  intros H1 H2. assert (active_bundle w2 = active_bundle w) as K.
  { pose proof (keeps_open (active_bundle w) (git_Reconfigure dir_of cfg (w, p)).2 w eq_refl) as K1.
    rewrite H1 in K1. pose proof (keeps_fetchAndCheckout (active_bundle w) (git_Reconfigure dir_of cfg (w, p)).2 repo w1 K1) as K2.
    by rewrite H2 in K2. }
  unfold git_tick, git_sync, git_Reconfigure in *. cbn [snd] in *. unfold sync_world, bind, wrapped.
  rewrite H1. cbn [rwrap]. rewrite H2. cbn [rwrap lastHash]. by rewrite String.eqb_refl.
Qed.

(** A reference to a tag is resolved to the branch of the same name, if there is one. *)
Theorem resolve_tag_shadowed repo name w h :
  ResolveRevision repo ("refs/remotes/origin/" +:+ name) w = Ok h ->
  resolveRef repo ("refs/tags/" +:+ name) w = (Ok h, w).
Proof.
  intros H. apply wrapped_ok. rewrite (TrimPrefix_none "refs/heads/") by reflexivity.
  rewrite TrimPrefix_app. cbn [resolve_candidates]. by rewrite H.
Qed.
End Facts.

Module GitExamples.

(** A remote of references, the commit that is checked out, whether there is a clone, the active
    bundle: a path of a commit. *)
Record toy := MkToy { remote : gmap string string; head : string; cloned : bool; active : option (string * string) }.

#[export] Instance toy_world : GitWorld := {|
  world := toy; repository := unit; bundle_ := string * string; auth_method := string * string;
  stat := fun _ w => cloned w;
  MkdirAll := fun _ w => (Ok tt, w);
  PlainOpen := fun _ w => Ok tt;
  PlainClone := fun _ _ _ w => (Ok tt, MkToy (remote w) (head w) true (active w));
  FetchContext := fun _ _ w => (Ok true, w);
  ResolveRevision := fun _ c w =>
    match remote w !! c with
    | Some h => if String.eqb h "" then Fail (XErr UnknownCode "bad hash") else Ok h
    | None => Fail (XErr UnknownCode "reference not found")
    end;
  Worktree := fun _ _ => None;
  Checkout := fun _ h w => (Ok tt, MkToy (remote w) h (cloned w) (active w));
  AsBundle := fun path w => Ok (path, head w);
  Activate := fun b w => (Ok tt, MkToy (remote w) (head w) (cloned w) (Some b));
  active_bundle := active;
  NewPublicKeysFromFile := fun k _ _ => Ok (k, "");
  NewKnownHostsCallback := fun _ _ => Ok (fun m => m);
  BasicAuth := fun u t => (u, t) |}.

#[export] Instance toy_laws : GitLaws toy_world.
Proof.
  split; try done.
  - by intros b w w' [= <-].
  - intros r c w h. cbn. destruct (remote w !! c) as [h'|]; [|done].
    destruct (String.eqb_spec h' ""); [done|]. by intros [= <-].
Qed.

Definition conf (path : string) : GitConfig :=
  MkGitConfig "https://git.acme/policies" "" path "/var/policy" 0 (MkGitAuth "" "t0ken" "" "" "").
Definition fresh (path : string) : git_plugin := MkGit (conf path) "/var/policy" "" StateNotReady false false.
Definition origin : @world toy_world := MkToy {["refs/remotes/origin/main" := "c0ffee"]} "" false None.
Definition started : world * git_plugin := git_Start (G := toy_world) (origin, fresh "a").

Definition first_sync := git_sync (G := toy_world) (origin, fresh "a").
Lemma git_sync_exact_witness : is_Some (active_bundle first_sync.2.1).
Proof.
  destruct (git_sync_exact (G := toy_world) origin (fresh "a") None first_sync.2.1 first_sync.2.2)
    as (_ & repo & w1 & w2 & _ & _ & H).
  - vm_compute. reflexivity.
  - destruct (String.eqb (lastHash first_sync.2.2) (lastHash (fresh "a"))) eqn:E; [vm_compute in E; discriminate E|].
    destruct H as (b & _ & H). exists b. exact H.
Defined.

Lemma git_serving_loaded_witness : is_Some (active_bundle (git_tick started).1).
Proof.
  destruct (git_serving_loaded (G := toy_world) CacheDir origin (fresh "a") started (git_tick started)) as [H _].
  - reflexivity.
  - reflexivity.
  - apply rtc_refl.
  - apply rtc_once. apply (git_step_tick CacheDir started). reflexivity.
  - apply H. vm_compute. reflexivity.
Defined.

(** The bundle of path [a] is served under the configuration for path [b]. *)
Lemma git_path_change_ignored_witness :
  active_bundle (git_tick (git_Reconfigure CacheDir (conf "b") started)).1 = Some ("/var/policy/a", "c0ffee").
Proof.
  destruct (git_path_change_ignored (G := toy_world) CacheDir (conf "b") started.1 started.2 tt started.1 started.1) as (H & _).
  - vm_compute. reflexivity.
  - vm_compute. reflexivity.
  - change (started.1, started.2) with started in H. rewrite H. vm_compute. reflexivity.
Defined.
End GitExamples.
