(* ===== verification/Config.v ===== *)
(** * The configuration: loading, validation and development certificates

    [pkg/config] (less the authentication options, which are in [Authn]) and [internal/certs].  The
    configuration is the record [Config]; the services are pointers in Go, and [Services] is the
    store they point into: what writes through one of them returns the changed configuration.  The
    YAML decoder, the file system's refusals and RSA are parameters. *)
From Stdlib Require Import Ascii.
From S2P Require Import Prelude Bytes Text Paths Policies Authn.

(** ** The configuration *)

Definition PortFromAddress (address : string) : res string := rmap snd (SplitHostPort address).

(** [aserto.TLSConfig], with the two tests the code makes of it. *)
Record TLSConfig := MkTLS { tls_CA : string; tls_Cert : string; tls_Key : string }.
Class TLS := { HasCert : TLSConfig -> bool; HasCA : TLSConfig -> bool }.

Record GRPC_API := MkGRPC {
  grpc_FQDN : string; grpc_ListenAddress : string; ConnectionTimeoutSeconds : Z; grpc_Certs : TLSConfig }.
Record Gateway_API := MkGatewayAPI {
  gw_FQDN : string; gw_ListenAddress : string; AllowedOrigins : list string; AllowedHeaders : list string;
  AllowedMethods : list string; gw_Certs : TLSConfig; gw_HTTP : bool }.
Record API := MkAPI { Needs : list string; api_GRPC : GRPC_API; api_Gateway : Gateway_API }.

Record JWT_config := MkJWT {
  AcceptableTimeSkewSeconds : Z; AllowedIssuers : list string; CacheRefreshMinInterval : string;
  CacheRefreshMaxInterval : string; jwt_ExpectedAudience : string }.

Record Config := MkConfig {
  cfg_Version : Z; cfg_LogLevel : string;
  Debug_Enabled : bool; Debug_ListenAddress : string;
  mode_Run : bool;
  Health_ListenAddress : string; Health_Certificates : TLSConfig;
  Metrics_ListenAddress : string; Metrics_Certificates : TLSConfig;
  cfg_Services : gmap string API;
  cfg_JWT : JWT_config;
  Edge_DBPath : string;
  DirectoryResolver_Address : string; DirectoryResolver_APIKey : string;
  OPA_InstanceID : string; OPA_bundles : nat;
  cfg_Auth : AuthnConfig }.

Definition set_Services (m : gmap string API) (c : Config) : Config :=
  MkConfig (cfg_Version c) (cfg_LogLevel c) (Debug_Enabled c) (Debug_ListenAddress c) (mode_Run c)
    (Health_ListenAddress c) (Health_Certificates c) (Metrics_ListenAddress c) (Metrics_Certificates c)
    m (cfg_JWT c) (Edge_DBPath c) (DirectoryResolver_Address c) (DirectoryResolver_APIKey c)
    (OPA_InstanceID c) (OPA_bundles c) (cfg_Auth c).
Definition set_Auth (a : AuthnConfig) (c : Config) : Config :=
  MkConfig (cfg_Version c) (cfg_LogLevel c) (Debug_Enabled c) (Debug_ListenAddress c) (mode_Run c)
    (Health_ListenAddress c) (Health_Certificates c) (Metrics_ListenAddress c) (Metrics_Certificates c)
    (cfg_Services c) (cfg_JWT c) (Edge_DBPath c) (DirectoryResolver_Address c) (DirectoryResolver_APIKey c)
    (OPA_InstanceID c) (OPA_bundles c) a.

(** ** Ports and paths: sets, which the code returns as slices in no particular order *)

Definition nonempty (s : string) : bool := negb (String.eqb s "").
Definition add_nonempty (ps : gset string) (p : string) : gset string :=
  if nonempty p then {[p]} ∪ ps else ps.

Definition add_port (address : string) (ports : gset string) : res (gset string) :=
  if nonempty address then rmap (fun p => {[p]} ∪ ports) (PortFromAddress address) else Ok ports.

Fixpoint service_ports (l : list API) (ports : gset string) : res (gset string) :=
  match l with
  | [] => Ok ports
  | a :: l =>
      rbind (add_port (grpc_ListenAddress (api_GRPC a)) ports) (fun ports =>
      rbind (add_port (gw_ListenAddress (api_Gateway a)) ports) (fun ports =>
      service_ports l ports))
  end.

(** The services are visited in an order of the map's. *)
Definition GetPorts (order : list API) (c : Config) : res (gset string) :=
  rbind (add_port (Health_ListenAddress c) ∅) (fun ports =>
  rbind (add_port (Metrics_ListenAddress c) ports) (fun ports =>
  rbind (if Debug_Enabled c then add_port (Debug_ListenAddress c) ports else Ok ports) (fun ports =>
  service_ports order ports))).

Definition cert_files (t : TLSConfig) : list string := [tls_CA t; tls_Cert t; tls_Key t].
Definition getUniqueServiceCertPaths (order : list API) : gset string :=
  fold_left (fun ps a =>
    fold_left add_nonempty (cert_files (grpc_Certs (api_GRPC a)) ++ cert_files (gw_Certs (api_Gateway a))) ps) order ∅.
Definition filterPaths (paths : gset string) : gset string := filter (fun p => nonempty p = true) paths.
Definition GetPaths (order : list API) (c : Config) : gset string :=
  let paths := fold_left add_nonempty
                 (Edge_DBPath c :: cert_files (Health_Certificates c) ++ cert_files (Metrics_Certificates c)) ∅ in
  filterPaths (getUniqueServiceCertPaths order ∪ paths).

(** ** Environment variables in the file *)

(** The text up to the first closing brace of the line, and what follows it. *)
Fixpoint until_brace (s : string) : option (string * string) :=
  match s with
  | EmptyString => None
  | String c s' =>
      if ascii_dec c "}" then Some ("", s')
      else if ascii_dec c "010" then None
      else match until_brace s' with Some (v, rest) => Some (String c v, rest) | None => None end
  end.

(** A match of the regular expression at the start of the text: the name in it, and the rest. *)
Definition var_ref (s : string) : option (string * string) :=
  match s with
  | String c (String d inner) => if ascii_dec c "$" then if ascii_dec d "{" then until_brace inner else None else None
  | _ => None
  end.

(** The leftmost matches, each replaced by [f] of the name in it.  An empty name gives the empty
    text. *)
Fixpoint replace_vars (fuel : nat) (f : string -> string) (s : string) : string :=
  match fuel, s with
  | 0, _ => s
  | _, EmptyString => ""
  | S fuel, String c s' =>
      match var_ref s with
      | Some (name, rest) => (if nonempty name then f name else "") +:+ replace_vars fuel f rest
      | None => String c (replace_vars fuel f s')
      end
  end.

(** Every double quote becomes a single one first. *)
Definition quotes (s : string) : string := ReplaceAll s (ascii_of_nat 34) "'".
Definition subEnvVars (Getenv : string -> string) (s : string) : string :=
  let s := quotes s in replace_vars (S (String.length s)) Getenv s.

(** ** Development certificates *)

(** The file system: what is at a path, and the failures of its operations, which are parameters. *)
Inductive node := Folder | File (content : string).
#[export] Instance node_eq_dec : EqDecision node.
Proof. solve_decision. Defined.
Abbreviation disk := (gmap string node).

Class Disk := {
  (** a failure of [os.Stat] other than that nothing is there *)
  stat_error : string -> option err;
  write_error : string -> option err;
  mkdir_error : string -> option err;
  (** the random source, RSA and X.509 *)
  crypto_error : string -> option err;
  pem : string -> string -> string }.

Section Certs.
Context `{D : Disk} `{T : TLS}.

Inductive stat := Found (n : node) | NotExist | StatError (e : err).
Definition os_Stat (path : string) (d : disk) : stat :=
  if String.eqb path "" then NotExist
  else match stat_error path with
       | Some e => StatError e
       | None => match d !! path with Some n => Found n | None => NotExist end
       end.

(** A folder is no file and no error: [errors.Wrapf] of no error is no error. *)
Definition FileExists (path : string) (d : disk) : res bool :=
  match os_Stat path d with
  | Found (File _) => Ok true
  | Found Folder | NotExist => Ok false
  | StatError e => Fail (Errorf ("failed to stat file '" +:+ path +:+ "'") e)
  end.

Definition WriteFile (path content : string) : M disk unit := fun d =>
  if String.eqb path "" then (Fail (new_error "open : no such file or directory"), d)
  else match write_error path, d !! path with
       | Some e, _ => (Fail e, d)
       | None, Some Folder => (Fail (new_error ("open " +:+ path +:+ ": is a directory")), d)
       | None, _ => (Ok tt, <[path := File content]> d)
       end.
Definition MkdirAll (path : string) : M disk unit := fun d =>
  match mkdir_error path, d !! path with
  | Some e, _ => (Fail e, d)
  | None, Some (File _) => (Fail (new_error ("mkdir " +:+ path +:+ ": not a directory")), d)
  | None, _ => (Ok tt, <[path := Folder]> d)
  end.

Record CertGenConfig := MkCertGen {
  CommonName : string; CertKeyPath : string; CertPath : string; CertCAPath : string; DefaultTLSGenDir : string }.

Definition checkDir (g : CertGenConfig) : M disk unit :=
  let certDir := filepath_Dir (CertPath g) in
  if negb (String.eqb certDir (filepath_Dir (CertKeyPath g)))
     || negb (String.eqb certDir (filepath_Dir (CertCAPath g))) then
    fail (new_error "output directory for all configured certificates and keys must be the same")
  else
    do! (if String.eqb certDir (DefaultTLSGenDir g) then wrapped "failed to create directory" (MkdirAll certDir)
         else ret tt);
    fun d => match os_Stat certDir d with
             | Found _ => (Ok tt, d)
             | NotExist => (Fail (new_error ("output directory '" +:+ certDir +:+ "' doesn't exist")), d)
             | StatError e => (Fail (Errorf "failed to determine if output directory exists" e), d)
             end.

(** The key is written before the certificate, and the authority's certificate last. *)
Definition signCert (g : CertGenConfig) : M disk unit :=
  do! guard (crypto_error (CommonName g));
  do! wrapped "failed to write key" (WriteFile (CertKeyPath g) (pem (CommonName g) "RSA PRIVATE KEY"));
  wrapped "failed to write key" (WriteFile (CertPath g) (pem (CommonName g) "CERTIFICATE")).
Definition generate (g : CertGenConfig) : M disk unit :=
  do! wrapped "directory verification returned an error" (checkDir g);
  do! guard (crypto_error (CommonName g +:+ "-ca"));
  do! signCert g;
  wrapped "failed to write ca cert" (WriteFile (CertCAPath g) (pem (CommonName g +:+ "-ca") "CERTIFICATE")).
Definition MakeDevCert (g : CertGenConfig) : M disk unit :=
  do! guard (crypto_error "serial number"); generate g.

(** The certificate files of a service that exist, added to those of the services before it. *)
Fixpoint existing_of (files existing : list string) : M disk (list string) :=
  match files with
  | [] => ret existing
  | f :: files =>
      let! exists_ := reads (FileExists f) in
      existing_of files (if exists_ : bool then existing ++ [f] else existing)
  end.

Definition make_certs (noExistingFiles : bool) (name : string) (t : TLSConfig) : M disk unit :=
  if noExistingFiles && HasCert t && HasCA t then
    MakeDevCert (MkCertGen name (tls_Key t) (tls_Cert t) (tls_CA t) "")
  else ret tt.

Definition all_certs (config : API) : list string :=
  cert_files (grpc_Certs (api_GRPC config)) ++ cert_files (gw_Certs (api_Gateway config)).

(** The body of the loop, which returns [existingFiles] as it leaves it. *)
Definition setup_service (serviceName : string) (config : API) (existingFiles : list string) : M disk (list string) :=
  let! existingFiles := existing_of (all_certs config) existingFiles in
  let noExistingFiles := bool_decide (existingFiles = []) in
  do! wrapped ("failed to generate grpc certs (" +:+ serviceName +:+ ")")
        (make_certs noExistingFiles "eamerald-grpc" (grpc_Certs (api_GRPC config)));
  do! wrapped ("failed to generate gateway certs (" +:+ serviceName +:+ ")")
        (make_certs noExistingFiles "eamerald-gateway" (gw_Certs (api_Gateway config)));
  ret existingFiles.

(** [existingFiles] is declared before the loop. *)
Fixpoint setup_loop (services : list (string * API)) (existingFiles : list string) : M disk unit :=
  match services with
  | [] => ret tt
  | (serviceName, config) :: services =>
      let! existingFiles := setup_service serviceName config existingFiles in
      setup_loop services existingFiles
  end.
Definition setupCerts (order : list (string * API)) : M disk unit := setup_loop order [].

(** ** [NewConfig] *)

(** A call that returns, or a panic of the Go runtime. *)
Inductive outcome (A : Type) := Returned (r : A) | Panicked (what : string).
Arguments Returned {A} r.
Arguments Panicked {A} what.

Definition ConfigFileVersion : Z := 2%Z.
Definition validateVersion (version : Z) : option err :=
  if (version =? ConfigFileVersion)%Z then None else Some (new_error "unsupported config version").

Definition view_of (c : Config) : ConfigView :=
  MkConfigView (map_to_list (cfg_Services c)).*1 (mode_Run c) (OPA_InstanceID c) (OPA_bundles c).

(** [decode] is viper's reading of the text with its defaults; [level_ok] is [zerolog.ParseLevel]. *)
Section Loading.
Context (Getenv : string -> string) (decode : string -> res Config) (level_ok : string -> option err).

(** [SetEnvVars] sets the directories' variables first; they are part of [Getenv]. *)
Definition LoadConfiguration (content : res string) : res Config :=
  rbind content (fun text => decode (subEnvVars Getenv text)).

Definition validate (c : Config) : res Config :=
  match (if nonempty (cfg_LogLevel c) then level_ok (cfg_LogLevel c) else None) with
  | Some e => Fail (Errorf "logging.log_level failed to parse" e)
  | None =>
      if (AcceptableTimeSkewSeconds (cfg_JWT c) <? 0)%Z then
        Fail (new_error "jwt.acceptable_time_skew_seconds must be positive or 0")
      else rmap (fun a => set_Auth a c) (validation (view_of c) (cfg_Auth c))
  end.

Definition read_file (path : string) (d : disk) : res string :=
  match os_Stat path d with
  | Found (File s) => Ok s
  | Found Folder => Fail (new_error ("read " +:+ path +:+ ": is a directory"))
  | NotExist => Fail (new_error ("open " +:+ path +:+ ": no such file or directory"))
  | StatError e => Fail e
  end.

(** [certs] is [None] where no generator is passed, else the order in which the services are visited.
    Without a configuration file the loader has no configuration, which is dereferenced. *)
Definition NewConfig (configPath : string) (overrides : Config -> Config)
    (certs : option (Config -> list (string * API))) (d : disk) : outcome (res Config * disk) :=
  let back (r : res Config) := Returned (r, d) in
  let proceed (file : string) :=
    match FileExists file d with
    | Fail e => back (Fail (Errorf "filesystem error" e))
    | Ok false => Panicked "invalid memory address or nil pointer dereference"
    | Ok true =>
        match LoadConfiguration (read_file file d) with
        | Fail e => back (Fail e)
        | Ok c =>
            match validateVersion (cfg_Version c) with
            | Some e => back (Fail e)
            | None =>
                match validate (overrides c) with
                | Fail e => back (Fail (Errorf "failed to validate config file" e))
                | Ok c =>
                    match certs with
                    | None => back (Ok c)
                    | Some order =>
                        Returned (match setupCerts (order c) d with
                                  | (Ok _, d') => (Ok c, d')
                                  | (Fail e, d') => (Fail (Errorf "failed to setup certs" e), d')
                                  end)
                    end
                end
            end
        end
    end in
  if nonempty configPath then
    match FileExists configPath d with
    | Fail e => back (Fail (Errorf "failed to determine if config file exists" e))
    | Ok false => back (Fail (new_error ("config file '" +:+ configPath +:+ "' doesn't exist")))
    | Ok true => proceed configPath
    end
  else proceed "config.yaml".
End Loading.
End Certs.
Arguments Returned {A} r.
Arguments Panicked {A} what.

(** ** Facts: substitution *)

Lemma ReplaceAll_app a b old new : ReplaceAll (a +:+ b) old new = ReplaceAll a old new +:+ ReplaceAll b old new.
Proof.
  induction a as [|c a IH]; [done|]. rewrite app_cons_str. simpl. rewrite IH. by rewrite app_cons_str.
Qed.
Lemma ReplaceAll_other s old new : contains old s = false -> ReplaceAll s old new = s.
Proof.
  induction s as [|c s IH]; simpl; [done|]. destruct (ascii_dec old c) as [->|Hne]; [done|].
  intros H. destruct (ascii_dec c old); [congruence|]. by rewrite IH.
Qed.
Lemma contains_ReplaceAll c s old new :
  c <> new -> contains c s = false -> contains c (ReplaceAll s old new) = false.
Proof.
  intros Hc. induction s as [|a s IH]; simpl; [done|]. destruct (ascii_dec c a); [done|]. intros H.
  destruct (ascii_dec a old); destruct (ascii_dec c _); naive_solver.
Qed.
Lemma length_ReplaceAll s old new : String.length (ReplaceAll s old new) = String.length s.
Proof. induction s; simpl; congruence. Qed.

Lemma until_brace_app v rest :
  contains "}" v = false -> contains "010" v = false -> until_brace (v +:+ String "}" rest) = Some (v, rest).
Proof.
  induction v as [|c v IH]; intros H1 H2; [done|]. rewrite app_cons_str. cbn [contains until_brace] in *.
  destruct (ascii_dec "}" c) as [|Hb]; [done|]. destruct (ascii_dec "010" c) as [|Hn]; [done|].
  destruct (ascii_dec c "}"); [congruence|]. destruct (ascii_dec c "010"); [congruence|]. by rewrite IH.
Qed.

Lemma until_brace_length s v rest :
  until_brace s = Some (v, rest) -> (String.length rest < String.length s)%nat.
Proof.
  revert v. induction s as [|c s IH]; intros v; cbn [until_brace]; [done|].
  destruct (ascii_dec c "}"); [intros [= _ ->]; simpl; lia|]. destruct (ascii_dec c "010"); [done|].
  destruct (until_brace s) as [[v' r']|] eqn:E; [|done]. intros [= _ <-]. specialize (IH v' eq_refl). simpl. lia.
Qed.

Lemma var_ref_length s v rest : var_ref s = Some (v, rest) -> (String.length rest < String.length s)%nat.
Proof.
  destruct s as [|c [|d inner]]; simpl; [done|done|].
  destruct (ascii_dec c "$"); [|done]. destruct (ascii_dec d "{"); [|done].
  intros H%until_brace_length. lia.
Qed.

Lemma var_ref_open inner : var_ref (String "$" (String "{" inner)) = until_brace inner.
Proof. done. Qed.

Section Vars.
Context (f : string -> string).

(** The fuel is enough: one more than the length gives the same result as any larger one. *)
Lemma replace_vars_fuel s : forall n m, (String.length s < n)%nat -> (String.length s < m)%nat ->
  replace_vars n f s = replace_vars m f s.
Proof.
  induction s as [s IH] using (well_founded_induction (Wf_nat.well_founded_ltof _ String.length)).
  unfold Wf_nat.ltof in IH. intros [|n] [|m] Hn Hm; try lia. destruct s as [|c s']; [done|].
  simpl in Hn, Hm. cbn [replace_vars]. destruct (var_ref (String c s')) as [[v rest]|] eqn:E.
  - apply var_ref_length in E. simpl in E. f_equal. apply IH; simpl; lia.
  - f_equal. apply IH; simpl; lia.
Qed.

Lemma replace_vars_nodollar s t n : contains "$" s = false ->
  replace_vars (String.length s + n) f (s +:+ t) = s +:+ replace_vars n f t.
Proof.
  induction s as [|c s IH]; intros H; [done|]. rewrite !app_cons_str. cbn [contains] in H.
  destruct (ascii_dec "$" c) as [|Hc]; [done|]. simpl (String.length _ + n)%nat. cbn [replace_vars].
  assert (var_ref (String c (s +:+ t)) = None) as ->.
  { unfold var_ref. destruct (s +:+ t); [done|]. by destruct (ascii_dec c "$"). }
  by rewrite IH.
Qed.

(** A reference after plain text is replaced by the variable's value, which is not read again; the
    rest of the text follows. *)
Lemma subEnvVars_ref pre name post :
  contains "$" pre = false -> contains "}" name = false -> contains "010" name = false ->
  contains (ascii_of_nat 34) name = false -> name <> "" ->
  subEnvVars f (pre +:+ "${" +:+ name +:+ "}" +:+ post) = quotes pre +:+ f name +:+ subEnvVars f post.
Proof.
  intros H1 H2 H3 H4 H5. unfold subEnvVars, quotes. cbv zeta. rewrite !ReplaceAll_app.
  rewrite (ReplaceAll_other name) by done. change (ReplaceAll "${" _ _) with "${".
  change (ReplaceAll "}" _ _) with "}". set (p := ReplaceAll post _ _). set (q := ReplaceAll pre _ _).
  assert (Hq : contains "$" q = false) by (apply contains_ReplaceAll; done).
  set (t := String "$" (String "{" (name +:+ String "}" p))).
  change ("${" +:+ name +:+ "}" +:+ p) with t.
  rewrite (replace_vars_fuel _ _ (String.length q + S (String.length t))) by (rewrite length_app_str; lia).
  rewrite replace_vars_nodollar by done. f_equal. remember (S (String.length p)) as m eqn:Hm.
  subst t. cbn [replace_vars].
  rewrite var_ref_open, until_brace_app by done. unfold nonempty.
  destruct (String.eqb_spec name ""); [done|]. simpl negb. cbv iota.
  f_equal. apply replace_vars_fuel; [|lia]. simpl. rewrite length_app_str. simpl. lia.
Qed.

(** Text without references only has its quotes changed. *)
Lemma subEnvVars_plain s : contains "$" s = false -> subEnvVars f s = quotes s.
Proof.
  intros H. unfold subEnvVars, quotes. cbv zeta. set (q := ReplaceAll s _ _).
  assert (Hq : contains "$" q = false) by (apply contains_ReplaceAll; done).
  rewrite (replace_vars_fuel q _ (String.length q + S (String.length q))) by lia.
  pose proof (replace_vars_nodollar q "" (S (String.length q)) Hq) as Hr. rewrite app_nil_r_str in Hr.
  rewrite Hr. apply app_nil_r_str.
Qed.
End Vars.

(** ** Facts: certificates *)

Lemma filepath_Dir_nonempty path : filepath_Dir path <> "".
Proof.
  unfold filepath_Dir. destruct (cut_last "/" path) as [[before after]|]; [|done].
  unfold filepath_Clean. destruct (HasPrefix _ _); [done|].
  match goal with |- context [String.eqb ?x ""] => destruct (String.eqb_spec x "") end; done.
Qed.

Definition is_file (d : disk) (p : string) : Prop := exists s, d !! p = Some (File s).

(** From [d] to [d'] only the files of [P] were written, and no file went away. *)
Definition grows (P : list string) (d d' : disk) : Prop :=
  forall p, (p ∉ P \/ p = "" -> d' !! p = d !! p) /\ (is_file d p -> is_file d' p).

Lemma grows_refl P d : grows P d d.
Proof. split; [done|naive_solver]. Qed.
Lemma grows_trans P d1 d2 d3 : grows P d1 d2 -> grows P d2 d3 -> grows P d1 d3.
Proof. intros H1 H2 p. specialize (H1 p). specialize (H2 p). naive_solver congruence. Qed.
Lemma grows_mono P Q d d' : P ⊆ Q -> grows P d d' -> grows Q d d'.
Proof. intros HPQ H p. specialize (H p). set_solver. Qed.

Section CertFacts.
Context `{D : Disk} `{T : TLS}.

Definition outputs (g : CertGenConfig) : list string := [CertKeyPath g; CertPath g; CertCAPath g].

Lemma WriteFile_ok path c d d' : WriteFile path c d = (Ok tt, d') -> path <> "" /\ d' = <[path := File c]> d.
Proof.
  unfold WriteFile. destruct (String.eqb_spec path ""); [done|].
  destruct (write_error path); [done|]. destruct (d !! path) as [[]|]; naive_solver.
Qed.

Lemma WriteFile_grows d0 P path c : path ∈ P -> preserves (grows P d0) (WriteFile path c).
Proof.
  intros Hp d Hd. destruct (WriteFile path c d) as [r d'] eqn:E. unfold WriteFile in E. simpl.
  destruct (String.eqb_spec path "") as [|Hne]; [naive_solver|].
  destruct (write_error path); [naive_solver|].
  assert (H : d' = d \/ d' = <[path := File c]> d) by (destruct (d !! path) as [[]|]; naive_solver).
  destruct H as [-> | ->]; [done|]. intros p. specialize (Hd p). unfold is_file in *. split.
  - intros Hout. rewrite lookup_insert_ne by naive_solver. by apply Hd.
  - intros Hf. destruct (decide (path = p)) as [->|].
    + rewrite lookup_insert_eq. eauto.
    + rewrite lookup_insert_ne by done. by apply Hd.
Qed.


Lemma checkDir_grows d0 P g : DefaultTLSGenDir g = "" -> preserves (grows P d0) (checkDir g).
Proof.
  intros Hdef. unfold checkDir. destruct (_ || _); [eauto with dirdb|]. rewrite Hdef.
  destruct (String.eqb_spec (filepath_Dir (CertPath g)) ""); [by apply filepath_Dir_nonempty in e|].
  apply preserves_bind; [eauto with dirdb|]. intros _ d Hd. by destruct (os_Stat _ d).
Qed.

Lemma MakeDevCert_grows d0 g :
  DefaultTLSGenDir g = "" -> preserves (grows (outputs g) d0) (MakeDevCert g).
Proof.
  intros Hdef. unfold MakeDevCert, generate, signCert.
  repeat (apply preserves_bind; [|intros _]); eauto using checkDir_grows, preserves_wrapped with dirdb;
    apply preserves_wrapped, WriteFile_grows; set_solver.
Qed.

(** A generation that succeeds has written its three files. *)
Lemma MakeDevCert_ok g d d' :
  DefaultTLSGenDir g = "" -> MakeDevCert g d = (Ok tt, d') -> forall p, p ∈ outputs g -> is_file d' p.
Proof.
  intros Hdef H. unfold MakeDevCert, generate, signCert in H.
  assert (Hw : forall {A} c (m : M disk A) s a s', wrapped c m s = (Ok a, s') -> m s = (Ok a, s')).
  { intros A c m s a s'. unfold wrapped. destruct (m s) as [[]]; naive_solver. }
  repeat match type of H with
  | bind _ _ _ = _ => apply bind_inv in H as [(?a & ?s1 & ?H1 & H) | (?e & ?H1 & [=])]
  end.
  repeat match goal with
  | H : bind _ _ _ = _ |- _ => apply bind_inv in H as [(?a & ?s1 & ?H1 & H) | (?e & ?H1 & [=])]
  | H : wrapped _ _ _ = (Ok ?u, _) |- _ => apply Hw in H
  | H : WriteFile _ _ _ = (Ok ?u, _) |- _ => destruct u; apply WriteFile_ok in H as [? ->]
  end.
  intros p Hp. unfold outputs in Hp. unfold is_file.
  destruct (decide (p = CertCAPath g)) as [->|]; [rewrite lookup_insert_eq; eauto|].
  rewrite lookup_insert_ne by done. destruct (decide (p = CertPath g)) as [->|]; [rewrite lookup_insert_eq; eauto|].
  rewrite lookup_insert_ne by done. assert (p = CertKeyPath g) as -> by set_solver.
  rewrite lookup_insert_eq. eauto.
Qed.

Lemma make_certs_grows d0 b n t : preserves (grows (cert_files t) d0) (make_certs b n t).
Proof.
  unfold make_certs. destruct (_ && _ && _); [|eauto with dirdb].
  intros d Hd. eapply grows_trans; [exact Hd|]. eapply grows_mono; [|by apply MakeDevCert_grows, grows_refl].
  unfold outputs, cert_files. simpl. set_solver.
Qed.

Lemma existing_of_inv files : forall ex d r d', existing_of files ex d = (r, d') ->
  d' = d /\ forall ex', r = Ok ex' ->
    (ex' = [] -> ex = [] /\ forall f, f ∈ files -> FileExists f d = Ok false) /\
    (ex <> [] \/ (exists f, f ∈ files /\ FileExists f d = Ok true) -> ex' <> []).
Proof.
  induction files as [|f files IH]; intros ex d r d' H; simpl in H.
  { injection H as <- <-. split; [done|]. intros ex' [= <-]. split; [set_solver|].
    intros [?|(f & Hf & _)]; [done|by apply not_elem_of_nil in Hf]. }
  unfold reads in H. unfold bind in H. destruct (FileExists f d) as [b|e] eqn:E; [|naive_solver].
  destruct (IH _ _ _ _ H) as [-> Hr]. split; [done|]. intros ex' Hex. destruct (Hr ex' Hex) as [H1 H2]. split.
  - intros Hnil. destruct (H1 Hnil) as [Hb Hf]. destruct b; [by apply app_nil in Hb as [_ ?]|].
    split; [done|]. intros g [->|Hg]%elem_of_cons; auto.
  - intros Hc. apply H2. destruct b.
    + left. by intros [_ ?]%app_nil.
    + destruct Hc as [?|(g & [->|Hg]%elem_of_cons & Hg')]; [by left|congruence|eauto].
Qed.

Lemma not_existing d p : FileExists p d = Ok false -> p <> "" -> ~ is_file d p.
Proof.
  unfold FileExists, os_Stat. intros H Hp (s & Hs). destruct (String.eqb_spec p ""); [done|].
  destruct (stat_error p); [done|]. by rewrite Hs in H.
Qed.

Lemma wrapped_state {S A} c (m : M S A) s : (wrapped c m s).2 = (m s).2.
Proof. unfold wrapped. by destruct (m s). Qed.

(** A service with an existing file among its own or those before it is left alone; another one is
    only given files that it names and that did not exist. *)
Lemma setup_service_inv n config ex d r d' :
  setup_service n config ex d = (r, d') ->
  grows (all_certs config) d d' /\
  (d' <> d -> ex = [] /\ forall f, f ∈ all_certs config -> FileExists f d = Ok false) /\
  (forall ex', r = Ok ex' -> existing_of (all_certs config) ex d = (Ok ex', d)).
Proof.
  unfold setup_service. intros H. apply bind_inv in H as [(ex' & d0 & H0 & H) | (e & H0 & ->)];
    destruct (existing_of_inv _ _ _ _ _ H0) as [-> Hex].
  2: { split_and!; [apply grows_refl|done|done]. }
  destruct (Hex ex' eq_refl) as [Hnil _]. split_and!.
  - assert (Hp : preserves (grows (all_certs config) d)
      (do! wrapped ("failed to generate grpc certs (" +:+ n +:+ ")")
             (make_certs (bool_decide (ex' = [])) "eamerald-grpc" (grpc_Certs (api_GRPC config)));
       do! wrapped ("failed to generate gateway certs (" +:+ n +:+ ")")
             (make_certs (bool_decide (ex' = [])) "eamerald-gateway" (gw_Certs (api_Gateway config)));
       ret ex')).
    { repeat (apply preserves_bind; [|intros _]); [| |apply preserves_ret]; apply preserves_wrapped;
        intros d1 H1; (eapply grows_trans; [exact H1|]); (eapply grows_mono; [|apply make_certs_grows, grows_refl]);
        unfold all_certs; set_solver. }
    specialize (Hp d (grows_refl _ d)). by rewrite H in Hp.
  - intros Hd. destruct (decide (ex' = [])) as [->|Hne]; [by apply Hnil|]. exfalso. apply Hd.
    rewrite bool_decide_false in H by done. unfold make_certs, bind, wrapped in H. simpl in H. by injection H.
  - intros ex'' ->. apply bind_inv in H as [(u & d1 & _ & H) | (e & _ & [=])].
    apply bind_inv in H as [(u' & d2 & _ & H) | (e & _ & [=])]. injection H as <- _. done.
Qed.

Lemma setup_loop_inv services : forall ex d r d', setup_loop services ex d = (r, d') ->
  (forall p s, d !! p = Some (File s) -> d' !! p = Some (File s)) /\
  (ex <> [] -> d' = d).
Proof.
  induction services as [|[n config] services IH]; intros ex d r d' H.
  { injection H as _ <-. done. }
  simpl in H. assert (Hs : exists r1 d1, setup_service n config ex d = (r1, d1) /\
    match r1 with Ok ex' => setup_loop services ex' d1 = (r, d') | Fail _ => d' = d1 end).
  { apply bind_inv in H as [(ex' & d1 & H0 & H) | (e & H0 & ->)]; [by exists (Ok ex'), d1|by exists (Fail e), d']. }
  destruct Hs as (r1 & d1 & Hs & Hrest). destruct (setup_service_inv _ _ _ _ _ _ Hs) as (Hg & Hch & Hex).
  assert (Hkeep : forall p s, d !! p = Some (File s) -> d1 !! p = Some (File s)).
  { intros p s Hp. destruct (decide (d1 = d)) as [->|Hne]; [done|].
    destruct (Hch Hne) as [_ Hnone]. rewrite <-Hp. apply Hg.
    destruct (decide (p = "")); [by right|left]. intros Hin. by apply (not_existing d p (Hnone p Hin)); [|exists s]. }
  destruct r1 as [ex'|e]; [|subst; split; [done|]].
  - destruct (IH _ _ _ _ Hrest) as [Hk Hsame]. split; [by eauto|]. intros Hne.
    assert (d1 = d) as -> by (destruct (decide (d1 = d)) as [|Hn]; [done|]; by destruct (Hch Hn)).
    apply Hsame. destruct (existing_of_inv _ _ _ _ _ (Hex _ eq_refl)) as [_ Hx].
    destruct (Hx ex' eq_refl) as [_ Hx']. apply Hx'. by left.
  - intros Hne. destruct (decide (d1 = d)) as [|Hn]; [done|]. by destruct (Hch Hn).
Qed.

(** Setting up the development certificates never changes a file that exists: whatever the
    services and the order in which they are visited, and whether or not it fails, every file that was
    there before has the content it had. *)
Theorem setup_certs_keeps_files order d p s :
  d !! p = Some (File s) -> (setupCerts order d).2 !! p = Some (File s).
Proof.
  unfold setupCerts. destruct (setup_loop order [] d) as [r d'] eqn:E. simpl.
  by apply (setup_loop_inv order [] d r d' E).
Qed.

Lemma make_certs_ok n t d d' :
  HasCert t && HasCA t = true -> make_certs true n t d = (Ok tt, d') -> forall p, p ∈ cert_files t -> is_file d' p.
Proof.
  unfold make_certs. intros Ht. simpl. rewrite Ht. intros H p Hp.
  refine (MakeDevCert_ok _ _ _ _ H p _); [done|]. unfold outputs, cert_files in *. simpl. set_solver.
Qed.

(** The first service visited, none of whose files exist: what it asks for is written. *)
Lemma setup_first n c d d' ex :
  (forall f, f ∈ all_certs c -> FileExists f d = Ok false) ->
  setup_service n c [] d = (Ok ex, d') ->
  ex = [] /\
  (HasCert (grpc_Certs (api_GRPC c)) && HasCA (grpc_Certs (api_GRPC c)) = true ->
     forall f, f ∈ cert_files (grpc_Certs (api_GRPC c)) -> is_file d' f) /\
  (HasCert (gw_Certs (api_Gateway c)) && HasCA (gw_Certs (api_Gateway c)) = true ->
     forall f, f ∈ cert_files (gw_Certs (api_Gateway c)) -> is_file d' f) /\
  (HasCert (gw_Certs (api_Gateway c)) && HasCA (gw_Certs (api_Gateway c)) = false ->
     grows (cert_files (grpc_Certs (api_GRPC c))) d d').
Proof.
  intros Hnone H. assert (Hex : ex = []).
  { destruct (setup_service_inv _ _ _ _ _ _ H) as (_ & _ & Hex). specialize (Hex ex eq_refl).
    clear H. revert Hnone Hex. generalize (all_certs c). intros fs. induction fs as [|f fs IH]; simpl; [intros _ Hr; by injection Hr|].
    intros Hn. unfold reads, bind. rewrite (Hn f) by set_solver. intros Hr. apply IH; [set_solver|done]. }
  subst ex. unfold setup_service in H. apply bind_inv in H as [(ex' & d0 & H0 & H) | (e & H0 & [=])].
  destruct (existing_of_inv _ _ _ _ _ H0) as [-> _].
  apply bind_inv in H as [(u & d1 & H1%wrapped_ok & H) | (e & H1 & [=])].
  apply bind_inv in H as [(u' & d2 & H2%wrapped_ok & H) | (e & H2 & [=])]. injection H as -> ->.
  rewrite bool_decide_true in H1, H2 by done. destruct u, u'.
  pose proof (make_certs_grows d1 true "eamerald-gateway" (gw_Certs (api_Gateway c)) d1 (grows_refl _ d1)) as Hg2.
  pose proof (make_certs_grows d true "eamerald-grpc" (grpc_Certs (api_GRPC c)) d (grows_refl _ d)) as Hg1.
  rewrite H1 in Hg1. rewrite H2 in Hg2. split_and!; [done| | |].
  - intros Ht f Hf. apply Hg2. by apply (make_certs_ok _ _ _ _ Ht H1).
  - intros Ht f Hf. by apply (make_certs_ok _ _ _ _ Ht H2).
  - intros Ht. unfold make_certs in H2. simpl in H2. rewrite Ht in H2. by injection H2 as <-.
Qed.

(** Where the service visited first asks for gRPC and gateway certificates and every other
    service names the same files, none of which exist: after a set-up without errors all of them do. *)
Theorem setup_certs_complete n c rest d d' :
  HasCert (grpc_Certs (api_GRPC c)) && HasCA (grpc_Certs (api_GRPC c)) = true ->
  HasCert (gw_Certs (api_Gateway c)) && HasCA (gw_Certs (api_Gateway c)) = true ->
  (forall f, f ∈ all_certs c -> FileExists f d = Ok false) ->
  (forall m config f, (m, config) ∈ rest -> f ∈ all_certs config -> f ∈ all_certs c) ->
  setupCerts ((n, c) :: rest) d = (Ok tt, d') ->
  forall m config f, (m, config) ∈ (n, c) :: rest -> f ∈ all_certs config -> is_file d' f.
Proof.
  intros Hg Hw Hnone Hsub H m config f Hin Hf. unfold setupCerts in H. simpl in H.
  apply bind_inv in H as [(ex & d1 & H0 & H) | (e & H0 & [=])].
  destruct (setup_first _ _ _ _ _ Hnone H0) as (-> & H1 & H2 & _).
  assert (Hc : f ∈ all_certs c) by (apply elem_of_cons in Hin as [[= -> ->]|]; eauto).
  assert (Hd1 : is_file d1 f) by (unfold all_certs in Hc; apply elem_of_app in Hc as []; eauto).
  destruct Hd1 as (s & Hs). exists s. by apply (setup_loop_inv rest [] d1 (Ok tt) d' H).
Qed.

(** Where the service visited first has no gateway certificates, and the second one shares a
    gRPC certificate file with it: the gateway certificates of no service are generated, and the
    set-up reports no error.  ([existingFiles] is not reset between services.) *)
Theorem gateway_certs_skipped n c n2 c2 rest shared d d' :
  HasCert (grpc_Certs (api_GRPC c)) && HasCA (grpc_Certs (api_GRPC c)) = true ->
  HasCert (gw_Certs (api_Gateway c)) && HasCA (gw_Certs (api_Gateway c)) = false ->
  (forall f, f ∈ all_certs c -> FileExists f d = Ok false) ->
  shared ∈ cert_files (grpc_Certs (api_GRPC c)) -> shared ∈ all_certs c2 ->
  stat_error shared = None -> shared <> "" ->
  setupCerts ((n, c) :: (n2, c2) :: rest) d = (Ok tt, d') ->
  forall p, p ∉ cert_files (grpc_Certs (api_GRPC c)) -> d' !! p = d !! p.
Proof.
  intros Hg Hw Hnone Hs1 Hs2 Hstat Hne H p Hp. unfold setupCerts in H. simpl in H.
  apply bind_inv in H as [(ex & d1 & H0 & H) | (e & H0 & [=])].
  destruct (setup_first _ _ _ _ _ Hnone H0) as (-> & H1 & _ & H3).
  apply bind_inv in H as [(ex2 & d2 & H4 & H) | (e & H4 & [=])].
  destruct (setup_service_inv _ _ _ _ _ _ H4) as (_ & Hch & Hex).
  assert (Ht : FileExists shared d1 = Ok true).
  { destruct (H1 Hg shared Hs1) as (s & Hs). unfold FileExists, os_Stat.
    destruct (String.eqb_spec shared ""); [done|]. by rewrite Hstat, Hs. }
  assert (d2 = d1) as ->.
  { destruct (decide (d2 = d1)) as [|Hn]; [done|]. destruct (Hch Hn) as [_ Hf]. rewrite Hf in Ht by done. done. }
  destruct (existing_of_inv _ _ _ _ _ (Hex _ eq_refl)) as [_ Hx]. destruct (Hx _ eq_refl) as [_ Hx2].
  destruct (setup_loop_inv rest ex2 d1 _ _ H) as [_ ->]; [|apply Hx2; eauto].
  apply (H3 Hw p). by left.
Qed.
End CertFacts.

(** Without a configuration file and without a path to one, loading the configuration does not
    return an error: it dereferences the configuration that was never loaded. *)
Theorem missing_config_panics `{D : Disk} `{T : TLS} Getenv decode level_ok overrides certs d :
  stat_error "config.yaml" = None -> d !! "config.yaml" = None ->
  NewConfig Getenv decode level_ok "" overrides certs d
  = Panicked "invalid memory address or nil pointer dereference".
Proof. intros H1 H2. unfold NewConfig, FileExists, os_Stat. simpl. by rewrite H1, H2. Qed.

(** A reference to an environment variable is replaced by the variable's value, whatever the value
    contains, and the text around it is kept, apart from its double quotes, which all become single
    ones: the substitution works on the text before the first reference, on the reference, and on the
    rest. *)
Theorem env_substitution Getenv pre name post :
  contains "$" pre = false -> contains "}" name = false -> contains "010" name = false ->
  contains (ascii_of_nat 34) name = false -> name <> "" ->
  subEnvVars Getenv (pre +:+ "${" +:+ name +:+ "}" +:+ post)
  = subEnvVars Getenv pre +:+ Getenv name +:+ subEnvVars Getenv post.
Proof. intros H1 H2 H3 H4 H5. rewrite (subEnvVars_plain _ pre) by done. by apply subEnvVars_ref. Qed.

Module ConfigExamples.
#[local] Instance toy_disk : Disk :=
  {| stat_error _ := None; write_error _ := None; mkdir_error _ := None; crypto_error _ := None;
     pem name kind := kind +:+ " of " +:+ name |}.
#[local] Instance toy_tls : TLS :=
  {| HasCert t := nonempty (tls_Cert t) && nonempty (tls_Key t); HasCA t := nonempty (tls_CA t) |}.

Definition no_certs : TLSConfig := MkTLS "" "" "".
Definition grpc_certs : TLSConfig := MkTLS "/certs/grpc-ca.crt" "/certs/grpc.crt" "/certs/grpc.key".
Definition gateway_certs : TLSConfig := MkTLS "/certs/gateway-ca.crt" "/certs/gateway.crt" "/certs/gateway.key".
Definition service (needs : list string) (grpc gateway : string) (gc : TLSConfig) : API :=
  MkAPI needs (MkGRPC "" grpc 0 grpc_certs) (MkGatewayAPI "" gateway [] [] [] gc false).

(** The services of the generated configuration: the exporter has no gateway. *)
Definition model : API := service [] "0.0.0.0:9292" "0.0.0.0:9393" gateway_certs.
Definition exporter : API := service [] "0.0.0.0:9292" "" no_certs.
Definition folder : disk := {["/certs" := Folder; "/certs/old" := File "kept"]}.

Lemma setup_certs_keeps_files_witness :
  folder !! "/certs/old" = Some (File "kept") /\
  (setupCerts [("model", model); ("exporter", exporter)] folder).2 !! "/certs/old" = Some (File "kept").
Proof. split; [reflexivity|]. exact (setup_certs_keeps_files _ folder "/certs/old" "kept" eq_refl). Defined.

Lemma none_yet c : c = model \/ c = exporter -> forall f, f ∈ all_certs c -> FileExists f folder = Ok false.
Proof.
  intros [-> | ->] f Hf; apply list_elem_of_In in Hf; vm_compute in Hf;
    repeat match type of Hf with _ \/ _ => destruct Hf as [<-|Hf]; [vm_compute; reflexivity|] end; destruct Hf.
Qed.

Lemma setup_certs_complete_witness :
  is_file (setupCerts [("model", model); ("model2", model)] folder).2 "/certs/gateway.crt".
Proof.
  refine (setup_certs_complete "model" model [("model2", model)] folder _ eq_refl eq_refl
            (none_yet _ (or_introl eq_refl)) _ _ "model" model "/certs/gateway.crt" _ _).
  - intros m config f Hin Hf. apply list_elem_of_singleton in Hin. by injection Hin as -> ->.
  - vm_compute. reflexivity.
  - left.
  - apply list_elem_of_In. vm_compute. tauto.
Defined.

Lemma gateway_certs_skipped_witness :
  (setupCerts [("exporter", exporter); ("model", model)] folder).2 !! "/certs/gateway.crt" = None.
Proof.
  refine (gateway_certs_skipped "exporter" exporter "model" model [] "/certs/grpc.crt" folder _ eq_refl eq_refl
            (none_yet _ (or_intror eq_refl)) _ _ eq_refl _ _ "/certs/gateway.crt" _).
  - apply list_elem_of_In. vm_compute. tauto.
  - apply list_elem_of_In. vm_compute. tauto.
  - discriminate.
  - vm_compute. reflexivity.
  - intros Hin%list_elem_of_In. vm_compute in Hin. naive_solver.
Defined.

Lemma missing_config_panics_witness :
  NewConfig (fun _ => "") (fun _ => Fail (new_error "no")) (fun _ => None) "" id None folder
  = Panicked "invalid memory address or nil pointer dereference".
Proof. exact (missing_config_panics _ _ _ _ _ folder eq_refl eq_refl). Defined.

Lemma env_substitution_witness :
  subEnvVars (fun v => if String.eqb v "EAMERALD_DB_DIR" then "/db/${X}" else "")
    "db_path: '${EAMERALD_DB_DIR}/directory.db'" = "db_path: '/db/${X}/directory.db'".
Proof.
  rewrite (env_substitution _ "db_path: '" "EAMERALD_DB_DIR" "/directory.db'" eq_refl eq_refl eq_refl eq_refl).
  - vm_compute. reflexivity.
  - discriminate.
Defined.

(** An apostrophe in a double-quoted scalar ends the scalar. *)
Example quotes_change :
  subEnvVars (fun _ => "") (String (ascii_of_nat 34) "it's" +:+ String (ascii_of_nat 34) "") = "'it's'".
Proof. reflexivity. Qed.

Example ports : GetPorts [model; exporter]
  (MkConfig 2 "" false "" true "0.0.0.0:9494" no_certs "" no_certs ∅ (MkJWT 5 [] "" "" "") "" "" "" "" 0
     (MkAuthn ∅ (MkCallOptions (MkOptions false true) []) []))
  = Ok {["9494"; "9292"; "9393"]}.
Proof. vm_compute. reflexivity. Qed.
Example split6 : SplitHostPort "[::1]:80" = Ok ("::1", "80").
Proof. reflexivity. Qed.
Example split_empty : is_ok (SplitHostPort "") = false.
Proof. reflexivity. Qed.
End ConfigExamples.
