(* ===== verification/Xdg.v ===== *)
(** * The user's directories

    [internal/xdg] on Unix: the base directories from the environment ([xdg.go], [base_dirs.go],
    [paths_unix.go]), and where files are created and searched ([internal/pathutil]). *)
From Stdlib Require Import Ascii.
From S2P Require Import Prelude Bytes Text Paths Policies Authn Config.

(** ** [pathutil] *)

Definition IsAbs (p : string) : bool := HasPrefix p "/".
Definition ExpandHome (path home : string) : string :=
  if String.eqb path "" || String.eqb home "" then path
  else if HasPrefix path "~" then filepath_Join [home; TrimPrefix path "~"]
  else if HasPrefix path "$HOME" then filepath_Join [home; TrimPrefix path "$HOME"]
  else path.

Fixpoint unique_from (registry : gset string) (paths : list string) (home : string) : list string :=
  match paths with
  | [] => []
  | p :: paths =>
      let p := ExpandHome p home in
      if nonempty p && IsAbs p then
        if decide (p ∈ registry) then unique_from registry paths home
        else p :: unique_from ({[p]} ∪ registry) paths home
      else unique_from registry paths home
  end.
Definition Unique (paths : list string) (home : string) : list string := unique_from ∅ paths home.

Section Pathutil.
Context `{D : Disk}.

Definition Exists (path : string) (d : disk) : bool := match os_Stat path d with Found _ => true | _ => false end.

Fixpoint create_in (name : string) (paths searched : list string) : M disk string :=
  match paths with
  | [] => fail (new_error ("could not create any of the following paths: " +:+ Join searched ", "))
  | p :: paths =>
      let p := filepath_Join [p; name] in
      let dir := filepath_Dir p in
      fun d =>
        if Exists dir d then (Ok p, d)
        else match MkdirAll dir d with
             | (Ok _, d) => (Ok p, d)
             | (Fail _, d) => create_in name paths (searched ++ [dir]) d
             end
  end.
Definition Create (name : string) (paths : list string) : M disk string := create_in name paths [].

Fixpoint search_in (name : string) (paths searched : list string) (d : disk) : res string :=
  match paths with
  | [] => Fail (new_error ("could not locate `" +:+ filepath_Base name +:+ "` in any of the following paths: " +:+ Join searched ", "))
  | p :: paths =>
      let p := filepath_Join [p; name] in
      if Exists p d then Ok p else search_in name paths (searched ++ [filepath_Dir p]) d
  end.
Definition Search (name : string) (paths : list string) (d : disk) : res string := search_in name paths [] d.
End Pathutil.

(** ** The directories *)

Section Dirs.
Context (Getenv : string -> string) (Getuid : string).

(** [filepath.SplitList] *)
Definition SplitList (s : string) : list string := if String.eqb s "" then [] else Split ":" s.
Definition homeDir : string := if nonempty (Getenv "HOME") then Getenv "HOME" else "/".
Definition xdgPath (home name defaultPath : string) : string :=
  let dir := ExpandHome (Getenv name) home in if nonempty dir && IsAbs dir then dir else defaultPath.
Definition xdgPaths (home name : string) (defaultPaths : list string) : list string :=
  match Unique (SplitList (Getenv name)) home with [] => Unique defaultPaths home | dirs => dirs end.

Record baseDirectories := MkBaseDirs {
  dataHome : string; data : list string; configHome : string; config : list string; stateHome : string; cacheHome : string;
  runtime : string; fonts : list string; applications : list string }.
Definition initBaseDirs (home : string) : baseDirectories :=
  let dataHome := xdgPath home "XDG_DATA_HOME" (filepath_Join [home; ".local"; "share"]) in
  let data := xdgPaths home "XDG_DATA_DIRS" ["/usr/local/share"; "/usr/share"] in
  MkBaseDirs dataHome data
    (xdgPath home "XDG_CONFIG_HOME" (filepath_Join [home; ".config"]))
    (xdgPaths home "XDG_CONFIG_DIRS" ["/etc/xdg"])
    (xdgPath home "XDG_STATE_HOME" (filepath_Join [home; ".local"; "state"]))
    (xdgPath home "XDG_CACHE_HOME" (filepath_Join [home; ".cache"]))
    (xdgPath home "XDG_RUNTIME_DIR" (filepath_Join ["/run/user"; Getuid]))
    (Unique ([filepath_Join [dataHome; "fonts"]; filepath_Join [home; ".fonts"]; filepath_Join [home; ".local/share/fonts"];
              "/usr/local/share/fonts"; "/usr/share/fonts"] ++ ((fun dir => filepath_Join [dir; "fonts"]) <$> data)) home)
    (Unique ([filepath_Join [dataHome; "applications"]; filepath_Join [home; ".local/share/applications"];
              "/usr/local/share/applications"; "/usr/share/applications"] ++ ((fun dir => filepath_Join [dir; "applications"]) <$> data)) home).

Record UserDirectories := MkUserDirs {
  Desktop : string; Download : string; Documents : string; Music : string; Pictures : string; Videos : string;
  Templates : string; PublicShare : string }.
Definition initUserDirs (home : string) : UserDirectories :=
  let dir name folder := xdgPath home name (filepath_Join [home; folder]) in
  MkUserDirs (dir "XDG_DESKTOP_DIR" "Desktop") (dir "XDG_DOWNLOAD_DIR" "Downloads") (dir "XDG_DOCUMENTS_DIR" "Documents")
    (dir "XDG_MUSIC_DIR" "Music") (dir "XDG_PICTURES_DIR" "Pictures") (dir "XDG_VIDEOS_DIR" "Videos")
    (dir "XDG_TEMPLATES_DIR" "Templates") (dir "XDG_PUBLICSHARE_DIR" "Public").

(** [Home], the base directories and those of the user. *)
Definition Reload : string * baseDirectories * UserDirectories := (homeDir, initBaseDirs homeDir, initUserDirs homeDir).
End Dirs.

Section Files.
Context `{D : Disk}.
Definition DataFile (bd : baseDirectories) (relPath : string) : M disk string := Create relPath (dataHome bd :: data bd).
Definition ConfigFile (bd : baseDirectories) (relPath : string) : M disk string := Create relPath (configHome bd :: config bd).
Definition StateFile (bd : baseDirectories) (relPath : string) : M disk string := Create relPath [stateHome bd].
Definition CacheFile (bd : baseDirectories) (relPath : string) : M disk string := Create relPath [cacheHome bd].
Definition RuntimeFile (bd : baseDirectories) (relPath : string) : M disk string := Create relPath [runtime bd].
Definition SearchDataFile (bd : baseDirectories) (relPath : string) : disk -> res string := Search relPath (dataHome bd :: data bd).
Definition SearchConfigFile (bd : baseDirectories) (relPath : string) : disk -> res string := Search relPath (configHome bd :: config bd).
Definition SearchStateFile (bd : baseDirectories) (relPath : string) : disk -> res string := Search relPath [stateHome bd].
Definition SearchCacheFile (bd : baseDirectories) (relPath : string) : disk -> res string := Search relPath [cacheHome bd].
Definition SearchRuntimeFile (bd : baseDirectories) (relPath : string) : disk -> res string := Search relPath [runtime bd].
End Files.

(** ** Facts *)

Definition absolute (p : string) : Prop := IsAbs p = true.

Lemma unique_from_spec paths home : forall registry,
  NoDup (unique_from registry paths home) /\
  (forall x, x ∈ unique_from registry paths home <->
     (x ∉ registry) /\ x <> "" /\ absolute x /\ x ∈ ((fun p => ExpandHome p home) <$> paths)) /\
  unique_from registry paths home `sublist_of` ((fun p => ExpandHome p home) <$> paths).
Proof.
  induction paths as [|p paths IH]; intros registry; cbn [unique_from].
  { split_and!; [constructor|set_solver|constructor]. }
  rewrite fmap_cons. generalize (ExpandHome p home) as q. intros q. unfold nonempty, absolute.
  destruct (String.eqb_spec q "") as [->|Hne]; simpl.
  { destruct (IH registry) as (Hnd & Hin & Hsub). split_and!; [done| |by constructor].
    intros x. rewrite Hin. set_solver. }
  destruct (IsAbs q) eqn:Ha.
  - destruct (decide (q ∈ registry)) as [Hq|Hq].
    + destruct (IH registry) as (Hnd & Hin & Hsub). split_and!; [done| |by constructor]. intros x. rewrite Hin. set_solver.
    + destruct (IH ({[q]} ∪ registry)) as (Hnd & Hin & Hsub). split_and!; [|..|by constructor].
      * constructor; [|done]. rewrite Hin. set_solver.
      * intros x. rewrite elem_of_cons, Hin. unfold absolute. destruct (decide (x = q)) as [->|]; set_solver.
  - destruct (IH registry) as (Hnd & Hin & Hsub). split_and!; [done| |by constructor].
    intros x. rewrite Hin. unfold absolute. split; [set_solver|]. intros (? & ? & Hx & [->|?]%elem_of_cons); [congruence|done].
Qed.

(** [Unique] keeps, once and in order, the expanded paths that are absolute. *)
Theorem unique_exact paths home :
  NoDup (Unique paths home) /\ Unique paths home `sublist_of` ((fun p => ExpandHome p home) <$> paths) /\
  forall x, x ∈ Unique paths home <-> absolute x /\ x ∈ ((fun p => ExpandHome p home) <$> paths).
Proof.
  destruct (unique_from_spec paths home ∅) as (Hnd & Hin & Hsub). split_and!; [done..|]. intros x. unfold Unique. rewrite Hin.
  split; [tauto|]. intros [Ha Hx]. split_and!; [set_solver| |done..]. intros ->. discriminate Ha.
Qed.

Lemma Clean_absolute p : absolute p -> absolute (filepath_Clean p).
Proof. intros H. unfold filepath_Clean. unfold absolute, IsAbs in *. rewrite H. apply HasPrefix_app. Qed.
Lemma Join_absolute p l : absolute p -> absolute (filepath_Join (p :: l)).
Proof.
  intros H. unfold filepath_Join. rewrite filter_cons, decide_True by (intros ->; discriminate H).
  apply Clean_absolute. unfold absolute, IsAbs in *. apply HasPrefix_iff in H as [s ->].
  destruct (filter _ l) as [|q r]; cbn [Join]; [apply HasPrefix_app|]. rewrite app_assoc_str. apply HasPrefix_app.
Qed.

Lemma xdgPath_absolute Getenv home name def : absolute def -> absolute (xdgPath Getenv home name def).
Proof. intros H. unfold xdgPath. destruct (nonempty _ && IsAbs _) eqn:E; [|done]. by apply andb_prop in E as [_ E]. Qed.
Lemma xdgPaths_absolute Getenv home name defs : Forall absolute (xdgPaths Getenv home name defs).
Proof.
  assert (H : forall l, Forall absolute (Unique l home)).
  { intros l. apply Forall_forall. intros x Hx. by apply unique_exact in Hx as [? _]. }
  unfold xdgPaths. destruct (Unique (SplitList _) home) eqn:E; [apply H|]. rewrite <-E. apply H.
Qed.

(** Every directory is absolute, whatever the environment, unless the home directory itself is relative. *)
Theorem base_dirs_absolute Getenv Getuid : Getenv "HOME" = "" \/ absolute (Getenv "HOME") ->
  let bd := initBaseDirs Getenv Getuid (homeDir Getenv) in
  Forall absolute (dataHome bd :: configHome bd :: stateHome bd :: cacheHome bd :: runtime bd ::
                   data bd ++ config bd ++ fonts bd ++ applications bd).
Proof.
  intros Hh bd. assert (Hhome : absolute (homeDir Getenv)).
  { unfold homeDir, nonempty. destruct (String.eqb_spec (Getenv "HOME") ""); [done|]. destruct Hh; [done|]. done. }
  assert (HU : forall l h, Forall absolute (Unique l h)).
  { intros l h. apply Forall_forall. intros x Hx. by apply unique_exact in Hx as [? _]. }
  repeat (apply Forall_cons; split; [apply xdgPath_absolute, Join_absolute; done|]).
  repeat (apply Forall_app; split); first [apply xdgPaths_absolute|apply HU].
Qed.

(** ** Creating and searching *)

Section FileFacts.
Context `{D : Disk}.

(** A disk with the folders of what is on it. *)
Definition parents (d : disk) : Prop := forall p, is_Some (d !! p) -> is_Some (d !! filepath_Dir p).

Lemma Exists_iff p d : (forall q, stat_error q = None) -> Exists p d = true <-> p <> "" /\ is_Some (d !! p).
Proof.
  intros Hs. unfold Exists, os_Stat. destruct (String.eqb_spec p ""); [naive_solver|]. rewrite Hs.
  destruct (d !! p); naive_solver.
Qed.

Lemma Dir_nonempty p : filepath_Dir p <> "".
Proof. unfold filepath_Dir. destruct (cut_last "/" p) as [[before after]|]; [apply Clean_nonempty|done]. Qed.

Lemma create_in_ok name paths : forall searched (d d' : disk) p,
  create_in name paths searched d = (Ok p, d') ->
  (Exists (filepath_Dir p) d = true /\ d' = d) \/ (mkdir_error (filepath_Dir p) = None /\ d' = <[filepath_Dir p := Folder]> d).
Proof.
  induction paths as [|q paths IH]; intros searched d d' p; cbn [create_in]; [done|].
  destruct (Exists _ d) eqn:Ex; [intros [= <- <-]; by left|]. unfold MkdirAll.
  destruct (mkdir_error _) eqn:Em; [apply IH|]. destruct (d !! _) as [[]|] eqn:El; [| |]; try (intros [= <- <-]; by right). apply IH.
Qed.

(** Where folders are made with their parents, a file that is written where [Create] said is the one that
    [Search] finds. *)
Theorem create_then_search name paths (d d' d'' : disk) p text :
  (forall q, stat_error q = None) -> (forall q, mkdir_error (filepath_Dir q) <> None -> mkdir_error q <> None) -> parents d ->
  Create name paths d = (Ok p, d') -> WriteFile p text d' = (Ok tt, d'') -> Search name paths d'' = Ok p.
Proof.
  intros Hs Hm Hp Hc Hw. apply WriteFile_ok in Hw as [Hne ->]. revert Hc. unfold Create, Search. generalize (@nil string) at 1 as s1.
  generalize (@nil string) as s2. induction paths as [|q paths IH]; intros s2 s1; cbn [create_in search_in]; [done|].
  set (f := filepath_Join [q; name]). intros Hc. destruct (decide (f = p)) as [Ef|Hf].
  { rewrite Ef. rewrite (proj2 (Exists_iff _ _ Hs)); [done|]. split; [done|]. rewrite lookup_insert_eq. by eexists. }
  destruct (Exists (filepath_Dir f) d) eqn:Ex; [congruence|].
  assert (Hnone : d !! filepath_Dir f = None).
  { destruct (d !! filepath_Dir f) eqn:El; [|done]. exfalso. apply not_true_iff_false in Ex. apply Ex, (Exists_iff _ _ Hs).
    split; [apply Dir_nonempty|by eexists]. }
  unfold MkdirAll in Hc. rewrite Hnone in Hc. destruct (mkdir_error (filepath_Dir f)) eqn:Em; [|congruence].
  assert (Exists f (<[p := File text]> d') = false) as ->; [|by eapply IH].
  apply not_true_iff_false. rewrite Exists_iff by done. intros [_ Hsome]. rewrite lookup_insert_ne in Hsome by done.
  assert (Hf_none : d !! f = None).
  { destruct (d !! f) eqn:El; [|done]. destruct (Hp f) as [? ?]; [by eexists|congruence]. }
  apply create_in_ok in Hc as [[_ ->]|[Hmk ->]]; [rewrite Hf_none in Hsome; by destruct Hsome|].
  destruct (decide (filepath_Dir p = f)) as [Ed|]; [|rewrite lookup_insert_ne, Hf_none in Hsome by done; by destruct Hsome].
  rewrite Ed in Hmk. apply (Hm f); [by rewrite Em|done].
Qed.
End FileFacts.

Module XdgExamples.
#[local] Instance refuses_etc : Disk := {|
  stat_error _ := None; write_error _ := None;
  mkdir_error p := if HasPrefix p "/etc" then Some (new_error "permission denied") else None; crypto_error _ := None; pem a b := a +:+ b |}.
Definition environment (name : string) : string :=
  if String.eqb name "HOME" then "/home/u" else if String.eqb name "XDG_CONFIG_HOME" then "relative"
  else if String.eqb name "XDG_CONFIG_DIRS" then "~/cfg:/etc/a::b:$HOME/cfg" else "".

Example dirs : let bd := (Reload environment "1000").1.2 in
  configHome bd = "/home/u/.config" /\ config bd = ["/home/u/cfg"; "/etc/a"] /\ runtime bd = "/run/user/1000" /\
  fonts bd = ["/home/u/.local/share/fonts"; "/home/u/.fonts"; "/usr/local/share/fonts"; "/usr/share/fonts"].
Proof. vm_compute. repeat split. Qed.

Lemma base_dirs_absolute_witness : absolute (configHome (initBaseDirs environment "1000" (homeDir environment))).
Proof.
  pose proof (base_dirs_absolute environment "1000" (or_intror eq_refl)) as H.
  apply Forall_cons in H as [_ H]. apply Forall_cons in H as [H _]. exact H.
Defined.

(** A name with a tilde in front of it is taken to be in the home directory of the caller. *)
Example tilde_user : ExpandHome "~eve/cfg" "/home/u" = "/home/u/eve/cfg".
Proof. reflexivity. Qed.
End XdgExamples.
