(* ===== verification/LocalPolicy.v ===== *)
(** * Local policies: from a configured image to the bundle that is loaded

    [internal/runtime/local.go]: the bundles that the runtime loads from the disk at its start, and the search of
    a policy image in the store of the [policy] tool.  The configuration is state: the root of the store is
    filled in when it is first needed. *)
From Stdlib Require Import Ascii.
From S2P Require Import Prelude Bytes Text Paths Policies Authn Config.

(** ** The data *)

Record Descriptor := MkDescriptor { MediaType : string; Digest : string; Annotations : gmap string string }.
Record LocalBundlesConfig := MkLocalBundles { LocalPolicyImage : string; FileStoreRoot : string; Paths : list string }.
Definition set_FileStoreRoot (root : string) (c : LocalBundlesConfig) : LocalBundlesConfig :=
  MkLocalBundles (LocalPolicyImage c) root (Paths c).

Definition AnnotationRefName : string := "org.opencontainers.image.ref.name".
Definition MediaTypeImageManifest : string := "application/vnd.oci.image.manifest.v1+json".
Definition MediaTypeImageLayerGzip : string := "application/vnd.oci.image.layer.v1.tar+gzip".

(** The libraries: digests, JSON documents, and OPA's loader; and the home directory of the process. *)
Class Oci (bundle : Type) := {
  (** the part of a digest after its algorithm *)
  Hex : string -> string;
  decode_index : string -> res (list Descriptor);
  (** the digests of the layers of an image *)
  decode_manifest : string -> res (list string);
  AsBundle : string -> disk -> res bundle;
  home_dir : res string }.

Section Local.
Context {bundle : Type} `{O : Oci bundle} `{D : Disk}.

Definition matches (policyImageRef : string) (m : Descriptor) : bool :=
  contains_str (default "" (Annotations m !! AnnotationRefName)) policyImageRef &&
  (String.eqb (MediaType m) MediaTypeImageLayerGzip || String.eqb (MediaType m) MediaTypeImageManifest).
Fixpoint findManifest (policyImageRef : string) (manifests : list Descriptor) : option Descriptor :=
  match manifests with
  | [] => None
  | m :: manifests => if matches policyImageRef m then Some m else findManifest policyImageRef manifests
  end.

Definition loadBundleIndex (storeRoot : string) (d : disk) : res (list Descriptor) :=
  rbind (read_file (filepath_Join [storeRoot; "policies-root"; "index.json"]) d) (fun indexBytes =>
  if String.eqb indexBytes "" then Fail (new_error "empty index.json file") else decode_index indexBytes).

Definition fileStoreRoot : M LocalBundlesConfig string := fun c =>
  if String.eqb (FileStoreRoot c) "" then
    match home_dir with
    | Fail e => (Fail (Errorf "failed to determine user home directory" e), c)
    | Ok home => let root := filepath_Join [home; ".policy"] in (Ok root, set_FileStoreRoot root c)
    end
  else (Ok (FileStoreRoot c), c).

Definition blob (storeRoot digest : string) : string := filepath_Join [storeRoot; "policies-root"; "blobs"; "sha256"; Hex digest].
Definition image_not_found (ref : string) : err := new_error ("could not find policy image " +:+ ref +:+ " with a supported media type").

(** An image, once its descriptor was found or not: a layer is the bundle, a manifest names its only layer. *)
Definition tarball_of (policyImageRef storeRoot : string) (found : option Descriptor) (d : disk) : res string :=
  match found with
  | None => Fail (image_not_found policyImageRef)
  | Some manifest =>
      if String.eqb (MediaType manifest) MediaTypeImageLayerGzip then Ok (blob storeRoot (Digest manifest))
      else if String.eqb (Digest manifest) "" then Fail (image_not_found policyImageRef)
      else
        rbind (read_file (blob storeRoot (Digest manifest)) d) (fun manifestBytes =>
        rbind (decode_manifest manifestBytes) (fun layers =>
        match layers with
        | [layer] => Ok (blob storeRoot layer)
        | _ => Fail (new_error "unknown image type - incorrect number of layers")
        end))
  end.
Definition getPolicyTarballPath (policyImageRef : string) (d : disk) : M LocalBundlesConfig string :=
  let! storeRoot := fileStoreRoot in
  let! localIndex := lift (loadBundleIndex storeRoot d) in
  lift (tarball_of policyImageRef storeRoot (findManifest policyImageRef localIndex) d).

Fixpoint load_bundles (paths : list string) (result : gmap string bundle) (d : disk) : res (gmap string bundle) :=
  match paths with
  | [] => Ok result
  | path :: paths =>
      match AsBundle path d with
      | Fail e => Fail (Errorf ("load bundle from local path '" +:+ path +:+ "'") e)
      | Ok b => load_bundles paths (<[path := b]> result) d
      end
  end.

(** An image that cannot be found is a warning. *)
Definition loadPaths (paths : list string) (d : disk) : M LocalBundlesConfig (gmap string bundle) := fun c =>
  let paths := match paths with [] => Paths c | _ => paths end in
  if String.eqb (LocalPolicyImage c) "" then (load_bundles paths ∅ d, c)
  else match getPolicyTarballPath (LocalPolicyImage c) d c with
       | (Fail _, c) => (load_bundles paths ∅ d, c)
       | (Ok tarballPath, c) =>
           (load_bundles (if String.eqb tarballPath "" then paths else paths ++ [tarballPath]) ∅ d, c)
       end.

(** ** Facts *)

Lemma contains_str_app a s b : contains_str (a +:+ s +:+ b) s = true.
Proof.
  induction a as [|c a IH]; [|simpl; rewrite IH; apply orb_true_r].
  change ("" +:+ s +:+ b) with (s +:+ b). assert (H : HasPrefix (s +:+ b) s = true) by apply HasPrefix_app.
  destruct (s +:+ b); cbn [contains_str]; by rewrite H.
Qed.

Lemma load_bundles_dom paths : forall result d r, load_bundles paths result d = Ok r ->
  dom r = list_to_set paths ∪ dom result /\
  (forall p b, r !! p = Some b -> result !! p = Some b \/ (p ∈ paths /\ AsBundle p d = Ok b)).
Proof.
  induction paths as [|p paths IH]; intros result d r; cbn [load_bundles].
  { intros [= <-]. split; [set_solver|by left]. }
  destruct (AsBundle p d) as [b|] eqn:Eb; [|done]. intros H. destruct (IH _ _ _ H) as [Hd Hb]. split.
  - rewrite Hd, dom_insert_L. set_solver.
  - intros q b' [Hq|[? ?]]%Hb; [|right; split; [by right|done]].
    apply lookup_insert_Some in Hq as [[-> ->]|[_ ?]]; [right; split; [left|done]|by left].
Qed.

(** The image that is used is the first of the index with a name that contains the reference. *)
Lemma findManifest_first ref l m : findManifest ref l = Some m <->
  exists l1 l2, l = l1 ++ m :: l2 /\ matches ref m = true /\ Forall (fun x => matches ref x = false) l1.
Proof.
  induction l as [|x l IH]; cbn [findManifest]; [split; [done|]; by intros ([] & ? & [=] & _)|].
  destruct (matches ref x) eqn:Ex.
  - split; [intros [= <-]; by exists [], l|]. intros ([|y l1] & l2 & E & Hm & Hl); injection E as E1 E2; [by subst|].
    apply Forall_cons in Hl as [Hy _]. congruence.
  - rewrite IH. split; intros (l1 & l2 & Hl & Hm & Hf).
    + exists (x :: l1), l2. split; [simpl; congruence|]. split; [done|]. by constructor.
    + destruct l1 as [|y l1]; injection Hl as E1 E2; [congruence|]. apply Forall_cons in Hf as [_ Hf]. by exists l1, l2.
Qed.

(** The reference may be anywhere in the name: an image of another tag, or of another registry, that is earlier
    in the index is taken for the one that is configured. *)
Theorem wrong_image_taken before ref after digest exact l :
  let other := MkDescriptor MediaTypeImageLayerGzip digest {[AnnotationRefName := before +:+ ref +:+ after]} in
  Annotations exact = {[AnnotationRefName := ref]} -> exact ∈ l -> findManifest ref (other :: l) = Some other.
Proof.
  intros other _ _. cbn [findManifest]. assert (matches ref other = true) as ->; [|done].
  unfold matches. simpl. rewrite lookup_singleton_eq. simpl. by rewrite contains_str_app.
Qed.

(** What the runtime starts with: the configured paths, each with what is there, and at most one more, a blob of
    the store of policies. *)
Theorem local_bundles_exact d c r c' :
  loadPaths [] d c = (Ok r, c') ->
  (forall p b, r !! p = Some b -> AsBundle p d = Ok b) /\
  exists extra, dom r = list_to_set (Paths c ++ extra) /\
    (extra = [] \/ exists digest, FileStoreRoot c' <> "" /\ extra = [blob (FileStoreRoot c') digest]).
Proof.
  assert (Hend : forall extra, load_bundles (Paths c ++ extra) ∅ d = Ok r ->
    (forall p b, r !! p = Some b -> AsBundle p d = Ok b) /\ dom r = list_to_set (Paths c ++ extra)).
  { intros extra H. apply load_bundles_dom in H as [Hd Hb]. split; [|rewrite Hd; set_solver].
    intros p b [Hp|[_ Hp]]%Hb; [by rewrite lookup_empty in Hp|done]. }
  assert (Hplain : load_bundles (Paths c) ∅ d = Ok r -> (forall p b, r !! p = Some b -> AsBundle p d = Ok b) /\
    exists extra, dom r = list_to_set (Paths c ++ extra) /\
      (extra = [] \/ exists digest, FileStoreRoot c' <> "" /\ extra = [blob (FileStoreRoot c') digest])).
  { intros H. destruct (Hend []) as [H1 H2]; [by rewrite app_nil_r|]. split; [done|]. exists []. split; [done|by left]. }
  unfold loadPaths. destruct (String.eqb (LocalPolicyImage c) ""); [intros [= H <-]; by apply Hplain|].
  destruct (getPolicyTarballPath _ d c) as [[tar|e] c1] eqn:Et; intros [= H <-]; [|by apply Hplain].
  destruct (String.eqb_spec tar "") as [_|Hne]; [by apply Hplain|]. destruct (Hend [tar] H) as [H1 H2]. split; [done|].
  exists [tar]. split; [done|right]. unfold getPolicyTarballPath in Et.
  apply bind_inv in Et as [(root & c2 & Hr & Et)|(? & _ & [=])]. apply bind_inv in Et as [(index & c3 & [= _ <-] & Et)|(? & _ & [=])].
  injection Et as Et <-.
  assert (Hroot : FileStoreRoot c2 = root /\ root <> "").
  { unfold fileStoreRoot in Hr. destruct (String.eqb_spec (FileStoreRoot c) "") as [_|]; [|by injection Hr as <- <-].
    destruct home_dir as [home|]; [|done]. injection Hr as <- <-. split; [done|].
    unfold filepath_Join. rewrite !filter_cons. repeat case_decide; try done; apply Clean_nonempty. }
  destruct Hroot as [<- Hroot]. unfold tarball_of in Et. destruct (findManifest _ _) as [m|]; [|done].
  case_match; [injection Et as <-; by exists (Digest m)|]. case_match; [done|].
  destruct (read_file _ d) as [text|]; [|done]. simpl in Et. destruct (decode_manifest text) as [[|layer []]|]; try done.
  injection Et as <-. by exists layer.
Qed.

(** An image that is configured and cannot be found is no error: without other paths the runtime starts with no
    policy at all. *)
Theorem missing_image_ignored d c e c' :
  LocalPolicyImage c <> "" -> Paths c = [] -> getPolicyTarballPath (LocalPolicyImage c) d c = (Fail e, c') ->
  loadPaths [] d c = (Ok ∅, c').
Proof.
  intros Hi Hp Ht. unfold loadPaths. destruct (String.eqb_spec (LocalPolicyImage c) ""); [done|]. by rewrite Ht, Hp.
Qed.
End Local.

Module LocalPolicyExamples.
#[local] Instance no_failures : Disk := {|
  stat_error _ := None; write_error _ := None; mkdir_error _ := None; crypto_error _ := None; pem a b := a +:+ b |}.
Definition named (ref digest : string) : Descriptor := MkDescriptor MediaTypeImageLayerGzip digest {[AnnotationRefName := ref]}.
Definition index : list Descriptor := [named "ghcr.io/acme/todo:1.1" "sha256:bb"; named "ghcr.io/acme/todo:1" "sha256:aa"].
#[local] Instance oci : Oci string := {|
  Hex s := (Cut ":" s).1.2; decode_index _ := Ok index; decode_manifest _ := Fail (new_error "no manifest");
  AsBundle p _ := Ok ("bundle of " +:+ p); home_dir := Ok "/root" |}.
Definition store : disk := {["/root/.policy/policies-root/index.json" := File "index"]}.
Definition config1 (image : string) : LocalBundlesConfig := MkLocalBundles image "" ["/policies"].

(** Tag 1 is configured and tag 1.1 is loaded. *)
Example other_tag : exists c r, loadPaths [] store (config1 "ghcr.io/acme/todo:1") = (Ok r, c) /\
  dom r = {["/policies"; "/root/.policy/policies-root/blobs/sha256/bb"]}.
Proof. eexists _, _. split; [vm_compute; reflexivity|]. vm_compute. reflexivity. Qed.

Lemma wrong_image_taken_witness : findManifest "ghcr.io/acme/todo:1" index = Some (named "ghcr.io/acme/todo:1.1" "sha256:bb").
Proof.
  apply (wrong_image_taken "" "ghcr.io/acme/todo:1" ".1" "sha256:bb" (named "ghcr.io/acme/todo:1" "sha256:aa")); [reflexivity|left].
Defined.
Lemma local_bundles_exact_witness : forall p b,
  match (loadPaths [] store (config1 "ghcr.io/acme/todo:1")).1 with Ok r => r !! p = Some b | Fail _ => False end ->
  b = "bundle of " +:+ p.
Proof.
  destruct (loadPaths [] store (config1 "ghcr.io/acme/todo:1")) as [[r|e] c'] eqn:E; [|intros p b []]. intros p b H.
  destruct (local_bundles_exact store (config1 "ghcr.io/acme/todo:1") r c' E) as [Hb _]. specialize (Hb p b H).
  injection Hb as <-. reflexivity.
Defined.
Lemma missing_image_ignored_witness : loadPaths [] store (MkLocalBundles "ghcr.io/acme/none:1" "" []) =
  (Ok ∅, MkLocalBundles "ghcr.io/acme/none:1" "/root/.policy" []).
Proof. eapply missing_image_ignored; [discriminate|reflexivity|vm_compute; reflexivity]. Defined.
End LocalPolicyExamples.
