(* ===== verification/Daemon.v ===== *)
(** * The daemon: from a configuration to servers

    [daemon/app] ([eamerald.go], [edgedir.go], [authorizer.go], [console.go], [handlers]) and
    [daemon/service/builder/service_factory.go].  A service of the configuration is a pointer in Go:
    here it is a name of the store [cfg_Services], so that what one loop writes through the pointer is
    what the next one reads.  A loop over a map visits its keys in an order of the runtime's choice:
    the class [MapRange].  TLS, listening, grpc-gateway's registrations and the constructors of the
    parts are parameters ([Env]). *)
From Stdlib Require Import Ascii.
From S2P Require Import Prelude Bytes Text Paths Policies Authn Config.

(** The keys of a map in the order in which the loop named by its first argument visits them. *)
Class MapRange := {
  range : string -> gset string -> list string;
  range_perm loop X : range loop X ≡ₚ elements X }.

Class Env := {
  ServerCredentials : TLSConfig -> option err;
  ClientCredentials : TLSConfig -> option err;
  ServerConfig : TLSConfig -> option err;
  net_Listen : string -> option err;
  (** grpc-gateway's registration of a handler *)
  register_handler : string -> option err;
  url_Parse : string -> res string;
  eds_New : option err;
  adl_ConfigFromPlugins : option err;
  impl_NewAuthorizerServer : option err }.

(** ** The parts: [ServiceTypes] *)

Inductive part := EdgeDir | Authorizer_ | ConsoleService.

#[export] Instance part_eq_dec : EqDecision part.
Proof. solve_decision. Defined.

Definition modelService : string := "model".
Definition readerService : string := "reader".
Definition writerService : string := "writer".
Definition exporterService : string := "exporter".
Definition importerService : string := "importer".
Definition accessService : string := "access".
Definition authorizerService : string := "authorizer".
Definition consoleService : string := "console".

Definition AvailableServices (p : part) : list string :=
  match p with
  | EdgeDir => [modelService; readerService; writerService; exporterService; importerService; accessService]
  | Authorizer_ => [authorizerService]
  | ConsoleService => ["console"]
  end.

(** What is registered on a gRPC server: a service of the API, and who implements it. *)
Inductive grpc_service := ModelServer | ReaderServer | AccessServer | WriterServer | ImporterServer | ExporterServer.

#[export] Instance grpc_service_eq_dec : EqDecision grpc_service.
Proof. solve_decision. Defined.

Definition registration : Type := grpc_service * part.

Definition servesAccessAPI (services : list string) : bool := negb (Contains services readerService).

Definition when {A} (b : bool) (l : list A) : list A := if b then l else [].

Definition GetGRPCRegistrations (p : part) (services : list string) : list registration :=
  match p with
  | EdgeDir =>
      when (Contains services modelService) [(ModelServer, EdgeDir)]
      ++ when (Contains services readerService) [(ReaderServer, EdgeDir); (AccessServer, EdgeDir)]
      ++ when (Contains services writerService) [(WriterServer, EdgeDir)]
      ++ when (Contains services importerService) [(ImporterServer, EdgeDir)]
      ++ when (Contains services exporterService) [(ExporterServer, EdgeDir)]
  | Authorizer_ => when (servesAccessAPI services) [(AccessServer, Authorizer_)]
  | ConsoleService => []
  end.

(** The gateway handlers, in the order in which they are registered. *)
Definition GetGatewayRegistration (p : part) (services : list string) : list string :=
  match p with
  | EdgeDir =>
      when (Contains services modelService) ["Model"; "ModelStream"]
      ++ when (Contains services readerService) ["Reader"; "Access"]
      ++ when (Contains services writerService) ["Writer"]
      ++ when (0 <? length services)%nat ["/directory/openapi.json"]
  | Authorizer_ => when (servesAccessAPI services) ["Access"]
  | ConsoleService => ["/"]
  end.

(** ** The state *)

(** The console's view of the configuration ([handlers.TopazCfg]). *)
Record TopazCfg := MkTopazCfg {
  AuthorizerServiceURL : string; AuthorizerAPIKey : string; DirectoryServiceURL : string; DirectoryAPIKey : string;
  DirectoryReaderServiceURL : string; DirectoryWriterServiceURL : string; DirectoryImporterServiceURL : string;
  DirectoryExporterServiceURL : string; DirectoryModelServiceURL : string; ConsoleURL : string }.

(** What is mounted on a gateway: grpc-gateway's handlers, and plain HTTP handlers by path. *)
Inductive route :=
| WellKnownConfigHandler (endpoint : string)
| ConfigHandlerV2 (cfg : TopazCfg) (auth : AuthnConfig)
| AuthorizersHandler (cfg : TopazCfg).

Record gateway := MkGateway {
  handlers : list string;
  mux : list (string * route);
  allowed : list string;           (** the headers that are forwarded *)
  tls_gateway : bool }.
Record server := MkServer {
  srv_owner : string;              (** the service whose [API] it was created from *)
  registrations : list registration;
  srv_gateway : option gateway;
  cleanup : option part }.

Record daemon := MkDaemon {
  d_config : Config;
  parts : gmap string part;
  Servers : gmap string server;
  DependencyMap : gmap string (list string);
  (** the one address on which the well-known document is mounted, and its endpoint *)
  well_known : option (string * string);
  healthy : gmap string bool }.

Definition on_config (f : Config -> Config) (d : daemon) : daemon :=
  MkDaemon (f (d_config d)) (parts d) (Servers d) (DependencyMap d) (well_known d) (healthy d).
Definition set_parts (m : gmap string part) (d : daemon) : daemon :=
  MkDaemon (d_config d) m (Servers d) (DependencyMap d) (well_known d) (healthy d).
Definition set_Servers (m : gmap string server) (d : daemon) : daemon :=
  MkDaemon (d_config d) (parts d) m (DependencyMap d) (well_known d) (healthy d).
Definition set_DependencyMap (m : gmap string (list string)) (d : daemon) : daemon :=
  MkDaemon (d_config d) (parts d) (Servers d) m (well_known d) (healthy d).
Definition set_well_known (w : option (string * string)) (d : daemon) : daemon :=
  MkDaemon (d_config d) (parts d) (Servers d) (DependencyMap d) w (healthy d).
Definition set_healthy (h : gmap string bool) (d : daemon) : daemon :=
  MkDaemon (d_config d) (parts d) (Servers d) (DependencyMap d) (well_known d) h.

Definition services_of (d : daemon) : gmap string API := cfg_Services (d_config d).
Definition on_services (f : gmap string API -> gmap string API) (d : daemon) : daemon :=
  on_config (fun c => set_Services (f (cfg_Services c)) c) d.

(** Code that changes the daemon, returns an error, or panics. *)
Definition D (A : Type) : Type := daemon -> outcome (res A * daemon).
Definition dret {A} (a : A) : D A := fun d => Returned (Ok a, d).
Definition dfail {A} (e : err) : D A := fun d => Returned (Fail e, d).
Definition dpanic {A} (what : string) : D A := fun _ => Panicked what.
Definition dbind {A B} (m : D A) (f : A -> D B) : D B := fun d =>
  match m d with
  | Returned (Ok a, d') => f a d'
  | Returned (Fail e, d') => Returned (Fail e, d')
  | Panicked what => Panicked what
  end.
Definition dget : D daemon := fun d => Returned (Ok d, d).
Definition modify (f : daemon -> daemon) : D unit := fun d => Returned (Ok tt, f d).
Definition dguard (o : option err) : D unit := match o with None => dret tt | Some e => dfail e end.
Notation "'let?' x ':=' m 'in' k" := (dbind m (fun x => k))
  (at level 10, x binder, m at level 100, k at level 200) : dir_scope.
Notation "'do?' m ';' k" := (dbind m (fun _ => k))
  (at level 10, m at level 100, k at level 200) : dir_scope.
Fixpoint dfor {A} (f : A -> D unit) (l : list A) : D unit :=
  match l with [] => dret tt | x :: l => do? f x; dfor f l end.

Section Daemon.
Context `{R : MapRange} `{En : Env} `{T : TLS}.

Definition keys {A} (m : gmap string A) : gset string := dom m.

(** ** [prepareServices]: the parts that the configuration asks for *)

Definition prepareServices : D unit :=
  do? dguard adl_ConfigFromPlugins;
  let? d := dget in
  do? (if nonempty (Edge_DBPath (d_config d)) then
         do? dguard eds_New; modify (fun d => set_parts (<["edge" := EdgeDir]> (parts d)) d)
       else dret tt);
  do? match services_of d !! authorizerService with
      | Some serviceConfig =>
          do? (if HasCert (grpc_Certs (api_GRPC serviceConfig)) then
                 dguard (Errorf "failed to calculate tls config" <$> ServerCredentials (grpc_Certs (api_GRPC serviceConfig)))
               else dret tt);
          do? dguard (Errorf "failed to create authorizer server" <$> impl_NewAuthorizerServer);
          modify (fun d => set_parts (<["authorizer" := Authorizer_]> (parts d)) d)
      | None => dret tt
      end;
  match services_of d !! consoleService with
  | Some _ => modify (fun d => set_parts (<["console" := ConsoleService]> (parts d)) d)
  | None => dret tt
  end.

(** ** [validateConfig] *)

(** A part that offers the service, among the parts there are. *)
Definition offered (ps : gmap string part) (key : string) : bool :=
  existsb (fun p => Contains (AvailableServices p) key) (map_to_list ps).*2.

Definition disable_local : D unit :=
  let? d := dget in
  match services_of d !! readerService with
  | Some readerConfig =>
      if String.eqb (grpc_ListenAddress (api_GRPC readerConfig)) (DirectoryResolver_Address (d_config d)) then dret tt
      else match parts d !! "edge" with
           | None => dpanic "invalid memory address or nil pointer dereference"
           | Some p =>
               do? modify (on_services (fun m => foldr delete m (AvailableServices p)));
               modify (fun d => set_parts (delete "edge" (parts d)) d)
           end
  | None => dret tt
  end.

Definition validateConfig : D unit :=
  do? disable_local;
  let? d := dget in
  let m := services_of d in
  if bool_decide (is_Some (m !! "console")) && bool_decide (is_Some (m !! "reader"))
     && negb (bool_decide (is_Some (m !! "model"))) then
    dfail (new_error "console needs the model service to be configured")
  else
    match filter (fun key => offered (parts d) key = false) (range "validateConfig" (keys m)) with
    | key :: _ => dfail (new_error ("unknown service type " +:+ key))
    | [] => dret tt
    end.

(** ** [mapToGRPCPorts]: services that share an address share a server *)

Record services := MkServices { registeredServices : list string; svc_API : string }.

Definition with_Gateway (g : Gateway_API) (a : API) : API := MkAPI (Needs a) (api_GRPC a) g.

Definition map_step (st : gmap string services * gmap string API) (key : string)
  : gmap string services * gmap string API :=
  let '(portMap, api) := st in
  match api !! key with
  | None => st
  | Some config =>
      let address := grpc_ListenAddress (api_GRPC config) in
      match portMap !! address with
      | Some existing =>
          (<[address := MkServices (registeredServices existing ++ [key]) (svc_API existing)]> portMap,
           alter (fun owner =>
             if negb (nonempty (gw_ListenAddress (api_Gateway owner))) && nonempty (gw_ListenAddress (api_Gateway config))
             then with_Gateway (api_Gateway config) owner else owner) (svc_API existing) api)
      | None => (<[address := MkServices [key] key]> portMap, api)
      end
  end.
Definition mapToGRPCPorts (api : gmap string API) : gmap string services * gmap string API :=
  fold_left map_step (range "mapToGRPCPorts" (keys api)) (∅, api).

(** ** [CreateService] *)

Definition DefaultGatewayAllowedHeaders : list string :=
  ["Authorization"; "Content-Type"; "If-Match"; "If-None-Match"; "Depth"].
Definition TraceContextHeaders : list string := ["Traceparent"; "Tracestate"].
Definition DefaultGatewayAllowedMethods : list string :=
  ["GET"; "POST"; "HEAD"; "DELETE"; "PUT"; "PATCH"; "PROPFIND"; "MKCOL"; "COPY"; "MOVE"].
Definition DefaultGatewayAllowedOrigins : list string :=
  ["http://localhost"; "http://localhost:*"; "https://localhost"; "https://localhost:*";
   "http://127.0.0.1"; "http://127.0.0.1:*"; "https://127.0.0.1"; "https://127.0.0.1:*"].

(** [lo.Uniq] *)
Definition uniq (l : list string) : list string :=
  fold_left (fun acc x => if Contains acc x then acc else acc ++ [x]) l [].
Definition or_default {A} (l dflt : list A) : list A := match l with [] => dflt | _ => l end.

(** What [prepareGateway] writes into the service's configuration. *)
Definition gateway_config (g : Gateway_API) : Gateway_API :=
  MkGatewayAPI (gw_FQDN g) (gw_ListenAddress g) (or_default (AllowedOrigins g) DefaultGatewayAllowedOrigins)
    (uniq (or_default (AllowedHeaders g) DefaultGatewayAllowedHeaders ++ TraceContextHeaders))
    (or_default (AllowedMethods g) DefaultGatewayAllowedMethods) (gw_Certs g) (negb (HasCert (gw_Certs g))).

(** Headers that are allowed are forwarded under their own name; [dflt] is grpc-gateway's rule. *)
Definition incomingHeaderMatcher (dflt : string -> option string) (allowedHeaders : list string) (key : string)
  : option string := if Contains allowedHeaders key then Some key else dflt key.

Definition prepareGateway (owner : string) (config : API) (handlers : list string) : D gateway :=
  do? modify (on_services (alter (fun a => with_Gateway (gateway_config (api_Gateway a)) a) owner));
  let g := gateway_config (api_Gateway config) in
  do? (if HasCA (grpc_Certs (api_GRPC config)) then
         dguard (Errorf "failed to get TLS credentials" <$> ClientCredentials (grpc_Certs (api_GRPC config)))
       else dret tt);
  do? dfor (fun h => dguard (register_handler h)) handlers;
  do? (if gw_HTTP g then dret tt else dguard (ServerConfig (gw_Certs g)));
  dret (MkGateway handlers [] (AllowedHeaders g) (negb (gw_HTTP g))).

Definition prepareGrpcServer (certs : TLSConfig) : D unit :=
  if HasCert certs then dguard (Errorf "failed to get TLS credentials" <$> ServerCredentials certs) else dret tt.

(** grpc-go ends the process when a service is registered twice on a server. *)
Definition register (l : list registration) : D unit :=
  if bool_decide (NoDup l.*1) then dret tt
  else dpanic "grpc: Server.RegisterService found duplicate service registration".

Definition CreateService (owner : string) (config : API) (grpcs : list registration) (handlers : list string)
    (cleanup : option part) : D server :=
  do? prepareGrpcServer (grpc_Certs (api_GRPC config));
  do? register grpcs;
  do? dguard (net_Listen (grpc_ListenAddress (api_GRPC config)));
  let? gateway :=
    (if nonempty (gw_ListenAddress (api_Gateway config)) then
       let? g := prepareGateway owner config handlers in dret (Some g)
     else dret None) in
  dret (MkServer owner grpcs gateway cleanup).

(** ** The console's configuration *)

Fixpoint replace_first (old new s : string) : string :=
  if HasPrefix s old then new +:+ TrimPrefix s old
  else match s with EmptyString => "" | String c s' => String c (replace_first old new s') end.
Definition serviceAddress (listenAddress : string) : string := replace_first "0.0.0.0" "localhost" listenAddress.

(** It sets [HTTP] of the service's gateway on the way. *)
Definition set_HTTP (a : API) : API :=
  let g := api_Gateway a in
  with_Gateway (MkGatewayAPI (gw_FQDN g) (gw_ListenAddress g) (AllowedOrigins g) (AllowedHeaders g)
                  (AllowedMethods g) (gw_Certs g) (negb (HasCert (gw_Certs g)))) a.
Definition getGatewayAddress (name : string) (a : API) : D string :=
  let g := api_Gateway a in
  if nonempty (gw_FQDN g) then dret (gw_FQDN g)
  else
    do? modify (on_services (<[name := set_HTTP a]>));
    dret ((if HasCert (gw_Certs g) then "https://" else "http://") +:+ serviceAddress (gw_ListenAddress g)).

Definition service_url (name : string) : D string :=
  let? d := dget in
  match services_of d !! name with Some a => getGatewayAddress name a | None => dret "" end.

Definition PrepareConfig : D TopazCfg :=
  let? d := dget in
  let cfg := d_config d in
  let remote := DirectoryResolver_Address cfg in
  let? authorizerURL := service_url authorizerService in
  let? readerURL := service_url readerService in
  let directoryServiceURL :=
    match services_of d !! readerService with
    | Some a => if String.eqb remote (grpc_ListenAddress (api_GRPC a)) then readerURL
                else serviceAddress ("https://" +:+ default "" (head (Split ":"%char remote)))
    | None => serviceAddress ("https://" +:+ default "" (head (Split ":"%char remote)))
    end in
  let? writerURL := service_url writerService in
  let? modelURL := service_url modelService in
  let? consoleURL := service_url consoleService in
  let local := match services_of d !! authorizerService with
               | Some _ => default "" (head (range "PrepareConfig" (keys (APIKeys (cfg_Auth cfg)))))
               | None => ""
               end in
  let directoryAPIKey := if nonempty (DirectoryResolver_APIKey cfg) then DirectoryResolver_APIKey cfg else local in
  dret (MkTopazCfg authorizerURL local directoryServiceURL directoryAPIKey readerURL writerURL "" "" modelURL consoleURL).

(** ** [ConfigServices] *)

Definition endpoint (a : API) : res string :=
  let g := api_Gateway a in
  if nonempty (gw_FQDN g) then url_Parse (gw_FQDN g)
  else if nonempty (gw_ListenAddress g) then
    url_Parse ((if gw_HTTP g then "http://" else "https://") +:+ serviceAddress (gw_ListenAddress g))
  else Fail (new_error "no fqdn or listen address").

Definition AuthZENConfiguration : string := "/.well-known/authzen-configuration".

Definition mount (path : string) (r : route) (g : gateway) : gateway :=
  MkGateway (handlers g) (mux g ++ [(path, r)]) (allowed g) (tls_gateway g).

(** [once] mounts the document on the first gateway it is called with. *)
Definition SetWellKnownConfigHandler (address : string) (a : API) (g : gateway) : D gateway :=
  match endpoint a with
  | Fail e => dfail e
  | Ok ep =>
      let? d := dget in
      match well_known d with
      | Some _ => dret g
      | None =>
          do? modify (set_well_known (Some (address, ep)));
          dret (mount AuthZENConfiguration (WellKnownConfigHandler ep) g)
      end
  end.

Definition mount_well_known (address : string) (s : server) : D server :=
  let? d := dget in
  match services_of d !! readerService with
  | None => dret s
  | Some readerSvc =>
      match srv_gateway s with
      | None => dpanic "invalid memory address or nil pointer dereference"
      | Some g =>
          let? g := SetWellKnownConfigHandler address readerSvc g in
          dret (MkServer (srv_owner s) (registrations s) (Some g) (cleanup s))
      end
  end.

Definition mount_console (registered : list string) (s : server) : D server :=
  let? d := dget in
  match parts d !! consoleService, srv_gateway s with
  | Some _, Some g =>
      if Contains registered consoleService then
        let? c := PrepareConfig in
        let g := mount "/api/v2/config" (ConfigHandlerV2 c (cfg_Auth (d_config d))) g in
        let g := mount "/api/v1/authorizers" (AuthorizersHandler c) g in
        dret (MkServer (srv_owner s) (registrations s) (Some g) (cleanup s))
      else dret s
  | _, _ => dret s
  end.

(** The parts, in the order of the loop over them, that offer one of the services. *)
Definition involved (registered : list string) (d : daemon) : list part :=
  filter (fun p => existsb (Contains registered) (AvailableServices p) = true)
    (omap (fun k => parts d !! k) (range "ConfigServices" (keys (parts d)))).

Definition AddGRPCServer (address : string) (s : server) : D unit :=
  modify (fun d => set_Servers (<[address := s]> (Servers d)) d).

Definition configure_address (address : string) (svc : services) : D unit :=
  let? d := dget in
  match services_of d !! svc_API svc with
  | None => dpanic "invalid memory address or nil pointer dereference"
  | Some api =>
      let registered := registeredServices svc in
      let ps := involved registered d in
      do? dfor (fun _ => match PortFromAddress (gw_ListenAddress (api_Gateway api)) with
                         | Ok _ => dret tt
                         | Fail e => dfail (Errorf ("invalid gateway address in service at " +:+ address) e)
                         end) ps;
      let? s := CreateService (svc_API svc) api
                  (flat_map (fun p => GetGRPCRegistrations p registered) ps)
                  (flat_map (fun p => GetGatewayRegistration p registered) ps) (last ps) in
      let? s := mount_well_known address s in
      let? s := mount_console registered s in
      AddGRPCServer (grpc_ListenAddress (api_GRPC api)) s
  end.

(** [SetupMetricsServer] starts the metrics server in a goroutine of its own and returns the interceptors that count
    calls, never an error: neither is part of this state. *)
Definition setupHealthAndMetrics : D unit :=
  let? d := dget in
  do? (if nonempty (Health_ListenAddress (d_config d)) then
         do? dguard (net_Listen (Health_ListenAddress (d_config d)));
         modify (fun d => set_healthy (<["git" := false]> (<["sync" := false]> (healthy d))) d)
       else dret tt);
  dret tt.

Definition ConfigServices : D unit :=
  do? setupHealthAndMetrics;
  do? prepareServices;
  do? validateConfig;
  let? d := dget in
  let '(portMap, api) := mapToGRPCPorts (services_of d) in
  do? modify (on_services (fun _ => api));
  dfor (fun address => match portMap !! address with
                       | Some svc => configure_address address svc
                       | None => dret tt
                       end) (range "serviceMap" (keys portMap)).

(** ** [Start]: who waits for whom *)

Definition add_need (m : gmap string API) (cfg : API) (deps : gmap string (list string)) (name : string)
  : gmap string (list string) :=
  match m !! name with
  | None => deps
  | Some dependencyConfig =>
      let address := grpc_ListenAddress (api_GRPC cfg) in
      let needed := grpc_ListenAddress (api_GRPC dependencyConfig) in
      let known := default [] (deps !! address) in
      if negb (Contains known needed) && negb (String.eqb address needed) then <[address := known ++ [needed]]> deps
      else deps
  end.
Definition add_needs (m : gmap string API) (deps : gmap string (list string)) (service : string)
  : gmap string (list string) :=
  match m !! service with Some cfg => fold_left (add_need m cfg) (Needs cfg) deps | None => deps end.
Definition dependencies (m : gmap string API) (deps : gmap string (list string)) : gmap string (list string) :=
  fold_left (add_needs m) (range "Start" (keys m)) deps.

(** The health server reports every service as serving as soon as the goroutines are launched. *)
Definition Start : D unit :=
  do? modify (fun d => set_DependencyMap (dependencies (services_of d) (DependencyMap d)) d);
  let? d := dget in
  if nonempty (Health_ListenAddress (d_config d)) then
    modify (fun d => set_healthy (fold_left (fun h k => <[k := true]> h) (range "health" (keys (services_of d))) (healthy d)) d)
  else dret tt.

(** What a plugin reports: nothing without a health server, and nothing for a service that the health
    server does not know. *)
Definition SetServiceStatus (service : string) (serving : bool) : D unit :=
  let? d := dget in
  if nonempty (Health_ListenAddress (d_config d)) then
    match healthy d !! service with
    | None => dret tt
    | Some now => if Bool.eqb now serving then dret tt
                  else modify (fun d => set_healthy (<[service := serving]> (healthy d)) d)
    end
  else dret tt.
End Daemon.

(** ** HTTP: the plain handlers *)

Inductive http_response :=
| ConfigV2Response (authenticationType : string) (cfg : TopazCfg) (address : string)
| AuthorizersResponse (name url apiKey : string)
| WellKnownResponse (policyDecisionPoint evaluation evaluations subject resource action : string)
| StatusUnauthorized (message : string)
| NotMounted.

(** [ConfigHandlerV2]: the keys are for an authenticated user. *)
Definition config_v2 (c : TopazCfg) (authenticated enabled : bool) : http_response :=
  ConfigV2Response (if enabled then "apiKey" else "anonymous")
    (MkTopazCfg (AuthorizerServiceURL c) (if authenticated then AuthorizerAPIKey c else "")
       (DirectoryServiceURL c) (if authenticated then DirectoryAPIKey c else "")
       (DirectoryReaderServiceURL c) (DirectoryWriterServiceURL c) (DirectoryImporterServiceURL c)
       (DirectoryExporterServiceURL c) (DirectoryModelServiceURL c) "")
    (ConsoleURL c +:+ "/api/v2/config").

Definition well_known_response (ep : string) : http_response :=
  WellKnownResponse ep (ep +:+ "/access/v1/evaluation") (ep +:+ "/access/v1/evaluations")
    (ep +:+ "/access/v1/search/subject") (ep +:+ "/access/v1/search/resource") (ep +:+ "/access/v1/search/action").

Definition authorizers_response (c : TopazCfg) : http_response :=
  AuthorizersResponse "authorizer" (AuthorizerServiceURL c) (AuthorizerAPIKey c).

(** The console's configuration goes through [ConfigAuth]; the other handlers are mounted bare. *)
Definition serve (r : route) (path authHeader : string) : http_response :=
  match r with
  | WellKnownConfigHandler ep => well_known_response ep
  | ConfigHandlerV2 c auth =>
      match ConfigAuth auth path authHeader with
      | Served authenticated enabled => config_v2 c authenticated enabled
      | Unauthorized msg => StatusUnauthorized msg
      end
  | AuthorizersHandler c => authorizers_response c
  end.

(** A request for a path that a plain handler is mounted on. *)
Definition http_get (g : gateway) (path authHeader : string) : http_response :=
  match List.find (fun e => String.eqb e.1 path) (mux g) with
  | Some (_, r) => serve r path authHeader
  | None => NotMounted
  end.

(** [fieldsMaskHandler]: the values of the query parameter [fields.mask]; the content type that the
    request goes on with. *)
Definition fieldsMaskHandler (mask : option (list string)) (contentType : string) : string :=
  match mask with
  | Some (p :: _) => if nonempty p then "application/json+masked" else contentType
  | _ => contentType
  end.

(** [numCPU]: the number of workers of a server, from [runtime.NumCPU]. *)
Definition MaxUint32 : Z := (2 ^ 32 - 1)%Z.
Definition MaxInt32 : Z := (2 ^ 31 - 1)%Z.
Definition numCPU (n : Z) : Z :=
  if (n <=? 0)%Z then 1%Z else if (MaxUint32 <? n)%Z then MaxInt32 else n.
