(* ===== verification/DaemonFacts.v ===== *)
(** * The daemon: what the servers serve

    Facts on [Daemon]: which services share a server, what is registered on it, when the set-up can
    fail or panic, and what the plain HTTP handlers hand out. *)
From Stdlib Require Import Ascii.
From S2P Require Import Prelude Bytes Text Paths Policies Authn Config Daemon.

(** ** The monad *)

Section Dmonad.
Context {A B : Type}.

Lemma dbind_inv (m : D A) (f : A -> D B) d r d' :
  dbind m f d = Returned (r, d') ->
  (exists a d1, m d = Returned (Ok a, d1) /\ f a d1 = Returned (r, d')) \/
  (exists e, m d = Returned (Fail e, d') /\ r = Fail e).
Proof. unfold dbind. destruct (m d) as [[[a|e] d1]|w]; naive_solver. Qed.

Lemma dbind_ok (m : D A) (f : A -> D B) d b d' :
  dbind m f d = Returned (Ok b, d') ->
  exists a d1, m d = Returned (Ok a, d1) /\ f a d1 = Returned (Ok b, d').
Proof. intros [?|(e & _ & [=])]%dbind_inv. done. Qed.

Lemma dbind_panic (m : D A) (f : A -> D B) d w :
  dbind m f d = Panicked w ->
  m d = Panicked w \/ exists a d1, m d = Returned (Ok a, d1) /\ f a d1 = Panicked w.
Proof. unfold dbind. destruct (m d) as [[[a|e] d1]|w']; naive_solver. Qed.
End Dmonad.

Lemma dguard_inv o d r d' : dguard o d = Returned (r, d') -> d' = d /\ (is_ok r = true -> o = None).
Proof. destruct o; unfold dguard, dret, dfail; naive_solver. Qed.

(** From a daemon with [P], [m] does not panic, and where it succeeds the result has [Q]. *)
Definition triple {A} (P : daemon -> Prop) (m : D A) (Q : A -> daemon -> Prop) : Prop :=
  forall d, P d -> match m d with Returned (Ok a, d') => Q a d' | Returned (Fail _, _) => True | Panicked _ => False end.

Section Triple.
Implicit Types (P : daemon -> Prop).
Lemma triple_ret {A} P (a : A) : triple P (dret a) (fun b d => b = a /\ P d).
Proof. by intros d. Qed.
Lemma triple_fail {A} P e (Q : A -> daemon -> Prop) : triple P (dfail e) Q.
Proof. by intros d. Qed.
Lemma triple_get P : triple P dget (fun d0 d => d0 = d /\ P d).
Proof. by intros d. Qed.
Lemma triple_guard P o : triple P (dguard o) (fun _ d => o = None /\ P d).
Proof. destruct o; by intros d. Qed.
Lemma triple_modify P f : triple P (modify f) (fun _ d' => exists d, P d /\ d' = f d).
Proof. intros d Hd. simpl. eauto. Qed.
Lemma triple_bind {A B} P (m : D A) (f : A -> D B) Q Q' :
  triple P m Q -> (forall a, triple (Q a) (f a) Q') -> triple P (dbind m f) Q'.
Proof.
  intros Hm Hf d Hd. unfold dbind. specialize (Hm d Hd).
  destruct (m d) as [[[a|e] d1]|w]; [by apply Hf|done|done].
Qed.
Lemma triple_weaken {A} P P' (m : D A) (Q Q' : A -> daemon -> Prop) :
  triple P' m Q' -> (forall d, P d -> P' d) -> (forall a d, Q' a d -> Q a d) -> triple P m Q.
Proof.
  intros H HP HQ d Hd. specialize (H d (HP d Hd)). destruct (m d) as [[[a|e] d1]|w]; auto.
Qed.
Lemma triple_for {A} (I : list A -> daemon -> Prop) (f : A -> D unit) l :
  (forall visited x, x ∈ l -> triple (I visited) (f x) (fun _ => I (visited ++ [x]))) ->
  triple (I []) (dfor f l) (fun _ => I l).
Proof.
  intros Hf. assert (H : forall k visited, k ⊆ l -> triple (I visited) (dfor f k) (fun _ => I (visited ++ k))).
  { induction k as [|x k IH]; intros visited Hk.
    - rewrite app_nil_r. simpl. eapply triple_weaken; [apply (triple_ret (I visited))|done|by intros ? ? [_ ?]].
    - simpl. eapply triple_bind; [apply Hf; set_solver|]. intros u. cbv beta.
      replace (visited ++ x :: k) with ((visited ++ [x]) ++ k) by (by rewrite <-app_assoc). apply IH. set_solver. }
  by apply (H l []).
Qed.
(** A fact that does not depend on the state. *)
Lemma triple_pure {A} (phi : Prop) P (m : D A) Q : (phi -> triple P m Q) -> triple (fun d => phi /\ P d) m Q.
Proof. intros H d [Hp Hd]. by apply H. Qed.
Lemma triple_panic {A} P (Q : A -> daemon -> Prop) w : (forall d, ~ P d) -> triple P (dpanic w) Q.
Proof. intros H d Hd. by destruct (H d). Qed.
End Triple.

(** ** Sharing an address *)

Lemma nonempty_spec s : nonempty s = true <-> s <> "".
Proof. unfold nonempty. rewrite negb_true_iff. apply String.eqb_neq. Qed.

(** An invariant of a left fold over distinct elements, indexed by those that were visited. *)
Lemma fold_left_visited {A B} (P : list A -> B -> Prop) (f : B -> A -> B) l b :
  NoDup l -> P [] b -> (forall visited b x, x ∈ l -> x ∉ visited -> P visited b -> P (visited ++ [x]) (f b x)) ->
  P l (fold_left f l b).
Proof.
  intros Hnd H0 Hstep.
  assert (H : forall k visited b, k ⊆ l -> NoDup (visited ++ k) -> P visited b -> P (visited ++ k) (fold_left f k b)).
  { clear H0 b Hnd. induction k as [|x k IH]; intros visited b Hk Hnd H; simpl; [by rewrite app_nil_r|].
    specialize (IH (visited ++ [x]) (f b x)). rewrite <-app_assoc in IH. apply IH; [set_solver|done|].
    apply NoDup_app in Hnd as (_ & Hnd & _). apply Hstep; [set_solver| |done].
    intros Hx. by apply (Hnd x Hx); left. }
  by apply (H l [] b).
Qed.

Lemma range_NoDup `{R : MapRange} loop X : NoDup (range loop X).
Proof. rewrite range_perm. apply NoDup_elements. Qed.
Lemma range_elem `{R : MapRange} loop X k : k ∈ range loop X <-> k ∈ X.
Proof. rewrite range_perm. apply elem_of_elements. Qed.

Definition address_of (a : API) : string := grpc_ListenAddress (api_GRPC a).
Definition has_gateway (a : API) : bool := nonempty (gw_ListenAddress (api_Gateway a)).

(** The services at an address. *)
Definition at_address (api : gmap string API) (address k : string) : Prop :=
  exists a, api !! k = Some a /\ address_of a = address.

Definition visible (a : API) : list string * GRPC_API := (Needs a, api_GRPC a).

(** The state of the loop once the services of [visited] are done. *)
Record shared (api0 : gmap string API) (visited : list string)
    (st : gmap string services * gmap string API) : Prop := {
  sh_grpc k : visible <$> st.2 !! k = visible <$> api0 !! k;
  sh_later k : k ∉ visited -> st.2 !! k = api0 !! k;
  sh_some address svc : st.1 !! address = Some svc ->
    NoDup (registeredServices svc) /\ svc_API svc ∈ registeredServices svc /\
    forall k, k ∈ registeredServices svc <-> k ∈ visited /\ at_address api0 address k;
  sh_none address : st.1 !! address = None -> forall k, k ∈ visited -> ~ at_address api0 address k;
  sh_gateway address svc owner : st.1 !! address = Some svc -> st.2 !! svc_API svc = Some owner ->
    has_gateway owner = true <->
    exists k a, k ∈ registeredServices svc /\ api0 !! k = Some a /\ has_gateway a = true }.

Lemma shared_start api0 : shared api0 [] (∅, api0).
Proof. split; simpl; [done|done|naive_solver|set_solver|naive_solver]. Qed.

Lemma at_address_fun api a1 a2 k : at_address api a1 k -> at_address api a2 k -> a1 = a2.
Proof. unfold at_address. naive_solver. Qed.

Section Step.
Context (api0 : gmap string API) (visited : list string) (pm : gmap string services) (api : gmap string API).
Context (x : string) (a : API) (Ha : api0 !! x = Some a) (Hx : x ∉ visited).
Context (H : shared api0 visited (pm, api)).

Lemma at_own : at_address api0 (address_of a) x.
Proof using Ha. by exists a. Qed.

(** The services of another address are what they were. *)
Lemma shared_elsewhere address svc : address <> address_of a -> pm !! address = Some svc ->
  NoDup (registeredServices svc) /\ svc_API svc ∈ registeredServices svc /\
  forall k, k ∈ registeredServices svc <-> k ∈ visited ++ [x] /\ at_address api0 address k.
Proof using Ha H.
  intros Hne Hs. destruct (sh_some _ _ _ H _ _ Hs) as (? & ? & Hr). split_and!; [done|done|].
  intros k. rewrite Hr, elem_of_app, list_elem_of_singleton. split; [naive_solver|].
  intros [[?| ->] Hk]; [done|]. by destruct (Hne (at_address_fun _ _ _ _ Hk at_own)).
Qed.

Lemma shared_none_step svc address : <[address_of a := svc]> pm !! address = None ->
  forall k, k ∈ visited ++ [x] -> ~ at_address api0 address k.
Proof using Ha H.
  intros Hnone k [Hk| ->%list_elem_of_singleton]%elem_of_app.
  - apply (sh_none _ _ _ H); [|done]. destruct (decide (address = address_of a)) as [->|].
    + by rewrite lookup_insert_eq in Hnone.
    + by rewrite lookup_insert_ne in Hnone.
  - intros Hk. by rewrite (at_address_fun _ _ _ _ Hk at_own), lookup_insert_eq in Hnone.
Qed.

Lemma shared_fresh : pm !! address_of a = None ->
  shared api0 (visited ++ [x]) (<[address_of a := MkServices [x] x]> pm, api).
Proof using Ha Hx H.
  intros E. split; simpl; [exact (sh_grpc _ _ _ H)| | |by apply shared_none_step|].
  - intros k Hk. apply (sh_later _ _ _ H). set_solver.
  - intros address svc. destruct (decide (address = address_of a)) as [->|Hne].
    + rewrite lookup_insert_eq. intros [= <-]. simpl. split_and!; [apply NoDup_singleton|set_solver|].
      intros k. rewrite list_elem_of_singleton, elem_of_app, list_elem_of_singleton.
      pose proof at_own. split; [naive_solver|].
      intros [[Hk| ->] Hk']; [|done]. by destruct (sh_none _ _ _ H _ E k Hk).
    + rewrite lookup_insert_ne by done. by apply shared_elsewhere.
  - intros address svc owner. destruct (decide (address = address_of a)) as [->|Hne].
    + rewrite lookup_insert_eq. intros [= <-]. simpl.
      pose proof (sh_later _ _ _ H x Hx) as Hl. simpl in Hl. rewrite Hl, Ha. intros [= <-].
      split; [intros ?; exists x, a; set_solver|]. intros (k & b & ->%list_elem_of_singleton & Hb & Hg). congruence.
    + rewrite lookup_insert_ne by done. intros Hs. by apply (sh_gateway _ _ _ H address).
Qed.

(** A service that joins an address: the owner takes its gateway when it has none. *)
Definition adopt (owner : API) : API :=
  if negb (has_gateway owner) && has_gateway a then with_Gateway (api_Gateway a) owner else owner.

Lemma adopt_gateway owner : has_gateway (adopt owner) = has_gateway owner || has_gateway a.
Proof. unfold adopt. by destruct (has_gateway owner) eqn:?, (has_gateway a) eqn:?. Qed.

Lemma shared_join ex : pm !! address_of a = Some ex ->
  shared api0 (visited ++ [x])
    (<[address_of a := MkServices (registeredServices ex ++ [x]) (svc_API ex)]> pm, alter adopt (svc_API ex) api).
Proof using Ha Hx H.
  intros E. destruct (sh_some _ _ _ H _ _ E) as (Hnd & Hown & Hreg).
  assert (Hov : svc_API ex ∈ visited) by naive_solver. split; simpl; [| | |by apply shared_none_step|].
  - intros k. pose proof (sh_grpc _ _ _ H k) as Hk. simpl in Hk. rewrite <-Hk.
    destruct (decide (k = svc_API ex)) as [->|]; [|by rewrite lookup_alter_ne].
    rewrite lookup_alter_eq. destruct (api !! svc_API ex) as [o|]; [|done]. simpl. unfold adopt. by destruct (_ && _).
  - intros k Hk. rewrite lookup_alter_ne by set_solver. apply (sh_later _ _ _ H). set_solver.
  - intros address svc. destruct (decide (address = address_of a)) as [->|Hne].
    + rewrite lookup_insert_eq. intros [= <-]. simpl. split_and!; [|set_solver|].
      * apply NoDup_app. split_and!; [done| |apply NoDup_singleton]. intros k Hk ->%list_elem_of_singleton.
        apply Hreg in Hk. naive_solver.
      * intros k. rewrite !elem_of_app, !list_elem_of_singleton, Hreg. pose proof at_own. naive_solver.
    + rewrite lookup_insert_ne by done. by apply shared_elsewhere.
  - intros address svc owner. destruct (decide (address = address_of a)) as [->|Hne].
    + rewrite lookup_insert_eq. intros [= <-]. simpl. rewrite lookup_alter_eq.
      destruct (api !! svc_API ex) as [o|] eqn:Eo; [|done]. intros [= <-]. rewrite adopt_gateway, orb_true_iff.
      rewrite (sh_gateway _ _ _ H _ _ _ E Eo). split.
      * intros [(k & b & ? & ? & ?)|?]; [exists k, b|exists x, a]; set_solver.
      * intros (k & b & [Hk| ->%list_elem_of_singleton]%elem_of_app & Hb & Hg); [left; eauto|right; congruence].
    + rewrite lookup_insert_ne by done. intros Hs. rewrite lookup_alter_ne; [by apply (sh_gateway _ _ _ H address)|].
      intros Heq. destruct (sh_some _ _ _ H _ _ Hs) as (_ & Ho & Hr). apply Hr in Ho as [_ Ho]. rewrite <-Heq in Ho.
      apply Hreg in Hown as [_ Hown]. by apply Hne, (at_address_fun api0 _ _ (svc_API ex)).
Qed.
End Step.

Lemma shared_step api0 visited st x :
  is_Some (api0 !! x) -> x ∉ visited -> shared api0 visited st -> shared api0 (visited ++ [x]) (map_step st x).
Proof.
  intros [a Ha] Hx H. destruct st as [pm api]. unfold map_step.
  pose proof (sh_later _ _ _ H x Hx) as Hl. simpl in Hl. rewrite Hl, Ha. fold (address_of a).
  destruct (pm !! address_of a) as [ex|] eqn:E; [by apply shared_join|by apply shared_fresh].
Qed.

(** What [mapToGRPCPorts] returns, whatever the order of the map. *)
Lemma mapToGRPCPorts_shared `{R : MapRange} api :
  shared api (range "mapToGRPCPorts" (keys api)) (mapToGRPCPorts api).
Proof.
  unfold mapToGRPCPorts. apply fold_left_visited; [apply range_NoDup|apply shared_start|].
  intros visited b x Hx Hv Hb. apply shared_step; [|done|done].
  apply range_elem in Hx. by apply elem_of_dom.
Qed.

(** ** The parts and what they offer *)

Definition part_name (p : part) : string :=
  match p with EdgeDir => "edge" | Authorizer_ => "authorizer" | ConsoleService => "console" end.

Definition named (ps : gmap string part) : Prop := forall k p, ps !! k = Some p -> k = part_name p.

(** The service names are offered by one part each. *)
Lemma available_disjoint p q k : k ∈ AvailableServices p -> k ∈ AvailableServices q -> p = q.
Proof.
  intros Hp Hq. apply list_elem_of_In in Hp, Hq.
  destruct p, q; try done; exfalso; simpl in Hp, Hq; intuition; subst; discriminate.
Qed.

Lemma offered_spec ps k : offered ps k = true <-> exists n p, ps !! n = Some p /\ k ∈ AvailableServices p.
Proof.
  unfold offered. rewrite existsb_exists. setoid_rewrite Contains_true. split.
  - intros (p & Hp%list_elem_of_In & Hk). apply list_elem_of_fmap in Hp as ([n q] & -> & Hq).
    apply elem_of_map_to_list in Hq. eauto.
  - intros (n & p & Hp & Hk). exists p. split; [|done]. apply list_elem_of_In, list_elem_of_fmap.
    exists (n, p). split; [done|]. by apply elem_of_map_to_list.
Qed.

Section Parts.
Context `{R : MapRange}.

Lemma involved_spec reg d p :
  p ∈ involved reg d <-> (exists n, parts d !! n = Some p) /\ exists k, k ∈ AvailableServices p /\ k ∈ reg.
Proof.
  unfold involved. rewrite list_elem_of_filter, list_elem_of_omap, existsb_exists.
  setoid_rewrite Contains_true. setoid_rewrite range_elem. setoid_rewrite <-list_elem_of_In. split.
  - intros [(k & H1 & H2) (n & _ & Hn)]. eauto.
  - intros [[n Hn] (k & H1 & H2)]. split; [eauto|]. exists n. split; [|done]. apply elem_of_dom. eauto.
Qed.

Lemma involved_NoDup reg d : named (parts d) -> NoDup (involved reg d).
Proof.
  intros Hn. unfold involved. apply NoDup_filter.
  pose proof (range_NoDup "ConfigServices" (keys (parts d))) as Hr.
  induction Hr as [|k l Hk Hl IH]; simpl; [constructor|].
  destruct (parts d !! k) as [p|] eqn:E; [|done]. constructor; [|done].
  rewrite list_elem_of_omap. intros (k' & Hk' & E'). apply Hk. by rewrite (Hn _ _ E), <-(Hn _ _ E').
Qed.

(** What a server registers for the services of its address. *)
Definition serves (reg : string -> Prop) (r : registration) : Prop :=
  match r with
  | (ModelServer, EdgeDir) => reg modelService
  | (ReaderServer, EdgeDir) | (AccessServer, EdgeDir) => reg readerService
  | (WriterServer, EdgeDir) => reg writerService
  | (ImporterServer, EdgeDir) => reg importerService
  | (ExporterServer, EdgeDir) => reg exporterService
  | (AccessServer, Authorizer_) => reg authorizerService /\ ~ reg readerService
  | _ => False
  end.
Lemma serves_ext P Q r : (forall k, P k <-> Q k) -> serves P r <-> serves Q r.
Proof. intros H. destruct r as [[] []]; simpl; rewrite ?H; done. Qed.

Lemma elem_of_when {A} b (l : list A) x : x ∈ when b l <-> b = true /\ x ∈ l.
Proof. destruct b; simpl; set_solver. Qed.

Lemma grpc_registrations_spec p reg r :
  r ∈ GetGRPCRegistrations p reg <->
  r.2 = p /\ match p with
             | EdgeDir => serves (.∈ reg) r
             | Authorizer_ => r.1 = AccessServer /\ readerService ∉ reg
             | ConsoleService => False
             end.
Proof.
  destruct r as [g q], p; simpl; unfold servesAccessAPI;
    rewrite ?elem_of_app, ?elem_of_when, ?negb_true_iff, ?Contains_true, ?Contains_false;
    rewrite ?elem_of_cons, ?elem_of_nil;
    destruct g, q; simpl; naive_solver.
Qed.

Lemma grpc_registrations_NoDup p reg : NoDup (GetGRPCRegistrations p reg).*1.
Proof.
  destruct p; simpl; [|unfold servesAccessAPI|constructor].
  - destruct (Contains reg modelService), (Contains reg readerService), (Contains reg writerService),
      (Contains reg importerService), (Contains reg exporterService); simpl; apply (bool_decide_unpack _); vm_compute; exact I.
  - destruct (Contains reg readerService); simpl; [constructor|apply NoDup_singleton].
Qed.

Lemma elem_of_flat_map {A B} (f : A -> list B) l y : y ∈ flat_map f l <-> exists x, x ∈ l /\ y ∈ f x.
Proof. rewrite list_elem_of_In, in_flat_map. by setoid_rewrite list_elem_of_In. Qed.

Lemma NoDup_flat_map {A B C} (f : A -> list B) (g : B -> C) l :
  NoDup l -> (forall x, x ∈ l -> NoDup (g <$> f x)) ->
  (forall x y c, x ∈ l -> y ∈ l -> c ∈ g <$> f x -> c ∈ g <$> f y -> x = y) -> NoDup (g <$> flat_map f l).
Proof.
  induction 1 as [|x l Hx Hl IH]; intros H1 H2; simpl; [constructor|]. rewrite fmap_app. apply NoDup_app.
  split_and!; [apply H1; left| |apply IH; [intros; apply H1; by right|intros; eapply H2; eauto; by right]].
  intros c Hc Hc'. apply list_elem_of_fmap in Hc' as (b & -> & Hb). apply elem_of_flat_map in Hb as (y & Hy & Hb).
  apply Hx. rewrite (H2 x y (g b)); [done|left|by right|done|]. by apply list_elem_of_fmap_2.
Qed.

Context (reg : list string) (d : daemon) (Hnamed : named (parts d)).
Context (Hoff : forall k, k ∈ reg -> offered (parts d) k = true).

Definition grpcs_of : list registration := flat_map (fun p => GetGRPCRegistrations p reg) (involved reg d).

Lemma involved_by k p : k ∈ reg -> k ∈ AvailableServices p -> p ∈ involved reg d.
Proof using Hoff.
  intros Hk Hp. apply involved_spec. destruct (proj1 (offered_spec _ _) (Hoff k Hk)) as (n & q & Hn & Hq).
  rewrite (available_disjoint p q k Hp Hq). eauto.
Qed.

Lemma grpcs_of_spec r : r ∈ grpcs_of <-> serves (.∈ reg) r.
Proof using Hoff.
  unfold grpcs_of. rewrite elem_of_flat_map. split.
  - intros (p & Hp & Hr). apply grpc_registrations_spec in Hr as [<- Hr]. destruct r as [g p]. simpl in *.
    destruct p; [done| |done]. destruct Hr as [-> Hr]. simpl. split; [|done].
    apply involved_spec in Hp as [_ (k & Hk & ?)]. apply list_elem_of_singleton in Hk as ->. done.
  - intros Hr. exists r.2. rewrite grpc_registrations_spec. destruct r as [g p]. simpl.
    assert (Hin : forall k, k ∈ AvailableServices p -> k ∈ reg -> p ∈ involved reg d) by (intros; by eapply involved_by).
    split; [|destruct g, p; naive_solver].
    destruct g, p; simpl in Hr; try done;
      (eapply Hin; [|first [exact Hr|exact (proj1 Hr)]]); apply list_elem_of_In; simpl; tauto.
Qed.

Lemma grpcs_of_NoDup : NoDup grpcs_of.*1.
Proof using Hnamed.
  apply NoDup_flat_map; [by apply involved_NoDup|intros; apply grpc_registrations_NoDup|].
  intros p q g _ _ Hp Hq. apply list_elem_of_fmap in Hp as (r1 & -> & H1), Hq as (r2 & E & H2).
  apply grpc_registrations_spec in H1 as [<- H1], H2 as [<- H2].
  destruct r1 as [g1 p1], r2 as [g2 p2]. simpl in *. subst g2. destruct p1, p2, g1; naive_solver.
Qed.
End Parts.

(** ** What the set-up of an address leaves alone *)

Definition shape (a : API) : list string * GRPC_API * string * string * TLSConfig :=
  (Needs a, api_GRPC a, gw_FQDN (api_Gateway a), gw_ListenAddress (api_Gateway a), gw_Certs (api_Gateway a)).
Definition same_shape (m m' : gmap string API) : Prop := forall k, shape <$> m !! k = shape <$> m' !! k.

(** The parts, the servers and the services up to the options of their gateways. *)
Record frame (d0 d : daemon) : Prop := {
  fr_parts : parts d = parts d0;
  fr_servers : Servers d = Servers d0;
  fr_services : same_shape (services_of d) (services_of d0);
  fr_auth : cfg_Auth (d_config d) = cfg_Auth (d_config d0);
  fr_remote : DirectoryResolver_Address (d_config d) = DirectoryResolver_Address (d_config d0) }.

Lemma frame_refl d : frame d d.
Proof. by split. Qed.
Lemma frame_trans d1 d2 d3 : frame d1 d2 -> frame d2 d3 -> frame d1 d3.
Proof.
  intros H1 H2. split; [etrans; [apply H2|apply H1]..| |etrans; [apply H2|apply H1]|etrans; [apply H2|apply H1]].
  intros k. etrans; [apply (fr_services _ _ H2)|apply (fr_services _ _ H1)].
Qed.

Lemma frame_alter d f k : (forall a, shape (f a) = shape a) -> frame d (on_services (alter f k) d).
Proof.
  intros Hf. split; try done. intros j. unfold services_of, on_services, on_config. simpl.
  destruct (decide (k = j)) as [->|]; [|by rewrite lookup_alter_ne].
  rewrite lookup_alter_eq. destruct (cfg_Services _ !! j); [|done]. simpl. by rewrite Hf.
Qed.
Lemma frame_insert d k a a' : services_of d !! k = Some a -> shape a' = shape a -> frame d (on_services (<[k := a']>) d).
Proof.
  intros Ha Hs. split; try done. intros j. unfold services_of, on_services, on_config in *. simpl.
  destruct (decide (k = j)) as [->|]; [|by rewrite lookup_insert_ne].
  rewrite lookup_insert_eq, Ha. simpl. by rewrite Hs.
Qed.
Lemma frame_well_known d w : frame d (set_well_known w d).
Proof. by split. Qed.
#[export] Hint Resolve frame_refl frame_trans frame_well_known : dirdb.

Section Setup.
Context `{R : MapRange} `{En : Env} `{T : TLS}.

(** Code that changes nothing but the frame. *)
Definition framed {A} (m : D A) : Prop := forall d0, triple (frame d0) m (fun _ => frame d0).

Lemma framed_ret {A} (a : A) : framed (dret a).
Proof. by intros d0 d. Qed.
Lemma framed_fail {A} e : framed (@dfail A e).
Proof. by intros d0 d. Qed.
Lemma framed_guard o : framed (dguard o).
Proof. destruct o; by intros d0 d. Qed.
Lemma framed_get : framed dget.
Proof. by intros d0 d. Qed.
Lemma framed_modify f : (forall d, frame d (f d)) -> framed (modify f).
Proof. intros Hf d0 d Hd. simpl. eauto using frame_trans. Qed.
Lemma framed_bind {A B} (m : D A) (f : A -> D B) : framed m -> (forall a, framed (f a)) -> framed (dbind m f).
Proof. intros Hm Hf d0. eapply triple_bind; [apply Hm|]. intros a. apply Hf. Qed.
Lemma framed_for {A} (f : A -> D unit) l : (forall a, framed (f a)) -> framed (dfor f l).
Proof. intros Hf. induction l; simpl; auto using framed_ret, framed_bind. Qed.

Lemma framed_service_url name : framed (service_url name).
Proof.
  intros d0 d Hd. unfold service_url, dbind, dget. destruct (services_of d !! name) as [a|] eqn:E; [|done].
  unfold getGatewayAddress. destruct (nonempty _); [done|]. simpl.
  eapply frame_trans; [exact Hd|]. by eapply frame_insert.
Qed.

Lemma framed_PrepareConfig : framed PrepareConfig.
Proof.
  unfold PrepareConfig. apply framed_bind; [apply framed_get|]. intros d.
  repeat (apply framed_bind; [apply framed_service_url|intros ?]). apply framed_ret.
Qed.

Lemma framed_prepareGateway owner config hs : framed (prepareGateway owner config hs).
Proof.
  unfold prepareGateway. apply framed_bind; [apply framed_modify; intros d; by apply frame_alter|]. intros _.
  apply framed_bind; [destruct (HasCA _); auto using framed_ret, framed_guard|]. intros _.
  apply framed_bind; [apply framed_for; auto using framed_guard|]. intros _.
  apply framed_bind; [|auto using framed_ret]. destruct (gw_HTTP _); auto using framed_ret, framed_guard.
Qed.

(** Strengthen a frame by a fact on the result. *)
Lemma framed_and {A} (m : D A) (phi : A -> Prop) d0 :
  framed m -> (forall d a d', m d = Returned (Ok a, d') -> phi a) -> triple (frame d0) m (fun a d => phi a /\ frame d0 d).
Proof.
  intros Hm Hphi d Hd. specialize (Hm d0 d Hd). destruct (m d) as [[[a|e] d1]|w] eqn:E; eauto.
Qed.

(** A gateway without a plain handler other than the well-known document. *)
Definition plain (s : server) : Prop :=
  exists g, srv_gateway s = Some g /\ Forall (fun e => e.1 = AuthZENConfiguration) (mux g).

(** With a gateway address and services that differ, a server and its gateway are created. *)
Lemma CreateService_triple d0 owner config grpcs hs c :
  NoDup grpcs.*1 -> has_gateway config = true ->
  triple (frame d0) (CreateService owner config grpcs hs c)
    (fun s d => (registrations s = grpcs /\ plain s) /\ frame d0 d).
Proof.
  intros Hnd Hg. unfold CreateService, has_gateway in *. apply framed_and.
  - apply framed_bind; [unfold prepareGrpcServer; destruct (HasCert _); auto using framed_ret, framed_guard|]. intros _.
    apply framed_bind; [unfold register; rewrite bool_decide_true by done; apply framed_ret|]. intros _.
    apply framed_bind; [apply framed_guard|]. intros _. rewrite Hg.
    apply framed_bind; [|auto using framed_ret].
    apply framed_bind; auto using framed_prepareGateway, framed_ret.
  - intros d s d' H. rewrite Hg in H.
    repeat (apply dbind_ok in H as (? & ? & ? & H)). injection H as <- _. simpl. split; [done|].
    match goal with H : dbind (prepareGateway _ _ _) _ _ = _ |- _ =>
      apply dbind_ok in H as (g & ? & Hg' & Hr); injection Hr as <- _ end.
    exists g. split; [done|]. unfold prepareGateway in Hg'. repeat (apply dbind_ok in Hg' as (? & ? & ? & Hg')).
    injection Hg' as <- _. constructor.
Qed.

Lemma mount_well_known_triple d0 address s :
  plain s ->
  triple (frame d0) (mount_well_known address s)
    (fun s' d => (registrations s' = registrations s /\ plain s') /\ frame d0 d).
Proof.
  intros (g & Hg & Hm) d Hd. unfold mount_well_known, dbind, dget.
  destruct (services_of d !! readerService) as [a|]; [|by split; [split; [|exists g]|]].
  rewrite Hg. unfold SetWellKnownConfigHandler. destruct (endpoint a); [|done].
  unfold dbind, dget. destruct (well_known d); simpl; (split; [split; [done|]|]); eauto with dirdb.
  - eexists. split; [done|]. done.
  - eexists. split; [done|]. simpl. apply Forall_app. split; [done|]. by constructor.
Qed.

(** The key that the console's configuration holds: one of the keys that callers must present. *)
Definition console_key (c : Config) : string :=
  match cfg_Services c !! authorizerService with
  | Some _ => default "" (head (range "PrepareConfig" (keys (APIKeys (cfg_Auth c)))))
  | None => ""
  end.

Lemma console_key_ext c c' :
  is_Some (cfg_Services c !! authorizerService) <-> is_Some (cfg_Services c' !! authorizerService) ->
  cfg_Auth c = cfg_Auth c' -> console_key c = console_key c'.
Proof.
  unfold console_key. intros H ->.
  destruct (cfg_Services c !! authorizerService), (cfg_Services c' !! authorizerService); try done; exfalso.
  - apply (is_Some_None (A := API)). apply H. eauto.
  - apply (is_Some_None (A := API)). apply H. eauto.
Qed.
Lemma same_shape_some m m' k : same_shape m m' -> is_Some (m !! k) <-> is_Some (m' !! k).
Proof. intros H. rewrite <-(fmap_is_Some shape (m !! k)), <-(fmap_is_Some shape (m' !! k)), (H k). done. Qed.
Lemma frame_key d0 d : frame d0 d -> console_key (d_config d) = console_key (d_config d0).
Proof. intros [_ _ Hs Ha _]. apply console_key_ext; [by apply same_shape_some|done]. Qed.

Lemma PrepareConfig_key d c d' : PrepareConfig d = Returned (Ok c, d') -> AuthorizerAPIKey c = console_key (d_config d).
Proof.
  intros H. unfold PrepareConfig in H. apply dbind_ok in H as (d1 & d2 & E & H). injection E as <- <-.
  repeat (apply dbind_ok in H as (? & ? & _ & H)). injection H as <- _. done.
Qed.

(** A gateway that answers every request for the authorizers with the key. *)
Definition hands_out (key : string) (g : gateway) : Prop :=
  forall h, exists url, http_get g "/api/v1/authorizers" h = AuthorizersResponse "authorizer" url key.

Lemma hands_out_mounted c auth g :
  Forall (fun e => e.1 = AuthZENConfiguration) (mux g) ->
  hands_out (AuthorizerAPIKey c)
    (mount "/api/v1/authorizers" (AuthorizersHandler c) (mount "/api/v2/config" (ConfigHandlerV2 c auth) g)).
Proof.
  intros Hm h. exists (AuthorizerServiceURL c). unfold http_get. simpl. rewrite <-app_assoc.
  induction Hm as [|[p r] l Hp Hl IH]; [done|]. simpl in *. by rewrite Hp.
Qed.

Lemma mount_console_triple d0 reg s :
  plain s ->
  triple (frame d0) (mount_console reg s)
    (fun s' d => (registrations s' = registrations s /\ is_Some (srv_gateway s') /\
                  (consoleService ∈ reg -> is_Some (parts d0 !! consoleService) ->
                   exists g, srv_gateway s' = Some g /\ hands_out (console_key (d_config d0)) g)) /\ frame d0 d).
Proof.
  intros (g & Hg & Hm) d Hd. unfold mount_console. unfold dbind at 1, dget. rewrite (fr_parts _ _ Hd).
  destruct (parts d0 !! consoleService); [|rewrite ?Hg; split; [split_and!; [done|eauto|by intros _ []]|done]].
  rewrite Hg. destruct (Contains reg consoleService) eqn:Ec.
  2: { apply Contains_false in Ec. split; [split_and!; [done|eauto|done]|done]. }
  pose proof (framed_PrepareConfig d0 d Hd) as Hp. pose proof (PrepareConfig_key d) as Hk. unfold dbind.
  destruct (PrepareConfig d) as [[[c|e] d1]|w]; [|done|done]. specialize (Hk c d1 eq_refl). simpl.
  split; [split_and!; [done|eauto|]|done]. intros _ _. eexists. split; [done|].
  rewrite <-(frame_key d0 d Hd), <-Hk. by apply hands_out_mounted.
Qed.

(** ** The loop over the addresses *)

(** What a server must be for the services of its address. *)
Definition right_server (key : string) (svc : services) (s : server) : Prop :=
  (consoleService ∈ registeredServices svc -> exists g, srv_gateway s = Some g /\ hands_out key g) /\
  (forall r, r ∈ registrations s <-> serves (.∈ registeredServices svc) r) /\
  NoDup (registrations s).*1 /\ is_Some (srv_gateway s).

(** The service that the server is created from has a gateway. *)
Definition gated (d0 : daemon) (svc : services) : Prop :=
  exists owner, services_of d0 !! svc_API svc = Some owner /\ has_gateway owner = true.

Record looped (d0 : daemon) (pm : gmap string services) (visited : list string) (d : daemon) : Prop := {
  lp_parts : parts d = parts d0;
  lp_services : same_shape (services_of d) (services_of d0);
  lp_auth : cfg_Auth (d_config d) = cfg_Auth (d_config d0);
  lp_server address s : Servers d !! address = Some s ->
    exists svc, pm !! address = Some svc /\ right_server (console_key (d_config d0)) svc s /\ gated d0 svc;
  lp_all address : address ∈ visited -> is_Some (pm !! address) -> is_Some (Servers d !! address) }.

Lemma looped_frame d0 pm visited d d' : looped d0 pm visited d -> frame d d' -> looped d0 pm visited d'.
Proof.
  intros [H1 H2 Ha H3 H4] [F1 F2 F3 F4 F5]. split; rewrite ?F1, ?F2, ?F4; try done.
  intros k. etrans; [apply F3|apply H2].
Qed.

Lemma shape_address a b : shape a = shape b -> address_of a = address_of b /\ has_gateway a = has_gateway b.
Proof. unfold shape, address_of, has_gateway. intros [= _ Hg _ Hl _]. by rewrite Hg, Hl. Qed.

Section Address.
Context (d0 : daemon) (pm : gmap string services) (visited : list string) (address : string) (svc : services).
Context (Hnamed : named (parts d0)).
Context (Hsvc : pm !! address = Some svc).
Context (Howner : exists a, services_of d0 !! svc_API svc = Some a /\ address_of a = address).
Context (Hne : registeredServices svc <> []).
Context (Hoff : forall k, k ∈ registeredServices svc -> offered (parts d0) k = true).

Lemma involved_nonempty d : parts d = parts d0 -> involved (registeredServices svc) d <> [].
Proof using Hne Hoff.
  intros Hp. destruct (registeredServices svc) as [|k reg] eqn:E; [done|].
  destruct (proj1 (offered_spec _ _) (Hoff k ltac:(left))) as (n & p & Hn & Hk).
  assert (Hin : p ∈ involved (k :: reg) d) by (apply involved_spec; rewrite Hp; split; [eauto|]; exists k; split; [done|left]).
  intros Hnil. rewrite Hnil in Hin. by apply not_elem_of_nil in Hin.
Qed.

(** The check of the gateway's port: an address without one is refused. *)
Lemma port_check ps addr (e : err -> err) d d' :
  ps <> [] ->
  dfor (fun _ : part => match PortFromAddress addr with Ok _ => dret tt | Fail er => dfail (e er) end) ps d
    = Returned (Ok tt, d') -> d' = d /\ nonempty addr = true.
Proof.
  intros Hps. destruct (PortFromAddress addr) as [port|er] eqn:E.
  - intros H. split.
    + clear Hps. induction ps as [|p ps IH]; [by injection H|by apply IH].
    + destruct addr; [discriminate E|done].
  - destruct ps; [done|discriminate].
Qed.

(** Creating the server and mounting its handlers. *)
Lemma create_and_mount d a :
  parts d = parts d0 -> console_key (d_config d) = console_key (d_config d0) ->
  address_of a = address -> has_gateway a = true ->
  let reg := registeredServices svc in
  triple (frame d) (
      let? s := CreateService (svc_API svc) a (flat_map (fun p => GetGRPCRegistrations p reg) (involved reg d))
                  (flat_map (fun p => GetGatewayRegistration p reg) (involved reg d)) (last (involved reg d)) in
      let? s := mount_well_known address s in
      let? s := mount_console reg s in
      AddGRPCServer (grpc_ListenAddress (api_GRPC a)) s)
    (fun _ d' => exists s d1, frame d d1 /\ right_server (console_key (d_config d0)) svc s /\ d' = set_Servers (<[address := s]> (Servers d1)) d1).
Proof using Hnamed Hoff.
  intros Hp Hkey Haddr Hport reg. fold (grpcs_of reg d).
  assert (Hoff' : forall k, k ∈ reg -> offered (parts d) k = true) by (rewrite Hp; exact Hoff).
  eapply triple_bind; [apply CreateService_triple; [apply grpcs_of_NoDup; by rewrite Hp|exact Hport]|].
  intros s1. apply triple_pure. intros [Hr1 Hg1]. eapply triple_bind; [by apply mount_well_known_triple|].
  intros s2. apply triple_pure. intros [Hr2 Hg2]. eapply triple_bind; [by apply mount_console_triple|].
  intros s3. apply triple_pure. intros (Hr3 & Hg3 & Hc3).
  eapply triple_weaken; [apply triple_modify|intros d1 H; exact H|]. intros _ d' (d1 & Hd1 & ->).
  exists s3, d1. split_and!; [done| |by rewrite <-Haddr].
  unfold right_server. rewrite Hr3, Hr2, Hr1. split_and!; [|intros r; by apply grpcs_of_spec|apply grpcs_of_NoDup; by rewrite Hp|done].
  intros Hk. rewrite <-Hkey. apply Hc3; [done|]. rewrite Hp.
  destruct (proj1 (offered_spec _ _) (Hoff _ Hk)) as (n & p & Hn & Hpk).
  rewrite (available_disjoint p ConsoleService consoleService Hpk ltac:(left)) in Hn.
  rewrite (Hnamed _ _ Hn) in Hn. eauto.
Qed.

Lemma looped_add d d1 s :
  looped d0 pm visited d -> frame d d1 -> right_server (console_key (d_config d0)) svc s -> gated d0 svc ->
  looped d0 pm (visited ++ [address]) (set_Servers (<[address := s]> (Servers d1)) d1).
Proof using Hsvc.
  intros Hd Hf Hs Hg. pose proof (looped_frame _ _ _ _ _ Hd Hf) as [L1 L2 La L3 L4]. split; simpl; [done|done|done| |].
  - intros x s'. destruct (decide (x = address)) as [->|].
    + rewrite lookup_insert_eq. intros [= <-]. eauto.
    + rewrite lookup_insert_ne by done. apply L3.
  - intros x [Hx| ->%list_elem_of_singleton]%elem_of_app Hpm.
    + destruct (decide (x = address)) as [->|]; [rewrite lookup_insert_eq; eauto|].
      rewrite lookup_insert_ne by done. by apply L4.
    + rewrite lookup_insert_eq. eauto.
Qed.

Lemma configure_address_triple :
  triple (looped d0 pm visited) (configure_address address svc) (fun _ => looped d0 pm (visited ++ [address])).
Proof using Hnamed Hsvc Howner Hne Hoff.
  intros d Hd. unfold configure_address. unfold dbind at 1, dget. cbv iota beta.
  destruct Howner as (a0 & Ha0 & Haddr). pose proof (lp_services _ _ _ _ Hd (svc_API svc)) as Hsh.
  rewrite Ha0 in Hsh. destruct (services_of d !! svc_API svc) as [a|]; [|discriminate Hsh].
  apply Some_inj, shape_address in Hsh as [Hsa Hsg]. cbv zeta.
  pose proof (lp_parts _ _ _ _ Hd) as Hp. unfold dbind at 1.
  match goal with |- context [dfor ?f ?l d] => destruct (dfor f l d) as [[[[]|e] d1]|w] eqn:E end; [|done|].
  2: { exfalso. clear -E. induction (involved (registeredServices svc) d) as [|p ps IH]; [done|].
       simpl in E. destruct (PortFromAddress _); [by apply IH|discriminate E]. }
  apply (port_check _ _ (fun e => _)) in E as [-> Hport]; [|by apply involved_nonempty].
  assert (Hkey : console_key (d_config d) = console_key (d_config d0)).
  { apply console_key_ext; [apply same_shape_some, (lp_services _ _ _ _ Hd)|apply (lp_auth _ _ _ _ Hd)]. }
  pose proof (create_and_mount d a Hp Hkey ltac:(congruence) Hport d (frame_refl d)) as Htri. cbv zeta in Htri.
  match type of Htri with match ?m d with _ => _ end => destruct (m d) as [[[[]|e] d2]|w] end; [|done|done].
  destruct Htri as (s & d1 & Hf & Hs & ->). apply (looped_add d); try done.
  exists a0. split; [done|]. rewrite <-Hsg. exact Hport.
Qed.
End Address.

(** ** From the configuration to the servers *)

(** A daemon as [BuildApp] makes it. *)
Definition fresh (d : daemon) : Prop := parts d = ∅ /\ Servers d = ∅.

(** The reader of the configuration is not the directory that the authorizer resolves users in. *)
Definition remote_reader (c : Config) : Prop :=
  exists a, cfg_Services c !! readerService = Some a /\ address_of a <> DirectoryResolver_Address c.

Definition same_config (d d' : daemon) : Prop := d_config d' = d_config d /\ Servers d' = Servers d.

Lemma setupHealthAndMetrics_triple d0 :
  triple (fun d => d = d0) setupHealthAndMetrics (fun _ d => same_config d0 d /\ parts d = parts d0).
Proof.
  intros d ->. unfold setupHealthAndMetrics, dbind, dget, dguard. destruct (nonempty _); [|done].
  by destruct (net_Listen _).
Qed.

(** The parts that the configuration asks for. *)
Definition with_part (b : bool) (p : part) (ps : gmap string part) : gmap string part :=
  if b then <[part_name p := p]> ps else ps.
Definition configured (c : Config) (k : string) : bool := bool_decide (is_Some (cfg_Services c !! k)).
Definition parts_for (c : Config) : gmap string part :=
  with_part (configured c consoleService) ConsoleService
    (with_part (configured c authorizerService) Authorizer_ (with_part (nonempty (Edge_DBPath c)) EdgeDir ∅)).

Lemma with_part_named b p ps : named ps -> named (with_part b p ps).
Proof.
  intros H. destruct b; [|done]. intros k q. simpl. rewrite lookup_insert_Some. naive_solver.
Qed.
Lemma parts_for_named c : named (parts_for c).
Proof. unfold parts_for. by repeat apply with_part_named. Qed.

Lemma parts_for_edge c : nonempty (Edge_DBPath c) = true -> parts_for c !! "edge" = Some EdgeDir.
Proof.
  unfold parts_for. intros ->. unfold with_part. destruct (configured c consoleService), (configured c authorizerService);
    rewrite ?(lookup_insert_ne _ "console"), ?(lookup_insert_ne _ "authorizer") by done; apply lookup_insert_eq.
Qed.
Lemma parts_for_no_edge c : nonempty (Edge_DBPath c) = false -> parts_for c !! "edge" = None.
Proof.
  unfold parts_for. intros ->. unfold with_part. destruct (configured c consoleService), (configured c authorizerService);
    rewrite ?(lookup_insert_ne _ "console"), ?(lookup_insert_ne _ "authorizer") by done; apply lookup_empty.
Qed.

Lemma prepareServices_triple d0 :
  parts d0 = ∅ ->
  triple (fun d => d = d0) prepareServices (fun _ d => same_config d0 d /\ parts d = parts_for (d_config d0)).
Proof.
  intros Hp d ->. unfold prepareServices, dguard, parts_for, configured, services_of.
  destruct adl_ConfigFromPlugins; [done|]. unfold dbind, dret, dget.
  destruct (cfg_Services (d_config d0) !! consoleService), (cfg_Services (d_config d0) !! authorizerService);
    (destruct (nonempty (Edge_DBPath (d_config d0))); [destruct eds_New; [done|]|]);
    try (destruct (HasCert _); [destruct (ServerCredentials _); [done|]|]; (destruct impl_NewAuthorizerServer; [done|]));
    (split; [done|]); simpl; by rewrite Hp.
Qed.

(** The services that remain: without the directory's where the reader is remote. *)
Definition remaining (c : Config) (k : string) : option API :=
  match cfg_Services c !! readerService with
  | Some a => if String.eqb (address_of a) (DirectoryResolver_Address c) then cfg_Services c !! k
              else if Contains (AvailableServices EdgeDir) k then None else cfg_Services c !! k
  | None => cfg_Services c !! k
  end.

Lemma foldr_delete_lookup {A} (m : gmap string A) l k :
  foldr delete m l !! k = if Contains l k then None else m !! k.
Proof.
  induction l as [|x l IH]; simpl; [done|]. destruct (String.eqb_spec k x) as [->|Hne]; simpl.
  - apply lookup_delete_eq.
  - by rewrite lookup_delete_ne.
Qed.

Lemma disable_local_triple d0 :
  named (parts d0) -> (remote_reader (d_config d0) -> parts d0 !! "edge" = Some EdgeDir) ->
  triple (fun d => d = d0) disable_local
    (fun _ d => (Servers d = Servers d0 /\ cfg_Auth (d_config d) = cfg_Auth (d_config d0)) /\ named (parts d) /\
                forall k, services_of d !! k = remaining (d_config d0) k).
Proof.
  intros Hn He d ->. unfold disable_local, remaining, services_of, address_of. unfold dbind at 1, dget.
  destruct (cfg_Services (d_config d0) !! readerService) as [a|] eqn:E; [|done].
  destruct (String.eqb_spec (grpc_ListenAddress (api_GRPC a)) (DirectoryResolver_Address (d_config d0))) as [|Hne]; [done|].
  rewrite He by (by exists a). split_and!; [done|done| |].
  - intros k p. simpl. rewrite lookup_delete_Some. intros [_ ?]. by apply Hn.
  - intros k. exact (foldr_delete_lookup (cfg_Services (d_config d0)) (AvailableServices EdgeDir) k).
Qed.

(** A configuration that is accepted: every service is offered by a part. *)
Lemma validateConfig_triple d0 :
  named (parts d0) -> (remote_reader (d_config d0) -> parts d0 !! "edge" = Some EdgeDir) ->
  triple (fun d => d = d0) validateConfig
    (fun _ d => (Servers d = Servers d0 /\ cfg_Auth (d_config d) = cfg_Auth (d_config d0)) /\ named (parts d) /\
                (forall k, services_of d !! k = remaining (d_config d0) k) /\
                forall k, is_Some (services_of d !! k) -> offered (parts d) k = true).
Proof.
  intros Hn He. unfold validateConfig. eapply triple_bind; [by apply disable_local_triple|]. intros _ d Hd.
  unfold dbind, dget. destruct (_ && _ && _); [done|].
  destruct (filter _ _) as [|k l] eqn:E; [|done]. destruct Hd as ((H1 & Ha) & H2 & H3). split_and!; [done|done|done|done|].
  intros k Hk. apply not_false_iff_true. intros Hoff.
  assert (Hin : k ∈ filter (fun key => offered (parts d) key = false) (range "validateConfig" (keys (services_of d)))).
  { apply list_elem_of_filter. split; [done|]. apply range_elem. by apply elem_of_dom. }
  rewrite E in Hin. by apply not_elem_of_nil in Hin.
Qed.

(** What [ConfigServices] achieves: the servers are those of the addresses of the services that
    remain. *)
Definition served (c : Config) (d : daemon) : Prop :=
  (forall k, visible <$> services_of d !! k = visible <$> remaining c k) /\
  forall address,
    (is_Some (Servers d !! address) <-> exists k, at_address (services_of d) address k) /\
    forall s, Servers d !! address = Some s ->
      (exists k a, remaining c k = Some a /\ address_of a = address /\ has_gateway a = true) /\
      is_Some (srv_gateway s) /\ NoDup (registrations s).*1 /\
      forall r, r ∈ registrations s <-> serves (at_address (services_of d) address) r.

(** The console's gateway answers with a key. *)
Definition console_open (c : Config) (d : daemon) : Prop :=
  forall address s, Servers d !! address = Some s -> at_address (services_of d) address consoleService ->
    exists g, srv_gateway s = Some g /\ hands_out (console_key c) g.
Definition wired (c : Config) (d : daemon) : Prop := served c d /\ console_open c d.

Lemma at_address_visible m m' address k :
  (forall j, visible <$> m !! j = visible <$> m' !! j) -> at_address m address k <-> at_address m' address k.
Proof.
  intros H. specialize (H k). unfold at_address, address_of. split; intros (a & Ha & <-); rewrite Ha in H; simpl in H.
  - symmetry in H. apply fmap_Some in H as (b & Hb & Hv). exists b. split; [done|]. unfold visible in Hv. congruence.
  - apply fmap_Some in H as (b & Hb & Hv). exists b. split; [done|]. unfold visible in Hv. congruence.
Qed.

(** The loop over the addresses of services that are all offered. *)
Lemma addresses_triple d :
  Servers d = ∅ -> named (parts d) -> (forall k, is_Some (services_of d !! k) -> offered (parts d) k = true) ->
  let '(pm, api) := mapToGRPCPorts (services_of d) in
  let d1 := on_services (fun _ => api) d in
  triple (fun d' => d' = d1)
    (dfor (fun address => match pm !! address with Some svc => configure_address address svc | None => dret tt end)
       (range "serviceMap" (keys pm)))
    (fun _ => looped d1 pm (range "serviceMap" (keys pm))).
Proof.
  intros Hs Hn Hoff. pose proof (mapToGRPCPorts_shared (services_of d)) as Hsh.
  destruct (mapToGRPCPorts (services_of d)) as [pm api]. cbv zeta. set (d1 := on_services (fun _ => api) d).
  eapply triple_weaken; [apply (triple_for (looped d1 pm))| |by intros].
  - intros visited address Hin. apply range_elem, elem_of_dom in Hin as [svc Hsvc]. rewrite Hsvc.
    destruct (sh_some _ _ _ Hsh _ _ Hsvc) as (Hnd & Hown & Hreg).
    apply configure_address_triple; [exact Hn|exact Hsvc| | |].
    + apply Hreg in Hown as [_ Hown]. by apply (at_address_visible api _ _ _ (sh_grpc _ _ _ Hsh)).
    + intros Hnil. rewrite Hnil in Hown. by apply not_elem_of_nil in Hown.
    + intros k Hk. apply Hoff. apply Hreg in Hk as [_ (a & Ha & _)]. eauto.
  - intros d' ->. split; [done|done|done| |by intros ? ?%not_elem_of_nil].
    intros address s. change (Servers d1) with (Servers d). rewrite Hs, lookup_empty. done.
Qed.

Lemma looped_wired c d d' pm api :
  (forall k, services_of d !! k = remaining c k) -> cfg_Auth (d_config d) = cfg_Auth c ->
  shared (services_of d) (range "mapToGRPCPorts" (keys (services_of d))) (pm, api) ->
  looped (on_services (fun _ => api) d) pm (range "serviceMap" (keys pm)) d' -> wired c d'.
Proof.
  intros Hrem Hauth Hsh [L1 L2 La L3 L4].
  assert (Hkey : console_key (d_config (on_services (fun _ => api) d)) = console_key c).
  { apply console_key_ext; [|done]. simpl. pose proof (sh_grpc _ _ _ Hsh authorizerService) as Hk. simpl in Hk.
    rewrite <-(fmap_is_Some visible), Hk, fmap_is_Some, Hrem. unfold remaining.
    destruct (cfg_Services c !! readerService); [|done]. by destruct (String.eqb _ _). }
  assert (Hvis : forall k, visible <$> services_of d' !! k = visible <$> services_of d !! k).
  { intros k. specialize (L2 k). rewrite <-(sh_grpc _ _ _ Hsh k). simpl in *.
    change (services_of (on_services (fun _ => api) d)) with api in L2.
    destruct (services_of d' !! k), (api !! k); simpl in *; try done. unfold shape, visible in *. congruence. }
  assert (Hall : forall address k, at_address (services_of d') address k ->
    exists svc, pm !! address = Some svc /\ forall j, j ∈ registeredServices svc <-> at_address (services_of d') address j).
  { intros address k Hk. apply (at_address_visible _ _ _ _ Hvis) in Hk.
    assert (Hin : forall j, at_address (services_of d) address j -> j ∈ range "mapToGRPCPorts" (keys (services_of d))).
    { intros j (a & Ha & _). apply range_elem, elem_of_dom. eauto. }
    destruct (pm !! address) as [svc|] eqn:E; [|by destruct (sh_none _ _ _ Hsh address E k (Hin k Hk))].
    exists svc. split; [done|]. destruct (sh_some _ _ _ Hsh _ _ E) as (_ & _ & Hreg). intros j.
    rewrite Hreg, (at_address_visible _ _ _ _ Hvis). naive_solver. }
  assert (Hserver : forall address s, Servers d' !! address = Some s -> exists svc,
    pm !! address = Some svc /\ right_server (console_key c) svc s /\ gated (on_services (fun _ => api) d) svc /\
    forall j, j ∈ registeredServices svc <-> at_address (services_of d') address j).
  { intros address s Hs. destruct (L3 _ _ Hs) as (svc & Hsvc & Hr & Hg). rewrite Hkey in Hr.
    destruct (sh_some _ _ _ Hsh _ _ Hsvc) as (_ & Hown & Hreg). apply Hreg in Hown as [_ Hown].
    destruct (Hall address (svc_API svc)) as (svc' & Hsvc' & Hj); [by apply (at_address_visible _ _ _ _ Hvis)|].
    rewrite Hsvc in Hsvc'. injection Hsvc' as <-. eauto. }
  split; [split; [intros k; by rewrite Hvis, Hrem|]; intros address; split; [split|]|].
  - intros [s Hs]. destruct (L3 _ _ Hs) as (svc & Hsvc & _).
    destruct (sh_some _ _ _ Hsh _ _ Hsvc) as (_ & Hown & Hreg). apply Hreg in Hown as [_ Hown].
    exists (svc_API svc). by apply (at_address_visible _ _ _ _ Hvis).
  - intros [k Hk]. destruct (Hall _ _ Hk) as (svc & Hsvc & _). apply L4; [|eauto]. apply range_elem, elem_of_dom. eauto.
  - intros s Hs. destruct (Hserver _ _ Hs) as (svc & Hsvc & (_ & Hr & Hnd & Hg) & (owner & Ho1 & Ho2) & Hj).
    split_and!; [|done|done|intros r; rewrite Hr; apply serves_ext, Hj].
    apply (sh_gateway _ _ _ Hsh address svc owner Hsvc Ho1) in Ho2 as (k & a & Hk & Ha & Hga).
    exists k, a. rewrite <-Hrem. split_and!; [done| |done].
    apply (sh_some _ _ _ Hsh _ _ Hsvc) in Hk as [_ (a' & Ha' & Hk)]. congruence.
  - intros address s Hs Hk. destruct (Hserver _ _ Hs) as (svc & _ & (Hc & _) & _ & Hj). by apply Hc, Hj.
Qed.

Lemma ConfigServices_triple d0 :
  fresh d0 -> (remote_reader (d_config d0) -> nonempty (Edge_DBPath (d_config d0)) = true) ->
  triple (fun d => d = d0) ConfigServices (fun _ => wired (d_config d0)).
Proof.
  intros [Hp Hs] Hr. unfold ConfigServices. eapply triple_bind; [apply setupHealthAndMetrics_triple|]. intros ?.
  apply (triple_bind _ _ _
    (fun _ d1 => d_config d1 = d_config d0 /\ Servers d1 = ∅ /\ parts d1 = parts_for (d_config d0))).
  { intros d [[Hc Hs1] Hp1]. pose proof (prepareServices_triple d ltac:(congruence) d eq_refl) as H.
    destruct (prepareServices d) as [[[[]|e] d1]|w]; [|exact I|done].
    destruct H as [[H1 H2] H3]. by rewrite H1, H2, H3, Hc, Hs1. }
  intros _. apply (triple_bind _ _ _ (fun _ d1 => (Servers d1 = ∅ /\ cfg_Auth (d_config d1) = cfg_Auth (d_config d0)) /\ named (parts d1) /\
      (forall k, services_of d1 !! k = remaining (d_config d0) k) /\
      (forall k, is_Some (services_of d1 !! k) -> offered (parts d1) k = true))).
  { intros d (Hc & Hs1 & Hp1). pose proof (validateConfig_triple d) as H. rewrite Hc, Hp1 in H.
    specialize (H (parts_for_named _) (fun h => parts_for_edge _ (Hr h)) d eq_refl).
    destruct (validateConfig d) as [[[[]|e] d1]|w]; [|exact I|done].
    destruct H as ((H1 & Ha) & H2 & H3 & H4). by rewrite H1, Ha. }
  intros _ d ((Hs1 & Ha1) & Hn & Hrem & Hoff). unfold dbind at 1, dget.
  pose proof (mapToGRPCPorts_shared (services_of d)) as Hsh. pose proof (addresses_triple d Hs1 Hn Hoff) as Ht.
  destruct (mapToGRPCPorts (services_of d)) as [pm api]. unfold dbind, modify.
  specialize (Ht _ eq_refl). destruct (dfor _ _ _) as [[[[]|e] d']|w]; [|exact I|done].
  by apply (looped_wired _ d d' pm api).
Qed.

(** Without a directory of its own, a daemon whose reader is remote panics. *)
Lemma remote_reader_dec c : remote_reader c \/ ~ remote_reader c.
Proof.
  unfold remote_reader. destruct (cfg_Services c !! readerService) as [a|]; [|right; naive_solver].
  destruct (decide (address_of a = DirectoryResolver_Address c)); [right|left]; naive_solver.
Qed.

Lemma no_directory_panics d :
  fresh d -> remote_reader (d_config d) -> nonempty (Edge_DBPath (d_config d)) = false ->
  match ConfigServices d with Returned (Ok _, _) => False | _ => True end.
Proof.
  intros [Hp Hs] Hr Hdb. unfold ConfigServices. unfold dbind at 1.
  pose proof (setupHealthAndMetrics_triple d d eq_refl) as H1.
  destruct (setupHealthAndMetrics d) as [[[[]|e] d1]|w]; [|done|done]. destruct H1 as [[Hc1 Hs1] Hp1].
  unfold dbind at 1. pose proof (prepareServices_triple d1 ltac:(congruence) d1 eq_refl) as H2.
  destruct (prepareServices d1) as [[[[]|e] d2]|w]; [|done|done]. destruct H2 as [[Hc2 Hs2] Hp2].
  unfold dbind at 1, validateConfig, disable_local. unfold dbind at 1 2, dget. unfold services_of.
  destruct Hr as (a & Ha & Hne). rewrite Hc2, Hc1, Ha. destruct (String.eqb_spec (grpc_ListenAddress (api_GRPC a))
    (DirectoryResolver_Address (d_config d))); [done|].
  rewrite Hp2, Hc1, parts_for_no_edge by done. exact I.
Qed.

Lemma ConfigServices_cases d :
  fresh d ->
  match ConfigServices d with
  | Returned (Ok _, d') => wired (d_config d) d'
  | Returned (Fail _, _) => True
  | Panicked _ => remote_reader (d_config d) /\ Edge_DBPath (d_config d) = ""
  end.
Proof.
  intros Hf. destruct (nonempty (Edge_DBPath (d_config d))) eqn:Hdb.
  { pose proof (ConfigServices_triple d Hf (fun _ => Hdb) d eq_refl) as Ht.
    by destruct (ConfigServices d) as [[[]]|]. }
  destruct (remote_reader_dec (d_config d)) as [Hr|Hr].
  - pose proof (no_directory_panics d Hf Hr Hdb) as Hn. destruct (ConfigServices d) as [[[]]|]; [done|done|].
    split; [done|]. unfold nonempty in Hdb. apply negb_false_iff in Hdb. by apply String.eqb_eq.
  - pose proof (ConfigServices_triple d Hf (fun h => False_ind _ (Hr h)) d eq_refl) as Ht.
    by destruct (ConfigServices d) as [[[]]|].
Qed.

(** C26: When the daemon has configured its services, whatever the order in which the maps were
    visited: there is a server at an address exactly when a service is configured there (the
    directory's services are dropped where the reader is remote); a server has a gateway, and some
    service of its address asked for it; what is registered on it is what the services of its address
    stand for, each once, and the access API is the directory's where the reader is there and the
    authorizer's where only the authorizer is. *)
Theorem config_services_exact d d' :
  fresh d -> ConfigServices d = Returned (Ok tt, d') -> served (d_config d) d'.
Proof.
  intros Hf H. pose proof (ConfigServices_cases d Hf) as Hc. rewrite H in Hc. apply Hc.
Qed.

(** Configuring the services never panics (no service is registered twice, no missing gateway is
    dereferenced) but in one case: the reader is remote and there is no local directory to disable. *)
Theorem config_services_panics d w :
  fresh d -> ConfigServices d = Panicked w -> remote_reader (d_config d) /\ Edge_DBPath (d_config d) = "".
Proof.
  intros Hf H. pose proof (ConfigServices_cases d Hf) as Hc. by rewrite H in Hc.
Qed.

(** An address none of whose services has a gateway stops the daemon: the services are not
    configured. *)
Theorem gateway_required d address k a :
  fresh d -> remaining (d_config d) k = Some a -> address_of a = address ->
  (forall j b, remaining (d_config d) j = Some b -> address_of b = address -> has_gateway b = false) ->
  match ConfigServices d with Returned (Ok _, _) => False | _ => True end.
Proof.
  intros Hf Hk Ha Hno. pose proof (ConfigServices_cases d Hf) as Hw.
  destruct (ConfigServices d) as [[[[]|e] d']|w] eqn:E; [|done|done].
  destruct Hw as [[Hv Haddr] _]. destruct (Haddr address) as [[_ Hs] Hserver].
  destruct Hs as [s Hs].
  { exists k. specialize (Hv k). rewrite Hk in Hv. apply fmap_Some in Hv as (b & Hb & Hvb). exists b.
    split; [done|]. unfold visible in Hvb. unfold address_of in *. congruence. }
  destruct (Hserver s Hs) as ((j & b & Hj & Hb & Hg) & _). by rewrite (Hno j b Hj Hb) in Hg.
Qed.

(** C39: The console hands out an API key without asking for one: with the console and the authorizer
    configured and API keys required, the server of the console answers every request for
    [/api/v1/authorizers], whatever its [Authorization] header, with one of the keys. *)
Theorem authorizers_hand_out_key d d' address :
  fresh d -> ConfigServices d = Returned (Ok tt, d') ->
  at_address (cfg_Services (d_config d)) address consoleService ->
  is_Some (cfg_Services (d_config d) !! authorizerService) -> APIKeys (cfg_Auth (d_config d)) <> ∅ ->
  exists s g, Servers d' !! address = Some s /\ srv_gateway s = Some g /\
    forall h, exists url key, http_get g "/api/v1/authorizers" h = AuthorizersResponse "authorizer" url key /\
                              is_Some (APIKeys (cfg_Auth (d_config d)) !! key).
Proof.
  intros Hf H (a & Ha & Hat) [b Hb] Hkeys. pose proof (ConfigServices_cases d Hf) as Hc. rewrite H in Hc.
  destruct Hc as [[Hv Haddr] Hopen].
  assert (Hcon : at_address (services_of d') address consoleService).
  { specialize (Hv consoleService). unfold remaining in Hv. rewrite Ha in Hv.
    assert (Hv' : visible <$> services_of d' !! consoleService = Some (visible a)).
    { rewrite Hv. destruct (cfg_Services (d_config d) !! readerService); [|done]. by destruct (String.eqb _ _). }
    apply fmap_Some in Hv' as (a' & Ha' & Hva). exists a'. split; [done|]. unfold visible, address_of in *. congruence. }
  destruct (proj2 (proj1 (Haddr address)) (ex_intro _ _ Hcon)) as [s Hs].
  destruct (Hopen address s Hs Hcon) as (g & Hg & Hout). exists s, g. split_and!; [done|done|].
  intros h. destruct (Hout h) as [url Hurl]. exists url, (console_key (d_config d)). split; [done|].
  unfold console_key. rewrite Hb. set (m := APIKeys (cfg_Auth (d_config d))) in *.
  destruct (range "PrepareConfig" (keys m)) as [|k l] eqn:E.
  - exfalso. apply Hkeys. apply map_eq. intros k. rewrite lookup_empty. apply eq_None_not_Some. intros Hk.
    apply elem_of_dom, (range_elem "PrepareConfig" (keys m)) in Hk. rewrite E in Hk. by apply not_elem_of_nil in Hk.
  - simpl. apply elem_of_dom, (range_elem "PrepareConfig" (keys m)). rewrite E. left.
Qed.
End Setup.

(** The console's own configuration is guarded: where an API key is required for the path, a
    response of [/api/v2/config] that carries a key went to a request with a configured key. *)
Theorem config_v2_guarded c auth path h ty cfg addr :
  EnableAnonymous (ForPath (auth_Options auth) path) = false ->
  EnableAPIKey (ForPath (auth_Options auth) path) = true -> APIKeys auth <> ∅ ->
  serve (ConfigHandlerV2 c auth) path h = ConfigV2Response ty cfg addr ->
  AuthorizerAPIKey cfg <> "" \/ DirectoryAPIKey cfg <> "" -> valid_header auth h.
Proof.
  intros Ha Hk Hne. simpl. unfold ConfigAuth. rewrite Ha, Hk, bool_decide_false by done. simpl.
  destruct (String.eqb h ""); [intros [= _ <- _]; simpl; naive_solver|].
  destruct (parseAuthHeader h "basic") as [key|e] eqn:E; [|done].
  destruct (APIKeys auth !! key) eqn:El; [|done]. intros _ _.
  apply parseAuthHeader_spec in E as (scheme & -> & Hs & Hf). exists scheme, key. rewrite El. eauto.
Qed.

Lemma uniq_elem l : forall acc x,
  x ∈ fold_left (fun acc x => if Contains acc x then acc else acc ++ [x]) l acc <-> x ∈ acc \/ x ∈ l.
Proof.
  induction l as [|y l IH]; intros acc x; simpl; [set_solver|]. rewrite IH.
  destruct (Contains acc y) eqn:E; [apply Contains_true in E|]; set_solver.
Qed.

(** The trace context reaches the gRPC servers through a gateway, whatever headers the deployment
    allows and whatever grpc-gateway would do by default. *)
Theorem trace_context_forwarded `{T : TLS} dflt g key :
  key ∈ TraceContextHeaders -> incomingHeaderMatcher dflt (AllowedHeaders (gateway_config g)) key = Some key.
Proof.
  intros Hk. unfold incomingHeaderMatcher, gateway_config, uniq. simpl.
  rewrite (proj2 (Contains_true _ _)); [done|]. apply uniq_elem. set_solver.
Qed.

(** The [access] service is accepted in the configuration and serves nothing: a server of its own
    has no gRPC service, and its gateway no handler but the OpenAPI document. *)
Theorem access_alone_serves_nothing :
  accessService ∈ AvailableServices EdgeDir /\ GetGRPCRegistrations EdgeDir [accessService] = [] /\
  GetGatewayRegistration EdgeDir [accessService] = ["/directory/openapi.json"].
Proof. split; [|done]. apply list_elem_of_In. simpl. tauto. Qed.

(** The number of workers is positive and fits 32 bits, for every count of processors. *)
Theorem num_cpu_bounds n : (1 <= numCPU n <= MaxUint32)%Z.
Proof. unfold numCPU, MaxUint32, MaxInt32. destruct (Z.leb_spec n 0), (Z.ltb_spec (2 ^ 32 - 1) n); lia. Qed.

Module DaemonExamples.
#[local] Instance toy_tls : TLS :=
  {| HasCert t := nonempty (tls_Cert t) && nonempty (tls_Key t); HasCA t := nonempty (tls_CA t) |}.
#[local] Instance sorted_range : MapRange :=
  {| range _ X := elements X; range_perm _ X := Permutation_refl (elements X) |}.
#[local] Instance quiet_env : Env :=
  {| ServerCredentials _ := None; ClientCredentials _ := None; ServerConfig _ := None; net_Listen _ := None;
     register_handler _ := None; url_Parse u := Ok u; eds_New := None; adl_ConfigFromPlugins := None;
     impl_NewAuthorizerServer := None |}.

Definition certs (name : string) : TLSConfig := MkTLS (name +:+ "-ca.crt") (name +:+ ".crt") (name +:+ ".key").
Definition service (needs : list string) (grpc gateway : string) : API :=
  MkAPI needs (MkGRPC "" grpc 0 (certs "grpc"))
    (MkGatewayAPI "" gateway [] [] [] (if nonempty gateway then certs "gateway" else MkTLS "" "" "") false).
Definition config (db : string) (services : gmap string API) (keys : list string) : Config :=
  MkConfig 2 "" false "" true "0.0.0.0:9494" (MkTLS "" "" "") "" (MkTLS "" "" "") services (MkJWT 5 [] "" "" "") db
    "0.0.0.0:9292" "" "id" 0
    (MkAuthn (list_to_map ((fun k => (k, "")) <$> keys)) (MkCallOptions (MkOptions true false) []) keys).
Definition boot (c : Config) : daemon := MkDaemon c ∅ ∅ ∅ None ∅.

(** The generated configuration. *)
Definition default_services : gmap string API :=
  {["console" := service [] "0.0.0.0:8081" "0.0.0.0:8080";
    "model" := service [] "0.0.0.0:9292" "0.0.0.0:9393";
    "reader" := service ["model"] "0.0.0.0:9292" "0.0.0.0:9393";
    "writer" := service ["model"] "0.0.0.0:9292" "0.0.0.0:9393";
    "exporter" := service [] "0.0.0.0:9292" "";
    "importer" := service ["model"] "0.0.0.0:9292" "";
    "authorizer" := service ["reader"] "0.0.0.0:8282" "0.0.0.0:8383"]}.
Definition default_daemon : daemon := boot (config "/db/directory.db" default_services ["s3cret"]).

Definition after (d : daemon) : daemon :=
  match ConfigServices d with Returned (_, d') => d' | Panicked _ => d end.

Lemma config_services_exact_witness :
  fresh default_daemon /\ ConfigServices default_daemon = Returned (Ok tt, after default_daemon) /\
  served (d_config default_daemon) (after default_daemon).
Proof.
  split_and!; [done|vm_compute; reflexivity|].
  refine (config_services_exact default_daemon (after default_daemon) (conj eq_refl eq_refl) _).
  vm_compute. reflexivity.
Defined.

(** The directory, the authorizer and the console each have their server. *)
Example default_servers :
  (fun s => (registrations s).*1) <$> Servers (after default_daemon) =
  {["0.0.0.0:8081" := []; "0.0.0.0:8282" := [AccessServer];
    "0.0.0.0:9292" := [ModelServer; ReaderServer; AccessServer; WriterServer; ImporterServer; ExporterServer]]}.
Proof. vm_compute. reflexivity. Qed.

(** A remote directory and no local one. *)
Definition remote_daemon : daemon :=
  boot (config "" {["reader" := service [] "0.0.0.0:9999" "0.0.0.0:9393"]} []).

Lemma config_services_panics_witness :
  ConfigServices remote_daemon = Panicked "invalid memory address or nil pointer dereference" /\
  remote_reader (d_config remote_daemon) /\ Edge_DBPath (d_config remote_daemon) = "".
Proof.
  split; [vm_compute; reflexivity|].
  refine (config_services_panics remote_daemon "invalid memory address or nil pointer dereference" (conj eq_refl eq_refl) _).
  vm_compute. reflexivity.
Defined.

(** The documented sidecar: the reader has no gateway. *)
Definition sidecar_services : gmap string API :=
  <["reader" := service [] "0.0.0.0:9292" ""]>
  (<["authorizer" := service ["reader"] "0.0.0.0:8282" "0.0.0.0:8383"]> ∅).
Definition sidecar_daemon : daemon := boot (config "/db/edge.db" sidecar_services []).

Lemma sidecar_remaining j : remaining (d_config sidecar_daemon) j = sidecar_services !! j.
Proof.
  unfold remaining. assert (E : cfg_Services (d_config sidecar_daemon) !! readerService = Some (service [] "0.0.0.0:9292" ""))
    by (vm_compute; reflexivity).
  rewrite E. assert (E' : String.eqb (address_of (service [] "0.0.0.0:9292" ""))
    (DirectoryResolver_Address (d_config sidecar_daemon)) = true) by (vm_compute; reflexivity).
  by rewrite E'.
Qed.

Lemma gateway_required_witness :
  match ConfigServices sidecar_daemon with Returned (Ok _, _) => False | _ => True end.
Proof.
  refine (gateway_required (R := sorted_range) (En := quiet_env) (T := toy_tls) sidecar_daemon "0.0.0.0:9292" "reader"
            (service [] "0.0.0.0:9292" "") _ _ _ _).
  - split; reflexivity.
  - vm_compute. reflexivity.
  - reflexivity.
  - intros j b. rewrite sidecar_remaining. unfold sidecar_services.
    rewrite lookup_insert_Some, lookup_insert_Some, lookup_empty.
    intros [[_ <-]|[_ [[_ <-]|[_ [=]]]]]; [reflexivity|discriminate].
Defined.

Lemma authorizers_hand_out_key_witness :
  exists s g, Servers (after default_daemon) !! "0.0.0.0:8081" = Some s /\ srv_gateway s = Some g /\
    forall h, exists url key, http_get g "/api/v1/authorizers" h = AuthorizersResponse "authorizer" url key /\
                              is_Some (APIKeys (cfg_Auth (d_config default_daemon)) !! key).
Proof.
  refine (authorizers_hand_out_key default_daemon (after default_daemon) "0.0.0.0:8081" (conj eq_refl eq_refl) _ _ _ _).
  - vm_compute. reflexivity.
  - exists (service [] "0.0.0.0:8081" "0.0.0.0:8080"). split; vm_compute; reflexivity.
  - eexists. vm_compute. reflexivity.
  - intros H. apply (f_equal (fun m => m !! "s3cret")) in H. vm_compute in H. discriminate.
Defined.

Definition console_cfg : TopazCfg := MkTopazCfg "https://a" "s3cret" "https://d" "s3cret" "" "" "" "" "" "https://c".

Lemma config_v2_guarded_witness :
  exists ty cfg addr,
    serve (ConfigHandlerV2 console_cfg (cfg_Auth (d_config default_daemon))) "/api/v2/config" "basic s3cret"
      = ConfigV2Response ty cfg addr /\ valid_header (cfg_Auth (d_config default_daemon)) "basic s3cret".
Proof.
  eexists _, _, _. split; [vm_compute; reflexivity|].
  eapply (config_v2_guarded console_cfg _ "/api/v2/config" "basic s3cret").
  - vm_compute. reflexivity.
  - vm_compute. reflexivity.
  - intros H. apply (f_equal (fun m => m !! "s3cret")) in H. vm_compute in H. discriminate.
  - vm_compute. reflexivity.
  - left. vm_compute. discriminate.
Defined.

Lemma trace_context_forwarded_witness :
  incomingHeaderMatcher (fun _ => None) (AllowedHeaders (gateway_config (api_Gateway (service [] "" ":1")))) "Traceparent"
  = Some "Traceparent".
Proof. apply trace_context_forwarded. left. Defined.
End DaemonExamples.
