(* ===== verification/Startup.v ===== *)
(** * Starting and stopping the servers

    [daemon/service/builder/service_manager.go].  [StartServers] launches a goroutine per server: it
    waits for the servers it depends on, one after the other, on the channel [Started] of each, then
    serves, and then sends once on its own channel.  The channels have no buffer: a send and a
    receive happen together, and a value goes to one receiver.  The goroutines are a step relation
    on the phase of every address. *)
From Stdlib Require Import Ascii.
From S2P Require Import Prelude Bytes Text Paths Policies Authn Config Daemon DaemonFacts.

(** ** The goroutines *)

Inductive phase :=
| Waiting (deps : list string)     (** the servers it still waits for, in order *)
| Sending                          (** its server was launched, and it offers its value; what [Serve] and the gateway's
                                       [ListenAndServe] return later goes to the error group and is not part of the state *)
| Done.                            (** its value was received *)

#[export] Instance phase_eq_dec : EqDecision phase.
Proof. solve_decision. Defined.

(** The servers there are, and the servers that each of them depends on. *)
Section Start.
Context (addresses : list string) (needs : string -> list string).

Definition StartServers : gmap string phase := list_to_map ((fun a => (a, Waiting (needs a))) <$> addresses).

Inductive start_step (st : gmap string phase) : gmap string phase -> Prop :=
| serve_step a :
    st !! a = Some (Waiting []) -> start_step st (<[a := Sending]> st)
| handshake_step a d ds :
    st !! a = Some (Waiting (d :: ds)) -> st !! d = Some Sending ->
    start_step st (<[a := Waiting ds]> (<[d := Done]> st)).

Definition start_reachable (st : gmap string phase) : Prop := rtc start_step StartServers st.

Definition is_serving (st : gmap string phase) (a : string) : Prop :=
  st !! a = Some Sending \/ st !! a = Some Done.

(** ** Invariants *)

Definition left_to_wait (p : phase) : list string := match p with Waiting ds => ds | _ => [] end.

(** [a] has received the value of [d]. *)
Definition received (st : gmap string phase) (a d : string) : Prop :=
  exists p pre, st !! a = Some p /\ needs a = pre ++ left_to_wait p /\ d ∈ pre.

Record sound (st : gmap string phase) : Prop := {
  so_dom a : is_Some (st !! a) <-> a ∈ addresses;
  so_suffix a p : st !! a = Some p -> exists pre, needs a = pre ++ left_to_wait p;
  so_received a d : received st a d -> st !! d = Some Done;
  so_done d : st !! d = Some Done -> exists a, received st a d;
  so_once a b d : received st a d -> received st b d -> a = b }.

Lemma received_phase st a p d :
  st !! a = Some p -> received st a d <-> exists pre, needs a = pre ++ left_to_wait p /\ d ∈ pre.
Proof. intros Ha. unfold received. rewrite Ha. naive_solver. Qed.

(** A phase with the same servers left to wait for changes nothing in what was received. *)
Lemma received_same st a p q : st !! a = Some p -> left_to_wait q = left_to_wait p ->
  forall b d, received (<[a := q]> st) b d <-> received st b d.
Proof.
  intros Ha Hq b d. destruct (decide (b = a)) as [->|Hne].
  - rewrite (received_phase _ _ _ _ (lookup_insert_eq st a q)), (received_phase _ _ _ _ Ha). by rewrite Hq.
  - unfold received. by rewrite lookup_insert_ne.
Qed.

(** A handshake adds one reception. *)
Lemma received_handshake st a d ds pre :
  st !! a = Some (Waiting (d :: ds)) -> needs a = pre ++ d :: ds ->
  forall b e, received (<[a := Waiting ds]> st) b e <-> received st b e \/ (b = a /\ e = d).
Proof.
  intros Ha Hpre b e. destruct (decide (b = a)) as [->|Hne].
  - rewrite (received_phase _ _ _ _ (lookup_insert_eq st a _)), (received_phase _ _ _ _ Ha). simpl. split.
    + intros (pre' & Hp & He). rewrite Hpre in Hp.
      assert (pre' = pre ++ [d]) as ->.
      { apply (app_inv_tail ds). rewrite <-app_assoc. by rewrite <-Hp. }
      apply elem_of_app in He as [He| ->%list_elem_of_singleton]; [left; eauto|by right].
    + intros [(pre' & Hp & He)|[_ ->]].
      * exists (pre' ++ [d]). rewrite <-app_assoc. split; [done|]. set_solver.
      * exists (pre ++ [d]). rewrite <-app_assoc. split; [done|]. set_solver.
  - unfold received. rewrite lookup_insert_ne by done. naive_solver.
Qed.

Lemma sound_start : sound StartServers.
Proof.
  assert (Hl : forall a p, StartServers !! a = Some p -> p = Waiting (needs a)).
  { intros a p H. apply elem_of_list_to_map_2, list_elem_of_fmap in H as (b & [= -> ->] & _). done. }
  assert (Hr : forall a d, ~ received StartServers a d).
  { intros a d (p & pre & Hp & Hpre & Hd). rewrite (Hl _ _ Hp) in Hpre. simpl in Hpre.
    assert (pre = []) as ->; [|by apply not_elem_of_nil in Hd]. apply (app_inv_tail (needs a)). done. }
  split; [| |naive_solver| |naive_solver].
  - intros a. unfold StartServers. rewrite <-not_eq_None_Some, <-not_elem_of_list_to_map, <-list_fmap_compose.
    change (compose fst (fun a => (a, Waiting (needs a)))) with (@id string). rewrite list_fmap_id.
    destruct (decide (a ∈ addresses)); naive_solver.
  - intros a p Hp. rewrite (Hl _ _ Hp). by exists [].
  - intros d Hd. by apply Hl in Hd.
Qed.

Lemma sound_serve st a : sound st -> st !! a = Some (Waiting []) -> sound (<[a := Sending]> st).
Proof.
  intros H Ha. pose proof (received_same st a (Waiting []) Sending Ha eq_refl) as Hrec. split.
  - intros b. rewrite <-(so_dom _ H). destruct (decide (b = a)) as [->|]; [rewrite lookup_insert_eq, Ha|rewrite lookup_insert_ne by done]; naive_solver.
  - intros b p. destruct (decide (b = a)) as [->|].
    + rewrite lookup_insert_eq. intros [= <-]. apply (so_suffix _ H _ _ Ha).
    + rewrite lookup_insert_ne by done. apply (so_suffix _ H).
  - intros b d Hd%Hrec%(so_received _ H). rewrite lookup_insert_ne; [done|naive_solver].
  - intros d. destruct (decide (d = a)) as [->|]; [by rewrite lookup_insert_eq|]. rewrite lookup_insert_ne by done.
    intros [b Hb]%(so_done _ H). exists b. by apply Hrec.
  - intros b c d Hb%Hrec Hc%Hrec. by apply (so_once _ H b c d).
Qed.

Lemma sound_handshake st a d ds :
  sound st -> st !! a = Some (Waiting (d :: ds)) -> st !! d = Some Sending ->
  sound (<[a := Waiting ds]> (<[d := Done]> st)).
Proof.
  intros H Ha Hd. assert (Hne : d <> a) by naive_solver. set (st1 := <[d := Done]> st).
  assert (Ha1 : st1 !! a = Some (Waiting (d :: ds))) by (unfold st1; by rewrite lookup_insert_ne).
  destruct (so_suffix _ H _ _ Ha) as [pre Hpre].
  assert (Hrec : forall b e, received (<[a := Waiting ds]> st1) b e <-> received st b e \/ (b = a /\ e = d)).
  { intros b e. rewrite (received_handshake st1 a d ds pre Ha1 Hpre). unfold st1.
    by rewrite (received_same st d Sending Done Hd eq_refl). }
  assert (Hold : forall b, ~ received st b d) by (intros b Hb%(so_received _ H); congruence).
  assert (Hlook : forall b, b <> a -> b <> d -> <[a := Waiting ds]> st1 !! b = st !! b)
    by (intros b H1 H2; unfold st1; by rewrite !lookup_insert_ne).
  assert (Hdd : <[a := Waiting ds]> st1 !! d = Some Done)
    by (unfold st1; rewrite lookup_insert_ne by done; apply lookup_insert_eq).
  split.
  - intros b. rewrite <-(so_dom _ H). destruct (decide (b = a)) as [->|]; [rewrite lookup_insert_eq, Ha; naive_solver|].
    destruct (decide (b = d)) as [->|]; [rewrite Hdd, Hd; naive_solver|by rewrite Hlook].
  - intros b p. destruct (decide (b = a)) as [->|].
    + rewrite lookup_insert_eq. intros [= <-]. exists (pre ++ [d]). by rewrite <-app_assoc.
    + destruct (decide (b = d)) as [->|]; [|rewrite Hlook by done; apply (so_suffix _ H)].
      rewrite Hdd. intros [= <-]. apply (so_suffix _ H _ _ Hd).
  - intros b e [He%(so_received _ H)|[-> ->]]%Hrec; [|done].
    destruct (decide (e = d)) as [->|]; [done|]. rewrite Hlook; [done|naive_solver|done].
  - intros e. destruct (decide (e = a)) as [->|]; [by rewrite lookup_insert_eq|].
    destruct (decide (e = d)) as [->|]; [intros _; exists a; apply Hrec; naive_solver|].
    rewrite Hlook by done. intros [b Hb]%(so_done _ H). exists b. apply Hrec. by left.
  - intros b c e [Hb|[-> ->]]%Hrec [Hc|[-> He]]%Hrec; subst; [by apply (so_once _ H b c e)| | |done].
    + by destruct (Hold b).
    + by destruct (Hold c).
Qed.

Lemma reachable_sound st : start_reachable st -> sound st.
Proof.
  apply (rtc_ind_r sound StartServers); [apply sound_start|].
  intros st1 st2 _ [a Ha|a d ds Ha Hd] IH; [by apply sound_serve|by apply sound_handshake].
Qed.

Lemma serving_received st a d : sound st -> is_serving st a -> d ∈ needs a -> received st a d.
Proof.
  intros H Ha Hd. assert (Hp : exists p, st !! a = Some p /\ left_to_wait p = []) by (destruct Ha; eauto).
  destruct Hp as (p & Hp & Hl). destruct (so_suffix _ H _ _ Hp) as [pre Hpre]. exists p, pre.
  rewrite Hl, app_nil_r in Hpre. by rewrite Hl, app_nil_r, <-Hpre.
Qed.

(** ** Every run ends *)

Definition weight (o : option phase) : nat :=
  match o with Some (Waiting ds) => 2 + length ds | Some Sending => 1 | _ => 0 end.
Definition total (st : gmap string phase) : nat := sum_list_with (fun a => weight (st !! a)) addresses.

Lemma total_insert st a p q : NoDup addresses -> a ∈ addresses -> st !! a = Some p ->
  total (<[a := q]> st) + weight (Some p) = total st + weight (Some q).
Proof.
  unfold total. intros Hnd Ha Hp. induction Hnd as [|x l Hx Hl IH]; [by apply not_elem_of_nil in Ha|].
  simpl sum_list_with. apply elem_of_cons in Ha as [<-|Ha].
  - rewrite lookup_insert_eq, Hp.
    assert (Hsame : sum_list_with (fun b => weight (<[a := q]> st !! b)) l = sum_list_with (fun b => weight (st !! b)) l).
    { clear IH Hl. induction l as [|y l IH]; simpl; [done|]. rewrite lookup_insert_ne by set_solver. rewrite IH; set_solver. }
    rewrite Hsame. lia.
  - rewrite lookup_insert_ne by set_solver. specialize (IH Ha). lia.
Qed.

Lemma step_total st st' : NoDup addresses -> sound st -> start_step st st' -> total st' < total st.
Proof.
  intros Hnd H [a Ha|a d ds Ha Hd].
  - pose proof (total_insert st a _ Sending Hnd (proj1 (so_dom _ H a) ltac:(eauto)) Ha) as E. simpl in E. lia.
  - assert (Hne : d <> a) by naive_solver.
    pose proof (total_insert st d _ Done Hnd (proj1 (so_dom _ H d) ltac:(eauto)) Hd) as E1.
    pose proof (total_insert (<[d := Done]> st) a (Waiting (d :: ds)) (Waiting ds) Hnd
      (proj1 (so_dom _ H a) ltac:(eauto)) ltac:(by rewrite lookup_insert_ne)) as E2. simpl in *. lia.
Qed.

Lemma run_length n st : NoDup addresses -> nsteps start_step n StartServers st -> n + total st <= total StartServers.
Proof.
  intros Hnd H. assert (Hgen : forall n st1 st2, sound st1 -> nsteps start_step n st1 st2 -> n + total st2 <= total st1).
  { clear n st H. induction n as [|n IH]; intros st1 st2 Hs H; inversion H as [|? ? st' ? Hst Hrest]; subst; [lia|].
    pose proof (step_total _ _ Hnd Hs Hst). assert (Hs' : sound st').
    { destruct Hst; [by apply sound_serve|by apply sound_handshake]. }
    specialize (IH _ _ Hs' Hrest). lia. }
  apply Hgen; [apply sound_start|done].
Qed.

(** ** Every server serves, or some never do *)

Context (rank : string -> nat).

(** Where nothing can happen any more, no needs are circular and no two servers need the same one,
    every server serves. *)
Lemma stuck_serving st :
  (forall a d, d ∈ needs a -> rank d < rank a) -> (forall a d, d ∈ needs a -> d ∈ addresses) ->
  (forall a b d, d ∈ needs a -> d ∈ needs b -> a = b) -> (forall a, NoDup (needs a)) ->
  sound st -> (forall st', ~ start_step st st') -> forall a, a ∈ addresses -> is_serving st a.
Proof.
  intros Hrank Hin Hone Hnd H Hstuck.
  assert (Hall : forall n a, rank a < n -> a ∈ addresses -> is_serving st a).
  { induction n as [|n IH]; intros a Hr Ha; [lia|]. apply (so_dom _ H) in Ha as [p Hp].
    destruct p as [ds| |]; [|by left|by right]. destruct ds as [|d ds]; [by destruct (Hstuck _ (serve_step st a Hp))|].
    destruct (so_suffix _ H _ _ Hp) as [pre Hpre]. simpl in Hpre.
    assert (Hd : d ∈ needs a) by (rewrite Hpre; set_solver). pose proof (Hrank _ _ Hd).
    destruct (IH d ltac:(lia) (Hin _ _ Hd)) as [Hs|Hdone]; [by destruct (Hstuck _ (handshake_step st a d ds Hp Hs))|].
    destruct (so_done _ H _ Hdone) as (b & q & pre' & Hb & Hpre' & Hd').
    assert (b = a) as -> by (apply (Hone b a d); [rewrite Hpre'; set_solver|done]).
    rewrite Hp in Hb. injection Hb as <-. simpl in Hpre'.
    pose proof (Hnd a) as Hn. rewrite Hpre' in Hn. apply NoDup_app in Hn as (_ & Hn & _).
    exfalso. apply (Hn d Hd'). left. }
  intros a. by apply (Hall (S (rank a))); lia.
Qed.
End Start.

(** ** The dependencies of a configuration *)

(** A service at address [a] needs a service at another address [d]. *)
Definition needs_address (m : gmap string API) (a d : string) : Prop :=
  d <> a /\ exists k cfg n dep,
    m !! k = Some cfg /\ address_of cfg = a /\ n ∈ Needs cfg /\ m !! n = Some dep /\ address_of dep = d.

Definition known (deps : gmap string (list string)) (a : string) : list string := default [] (deps !! a).

Lemma add_need_known m cfg deps n a d :
  (forall x, NoDup (known deps x)) ->
  (forall x, NoDup (known (add_need m cfg deps n) x)) /\
  (d ∈ known (add_need m cfg deps n) a <->
   d ∈ known deps a \/ (address_of cfg = a /\ d <> a /\ exists dep, m !! n = Some dep /\ address_of dep = d)).
Proof.
  intros Hnd. unfold add_need. destruct (m !! n) as [dep|]; [|naive_solver].
  fold (address_of cfg) (address_of dep) (known deps (address_of cfg)).
  destruct (Contains (known deps (address_of cfg)) (address_of dep)) eqn:Ec; simpl.
  { apply Contains_true in Ec. naive_solver. }
  apply Contains_false in Ec. destruct (String.eqb_spec (address_of cfg) (address_of dep)) as [He|Hne]; simpl; [naive_solver|].
  unfold known in *. split.
  - intros x. destruct (decide (x = address_of cfg)) as [->|]; [|by rewrite lookup_insert_ne].
    rewrite lookup_insert_eq. simpl. apply NoDup_app. split_and!; [done| |apply NoDup_singleton].
    by intros y Hy ->%list_elem_of_singleton.
  - destruct (decide (a = address_of cfg)) as [->|]; [|rewrite lookup_insert_ne by done; naive_solver].
    rewrite lookup_insert_eq. simpl. rewrite elem_of_app, list_elem_of_singleton. naive_solver.
Qed.

(** A loop that adds [d] to the needs of [a] for the elements with [P], and nothing else there. *)
Lemma fold_known {X} (f : gmap string (list string) -> X -> gmap string (list string)) (P : X -> Prop) a d :
  (forall deps x, (forall y, NoDup (known deps y)) ->
     (forall y, NoDup (known (f deps x) y)) /\ (d ∈ known (f deps x) a <-> d ∈ known deps a \/ P x)) ->
  forall l deps, (forall y, NoDup (known deps y)) ->
    (forall y, NoDup (known (fold_left f l deps) y)) /\
    (d ∈ known (fold_left f l deps) a <-> d ∈ known deps a \/ exists x, x ∈ l /\ P x).
Proof.
  intros Hf. induction l as [|x l IH]; intros deps Hnd; simpl.
  { split; [done|]. split; [by left|]. intros [?|(x & Hx & _)]; [done|by apply not_elem_of_nil in Hx]. }
  destruct (Hf deps x Hnd) as [Hnd' Hx]. destruct (IH _ Hnd') as [H1 H2]. split; [done|]. rewrite H2, Hx. split.
  - intros [[?|?]|(y & ? & ?)]; [by left|right; exists x|right; exists y]; (split; [|done]); [left|by right].
  - intros [?|(y & [->|?]%elem_of_cons & ?)]; [by left; left|by left; right|right; eauto].
Qed.

(** The service [k] needs, at [a], a service at [d]. *)
Definition asks (m : gmap string API) (a d k : string) : Prop :=
  exists cfg, m !! k = Some cfg /\ exists n, n ∈ Needs cfg /\
    (address_of cfg = a /\ d <> a /\ exists dep, m !! n = Some dep /\ address_of dep = d).

Lemma add_needs_known m deps k a d :
  (forall x, NoDup (known deps x)) ->
  (forall x, NoDup (known (add_needs m deps k) x)) /\
  (d ∈ known (add_needs m deps k) a <-> d ∈ known deps a \/ asks m a d k).
Proof.
  intros Hnd. unfold add_needs, asks. destruct (m !! k) as [cfg|].
  - destruct (fold_known (add_need m cfg) _ a d (fun deps n => add_need_known m cfg deps n a d) (Needs cfg) deps Hnd) as [H1 H2].
    split; [done|]. rewrite H2. split; (intros [?|H]; [by left|right]); [by exists cfg|].
    destruct H as (cfg' & [= <-] & H). done.
  - split; [done|]. split; [by left|]. intros [?|(? & [=] & _)]. done.
Qed.

Lemma dependencies_known `{R : MapRange} m a d :
  NoDup (known (dependencies m ∅) a) /\ (d ∈ known (dependencies m ∅) a <-> needs_address m a d).
Proof.
  assert (H0 : forall x, NoDup (known ∅ x)) by (intros x; unfold known; rewrite lookup_empty; constructor).
  destruct (fold_known (add_needs m) _ a d (fun deps k => add_needs_known m deps k a d) (range "Start" (keys m)) ∅ H0) as [H1 H2].
  split; [apply H1|]. unfold dependencies. rewrite H2. unfold known at 1. rewrite lookup_empty. simpl. split.
  - intros [?%not_elem_of_nil|(k & _ & cfg & Hk & n & Hn & Ha & Hne & dep & Hdep & Hd)]; [done|].
    split; [done|]. by exists k, cfg, n, dep.
  - intros (Hne & k & cfg & n & dep & Hk & Ha & Hn & Hdep & Hd). right. exists k. split.
    + apply range_elem, elem_of_dom. eauto.
    + exists cfg. split; [done|]. exists n. split; [done|]. split_and!; [done|done|eauto].
Qed.

(** ** The daemon's start *)

Lemma healthy_all l : forall (h : gmap string bool) k,
  k ∈ l \/ h !! k = Some true ->
  fold_left (fun h k => <[k := true]> h) l h !! k = Some true.
Proof.
  induction l as [|x l IH]; intros h k Hk; simpl.
  - destruct Hk as [Hk|]; [by apply not_elem_of_nil in Hk|done].
  - assert (H : k ∈ l \/ <[x := true]> h !! k = Some true).
    { destruct Hk as [[->|Hk]%elem_of_cons|Hk]; [right; apply lookup_insert_eq|by left|].
      right. destruct (decide (k = x)) as [->|]; [apply lookup_insert_eq|by rewrite lookup_insert_ne]. }
    by apply IH.
Qed.

Section Daemon.
Context `{R : MapRange} `{En : Env} `{T : TLS}.

Definition server_addresses (d : daemon) : list string := elements (keys (Servers d)).
(** The runs of the goroutines that [Start] launches. *)
Definition started (d : daemon) (st : gmap string phase) : Prop :=
  start_reachable (server_addresses d) (known (DependencyMap d)) st.

Lemma Start_inv d d' :
  Start d = Returned (Ok tt, d') ->
  DependencyMap d' = dependencies (services_of d) (DependencyMap d) /\ Servers d' = Servers d /\
  (nonempty (Health_ListenAddress (d_config d)) = true ->
   forall k, is_Some (services_of d !! k) -> healthy d' !! k = Some true).
Proof.
  unfold Start, dbind, modify, dget. simpl. destruct (nonempty _) eqn:E; intros [= <-]; simpl; [|done].
  split_and!; [done|done|]. intros _ k Hk.
  assert (Hin : k ∈ range "health" (keys (services_of d))) by (apply range_elem, elem_of_dom; done).
  apply healthy_all. by left.
Qed.

(** C27: A server serves only when every server that it needs serves: in every state that the
    goroutines can reach, under every interleaving. *)
Theorem start_order d st a b :
  started d st -> is_serving st a -> b ∈ known (DependencyMap d) a -> is_serving st b.
Proof.
  intros Hst Ha Hb. pose proof (reachable_sound _ _ _ Hst) as Hs.
  right. apply (so_received _ _ _ Hs a b). by apply (serving_received (server_addresses d)).
Qed.

(** C28: Starting ends with every server serving, whatever the interleaving, where the needs of the
    configured services are not circular and no two addresses need the same address: a run has a bounded
    number of steps, and where no step is left every server serves. *)
Theorem servers_start d0 d d' (rank : string -> nat) :
  fresh d0 -> ConfigServices d0 = Returned (Ok tt, d) -> DependencyMap d = ∅ -> Start d = Returned (Ok tt, d') ->
  (forall a b, needs_address (services_of d) a b -> rank b < rank a) ->
  (forall a a' b, needs_address (services_of d) a b -> needs_address (services_of d) a' b -> a = a') ->
  (forall n st, nsteps start_step n (StartServers (server_addresses d') (known (DependencyMap d'))) st ->
     n <= total (server_addresses d') (StartServers (server_addresses d') (known (DependencyMap d')))) /\
  (forall st, started d' st -> (forall st', ~ start_step st st') ->
     forall a, is_Some (Servers d' !! a) -> is_serving st a).
Proof.
  intros Hf Hc Hdep Hst Hrank Hone. pose proof (ConfigServices_cases d0 Hf) as Hw. rewrite Hc in Hw.
  destruct Hw as [[_ Haddr] _]. apply Start_inv in Hst as (Hd & Hs & _). rewrite Hdep in Hd.
  assert (Hneeds : forall a b, b ∈ known (DependencyMap d') a <-> needs_address (services_of d) a b)
    by (intros a b; rewrite Hd; apply dependencies_known).
  assert (Hdom : forall a, a ∈ server_addresses d' <-> is_Some (Servers d' !! a)).
  { intros a. unfold server_addresses. rewrite elem_of_elements. apply elem_of_dom. }
  split.
  - intros n st H. assert (Hnd : NoDup (server_addresses d')) by (unfold server_addresses; apply NoDup_elements).
    pose proof (run_length _ _ n st Hnd H). lia.
  - intros st Hreach Hstuck a Ha. apply (stuck_serving (server_addresses d') (known (DependencyMap d')) rank st);
      [| | | |by apply reachable_sound|done|by apply Hdom].
    + intros x y Hy%Hneeds. by apply Hrank.
    + intros x y Hy%Hneeds. apply Hdom. rewrite Hs. apply Haddr.
      destruct Hy as (_ & _ & _ & n & dep & _ & _ & _ & Hn & Hy). exists n. by exists dep.
    + intros x y z Hx%Hneeds Hy%Hneeds. by apply (Hone x y z).
    + intros x. rewrite Hd. by apply (dependencies_known (services_of d) x "").
Qed.

(** C40: Two addresses that need the same address never both serve, in any run: the value on the
    channel is sent once and one of the two waits for ever.  The services of both are reported as
    serving all the same. *)
Theorem second_dependent_stalls d d' a b c st :
  DependencyMap d = ∅ -> Start d = Returned (Ok tt, d') -> nonempty (Health_ListenAddress (d_config d)) = true ->
  needs_address (services_of d) a c -> needs_address (services_of d) b c -> a <> b -> started d' st ->
  exists x, (x = a \/ x = b) /\ ~ is_serving st x /\
    forall k, at_address (services_of d) x k -> healthy d' !! k = Some true.
Proof.
  intros Hdep Hst Hh Ha Hb Hab Hreach. apply Start_inv in Hst as (Hd & Hs & Hhealth). rewrite Hdep in Hd.
  assert (Hneeds : forall a b, needs_address (services_of d) a b -> b ∈ known (DependencyMap d') a)
    by (intros x y; rewrite Hd; apply dependencies_known).
  pose proof (reachable_sound _ _ _ Hreach) as Hsound.
  assert (Hnot : ~ (is_serving st a /\ is_serving st b)).
  { intros [Ha' Hb']. apply Hab, (so_once _ _ _ Hsound a b c); apply (serving_received (server_addresses d')); eauto. }
  assert (Hk : forall x k, at_address (services_of d) x k -> healthy d' !! k = Some true)
    by (intros x k (y & Hy & _); apply Hhealth; eauto).
  destruct (decide (st !! a = Some Sending)) as [E|Hna]; [|destruct (decide (st !! a = Some Done)) as [E|Hna']].
  - exists b. split_and!; [by right| |by apply Hk]. intros Hb'. apply Hnot. split; [by left|done].
  - exists b. split_and!; [by right| |by apply Hk]. intros Hb'. apply Hnot. split; [by right|done].
  - exists a. split_and!; [by left| |by apply Hk]. by intros [?|?].
Qed.
End Daemon.

(** ** [StopServers] *)

Inductive stop_event :=
| HealthStopped (graceful : bool)
| MetricsStopped (graceful : bool)
| GatewayStopped (address : string) (graceful : bool)
| GRPCStopped (address : string) (graceful : bool)
| Closed (address : string) (p : part).

#[export] Instance stop_event_eq_dec : EqDecision stop_event.
Proof. solve_decision. Defined.

Section Stop.
Context `{R : MapRange}.
(** Whether the shutdown of what listens at an address ends within the timeout; otherwise it is
    stopped by force. *)
Context (in_time : string -> bool).

Definition stop_server (address : string) (s : server) : list stop_event :=
  match srv_gateway s with Some _ => [GatewayStopped address (in_time address)] | None => [] end
  ++ [GRPCStopped address (in_time address)]
  ++ match cleanup s with Some p => [Closed address p] | None => [] end.

Definition StopServers (d : daemon) : list stop_event :=
  (if nonempty (Health_ListenAddress (d_config d)) then [HealthStopped (in_time (Health_ListenAddress (d_config d)))] else [])
  ++ (if nonempty (Metrics_ListenAddress (d_config d)) then [MetricsStopped (in_time (Metrics_ListenAddress (d_config d)))] else [])
  ++ flat_map (fun a => match Servers d !! a with Some s => stop_server a s | None => [] end)
       (range "StopServers" (keys (Servers d))).

Lemma stop_server_own a b s e : e ∈ stop_server a s -> GRPCStopped b true = e \/ GRPCStopped b false = e -> a = b.
Proof.
  unfold stop_server. rewrite !elem_of_app, list_elem_of_singleton.
  destruct (srv_gateway s), (cleanup s); rewrite ?list_elem_of_singleton, ?elem_of_nil; naive_solver.
Qed.

(** Stopping the servers stops every gRPC server once, after its gateway, which is layered on top
    of it, and before what its part holds is closed. *)
Theorem stop_servers_order d a s g :
  Servers d !! a = Some s -> srv_gateway s = Some g ->
  exists before after,
    StopServers d = before ++ GatewayStopped a (in_time a) :: GRPCStopped a (in_time a) :: after /\
    (forall b, GRPCStopped a b ∉ before) /\ (forall b, GRPCStopped a b ∉ after) /\
    (forall p, cleanup s = Some p -> Closed a p ∈ after).
Proof.
  intros Hs Hg. unfold StopServers. set (f := fun a => match Servers d !! a with Some s => stop_server a s | None => [] end).
  assert (Hin : a ∈ range "StopServers" (keys (Servers d))) by (apply range_elem, elem_of_dom; eauto).
  pose proof (range_NoDup "StopServers" (keys (Servers d))) as Hnd.
  apply list_elem_of_split in Hin as (l1 & l2 & E). rewrite E in *.
  apply NoDup_app in Hnd as (_ & Hd1 & [Hd2 _]%NoDup_cons).
  assert (Hno : forall l b, a ∉ l -> GRPCStopped a b ∉ flat_map f l).
  { intros l b Hl. rewrite elem_of_flat_map. intros (x & Hx & Hf). unfold f in Hf.
    destruct (Servers d !! x) as [sx|]; [|by apply not_elem_of_nil in Hf].
    assert (x = a) as -> by (apply (stop_server_own x a sx _ Hf); destruct b; auto). done. }
  rewrite flat_map_app. simpl. unfold f at 2. rewrite Hs. unfold stop_server. rewrite Hg. simpl.
  set (h := if nonempty (Health_ListenAddress _) then _ else _).
  set (m := if nonempty (Metrics_ListenAddress _) then _ else _).
  set (c := match cleanup s with Some p => [Closed a p] | None => [] end).
  exists (h ++ m ++ flat_map f l1), (c ++ flat_map f l2). rewrite <-!app_assoc. split_and!; [done| | |].
  - intros b [Hb|[Hb|Hb]%elem_of_app]%elem_of_app.
    + unfold h in Hb. destruct (nonempty (Health_ListenAddress (d_config d))); [apply list_elem_of_singleton in Hb|apply not_elem_of_nil in Hb]; done.
    + unfold m in Hb. destruct (nonempty (Metrics_ListenAddress (d_config d))); [apply list_elem_of_singleton in Hb|apply not_elem_of_nil in Hb]; done.
    + apply (Hno l1 b); [|done]. intros Ha. by apply (Hd1 a Ha); left.
  - intros b [Hb|Hb]%elem_of_app; [|by apply (Hno l2 b)].
    unfold c in Hb. destruct (cleanup s); [apply list_elem_of_singleton in Hb|apply not_elem_of_nil in Hb]; done.
  - intros p Hp. apply elem_of_app. left. unfold c. rewrite Hp. left.
Qed.
End Stop.

Module StartupExamples.
Import DaemonExamples.
#[local] Existing Instances toy_tls quiet_env.
#[local] Instance forwards : MapRange :=
  {| range _ X := elements X; range_perm _ X := Permutation_refl (elements X) |}.
#[local] Program Instance backwards : MapRange := {| range _ X := rev (elements X) |}.
Next Obligation. intros. symmetry. apply Permutation_rev. Qed.

(** The generated configuration: the authorizer needs the reader. *)
Definition configured_ : daemon := Eval vm_compute in
  match ConfigServices (R := forwards) default_daemon with Returned (_, d) => d | Panicked _ => default_daemon end.
Definition running : daemon := Eval vm_compute in
  match Start (R := forwards) configured_ with Returned (_, d) => d | Panicked _ => configured_ end.

Definition all_needs (m : gmap string API) : list (string * string) :=
  filter (fun p => p.1 <> p.2)
    (flat_map (fun kc => omap (fun n => (fun dep => (address_of kc.2, address_of dep)) <$> m !! n) (Needs kc.2)) (map_to_list m)).

Lemma all_needs_spec m a b : needs_address m a b -> (a, b) ∈ all_needs m.
Proof.
  intros (Hne & k & cfg & n & dep & Hk & <- & Hn & Hdep & <-). unfold all_needs. apply list_elem_of_filter.
  split; [simpl; congruence|]. apply elem_of_flat_map. exists (k, cfg). split; [by apply elem_of_map_to_list|].
  apply list_elem_of_omap. exists n. split; [done|]. by rewrite Hdep.
Qed.

Example default_needs : all_needs (services_of configured_) = [("0.0.0.0:8282", "0.0.0.0:9292")].
Proof. vm_compute. reflexivity. Qed.

Lemma default_needs_only a b : needs_address (services_of configured_) a b -> a = "0.0.0.0:8282" /\ b = "0.0.0.0:9292".
Proof. intros H%all_needs_spec. rewrite default_needs in H. apply list_elem_of_singleton in H. by injection H as -> ->. Qed.

Lemma servers_start_witness :
  is_Some (Servers running !! "0.0.0.0:8282") /\
  (forall st, started running st -> (forall st', ~ start_step st st') ->
    forall a, is_Some (Servers running !! a) -> is_serving st a).
Proof.
  split; [vm_compute; by eexists|].
  refine (proj2 (servers_start (R := forwards) (En := quiet_env) (T := toy_tls) default_daemon configured_ running
    (fun a => if String.eqb a "0.0.0.0:8282" then 1 else 0) _ _ _ _ _ _)).
  - split; reflexivity.
  - vm_compute. reflexivity.
  - vm_compute. reflexivity.
  - vm_compute. reflexivity.
  - intros a b H. destruct (default_needs_only a b H) as [-> ->]. vm_compute. constructor.
  - intros a a' b H H'. destruct (default_needs_only a b H) as [-> _], (default_needs_only a' b H') as [-> _]. reflexivity.
Defined.

Definition addr_d : string := "0.0.0.0:9292".
Definition addr_a : string := "0.0.0.0:8282".
Definition addr_c : string := "0.0.0.0:8081".

(** A run of the generated configuration: the directory serves, then the authorizer. *)
Definition run_start : gmap string phase := StartServers (server_addresses running) (known (DependencyMap running)).
Definition run_end : gmap string phase :=
  <[addr_a := Sending]> (<[addr_a := Waiting []]> (<[addr_d := Done]> (<[addr_d := Sending]> run_start))).
Lemma run_ends : started running run_end.
Proof.
  eapply rtc_l; [apply (serve_step run_start addr_d); vm_compute; reflexivity|].
  eapply rtc_l; [apply (handshake_step _ addr_a addr_d []); vm_compute; reflexivity|].
  eapply rtc_l; [apply (serve_step _ addr_a); vm_compute; reflexivity|]. apply rtc_refl.
Qed.

Lemma start_order_witness : is_serving run_end addr_a /\ is_serving run_end addr_d.
Proof.
  assert (Ha : is_serving run_end addr_a) by (left; vm_compute; reflexivity). split; [exact Ha|].
  refine (start_order running run_end addr_a addr_d run_ends Ha _). vm_compute. left.
Defined.

(** The console needs the reader too. *)
Definition crowded_services : gmap string API := <["console" := service ["reader"] addr_c "0.0.0.0:8080"]> default_services.
Definition crowded : daemon := boot (config "/db/directory.db" crowded_services []).
Definition crowded_running : daemon := Eval vm_compute in
  match Start (R := forwards) crowded with Returned (_, d) => d | Panicked _ => crowded end.

Lemma needs_here (m : gmap string API) k cfg n dep :
  m !! k = Some cfg -> n ∈ Needs cfg -> m !! n = Some dep -> address_of dep <> address_of cfg ->
  needs_address m (address_of cfg) (address_of dep).
Proof. intros. split; [done|]. by exists k, cfg, n, dep. Qed.

Lemma second_dependent_stalls_witness :
  exists x, (x = addr_a \/ x = addr_c) /\
    ~ is_serving (StartServers (server_addresses crowded_running) (known (DependencyMap crowded_running))) x /\
    forall k, at_address (services_of crowded) x k -> healthy crowded_running !! k = Some true.
Proof.
  refine (second_dependent_stalls (R := forwards) crowded crowded_running addr_a addr_c addr_d _ _ _ _ _ _ _ _).
  - reflexivity.
  - vm_compute. reflexivity.
  - reflexivity.
  - apply (needs_here _ "authorizer" (service ["reader"] addr_a "0.0.0.0:8383") "reader"
             (service ["model"] addr_d "0.0.0.0:9393")); [vm_compute; reflexivity|left|vm_compute; reflexivity|discriminate].
  - apply (needs_here _ "console" (service ["reader"] addr_c "0.0.0.0:8080") "reader"
             (service ["model"] addr_d "0.0.0.0:9393")); [vm_compute; reflexivity|left|vm_compute; reflexivity|discriminate].
  - discriminate.
  - apply rtc_refl.
Defined.

Lemma stop_servers_order_witness :
  exists s g before after, Servers running !! addr_d = Some s /\ srv_gateway s = Some g /\
    StopServers (R := forwards) (fun _ => true) running
      = before ++ GatewayStopped addr_d true :: GRPCStopped addr_d true :: after.
Proof.
  eexists _, _. edestruct (stop_servers_order (R := forwards) (fun _ => true) running addr_d) as (before & after & E & _).
  - vm_compute. reflexivity.
  - vm_compute. reflexivity.
  - exists before, after. split_and!; [vm_compute; reflexivity|reflexivity|exact E].
Defined.

(** Where the console shares the directory's address, who is closed at the end depends on the order of
    the loop over the parts: the directory, or the console, which has nothing to close. *)
Definition shared_services : gmap string API :=
  <["console" := service [] addr_d "0.0.0.0:9393"]> (<["reader" := service [] addr_d "0.0.0.0:9393"]>
  (<["model" := service [] addr_d "0.0.0.0:9393"]> ∅)).
Definition shared_daemon : daemon := boot (config "/db/directory.db" shared_services []).
Definition closes (r : MapRange) : option (option part) :=
  match ConfigServices (R := r) shared_daemon with Returned (_, d) => cleanup <$> Servers d !! addr_d | Panicked _ => None end.
Example shared_address_closes_one : closes forwards <> closes backwards.
Proof. vm_compute. discriminate. Qed.
End StartupExamples.
