(* ===== verification/Transfer.v ===== *)
(** * Moving a directory: the client's export, import and manifest

    [mrld/clients/directory] ([exporter.go], [importer.go], [manifest.go]), [mrld/jsonx] and
    [db/cmd/migrate_to_postgres.go]: a directory is written as one JSON line per object and relation,
    and read back line by line into another one.  [protojson] is a parameter ([ProtoJson]), with the
    laws that decoding inverts encoding, that a line has no line break, and that a relation read as an
    object has no type ([ProtoJsonLaws]). *)
From Stdlib Require Import Ascii.
From S2P Require Import Prelude Bytes Text Messages Hash Keys Store Bolt Bdb.
From S2P Require Import BdbTx Ds Service Instances DsFacts Writer Importer Exporter Model Policies.

Definition newline : ascii := "010".
Definition one_line (s : string) : bool := negb (contains newline s) && negb (contains "013" s).
Definition line_of (s : string) : string := s +:+ String newline "".

Class ProtoJson := {
  marshal_object : Object -> res string;
  marshal_relation : Relation -> res string;
  unmarshal_object : string -> option Object;
  unmarshal_relation : string -> option Relation }.

(** What an object and a relation say, less what the store stamps on them. *)
Definition content (o : Object) : string * string * string * option (gmap string Messages.Value) :=
  (o_type o, o_id o, o_display_name o, o_properties o).

Class ProtoJsonLaws (J : ProtoJson) := {
  unmarshal_marshal_object o s : marshal_object o = Ok s -> unmarshal_object s = Some o;
  unmarshal_marshal_relation r s : marshal_relation r = Ok s -> unmarshal_relation s = Some r;
  (** unknown fields are discarded, and a relation has no field [type] *)
  relation_as_object r s o : marshal_relation r = Ok s -> unmarshal_object s = Some o -> o_type o = "";
  marshal_object_line o s : marshal_object o = Ok s -> one_line s = true;
  marshal_relation_line r s : marshal_relation r = Ok s -> one_line s = true }.

(** ** Lines: [bufio.Scanner] *)

Definition max16Mb : Z := (16 * 1024 * 1024)%Z.
Definition ErrTooLong : err := new_error "bufio.Scanner: token too long".

(** [ScanLines]: the pieces between line breaks, less an empty one at the end. *)
Fixpoint drop_last_empty (l : list string) : list string :=
  match l with
  | [] => []
  | [x] => if String.eqb x "" then [] else [x]
  | x :: l => x :: drop_last_empty l
  end.
Definition scan_lines (text : string) : list string := drop_last_empty (Split newline text).
Fixpoint dropCR (s : string) : string :=
  match s with
  | EmptyString => ""
  | String c EmptyString => if ascii_dec c "013" then "" else s
  | String c s' => String c (dropCR s')
  end.

Section Client.
Context `{J : ProtoJson}.

(** ** [ExportToFile] *)

Definition Encode (m : res string) (w : string) : res string := rmap (fun b => w +:+ line_of b) m.

(** The responses that were received, and how the stream ended ([None] is EOF): what was written, and
    the result.  An unknown message is skipped. *)
Fixpoint ExportToFile (msgs : list ExportResponse) (stream_end : option err) (w : string) : option err * string :=
  match msgs with
  | [] => (stream_end, w)
  | m :: msgs =>
      let encoded :=
        match m with
        | ExportResponse_Object o => Encode (marshal_object (default zero_Object o)) w
        | ExportResponse_Relation r => Encode (marshal_relation (default (MkRelation (ident_of None) None None "") r)) w
        | ExportResponse_Stats _ => Ok w
        end in
      match encoded with
      | Fail e => (Some e, w)
      | Ok w => ExportToFile msgs stream_end w
      end
  end.

(** ** [importFromReader] *)

Definition set_request (m : ImportMsg) : ImportRequest := MkImport OPCODE_SET m.
Definition is_set_ident (i : RelationIdentifier) : bool :=
  negb (String.eqb (object_type i) "") && negb (String.eqb (object_id i) "") && negb (String.eqb (relation i) "")
  && negb (String.eqb (subject_type i) "") && negb (String.eqb (subject_id i) "").

(** What a line stands for: an object with a type and an identifier, or else a relation. *)
Definition read_line (line : string) : res ImportRequest :=
  let as_relation :=
    match unmarshal_relation line with
    | Some r => if is_set_ident (r_ident r) then Ok (set_request (ImportRequest_Relation (Some r)))
                else Fail (XErr Internal ("unknown type " +:+ line))
    | None => Fail (XErr Internal ("unknown type " +:+ line))
    end in
  match unmarshal_object line with
  | Some o => if negb (String.eqb (o_type o) "") && negb (String.eqb (o_id o) "")
              then Ok (set_request (ImportRequest_Object (Some o))) else as_relation
  | None => as_relation
  end.

(** [send_err n]: the outcome of the [n]-th [Send]; [read_err]: how the reader ended. *)
Context (send_err : nat -> option err).

Fixpoint import_lines (lines : list string) (read_err : option err) (sent : list ImportRequest)
  : list ImportRequest * option err :=
  match lines with
  | [] => (sent, read_err)
  | raw :: lines =>
      if (max16Mb <=? Z.of_nat (String.length raw))%Z then (sent, Some ErrTooLong)
      else match read_line (dropCR raw) with
           | Fail e => (sent, Some e)
           | Ok req =>
               match send_err (length sent) with
               | Some e => (sent, Some e)
               | None => import_lines lines read_err (sent ++ [req])
               end
           end
  end.
Definition importFromReader (text : string) (read_err : option err) : list ImportRequest * option err :=
  import_lines (scan_lines text) read_err [].

(** [recv] drops what it receives; only the end of the stream counts. *)
Definition recv (msgs : list ImportResponse) (stream_end : option err) : option err := stream_end.
End Client.

(** ** Facts: lines *)

Lemma sublist_all {B} (l k : list B) : l `sublist_of` k -> length k <= length l -> l = k.
Proof.
  induction 1 as [|x l k Hs IH|x l k Hs IH]; simpl; intros Hl; [done|f_equal; apply IH; lia|].
  apply sublist_length in Hs. lia.
Qed.

Lemma concat_str_cons x l : concat_str (x :: l) = x +:+ concat_str l.
Proof. done. Qed.

Lemma dropCR_id s : contains "013" s = false -> dropCR s = s.
Proof.
  induction s as [|c s IH]; [done|]. cbn [contains dropCR]. destruct (ascii_dec "013" c) as [|Hc]; [done|].
  intros H. destruct s as [|d s]; [by destruct (ascii_dec c "013"); [congruence|]|]. by rewrite IH.
Qed.

Lemma scan_lines_concat bs :
  Forall (fun b => contains newline b = false) bs -> scan_lines (concat_str (line_of <$> bs)) = bs.
Proof.
  unfold scan_lines. intros H.
  assert (Hs : Split newline (concat_str (line_of <$> bs)) = bs ++ [""]).
  { induction H as [|b bs Hb Hbs IH]; [done|]. rewrite fmap_cons, concat_str_cons. unfold line_of at 1.
    rewrite app_assoc_str, app_cons_str. change ("" +:+ ?x) with x. rewrite Split_app by done. by rewrite IH. }
  rewrite Hs. clear. induction bs as [|b bs IH]; [done|]. simpl. destruct (bs ++ [""]) eqn:E; [by destruct bs|].
  by rewrite IH.
Qed.

Section Lines.
Context `{J : ProtoJson} {JL : ProtoJsonLaws J}.

(** An entry of a directory, its request, and the conditions for its line to be read back. *)
Inductive entry := EntryObject (o : Object) | EntryRelation (r : Relation).
Definition response_of (x : entry) : ExportResponse :=
  match x with EntryObject o => ExportResponse_Object (Some o) | EntryRelation r => ExportResponse_Relation (Some r) end.
Definition request_of (x : entry) : ImportRequest :=
  match x with
  | EntryObject o => set_request (ImportRequest_Object (Some o))
  | EntryRelation r => set_request (ImportRequest_Relation (Some r))
  end.
Definition marshal (x : entry) : res string :=
  match x with EntryObject o => marshal_object o | EntryRelation r => marshal_relation r end.
Definition identified (x : entry) : bool :=
  match x with
  | EntryObject o => negb (String.eqb (o_type o) "") && negb (String.eqb (o_id o) "")
  | EntryRelation r => is_set_ident (r_ident r)
  end.
(** It has a line, of less than the scanner's limit, and the fields that the reader looks at. *)
Definition exportable (x : entry) : Prop :=
  identified x = true /\ exists b, marshal x = Ok b /\ (Z.of_nat (String.length b) < max16Mb)%Z.

Lemma marshal_one_line x b : marshal x = Ok b -> contains newline b = false /\ contains "013" b = false.
Proof.
  intros H. assert (Hl : one_line b = true)
    by (destruct x; [by apply (marshal_object_line o)|by apply (marshal_relation_line r)]).
  unfold one_line in Hl. by apply andb_true_iff in Hl as [?%negb_true_iff ?%negb_true_iff].
Qed.

Lemma read_line_marshal x b : marshal x = Ok b -> identified x = true -> read_line b = Ok (request_of x).
Proof.
  unfold read_line. destruct x as [o|r]; simpl; intros Hm Hi.
  - rewrite (unmarshal_marshal_object _ _ Hm). by rewrite Hi.
  - rewrite (unmarshal_marshal_relation _ _ Hm), Hi.
    destruct (unmarshal_object b) as [o|] eqn:E; [|done]. by rewrite (relation_as_object _ _ _ Hm E).
Qed.

Lemma export_lines xs : forall w, Forall exportable xs ->
  exists bs, ExportToFile (response_of <$> xs) None w = (None, w +:+ concat_str (line_of <$> bs)) /\
    Forall2 (fun x b => marshal x = Ok b) xs bs.
Proof.
  induction xs as [|x xs IH]; intros w Hx.
  { exists []. unfold concat_str. simpl. by rewrite app_nil_r_str. }
  apply Forall_cons in Hx as [(Hi & b & Hb & Hl) Hx]. destruct (IH (w +:+ line_of b) Hx) as (bs & He & Hf).
  exists (b :: bs). split; [|by constructor].
  assert (ExportToFile (response_of <$> x :: xs) None w = ExportToFile (response_of <$> xs) None (w +:+ line_of b)) as ->.
  { destruct x; simpl in *; by rewrite Hb. }
  rewrite He. unfold concat_str. simpl. by rewrite app_assoc_str.
Qed.

Lemma import_lines_of xs bs : forall sent,
  Forall exportable xs -> Forall2 (fun x b => marshal x = Ok b) xs bs ->
  import_lines (fun _ => None) bs None sent = (sent ++ (request_of <$> xs), None).
Proof.
  intros sent Hx H. revert sent Hx. induction H as [|x b xs bs Hb H IH]; intros sent Hx; simpl; [by rewrite app_nil_r|].
  apply Forall_cons in Hx as [(Hi & b' & Hb' & Hl) Hx]. rewrite Hb in Hb'. injection Hb' as <-.
  destruct (Z.leb_spec max16Mb (Z.of_nat (String.length b))); [lia|].
  rewrite dropCR_id by (by apply (marshal_one_line x)). rewrite (read_line_marshal x) by done.
  rewrite IH by done. by rewrite <-app_assoc.
Qed.

(** What was exported is read back, entry by entry. *)
Lemma export_import_lines xs :
  Forall exportable xs ->
  exists text, ExportToFile (response_of <$> xs) None "" = (None, text) /\
    importFromReader (fun _ => None) text None = (request_of <$> xs, None).
Proof.
  intros Hx. destruct (export_lines xs "" Hx) as (bs & He & Hf). exists (concat_str (line_of <$> bs)).
  split; [exact He|]. unfold importFromReader. rewrite scan_lines_concat.
  - by apply (import_lines_of xs bs []).
  - clear He Hx. induction Hf as [|x b xs bs Hb Hf IH]; constructor; [by apply (marshal_one_line x)|done].
Qed.
End Lines.

(** ** An import on abstract directories, less what was refused *)

Section Trace.
Context {model : Type} `{A : Azm model} {AL : AzmLaws model A}.

(** The events of a stream of set requests. *)
Definition carries (ev : stream_event) (x : entry) : Prop := exists ts, ev = Received ts (request_of x).

Inductive writes : directory model -> list entry -> directory model -> Prop :=
| writes_nil d : writes d [] d
| writes_cons d ts x call reply d1 xs d' :
    call_of (request_of x) = Some call -> writer_step unconditional ts call d reply d1 -> writes d1 xs d' ->
    writes d (x :: xs) d'.

Definition in_range (c : counters) : Prop :=
  (0 <= Error_ (ctr_object c) < 2 ^ 64)%Z /\ (0 <= Error_ (ctr_relation c) < 2 ^ 64)%Z.

(** [n] errors were counted between [c] and [c']. *)
Definition errors_since (c c' : counters) (n : nat) : Prop :=
  exists i j, n = i + j /\
    Error_ (ctr_object c') = ((Error_ (ctr_object c) + Z.of_nat i) mod 2 ^ 64)%Z /\
    Error_ (ctr_relation c') = ((Error_ (ctr_relation c) + Z.of_nat j) mod 2 ^ 64)%Z.

Lemma call_of_entry x : exists call, call_of (request_of x) = Some call.
Proof. destruct x; simpl; eauto. Qed.

Lemma counted_ok c x : in_range c ->
  Error_ (ctr_object (counted c (request_of x) None)) = Error_ (ctr_object c) /\
  Error_ (ctr_relation (counted c (request_of x) None)) = Error_ (ctr_relation c).
Proof. by destruct x. Qed.

Lemma counted_error c x e n c' : in_range c ->
  in_range (counted c (request_of x) (Some e)) /\
  (errors_since (counted c (request_of x) (Some e)) c' n -> errors_since c c' (S n)).
Proof.
  intros [H1 H2]. pose proof (Z.mod_pos_bound (Error_ (ctr_object c) + 1) (2 ^ 64) ltac:(lia)).
  pose proof (Z.mod_pos_bound (Error_ (ctr_relation c) + 1) (2 ^ 64) ltac:(lia)).
  destruct x; (split; [unfold in_range; simpl; unfold inc64; lia|]); intros (i & j & -> & Hi & Hj); simpl in *; unfold inc64 in *.
  - exists (S i), j. split_and!; [done| |done]. rewrite Hi, Zplus_mod_idemp_l. f_equal. lia.
  - exists i, (S j). split_and!; [lia|done|]. rewrite Hj, Zplus_mod_idemp_l. f_equal. lia.
Qed.

(** Some entries are written, in order; each of the others is counted as an error. *)
Lemma trace_writes c d evs c' d' : import_trace c d evs c' d' -> forall xs, Forall2 carries evs xs -> in_range c ->
  exists xs' n, xs' `sublist_of` xs /\ writes d xs' d' /\ length xs = length xs' + n /\ errors_since c c' n.
Proof.
  induction 1 as [c d| | |c d ts req evs c' d' Hc Ht IH|c d ts req e evs c' d' Hc Ht IH|c d ts req call reply d1 evs c' d' Hc Hs Ht IH];
    intros xs Hxs Hr.
  - inversion Hxs; subst. exists [], 0. split_and!; [constructor|constructor|done|].
    exists 0, 0. destruct Hr. split_and!; [done|..]; rewrite Z.add_0_r, Z.mod_small; lia.
  - by apply Forall2_cons_inv_l in Hxs as (? & ? & [? ?] & _).
  - by apply Forall2_cons_inv_l in Hxs as (? & ? & [? ?] & _).
  - apply Forall2_cons_inv_l in Hxs as (x & xs1 & [ts' [= -> ->]] & _ & ->). destruct (call_of_entry x) as [? Hx]. congruence.
  - apply Forall2_cons_inv_l in Hxs as (x & xs1 & [ts' [= -> ->]] & Hxs1 & ->).
    destruct (counted_error c x e 0 c' Hr) as [Hr1 _].
    destruct (IH _ Hxs1 Hr1) as (xs' & n & H1 & H2 & H3 & H4). exists xs', (S n).
    split_and!; [by constructor|done|simpl; lia|]. by apply (counted_error c x e n c' Hr).
  - apply Forall2_cons_inv_l in Hxs as (x & xs1 & [ts' [= -> ->]] & Hxs1 & ->).
    destruct (counted_ok c x Hr) as [E1 E2].
    assert (Hr1 : in_range (counted c (request_of x) None)) by (unfold in_range; by rewrite E1, E2).
    destruct (IH _ Hxs1 Hr1) as (xs' & n & H1 & H2 & H3 & H4). exists (x :: xs'), n.
    split_and!; [by constructor|by econstructor|simpl; lia|].
    destruct H4 as (i & j & ? & ? & ?). exists i, j. by rewrite E1, E2 in *.
Qed.

(** The key of an entry, what it is written as, and whether it is new. *)
Definition entry_key (x : entry) : (string * string) + RelationIdentifier :=
  match x with EntryObject o => inl (o_type o, o_id o) | EntryRelation r => inr (r_ident r) end.
Definition present (d : directory model) (x : entry) : Prop :=
  match x with
  | EntryObject o => exists o', d_objs d !! (o_type o, o_id o) = Some o' /\ content o' = content o
  | EntryRelation r => exists r', d_rels d !! r_ident r = Some r' /\ r_ident r' = r_ident r
  end.
Definition new_in (d : directory model) (x : entry) : Prop :=
  match x with EntryObject o => d_objs d !! (o_type o, o_id o) = None | EntryRelation r => d_rels d !! r_ident r = None end.
Definition same_at (d d' : directory model) (k : (string * string) + RelationIdentifier) : Prop :=
  match k with inl o => d_objs d' !! o = d_objs d !! o | inr r => d_rels d' !! r = d_rels d !! r end.

(** A new entry is written as it is, and nothing else changes. *)
Lemma write_new d ts x call reply d1 :
  new_in d x -> call_of (request_of x) = Some call -> writer_step unconditional ts call d reply d1 ->
  present d1 x /\ forall k, k <> entry_key x -> same_at d d1 k.
Proof.
  intros Hn Hc Hs. destruct x as [o|r]; simpl in *; injection Hc as <-; inversion Hs; subst; simpl.
  - match goal with H : object_etag _ _ = _ |- _ => unfold object_etag in H; rewrite Hn in H end.
    exfalso. apply (object_Hash_set o). congruence.
  - split; [rewrite lookup_insert_eq; by eexists|]. intros [k|k] Hk; simpl; [|done]. rewrite lookup_insert_ne; congruence.
  - match goal with H : relation_etag _ _ = _ |- _ => unfold relation_etag in H; rewrite Hn in H end.
    exfalso. apply (relation_Hash_set (r_ident r)). congruence.
  - split; [rewrite lookup_insert_eq; by eexists|]. intros [k|k] Hk; simpl; [done|]. rewrite lookup_insert_ne; congruence.
Qed.

Lemma writes_body d xs d' : writes d xs d' -> d_body d' = d_body d.
Proof.
  induction 1 as [|d ts x call reply d1 xs d' Hc Hs Hw IH]; [done|]. rewrite IH.
  destruct x; simpl in Hc; injection Hc as <-; by inversion Hs.
Qed.

Lemma same_at_trans d1 d2 d3 k : same_at d1 d2 k -> same_at d2 d3 k -> same_at d1 d3 k.
Proof. destruct k; simpl; congruence. Qed.
Lemma same_at_present d d' x : same_at d d' (entry_key x) -> present d x -> present d' x.
Proof. destruct x; simpl; intros ->; done. Qed.
Lemma same_at_new d d' x : same_at d d' (entry_key x) -> new_in d x -> new_in d' x.
Proof. destruct x; simpl; intros ->; done. Qed.

Lemma writes_present d xs d' :
  writes d xs d' -> NoDup (entry_key <$> xs) -> Forall (new_in d) xs ->
  Forall (present d') xs /\ forall k, k ∉ entry_key <$> xs -> same_at d d' k.
Proof.
  induction 1 as [d|d ts x call reply d1 xs d' Hc Hs Hw IH]; intros Hnd Hnew.
  { split; [constructor|]. by intros [] _. }
  rewrite fmap_cons in *. apply NoDup_cons in Hnd as [Hx Hnd]. apply Forall_cons in Hnew as [Hn Hnew].
  destruct (write_new _ _ _ _ _ _ Hn Hc Hs) as [Hp Hsame].
  assert (Hnew1 : Forall (new_in d1) xs).
  { apply Forall_forall. intros y Hy. rewrite Forall_forall in Hnew. apply (same_at_new d); [|by apply Hnew].
    apply Hsame. intros He. apply Hx. rewrite <-He. by apply list_elem_of_fmap_2. }
  destruct (IH Hnd Hnew1) as [Hall Hout]. split.
  - constructor; [|done]. apply (same_at_present d1); [|done]. by apply Hout.
  - intros k Hk. apply (same_at_trans d d1); [apply Hsame|apply Hout]; set_solver.
Qed.
End Trace.

(** ** The client's manifest calls *)

Definition blockSize : nat := Z.to_nat (1024 * 64).
Inductive read_end := EOF | ReadErr (e : err).

(** Every [Recv] of [GetManifest]; metadata and models are skipped. *)
Definition manifest_body (m : GetManifestResponse) : string :=
  match m with GetManifestResponse_Body b => b | _ => "" end.
Definition GetManifest (msgs : list GetManifestResponse) (stream_end : option err) : res string :=
  match stream_end with Some e => Fail e | None => Ok (concat_str (manifest_body <$> msgs)) end.

(** The results of the successive [Read]s: the bytes, and the error that came with them; after the list
    the reader is at EOF.  Bytes that come with EOF are dropped; a short read is taken as the last one. *)
Fixpoint send_blocks (send_err : nat -> option err) (reads : list (string * option read_end))
    (sent : list SetManifestEvent) : list SetManifestEvent * option err :=
  match reads with
  | [] | (_, Some EOF) :: _ => (sent, None)
  | (_, Some (ReadErr e)) :: _ => (sent, Some e)
  | (buf, None) :: reads =>
      match send_err (length sent) with
      | Some e => (sent, Some e)
      | None =>
          let sent := sent ++ [SetManifestRequest_Body (MkBody buf)] in
          if (String.length buf <? blockSize)%nat then (sent, None) else send_blocks send_err reads sent
      end
  end.

(** [bytes.Reader]: full blocks, then what is left, then EOF.  Each round takes at least one byte, so
    [length s] rounds are enough. *)
Fixpoint reader_blocks (fuel : nat) (s : string) : list (string * option read_end) :=
  match fuel with
  | O => []
  | S fuel =>
      if String.eqb s "" then []
      else if (String.length s <=? blockSize)%nat then [(s, None)]
      else (String.substring 0 blockSize s, None) ::
           reader_blocks fuel (String.substring blockSize (String.length s - blockSize) s)
  end.
Definition bytes_Reader (s : string) : list (string * option read_end) := reader_blocks (String.length s) s.

(** ** [migrate_to_postgres.go] *)

Definition Canceled : err := new_error "context canceled".

(** What a call sent, and the error that ends the stream. *)
Definition stream_of {X} (r : res unit * list X) : list X * option err :=
  (r.2, match r.1 with Ok _ => None | Fail e => Some e end).

Section Copy.
Context {model : Type} {T1 T2 : TxOps model} {A : Azm model} {C2 : @StoreOps model T2} {V : Validator}
  {P : ModelParams model} {X : ExportOptions} {J : ProtoJson}.
(** The outcomes of the sends: by the source's calls, by the client, by the destination's import. *)
Context (src_send cli_send dst_send : nat -> option err).
(** What [GetManifest] sends by default: the body and the model ([mnfst.IncomingManifestRequest]). *)
Context (withBody withModel : bool).
(** The clock at each request, the order of the two counters in the final report, and how many requests
    the destination reads before it notices that the call was cancelled. *)
Context (clock : nat -> Timestamp) (object_first : bool) (seen : nat).

Definition events (reqs : list ImportRequest) : list stream_event :=
  imap (fun i req => Received (clock i) req) reqs.

(** The two goroutines of the import: [sender] and [recv].  When the sender fails, the call is cancelled
    and its error is the result; the destination keeps what it had read. *)
Definition ImportFromFile (text : string) (read_err : option err) (s : @server model T2 A)
  : option err * @server model T2 A :=
  match importFromReader cli_send text read_err with
  | (reqs, Some e) =>
      let '(_, t) := Import dst_send (srv_mc s) object_first (events (take seen reqs) ++ [ContextDone]) (srv_tx s) in
      (Some e, MkServer t (srv_mc s))
  | (reqs, None) =>
      let '(r, t) := Import dst_send (srv_mc s) object_first (events reqs) (srv_tx s) in
      (match r with Ok w => recv (sent w) None | Fail e => recv [] (Some e) end, MkServer t (srv_mc s))
  end.

(** [dst.SetManifest]: the server stores what was sent up to the close; on a client error it sees the
    cancellation instead. *)
Definition SetManifest (ts : Timestamp) (reads : list (string * option read_end)) (s : @server model T2 A)
  : option err * @server model T2 A :=
  match send_blocks cli_send reads [] with
  | (reqs, Some e) =>
      let '(_, s) := Model_SetManifest unconditional ts None (reqs ++ [SetManifestError Canceled]) s in (Some e, s)
  | (reqs, None) =>
      let '(r, s) := Model_SetManifest unconditional ts None reqs s in
      (match r with Ok _ => None | Fail e => Some e end, s)
  end.

(** The pipe: what the export wrote is what the import reads, and the export's error, if any, is the
    read error after it. *)
Definition migrateData (opts : Z) (t1 : @tx model T1) (s2 : @server model T2 A)
  : option err * @server model T2 A :=
  let '(msgs, export_end) := stream_of (Export src_send opts t1 []) in
  let '(err, text) := ExportToFile msgs export_end "" in
  let '(r, s2) := ImportFromFile text err s2 in
  (Errorf "migrate objects/relations" <$> r, s2).

(** [MigrateToPostgresCmd.Run], once both directories are open. *)
Definition migrate_Run (ts : Timestamp) (opts : Z) (t1 : @tx model T1) (s2 : @server model T2 A)
  : option err * @server model T2 A :=
  let '(msgs, e) := stream_of (Model_GetManifest src_send unconditional withBody withModel t1 []) in
  match GetManifest msgs e with
  | Fail e => (Some (Errorf "read source manifest" e), s2)
  | Ok manifest =>
      match SetManifest ts (bytes_Reader manifest) s2 with
      | (Some e, s2) => (Some (Errorf "write destination manifest" e), s2)
      | (None, s2) => migrateData opts t1 s2
      end
  end.

(** ** The manifest arrives *)

Lemma send_blocks_reader :
  (forall n, cli_send n = None) -> forall fuel s reqs, String.length s <= fuel ->
  exists l, send_blocks cli_send (reader_blocks fuel s) reqs =
      (reqs ++ ((fun b => SetManifestRequest_Body (MkBody b)) <$> l), None) /\ concat_str l = s.
Proof.
  intros Hc. induction fuel as [|fuel IH]; intros s reqs Hf; cbn [reader_blocks].
  { exists []. rewrite app_nil_r. by destruct s; [|simpl in Hf; lia]. }
  destruct (String.eqb_spec s "") as [->|Hne]; [exists []; by rewrite app_nil_r|].
  destruct (Nat.leb_spec (String.length s) blockSize) as [Hle|Hgt]; cbn [send_blocks]; rewrite Hc.
  - exists [s]. split; [by case_match|]. unfold concat_str. simpl. by rewrite app_nil_r_str.
  - rewrite length_substring by lia. rewrite Nat.ltb_irrefl.
    destruct (IH (String.substring blockSize (String.length s - blockSize) s)
      (reqs ++ [SetManifestRequest_Body (MkBody (String.substring 0 blockSize s))])) as (l & -> & Hl).
    { rewrite length_substring by lia. assert (0 < blockSize) by (unfold blockSize; lia). lia. }
    exists (String.substring 0 blockSize s :: l). rewrite <-app_assoc. split; [done|].
    rewrite concat_str_cons, Hl, <-substring_split.
    replace (blockSize + (String.length s - blockSize)) with (String.length s) by lia. apply substring_full.
Qed.

Context {L1 : @TxLaws model T1} {AL : AzmLaws model A} {JL : ProtoJsonLaws J}.
(** How the destination stands for a directory, and the requests that it takes. *)
Context {R2 : @tx model T2 -> directory model -> Prop} {W2 : ImportRequest -> Prop} {D2 : Destination R2 W2}.

Lemma concat_bodies l : concat_str (manifest_body <$> (GetManifestResponse_Body <$> l)) = concat_str l.
Proof. rewrite <-list_fmap_compose. f_equal. induction l as [|b l IH]; [done|]. simpl. by f_equal. Qed.

Lemma GetManifest_source (t1 : @tx model T1) d1 md body :
  withBody = true -> withModel = false -> 0 < MaxChunkSizeBytes -> (forall n, src_send n = None) ->
  validator_GetManifestRequest = None -> repr t1 d1 -> d_metadata d1 = Some md -> d_body d1 = Some body ->
  exists msgs, stream_of (Model_GetManifest src_send unconditional withBody withModel t1 []) = (msgs, None) /\
    GetManifest msgs None = Ok (body_data body).
Proof.
  intros -> -> HM Hs Hv Hr Hmd Hb.
  destruct (Model_GetManifest_chunks src_send unconditional t1 d1 md body HM Hs Hv Hr Hmd Hb) as (l & Hg & Hc & _);
    [apply not_elem_of_nil|].
  exists (GetManifestResponse_Metadata md :: (GetManifestResponse_Body <$> l)).
  split; [unfold stream_of; by rewrite Hg|]. unfold GetManifest.
  rewrite fmap_cons, concat_str_cons, concat_bodies. by rewrite Hc.
Qed.

Lemma bodies_sent l : bodies ((fun b => SetManifestRequest_Body (MkBody b)) <$> l) = l.
Proof. induction l as [|b l IH]; [done|]. by apply (f_equal (cons b)) in IH. Qed.

Lemma setManifest_dest mc m md data (t : @tx model T2) d t' :
  R2 t d -> setManifest mc m md data t = (Ok tt, t') ->
  exists d', R2 t' d' /\ d_objs d' = d_objs d /\ d_rels d' = d_rels d /\ d_body d' = Some (MkBody data).
Proof.
  intros Hr. unfold setManifest.
  intros [(s & t1 & H1 & H)|(e & _ & ?)]%bind_inv; [|done]. injection H1 as _ <-.
  apply guard_inv in H as [[_ H]|(e & _ & ? & _)]; [|done].
  apply bind_inv in H as [([] & t2 & H2 & H)|(e & _ & ?)]; [|done].
  apply or_error_inv in H2 as [([] & H2 & _)|(e & _ & ?)]; [|done].
  apply (dest_SetManifest R2 t d) in H2 as [m0 H2]; [|done].
  apply bind_inv in H as [([] & t3 & H3 & H)|(e & _ & ?)]; [|done].
  apply or_error_inv in H3 as [([] & H3 & _)|(e & _ & ?)]; [|done].
  injection H as <-. apply (dest_SetManifestModel R2 t2 _ _ _ H2) in H3. by eexists.
Qed.

Lemma SetManifest_dest ts data s2 d2 s2m :
  (forall n, cli_send n = None) -> R2 (srv_tx s2) d2 -> SetManifest ts (bytes_Reader data) s2 = (None, s2m) ->
  exists d2m, R2 (srv_tx s2m) d2m /\ d_objs d2m = d_objs d2 /\ d_rels d2m = d_rels d2 /\
    d_body d2m = Some (MkBody data).
Proof.
  intros Hc Hr. unfold SetManifest, bytes_Reader.
  destruct (send_blocks_reader Hc (String.length data) data [] (Nat.le_refl _)) as (l & -> & Hl).
  change ([] ++ ?x) with x. unfold Model_SetManifest. cbn [unconditional IfMatch String.eqb negb andb].
  destruct (recv_manifest _ _ _) as [[data' sum]|e] eqn:Hrecv; [|done].
  apply recv_manifest_data in Hrecv as ->. rewrite bodies_sent, Hl. change ("" +:+ data) with data.
  destruct (validator_Metadata _); [done|]. destruct (manifest_Load data) as [m|e]; [|done].
  destruct (Update _ (srv_tx s2)) as [[[]|e] t'] eqn:Hupd; [|done].
  apply Update_ok, (setManifest_dest _ _ _ _ _ d2) in Hupd; [|done].
  destruct (mc_UpdateModel _ _) as [mc'|e]; [|done]. by intros [= <-].
Qed.

(** ** The entries of a directory *)

Lemma PatchObjectRead_key o :
  o_type (ds.PatchObjectRead o) = o_type o /\ o_id (ds.PatchObjectRead o) = o_id o.
Proof. unfold ds.PatchObjectRead. by case_match. Qed.

(** What the export sends of a directory. *)
Definition exported (d : directory model) (x : entry) : Prop :=
  match x with
  | EntryObject o => exists o', d_objs d !! (o_type o, o_id o) = Some o' /\ o = ds.PatchObjectRead o'
  | EntryRelation r => d_rels d !! r_ident r = Some r
  end.

Lemma Export_typed (t1 : @tx model T1) d1 :
  repr t1 d1 -> (forall n, src_send n = None) ->
  exists os rs, (forall opts, has_option opts OPTION_STATS = false -> Export src_send opts t1 [] =
      (Ok tt, response_of <$> (if has_option opts OPTION_DATA_OBJECTS then EntryObject <$> os else []) ++
                              (if has_option opts OPTION_DATA_RELATIONS then EntryRelation <$> rs else []))) /\
    NoDup (entry_key <$> (EntryObject <$> os) ++ (EntryRelation <$> rs)) /\
    forall x, x ∈ (EntryObject <$> os) ++ (EntryRelation <$> rs) <-> exported d1 x.
Proof.
  intros Hr Hs. destruct (Export_chosen src_send t1 d1 Hr Hs) as (os & rs & He & Hno & Ho & Hnr & Hrel).
  exists (ds.PatchObjectRead <$> os), rs. split_and!.
  - intros opts H1. rewrite (He opts H1), fmap_app. repeat case_match; by rewrite <-?list_fmap_compose.
  - rewrite fmap_app, <-!list_fmap_compose. apply NoDup_app. split_and!.
    + apply NoDup_fmap_2_strong; [|done]. intros o1 o2 Hi1%Ho Hi2%Ho. simpl.
      destruct (PatchObjectRead_key o1) as [-> ->], (PatchObjectRead_key o2) as [-> ->]. congruence.
    + intros k (o & -> & _)%list_elem_of_fmap (r & Hk & _)%list_elem_of_fmap. done.
    + apply NoDup_fmap_2_strong; [|done]. intros r1 r2 Hi1%Hrel Hi2%Hrel. simpl. intros [= E1]. congruence.
  - intros x. rewrite <-list_fmap_compose, elem_of_app, !list_elem_of_fmap. destruct x as [o|r]; simpl; split.
    + intros [(o' & [= ->] & Hin%Ho)|(? & ? & _)]; [|done]. exists o'.
      by destruct (PatchObjectRead_key o') as [-> ->].
    + intros (o' & Hl & ->). left. exists o'. split; [done|]. apply Ho.
      by destruct (PatchObjectRead_key o') as [E1 E2]; rewrite E1, E2 in Hl.
    + intros [(? & ? & _)|(r' & [= ->] & Hin%Hrel)]; done.
    + intros Hl%Hrel. right. by exists r.
Qed.

Lemma Export_entries (t1 : @tx model T1) d1 :
  repr t1 d1 -> (forall n, src_send n = None) ->
  exists os rs, (forall opts, has_option opts OPTION_STATS = false -> Export src_send opts t1 [] =
      (Ok tt, response_of <$> (if has_option opts OPTION_DATA_OBJECTS then os else []) ++
                              (if has_option opts OPTION_DATA_RELATIONS then rs else []))) /\
    NoDup (entry_key <$> os ++ rs) /\ forall x, x ∈ os ++ rs <-> exported d1 x.
Proof.
  intros Hr Hs. destruct (Export_typed t1 d1 Hr Hs) as (os & rs & H). by exists (EntryObject <$> os), (EntryRelation <$> rs).
Qed.

Definition dir_size (d : directory model) : nat := size (d_objs d) + size (d_rels d).

Lemma exported_key d x :
  exported d x ->
  entry_key x ∈ (inl <$> (map_to_list (d_objs d)).*1) ++ (inr <$> (map_to_list (d_rels d)).*1).
Proof.
  intros Hx. apply elem_of_app. destruct x as [o|r]; simpl in *; [left|right]; apply list_elem_of_fmap_2.
  - destruct Hx as (o' & Hl & _). apply (list_elem_of_fmap_2' _ _ ((o_type o, o_id o), o')); [|done].
    by apply elem_of_map_to_list.
  - apply (list_elem_of_fmap_2' _ _ (r_ident r, r)); [|done]. by apply elem_of_map_to_list.
Qed.

Lemma exported_length d xs :
  NoDup (entry_key <$> xs) -> (forall x, x ∈ xs -> exported d x) -> length xs <= dir_size d.
Proof.
  intros Hnd Hx. pose proof (NoDup_submseteq (entry_key <$> xs)
    ((inl <$> (map_to_list (d_objs d)).*1) ++ (inr <$> (map_to_list (d_rels d)).*1)) Hnd) as Hs.
  apply submseteq_length in Hs.
  - rewrite length_app, !length_fmap, !length_map_to_list in Hs. exact Hs.
  - intros k (x & -> & Hin)%list_elem_of_fmap. by apply exported_key, Hx.
Qed.

Lemma exported_wf d x : wf_dir d -> exported d x -> wf_request (request_of x).
Proof.
  intros [Ho Hr] Hx call. destruct x as [o|r]; simpl in *; intros [= <-] ? [= <-].
  - destruct Hx as (o' & Hl & _). by destruct (Ho _ _ _ Hl).
  - by destruct (Hr _ _ Hx).
Qed.

Lemma events_carry xs : forall k, Forall2 carries (imap (fun i req => Received (clock (k + i)) req) (request_of <$> xs)) xs.
Proof.
  induction xs as [|x xs IH]; intros k; simpl; constructor; [by eexists|].
  eapply Forall2_impl; [|done]. erewrite imap_ext; [apply (IH (S k))|]. intros i y _. simpl. do 2 f_equal. lia.
Qed.

(** Every entry of the copy is one of the original, less what the store stamps on it. *)
Definition copied (d d' : directory model) : Prop :=
  (forall k o', d_objs d' !! k = Some o' ->
     exists o, d_objs d !! k = Some o /\ content o' = content (ds.PatchObjectRead o)) /\
  (forall i, is_Some (d_rels d' !! i) -> is_Some (d_rels d !! i)).
(** Every entry of the original has one in the copy. *)
Definition complete (d d' : directory model) : Prop :=
  (forall k, is_Some (d_objs d !! k) -> is_Some (d_objs d' !! k)) /\
  (forall i, is_Some (d_rels d !! i) -> is_Some (d_rels d' !! i)).
Definition no_errors (w : import_state) : Prop :=
  Error_ (ctr_object (ctr w)) = 0%Z /\ Error_ (ctr_relation (ctr w)) = 0%Z.

Lemma written_copied d d2 xs xs' d' :
  d_objs d2 = ∅ -> d_rels d2 = ∅ -> (forall x, x ∈ xs -> exported d x) -> xs' `sublist_of` xs ->
  Forall (present d') xs' -> (forall k, k ∉ entry_key <$> xs' -> same_at d2 d' k) -> copied d d'.
Proof.
  intros Ho Hr Hx Hs Hp Hout. rewrite Forall_forall in Hp.
  assert (Hin : forall k, ~ same_at d2 d' k -> exists x, x ∈ xs' /\ k = entry_key x).
  { intros k Hk. destruct (decide (k ∈ entry_key <$> xs')) as [(x & -> & Hin)%list_elem_of_fmap|Hn]; [by exists x|].
    by destruct Hk; apply Hout. }
  split.
  - intros k o' Hk. destruct (Hin (inl k)) as ([o|r] & Hin' & [=]); [simpl; by rewrite Ho, Hk|]. subst k.
    pose proof (Hp _ Hin') as (o1 & Hl & Hc). rewrite Hk in Hl. injection Hl as <-.
    destruct (Hx _ (elem_of_sublist _ _ _ Hin' Hs)) as (o2 & Hl2 & ->). by exists o2.
  - intros i [r' Hi]. destruct (Hin (inr i)) as ([o|r] & Hin' & [=]); [simpl; by rewrite Hr, Hi|]. subst i.
    pose proof (Hx _ (elem_of_sublist _ _ _ Hin' Hs)) as Hd. simpl in Hd. by rewrite Hd.
Qed.

Lemma written_complete d xs d' :
  wf_dir d -> (forall x, exported d x -> x ∈ xs) -> Forall (present d') xs -> complete d d'.
Proof.
  intros [Hwo Hwr] Hx Hp. rewrite Forall_forall in Hp. split.
  - intros [ty id] [o Ho]. destruct (Hwo _ _ _ Ho) as (_ & Ht & Hi). destruct (PatchObjectRead_key o) as [E1 E2].
    destruct (Hp (EntryObject (ds.PatchObjectRead o))) as (o' & Hl & _).
    { apply Hx. simpl. exists o. by rewrite E1, E2, Ht, Hi. }
    exists o'. by rewrite E1, E2, Ht, Hi in Hl.
  - intros i [r Hr]. destruct (Hwr _ _ Hr) as [_ Hi]. destruct (Hp (EntryRelation r)) as (r' & Hl & _).
    { apply Hx. simpl. by rewrite Hi. }
    exists r'. by rewrite Hi in Hl.
Qed.

Lemma no_errors_zero w n :
  errors_since (MkCounters zero_counter zero_counter) (ctr w) n -> no_errors w -> (Z.of_nat n < 2 ^ 64)%Z -> n = 0.
Proof.
  intros (i & j & -> & Hi & Hj) [Ho Hr] Hn. rewrite Hi in Ho. rewrite Hj in Hr. simpl in Ho, Hr.
  rewrite Z.mod_small in Ho, Hr by lia. lia.
Qed.

(** The import of new entries: some are written, nothing else changes, and the others were counted. *)
Lemma import_entries mc xs t d2 :
  R2 t d2 -> (forall x, x ∈ xs -> W2 (request_of x)) ->
  NoDup (entry_key <$> xs) -> Forall (new_in d2) xs ->
  (forall n, dst_send n = None) -> (forall t d, R2 t d -> @commit_err model T2 C2 t = None) ->
  exists w t' d' xs', Import dst_send mc object_first (events (request_of <$> xs)) t = (Ok w, t') /\ R2 t' d' /\
    xs' `sublist_of` xs /\ Forall (present d') xs' /\ (forall k, k ∉ entry_key <$> xs' -> same_at d2 d' k) /\
    d_body d' = d_body d2 /\ (no_errors w -> (Z.of_nat (length xs) < 2 ^ 64)%Z -> xs' = xs).
Proof.
  intros Hr Hx Hnd Hnew Hs Hc.
  destruct (Import_into dst_send R2 W2 mc object_first (events (request_of <$> xs)) t d2 Hr) as (w & t' & d' & Hi & Hr' & Htr).
  { apply Forall_forall. intros ev Hev. unfold events in Hev. apply elem_of_lookup_imap in Hev as (i & req & -> & Hreq).
    apply list_lookup_fmap_Some in Hreq as (x & -> & Hx'). apply Hx. by eapply list_elem_of_lookup_2. }
  { done. } { done. }
  destruct (trace_writes _ _ _ _ _ Htr xs) as (xs' & n & Hsub & Hw & Hlen & Herr).
  { apply (events_carry xs 0). } { done. }
  destruct (writes_present _ _ _ Hw) as [Hp Hout].
  { eapply sublist_NoDup; [exact Hnd|]. by apply fmap_sublist. }
  { rewrite Forall_forall in *. intros x Hin. apply Hnew. by eapply elem_of_sublist. }
  exists w, t', d', xs'. split_and!; try done; [by apply writes_body in Hw|].
  intros He Hz. apply sublist_all; [done|]. apply (no_errors_zero w n Herr) in He; lia.
Qed.

(** The import of what was exported, into a directory without data. *)
Lemma import_copies mc xs t d1 d2 :
  wf_dir d1 -> NoDup (entry_key <$> xs) -> (forall x, x ∈ xs <-> exported d1 x) ->
  (forall x, exported d1 x -> W2 (request_of x)) -> R2 t d2 -> d_objs d2 = ∅ -> d_rels d2 = ∅ ->
  (forall n, dst_send n = None) -> (forall t d, R2 t d -> @commit_err model T2 C2 t = None) ->
  exists w t' d', Import dst_send mc object_first (events (request_of <$> xs)) t = (Ok w, t') /\ R2 t' d' /\
    copied d1 d' /\ (no_errors w -> (Z.of_nat (dir_size d1) < 2 ^ 64)%Z -> complete d1 d') /\ d_body d' = d_body d2.
Proof.
  intros Hwf Hnd Hx Hacc Hr Ho Hrel Hs Hc.
  destruct (import_entries mc xs t d2) as (w & t' & d' & xs' & Hi & Hr' & Hsub & Hp & Hout & Hb & Hall); try done.
  { intros x Hin. by apply Hacc, Hx. }
  { apply Forall_forall. intros [o|r] _; simpl; rewrite ?Ho, ?Hrel; done. }
  exists w, t', d'. split_and!; try done.
  - eapply (written_copied d1 d2 xs xs'); try done. intros x. apply Hx.
  - intros He Hz. rewrite Hall in Hp; [|done|].
    + eapply written_complete; [done| |exact Hp]. intros x. apply Hx.
    + pose proof (exported_length d1 xs Hnd (fun x => proj1 (Hx x))). lia.
Qed.

(** The same in two imports, one after the other. *)
Lemma import_two mc os rs t d1 d2 :
  wf_dir d1 -> NoDup (entry_key <$> os ++ rs) -> (forall x, x ∈ os ++ rs <-> exported d1 x) ->
  (forall x, exported d1 x -> W2 (request_of x)) -> R2 t d2 -> d_objs d2 = ∅ -> d_rels d2 = ∅ ->
  (forall n, dst_send n = None) -> (forall t d, R2 t d -> @commit_err model T2 C2 t = None) ->
  exists w1 t' w2 t'' d'', Import dst_send mc object_first (events (request_of <$> os)) t = (Ok w1, t') /\
    Import dst_send mc object_first (events (request_of <$> rs)) t' = (Ok w2, t'') /\ R2 t'' d'' /\ copied d1 d'' /\
    (no_errors w1 -> no_errors w2 -> (Z.of_nat (dir_size d1) < 2 ^ 64)%Z -> complete d1 d'') /\ d_body d'' = d_body d2.
Proof.
  intros Hwf Hnd Hx Hacc Hr Ho Hrel Hs Hc.
  assert (Hev : forall x, x ∈ os ++ rs -> W2 (request_of x)).
  { intros x Hin. by apply Hacc, Hx. }
  assert (Hempty : forall xs, Forall (new_in d2) xs).
  { intros xs. apply Forall_forall. intros [o|r] _; simpl; rewrite ?Ho, ?Hrel; done. }
  pose proof (exported_length d1 (os ++ rs) Hnd (fun x => proj1 (Hx x))) as Hlen. rewrite length_app in Hlen.
  rewrite fmap_app in Hnd. apply NoDup_app in Hnd as (Hno & Hdis & Hnr).
  destruct (import_entries mc os t d2) as (w1 & t' & d' & os' & Hi1 & Hr1 & Hsub1 & Hp1 & Hout1 & Hb1 & Hall1); try done.
  { intros x Hin. apply Hev, elem_of_app. by left. }
  assert (Hkeys : forall k, k ∈ entry_key <$> rs -> k ∉ entry_key <$> os').
  { intros k Hk Hk'. apply (Hdis k); [|done]. eapply elem_of_sublist; [exact Hk'|]. by apply fmap_sublist. }
  destruct (import_entries mc rs t' d') as (w2 & t'' & d'' & rs' & Hi2 & Hr2 & Hsub2 & Hp2 & Hout2 & Hb2 & Hall2); try done.
  { intros x Hin. apply Hev, elem_of_app. by right. }
  { apply Forall_forall. intros x Hin. apply (same_at_new d2); [|by eapply Forall_forall; [apply (Hempty rs)|]].
    by apply Hout1, Hkeys, list_elem_of_fmap_2. }
  assert (Hpres : Forall (present d'') (os' ++ rs')).
  { apply Forall_app. split; [|done]. rewrite Forall_forall in *. intros x Hin. apply (same_at_present d'); [|by apply Hp1].
    apply Hout2. intros Hk. eapply Hkeys; [|by apply list_elem_of_fmap_2]. eapply elem_of_sublist; [exact Hk|].
    by apply fmap_sublist. }
  exists w1, t', w2, t'', d''. split_and!; try done; [| |by rewrite Hb2].
  - apply (written_copied d1 d2 (os ++ rs) (os' ++ rs')); try done; [intros x; apply Hx|by apply sublist_app|].
    intros k Hk. rewrite fmap_app, elem_of_app in Hk. apply (same_at_trans d2 d'); [apply Hout1|apply Hout2]; tauto.
  - intros He1 He2 Hz. rewrite Hall1, Hall2 in Hpres by (done || lia).
    eapply written_complete; [done| |exact Hpres]. intros x. apply Hx.
Qed.

(** The import of a text that was read to its end: its result is the server's, whatever was refused. *)
Lemma ImportFromFile_read text reqs s :
  importFromReader cli_send text None = (reqs, None) ->
  ImportFromFile text None s =
    let '(r, t) := Import dst_send (srv_mc s) object_first (events reqs) (srv_tx s) in
    (match r with Ok _ => None | Fail e => Some e end, MkServer t (srv_mc s)).
Proof. intros H. unfold ImportFromFile. rewrite H. by destruct (Import _ _ _ _ _) as [[]]. Qed.

Lemma migrateData_copies opts (t1 : @tx model T1) d1 s2 d2 :
  repr t1 d1 -> (forall x, exported d1 x -> exportable x) ->
  has_option opts OPTION_STATS = false -> has_option opts OPTION_DATA_OBJECTS = true ->
  has_option opts OPTION_DATA_RELATIONS = true -> (forall x, exported d1 x -> W2 (request_of x)) ->
  R2 (srv_tx s2) d2 -> d_objs d2 = ∅ -> d_rels d2 = ∅ ->
  (forall n, src_send n = None) -> cli_send = (fun _ => None) -> (forall n, dst_send n = None) ->
  (forall t d, R2 t d -> @commit_err model T2 C2 t = None) ->
  exists reqs w s2' d', migrateData opts t1 s2 = (None, s2') /\
    Import dst_send (srv_mc s2) object_first (events reqs) (srv_tx s2) = (Ok w, srv_tx s2') /\
    R2 (srv_tx s2') d' /\ copied d1 d' /\
    (no_errors w -> (Z.of_nat (dir_size d1) < 2 ^ 64)%Z -> complete d1 d') /\ d_body d' = d_body d2.
Proof.
  intros Hr1 Hx H1 H2 H3 Hacc Hr2 Ho Hr Hs Hc Hd Hcm.
  destruct (Export_entries t1 d1 Hr1 Hs) as (os & rs & He & Hnd & Hxs).
  specialize (He opts H1). rewrite H2, H3 in He. revert He Hnd Hxs. generalize (os ++ rs). intros xs He Hnd Hxs.
  destruct (export_import_lines xs) as (text & Hw & Hi).
  { apply Forall_forall. intros x Hin. by apply Hx, Hxs. }
  destruct (import_copies (srv_mc s2) xs (srv_tx s2) d1 d2) as (w & t' & d' & Him & H); try done; [exact (@repr_wf model T1 L1 t1 d1 Hr1)|].
  exists (request_of <$> xs), w, (MkServer t' (srv_mc s2)), d'. split; [|done].
  unfold migrateData, stream_of. rewrite He. cbn [fst snd]. rewrite Hw.
  rewrite <-Hc in Hi. rewrite (ImportFromFile_read _ _ _ Hi), Him. done.
Qed.

(** The whole run: the manifest, then the data. *)
Lemma migrate_Run_copies ts opts (t1 : @tx model T1) d1 md body s2 d2 s2m :
  repr t1 d1 -> d_metadata d1 = Some md -> d_body d1 = Some body -> (forall x, exported d1 x -> exportable x) ->
  has_option opts OPTION_STATS = false -> has_option opts OPTION_DATA_OBJECTS = true ->
  has_option opts OPTION_DATA_RELATIONS = true -> withBody = true -> withModel = false ->
  0 < MaxChunkSizeBytes -> validator_GetManifestRequest = None ->
  (forall n, src_send n = None) -> cli_send = (fun _ => None) -> (forall n, dst_send n = None) ->
  (forall t d, R2 t d -> @commit_err model T2 C2 t = None) -> (forall x, exported d1 x -> W2 (request_of x)) ->
  R2 (srv_tx s2) d2 -> d_objs d2 = ∅ -> d_rels d2 = ∅ ->
  SetManifest ts (bytes_Reader (body_data body)) s2 = (None, s2m) ->
  exists reqs w s2' d', migrate_Run ts opts t1 s2 = (None, s2') /\
    Import dst_send (srv_mc s2m) object_first (events reqs) (srv_tx s2m) = (Ok w, srv_tx s2') /\
    R2 (srv_tx s2') d' /\ d_body d' = Some (MkBody (body_data body)) /\ copied d1 d' /\
    (no_errors w -> (Z.of_nat (dir_size d1) < 2 ^ 64)%Z -> complete d1 d').
Proof.
  intros Hr1 Hmd Hb Hx H1 H2 H3 Hwb Hwm HM Hv Hs Hc Hd Hcm Hacc Hr2 Ho Hr Hset.
  destruct (GetManifest_source t1 d1 md body) as (msgs & Hg & Hgm); try done.
  destruct (SetManifest_dest ts (body_data body) s2 d2 s2m) as (d2m & Hr2m & Eo & Er & Eb);
    [intros n; by rewrite Hc|done|done|].
  destruct (migrateData_copies opts t1 d1 s2m d2m) as (reqs & w & s2' & d' & Hm & Hi & Hr' & Hcp & Hcm' & Hb');
    try done; [by rewrite Eo|by rewrite Er|].
  exists reqs, w, s2', d'. split_and!; try done; [|by rewrite Hb'].
  unfold migrate_Run. rewrite Hg, Hgm, Hset. exact Hm.
Qed.

(** An import reports success whatever the directory refused: when every line was read and sent and the
    server ended the stream, the client returns nil, also where the server counted errors. *)
Theorem import_errors_unreported text reqs s w t :
  importFromReader cli_send text None = (reqs, None) ->
  Import dst_send (srv_mc s) object_first (events reqs) (srv_tx s) = (Ok w, t) ->
  ImportFromFile text None s = (None, MkServer t (srv_mc s)).
Proof. intros Hr Hi. by rewrite (ImportFromFile_read _ _ _ Hr), Hi. Qed.
End Copy.

(** A reader that returns less than a block before its end cuts the manifest: only what came before and
    with that read is sent, and the call goes on as if it were the whole manifest. *)
Theorem short_read_truncates first rest :
  String.length first < blockSize ->
  send_blocks (fun _ => None) ((first, None) :: rest) [] = ([SetManifestRequest_Body (MkBody first)], None).
Proof. intros H. cbn [send_blocks]. by rewrite (proj2 (Nat.ltb_lt _ _)). Qed.

Module TransferExamples.
Import Concrete ModelExamples.
#[local] Existing Instance params.
#[local] Instance options : ExportOptions := {|
  OPTION_STATS := 64; OPTION_DATA_OBJECTS := 8; OPTION_DATA_RELATIONS := 16;
  stats_struct := fun _ => Ok "{}" |}.

(** Lines that start with their kind. *)
Definition untag (c : ascii) (s : string) : option string :=
  match s with String d s => if ascii_dec c d then Some s else None | EmptyString => None end.
#[local] Instance json : ProtoJson := {|
  marshal_object o := Ok (String "o" (bits (encode o)));
  marshal_relation r := Ok (String "r" (bits (encode r)));
  unmarshal_object s := b ← untag "o" s; decode (unbits b);
  unmarshal_relation s := b ← untag "r" s; decode (unbits b) |}.

Lemma bits_chars p c : c <> "0"%char -> c <> "1"%char -> contains c (bits p) = false.
Proof. intros H0 H1. induction p; cbn [bits contains]; [..|done]; destruct (ascii_dec c _); congruence. Qed.
Lemma bits_line c p : c <> newline -> c <> "013"%char -> one_line (String c (bits p)) = true.
Proof.
  intros H1 H2. unfold one_line. cbn [contains]. rewrite !bits_chars by done.
  by destruct (ascii_dec newline c), (ascii_dec "013" c); simplify_eq.
Qed.
#[local] Instance json_laws : ProtoJsonLaws json.
Proof.
  split; simpl.
  - intros o s [= <-]. simpl. by rewrite unbits_bits, decode_encode.
  - intros r s [= <-]. simpl. by rewrite unbits_bits, decode_encode.
  - by intros r s o [= <-].
  - intros o s [= <-]. by apply bits_line.
  - intros r s [= <-]. by apply bits_line.
Qed.

(** The source: the example directory with the manifest of [ModelExamples]. *)
Definition source : @tx model bolt_tx := srv_tx uploaded.
Definition target : @server model bolt_tx azm := MkServer db mc0.

Lemma source_repr : exists d md, repr source d /\ d_objs d = d_objs dir1 /\ d_rels d = d_rels dir1 /\
  d_metadata d = Some md /\ d_body d = Some (MkBody "model: v3").
Proof.
  destruct (set_manifest_stores no_headers ts1 None upload srv1 dir1 uploaded db1_repr upload_ok)
    as (sum & m & mc' & _ & _ & Hr & _).
  eexists _, _. split; [exact Hr|]. done.
Qed.

Lemma dir1_exportable (d : directory model) x :
  d_objs d = d_objs dir1 -> d_rels d = d_rels dir1 -> exported d x -> exportable x.
Proof.
  intros Ho Hr. destruct x as [o|r]; simpl; rewrite ?Ho, ?Hr.
  - intros (o' & H & ->). simpl in H. apply lookup_insert_Some in H as [[_ <-]|[_ H]]; [|done].
    split; [reflexivity|]. eexists. split; [reflexivity|]. vm_compute. reflexivity.
  - intros H. simpl in H.
    repeat (apply lookup_insert_Some in H as [[_ <-]|[_ H]];
      [split; [reflexivity|]; eexists; (split; [reflexivity|]); vm_compute; reflexivity|]). done.
Qed.

Definition accepted : @server model bolt_tx azm := (SetManifest (fun _ => None) ts1 (bytes_Reader "model: v3") target).2.
Lemma target_accepts : SetManifest (fun _ => None) ts1 (bytes_Reader "model: v3") target = (None, accepted).
Proof.
  assert ((SetManifest (fun _ => None) ts1 (bytes_Reader "model: v3") target).1 = None) as H by (vm_compute; reflexivity).
  unfold accepted. by destruct (SetManifest _ _ _ _) as [[]].
Qed.

(** A file with one line, for an object that the directory refuses. *)
Definition bad : Object := MkObject "a:b" "1" "" None None None "".
Definition bad_file : string := line_of (String "o" (bits (encode bad))).
Definition bad_request_ : list ImportRequest := [set_request (ImportRequest_Object (Some bad))].
Definition bad_import : res import_state * @tx model bolt_tx :=
  Import (fun _ => None) mc0 true (events (fun _ => ts2) bad_request_) db.

Lemma import_errors_unreported_witness :
  exists w t, ImportFromFile (fun _ => None) (fun _ => None) (fun _ => ts2) true 0 bad_file None target = (None, MkServer t mc0) /\
    Error_ (ctr_object (ctr w)) = 1%Z /\ bad_import = (Ok w, t).
Proof.
  assert (match bad_import.1 with Ok w => Error_ (ctr_object (ctr w)) | Fail _ => 0%Z end = 1%Z) as He by (vm_compute; reflexivity).
  destruct bad_import as [[w|e] t] eqn:E; [|discriminate He].
  exists w, t. split; [|split; [exact He|reflexivity]].
  apply (import_errors_unreported (J := json) (fun _ => None) (fun _ => None) (fun _ => ts2) true 0 bad_file bad_request_ target w t);
    [vm_compute; reflexivity | exact E].
Defined.

Lemma short_read_truncates_witness :
  send_blocks (fun _ => None) [("model: ", None); ("v3", None)] [] = ([SetManifestRequest_Body (MkBody "model: ")], None).
Proof. apply (short_read_truncates "model: " [("v3", None)]). unfold blockSize. simpl. lia. Defined.
End TransferExamples.
