(* ===== verification/ToPostgres.v ===== *)
(** * Migrating a directory to Postgres

    [db/cmd/migrate_to_postgres.go] with the stores it is run on: the source is a BoltDB file, the destination a
    Postgres database.  [Transfer] has the command over any two stores; here the Postgres store is shown to be a
    destination for every entry whose names it accepts, although a statement that it rejects would sink the whole
    import ([pg_rejected_sinks]). *)
From Stdlib Require Import Ascii.
From S2P Require Import Prelude Bytes Text Messages Hash Keys Store Json Bolt Bdb.
From S2P Require Import BdbTx Ds Service Instances DsFacts Writer Importer Exporter Model Policies Transfer.
From S2P Require Import BoltFacts Pgdb PgdbFacts MapPg.

Section ToPostgres.
Context {model : Type} `{B : Bolt} `{BL : !BoltLaws B} `{G : Postgres} `{GL : !PostgresLaws G}.
Context `{CO : Codecs model} `{CL : !CodecsLaws model CO} `{PM : !PgModelLaws model}.
Context {A : Azm model} {AL : AzmLaws model A} {V : Validator} {P : ModelParams model} {X : ExportOptions}.
Context {J : ProtoJson} {JL : ProtoJsonLaws J}.

(** The outcome of the commit of [withTx]. *)
#[export] Instance pg_store : @StoreOps model pg_tx := fun t => Errorf "commit postgres transaction" <$> Commit t.

Lemma pg_Update {Y} (fn : M pgtx Y) : forall t, @Update model pg_tx pg_store Y fn t = withTx None fn t.
Proof. intros t. unfold Update, withTx, commit_err, pg_store. destruct (fn t) as [[y|e] t']; [|done]. by destruct (Commit t'). Qed.

(** [Batch] is [Update] on Postgres; the model's [Batch] is one too for a function that does not fail. *)
Lemma pg_Batch {W Y} (fn : M (W * @tx model pg_tx) Y) w t :
  is_ok (fn (w, t)).1 = true -> @Batch model pg_tx pg_store W Y fn (w, t) = @UpdateE model pg_tx pg_store W Y fn (w, t).
Proof.
  intros Hok. unfold Batch, UpdateE. destruct (fn (w, t)) as [[y|e] [w' t']]; [done|discriminate Hok].
Qed.

(** The requests that set an entry with names that the database accepts. *)
Definition accepted_request (req : ImportRequest) : Prop :=
  OpCode req = OPCODE_SET /\
  match Msg req with
  | ImportRequest_Object (Some o) => accepts (o_type o) = true /\ accepts (o_id o) = true
  | ImportRequest_Relation (Some r) => Forall (fun s => accepts s = true) (texts (r_ident r))
  | _ => False
  end.
(** The etags are accepted too: they are decimal numbers. *)
Definition etags_accepted : Prop :=
  (forall o, accepts (object_Hash o) = true) /\ (forall i, accepts (relation_Hash i) = true).

Lemma pg_reads {Y} (r : res Y) v : r = found v -> reads_as r v.
Proof. intros ->. destruct v; [done|]. by eexists. Qed.

Lemma pg_destination : etags_accepted -> Destination (T := pg_tx) pg_repr accepted_request.
Proof.
  intros [Ho Hr]. split.
  - intros mc ts [op m] c t d r c' t' Hrep [Hop Hm]. cbn [OpCode Msg] in Hop, Hm. subst op.
    unfold handleImportRequest, call_of, counted. cbn [OpCode Msg object_handler relation_handler].
    destruct m as [[o|]|[rel|]|]; try done.
    + destruct (objectSetHandler mc ts (Some o) t) as [r1 t1] eqn:Hh. intros [= <- <- <-]. split; [|done].
      destruct Hm as [Ha1 Ha2]. eapply objectSetHandler_applied; [done| |exact Hh]. intros req [= <-].
      split; [by apply pg_reads, pg_GetObject_exact|]. intros u ru tu Ht Hi He Hs.
      apply (pg_SetObject_repr u t d) in Hs; [|done|rewrite Ht, Hi, He; by repeat constructor].
      destruct ru; [by destruct Hs|done].
    + destruct (relationSetHandler mc ts (Some rel) t) as [r1 t1] eqn:Hh. intros [= <- <- <-]. split; [|done].
      eapply relationSetHandler_applied; [done| |exact Hh]. intros req [= <-].
      split; [by apply pg_reads, pg_GetRelationExact_exact|]. intros u ru tu Hi He Hs.
      apply (pg_SetRelation_repr u t d) in Hs; [|done|rewrite Hi, He; apply Forall_app; split; [done|constructor; [done|constructor]]].
      destruct ru; [by destruct Hs|done].
  - intros t d md b t' Hrep H. apply (pg_SetManifest_repr md b t d) in H; [|done]. by eexists.
  - intros t d m t' Hrep H. by apply (pg_SetManifestModel_repr m t d) in H.
Qed.

(** An entry whose names the database accepts. *)
Definition accepted_entry (x : entry) : Prop :=
  match x with
  | EntryObject o => accepts (o_type o) = true /\ accepts (o_id o) = true
  | EntryRelation r => Forall (fun s => accepts s = true) (texts (r_ident r))
  end.

Context (src_send cli_send dst_send : nat -> option err) (withBody withModel : bool).
Context (clock : nat -> Timestamp) (object_first : bool) (seen : nat).

(** C11: Migrating a BoltDB directory to Postgres copies it: where the streams work, the options ask for the data,
    without statistics, and the manifest is asked for with its body and without its model, by a request that the
    validator accepts, the source has a manifest, every entry of it can be written as a line of JSON within the
    reader's limit and has names that the database accepts (UTF-8 without NUL, as the etags are), the commit of a
    transaction that is not aborted succeeds, and the destination has no objects or relations and accepts the
    manifest, the run succeeds, the destination has the source's manifest, every object and relation in it is one of
    the source with the same content, and none is missing unless the import counted an error (or the source has
    2^64 entries, when a counter could wrap). *)
Theorem migrate_copies ts opts (t1 : @tx model bolt_tx) d1 md body (s2 : @server model pg_tx A) d2 s2m :
  repr t1 d1 -> d_metadata d1 = Some md -> d_body d1 = Some body -> (forall x, exported d1 x -> exportable x) ->
  (forall x, exported d1 x -> accepted_entry x) -> etags_accepted ->
  has_option opts OPTION_STATS = false -> has_option opts OPTION_DATA_OBJECTS = true ->
  has_option opts OPTION_DATA_RELATIONS = true -> withBody = true -> withModel = false ->
  0 < MaxChunkSizeBytes -> validator_GetManifestRequest = None ->
  (forall n, src_send n = None) -> cli_send = (fun _ => None) -> (forall n, dst_send n = None) ->
  (forall t, is_Some (contents t) -> Commit t = None) ->
  pg_repr (srv_tx s2) d2 -> d_objs d2 = ∅ -> d_rels d2 = ∅ ->
  Transfer.SetManifest cli_send ts (bytes_Reader (body_data body)) s2 = (None, s2m) ->
  exists reqs w s2' d',
    migrate_Run src_send cli_send dst_send withBody withModel clock object_first seen ts opts t1 s2 = (None, s2') /\
    Import dst_send (srv_mc s2m) object_first (events clock reqs) (srv_tx s2m) = (Ok w, srv_tx s2') /\
    pg_repr (srv_tx s2') d' /\ d_body d' = Some (MkBody (body_data body)) /\ copied d1 d' /\
    (no_errors w -> (Z.of_nat (dir_size d1) < 2 ^ 64)%Z -> complete d1 d').
Proof.
  intros Hr1 Hmd Hb Hx Hacc He H1 H2 H3 Hwb Hwm HM Hv Hs Hc Hd Hcm Hr2 Ho Hr Hset.
  pose proof (pg_destination He) as Hdest.
  apply (migrate_Run_copies (T1 := bolt_tx) (T2 := pg_tx) (R2 := pg_repr) (W2 := accepted_request) src_send cli_send dst_send withBody withModel clock
    object_first seen ts opts t1 d1 md body s2 d2 s2m); try done.
  - intros t d (tb & Ht & _). unfold commit_err, pg_store. rewrite Hcm; [done|]. by exists tb.
  - intros x Hin%Hacc. split; [by destruct x|]. by destruct x.
Qed.
End ToPostgres.

Module ToPostgresExamples.
Import Concrete ModelExamples MapPg TransferExamples.
#[local] Existing Instances params TransferExamples.options TransferExamples.json TransferExamples.json_laws.

Definition pg_target : @server model pg_tx azm := MkServer no_tables mc0.
Definition pg_accepting : @server model pg_tx azm :=
  (Transfer.SetManifest (fun _ => None) ts1 (bytes_Reader "model: v3") pg_target).2.
Lemma pg_target_accepts :
  Transfer.SetManifest (fun _ => None) ts1 (bytes_Reader "model: v3") pg_target = (None, pg_accepting).
Proof.
  assert ((Transfer.SetManifest (fun _ => None) ts1 (bytes_Reader "model: v3") pg_target).1 = None) as H
    by (vm_compute; reflexivity).
  unfold pg_accepting. by destruct (Transfer.SetManifest _ _ _ _) as [[]].
Qed.

(** Texts of binary digits. *)
Lemma bits_accepted p : text_ok (bits p) = true.
Proof.
  unfold text_ok. rewrite andb_true_iff, negb_true_iff. split; [|by apply bits_chars].
  induction p as [p IH|p IH|]; cbn [bits]; [..|done]; exact IH.
Qed.
Lemma digit_accepted p : text_ok ("1" +:+ bits p) = true.
Proof.
  pose proof (bits_accepted p) as H. unfold text_ok in *. apply andb_true_iff in H as [H1 H2%negb_true_iff].
  apply andb_true_iff. split; [exact H1|]. by rewrite contains_app, H2.
Qed.

Lemma dir1_accepted (d : directory model) x :
  d_objs d = d_objs dir1 -> d_rels d = d_rels dir1 -> exported d x -> accepted_entry x.
Proof.
  intros Ho Hr. destruct x as [o|r]; simpl; rewrite ?Ho, ?Hr.
  - intros (o' & H & ->). simpl in H. apply lookup_insert_Some in H as [[_ <-]|[_ H]]; [|done].
    split; vm_compute; reflexivity.
  - intros H. simpl in H.
    repeat (apply lookup_insert_Some in H as [[_ <-]|[_ H]]; [repeat constructor|]). done.
Qed.

Lemma migrate_copies_witness :
  exists s2' d', migrate_Run (fun _ => None) (fun _ => None) (fun _ => None) true false (fun _ => ts2) true 0 ts1 24 source pg_target
      = (None, s2') /\ pg_repr (srv_tx s2') d' /\ d_body d' = Some (MkBody "model: v3") /\
    forall i, is_Some (d_rels d' !! i) -> is_Some (d_rels dir1 !! i).
Proof.
  destruct source_repr as (d & md & Hr & Ho & Hrel & Hmd & Hb).
  destruct (migrate_copies (X := TransferExamples.options) (J := TransferExamples.json) (fun _ => None) (fun _ => None) (fun _ => None)
    true false (fun _ => ts2) true 0 ts1 24
    source d md (MkBody "model: v3") pg_target empty_dir pg_accepting Hr Hmd Hb
    (fun x => dir1_exportable d x Ho Hrel) (fun x => dir1_accepted d x Ho Hrel))
    as (reqs & w & s2' & d' & H & _ & Hr' & Hb' & Hc & _).
  - split; intros; apply digit_accepted.
  - reflexivity.
  - reflexivity.
  - reflexivity.
  - reflexivity.
  - reflexivity.
  - simpl. lia.
  - reflexivity.
  - reflexivity.
  - reflexivity.
  - reflexivity.
  - intros t [tb Ht]. cbn in *. by rewrite Ht.
  - exact no_tables_repr.
  - reflexivity.
  - reflexivity.
  - exact pg_target_accepts.
  - exists s2', d'. split; [exact H|]. split; [exact Hr'|]. split; [exact Hb'|]. rewrite <-Hrel. exact (proj2 Hc).
Defined.
End ToPostgresExamples.
