(* ===== verification/Archive.v ===== *)
(** * Backups: the archive, its extraction and the restore

    [mrld/clients/directory/backup.go] ([BackupToFile]) and [restore.go] ([RestoreFromFile],
    [extractFiles], [writeStreamToDisk]): a backup is an archive of three files, the manifest and the
    lines of the objects and of the relations; a restore extracts them into a new folder and imports
    them.  The gzip and tar formats are the standard library's: an archive is the list of its entries, as
    [tar.Reader.Next] returns them. *)
From Stdlib Require Import Ascii.
From S2P Require Import Prelude Bytes Text Paths Messages Hash Keys Store Bolt Bdb.
From S2P Require Import BdbTx Ds Service Instances DsFacts Writer Importer Exporter Model Policies Transfer.

Inductive typeflag := TypeReg | TypeLink | TypeSymlink | TypeOther (c : ascii).
Record header := MkHeader { Typeflag : typeflag; Name : string }.
(** An entry with its data and the error that ends it, if any; or an error instead of the entry. *)
Inductive tar_event := TarEntry (h : header) (data : string) (read_err : option err) | TarError (e : err).

Definition ManifestFile : string := "manifest.yaml".
Definition ObjectsFile : string := "objects.jsonl".
Definition RelationsFile : string := "relations.jsonl".
Definition maxManifestSize : Z := (4 * 1024 * 1024)%Z.
Definition maxJsonlSize : Z := (4 * 1024 * 1024 * 1024)%Z.

(** The files of the temporary folder, by path. *)
Abbreviation files := (gmap string string).
Abbreviation fsM := (M files).

Section Disk.
(** [os.Create], [os.OpenFile] and [os.Open] on a path. *)
Context (create_err open_err : string -> option err).

Definition os_Create (path : string) : fsM unit := fun fs =>
  match create_err path with Some e => (Fail e, fs) | None => (Ok tt, <[path := ""]> fs) end.
Definition write_file (path data : string) : fsM unit := fun fs => (Ok tt, <[path := data]> fs).
Definition os_Open (path : string) (fs : files) : res string :=
  match open_err path with
  | Some e => Fail e
  | None => match fs !! path with Some data => Ok data | None => Fail (new_error ("open " +:+ path +:+ ": no such file or directory")) end
  end.

(** ** Extraction *)

(** A status of code [Aborted]; only its text is used. *)
Definition size_error (limit : Z) : err :=
  new_error ("rpc error: code = Aborted desc = file size exceeded allowed limit of " +:+ FormatUint limit +:+ " bytes").
(** [err.Error()], less the messages that were added to an error that has an identifier. *)
Definition err_text (e : err) : string := match e with XErr _ w => w | AErr _ _ text _ => text | DErr name _ => name end.

(** At most [limit] bytes are written.  A read error after exactly [limit] bytes is not noticed. *)
Definition writeStreamToDisk (data : string) (read_err : option err) (destPath : string) (limit : Z) : fsM unit :=
  do! os_Create destPath;
  if (Z.of_nat (String.length data) <? limit)%Z then
    do! write_file destPath data;
    guard read_err
  else if (Z.of_nat (String.length data) =? limit)%Z then write_file destPath data
  else
    do! write_file destPath (String.substring 0 (Z.to_nat limit) data);
    fail (size_error limit).

(** The limit of each file that a backup has. *)
Definition sizeLimit (baseName : string) : option Z :=
  if String.eqb baseName ManifestFile then Some maxManifestSize
  else if String.eqb baseName ObjectsFile || String.eqb baseName RelationsFile then Some maxJsonlSize
  else None.

Definition escapes (cleanedName : string) : bool := HasPrefix cleanedName ".." || HasPrefix cleanedName "/".

Fixpoint extract_loop (dirPath : string) (tr : list tar_event) (processedFiles : gset string) : fsM unit :=
  match tr with
  | [] => ret tt
  | TarError e :: _ => fail (Errorf "failed reading tar header" e)
  | TarEntry h data read_err :: tr =>
      match Typeflag h with
      | TypeSymlink | TypeLink =>
          fail (XErr Internal "security violation: symbolic or hard links are strictly forbidden")
      | TypeOther _ => extract_loop dirPath tr processedFiles
      | TypeReg =>
          let cleanedName := filepath_Clean (Name h) in
          if escapes cleanedName then
            fail (XErr Internal ("security violation: invalid file path traversal detected: " +:+ Name h))
          else
            let baseName := filepath_Base cleanedName in
            match sizeLimit baseName with
            | None => fail (XErr Internal ("unexpected file type found in tarball: " +:+ baseName))
            | Some limit =>
                if bool_decide (baseName ∈ processedFiles) then
                  fail (XErr Internal ("duplicate file entry detected: " +:+ baseName))
                else
                  do! (fun fs => match writeStreamToDisk data read_err (filepath_Join [dirPath; baseName]) limit fs with
                                 | (Ok _, fs) => (Ok tt, fs)
                                 | (Fail e, fs) => (Fail (XErr Internal ("failed writing " +:+ baseName +:+ " to disk: " +:+ err_text e)), fs)
                                 end);
                  extract_loop dirPath tr ({[baseName]} ∪ processedFiles)
            end
      end
  end.
Definition extractFiles (tr : list tar_event) (dirPath : string) : fsM unit := extract_loop dirPath tr ∅.
End Disk.

(** ** What is extracted *)

Section ExtractFacts.
Context (create_err : string -> option err) (dirPath : string).

Definition base_of (h : header) : string := filepath_Base (filepath_Clean (Name h)).

(** An entry that does not stop the extraction. *)
Definition acceptable (ev : tar_event) : Prop :=
  match ev with
  | TarError _ => False
  | TarEntry h data read_err =>
      match Typeflag h with
      | TypeSymlink | TypeLink => False
      | TypeOther _ => True
      | TypeReg =>
          HasPrefix (filepath_Clean (Name h)) ".." = false /\ HasPrefix (filepath_Clean (Name h)) "/" = false /\
          exists limit, sizeLimit (base_of h) = Some limit /\
            (Z.of_nat (String.length data) <= limit)%Z /\
            (read_err = None \/ Z.of_nat (String.length data) = limit)
      end
  end.
Definition regular (ev : tar_event) : option (string * string) :=
  match ev with
  | TarEntry (MkHeader TypeReg _ as h) data _ => Some (base_of h, data)
  | _ => None
  end.
Definition put (fs : files) (e : string * string) : files := <[filepath_Join [dirPath; e.1] := e.2]> fs.

Lemma writeStream_ok data read_err path limit fs :
  create_err path = None ->
  (Z.of_nat (String.length data) <= limit)%Z -> (read_err = None \/ Z.of_nat (String.length data) = limit) ->
  writeStreamToDisk create_err data read_err path limit fs = (Ok tt, <[path := data]> fs).
Proof.
  intros Hc Hl Hr. unfold writeStreamToDisk, bind, os_Create. rewrite Hc.
  destruct (Z.ltb_spec (Z.of_nat (String.length data)) limit).
  - unfold write_file, guard. destruct Hr as [->|]; [|lia]. unfold ret. by rewrite insert_insert_eq.
  - destruct (Z.eqb_spec (Z.of_nat (String.length data)) limit); [|lia]. unfold write_file. by rewrite insert_insert_eq.
Qed.

Lemma writeStream_inv data read_err path limit fs r fs' :
  writeStreamToDisk create_err data read_err path limit fs = (r, fs') ->
  (fs' = fs \/ exists d, fs' = <[path := d]> fs /\ (Z.of_nat (String.length d) <= Z.max 0 limit)%Z) /\
  (r = Ok tt -> fs' = <[path := data]> fs /\ (Z.of_nat (String.length data) <= limit)%Z /\
     (read_err = None \/ Z.of_nat (String.length data) = limit)).
Proof.
  unfold writeStreamToDisk, bind, os_Create. destruct (create_err path); [intros [= <- <-]; split; [by left|done]|].
  destruct (Z.ltb_spec (Z.of_nat (String.length data)) limit).
  - unfold write_file, guard. destruct read_err; intros [= <- <-]; rewrite insert_insert_eq;
      (split; [right; exists data; split; [done|lia]|]); [done|]. intros _. split; [done|]. split; [lia|by left].
  - destruct (Z.eqb_spec (Z.of_nat (String.length data)) limit); unfold write_file; intros [= <- <-];
      rewrite insert_insert_eq; (split; [right|]).
    + exists data. split; [done|lia].
    + intros _. split; [done|]. split; [lia|by right].
    + eexists. split; [done|]. rewrite length_substring by lia. lia.
    + done.
Qed.

Lemma sizeLimit_pos name limit : sizeLimit name = Some limit -> (0 < limit)%Z.
Proof. unfold sizeLimit, maxManifestSize, maxJsonlSize. repeat case_match; intros [= <-]; lia. Qed.

Lemma extract_loop_confined tr : forall processed fs r fs',
  extract_loop create_err dirPath tr processed fs = (r, fs') -> forall p, fs' !! p <> fs !! p ->
  exists name limit data, p = filepath_Join [dirPath; name] /\ sizeLimit name = Some limit /\
    fs' !! p = Some data /\ (Z.of_nat (String.length data) <= limit)%Z.
Proof.
  induction tr as [|[h data rerr|e] tr IH]; intros processed fs r fs'; cbn [extract_loop]; try (by intros [= <- <-]).
  destruct (Typeflag h); try (by intros [= <- <-]); [|by apply IH].
  destruct (escapes _); [by intros [= <- <-]|]. destruct (sizeLimit _) as [limit|] eqn:Hl; [|by intros [= <- <-]].
  case_bool_decide; [by intros [= <- <-]|]. unfold bind.
  destruct (writeStreamToDisk _ _ _ _ _ fs) as [w fs1] eqn:Hw. pose proof (sizeLimit_pos _ _ Hl).
  apply writeStream_inv in Hw as [Hfs _].
  assert (Hstep : forall p, fs1 !! p <> fs !! p -> exists data, p = filepath_Join [dirPath; base_of h] /\
      fs1 !! p = Some data /\ (Z.of_nat (String.length data) <= limit)%Z).
  { destruct Hfs as [->|(d & -> & Hd)]; [done|]. intros p. rewrite lookup_insert. case_decide; [|done]. subst.
    intros _. exists d. split_and!; [done..|lia]. }
  intros Hrun p Hp. destruct w as [[]|e].
  - destruct (decide (fs' !! p = fs1 !! p)) as [Heq|Hne]; [|by eapply IH].
    rewrite Heq in *. destruct (Hstep p Hp) as (d & ? & ? & ?). by exists (base_of h), limit, d.
  - injection Hrun as <- <-. destruct (Hstep p Hp) as (d & ? & ? & ?). by exists (base_of h), limit, d.
Qed.

Lemma extract_loop_exact tr : (forall p, create_err p = None) -> forall processed fs fs',
  extract_loop create_err dirPath tr processed fs = (Ok tt, fs') <->
  Forall acceptable tr /\ NoDup (omap regular tr).*1 /\
    (forall n, n ∈ (omap regular tr).*1 -> n ∉ processed) /\ fs' = fold_left put (omap regular tr) fs.
Proof.
  intros Hc. induction tr as [|[h data rerr|e] tr IH]; intros processed fs fs'; cbn [extract_loop].
  - unfold ret. simpl. split; [intros [= <-]|intros (_ & _ & _ & ->); done].
    split_and!; [constructor|constructor|set_solver|done].
  - rewrite Forall_cons. destruct h as [[]]; simpl.
    + destruct (escapes _) eqn:Hesc; unfold escapes in Hesc.
      { split; [done|]. intros [[(H1 & H2 & _) _] _]. by rewrite H1, H2 in Hesc. }
      apply orb_false_iff in Hesc as [Hesc1 Hesc2].
      unfold base_of at 1 2. cbn [Name].
      destruct (sizeLimit _) as [limit|] eqn:Hl; [|split; [done|by intros [[(_ & _ & ? & ? & _) _] _]]].
      set (base := filepath_Base (filepath_Clean Name0)) in *. split.
      * case_bool_decide as Hin; [done|]. unfold bind.
        destruct (writeStreamToDisk _ _ _ _ _ fs) as [[[]|] fs1] eqn:Hw; [|done].
        apply writeStream_inv in Hw as [_ Hw]. destruct (Hw eq_refl) as (-> & Hsz & Hrd).
        rewrite IH. intros (Ha & Hn & Hp & ->). rewrite NoDup_cons. split_and!; try done; [by exists limit| |].
        -- intros Hb%Hp. set_solver.
        -- intros n Hn'. apply elem_of_cons in Hn' as [->|Hn']; [done|]. apply Hp in Hn'. set_solver.
      * intros ([(_ & _ & limit' & [= <-] & Hsz & Hrd) Ha] & [Hb Hn]%NoDup_cons & Hp & ->).
        rewrite bool_decide_false by (apply Hp; left). unfold bind. rewrite (writeStream_ok _ _ _ _ _ (Hc _) Hsz Hrd).
        rewrite IH. split_and!; try done. intros n Hn'. pose proof (Hp n). set_solver.
    + split; [done|by intros [[] _]].
    + split; [done|by intros [[] _]].
    + rewrite IH. naive_solver.
  - rewrite Forall_cons. split; [done|by intros [[] _]].
Qed.
End ExtractFacts.

(** C13: Extraction is confined: whatever the archive holds and however the extraction ends, every file that it
    created or changed is one of the three files of a backup, directly in the folder, and no longer than the
    limit for that file. *)
Theorem extract_confined create_err tr dirPath fs r fs' :
  extractFiles create_err tr dirPath fs = (r, fs') -> forall p, fs' !! p <> fs !! p ->
  exists name limit data, p = filepath_Join [dirPath; name] /\ sizeLimit name = Some limit /\
    fs' !! p = Some data /\ (Z.of_nat (String.length data) <= limit)%Z.
Proof. apply extract_loop_confined. Qed.

(** Extraction is exact: on a disk that accepts the files it succeeds for exactly the archives without links,
    escaping paths, unexpected names, duplicates, entries over their limit or broken ones, and then each file
    holds the data of its entry. *)
Theorem extract_exact create_err tr dirPath fs fs' :
  (forall p, create_err p = None) ->
  extractFiles create_err tr dirPath fs = (Ok tt, fs') <->
  Forall acceptable tr /\ NoDup (omap regular tr).*1 /\ fs' = fold_left (put dirPath) (omap regular tr) fs.
Proof.
  intros Hc. unfold extractFiles. rewrite (extract_loop_exact create_err dirPath tr Hc).
  split; [by intros (? & ? & _ & ?)|]. intros (? & ? & ?). split_and!; try done.
Qed.

(** ** Backup and restore *)

Section Backup.
Context {model : Type} {T1 T2 : TxOps model} {A : Azm model} {C2 : @StoreOps model T2} {V : Validator}
  {P : ModelParams model} {X : ExportOptions} {J : ProtoJson}.
Context (create_err open_err : string -> option err) (mkdir_err : option err).
Context (src_send cli_send dst_send : nat -> option err) (withBody withModel : bool).
Context (clock : nat -> Timestamp) (object_first : bool) (seen : nat).

(** What [GetManifest] and [ExportToFile] receive from the source. *)
Definition source_manifest (t1 : @tx model T1) : res string :=
  let '(msgs, e) := stream_of (Model_GetManifest src_send unconditional withBody withModel t1 []) in GetManifest msgs e.
Definition source_lines (opts : Z) (t1 : @tx model T1) : option err * string :=
  let '(msgs, e) := stream_of (Export src_send opts t1 []) in ExportToFile msgs e "".

Definition getManifestFile (t1 : @tx model T1) (fqn : string) : fsM unit :=
  let! manReader := lift (source_manifest t1) in
  do! os_Create create_err fqn;
  write_file fqn manReader.
Definition getLinesFile (opts : Z) (t1 : @tx model T1) (fqn : string) : fsM unit :=
  do! os_Create create_err fqn;
  let '(e, text) := source_lines opts t1 in
  do! write_file fqn text;
  guard e.
Definition getObjectsFile (t1 : @tx model T1) : string -> fsM unit := getLinesFile OPTION_DATA_OBJECTS t1.
Definition getRelationsFile (t1 : @tx model T1) : string -> fsM unit := getLinesFile OPTION_DATA_RELATIONS t1.

(** An entry is named after the file, without its folder. *)
Definition addToArchive (filename : string) (fs : files) : res tar_event :=
  rmap (fun data => TarEntry (MkHeader TypeReg (filepath_Base filename)) data None) (os_Open open_err filename fs).

Fixpoint createTar (fqns : list string) (fs : files) (tw : list tar_event) : option err * list tar_event :=
  match fqns with
  | [] => (None, tw)
  | fqn :: fqns =>
      match addToArchive fqn fs with
      | Fail e => (Some e, tw)
      | Ok ev => createTar fqns fs (tw ++ [ev])
      end
  end.

(** [tmpDir] is new and empty, and removed at the end. *)
Definition BackupToFile (tmpDir : string) (t1 : @tx model T1) : option err * list tar_event :=
  match mkdir_err with
  | Some e => (Some e, [])
  | None =>
      let dirPath := filepath_Join [tmpDir; "backup"] in
      let manifestFQN := filepath_Join [dirPath; ManifestFile] in
      let objectsFQN := filepath_Join [dirPath; ObjectsFile] in
      let relationsFQN := filepath_Join [dirPath; RelationsFile] in
      let gather :=
        do! getManifestFile t1 manifestFQN;
        do! getObjectsFile t1 objectsFQN;
        getRelationsFile t1 relationsFQN in
      match gather ∅ with
      | (Fail e, _) => (Some e, [])
      | (Ok _, fs) => createTar [manifestFQN; objectsFQN; relationsFQN] fs []
      end
  end.

(** [gz]: the entries, or the error of [gzip.NewReader].  A regular file is read in full blocks. *)
Definition RestoreFromFile (tmpDir : string) (ts : Timestamp) (gz : res (list tar_event)) (s2 : @server model T2 A)
  : option err * @server model T2 A :=
  match mkdir_err with
  | Some e => (Some e, s2)
  | None =>
  let dirPath := filepath_Join [tmpDir; "restore"] in
  match gz with
  | Fail e => (Some e, s2)
  | Ok tr =>
  match extractFiles create_err tr dirPath ∅ with
  | (Fail e, _) => (Some e, s2)
  | (Ok _, fs) =>
  match os_Open open_err (filepath_Join [dirPath; ManifestFile]) fs with
  | Fail e => (Some e, s2)
  | Ok manifest =>
  match SetManifest cli_send ts (bytes_Reader manifest) s2 with
  | (Some e, s2) => (Some e, s2)
  | (None, s2) =>
  match os_Open open_err (filepath_Join [dirPath; ObjectsFile]) fs with
  | Fail e => (Some e, s2)
  | Ok objects =>
  match ImportFromFile cli_send dst_send clock object_first seen objects None s2 with
  | (Some e, s2) => (Some e, s2)
  | (None, s2) =>
  match os_Open open_err (filepath_Join [dirPath; RelationsFile]) fs with
  | Fail e => (Some e, s2)
  | Ok relations => ImportFromFile cli_send dst_send clock object_first seen relations None s2
  end end end end end end end end.

(** ** A backup is restored *)

Context {L1 : @TxLaws model T1} {L2 : @TxLaws model T2} {AL : AzmLaws model A} {JL : ProtoJsonLaws J}.

(** [dse.Option]: distinct bits. *)
Definition distinct_options : Prop :=
  has_option OPTION_DATA_OBJECTS OPTION_STATS = false /\ has_option OPTION_DATA_RELATIONS OPTION_STATS = false /\
  has_option OPTION_DATA_OBJECTS OPTION_DATA_OBJECTS = true /\ has_option OPTION_DATA_OBJECTS OPTION_DATA_RELATIONS = false /\
  has_option OPTION_DATA_RELATIONS OPTION_DATA_OBJECTS = false /\ has_option OPTION_DATA_RELATIONS OPTION_DATA_RELATIONS = true.

Definition file_entry (name data : string) : tar_event := TarEntry (MkHeader TypeReg name) data None.
Definition backup_of (manifest objects relations : string) : list tar_event :=
  [file_entry ManifestFile manifest; file_entry ObjectsFile objects; file_entry RelationsFile relations].

Lemma BackupToFile_gathers tmpDir t1 manifest objects relations :
  mkdir_err = None -> (forall p, create_err p = None) -> (forall p, open_err p = None) ->
  source_manifest t1 = Ok manifest -> source_lines OPTION_DATA_OBJECTS t1 = (None, objects) ->
  source_lines OPTION_DATA_RELATIONS t1 = (None, relations) ->
  BackupToFile tmpDir t1 = (None, backup_of manifest objects relations).
Proof.
  intros Hm Hc Ho Hman Hobj Hrel. unfold BackupToFile. rewrite Hm.
  unfold getManifestFile, getObjectsFile, getRelationsFile, getLinesFile, bind, lift, os_Create, write_file.
  rewrite Hman, Hobj, Hrel, !Hc. unfold guard, ret.
  set (dirPath := filepath_Join [tmpDir; "backup"]).
  cbn [createTar]. unfold addToArchive, os_Open. rewrite !Ho.
  rewrite !insert_insert_eq.
  rewrite lookup_insert_ne by (by apply Join_ne). rewrite lookup_insert_ne by (by apply Join_ne). rewrite lookup_insert_eq.
  cbn [rmap]. rewrite lookup_insert_ne by (by apply Join_ne). rewrite lookup_insert_eq. cbn [rmap].
  rewrite lookup_insert_eq. cbn [rmap]. rewrite !Base_Join by done. done.
Qed.

Lemma extract_backup dirPath manifest objects relations :
  (forall p, create_err p = None) -> (Z.of_nat (String.length manifest) <= maxManifestSize)%Z ->
  (Z.of_nat (String.length objects) <= maxJsonlSize)%Z -> (Z.of_nat (String.length relations) <= maxJsonlSize)%Z ->
  exists fs, extractFiles create_err (backup_of manifest objects relations) dirPath ∅ = (Ok tt, fs) /\
    fs !! filepath_Join [dirPath; ManifestFile] = Some manifest /\
    fs !! filepath_Join [dirPath; ObjectsFile] = Some objects /\
    fs !! filepath_Join [dirPath; RelationsFile] = Some relations.
Proof.
  intros Hc H1 H2 H3. eexists. split.
  { apply (extract_loop_exact create_err dirPath _ Hc). split_and!; [|vm_compute; by repeat constructor; set_solver|set_solver|done].
    repeat constructor; eexists; (split; [reflexivity|]); (split; [done|by left]). }
  cbn [omap list_omap backup_of regular file_entry base_of fold_left]. unfold put. simpl fst. simpl snd.
  split_and!.
  - rewrite lookup_insert_ne by (by apply Join_ne). rewrite lookup_insert_ne by (by apply Join_ne). by rewrite lookup_insert_eq.
  - rewrite lookup_insert_ne by (by apply Join_ne). by rewrite lookup_insert_eq.
  - by rewrite lookup_insert_eq.
Qed.

Lemma source_exports t1 d1 :
  repr t1 d1 -> (forall n, src_send n = None) -> distinct_options -> (forall x, exported d1 x -> exportable x) ->
  exists os rs objects relations, NoDup (entry_key <$> os ++ rs) /\ (forall x, x ∈ os ++ rs <-> exported d1 x) /\
    source_lines OPTION_DATA_OBJECTS t1 = (None, objects) /\ source_lines OPTION_DATA_RELATIONS t1 = (None, relations) /\
    importFromReader (fun _ => None) objects None = (request_of <$> os, None) /\
    importFromReader (fun _ => None) relations None = (request_of <$> rs, None).
Proof.
  intros Hr Hs (S1 & S2 & O1 & O2 & R1 & R2) Hx.
  destruct (Export_entries src_send t1 d1 Hr Hs) as (os & rs & He & Hnd & Hxs).
  assert (Forall exportable (os ++ rs)) as [Fo Fr]%Forall_app.
  { apply Forall_forall. intros x Hin. by apply Hx, Hxs. }
  destruct (export_import_lines os Fo) as (objects & Eo & Io), (export_import_lines rs Fr) as (relations & Er & Ir).
  exists os, rs, objects, relations. split_and!; try done; unfold source_lines, stream_of.
  - rewrite (He _ S1), O1, O2, app_nil_r. exact Eo.
  - rewrite (He _ S2), R1, R2, app_nil_l. exact Er.
Qed.

(** C12: A backup restores to a copy: a backup over working streams succeeds, and where the files are within the
    limits of the archive, its restore into a directory without data that accepts the manifest succeeds; the
    directory then has the manifest, only objects and relations of the original with the same content, and
    all of them unless one of the two imports counted an error. *)
Theorem backup_restores tmp1 tmp2 ts t1 d1 md body s2 d2 s2m :
  repr t1 d1 -> d_metadata d1 = Some md -> d_body d1 = Some body -> (forall x, exported d1 x -> exportable x) ->
  distinct_options -> withBody = true -> withModel = false -> 0 < MaxChunkSizeBytes -> validator_GetManifestRequest = None ->
  mkdir_err = None -> (forall p, create_err p = None) -> (forall p, open_err p = None) ->
  (forall n, src_send n = None) -> cli_send = (fun _ => None) -> (forall n, dst_send n = None) ->
  (forall t, @commit_err model T2 C2 t = None) ->
  repr (srv_tx s2) d2 -> d_objs d2 = ∅ -> d_rels d2 = ∅ ->
  SetManifest cli_send ts (bytes_Reader (body_data body)) s2 = (None, s2m) ->
  exists objects relations, BackupToFile tmp1 t1 = (None, backup_of (body_data body) objects relations) /\
    ((Z.of_nat (String.length (body_data body)) <= maxManifestSize)%Z ->
     (Z.of_nat (String.length objects) <= maxJsonlSize)%Z -> (Z.of_nat (String.length relations) <= maxJsonlSize)%Z ->
     exists w1 t' w2 s2' d' reqs1 reqs2,
       RestoreFromFile tmp2 ts (Ok (backup_of (body_data body) objects relations)) s2 = (None, s2') /\
       Import dst_send (srv_mc s2m) object_first (events clock reqs1) (srv_tx s2m) = (Ok w1, t') /\
       Import dst_send (srv_mc s2m) object_first (events clock reqs2) t' = (Ok w2, srv_tx s2') /\
       repr (srv_tx s2') d' /\ d_body d' = Some (MkBody (body_data body)) /\ copied d1 d' /\
       (no_errors w1 -> no_errors w2 -> (Z.of_nat (dir_size d1) < 2 ^ 64)%Z -> complete d1 d')).
Proof.
  intros Hr1 Hmd Hb Hx Hopt Hwb Hwm HM Hv Hmk Hcr Hop Hs Hcl Hd Hcm Hr2 Ho Hrel Hset.
  destruct (GetManifest_source src_send withBody withModel t1 d1 md body) as (msgs & Hg & Hgm); try done.
  destruct (source_exports t1 d1 Hr1 Hs Hopt Hx) as (os & rs & objects & relations & Hnd & Hxs & Eo & Er & Io & Ir).
  exists objects, relations. split.
  { apply BackupToFile_gathers; try done. unfold source_manifest. by rewrite Hg. }
  intros Hl1 Hl2 Hl3.
  destruct (SetManifest_dest (R2 := repr) (W2 := wf_request) cli_send ts (body_data body) s2 d2 s2m) as (d2m & Hr2m & Eom & Erm & Ebm);
    [intros n; by rewrite Hcl|done|done|].
  destruct (import_two (R2 := repr) (W2 := wf_request) src_send cli_send dst_send clock object_first seen (srv_mc s2m) os rs (srv_tx s2m) d1 d2m)
    as (w1 & t' & w2 & t'' & d' & Hi1 & Hi2 & Hr' & Hcp & Hcomp & Hb'); try done;
    [exact (@repr_wf model T1 L1 t1 d1 Hr1)|intros x; apply exported_wf, (@repr_wf model T1 L1 t1 d1 Hr1)
    |by rewrite Eom|by rewrite Erm|].
  exists w1, t', w2, (MkServer t'' (srv_mc s2m)), d', (request_of <$> os), (request_of <$> rs).
  split_and!; try done; [|by rewrite Hb'].
  destruct (extract_backup (filepath_Join [tmp2; "restore"]) (body_data body) objects relations Hcr Hl1 Hl2 Hl3)
    as (fs & Hext & F1 & F2 & F3).
  unfold RestoreFromFile. rewrite Hmk, Hext. unfold os_Open. rewrite !Hop, F1, Hset, F2.
  rewrite <-Hcl in Io, Ir.
  rewrite (ImportFromFile_read _ _ _ _ _ _ _ _ Io), Hi1. rewrite F3, (ImportFromFile_read _ _ _ _ _ _ _ _ Ir).
  cbn [srv_mc srv_tx]. by rewrite Hi2.
Qed.
End Backup.

Module ArchiveExamples.
Import Concrete ModelExamples TransferExamples.
#[local] Existing Instances params TransferExamples.options TransferExamples.json TransferExamples.json_laws.

Definition no_err (_ : string) : option err := None.

(** An archive whose second entry leaves the folder: the first is extracted, the second is refused. *)
Definition hostile : list tar_event :=
  [file_entry "data/manifest.yaml" "model: v3"; file_entry "a/../../objects.jsonl" "{}"].
Definition hostile_files : files := (extractFiles no_err hostile "/tmp/r" ∅).2.

Example hostile_stops : is_ok (extractFiles no_err hostile "/tmp/r" ∅).1 = false.
Proof. vm_compute. reflexivity. Qed.

Lemma extract_confined_witness :
  exists name limit data, "/tmp/r/manifest.yaml" = filepath_Join ["/tmp/r"; name] /\ sizeLimit name = Some limit /\
    hostile_files !! "/tmp/r/manifest.yaml" = Some data /\ (Z.of_nat (String.length data) <= limit)%Z.
Proof.
  apply (extract_confined no_err hostile "/tmp/r" ∅ (extractFiles no_err hostile "/tmp/r" ∅).1 hostile_files).
  - unfold hostile_files. by destruct (extractFiles no_err hostile "/tmp/r" ∅).
  - vm_compute. discriminate.
Defined.

Lemma extract_exact_witness :
  extractFiles no_err hostile "/tmp/r" ∅ = (Ok tt, hostile_files) <->
  Forall acceptable hostile /\ NoDup (omap regular hostile).*1 /\
    hostile_files = fold_left (put "/tmp/r") (omap regular hostile) ∅.
Proof. apply (extract_exact no_err hostile "/tmp/r" ∅ hostile_files). reflexivity. Defined.

Lemma backup_restores_witness :
  exists objects relations,
    BackupToFile no_err no_err None (fun _ => None) true false "/tmp/b" source =
      (None, backup_of "model: v3" objects relations) /\
    ((Z.of_nat (String.length objects) <= maxJsonlSize)%Z -> (Z.of_nat (String.length relations) <= maxJsonlSize)%Z ->
     exists s2', RestoreFromFile no_err no_err None (fun _ => None) (fun _ => None) (fun _ => ts2) true 0 "/tmp/r" ts1
       (Ok (backup_of "model: v3" objects relations)) target = (None, s2')).
Proof.
  destruct source_repr as (d & md & Hr & Ho & Hrel & Hmd & Hb).
  destruct (backup_restores (X := TransferExamples.options) (J := TransferExamples.json) no_err no_err None
    (fun _ => None) (fun _ => None) (fun _ => None) true false (fun _ => ts2) true 0 "/tmp/b" "/tmp/r" ts1
    source d md (MkBody "model: v3") target empty_dir accepted Hr Hmd Hb
    (fun x => dir1_exportable d x Ho Hrel)) as (objects & relations & Hbk & Hrs).
  - unfold distinct_options. split_and!; reflexivity.
  - reflexivity.
  - reflexivity.
  - simpl. lia.
  - reflexivity.
  - reflexivity.
  - reflexivity.
  - reflexivity.
  - reflexivity.
  - reflexivity.
  - reflexivity.
  - intros t. reflexivity.
  - exact db_repr.
  - reflexivity.
  - reflexivity.
  - exact target_accepts.
  - exists objects, relations. split; [exact Hbk|]. intros H1 H2.
    destruct Hrs as (w1 & t' & w2 & s2' & d' & r1 & r2 & Hrun & _); [vm_compute; discriminate|exact H1|exact H2|].
    exists s2'. exact Hrun.
Defined.
End ArchiveExamples.
