(* ===== verification/TestRunner.v ===== *)
(** * The assertion runner

    [mrld/cmd/common] ([testrunner.go], [test.go]): assertions read from a file are put to a directory or
    an authorizer, one by one; the run fails when one does not have the outcome that it expects or cannot be
    decided.  The calls of the clients, [protojson] into their requests and the iteration order of
    [CheckTypeMap] are parameters; durations and colours are left out. *)
From S2P Require Import Prelude Bytes Text Messages Hash Keys Store Ds DsFacts Reader Access Policies Config.

(** [structpb.Value] and the fields of a [structpb.Struct]. *)
Inductive value :=
| NullValue | NumberValue (n : Z) | TestString (s : string) | TestBool (b : bool)
| TestList (l : list value) | TestStruct (fields : list (string * value)).
Abbreviation struct_ := (list (string * value)).

Definition get_field (msg : struct_) (name : string) : option value :=
  snd <$> find (fun f => String.eqb (fst f) name) msg.
Definition GetBoolValue (v : option value) : bool := match v with Some (TestBool b) => b | _ => false end.
Definition GetStringValue (v : option value) : string := match v with Some (TestString s) => s | _ => "" end.
Definition GetValues (v : option value) : list value := match v with Some (TestList l) => l | _ => [] end.

Definition GetBool (msg : struct_) (name : string) : bool * bool :=
  let v := get_field msg name in (GetBoolValue v, bool_decide (is_Some v)).
Definition GetString (msg : struct_) (name : string) : string * bool :=
  let v := get_field msg name in (GetStringValue v, bool_decide (is_Some v)).
Definition GetStringSlice (msg : struct_) (name : string) : list string :=
  (fun v => GetStringValue (Some v)) <$> GetValues (get_field msg name).
Definition GetBoolSlice (msg : struct_) (name : string) : list bool :=
  (fun v => GetBoolValue (Some v)) <$> GetValues (get_field msg name).

Inductive CheckType :=
| CheckUnknown | Check | Evaluation | AuthorizerEvaluation | Evaluations | SubjectSearch | ResourceSearch | ActionSearch.
#[export] Instance CheckType_eq_dec : EqDecision CheckType.
Proof. solve_decision. Defined.

Definition CheckTypeMap : list (string * CheckType) :=
  [("check", Check); ("evaluation", Evaluation); ("authorizer_evaluation", AuthorizerEvaluation);
   ("evaluations", Evaluations); ("subject_search", SubjectSearch); ("resource_search", ResourceSearch);
   ("action_search", ActionSearch)].
Definition CheckTypeMapStr (t : CheckType) : string :=
  match t with
  | CheckUnknown => "" | Check => "check" | Evaluation => "evaluation" | AuthorizerEvaluation => "authorizer_evaluation"
  | Evaluations => "evaluations" | SubjectSearch => "subject_search" | ResourceSearch => "resource_search"
  | ActionSearch => "action_search"
  end.

(** The first key of the map, in the order of this iteration, that is a field of the assertion. *)
Definition GetCheckType (order : list (string * CheckType)) (msg : struct_) : CheckType :=
  match find (fun kv => bool_decide (is_Some (get_field msg (fst kv)))) order with
  | Some (_, t) => t
  | None => CheckUnknown
  end.

Definition reqVersionFields : list (string * Z) :=
  [("object_type", 3); ("object", 2); ("identity_context", 2); ("action", 1); ("resource", 1); ("evaluations", 1)]%Z.
Definition getReqVersion (val : option value) : Z :=
  match val with
  | Some (TestStruct fields) =>
      match find (fun f => bool_decide (is_Some (get_field fields (fst f)))) reqVersionFields with
      | Some (_, version) => version
      | None => 0%Z
      end
  | _ => 0%Z
  end.

(** ** Results *)

Record CheckResult := MkCheckResult { Outcome : bool; Err : option err; Str : string }.

Definition ErrSkippedAuthorizerAssertion : err := AErr "T10001" Internal "no authorizer client" [].
Definition ErrSkippedDirectoryAssertion : err := AErr "T10002" Internal "no directory client" [].
Definition skipped_str : string := "SKIPPED".
(** [errors.Is] on an [AsertoError] compares the identifiers. *)
Definition is_skip (e : err) : bool :=
  match e with AErr i _ _ _ => String.eqb i "T10001" || String.eqb i "T10002" | _ => false end.

Record TestResults := MkResults { total : Z; passed : Z; failed : Z; errored : Z; skipped : Z }.
Definition NewTestResults (n : nat) : TestResults := MkResults (wrap32 (Z.of_nat n)) 0 0 0 0.
Definition IncrPassed (t : TestResults) := MkResults (total t) (AddInt32 (passed t) 1) (failed t) (errored t) (skipped t).
Definition IncrFailed (t : TestResults) := MkResults (total t) (passed t) (AddInt32 (failed t) 1) (errored t) (skipped t).
Definition IncrErrored (t : TestResults) := MkResults (total t) (passed t) (failed t) (AddInt32 (errored t) 1) (skipped t).
Definition IncrSkipped (t : TestResults) := MkResults (total t) (passed t) (failed t) (errored t) (AddInt32 (skipped t) 1).
Definition Passed (ok : bool) (t : TestResults) : TestResults := if ok then IncrPassed t else IncrFailed t.

(** ** Comparisons *)

Definition boolSliceEqual (a b : list bool) : bool :=
  if negb (length a =? length b)%nat then false
  else forallb (fun '(x, y) => Bool.eqb x y) (combine a b).

Definition count_up (counts : gmap string Z) (v : string) : gmap string Z := <[v := (default 0%Z (counts !! v) + 1)%Z]> counts.
Definition count_down (counts : gmap string Z) (v : string) : gmap string Z := <[v := (default 0%Z (counts !! v) - 1)%Z]> counts.
Definition stringSetEqual (a b : list string) : bool :=
  if negb (length a =? length b)%nat then false
  else
    let counts := fold_left count_up a ∅ in
    let counts := fold_left count_down b counts in
    forallb (fun '(_, c) => (c =? 0)%Z) (map_to_list counts).

(** ** The checks *)

Definition FormatBool (b : bool) : string := if b then "true" else "false".
(** [%v] of a slice. *)
Definition fmt_slice (l : list string) : string := "[" +:+ Join l " " +:+ "]".

(** The clients' calls.  The searches take the fields of an evaluation; a response that comes with an error
    is empty. *)
Class Clients := {
  req_check : option value -> res CheckRequest;
  req_eval : option value -> res EvaluationRequest;
  req_evals : option value -> res EvaluationsRequest;
  ds_Check : CheckRequest -> res bool;
  ds_Evaluation : EvaluationRequest -> res bool;
  az_Evaluation : EvaluationRequest -> res bool;
  ds_Evaluations : EvaluationsRequest -> res (list EvaluationResponse);
  ds_SubjectSearch : EvaluationRequest -> res (list Entity);
  ds_ResourceSearch : EvaluationRequest -> res (list Entity);
  ds_ActionSearch : EvaluationRequest -> res (list string) }.

Record TestRunner := MkRunner { azClient : bool; dsClient : bool }.
Record TestExecCmd := MkTestCmd { Format : string; Desc : string }.

Section Runner.
Context `{C : Clients} (runner : TestRunner).

Definition value_or {B} (zero : B) (r : res B) : B := match r with Ok b => b | Fail _ => zero end.
Definition error_of {B} (r : res B) : option err := match r with Ok _ => None | Fail e => Some e end.

Definition skip_directory : CheckResult := MkCheckResult false (Some ErrSkippedDirectoryAssertion) skipped_str.
Definition skip_authorizer : CheckResult := MkCheckResult false (Some ErrSkippedAuthorizerAssertion) skipped_str.

Definition checkStringV3 (req : CheckRequest) : string :=
  c_object_type req +:+ ":" +:+ c_object_id req +:+ "#" +:+ c_relation req +:+ "@" +:+
  c_subject_type req +:+ ":" +:+ c_subject_id req.
Definition checkEvaluationStringV1 (req : EvaluationRequest) : string :=
  opt_type (ev_resource req) +:+ ":" +:+ opt_id (ev_resource req) +:+ "#" +:+ default "" (ev_action req) +:+ "@" +:+
  opt_type (ev_subject req) +:+ ":" +:+ opt_id (ev_subject req).

Definition checkV3 (msg : option value) : CheckResult :=
  if negb (dsClient runner) then skip_directory
  else match req_check msg with
       | Fail e => MkCheckResult false (Some e) ""
       | Ok req => let resp := ds_Check req in MkCheckResult (value_or false resp) (error_of resp) (checkStringV3 req)
       end.
Definition evaluationV1 (msg : option value) : CheckResult :=
  if negb (dsClient runner) then skip_directory
  else match req_eval msg with
       | Fail e => MkCheckResult false (Some e) ""
       | Ok req => let resp := ds_Evaluation req in
                   MkCheckResult (value_or false resp) (error_of resp) (checkEvaluationStringV1 req)
       end.
Definition authorizerEvaluationV1 (msg : option value) : CheckResult :=
  if negb (azClient runner) then skip_authorizer
  else match req_eval msg with
       | Fail e => MkCheckResult false (Some e) ""
       | Ok req => let resp := az_Evaluation req in
                   MkCheckResult (value_or false resp) (error_of resp) (checkEvaluationStringV1 req)
       end.

Definition decisionsOf (evals : list EvaluationResponse) : list bool := Decision_ <$> evals.
Definition evaluationsV1 (msg : struct_) : CheckResult :=
  if negb (dsClient runner) then skip_directory
  else match req_evals (get_field msg "evaluations") with
       | Fail e => MkCheckResult false (Some e) ""
       | Ok req =>
           let resp := ds_Evaluations req in
           let actual := decisionsOf (value_or [] resp) in
           let expected := GetBoolSlice msg "expected_decisions" in
           MkCheckResult (boolSliceEqual actual expected) (error_of resp)
             ("evaluations -> " +:+ fmt_slice (FormatBool <$> actual) +:+ " (want " +:+ fmt_slice (FormatBool <$> expected) +:+ ")")
       end.

Definition entity_str (e : Entity) : string := en_type e +:+ ":" +:+ en_id e.
(** The body that the three searches share: the call, the names of its results, and what is printed. *)
Definition searchV1 {B} (msg : struct_) (field : string) (call : EvaluationRequest -> res (list B)) (name : B -> string)
    (str : EvaluationRequest -> string) : CheckResult :=
  if negb (dsClient runner) then skip_directory
  else match req_eval (get_field msg field) with
       | Fail e => MkCheckResult false (Some e) ""
       | Ok req =>
           let resp := call req in
           let actual := name <$> value_or [] resp in
           let expected := GetStringSlice msg "expected_set" in
           MkCheckResult (stringSetEqual actual expected) (error_of resp)
             (str req +:+ " -> " +:+ fmt_slice actual +:+ " (want " +:+ fmt_slice expected +:+ ")")
       end.
Definition subjectSearchV1 (msg : struct_) : CheckResult :=
  searchV1 msg "subject_search" ds_SubjectSearch entity_str (fun req =>
    "subject_search " +:+ opt_type (ev_resource req) +:+ "#" +:+ opt_id (ev_resource req) +:+ "@" +:+ default "" (ev_action req)).
Definition resourceSearchV1 (msg : struct_) : CheckResult :=
  searchV1 msg "resource_search" ds_ResourceSearch entity_str (fun req =>
    "resource_search " +:+ opt_type (ev_resource req) +:+ "#" +:+ default "" (ev_action req) +:+ "@" +:+ opt_id (ev_subject req)).
Definition actionSearchV1 (msg : struct_) : CheckResult :=
  searchV1 msg "action_search" ds_ActionSearch id (fun req =>
    "action_search " +:+ opt_type (ev_resource req) +:+ ":" +:+ opt_id (ev_resource req) +:+ "@" +:+
    opt_type (ev_subject req) +:+ ":" +:+ opt_id (ev_subject req)).

(** [None] is the nil result of a check that is not of version 3. *)
Definition setCheckType (checkType : CheckType) (reqVersion : Z) (msg : struct_) : option CheckResult :=
  match checkType with
  | Check => if (reqVersion =? 3)%Z then Some (checkV3 (get_field msg "check")) else None
  | Evaluation => Some (evaluationV1 (get_field msg "evaluation"))
  | AuthorizerEvaluation => Some (authorizerEvaluationV1 (get_field msg "authorizer_evaluation"))
  | Evaluations => Some (evaluationsV1 msg)
  | SubjectSearch => Some (subjectSearchV1 msg)
  | ResourceSearch => Some (resourceSearchV1 msg)
  | ActionSearch => Some (actionSearchV1 msg)
  | CheckUnknown => None
  end.

(** ** The run *)

Definition pass_str (ok : bool) : string := if ok then "PASS" else "FAIL".
Definition PrintCSVHeader : list string := ["id"; "type"; "expected"; "result"; "outcome"; "duration"; "description"].
Definition PrintCSV (r : CheckResult) (index : nat) (expected : bool) (checkType : CheckType) (description : string) : list string :=
  [FormatInt (Z.of_nat (index + 1)); CheckTypeMapStr checkType; pass_str (Bool.eqb expected (Outcome r)); Str r;
   FormatBool (Outcome r); description].
Definition PrintTable (r : CheckResult) (index : nat) (expected : bool) (checkType : CheckType) : list string :=
  [FormatInt (Z.of_nat (index + 1)); CheckTypeMapStr checkType; pass_str (Bool.eqb expected (Outcome r)); Str r;
   FormatBool (Outcome r)].
Definition PrintDesc (flag description : string) (r : CheckResult) (expected : bool) : list string :=
  if String.eqb flag "off" || String.eqb description "" then []
  else if String.eqb flag "on" then [">>>> " +:+ description]
  else if String.eqb flag "on-error" && negb (Bool.eqb (Outcome r) expected) then ["!!!! " +:+ description]
  else [].

(** The records that an assertion prints. *)
Definition print (cmd : TestExecCmd) (i : nat) (expected : bool) (checkType : CheckType) (description : string)
    (r : CheckResult) : list (list string) :=
  (if String.eqb (Format cmd) "csv" then
     (if (i =? 0)%nat then [PrintCSVHeader] else []) ++ [PrintCSV r i expected checkType description] else []) ++
  (if String.eqb (Format cmd) "table" then
     PrintTable r i expected checkType :: ((fun l => [l]) <$> PrintDesc (Desc cmd) description r expected) else []).

(** What the loop does with the result of an assertion. *)
Definition record_result (expected : bool) (r : CheckResult) (t : TestResults) : TestResults :=
  let t := Passed (Bool.eqb (Outcome r) expected) t in
  match Err r with
  | None => t
  | Some e => if is_skip e then IncrSkipped t else IncrErrored t
  end.

(** An assertion up to its result: an error that stops the run, a panic, or what was expected and found. *)
Inductive step := Stop (e : err) | Crash | Tested (expected : bool) (checkType : CheckType) (description : string) (r : CheckResult).
Definition test_one (order : list (string * CheckType)) (raw : res struct_) : step :=
  match raw with
  | Fail e => Stop e
  | Ok msg =>
      let '(expected, ok) := GetBool msg "expected" in
      if negb ok then Stop (new_error "no expected outcome of assertion defined")
      else
        let '(description, _) := GetString msg "description" in
        let checkType := GetCheckType order msg in
        if decide (checkType = CheckUnknown) then Stop (new_error "unknown check type")
        else
          let reqVersion := getReqVersion (get_field msg (CheckTypeMapStr checkType)) in
          if (reqVersion =? 0)%Z then Stop (new_error "unknown request version")
          else match setCheckType checkType reqVersion msg with
               | None => Crash
               | Some result => Tested expected checkType description result
               end
  end.

(** [orders i]: the iteration order of [CheckTypeMap] for the [i]-th assertion. *)
Context (orders : nat -> list (string * CheckType)) (cmd : TestExecCmd).

(** The state of the run: the counters and what was printed. *)
Fixpoint exec_loop (i : nat) (assertions : list (res struct_)) (t : TestResults) (out : list (list string))
  : outcome (option err * TestResults * list (list string)) :=
  match assertions with
  | [] => Returned (None, t, out)
  | raw :: assertions =>
      match test_one (orders i) raw with
      | Stop e => Returned (Some e, t, out)
      | Crash => Panicked "invalid memory address or nil pointer dereference"
      | Tested expected checkType description result =>
          exec_loop (S i) assertions (record_result expected result t)
            (out ++ print cmd i expected checkType description result)
      end
  end.

Definition counts_error (t : TestResults) : err :=
  new_error (FormatInt (failed t) +:+ " tests failed, " +:+ FormatInt (errored t) +:+ " tests errored").

Definition exec (decoded : res (list (res struct_))) : outcome (option err * TestResults * list (list string)) :=
  match decoded with
  | Fail e => Returned (Some e, NewTestResults 0, [])
  | Ok assertions =>
      match exec_loop 0 assertions (NewTestResults (length assertions)) [] with
      | Returned (None, t, out) =>
          Returned (if negb (failed t =? 0)%Z || negb (errored t =? 0)%Z then Some (counts_error t) else None, t, out)
      | other => other
      end
  end.

(** The files, up to the first that cannot be opened or whose assertions fail. *)
Fixpoint Run (opened : list (res (res (list (res struct_))))) : outcome (option err) :=
  match opened with
  | [] => Returned None
  | Fail e :: _ => Returned (Some e)
  | Ok r :: opened =>
      match exec r with
      | Panicked what => Panicked what
      | Returned (Some e, _, _) => Returned (Some e)
      | Returned (None, _, _) => Run opened
      end
  end.
End Runner.

(** ** Facts: comparisons *)

Definition count_of (counts : gmap string Z) (v : string) : Z := default 0%Z (counts !! v).

Lemma count_up_of l : forall counts v,
  count_of (fold_left count_up l counts) v = (count_of counts v + Z.of_nat (count_occ String.string_dec l v))%Z.
Proof.
  induction l as [|x l IH]; intros counts v; simpl; [lia|]. rewrite IH. unfold count_up, count_of.
  rewrite lookup_insert. destruct (String.string_dec x v) as [->|]; case_decide; try done; simpl; lia.
Qed.
Lemma count_down_of l : forall counts v,
  count_of (fold_left count_down l counts) v = (count_of counts v - Z.of_nat (count_occ String.string_dec l v))%Z.
Proof.
  induction l as [|x l IH]; intros counts v; simpl; [lia|]. rewrite IH. unfold count_down, count_of.
  rewrite lookup_insert. destruct (String.string_dec x v) as [->|]; case_decide; try done; simpl; lia.
Qed.

Lemma all_zero (counts : gmap string Z) :
  forallb (fun '(_, c) => (c =? 0)%Z) (map_to_list counts) = true <-> forall v, count_of counts v = 0%Z.
Proof.
  rewrite forallb_forall. unfold count_of. split.
  - intros H v. destruct (counts !! v) as [c|] eqn:E; [|done]. simpl.
    specialize (H (v, c)). apply Z.eqb_eq, H, list_elem_of_In. by apply elem_of_map_to_list.
  - intros H [v c] Hin. apply list_elem_of_In, elem_of_map_to_list in Hin. specialize (H v). rewrite Hin in H.
    simpl in H. subst. done.
Qed.

Lemma stringSetEqual_spec a b : stringSetEqual a b = true <-> a ≡ₚ b.
Proof.
  unfold stringSetEqual. destruct (Nat.eqb_spec (length a) (length b)) as [Hl|Hl]; simpl.
  - rewrite all_zero, (Permutation_count_occ String.string_dec).
    assert (H : forall v, count_of (fold_left count_down b (fold_left count_up a ∅)) v =
      (Z.of_nat (count_occ String.string_dec a v) - Z.of_nat (count_occ String.string_dec b v))%Z).
    { intros v. rewrite count_down_of, count_up_of. unfold count_of. rewrite lookup_empty. simpl. lia. }
    split; intros Hv v; specialize (Hv v); specialize (H v); lia.
  - split; [done|]. intros Hp%Permutation_length. done.
Qed.

Lemma boolSliceEqual_spec a b : boolSliceEqual a b = true <-> a = b.
Proof.
  unfold boolSliceEqual. revert b. induction a as [|x a IH]; intros [|y b]; simpl; try done.
  specialize (IH b). destruct (length a =? length b)%nat; simpl in *.
  - destruct (Bool.eqb_spec x y) as [->|]; simpl; [rewrite IH|]; split; congruence.
  - split; [done|]. intros [= -> ->]. by apply IH.
Qed.

(** A search passes exactly when it returns the expected names, in any order, each as often as expected. *)
Theorem search_set_exact a b : stringSetEqual a b = true <-> a ≡ₚ b.
Proof. exact (stringSetEqual_spec a b). Qed.

(** ** Facts: the run *)

Section RunFacts.
Context `{C : Clients} (runner : TestRunner) (orders : nat -> list (string * CheckType)) (cmd : TestExecCmd).

(** What was expected and found, assertion by assertion, where every one gets a result. *)
Fixpoint results_of (i : nat) (assertions : list (res struct_)) : option (list (bool * CheckResult)) :=
  match assertions with
  | [] => Some []
  | raw :: assertions =>
      match test_one runner (orders i) raw with
      | Tested expected _ _ r => cons (expected, r) <$> results_of (S i) assertions
      | _ => None
      end
  end.

Definition passes (x : bool * CheckResult) : bool := Bool.eqb (Outcome x.2) x.1.
Definition skips (x : bool * CheckResult) : bool := match Err x.2 with Some e => is_skip e | None => false end.
Definition errs (x : bool * CheckResult) : bool := match Err x.2 with Some e => negb (is_skip e) | None => false end.
Definition how_many (f : bool * CheckResult -> bool) (rs : list (bool * CheckResult)) : Z :=
  Z.of_nat (length (List.filter f rs)).

Lemma how_many_cons f x rs : how_many f (x :: rs) = ((if f x then 1 else 0) + how_many f rs)%Z.
Proof. unfold how_many. simpl. destruct (f x); simpl; lia. Qed.
Lemma how_many_zero f rs : how_many f rs = 0%Z <-> forallb (fun x => negb (f x)) rs = true.
Proof. unfold how_many. induction rs as [|x rs IH]; [done|]. simpl. destruct (f x); simpl; [lia|exact IH]. Qed.
Lemma how_many_le f rs : (0 <= how_many f rs <= Z.of_nat (length rs))%Z.
Proof. unfold how_many. pose proof (List.filter_length_le f rs). lia. Qed.
Lemma how_many_neg f rs : (how_many f rs + how_many (fun x => negb (f x)) rs)%Z = Z.of_nat (length rs).
Proof. induction rs as [|x rs IH]; [done|]. rewrite !how_many_cons. simpl length. destruct (f x); simpl; lia. Qed.

(** The counters after these results, each 32 bits wide. *)
Definition counted_results (t : TestResults) (rs : list (bool * CheckResult)) : TestResults :=
  MkResults (total t) (wrap32 (passed t + how_many passes rs)) (wrap32 (failed t + how_many (fun x => negb (passes x)) rs))
    (wrap32 (errored t + how_many errs rs)) (wrap32 (skipped t + how_many skips rs)).
Definition in_int32 (t : TestResults) : Prop :=
  wrap32 (passed t) = passed t /\ wrap32 (failed t) = failed t /\ wrap32 (errored t) = errored t /\ wrap32 (skipped t) = skipped t.

Lemma wrap32_wrap z : wrap32 (wrap32 z) = wrap32 z.
Proof. pose proof (wrap32_add z 0) as H. by rewrite !Z.add_0_r in H. Qed.

Lemma record_counted expected r t rs : in_int32 t ->
  in_int32 (record_result expected r t) /\
  counted_results (record_result expected r t) rs = counted_results t ((expected, r) :: rs).
Proof.
  intros (H1 & H2 & H3 & H4). unfold record_result, counted_results, in_int32. rewrite !how_many_cons.
  unfold passes, errs, skips. cbn [fst snd].
  destruct (Bool.eqb (Outcome r) expected), (Err r) as [e|]; try destruct (is_skip e);
    simpl; unfold AddInt32; rewrite ?wrap32_wrap, ?wrap32_add; (split; [by split_and!|]);
    f_equal; f_equal; lia.
Qed.

Lemma exec_loop_results assertions : forall i t out rs,
  results_of i assertions = Some rs -> in_int32 t ->
  exists out', exec_loop runner orders cmd i assertions t out = Returned (None, counted_results t rs, out').
Proof.
  induction assertions as [|raw assertions IH]; intros i t out rs; cbn [results_of exec_loop].
  - intros [= <-] (H1 & H2 & H3 & H4). exists out. unfold counted_results, how_many. simpl.
    rewrite !Z.add_0_r, H1, H2, H3, H4. by destruct t.
  - destruct (test_one runner (orders i) raw) as [e| |expected ct desc r]; try done.
    intros Hrs Ht. apply fmap_Some in Hrs as (rs' & Hrs & ->).
    destruct (record_counted expected r t rs' Ht) as [Ht' Hc]. rewrite <-Hc. by apply IH.
Qed.

Lemma results_length assertions : forall i rs, results_of i assertions = Some rs -> length assertions = length rs.
Proof.
  induction assertions as [|raw assertions IH]; intros i rs; simpl; [by intros [= <-]|].
  destruct (test_one _ _ _); try done. intros (rs' & Hrs & ->)%fmap_Some. simpl. by rewrite (IH _ _ Hrs).
Qed.

Lemma wrap32_small z : (0 <= z < 2 ^ 31)%Z -> wrap32 z = z.
Proof. intros H. unfold wrap32. rewrite Z.mod_small; lia. Qed.

(** C29: A run is exact: where every assertion gets a result, and there are fewer than 2^31, the run returns; it
    returns no error exactly when each assertion has the outcome that it expects and none met an error other
    than a missing client; every assertion is counted once as passed or failed, and once more when it was
    skipped or met an error. *)
Theorem run_exact assertions rs :
  results_of 0 assertions = Some rs -> (Z.of_nat (length rs) < 2 ^ 31)%Z ->
  exists e t out, exec runner orders cmd (Ok assertions) = Returned (e, t, out) /\
    (e = None <-> forallb (fun x => passes x && negb (errs x)) rs = true) /\
    total t = Z.of_nat (length rs) /\ (passed t + failed t)%Z = total t /\ passed t = how_many passes rs /\
    errored t = how_many errs rs /\ skipped t = how_many skips rs.
Proof.
  intros Hrs Hn. pose proof (results_length _ _ _ Hrs) as Hlen. unfold exec.
  destruct (exec_loop_results assertions 0 (NewTestResults (length assertions)) [] rs Hrs) as [out' ->]; [by split_and!|].
  pose proof (how_many_le passes rs). pose proof (how_many_le (fun x => negb (passes x)) rs). pose proof (how_many_le errs rs).
  pose proof (how_many_le skips rs). pose proof (how_many_neg passes rs).
  eexists _, _, _. split; [reflexivity|]. unfold counted_results, NewTestResults. cbn [total passed failed errored skipped].
  rewrite Hlen, !Z.add_0_l, !wrap32_small by lia. split_and!; try done.
  assert (forallb (fun x => passes x && negb (errs x)) rs = true <->
    how_many (fun x => negb (passes x)) rs = 0%Z /\ how_many errs rs = 0%Z) as ->.
  { rewrite !how_many_zero. clear. induction rs as [|x rs IH]; simpl; [done|].
    destruct (passes x), (errs x); simpl; try tauto; intuition congruence. }
  destruct (Z.eqb_spec (how_many (fun x => negb (passes x)) rs) 0), (Z.eqb_spec (how_many errs rs) 0);
    simpl; split; intros; try done; tauto.
Qed.

(** A skipped assertion is not left out: one that expects a permission makes the run fail, counted as failed
    and as skipped. *)
Theorem skipped_fails raw ct desc r e :
  test_one runner (orders 0) raw = Tested true ct desc r -> Outcome r = false -> Err r = Some e -> is_skip e = true ->
  exists out, exec runner orders cmd (Ok [raw]) =
    Returned (Some (new_error "1 tests failed, 0 tests errored"), MkResults 1 0 1 0 1, out).
Proof.
  intros H Ho He Hs. unfold exec. cbn [exec_loop length]. rewrite H. unfold record_result. rewrite Ho, He, Hs. by eexists.
Qed.

Lemma exec_loop_crash before msg after : forall i t out,
  is_Some (results_of i before) -> test_one runner (orders (i + length before)) (Ok msg) = Crash ->
  exec_loop runner orders cmd i (before ++ Ok msg :: after) t out =
    Panicked "invalid memory address or nil pointer dereference".
Proof.
  induction before as [|raw before IH]; intros i t out [rs Hr] Hc; simpl in *.
  - rewrite Nat.add_0_r in Hc. by rewrite Hc.
  - destruct (test_one runner (orders i) raw); try done. apply fmap_Some in Hr as (rs' & Hr & _).
    apply IH; [by eexists|]. by rewrite Nat.add_succ_comm.
Qed.

(** A check in a format before version 3 is not reported as an error: the run panics. *)
Theorem old_check_panics msg fields before after :
  (GetBool msg "expected").2 = true -> GetCheckType (orders (length before)) msg = Check ->
  get_field msg "check" = Some (TestStruct fields) -> get_field fields "object_type" = None ->
  is_Some (get_field fields "object") -> is_Some (results_of 0 before) ->
  exists what, exec runner orders cmd (Ok (before ++ Ok msg :: after)) = Panicked what.
Proof.
  intros He Ht Hf Hv3 Hv2 Hrs. eexists. unfold exec. rewrite exec_loop_crash; [done|done|].
  unfold test_one. change (0 + length before) with (length before).
  destruct (GetBool msg "expected") as [b ok]. simpl in He. subst ok. simpl.
  rewrite Ht. simpl. rewrite Hf. unfold getReqVersion. cbn [reqVersionFields find fst].
  rewrite Hv3, (bool_decide_true (is_Some (get_field fields "object"))) by done. done.
Qed.
End RunFacts.

(** The kind of an assertion does not depend on the iteration order of the map when it has only one. *)
Theorem check_type_stable order msg k t :
  order ≡ₚ CheckTypeMap -> (k, t) ∈ CheckTypeMap -> is_Some (get_field msg k) ->
  (forall k' t', (k', t') ∈ CheckTypeMap -> is_Some (get_field msg k') -> k' = k) ->
  GetCheckType order msg = t.
Proof.
  intros Hp Hin Hk Hu. unfold GetCheckType. destruct (find _ order) as [[k' t']|] eqn:E.
  - apply find_some in E as [Hin' Hb]. simpl in Hb. apply bool_decide_eq_true in Hb.
    apply list_elem_of_In in Hin'. rewrite Hp in Hin'. pose proof (Hu _ _ Hin' Hb) as ->.
    clear -Hin Hin'. unfold CheckTypeMap in *. set_unfold. naive_solver.
  - apply (find_none _ _) with (x := (k, t)) in E; [|apply list_elem_of_In; by rewrite Hp].
    simpl in E. by rewrite bool_decide_true in E.
Qed.

Module TestRunnerExamples.
(** A directory in which everybody may read, nobody may do anything else. *)
#[local] Instance clients : Clients := {|
  req_check _ := Ok zero_CheckRequest;
  req_eval v := match v with
                | Some (TestStruct fields) => Ok (MkEval None (Some (GetStringValue (get_field fields "action"))) None)
                | _ => Fail (new_error "proto: syntax error")
                end;
  req_evals _ := Ok (MkEvals None None None []);
  ds_Check _ := Ok true;
  ds_Evaluation r := Ok (bool_decide (ev_action r = Some "read"));
  az_Evaluation _ := Fail (new_error "unavailable");
  ds_Evaluations _ := Ok [];
  ds_SubjectSearch _ := Ok [MkEntity "user" "bob"; MkEntity "user" "eve"];
  ds_ResourceSearch _ := Ok [];
  ds_ActionSearch _ := Ok ["read"] |}.

Definition cmd1 : TestExecCmd := MkTestCmd "csv" "off".
Definition in_order (_ : nat) : list (string * CheckType) := CheckTypeMap.
Definition ask (kind action : string) (expected : bool) : res struct_ :=
  Ok [(kind, TestStruct [("action", TestString action)]); ("expected", TestBool expected)].
Definition subjects : res struct_ :=
  Ok [("subject_search", TestStruct [("resource", NullValue)]); ("expected", TestBool true);
      ("expected_set", TestList [TestString "user:eve"; TestString "user:bob"])].
Definition suite : list (res struct_) :=
  [ask "evaluation" "read" true; ask "evaluation" "write" false; subjects; ask "authorizer_evaluation" "read" false].
Definition both : TestRunner := MkRunner true true.
Definition no_authorizer : TestRunner := MkRunner false true.

Definition suite_results (runner : TestRunner) : list (bool * CheckResult) :=
  default [] (results_of runner in_order 0 suite).

Lemma run_exact_witness :
  exists e t out, exec both in_order cmd1 (Ok suite) = Returned (e, t, out) /\ e <> None /\
    passed t = 4%Z /\ errored t = 1%Z.
Proof.
  destruct (run_exact both in_order cmd1 suite (suite_results both)) as (e & t & out & Hr & He & _ & _ & Hp & Hx & _);
    [vm_compute; reflexivity | vm_compute; reflexivity |].
  exists e, t, out. split; [exact Hr|]. split_and!; [|rewrite Hp; reflexivity|rewrite Hx; reflexivity].
  intros Hn. apply He in Hn. vm_compute in Hn. discriminate Hn.
Defined.

Lemma skipped_fails_witness :
  exists out, exec no_authorizer in_order cmd1 (Ok [ask "authorizer_evaluation" "read" true]) =
    Returned (Some (new_error "1 tests failed, 0 tests errored"), MkResults 1 0 1 0 1, out).
Proof.
  apply (skipped_fails no_authorizer in_order cmd1 _ AuthorizerEvaluation "" skip_authorizer ErrSkippedAuthorizerAssertion);
    [vm_compute; reflexivity | reflexivity | reflexivity | reflexivity].
Defined.

Definition old_check : struct_ :=
  [("check", TestStruct [("object", NullValue); ("relation", NullValue)]); ("expected", TestBool true)].
Lemma old_check_panics_witness :
  exists what, exec both in_order cmd1 (Ok (suite ++ Ok old_check :: [])) = Panicked what.
Proof.
  apply (old_check_panics both in_order cmd1 old_check [("object", NullValue); ("relation", NullValue)] suite []);
    [reflexivity | reflexivity | reflexivity | reflexivity | by eexists | vm_compute; by eexists].
Defined.

Lemma check_type_stable_witness : GetCheckType (rev CheckTypeMap) old_check = Check.
Proof.
  apply (check_type_stable (rev CheckTypeMap) old_check "check" Check).
  - symmetry. apply Permutation_rev.
  - left.
  - by eexists.
  - intros k' t' Hin [v Hv]. unfold CheckTypeMap in Hin.
    repeat (apply elem_of_cons in Hin as [Hin|Hin]; [injection Hin as -> ->; (reflexivity || discriminate Hv)|]).
    by apply elem_of_nil in Hin.
Defined.
End TestRunnerExamples.
