(* ===== verification/Builtins.v ===== *)
(** * The functions that policies call

    [daemon/authorizer/builtins]: the [ds.*] and [az.*] functions of Rego, over a client of the directory.
    The arguments are what [ast.As] decodes; [protojson] and OPA's JSON reader are parameters, and the
    texts of the help replies are named by the function. *)
From S2P Require Import Prelude Bytes Text Messages Keys Store Bolt Bdb BdbTx Ds Service Instances BoltFacts Reader Identity Policies.

(** Values of Rego. *)
Inductive term :=
| NullTerm | BooleanTerm (b : bool) | NumberTerm (z : Z) | StringTerm (s : string)
| ArrayTerm (l : list term) | ObjectTerm (fields : list (string * term)).

(** A body of a rule holds for every value but [false]; a call that fails is undefined. *)
Definition holds (r : res term) : bool :=
  match r with Ok (BooleanTerm false) | Fail _ => false | Ok _ => true end.

Definition term_field (name : string) (t : term) : option term :=
  match t with ObjectTerm fields => snd <$> List.find (fun f => String.eqb (fst f) name) fields | _ => None end.

(** The messages that are turned into values. *)
Inductive message :=
| MsgObject (o : Object) | MsgGetObject (r : GetObjectResponse) | MsgGetRelation (r : GetRelationResponse)
| MsgRelations (results : list (option Relation)) (objects : gmap string Object)
| MsgGraph (results : list (string * string)) | MsgChecks (checks : list CheckResponse).

Class Values := {
  (** [protojson.Marshal]; no message at all is an empty object *)
  ProtoToBuf : option message -> res string;
  (** JSON, as [ast.ValueFromReader], [protojson] into a struct and [encoding/json] read it *)
  ValueFromReader : string -> res term;
  help : string -> string }.

(** The client: the reader of a directory. *)
Record Client := MkDirClient {
  dr_Check : CheckRequest -> res CheckResponse;
  dr_Checks : ChecksRequest -> res (list CheckResponse);
  dr_GetGraph : GetGraphRequest -> bool -> bool -> res (list (string * string));
  dr_GetObject : string -> string -> bool -> res GetObjectResponse;
  dr_GetRelation : RelationIdentifier -> bool -> res GetRelationResponse;
  dr_GetRelations : RelationIdentifier -> bool -> bool -> Z * string -> res GetRelationsResponse;
  dr_ResolveIdentity : string -> res Object }.

#[export] Instance CheckRequest_eq_dec : EqDecision CheckRequest.
Proof. solve_decision. Defined.
#[export] Instance GetGraphRequest_eq_dec : EqDecision GetGraphRequest.
Proof. solve_decision. Defined.
#[export] Instance ChecksRequest_eq_dec : EqDecision ChecksRequest.
Proof. solve_decision. Defined.

Definition MaxPaginationSize : Z := 100.

Section Builtins.
Context `{Vs : Values} (dr : Client).

Definition to_term (m : option message) : res term := rbind (ProtoToBuf m) ValueFromReader.

(** ** [ds.check], [ds.checks] *)

Definition ds_check (args : res CheckRequest) : res term :=
  rbind args (fun args =>
  if decide (args = zero_CheckRequest) then Ok (StringTerm (help "ds.check"))
  else rbind (dr_Check dr args) (fun resp => Ok (BooleanTerm (check_ resp)))).

Definition ds_checks (args : res ChecksRequest) : res term :=
  rbind args (fun args =>
  if decide (args = MkChecks None []) then Ok (StringTerm (help "ds.checks"))
  else
    let args := MkChecks (Some (default zero_CheckRequest (default_check args))) (checks_ args) in
    rbind (dr_Checks dr args) (fun resp =>
    rbind (to_term (Some (MsgChecks resp))) (fun pbs =>
    match term_field "checks" pbs with
    | Some (ArrayTerm results) => Ok (ArrayTerm results)
    | _ => Fail (XErr Internal "failed type assertion results")
    end))).

(** ** [ds.graph] *)

Record GraphArgs := MkGraphArgs { ga_request : GetGraphRequest; ga_explain : bool; ga_trace : bool }.
Definition zero_GetGraphRequest : GetGraphRequest := MkGraph "" "" "" "" "" "".

(** Nothing is written when there are no results, so an empty text is read. *)
Definition ds_graph (args : res GraphArgs) : res term :=
  rbind args (fun args =>
  if bool_decide (ga_request args = zero_GetGraphRequest) && negb (ga_explain args) && negb (ga_trace args)
  then Ok (StringTerm (help "ds.graph"))
  else
    rbind (dr_GetGraph dr (ga_request args) (ga_explain args) (ga_trace args)) (fun results =>
    rbind (if (0 <? length results)%nat then ProtoToBuf (Some (MsgGraph results)) else Ok "") ValueFromReader)).

(** ** [ds.object], [ds.user], [ds.identity] *)

(** An entry that is not there is an empty object. *)
Definition or_empty {B} (r : res B) (k : B -> res term) : res term :=
  match r with
  | Fail e => if is_not_found e then Ok (ObjectTerm []) else Fail e
  | Ok b => k b
  end.

Definition set_field (name : string) (v : term) (fields : list (string * term)) : list (string * term) :=
  (name, v) :: List.filter (fun f => negb (String.eqb (fst f) name)) fields.

Definition ds_object (args : res (string * string * bool)) : res term :=
  match args with
  | Fail e => Fail (Errorf "failed to parse ds.object input message" e)
  | Ok (objectType, objectID, withRelations) =>
      if String.eqb objectType "" && String.eqb objectID "" && negb withRelations then Ok (StringTerm (help "ds.object"))
      else
        or_empty (dr_GetObject dr objectType objectID withRelations) (fun resp =>
        rbind (to_term (Some (MsgGetObject resp))) (fun pbs =>
        match term_field "result" pbs with
        | Some (ObjectTerm result) =>
            let relations := default NullTerm (term_field "relations" pbs) in
            Ok (ObjectTerm (set_field "relations" relations result))
        | _ => Fail (XErr Internal "failed type assertion result")
        end))
  end.

Definition ds_user (args : res string) : res term :=
  rbind args (fun id =>
  if String.eqb id "" then Ok (StringTerm (help "ds.user"))
  else or_empty (dr_GetObject dr "user" id false) (fun resp => to_term (MsgObject <$> go_result resp))).

Definition ds_identity (args : res string) : res term :=
  rbind args (fun id =>
  if String.eqb id "" then Ok (StringTerm (help "ds.identity"))
  else or_empty (dr_ResolveIdentity dr id) (fun user => Ok (StringTerm (o_id user)))).

(** ** [ds.relation], [ds.relations] *)

Definition ds_relation (args : res (RelationIdentifier * bool)) : res term :=
  rbind args (fun '(req, withObjects) =>
  if bool_decide (req = zero_ident) && negb withObjects then Ok (StringTerm (help "ds.relation"))
  else or_empty (dr_GetRelation dr req withObjects) (fun resp => to_term (Some (MsgGetRelation resp)))).

Record RelationsArgs := MkRelationsArgs {
  ra_request : RelationIdentifier; ra_with_objects : bool; ra_with_empty : bool; ra_page : option (Z * string) }.

(** The loop over the pages; the objects of a later page replace earlier ones ([lo.Assign]). *)
Fixpoint relations_loop (fuel : nat) (args : RelationsArgs) (token : string)
    (results : list (option Relation)) (objects : gmap string Object)
  : res (list (option Relation) * gmap string Object) :=
  match fuel with
  | O => Fail out_of_fuel
  | S fuel =>
      rbind (dr_GetRelations dr (ra_request args) (ra_with_empty args) (ra_with_objects args) (MaxPaginationSize, token)) (fun r =>
      let results := results ++ grs_results r in
      let objects := grs_objects r ∪ objects in
      if String.eqb (grs_next_token r) "" then Ok (results, objects)
      else relations_loop fuel args (grs_next_token r) results objects)
  end.

(** No results are no message. *)
Definition ds_relations (fuel : nat) (args : res RelationsArgs) : res term :=
  rbind args (fun args =>
  if bool_decide (ra_request args = zero_ident) && negb (ra_with_objects args) && negb (ra_with_empty args)
     && negb (bool_decide (is_Some (ra_page args)))
  then Ok (StringTerm (help "ds.relations"))
  else
    rbind (relations_loop fuel args "" [] ∅) (fun '(results, objects) =>
    to_term (if (0 <? length results)%nat then Some (MsgRelations results objects) else None))).
End Builtins.

(** ** [az.*]: the five functions have the same body *)

Section Access.
Context {Req Resp : Type} `{EqDecision Req} `{Vs : Values} (zero : Req) (call : Req -> res Resp).
Context (marshal_response : Resp -> res string).

(** [ResponseToTerm]: the reply as an object. *)
Definition ResponseToTerm (resp : Resp) : res term :=
  rbind (marshal_response resp) (fun buf =>
  rbind (ValueFromReader buf) (fun v =>
  match v with
  | ObjectTerm _ => Ok v
  | NullTerm => Ok (ObjectTerm [])
  | _ => Fail (new_error "json: cannot unmarshal into Go value of type map[string]interface {}")
  end)).

Definition az_function (name : string) (args : res Req) : res term :=
  rbind args (fun args =>
  if decide (args = zero) then Ok (StringTerm (help name)) else rbind (call args) ResponseToTerm).

Definition az_evaluation : res Req -> res term := az_function "az.evaluation".
Definition az_evaluations : res Req -> res term := az_function "az.evaluations".
Definition az_subject_search : res Req -> res term := az_function "az.subject_search".
Definition az_resource_search : res Req -> res term := az_function "az.resource_search".
Definition az_action_search : res Req -> res term := az_function "az.action_search".
End Access.

(** ** The reader of a directory as the client *)

Section Local.
Context {model : Type} `{T : TxOps model} `{A : Azm model} `{V : Validator} `{Vs : Values}.
Context (reason_of : Context -> option string) (text : string) (range : gmap string Object -> list (string * Object)).

Definition directory_client (mc : cache) (t : tx) : Client :=
  MkDirClient (fun req => Ok (Reader_Check mc req t)) (fun req => Reader_Checks mc req t)
    (fun req _ _ => Reader_GetGraph mc req t)
    (fun ty id w => Reader_GetObject mc (MkHeaders "" []) ty id w t)
    (fun req w => Reader_GetRelation mc (MkHeaders "" []) req w t)
    (fun req e w page => Reader_GetRelations mc req e w (Some page) t)
    (ResolveIdentity reason_of text range (local_client mc t)).

Context `{L : !TxLaws model T}.

(** The rows of a page do not depend on whether the objects are asked for. *)
Lemma GetRelations_rows mc req e w page t :
  rmap (fun r => (grs_results r, grs_next_token r)) (Reader_GetRelations mc req e w page t) =
  rmap (fun r => (grs_results r, grs_next_token r)) (Reader_GetRelations mc req e false page t).
Proof.
  unfold Reader_GetRelations. destruct (validator_GetRelationsRequest req e page); [done|].
  destruct (page_of page) as [size token]. destruct (relations_Validate _ _); [done|].
  destruct (ds.RelationValueFilter _ _) as [[dir f] vf]. destruct (ScanRelations _ _ _ _); [|done].
  by destruct (default _ _).
Qed.

Lemma relations_loop_fetches mc t args fuel : forall token results objects l,
  fetch_all (relations_page mc (ra_request args) (ra_with_empty args) MaxPaginationSize t) fuel token = Ok l ->
  exists objs, relations_loop (directory_client mc t) fuel args token results objects = Ok (results ++ l, objs).
Proof.
  induction fuel as [|fuel IH]; intros token results objects l; [done|]. cbn [fetch_all relations_loop].
  unfold relations_page at 1. rewrite <-(GetRelations_rows mc _ _ (ra_with_objects args)). cbn [dr_GetRelations directory_client].
  destruct (Reader_GetRelations _ _ _ (ra_with_objects args) _ t) as [r|e]; [|done]. cbn [rmap rbind].
  destruct (String.eqb (grs_next_token r) ""); [intros [= <-]; by eexists|].
  destruct (fetch_all _ fuel _) as [l'|] eqn:Hf; [|done]. intros [= <-].
  destruct (IH _ (results ++ grs_results r) (grs_objects r ∪ objects) _ Hf) as [objs ->].
  exists objs. by rewrite <-app_assoc.
Qed.

(** C22: [ds.relations] is complete: for a request that names something and that the directory accepts, the
    loop over the pages ends, and the value that a policy receives is made of exactly the stored relations
    that match the request, each once. *)
Theorem relations_builtin_exact mc t d args :
  repr t d -> ra_request args <> zero_ident ->
  (forall token, validator_GetRelationsRequest (ra_request args) (ra_with_empty args) (Some (MaxPaginationSize, token)) = None) ->
  relations_Validate mc (safe_GetRelations (ra_request args) (ra_with_empty args)) = None ->
  exists fuel rs objects, ds_relations (directory_client mc t) fuel (Ok args) =
      to_term (match rs with [] => None | _ => Some (MsgRelations (Some <$> rs) objects) end) /\
    NoDup rs /\ forall r, r ∈ rs <->
      d_rels d !! r_ident r = Some r /\ matches (safe_GetRelations (ra_request args) (ra_with_empty args)) (r_ident r).
Proof.
  intros Hr Hne Hv Hm.
  destruct (relations_pages mc (ra_request args) (ra_with_empty args) 100 t d Hr) as (fuel & rs & Hf & Hnd & Hin); [lia|done|done|].
  destruct (relations_loop_fetches mc t args fuel "" [] ∅ _ Hf) as [objs Hl]. exists fuel, rs, objs. split; [|done].
  unfold ds_relations. cbn [rbind]. rewrite bool_decide_false by done. cbn [andb]. rewrite Hl. cbn [rbind].
  by destruct rs.
Qed.
End Local.

(** ** What a policy sees *)

(** A check of nothing holds: [ds.check] with no field set returns the text of its help, which is not
    [false], whatever the directory says. *)
Theorem check_of_nothing_holds `{Vs : Values} dr : holds (ds_check dr (Ok zero_CheckRequest)) = true.
Proof. reflexivity. Qed.

(** A graph query without results is undefined, and not an empty list: the reader of the value is given an
    empty text. *)
Theorem empty_graph_fails `{Vs : Values} dr args e :
  ga_request args <> zero_GetGraphRequest -> dr_GetGraph dr (ga_request args) (ga_explain args) (ga_trace args) = Ok [] ->
  ValueFromReader "" = Fail e -> ds_graph dr (Ok args) = Fail e.
Proof. intros Hne Hg He. unfold ds_graph. cbn [rbind]. rewrite bool_decide_false by done. cbn [andb]. by rewrite Hg. Qed.

(** A positive [ds.check] is the directory's: for a request that names something, the body holds exactly
    when the directory answers, and grants. *)
Theorem check_builtin_exact `{Vs : Values} dr req :
  req <> zero_CheckRequest ->
  holds (ds_check dr (Ok req)) = match dr_Check dr req with Ok resp => check_ resp | Fail _ => false end.
Proof.
  intros Hne. unfold ds_check. cbn [rbind]. rewrite decide_False by done. destruct (dr_Check dr req) as [resp|]; [|done].
  cbn [rbind holds]. by destruct (check_ resp).
Qed.

Module BuiltinExamples.
Import Concrete ReaderExamples.

#[local] Instance values : Values := {|
  ProtoToBuf m := Ok (match m with None => "{}" | Some _ => "{..}" end);
  ValueFromReader s := if String.eqb s "" then Fail (new_error "EOF") else Ok (ObjectTerm [("text", StringTerm s)]);
  help name := name +:+ "({})" |}.

Definition local1 : Client := directory_client (fun _ => None) "" map_to_list mc0 db1.
Definition args1 : RelationsArgs := MkRelationsArgs viewers false false None.

Lemma relations_builtin_exact_witness :
  exists fuel rs objects, ds_relations local1 fuel (Ok args1) =
      to_term (match rs with [] => None | _ => Some (MsgRelations (Some <$> rs) objects) end) /\ rel2 ∈ rs /\ rel1 ∉ rs.
Proof.
  destruct (relations_builtin_exact (fun _ => None) "" map_to_list mc0 db1 dir1 args1 db1_repr)
    as (fuel & rs & objects & H1 & _ & H3); [discriminate | reflexivity | reflexivity |].
  exists fuel, rs, objects. split; [exact H1|]. rewrite !H3. split.
  - split; [vm_compute; reflexivity|].
    refine (proj1 (valueFilter_matches (T := RelationIdentifier) _ _) _). reflexivity.
  - intros [_ (_ & _ & _ & _ & [E|E] & _)]; discriminate.
Defined.

Definition no_graph : Client :=
  MkDirClient (fun _ => Ok (MkCheckResp true None)) (fun _ => Ok []) (fun _ _ _ => Ok []) (fun _ _ _ => Fail ErrKeyNotFound)
    (fun _ _ => Fail ErrKeyNotFound) (fun _ _ _ _ => Fail ErrKeyNotFound) (fun _ => Fail ErrKeyNotFound).
Definition graph_args : GraphArgs := MkGraphArgs (MkGraph "doc" "" "viewer" "user" "bob" "") false false.
Lemma empty_graph_fails_witness : ds_graph no_graph (Ok graph_args) = Fail (new_error "EOF").
Proof. apply (empty_graph_fails no_graph graph_args (new_error "EOF")); [discriminate | reflexivity | reflexivity]. Defined.

Lemma check_builtin_exact_witness :
  holds (ds_check no_graph (Ok (MkCheck "doc" "1" "viewer" "user" "bob" false))) = true.
Proof. rewrite (check_builtin_exact no_graph); [reflexivity | discriminate]. Defined.

Example missing_user_is_empty : ds_user no_graph (Ok "nobody") = Ok (ObjectTerm []).
Proof. reflexivity. Qed.
End BuiltinExamples.
