(* ===== verification/Oidc.v ===== *)
(** * Fetching the configuration of a token issuer

    [daemon/authorizer/impl/oidc-client.go]: the document of an issuer is fetched over a transport that
    refuses to connect to addresses of the own network.  Name resolution, the servers and the parsing of
    URLs and JSON are parameters; the classes of addresses ([net.IP]) and the redirects of
    [http.Client] are the standard library's. *)
From Stdlib Require Import Ascii.
From S2P Require Import Prelude Bytes Text Policies.

(** ** [net.IP] *)

(** An address of 32 or of 128 bits.  An IPv4 address may come in its IPv6 form. *)
Inductive ip := IPv4 (n : Z) | IPv6 (n : Z).

Definition To4 (a : ip) : option Z :=
  match a with
  | IPv4 n => Some (n mod 2 ^ 32)%Z
  | IPv6 n => if (Z.shiftr (n mod 2 ^ 128) 32 =? 65535)%Z then Some (n mod 2 ^ 32)%Z else None
  end.
Definition bits128 (a : ip) : Z := match a with IPv4 n => (65535 * 2 ^ 32 + n mod 2 ^ 32)%Z | IPv6 n => (n mod 2 ^ 128)%Z end.

(** Byte [i] of four, and of sixteen. *)
Definition byte4 (i n : Z) : Z := Z.land (Z.shiftr n (8 * (3 - i))) 255.
Definition byte16 (i n : Z) : Z := Z.land (Z.shiftr n (8 * (15 - i))) 255.

Definition IsLoopback (a : ip) : bool :=
  match To4 a with Some n => (byte4 0 n =? 127)%Z | None => (bits128 a =? 1)%Z end.
Definition IsPrivate (a : ip) : bool :=
  match To4 a with
  | Some n =>
      (byte4 0 n =? 10)%Z || ((byte4 0 n =? 172)%Z && (Z.land (byte4 1 n) 240 =? 16)%Z)
      || ((byte4 0 n =? 192)%Z && (byte4 1 n =? 168)%Z)
  | None => (Z.land (byte16 0 (bits128 a)) 254 =? 252)%Z
  end.
Definition IsUnspecified (a : ip) : bool :=
  match To4 a with Some n => (n =? 0)%Z | None => (bits128 a =? 0)%Z end.
Definition IsLinkLocalUnicast (a : ip) : bool :=
  match To4 a with
  | Some n => (byte4 0 n =? 169)%Z && (byte4 1 n =? 254)%Z
  | None => (byte16 0 (bits128 a) =? 254)%Z && (Z.land (byte16 1 (bits128 a)) 192 =? 128)%Z
  end.
Definition unsafe (a : ip) : bool := IsLoopback a || IsPrivate a || IsUnspecified a || IsLinkLocalUnicast a.

(** ** The network *)

Record url := MkURL { url_Scheme : string; url_Host : string; url_Port : string; url_Path : string }.
Record response := MkResponse { StatusCode : Z; Location : option string; resp_Body : string }.
Record OidcConfiguration := MkOidc {
  Issuer : string; JwksURI : string; AuthorizationEndpoint : string; TokenEndpoint : string; Algs : list string }.

Class Network := {
  url_Parse : string -> res url;
  (** a redirect's location, relative to the request *)
  url_Resolve : url -> string -> res url;
  LookupIPAddr : string -> res (list ip);
  (** connecting to an address, and the handshake for a host name over the connection *)
  DialContext : ip -> string -> option err;
  Handshake : ip -> string -> option err;
  (** what the server at an address answers to a request *)
  answer : ip -> url -> res response;
  oidc_json : string -> res OidcConfiguration }.

(** The connections that were made: the scheme of the request, and the address. *)
Abbreviation net := (list (string * ip)).

Section Client.
Context `{N : Network}.

Definition first_safe (ips : list ip) : option ip := List.find (fun a => negb (unsafe a)) ips.

Definition DialTLSContext (u : url) : M net ip := fun conns =>
  match LookupIPAddr (url_Host u) with
  | Fail e => (Fail (Errorf "dns lookup failed" e), conns)
  | Ok ips =>
      match first_safe ips with
      | None => (Fail (new_error ("no valid public IP addresses found for host " +:+ url_Host u)), conns)
      | Some targetIP =>
          match DialContext targetIP (url_Port u) with
          | Some e => (Fail (Errorf "network dial failed" e), conns)
          | None =>
              let conns := conns ++ [(url_Scheme u, targetIP)] in
              match Handshake targetIP (url_Host u) with
              | Some e => (Fail (Errorf "tls handshake failed" e), conns)
              | None => (Ok targetIP, conns)
              end
          end
      end
  end.

(** A request that is not over TLS uses the transport's default dialer: the first address that accepts. *)
Fixpoint dial_first (ips : list ip) (u : url) : M net ip := fun conns =>
  match ips with
  | [] => (Fail (new_error ("dial tcp: no address for " +:+ url_Host u)), conns)
  | a :: ips =>
      match DialContext a (url_Port u) with
      | Some _ => dial_first ips u conns
      | None => (Ok a, conns ++ [(url_Scheme u, a)])
      end
  end.
Definition dial_plain (u : url) : M net ip := fun conns =>
  match LookupIPAddr (url_Host u) with Fail e => (Fail e, conns) | Ok ips => dial_first ips u conns end.

Definition RoundTrip (u : url) : M net response :=
  if String.eqb (url_Scheme u) "https" then let! a := DialTLSContext u in lift (answer a u)
  else if String.eqb (url_Scheme u) "http" then let! a := dial_plain u in lift (answer a u)
  else fail (new_error "unsupported protocol scheme").

Definition is_redirect (r : response) : bool :=
  existsb (Z.eqb (StatusCode r)) [301; 302; 303; 307; 308]%Z.

(** [http.Client.Do] without a policy for redirects: the tenth is refused, so ten requests are sent at most. *)
Fixpoint Do (redirects : nat) (u : url) : M net response :=
  let! resp := RoundTrip u in
  if is_redirect resp then
    match Location resp with
    | None => ret resp
    | Some loc =>
        match redirects with
        | O => fail (new_error "stopped after 10 redirects")
        | S redirects => let! next := lift (url_Resolve u loc) in Do redirects next
        end
    end
  else ret resp.
Definition http_Do (u : url) : M net response := Do 9 u.

Definition wellKnownOpenIDConfiguration : string := "/.well-known/openid-configuration".

(** [strings.TrimSuffix(s, "/")] *)
Fixpoint trim_slash (s : string) : string :=
  match s with
  | EmptyString => ""
  | String c EmptyString => if ascii_dec c "/" then "" else s
  | String c s' => String c (trim_slash s')
  end.

Definition FetchAndValidateConfig (targetIssuer : string) : M net OidcConfiguration :=
  match url_Parse targetIssuer with
  | Fail e => fail (Errorf "invalid issuer URL syntax" e)
  | Ok parsedTarget =>
      if negb (String.eqb (url_Scheme parsedTarget) "https") then
        fail (new_error ("insecure scheme " +:+ url_Scheme parsedTarget +:+ ": issuer must use https"))
      else
        match url_Parse (trim_slash targetIssuer +:+ wellKnownOpenIDConfiguration) with
        | Fail e => fail (Errorf "failed to create request" e)
        | Ok req =>
            let! resp := wrapped "http request failed" (http_Do req) in
            if negb (StatusCode resp =? 200)%Z then fail (new_error "unexpected status code")
            else
              let! config := wrapped "failed to decode json configuration" (lift (oidc_json (resp_Body resp))) in
              if negb (String.eqb (Issuer config) targetIssuer) then fail (new_error "issuer mismatch")
              else ret config
        end
  end.
End Client.

(** ** The addresses that are refused *)

Lemma byte4_div i n : (0 <= i <= 3)%Z -> (0 <= n)%Z -> byte4 i n = ((n / 2 ^ (8 * (3 - i))) mod 256)%Z.
Proof.
  intros Hi Hn. unfold byte4. rewrite Z.shiftr_div_pow2 by lia. change 255%Z with (Z.ones 8). by rewrite Z.land_ones by lia.
Qed.
Lemma byte16_div i n : (0 <= i <= 15)%Z -> (0 <= n)%Z -> byte16 i n = ((n / 2 ^ (8 * (15 - i))) mod 256)%Z.
Proof.
  intros Hi Hn. unfold byte16. rewrite Z.shiftr_div_pow2 by lia. change 255%Z with (Z.ones 8). by rewrite Z.land_ones by lia.
Qed.

(** A mask of the high bits of a byte, as a division. *)
Lemma masked_byte mask v d q :
  forallb (fun k => Bool.eqb (Z.land (Z.of_nat k) mask =? v)%Z (Z.of_nat k / d =? q)%Z) (seq 0 256) = true ->
  forall x, (0 <= x < 256)%Z -> (Z.land x mask =? v)%Z = (x / d =? q)%Z.
Proof.
  intros H x Hx. rewrite forallb_forall in H. specialize (H (Z.to_nat x)). rewrite Z2Nat.id in H by lia.
  apply Bool.eqb_prop, H, in_seq. lia.
Qed.

(** The blocks of IPv4 addresses, as intervals. *)
Definition in_block (n a b c d bits : Z) : Prop :=
  let base := (a * 2 ^ 24 + b * 2 ^ 16 + c * 2 ^ 8 + d)%Z in (base <= n < base + 2 ^ (32 - bits))%Z.

(** The addresses of the own host and network, as intervals of numbers: of IPv4, in either form, 127.0.0.0/8,
    10.0.0.0/8, 172.16.0.0/12, 192.168.0.0/16, 169.254.0.0/16 and 0.0.0.0; of IPv6, ::1, ::, fc00::/7 and fe80::/10. *)
Definition own_ipv4 (n : Z) : Prop :=
  in_block n 127 0 0 0 8 \/ in_block n 10 0 0 0 8 \/ in_block n 172 16 0 0 12 \/ in_block n 192 168 0 0 16 \/
  in_block n 169 254 0 0 16 \/ n = 0%Z.
Definition own_network (a : ip) : Prop :=
  let n := bits128 a in
  (65535 * 2 ^ 32 <= n < 65536 * 2 ^ 32 /\ own_ipv4 (n - 65535 * 2 ^ 32))%Z \/
  n = 1%Z \/ n = 0%Z \/ (252 * 2 ^ 120 <= n < 254 * 2 ^ 120)%Z \/
  (254 * 2 ^ 120 + 128 * 2 ^ 112 <= n < 254 * 2 ^ 120 + 192 * 2 ^ 112)%Z.

Lemma div_bounds n d : (0 < d)%Z -> (n / d * d <= n < (n / d + 1) * d)%Z.
Proof. intros Hd. pose proof (Z.div_mod n d ltac:(lia)). pose proof (Z.mod_pos_bound n d ltac:(lia)). lia. Qed.
(** The byte below the highest of a number of [k + 16] bits. *)
Lemma second_byte n k : (0 <= k)%Z -> (0 <= n)%Z -> ((n / 2 ^ k) mod 256 = n / 2 ^ k - 256 * (n / 2 ^ (k + 8)))%Z.
Proof.
  intros Hk Hn. rewrite Z.pow_add_r, <-Z.div_div by lia. change (2 ^ 8)%Z with 256%Z.
  pose proof (Z.div_mod (n / 2 ^ k) 256 ltac:(lia)). lia.
Qed.

Lemma To4_spec a :
  (0 <= bits128 a < 2 ^ 128)%Z /\
  To4 a = if (bits128 a / 2 ^ 32 =? 65535)%Z then Some (bits128 a - 65535 * 2 ^ 32)%Z else None.
Proof.
  destruct a as [n|n]; cbn [bits128 To4].
  - pose proof (Z.mod_pos_bound n (2 ^ 32) ltac:(lia)). split; [lia|].
    rewrite Z.div_add_l, Z.div_small by lia. cbn. f_equal. lia.
  - pose proof (Z.mod_pos_bound n (2 ^ 128) ltac:(lia)). split; [lia|].
    rewrite Z.shiftr_div_pow2 by lia. destruct (Z.eqb_spec (n mod 2 ^ 128 / 2 ^ 32) 65535) as [E|]; [|done]. f_equal.
    assert ((n mod 2 ^ 32 = (n mod 2 ^ 128) mod 2 ^ 32)%Z) as ->.
    { change (2 ^ 128)%Z with (2 ^ 32 * 2 ^ 96)%Z. rewrite Z.rem_mul_r by lia.
      rewrite Z.mul_comm, Z_mod_plus_full. by rewrite Z.mod_mod by lia. }
    pose proof (Z.div_mod (n mod 2 ^ 128) (2 ^ 32) ltac:(lia)). lia.
Qed.

Lemma refused4 n :
  (0 <= n < 2 ^ 32)%Z ->
  (byte4 0 n =? 127)%Z
  || ((byte4 0 n =? 10)%Z || ((byte4 0 n =? 172)%Z && (Z.land (byte4 1 n) 240 =? 16)%Z)
      || ((byte4 0 n =? 192)%Z && (byte4 1 n =? 168)%Z))
  || (n =? 0)%Z || ((byte4 0 n =? 169)%Z && (byte4 1 n =? 254)%Z) = true <-> own_ipv4 n.
Proof.
  intros Hn. rewrite !byte4_div by lia. change (8 * (3 - 0))%Z with 24%Z. change (8 * (3 - 1))%Z with 16%Z.
  rewrite (masked_byte 240 16 16 1) by (reflexivity || apply Z.mod_pos_bound; lia).
  rewrite (second_byte n 16) by lia. change (16 + 8)%Z with 24%Z.
  pose proof (div_bounds n (2 ^ 24) ltac:(lia)). pose proof (div_bounds n (2 ^ 16) ltac:(lia)).
  rewrite (Z.mod_small (n / 2 ^ 24)) by lia.
  rewrite !orb_true_iff, !andb_true_iff, !Z.eqb_eq. unfold own_ipv4, in_block. cbn zeta.
  set (x := (n / 2 ^ 24)%Z) in *. set (y := (n / 2 ^ 16)%Z) in *.
  pose proof (div_bounds (y - 256 * x) 16 ltac:(lia)).
  change (2 ^ (32 - 8))%Z with (2 ^ 24)%Z. change (2 ^ (32 - 12))%Z with (2 ^ 20)%Z. change (2 ^ (32 - 16))%Z with (2 ^ 16)%Z.
  lia.
Qed.

Lemma refused16 n :
  (0 <= n < 2 ^ 128)%Z ->
  (n =? 1)%Z || (Z.land (byte16 0 n) 254 =? 252)%Z || (n =? 0)%Z
  || ((byte16 0 n =? 254)%Z && (Z.land (byte16 1 n) 192 =? 128)%Z) = true <->
  (n = 1 \/ n = 0 \/ 252 * 2 ^ 120 <= n < 254 * 2 ^ 120 \/
   254 * 2 ^ 120 + 128 * 2 ^ 112 <= n < 254 * 2 ^ 120 + 192 * 2 ^ 112)%Z.
Proof.
  intros Hn. rewrite !byte16_div by lia. change (8 * (15 - 0))%Z with 120%Z. change (8 * (15 - 1))%Z with 112%Z.
  rewrite (masked_byte 254 252 2 126) by (reflexivity || apply Z.mod_pos_bound; lia).
  rewrite (masked_byte 192 128 64 2) by (reflexivity || apply Z.mod_pos_bound; lia).
  rewrite (second_byte n 112) by lia. change (112 + 8)%Z with 120%Z.
  pose proof (div_bounds n (2 ^ 120) ltac:(lia)). pose proof (div_bounds n (2 ^ 112) ltac:(lia)).
  rewrite (Z.mod_small (n / 2 ^ 120)) by lia.
  rewrite !orb_true_iff, !andb_true_iff, !Z.eqb_eq.
  set (x := (n / 2 ^ 120)%Z) in *. set (y := (n / 2 ^ 112)%Z) in *.
  pose proof (div_bounds (y - 256 * x) 64 ltac:(lia)). pose proof (div_bounds x 2 ltac:(lia)). lia.
Qed.

(** The filter of the client refuses exactly these addresses. *)
Lemma unsafe_exact a : unsafe a = true <-> own_network a.
Proof.
  destruct (To4_spec a) as [Hb H4]. unfold unsafe, IsLoopback, IsPrivate, IsUnspecified, IsLinkLocalUnicast, own_network.
  rewrite H4. cbn zeta. pose proof (div_bounds (bits128 a) (2 ^ 32) ltac:(lia)).
  destruct (Z.eqb_spec (bits128 a / 2 ^ 32) 65535) as [E|E].
  - rewrite refused4 by lia. rewrite E in *. intuition lia.
  - rewrite refused16 by lia. intuition lia.
Qed.

(** ** Where connections go *)

Section Facts.
Context `{N : Network}.

(** Connections over TLS are to addresses that are not the own network's. *)
Definition tls_public (conns : net) : Prop := forall a, ("https", a) ∈ conns -> ~ own_network a.

Lemma first_safe_public ips a : first_safe ips = Some a -> ~ own_network a.
Proof. intros [_ H%negb_true_iff]%find_some Ho%unsafe_exact. congruence. Qed.

Lemma tls_public_snoc conns s a : tls_public conns -> (s = "https" -> ~ own_network a) -> tls_public (conns ++ [(s, a)]).
Proof. intros Hc Ha b [Hb|Hb]%elem_of_app; [by apply Hc|]. apply list_elem_of_singleton in Hb. injection Hb as Hs ->. by apply Ha. Qed.

Lemma DialTLS_public u : preserves tls_public (DialTLSContext u).
Proof.
  intros conns Hc. unfold DialTLSContext. destruct (LookupIPAddr _) as [ips|]; [|done].
  destruct (first_safe ips) as [a|] eqn:Ha; [|done]. destruct (DialContext a _); [done|].
  assert (tls_public (conns ++ [(url_Scheme u, a)])) by (apply tls_public_snoc; [done|]; intros _; by eapply first_safe_public).
  by destruct (Handshake a _).
Qed.
Lemma dial_plain_public u : url_Scheme u <> "https" -> preserves tls_public (dial_plain u).
Proof.
  intros Hu conns Hc. unfold dial_plain. destruct (LookupIPAddr _) as [ips|]; [|done].
  induction ips as [|a ips IH]; [done|]. cbn [dial_first]. destruct (DialContext a _); [done|].
  by apply tls_public_snoc.
Qed.
Lemma RoundTrip_public u : preserves tls_public (RoundTrip u).
Proof.
  unfold RoundTrip. destruct (String.eqb_spec (url_Scheme u) "https") as [|Hn].
  - apply preserves_bind; [apply DialTLS_public|]. intros a. apply preserves_lift.
  - destruct (String.eqb_spec (url_Scheme u) "http"); [|apply preserves_fail].
    apply preserves_bind; [by apply dial_plain_public|]. intros a. apply preserves_lift.
Qed.
Lemma Do_public n : forall u, preserves tls_public (Do n u).
Proof.
  induction n as [|n IH]; intros u; cbn [Do]; (apply preserves_bind; [apply RoundTrip_public|]; intros resp);
    destruct (is_redirect resp); try apply preserves_ret; destruct (Location resp); try apply preserves_ret;
    [apply preserves_fail|]. apply preserves_bind; [apply preserves_lift|]. intros next. apply IH.
Qed.

Lemma Fetch_public issuer : preserves tls_public (FetchAndValidateConfig issuer).
Proof.
  unfold FetchAndValidateConfig. destruct (url_Parse issuer) as [u|]; [|apply preserves_fail].
  destruct (negb _); [apply preserves_fail|]. destruct (url_Parse _) as [req|]; [|apply preserves_fail].
  apply preserves_bind; [apply preserves_wrapped, Do_public|]. intros resp. destruct (negb _); [apply preserves_fail|].
  apply preserves_bind; [apply preserves_wrapped, preserves_lift|]. intros config.
  destruct (negb _); [apply preserves_fail|apply preserves_ret].
Qed.

(** C23: Fetching the configuration of an issuer, whatever the names resolve to and the servers answer, never
    makes a TLS connection to an address of the own host or network: none in 127.0.0.0/8, 10.0.0.0/8, 172.16.0.0/12,
    192.168.0.0/16 or 169.254.0.0/16 and not 0.0.0.0, in the IPv4 or the IPv6 form, and none of ::1, ::, fc00::/7 and
    fe80::/10; and a configuration that is returned is the issuer's own, whose URL has the scheme https.  (A plain
    connection, after a redirect, is another matter: [redirect_leaves_filter].) *)
Theorem oidc_tls_public issuer r conns :
  FetchAndValidateConfig issuer [] = (r, conns) ->
  (forall a, ("https", a) ∈ conns -> ~ own_network a) /\
  (forall c, r = Ok c -> Issuer c = issuer /\ exists u, url_Parse issuer = Ok u /\ url_Scheme u = "https").
Proof.
  intros H. split.
  - pose proof (Fetch_public issuer [] (fun a Ha => match not_elem_of_nil _ Ha with end)) as Hp. rewrite H in Hp. exact Hp.
  - intros c ->. revert H. unfold FetchAndValidateConfig. destruct (url_Parse issuer) as [u|]; [|done].
    destruct (String.eqb_spec (url_Scheme u) "https") as [Hs|]; [|done]. simpl negb. cbn iota.
    destruct (url_Parse _) as [req|]; [|done]. intros [(resp & n1 & _ & H)|(e & _ & [=])]%bind_inv.
    destruct (negb _); [done|]. apply bind_inv in H as [(config & n2 & _ & H)|(e & _ & [=])].
    destruct (String.eqb_spec (Issuer config) issuer); [|done]. injection H as <- <-. split; [done|]. by exists u.
Qed.
End Facts.

Module OidcExamples.
(** An issuer whose public server sends the request on to the metadata service of the host's cloud. *)
Definition public_ip : ip := IPv4 (203 * 2 ^ 24 + 113 * 2 ^ 8 + 7)%Z.
Definition metadata_ip : ip := IPv4 (169 * 2 ^ 24 + 254 * 2 ^ 16 + 169 * 2 ^ 8 + 254)%Z.
Definition issuer_url (path : string) : url := MkURL "https" "issuer.example" "443" path.
Definition metadata_url : url := MkURL "http" "169.254.169.254" "80" "/latest/meta-data".

#[local] Instance redirecting : Network := {|
  url_Parse s := Ok (issuer_url s);
  url_Resolve _ _ := Ok metadata_url;
  LookupIPAddr h := Ok (if String.eqb h "issuer.example" then [IPv4 (127 * 2 ^ 24 + 1)%Z; public_ip] else [metadata_ip]);
  DialContext _ _ := None;
  Handshake _ _ := None;
  answer _ u := Ok (if String.eqb (url_Scheme u) "https" then MkResponse 302 (Some "http://169.254.169.254/latest/meta-data") ""
                    else MkResponse 200 None "{}");
  oidc_json _ := Ok (MkOidc "https://issuer.example" "" "" "" []) |}.

Lemma oidc_tls_public_witness :
  exists r conns, FetchAndValidateConfig "https://issuer.example" [] = (r, conns) /\
    ("https", public_ip) ∈ conns /\ ~ own_network public_ip.
Proof.
  exists (FetchAndValidateConfig "https://issuer.example" []).1, (FetchAndValidateConfig "https://issuer.example" []).2.
  assert (("https", public_ip) ∈ (FetchAndValidateConfig "https://issuer.example" []).2) as Hin.
  { vm_compute. left. }
  split; [reflexivity|]. split; [exact Hin|].
  exact (proj1 (oidc_tls_public "https://issuer.example" _ _ (surjective_pairing _)) public_ip Hin).
Defined.

(** The filter covers TLS connections only: an issuer that redirects to a plain URL makes the client
    connect to an address that the filter refuses. *)
Theorem redirect_leaves_filter :
  ("http", metadata_ip) ∈ (FetchAndValidateConfig "https://issuer.example" []).2 /\ unsafe metadata_ip = true.
Proof. vm_compute. split; [|reflexivity]. right. left. Qed.
End OidcExamples.
