(* ===== verification/Urls.v ===== *)
(** * URLs: [net/url]

    The type [url.URL] with [Parse], [String] and the escaping of paths and hosts, as the command line uses
    them for the catalogs of templates. *)
From Stdlib Require Import Ascii.
From S2P Require Import Prelude Bytes Text Paths Policies.

(** ** Escaping *)

Inductive encoding := encodePath | encodeUserPassword | encodeHost | encodeZone | encodeFragment.
#[export] Instance encoding_eq_dec : EqDecision encoding.
Proof. solve_decision. Defined.

Definition one_of (s : string) (c : ascii) : bool := contains c s.
Definition is_letter (c : ascii) : bool := one_of "abcdefghijklmnopqrstuvwxyzABCDEFGHIJKLMNOPQRSTUVWXYZ" c.
Definition is_digit (c : ascii) : bool := one_of "0123456789" c.

Definition shouldEscape (c : ascii) (mode : encoding) : bool :=
  if is_letter c || is_digit c then false
  else if (bool_decide (mode = encodeHost) || bool_decide (mode = encodeZone))
          && (one_of "!$&'()*+,;=:[]<>" c || Ascii.eqb c (ascii_of_nat 34)) then false
  else if one_of "-_.~" c then false
  else if one_of "$&+,/:;=?@" c then
    match mode with
    | encodePath => Ascii.eqb c "?"
    | encodeUserPassword => one_of "@/?:" c
    | encodeFragment => false
    | _ => true
    end
  else if bool_decide (mode = encodeFragment) && one_of "!()*" c then false
  else true.

Definition upperhex (n : nat) : ascii := default zero (String.get n "0123456789ABCDEF").
Fixpoint escape (s : string) (mode : encoding) : string :=
  match s with
  | EmptyString => ""
  | String c s =>
      if shouldEscape c mode then
        String "%" (String (upperhex (nat_of_ascii c / 16)) (String (upperhex (nat_of_ascii c mod 16)) (escape s mode)))
      else String c (escape s mode)
  end.

Definition unhex (c : ascii) : nat := default 0 (index_of (lower c) hex_digits).
Definition ishex (c : ascii) : bool := one_of "0123456789abcdefABCDEF" c.
Definition EscapeError : err := new_error "invalid URL escape".
Definition InvalidHostError : err := new_error "invalid character in host name".

(** Three bytes of an escape, then the rest.  A host may escape bytes that are not ASCII, and the percent sign;
    a zone also spaces, percent signs and what would not be escaped in a host. *)
Definition bad_host_escape (a b : ascii) (mode : encoding) : bool :=
  let percent := Ascii.eqb a "2" && Ascii.eqb b "5" in
  let v := 16 * unhex a + unhex b in
  match mode with
  | encodeHost => (unhex a <? 8) && negb percent
  | encodeZone => negb percent && negb (v =? 32) && shouldEscape (ascii_of_nat v) encodeHost
  | _ => false
  end.
Fixpoint unescape (s : string) (mode : encoding) : res string :=
  match s with
  | EmptyString => Ok ""
  | String c s' =>
      if Ascii.eqb c "%" then
        match s' with
        | String a (String b s'') =>
            if ishex a && ishex b then
              if bad_host_escape a b mode then Fail EscapeError
              else rmap (String (ascii_of_nat (16 * unhex a + unhex b))) (unescape s'' mode)
            else Fail EscapeError
        | _ => Fail EscapeError
        end
      else if (bool_decide (mode = encodeHost) || bool_decide (mode = encodeZone))
              && (nat_of_ascii c <? 128) && shouldEscape c mode then Fail InvalidHostError
      else rmap (String c) (unescape s' mode)
  end.

(** ** The type *)

Record URL := MkUrl {
  Scheme : string; Opaque : string; User : option (string * option string); Host : string;
  Path : string; RawPath : string; OmitHost : bool; ForceQuery : bool; RawQuery : string;
  Fragment : string; RawFragment : string }.
Definition set_Path (p : string) (u : URL) : URL :=
  MkUrl (Scheme u) (Opaque u) (User u) (Host u) p (RawPath u) (OmitHost u) (ForceQuery u) (RawQuery u) (Fragment u) (RawFragment u).
(** [&url.URL{Path: p}] *)
Definition path_URL (p : string) : URL := MkUrl "" "" None "" p "" false false "" "" "".

(** ** [String] *)

Fixpoint all_of (f : ascii -> bool) (s : string) : bool :=
  match s with EmptyString => true | String c s => f c && all_of f s end.
Definition validEncoded (s : string) (mode : encoding) : bool :=
  all_of (fun c => one_of "!$&'()*+,;=:@[]%" c || negb (shouldEscape c mode)) s.
(** The raw form is used where it is a valid encoding of the text. *)
Definition escaped (raw text : string) (mode : encoding) : option string :=
  if negb (String.eqb raw "") && validEncoded raw mode then
    match unescape raw mode with Ok p => if String.eqb p text then Some raw else None | Fail _ => None end
  else None.
Definition EscapedPath (u : URL) : string :=
  match escaped (RawPath u) (Path u) encodePath with
  | Some p => p
  | None => if String.eqb (Path u) "*" then "*" else escape (Path u) encodePath
  end.
Definition EscapedFragment (u : URL) : string :=
  match escaped (RawFragment u) (Fragment u) encodeFragment with Some f => f | None => escape (Fragment u) encodeFragment end.
Definition userinfo_String (i : string * option string) : string :=
  escape i.1 encodeUserPassword +:+ match i.2 with Some p => ":" +:+ escape p encodeUserPassword | None => "" end.

Definition some_text (s : string) : bool := negb (String.eqb s "").
Definition has_user (u : URL) : bool := match User u with Some _ => true | None => false end.
Definition authority (u : URL) : string :=
  if (some_text (Scheme u) || some_text (Host u) || has_user u)
     && negb (OmitHost u && negb (some_text (Host u)) && negb (has_user u)) then
    (if some_text (Host u) || some_text (Path u) || has_user u then "//" else "") +:+
    match User u with Some i => userinfo_String i +:+ "@" | None => "" end +:+ escape (Host u) encodeHost
  else "".
(** A relative path whose first segment has a colon would be read as a scheme. *)
Definition url_String (u : URL) : string :=
  let scheme := if some_text (Scheme u) then Scheme u +:+ ":" else "" in
  let hierarchical :=
    let before := scheme +:+ authority u in
    let path := EscapedPath u in
    let before := if some_text path && negb (HasPrefix path "/") && some_text (Host u) then before +:+ "/" else before in
    let before := if negb (some_text before) && contains ":" (Cut "/" path).1.1 then "./" else before in
    before +:+ path in
  (if some_text (Opaque u) then scheme +:+ Opaque u else hierarchical) +:+
  (if ForceQuery u || some_text (RawQuery u) then "?" +:+ RawQuery u else "") +:+
  (if some_text (Fragment u) then "#" +:+ EscapedFragment u else "").

(** ** [Parse] *)

(** The scheme and the rest; [started]: a character was read. *)
Fixpoint getScheme_at (started : bool) (s : string) : option (res (string * string)) :=
  match s with
  | EmptyString => None
  | String c s =>
      if is_letter c || (is_digit c || one_of "+-." c) && started then
        match getScheme_at true s with
        | Some (Ok (scheme, rest)) => Some (Ok (String c scheme, rest))
        | other => other
        end
      else if Ascii.eqb c ":" then Some (if started then Ok ("", s) else Fail (new_error "missing protocol scheme"))
      else None
  end.
Definition getScheme (rawURL : string) : res (string * string) := default (Ok ("", rawURL)) (getScheme_at false rawURL).

Definition validOptionalPort (port : string) : bool :=
  match port with EmptyString => true | String c s => Ascii.eqb c ":" && all_of is_digit s end.
(** The text before the last [c], and after it. *)
Definition validUserinfo (s : string) : bool :=
  all_of (fun c => is_letter c || is_digit c || one_of "-._:~!$&'()*+,;=%@" c) s.

(** Where the text [%25] begins. *)
Fixpoint cut_zone (s : string) : option (string * string) :=
  if HasPrefix s "%25" then Some ("", s)
  else match s with
       | EmptyString => None
       | String c s => match cut_zone s with Some (a, b) => Some (String c a, b) | None => None end
       end.
Definition parseHost (host : string) : res string :=
  if HasPrefix host "[" then
    match cut_last "]" host with
    | None => Fail (new_error "missing ']' in host")
    | Some (inside, colonPort) =>
        if negb (validOptionalPort colonPort) then Fail (new_error ("invalid port " +:+ colonPort +:+ " after host"))
        else match cut_zone inside with
             | Some (addr, zone) =>
                 rbind (unescape addr encodeHost) (fun host1 =>
                 rbind (unescape zone encodeZone) (fun host2 =>
                 rmap (fun host3 => host1 +:+ host2 +:+ host3) (unescape (String "]" colonPort) encodeHost)))
             | None => unescape host encodeHost
             end
    end
  else match cut_last ":" host with
       | Some (_, port) => if validOptionalPort (String ":" port) then unescape host encodeHost
                           else Fail (new_error ("invalid port :" +:+ port +:+ " after host"))
       | None => unescape host encodeHost
       end.
Definition parse_userinfo (userinfo : string) : res (string * option string) :=
  if negb (validUserinfo userinfo) then Fail (new_error "net/url: invalid userinfo")
  else match Cut ":" userinfo with
       | (name, _, false) => rmap (fun name => (name, None)) (unescape name encodeUserPassword)
       | (name, password, true) =>
           rbind (unescape name encodeUserPassword) (fun name =>
           rmap (fun password => (name, Some password)) (unescape password encodeUserPassword))
       end.
Definition parseAuthority (authority : string) : res (option (string * option string) * string) :=
  match cut_last "@" authority with
  | None => rmap (fun host => (None, host)) (parseHost authority)
  | Some (userinfo, host) =>
      rbind (parseHost host) (fun host => rmap (fun user => (Some user, host)) (parse_userinfo userinfo))
  end.

Definition is_ctl (c : ascii) : bool := (nat_of_ascii c <? 32) || (nat_of_ascii c =? 127).
(** The decoded text, and the raw one where it is not what [escape] gives. *)
Definition with_raw (s : string) (mode : encoding) : res (string * string) :=
  rmap (fun t => (t, if String.eqb (escape t mode) s then "" else s)) (unescape s mode).

(** The query: a single question mark at the end is kept apart. *)
Definition cut_query (rest : string) : string * string * bool :=
  match Cut "?" rest with
  | (a, "", true) => (a, "", true)
  | (a, q, _) => (a, q, false)
  end.
Definition parse_hier (scheme rest query : string) (force : bool) : res URL :=
  let path user host omit p :=
    rmap (fun '(path, raw) => MkUrl scheme "" user host path raw omit force query "" "") (with_raw p encodePath) in
  if HasPrefix rest "//" && (some_text scheme || negb (HasPrefix rest "///")) then
    let '(auth, p, slash) := Cut "/" (TrimPrefix rest "//") in
    rbind (parseAuthority auth) (fun '(user, host) => path user host false (if slash : bool then String "/" p else ""))
  else path None "" (some_text scheme && HasPrefix rest "/") rest.
Definition parse (rawURL : string) : res URL :=
  if negb (all_of (fun c => negb (is_ctl c)) rawURL) then Fail (new_error "net/url: invalid control character in URL")
  else if String.eqb rawURL "*" then Ok (path_URL "*")
  else
    rbind (getScheme rawURL) (fun '(scheme, rest) =>
    let scheme := ToLower scheme in
    let '(rest, query, force) := cut_query rest in
    if HasPrefix rest "/" then parse_hier scheme rest query force
    else if some_text scheme then Ok (MkUrl scheme rest None "" "" "" false force query "" "")
    else if contains ":" (Cut "/" rest).1.1 then Fail (new_error "first path segment in URL cannot contain colon")
    else parse_hier scheme rest query force).
Definition url_Parse (rawURL : string) : res URL :=
  let '(u, frag, _) := Cut "#" rawURL in
  rbind (parse u) (fun u =>
  if String.eqb frag "" then Ok u
  else rmap (fun '(f, raw) => MkUrl (Scheme u) (Opaque u) (User u) (Host u) (Path u) (RawPath u) (OmitHost u)
                                (ForceQuery u) (RawQuery u) f raw) (with_raw frag encodeFragment)).

(** ** Facts *)

Lemma upperhex_spec n : n < 16 -> ishex (upperhex n) = true /\ unhex (upperhex n) = n.
Proof. intros H. do 16 (destruct n as [|n]; [done|]). lia. Qed.

(** What is escaped for a path is what is read back. *)
Theorem path_roundtrip s : unescape (escape s encodePath) encodePath = Ok s.
Proof.
  induction s as [|c s IH]; [done|]. cbn [escape]. destruct (shouldEscape c encodePath) eqn:E.
  - set (h := upperhex (nat_of_ascii c / 16)). set (l := upperhex (nat_of_ascii c mod 16)).
    assert (nat_of_ascii c < 256) by apply nat_ascii_bounded.
    destruct (upperhex_spec (nat_of_ascii c / 16)) as [Hh Hh']; [apply Nat.Div0.div_lt_upper_bound; lia|].
    destruct (upperhex_spec (nat_of_ascii c mod 16)) as [Hl Hl']; [apply Nat.mod_upper_bound; lia|].
    cbn [unescape]. rewrite Ascii.eqb_refl. fold h in Hh, Hh'. fold l in Hl, Hl'. rewrite Hh, Hl. cbn [andb bad_host_escape].
    rewrite IH. cbn [rmap]. rewrite Hh', Hl', <-Nat.div_mod_eq, ascii_nat_embedding. done.
  - cbn [unescape]. destruct (Ascii.eqb_spec c "%") as [->|]; [done|]. simpl. by rewrite IH.
Qed.

(** The path of a file without a scheme is printed escaped, and as it is exactly when nothing is escaped. *)
Lemma path_String p : HasPrefix p "/" = true -> url_String (path_URL p) = escape p encodePath.
Proof.
  intros (q & ->)%HasPrefix_iff. change ("/" +:+ q) with (String "/" q).
  assert (E : EscapedPath (path_URL (String "/" q)) = String "/" (escape q encodePath)) by reflexivity.
  change (escape (String "/" q) encodePath) with (String "/" (escape q encodePath)).
  unfold url_String. rewrite E. generalize (escape q encodePath). intros r. cbn. destruct r; cbn; by rewrite ?app_nil_r_str.
Qed.

(** What [Parse] made of a path is printed as it was. *)
Lemma escape_plain s mode : all_of (fun c => negb (shouldEscape c mode)) s = true -> escape s mode = s.
Proof.
  induction s as [|c s IH]; [done|]. cbn [all_of escape]. intros [Hc Hs]%andb_prop.
  destruct (shouldEscape c mode); [done|]. by rewrite IH.
Qed.
