(* ===== verification/JsonFiles.v ===== *)
(** * JSON files: the client's array files, their import and the older backups

    [mrld/js] ([reader.go], [writer.go]) and the calls of [mrld/clients/directory] that use it: [Export]
    and [Import] of two files, [Backup] and [Restore] of an archive of them.  A file is one JSON object
    with one array of messages; it is written text by text, and read with [json.Decoder], which is
    modelled here with its token states.  [protojson] is a parameter ([PbJson]). *)
From Stdlib Require Import Ascii.
From S2P Require Import Prelude Bytes Text Paths Messages Hash Json Keys Store Bolt Bdb.
From S2P Require Import BdbTx Ds Service Instances DsFacts Writer Importer Exporter Model Policies Transfer Archive.

(** ** [encoding/json]: the scanner *)

(** The end of the input is an error of its own. *)
Inductive io_err := IoEOF | IoErr (e : err).
Definition io_error (e : io_err) : err := match e with IoEOF => new_error "EOF" | IoErr e => e end.
Definition ErrUnexpectedEOF : err := new_error "unexpected EOF".
Definition syntax_error (s : string) : err := new_error ("invalid character at " +:+ s).

Definition opens (c : ascii) : bool := Ascii.eqb c "{" || Ascii.eqb c "[".
Definition closes (c : ascii) : bool := Ascii.eqb c "}" || Ascii.eqb c "]".

Definition snoc_fst (c : ascii) (r : option (string * string)) : option (string * string) :=
  match r with Some (v, rest) => Some (String c v, rest) | None => None end.

(** A string literal after its opening quote; an object or an array after its opening bracket, up to the
    bracket that closes it.  What is inside is checked by whoever decodes the value. *)
Fixpoint scan_string (escaped : bool) (s : string) : option (string * string) :=
  match s with
  | EmptyString => None
  | String c s =>
      if escaped then snoc_fst c (scan_string false s)
      else if Ascii.eqb c backslash then snoc_fst c (scan_string true s)
      else if Ascii.eqb c dquote then Some (String c "", s)
      else snoc_fst c (scan_string false s)
  end.
Fixpoint scan_nested (depth : nat) (quoted escaped : bool) (s : string) : option (string * string) :=
  match s with
  | EmptyString => None
  | String c s =>
      if quoted then
        snoc_fst c (if escaped then scan_nested depth true false s
                    else if Ascii.eqb c backslash then scan_nested depth true true s
                    else scan_nested depth (negb (Ascii.eqb c dquote)) false s)
      else if Ascii.eqb c dquote then snoc_fst c (scan_nested depth true false s)
      else if opens c then snoc_fst c (scan_nested (S depth) false false s)
      else if closes c then
        match depth with
        | O => Some (String c "", s)
        | S depth => snoc_fst c (scan_nested depth false false s)
        end
      else snoc_fst c (scan_nested depth false false s)
  end.
Definition in_literal (c : ascii) : bool :=
  negb (is_space c || opens c || closes c || Ascii.eqb c "," || Ascii.eqb c ":" || Ascii.eqb c dquote).
Fixpoint scan_literal (s : string) : string * string :=
  match s with
  | EmptyString => ("", "")
  | String c s' => if in_literal c then let '(v, rest) := scan_literal s' in (String c v, rest) else ("", s)
  end.

(** [Decoder.readValue] on the input [s] that ends with [fin]: the text of the next value. *)
Definition readValue (fin : io_err) (s : string) : io_err + (string * string) :=
  let cut := inl (match fin with IoEOF => IoErr ErrUnexpectedEOF | e => e end) in
  match skip_space s with
  | EmptyString => inl fin
  | String c s' =>
      if opens c then match scan_nested 0 false false s' with Some (v, rest) => inr (String c v, rest) | None => cut end
      else if Ascii.eqb c dquote then match scan_string false s' with Some (v, rest) => inr (String c v, rest) | None => cut end
      else if in_literal c then inr (scan_literal (String c s'))
      else inl (IoErr (syntax_error (String c "")))
  end.

(** ** [json.Decoder] *)

Inductive tokenState :=
| tokenTopValue | tokenArrayStart | tokenArrayValue | tokenArrayComma
| tokenObjectStart | tokenObjectKey | tokenObjectColon | tokenObjectValue | tokenObjectComma.
Inductive token := Delim (c : ascii) | StringToken (s : string) | ValueToken (raw : string).
(** The text that is left and what the reader returns after it; the state, and those of the values around. *)
Record Decoder := MkDecoder { dec_buf : string; dec_end : io_err; dec_state : tokenState; dec_stack : list tokenState }.
Definition NewDecoder (text : string) (fin : io_err) : Decoder := MkDecoder text fin tokenTopValue [].

Definition tokenValueAllowed (st : tokenState) : bool :=
  match st with tokenTopValue | tokenArrayStart | tokenArrayValue | tokenObjectValue => true | _ => false end.
Definition tokenValueEnd (st : tokenState) : tokenState :=
  match st with
  | tokenArrayStart | tokenArrayValue => tokenArrayComma
  | tokenObjectValue => tokenObjectComma
  | st => st
  end.
Definition step_to (d : Decoder) (rest : string) (st : tokenState) : Decoder :=
  MkDecoder rest (dec_end d) st (dec_stack d).

(** The state after a separator, where one is expected. *)
Definition separator (c : ascii) (st : tokenState) : option tokenState :=
  match st with
  | tokenObjectColon => if Ascii.eqb c ":" then Some tokenObjectValue else None
  | tokenArrayComma => if Ascii.eqb c "," then Some tokenArrayValue else None
  | tokenObjectComma => if Ascii.eqb c "," then Some tokenObjectKey else None
  | _ => None
  end.

(** [Decode] into raw text. *)
Definition Decode (d : Decoder) : (io_err + string) * Decoder :=
  let prepared :=
    match dec_state d with
    | tokenArrayComma | tokenObjectColon =>
        match skip_space (dec_buf d) with
        | EmptyString => inl (dec_end d)
        | String c rest =>
            match separator c (dec_state d) with
            | Some st => inr (step_to d rest st)
            | None => inl (IoErr (syntax_error "expected a separator"))
            end
        end
    | _ => inr d
    end in
  match prepared with
  | inl e => (inl e, d)
  | inr d =>
      if negb (tokenValueAllowed (dec_state d)) then (inl (IoErr (syntax_error "not at beginning of value")), d)
      else match readValue (dec_end d) (dec_buf d) with
           | inl e => (inl e, d)
           | inr (raw, rest) => (inr raw, step_to d rest (tokenValueEnd (dec_state d)))
           end
  end.

Definition pop (d : Decoder) (c : ascii) (rest : string) : (io_err + token) * Decoder :=
  match dec_stack d with
  | st :: stack => (inr (Delim c), MkDecoder rest (dec_end d) (tokenValueEnd st) stack)
  | [] => (inl (IoErr (syntax_error (String c ""))), d)
  end.

(** [Token], once a separator is out of the way. *)
Definition token_at (d : Decoder) : (io_err + token) * Decoder :=
  let bad c := (inl (IoErr (syntax_error (String c ""))), d) in
  match skip_space (dec_buf d) with
  | EmptyString => (inl (dec_end d), d)
  | String c rest =>
      if opens c then
        if tokenValueAllowed (dec_state d) then
          (inr (Delim c), MkDecoder rest (dec_end d) (if Ascii.eqb c "[" then tokenArrayStart else tokenObjectStart)
                            (dec_state d :: dec_stack d))
        else bad c
      else if Ascii.eqb c "]" then
        match dec_state d with tokenArrayStart | tokenArrayComma => pop d c rest | _ => bad c end
      else if Ascii.eqb c "}" then
        match dec_state d with tokenObjectStart | tokenObjectComma => pop d c rest | _ => bad c end
      else if Ascii.eqb c dquote && match dec_state d with tokenObjectStart | tokenObjectKey => true | _ => false end then
        match readValue (dec_end d) (dec_buf d) with
        | inl e => (inl e, d)
        | inr (raw, rest) =>
            match parse_elem raw with
            | Some (key, _) => (inr (StringToken key), step_to d rest tokenObjectColon)
            | None => bad c
            end
        end
      else if tokenValueAllowed (dec_state d) then
        match readValue (dec_end d) (dec_buf d) with
        | inl e => (inl e, d)
        | inr (raw, rest) =>
            let d := step_to d rest (tokenValueEnd (dec_state d)) in
            (inr (match (if Ascii.eqb c dquote then parse_elem raw else None) with
                  | Some (s, _) => StringToken s
                  | None => ValueToken raw
                  end), d)
        end
      else bad c
  end.
Definition Token (d : Decoder) : (io_err + token) * Decoder :=
  match skip_space (dec_buf d) with
  | EmptyString => (inl (dec_end d), d)
  | String c rest =>
      match separator c (dec_state d) with
      | Some st => token_at (step_to d rest st)
      | None => token_at d
      end
  end.
Definition More (d : Decoder) : bool :=
  match skip_space (dec_buf d) with EmptyString => false | String c _ => negb (closes c) end.

(** ** [js.Reader] *)

Record Reader := MkReader { rd_dec : Decoder; rootKey : string }.
Definition not_array : err := new_error "file does not contain a JSON array".

Definition NewReader (text : string) (fin : io_err) : io_err + Reader :=
  match Token (NewDecoder text fin) with
  | (inl e, _) => inl e
  | (inr (Delim "{"), dec) =>
      match Token dec with
      | (inl e, _) => inl e
      | (inr t, dec) =>
          let keyStr := match t with StringToken key => key | _ => "" end in
          match Token dec with
          | (inl e, _) => inl e
          | (inr (Delim _), dec) => inr (MkReader dec keyStr)
          | (inr _, _) => inl (IoErr not_array)
          end
      end
  | (inr _, _) => inl (IoErr (new_error "unsupported file format"))
  end.
Definition GetObjectType (r : Reader) : string := rootKey r.

(** [Read] into a message that [unmarshal] decodes.  At the end of the array, what follows it is only
    looked at. *)
Definition Read {B} (unmarshal : string -> res B) (r : Reader) : (io_err + B) * Reader :=
  let dec := rd_dec r in
  if negb (More dec) then
    match Token dec with
    | (inl e, dec) => (inl e, MkReader dec (rootKey r))
    | (inr (Delim _), dec) =>
        match Token dec with
        | (inl e, dec) => (inl e, MkReader dec (rootKey r))
        | (inr _, dec) => (inl IoEOF, MkReader dec (rootKey r))
        end
    | (inr _, dec) => (inl (IoErr not_array), MkReader dec (rootKey r))
    end
  else
    let '(v, dec) := Decode dec in
    let r := MkReader dec (rootKey r) in
    match v with
    | inl e => (inl e, r)
    | inr raw => match unmarshal raw with Ok m => (inr m, r) | Fail e => (inl (IoErr e), r) end
    end.

(** ** [js.Writer] *)

Record Writer := MkWriter { w_text : string; w_first : bool }.
Definition NewWriter (key : string) : Writer :=
  MkWriter ("{" +:+ String newline "" +:+ quote key +:+ ":" +:+ String newline "" +:+ "[" +:+ String newline "") false.
Definition Close (f : Writer) : string := w_text f +:+ "]" +:+ String newline "" +:+ "}" +:+ String newline "".
(** The comma is written before the message is encoded. *)
Definition Write (f : Writer) (msg : res string) : option err * Writer :=
  let text := if w_first f then w_text f +:+ "," else w_text f in
  match msg with
  | Ok b => (None, MkWriter (text +:+ b) true)
  | Fail e => (Some e, MkWriter text true)
  end.

(** [pb.ProtoToBuf] and [pb.UnmarshalNext] on the messages of a directory. *)
Class PbJson := {
  pb_marshal : entry -> res string;
  pb_object : string -> res Object;
  pb_relation : string -> res Relation }.

(** The documented behaviour: decoding inverts encoding, and the text of a message is one JSON value. *)
Class PbJsonLaws (J : PbJson) := {
  pb_object_marshal o s : pb_marshal (EntryObject o) = Ok s -> pb_object s = Ok o;
  pb_relation_marshal r s : pb_marshal (EntryRelation r) = Ok s -> pb_relation s = Ok r;
  pb_value x s : pb_marshal x = Ok s -> forall fin rest, readValue fin (s +:+ rest) = inr (s, rest);
  pb_opens x s : pb_marshal x = Ok s -> exists b, s = String "{" b }.

Definition ObjectsStr : string := "objects".
Definition ObjectsFileName : string := "objects.json".
Definition RelationsStr : string := "relations".
Definition RelationsFileName : string := "relations.json".

Section Client.
Context `{J : PbJson}.

(** ** [Export] and [createBackupFiles]: the messages of a stream into two files *)

(** An error of [Write] is printed, and the export goes on. *)
Fixpoint write_messages (msgs : list ExportResponse) (objects relations : Writer) : Writer * Writer :=
  match msgs with
  | [] => (objects, relations)
  | m :: msgs =>
      match m with
      | ExportResponse_Object o =>
          write_messages msgs (Write objects (pb_marshal (EntryObject (default zero_Object o)))).2 relations
      | ExportResponse_Relation r =>
          write_messages msgs objects
            (Write relations (pb_marshal (EntryRelation (default (MkRelation (ident_of None) None None "") r)))).2
      | ExportResponse_Stats _ => write_messages msgs objects relations
      end
  end.

Context (create_err : string -> option err).

(** The files are closed on every way out. *)
Definition write_files (msgs : list ExportResponse) (stream_end : option err) (objectsFile relationsFile : string) : fsM unit :=
  do! os_Create create_err objectsFile;
  match create_err relationsFile with
  | Some e => do! write_file objectsFile (Close (NewWriter ObjectsStr)); fail e
  | None =>
      do! os_Create create_err relationsFile;
      let '(objects, relations) := write_messages msgs (NewWriter ObjectsStr) (NewWriter RelationsStr) in
      do! write_file relationsFile (Close relations);
      do! write_file objectsFile (Close objects);
      guard stream_end
  end.
Definition Client_Export : list ExportResponse -> option err -> string -> string -> fsM unit := write_files.
Definition createBackupFiles (msgs : list ExportResponse) (stream_end : option err) (dirPath : string) : fsM unit :=
  write_files msgs stream_end (filepath_Join [dirPath; ObjectsFileName]) (filepath_Join [dirPath; RelationsFileName]).

(** ** [loadObjects], [loadRelations] *)

(** [send_err n]: the outcome of the [n]-th [Send] of the stream. *)
Context (send_err : nat -> option err).

(** Messages with a field that is not known are skipped. *)
Fixpoint load_loop {B} (unmarshal : string -> res B) (request : B -> ImportRequest) (fuel : nat) (r : Reader)
    (sent : list ImportRequest) : list ImportRequest * option err :=
  match fuel with
  | O => (sent, Some out_of_fuel)
  | S fuel =>
      match Read unmarshal r with
      | (inl IoEOF, _) => (sent, None)
      | (inl (IoErr e), r) =>
          if contains_str (err_text e) "unknown field" then load_loop unmarshal request fuel r sent else (sent, Some e)
      | (inr m, r) =>
          match send_err (length sent) with
          | Some e => (sent, Some e)
          | None => load_loop unmarshal request fuel r (sent ++ [request m])
          end
      end
  end.
(** Each round takes a byte of the text at least. *)
Definition load_fuel (r : Reader) : nat := S (String.length (dec_buf (rd_dec r))).
Definition loadObjects (r : Reader) (sent : list ImportRequest) : list ImportRequest * option err :=
  load_loop pb_object (fun o => set_request (ImportRequest_Object (Some o))) (load_fuel r) r sent.
Definition loadRelations (r : Reader) (sent : list ImportRequest) : list ImportRequest * option err :=
  load_loop pb_relation (fun x => set_request (ImportRequest_Relation (Some x))) (load_fuel r) r sent.

(** ** [importHandler]: the files of an import, [restoreHandler]: the entries of an archive *)

Context (open_err : string -> option err).

Definition importFile (fs : files) (file : string) (sent : list ImportRequest) : list ImportRequest * option err :=
  match os_Open open_err file fs with
  | Fail e => (sent, Some (Errorf ("failed to open file: [" +:+ file +:+ "]") e))
  | Ok text =>
      match NewReader text IoEOF with
      | inl _ => (sent, None)
      | inr reader =>
          if String.eqb (GetObjectType reader) ObjectsStr then loadObjects reader sent
          else if String.eqb (GetObjectType reader) RelationsStr then loadRelations reader sent
          else (sent, None)
      end
  end.
Fixpoint importHandler (fs : files) (names : list string) (sent : list ImportRequest) : list ImportRequest * option err :=
  match names with
  | [] => (sent, None)
  | file :: names =>
      match importFile fs file sent with
      | (sent, Some e) => (sent, Some e)
      | (sent, None) => importHandler fs names sent
      end
  end.

Fixpoint restoreHandler (tr : list tar_event) (sent : list ImportRequest) : list ImportRequest * option err :=
  match tr with
  | [] => (sent, None)
  | TarError e :: _ => (sent, Some e)
  | TarEntry h data read_err :: tr =>
      match Typeflag h with
      | TypeReg =>
          match NewReader data (match read_err with Some e => IoErr e | None => IoEOF end) with
          | inl e => (sent, Some (io_error e))
          | inr r =>
              let name := filepath_Clean (Name h) in
              let '(sent, e) :=
                if String.eqb name ObjectsFileName then loadObjects r sent
                else if String.eqb name RelationsFileName then loadRelations r sent
                else (sent, None) in
              match e with Some e => (sent, Some e) | None => restoreHandler tr sent end
          end
      | _ => restoreHandler tr sent
      end
  end.

(** ** [receiver]: the counters that are printed at the end *)

(** The type of a counter is [object] or [relation], as the server names them. *)
Definition counter_type (is_object : bool) : string := if is_object then "object" else "relation".
Definition objectsCounter : string := "objects".
Definition relationsCounter : string := "relations".
Definition received (printed : ImportCounter * ImportCounter) (msg : ImportResponse) : ImportCounter * ImportCounter :=
  match msg with
  | RespStatus _ _ => printed
  | RespCounter is_object c =>
      if String.eqb (counter_type is_object) objectsCounter then (c, printed.2)
      else if String.eqb (counter_type is_object) relationsCounter then (printed.1, c)
      else printed
  | RespFinal object relation => (object, relation)
  end.
Definition receiver (msgs : list ImportResponse) : ImportCounter * ImportCounter :=
  fold_left received msgs (zero_counter, zero_counter).
End Client.

(** ** What was written is read back *)

Definition header_of (key : string) : string := w_text (NewWriter key).
Definition closing : string := "]" +:+ String newline "" +:+ "}" +:+ String newline "".
(** The elements after the first one, and all of them. *)
Definition elements_after (bs : list string) : string := foldr (fun b s => "," +:+ b +:+ s) "" bs.
Definition elements (bs : list string) : string := match bs with [] => "" | b :: bs => b +:+ elements_after bs end.
Definition written (f : Writer) (bs : list string) : Writer := fold_left (fun f b => (Write f (Ok b)).2) bs f.

Lemma written_first bs : forall text, written (MkWriter text true) bs = MkWriter (text +:+ elements_after bs) true.
Proof.
  induction bs as [|b bs IH]; intros text; simpl; [by rewrite app_nil_r_str|].
  change (written (MkWriter ((text +:+ ",") +:+ b) true) bs = MkWriter (text +:+ elements_after (b :: bs)) true).
  rewrite IH. cbn [elements_after foldr]. by rewrite !app_assoc_str.
Qed.
Lemma written_text key bs : w_text (written (NewWriter key) bs) = header_of key +:+ elements bs.
Proof.
  destruct bs as [|b bs]; [by simpl; rewrite app_nil_r_str|].
  change (w_text (written (MkWriter (header_of key +:+ b) true) bs) = header_of key +:+ b +:+ elements_after bs).
  rewrite written_first. cbn [w_text]. by rewrite !app_assoc_str.
Qed.

(** A text that is one value, and starts like an object. *)
Definition is_value (b : string) : Prop :=
  (exists b', b = String "{" b') /\ forall fin rest, readValue fin (b +:+ rest) = inr (b, rest).

Definition reader_at (key buf : string) (st : tokenState) : Reader :=
  MkReader (MkDecoder buf IoEOF st [tokenObjectValue; tokenTopValue]) key.

Lemma NewReader_objects rest : NewReader (header_of ObjectsStr +:+ rest) IoEOF = inr (reader_at ObjectsStr (String newline rest) tokenArrayStart).
Proof. reflexivity. Qed.
Lemma NewReader_relations rest : NewReader (header_of RelationsStr +:+ rest) IoEOF = inr (reader_at RelationsStr (String newline rest) tokenArrayStart).
Proof. reflexivity. Qed.

Section Reads.
Context {B : Type} (unmarshal : string -> res B) (request : B -> ImportRequest) (send_err : nat -> option err) (key : string).

Lemma Read_first b rest m : is_value b -> unmarshal b = Ok m ->
  Read unmarshal (reader_at key (String newline (b +:+ rest)) tokenArrayStart) = (inr m, reader_at key rest tokenArrayComma).
Proof.
  intros [[b' ->] Hv] Hm. unfold Read, More, reader_at. cbn [rd_dec dec_buf]. rewrite app_cons_str.
  change (skip_space (String newline (String "{" (b' +:+ rest)))) with (String "{" (b' +:+ rest)). cbn [closes negb].
  unfold Decode. cbn [dec_state tokenValueAllowed negb dec_end dec_buf].
  change (readValue IoEOF (String newline (String "{" (b' +:+ rest)))) with (readValue IoEOF (String "{" (b' +:+ rest))).
  rewrite <-app_cons_str, Hv. cbn. by rewrite Hm.
Qed.
Lemma Read_next b rest m : is_value b -> unmarshal b = Ok m ->
  Read unmarshal (reader_at key ("," +:+ b +:+ rest) tokenArrayComma) = (inr m, reader_at key rest tokenArrayComma).
Proof.
  intros [_ Hv] Hm. unfold Read, More, reader_at. cbn [rd_dec dec_buf].
  change (skip_space ("," +:+ b +:+ rest)) with (String "," (b +:+ rest)). cbn [closes negb].
  unfold Decode. cbn [dec_state dec_buf].
  change (skip_space ("," +:+ b +:+ rest)) with (String "," (b +:+ rest)). cbn [separator].
  change (Ascii.eqb "," ",") with true. cbn [tokenValueAllowed negb dec_end dec_buf step_to dec_state]. rewrite Hv.
  cbn. by rewrite Hm.
Qed.

(** The text after the elements ends the array, or is no text at all. *)
Definition ends (tail : string) : Prop := tail = closing \/ tail = "".
Lemma Read_end tail st : ends tail -> (st = tokenArrayComma \/ st = tokenArrayStart) ->
  fst (Read unmarshal (reader_at key tail st)) = inl IoEOF /\
  fst (Read unmarshal (reader_at key (String newline tail) st)) = inl IoEOF.
Proof. intros [->| ->] [->| ->]; split; reflexivity. Qed.

Lemma load_end tail st fuel sent : ends tail -> (st = tokenArrayComma \/ st = tokenArrayStart) -> 0 < fuel ->
  load_loop send_err unmarshal request fuel (reader_at key tail st) sent = (sent, None) /\
  load_loop send_err unmarshal request fuel (reader_at key (String newline tail) st) sent = (sent, None).
Proof.
  intros Ht Hs Hf. destruct fuel as [|fuel]; [lia|]. destruct (Read_end tail st Ht Hs) as [H1 H2]. cbn [load_loop].
  destruct (Read _ (reader_at key tail st)), (Read _ (reader_at key (String newline tail) st)). simpl in *. by subst.
Qed.

Lemma load_after bs ms tail : Forall2 (fun b m => is_value b /\ unmarshal b = Ok m) bs ms -> ends tail ->
  (forall n, send_err n = None) -> forall fuel sent, length bs < fuel ->
  load_loop send_err unmarshal request fuel (reader_at key (elements_after bs +:+ tail) tokenArrayComma) sent
    = (sent ++ (request <$> ms), None).
Proof.
  intros H Ht Hs. induction H as [|b m bs ms [Hv Hm] H IH]; intros fuel sent Hf.
  { change (elements_after [] +:+ tail) with tail. rewrite app_nil_r.
    apply (load_end tail tokenArrayComma fuel sent); [done|by left|simpl in Hf; lia]. }
  destruct fuel as [|fuel]; [lia|]. cbn [load_loop elements_after foldr].
  replace (("," +:+ b +:+ foldr (fun b s => "," +:+ b +:+ s) "" bs) +:+ tail)
    with ("," +:+ b +:+ (elements_after bs +:+ tail)) by (unfold elements_after; by rewrite !app_assoc_str).
  rewrite (Read_next b _ m) by done. rewrite Hs, IH by (simpl in Hf; lia). by rewrite <-app_assoc.
Qed.

(** Every element of a file is sent, in order. *)
Lemma load_file bs ms tail sent : Forall2 (fun b m => is_value b /\ unmarshal b = Ok m) bs ms -> ends tail ->
  (forall n, send_err n = None) ->
  let r := reader_at key (String newline (elements bs +:+ tail)) tokenArrayStart in
  load_loop send_err unmarshal request (load_fuel r) r sent = (sent ++ (request <$> ms), None).
Proof.
  intros H Ht Hs. cbv zeta. destruct H as [|b m bs ms [Hv Hm] H].
  { change (elements [] +:+ tail) with tail. rewrite app_nil_r. unfold load_fuel.
    apply (load_end tail tokenArrayStart _ sent); [done|by right|lia]. }
  unfold load_fuel. cbn [rd_dec reader_at dec_buf elements]. rewrite app_assoc_str. cbn [load_loop].
  rewrite (Read_first b _ m) by done. rewrite Hs.
  rewrite (load_after bs ms tail) by (done || (cbn [String.length]; rewrite !length_app_str;
    enough (length bs <= String.length (elements_after bs)) by lia;
    clear; induction bs as [|b bs IH]; [done|]; cbn [elements_after foldr length]; fold (elements_after bs);
    rewrite !length_app_str; cbn [String.length]; lia)).
  by rewrite <-app_assoc.
Qed.
End Reads.

(** ** The loop over a file ends *)

Lemma snoc_fst_Some c r v rest : snoc_fst c r = Some (v, rest) -> exists v', r = Some (v', rest) /\ v = String c v'.
Proof. destruct r as [[v' r']|]; simpl; [|done]. intros [= <- <-]. by exists v'. Qed.

Lemma scan_string_shrinks s : forall esc v rest, scan_string esc s = Some (v, rest) -> String.length rest < String.length s.
Proof.
  induction s as [|c s IH]; intros esc v rest; cbn [scan_string]; [done|].
  repeat case_match; try (by intros [= <- <-]; simpl; lia);
    intros (v' & Hr & _)%snoc_fst_Some; apply IH in Hr; simpl; lia.
Qed.
Lemma scan_nested_shrinks s : forall depth q esc v rest,
  scan_nested depth q esc s = Some (v, rest) -> String.length rest < String.length s.
Proof.
  induction s as [|c s IH]; intros depth q esc v rest; cbn [scan_nested]; [done|].
  repeat case_match; try (by intros [= <- <-]; simpl; lia);
    intros (v' & Hr & _)%snoc_fst_Some; apply IH in Hr; simpl; lia.
Qed.
Lemma scan_literal_length s : String.length (snd (scan_literal s)) <= String.length s.
Proof.
  induction s as [|c s IH]; [done|]. cbn [scan_literal]. case_match; [|done].
  destruct (scan_literal s) as [v rest]. simpl in *. lia.
Qed.
Lemma skip_space_length s : String.length (skip_space s) <= String.length s.
Proof. induction s as [|c s IH]; [done|]. cbn [skip_space]. case_match; simpl in *; lia. Qed.

Lemma readValue_shrinks fin s v rest : readValue fin s = inr (v, rest) -> String.length rest < String.length s.
Proof.
  unfold readValue. pose proof (skip_space_length s) as Hs. destruct (skip_space s) as [|c s'] eqn:E; [done|]. simpl in Hs.
  repeat case_match; try done; try intros [= <- <-].
  - apply scan_nested_shrinks in H0. lia.
  - apply scan_string_shrinks in H1. lia.
  - intros Hl. injection Hl as Hl. cbn [scan_literal] in Hl. rewrite H1 in Hl.
    pose proof (scan_literal_length s'). destruct (scan_literal s'). simplify_eq. simpl in *. lia.
Qed.

Lemma Decode_shrinks d raw d' : Decode d = (inr raw, d') ->
  String.length (dec_buf d') < String.length (dec_buf d) /\ dec_end d' = dec_end d.
Proof.
  unfold Decode. pose proof (skip_space_length (dec_buf d)) as Hs.
  assert (Hgo : forall d1, String.length (dec_buf d1) <= String.length (dec_buf d) -> dec_end d1 = dec_end d ->
    (if negb (tokenValueAllowed (dec_state d1)) then (inl (IoErr (syntax_error "not at beginning of value")), d1)
     else match readValue (dec_end d1) (dec_buf d1) with
          | inl e => (inl e, d1)
          | inr (raw, rest) => (inr raw, step_to d1 rest (tokenValueEnd (dec_state d1)))
          end) = (inr raw, d') -> String.length (dec_buf d') < String.length (dec_buf d) /\ dec_end d' = dec_end d).
  { intros d1 Hl He. case_match; [done|]. destruct (readValue _ _) as [e|[v rest]] eqn:Hv; [done|].
    intros [= <- <-]. apply readValue_shrinks in Hv. simpl. split; [lia|done]. }
  destruct (dec_state d); try (by apply Hgo);
    (destruct (skip_space (dec_buf d)) as [|c rest]; [done|]; destruct (separator _ _) as [st|]; [|done]; apply Hgo; simpl in *; [lia|done]).
Qed.

(** The errors of the decoder are not taken for those of a message. *)
Definition known (e : err) : Prop := contains_str (err_text e) "unknown field" = false.
Lemma syntax_known c : known (syntax_error (String c "")).
Proof. destruct c as [[] [] [] [] [] [] [] []]; reflexivity. Qed.
#[local] Hint Resolve syntax_known : core.

Lemma readValue_known s e : readValue IoEOF s = inl (IoErr e) -> known e.
Proof. unfold readValue. repeat case_match; intros; simplify_eq; done. Qed.
Lemma Decode_known d e d' : dec_end d = IoEOF -> Decode d = (inl (IoErr e), d') -> known e.
Proof.
  intros He. unfold Decode.
  repeat case_match; intros; simplify_eq; try done; cbn [step_to dec_end] in *; try congruence;
    rewrite ?He in *; try done; by eapply readValue_known.
Qed.
Lemma token_at_known d : dec_end d = IoEOF ->
  dec_end (token_at d).2 = IoEOF /\ forall e, fst (token_at d) = inl (IoErr e) -> known e.
Proof.
  intros He. unfold token_at, pop. rewrite He.
  repeat case_match; simpl; (split; [done|]); intros; simplify_eq; try done; by eapply readValue_known.
Qed.
Lemma Token_known d : dec_end d = IoEOF ->
  dec_end (Token d).2 = IoEOF /\ forall e, fst (Token d) = inl (IoErr e) -> known e.
Proof.
  intros He. unfold Token. repeat case_match; try (by apply token_at_known). simpl. split; [done|]. by rewrite He.
Qed.

(** A round that goes on takes text. *)
Lemma Read_progress {B} (unmarshal : string -> res B) r x r' : dec_end (rd_dec r) = IoEOF ->
  Read unmarshal r = (x, r') -> (exists m, x = inr m) \/ (exists e, x = inl (IoErr e) /\ ~ known e) ->
  String.length (dec_buf (rd_dec r')) < String.length (dec_buf (rd_dec r)) /\ dec_end (rd_dec r') = IoEOF.
Proof.
  intros He. unfold Read. destruct (More (rd_dec r)); cbn [negb].
  - destruct (Decode (rd_dec r)) as [[e|raw] d'] eqn:Hd.
    + intros [= <- <-] [[? ?]|(e' & [= ->] & Hk)]; [done|]. by apply Decode_known in Hd.
    + apply Decode_shrinks in Hd as [Hl Hend]. rewrite He in Hend. destruct (unmarshal raw); by intros [= <- <-].
  - destruct (Token_known (rd_dec r) He) as [Hend Hk]. destruct (Token (rd_dec r)) as [[e|t] d1]; simpl in *.
    { intros [= <- <-] [[? ?]|(e' & [= ->] & Hn)]; [done|]. by destruct Hn; apply Hk. }
    destruct (Token_known d1 Hend) as [Hend2 Hk2]. destruct (Token d1) as [[e|t2] d2]; simpl in *;
      destruct t; intros [= <- <-] [[? ?]|(e' & [= He'] & Hn)]; try done; subst; try (by destruct Hn; apply Hk2); by destruct Hn.
Qed.

Lemma load_loop_fuel {B} send_err (unmarshal : string -> res B) request : forall n r f1 f2 sent,
  dec_end (rd_dec r) = IoEOF -> String.length (dec_buf (rd_dec r)) <= n -> n < f1 -> n < f2 ->
  load_loop send_err unmarshal request f1 r sent = load_loop send_err unmarshal request f2 r sent.
Proof.
  induction n as [n IH] using lt_wf_ind. intros r [|f1] [|f2] sent He Hn H1 H2; try lia. cbn [load_loop].
  destruct (Read unmarshal r) as [x r'] eqn:Hr. pose proof (Read_progress unmarshal r x r' He Hr) as Hp.
  assert (Hgo : String.length (dec_buf (rd_dec r')) < String.length (dec_buf (rd_dec r)) /\ dec_end (rd_dec r') = IoEOF ->
    forall sent, load_loop send_err unmarshal request f1 r' sent = load_loop send_err unmarshal request f2 r' sent).
  { intros [Hl Hd] sent'. apply (IH (String.length (dec_buf (rd_dec r')))); [lia|done|lia..]. }
  destruct x as [[|e]|m]; [done| |].
  - destruct (contains_str _ _) eqn:Ek; [|done]. apply Hgo, Hp. right. exists e. split; [done|]. unfold known. by rewrite Ek.
  - case_match; [done|]. apply Hgo, Hp. left. by exists m.
Qed.

(** The number of rounds is enough for any text: with more of them the outcome is the same. *)
Theorem load_ends {B} send_err (unmarshal : string -> res B) request text r sent fuel :
  NewReader text IoEOF = inr r -> load_fuel r <= fuel ->
  load_loop send_err unmarshal request fuel r sent = load_loop send_err unmarshal request (load_fuel r) r sent.
Proof.
  intros Hr Hf. apply (load_loop_fuel send_err unmarshal request (String.length (dec_buf (rd_dec r)))); unfold load_fuel in *; [|lia..].
  revert Hr. unfold NewReader. destruct (Token_known (NewDecoder text IoEOF) eq_refl) as [E1 _].
  destruct (Token (NewDecoder text IoEOF)) as [[|t1] d1]; [done|]. simpl in E1.
  destruct t1 as [c| |]; [|done..]. destruct (Token_known d1 E1) as [E2 _].
  destruct (Token d1) as [[|t2] d2]; [by repeat case_match|]. simpl in E2.
  destruct (Token_known d2 E2) as [E3 _]. destruct (Token d2) as [[|t3] d3]; [by repeat case_match|]. simpl in E3.
  repeat case_match; intros; by simplify_eq.
Qed.

(** ** The files of a directory *)

Section Files.
Context `{J : PbJson} {JL : PbJsonLaws J}.

Definition encodes (x : entry) (b : string) : Prop := pb_marshal x = Ok b.

Lemma encodes_object bs os : Forall2 encodes (EntryObject <$> os) bs ->
  Forall2 (fun b o => is_value b /\ pb_object b = Ok o) bs os.
Proof.
  intros H. rewrite Forall2_fmap_l in H. apply Forall2_flip. eapply Forall2_impl; [exact H|]. intros o b Hb.
  split; [split; [by eapply pb_opens|by apply pb_value with (EntryObject o)]|by apply pb_object_marshal].
Qed.
Lemma encodes_relation bs rs : Forall2 encodes (EntryRelation <$> rs) bs ->
  Forall2 (fun b r => is_value b /\ pb_relation b = Ok r) bs rs.
Proof.
  intros H. rewrite Forall2_fmap_l in H. apply Forall2_flip. eapply Forall2_impl; [exact H|]. intros r b Hb.
  split; [split; [by eapply pb_opens|by apply pb_value with (EntryRelation r)]|by apply pb_relation_marshal].
Qed.
Lemma encode_all xs : (forall x, x ∈ xs -> exists b, pb_marshal x = Ok b) -> exists bs, Forall2 encodes xs bs.
Proof.
  induction xs as [|x xs IH]; intros H; [by exists []|]. destruct (H x) as [b Hb]; [left|].
  destruct IH as [bs Hbs]; [intros y Hy; apply H; by right|]. exists (b :: bs). by constructor.
Qed.

(** A file of objects, complete or cut after an element, is read to its last element. *)
Lemma load_objects send os bs tail sent :
  Forall2 encodes (EntryObject <$> os) bs -> ends tail -> (forall n, send n = None) ->
  exists r, NewReader (header_of ObjectsStr +:+ elements bs +:+ tail) IoEOF = inr r /\ GetObjectType r = ObjectsStr /\
    loadObjects send r sent = (sent ++ (request_of <$> (EntryObject <$> os)), None).
Proof.
  intros He Ht Hs. eexists. split; [apply NewReader_objects|]. split; [done|].
  unfold loadObjects. rewrite (load_file _ _ _ _ bs os tail) by (done || by apply encodes_object).
  by rewrite <-list_fmap_compose.
Qed.
Lemma load_relations send rs bs tail sent :
  Forall2 encodes (EntryRelation <$> rs) bs -> ends tail -> (forall n, send n = None) ->
  exists r, NewReader (header_of RelationsStr +:+ elements bs +:+ tail) IoEOF = inr r /\ GetObjectType r = RelationsStr /\
    loadRelations send r sent = (sent ++ (request_of <$> (EntryRelation <$> rs)), None).
Proof.
  intros He Ht Hs. eexists. split; [apply NewReader_relations|]. split; [done|].
  unfold loadRelations. rewrite (load_file _ _ _ _ bs rs tail) by (done || by apply encodes_relation).
  by rewrite <-list_fmap_compose.
Qed.

Lemma write_messages_relations rs bs : Forall2 encodes (EntryRelation <$> rs) bs -> forall wo wr,
  write_messages (response_of <$> (EntryRelation <$> rs)) wo wr = (wo, written wr bs).
Proof.
  intros H. rewrite Forall2_fmap_l in H. induction H as [|r b rs bs Hb H IH]; intros wo wr; [done|]. unfold encodes in Hb.
  cbn [fmap list_fmap response_of write_messages default]. rewrite Hb. apply IH.
Qed.
Lemma write_messages_all os rs bo br :
  Forall2 encodes (EntryObject <$> os) bo -> Forall2 encodes (EntryRelation <$> rs) br -> forall wo wr,
  write_messages (response_of <$> ((EntryObject <$> os) ++ (EntryRelation <$> rs))) wo wr = (written wo bo, written wr br).
Proof.
  intros H Hr. rewrite Forall2_fmap_l in H. induction H as [|o b os bo Hb H IH]; intros wo wr; [by apply write_messages_relations|].
  unfold encodes in Hb. cbn [fmap list_fmap app response_of write_messages default]. rewrite Hb. apply IH.
Qed.

Definition file_text (key : string) (bs : list string) : string := header_of key +:+ elements bs +:+ closing.
Lemma Close_written key bs : Close (written (NewWriter key) bs) = file_text key bs.
Proof. unfold Close, file_text. by rewrite written_text, app_assoc_str. Qed.

Lemma write_files_all create_err os rs bo br o r fs :
  Forall2 encodes (EntryObject <$> os) bo -> Forall2 encodes (EntryRelation <$> rs) br ->
  (forall p, create_err p = None) -> o <> r ->
  exists fs', write_files create_err (response_of <$> ((EntryObject <$> os) ++ (EntryRelation <$> rs))) None o r fs = (Ok tt, fs') /\
    fs' !! o = Some (file_text ObjectsStr bo) /\ fs' !! r = Some (file_text RelationsStr br).
Proof.
  intros Ho Hr Hc Hne. unfold write_files, bind, os_Create. rewrite !Hc.
  rewrite (write_messages_all os rs bo br Ho Hr). unfold write_file, guard, ret. eexists. split; [reflexivity|].
  rewrite !Close_written. rewrite lookup_insert_eq. rewrite lookup_insert_ne by done. by rewrite lookup_insert_eq.
Qed.
End Files.

(** ** [Import], [Backup] and [Restore] *)

Section Client2.
Context {model : Type} {T1 T2 : TxOps model} {A : Azm model} {C2 : @StoreOps model T2} {V : Validator}
  {X : ExportOptions} {J : PbJson}.
Context (create_err open_err : string -> option err) (mkdir_err : option err).
Context (src_send cli_send dst_send : nat -> option err).
Context (clock : nat -> Timestamp) (object_first : bool) (seen : nat).

(** The two goroutines, [receiver] and the handler that sends.  The receiver ends without an error when
    the server has ended the stream; when the handler fails, the call is cancelled and its error is the
    result. *)
Definition import_with (handled : list ImportRequest * option err) (s : @server model T2 A)
  : option err * @server model T2 A :=
  match handled with
  | (reqs, Some e) =>
      let '(_, t) := Import dst_send (srv_mc s) object_first (events clock (take seen reqs) ++ [ContextDone]) (srv_tx s) in
      (Some e, MkServer t (srv_mc s))
  | (reqs, None) =>
      let '(r, t) := Import dst_send (srv_mc s) object_first (events clock reqs) (srv_tx s) in
      (match r with Ok _ => None | Fail e => Some e end, MkServer t (srv_mc s))
  end.

Definition Client_Import (fs : files) (names : list string) (s : @server model T2 A) : option err * @server model T2 A :=
  import_with (importHandler cli_send open_err fs names []) s.

(** The archive, once its file was created. *)
Definition Backup (opts : Z) (tmpDir file : string) (t1 : @tx model T1) : option err * option (list tar_event) :=
  let '(msgs, stream_end) := stream_of (Export src_send opts t1 []) in
  match mkdir_err with
  | Some e => (Some e, None)
  | None =>
      let dirPath := filepath_Join [tmpDir; "backup"] in
      match createBackupFiles create_err msgs stream_end dirPath ∅ with
      | (Fail e, _) => (Some e, None)
      | (Ok _, fs) =>
          match create_err file with
          | Some e => (Some e, None)
          | None =>
              let '(e, tw) := createTar open_err
                [filepath_Join [dirPath; ObjectsFileName]; filepath_Join [dirPath; RelationsFileName]] fs [] in
              (e, Some tw)
          end
      end
  end.

(** [archive]: what opening the file and reading its gzip header returned. *)
Definition Restore (archive : res (list tar_event)) (s : @server model T2 A) : option err * @server model T2 A :=
  match archive with
  | Fail e => (Some e, s)
  | Ok tr => import_with (restoreHandler cli_send tr []) s
  end.

(** ** Copies *)

Context {L1 : @TxLaws model T1} {L2 : @TxLaws model T2} {AL : AzmLaws model A} {JL : PbJsonLaws J}.

Lemma import_with_copies xs s2 d1 d2 :
  wf_dir d1 -> NoDup (entry_key <$> xs) -> (forall x, x ∈ xs <-> exported d1 x) ->
  repr (srv_tx s2) d2 -> d_objs d2 = ∅ -> d_rels d2 = ∅ ->
  (forall n, dst_send n = None) -> (forall t, @commit_err model T2 C2 t = None) ->
  exists w s2' d', import_with (request_of <$> xs, None) s2 = (None, s2') /\
    Import dst_send (srv_mc s2) object_first (events clock (request_of <$> xs)) (srv_tx s2) = (Ok w, srv_tx s2') /\
    repr (srv_tx s2') d' /\ copied d1 d' /\
    (no_errors w -> (Z.of_nat (dir_size d1) < 2 ^ 64)%Z -> complete d1 d') /\ d_body d' = d_body d2.
Proof.
  intros Hwf Hnd Hx Hr Ho Hrel Hs Hc.
  destruct (import_copies (R2 := repr) (W2 := wf_request) dst_send clock object_first (srv_mc s2) xs (srv_tx s2) d1 d2)
    as (w & t' & d' & Hi & H); try done; [intros x; by apply exported_wf|].
  exists w, (MkServer t' (srv_mc s2)), d'. split; [|done]. unfold import_with. by rewrite Hi.
Qed.

(** The messages of an export, and their encodings. *)
Lemma exported_files opts (t1 : @tx model T1) d1 :
  repr t1 d1 -> (forall n, src_send n = None) -> (forall x, exported d1 x -> exists b, pb_marshal x = Ok b) ->
  has_option opts OPTION_STATS = false -> has_option opts OPTION_DATA_OBJECTS = true ->
  has_option opts OPTION_DATA_RELATIONS = true ->
  exists os rs bo br, let xs := (EntryObject <$> os) ++ (EntryRelation <$> rs) in
    stream_of (Export src_send opts t1 []) = (response_of <$> xs, None) /\ NoDup (entry_key <$> xs) /\
    (forall x, x ∈ xs <-> exported d1 x) /\
    Forall2 encodes (EntryObject <$> os) bo /\ Forall2 encodes (EntryRelation <$> rs) br.
Proof.
  intros Hr Hs Hx H1 H2 H3. destruct (Export_typed src_send t1 d1 Hr Hs) as (os & rs & He & Hnd & Hxs).
  specialize (He opts H1). rewrite H2, H3 in He.
  destruct (encode_all (EntryObject <$> os)) as [bo Hbo]; [intros x Hin; apply Hx, Hxs, elem_of_app; by left|].
  destruct (encode_all (EntryRelation <$> rs)) as [br Hbr]; [intros x Hin; apply Hx, Hxs, elem_of_app; by right|].
  exists os, rs, bo, br. split_and!; try done. unfold stream_of. by rewrite He.
Qed.

(** C33: A directory that was exported to two files and imported from them is copied: where the source's entries can be
    encoded as JSON, the two files are different ones that can be created and opened, the streams work, and the
    destination has no objects or relations, commits, and keeps the contract of transactions (as BoltDB does),
    the calls succeed, every object and relation of the destination is one of the source with the same content, and
    none is missing unless the import counted an error. *)
Theorem data_export_imports opts (t1 : @tx model T1) d1 s2 d2 objectsFile relationsFile fs :
  repr t1 d1 -> (forall x, exported d1 x -> exists b, pb_marshal x = Ok b) ->
  has_option opts OPTION_STATS = false -> has_option opts OPTION_DATA_OBJECTS = true ->
  has_option opts OPTION_DATA_RELATIONS = true -> objectsFile <> relationsFile ->
  (forall p, create_err p = None) -> (forall p, open_err p = None) ->
  (forall n, src_send n = None) -> (forall n, cli_send n = None) -> (forall n, dst_send n = None) ->
  (forall t, @commit_err model T2 C2 t = None) -> repr (srv_tx s2) d2 -> d_objs d2 = ∅ -> d_rels d2 = ∅ ->
  exists fs' reqs w s2' d',
    Client_Export create_err (stream_of (Export src_send opts t1 [])).1 (stream_of (Export src_send opts t1 [])).2
      objectsFile relationsFile fs = (Ok tt, fs') /\
    Client_Import fs' [objectsFile; relationsFile] s2 = (None, s2') /\
    Import dst_send (srv_mc s2) object_first (events clock reqs) (srv_tx s2) = (Ok w, srv_tx s2') /\
    repr (srv_tx s2') d' /\ copied d1 d' /\ d_body d' = d_body d2 /\
    (no_errors w -> (Z.of_nat (dir_size d1) < 2 ^ 64)%Z -> complete d1 d').
Proof.
  intros Hr1 Hx H1 H2 H3 Hne Hcr Hop Hs Hcl Hd Hcm Hr2 Ho Hrel.
  destruct (exported_files opts t1 d1) as (os & rs & bo & br & He & Hnd & Hxs & Hbo & Hbr); try done.
  destruct (write_files_all create_err os rs bo br objectsFile relationsFile fs Hbo Hbr Hcr Hne) as (fs' & Hw & F1 & F2).
  destruct (import_with_copies ((EntryObject <$> os) ++ (EntryRelation <$> rs)) s2 d1 d2)
    as (w & s2' & d' & Hi & Him & Hr' & Hc & Hcomp & Hb); try done; [exact (@repr_wf model T1 L1 t1 d1 Hr1)|].
  exists fs', (request_of <$> ((EntryObject <$> os) ++ (EntryRelation <$> rs))), w, s2', d'. rewrite He.
  split_and!; try done. unfold Client_Import. rewrite <-Hi. f_equal. cbn [importHandler]. unfold importFile, os_Open. rewrite !Hop, F1, F2. unfold file_text.
  destruct (load_objects cli_send os bo closing [] Hbo) as (r1 & -> & -> & ->); [by left|done|].
  destruct (load_relations cli_send rs br closing ([] ++ (request_of <$> (EntryObject <$> os))) Hbr)
    as (r2 & -> & -> & Hl); [by left|done|].
  change (String.eqb ObjectsStr ObjectsStr) with true. change (String.eqb RelationsStr ObjectsStr) with false.
  change (String.eqb RelationsStr RelationsStr) with true. cbn iota. rewrite Hl. by rewrite fmap_app.
Qed.

(** The same through an archive: a backup over working streams succeeds, with the two files in it, and its
    restore into a directory without data copies the original. *)
Theorem archive_restores opts tmpDir file (t1 : @tx model T1) d1 s2 d2 :
  repr t1 d1 -> (forall x, exported d1 x -> exists b, pb_marshal x = Ok b) ->
  has_option opts OPTION_STATS = false -> has_option opts OPTION_DATA_OBJECTS = true ->
  has_option opts OPTION_DATA_RELATIONS = true -> mkdir_err = None ->
  (forall p, create_err p = None) -> (forall p, open_err p = None) ->
  (forall n, src_send n = None) -> (forall n, cli_send n = None) -> (forall n, dst_send n = None) ->
  (forall t, @commit_err model T2 C2 t = None) -> repr (srv_tx s2) d2 -> d_objs d2 = ∅ -> d_rels d2 = ∅ ->
  exists tr reqs w s2' d',
    Backup opts tmpDir file t1 = (None, Some tr) /\ Restore (Ok tr) s2 = (None, s2') /\
    Import dst_send (srv_mc s2) object_first (events clock reqs) (srv_tx s2) = (Ok w, srv_tx s2') /\
    repr (srv_tx s2') d' /\ copied d1 d' /\ d_body d' = d_body d2 /\
    (no_errors w -> (Z.of_nat (dir_size d1) < 2 ^ 64)%Z -> complete d1 d').
Proof.
  intros Hr1 Hx H1 H2 H3 Hmk Hcr Hop Hs Hcl Hd Hcm Hr2 Ho Hrel.
  destruct (exported_files opts t1 d1) as (os & rs & bo & br & He & Hnd & Hxs & Hbo & Hbr); try done.
  set (dirPath := filepath_Join [tmpDir; "backup"]).
  destruct (write_files_all create_err os rs bo br (filepath_Join [dirPath; ObjectsFileName])
    (filepath_Join [dirPath; RelationsFileName]) ∅ Hbo Hbr Hcr) as (fs' & Hw & F1 & F2); [by apply Join_ne|].
  destruct (import_with_copies ((EntryObject <$> os) ++ (EntryRelation <$> rs)) s2 d1 d2)
    as (w & s2' & d' & Hi & Him & Hr' & Hc & Hcomp & Hb); try done; [exact (@repr_wf model T1 L1 t1 d1 Hr1)|].
  exists [file_entry ObjectsFileName (file_text ObjectsStr bo); file_entry RelationsFileName (file_text RelationsStr br)],
    (request_of <$> ((EntryObject <$> os) ++ (EntryRelation <$> rs))), w, s2', d'. split_and!; try done.
  - unfold Backup. rewrite He, Hmk. fold dirPath. unfold createBackupFiles. rewrite Hw, Hcr. cbn [createTar].
    unfold addToArchive, os_Open. rewrite !Hop, F1, F2. cbn [rmap]. by rewrite !Base_Join.
  - unfold Restore. rewrite <-Hi. f_equal. unfold file_entry, file_text. cbn [restoreHandler Typeflag Name].
    rewrite !Clean_plain by done.
    destruct (load_objects cli_send os bo closing [] Hbo) as (r1 & -> & _ & ->); [by left|done|].
    destruct (load_relations cli_send rs br closing ([] ++ (request_of <$> (EntryObject <$> os))) Hbr)
      as (r2 & -> & _ & Hl); [by left|done|].
    change (String.eqb ObjectsFileName ObjectsFileName) with true. change (String.eqb RelationsFileName ObjectsFileName) with false.
    change (String.eqb RelationsFileName RelationsFileName) with true. cbn iota. rewrite Hl. by rewrite fmap_app.
Qed.
End Client2.

(** ** What the files do not tell *)

Section Limits.
Context `{J : PbJson} {JL : PbJsonLaws J}.

(** A file that was cut after one of its elements is imported like a whole one: the end of the text is
    taken for the end of the array. *)
Theorem cut_file_accepted send_err open_err fs file os bs sent :
  Forall2 encodes (EntryObject <$> os) bs -> fs !! file = Some (header_of ObjectsStr +:+ elements bs) ->
  open_err file = None -> (forall n, send_err n = None) ->
  importFile send_err open_err fs file sent = (sent ++ (request_of <$> (EntryObject <$> os)), None).
Proof.
  intros He Hf Ho Hs. destruct (load_objects send_err os bs "" sent He) as (r & Hr & Hk & Hl); [by right|done|].
  rewrite app_nil_r_str in Hr. unfold importFile, os_Open. rewrite Ho, Hf, Hr, Hk. exact Hl.
Qed.

Lemma write_messages_objects os bs : Forall2 encodes (EntryObject <$> os) bs -> forall wo wr,
  write_messages (response_of <$> (EntryObject <$> os)) wo wr = (written wo bs, wr).
Proof.
  intros H wo wr. pose proof (write_messages_all os [] bs [] H (proj2 (Forall2_nil _) I) wo wr) as E.
  by rewrite fmap_nil, app_nil_r in E.
Qed.

(** An object that cannot be encoded spoils its file: the export reports success, and the file, which has
    the comma of the object and not the object, is refused with everything after it. *)
Theorem failed_write_corrupts create_err send_err open_err o0 e os b bs o r fs :
  pb_marshal (EntryObject o0) = Fail e -> Forall2 encodes (EntryObject <$> os) (b :: bs) ->
  (forall p, create_err p = None) -> o <> r -> open_err o = None ->
  exists fs', Client_Export create_err (response_of <$> (EntryObject <$> o0 :: os)) None o r fs = (Ok tt, fs') /\
    importFile send_err open_err fs' o [] = ([], Some (syntax_error ",")).
Proof.
  intros Hm He Hc Hne Ho. unfold Client_Export, write_files, bind, os_Create. rewrite !Hc.
  rewrite fmap_cons, fmap_cons. cbn [response_of write_messages default id]. rewrite Hm.
  rewrite (write_messages_objects os (b :: bs) He). unfold write_file, guard, ret. eexists. split; [reflexivity|].
  unfold importFile, os_Open. rewrite Ho, lookup_insert_eq. unfold Close. cbn [Write snd NewWriter w_first].
  rewrite written_first. cbn [w_text elements_after foldr]. fold (elements_after bs). rewrite !app_assoc_str.
  change (NewReader ?t IoEOF) with (NewReader (header_of ObjectsStr +:+ "," +:+ b +:+ elements_after bs +:+ closing) IoEOF).
  rewrite NewReader_objects. reflexivity.
Qed.
End Limits.

(** The counters that the server sends are not recognised (their types are [object] and [relation], and
    [objects] and [relations] are expected): without the final, deprecated message nothing is reported. *)
Theorem counters_not_recognised msgs :
  (forall o r, RespFinal o r ∉ msgs) -> receiver msgs = (zero_counter, zero_counter).
Proof.
  unfold receiver. generalize (zero_counter, zero_counter). induction msgs as [|m msgs IH]; intros p Hm; [done|].
  cbn [fold_left]. rewrite IH by (intros o r Hin; apply (Hm o r); by right).
  destruct m as [[] c|code msg|o r]; [done..|]. destruct (Hm o r). left.
Qed.

Module JsonFilesExamples.
Import Concrete ModelExamples TransferExamples.
#[local] Existing Instance TransferExamples.options.

(** One object with the kind and the bits of the message; a text that is not UTF-8 is refused. *)
Definition braced (c : ascii) (p : positive) : string := String "{" (String c (bits p +:+ "}")).
Definition unbraced (c : ascii) (s : string) : option positive :=
  match s with
  | String "{" (String d s) => if ascii_dec c d then Some (unbits (Cut "}" s).1.1) else None
  | _ => None
  end.
Definition decoded {B} `{Countable B} (c : ascii) (s : string) : res B :=
  match p ← unbraced c s; decode p with Some x => Ok x | None => Fail bad_message end.
#[local] Instance pb : PbJson := {|
  pb_marshal x :=
    match x with
    | EntryObject o => if utf8 (o_display_name o) then Ok (braced "o" (encode o)) else Fail (new_error "invalid UTF-8")
    | EntryRelation r => Ok (braced "r" (encode r))
    end;
  pb_object := decoded "o";
  pb_relation := decoded "r" |}.

Lemma decoded_braced {B} `{Countable B} c (x : B) : decoded c (braced c (encode x)) = Ok x.
Proof.
  unfold decoded, unbraced, braced. destruct (ascii_dec c c); [|done].
  rewrite (Cut_app "}" (bits (encode x)) "") by (by apply bits_chars). simpl. by rewrite unbits_bits, decode_encode.
Qed.
Lemma scan_bits p rest : scan_nested 0 false false (bits p +:+ String "}" rest) = Some (bits p +:+ "}", rest).
Proof.
  induction p as [p IH|p IH|]; [| |done]; cbn [bits]; rewrite !app_cons_str; simpl; rewrite IH; done.
Qed.
Lemma braced_value c p fin rest : opens c = false -> closes c = false -> c <> dquote ->
  readValue fin (braced c p +:+ rest) = inr (braced c p, rest).
Proof.
  intros H1 H2 H3. unfold braced. rewrite !app_cons_str, app_assoc_str. unfold readValue.
  change (skip_space (String "{" ?s)) with (String "{" s). change (opens "{") with true. cbn iota.
  cbn [scan_nested]. destruct (Ascii.eqb_spec c dquote); [done|]. rewrite H1, H2.
  change ("}" +:+ rest) with (String "}" rest). by rewrite scan_bits.
Qed.
#[local] Instance pb_laws : PbJsonLaws pb.
Proof.
  split; cbn [pb_marshal pb_object pb_relation pb].
  - intros o s. case_match; [|done]. intros [= <-]. apply decoded_braced.
  - intros r s [= <-]. apply decoded_braced.
  - intros [o|r] s; [case_match; [|done]|]; intros [= <-] fin rest; by apply braced_value.
  - intros [o|r] s; [case_match; [|done]|]; intros [= <-]; unfold braced; eauto.
Qed.

Lemma dir1_encodes (d : directory model) x :
  d_objs d = d_objs dir1 -> d_rels d = d_rels dir1 -> exported d x -> exists b, pb_marshal x = Ok b.
Proof.
  intros Ho Hr. destruct x as [o|r]; simpl; [|eauto]. rewrite Ho. intros (o' & H & ->).
  simpl in H. apply lookup_insert_Some in H as [[_ <-]|[_ H]]; [|done]. eexists. reflexivity.
Qed.

Definition no_err (_ : string) : option err := None.

Lemma data_export_imports_witness :
  exists fs' s2', Client_Export no_err (stream_of (Export (fun _ => None) 24 source [])).1
      (stream_of (Export (fun _ => None) 24 source [])).2 "objects.json" "relations.json" ∅ = (Ok tt, fs') /\
    Client_Import no_err (fun _ => None) (fun _ => None) (fun _ => ts2) true 0 fs' ["objects.json"; "relations.json"] target = (None, s2').
Proof.
  destruct source_repr as (d & md & Hr & Ho & Hrel & Hmd & Hb).
  destruct (data_export_imports (X := TransferExamples.options) (J := pb) no_err no_err (fun _ => None) (fun _ => None) (fun _ => None)
    (fun _ => ts2) true 0 24 source d target empty_dir "objects.json" "relations.json" ∅ Hr
    (fun x => dir1_encodes d x Ho Hrel)) as (fs' & reqs & w & s2' & d' & H1 & H2 & _).
  - reflexivity.
  - reflexivity.
  - reflexivity.
  - discriminate.
  - reflexivity.
  - reflexivity.
  - reflexivity.
  - reflexivity.
  - reflexivity.
  - intros t. reflexivity.
  - exact db_repr.
  - reflexivity.
  - reflexivity.
  - exists fs', s2'. exact (conj H1 H2).
Defined.

Lemma archive_restores_witness :
  exists tr s2', Backup no_err no_err None (fun _ => None) 24 "/tmp" "/backup.tar.gz" source = (None, Some tr) /\
    Restore (fun _ => None) (fun _ => None) (fun _ => ts2) true 0 (Ok tr) target = (None, s2').
Proof.
  destruct source_repr as (d & md & Hr & Ho & Hrel & Hmd & Hb).
  destruct (archive_restores (X := TransferExamples.options) (J := pb) no_err no_err None (fun _ => None) (fun _ => None) (fun _ => None)
    (fun _ => ts2) true 0 24 "/tmp" "/backup.tar.gz" source d target empty_dir Hr
    (fun x => dir1_encodes d x Ho Hrel)) as (tr & reqs & w & s2' & d' & H1 & H2 & _).
  - reflexivity.
  - reflexivity.
  - reflexivity.
  - reflexivity.
  - reflexivity.
  - reflexivity.
  - reflexivity.
  - reflexivity.
  - reflexivity.
  - intros t. reflexivity.
  - exact db_repr.
  - reflexivity.
  - reflexivity.
  - exists tr, s2'. exact (conj H1 H2).
Defined.

Definition doc (id name : string) : Object := MkObject "doc" id name None None None "".
Definition text_of (o : Object) : string := braced "o" (encode o).

Lemma cut_file_accepted_witness :
  importFile (fun _ => None) no_err {["f" := header_of ObjectsStr +:+ elements [text_of (doc "1" "")]]} "f" [] =
    ([set_request (ImportRequest_Object (Some (doc "1" "")))], None).
Proof.
  apply (cut_file_accepted (J := pb) (fun _ => None) no_err {["f" := header_of ObjectsStr +:+ elements [text_of (doc "1" "")]]}
    "f" [doc "1" ""] [text_of (doc "1" "")] []).
  - repeat constructor.
  - apply lookup_singleton_eq.
  - reflexivity.
  - reflexivity.
Defined.

Lemma failed_write_corrupts_witness :
  exists fs', Client_Export no_err (response_of <$> (EntryObject <$> [doc "1" (String "255" ""); doc "2" ""])) None "o" "r" ∅ = (Ok tt, fs') /\
    importFile (fun _ => None) no_err fs' "o" [] = ([], Some (syntax_error ",")).
Proof.
  apply (failed_write_corrupts (J := pb) no_err (fun _ => None) no_err (doc "1" (String "255" "")) (new_error "invalid UTF-8")
    [doc "2" ""] (text_of (doc "2" "")) []).
  - reflexivity.
  - repeat constructor.
  - reflexivity.
  - discriminate.
  - reflexivity.
Defined.

Lemma counters_not_recognised_witness :
  receiver [RespCounter true (MkCounter 2 2 0 0); RespCounter false (MkCounter 1 0 0 1)] = (zero_counter, zero_counter).
Proof. apply counters_not_recognised. intros o r H. repeat (apply elem_of_cons in H as [[=]|H]). by apply not_elem_of_nil in H. Defined.

Definition sample : string := header_of ObjectsStr +:+ elements [text_of (doc "1" ""); text_of (doc "2" "")] +:+ closing.
Definition sample_reader : Reader := reader_at ObjectsStr (String newline (elements [text_of (doc "1" ""); text_of (doc "2" "")] +:+ closing)) tokenArrayStart.
Lemma load_ends_witness :
  load_loop (fun _ => None) pb_object (fun o => set_request (ImportRequest_Object (Some o))) 4000 sample_reader [] =
  load_loop (fun _ => None) pb_object (fun o => set_request (ImportRequest_Object (Some o))) (load_fuel sample_reader) sample_reader [].
Proof.
  apply (load_ends (fun _ => None) pb_object (fun o => set_request (ImportRequest_Object (Some o))) sample sample_reader [] 4000);
    [exact (NewReader_objects _)|]. apply Nat.leb_le. vm_compute. reflexivity.
Defined.
End JsonFilesExamples.
