(* ===== verification/Cli.v ===== *)
(** * The command line: its context, the container and the configurations

    [mrld/cc] (directories, defaults, waiting for ports and health), [mrld/dockerx], the commands of
    [mrld/cmd/eamerald] and [mrld/cmd/configure], and what they use of [pkg/config/generator.go] and
    [mrld/certs].  The state is a [world]: the disk, the container engine, and the configuration of the
    process, of which a copy is on the disk.  The environment and the engine are parameters ([Env],
    [Docker]). *)
From Stdlib Require Import Ascii.
From S2P Require Import Prelude Bytes Text Paths Policies Authn Config.

(** ** The process and its environment *)

Class Env := {
  Getenv : string -> string;
  ConfigHome : string;
  DataHome : string;
  GOARCH : string;
  (** the version of the program, as [semver.NewVersion] reads it: its text and its prerelease *)
  program_version : option (string * string);
  ParseDuration : string -> option Z;
  (** [json.Marshal] of the configuration of the command line is in [Context]; YAML decoding *)
  decode_config : string -> res Config;
  (** the order in which a set comes out of a map *)
  slice_of : gset string -> list string;
  (** failures of [os.Rename] and [os.Remove] on paths that exist *)
  rename_error : string -> string -> option err;
  remove_error : string -> option err;
  UserHomeDir : res string }.

Record ActiveConfig := MkActive { act_Config : string; act_ConfigFile : string }.
Record RunningConfig := MkRunning { run_Active : ActiveConfig; run_ContainerName : string }.
Record DefaultsConfig := MkDefaults {
  def_NoCheck : bool; def_NoColor : bool; def_ContainerRegistry : string; def_ContainerImage : string;
  def_ContainerTag : string; def_ContainerPlatform : string }.
Record CliConfig := MkCli { cli_Version : Z; Active : ActiveConfig; Running : RunningConfig; Defaults : DefaultsConfig }.

Definition no_running : RunningConfig := MkRunning (MkActive "" "") "".
Definition set_Active (a : ActiveConfig) (c : CliConfig) : CliConfig := MkCli (cli_Version c) a (Running c) (Defaults c).
Definition set_Running (r : RunningConfig) (c : CliConfig) : CliConfig := MkCli (cli_Version c) (Active c) r (Defaults c).
Definition set_NoCheck (b : bool) (c : CliConfig) : CliConfig :=
  let d := Defaults c in
  MkCli (cli_Version c) (Active c) (Running c)
    (MkDefaults b (def_NoColor d) (def_ContainerRegistry d) (def_ContainerImage d) (def_ContainerTag d) (def_ContainerPlatform d)).

Inductive runStatus := StatusNotRunning | StatusRunning.
#[export] Instance runStatus_eq_dec : EqDecision runStatus.
Proof. solve_decision. Defined.
Definition ErrNotRunning : err := new_error "eamerald is not running, use 'eamerald start' or 'eamerald run' to start".
Definition ErrIsRunning : err := new_error "eamerald is already running, use 'eamerald stop' to stop".
Definition CLIConfigurationFile : string := "topaz.json".

Section Cc.
Context `{E : Env}.

(** ** [cc/dir.go] *)

Definition env_or (name def : string) : string := if nonempty (Getenv name) then Getenv name else def.

Definition GetEameraldDir : string := env_or "EAMERALD_DIR" (filepath_Clean (filepath_Join [ConfigHome; "eamerald"])).
Definition GetEameraldCfgDir : string := env_or "EAMERALD_CFG_DIR" (filepath_Clean (filepath_Join [ConfigHome; "eamerald"; "cfg"])).
Definition GetEameraldCertsDir : string := env_or "EAMERALD_CERTS_DIR" (filepath_Clean (filepath_Join [DataHome; "eamerald"; "certs"])).
Definition GetEameraldDataDir : string := env_or "EAMERALD_DB_DIR" (filepath_Clean (filepath_Join [DataHome; "eamerald"; "db"])).
Definition GetEameraldDecisionsDir : string := env_or "EAMERALD_DECISIONS_DIR" (filepath_Clean (filepath_Join [DataHome; "eamerald"; "decisions"])).
Definition GetEameraldTemplateDir : string := env_or "EAMERALD_TMPL_DIR" (filepath_Clean (filepath_Join [DataHome; "eamerald"; "tmpl"])).
Definition DefEameraldTmplURL : string := "https://topaz.sh/assets/templates/templates-v33.json".
Definition GetEameraldTemplateURL : string := env_or "EAMERALD_TMPL_URL" DefEameraldTmplURL.

(** ** [cc/client.go] *)

Definition DirectorySvc : string := env_or "EAMERALD_DIRECTORY_SVC" "localhost:9292".
Definition DirectoryKey : string := env_or "EAMERALD_DIRECTORY_KEY" "".
Definition DirectoryToken : string := env_or "EAMERALD_DIRECTORY_TOKEN" "".
Definition AuthorizerSvc : string := env_or "EAMERALD_AUTHORIZER_SVC" "localhost:8282".
Definition AuthorizerKey : string := env_or "EAMERALD_AUTHORIZER_KEY" "".
Definition AuthorizerToken : string := env_or "EAMERALD_AUTHORIZER_TOKEN" "".

(** [strconv.ParseBool] *)
Definition ParseBool (s : string) : option bool :=
  if existsb (String.eqb s) ["1"; "t"; "T"; "TRUE"; "true"; "True"] then Some true
  else if existsb (String.eqb s) ["0"; "f"; "F"; "FALSE"; "false"; "False"] then Some false
  else None.
Definition env_bool (name : string) (def : bool) : bool :=
  if nonempty (Getenv name) then default def (ParseBool (Getenv name)) else def.
Definition Insecure : bool := env_bool "EAMERALD_INSECURE" false.
Definition Plaintext : bool := env_bool "EAMERALD_PLAINTEXT" false.
Definition NoCheck (defaults : DefaultsConfig) : bool := env_bool "EAMERALD_NO_CHECK" (def_NoCheck defaults).
Definition NoColor (defaults : DefaultsConfig) : bool := env_bool "EAMERALD_NO_COLOR" (def_NoColor defaults).
Definition defaultTimeout : Z := 5000000000%Z.
Definition Timeout : Z :=
  if nonempty (Getenv "EAMERALD_TIMEOUT") then default defaultTimeout (ParseDuration (Getenv "EAMERALD_TIMEOUT")) else defaultTimeout.

(** ** [cc/container.go] *)

Definition defaultContainerTag : string :=
  match program_version with
  | Some (v, prerelease) => if String.eqb v "0.0.0" || nonempty prerelease then "latest" else v
  | None => "latest"
  end.
Definition or_default (a b : string) : string := if nonempty a then a else b.
Definition ContainerRegistry (defaults : DefaultsConfig) : string :=
  env_or "CONTAINER_REGISTRY" (or_default (def_ContainerRegistry defaults) "ghcr.io/threehook").
(** The variable that it reads is the one of the container's name. *)
Definition ContainerImage (defaults : DefaultsConfig) : string :=
  env_or "CONTAINER_NAME" (or_default (def_ContainerImage defaults) "eamerald").
Definition ContainerTag (defaults : DefaultsConfig) : string :=
  env_or "CONTAINER_TAG" (or_default (def_ContainerTag defaults) defaultContainerTag).
Definition ContainerPlatform (defaults : DefaultsConfig) : string :=
  env_or "CONTAINER_PLATFORM" (or_default (def_ContainerPlatform defaults) ("linux/" +:+ GOARCH)).
Definition Container (defaults : DefaultsConfig) (registry image tag : string) : string :=
  env_or "CONTAINER"
    (or_default registry (ContainerRegistry defaults) +:+ "/" +:+ or_default image (ContainerImage defaults) +:+ ":" +:+
     or_default tag (ContainerTag defaults)).
Definition ContainerName (defaultConfigFile : string) : string :=
  env_or "CONTAINER_NAME"
    (if contains_str defaultConfigFile "config.yaml" then "eamerald"
     else "eamerald-" +:+ default "" (head (Split "."%char (filepath_Base defaultConfigFile)))).
Definition ContainerVersionTag (version tag : string) : string :=
  if nonempty version && negb (String.eqb version tag) then version else tag.

(** ** [cc/ports.go], [cc/health.go] *)

Inductive PortStatus := PortOpened | PortClosed.
#[export] Instance PortStatus_eq_dec : EqDecision PortStatus.
Proof. solve_decision. Defined.
Definition PortStatus_String (p : PortStatus) : string := match p with PortClosed => "closed" | PortOpened => "opened" end.
Definition errTimeout : err := new_error "timeout".

(** [Retry] with the outcomes of the attempts that fit before the timeout. *)
Fixpoint retry_loop (last : err) (attempts : list (option err)) : option err :=
  match attempts with
  | [] => Some last
  | None :: _ => None
  | Some e :: attempts => retry_loop e attempts
  end.
Definition Retry : list (option err) -> option err := retry_loop errTimeout.

(** [probe]: the status of an address at each attempt, a dial that fails being [PortClosed]. *)
Definition port_attempt (address : string) (expected status : PortStatus) : option err :=
  if decide (status = expected) then None else Some (new_error (address +:+ " " +:+ PortStatus_String status)).
Fixpoint WaitForPorts (probe : string -> list PortStatus) (ports : list string) (expected : PortStatus) : option err :=
  match ports with
  | [] => None
  | port :: ports =>
      let listenAddress := "0.0.0.0:" +:+ port in
      match Retry (port_attempt listenAddress expected <$> probe listenAddress) with
      | Some e => Some e
      | None => WaitForPorts probe ports expected
      end
  end.

(** The answers of the health service: an error, or the status. *)
Definition SERVING : string := "SERVING".
Definition health_attempt (service : string) (r : res string) : option err :=
  match r with
  | Fail e => Some e
  | Ok st => if String.eqb st SERVING then None else Some (new_error ("health service " +:+ service +:+ " is " +:+ st))
  end.
(** A service that never serves is no error. *)
Definition ServiceHealthStatus (connect : option err) (answers : list (res string)) (service : string) : res bool :=
  match connect with
  | Some e => Fail e
  | None => match Retry (health_attempt service <$> answers) with Some _ => Ok false | None => Ok true end
  end.
End Cc.

Lemma Retry_None attempts : Retry attempts = None <-> None ∈ attempts.
Proof.
  unfold Retry. generalize errTimeout. induction attempts as [|[e|] l IH]; intros last; cbn [retry_loop].
  - split; [done|]. by intros ?%not_elem_of_nil.
  - rewrite IH, elem_of_cons. naive_solver.
  - split; [intros _; left|done].
Qed.

(** Waiting succeeds exactly when every port was seen in the expected state before its timeout. *)
Theorem wait_ports_exact probe ports expected :
  WaitForPorts probe ports expected = None <-> forall port, port ∈ ports -> expected ∈ probe ("0.0.0.0:" +:+ port).
Proof.
  assert (Hone : forall a l, Retry (port_attempt a expected <$> l) = None <-> expected ∈ l).
  { intros a l. rewrite Retry_None, list_elem_of_fmap. unfold port_attempt. split.
    - intros (st & H & Hin). by case_decide; subst.
    - intros Hin. exists expected. by rewrite decide_True. }
  induction ports as [|port ports IH]; cbn [WaitForPorts]; [split; [by intros _ ? ?%not_elem_of_nil|done]|].
  destruct (Retry _) as [e|] eqn:E.
  - split; [done|]. intros H. assert (Hp : expected ∈ probe ("0.0.0.0:" +:+ port)) by (apply H; left).
    apply (Hone ("0.0.0.0:" +:+ port)) in Hp. congruence.
  - apply Hone in E. rewrite IH. setoid_rewrite elem_of_cons. naive_solver.
Qed.

(** ** [mrld/dockerx] *)

Record Summary := MkSummary { ct_ID : string; ct_Name : string; ct_Image : string; ct_State : string }.
Definition running : string := "running".

(** What a container is created from. *)
Record runner := MkRunner {
  r_Image : string; r_WorkingDir : string; r_Entrypoint : list string; r_Cmd : list string; r_Hostname : string;
  r_Env : list string; r_ExposedPorts : gset string; r_PortBindings : gmap string string; r_Binds : list string;
  r_AutoRemove : bool; r_OS : string; r_Architecture : string; r_containerName : string; r_interactive : bool }.
Definition new_runner (interactive : bool) : runner :=
  MkRunner "" "" [] [] "" [] ∅ ∅ [] false "" "" "" interactive.

(** The engine: its state, its running containers, its answers, and its calls.  [name_match] is its filter on names. *)
Class Docker (dstate : Type) := {
  docker_New : option err;
  list_error : dstate -> option err;
  running_containers : dstate -> list Summary;
  name_match : string -> string -> bool;
  ImageList : string -> dstate -> res (list string);
  ImagePull : string -> string -> M dstate unit;
  ImageRemove : string -> M dstate unit;
  ContainerCreate : runner -> M dstate string;
  ContainerStart : string -> M dstate unit;
  ContainerStop : string -> M dstate unit;
  ContainerRemove : string -> bool -> M dstate unit;
  (** waiting until the container has ended *)
  ContainerWait : string -> M dstate unit;
  (** [nat.ParsePortSpecs]: the ports and their bindings *)
  ParsePortSpecs : list string -> option (gset string * gmap string string) }.

Section Dockerx.
Context {dstate : Type} `{K : Docker dstate}.

(** The running containers whose name passes the filter. *)
Definition ContainerList (name : option string) (d : dstate) : res (list Summary) :=
  match list_error d with
  | Some e => Fail e
  | None => Ok (List.filter (fun c => match name with Some n => name_match n (ct_Name c) | None => true end) (running_containers d))
  end.

Definition PullImage (img platform : string) : M dstate unit := ImagePull img platform.
Definition RemoveImage (img : string) : M dstate unit :=
  let! images := reads (ImageList img) in for_each ImageRemove images.
Definition ImageExists (img : string) (d : dstate) : bool :=
  match ImageList img d with Ok images => (length images =? 1)%nat | Fail _ => false end.

Definition dc_Stop (name : string) : M dstate unit :=
  let! containers := reads (ContainerList (Some name)) in for_each (fun c => ContainerStop (ct_ID c)) containers.

(** It is running if there is exactly one. *)
Definition IsRunning (name : string) (d : dstate) : res bool :=
  rmap (fun containers => match containers with [c] => String.eqb (ct_State c) running | _ => false end)
    (ContainerList (Some name) d).
Definition GetRunningTopazContainers (d : dstate) : res (list Summary) :=
  rmap (List.filter (fun c => contains_str (ct_Image c) "ghcr.io/threehook/eamerald" && String.eqb (ct_State c) running))
    (ContainerList None d).

(** ** The options of a container *)

Abbreviation RunOption := (runner -> runner).
Definition WithContainerImage (img : string) : RunOption := fun r =>
  MkRunner img (r_WorkingDir r) (r_Entrypoint r) (r_Cmd r) (r_Hostname r) (r_Env r) (r_ExposedPorts r) (r_PortBindings r)
    (r_Binds r) (r_AutoRemove r) (r_OS r) (r_Architecture r) (r_containerName r) (r_interactive r).
Definition WithWorkingDir (wd : string) : RunOption := fun r =>
  MkRunner (r_Image r) wd (r_Entrypoint r) (r_Cmd r) (r_Hostname r) (r_Env r) (r_ExposedPorts r) (r_PortBindings r)
    (r_Binds r) (r_AutoRemove r) (r_OS r) (r_Architecture r) (r_containerName r) (r_interactive r).
Definition WithEntrypoint (args : list string) : RunOption := fun r =>
  MkRunner (r_Image r) (r_WorkingDir r) args (r_Cmd r) (r_Hostname r) (r_Env r) (r_ExposedPorts r) (r_PortBindings r)
    (r_Binds r) (r_AutoRemove r) (r_OS r) (r_Architecture r) (r_containerName r) (r_interactive r).
Definition WithCmd (cmds : list string) : RunOption := fun r =>
  MkRunner (r_Image r) (r_WorkingDir r) (r_Entrypoint r) cmds (r_Hostname r) (r_Env r) (r_ExposedPorts r) (r_PortBindings r)
    (r_Binds r) (r_AutoRemove r) (r_OS r) (r_Architecture r) (r_containerName r) (r_interactive r).
Definition WithContainerPlatform (platform : string) : RunOption := fun r =>
  MkRunner (r_Image r) (r_WorkingDir r) (r_Entrypoint r) (r_Cmd r) (r_Hostname r) (r_Env r) (r_ExposedPorts r) (r_PortBindings r)
    (r_Binds r) (r_AutoRemove r) "linux" (TrimPrefix platform "linux/") (r_containerName r) (r_interactive r).
Definition WithContainerName (name : string) : RunOption := fun r =>
  MkRunner (r_Image r) (r_WorkingDir r) (r_Entrypoint r) (r_Cmd r) (r_Hostname r) (r_Env r) (r_ExposedPorts r) (r_PortBindings r)
    (r_Binds r) (r_AutoRemove r) (r_OS r) (r_Architecture r) name (r_interactive r).
Definition WithContainerHostname (hostname : string) : RunOption := fun r =>
  MkRunner (r_Image r) (r_WorkingDir r) (r_Entrypoint r) (r_Cmd r) hostname (r_Env r) (r_ExposedPorts r) (r_PortBindings r)
    (r_Binds r) (r_AutoRemove r) (r_OS r) (r_Architecture r) (r_containerName r) (r_interactive r).
Definition WithAutoRemove : RunOption := fun r =>
  MkRunner (r_Image r) (r_WorkingDir r) (r_Entrypoint r) (r_Cmd r) (r_Hostname r) (r_Env r) (r_ExposedPorts r) (r_PortBindings r)
    (r_Binds r) true (r_OS r) (r_Architecture r) (r_containerName r) (r_interactive r).
Definition WithEnvs (envs : list string) : RunOption := fun r =>
  MkRunner (r_Image r) (r_WorkingDir r) (r_Entrypoint r) (r_Cmd r) (r_Hostname r) (r_Env r ++ envs) (r_ExposedPorts r) (r_PortBindings r)
    (r_Binds r) (r_AutoRemove r) (r_OS r) (r_Architecture r) (r_containerName r) (r_interactive r).
Definition WithVolumes (volumes : list string) : RunOption := fun r =>
  MkRunner (r_Image r) (r_WorkingDir r) (r_Entrypoint r) (r_Cmd r) (r_Hostname r) (r_Env r) (r_ExposedPorts r) (r_PortBindings r)
    (r_Binds r ++ volumes) (r_AutoRemove r) (r_OS r) (r_Architecture r) (r_containerName r) (r_interactive r).

(** What was there is not replaced; ports that cannot be read are dropped without an error. *)
Definition setPorts (ports : list string) (r : runner) : option runner :=
  match ParsePortSpecs ports with
  | None => None
  | Some (portSet, portBindings) =>
      Some (MkRunner (r_Image r) (r_WorkingDir r) (r_Entrypoint r) (r_Cmd r) (r_Hostname r) (r_Env r)
        (r_ExposedPorts r ∪ portSet) (r_PortBindings r ∪ portBindings)
        (r_Binds r) (r_AutoRemove r) (r_OS r) (r_Architecture r) (r_containerName r) (r_interactive r))
  end.
Definition WithPorts (ports : list string) : RunOption := fun r => default r (setPorts ports r).

Definition build_runner (interactive : bool) (opts : list RunOption) : runner :=
  fold_left (fun r opt => opt r) opts (new_runner interactive).

(** A container that does not start is removed. *)
Definition dc_Start (opts : list RunOption) : M dstate unit :=
  let! id := ContainerCreate (build_runner false opts) in
  try! r := ContainerStart id in
  match r with
  | Ok _ => ret tt
  | Fail e => try! _ := ContainerRemove id false in fail e
  end.
(** Here it is removed when it has ended, but not when it did not start. *)
Definition dc_Run (opts : list RunOption) : M dstate unit :=
  let! id := ContainerCreate (build_runner true opts) in
  do! ContainerStart id;
  try! r := ContainerWait id in
  try! _ := ContainerRemove id true in
  lift r.
End Dockerx.

(** ** The world of a command *)

Record world (dstate : Type) := MkWorld {
  w_disk : disk; w_docker : dstate; w_cfg : CliConfig; w_defaults : DefaultsConfig }.
Arguments MkWorld {dstate}.
Arguments w_disk {dstate}.
Arguments w_docker {dstate}.
Arguments w_cfg {dstate}.
Arguments w_defaults {dstate}.

Section Commands.
Context `{E : Env} {dstate : Type} `{K : Docker dstate} `{D : Disk}.
(** [json.Marshal] of the configuration; the ports as they are seen while a command waits. *)
Context (json_Marshal : CliConfig -> res string) (probe : string -> list PortStatus).
Abbreviation W := (world dstate).

Definition on_disk {A} (m : M disk A) : M W A := fun w =>
  let '(r, d) := m (w_disk w) in (r, MkWorld d (w_docker w) (w_cfg w) (w_defaults w)).
Definition on_docker {A} (m : M dstate A) : M W A := fun w =>
  let '(r, d) := m (w_docker w) in (r, MkWorld (w_disk w) d (w_cfg w) (w_defaults w)).
Definition set_cfg (f : CliConfig -> CliConfig) : M W unit := fun w =>
  (Ok tt, MkWorld (w_disk w) (w_docker w) (f (w_cfg w)) (w_defaults w)).

(** ** [cc/cc.go] *)

Definition context_file : string := filepath_Join [GetEameraldDir; CLIConfigurationFile].

Definition CheckRunStatus (containerName : string) (expectedStatus : runStatus) (w : W) : bool :=
  if def_NoCheck (Defaults (w_cfg w)) then false
  else
    let containerName := if nonempty containerName then containerName else ContainerName (act_ConfigFile (Active (w_cfg w))) in
    match docker_New with
    | Some _ => false
    | None =>
        match IsRunning containerName (w_docker w) with
        | Fail _ => false
        | Ok r => bool_decide ((if r : bool then StatusRunning else StatusNotRunning) = expectedStatus)
        end
    end.
Definition GetRunningContainers (w : W) : res (list Summary) :=
  match docker_New with Some e => Fail e | None => GetRunningTopazContainers (w_docker w) end.
(** The defaults of the process are those that were saved last. *)
Definition SaveContextConfig : M W unit :=
  let! bytes := reads (fun w => json_Marshal (w_cfg w)) in
  do! on_disk (WriteFile context_file bytes);
  fun w => (Ok tt, MkWorld (w_disk w) (w_docker w) (w_cfg w) (Defaults (w_cfg w))).

(** [EnsureDirs] *)
Definition EnsureDir (dir : string) : M disk unit := fun d =>
  match os_Stat dir d with Found Folder => (Ok tt, d) | _ => MkdirAll dir d end.
Definition EnsureDirs : M disk unit :=
  for_each EnsureDir [GetEameraldDir; GetEameraldCfgDir; GetEameraldCertsDir; GetEameraldDataDir; GetEameraldDecisionsDir; GetEameraldTemplateDir].

(** ** [eamerald stop], [status] *)

(** [config.GetConfig(file).Ports()] *)
Definition load_config (file : string) (w : W) : res Config := LoadConfiguration Getenv decode_config (read_file file (w_disk w)).
Definition services_in (c : Config) : list API := (map_to_list (cfg_Services c)).*2.
Definition ports_of (file : string) (w : W) : res (list string) :=
  rbind (load_config file w) (fun c => rmap slice_of (GetPorts (services_in c) c)).

(** A context that cannot be saved ends the process. *)
Definition StopCmd_Run (containerName : string) (Wait : bool) : M W unit :=
  do! guard docker_New;
  do! set_cfg (set_NoCheck false);
  let! stopped := reads (fun w => Ok (CheckRunStatus containerName StatusNotRunning w)) in
  if stopped : bool then ret tt
  else
    do! on_docker (dc_Stop containerName);
    do! (if Wait then
           let! ports := reads (fun w => ports_of (act_ConfigFile (run_Active (Running (w_cfg w)))) w) in
           guard (WaitForPorts probe ports PortClosed)
         else ret tt);
    do! set_cfg (set_Running no_running);
    SaveContextConfig.

(** What is printed: whether it is running. *)
Definition StatusCmd_Run (cmdContainerName : string) (w : W) : bool :=
  let containerName := run_ContainerName (Running (w_cfg w)) in
  let containerName := if negb (String.eqb cmdContainerName containerName) then cmdContainerName else containerName in
  CheckRunStatus containerName StatusRunning w.

(** ** [eamerald start], [run], [restart] *)

Record StartRunCmd := MkStartRun {
  sr_Registry : string; sr_Image : string; sr_Tag : string; sr_Platform : string; sr_Name : string; sr_Hostname : string;
  sr_Env : list string }.
Inductive runMode := modeDaemon | modeInteractive.

Definition getPorts (c : Config) : res (list string) :=
  rmap (fun ports => (fun p => p +:+ ":" +:+ p +:+ "/tcp") <$> slice_of ports) (GetPorts (services_in c) c).

(** [dockerx.PolicyRoot] *)
Definition PolicyRoot (d : disk) : string :=
  let policyRoot :=
    if nonempty (Getenv "POLICY_FILE_STORE_ROOT") then Getenv "POLICY_FILE_STORE_ROOT"
    else match UserHomeDir with Ok home => filepath_Join [home; ".policy"] | Fail _ => "" end in
  match os_Stat policyRoot d with Found Folder => policyRoot | _ => "" end.

(** A volume per folder of a path, mounted under the folder's own name; the folder of the configurations
    first, and the policy store where an image of it is used ([LocalPolicyImage]). *)
Definition volume_of (path : string) : string := let dir := filepath_Dir path in dir +:+ ":/" +:+ filepath_Base dir.
Definition getVolumes (LocalPolicyImage : string) (c : Config) (d : disk) : list string :=
  [GetEameraldCfgDir +:+ ":/config:ro"] ++
  (if nonempty LocalPolicyImage && nonempty (PolicyRoot d) then [PolicyRoot d +:+ ":/root/.policy:ro"] else []) ++
  slice_of (set_map volume_of (GetPaths (services_in c) c)).

(** The first word that occurs in the volume decides its variable. *)
Definition env_of_volume (volume : string) : option string :=
  let mountedPath := "/" +:+ filepath_Base (default "" (Split ":"%char volume !! 1)) in
  if contains_str volume "certs" then Some ("EAMERALD_CERTS_DIR=" +:+ mountedPath)
  else if contains_str volume "db" then Some ("EAMERALD_DB_DIR=" +:+ mountedPath)
  else if contains_str volume "cfg" then Some ("EAMERALD_CFG_DIR=" +:+ mountedPath)
  else if contains_str volume "decisions" then Some ("EAMERALD_DECISIONS_DIR=" +:+ mountedPath)
  else None.
Definition getEnvFromVolumes (volumes : list string) : list string := omap env_of_volume volumes.

(** [Generator.CreateConfigDir] and its like *)
Definition CreateCertsDir : M disk unit := EnsureDir GetEameraldCertsDir.
Definition CreateConfigDir : M disk unit := EnsureDir GetEameraldCfgDir.
Definition CreateDataDir : M disk unit := EnsureDir GetEameraldDataDir.

Definition run_options (cmd : StartRunCmd) (image configFile : string) (volumes ports : list string) : list (runner -> runner) :=
  [WithContainerImage image; WithContainerPlatform (sr_Platform cmd); WithContainerName (sr_Name cmd);
   WithContainerHostname (sr_Hostname cmd); WithWorkingDir "/app"; WithEntrypoint ["./topazd"];
   WithCmd ["run"; "--config-file"; "/config/" +:+ filepath_Base configFile]; WithAutoRemove;
   WithEnvs (getEnvFromVolumes volumes); WithEnvs (sr_Env cmd); WithPorts ports; WithVolumes volumes].

Context (LocalPolicyImage : Config -> string).

Definition StartRun_run (cmd : StartRunCmd) (mode : runMode) : M W unit :=
  let! is_running := reads (fun w => Ok (CheckRunStatus (sr_Name cmd) StatusRunning w)) in
  if is_running : bool then fail ErrIsRunning
  else
    let! active := reads (fun w => Ok (Active (w_cfg w))) in
    let configFile := act_ConfigFile active in
    do! (fun w => match os_Stat configFile (w_disk w) with
                  | NotExist => (Fail (new_error (configFile +:+ " does not exist, please run 'eamerald config new'")), w)
                  | _ => (Ok tt, w)
                  end);
    let! activeConfig := reads (load_config configFile) in
    do! set_cfg (set_Running (MkRunning active (ContainerName configFile)));
    do! on_disk CreateCertsDir;
    do! on_disk CreateDataDir;
    let! ports := lift (getPorts activeConfig) in
    let! volumes := reads (fun w => Ok (getVolumes (LocalPolicyImage activeConfig) activeConfig (w_disk w))) in
    do! guard docker_New;
    let! image := reads (fun w => Ok (Container (w_defaults w) (sr_Registry cmd) (sr_Image cmd) (sr_Tag cmd))) in
    do! (fun w => if ImageExists image (w_docker w) then (Ok tt, w) else on_docker (PullImage image (sr_Platform cmd)) w);
    let opts := run_options cmd image configFile volumes ports in
    do! on_docker (match mode with modeInteractive => dc_Run opts | modeDaemon => dc_Start opts end);
    SaveContextConfig.

Definition StartCmd_Run (cmd : StartRunCmd) (Wait : bool) : M W unit :=
  do! StartRun_run cmd modeDaemon;
  if Wait then
    let! ports := reads (fun w => ports_of (act_ConfigFile (Active (w_cfg w))) w) in
    guard (WaitForPorts probe ports PortOpened)
  else ret tt.
Definition RunCmd_Run (cmd : StartRunCmd) : M W unit := StartRun_run cmd modeInteractive.
Definition RestartCmd_Run (cmd : StartRunCmd) (Wait : bool) : M W unit :=
  do! StopCmd_Run (sr_Name cmd) true; StartCmd_Run cmd Wait.

(** ** [eamerald install], [update], [uninstall] *)

Definition InstallCmd_Run (registry image tag platform version : string) : M W unit :=
  let tag := ContainerVersionTag version tag in
  let! is_running := reads (fun w => Ok (CheckRunStatus (ContainerName (act_Config (Active (w_cfg w)))) StatusRunning w)) in
  if is_running : bool then fail ErrIsRunning
  else
    do! guard docker_New;
    let! name := reads (fun w => Ok (Container (w_defaults w) registry image tag)) in
    on_docker (PullImage name platform).

Definition os_Remove (path : string) : M disk unit := fun d =>
  match d !! path with
  | None => (Fail (new_error ("remove " +:+ path +:+ ": no such file or directory")), d)
  | Some _ => match remove_error path with Some e => (Fail e, d) | None => (Ok tt, delete path d) end
  end.
Definition removeFile (fpath : string) : M disk unit := fun d =>
  match os_Stat fpath d with
  | Found (File _) => wrapped ("failed to delete " +:+ fpath) (os_Remove fpath) d
  | _ => (Ok tt, d)
  end.
Definition UninstallCmd_Run (registry image tag name version : string) : M W unit :=
  do! StopCmd_Run name true;
  do! guard docker_New;
  let! img := reads (fun w => Ok (Container (w_defaults w) registry image (ContainerVersionTag version tag))) in
  do! on_docker (RemoveImage img);
  do! on_disk (removeFile (filepath_Join [GetEameraldDataDir; "directory.db"]));
  do! on_disk (removeFile (filepath_Join [GetEameraldDataDir; "directory.db.sync"]));
  on_disk (removeFile (filepath_Join [GetEameraldCfgDir; "config.yaml"])).
Definition UpdateCmd_Run (registry image tag platform version : string) : M W unit :=
  do! guard docker_New;
  let! name := reads (fun w => Ok (Container (w_defaults w) registry image (ContainerVersionTag version tag))) in
  on_docker (PullImage name platform).

(** ** Development certificates of the command line ([mrld/certs], [mrld/cmd/certs/generate.go]) *)

Record CertPaths := MkCertPaths { cp_Name : string; cp_Cert : string; cp_CA : string; cp_Key : string; cp_Dir : string }.
(** A file that cannot be examined is dereferenced, which panics. *)
Fixpoint find_existing (files : list string) (d : disk) : res (list string) :=
  match files with
  | [] => Ok []
  | f :: files =>
      match os_Stat f d with
      | StatError _ => Fail (new_error "panic: invalid memory address or nil pointer dereference")
      | Found (File _) => rmap (cons f) (find_existing files d)
      | _ => find_existing files d
      end
  end.
Definition FindExisting (c : CertPaths) : disk -> res (list string) := find_existing [cp_Cert c; cp_CA c; cp_Key c].
Definition generate_certs (certPaths : list CertPaths) : M disk unit :=
  for_each (fun c => wrapped "failed to create dev certs" (MakeDevCert (MkCertGen (cp_Name c) (cp_Key c) (cp_Cert c) (cp_CA c) ""))) certPaths.
Fixpoint all_existing (certPaths : list CertPaths) (d : disk) : res (list string) :=
  match certPaths with
  | [] => Ok []
  | c :: certPaths => rbind (FindExisting c d) (fun l => rmap (app l) (all_existing certPaths d))
  end.
Definition GenerateCerts (force : bool) (certPaths : list CertPaths) : M disk unit :=
  if force then generate_certs certPaths
  else
    let! existingFiles := reads (all_existing certPaths) in
    match existingFiles with [] => generate_certs certPaths | _ => ret tt end.
Definition cert_paths (certsDir name : string) : CertPaths :=
  MkCertPaths ("eamerald-" +:+ name) (filepath_Join [certsDir; name +:+ ".crt"]) (filepath_Join [certsDir; name +:+ "-ca.crt"])
    (filepath_Join [certsDir; name +:+ ".key"]) certsDir.
Definition GenerateCertsCmd_Run (certsDir : string) (Force : bool) : M disk unit :=
  do! (fun d => match os_Stat certsDir d with NotExist => MkdirAll certsDir d | _ => (Ok tt, d) end);
  GenerateCerts Force [cert_paths certsDir "gateway"; cert_paths certsDir "grpc"].

(** ** [pkg/config/generator.go] *)

Record Generator := MkGenerator {
  g_ConfigName : string; g_Version : Z; g_PolicyRegistry : string; g_PolicyName : string; g_Resource : string;
  g_LocalPolicy : bool; g_EdgeDirectory : bool; g_RegistryService : string; g_RegistryImage : string; g_RegistryTag : string }.
Inductive template_kind := LocalImageTemplate | RemoteImageTemplate.
(** [reference.ParseDockerRef]: domain, path and tag; [template.Execute] on one of the two texts. *)
Context (ParseDockerRef : string -> option (string * string * option string)).
Context (Execute : template_kind -> Generator -> res string).

Definition defaultPolicyRegistry : string := "https://ghcr.io".
Definition NewGenerator (configName : string) : Generator := MkGenerator configName 0 "" "" "" false false "" "" "".
Definition WithResource (resource : string) (g : Generator) : Generator :=
  let '(policyRegistry, _, found) := Cut "/" resource in
  let registry := if found && nonempty policyRegistry then "https://" +:+ policyRegistry else defaultPolicyRegistry in
  match ParseDockerRef resource with
  | Some (domain, path, tag) =>
      MkGenerator (g_ConfigName g) (g_Version g) registry (g_PolicyName g) resource (g_LocalPolicy g) (g_EdgeDirectory g)
        domain path (default (g_RegistryTag g) tag)
  | None =>
      MkGenerator (g_ConfigName g) (g_Version g) registry (g_PolicyName g) resource (g_LocalPolicy g) (g_EdgeDirectory g)
        (g_RegistryService g) (g_RegistryImage g) (g_RegistryTag g)
  end.
Definition WithOptions (version : Z) (name policy : string) (local edge : bool) (g : Generator) : Generator :=
  MkGenerator name version (g_PolicyRegistry g) policy (g_Resource g) local edge (g_RegistryService g) (g_RegistryImage g) (g_RegistryTag g).
Definition GenerateConfig (g : Generator) (templ : template_kind) : res string :=
  if String.eqb (g_ConfigName g) "" then Fail (new_error "config name cannot be empty")
  else
    let policy := if String.eqb (g_PolicyName g) "" then g_ConfigName g else g_PolicyName g in
    Execute templ (MkGenerator (g_ConfigName g) (g_Version g) (g_PolicyRegistry g) policy (g_Resource g) (g_LocalPolicy g)
      (g_EdgeDirectory g) (g_RegistryService g) (g_RegistryImage g) (g_RegistryTag g)).

(** ** [eamerald config new], [use], [rename], [delete], [list] *)

(** [restrictedNamePattern] *)
Definition name_char (c : ascii) : bool :=
  let n := N_of_ascii c in ((97 <=? n) && (n <=? 122))%N || ((48 <=? n) && (n <=? 57))%N.
Definition name_rest (c : ascii) : bool := name_char c || Ascii.eqb c "_" || Ascii.eqb c "." || Ascii.eqb c "-".
Fixpoint all_chars (f : ascii -> bool) (s : string) : bool :=
  match s with EmptyString => true | String c s => f c && all_chars f s end.
Definition restricted_name (s : string) : bool :=
  match s with EmptyString => false | String c s => name_char c && all_chars name_rest s end.
Definition AfterApply (c : string) : option err :=
  if String.eqb c "" then Some (new_error "no configuration name value provided")
  else if negb (restricted_name c) then Some (new_error "configuration name is invalid, must match pattern")
  else None.

Record NewConfigCmd := MkNewConfig {
  nc_Name : string; nc_Resource : string; nc_From : string; nc_Policy : string; nc_Stdout : bool; nc_EdgeDirectory : bool; nc_Force : bool }.
Definition FromLocal : string := "local".
Definition FromRemote : string := "remote".

Definition config_path (dir name : string) : string := filepath_Join [dir; name +:+ ".yaml"].

(** The text that is printed, if any; [prompt] is the user's answer.  The file name is compared with a path. *)
Definition NewConfigCmd_Run (prompt : bool) (cmd : NewConfigCmd) : M W (option string) :=
  if String.eqb (nc_Resource cmd) "" then
    fail (new_error "no policy specified. Please provide a policy URI with the --resource (-r) option")
  else
    let configFile := nc_Name cmd +:+ ".yaml" in
    do! set_cfg (fun c => if negb (String.eqb configFile (act_ConfigFile (Active c)))
                          then set_Active (MkActive (nc_Name cmd) (filepath_Join [GetEameraldCfgDir; configFile])) c else c);
    let g := WithOptions ConfigFileVersion (nc_Name cmd) (nc_Policy cmd) (String.eqb (nc_From cmd) FromLocal) (nc_EdgeDirectory cmd)
               (WithResource (nc_Resource cmd) (NewGenerator (nc_Name cmd))) in
    do! on_disk CreateConfigDir;
    do! on_disk CreateCertsDir;
    do! on_disk (GenerateCertsCmd_Run GetEameraldCertsDir false);
    do! on_disk CreateDataDir;
    if nc_Stdout cmd then let! text := lift (GenerateConfig g RemoteImageTemplate) in ret (Some text)
    else
      let! file := reads (fun w => Ok (act_ConfigFile (Active (w_cfg w)))) in
      let! exists_ := reads (fun w => Ok (match os_Stat file (w_disk w) with Found _ => true | _ => false end)) in
      if negb (nc_Force cmd) && exists_ && negb prompt then ret None
      else
        do! on_disk (WriteFile file "");
        let! text := lift (GenerateConfig g (if String.eqb (nc_From cmd) FromLocal then LocalImageTemplate else RemoteImageTemplate)) in
        do! on_disk (WriteFile file text);
        ret None.

Definition UseConfigCmd_Run (Name ConfigDir : string) : M W unit :=
  let file := config_path ConfigDir Name in
  do! (fun w => match os_Stat file (w_disk w) with
                | Found _ => (Ok tt, w)
                | NotExist => (Fail (new_error ("stat " +:+ file +:+ ": no such file or directory")), w)
                | StatError e => (Fail e, w)
                end);
  let! containers := reads GetRunningContainers in
  match containers with
  | _ :: _ => fail ErrIsRunning
  | [] =>
      do! set_cfg (set_Active (MkActive Name file));
      SaveContextConfig
  end.

(** What was at the new path is replaced by what is moved there. *)
Definition os_Rename (old new : string) : M disk unit := fun d =>
  match d !! old with
  | None => (Fail (new_error ("rename " +:+ old +:+ " " +:+ new +:+ ": no such file or directory")), d)
  | Some n =>
      match rename_error old new, n, d !! new with
      | Some e, _, _ => (Fail e, d)
      | None, File _, Some Folder => (Fail (new_error ("rename " +:+ old +:+ " " +:+ new +:+ ": file exists")), d)
      | None, Folder, Some (File _) => (Fail (new_error ("rename " +:+ old +:+ " " +:+ new +:+ ": not a directory")), d)
      | None, _, _ => (Ok tt, <[new := n]> (delete old d))
      end
  end.

(** The context is saved before the file is moved. *)
Definition RenameConfigCmd_Run (Name NewName ConfigDir : string) : M W unit :=
  let! is_running := reads (fun w => Ok (CheckRunStatus (ContainerName (Name +:+ ".yaml")) StatusRunning w)) in
  if is_running : bool then fail (new_error ("configuration " +:+ Name +:+ " is running, use 'topaz stop' to stop, before renaming"))
  else
    let oldFile := config_path ConfigDir Name in
    let newFile := config_path ConfigDir NewName in
    let! is_active := reads (fun w => Ok (String.eqb (act_Config (Active (w_cfg w))) Name)) in
    do! (if is_active : bool then
           do! set_cfg (set_Active (MkActive NewName newFile));
           wrapped "failed to update active context" SaveContextConfig
         else ret tt);
    on_disk (os_Rename oldFile newFile).

Definition DeleteConfigCmd_Run (Name ConfigDir : string) : M W unit :=
  let! is_running := reads (fun w => Ok (CheckRunStatus (ContainerName (Name +:+ ".yaml")) StatusRunning w)) in
  if is_running : bool then fail (new_error ("configuration " +:+ Name +:+ " is running, use 'topaz stop' to stop, before deleting"))
  else
    let filename := config_path ConfigDir Name in
    let! is_active := reads (fun w => Ok (String.eqb (act_Config (Active (w_cfg w))) Name)) in
    do! (if is_active : bool then
           do! set_cfg (set_Active (MkActive "" ""));
           wrapped "failed to update active context" SaveContextConfig
         else ret tt);
    on_disk (os_Remove filename).

(** [names]: the entries of the folder.  Active, name, file. *)
Definition ListConfigCmd_Run (names : list string) (w : W) : list (bool * string * string) :=
  (fun f => (String.eqb f (filepath_Base (act_ConfigFile (Active (w_cfg w)))), (Cut "." f).1.1, f)) <$> names.
End Commands.

(** ** Stopping *)

(** The documented behaviour of the engine: what it lists is running, and a container that was stopped is not. *)
Class DockerLaws (dstate : Type) (K : Docker dstate) := {
  running_state d c : c ∈ running_containers d -> ct_State c = running;
  stop_running id d d' : ContainerStop id d = (Ok tt, d') ->
    running_containers d' = List.filter (fun c => negb (String.eqb (ct_ID c) id)) (running_containers d) }.

Section StopFacts.
Context `{E : Env} {dstate : Type} `{K : Docker dstate} `{D : Disk}.
Context (json_Marshal : CliConfig -> res string) (probe : string -> list PortStatus).

Definition matching (name : string) (d : dstate) : list Summary :=
  List.filter (fun c => name_match name (ct_Name c)) (running_containers d).

Lemma IsRunning_matching name d : list_error d = None ->
  IsRunning name d = Ok (match matching name d with [c] => String.eqb (ct_State c) running | _ => false end).
Proof. intros H. unfold IsRunning, ContainerList. by rewrite H. Qed.

(** Several containers that match the name are taken for none: the command succeeds and they keep running. *)
Theorem stop_misses_several name wait (w : world dstate) :
  docker_New = None -> list_error (w_docker w) = None -> name <> "" -> 2 <= length (matching name (w_docker w)) ->
  exists w', StopCmd_Run json_Marshal probe name wait w = (Ok tt, w') /\ w_docker w' = w_docker w /\ w_disk w' = w_disk w.
Proof.
  intros HN HL Hn Hm. unfold StopCmd_Run. rewrite guard_none by done. cbn [bind set_cfg reads].
  unfold CheckRunStatus. cbn [w_cfg set_NoCheck Defaults def_NoCheck w_docker]. rewrite HN.
  unfold nonempty. destruct (String.eqb_spec name ""); [done|]. cbn [negb].
  rewrite IsRunning_matching by done. destruct (matching name (w_docker w)) as [|c [|c' l]]; simpl in Hm; [lia..|].
  rewrite bool_decide_true by done. eexists. split; [reflexivity|done].
Qed.

Context {KL : DockerLaws dstate K}.

Lemma save_docker (w w' : world dstate) r : SaveContextConfig json_Marshal w = (r, w') -> w_docker w' = w_docker w.
Proof.
  unfold SaveContextConfig, bind, reads, on_disk. destruct (json_Marshal (w_cfg w)); [|by intros [= <- <-]].
  destruct (WriteFile _ _ _) as [[]]; by intros [= <- <-].
Qed.

Lemma single_stopped name (d d' : dstate) c : matching name d = [c] -> ContainerStop (ct_ID c) d = (Ok tt, d') -> matching name d' = [].
Proof.
  intros Hm Hs. apply stop_running in Hs. unfold matching in *. rewrite Hs.
  assert (Hc : c ∈ List.filter (fun c => name_match name (ct_Name c)) (running_containers d)) by (rewrite Hm; left).
  destruct (List.filter _ (List.filter _ _)) as [|x l] eqn:Ef; [done|]. exfalso.
  assert (Hx : In x (x :: l)) by (by left). rewrite <-Ef in Hx.
  apply filter_In in Hx as [[Hin Hid]%filter_In Hname].
  assert (In x [c]) as [<-|[]] by (rewrite <-Hm; by apply filter_In). by rewrite String.eqb_refl in Hid.
Qed.

(** Where at most one running container matches the name, a command that succeeds leaves none of that
    name running. *)
Theorem stop_stops name wait (w w' : world dstate) :
  (forall d : dstate, list_error d = None) -> name <> "" -> length (matching name (w_docker w)) <= 1 ->
  StopCmd_Run json_Marshal probe name wait w = (Ok tt, w') -> matching name (w_docker w') = [].
Proof.
  intros HL Hn Hm. unfold StopCmd_Run. intros [[HN Hrun]|(e & _ & [=] & _)]%guard_inv.
  cbn [bind set_cfg reads] in Hrun. unfold CheckRunStatus in Hrun. cbn [w_cfg set_NoCheck Defaults def_NoCheck w_docker] in Hrun.
  rewrite HN in Hrun. unfold nonempty in Hrun. destruct (String.eqb_spec name ""); [done|]. cbn [negb] in Hrun.
  rewrite IsRunning_matching in Hrun by done. set (w1 := MkWorld _ _ _ _) in Hrun.
  destruct (matching name (w_docker w)) as [|c [|c' l]] eqn:Em; [| |simpl in Hm; lia].
  { rewrite bool_decide_true in Hrun by done. injection Hrun as <-. exact Em. }
  assert (Hst : ct_State c = running).
  { apply (running_state (w_docker w)). assert (Hin : In c [c]) by (by left). rewrite <-Em in Hin.
    apply filter_In in Hin as [Hin _]. by apply list_elem_of_In. }
  rewrite Hst, String.eqb_refl, bool_decide_false in Hrun by done.
  apply bind_inv in Hrun as [([] & w2 & Hs & Hrun)|(e & _ & [=])].
  assert (H2 : matching name (w_docker w2) = []).
  { unfold on_docker, dc_Stop, bind, reads, ContainerList in Hs. rewrite HL in Hs. unfold w1 in Hs. cbn [w_docker] in Hs.
    fold (matching name (w_docker w)) in Hs. rewrite Em in Hs. cbn [for_each] in Hs. unfold bind in Hs.
    destruct (ContainerStop (ct_ID c) (w_docker w)) as [[[]|] d'] eqn:Ec; [|done]. injection Hs as <-.
    by apply (single_stopped name (w_docker w) d' c). }
  clear Hs. apply bind_inv in Hrun as [([] & w3 & Hw & Hrun)|(e & _ & [=])].
  assert (H3 : w_docker w3 = w_docker w2).
  { destruct wait; [|by injection Hw as <-]. unfold bind, reads in Hw. destruct (ports_of _ _); [|done].
    unfold guard in Hw. destruct (WaitForPorts _ _ _); [done|]. by injection Hw as <-. }
  cbn [bind set_cfg] in Hrun. apply save_docker in Hrun. rewrite Hrun. cbn [w_docker]. by rewrite H3.
Qed.
End StopFacts.

(** ** The active configuration *)

Section ConfigFacts.
Context `{E : Env} {dstate : Type} `{K : Docker dstate} `{D : Disk}.
Context (json_Marshal : CliConfig -> res string).

Context (ParseDockerRef : string -> option (string * string * option string)).
Context (Execute : template_kind -> Generator -> res string).

(** The commands that change the configurations in their folder; the names are checked before the command runs, and
    [prompt] is the answer of the user, where there is a question. *)
Inductive config_call :=
| CallNew (prompt : bool) (cmd : NewConfigCmd)
| CallUse (name : string)
| CallRename (name new_name : string)
| CallDelete (name : string).
Definition run_call (c : config_call) : M (world dstate) unit :=
  match c with
  | CallNew prompt cmd => do! guard (AfterApply (nc_Name cmd)); do! NewConfigCmd_Run ParseDockerRef Execute prompt cmd; ret tt
  | CallUse n => do! guard (AfterApply n); UseConfigCmd_Run json_Marshal n GetEameraldCfgDir
  | CallRename n m => do! guard (AfterApply n); do! guard (AfterApply m); RenameConfigCmd_Run json_Marshal n m GetEameraldCfgDir
  | CallDelete n => do! guard (AfterApply n); DeleteConfigCmd_Run json_Marshal n GetEameraldCfgDir
  end.

Lemma all_chars_contains c f s : f c = false -> all_chars f s = true -> contains c s = false.
Proof.
  intros Hc. induction s as [|a s IH]; [done|]. cbn [all_chars contains]. intros [Ha Hs]%andb_true_iff.
  destruct (ascii_dec c a) as [->|]; [congruence|]. by apply IH.
Qed.

Lemma yaml_length n : 5 <= String.length (n +:+ ".yaml").
Proof. rewrite length_app_str. simpl. lia. Qed.
Lemma restricted_plain n : restricted_name n = true -> plain (n +:+ ".yaml") = true.
Proof.
  intros Hr. unfold plain. assert (Hs : contains "/" n = false).
  { destruct n as [|a n]; [done|]. simpl in Hr. apply andb_true_iff in Hr as [Ha Hn].
    cbn [contains]. destruct (ascii_dec "/" a) as [<-|]; [done|]. by apply (all_chars_contains _ name_rest). }
  rewrite contains_app, Hs. pose proof (yaml_length n) as Hl. cbn [orb contains negb andb].
  destruct (String.eqb_spec (n +:+ ".yaml") "") as [Hz|]; [rewrite Hz in Hl; simpl in Hl; lia|].
  destruct (String.eqb_spec (n +:+ ".yaml") ".") as [Hz|]; [rewrite Hz in Hl; simpl in Hl; lia|].
  destruct (String.eqb_spec (n +:+ ".yaml") "..") as [Hz|]; [rewrite Hz in Hl; simpl in Hl; lia|]. done.
Qed.
Lemma AfterApply_ok n : AfterApply n = None -> n <> "" /\ restricted_name n = true.
Proof. unfold AfterApply. destruct (String.eqb_spec n ""); [done|]. destruct (restricted_name n); [done|done]. Qed.

Lemma append_inj_r (s n m : string) : n +:+ s = m +:+ s -> n = m.
Proof.
  intros H. assert (Hl : String.length n = String.length m).
  { apply (f_equal String.length) in H. rewrite !length_app_str in H. lia. }
  revert m H Hl. induction n as [|a n IH]; intros [|b m] H Hl; simpl in *; try done.
  injection H as -> H. f_equal. apply IH; [done|lia].
Qed.
Lemma config_path_ne d e n m : restricted_name n = true -> restricted_name m = true -> n <> m -> config_path d n <> config_path e m.
Proof. intros Hn Hm Hne. apply Join_ne; try (by apply restricted_plain). by intros ?%append_inj_r. Qed.
Lemma last_char (a b : ascii) n m : n +:+ String a "" = m +:+ String b "" -> a = b.
Proof.
  revert m. induction n as [|x n IH]; intros [|y m] H; simpl in H.
  - by injection H.
  - injection H as _ H. by destruct m.
  - injection H as _ H. by destruct n.
  - injection H as _ H. by apply (IH m).
Qed.
Lemma config_path_context d n : restricted_name n = true -> config_path d n <> context_file.
Proof.
  intros Hn. apply Join_ne; [by apply restricted_plain|done|]. intros He.
  replace (n +:+ ".yaml") with ((n +:+ ".yam") +:+ "l") in He by (by rewrite app_assoc_str).
  change CLIConfigurationFile with ("topaz.jso" +:+ "n") in He. by apply last_char in He.
Qed.

(** The context that is saved is the process's, and the active configuration, if any, is a file of the folder. *)
Definition context_ok (w : world dstate) : Prop :=
  (exists b, json_Marshal (w_cfg w) = Ok b /\ w_disk w !! context_file = Some (File b)) /\
  (act_Config (Active (w_cfg w)) = "" \/
   restricted_name (act_Config (Active (w_cfg w))) = true /\
   act_ConfigFile (Active (w_cfg w)) = config_path GetEameraldCfgDir (act_Config (Active (w_cfg w))) /\
   is_Some (w_disk w !! act_ConfigFile (Active (w_cfg w)))).

Lemma save_ok (w w' : world dstate) : SaveContextConfig json_Marshal w = (Ok tt, w') ->
  exists b, json_Marshal (w_cfg w) = Ok b /\
    w' = MkWorld (<[context_file := File b]> (w_disk w)) (w_docker w) (w_cfg w) (Defaults (w_cfg w)).
Proof.
  unfold SaveContextConfig, bind, reads, on_disk. destruct (json_Marshal (w_cfg w)) as [b|]; [|done].
  destruct (WriteFile _ _ _) as [[[]|] d] eqn:Ew; [|done]. apply WriteFile_ok in Ew as [_ ->]. intros [= <-]. by exists b.
Qed.
Lemma wrapped_save_ok (w w' : world dstate) x : wrapped x (SaveContextConfig json_Marshal) w = (Ok tt, w') ->
  SaveContextConfig json_Marshal w = (Ok tt, w').
Proof. unfold wrapped. destruct (SaveContextConfig _ w) as [[[]|]]; simpl; congruence. Qed.

(** A disk where the context and the active configuration are untouched, or the latter replaced. *)
Lemma context_kept (w : world dstate) d : context_ok w ->
  d !! context_file = w_disk w !! context_file ->
  (act_Config (Active (w_cfg w)) <> "" -> is_Some (w_disk w !! act_ConfigFile (Active (w_cfg w))) ->
   is_Some (d !! act_ConfigFile (Active (w_cfg w)))) ->
  context_ok (MkWorld d (w_docker w) (w_cfg w) (w_defaults w)).
Proof.
  intros [(b & Hb & Hf) Ha] Hc Hk. split; cbn [w_cfg w_disk]; [exists b; by rewrite Hc|].
  destruct Ha as [Ha|(H1 & H2 & H3)]; [by left|right]. split_and!; try done. apply Hk; [|done]. intros E0. by rewrite E0 in H1.
Qed.

(** After the context was saved with a new active configuration. *)
Lemma context_saved (w w1 : world dstate) a : SaveContextConfig json_Marshal (MkWorld (w_disk w) (w_docker w) (set_Active a (w_cfg w)) (w_defaults w)) = (Ok tt, w1) ->
  Active (w_cfg w1) = a /\ (exists b, json_Marshal (w_cfg w1) = Ok b /\ w_disk w1 !! context_file = Some (File b)) /\
  forall p, p <> context_file -> w_disk w1 !! p = w_disk w !! p.
Proof.
  intros (b & Hb & ->)%save_ok. cbn [w_cfg w_disk] in *. split; [done|]. split; [exists b; by rewrite lookup_insert_eq|].
  intros p Hp. by rewrite lookup_insert_ne.
Qed.

Lemma os_Rename_ok old new (d d' : disk) : os_Rename old new d = (Ok tt, d') ->
  exists n, d !! old = Some n /\ d' = <[new := n]> (delete old d).
Proof. unfold os_Rename. destruct (d !! old) as [n|]; [|done]. intros H. exists n. split; [done|]. repeat case_match; by simplify_eq. Qed.
Lemma os_Remove_ok p (d d' : disk) : os_Remove p d = (Ok tt, d') -> is_Some (d !! p) /\ d' = delete p d.
Proof. unfold os_Remove. destruct (d !! p); [|done]. case_match; intros [= <-]. by split; [eexists|]. Qed.

Lemma use_context n (w w' : world dstate) : restricted_name n = true ->
  UseConfigCmd_Run json_Marshal n GetEameraldCfgDir w = (Ok tt, w') -> context_ok w'.
Proof.
  intros Hn. unfold UseConfigCmd_Run. intros [([] & w1 & Hs & H)|(e & _ & [=])]%bind_inv.
  assert (w1 = w /\ is_Some (w_disk w !! config_path GetEameraldCfgDir n)) as [-> Hex].
  { unfold os_Stat in Hs. repeat case_match; simplify_eq; eauto. }
  apply bind_inv in H as [(l & w1 & [= Hl ->] & H)|(e & _ & [=])]. destruct l; [|done].
  cbn [bind set_cfg] in H. apply context_saved in H as (Ha & Hb & Hk).
  split; [exact Hb|]. right. rewrite Ha. cbn [act_Config act_ConfigFile]. split_and!; [done..|].
  rewrite Hk by (by apply config_path_context). done.
Qed.

Lemma rename_context n m (w w' : world dstate) : restricted_name n = true -> restricted_name m = true -> context_ok w ->
  RenameConfigCmd_Run json_Marshal n m GetEameraldCfgDir w = (Ok tt, w') -> context_ok w'.
Proof.
  intros Hn Hm Hw. unfold RenameConfigCmd_Run. cbn [bind reads]. destruct (CheckRunStatus _ _ _); [done|]. cbn [bind reads].
  destruct (String.eqb_spec (act_Config (Active (w_cfg w))) n) as [Ea|Ea].
  - intros [([] & w1 & H1 & H)|(e & _ & [=])]%bind_inv. cbn [bind set_cfg] in H1.
    apply wrapped_save_ok, context_saved in H1 as (Ha & (b & Hb & Hf) & Hk).
    unfold on_disk in H. destruct (os_Rename _ _ _) as [r d] eqn:Er. injection H as -> <-.
    apply os_Rename_ok in Er as (x & Hx & ->). split; cbn [w_cfg w_disk].
    + exists b. split; [done|]. rewrite lookup_insert_ne by (by apply config_path_context).
      rewrite lookup_delete_ne by (by apply config_path_context). done.
    + right. rewrite Ha. cbn [act_Config act_ConfigFile]. split_and!; [done..|]. rewrite lookup_insert_eq. eauto.
  - cbn [bind ret]. unfold on_disk. destruct (os_Rename _ _ _) as [r d] eqn:Er. intros [= -> <-].
    apply os_Rename_ok in Er as (x & Hx & ->). apply (context_kept w); [done| |].
    + rewrite lookup_insert_ne by (by apply config_path_context). by rewrite lookup_delete_ne by (by apply config_path_context).
    + intros Hne Hs. destruct Hw as [_ [?|(H1 & H2 & _)]]; [done|]. rewrite H2 in *.
      rewrite lookup_insert. case_decide; [eauto|]. rewrite lookup_delete_ne; [done|]. apply config_path_ne; congruence.
Qed.

Lemma delete_context n (w w' : world dstate) : restricted_name n = true -> context_ok w ->
  DeleteConfigCmd_Run json_Marshal n GetEameraldCfgDir w = (Ok tt, w') -> context_ok w'.
Proof.
  intros Hn Hw. unfold DeleteConfigCmd_Run. cbn [bind reads]. destruct (CheckRunStatus _ _ _); [done|]. cbn [bind reads].
  destruct (String.eqb_spec (act_Config (Active (w_cfg w))) n) as [Ea|Ea].
  - intros [([] & w1 & H1 & H)|(e & _ & [=])]%bind_inv. cbn [bind set_cfg] in H1.
    apply wrapped_save_ok, context_saved in H1 as (Ha & (b & Hb & Hf) & Hk).
    unfold on_disk in H. destruct (os_Remove _ _) as [r d] eqn:Er. injection H as -> <-.
    apply os_Remove_ok in Er as [_ ->]. split; cbn [w_cfg w_disk]; [|left; by rewrite Ha].
    exists b. split; [done|]. by rewrite lookup_delete_ne by (by apply config_path_context).
  - cbn [bind ret]. unfold on_disk. destruct (os_Remove _ _) as [r d] eqn:Er. intros [= -> <-].
    apply os_Remove_ok in Er as [_ ->]. apply (context_kept w); [done| |].
    + by rewrite lookup_delete_ne by (by apply config_path_context).
    + intros Hne Hs. destruct Hw as [_ [?|(H1 & H2 & _)]]; [done|]. rewrite H2 in *.
      rewrite lookup_delete_ne; [done|]. apply config_path_ne; congruence.
Qed.

(** *** [config new] leaves the context and the other files where they are *)

(** The context is this text, and what was on the disk is still there. *)
Definition disk_kept (b : string) (d0 d : disk) : Prop :=
  d !! context_file = Some (File b) /\ forall p, is_Some (d0 !! p) -> is_Some (d !! p).

Lemma MkdirAll_kept b d0 p : preserves (disk_kept b d0) (MkdirAll p).
Proof.
  intros d [Hc Hk]. unfold MkdirAll. destruct (mkdir_error p); [by split|].
  destruct (decide (p = context_file)) as [->|Hne]; [rewrite Hc; by split|].
  assert (disk_kept b d0 (<[p := Folder]> d)).
  { split; [by rewrite lookup_insert_ne|]. intros q Hq. rewrite lookup_insert. case_decide; eauto. }
  by destruct (d !! p) as [[]|].
Qed.
Lemma WriteFile_kept b d0 p c : p <> context_file -> preserves (disk_kept b d0) (WriteFile p c).
Proof.
  intros Hne d [Hc Hk]. unfold WriteFile. destruct (String.eqb p ""); [by split|]. destruct (write_error p); [by split|].
  assert (disk_kept b d0 (<[p := File c]> d)).
  { split; [by rewrite lookup_insert_ne|]. intros q Hq. rewrite lookup_insert. case_decide; eauto. }
  by destruct (d !! p) as [[]|].
Qed.
Lemma EnsureDir_kept b d0 p : preserves (disk_kept b d0) (EnsureDir p).
Proof. intros d Hd. unfold EnsureDir. destruct (os_Stat p d) as [[]| |]; try done; by apply MkdirAll_kept. Qed.

Lemma MakeDevCert_kept b d0 g : DefaultTLSGenDir g = "" -> CertKeyPath g <> context_file -> CertPath g <> context_file ->
  CertCAPath g <> context_file -> preserves (disk_kept b d0) (MakeDevCert g).
Proof.
  intros H0 H1 H2 H3. unfold MakeDevCert, generate, signCert.
  apply preserves_bind; [apply preserves_guard|intros _]. apply preserves_bind; [|intros _].
  { apply preserves_wrapped. unfold checkDir. destruct (_ || _); [apply preserves_fail|]. apply preserves_bind.
    - destruct (String.eqb _ _); [apply preserves_wrapped, MkdirAll_kept|apply preserves_ret].
    - intros _ d Hd. by destruct (os_Stat _ d). }
  apply preserves_bind; [apply preserves_guard|intros _].
  apply preserves_bind; [|intros _; by apply preserves_wrapped, WriteFile_kept].
  apply preserves_bind; [apply preserves_guard|intros _].
  apply preserves_bind; [by apply preserves_wrapped, WriteFile_kept|intros _; by apply preserves_wrapped, WriteFile_kept].
Qed.

Lemma not_context d n : plain n = true -> n <> CLIConfigurationFile -> filepath_Join [d; n] <> context_file.
Proof. intros Hp Hn. by apply Join_ne. Qed.

Lemma GenerateCerts_kept b d0 dir : preserves (disk_kept b d0) (GenerateCertsCmd_Run dir false).
Proof.
  unfold GenerateCertsCmd_Run. apply preserves_bind.
  { intros d Hd. destruct (os_Stat dir d); try done. by apply MkdirAll_kept. }
  intros _. unfold GenerateCerts. apply preserves_bind; [apply preserves_reads|]. intros [|? ?]; [|apply preserves_ret].
  apply preserves_for_each. intros c Hc. apply preserves_wrapped.
  repeat (apply elem_of_cons in Hc as [->|Hc]); [| |by apply not_elem_of_nil in Hc];
    apply MakeDevCert_kept; cbn; try done; apply not_context; done.
Qed.

Lemma on_disk_kept {X} cfg b d0 (m : M disk X) : preserves (disk_kept b d0) m ->
  preserves (fun w : world dstate => w_cfg w = cfg /\ disk_kept b d0 (w_disk w)) (on_disk m).
Proof.
  intros Hm w [Hc Hd]. specialize (Hm _ Hd). unfold on_disk. destruct (m (w_disk w)) as [r d]. by split.
Qed.

(** The file of the new configuration is never the context. *)
Lemma new_file n (c : CliConfig) : restricted_name n = true ->
  act_ConfigFile (Active (if negb (String.eqb (n +:+ ".yaml") (act_ConfigFile (Active c)))
    then set_Active (MkActive n (filepath_Join [GetEameraldCfgDir; n +:+ ".yaml"])) c else c)) <> context_file.
Proof.
  intros Hn. destruct (String.eqb_spec (n +:+ ".yaml") (act_ConfigFile (Active c))) as [Ef|_]; cbn [negb set_Active Active act_ConfigFile].
  - rewrite <-Ef. intros H. apply (f_equal filepath_Base) in H. rewrite Base_plain in H by (by apply restricted_plain).
    unfold context_file in H. rewrite Base_Join in H by done.
    replace (n +:+ ".yaml") with ((n +:+ ".yam") +:+ "l") in H by (by rewrite app_assoc_str).
    change CLIConfigurationFile with ("topaz.jso" +:+ "n") in H. by apply last_char in H.
  - by apply config_path_context.
Qed.

Lemma new_kept prompt cmd (w : world dstate) b : restricted_name (nc_Name cmd) = true ->
  w_disk w !! context_file = Some (File b) ->
  disk_kept b (w_disk w) (w_disk (NewConfigCmd_Run ParseDockerRef Execute prompt cmd w).2).
Proof.
  intros Hn Hf. unfold NewConfigCmd_Run. destruct (String.eqb (nc_Resource cmd) ""); [by split|].
  cbv zeta. unfold bind at 1. unfold set_cfg. cbn [w_disk w_docker w_cfg w_defaults].
  set (cfg := if negb _ then _ else w_cfg w). pose proof (new_file (nc_Name cmd) (w_cfg w) Hn) as Hne. fold cfg in Hne.
  set (J := fun w' : world dstate => w_cfg w' = cfg /\ disk_kept b (w_disk w) (w_disk w')).
  match goal with |- disk_kept _ _ (w_disk (?m ?w1).2) => assert (preserves J m) as Hp end; [|by apply Hp].
  apply preserves_bind; [apply on_disk_kept, EnsureDir_kept|intros _].
  apply preserves_bind; [apply on_disk_kept, EnsureDir_kept|intros _].
  apply preserves_bind; [apply on_disk_kept, GenerateCerts_kept|intros _].
  apply preserves_bind; [apply on_disk_kept, EnsureDir_kept|intros _].
  destruct (nc_Stdout cmd); [apply preserves_bind; [apply preserves_lift|intros; apply preserves_ret]|].
  intros w' Hw'. unfold bind at 1, reads. destruct Hw' as [Hc Hd]. rewrite Hc. revert w' Hc Hd.
  match goal with |- forall w' _ _, J (?m w').2 => assert (preserves J m) as Hp end; [|intros w' ? ?; by apply Hp].
  apply preserves_bind; [apply preserves_reads|]. intros ex. destruct (_ && _ && _); [apply preserves_ret|].
  apply preserves_bind; [by apply on_disk_kept, WriteFile_kept|intros _].
  apply preserves_bind; [apply preserves_lift|intros text].
  apply preserves_bind; [by apply on_disk_kept, WriteFile_kept|intros _; apply preserves_ret].
Qed.

(** *** Sessions *)

(** Commands that succeed, in any order, each a process of its own that starts from a context with the text on the
    disk; between them the containers may change. *)
Inductive config_session : world dstate -> world dstate -> Prop :=
| session_start w : config_session w w
| session_call w w1 w2 cfg b c :
    config_session w w1 -> json_Marshal cfg = Ok b -> w_disk w1 !! context_file = Some (File b) ->
    run_call c (MkWorld (w_disk w1) (w_docker w1) cfg (Defaults cfg)) = (Ok tt, w2) -> config_session w w2
| session_docker w w1 d : config_session w w1 -> config_session w (MkWorld (w_disk w1) d (w_cfg w1) (w_defaults w1)).

(** The disk has the text of a context whose active configuration, if any, is a file of the folder. *)
Definition saved_context_ok (w : world dstate) : Prop :=
  exists cfg, context_ok (MkWorld (w_disk w) (w_docker w) cfg (Defaults cfg)).

Lemma run_call_ok c (w w' : world dstate) : context_ok w -> run_call c w = (Ok tt, w') -> saved_context_ok w'.
Proof.
  intros Hw H.
  assert (forall w1 : world dstate, context_ok w1 -> saved_context_ok w1) as Hs by (intros w1 H1; by exists (w_cfg w1)).
  destruct c as [prompt cmd|n|n m|n]; cbn [run_call] in H; apply guard_inv in H as [[Hn H]|(e & _ & [=] & _)];
    apply AfterApply_ok in Hn as [_ Hn].
  - pose proof Hw as [(b & Hb & Hf) _]. pose proof (new_kept prompt cmd w b Hn Hf) as [K1 K2].
    apply bind_inv in H as [(r & w1 & H & [= <-])|(e & _ & [=])]. rewrite H in K1, K2. cbn [snd] in *.
    exists (w_cfg w). apply (context_kept w (w_disk w1)) in Hw; [exact Hw|by rewrite K1, Hf|by auto].
  - exact (Hs _ (use_context n _ _ Hn H)).
  - apply guard_inv in H as [[Hm H]|(e & _ & [=] & _)]. apply AfterApply_ok in Hm as [_ Hm].
    exact (Hs _ (rename_context n m _ _ Hn Hm Hw H)).
  - exact (Hs _ (delete_context n _ _ Hn Hw H)).
Qed.


(** A file that cannot be moved: the command fails, and the context on the disk names a configuration that does
    not exist. *)
Theorem rename_failure_dangles n m (w : world dstate) e b :
  restricted_name m = true -> act_Config (Active (w_cfg w)) = n ->
  CheckRunStatus (ContainerName (n +:+ ".yaml")) StatusRunning w = false ->
  json_Marshal (set_Active (MkActive m (config_path GetEameraldCfgDir m)) (w_cfg w)) = Ok b ->
  WriteFile context_file b (w_disk w) = (Ok tt, <[context_file := File b]> (w_disk w)) ->
  os_Rename (config_path GetEameraldCfgDir n) (config_path GetEameraldCfgDir m) (<[context_file := File b]> (w_disk w))
    = (Fail e, <[context_file := File b]> (w_disk w)) ->
  w_disk w !! config_path GetEameraldCfgDir m = None ->
  exists w', RenameConfigCmd_Run json_Marshal n m GetEameraldCfgDir w = (Fail e, w') /\
    w_disk w' !! context_file = Some (File b) /\ act_Config (Active (w_cfg w')) = m /\
    w_disk w' !! act_ConfigFile (Active (w_cfg w')) = None.
Proof.
  intros Hm Ha Hc Hj Hw Hr Hno. unfold RenameConfigCmd_Run. cbn [bind reads]. rewrite Hc. cbn [bind reads].
  rewrite Ha, String.eqb_refl. unfold bind at 1. unfold wrapped, SaveContextConfig. cbn [bind set_cfg reads w_cfg].
  unfold bind, reads, on_disk at 1. cbn [w_cfg]. rewrite Hj. unfold on_disk at 1. cbn [w_disk w_cfg w_docker w_defaults]. rewrite Hw.
  cbn [rwrap]. unfold on_disk. cbn [w_disk]. rewrite Hr. eexists. split; [reflexivity|]. cbn [w_disk w_cfg set_Active Active act_Config act_ConfigFile].
  rewrite lookup_insert_eq. split_and!; [done..|]. rewrite lookup_insert_ne; [done|]. intros Heq. by apply (config_path_context GetEameraldCfgDir m Hm).
Qed.
End ConfigFacts.

(** ** What the options do *)

(** The name of the container is taken for the name of the image. *)
Theorem container_name_is_image `{E : Env} defaults registry tag :
  Getenv "CONTAINER" = "" -> Getenv "CONTAINER_NAME" <> "" -> registry <> "" -> tag <> "" ->
  Container defaults registry "" tag = registry +:+ "/" +:+ Getenv "CONTAINER_NAME" +:+ ":" +:+ tag.
Proof.
  intros H1 H2 H3 H4. unfold Container, env_or, or_default, ContainerImage, env_or, nonempty. rewrite H1. cbn [String.eqb negb].
  by destruct (String.eqb_spec registry ""), (String.eqb_spec tag ""), (String.eqb_spec (Getenv "CONTAINER_NAME") "").
Qed.

(** A configuration that is printed is always the one for a remote image, also where a local one is asked for. *)
Theorem stdout_is_remote `{E : Env} {dstate : Type} `{K : Docker dstate} `{D : Disk} ParseDockerRef Execute prompt cmd
    (w w' : world dstate) r text :
  nc_Stdout cmd = true -> NewConfigCmd_Run ParseDockerRef Execute prompt cmd w = (Ok r, w') -> r = Some text ->
  exists g, g_LocalPolicy g = String.eqb (nc_From cmd) FromLocal /\ Execute RemoteImageTemplate g = Ok text.
Proof.
  intros Hs Hrun ->. unfold NewConfigCmd_Run in Hrun. rewrite Hs in Hrun. destruct (String.eqb (nc_Resource cmd) ""); [done|].
  apply bind_inv in Hrun as [([] & w1 & _ & Hrun)|(e & _ & [=])]. cbv zeta in Hrun.
  do 4 (apply bind_inv in Hrun as [([] & ? & _ & Hrun)|(e & _ & [=])]; cbv beta in Hrun).
  apply bind_inv in Hrun as [(t & ? & Hg & [= -> ->])|(e & _ & [=])]. unfold lift in Hg. injection Hg as Hg _.
  unfold GenerateConfig in Hg. destruct (String.eqb _ ""); [done|]. eexists. split; [|exact Hg]. done.
Qed.

Module CliExamples.
#[local] Instance env : Env := {|
  Getenv name := if String.eqb name "CONTAINER_NAME" then "mine" else "";
  ConfigHome := "/home/u/.config"; DataHome := "/home/u/.local/share"; GOARCH := "amd64";
  program_version := Some ("1.2.3", ""); ParseDuration _ := None; decode_config _ := Fail (new_error "no configuration");
  slice_of s := elements s; rename_error _ _ := Some (new_error "permission denied"); remove_error _ := None;
  UserHomeDir := Ok "/home/u" |}.
(** An engine whose filter is the text that a name contains. *)
#[local] Instance docker : Docker (list Summary) := {|
  docker_New := None; list_error _ := None; running_containers l := l; name_match p n := contains_str n p;
  ImageList img _ := Ok [img]; ImagePull _ _ := ret tt; ImageRemove _ := ret tt;
  ContainerCreate r := ret (r_containerName r); ContainerStart _ := ret tt;
  ContainerStop id := fun l => (Ok tt, List.filter (fun c => negb (String.eqb (ct_ID c) id)) l);
  ContainerRemove _ _ := ret tt; ContainerWait _ := ret tt; ParsePortSpecs _ := None |}.
#[local] Instance no_failures : Disk := {|
  stat_error _ := None; write_error _ := None; mkdir_error _ := None; crypto_error _ := None; pem a b := a +:+ b |}.

Definition json (c : CliConfig) : res string := Ok (act_Config (Active c)).
Definition defaults0 : DefaultsConfig := MkDefaults false false "" "" "" "".
Definition cfg0 (name : string) : CliConfig :=
  MkCli 1 (MkActive name (config_path GetEameraldCfgDir name)) no_running defaults0.
Definition one (n : string) : Summary := MkSummary n n "ghcr.io/threehook/eamerald:1.2.3" running.
Definition disk0 : disk := {[context_file := File "a"; config_path GetEameraldCfgDir "a" := File "version: 2"]}.
Definition world0 (l : list Summary) : world (list Summary) := MkWorld disk0 l (cfg0 "a") defaults0.

Lemma stop_misses_several_witness :
  exists w', StopCmd_Run json (fun _ => []) "eamerald" true (world0 [one "eamerald"; one "eamerald-a"]) = (Ok tt, w') /\
    w_docker w' = [one "eamerald"; one "eamerald-a"] /\ w_disk w' = disk0.
Proof. apply (stop_misses_several json (fun _ => []) "eamerald" true (world0 [one "eamerald"; one "eamerald-a"])); [reflexivity|reflexivity|discriminate|vm_compute; lia]. Defined.

(** The engine that lists only what is running keeps the law of the state. *)
Definition only_running (l : list Summary) : list Summary := List.filter (fun c => String.eqb (ct_State c) running) l.
Definition docker_strict : Docker (list Summary) := {|
  docker_New := None; list_error _ := None; running_containers l := only_running l; name_match p n := contains_str n p;
  ImageList img _ := Ok [img]; ImagePull _ _ := ret tt; ImageRemove _ := ret tt;
  ContainerCreate r := ret (r_containerName r); ContainerStart _ := ret tt;
  ContainerStop id := fun l => (Ok tt, List.filter (fun c => negb (String.eqb (ct_ID c) id)) l);
  ContainerRemove _ _ := ret tt; ContainerWait _ := ret tt; ParsePortSpecs _ := None |}.
Lemma filter_comm {B} (f g : B -> bool) l : List.filter f (List.filter g l) = List.filter g (List.filter f l).
Proof.
  induction l as [|x l IH]; [done|]. cbn [List.filter].
  destruct (g x) eqn:Eg, (f x) eqn:Ef; cbn [List.filter]; rewrite ?Eg, ?Ef, IH; done.
Qed.
#[local] Instance docker_laws : DockerLaws (list Summary) docker_strict.
Proof.
  split; simpl.
  - intros d c Hc. apply list_elem_of_In, filter_In in Hc as [_ Hc]. by apply String.eqb_eq.
  - intros id d d' [= <-]. apply filter_comm.
Qed.

Lemma stop_stops_witness :
  matching (K := docker_strict) "eamerald" (w_docker (StopCmd_Run (K := docker_strict) json (fun _ => []) "eamerald" false (world0 [one "eamerald"])).2) = [].
Proof.
  apply (stop_stops (K := docker_strict) (KL := docker_laws) json (fun _ => []) "eamerald" false (world0 [one "eamerald"])
    (StopCmd_Run (K := docker_strict) json (fun _ => []) "eamerald" false (world0 [one "eamerald"])).2).
  - reflexivity.
  - discriminate.
  - vm_compute. lia.
  - vm_compute. reflexivity.
Defined.

(** A context that determines the active configuration: its two texts, the first one's length in front. *)
Fixpoint counted_text (n rest : string) : string :=
  match n with EmptyString => String "." rest | String c n => String "|" (String c (counted_text n rest)) end.
Lemma counted_text_inj n : forall rest m rest', counted_text n rest = counted_text m rest' -> n = m /\ rest = rest'.
Proof.
  induction n as [|c n IH]; intros rest [|c' m] rest'; simpl; [by intros [= ->]|done|done|].
  intros [= -> H]. by apply IH in H as [-> ->].
Qed.
Definition json_active (c : CliConfig) : res string :=
  Ok (counted_text (act_Config (Active c)) (act_ConfigFile (Active c))).
Definition json_text (name : string) : string := counted_text name (config_path GetEameraldCfgDir name).
Definition disk1 : disk := <[context_file := File (json_text "a")]> disk0.
Definition new_cmd : NewConfigCmd := MkNewConfig "b" "ghcr.io/org/policy:latest" FromRemote "" false false false.
Abbreviation ask_call := (run_call json_active (fun _ => None) (fun _ _ => Ok "version: 2")).
Definition world1 : world (list Summary) := MkWorld disk1 [] (cfg0 "a") defaults0.
Definition world2 : world (list Summary) := (ask_call (CallNew true new_cmd) world1).2.
Definition world3 : world (list Summary) := (ask_call (CallUse "b") (MkWorld (w_disk world2) [] (cfg0 "a") defaults0)).2.


Lemma rename_failure_dangles_witness :
  exists w', RenameConfigCmd_Run json "a" "b" GetEameraldCfgDir (world0 []) = (Fail (new_error "permission denied"), w') /\
    w_disk w' !! context_file = Some (File "b") /\ act_Config (Active (w_cfg w')) = "b" /\
    w_disk w' !! act_ConfigFile (Active (w_cfg w')) = None.
Proof.
  apply (rename_failure_dangles json "a" "b" (world0 []) (new_error "permission denied") "b");
    first [reflexivity | vm_compute; reflexivity].
Defined.

Lemma container_name_is_image_witness : Container defaults0 "ghcr.io/threehook" "" "1.2.3" = "ghcr.io/threehook/mine:1.2.3".
Proof. rewrite (container_name_is_image defaults0 "ghcr.io/threehook" "1.2.3"); [reflexivity|reflexivity|discriminate..]. Defined.

Definition print_local : NewConfigCmd := MkNewConfig "a" "local/policy:1" "local" "" true false true.
Definition fill_template (k : template_kind) (g : Generator) : res string :=
  Ok (match k with LocalImageTemplate => "local" | RemoteImageTemplate => "remote" end).
Lemma stdout_is_remote_witness :
  exists w' g, NewConfigCmd_Run (fun _ => None) fill_template true print_local (world0 []) = (Ok (Some "remote"), w') /\
    g_LocalPolicy g = true /\ fill_template RemoteImageTemplate g = Ok "remote".
Proof.
  destruct (stdout_is_remote (fun _ => None) fill_template true print_local (world0 [])
    (NewConfigCmd_Run (fun _ => None) fill_template true print_local (world0 [])).2 (Some "remote") "remote" eq_refl)
    as (g & H1 & H2); [vm_compute; reflexivity|reflexivity|].
  exists (NewConfigCmd_Run (fun _ => None) fill_template true print_local (world0 [])).2, g.
  split; [vm_compute; reflexivity|]. exact (conj H1 H2).
Defined.

(** The folder of the configurations of a user whose name has [db] in it is passed on as that of the databases. *)
Example env_mislabelled : getEnvFromVolumes ["/home/dbadmin/.config/eamerald/cfg:/config:ro"] = ["EAMERALD_DB_DIR=/config"].
Proof. vm_compute. reflexivity. Qed.
(** Two folders of the same name share a mount point. *)
Example mounts_collide : (volume_of "/etc/tls/certs/a.crt", volume_of "/opt/certs/b.crt") = ("/etc/tls/certs:/certs", "/opt/certs:/certs").
Proof. vm_compute. reflexivity. Qed.
End CliExamples.
