(* ===== verification/Templates.v ===== *)
(** * Templates: from a catalog to a running directory

    [mrld/cmd/templates] ([template.go], [install.go], [apply.go], [download.go], [verify.go], [list.go]), the
    commands on manifests and data that it uses ([mrld/cmd/directory/manifest.go],
    [mrld/cmd/directory/data/import.go]) and the prompt of [mrld/cmd/common].  A [site] is the [world] of the
    command line and the directory that the daemon serves. *)
From Stdlib Require Import Ascii.
From S2P Require Import Prelude Bytes Text Paths Messages Hash Json Keys Store Bolt Bdb BdbTx Ds Service Instances DsFacts.
From S2P Require Import Writer Importer Exporter Model Policies Adl Authn Config Transfer Archive TestRunner JsonFiles Urls Cli.

(** ** The data *)

Record tmplRef := MkRef {
  Title : string; ShortDescription : string; Description : string; ref_URL : string; DocumentationURL : string;
  absURL : option URL }.
Definition set_absURL (u : option URL) (r : tmplRef) : tmplRef :=
  MkRef (Title r) (ShortDescription r) (Description r) (ref_URL r) (DocumentationURL r) u.

Record policy_asset := MkPolicyAsset { pol_Name : string; pol_Resource : string; pol_Local : bool }.
Record assets := MkAssets {
  Manifest : string; Policy : policy_asset; IdentityData : list string; DomainData : list string; Assertions : list string }.
Record template := MkTemplate { tmpl_Name : string; tmpl_Description : string; Assets : assets; base : URL }.
Definition set_tmpl_Name (name : string) (t : template) : template :=
  MkTemplate name (tmpl_Description t) (Assets t) (base t).

Definition nil_dereference : err := new_error "panic: invalid memory address or nil pointer dereference".

(** The network and [encoding/json] into the types above; a template is decoded over its [base]. *)
Class Web := {
  (** the status and the body, or the failure to read it *)
  http_Get : string -> res (Z * res string);
  decode_catalog : string -> res (gmap string (option tmplRef));
  decode_template : URL -> string -> res template;
  (** decoding into [map[string]any] *)
  decode_object : string -> option err;
  decode_assertions : string -> res (list (res struct_));
  (** the iteration order of a catalog *)
  range_catalog : gmap string (option tmplRef) -> list (string * option tmplRef);
  (** the folders that a path with meta characters stands for *)
  glob_dirs : string -> disk -> list string }.

(** ** [template.go] *)

Section Template.
Context `{D : Disk} `{Web}.

Definition AbsURL (t : template) (relative : string) : string :=
  url_String (set_Path (filepath_Join [Path (base t); relative]) (base t)).

(** [exists, _ := config.FileExists(path)] *)
Definition file_exists (path : string) (d : disk) : bool := match FileExists path d with Ok b => b | Fail _ => false end.

(** The status is not looked at. *)
Definition getBytes (fileURL : string) (d : disk) : res string :=
  if file_exists fileURL d then read_file fileURL d
  else rbind (http_Get fileURL) (fun resp => resp.2).

Definition download (src dir : string) : M disk string :=
  let! buf := reads (getBytes src) in
  do! MkdirAll dir;
  let file := filepath_Join [dir; filepath_Base src] in
  do! WriteFile file buf;
  ret file.

Definition getCatalog (templatesURL : string) (d : disk) : res (gmap string (option tmplRef)) :=
  rbind (getBytes templatesURL d) decode_catalog.

(** Only a URL without a scheme becomes absolute; a null entry of the catalog is a nil pointer. *)
Definition getTemplateRef (name : string) (templatesURL : URL) (d : disk) : res tmplRef :=
  rbind (getCatalog (url_String templatesURL) d) (fun list =>
  match list !! name with
  | None => Fail (DErr "ErrNotFound" ["template " +:+ name])
  | Some None => Fail nil_dereference
  | Some (Some ref) =>
      rmap (fun parsed =>
        if String.eqb (Scheme parsed) "" then
          set_absURL (Some (set_Path (filepath_Join [filepath_Dir (Path templatesURL); Path parsed]) templatesURL)) ref
        else ref) (url_Parse (ref_URL ref))
  end).

Definition getTemplateFromFile (file : string) (d : disk) : res template :=
  rbind (read_file file d) (decode_template (path_URL (filepath_Dir file))).
Definition GetTemplateFromFile : string -> disk -> res template := getTemplateFromFile.

(** The manifest and the data lose the folder of the template as a prefix; the assertions do not. *)
Definition trim_assets (prefix : string) (a : assets) : assets :=
  MkAssets (TrimPrefix (Manifest a) prefix) (Policy a) ((fun v => TrimPrefix v prefix) <$> IdentityData a)
    ((fun v => TrimPrefix v prefix) <$> DomainData a) (Assertions a).
Definition ref_getTemplate (i : tmplRef) (d : disk) : res template :=
  match absURL i with
  | None => Fail nil_dereference
  | Some u =>
      rbind (getBytes (url_String u) d) (fun buf =>
      let base := set_Path (filepath_Dir (Path u)) u in
      rmap (fun t => MkTemplate (tmpl_Name t) (tmpl_Description t) (trim_assets (Path base) (Assets t)) base)
        (decode_template base buf))
  end.

Definition getTemplate (name templatesURL : string) (d : disk) : res template :=
  if file_exists name d then getTemplateFromFile name d
  else
    rbind (url_Parse templatesURL) (fun tmplURL =>
    rbind (getTemplateRef name tmplURL d) (fun ref =>
    rmap (set_tmpl_Name name) (ref_getTemplate ref d))).

(** ** [list.go], [download.go] *)

Definition TopazTmplV32URL : string := "https://topaz.sh/assets/templates/templates-v32.json".
Definition templates_url (Legacy : bool) (TemplatesURL : string) : string := if Legacy then TopazTmplV32URL else TemplatesURL.

(** The rows of the table. *)
Fixpoint list_rows (ctlg : list (string * option tmplRef)) : res (list (list string)) :=
  match ctlg with
  | [] => Ok []
  | (_, None) :: _ => Fail nil_dereference
  | (n, Some t) :: ctlg => rmap (cons [n; ShortDescription t; DocumentationURL t]) (list_rows ctlg)
  end.
Definition ListTemplatesCmd_Run (Legacy : bool) (TemplatesURL : string) (d : disk) : res (list (list string)) :=
  rbind (getCatalog (templates_url Legacy TemplatesURL) d) (fun ctlg => list_rows (range_catalog ctlg)).

(** What is printed: the files, in order. *)
Fixpoint download_all (t : template) (dir : string) (urls : list string) : M disk (list string) :=
  match urls with
  | [] => ret []
  | u :: urls =>
      let! s := download (AbsURL t u) dir in
      let! l := download_all t dir urls in
      ret (s :: l)
  end.

Section Folders.
Context `{E : Env}.

(** The folders of a template under its name: [model], [data], [assertions]. *)
Definition template_folder (name part : string) : string := filepath_Join [GetEameraldTemplateDir; name; part].

Definition DownloadTemplateCmd_Run (Name : string) (Legacy : bool) (TemplatesURL ConfigName : string) : M disk (list string) :=
  let ConfigName := if String.eqb ConfigName "" then Name else ConfigName in
  if negb (String.eqb ConfigName "") && negb (restricted_name ConfigName) then
    fail (new_error (Name +:+ " name must match pattern"))
  else
    let TemplatesURL := templates_url Legacy TemplatesURL in
    let! catalog := reads (getCatalog TemplatesURL) in
    match catalog !! Name with
    | None => fail (new_error ("template " +:+ Name +:+ " not found"))
    | Some _ =>
        let! tmpl := reads (getTemplate Name TemplatesURL) in
        let! manifest := download (AbsURL tmpl (Manifest (Assets tmpl))) (template_folder ConfigName "model") in
        let! identity := download_all tmpl (template_folder ConfigName "data") (IdentityData (Assets tmpl)) in
        let! domain := download_all tmpl (template_folder ConfigName "data") (DomainData (Assets tmpl)) in
        let! assertions := download_all tmpl (template_folder ConfigName "assertions") (Assertions (Assets tmpl)) in
        ret (manifest :: identity ++ domain ++ assertions)
    end.
End Folders.

(** ** [verify.go] *)

Record valid := MkValid { v_exists : bool; v_parsed : bool; v_err : option err }.
Definition validated {B} (parse : string -> res B) (absURL : string) (d : disk) : valid :=
  match getBytes absURL d with
  | Fail e => MkValid false false (Some e)
  | Ok b => match parse b with Fail e => MkValid true false (Some e) | Ok _ => MkValid true true None end
  end.
Definition validateJSON : string -> disk -> valid :=
  validated (fun b => match decode_object b with Some e => Fail e | None => Ok tt end).

Context {model : Type} `{A : Azm model}.
Definition validateManifest : string -> disk -> valid := validated manifest_Load.

Definition verify_template (tmpl : template) (d : disk) : list (string * valid) :=
  let row check url := (AbsURL tmpl url, check (AbsURL tmpl url) d) in
  row validateManifest (Manifest (Assets tmpl)) ::
  (row validateJSON <$> Assertions (Assets tmpl) ++ IdentityData (Assets tmpl) ++ DomainData (Assets tmpl)).
Fixpoint verify_all (Name TemplatesURL : string) (catalog : list (string * option tmplRef)) (d : disk)
  : res (list (string * string * valid)) :=
  match catalog with
  | [] => Ok []
  | (tmplName, _) :: catalog =>
      if negb (String.eqb Name "") && negb (String.eqb tmplName Name) then verify_all Name TemplatesURL catalog d
      else rbind (getTemplate tmplName TemplatesURL d) (fun tmpl =>
           rmap (app ((fun r => (tmplName, r.1, r.2)) <$> verify_template tmpl d)) (verify_all Name TemplatesURL catalog d))
  end.
Definition VerifyTemplateCmd_Run (Name : string) (Legacy : bool) (TemplatesURL : string) (d : disk)
  : res (list (string * string * valid)) :=
  let TemplatesURL := templates_url Legacy TemplatesURL in
  rbind (getCatalog TemplatesURL d) (fun catalog => verify_all Name TemplatesURL (range_catalog catalog) d).
End Template.

(** ** The commands on a directory *)

Section Commands.
Context {model : Type} {T : TxOps model} {A : Azm model} {C : @StoreOps model T} {V : Validator} {P : ModelParams model}.
Context `{E : Env} {dstate : Type} `{K : Docker dstate} `{D : Disk} `{Wb : Web} `{J : PbJson} `{CL : Clients}.
Abbreviation srv := (@server model T A).
Abbreviation W := (world dstate).

Record site := MkSite { s_world : W; s_srv : srv }.
Definition on_world {B} (m : M W B) : M site B := fun s =>
  let '(r, w) := m (s_world s) in (r, MkSite w (s_srv s)).
Definition on_files {B} (m : M disk B) : M site B := on_world (on_disk m).
Definition on_server (f : srv -> option err * srv) : M site unit := fun s =>
  let '(e, srv) := f (s_srv s) in (match e with Some e => Fail e | None => Ok tt end, MkSite (s_world s) srv).
Definition reads_files {B} (f : disk -> res B) : M site B := reads (fun s => f (w_disk (s_world s))).

(** Of the calls of a client: the check of the server by reflection, the connection, the outcomes of the sends on
    either end, the clock, and what an import that is cancelled had read. *)
Context (Validate NewClient : string -> option err) (open_err : string -> option err).
Context (cli_send dst_send : nat -> option err) (clock : nat -> Timestamp) (object_first : bool) (seen : nat).
Context (ts_delete ts_set : Timestamp) (withBody withModel : bool) (src_send : nat -> option err).

Definition connected {B} (command : string) (m : M site B) : M site B :=
  do! guard (Validate command); do! guard (NewClient command); m.

(** *** [mrld/cmd/directory/manifest.go] *)

Definition Client_DeleteManifest (s : srv) : option err * srv :=
  let '(r, s) := Model_DeleteManifest unconditional ts_delete s in (match r with Ok _ => None | Fail e => Some e end, s).
Definition DeleteManifestCmd_Run (Force prompt : bool) : M site unit :=
  connected "delete manifest" (if Force || prompt then on_server Client_DeleteManifest else ret tt).

(** [os.Open]: a folder is opened, and cannot be read. *)
Definition open_file (path : string) (d : disk) : res (list (string * option read_end)) :=
  match open_err path, d !! path with
  | Some e, _ => Fail e
  | None, None => Fail (new_error ("open " +:+ path +:+ ": no such file or directory"))
  | None, Some Folder => Ok [("", Some (ReadErr (new_error ("read " +:+ path +:+ ": is a directory"))))]
  | None, Some (File text) => Ok (bytes_Reader text)
  end.
Definition SetManifestCmd_Run (stdin : string) (file : string) : M site unit :=
  connected "set manifest"
    (let! r := reads_files (fun d => if nonempty file then open_file file d else Ok (bytes_Reader stdin)) in
     on_server (SetManifest cli_send ts_set r)).

(** What is printed, where no file is named. *)
Definition GetManifestCmd_Run (file : string) : M site (option string) :=
  connected "get manifest"
    (let! text := reads (fun s =>
       let '(msgs, e) := stream_of (Model_GetManifest src_send unconditional withBody withModel (srv_tx (s_srv s)) []) in
       GetManifest msgs e) in
     if nonempty file then do! on_files (WriteFile file text); ret None else ret (Some text)).

(** *** [mrld/cmd/directory/data/import.go] *)

(** The files as the importer opens them: reading a folder gives no value, like an empty file. *)
Definition files_of (d : disk) : files := (fun n => match n with File s => s | Folder => "" end) <$> d.

(** [filepath.Glob(filepath.Join(dir, "*.json"))]: the entries of the folder, by name. *)
Definition HasSuffix (s suffix : string) : bool :=
  (String.length suffix <=? String.length s) &&
  String.eqb (String.substring (String.length s - String.length suffix) (String.length suffix) s) suffix.
Definition hasMeta (path : string) : bool :=
  contains "*" path || contains "?" path || contains "[" path || contains "\" path.
Definition in_folder (dir : string) (d : disk) : list string :=
  slices_Sort (List.filter (fun p => String.eqb p (filepath_Join [dir; filepath_Base p])) (map_to_list d).*1).
Definition glob_json (dir : string) (d : disk) : list string := List.filter (fun p => HasSuffix p ".json") (in_folder dir d).
Definition Glob (dir : string) (d : disk) : list string :=
  let dir := filepath_Clean dir in
  if hasMeta dir then concat ((fun dir => glob_json dir d) <$> glob_dirs dir d) else glob_json dir d.

Definition data_files (Directory : string) (d : disk) : res (list string) :=
  match os_Stat Directory d with
  | NotExist => Fail (new_error ("stat " +:+ Directory +:+ ": no such file or directory"))
  | StatError e => Fail e
  | Found (File _) => Fail (new_error ("--directory argument " +:+ Directory +:+ " is not a directory"))
  | Found Folder => Ok (Glob Directory d)
  end.
Definition ImportCmd_Run (Directory : string) : M site unit :=
  do! guard (Validate ("import " +:+ Directory));
  let! names := reads_files (data_files Directory) in
  do! guard (NewClient ("import " +:+ Directory));
  fun s => on_server (Client_Import open_err cli_send dst_send clock object_first seen (files_of (w_disk (s_world s))) names) s.

(** ** The installer: [install.go] *)

Record tmplInstaller := MkInstaller { i_tmpl : template; i_dir : string; i_customName : string }.
Definition i_name (i : tmplInstaller) : string := if nonempty (i_customName i) then i_customName i else tmpl_Name (i_tmpl i).
Definition i_folder (i : tmplInstaller) (part : string) : string := filepath_Join [i_dir i; i_name i; part].

Definition i_deleteManifest : M site unit := DeleteManifestCmd_Run true false.

(** A file on the disk is used as it is, another asset is downloaded first. *)
Definition local_or_downloaded (url dir : string) : M disk string := fun d =>
  if file_exists url d then (Ok url, d) else download url dir d.
Definition i_setManifest (stdin : string) (i : tmplInstaller) : M site unit :=
  let! manifest := on_files (local_or_downloaded (AbsURL (i_tmpl i) (Manifest (Assets (i_tmpl i)))) (i_folder i "model")) in
  SetManifestCmd_Run stdin manifest.

Fixpoint data_dirs (t : template) (defaultDataDir : string) (vs : list string) (dirs : gset string) : M disk (gset string) :=
  match vs with
  | [] => ret dirs
  | v :: vs =>
      let dataURL := AbsURL t v in
      let! local := reads (fun d => Ok (file_exists dataURL d)) in
      if local : bool then data_dirs t defaultDataDir vs ({[filepath_Dir dataURL]} ∪ dirs)
      else do! download dataURL defaultDataDir; data_dirs t defaultDataDir vs ({[defaultDataDir]} ∪ dirs)
  end.
(** The folders are imported in the order of the map. *)
Definition i_importData (i : tmplInstaller) : M site unit :=
  let a := Assets (i_tmpl i) in
  let! dirs := on_files (data_dirs (i_tmpl i) (i_folder i "data") (IdentityData a ++ DomainData a) ∅) in
  for_each ImportCmd_Run (slice_of dirs).

Definition Install (stdin : string) (i : tmplInstaller) : M site unit :=
  do! i_deleteManifest; do! i_setManifest stdin i; i_importData i.

Fixpoint test_files (t : template) (assertionsDir : string) (vs : list string) : M disk (list string) :=
  match vs with
  | [] => ret []
  | v :: vs =>
      let! file := local_or_downloaded (AbsURL t v) assertionsDir in
      let! files := test_files t assertionsDir vs in
      ret (file :: files)
  end.

(** [NewTestRunner] and [Run]; the clients answer as they do for the run. *)
Context (runner : res TestRunner) (orders : nat -> list (string * CheckType)).
Definition test_cmd : TestExecCmd := MkTestCmd "table" "on-error".
Definition open_test (d : disk) (file : string) : res (res (list (res struct_))) :=
  rmap (fun r => match r with
                 | [(_, Some (ReadErr e))] => Fail e
                 | _ => decode_assertions (default "" (files_of d !! file))
                 end) (open_file file d).
Definition run_tests (tests : list string) : M site unit :=
  let! runner := lift runner in
  let! opened := reads_files (fun d => Ok (open_test d <$> tests)) in
  match TestRunner.Run runner orders test_cmd opened with
  | Returned None => ret tt
  | Returned (Some e) => fail e
  | Panicked what => fail (new_error ("panic: " +:+ what))
  end.
Definition runTemplateTests (i : tmplInstaller) : M site unit :=
  let! tests := on_files (test_files (i_tmpl i) (i_folder i "assertions") (Assertions (Assets (i_tmpl i)))) in
  run_tests tests.

(** ** [apply.go] *)

Definition DirExists (path : string) (d : disk) : bool := match os_Stat path d with Found Folder => true | _ => false end.
Definition fs_FileExists (path : string) (d : disk) : bool := match os_Stat path d with Found (File _) => true | _ => false end.
Definition require_dir (path : string) : M site unit :=
  reads_files (fun d => if DirExists path d then Ok tt else Fail (new_error ("directory " +:+ path +:+ " does not exist"))).

Definition apply_setManifest (stdin Name : string) : M site unit :=
  let manifestDir := template_folder Name "model" in
  do! require_dir manifestDir;
  let manifest := filepath_Join [manifestDir; "manifest.yaml"] in
  do! reads_files (fun d => if fs_FileExists manifest d then Ok tt else Fail (new_error ("file " +:+ manifest +:+ " does not exist")));
  SetManifestCmd_Run stdin manifest.
Definition apply_importData (Name : string) : M site unit :=
  let dataDir := template_folder Name "data" in
  do! require_dir dataDir; ImportCmd_Run dataDir.
(** [os.ReadDir]: the entries by name, less the folders. *)
Definition apply_execAssertions (Name : string) : M site unit :=
  let assertionsDir := template_folder Name "assertions" in
  do! require_dir assertionsDir;
  let! tests := reads_files (fun d => Ok (List.filter (fun p => negb (bool_decide (d !! p = Some Folder))) (in_folder assertionsDir d))) in
  run_tests tests.
Definition ApplyTemplateCmd_Run (stdin Name : string) (Force prompt : bool) : M site unit :=
  do! require_dir (filepath_Join [GetEameraldTemplateDir; Name]);
  if negb Force && negb prompt then ret tt
  else
    do! DeleteManifestCmd_Run true false;
    do! apply_setManifest stdin Name;
    do! apply_importData Name;
    apply_execAssertions Name.

(** ** [eamerald templates install] *)

Context (json_Marshal : CliConfig -> res string) (probe : string -> list PortStatus) (LocalPolicyImage : Config -> string).
Context (ParseDockerRef : string -> option (string * string * option string)) (Execute : template_kind -> Generator -> res string).
(** The health service at an address: the connection, and its answers until the timeout; the directory that is
    served at an address once the daemon is up; and what opening the console returns. *)
Context (health : string -> option err * list (res string)) (served : W -> string -> srv) (console : string -> option err).

Record InstallTemplateCmd := MkInstall {
  in_Name : string; in_Force : bool; in_NoConfigure : bool; in_NoTests : bool; in_NoConsole : bool; in_Legacy : bool;
  in_Registry : string; in_Image : string; in_Tag : string; in_Platform : string; in_ContainerName : string; in_Hostname : string;
  in_TemplatesURL : string; in_Version : string; in_ConfigName : string }.

Definition ConsoleCmd_Run (ConsoleAddress : string) : option err :=
  let a := if HasSuffix ConsoleAddress "/ui/directory" then ConsoleAddress else ConsoleAddress +:+ "/ui/directory" in
  console (if HasPrefix a "https://" then a else "https://" +:+ a).

Definition prepareEamerald (cmd : InstallTemplateCmd) (containerName tag : string) (tmpl : template) (customName : string) : M W unit :=
  do! StopCmd_Run json_Marshal probe "eamerald*" true;
  let policy := Policy (Assets tmpl) in
  let name := if nonempty customName then customName else pol_Name policy in
  do! (if in_NoConfigure cmd then ret None
       else NewConfigCmd_Run ParseDockerRef Execute false
              (MkNewConfig name (pol_Resource policy) (if pol_Local policy then FromLocal else FromRemote) "" false false true));
  do! UseConfigCmd_Run json_Marshal name GetEameraldCfgDir;
  StartCmd_Run json_Marshal probe LocalPolicyImage
    (MkStartRun (in_Registry cmd) (in_Image cmd) tag (in_Platform cmd) containerName (in_Hostname cmd) []) true.

(** A configuration that cannot be read is a nil pointer; a service that is not healthy in time ends the command
    without an error. *)
Definition Cmd_installTemplate (stdin : string) (cmd : InstallTemplateCmd) (containerName tag : string) (tmpl : template) : M site unit :=
  do! on_world (prepareEamerald cmd containerName tag tmpl (in_ConfigName cmd));
  let! file := reads (fun s => Ok (act_ConfigFile (Active (w_cfg (s_world s))))) in
  let! activeConfig := reads (fun s => match load_config file (s_world s) with Ok c => Ok c | Fail _ => Fail nil_dereference end) in
  let '(connect, answers) := health (Health_ListenAddress activeConfig) in
  match ServiceHealthStatus connect answers "model" with
  | Fail e => fail (Errorf "unable to check health status" e)
  | Ok false => ret tt
  | Ok true =>
      match cfg_Services activeConfig !! "model" with
      | None => fail (new_error "model service not configured")
      | Some api =>
          let i := MkInstaller tmpl GetEameraldTemplateDir (in_ConfigName cmd) in
          do! (fun s => (Ok tt, MkSite (s_world s) (served (s_world s) (grpc_ListenAddress (api_GRPC api)))));
          do! Install stdin i;
          do! (if in_NoTests cmd then ret tt else runTemplateTests i);
          if in_NoConsole cmd then ret tt else guard (ConsoleCmd_Run "https://localhost:8080/ui/directory")
      end
  end.

Definition InstallTemplateCmd_Run (stdin : string) (prompt : bool) (cmd : InstallTemplateCmd) : M site unit :=
  let tag := ContainerVersionTag (in_Version cmd) (in_Tag cmd) in
  let! tmpl := reads_files (getTemplate (in_Name cmd) (templates_url (in_Legacy cmd) (in_TemplatesURL cmd))) in
  if negb (in_Force cmd) && negb prompt then ret tt
  else
    let set_name name := on_world (set_cfg (fun c => set_Active (MkActive name (act_ConfigFile (Active c))) c)) in
    do! set_name (tmpl_Name tmpl);
    do! (if nonempty (in_ConfigName cmd) then
           if restricted_name (in_ConfigName cmd) then set_name (in_ConfigName cmd)
           else fail (new_error (in_Name cmd +:+ " must match pattern"))
         else ret tt);
    let fileName := (if nonempty (in_ConfigName cmd) then in_ConfigName cmd else tmpl_Name tmpl) +:+ ".yaml" in
    let configFile := filepath_Join [GetEameraldCfgDir; fileName] in
    let containerName := ContainerName configFile in
    do! on_world (set_cfg (fun c =>
           let active := MkActive (act_Config (Active c)) configFile in
           set_Running (MkRunning active containerName) (set_Active active c)));
    do! on_files (fun d => match os_Stat GetEameraldDir d with NotExist => MkdirAll GetEameraldDir d | _ => (Ok tt, d) end);
    let! bytes := reads (fun s => json_Marshal (w_cfg (s_world s))) in
    do! on_files (WriteFile context_file bytes);
    Cmd_installTemplate stdin cmd containerName tag tmpl.
End Commands.

(** ** Fetching *)

Section FetchFacts.
Context `{D : Disk} `{Wb : Web}.

(** What is stored is what was read, from the disk or from the network. *)
Lemma download_ok src dir d file d' : download src dir d = (Ok file, d') ->
  exists text, getBytes src d = Ok text /\ file = filepath_Join [dir; filepath_Base src] /\
    d' = <[file := File text]> (<[dir := Folder]> d) /\ file <> "".
Proof.
  unfold download. intros [(text & d0 & Ht & H)|(e & _ & [=])]%bind_inv. unfold reads in Ht. injection Ht as Ht <-.
  apply bind_inv in H as [([] & d1 & H1 & H)|(e & _ & [=])].
  apply bind_inv in H as [([] & d2 & H2 & H)|(e & _ & [=])]. injection H as <- <-. apply WriteFile_ok in H2 as [Hne ->].
  exists text. split_and!; try done. f_equal. unfold MkdirAll in H1. repeat case_match; congruence.
Qed.

Lemma file_exists_text path d : file_exists path d = true -> path <> "" /\
  exists text, read_file path d = Ok text /\ d !! path = Some (File text).
Proof.
  unfold file_exists, FileExists, read_file, os_Stat. destruct (String.eqb_spec path ""); [done|].
  destruct (stat_error path); [done|]. destruct (d !! path) as [[|text]|]; [done| |done]. intros _. split; [done|]. by exists text.
Qed.

Lemma local_text url dir d file d' : local_or_downloaded url dir d = (Ok file, d') ->
  file <> "" /\ exists text, getBytes url d = Ok text /\ d' !! file = Some (File text).
Proof.
  unfold local_or_downloaded. destruct (file_exists url d) eqn:Ex.
  - intros [= <- <-]. destruct (file_exists_text _ _ Ex) as (Hne & text & Hr & Hl). split; [done|]. exists text.
    unfold getBytes. by rewrite Ex.
  - intros (text & Ht & Hf & Hd & Hne)%download_ok. split; [done|]. exists text. subst d'. by rewrite lookup_insert_eq.
Qed.

Definition is_file (d : disk) (path : string) : Prop := exists text, d !! path = Some (File text).

Lemma download_keeps src dir d file d' path : download src dir d = (Ok file, d') -> is_file d path -> is_file d' path.
Proof.
  intros H [text Hp]. assert (dir <> path).
  { intros ->. unfold download, MkdirAll in H. apply bind_inv in H as [(buf & d0 & [= _ <-] & H)|(e & _ & [=])].
    apply bind_inv in H as [([] & d1 & H1 & _)|(e & _ & [=])]. rewrite Hp in H1. by destruct (mkdir_error path). }
  apply download_ok in H as (text' & _ & _ & -> & _). destruct (decide (file = path)) as [->|].
  - exists text'. by rewrite lookup_insert_eq.
  - exists text. by rewrite !lookup_insert_ne.
Qed.
Lemma download_file src dir d file d' : download src dir d = (Ok file, d') -> is_file d' file.
Proof. intros (text & _ & _ & -> & _)%download_ok. exists text. by rewrite lookup_insert_eq. Qed.

Lemma download_all_files t dir urls : forall d l d', download_all t dir urls d = (Ok l, d') ->
  l = (fun u => filepath_Join [dir; filepath_Base (AbsURL t u)]) <$> urls /\ Forall (is_file d') l /\
  forall path, is_file d path -> is_file d' path.
Proof.
  induction urls as [|u urls IH]; intros d l d'; cbn [download_all]; [by intros [= <- <-]|].
  intros [(s & d1 & H1 & H)|(e & _ & [=])]%bind_inv. apply bind_inv in H as [(l' & d2 & H2 & H)|(e & _ & [=])].
  injection H as <- <-. destruct (IH _ _ _ H2) as (-> & Hl & Hk). split_and!.
  - apply download_ok in H1 as (text & _ & -> & _). done.
  - constructor; [|done]. by eapply Hk, download_file.
  - intros path Hp. by eapply Hk, download_keeps.
Qed.

(** A download that succeeds has a file for every asset of the template, in the folder of its kind. *)
Theorem download_complete `{E : Env} Name Legacy url ConfigName d l d' :
  DownloadTemplateCmd_Run Name Legacy url ConfigName d = (Ok l, d') ->
  exists t name, getTemplate Name (templates_url Legacy url) d = Ok t /\
    let stored part v := filepath_Join [template_folder name part; filepath_Base (AbsURL t v)] in
    l = stored "model" (Manifest (Assets t)) :: (stored "data" <$> IdentityData (Assets t) ++ DomainData (Assets t)) ++
        (stored "assertions" <$> Assertions (Assets t)) /\ Forall (is_file d') l.
Proof.
  unfold DownloadTemplateCmd_Run. set (name := if String.eqb ConfigName "" then Name else ConfigName).
  destruct (negb _ && negb _); [done|]. intros [(catalog & d0 & [= _ <-] & H)|(e & _ & [=])]%bind_inv.
  destruct (catalog !! Name); [|done]. apply bind_inv in H as [(t & d0 & Ht & H)|(e & _ & [=])].
  unfold reads in Ht. injection Ht as Ht <-. apply bind_inv in H as [(f & d1 & H1 & H)|(e & _ & [=])].
  apply bind_inv in H as [(l1 & d2 & H2 & H)|(e & _ & [=])]. apply bind_inv in H as [(l2 & d3 & H3 & H)|(e & _ & [=])].
  apply bind_inv in H as [(l3 & d4 & H4 & H)|(e & _ & [=])]. injection H as <- <-.
  apply download_all_files in H2 as (-> & F2 & K2), H3 as (-> & F3 & K3), H4 as (-> & F4 & K4).
  exists t, name. split; [done|]. split.
  - apply download_ok in H1 as (text & _ & -> & _). by rewrite fmap_app, app_assoc.
  - constructor; [by eapply K4, K3, K2, download_file|]. apply Forall_app. split; [|apply Forall_app; split; [|done]].
    + eapply Forall_impl; [exact F2|]. auto.
    + eapply Forall_impl; [exact F3|]. auto.
Qed.

(** Any answer counts: a page that says that there is no such file is reported as the file. *)
Theorem status_ignored {B} (parse : string -> res B) src status body d :
  file_exists src d = false -> http_Get src = Ok (status, Ok body) -> v_exists (validated parse src d) = true.
Proof. intros Hf Hg. unfold validated, getBytes. rewrite Hf, Hg. simpl. by destruct (parse body). Qed.

(** A template that the catalog refers to by an absolute URL is never fetched: the command panics. *)
Theorem absolute_url_panics name url catalog_url ref u list d :
  file_exists name d = false -> url_Parse url = Ok catalog_url -> getCatalog (url_String catalog_url) d = Ok list ->
  list !! name = Some (Some ref) -> absURL ref = None -> url_Parse (ref_URL ref) = Ok u -> Scheme u <> "" ->
  getTemplate name url d = Fail nil_dereference.
Proof.
  intros Hf Hu Hc Hl Ha Hp Hs. unfold getTemplate. rewrite Hf, Hu. simpl. unfold getTemplateRef. rewrite Hc. simpl.
  rewrite Hl, Hp. simpl. destruct (String.eqb_spec (Scheme u) ""); [done|]. unfold ref_getTemplate. by rewrite Ha.
Qed.

(** The assets of a template on the disk are looked up under their escaped paths: a file whose path has a
    character that is escaped is not found, and fetched from the network instead. *)
Theorem local_asset_escaped t dir v d :
  base t = path_URL dir -> HasPrefix (filepath_Join [dir; v]) "/" = true ->
  AbsURL t v = escape (filepath_Join [dir; v]) encodePath /\
  (d !! escape (filepath_Join [dir; v]) encodePath = None ->
   getBytes (AbsURL t v) d = rbind (http_Get (escape (filepath_Join [dir; v]) encodePath)) snd).
Proof.
  intros Hb Hp. assert (Ea : AbsURL t v = escape (filepath_Join [dir; v]) encodePath).
  { unfold AbsURL. rewrite Hb. by apply path_String. }
  split; [done|]. rewrite Ea. intros Hl. unfold getBytes. set (p := escape _ _) in *.
  assert (file_exists p d = false) as ->; [|done].
  destruct (file_exists p d) eqn:Ex; [|done]. destruct (file_exists_text _ _ Ex) as (_ & text & _ & Hl'). congruence.
Qed.
Lemma data_dirs_spec t default_dir vs : forall dirs d dirs' d',
  data_dirs t default_dir vs dirs d = (Ok dirs', d') ->
  forall dir, dir ∈ dirs' -> dir ∈ dirs \/ dir = default_dir \/ exists v, v ∈ vs /\ dir = filepath_Dir (AbsURL t v).
Proof.
  induction vs as [|v vs IH]; intros dirs d dirs' d'; cbn [data_dirs]; [intros [= <- <-]; by left|].
  cbn [bind reads]. destruct (file_exists (AbsURL t v) d).
  - intros H dir [Hin|[?|(v' & ? & ->)]]%(IH _ _ _ _ H); [|set_solver..].
    apply elem_of_union in Hin as [->%elem_of_singleton|?]; [right; right; exists v; split; [left|done]|by left].
  - intros [(f & d1 & _ & H)|(e & _ & [=])]%bind_inv dir [Hin|[?|(v' & ? & ->)]]%(IH _ _ _ _ H); set_solver.
Qed.

End FetchFacts.

(** ** What an import leaves *)

(** What holds of the request for every message that decodes holds of every request that is sent. *)
Section All.
Context `{J : PbJson} (open_err : string -> option err) (cli_send : nat -> option err) (Q : ImportRequest -> Prop).

Lemma Read_decoded {B} (unmarshal : string -> res B) r m r' :
  Read unmarshal r = (inr m, r') -> exists s, unmarshal s = Ok m.
Proof.
  unfold Read. destruct (Decode _) as [[|raw] d]. { repeat case_match; naive_solver. }
  destruct (unmarshal raw) eqn:E; repeat case_match; naive_solver.
Qed.
Lemma load_loop_all {B} (unmarshal : string -> res B) request :
  (forall s m, unmarshal s = Ok m -> Q (request m)) -> forall fuel r sent reqs e,
  Forall Q sent -> load_loop cli_send unmarshal request fuel r sent = (reqs, e) -> Forall Q reqs.
Proof.
  intros HQ. induction fuel as [|fuel IH]; intros r sent reqs e Hs; cbn [load_loop]; [by intros [= <- _]|].
  destruct (Read unmarshal r) as [[[|e']|m] r'] eqn:Er.
  - by intros [= <- _].
  - case_match; [by apply IH|by intros [= <- _]].
  - apply Read_decoded in Er as [text Er]. case_match; [by intros [= <- _]|]. apply IH. apply Forall_app. split; [done|].
    repeat constructor. by eapply HQ.
Qed.

Context (Hobject : forall s o, pb_object s = Ok o -> Q (request_of (EntryObject o))).
Context (Hrelation : forall s r, pb_relation s = Ok r -> Q (request_of (EntryRelation r))).
Lemma importFile_all fs file sent reqs e :
  Forall Q sent -> importFile cli_send open_err fs file sent = (reqs, e) -> Forall Q reqs.
Proof.
  intros Hs. unfold importFile, loadObjects, loadRelations. destruct (os_Open _ _ _); [|by intros [= <- _]].
  destruct (NewReader _ _) as [|reader]; [by intros [= <- _]|].
  repeat case_match; [by apply load_loop_all|by apply load_loop_all|by intros [= <- _]].
Qed.
Lemma importHandler_all fs names : forall sent reqs e,
  Forall Q sent -> importHandler cli_send open_err fs names sent = (reqs, e) -> Forall Q reqs.
Proof.
  induction names as [|file names IH]; intros sent reqs e Hs; cbn [importHandler]; [by intros [= <- _]|].
  destruct (importFile _ _ _ _ _) as [sent1 [e1|]] eqn:E; apply importFile_all in E; try done; [by intros [= <- _]|].
  by apply IH.
Qed.
End All.

Section ImportFacts.
Context {model : Type} {T : TxOps model} {A : Azm model} {C : @StoreOps model T} {V : Validator} `{J : PbJson}.
Context {L : @TxLaws model T} {AL : AzmLaws model A}.
Context (open_err : string -> option err) (cli_send dst_send : nat -> option err).
Context (clock : nat -> Timestamp) (object_first : bool) (seen : nat).


Definition entries_only (reqs : list ImportRequest) : Prop := Forall (fun req => exists x, req = request_of x) reqs.
Lemma entries_requests reqs : entries_only reqs -> exists xs, reqs = request_of <$> xs.
Proof. induction 1 as [|req reqs [x ->] _ [xs ->]]; [by exists []|]. by exists (x :: xs). Qed.

(** A key that an import left is one that was there, or that of an entry it was sent. *)
Definition has_key (d : directory model) (k : (string * string) + RelationIdentifier) : Prop :=
  match k with inl o => is_Some (d_objs d !! o) | inr r => is_Some (d_rels d !! r) end.

Lemma writes_keys d xs d' k : writes d xs d' -> has_key d' k -> has_key d k \/ k ∈ entry_key <$> xs.
Proof.
  induction 1 as [d|d ts x call reply d1 xs d' Hc Hs Hw IH]; [by left|]. intros [H|H]%IH; [|right; by right].
  destruct x as [o|r]; simpl in Hc; injection Hc as <-; inversion Hs; subst; try (by left);
    destruct k as [k|k]; simpl in *; try (by left).
  - destruct (decide (k = (o_type o, o_id o))) as [->|]; [right; left|left; by rewrite lookup_insert_ne in H].
  - destruct (decide (k = r_ident r)) as [->|]; [right; left|left; by rewrite lookup_insert_ne in H].
Qed.

Lemma Import_keys mc xs t w t' d :
  (forall n, dst_send n = None) -> repr t d -> Forall wf_request (request_of <$> xs) ->
  Import dst_send mc object_first (events clock (request_of <$> xs)) t = (Ok w, t') ->
  exists d', repr t' d' /\ d_body d' = d_body d /\ forall k, has_key d' k -> has_key d k \/ k ∈ entry_key <$> xs.
Proof.
  intros Hs Hr Hwf. unfold Import, Batch. set (w0 := MkImportState _ _ _).
  pose proof (import_loop_sends_ok dst_send mc object_first (pending w0) w0 t Hs) as Hok.
  destruct (import_loop _ _ _ _ _) as [r [w1 t1]] eqn:El. simpl in Hok. subst r.
  assert (Hev : Forall wf_event (events clock (request_of <$> xs))).
  { apply Forall_forall. intros ev Hin. unfold events in Hin. apply elem_of_lookup_imap in Hin as (i & req & -> & Hreq).
    rewrite Forall_forall in Hwf. apply Hwf. by eapply list_elem_of_lookup_2. }
  destruct (import_loop_trace _ _ _ _ _ _ _ _ _ _ Hr Hev El) as (d' & Hr' & Htr).
  destruct (trace_writes _ _ _ _ _ Htr xs) as (xs' & n & Hsub & Hw & _); [apply (events_carry clock xs 0)|done|].
  intros H. exists d'. split; [|split; [by apply writes_body in Hw|]].
  - destruct (commit_err _); [done|]. by injection H as _ <-.
  - intros k [Hk|Hk]%(writes_keys _ _ _ _ Hw); [by left|right]. eapply elem_of_sublist; [exact Hk|]. by apply fmap_sublist.
Qed.

Lemma Client_Import_keys fs names (s s' : @server model T A) d :
  (forall n, dst_send n = None) -> repr (srv_tx s) d -> Client_Import open_err cli_send dst_send clock object_first seen fs names s = (None, s') ->
  exists xs, importHandler cli_send open_err fs names [] = (request_of <$> xs, None) /\
    (Forall wf_request (request_of <$> xs) -> exists d', repr (srv_tx s') d' /\ d_body d' = d_body d /\
       forall k, has_key d' k -> has_key d k \/ k ∈ entry_key <$> xs).
Proof.
  intros Hs Hr. unfold Client_Import, import_with.
  destruct (importHandler _ _ _ _ _) as [reqs [e|]] eqn:E; [by destruct (Import _ _ _ _ _)|].
  destruct (entries_requests reqs) as [xs ->]; [by eapply importHandler_all; [eauto..|constructor|exact E]|].
  destruct (Import _ _ _ _ _) as [[w|e] t'] eqn:Ei; [|done]. intros [= <-]. exists xs. split; [done|]. intros Hwf.
  exact (Import_keys _ _ _ _ _ _ Hs Hr Hwf Ei).
Qed.
End ImportFacts.

(** ** What an installation leaves *)

Section InstallFacts.
Context {model : Type} {T : TxOps model} {A : Azm model} {C : @StoreOps model T} {V : Validator} {P : ModelParams model}.
Context `{E : Env} {dstate : Type} `{D : Disk} `{Wb : Web} `{J : PbJson}.
Context {L : @TxLaws model T} {AL : AzmLaws model A}.
Context (Validate NewClient : string -> option err) (open_err : string -> option err).
Context (cli_send dst_send : nat -> option err) (clock : nat -> Timestamp) (object_first : bool) (seen : nat).
Context (ts_delete ts_set : Timestamp).
Context (Hcli : forall n, cli_send n = None) (Hdst : forall n, dst_send n = None).
Context (Hslice : forall (X : gset string) x, x ∈ slice_of X -> x ∈ X).

Abbreviation site := (@site model T A dstate).
Definition disk_of (s : site) : disk := w_disk (s_world s).
Abbreviation import := (@ImportCmd_Run model T A C V dstate D Wb J Validate NewClient open_err cli_send dst_send clock object_first seen).

(** The keys of what the files of some folders hold. *)
Definition read_from (dk : disk) (dirs : list string) (k : (string * string) + RelationIdentifier) : Prop :=
  exists dir names xs, dir ∈ dirs /\ data_files dir dk = Ok names /\
    importHandler cli_send open_err (files_of dk) names [] = (request_of <$> xs, None) /\ k ∈ entry_key <$> xs.
(** Identifiers that keep the separators of keys apart. *)
Definition well_named (dk : disk) : Prop := forall names xs,
  importHandler cli_send open_err (files_of dk) names [] = (request_of <$> xs, None) -> Forall wf_request (request_of <$> xs).

Lemma connected_inv {B} what (m : M site B) s b s' :
  connected Validate NewClient what m s = (Ok b, s') -> m s = (Ok b, s').
Proof.
  unfold connected. intros [[_ H]|(e & _ & [=] & _)]%guard_inv. by apply guard_inv in H as [[_ H]|(e & _ & [=] & _)].
Qed.

Lemma on_server_inv f (s s' : site) : on_server f s = (Ok tt, s') ->
  exists srv, f (s_srv s) = (None, srv) /\ s' = MkSite (s_world s) srv.
Proof. unfold on_server. destruct (f (s_srv s)) as [[e|] srv]; intros [=]. by exists srv. Qed.

Lemma import_keys dir (s s' : site) d :
  repr (srv_tx (s_srv s)) d -> well_named (disk_of s) -> import dir s = (Ok tt, s') ->
  s_world s' = s_world s /\ exists d', repr (srv_tx (s_srv s')) d' /\ d_body d' = d_body d /\
    forall k, has_key d' k -> has_key d k \/ read_from (disk_of s) [dir] k.
Proof.
  intros Hr Hw. unfold ImportCmd_Run. intros [[_ H]|(e & _ & [=] & _)]%guard_inv.
  apply bind_inv in H as [(names & s1 & Hn & H)|(e & _ & [=])]. unfold reads_files, reads in Hn. injection Hn as Hn <-.
  apply guard_inv in H as [[_ H]|(e & _ & [=] & _)]. apply on_server_inv in H as (srv & H & ->). split; [done|].
  destruct (Client_Import_keys _ _ _ _ _ _ _ _ _ _ _ Hdst Hr H) as (xs & Hx & Hd).
  destruct (Hd (Hw _ _ Hx)) as (d' & Hr' & Hb & Hk). exists d'. split_and!; [done..|].
  intros k [?|?]%Hk; [by left|right]. exists dir, names, xs. split_and!; [left|done..].
Qed.

Lemma imports_world dirs : forall (s s' : site), for_each import dirs s = (Ok tt, s') -> s_world s' = s_world s.
Proof.
  induction dirs as [|dir dirs IH]; intros s s'; cbn [for_each]; [by intros [= <-]|].
  intros [([] & s1 & H1 & H)|(e & _ & [=])]%bind_inv. rewrite (IH _ _ H).
  unfold ImportCmd_Run in H1. apply guard_inv in H1 as [[_ H1]|(e & _ & [=] & _)].
  apply bind_inv in H1 as [(names & s2 & Hn & H1)|(e & _ & [=])]. injection Hn as _ <-.
  apply guard_inv in H1 as [[_ H1]|(e & _ & [=] & _)]. by apply on_server_inv in H1 as (srv & _ & ->).
Qed.

Lemma read_from_mono dk dirs dirs' k : dirs ⊆ dirs' -> read_from dk dirs k -> read_from dk dirs' k.
Proof. intros H (dir & names & xs & Hd & R). exists dir, names, xs. split; [by apply H|done]. Qed.

Lemma imports_keys dirs : forall (s s' : site) d,
  repr (srv_tx (s_srv s)) d -> well_named (disk_of s) -> for_each import dirs s = (Ok tt, s') ->
  exists d', repr (srv_tx (s_srv s')) d' /\ d_body d' = d_body d /\
    forall k, has_key d' k -> has_key d k \/ read_from (disk_of s) dirs k.
Proof.
  induction dirs as [|dir dirs IH]; intros s s' d Hr Hw; cbn [for_each].
  { intros [= <-]. exists d. split_and!; [done..|]. by left. }
  intros [([] & s1 & H1 & H)|(e & _ & [=])]%bind_inv.
  destruct (import_keys _ _ _ _ Hr Hw H1) as (E1 & d1 & Hr1 & Hb1 & Hk1).
  assert (Ed : disk_of s1 = disk_of s) by (unfold disk_of; by rewrite E1).
  rewrite <-Ed in Hw. destruct (IH _ _ _ Hr1 Hw H) as (d2 & Hr2 & Hb2 & Hk2). rewrite Ed in Hk2.
  exists d2. split_and!; [done|congruence|].
  intros k [[?|?]%Hk1|?]%Hk2; [by left|right; eapply read_from_mono; [|done]; set_solver|right; eapply read_from_mono; [|done]; set_solver].
Qed.

Lemma set_manifest_stored stdin file text (s s' : site) d :
  repr (srv_tx (s_srv s)) d -> file <> "" -> disk_of s !! file = Some (File text) ->
  SetManifestCmd_Run Validate NewClient open_err cli_send ts_set stdin file s = (Ok tt, s') ->
  s_world s' = s_world s /\ exists d', repr (srv_tx (s_srv s')) d' /\ d_objs d' = d_objs d /\ d_rels d' = d_rels d /\
    d_body d' = Some (MkBody text).
Proof.
  intros Hr Hne Hl H. unfold SetManifestCmd_Run in H. apply connected_inv, bind_inv in H as [(r & s1 & Hf & H)|(e & _ & [=])].
  unfold reads_files, reads, nonempty in Hf. destruct (String.eqb_spec file ""); [done|]. injection Hf as Hf <-.
  unfold open_file in Hf. fold (disk_of s) in Hf. rewrite Hl in Hf. destruct (open_err file); [done|]. injection Hf as <-.
  apply on_server_inv in H as (srv & H & ->). split; [done|]. exact (SetManifest_dest (R2 := repr) (W2 := wf_request) _ _ _ _ _ _ Hcli Hr H).
Qed.

Lemma delete_manifest_empties (s s' : site) d :
  repr (srv_tx (s_srv s)) d -> i_deleteManifest Validate NewClient ts_delete s = (Ok tt, s') ->
  s_world s' = s_world s /\ exists d', repr (srv_tx (s_srv s')) d' /\ d_objs d' = ∅ /\ d_rels d' = ∅ /\
    d_body d' = Some (MkBody "").
Proof.
  intros Hr H. unfold i_deleteManifest, DeleteManifestCmd_Run in H. apply connected_inv, on_server_inv in H as (srv & H & ->).
  split; [done|]. unfold Client_DeleteManifest in H. destruct (Model_DeleteManifest _ _ _) as [[[]|e] s2] eqn:E2; [|done].
  injection H as <-. destruct (delete_manifest_wipes _ _ _ _ _ Hr E2) as (m & _ & Hr' & _). eexists. split; [exact Hr'|done].
Qed.

Lemma on_files_inv {B} (m : M disk B) (s s' : site) b : on_files m s = (Ok b, s') ->
  exists d', m (disk_of s) = (Ok b, d') /\ disk_of s' = d' /\ s_srv s' = s_srv s.
Proof.
  unfold on_files, on_world, on_disk, disk_of. destruct (m _) as [r d'] eqn:Em. intros [= -> <-]. by exists d'.
Qed.

Abbreviation install := (@Install model T A C V E dstate D Wb J Validate NewClient open_err cli_send dst_send clock
  object_first seen ts_delete ts_set).

(** The folders that are imported: that of the downloads, and those of assets that are files. *)
Definition data_folder (i : tmplInstaller) (dir : string) : Prop :=
  dir = i_folder i "data" \/ exists v, v ∈ IdentityData (Assets (i_tmpl i)) ++ DomainData (Assets (i_tmpl i)) /\
    dir = filepath_Dir (AbsURL (i_tmpl i) v).

(** C34: Where the installer's own three steps ([tmplInstaller.Install]: delete the manifest, set the template's, import
    the data; not the rest of the command, which can succeed without getting there, [unhealthy_install_succeeds])
    succeed, over working streams, on a server whose store keeps the contract of transactions (as BoltDB does), and no
    data that can be read from the files of the disk has a separator of the store's keys in its names, they leave a
    directory with the template's manifest, and nothing in it but entries that the files of the data folders hold:
    what was there before is gone. *)
Theorem install_replaces stdin i (s s' : site) d :
  repr (srv_tx (s_srv s)) d -> well_named (disk_of s') -> install stdin i s = (Ok tt, s') ->
  exists text dirs d', getBytes (AbsURL (i_tmpl i) (Manifest (Assets (i_tmpl i)))) (disk_of s) = Ok text /\
    repr (srv_tx (s_srv s')) d' /\ d_body d' = Some (MkBody text) /\ Forall (data_folder i) dirs /\
    forall k, has_key d' k -> read_from (disk_of s') dirs k.
Proof.
  intros Hr Hw. unfold Install. intros [([] & s1 & H1 & H)|(e & _ & [=])]%bind_inv.
  destruct (delete_manifest_empties _ _ _ Hr H1) as (E1 & d1 & Hr1 & Ho & Hrel & _).
  apply bind_inv in H as [([] & s2 & H2 & H)|(e & _ & [=])].
  unfold i_setManifest in H2. apply bind_inv in H2 as [(file & s3 & H3 & H2)|(e & _ & [=])].
  apply on_files_inv in H3 as (d3 & H3 & Ed3 & Es3). apply local_text in H3 as (Hne & text & Ht & Hl).
  rewrite <-Ed3 in Hl. rewrite <-Es3 in Hr1.
  destruct (set_manifest_stored _ _ _ _ _ _ Hr1 Hne Hl H2) as (E2 & d2 & Hr2 & Ho2 & Hrel2 & Hb2).
  unfold i_importData in H. apply bind_inv in H as [(dirs & s4 & H4 & H)|(e & _ & [=])].
  apply on_files_inv in H4 as (d4 & H4 & Ed4 & Es4). rewrite <-Es4 in Hr2.
  assert (Ed : disk_of s' = disk_of s4) by (unfold disk_of; by rewrite (imports_world _ _ _ H)).
  rewrite Ed in *. destruct (imports_keys _ _ _ _ Hr2 Hw H) as (d' & Hr' & Hb & Hk). exists text, (slice_of dirs), d'.
  split_and!; [unfold disk_of in *; by rewrite <-E1|done|congruence|..].
  { apply Forall_forall. intros dir Hin%Hslice. destruct (data_dirs_spec _ _ _ _ _ _ _ H4 dir Hin) as [?|H']; [set_solver|exact H']. }
  intros k [Hk'|?]%Hk; [|done].
  exfalso. destruct k; simpl in Hk'; rewrite ?Ho2, ?Hrel2, ?Ho, ?Hrel in Hk'; by destruct Hk'.
Qed.

(** The directory is emptied before anything is fetched: where the manifest cannot be had, the command fails and
    the directory has lost its data. *)
Theorem failed_download_wipes stdin i (s s1 : site) d e :
  repr (srv_tx (s_srv s)) d -> i_deleteManifest Validate NewClient ts_delete s = (Ok tt, s1) ->
  getBytes (AbsURL (i_tmpl i) (Manifest (Assets (i_tmpl i)))) (disk_of s) = Fail e ->
  install stdin i s = (Fail e, s1) /\
  exists d', repr (srv_tx (s_srv s1)) d' /\ d_objs d' = ∅ /\ d_rels d' = ∅ /\ d_body d' = Some (MkBody "").
Proof.
  intros Hr H1 Hg. destruct (delete_manifest_empties _ _ _ Hr H1) as (E1 & Hd). split; [|exact Hd].
  unfold Install. rewrite (bind_ok _ _ _ _ _ H1). apply bind_fail. unfold i_setManifest. apply bind_fail.
  unfold on_files, on_world, on_disk, local_or_downloaded. rewrite E1.
  destruct (file_exists _ (w_disk (s_world s))) eqn:Ex.
  { destruct (file_exists_text _ _ Ex) as (_ & text & Ht & _). unfold getBytes, disk_of in Hg. rewrite Ex in Hg. congruence. }
  unfold download. unfold disk_of in Hg. erewrite bind_fail; [|unfold reads; by rewrite Hg]. f_equal.
  destruct s1 as [w srv]. simpl in *. subst w. by destruct (s_world s).
Qed.
End InstallFacts.


(** ** The whole command *)

Section CommandFacts.
Context {model : Type} {T : TxOps model} {A : Azm model} {C : @StoreOps model T} {V : Validator} {P : ModelParams model}.
Context `{E : Env} {dstate : Type} `{K : Docker dstate} `{D : Disk} `{Wb : Web} `{J : PbJson} `{CL : Clients}.
Context (Validate NewClient : string -> option err) (open_err : string -> option err).
Context (cli_send dst_send : nat -> option err) (clock : nat -> Timestamp) (object_first : bool) (seen : nat).
Context (ts_delete ts_set : Timestamp).
Context (runner : res TestRunner) (orders : nat -> list (string * CheckType)).
Context (json_Marshal : CliConfig -> res string) (probe : string -> list PortStatus) (LocalPolicyImage : Config -> string).
Context (ParseDockerRef : string -> option (string * string * option string)) (Execute : template_kind -> Generator -> res string).
Context (health : string -> option err * list (res string)) (served : world dstate -> string -> @server model T A).
Context (console : string -> option err).

(** A daemon that does not become healthy in time: the command ends without an error, and without the template. *)
Theorem unhealthy_install_succeeds stdin cmd containerName tag tmpl (s : @site model T A dstate) w c answers :
  prepareEamerald json_Marshal probe LocalPolicyImage ParseDockerRef Execute cmd containerName tag tmpl (in_ConfigName cmd)
    (s_world s) = (Ok tt, w) ->
  load_config (act_ConfigFile (Active (w_cfg w))) w = Ok c ->
  health (Health_ListenAddress c) = (None, answers) -> Ok SERVING ∉ answers ->
  Cmd_installTemplate Validate NewClient open_err cli_send dst_send clock object_first seen ts_delete ts_set runner orders
    json_Marshal probe LocalPolicyImage ParseDockerRef Execute health served console stdin cmd containerName tag tmpl s
  = (Ok tt, MkSite w (s_srv s)).
Proof.
  intros Hp Hl Hh Ha. unfold Cmd_installTemplate. erewrite bind_ok; [|unfold on_world; by rewrite Hp].
  cbn [bind reads s_world]. rewrite Hl, Hh. unfold ServiceHealthStatus.
  destruct (Retry _) as [e|] eqn:Er; [done|]. exfalso. apply Retry_None, list_elem_of_fmap in Er as (r & Hr & Hin).
  unfold health_attempt in Hr. destruct r as [status|e]; [|done].
  destruct (String.eqb_spec status SERVING) as [Es|]; [|done]. apply Ha. by rewrite <-Es.
Qed.
End CommandFacts.

(** ** [PromptYesNo]: the prompt and its reader

    A goroutine reads lines and sends them on a channel that the prompt closes when it returns. *)
Module Prompt.
Record state := MkState {
  input : list string;               (** the lines to come *)
  at_eof : bool;                     (** after them the input ends, or else it blocks *)
  sending : option string;           (** what the goroutine has read *)
  result : option bool;              (** what the prompt has returned *)
  crashed : bool }.
Definition start (lines : list string) (eof : bool) : state := MkState lines eof None None false.

Definition answer (def : bool) (line : string) : option bool :=
  if String.eqb line "Y" || String.eqb line "y" then Some true
  else if String.eqb line "N" || String.eqb line "n" then Some false
  else if String.eqb line "" then Some def
  else None.

Inductive prompt_step (def : bool) : state -> state -> Prop :=
| read_line l line eof r : prompt_step def (MkState (line :: l) eof None r false) (MkState l eof (Some (TrimSpace line)) r false)
| read_eof r : prompt_step def (MkState [] true None r false) (MkState [] true (Some "") r false)
| received l eof line : prompt_step def (MkState l eof (Some line) None false) (MkState l eof None (answer def line) false)
| signalled l eof x : prompt_step def (MkState l eof x None false) (MkState l eof x (Some false) false)
| send_closed l eof line b : prompt_step def (MkState l eof (Some line) (Some b) false) (MkState l eof (Some line) (Some b) true).

(** The prompt returns the default, no, or what a line said. *)
Definition answered (lines : list string) (s : state) : Prop :=
  input s ⊆ lines /\ (forall line, sending s = Some line -> line = "" \/ line ∈ TrimSpace <$> lines).

Lemma step_answered def lines s s' : prompt_step def s s' -> answered lines s -> answered lines s'.
Proof.
  unfold answered. destruct 1; simpl; intros [Hi Hs]; (split; [set_solver|]); try done.
  - intros x [= <-]. right. apply list_elem_of_fmap_2. set_solver.
  - intros x [= <-]. by left.
Qed.

(** A prompt whose default is no returns yes only if a line said so. *)
Theorem yes_was_typed lines eof s :
  rtc (prompt_step false) (start lines eof) s -> result s = Some true -> "y" ∈ TrimSpace <$> lines \/ "Y" ∈ TrimSpace <$> lines.
Proof.
  intros Hr. enough (H : answered lines s /\ (result s = Some true -> "y" ∈ TrimSpace <$> lines \/ "Y" ∈ TrimSpace <$> lines)) by tauto.
  remember (start lines eof) as s0 eqn:E0.
  assert (H0 : answered lines s0 /\ (result s0 = Some true -> "y" ∈ TrimSpace <$> lines \/ "Y" ∈ TrimSpace <$> lines)).
  { subst. split; [|done]. by split; [|intros ? [=]]. }
  clear E0. induction Hr as [|s0 s1 s2 Hs Hr IH]; [done|]. apply IH. destruct H0 as [Ha Hy].
  split; [by eapply step_answered|]. destruct Hs as [| |l e line| |]; simpl in *; try done. intros Han.
  destruct Ha as [_ Ha]. specialize (Ha line eq_refl). unfold answer in Han.
  destruct (String.eqb_spec line "Y") as [->|]; [destruct Ha; [done|by right]|].
  destruct (String.eqb_spec line "y") as [->|]; [destruct Ha; [done|by left]|]. simpl in Han. by repeat case_match.
Qed.

(** Once the prompt has returned, a goroutine that can still read brings the process down: every further step
    leads to a send on the closed channel. *)
Theorem prompt_eof_panics def l b x : exists s,
  rtc (prompt_step def) (MkState l true x (Some b) false) s /\ crashed s = true /\
  forall s', prompt_step def (MkState l true x (Some b) false) s' -> crashed s' = true \/ sending s' <> None.
Proof.
  assert (Hcrash : forall l line, prompt_step def (MkState l true (Some line) (Some b) false) (MkState l true (Some line) (Some b) true)) by constructor.
  destruct x as [line|]; [|destruct l as [|line l]]; eexists; (split; [|split; [|by intros s' Hs; inversion Hs; subst; auto]]).
  - apply rtc_once, Hcrash.
  - done.
  - eapply rtc_l; [apply read_eof|]. apply rtc_once, Hcrash.
  - done.
  - eapply rtc_l; [apply read_line|]. apply rtc_once, Hcrash.
  - done.
Qed.
End Prompt.

Module TemplatesExamples.
Import Concrete ModelExamples TransferExamples JsonFilesExamples.

#[local] Instance env : Env := {|
  Getenv _ := ""; ConfigHome := "/home/u/.config"; DataHome := "/home/u/.local/share"; GOARCH := "amd64";
  program_version := Some ("1.2.3", ""); ParseDuration _ := None; decode_config _ := Fail (new_error "no configuration");
  slice_of s := base.elements s; rename_error _ _ := None; remove_error _ := None; UserHomeDir := Ok "/home/u" |}.
#[local] Instance no_failures : Disk := {|
  stat_error _ := None; write_error _ := None; mkdir_error _ := None; crypto_error _ := None; pem a b := a +:+ b |}.

(** A decoder that refuses names with a separator of keys. *)
#[local] Instance strict : PbJson := {|
  pb_marshal := @pb_marshal JsonFilesExamples.pb;
  pb_object s := rbind (@pb_object JsonFilesExamples.pb s) (fun o => if contains sepT (o_type o) then Fail bad_message else Ok o);
  pb_relation s := rbind (@pb_relation JsonFilesExamples.pb s)
                     (fun r => if decide (wf_ident (r_ident r)) then Ok r else Fail bad_message) |}.
Lemma strict_named open_err cli_send dk : well_named open_err cli_send dk.
Proof.
  intros names xs H. apply (importHandler_all open_err cli_send wf_request) in H; [done| | |constructor];
    intros s m; cbn [strict pb_object pb_relation rbind].
  - destruct (@pb_object pb s) as [x|]; [|done]. cbn [rbind]. destruct (contains sepT (o_type x)) eqn:Ex; [done|].
    intros [= <-] c [= <-] y [= <-]. exact Ex.
  - destruct (@pb_relation pb s) as [x|]; [|done]. cbn [rbind]. destruct (decide _) as [Hx|]; [|done].
    intros [= <-] c [= <-] y [= <-]. exact Hx.
Qed.

Definition assets0 : assets := MkAssets "manifest.yaml" (MkPolicyAsset "todo" "ghcr.io/p/todo:1" false) ["objects.json"] [] [].
Definition page (url : string) : res (Z * res string) :=
  if HasPrefix url "https://" then Ok (404%Z, Ok "<html>not found</html>") else Fail (new_error ("Get " +:+ url +:+ ": unsupported protocol scheme")).
#[local] Instance web : Web := {|
  http_Get := page;
  decode_catalog s := Ok {["todo" := Some (MkRef "" "" "" "https://example.com/todo.json" "" None)]};
  decode_template u _ := Ok (MkTemplate "todo" "" assets0 u);
  decode_object _ := Some (new_error "invalid character");
  decode_assertions _ := Ok [];
  range_catalog c := map_to_list c;
  glob_dirs _ _ := [] |}.

Definition local_template (dir : string) : template := MkTemplate "todo" "" assets0 (path_URL dir).
Definition disk_with (dir : string) : disk :=
  {[dir := Folder; dir +:+ "/manifest.yaml" := File "model: v3"; dir +:+ "/objects.json" := File sample]}.
Definition site0 (dir : string) : @site model bolt_tx azm (list Summary) :=
  MkSite (MkWorld (disk_with dir) [] (MkCli 1 (MkActive "" "") no_running (MkDefaults false false "" "" "" "")) (MkDefaults false false "" "" "" "")) srv1.
Definition ok_send (_ : nat) : option err := None.
Definition installer0 (dir : string) : tmplInstaller := MkInstaller (local_template dir) "/tmpl" "".
Definition run_install (dir : string) : res unit * @site model bolt_tx azm (list Summary) :=
  Install no_err no_err no_err ok_send ok_send (fun _ => ts1) true 0 ts1 ts2 "" (installer0 dir) (site0 dir).

Lemma install_replaces_witness : exists text dirs d', text = "model: v3" /\
  repr (srv_tx (s_srv (run_install "/t").2)) d' /\ d_body d' = Some (MkBody text) /\
  forall k, has_key d' k -> read_from no_err ok_send (disk_of (run_install "/t").2) dirs k.
Proof.
  assert (is_ok (run_install "/t").1 = true) as H by (vm_compute; reflexivity).
  destruct (run_install "/t") as [[[]|e] s'] eqn:E; [|discriminate H].
  destruct (install_replaces no_err no_err no_err ok_send ok_send (fun _ => ts1) true 0 ts1 ts2 (fun _ => eq_refl) (fun _ => eq_refl)
    (fun X x => proj1 (elem_of_elements X x)) "" (installer0 "/t") (site0 "/t") s' dir1 db1_repr (strict_named _ _ _) E)
    as (text & dirs & d' & Ht & Hr & Hb & _ & Hk).
  exists text, dirs, d'. split; [|split; [exact Hr|split; [exact Hb|exact Hk]]]. vm_compute in Ht. congruence.
Defined.

(** A folder with a space: the template's manifest is on the disk, and the directory is emptied all the same. *)
Definition emptied : @site model bolt_tx azm (list Summary) := (i_deleteManifest no_err no_err ts1 (site0 "/my t")).2.
Lemma failed_download_wipes_witness : exists e d', disk_with "/my t" !! "/my t/manifest.yaml" = Some (File "model: v3") /\
  run_install "/my t" = (Fail e, emptied) /\ repr (srv_tx (s_srv emptied)) d' /\ d_objs d' = ∅ /\ d_rels d' = ∅.
Proof.
  assert (Hd : i_deleteManifest no_err no_err ts1 (site0 "/my t") = (Ok tt, emptied)).
  { assert (is_ok (i_deleteManifest no_err no_err ts1 (site0 "/my t")).1 = true) as H by (vm_compute; reflexivity).
    unfold emptied. destruct (i_deleteManifest no_err no_err ts1 (site0 "/my t")) as [[[]|e] s']; [reflexivity|discriminate H]. }
  destruct (failed_download_wipes no_err no_err no_err ok_send ok_send (fun _ => ts1) true 0 ts1 ts2 "" (installer0 "/my t") (site0 "/my t") emptied
    dir1 (new_error "Get /my%20t/manifest.yaml: unsupported protocol scheme") db1_repr Hd) as (H & d' & Hr & Ho & Hrel & _);
    [vm_compute; reflexivity|].
  eexists _, d'. split; [vm_compute; reflexivity|]. split; [exact H|]. split; [exact Hr|]. split; [exact Ho|exact Hrel].
Defined.

Lemma local_asset_escaped_witness : AbsURL (local_template "/my t") "manifest.yaml" = "/my%20t/manifest.yaml".
Proof. destruct (local_asset_escaped (local_template "/my t") "/my t" "manifest.yaml" ∅) as [H _]; [reflexivity|vm_compute; reflexivity|]. rewrite H. vm_compute. reflexivity. Defined.

Lemma status_ignored_witness : v_exists (validateJSON "https://example.com/gone.json" ∅) = true.
Proof. apply (status_ignored _ "https://example.com/gone.json" 404 "<html>not found</html>" ∅); vm_compute; reflexivity. Defined.

Lemma absolute_url_panics_witness : getTemplate "todo" "https://example.com/templates.json" ∅ = Fail nil_dereference.
Proof.
  eapply absolute_url_panics; [vm_compute; reflexivity|vm_compute; reflexivity|vm_compute; reflexivity|vm_compute; reflexivity
    |reflexivity|vm_compute; reflexivity|discriminate].
Defined.

(** A catalog whose entry is relative, and whose assets have the folder of the template in front. *)
Definition relative_web : Web := {|
  http_Get _ := Ok (200%Z, Ok "text");
  decode_catalog s := Ok {["todo" := Some (MkRef "" "" "" "./todo/template.json" "" None)]};
  decode_template u _ := Ok (MkTemplate "" "" (MkAssets "/tmpl/todo/manifest.yaml" (MkPolicyAsset "" "" false)
                               ["/tmpl/todo/users.json"] ["/tmpl/todo/docs.json"] ["/tmpl/todo/tests.json"]) u);
  decode_object _ := None; decode_assertions _ := Ok []; range_catalog c := map_to_list c; glob_dirs _ _ := [] |}.
Definition fetched (url : string) : res (list string) * disk := @DownloadTemplateCmd_Run no_failures relative_web env "todo" false url "" ∅.

Lemma download_complete_witness : exists l, (fetched "https://h.org/tmpl/list.json").1 = Ok l /\
  Forall (is_file (fetched "https://h.org/tmpl/list.json").2) l /\ length l = 4.
Proof.
  destruct (fetched "https://h.org/tmpl/list.json") as [[l|e] d'] eqn:E; [|vm_compute in E; discriminate E].
  destruct (@download_complete no_failures relative_web env "todo" false "https://h.org/tmpl/list.json" "" ∅ l d' E) as (t & name & _ & _ & Hf).
  exists l. split; [reflexivity|]. split; [exact Hf|]. vm_compute in E. injection E as <- _. reflexivity.
Defined.

(** The folder is taken off the manifest and the data, not off the assertions. *)
Example assertions_not_trimmed : exists t, @getTemplate no_failures relative_web "todo" "https://h.org/tmpl/list.json" ∅ = Ok t /\
  AbsURL t (Manifest (Assets t)) = "https://h.org/tmpl/todo/manifest.yaml" /\
  AbsURL t <$> DomainData (Assets t) = ["https://h.org/tmpl/todo/docs.json"] /\
  AbsURL t <$> Assertions (Assets t) = ["https://h.org/tmpl/todo/tmpl/todo/tests.json"].
Proof. eexists. split; [vm_compute; reflexivity|]. vm_compute. repeat split. Qed.

(** A catalog with a query: the data are stored under names that the import does not look for. *)
Example query_hides_data : exists l d, fetched "https://h.org/tmpl/list.json?sig=1" = (Ok l, d) /\
  template_folder "todo" "data" +:+ "/docs.json?sig=1" ∈ l /\ @Glob relative_web (template_folder "todo" "data") d = [].
Proof.
  eexists _, _. split; [vm_compute; reflexivity|]. split; [|vm_compute; reflexivity].
  apply list_elem_of_In. vm_compute. tauto.
Qed.

(** *** The whole command, for a template whose policy has a name of its own *)

Definition policy_template : template :=
  MkTemplate "todo" "" (MkAssets "manifest.yaml" (MkPolicyAsset "policy-todo" "ghcr.io/p/todo:1" false) [] [] []) (path_URL "/t").
Definition config1 : Config :=
  MkConfig 2 "" false "" true "0.0.0.0:9494" (MkTLS "" "" "") "" (MkTLS "" "" "") ∅ (MkJWT 5 [] "" "" "") "" "" "" "" 0 (MkAuthn ∅ (MkCallOptions (MkOptions false true) []) []).
Definition env1 : Env := {|
  Getenv _ := ""; ConfigHome := "/home/u/.config"; DataHome := "/home/u/.local/share"; GOARCH := "amd64";
  program_version := Some ("1.2.3", ""); ParseDuration _ := None; decode_config _ := Ok config1;
  slice_of s := base.elements s; rename_error _ _ := None; remove_error _ := None; UserHomeDir := Ok "/home/u" |}.
Definition docker1 : Docker (list Summary) := {|
  docker_New := None; list_error _ := None; running_containers l := l; name_match p n := contains_str n p;
  ImageList img _ := Ok [img]; ImagePull _ _ := ret tt; ImageRemove _ := ret tt;
  ContainerCreate r := fun l => (Ok (r_containerName r), l ++ [MkSummary (r_containerName r) (r_containerName r) "" running]);
  ContainerStart _ := ret tt; ContainerStop _ := ret tt; ContainerRemove _ _ := ret tt; ContainerWait _ := ret tt;
  ParsePortSpecs _ := None |}.
Definition cmd0 : InstallTemplateCmd := MkInstall "todo" true true true true false "" "" "" "" "" "" "" "" "".
Definition json0 (c : CliConfig) : res string := Ok (run_ContainerName (Running c)).
Definition opened (_ : string) : list PortStatus := [PortOpened].
Definition world1 : world (list Summary) :=
  MkWorld {[config_path "/home/u/.config/eamerald/cfg" "policy-todo" := File "version: 2"]} []
    (MkCli 1 (MkActive "" "") no_running (MkDefaults false false "" "" "" "")) (MkDefaults false false "" "" "" "").
Definition prepared : res unit * world (list Summary) :=
  @prepareEamerald env1 (list Summary) docker1 no_failures json0 opened (fun _ => "") (fun _ => None) (fun _ _ => Ok "") cmd0
    (@ContainerName env1 "/home/u/.config/eamerald/cfg/todo.yaml") "" policy_template "" world1.

(** The container runs under the name of the template, and is recorded under the name of the policy. *)
Example container_misnamed : exists w, prepared = (Ok tt, w) /\ ct_Name <$> w_docker w = ["eamerald-todo"] /\
  run_ContainerName (Running (w_cfg w)) = "eamerald-policy-todo".
Proof. eexists. split; [vm_compute; reflexivity|]. vm_compute. split; reflexivity. Qed.

(** The health service answers, and never that it serves. *)
Lemma unhealthy_install_succeeds_witness : exists s',
  @Cmd_installTemplate model bolt_tx azm _ _ env1 (list Summary) docker1 no_failures web strict TestRunnerExamples.clients
    no_err no_err no_err ok_send ok_send (fun _ => ts1) true 0 ts1 ts2 (Ok TestRunnerExamples.both) TestRunnerExamples.in_order
    json0 opened (fun _ => "") (fun _ => None) (fun _ _ => Ok "") (fun _ => (None, [Ok "NOT_SERVING"])) (fun _ _ => srv1) (fun _ => None)
    "" cmd0 (@ContainerName env1 "/home/u/.config/eamerald/cfg/todo.yaml") "" policy_template (MkSite world1 srv1) = (Ok tt, s') /\
  s_srv s' = srv1.
Proof.
  assert (is_ok prepared.1 = true) as H by (vm_compute; reflexivity).
  assert (Hp : prepared = (Ok tt, prepared.2)) by (destruct prepared as [[[]|e] w]; [reflexivity|discriminate H]).
  eexists. split; [|shelve].
  apply (@unhealthy_install_succeeds model bolt_tx azm _ _ env1 (list Summary) docker1 no_failures web strict TestRunnerExamples.clients
    no_err no_err no_err ok_send ok_send (fun _ => ts1) true 0 ts1 ts2 (Ok TestRunnerExamples.both) TestRunnerExamples.in_order
    json0 opened (fun _ => "") (fun _ => None) (fun _ _ => Ok "") (fun _ => (None, [Ok "NOT_SERVING"])) (fun _ _ => srv1) (fun _ => None)
    "" cmd0 (@ContainerName env1 "/home/u/.config/eamerald/cfg/todo.yaml") "" policy_template (MkSite world1 srv1) prepared.2 config1
    [Ok "NOT_SERVING"] Hp); [vm_compute; reflexivity|reflexivity|].
  intros Hin%list_elem_of_In. destruct Hin as [Hin|[]]; discriminate Hin.
  Unshelve. reflexivity.
Defined.

Lemma yes_was_typed_witness : "y" ∈ TrimSpace <$> ["maybe"; " y "] \/ "Y" ∈ TrimSpace <$> ["maybe"; " y "].
Proof.
  eapply (Prompt.yes_was_typed ["maybe"; " y "] true (Prompt.MkState [] true None (Some true) false)); [|reflexivity].
  eapply rtc_l; [apply Prompt.read_line|]. eapply rtc_l; [apply Prompt.received|].
  eapply rtc_l; [apply Prompt.read_line|]. eapply rtc_l; [apply Prompt.received|]. apply rtc_refl.
Defined.
End TemplatesExamples.
